(* ===== verification/_CoqProject ===== *)
-Q . S2P
Prelude.v
Fastcommon.v
Session.v
SessionProofs.v
SessionChains.v
SessionTable.v
SessionStore.v
SessionSpec.v
FcfsFile.v
FcfsFileProofs.v
FcfsFileRef.v
FcfsFileSpec.v
AsyncReporter.v
AsyncReporterProofs.v
AsyncReporterSpec.v
AuthProto.v
AuthDB.v
AuthDBProofs.v
AuthDBSpec.v
ServiceHandler.v
ServiceProofs.v
ServiceSpec.v
SessionSubscribe.v
SessionPush.v
SessionSubscribeProofs.v
SessionReplica.v
SessionSubscribeSpec.v
SubscribeDB.v
SessionSyncSpec.v
SubscribeExamples.v
ClientProto.v
ClientSpec.v
ClientLists.v
ClientCluster.v
FdManager.v
FdManagerSpec.v
Atomic.v
VoteServer.v
VoteSpec.v
VoteThreads.v
VoteClient.v
VoteClientSpec.v
VoteExamples.v
PoolUsage.v
Election.v
AuthCluster.v
AuthDBLife.v
ElectionSpec.v
ElectionExamples.v
AuthClusterSpec.v
AuthClusterExamples.v
Dao.v
DaoText.v
DaoStore.v
DaoLoad.v
DaoSpec.v
DaoTakeover.v
DaoExamples.v
