(* ===== verification/Prelude.v ===== *)
(** * FastCFS: a verification development

    FastCFS is a distributed file system on top of two other services: FastDIR
    keeps the directory tree, faststore the contents of files.  The code under
    src/src/ is (a) the client library, which turns file operations into calls of
    the two services (api/), with a POSIX layer (api/std/), (b) the
    authentication service (auth/), whose server keeps users, storage pools,
    grants and sessions and whose client is linked into all other programs, (c)
    the vote service (vote/), which arbitrates when a cluster elects a leader, and
    (d) a FUSE daemon, a preloaded library, a Java binding and tools.  This
    development models parts of (a), (b) and (c) as Rocq functions and proves
    theorems about them.

    The authentication servers form a cluster that elects a master.  Only the
    master serves clients: it loads users, pools and grants from FastDIR, writes
    every change back, keeps the sessions, and pushes them to the servers of other
    services, which subscribe.  A vote server may count as one more server in the
    election.

    ** Conventions

    A C function that changes state is a function in the monad [M S A], which
    passes a state [S] and gives [Ok a] or an error code; an error keeps the
    changes made before it.  Output parameters are results.  Structs are records,
    fixed-width integers are in [Z] with their wrap-around written out ([int32],
    [uint64], ...), memory that is shared or can dangle is a map from addresses.
    Locks are not modelled: a critical section is one step.  Two lock-free
    functions in [FdRace], and the handlers of the vote server, are split into
    their atomic accesses.  The threads of the election run one after the other;
    what others do meanwhile is what a [sleep] may change.  Log output and message
    texts are left out.

    What is not under src/src/ (libfastcommon, libserverframe, the clients of
    FastDIR and faststore) is a class of operations and a class of laws that
    state their documented behaviour; theorems are proved for every instance,
    and the files of theorems end with modules of examples that give one and
    apply the theorems to it, or have a file of examples beside them (those of
    [ClientSpec] are in [ClientLists]).

    ** Files

    - [Prelude]: codes, the monad with its lemmas, integers, lists, tactics.
    - [Fastcommon]: the interfaces of libfastcommon (comparison, object pools,
      skip lists, integers in buffers), and reference instances in [Ref].
    - [Session] (auth/common/server_session.c): the hash table of sessions with
      its linked buckets; [SessionProofs] the bit fields of ids, [SessionChains]
      linked lists, [SessionTable] the representation invariant, [SessionSpec]
      the theorems: the invariant, adding, deleting and clearing as changes of a
      map from ids to fields, the privilege checks, and that replacing an entry
      leaves a dangling pointer.  [SessionStore] is the table as an interface.
    - [FcfsFile] (api/fcfs_api_file.c, fcfs_api_util.[ch]): handles, open, read,
      write, truncate, allocate, seek, locks, attributes; [FcfsFileProofs] the
      loops over blocks, [FcfsFileRef] a reference store, [FcfsFileSpec] the
      theorems: what reads return and writes change, what truncation releases,
      what open establishes, and the cases where writes store other bytes.
    - [AsyncReporter] (api/async_reporter.[ch], inode_htable.[ch]): the queue of
      size reports; [AsyncReporterProofs], [AsyncReporterSpec]: a round has the
      effect of all reports one by one, the invariant of queue and table, who
      waits, and what a failed allocation loses.
    - [AuthDB] (auth/server/db/auth_db.c, auth/common/auth_func.c): users, pools
      and grants; [AuthDBProofs] the invariant, [AuthDBSpec] the theorems: it
      holds in every reachable state, and what each operation changes.
    - [AuthProto] (auth/common/auth_proto.h): messages.  [ServiceHandler]
      (auth/server/service_handler.c, common_handler.c): every request of the
      service port, on top of [AuthDB] and of any [SessionStore];
      [ServiceProofs], [ServiceSpec]: no request exceeds the rights of its user,
      connections never point to a session or user that is gone, and what a
      login needs and gives.
    - [ClientProto] (auth/client/client_proto.c): the calls of the client over an
      abstract transport.  [ClientSpec]: a management call is the operation of
      the database it names; [ClientLists]: lists arrive complete over pages;
      [ClientCluster]: what clients learn about the cluster.
    - [SessionSubscribe] (auth/server/session_subscribe.c): the published sessions
      and the queue of every subscriber; [SessionPush] (auth/server/
      cluster_handler.c, auth/client/session_sync.c): the messages between them.
      [SessionSubscribeProofs]: each object is in one queue and no wake-up is
      lost; [SessionReplica], [SessionSubscribeSpec]: what was sent and what is
      queued make up the published sessions; [SubscribeDB]: changes of the
      database reach the queues; [SessionSyncSpec]: the subscriber's table follows;
      [SubscribeExamples].
    - [Atomic]: programs of atomic steps.  [VoteServer] (vote/server/
      service_handler.c, service_group_htable.c, common_handler.c): the service
      port of the vote server; [VoteSpec]: it refines one leader and one candidate
      per group; [VoteThreads]: under every interleaving leadership passes through
      nobody.  [VoteClient] (vote/client/client_proto.c), [VoteClientSpec]: client
      and server together, and a leader that is forgotten; [VoteExamples].
    - [PoolUsage] (auth/server/db/pool_usage_updater.c): the usage of pools.
    - [Election] (auth/server/cluster_relationship.c): the election over any server
      that takes over and gives up; [ElectionSpec]: the candidate, the check of the
      master, and that elections end; [ElectionExamples].  [AuthCluster]
      (auth/server/cluster_handler.c): the cluster port, and the authentication
      server as the server that is elected; [AuthClusterSpec]: an elected master is
      known to a quorum, what stepping down ends; [AuthClusterExamples].
    - [AuthDBLife] (auth/server/db/auth_db.c): setting up and giving up the
      database when the master changes.
    - [Dao] (auth/server/db/dao/): the database in FastDIR; [DaoText] numbers and
      paths as text, [DaoStore] the stored tables as an interface and that they
      follow the database, [DaoLoad] loading them, [DaoSpec] that FastDIR is such a
      store, [DaoTakeover]: a new master has the database of the last one and does
      not hand out its automatic ids again; [DaoExamples], where a failed creation
      of a user survives.
    - [FdManager] (api/std/fd_manager.[ch]): descriptors, and in [FdRace] two
      threads at their array; [FdManagerSpec]: they implement a table from
      numbers to names, their range, and a race.

    ** Fuel

    Loops that are not structural take fuel.  Along the chains of the session
    table it is the number of live objects plus one, which the invariant shows to
    be enough.  The loops over the blocks of a file take the number of bytes,
    each round handles at least one.  The doubling of a list's array takes 32,
    after which a 32-bit number is 0 and the loop cannot end ([NO_RETURN]).  The
    search for a pool name takes the number of pools plus one, because each round
    meets another pool when the names differ; that this is enough is not proved,
    and no theorem says that the search succeeds.  The client's loop over pages takes its
    fuel as an argument; [user_list_complete] shows that more than the number of
    users is enough.  The chains of the vote server's groups take the number of
    live objects plus one, as those of the sessions; the search for a vote server
    takes the number of servers, each is tried once.  The rounds of an election
    take fuel as an argument, and [election_ends] shows how much is enough.  The
    threads that run until the server stops (of the election and of the pool usage)
    take the number of turns as an argument and give [NO_RETURN] after them.

    ** Not modelled

    The POSIX and stdio functions, the preloaded library, the FUSE daemon and the
    Java binding, which forward calls to the modelled operations; the election
    among the vote servers and their cluster port (vote/server/
    cluster_relationship.c, cluster_handler.c), which follow those of the
    authentication servers without a vote node but with messages of their own; the
    connections and retries of the authentication client, and the thread in which a
    subscriber connects; start-up, configuration files and command lines, which are
    input and output.  No theorem is proved about [PoolUsage] by itself; it is part
    of the server that [AuthCluster] models.
    Of a file's contents only what the two services are asked for is seen, their
    own behaviour is assumed. *)
From Stdlib Require Export ZArith Lia.
From stdpp Require Export functions base tactics decidable countable list list_numbers gmap sorting.

#[global] Set Default Goal Selector "!".

(** ** Error codes

    The C functions return [int]: zero for success, an [errno] value or a code
    of libserverframe otherwise.  Only the names matter to the code (codes are
    compared with [==]), so they are constructors; [EOTHER] stands for any other
    code an external function may return, [NEG] for the negated codes.
    [NO_RETURN] is not a code: a loop of the function does not end. *)
Inductive errno : Type :=
| EPERM | ENOENT | EIO | EAGAIN | ENOMEM | EACCES | EFAULT | EBUSY | EEXIST
| EISDIR | EINVAL | EBADF | ELOOP | ENODATA | EOVERFLOW | EOPNOTSUPP
| ETIMEDOUT | ENOSPC | ENAMETOOLONG
| SF_SESSION_ERROR_NOT_EXIST
| SF_RETRIABLE_ERROR_NOT_MASTER
| SF_RETRIABLE_ERROR_NO_SERVER
| SF_CLUSTER_ERROR_LEADER_INCONSISTENT
| SF_CLUSTER_ERROR_MASTER_INCONSISTENT
| NO_RETURN
| EOTHER (n : Z)
| NEG (e : errno).

#[global] Instance errno_eq_dec : EqDecision errno.
Proof. solve_decision. Defined.

(** ** Results and the state-error monad

    [result A] is the value of a C function that returns a code and, on
    success, fills output parameters.  [M S A] threads the state [S]; an error
    keeps the state changes made before it, as the C code does. *)
Inductive result (A : Type) : Type :=
| Ok (a : A)
| Err (e : errno).
Arguments Ok {A} a.
Arguments Err {A} e.

#[global] Instance result_eq_dec `{EqDecision A} : EqDecision (result A).
Proof. solve_decision. Defined.

Definition is_ok {A} (r : result A) : bool :=
  match r with Ok _ => true | Err _ => false end.

Definition M (S A : Type) : Type := S → result A * S.

#[global] Instance M_ret S : MRet (M S) := λ A a s, (Ok a, s).
#[global] Instance M_bind S : MBind (M S) := λ A B k m s,
  match m s with
  | (Ok a, s') => k a s'
  | (Err e, s') => (Err e, s')
  end.

Definition throw {S A} (e : errno) : M S A := λ s, (Err e, s).
Definition get {S} : M S S := λ s, (Ok s, s).
Definition put {S} (s : S) : M S unit := λ _, (Ok tt, s).
Definition modify {S} (f : S → S) : M S unit := λ s, (Ok tt, f s).
Definition gets {S A} (f : S → A) : M S A := λ s, (Ok (f s), s).

(** [attempt m] runs [m] and hands its code to the caller:
    [result = m(...);] without an early return. *)
Definition attempt {S A} (m : M S A) : M S (result A) :=
  λ s, let '(r, s') := m s in (Ok r, s').

(** [guard_ok b e]: [if (!b) return e;]. *)
Definition ensure {S} (b : bool) (e : errno) : M S unit :=
  if b then mret tt else throw e.

Definition lift {S A} (r : result A) : M S A := λ s, (r, s).

(** Running a bind whose first part is known. *)
Lemma bind_ok {S A B} (m : M S A) (k : A → M S B) s a s' :
  m s = (Ok a, s') → (m ≫= k) s = k a s'.
Proof. unfold mbind, M_bind. by intros ->. Qed.

Lemma bind_err {S A B} (m : M S A) (k : A → M S B) s e s' :
  m s = (Err e, s') → (m ≫= k) s = (Err e, s').
Proof. unfold mbind, M_bind. by intros ->. Qed.

Lemma bind_inv {S A B} (m : M S A) (k : A → M S B) s r s'' :
  (m ≫= k) s = (r, s'') →
  (∃ e, m s = (Err e, s'') ∧ r = Err e) ∨ (∃ a s', m s = (Ok a, s') ∧ k a s' = (r, s'')).
Proof.
  unfold mbind, M_bind. destruct (m s) as [[a|e] s'] eqn:E; [by right; exists a, s'|].
  intros [= <- <-]. by left; exists e.
Qed.

Lemma modify_inv {S} (f : S → S) s x s' : modify f s = (Ok x, s') → s' = f s.
Proof. by intros [= _ <-]. Qed.

Lemma attempt_inv {S A} (m : M S A) s r s' : attempt m s = (Ok r, s') → m s = (r, s').
Proof. unfold attempt. destruct (m s). by intros [= -> ->]. Qed.

Lemma run_eta {S A} (m : M S A) s r : (m s).1 = r → m s = (r, (m s).2).
Proof. destruct (m s). by intros <-. Qed.

Lemma attempt_eq {S A} (m : M S A) s r s' : m s = (r, s') → attempt m s = (Ok r, s').
Proof. unfold attempt. by intros ->. Qed.

(** ** Frames

    [kept R m s]: running [m] in [s], with whatever result, leaves a state that
    is related to [s]. *)
Section kept.
Context {S : Type} (R : relation S) `{!PreOrder R}.

Definition kept {A} (m : M S A) (s : S) : Prop := R s (m s).2.

Lemma kept_ret {A} (a : A) s : kept (mret a) s.
Proof. unfold kept. cbn. reflexivity. Qed.
Lemma kept_throw {A} e s : kept (throw (A:=A) e) s.
Proof. unfold kept. cbn. reflexivity. Qed.
Lemma kept_lift {A} (r : result A) s : kept (lift r) s.
Proof. unfold kept. cbn. reflexivity. Qed.
Lemma kept_get s : kept get s.
Proof. unfold kept. cbn. reflexivity. Qed.
Lemma kept_gets {A} (f : S → A) s : kept (gets f) s.
Proof. unfold kept. cbn. reflexivity. Qed.
Lemma kept_ensure b e s : kept (ensure b e) s.
Proof. destruct b; unfold kept; cbn; reflexivity. Qed.
Lemma kept_modify (f : S → S) s : R s (f s) → kept (modify f) s.
Proof. done. Qed.
Lemma kept_attempt {A} (m : M S A) s : kept m s → kept (attempt m) s.
Proof. unfold kept, attempt. by destruct (m s). Qed.

Lemma kept_bind {A B} (m : M S A) (k : A → M S B) s :
  kept m s → (∀ a s', m s = (Ok a, s') → kept (k a) s') → kept (m ≫= k) s.
Proof.
  unfold kept, mbind, M_bind. intros Hm Hk. destruct (m s) as [[a|e] s'] eqn:E; [|done].
  etrans; [exact Hm|]. by eapply Hk.
Qed.

(** Steps that only read. *)
Lemma kept_lift_bind {A B} (r : result A) (k : A → M S B) s :
  (∀ a, r = Ok a → kept (k a) s) → kept (lift r ≫= k) s.
Proof. intros Hk. apply kept_bind; [apply kept_lift|]. intros a s' [= -> <-]. by apply Hk. Qed.
Lemma kept_get_bind {B} (k : S → M S B) s : kept (k s) s → kept (get ≫= k) s.
Proof. done. Qed.
End kept.
(** [ends P m s]: running [m] in [s] ends, with whatever result, in a state of [P]. *)
Definition ends {S A} (P : S → Prop) (m : M S A) (s : S) : Prop := P (m s).2.

Lemma ends_bind {S A B} (P : S → Prop) (m : M S A) (k : A → M S B) s :
  (∀ a s', m s = (Ok a, s') → ends P (k a) s') → (∀ e s', m s = (Err e, s') → P s') →
  ends P (m ≫= k) s.
Proof.
  unfold ends, mbind, M_bind. intros Hok Herr. destruct (m s) as [[a|e] s'] eqn:E; [by apply Hok|].
  by eapply Herr.
Qed.
Lemma ends_lift {S A B} (P : S → Prop) (r : result A) (k : A → M S B) s :
  P s → (∀ a, r = Ok a → ends P (k a) s) → ends P (lift r ≫= k) s.
Proof. intros Hs Hk. apply ends_bind; [|by intros e s' [= _ <-]]. intros a s' [= -> <-]. by apply Hk. Qed.

Create HintDb kept.
#[export] Hint Resolve kept_ret kept_throw kept_lift kept_get kept_gets kept_ensure : kept.

(** The frame of a program from those of its parts; [leaf] deals with what is special. *)
Ltac keep_by leaf := repeat first
  [ solve [auto with kept typeclass_instances]
  | leaf
  | lazymatch goal with
    | |- kept _ (mbind _ _) _ => apply kept_bind; [apply _| |intros ? ? ?]
    | |- kept _ (attempt _) _ => apply kept_attempt
    | |- kept _ (if ?b then _ else _) _ => destruct b
    | |- kept _ (match ?x with _ => _ end) _ => destruct x
    end ].

(** ** Machine integers, kept as [Z] with their wrap-around *)
Section integers.
Local Open Scope Z_scope.

Definition uint_wrap (w z : Z) : Z := z mod 2 ^ w.
Definition sint_wrap (w z : Z) : Z := (z + 2 ^ (w - 1)) mod 2 ^ w - 2 ^ (w - 1).

Definition uint16 := uint_wrap 16.
Definition uint32 := uint_wrap 32.
Definition uint64 := uint_wrap 64.
Definition int32 := sint_wrap 32.
Definition int64 := sint_wrap 64.

Definition in_uint (w z : Z) : Prop := 0 ≤ z < 2 ^ w.
Definition in_sint (w z : Z) : Prop := - 2 ^ (w - 1) ≤ z < 2 ^ (w - 1).

(** [(flags & mask) != 0] *)
Definition flag_set (flags mask : Z) : bool := negb (Z.land flags mask =? 0).
(** [(flags & mask) == mask] *)
Definition flags_all (flags mask : Z) : bool := Z.land flags mask =? mask.

Lemma uint_wrap_small w z : in_uint w z → uint_wrap w z = z.
Proof. intros H. by apply Z.mod_small. Qed.

Lemma uint_wrap_range w z : 0 ≤ w → in_uint w (uint_wrap w z).
Proof. intros Hw. apply Z.mod_pos_bound, Z.pow_pos_nonneg; lia. Qed.

Lemma sint_wrap_small w z : 0 < w → in_sint w z → sint_wrap w z = z.
Proof.
  unfold in_sint, sint_wrap. intros Hw H.
  assert (2 ^ w = 2 * 2 ^ (w - 1)) by (rewrite <- Z.pow_succ_r by lia; f_equal; lia).
  rewrite Z.mod_small; lia.
Qed.

(** Reading an unsigned word as signed loses nothing. *)
Lemma sint_wrap_inj w x y :
  0 < w → in_uint w x → in_uint w y → sint_wrap w x = sint_wrap w y → x = y.
Proof.
  unfold in_uint, sint_wrap. intros Hw Hx Hy Heq.
  assert (Hp : 0 < 2 ^ w) by (apply Z.pow_pos_nonneg; lia).
  assert (Hm : (x + 2 ^ (w - 1)) mod 2 ^ w = (y + 2 ^ (w - 1)) mod 2 ^ w) by lia.
  rewrite <- (Z.mod_small x (2 ^ w)), <- (Z.mod_small y (2 ^ w)) by done.
  replace x with ((x + 2 ^ (w - 1)) - 2 ^ (w - 1)) by lia.
  replace y with ((y + 2 ^ (w - 1)) - 2 ^ (w - 1)) by lia.
  by rewrite Zminus_mod, Hm, <- Zminus_mod.
Qed.

(** A mask is covered exactly when each of its bits is set. *)
Lemma flags_all_spec flags mask :
  flags_all flags mask = true ↔
  ∀ i, 0 ≤ i → Z.testbit mask i = true → Z.testbit flags i = true.
Proof.
  unfold flags_all. rewrite Z.eqb_eq. split.
  - intros H i Hi Hb. rewrite <- H, Z.land_spec in Hb. by apply andb_true_iff in Hb as [? _].
  - intros H. apply Z.bits_inj'. intros i Hi. rewrite Z.land_spec.
    destruct (Z.testbit mask i) eqn:E; [by rewrite (H i Hi E)|by rewrite andb_false_r].
Qed.
End integers.

(** ** Lists *)

Lemma StronglySorted_filter {A} (R : relation A) (P : A → Prop) `{!∀ x, Decision (P x)} l :
  StronglySorted R l → StronglySorted R (filter P l).
Proof.
  induction 1 as [|x l Hs IH Hall]; [constructor|]. rewrite filter_cons.
  case_decide; [|done]. constructor; [done|]. rewrite Forall_forall in Hall |- *.
  intros y [_ Hy]%list_elem_of_filter. by apply Hall.
Qed.

Lemma filter_ext_elem {A} (P Q : A → Prop) `{!∀ x, Decision (P x), !∀ x, Decision (Q x)}
    (l : list A) :
  (∀ x, x ∈ l → P x ↔ Q x) → filter P l = filter Q l.
Proof.
  induction l as [|x l IH]; intros Hext; [done|]. rewrite !filter_cons.
  rewrite IH by (intros; apply Hext; by right). pose proof (Hext x (list_elem_of_here _ _)).
  repeat case_decide; tauto.
Qed.

Lemma filter_all {A} (P : A → Prop) `{!∀ x, Decision (P x)} (l : list A) :
  (∀ x, x ∈ l → P x) → filter P l = l.
Proof.
  induction l as [|x l IH]; intros Hall; [done|]. rewrite filter_cons, decide_True by (apply Hall; by left).
  by rewrite IH by (intros; apply Hall; by right).
Qed.

Lemma filter_filter_and {A} (P Q R : A → Prop) `{!∀ x, Decision (P x), !∀ x, Decision (Q x),
    !∀ x, Decision (R x)} (l : list A) :
  (∀ x, R x ↔ P x ∧ Q x) → filter P (filter Q l) = filter R l.
Proof.
  intros HR. induction l as [|x l IH]; [done|]. rewrite !filter_cons. pose proof (HR x).
  destruct (decide (Q x)); rewrite ?filter_cons; repeat case_decide; rewrite ?IH; naive_solver.
Qed.

(** Elements of a list sorted by a strict measure are told apart by it. *)
Lemma StronglySorted_measure_inj {A} (f : A → Z) l a b :
  StronglySorted (λ x y, (f x < f y)%Z) l → a ∈ l → b ∈ l → f a = f b → a = b.
Proof.
  induction 1 as [|x l Hs IH Hall]; [by intros ?%not_elem_of_nil|].
  rewrite Forall_forall in Hall. intros [->|Ha]%elem_of_cons [->|Hb]%elem_of_cons Heq; try done.
  - specialize (Hall _ Hb). simpl in Hall. lia.
  - specialize (Hall _ Ha). simpl in Hall. lia.
  - by apply IH.
Qed.

(** ** Tactics *)

(** Split every [match]/[if] of the goal and the hypotheses and discharge the
    contradictory branches. *)
Ltac crush_match :=
  repeat (case_match; simplify_eq/=; try done).

(** Step through binds whose first part computes. *)
Ltac bind_step := erewrite bind_ok by reflexivity; cbv beta.

(** Turn boolean comparisons on [Z] and [nat] into propositions. *)
Ltac bool_to_prop :=
  repeat match goal with
  | H : (_ =? _)%Z = true |- _ => apply Z.eqb_eq in H
  | H : (_ =? _)%Z = false |- _ => apply Z.eqb_neq in H
  | H : (_ <? _)%Z = true |- _ => apply Z.ltb_lt in H
  | H : (_ <? _)%Z = false |- _ => apply Z.ltb_ge in H
  | H : (_ <=? _)%Z = true |- _ => apply Z.leb_le in H
  | H : (_ <=? _)%Z = false |- _ => apply Z.leb_gt in H
  | H : (_ >? _)%Z = _ |- _ => rewrite Z.gtb_ltb in H
  | H : (_ >=? _)%Z = _ |- _ => rewrite Z.geb_leb in H
  | H : (_ =? _)%nat = true |- _ => apply Nat.eqb_eq in H
  | H : (_ =? _)%nat = false |- _ => apply Nat.eqb_neq in H
  | H : (_ <? _)%nat = true |- _ => apply Nat.ltb_lt in H
  | H : (_ <? _)%nat = false |- _ => apply Nat.ltb_ge in H
  | H : (_ && _)%bool = true |- _ => apply andb_true_iff in H as [? ?]
  | H : (_ || _)%bool = false |- _ => apply orb_false_iff in H as [? ?]
  | H : negb _ = true |- _ => apply negb_true_iff in H
  | H : negb _ = false |- _ => apply negb_false_iff in H
  end.

(** Linear arithmetic over the wrap-around of the fixed-width types. *)
Ltac wrap_lia :=
  unfold uint16, uint32, uint64, int32, int64, uint_wrap, sint_wrap, in_uint, in_sint in *;
  repeat match goal with
  | H : context [(2 ^ ?w)%Z] |- _ =>
      let v := eval vm_compute in (2 ^ w)%Z in change (2 ^ w)%Z with v in H
  | |- context [(2 ^ ?w)%Z] =>
      let v := eval vm_compute in (2 ^ w)%Z in change (2 ^ w)%Z with v
  end;
  Z.to_euclidean_division_equations; lia.

Create HintDb cfs.
Create Rewrite HintDb cfs.
#[export] Hint Resolve uint_wrap_range : cfs.
#[export] Hint Rewrite @length_app @length_insert @length_take @length_drop : cfs.
