(* ===== verification/Fastcommon.v ===== *)
(** * Interfaces of the libraries FastCFS is linked with

    libfastcommon and libserverframe are separate repositories.  What the
    FastCFS sources call of them is a class of operations; what the callers
    rely on is a class of laws (the documented behaviour).  Components are
    defined and proved against these classes; the module [Ref] at the end gives
    instances, so that every theorem about a component can be evaluated. *)
From Stdlib Require Import Init.Byte Strings.Byte.
From coqutil Require Word.LittleEndianList Byte.
From S2P Require Import Prelude.
Local Open Scope Z_scope.

(** ** Strings

    [string_t] is a pointer with a length; the models only read the bytes. *)
Abbreviation string_t := (list byte).

#[global] Instance byte_eq_dec : EqDecision byte := Byte.byte_eq_dec.
#[global] Program Instance byte_countable : Countable byte :=
  inj_countable Byte.to_N Byte.of_N _.
Next Obligation. intros x. apply Byte.of_to_N. Qed.

(** ** Comparison functions ([shared_func.h]) *)

(** A C comparison function is a strict total order on the values satisfying
    [P]: zero on equal arguments only, antisymmetric in sign, transitive. *)
Class TotalCompareOn {A} (P : A → Prop) (cmp : A → A → Z) : Prop := {
  cmp_eq a b : P a → P b → cmp a b = 0 ↔ a = b;
  cmp_gt_lt a b : P a → P b → cmp a b > 0 ↔ cmp b a < 0;
  cmp_trans a b c : P a → P b → P c → cmp a b < 0 → cmp b c < 0 → cmp a c < 0;
}.
Abbreviation TotalCompare := (TotalCompareOn (λ _, True)).

Class FcCompare := {
  fc_compare_int64 : Z → Z → Z;
  fc_string_compare : string_t → string_t → Z;
}.

Class FcCompareLaws `{FcCompare} : Prop := {
  fc_compare_int64_lt a b : fc_compare_int64 a b < 0 ↔ a < b;
  fc_compare_int64_eq a b : fc_compare_int64 a b = 0 ↔ a = b;
  #[global] fc_string_compare_total :: TotalCompare fc_string_compare;
}.

#[global] Instance fc_compare_int64_total `{FcCompareLaws} :
  TotalCompare fc_compare_int64.
Proof.
  split; intros.
  - apply fc_compare_int64_eq.
  - rewrite fc_compare_int64_lt.
    pose proof (fc_compare_int64_lt a b). pose proof (fc_compare_int64_eq a b). lia.
  - rewrite fc_compare_int64_lt in *. lia.
Qed.

Section compare.
Context {A} {P : A → Prop} {cmp : A → A → Z} `{!TotalCompareOn P cmp}.

Lemma cmp_refl a : P a → cmp a a = 0.
Proof. intros H. by apply cmp_eq. Qed.

Lemma cmp_lt_irrefl a b : P a → P b → cmp a b < 0 → cmp b a < 0 → False.
Proof. intros Ha Hb H1 H2%cmp_gt_lt; [lia|done..]. Qed.
End compare.

(** ** Object pools ([fast_mblock.h])

    A pool hands out the address of an object that nobody holds, or [NULL]; a
    freed object may be handed out again, with the contents it was left with.
    Several pools are distinguished by an index. *)
Abbreviation addr := nat.

Class Mblock (MB : Type) := {
  mb_alloc : Z → MB → option addr * MB;
  mb_free : Z → addr → MB → MB;
  (** the objects handed out and not freed *)
  mb_live : MB → gset addr;
}.

Class MblockLaws MB `{Mblock MB} : Prop := {
  mb_alloc_some i m a m' :
    mb_alloc i m = (Some a, m') → (a ∉ mb_live m) ∧ mb_live m' = {[a]} ∪ mb_live m;
  mb_alloc_none i m m' : mb_alloc i m = (None, m') → mb_live m' = mb_live m;
  mb_free_live i a m : mb_live (mb_free i a m) = mb_live m ∖ {[a]};
}.

(** ** Time and memory *)

(** The clock that [get_current_time] reads. *)
Class Clock (W : Type) := { current_time : W → Z }.
Definition get_current_time {W} `{!Clock W} : M W Z := gets current_time.

(** [malloc] with logging; [false] is [NULL]. *)
Class Malloc (W : Type) := { fc_malloc : Z → W → bool * W }.

(** The text of an integer ([fc_itoa] of shared_func.h; the length is the result). *)
Class FcItoa := { fc_itoa : Z → string_t }.

(** ** Ordered unique skip lists ([uniq_skiplist.h])

    Elements are kept in the order of a comparison function on their keys, and
    no two compare equal. *)
Class UniqSkiplist (K : Type) (SL : Type → Type) := {
  sl_empty V : SL V;
  sl_find {V} : SL V → K → option V;
  sl_insert {V} : SL V → K → V → result unit * SL V;
  sl_delete {V} : SL V → K → SL V;
  (** the elements from front to back *)
  sl_elements {V} : SL V → list (K * V);
}.

Class UniqSkiplistLaws {K} (cmp : K → K → Z) SL `{UniqSkiplist K SL} : Prop := {
  sl_find_empty V k : sl_find (sl_empty V) k = None;
  sl_find_elements V (s : SL V) k v : (k, v) ∈ sl_elements s ↔ sl_find s k = Some v;
  sl_elements_sorted V (s : SL V) :
    StronglySorted (λ a b, cmp a.1 b.1 < 0) (sl_elements s);
  sl_insert_dup V (s : SL V) k v w :
    sl_find s k = Some w → sl_insert s k v = (Err EEXIST, s);
  sl_insert_new V (s : SL V) k v : sl_find s k = None →
    sl_insert s k v = (Err ENOMEM, s) ∨
    ∃ s', sl_insert s k v = (Ok tt, s') ∧ sl_find s' k = Some v ∧
          ∀ j, j ≠ k → sl_find s' j = sl_find s j;
  sl_find_delete V (s : SL V) k : sl_find (sl_delete s k) k = None;
  sl_find_delete_ne V (s : SL V) k j : j ≠ k → sl_find (sl_delete s k) j = sl_find s j;
}.

(** ** Integers in network buffers ([long2buff], [buff2long], ...) *)
Class BuffCodec := {
  long2buff : Z → list byte;
  buff2long : list byte → Z;
  int2buff : Z → list byte;
  buff2int : list byte → Z;
  short2buff : Z → list byte;
  buff2short : list byte → Z;
}.

Class BuffCodecLaws `{BuffCodec} : Prop := {
  length_long2buff n : length (long2buff n) = 8%nat;
  length_int2buff n : length (int2buff n) = 4%nat;
  buff2long_long2buff n : in_sint 64 n → buff2long (long2buff n) = n;
  buff2int_int2buff n : in_sint 32 n → buff2int (int2buff n) = n;
  length_short2buff n : length (short2buff n) = 2%nat;
  buff2short_short2buff n : in_uint 16 n → buff2short (short2buff n) = n;
}.

(** An unsigned 64-bit value survives the trip as well. *)
Lemma uint64_buff2long `{BuffCodecLaws} n :
  in_uint 64 n → uint64 (buff2long (long2buff (int64 n))) = n.
Proof.
  intros Hn. rewrite buff2long_long2buff; wrap_lia.
Qed.

(** ** Reference instances *)
Module Ref.
Definition compare_int64 (a b : Z) : Z := if a <? b then -1 else if a =? b then 0 else 1.

Fixpoint string_compare (s t : string_t) : Z :=
  match s, t with
  | [], [] => 0
  | [], _ :: _ => -1
  | _ :: _, [] => 1
  | a :: s, b :: t =>
      let c := compare_int64 (Z.of_N (Byte.to_N a)) (Z.of_N (Byte.to_N b)) in
      if c =? 0 then string_compare s t else c
  end.

#[export] Instance compare : FcCompare :=
  {| fc_compare_int64 := compare_int64; fc_string_compare := string_compare |}.

Lemma compare_int64_cases a b :
  (a < b ∧ compare_int64 a b = -1) ∨ (a = b ∧ compare_int64 a b = 0) ∨
  (b < a ∧ compare_int64 a b = 1).
Proof. unfold compare_int64. crush_match; bool_to_prop; lia. Qed.

Lemma byte_to_N_inj a b : Z.of_N (Byte.to_N a) = Z.of_N (Byte.to_N b) → a = b.
Proof. intros H%N2Z.inj. apply (f_equal Byte.of_N) in H. rewrite !Byte.of_to_N in H. congruence. Qed.

Lemma string_compare_eq s t : string_compare s t = 0 ↔ s = t.
Proof.
  revert t; induction s as [|a s IH]; intros [|b t]; simpl; [done|by split; [lia|]..|].
  destruct (compare_int64_cases (Z.of_N (to_N a)) (Z.of_N (to_N b)))
    as [[? ->]|[[Heq ->]|[? ->]]]; simpl.
  - split; [lia|]. intros [= -> ->]. lia.
  - apply byte_to_N_inj in Heq as ->. rewrite IH. split; congruence.
  - split; [lia|]. intros [= -> ->]. lia.
Qed.

Lemma string_compare_sym s t : string_compare t s = - string_compare s t.
Proof.
  revert t; induction s as [|a s IH]; intros [|b t]; simpl; try lia.
  destruct (compare_int64_cases (Z.of_N (to_N a)) (Z.of_N (to_N b)))
    as [[? ->]|[[? ->]|[? ->]]],
   (compare_int64_cases (Z.of_N (to_N b)) (Z.of_N (to_N a)))
    as [[? ->]|[[? ->]|[? ->]]]; simpl; try lia. apply IH.
Qed.

Lemma string_compare_trans s t u :
  string_compare s t < 0 → string_compare t u < 0 → string_compare s u < 0.
Proof.
  revert t u; induction s as [|a s IH]; intros [|b t] [|c u]; simpl; try lia.
  destruct (compare_int64_cases (Z.of_N (to_N a)) (Z.of_N (to_N b)))
    as [[? ->]|[[? ->]|[? ->]]],
   (compare_int64_cases (Z.of_N (to_N b)) (Z.of_N (to_N c)))
    as [[? ->]|[[? ->]|[? ->]]],
   (compare_int64_cases (Z.of_N (to_N a)) (Z.of_N (to_N c)))
    as [[? ->]|[[? ->]|[? ->]]]; simpl; try lia. apply IH.
Qed.

#[export] Instance compare_laws : FcCompareLaws.
Proof.
  split.
  - intros a b. simpl. destruct (compare_int64_cases a b) as [[? ->]|[[? ->]|[? ->]]]; lia.
  - intros a b. simpl. destruct (compare_int64_cases a b) as [[? ->]|[[? ->]|[? ->]]]; lia.
  - split; simpl; intros.
    + apply string_compare_eq.
    + rewrite (string_compare_sym a b). lia.
    + by eapply string_compare_trans.
Qed.

(** Pools that reuse the object freed last. *)
Record pool := { pool_live : gset addr; pool_freed : list addr }.

#[export] Instance mblock : Mblock pool := {|
  mb_alloc _ m :=
    let a := match list_find (λ a, a ∉ pool_live m) (pool_freed m) with
             | Some (_, a) => a
             | None => S (foldr Nat.max 0%nat (elements (pool_live m)))
             end in
    (Some a, {| pool_live := {[a]} ∪ pool_live m;
                pool_freed := filter (λ b, b ≠ a) (pool_freed m) |});
  mb_free _ a m := {| pool_live := pool_live m ∖ {[a]}; pool_freed := a :: pool_freed m |};
  mb_live := pool_live;
|}.

Lemma foldr_max_le (l : list nat) n : n ∈ l → (n ≤ foldr Nat.max 0 l)%nat.
Proof.
  induction l as [|x l IH]; [by intros ?%not_elem_of_nil|].
  intros [->|Hn]%elem_of_cons; simpl; [lia|]. specialize (IH Hn). lia.
Qed.

#[export] Instance mblock_laws : MblockLaws pool.
Proof.
  split.
  - intros i m a m'. simpl. destruct (list_find _ _) as [[n b]|] eqn:E; intros [= <- <-]; simpl.
    + apply list_find_Some in E as (_ & ? & _). done.
    + split; [|done]. intros Hin%elem_of_elements%foldr_max_le. lia.
  - intros i m m'. simpl. done.
  - done.
Qed.

Definition empty_pool : pool := {| pool_live := ∅; pool_freed := [] |}.

(** Skip lists as finite maps, read out in key order. *)
Section skiplist.
Context {K} `{Countable K} (cmp : K → K → Z) `{!TotalCompare cmp}.

Definition key_le {V} (a b : K * V) : Prop := cmp a.1 b.1 ≤ 0.
#[local] Instance key_le_dec {V} : RelDecision (key_le (V:=V)).
Proof. intros a b. apply Z_le_dec. Defined.

Definition skiplist : UniqSkiplist K (gmap K) := {|
  sl_empty V := ∅;
  sl_find V s k := s !! k;
  sl_insert V s k v :=
    match s !! k with Some _ => (Err EEXIST, s) | None => (Ok tt, <[k := v]> s) end;
  sl_delete V s k := delete k s;
  sl_elements V s := merge_sort key_le (map_to_list s);
|}.

#[local] Instance key_le_total {V} : Total (key_le (V:=V)).
Proof.
  intros [a v] [b w]. unfold key_le; simpl.
  pose proof (cmp_gt_lt a b I I). lia.
Qed.
#[local] Instance key_le_trans {V} : Transitive (key_le (V:=V)).
Proof.
  intros [a u] [b v] [c w]; unfold key_le; simpl. intros H1 H2.
  destruct (decide (cmp a b = 0)) as [Hab|Hab]; [by apply (cmp_eq a b I I) in Hab as ->|].
  destruct (decide (cmp b c = 0)) as [Hbc|Hbc]; [by apply (cmp_eq b c I I) in Hbc as <-|].
  pose proof (cmp_trans a b c I I I). lia.
Qed.

Lemma sorted_strict {V} (l : list (K * V)) :
  NoDup l.*1 → StronglySorted key_le l → StronglySorted (λ a b, cmp a.1 b.1 < 0) l.
Proof.
  intros Hnd Hs. induction Hs as [|[k v] l Hs IH Hall]; [constructor|].
  apply NoDup_cons in Hnd as [Hnk Hnd]. constructor; [by apply IH|].
  rewrite Forall_forall in Hall |- *. intros [j w] Hj. specialize (Hall _ Hj).
  unfold key_le in Hall; simpl in *.
  assert (cmp k j ≠ 0); [|lia]. intros ->%(cmp_eq k j I I).
  apply Hnk, list_elem_of_fmap. by exists (j, w).
Qed.

Lemma skiplist_laws : @UniqSkiplistLaws K cmp (gmap K) skiplist.
Proof.
  split; simpl; intros.
  - apply lookup_empty.
  - by rewrite merge_sort_Permutation, elem_of_map_to_list.
  - apply sorted_strict; [|apply StronglySorted_merge_sort; apply _].
    rewrite merge_sort_Permutation. apply NoDup_fst_map_to_list.
  - by case_match.
  - rewrite H0. right. eexists. split_and!; [done|by rewrite lookup_insert_eq|].
    intros. by rewrite lookup_insert_ne.
  - by rewrite lookup_delete_eq.
  - by rewrite lookup_delete_ne.
Qed.
End skiplist.

(** Big-endian integers. *)
#[export] Instance codec : BuffCodec := {|
  long2buff n := rev (LittleEndianList.le_split 8 n);
  buff2long l := int64 (LittleEndianList.le_combine (rev l));
  int2buff n := rev (LittleEndianList.le_split 4 n);
  buff2int l := int32 (LittleEndianList.le_combine (rev l));
  short2buff n := rev (LittleEndianList.le_split 2 n);
  buff2short l := LittleEndianList.le_combine (rev l);
|}.

#[export] Instance codec_laws : BuffCodecLaws.
Proof.
  split; intros; cbv [long2buff buff2long int2buff buff2int short2buff buff2short codec];
    rewrite ?length_rev, ?LittleEndianList.length_le_split, ?rev_involutive,
      ?LittleEndianList.le_combine_split; try done; wrap_lia.
Qed.
End Ref.
