(* ===== verification/Session.v ===== *)
(** * The session table (src/auth/common/server_session.c, server_session.h)

    A hash table of sessions, each bucket a list linked through [next] and
    ordered by session id.  Entries are objects of [fast_mblock] pools whose
    trailing storage holds the fields of the session; [entry.fields] points to
    that storage.  The memory is therefore explicit: [ent] maps an object to its
    [ServerSessionHashEntry], [data] maps an object to its trailing storage, and
    a fields pointer is the address of the object that owns the storage.

    Each operation holds the lock of its bucket, so operations on a bucket are
    sequences; the locks carry no data.  Loops along [next] take as fuel the
    number of live objects plus one, which [rep] shows to be enough. *)
From S2P Require Import Prelude Fastcommon.
Local Open Scope Z_scope.

Module ServerSession.

(** ** Session ids *)

Record ServerSessionIdInfo := { part1 : Z; part2 : Z }.

#[global] Instance id_info_eq_dec : EqDecision ServerSessionIdInfo.
Proof. solve_decision. Defined.

(** The bit fields of [part1]: [ts:32, publish:1, persistent:1, rn:14, sn:16]. *)
Definition pack_part1 (ts : Z) (publish persistent : bool) (rn sn : Z) : Z :=
  Z.lor (uint32 ts)
    (Z.lor (Z.shiftl (Z.b2z publish) 32)
      (Z.lor (Z.shiftl (Z.b2z persistent) 33)
        (Z.lor (Z.shiftl (uint_wrap 14 rn) 34) (Z.shiftl (uint16 sn) 48)))).
Definition part1_ts (id : Z) : Z := Z.land id (Z.ones 32).
Definition part1_publish (id : Z) : bool := Z.testbit id 32.
Definition part1_persistent (id : Z) : bool := Z.testbit id 33.
Definition part1_rn (id : Z) : Z := Z.land (Z.shiftr id 34) (Z.ones 14).
Definition part1_sn (id : Z) : Z := Z.land (Z.shiftr id 48) (Z.ones 16).

(** The bit fields of [part2]: [ns:32, rn:32]. *)
Definition pack_part2 (ns rn : Z) : Z := Z.lor (uint32 ns) (Z.shiftl (uint32 rn) 32).
Definition part2_ns (id : Z) : Z := Z.land id (Z.ones 32).
Definition part2_rn (id : Z) : Z := Z.land (Z.shiftr id 32) (Z.ones 32).

(** Both parts are [uint64_t]. *)
Definition id_ok (s : ServerSessionIdInfo) : Prop :=
  in_uint 64 (part1 s) ∧ in_uint 64 (part2 s).

Definition RAND_MAX : Z := 2147483647.

(** What one round of the id generation reads from its environment. *)
Record id_sample := {
  g_current_time : Z;
  rand : Z;
  get_current_time_ns : Z;
  fc_safe_rand : Z;
}.

Section compare.
Context `{FcCompare}.

(** The first parts are compared as [uint64_t]; the second ones are passed to
    a function of [int64_t] arguments. *)
Definition compare_session_id (s1 s2 : ServerSessionIdInfo) : Z :=
  if part1 s1 <? part1 s2 then -1
  else if part1 s1 =? part1 s2 then fc_compare_int64 (int64 (part2 s1)) (int64 (part2 s2))
  else 1.
End compare.

(** ** The table *)

Record ServerSessionEntry := { id_info : ServerSessionIdInfo; fields : addr }.

Record ServerSessionHashEntry := {
  entry : ServerSessionEntry;
  allocator : Z;
  next : option addr;
}.

Definition set_id (s : ServerSessionIdInfo) (e : ServerSessionHashEntry) :=
  {| entry := {| id_info := s; fields := fields (entry e) |};
     allocator := allocator e; next := next e |}.
Definition set_entry (x : ServerSessionEntry) (e : ServerSessionHashEntry) :=
  {| entry := x; allocator := allocator e; next := next e |}.
Definition set_next (n : option addr) (e : ServerSessionHashEntry) :=
  {| entry := entry e; allocator := allocator e; next := n |}.
Definition set_allocator (i : Z) (e : ServerSessionHashEntry) :=
  {| entry := entry e; allocator := i; next := next e |}.

(** A fresh object of a pool: its fields pointer is its own trailing storage. *)
Definition server_session_alloc_init (a : addr) (i : Z) : ServerSessionHashEntry :=
  {| entry := {| id_info := {| part1 := 0; part2 := 0 |}; fields := a |};
     allocator := i; next := None |}.

Abbreviation heap := (addr → ServerSessionHashEntry).

Section table.
Context {F X MB : Type} `{!Mblock MB, !FcCompare}.

Record memory := { ent : heap; data : addr → F }.

(** A callback gets the memory, the address of the entry, and the state of the
    subscriber component. *)
Record ServerSessionCallbacks := {
  add_func : option (memory → addr → X → X);
  del_func : option (memory → addr → X → X);
}.

Record ServerSessionContext := {
  sn : Z;
  allocator_count : Z;
  allocator_next : Z;
  capacity : Z;
  buckets : list (option addr);
  callbacks : ServerSessionCallbacks;
  mem : memory;
  mb : MB;
  cb_state : X;
}.

Implicit Types c : ServerSessionContext.

Definition with_mem m c := {| sn := sn c; allocator_count := allocator_count c;
  allocator_next := allocator_next c; capacity := capacity c; buckets := buckets c;
  callbacks := callbacks c; mem := m; mb := mb c; cb_state := cb_state c |}.
Definition with_mb b c := {| sn := sn c; allocator_count := allocator_count c;
  allocator_next := allocator_next c; capacity := capacity c; buckets := buckets c;
  callbacks := callbacks c; mem := mem c; mb := b; cb_state := cb_state c |}.
Definition with_buckets bs c := {| sn := sn c; allocator_count := allocator_count c;
  allocator_next := allocator_next c; capacity := capacity c; buckets := bs;
  callbacks := callbacks c; mem := mem c; mb := mb c; cb_state := cb_state c |}.
Definition with_cb x c := {| sn := sn c; allocator_count := allocator_count c;
  allocator_next := allocator_next c; capacity := capacity c; buckets := buckets c;
  callbacks := callbacks c; mem := mem c; mb := mb c; cb_state := x |}.
Definition with_sn n c := {| sn := n; allocator_count := allocator_count c;
  allocator_next := allocator_next c; capacity := capacity c; buckets := buckets c;
  callbacks := callbacks c; mem := mem c; mb := mb c; cb_state := cb_state c |}.
Definition with_allocator_next n c := {| sn := sn c; allocator_count := allocator_count c;
  allocator_next := n; capacity := capacity c; buckets := buckets c;
  callbacks := callbacks c; mem := mem c; mb := mb c; cb_state := cb_state c |}.

Definition heap_of c : heap := ent (mem c).
Definition with_heap (h : heap) c := with_mem {| ent := h; data := data (mem c) |} c.
Definition with_data (d : addr → F) c := with_mem {| ent := heap_of c; data := d |} c.

(** Loops along [next] visit each live object at most once. *)
Definition fuel_of c : nat := S (size (mb_live (mb c))).

(** [server_session_init_ex] after the configuration is loaded: [count] pools,
    [cap] empty buckets. *)
Definition server_session_init_ex (count cap : Z) (cbs : ServerSessionCallbacks)
    (b : MB) (d : addr → F) (x : X) : ServerSessionContext :=
  {| sn := 0; allocator_count := count; allocator_next := 0; capacity := cap;
     buckets := replicate (Z.to_nat cap) None; callbacks := cbs;
     mem := {| ent := λ a, server_session_alloc_init a 0; data := d |};
     mb := b; cb_state := x |}.

Definition bucket_index c (session_id : Z) : nat := Z.to_nat (session_id mod capacity c).
Definition bucket_head c (i : nat) : option addr := mjoin (buckets c !! i).

Definition id_of (h : heap) (a : addr) : ServerSessionIdInfo := id_info (entry (h a)).

(** The [while] loop of [session_htable_find]: the entry found and [*prev]. *)
Fixpoint find_loop (fuel : nat) (h : heap) (prev : addr) (session : ServerSessionIdInfo)
    : option addr * option addr :=
  match fuel with
  | O => (None, Some prev)
  | S fuel =>
      match next (h prev) with
      | None => (None, Some prev)
      | Some current =>
          let sub := compare_session_id (id_of h current) session in
          if sub =? 0 then (Some current, Some prev)
          else if sub >? 0 then (None, Some prev)
          else find_loop fuel h current session
      end
  end.

Definition session_htable_find (fuel : nat) (h : heap) (bucket : option addr)
    (session : ServerSessionIdInfo) : option addr * option addr :=
  match bucket with
  | None => (None, None)
  | Some b =>
      let sub := compare_session_id (id_of h b) session in
      if sub =? 0 then (Some b, None)
      else if sub >? 0 then (None, None)
      else find_loop fuel h b session
  end.

Definition find c (session : ServerSessionIdInfo) : option addr * option addr :=
  session_htable_find (fuel_of c) (heap_of c)
    (bucket_head c (bucket_index c (part1 session))) session.

Definition fast_mblock_free_object c (a : addr) : ServerSessionContext :=
  with_mb (mb_free (allocator (heap_of c a)) a (mb c)) c.

Definition session_htable_insert (se : addr) (replace : bool) c
    : result unit * ServerSessionContext :=
  let h := heap_of c in
  let i := bucket_index c (part1 (id_of h se)) in
  match find c (id_of h se) with
  | (None, None) =>
      (Ok tt, with_buckets (<[i := Some se]> (buckets c))
                (with_heap (alter (set_next (bucket_head c i)) se h) c))
  | (None, Some previous) =>
      (Ok tt, with_heap (alter (set_next (Some se)) previous
                          (alter (set_next (next (h previous))) se h)) c)
  | (Some found, _) =>
      if replace then
        let c := with_heap (alter (set_entry (entry (h se))) found h) c in
        (Ok tt, fast_mblock_free_object c se)
      else (Err EEXIST, c)
  end.

(** The id written by one round of the loop; [n] is the new serial number. *)
Definition generate_id (publish persistent : bool) (n : Z) (s : id_sample)
    : ServerSessionIdInfo :=
  {| part1 := pack_part1 (g_current_time s) publish persistent
                (Z.quot (rand s * 16384) RAND_MAX) n;
     part2 := pack_part2 (Z.land (get_current_time_ns s) 0xFFFFFFFF) (fc_safe_rand s) |}.

(** The [do ... while (result == EEXIST)] loop, one sample per round; [None]
    when the samples run out before the loop ends. *)
Fixpoint generate_loop (samples : list id_sample) (se : addr)
    (publish persistent : bool) c : option ServerSessionContext :=
  match samples with
  | [] => None
  | s :: samples =>
      let n := uint16 (sn c + 1) in
      let c := with_sn n c in
      let c := with_heap (alter (set_id (generate_id publish persistent n s))
                            se (heap_of c)) c in
      match session_htable_insert se false c with
      | (Err EEXIST, c) => generate_loop samples se publish persistent c
      | (_, c) => Some c
      end
  end.

Definition call_add_func c (se : addr) : ServerSessionContext :=
  match add_func (callbacks c) with
  | Some f => with_cb (f (mem c) se (cb_state c)) c
  | None => c
  end.

Definition server_session_add_ex (samples : list id_sample) (id : ServerSessionIdInfo)
    (f : F) (publish persistent : bool) c : option (option addr * ServerSessionContext) :=
  let i := uint32 (allocator_next c) mod allocator_count c in
  let c := with_allocator_next (uint32 (allocator_next c + 1)) c in
  match mb_alloc i (mb c) with
  | (None, b) => Some (None, with_mb b c)
  | (Some se, b) =>
      let c := with_heap (alter (set_allocator i) se (heap_of c)) (with_mb b c) in
      let c := with_data (<[fields (entry (heap_of c se)) := f]> (data (mem c))) c in
      c ← (if part1 id =? 0 then generate_loop samples se publish persistent c
           else
             let c := with_heap (alter (set_id id) se (heap_of c)) c in
             Some (session_htable_insert se true c).2);
      Some (Some se, call_add_func c se)
  end.

Definition fields_of c (a : addr) : F := data (mem c) (fields (entry (heap_of c a))).

Definition server_session_get_fields c (session : ServerSessionIdInfo) : result F :=
  match find c session with
  | (Some found, _) => Ok (fields_of c found)
  | (None, _) => Err SF_SESSION_ERROR_NOT_EXIST
  end.

Definition free_hash_entry c (a : addr) : ServerSessionContext :=
  let c := match del_func (callbacks c) with
           | Some f => with_cb (f (mem c) a (cb_state c)) c
           | None => c
           end in
  fast_mblock_free_object c a.

Definition server_session_delete (session : ServerSessionIdInfo) c
    : result unit * ServerSessionContext :=
  let h := heap_of c in
  let i := bucket_index c (part1 session) in
  match find c session with
  | (Some found, previous) =>
      let c := match previous with
               | None => with_buckets (<[i := (b ← bucket_head c i; next (h b))]>
                                         (buckets c)) c
               | Some p => with_heap (alter (set_next (next (h found))) p h) c
               end in
      (Ok tt, free_hash_entry c found)
  | (None, _) => (Err ENOENT, c)
  end.

(** [ServerSessionHashChain]: head and tail. *)
Abbreviation session_chain := (option addr * option addr)%type.

Definition SERVER_SESSION_ADD_TO_CHAIN (h : heap) (chain : session_chain) (node : addr)
    : heap * session_chain :=
  match chain.2 with
  | None => (h, (Some node, Some node))
  | Some tail => (alter (set_next (Some node)) tail h, (chain.1, Some node))
  end.

(** One round of the loop that splits a bucket. *)
Definition clear_step (h : heap) (keep remove : session_chain) (current : addr)
    : heap * session_chain * session_chain :=
  if part1_persistent (part1 (id_of h current)) then
    let '(h, keep) := SERVER_SESSION_ADD_TO_CHAIN h keep current in (h, keep, remove)
  else
    let '(h, remove) := SERVER_SESSION_ADD_TO_CHAIN h remove current in (h, keep, remove).

(** The [do ... while] loop that splits a bucket. *)
Fixpoint clear_walk (fuel : nat) (h : heap) (keep remove : session_chain) (current : addr)
    : heap * session_chain * session_chain :=
  match fuel with
  | O => (h, keep, remove)
  | S fuel =>
      let '(h, keep, remove) := clear_step h keep remove current in
      match next (h current) with
      | Some n => clear_walk fuel h keep remove n
      | None => (h, keep, remove)
      end
  end.

Definition end_chain (h : heap) (chain : session_chain) : heap :=
  match chain.2 with
  | Some tail => alter (set_next None) tail h
  | None => h
  end.

(** The [while (current != NULL)] loop that frees the removed entries. *)
Fixpoint free_chain (fuel : nat) c (current : option addr) : ServerSessionContext :=
  match fuel, current with
  | S fuel, Some deleted =>
      let current := next (heap_of c deleted) in
      free_chain fuel (free_hash_entry c deleted) current
  | _, _ => c
  end.

Definition clear_bucket c (i : nat) : ServerSessionContext :=
  match bucket_head c i with
  | None => c
  | Some b =>
      let '(h, keep, remove) :=
        clear_walk (fuel_of c) (heap_of c) (None, None) (None, None) b in
      let h := end_chain (end_chain h keep) remove in
      free_chain (fuel_of c)
        (with_heap h (with_buckets (<[i := keep.1]> (buckets c)) c)) remove.1
  end.

Definition server_session_clear c : ServerSessionContext :=
  foldl clear_bucket c (seq 0 (Z.to_nat (capacity c))).
End table.

Arguments memory : clear implicits.
Arguments ServerSessionCallbacks : clear implicits.
Arguments ServerSessionContext : clear implicits.

(** ** Privileges of a session *)

Record FCFSAuthSPoolPriviledges := { fdir : Z; fstore : Z }.
#[global] Instance spool_privs_eq_dec : EqDecision FCFSAuthSPoolPriviledges.
Proof. solve_decision. Defined.

Record SessionSyncedFields := {
  user_id : Z;
  user_priv : Z;
  pool_id : Z;
  pool_available : bool;
  pool_privs : FCFSAuthSPoolPriviledges;
}.
#[global] Instance synced_fields_eq_dec : EqDecision SessionSyncedFields.
Proof. solve_decision. Defined.

Section privileges.
Context {X MB : Type} `{!Mblock MB, !FcCompare}.
Implicit Types c : ServerSessionContext SessionSyncedFields X MB.

Definition server_session_user_priv_granted c (session : ServerSessionIdInfo)
    (the_priv : Z) : result unit :=
  match find c session with
  | (Some found, _) =>
      if Z.land (user_priv (fields_of c found)) the_priv =? the_priv then Ok tt else Err EPERM
  | (None, _) => Err SF_SESSION_ERROR_NOT_EXIST
  end.

Definition server_session_fstore_priv_granted c (session : ServerSessionIdInfo)
    (the_priv : Z) : result unit :=
  match find c session with
  | (Some found, _) =>
      if Z.land (fstore (pool_privs (fields_of c found))) the_priv =? the_priv
      then Ok tt else Err EPERM
  | (None, _) => Err SF_SESSION_ERROR_NOT_EXIST
  end.

Definition server_session_fdir_priv_granted c (session : ServerSessionIdInfo)
    (the_priv : Z) : result unit :=
  match find c session with
  | (Some found, _) =>
      if Z.land (fdir (pool_privs (fields_of c found))) the_priv =? the_priv
      then Ok tt else Err EPERM
  | (None, _) => Err SF_SESSION_ERROR_NOT_EXIST
  end.
End privileges.

End ServerSession.
