(* ===== verification/SessionProofs.v ===== *)
(** * Correctness of the session table

    The representation predicate [rep] describes the memory of the table
    (ordered [next] chains, ids in their bucket, no leaked and no shared
    object); the operations preserve it and implement a finite map from session
    ids to fields. *)
From S2P Require Import Prelude Fastcommon Session.
Import ServerSession.
Local Open Scope Z_scope.

Module SessionIds.

(** ** Bit fields *)

Lemma testbit_b2z b i : Z.testbit (Z.b2z b) i = b && (i =? 0).
Proof.
  destruct (Z.eqb_spec i 0) as [->|Hne]; [by destruct b|]. rewrite andb_false_r.
  destruct (decide (i < 0)) as [?|?]; [by apply Z.testbit_neg_r|].
  destruct b; [|apply Z.bits_0]. apply Z.bits_above_log2; simpl; lia.
Qed.

(** Reduce a test of a packed word to tests of its components ... *)
Ltac bit_fields :=
  unfold part1_ts, part1_publish, part1_persistent, part1_rn, part1_sn, part2_ns, part2_rn,
    pack_part1, pack_part2, uint32, uint16, uint_wrap;
  rewrite ?Z.land_spec, ?Z.shiftr_spec, ?Z.lor_spec, ?Z.shiftl_spec, ?Z.testbit_ones_nonneg,
    ?Z.testbit_mod_pow2, ?testbit_b2z by lia.

(** ... and decide the comparisons of bit positions. *)
Ltac bit_cases :=
  repeat match goal with
  | |- context [?a <? ?b] => destruct (Z.ltb_spec a b); try lia
  | |- context [?a =? ?b] => destruct (Z.eqb_spec a b); try lia
  | |- context [Z.testbit ?a ?i] =>
      first [ rewrite (Z.testbit_neg_r a i) by lia | rewrite Z.land_spec
            | rewrite Z.shiftr_spec by lia | rewrite Z.testbit_ones_nonneg by lia
            | assert_fails (assert (0 ≤ i) by lia); destruct (Z_lt_le_dec i 0) ]
  end;
  rewrite ?andb_false_l, ?andb_true_l, ?andb_true_r, ?andb_false_r, ?orb_false_r, ?orb_false_l;
  try done; do 2 f_equal; lia.

Lemma in_uint_bits w x :
  0 ≤ w → (∀ i, w ≤ i → Z.testbit x i = false) → in_uint w x.
Proof.
  intros Hw Hb. assert (x = uint_wrap w x) as ->; [|auto with cfs].
  apply Z.bits_inj'; intros i Hi. unfold uint_wrap. rewrite Z.testbit_mod_pow2 by done.
  destruct (Z.ltb_spec i w); [done|by apply Hb].
Qed.

Lemma pack_part1_range ts pub per rn sn : in_uint 64 (pack_part1 ts pub per rn sn).
Proof. apply in_uint_bits; [lia|]. intros i Hi. bit_fields. bit_cases. Qed.

Lemma pack_part2_range ns rn : in_uint 64 (pack_part2 ns rn).
Proof. apply in_uint_bits; [lia|]. intros i Hi. bit_fields. bit_cases. Qed.

Lemma pack_part1_publish ts pub per rn sn :
  part1_publish (pack_part1 ts pub per rn sn) = pub.
Proof. bit_fields. bit_cases. Qed.

Lemma pack_part1_persistent ts pub per rn sn :
  part1_persistent (pack_part1 ts pub per rn sn) = per.
Proof. bit_fields. bit_cases. Qed.

(** The bit fields of a session id round trip.  Reading the fields of a
    packed id gives back the values written, reduced to the width of their
    field; and an id is rebuilt from its fields. *)
Theorem session_id_fields_roundtrip :
  (∀ ts pub per rn sn,
     part1_ts (pack_part1 ts pub per rn sn) = uint32 ts ∧
     part1_publish (pack_part1 ts pub per rn sn) = pub ∧
     part1_persistent (pack_part1 ts pub per rn sn) = per ∧
     part1_rn (pack_part1 ts pub per rn sn) = uint_wrap 14 rn ∧
     part1_sn (pack_part1 ts pub per rn sn) = uint16 sn) ∧
  (∀ ns rn, part2_ns (pack_part2 ns rn) = uint32 ns ∧ part2_rn (pack_part2 ns rn) = uint32 rn) ∧
  (∀ id, uint64 id = pack_part1 (part1_ts id) (part1_publish id) (part1_persistent id)
                       (part1_rn id) (part1_sn id)) ∧
  (∀ id, uint64 id = pack_part2 (part2_ns id) (part2_rn id)).
Proof.
  split_and!; intros; split_and?.
  all: try (by bit_fields; bit_cases).
  all: apply Z.bits_inj'; intros i Hi.
  all: unfold uint64; bit_fields; bit_cases.
Qed.

Lemma generate_id_ok pub per n s : id_ok (generate_id pub per n s).
Proof. split; [apply pack_part1_range|apply pack_part2_range]. Qed.

#[global] Instance compare_session_id_total `{FcCompareLaws} :
  TotalCompareOn id_ok compare_session_id.
Proof.
  assert (∀ a b, id_ok a → id_ok b → int64 (part2 a) = int64 (part2 b) → part2 a = part2 b)
    as Hinj by (intros a b [] []; by apply sint_wrap_inj).
  split; unfold compare_session_id.
  - intros [a1 a2] [b1 b2] Ha Hb; specialize (Hinj _ _ Ha Hb); simpl in *.
    crush_match; bool_to_prop; subst; [by split; [|intros [= -> ->]; lia]..| |].
    + rewrite fc_compare_int64_eq. split; [intros ?%Hinj; congruence|congruence].
    + split; [lia|congruence].
  - intros a b Ha Hb. destruct (Z.ltb_spec (part1 a) (part1 b)), (Z.ltb_spec (part1 b) (part1 a)),
      (Z.eqb_spec (part1 a) (part1 b)), (Z.eqb_spec (part1 b) (part1 a)); try lia.
    by apply cmp_gt_lt.
  - intros a b c Ha Hb Hc.
    destruct (Z.ltb_spec (part1 a) (part1 b)), (Z.ltb_spec (part1 b) (part1 c)),
      (Z.ltb_spec (part1 a) (part1 c)); try lia.
    all: destruct (Z.eqb_spec (part1 a) (part1 b)), (Z.eqb_spec (part1 b) (part1 c)),
      (Z.eqb_spec (part1 a) (part1 c)); try lia.
    by apply cmp_trans.
Qed.
End SessionIds.
