(* ===== verification/SessionChains.v ===== *)
(** * The linked chains of a bucket

    Ownership of the [next] chains of the session table and the effect of the
    pointer operations on them, independently of the table they belong to. *)
From S2P Require Import Prelude Fastcommon Session SessionProofs.
Import ServerSession.
Local Open Scope Z_scope.

Module SessionChains.

(** [chain h p l]: following [next] from [p] visits exactly [l]. *)
Fixpoint chain (h : heap) (p : option addr) (l : list addr) : Prop :=
  match l with
  | [] => p = None
  | a :: l => p = Some a ∧ chain h (next (h a)) l
  end.

(** [segment h s l]: the head and tail of a chain under construction, whose last
    [next] is not meaningful yet. *)
Fixpoint links (h : heap) (l : list addr) : Prop :=
  match l with
  | a :: (b :: _) as l => next (h a) = Some b ∧ links h l
  | _ => True
  end.
Definition segment (h : heap) (s : option addr * option addr) (l : list addr) : Prop :=
  s = (head l, last l) ∧ links h l.

Section chains.
Context `{!FcCompare}.

Definition id_lt (h : heap) (a b : addr) : Prop :=
  compare_session_id (id_of h a) (id_of h b) < 0.

(** What the search in an ordered chain returns. *)
Inductive find_post (h : heap) (s : ServerSessionIdInfo) (l : list addr) :
    option addr * option addr → Prop :=
| found_at l1 a l2 :
    l = l1 ++ a :: l2 →
    Forall (λ b, compare_session_id (id_of h b) s < 0) l1 →
    id_of h a = s →
    find_post h s l (Some a, last l1)
| missing_at l1 l2 :
    l = l1 ++ l2 →
    Forall (λ b, compare_session_id (id_of h b) s < 0) l1 →
    Forall (λ b, compare_session_id (id_of h b) s > 0) l2 →
    find_post h s l (None, last l1).
End chains.

(** ** Frames *)

Lemma chain_frame h h' p l :
  (∀ a, a ∈ l → next (h' a) = next (h a)) → chain h p l → chain h' p l.
Proof.
  revert p; induction l as [|a l IH]; intros p Hf; simpl; [done|].
  intros [-> Hc]. split; [done|]. rewrite Hf by left. apply IH; [|done].
  intros b Hb. apply Hf. by right.
Qed.

Lemma chain_alter_next h p l a n :
  a ∉ l → chain h p l → chain (alter (set_next n) a h) p l.
Proof.
  intros Ha. apply chain_frame. intros b Hb.
  rewrite fn_lookup_alter_ne; [done|]. by intros ->.
Qed.

Lemma links_frame h h' l :
  (∀ a, a ∈ l → next (h' a) = next (h a)) → links h l → links h' l.
Proof.
  induction l as [|a [|b l] IH]; intros Hf; [done..|]. intros [Hn Hl]. split.
  - rewrite Hf by left. done.
  - apply IH; [|done]. intros c Hc. apply Hf. by right.
Qed.

Lemma chain_app h p l1 l2 :
  chain h p (l1 ++ l2) ↔
  match last l1 with
  | None => chain h p l2
  | Some t => links h l1 ∧ p = head l1 ∧ chain h (next (h t)) l2
  end.
Proof.
  revert p; induction l1 as [|a [|b l1] IH]; intros p; [done|simpl; naive_solver|].
  rewrite <- app_comm_cons. cbn [chain]. rewrite IH.
  change (last (a :: b :: l1)) with (last (b :: l1)).
  destruct (last (b :: l1)) as [t|] eqn:El; [simpl; naive_solver|].
  by apply last_None in El.
Qed.

(** ** Linking and unlinking *)

Lemma chain_link_front h p l se :
  se ∉ l → chain h p l → chain (alter (set_next p) se h) (Some se) (se :: l).
Proof.
  intros Hse Hc. split; [done|]. rewrite fn_lookup_alter. by apply chain_alter_next.
Qed.

Lemma last_elem_of {A} (l : list A) x : last l = Some x → x ∈ l.
Proof. intros [l' ->]%last_Some. apply elem_of_app. right. by left. Qed.

Lemma links_alter_last h l t n :
  NoDup l → last l = Some t → links h l → links (alter (set_next n) t h) l.
Proof.
  induction l as [|a [|b l] IH]; intros Hnd Hl; [done..|]. intros [Hn Hk].
  apply NoDup_cons in Hnd as [Ha Hnd]. split; [|by apply IH].
  rewrite fn_lookup_alter_ne; [done|]. intros <-. apply Ha. by apply last_elem_of.
Qed.

Lemma chain_link_after h p l1 l2 se t :
  NoDup (l1 ++ l2) → se ∉ l1 ++ l2 → last l1 = Some t → chain h p (l1 ++ l2) →
  chain (alter (set_next (Some se)) t (alter (set_next (next (h t))) se h)) p (l1 ++ se :: l2).
Proof.
  intros (Hnd1 & Hd & Hnd2)%NoDup_app Hse Ht. rewrite !chain_app, Ht. intros (Hl & -> & Hc).
  apply not_elem_of_app in Hse as [Hse1 Hse2]. pose proof (last_elem_of _ _ Ht) as Hin.
  assert (t ≠ se) by (by intros ->). split_and!; [|done|].
  - apply links_alter_last; [done..|]. eapply links_frame, Hl.
    intros a Ha. rewrite fn_lookup_alter_ne; [done|by intros ->].
  - rewrite fn_lookup_alter. split; [done|].
    rewrite fn_lookup_alter_ne, fn_lookup_alter by done.
    apply chain_alter_next; [by apply Hd|]. by apply chain_alter_next.
Qed.

Lemma chain_unlink_after h p l1 l2 a t :
  NoDup (l1 ++ a :: l2) → last l1 = Some t → chain h p (l1 ++ a :: l2) →
  chain (alter (set_next (next (h a))) t h) p (l1 ++ l2).
Proof.
  intros (Hnd1 & Hd & Hnd2)%NoDup_app Ht. rewrite !chain_app, Ht. intros (Hl & -> & _ & Hc).
  pose proof (Hd t (last_elem_of _ _ Ht)) as [? Hin]%not_elem_of_cons. split_and!; [|done|].
  - by apply links_alter_last.
  - rewrite fn_lookup_alter. by apply chain_alter_next.
Qed.

(** ** Segments *)

Lemma segment_add h s l c :
  NoDup l → c ∉ l → segment h s l →
  let '(h', s') := SERVER_SESSION_ADD_TO_CHAIN h s c in
  segment h' s' (l ++ [c]) ∧ ∀ a, last l ≠ Some a → h' a = h a.
Proof.
  intros Hnd Hc [-> Hl]. unfold SERVER_SESSION_ADD_TO_CHAIN; simpl.
  destruct (last l) as [t|] eqn:Et.
  - split; [|intros a Ha; by rewrite fn_lookup_alter_ne by congruence].
    split; [by rewrite last_snoc; destruct l|].
    assert (∀ h0, links h0 l → next (h0 t) = Some c → links h0 (l ++ [c])) as Hsnoc.
    { clear -Et. intros h0. induction l as [|a [|b l] IH]; [done|simpl; naive_solver|].
      intros [? ?] ?. split; [done|]. by apply IH. }
    apply Hsnoc; [by apply links_alter_last|by rewrite fn_lookup_alter].
  - apply last_None in Et as ->. by split.
Qed.

Lemma end_chain_chain h s l :
  NoDup l → segment h s l → chain (end_chain h s) s.1 l.
Proof.
  intros Hnd [-> Hl]. unfold end_chain; simpl. destruct (last l) as [t|] eqn:Et.
  - rewrite <- (app_nil_r l), chain_app, app_nil_r, Et.
    split_and!; [by apply links_alter_last|done|by rewrite fn_lookup_alter].
  - by apply last_None in Et as ->.
Qed.

Lemma end_chain_frame h s l a : segment h s l → a ∉ l → end_chain h s a = h a.
Proof.
  intros [-> _] Ha. unfold end_chain; simpl. destruct (last l) as [t|] eqn:Et; [|done].
  rewrite fn_lookup_alter_ne; [done|]. intros ->. by apply Ha, last_elem_of.
Qed.

Lemma end_chain_entry h s a : entry (end_chain h s a) = entry (h a).
Proof.
  unfold end_chain. destruct s.2 as [t|]; [|done].
  destruct (decide (t = a)) as [->|]; [by rewrite fn_lookup_alter|by rewrite fn_lookup_alter_ne].
Qed.
End SessionChains.
