(* ===== verification/SessionTable.v ===== *)
(** * The session table as a finite map

    [rep] relates the memory of the table to its chains; searching, inserting,
    deleting and clearing are proved against it.  The session-level statements
    are in the last part: the table is a map from session ids to fields. *)
From S2P Require Import Prelude Fastcommon Session SessionProofs SessionChains.
Import ServerSession SessionIds SessionChains.
Local Open Scope Z_scope.

Module SessionTable.
Section table.
Context {F X MB : Type} `{!Mblock MB, !MblockLaws MB, !FcCompare, !FcCompareLaws}.
Implicit Types (c : ServerSessionContext F X MB) (h : heap) (cs : list (list addr)).

Definition live c : gset addr := mb_live (mb c).
Definition in_chains cs (a : addr) : Prop := ∃ i l, cs !! i = Some l ∧ a ∈ l.

(** The chains [cs] hold every live object except those of [loose], which an
    operation has taken from the pool and not linked yet. *)
Record rep c cs (loose : gset addr) : Prop := {
  rep_capacity : 0 < capacity c;
  rep_length : length cs = Z.to_nat (capacity c);
  rep_buckets : length (buckets c) = length cs;
  rep_chain i l : cs !! i = Some l → chain (heap_of c) (bucket_head c i) l;
  rep_hash i l a : cs !! i = Some l → a ∈ l →
    bucket_index c (part1 (id_of (heap_of c) a)) = i ∧ id_ok (id_of (heap_of c) a);
  rep_sorted i l : cs !! i = Some l → StronglySorted (id_lt (heap_of c)) l;
  rep_live a : a ∈ live c ↔ a ∈ loose ∨ in_chains cs a;
  rep_loose a : a ∈ loose → ¬ in_chains cs a;
  rep_fields a : fields (entry (heap_of c a)) = a;
}.

(** The table between operations. *)
Definition wf c : Prop := ∃ cs, rep c cs ∅.

(** ** Searching *)

Lemma sorted_nodup h l :
  Forall (λ a, id_ok (id_of h a)) l → StronglySorted (id_lt h) l → NoDup l.
Proof.
  intros Hok Hs. induction Hs as [|a l Hs IH Hlt]; [constructor|].
  apply Forall_cons in Hok as [Ha Hok]. constructor; [|by apply IH].
  intros Hin. rewrite Forall_forall in Hlt. specialize (Hlt a Hin).
  unfold id_lt in Hlt. rewrite cmp_refl in Hlt by done. lia.
Qed.

Lemma above_all h s a l :
  id_ok s → Forall (λ b, id_ok (id_of h b)) (a :: l) → Forall (id_lt h a) l →
  compare_session_id (id_of h a) s > 0 →
  Forall (λ b, compare_session_id (id_of h b) s > 0) (a :: l).
Proof.
  intros Hs [Ha Hok]%Forall_cons Hlt Hgt. constructor; [done|].
  unfold id_lt in Hlt. rewrite Forall_forall in Hok, Hlt |- *. intros b Hb.
  apply cmp_gt_lt in Hgt; [|done..]. apply cmp_gt_lt; [by auto|done|].
  apply (cmp_trans _ (id_of h a)); auto.
Qed.

Lemma find_post_cons h s a l r :
  compare_session_id (id_of h a) s < 0 → is_Some r.2 →
  find_post h s l r → find_post h s (a :: l) r.
Proof.
  intros Ha Hr Hpost. destruct Hpost as [l1 x l2 -> ??|l1 l2 -> ??].
  all: replace (last l1) with (last (a :: l1)) by (by destruct l1; [destruct Hr|]).
  - apply (found_at _ _ _ (a :: l1) x l2); by try constructor.
  - apply (missing_at _ _ _ (a :: l1) l2); by try constructor.
Qed.

Lemma find_loop_spec h s l fuel prev :
  id_ok s → Forall (λ b, id_ok (id_of h b)) l → StronglySorted (id_lt h) l →
  chain h (next (h prev)) l → (length l < fuel)%nat →
  compare_session_id (id_of h prev) s < 0 →
  find_post h s (prev :: l) (find_loop fuel h prev s).
Proof.
  intros Hs. revert fuel prev. induction l as [|a l IH]; intros fuel prev Hok Hsort Hc Hf Hp;
    (destruct fuel as [|fuel]; [simpl in *; lia|]); simpl in Hc |- *.
  - rewrite Hc. apply (missing_at _ _ _ [prev] []); [done| |done]. by constructor.
  - destruct Hc as [-> Hc]. apply StronglySorted_inv in Hsort as [Hsort Hlt].
    case_match eqn:E0; [|case_match eqn:E1]; bool_to_prop.
    + apply (found_at _ _ _ [prev] a l); [done|by constructor|].
      apply Forall_cons in Hok as [??]. by apply (cmp_eq (P:=id_ok)) in E0.
    + apply (missing_at _ _ _ [prev] (a :: l)); [done|by constructor|].
      by apply above_all; [..|lia].
    + assert (find_post h s (a :: l) (find_loop fuel h a s)) as HIH.
      { apply Forall_cons in Hok as [??]. apply IH; [done..|simpl in *; lia|lia]. }
      apply find_post_cons; [lia| |done].
      clear. revert a. induction fuel as [|fuel IH]; intros a; simpl; [by eauto|].
      by repeat case_match; eauto.
Qed.

Lemma session_htable_find_spec h s p l fuel :
  id_ok s → Forall (λ b, id_ok (id_of h b)) l → StronglySorted (id_lt h) l →
  chain h p l → (length l ≤ fuel)%nat →
  find_post h s l (session_htable_find fuel h p s).
Proof.
  intros Hs Hok Hsort Hc Hf. destruct l as [|a l]; simpl in Hc.
  - subst p. by apply (missing_at _ _ _ [] []).
  - destruct Hc as [-> Hc]. pose proof Hok as [Ha Hok']%Forall_cons.
    apply StronglySorted_inv in Hsort as [Hsort Hlt]. simpl.
    case_match eqn:E0; [|case_match eqn:E1]; bool_to_prop.
    + apply (found_at _ _ _ [] a l); [done|constructor|by apply (cmp_eq (P:=id_ok)) in E0].
    + apply (missing_at _ _ _ [] (a :: l)); [done|constructor|by apply above_all; [..|lia]].
    + apply find_loop_spec; [done..|simpl in *; lia|lia].
Qed.

Section rep_facts.
Context c cs loose (R : rep c cs loose).

Lemma rep_ids_ok i l : cs !! i = Some l → Forall (λ a, id_ok (id_of (heap_of c) a)) l.
Proof. intros Hl. apply Forall_forall. intros a Ha. by eapply (rep_hash _ _ _ R). Qed.

Lemma rep_nodup i l : cs !! i = Some l → NoDup l.
Proof. intros Hl. eapply sorted_nodup; [by eapply rep_ids_ok|by eapply (rep_sorted _ _ _ R)]. Qed.

(** Fuel: a chain is no longer than the number of live objects. *)
Lemma rep_fuel i l : cs !! i = Some l → (length l < fuel_of c)%nat.
Proof.
  intros Hl. unfold fuel_of. apply Nat.lt_succ_r.
  rewrite <- (size_list_to_set (C:=gset addr)) by by eapply rep_nodup.
  apply subseteq_size. intros a Ha%elem_of_list_to_set. apply (rep_live _ _ _ R).
  right. by exists i, l.
Qed.

Lemma rep_bucket id : ∃ l, cs !! bucket_index c id = Some l.
Proof.
  apply lookup_lt_is_Some_2. rewrite (rep_length _ _ _ R).
  pose proof (rep_capacity _ _ _ R). unfold bucket_index.
  pose proof (Z.mod_pos_bound id (capacity c)). lia.
Qed.

Lemma rep_chain_disjoint i j l l' a :
  cs !! i = Some l → cs !! j = Some l' → a ∈ l → a ∈ l' → i = j.
Proof.
  intros Hl Hl' Ha Ha'. destruct (rep_hash _ _ _ R i l a) as [<- _]; [done..|].
  by destruct (rep_hash _ _ _ R j l' a) as [<- _].
Qed.

Lemma find_spec s l : id_ok s → cs !! bucket_index c (part1 s) = Some l →
  find_post (heap_of c) s l (find c s).
Proof.
  intros Hs Hl. apply session_htable_find_spec; [done|by eapply rep_ids_ok| | |].
  - by eapply (rep_sorted _ _ _ R).
  - by apply (rep_chain _ _ _ R).
  - apply Nat.lt_le_incl. by eapply rep_fuel.
Qed.

(** An object of the table is found by its id, and only that object. *)
Lemma find_some s a : id_ok s →
  (find c s).1 = Some a ↔ in_chains cs a ∧ id_of (heap_of c) a = s.
Proof.
  intros Hs. destruct (rep_bucket (part1 s)) as [l Hl].
  pose proof (find_spec s l Hs Hl) as Hf.
  assert (∀ b, in_chains cs b → id_of (heap_of c) b = s → b ∈ l) as Hin.
  { intros b (i & l' & Hl' & Hb) <-. destruct (rep_hash _ _ _ R i l' b) as [<- _]; [done..|].
    congruence. }
  pose proof (rep_ids_ok _ _ Hl) as Hok. pose proof (rep_sorted _ _ _ R _ _ Hl) as Hsort.
  destruct Hf as [l1 b l2 -> Hlt Hb|l1 l2 -> Hlt Hgt]; simpl; split.
  - intros [= <-]. split; [|done]. eexists _, _. split; [done|]. set_solver.
  - intros [Ha Hs']. specialize (Hin _ Ha Hs').
    apply elem_of_app in Hin as [Hin|[->|Hin]%elem_of_cons]; [|done|].
    + rewrite Forall_forall in Hlt. specialize (Hlt _ Hin).
      rewrite Hs', cmp_refl in Hlt by done. lia.
    + apply StronglySorted_app_1_r in Hsort. apply StronglySorted_inv in Hsort as [_ Hlt2].
      rewrite Forall_forall in Hlt2. specialize (Hlt2 _ Hin). unfold id_lt in Hlt2.
      rewrite Hb, Hs', cmp_refl in Hlt2 by done. lia.
  - done.
  - intros [Ha Hs']. specialize (Hin _ Ha Hs'). rewrite Forall_forall in Hlt, Hgt.
    apply elem_of_app in Hin as [Hin|Hin].
    + specialize (Hlt _ Hin). rewrite Hs', cmp_refl in Hlt by done. lia.
    + specialize (Hgt _ Hin). rewrite Hs', cmp_refl in Hgt by done. lia.
Qed.
End rep_facts.

(** ** Changing one bucket *)

Lemma rep_update c c' cs loose loose' i l l' :
  rep c cs loose → cs !! i = Some l →
  capacity c' = capacity c → length (buckets c') = length (buckets c) →
  (∀ j, j ≠ i → bucket_head c' j = bucket_head c j) →
  (∀ j k a, j ≠ i → cs !! j = Some k → a ∈ k → next (heap_of c' a) = next (heap_of c a)) →
  (∀ a, entry (heap_of c' a) = entry (heap_of c a)) →
  chain (heap_of c') (bucket_head c' i) l' →
  StronglySorted (id_lt (heap_of c)) l' →
  (∀ a, a ∈ l' → bucket_index c (part1 (id_of (heap_of c) a)) = i ∧
                 id_ok (id_of (heap_of c) a)) →
  (∀ a, a ∈ live c' ↔ a ∈ loose' ∨ in_chains (<[i := l']> cs) a) →
  (∀ a, a ∈ loose' → ¬ in_chains (<[i := l']> cs) a) →
  rep c' (<[i := l']> cs) loose'.
Proof.
  intros R Hl Hcap Hlen Hbh Hnext Hent Hch Hsort Hhash Hlive Hloose.
  assert (i < length cs)%nat as Hi by (by eapply lookup_lt_Some).
  assert (∀ a, id_of (heap_of c') a = id_of (heap_of c) a) as Hid
    by (intros a; unfold id_of; by rewrite Hent).
  assert (∀ k, StronglySorted (id_lt (heap_of c)) k → StronglySorted (id_lt (heap_of c')) k)
    as Hsame.
  { intros k. induction 1 as [|x k ? IH Hall]; constructor; [done|].
    eapply Forall_impl; [exact Hall|]. intros y. unfold id_lt. by rewrite !Hid. }
  split; rewrite ?length_insert, ?Hcap, ?Hlen; try apply R; [..|done|done|].
  - intros j k [(<- & <- & _)|[Hne Hk]]%list_lookup_insert_Some; [done|].
    rewrite Hbh by done. eapply chain_frame, (rep_chain _ _ _ R); [|done].
    intros a. by apply Hnext with (j:=j).
  - intros j k a Hk Ha. rewrite Hid.
    replace (bucket_index c' _) with (bucket_index c (part1 (id_of (heap_of c) a)))
      by (unfold bucket_index; by rewrite Hcap).
    apply list_lookup_insert_Some in Hk as [(<- & <- & _)|[Hne Hk]]; [by apply Hhash|].
    by apply (rep_hash _ _ _ R _ k).
  - intros j k [(<- & <- & _)|[Hne Hk]]%list_lookup_insert_Some; [by apply Hsame|].
    by eapply Hsame, (rep_sorted _ _ _ R).
  - intros a. rewrite Hent. apply (rep_fields _ _ _ R).
Qed.

Lemma in_chains_insert cs i l l' a :
  cs !! i = Some l →
  in_chains (<[i := l']> cs) a ↔
  a ∈ l' ∨ ∃ j k, j ≠ i ∧ cs !! j = Some k ∧ a ∈ k.
Proof.
  intros Hl. assert (i < length cs)%nat by (by eapply lookup_lt_Some). split.
  - intros (j & k & [(<- & <- & _)|[Hne Hk]]%list_lookup_insert_Some & Ha); [by left|].
    right. exists j, k. by split_and!.
  - intros [Ha|(j & k & Hne & Hk & Ha)].
    + exists i, l'. by rewrite list_lookup_insert_eq.
    + exists j, k. by rewrite list_lookup_insert_ne.
Qed.

Lemma in_chains_split cs i l a :
  cs !! i = Some l →
  in_chains cs a ↔ a ∈ l ∨ ∃ j k, j ≠ i ∧ cs !! j = Some k ∧ a ∈ k.
Proof. intros Hl. rewrite <- (in_chains_insert cs i l l) by done. by rewrite list_insert_id. Qed.

(** [c'] holds the same objects as [c]; only links may differ. *)
Record same_objects c c' : Prop := {
  so_capacity : capacity c' = capacity c;
  so_callbacks : callbacks c' = callbacks c;
  so_data : data (mem c') = data (mem c);
  so_entry a : entry (heap_of c' a) = entry (heap_of c a);
}.

Lemma entry_alter_next h a n b : entry (alter (set_next n) a h b) = entry (h b).
Proof.
  destruct (decide (a = b)) as [->|]; [by rewrite fn_lookup_alter|by rewrite fn_lookup_alter_ne].
Qed.

Lemma bucket_head_insert c i p j :
  (i < length (buckets c))%nat →
  bucket_head (with_buckets (<[i := p]> (buckets c)) c) j =
  if decide (j = i) then p else bucket_head c j.
Proof.
  intros Hi. unfold bucket_head; simpl. case_decide as Hj.
  - subst. by rewrite list_lookup_insert_eq.
  - by rewrite list_lookup_insert_ne.
Qed.

Lemma sorted_middle h l1 l2 a :
  Forall (λ b, id_ok (id_of h b)) (l1 ++ a :: l2) →
  StronglySorted (id_lt h) (l1 ++ l2) →
  Forall (λ b, compare_session_id (id_of h b) (id_of h a) < 0) l1 →
  Forall (λ b, compare_session_id (id_of h b) (id_of h a) > 0) l2 →
  StronglySorted (id_lt h) (l1 ++ a :: l2).
Proof.
  intros Hok (H12 & H1 & H2)%StronglySorted_app Hlt Hgt.
  apply Forall_app in Hok as [Hok1 [Ha Hok2]%Forall_cons].
  rewrite Forall_forall in Hlt, Hgt, Hok2. apply StronglySorted_app_2; [|done|].
  - intros x y Hx [->|Hy]%elem_of_cons; [by apply Hlt|by apply H12].
  - constructor; [done|]. apply Forall_forall. intros y Hy.
    apply cmp_gt_lt; [by auto..|]. by apply Hgt.
Qed.

Lemma rep_not_loose c cs loose i l a : rep c cs loose → cs !! i = Some l → a ∈ loose → a ∉ l.
Proof. intros R Hl Ha Hin. apply (rep_loose _ _ _ R a Ha). by eexists _, _. Qed.

(** The table after the loose object [se] is linked into the chain of its
    bucket, whatever way the links were changed. *)
Lemma rep_link c c' cs se l1 l2 :
  let i := bucket_index c (part1 (id_of (heap_of c) se)) in
  rep c cs {[se]} → cs !! i = Some (l1 ++ l2) → id_ok (id_of (heap_of c) se) →
  Forall (λ b, compare_session_id (id_of (heap_of c) b) (id_of (heap_of c) se) < 0) l1 →
  Forall (λ b, compare_session_id (id_of (heap_of c) b) (id_of (heap_of c) se) > 0) l2 →
  capacity c' = capacity c → length (buckets c') = length (buckets c) → mb c' = mb c →
  (∀ j, j ≠ i → bucket_head c' j = bucket_head c j) →
  (∀ a, a ≠ se → last l1 ≠ Some a → next (heap_of c' a) = next (heap_of c a)) →
  (∀ a, entry (heap_of c' a) = entry (heap_of c a)) →
  chain (heap_of c') (bucket_head c' i) (l1 ++ se :: l2) →
  rep c' (<[i := l1 ++ se :: l2]> cs) ∅.
Proof.
  intros i R Hl Hid Hlt Hgt Hcap Hlen Hmb Hbh Hnext Hent Hch'.
  pose proof (rep_ids_ok _ _ _ R _ _ Hl) as Hok. eapply rep_update; try done.
  - intros j k a Hj Hk Ha. apply Hnext.
    + intros ->. by eapply (rep_not_loose _ _ _ _ _ se R); [|apply elem_of_singleton|].
    + intros Hlast%last_elem_of. apply Hj.
      eapply (rep_chain_disjoint _ _ _ R _ _ _ _ a); [done..|]. set_solver.
  - apply sorted_middle; [|by eapply (rep_sorted _ _ _ R)|done..].
    rewrite Forall_app in Hok |- *. by rewrite Forall_cons; naive_solver.
  - intros a [Ha|[->|Ha]%elem_of_cons]%elem_of_app; [|done|];
      (eapply (rep_hash _ _ _ R); [done|set_solver]).
  - intros a. unfold live. rewrite Hmb. fold (live c).
    rewrite (rep_live _ _ _ R), (in_chains_insert _ _ _ _ _ Hl), (in_chains_split _ _ _ _ Hl).
    set_solver.
Qed.

Lemma insert_new c cs se replace :
  rep c cs {[se]} → id_ok (id_of (heap_of c) se) →
  (find c (id_of (heap_of c) se)).1 = None →
  ∃ c', session_htable_insert se replace c = (Ok tt, c') ∧ wf c' ∧
        same_objects c c' ∧ mb c' = mb c ∧ cb_state c' = cb_state c.
Proof.
  intros R Hid Hf. destruct (rep_bucket c cs _ R (part1 (id_of (heap_of c) se))) as [l Hl].
  pose proof (find_spec c cs _ R _ l Hid Hl) as Hpost. unfold session_htable_insert.
  destruct Hpost as [? b ? _ _ _|l1 l2 -> Hlt Hgt]; [done|]. clear Hf.
  pose proof (rep_nodup _ _ _ R _ _ Hl) as Hnd. pose proof (rep_chain _ _ _ R _ _ Hl) as Hch.
  assert (se ∉ l1 ++ l2) as Hse by (by eapply rep_not_loose, elem_of_singleton).
  pose proof (lookup_lt_Some _ _ _ Hl) as Hi. rewrite <- (rep_buckets _ _ _ R) in Hi.
  destruct (last l1) as [t|] eqn:Et.
  - eexists. split_and!; [done| |split; [done..|]|done..].
    + eexists. eapply rep_link; try done; unfold heap_of; simpl.
      * intros a Hne Ht. by rewrite !fn_lookup_alter_ne by congruence.
      * intros a. by rewrite !entry_alter_next.
      * by apply chain_link_after.
    + intros a. unfold heap_of; simpl. by rewrite !entry_alter_next.
  - apply last_None in Et as ->. eexists. split_and!; [done| |split; [done..|]|done..].
    + eexists. eapply (rep_link _ _ _ _ []); try done; unfold heap_of; simpl.
      * by rewrite length_insert.
      * intros j Hj. unfold bucket_head; simpl. by rewrite list_lookup_insert_ne.
      * intros a Hne _. by rewrite fn_lookup_alter_ne.
      * intros a. by rewrite entry_alter_next.
      * unfold bucket_head; simpl. rewrite list_lookup_insert_eq by done.
        by apply chain_link_front.
    + intros a. unfold heap_of; simpl. by rewrite entry_alter_next.
Qed.

(** ** Deleting *)

Lemma free_hash_entry_frame c a :
  same_objects c (free_hash_entry c a) ∧ live (free_hash_entry c a) = live c ∖ {[a]} ∧
  buckets (free_hash_entry c a) = buckets c ∧ heap_of (free_hash_entry c a) = heap_of c.
Proof.
  unfold free_hash_entry, fast_mblock_free_object, live.
  destruct (del_func (callbacks c)); simpl; split_and!; try done; apply mb_free_live.
Qed.

(** The table after [a] is taken out of the chain of bucket [i]. *)
Lemma rep_unlink c c' cs i a l1 l2 :
  rep c cs ∅ → cs !! i = Some (l1 ++ a :: l2) →
  capacity c' = capacity c → length (buckets c') = length (buckets c) →
  live c' = live c ∖ {[a]} →
  (∀ j, j ≠ i → bucket_head c' j = bucket_head c j) →
  (∀ b, last l1 ≠ Some b → next (heap_of c' b) = next (heap_of c b)) →
  (∀ b, entry (heap_of c' b) = entry (heap_of c b)) →
  chain (heap_of c') (bucket_head c' i) (l1 ++ l2) →
  rep c' (<[i := l1 ++ l2]> cs) ∅.
Proof.
  intros R Hl Hcap Hlen Hlive Hbh Hnext Hent Hch.
  pose proof (rep_nodup _ _ _ R _ _ Hl) as (_ & Hd & [Ha2 _]%NoDup_cons)%NoDup_app.
  pose proof (rep_sorted _ _ _ R _ _ Hl) as (H12 & H1 & [H2 _]%StronglySorted_inv)%StronglySorted_app.
  assert (a ∉ l1) as Ha1 by (intros Hin; destruct (Hd _ Hin); by left).
  eapply rep_update; try done.
  - intros j k b Hj Hk Hb. apply Hnext. intros Hlast%last_elem_of. apply Hj.
    eapply (rep_chain_disjoint _ _ _ R _ _ _ _ b); [done..|]. set_solver.
  - apply StronglySorted_app_2; [|done..]. intros x y Hx Hy. apply H12; [done|by right].
  - intros b Hb. eapply (rep_hash _ _ _ R); [done|set_solver].
  - intros b. rewrite Hlive, elem_of_difference, (rep_live _ _ _ R),
      (in_chains_insert _ _ _ _ _ Hl), (in_chains_split _ _ _ _ Hl), elem_of_singleton.
    assert (∀ j k, j ≠ i → cs !! j = Some k → a ∉ k) as Hother.
    { intros j k Hj Hk Hin. apply Hj. eapply (rep_chain_disjoint _ _ _ R _ _ _ _ a); [done..|].
      set_solver. }
    split; [set_solver|]. intros [?|[Hb|(j & k & Hj & Hk & Hb)]]; [done| |].
    + split; [set_solver|]. intros ->. set_solver.
    + split; [naive_solver|]. intros ->. by eapply Hother.
Qed.

Lemma delete_found c cs s a :
  rep c cs ∅ → id_ok s → (find c s).1 = Some a →
  ∃ c', server_session_delete s c = (Ok tt, c') ∧ wf c' ∧ same_objects c c' ∧
        live c' = live c ∖ {[a]}.
Proof.
  intros R Hid Hf. destruct (rep_bucket c cs _ R (part1 s)) as [l Hl].
  pose proof (find_spec c cs _ R s l Hid Hl) as Hpost. unfold server_session_delete.
  destruct Hpost as [l1 a' l2 -> Hlt Ha|l1 l2 -> Hlt Hgt]; [|done].
  simpl in Hf. injection Hf as ->.
  pose proof (rep_nodup _ _ _ R _ _ Hl) as Hnd. pose proof (rep_chain _ _ _ R _ _ Hl) as Hch.
  pose proof (lookup_lt_Some _ _ _ Hl) as Hi. rewrite <- (rep_buckets _ _ _ R) in Hi.
  match goal with |- ∃ c', (_, free_hash_entry ?x a) = _ ∧ _ => set (c1 := x) end.
  destruct (free_hash_entry_frame c1 a) as ([Hcap Hcb Hda Hen] & Hlive & Hbk & Hheap).
  assert (∀ b, entry (heap_of c1 b) = entry (heap_of c b)) as Hen1.
  { intros b. unfold c1. destruct (last l1); [|done]. apply entry_alter_next. }
  eexists. split_and!; [done| | |].
  - eexists. eapply rep_unlink; [done..| | | | | | |]; rewrite ?Hheap.
    + rewrite Hcap. unfold c1. by destruct (last l1).
    + rewrite Hbk. unfold c1. destruct (last l1); [done|]. apply length_insert.
    + rewrite Hlive. unfold c1. by destruct (last l1).
    + intros j Hj. unfold bucket_head. rewrite Hbk. unfold c1.
      destruct (last l1); [done|]. simpl. by rewrite list_lookup_insert_ne.
    + intros b Hb. unfold c1. destruct (last l1); [|done]. unfold heap_of; simpl.
      by rewrite fn_lookup_alter_ne by congruence.
    + intros b. by rewrite Hen1.
    + unfold bucket_head. rewrite Hbk. unfold c1. destruct (last l1) as [t|] eqn:Et.
      * by apply chain_unlink_after.
      * apply last_None in Et as ->. simpl. rewrite list_lookup_insert_eq by done.
        destruct Hch as [-> Hch]. done.
  - split; [| | |intros b; by rewrite Hen];
      rewrite ?Hcap, ?Hcb, ?Hda; unfold c1; by destruct (last l1).
  - rewrite Hlive. unfold c1. by destruct (last l1).
Qed.

(** ** Taking an object from the pool *)

Lemma rep_ext c c' cs loose loose' :
  rep c cs loose → capacity c' = capacity c → buckets c' = buckets c →
  (∀ a, in_chains cs a → heap_of c' a = heap_of c a) →
  (∀ a, fields (entry (heap_of c' a)) = a) →
  (∀ a, a ∈ live c' ↔ a ∈ loose' ∨ in_chains cs a) →
  (∀ a, a ∈ loose' → ¬ in_chains cs a) →
  rep c' cs loose'.
Proof.
  intros R Hcap Hbk Hh Hfl Hlive Hloose.
  assert (∀ i l a, cs !! i = Some l → a ∈ l → heap_of c' a = heap_of c a) as Hh'.
  { intros i l a Hl Ha. apply Hh. by exists i, l. }
  split; rewrite ?Hcap, ?Hbk; try apply R; try done.
  - intros i l Hl. unfold bucket_head. rewrite Hbk.
    eapply chain_frame, (rep_chain _ _ _ R _ _ Hl). intros a Ha. by erewrite Hh'.
  - intros i l a Hl Ha. unfold id_of, bucket_index. rewrite Hcap, (Hh' i l a) by done.
    by eapply (rep_hash _ _ _ R).
  - intros i l Hl. pose proof (rep_sorted _ _ _ R _ _ Hl) as Hs.
    assert (Forall (λ a, heap_of c' a = heap_of c a) l) as Hl'.
    { apply Forall_forall. intros a Ha. by eapply Hh'. }
    clear -Hs Hl'. induction Hs as [|a l Hs IH Hlt]; [constructor|].
    apply Forall_cons in Hl' as [Ha Hl']. constructor; [by apply IH|].
    rewrite Forall_forall in Hlt, Hl' |- *. intros b Hb. unfold id_lt, id_of.
    rewrite Ha, (Hl' b Hb). by apply Hlt.
Qed.

(** Changing a loose object other than its fields pointer. *)
Lemma rep_loose_alter c cs se (f : ServerSessionHashEntry → ServerSessionHashEntry) :
  (∀ e, fields (entry (f e)) = fields (entry e)) →
  rep c cs {[se]} → rep (with_heap (alter f se (heap_of c)) c) cs {[se]}.
Proof.
  intros Hf R. eapply rep_ext; [done..| | |apply R|apply R]; unfold heap_of; simpl.
  - intros a Ha. rewrite fn_lookup_alter_ne; [done|]. intros ->.
    by eapply (rep_loose _ _ _ R); [by apply elem_of_singleton|].
  - intros a. destruct (decide (se = a)) as [->|].
    + rewrite fn_lookup_alter, Hf. apply (rep_fields _ _ _ R).
    + rewrite fn_lookup_alter_ne by done. apply (rep_fields _ _ _ R).
Qed.

Lemma rep_alloc c cs se b i :
  rep c cs ∅ → mb_alloc i (mb c) = (Some se, b) → rep (with_mb b c) cs {[se]} ∧ se ∉ live c.
Proof.
  intros R [Hse Hlive]%mb_alloc_some. split; [|done].
  eapply rep_ext; [done..|apply R| |].
  - intros a. unfold live; simpl. rewrite Hlive, elem_of_union. fold (live c).
    rewrite (rep_live _ _ _ R). set_solver.
  - intros a ->%elem_of_singleton Hin. apply Hse, (rep_live _ _ _ R). by right.
Qed.

(** A live object of a table between operations is in a chain. *)
Lemma find_live c s a : wf c → id_ok s →
  (find c s).1 = Some a ↔ a ∈ live c ∧ id_of (heap_of c) a = s.
Proof.
  intros [cs R] Hs. rewrite (find_some c cs ∅ R s a Hs), (rep_live _ _ _ R). set_solver.
Qed.

(** The abstraction: the fields stored for an id are those of the live object
    that carries it. *)
Lemma get_fields_ok c s f : wf c → id_ok s →
  server_session_get_fields c s = Ok f ↔
  ∃ a, a ∈ live c ∧ id_of (heap_of c) a = s ∧ data (mem c) a = f.
Proof.
  intros Hwf Hs. unfold server_session_get_fields.
  assert (∀ a, fields_of c a = data (mem c) a) as Hd.
  { intros a. destruct Hwf as [cs R]. unfold fields_of. by rewrite (rep_fields _ _ _ R). }
  destruct (find c s) as [[a|] prev] eqn:Ef.
  - assert ((find c s).1 = Some a) as [Ha Hid]%(find_live _ _ _ Hwf Hs) by (by rewrite Ef).
    rewrite Hd. split; [intros [= <-]; by exists a|]. intros (a' & Ha' & Hid' & <-).
    assert ((find c s).1 = Some a') as Hf' by (by apply find_live). rewrite Ef in Hf'.
    by simplify_eq/=.
  - split; [done|]. intros (a & Ha & Hid & _).
    assert ((find c s).1 = Some a) as Hf' by (by apply find_live). by rewrite Ef in Hf'.
Qed.

Lemma get_fields_cases c s :
  (∃ f, server_session_get_fields c s = Ok f) ∨
  server_session_get_fields c s = Err SF_SESSION_ERROR_NOT_EXIST.
Proof. unfold server_session_get_fields. destruct (find c s) as [[a|] prev]; eauto. Qed.

Lemma get_fields_same c c' s s' :
  (∀ g, server_session_get_fields c' s' = Ok g ↔ server_session_get_fields c s = Ok g) →
  server_session_get_fields c' s' = server_session_get_fields c s.
Proof.
  intros Heq. destruct (get_fields_cases c s) as [[f Hf]|Hf].
  - rewrite Hf. by apply Heq.
  - destruct (get_fields_cases c' s') as [[g Hg]|Hg]; [|congruence].
    apply Heq in Hg. congruence.
Qed.

(** ** Adding *)

Definition taken cs h (s : ServerSessionIdInfo) : Prop := ∃ a, in_chains cs a ∧ id_of h a = s.

(** [c'] is [c] with the new object [se] for session [s]. *)
Record added c c' (se : addr) (s : ServerSessionIdInfo) (f : F) : Prop := {
  added_wf : wf c';
  added_fresh : se ∉ live c;
  added_live : live c' = {[se]} ∪ live c;
  added_id : id_of (heap_of c') se = s;
  added_ids a : a ≠ se → id_of (heap_of c') a = id_of (heap_of c) a;
  added_data : data (mem c') = <[se := f]> (data (mem c));
}.

Lemma added_get c c' se s f :
  wf c → id_ok s → added c c' se s f → (∀ g, server_session_get_fields c s ≠ Ok g) →
  server_session_get_fields c' s = Ok f ∧
  ∀ s', id_ok s' → s' ≠ s → server_session_get_fields c' s' = server_session_get_fields c s'.
Proof.
  intros Hwf Hs [Hwf' Hfr Hlive Hid Hids Hda] Hno. split.
  - apply get_fields_ok; [done..|]. exists se. rewrite Hda, fn_lookup_insert, Hlive. set_solver.
  - intros s' Hs' Hne.
    apply get_fields_same. intros g. rewrite !get_fields_ok by done.
    split; intros (a & Ha & Ha' & Hg).
    + assert (a ≠ se) by congruence. exists a. rewrite <- Hids, Ha' by done.
      rewrite Hda, fn_lookup_insert_ne in Hg by done. set_solver.
    + assert (a ≠ se) by (by intros ->). exists a. rewrite Hids, Ha' by done.
      rewrite Hda, fn_lookup_insert_ne by done. set_solver.
Qed.

Lemma find_none_taken c cs se s :
  rep c cs {[se]} → id_ok s → (find c s).1 = None ↔ ¬ taken cs (heap_of c) s.
Proof.
  intros R Hs. split.
  - intros Hf (a & Ha & Hid). assert ((find c s).1 = Some a) by (by eapply find_some). congruence.
  - intros Hn. destruct ((find c s).1) as [a|] eqn:E; [|done].
    destruct Hn. exists a. by apply (find_some c cs _ R).
Qed.

Lemma insert_eexist c se : is_Some (find c (id_of (heap_of c) se)).1 →
  session_htable_insert se false c = (Err EEXIST, c).
Proof. unfold session_htable_insert. destruct (find c _) as [[a|] p]; intros []; [done|done]. Qed.

Lemma generate_loop_spec samples c cs se pub per :
  rep c cs {[se]} →
  match generate_loop samples se pub per c with
  | None => ∀ k s, samples !! k = Some s →
      taken cs (heap_of c) (generate_id pub per (uint16 (sn c + 1 + Z.of_nat k)) s)
  | Some c' => ∃ k s, samples !! k = Some s ∧
      let id := generate_id pub per (uint16 (sn c + 1 + Z.of_nat k)) s in
      ¬ taken cs (heap_of c) id ∧ wf c' ∧ live c' = live c ∧ data (mem c') = data (mem c) ∧
      id_of (heap_of c') se = id ∧
      ∀ a, a ≠ se → id_of (heap_of c') a = id_of (heap_of c) a
  end.
Proof.
  revert c. induction samples as [|s samples IH]; intros c R; [done|]. cbn [generate_loop].
  set (id := generate_id pub per (uint16 (sn c + 1)) s).
  set (c1 := with_heap (alter (set_id id) se (heap_of (with_sn (uint16 (sn c + 1)) c)))
               (with_sn (uint16 (sn c + 1)) c)).
  assert (rep c1 cs {[se]}) as R1.
  { apply (rep_loose_alter (with_sn (uint16 (sn c + 1)) c)); [done|].
    by eapply rep_ext; [done..|apply R|apply R|apply R]. }
  assert (id_of (heap_of c1) se = id) as Hid.
  { unfold id_of, heap_of, c1; simpl. by rewrite fn_lookup_alter. }
  assert (∀ a, a ≠ se → heap_of c1 a = heap_of c a) as Hne.
  { intros a Ha. unfold heap_of, c1; simpl. by rewrite fn_lookup_alter_ne. }
  assert (∀ s', taken cs (heap_of c1) s' ↔ taken cs (heap_of c) s') as Htk.
  { intros s'. unfold taken. apply exist_proper. intros a. unfold id_of.
    destruct (decide (a = se)) as [->|]; [|by rewrite Hne].
    pose proof (rep_loose _ _ _ R se). set_solver. }
  assert (id_ok id) as Hok by apply generate_id_ok.
  destruct ((find c1 id).1) as [x|] eqn:Ef.
  - rewrite insert_eexist by (rewrite Hid, Ef; done). specialize (IH c1 R1).
    assert (∀ k, uint16 (sn c1 + 1 + Z.of_nat k) = uint16 (sn c + 1 + Z.of_nat (S k))) as Hsn.
    { intros k. unfold c1; simpl. wrap_lia. }
    destruct (generate_loop samples se pub per c1) as [c'|].
    + destruct IH as (k & s' & Hs' & Hnt & ? & ? & ? & ? & Hids). exists (S k), s'.
      rewrite Hsn, Htk in *. split_and!; try done.
      intros a Ha. rewrite Hids by done. unfold id_of. by rewrite Hne.
    + intros [|k] s' Hs'; simpl in Hs'.
      * simplify_eq. apply Htk. exists x. rewrite Z.add_0_r. by apply (find_some c1 cs _ R1).
      * rewrite <- Hsn, <- Htk. by apply IH.
  - destruct (insert_new c1 cs se false R1) as (c' & -> & Hwf & [_ _ Hda Hen] & Hmb & _);
      [by rewrite Hid|by rewrite Hid|].
    exists 0%nat, s. rewrite Z.add_0_r. fold id. split_and!; try done.
    + by rewrite <- Htk, <- (find_none_taken c1 cs se id R1).
    + unfold live. by rewrite Hmb.
    + unfold id_of. by rewrite Hen.
    + intros a Ha. unfold id_of. by rewrite Hen, Hne.
Qed.
Lemma taken_get c cs s : rep c cs ∅ → id_ok s →
  taken cs (heap_of c) s ↔ ∃ g, server_session_get_fields c s = Ok g.
Proof.
  intros R Hs. assert (wf c) as Hwf by (by exists cs). split.
  - intros (a & Ha & Hid). exists (data (mem c) a). apply get_fields_ok; [done..|].
    exists a. split_and!; try done. apply (rep_live _ _ _ R). by right.
  - intros (g & (a & Ha & Hid & _)%get_fields_ok); [|done..]. exists a.
    apply (rep_live _ _ _ R) in Ha. set_solver.
Qed.

Lemma call_add_func_frame c se :
  mem (call_add_func c se) = mem c ∧ live (call_add_func c se) = live c ∧
  (wf c → wf (call_add_func c se)).
Proof.
  unfold call_add_func. case_match; [|done]. split_and!; [done..|]. intros [cs R].
  exists cs. by eapply rep_ext; [done..|apply R|apply R|apply R].
Qed.

(** The object taken from the pool, with the fields copied into it. *)
Definition fresh_object c (f : F) (se : addr) c2 : Prop :=
  (se ∉ live c) ∧ live c2 = {[se]} ∪ live c ∧ sn c2 = sn c ∧
  (∀ a, id_of (heap_of c2) a = id_of (heap_of c) a) ∧
  data (mem c2) = <[se := f]> (data (mem c)) ∧
  ∀ cs, rep c cs ∅ → rep c2 cs {[se]}.

Lemma add_ex_alloc samples id f pub per c :
  wf c →
  (∃ c', server_session_add_ex samples id f pub per c = Some (None, c') ∧ wf c' ∧
         mem c' = mem c ∧ live c' = live c) ∨
  (∃ c2 se, fresh_object c f se c2 ∧
     server_session_add_ex samples id f pub per c =
     (c ← (if part1 id =? 0 then generate_loop samples se pub per c2
           else Some (session_htable_insert se true
                        (with_heap (alter (set_id id) se (heap_of c2)) c2)).2);
      Some (Some se, call_add_func c se))).
Proof.
  intros [cs R]. unfold server_session_add_ex.
  set (c0 := with_allocator_next (uint32 (allocator_next c + 1)) c).
  set (i := uint32 (allocator_next c) mod allocator_count c).
  assert (rep c0 cs ∅) as R0 by (by eapply rep_ext; [done..|apply R|apply R|apply R]).
  destruct (mb_alloc i (mb c0)) as [[se|] b] eqn:Ea.
  - right. destruct (rep_alloc c0 cs se b i R0 Ea) as [R1 Hfr].
    destruct (mb_alloc_some _ _ _ _ Ea) as [_ Hlive].
    eexists _, se. split; [|done]. unfold fresh_object.
    assert (∀ a, entry (alter (set_allocator i) se (heap_of c0) a) = entry (heap_of c a)) as Hent.
    { intros a. destruct (decide (se = a)) as [->|];
        [by rewrite fn_lookup_alter|by rewrite fn_lookup_alter_ne]. }
    split_and!; try done.
    + intros a. exact (f_equal id_info (Hent a)).
    + transitivity (<[fields (entry (heap_of c se)) := f]> (data (mem c)));
        [by rewrite <- Hent|by rewrite (rep_fields _ _ _ R)].
    + intros cs' R'. eapply (rep_ext (with_heap (alter (set_allocator i) se (heap_of c0))
        (with_mb b c0))); try done; [apply (rep_loose_alter (with_mb b c0)); [done|]|..].
      * eapply rep_alloc; [|done]. by eapply rep_ext; [done..|apply R'|apply R'|apply R'].
      * intros a. rewrite <- (rep_fields _ _ _ R a) at 2. exact (f_equal fields (Hent a)).
      * intros a. unfold live; simpl. rewrite Hlive, elem_of_union. fold (live c0).
        change (live c0) with (live c). rewrite (rep_live _ _ _ R'). set_solver.
      * intros a ->%elem_of_singleton Hin. apply Hfr. change (live c0) with (live c).
        apply (rep_live _ _ _ R'). by right.
  - left. eexists. split_and!; [done| |done|].
    + exists cs. eapply rep_ext; [done..|apply R| |apply R]. unfold live; simpl.
      rewrite (mb_alloc_none _ _ _ Ea). apply (rep_live _ _ _ R0).
    + unfold live; simpl. by rewrite (mb_alloc_none _ _ _ Ea).
Qed.

Lemma add_given samples id f pub per c :
  wf c → id_ok id → part1 id ≠ 0 → (∀ g, server_session_get_fields c id ≠ Ok g) →
  ∃ r c', server_session_add_ex samples id f pub per c = Some (r, c') ∧
    match r with
    | None => wf c' ∧ mem c' = mem c ∧ live c' = live c
    | Some se => added c c' se id f
    end.
Proof.
  intros Hwf Hid Hz Hno. destruct (add_ex_alloc samples id f pub per c Hwf)
    as [(c' & -> & ?)|(c2 & se & (Hfr & Hlive & _ & Hids & Hda & HR) & ->)].
  { by exists None, c'. }
  rewrite (proj2 (Z.eqb_neq _ _)) by done. destruct Hwf as [cs R]. simpl.
  set (c3 := with_heap (alter (set_id id) se (heap_of c2)) c2).
  assert (rep c3 cs {[se]}) as R3 by (by apply rep_loose_alter; [|apply HR]).
  assert (id_of (heap_of c3) se = id) as Hse.
  { unfold id_of, heap_of; simpl. by rewrite fn_lookup_alter. }
  assert (∀ a, a ≠ se → id_of (heap_of c3) a = id_of (heap_of c) a) as Hids3.
  { intros a Ha. rewrite <- Hids. unfold id_of, heap_of; simpl. by rewrite fn_lookup_alter_ne. }
  destruct (insert_new c3 cs se true R3) as (c' & -> & Hwf' & [_ _ Hda' Hen] & Hmb & _);
    [by rewrite Hse| |].
  { rewrite Hse. apply (find_none_taken c3 cs se id R3 Hid). intros (a & Ha & Haid).
    destruct (proj1 (taken_get c cs id R Hid)) as [g Hg]; [|by eapply Hno].
    exists a. split; [done|]. rewrite <- Hids3; [done|]. intros ->.
    by apply (rep_loose _ _ _ R3 se); [apply elem_of_singleton|]. }
  exists (Some se), (call_add_func c' se). split; [done|].
  destruct (call_add_func_frame c' se) as (Hmem & Hlv & Hw).
  split; [by apply Hw|done|..]; unfold heap_of in *; rewrite ?Hmem.
  - rewrite Hlv. unfold live in *. by rewrite Hmb.
  - unfold id_of in *. by rewrite Hen.
  - intros a Ha. unfold id_of in *. rewrite Hen. by apply Hids3.
  - by rewrite Hda'.
Qed.

Lemma add_generated samples id f pub per c :
  wf c → part1 id = 0 →
  match server_session_add_ex samples id f pub per c with
  | None => ∀ k s, samples !! k = Some s →
      ∃ g, server_session_get_fields c
             (generate_id pub per (uint16 (sn c + 1 + Z.of_nat k)) s) = Ok g
  | Some (None, c') => wf c' ∧ mem c' = mem c ∧ live c' = live c
  | Some (Some se, c') => ∃ k s, samples !! k = Some s ∧
      let new := generate_id pub per (uint16 (sn c + 1 + Z.of_nat k)) s in
      (∀ g, server_session_get_fields c new ≠ Ok g) ∧ added c c' se new f
  end.
Proof.
  intros Hwf Hz. destruct (add_ex_alloc samples id f pub per c Hwf)
    as [(c' & -> & ?)|(c2 & se & (Hfr & Hlive & Hsn & Hids & Hda & HR) & ->)]; [done|].
  rewrite (proj2 (Z.eqb_eq _ _)) by done. destruct Hwf as [cs R].
  pose proof (generate_loop_spec samples c2 cs se pub per (HR cs R)) as Hg.
  assert (∀ s, id_ok s → taken cs (heap_of c2) s ↔ ∃ g, server_session_get_fields c s = Ok g)
    as Htk.
  { intros s Hs. rewrite <- (taken_get c cs s R Hs). unfold taken. apply exist_proper.
    intros a. by rewrite Hids. }
  rewrite Hsn in Hg. destruct (generate_loop samples se pub per c2) as [c'|]; simpl.
  - destruct Hg as (k & s & Hk & Hnt & Hwf' & Hlv & Hda' & Hse & Hne). exists k, s.
    rewrite Htk in Hnt by apply generate_id_ok.
    split_and!; [done|by intros g Hgo; apply Hnt; eauto|].
    destruct (call_add_func_frame c' se) as (Hmem & Hlv' & Hw).
    split; [by apply Hw|done|..]; unfold heap_of in *; rewrite ?Hmem; [congruence|done| |congruence].
    intros a Ha. by rewrite Hne, Hids.
  - intros k s Hk. apply Htk; [apply generate_id_ok|]. by apply Hg.
Qed.
(** ** Clearing *)

Lemma segment_frame h h' s l :
  (∀ a, a ∈ l → h' a = h a) → segment h s l → segment h' s l.
Proof. intros Hf [-> Hl]. split; [done|]. eapply links_frame, Hl. intros a Ha. by rewrite Hf. Qed.

Lemma add_to_chain_entry h s a b :
  entry ((SERVER_SESSION_ADD_TO_CHAIN h s a).1 b) = entry (h b).
Proof. unfold SERVER_SESSION_ADD_TO_CHAIN. case_match; simpl; [apply entry_alter_next|done]. Qed.

Lemma clear_step_spec (P : addr → bool) h keep remove cur K R :
  (∀ a, part1_persistent (part1 (id_of h a)) = P a) →
  segment h keep K → segment h remove R → NoDup (K ++ R ++ [cur]) →
  let '(h', keep', remove') := clear_step h keep remove cur in
  segment h' keep' (K ++ filter (λ a, P a = true) [cur]) ∧
  segment h' remove' (R ++ filter (λ a, P a = false) [cur]) ∧
  (∀ a, entry (h' a) = entry (h a)) ∧ (∀ a, a ∉ K ++ R → h' a = h a).
Proof.
  intros HP HK HR (HndK & HKR & (HndR & HRc & _)%NoDup_app)%NoDup_app.
  assert (cur ∉ K) by set_solver. assert (cur ∉ R) by set_solver.
  assert (∀ (l : list addr) a, a ∉ l → last l ≠ Some a) as Hlast by (intros l a Ha Hl%last_elem_of; done).
  unfold clear_step. rewrite HP, !filter_cons, !filter_nil. destruct (P cur) eqn:EP; simpl.
  - pose proof (segment_add h keep K cur HndK) as Hadd.
    pose proof (add_to_chain_entry h keep cur) as Hent.
    destruct (SERVER_SESSION_ADD_TO_CHAIN h keep cur) as [h' keep'].
    destruct Hadd as [Hs Hfr]; [done..|]. rewrite app_nil_r. split_and!; [done| |done|].
    + eapply segment_frame, HR. intros a Ha. apply Hfr, Hlast. set_solver.
    + intros a Ha. apply Hfr, Hlast. set_solver.
  - pose proof (segment_add h remove R cur HndR) as Hadd.
    pose proof (add_to_chain_entry h remove cur) as Hent.
    destruct (SERVER_SESSION_ADD_TO_CHAIN h remove cur) as [h' remove'].
    destruct Hadd as [Hs Hfr]; [done..|]. rewrite app_nil_r. split_and!; [|done|done|].
    + eapply segment_frame, HK. intros a Ha. apply Hfr, Hlast. set_solver.
    + intros a Ha. apply Hfr, Hlast. set_solver.
Qed.

Lemma nodup_middle {A} (k1 k2 l : list A) a : NoDup (k1 ++ k2 ++ l) → a ∈ l → a ∉ k1 ++ k2.
Proof.
  rewrite (assoc_L (++)). intros (_ & Hd & _)%NoDup_app Ha Hin. by apply (Hd _ Hin).
Qed.

Lemma clear_walk_spec (P : addr → bool) fuel h keep remove cur l K R :
  (∀ a, part1_persistent (part1 (id_of h a)) = P a) →
  chain h (Some cur) (cur :: l) → segment h keep K → segment h remove R →
  NoDup (K ++ R ++ cur :: l) → (length (cur :: l) ≤ fuel)%nat →
  let '(h', keep', remove') := clear_walk fuel h keep remove cur in
  segment h' keep' (K ++ filter (λ a, P a = true) (cur :: l)) ∧
  segment h' remove' (R ++ filter (λ a, P a = false) (cur :: l)) ∧
  (∀ a, entry (h' a) = entry (h a)) ∧
  (∀ a, a ∉ K ++ R ++ cur :: l → h' a = h a).
Proof.
  revert fuel h keep remove cur K R. induction l as [|nxt l IH];
    intros [|fuel] h keep remove cur K R HP [_ Hch] HK HR Hnd Hf; simpl in Hf; try lia;
    cbn [clear_walk];
    pose proof (clear_step_spec P h keep remove cur K R HP HK HR) as Hstep;
    destruct (clear_step h keep remove cur) as [[h1 keep1] remove1].
  - destruct Hstep as (HK1 & HR1 & Hent & Hfr); [done|]. simpl in Hch.
    rewrite Hfr, Hch by (by eapply nodup_middle, list_elem_of_here). split_and!; try done.
    intros a. rewrite (assoc_L (++)), not_elem_of_app. intros [? _]. by apply Hfr.
  - destruct Hstep as (HK1 & HR1 & Hent & Hfr).
    { eapply sublist_NoDup; [done|]. do 2 (apply sublist_app; [done|]).
      apply sublist_skip, sublist_nil_l. }
    rewrite Hfr by (by eapply nodup_middle, list_elem_of_here). cbn [chain] in Hch. destruct Hch as [Hn Hch]. rewrite Hn.
    specialize (IH fuel h1 keep1 remove1 nxt
      (K ++ filter (λ a, P a = true) [cur]) (R ++ filter (λ a, P a = false) [cur])).
    destruct (clear_walk fuel h1 keep1 remove1 nxt) as [[h2 keep2] remove2].
    assert ((K ++ filter (λ a, P a = true) [cur]) ++ (R ++ filter (λ a, P a = false) [cur]) ++
            nxt :: l ≡ₚ K ++ R ++ cur :: nxt :: l) as Hperm.
    { rewrite !filter_cons, !filter_nil. destruct (P cur); simpl; solve_Permutation. }
    destruct IH as (HK2 & HR2 & Hent2 & Hfr2); try done; [..|simpl; lia|].
    + intros a. rewrite <- HP. unfold id_of. by rewrite Hent.
    + eapply (chain_frame h); [|by split]. intros a Ha.
      rewrite Hfr; [done|]. eapply nodup_middle; [done|]. by right.
    + by rewrite Hperm.
    + rewrite (filter_app _ [cur] (nxt :: l) : filter _ (cur :: nxt :: l) = _),
        (filter_app _ [cur] (nxt :: l) : filter _ (cur :: nxt :: l) = _), !(assoc_L (++)).
      split_and!; [done..| |].
      * intros a. by rewrite Hent2, Hent.
      * intros a Ha. rewrite Hfr2; [|by rewrite Hperm, (assoc_L (++))].
        apply Hfr. by apply not_elem_of_app in Ha as [? _].
Qed.

Lemma free_chain_spec fuel c p l :
  chain (heap_of c) p l → (length l ≤ fuel)%nat →
  same_objects c (free_chain fuel c p) ∧ buckets (free_chain fuel c p) = buckets c ∧
  heap_of (free_chain fuel c p) = heap_of c ∧
  live (free_chain fuel c p) = live c ∖ list_to_set l.
Proof.
  revert c p l. induction fuel as [|fuel IH]; intros c p [|a l] Hch Hf; simpl in Hf; try lia;
    simpl in Hch.
  - simpl. split_and!; try done; set_solver.
  - subst p. simpl. split_and!; try done; set_solver.
  - destruct Hch as [-> Hch]. cbn [free_chain].
    destruct (free_hash_entry_frame c a) as ([Hcap Hcb Hda Hen] & Hlive & Hbk & Hheap).
    destruct (IH (free_hash_entry c a) (next (heap_of c a)) l) as ([] & Hbk2 & Hheap2 & Hlive2);
      [by rewrite Hheap|lia|].
    split_and!; [split; congruence|congruence|congruence|].
    rewrite Hlive2, Hlive. set_solver.
Qed.
Definition persistent_id (s : ServerSessionIdInfo) : bool := part1_persistent (part1 s).

Lemma sorted_filter {A} (R : A → A → Prop) (P : A → Prop) `{∀ a, Decision (P a)} l :
  StronglySorted R l → StronglySorted R (filter P l).
Proof.
  induction 1 as [|a l Hs IH Hall]; [constructor|]. rewrite filter_cons. case_decide; [|done].
  constructor; [done|]. rewrite Forall_forall in Hall |- *.
  intros b [_ Hb]%list_elem_of_filter. by apply Hall.
Qed.

(** The links after a bucket is split and both chains are terminated. *)
Lemma split_bucket (P : addr → bool) fuel h b l :
  (∀ a, part1_persistent (part1 (id_of h a)) = P a) →
  chain h (Some b) (b :: l) → NoDup (b :: l) → (length (b :: l) ≤ fuel)%nat →
  let '(h1, keep, remove) := clear_walk fuel h (None, None) (None, None) b in
  let h' := end_chain (end_chain h1 keep) remove in
  chain h' keep.1 (filter (λ a, P a = true) (b :: l)) ∧
  chain h' remove.1 (filter (λ a, P a = false) (b :: l)) ∧
  (∀ a, entry (h' a) = entry (h a)) ∧ (∀ a, a ∉ b :: l → h' a = h a).
Proof.
  intros HP Hch Hnd Hf.
  pose proof (clear_walk_spec P fuel h (None, None) (None, None) b l [] []) as Hw.
  destruct (clear_walk _ _ _ _ b) as [[h1 keep] remove].
  destruct Hw as (HK & HR & Hent & Hfr); [done|done|by split|by split|done|done|].
  rewrite app_nil_l in HK, HR. set (K := filter _ _) in *. set (Rm := filter _ _) in HR |- *.
  assert (∀ a, a ∈ K → a ∉ Rm) as HKR.
  { intros a [??]%list_elem_of_filter [??]%list_elem_of_filter. congruence. }
  assert (NoDup K ∧ NoDup Rm) as [HndK HndR] by (split; by apply NoDup_filter).
  assert (segment (end_chain h1 keep) remove Rm) as HR'.
  { eapply segment_frame, HR. intros a Ha. eapply end_chain_frame; [done|]. intros Hin.
    by apply (HKR a). }
  split_and!.
  - eapply chain_frame, end_chain_chain, HK; [|done]. intros a Ha.
    erewrite end_chain_frame; [done..|]. by apply HKR.
  - by apply end_chain_chain.
  - intros a. by rewrite !end_chain_entry, Hent.
  - intros a Ha. erewrite !end_chain_frame; [by apply Hfr|done| |done|];
      intros [_ ?]%list_elem_of_filter; done.
Qed.

Lemma clear_bucket_spec c cs i l :
  rep c cs ∅ → cs !! i = Some l →
  let P a := persistent_id (id_of (heap_of c) a) in
  wf (clear_bucket c i) ∧ same_objects c (clear_bucket c i) ∧
  live (clear_bucket c i) = live c ∖ list_to_set (filter (λ a, P a = false) l).
Proof.
  intros R Hl P. pose proof (rep_nodup _ _ _ R _ _ Hl) as Hnd.
  pose proof (rep_chain _ _ _ R _ _ Hl) as Hch. pose proof (rep_fuel _ _ _ R _ _ Hl) as Hf.
  pose proof (lookup_lt_Some _ _ _ Hl) as Hi. rewrite <- (rep_buckets _ _ _ R) in Hi.
  unfold clear_bucket. destruct l as [|b l]; simpl in Hch.
  { rewrite Hch. split_and!; [by exists cs|done..|]. rewrite filter_nil. set_solver. }
  destruct Hch as [-> Hch].
  pose proof (split_bucket P (fuel_of c) (heap_of c) b l) as Hw.
  destruct (clear_walk _ _ _ _ b) as [[h1 keep] remove].
  destruct Hw as (HK & HR & Hent & Hfr); [done|by split|done|lia|].
  set (h2 := end_chain _ remove) in *.
  set (c2 := with_heap h2 (with_buckets (<[i := keep.1]> (buckets c)) c)).
  destruct (free_chain_spec (fuel_of c) c2 remove.1 _ HR) as ([Hcap Hcb Hda Hen] & Hbk & Hheap & Hlive).
  { etransitivity; [apply length_filter|]. lia. }
  split_and!; [|by split; [..|intros a; rewrite Hen; apply Hent]|exact Hlive].
  exists (<[i := filter (λ a, P a = true) (b :: l)]> cs). eapply rep_update; try done; rewrite ?Hheap.
  - rewrite Hbk. apply length_insert.
  - intros j Hj. unfold bucket_head. rewrite Hbk. simpl. by rewrite list_lookup_insert_ne.
  - intros j k a Hj Hk Ha. unfold heap_of; simpl. rewrite Hfr; [done|]. intros Hin. apply Hj.
    by eapply (rep_chain_disjoint _ _ _ R _ _ _ _ a).
  - exact Hent.
  - unfold bucket_head. rewrite Hbk. simpl. by rewrite list_lookup_insert_eq.
  - by eapply sorted_filter, (rep_sorted _ _ _ R).
  - intros a [_ Ha]%list_elem_of_filter. by eapply (rep_hash _ _ _ R).
  - intros a. rewrite Hlive, elem_of_difference, elem_of_list_to_set, list_elem_of_filter.
    change (live c2) with (live c).
    rewrite (rep_live _ _ _ R), (in_chains_insert _ _ _ _ _ Hl), (in_chains_split _ _ _ _ Hl),
      list_elem_of_filter.
    assert (∀ j k, j ≠ i → cs !! j = Some k → a ∈ k → a ∉ b :: l) as Hother.
    { intros j k Hj Hk Hin Hin'. apply Hj. by eapply (rep_chain_disjoint _ _ _ R _ _ _ _ a). }
    split.
    + intros [[?|[Ha|Ho]] Hn]; [by left| |by do 2 right].
      right; left. split; [|done]. apply not_false_is_true. by intros EP; apply Hn.
    + intros [?|[[EP Ha]|(j & k & Hj & Hk & Ha)]]; [done| |]; (split; [by eauto 10|]).
      * intros [EP' _]. congruence.
      * intros [_ Hin]. by eapply Hother.
Qed.

Lemma clear_buckets_spec c ks :
  wf c → Forall (λ i, i < Z.to_nat (capacity c))%nat ks →
  let c' := foldl clear_bucket c ks in
  wf c' ∧ same_objects c c' ∧
  ∀ a, a ∈ live c' ↔
    a ∈ live c ∧ (bucket_index c (part1 (id_of (heap_of c) a)) ∈ ks →
                  persistent_id (id_of (heap_of c) a) = true).
Proof.
  revert c. induction ks as [|i ks IH]; intros c [cs R] Hks; simpl.
  { split_and!; [by exists cs|done|]. set_solver. }
  apply Forall_cons in Hks as [Hi Hks]. rewrite <- (rep_length _ _ _ R) in Hi.
  apply lookup_lt_is_Some_2 in Hi as [l Hl].
  destruct (clear_bucket_spec c cs i l R Hl) as (Hwf & [Hcap Hcb Hda Hen] & Hlive).
  destruct (IH (clear_bucket c i) Hwf) as (Hwf' & [Hcap' Hcb' Hda' Hen'] & Hlive').
  { by rewrite Hcap. }
  split_and!; [done|split; [congruence..|]|].
  { intros a. by rewrite Hen', Hen. }
  intros a. rewrite Hlive', Hlive, elem_of_difference, elem_of_list_to_set, list_elem_of_filter.
  unfold bucket_index. rewrite Hcap. fold (bucket_index c (part1 (id_of (heap_of c) a))).
  assert (id_of (heap_of (clear_bucket c i)) a = id_of (heap_of c) a) as Hid
    by (unfold id_of; by rewrite Hen). rewrite !Hid, elem_of_cons.
  assert (a ∈ live c → (a ∈ l ↔ bucket_index c (part1 (id_of (heap_of c) a)) = i)) as Hin.
  { intros [?|(j & k & Hk & Ha)]%(rep_live _ _ _ R); [done|]. split.
    - intros Hal. by apply (rep_hash _ _ _ R i l).
    - destruct (rep_hash _ _ _ R j k a) as [-> _]; [done..|]. intros ->. congruence. }
  change (Z.to_nat (part1 (id_of (heap_of c) a) mod capacity c))
    with (bucket_index c (part1 (id_of (heap_of c) a))).
  split.
  - intros [[Ha Hn] Hp]. split; [done|]. intros [Hi|Hi]; [|by apply Hp].
    apply not_false_is_true. intros EP. apply Hn. split; [done|]. by apply Hin.
  - intros [Ha Hp]. split_and!; [done| |by auto]. intros [EP Hal]. apply Hin in Hal; [|done].
    rewrite Hp in EP by (by left). done.
Qed.

Lemma clear_spec c :
  wf c →
  wf (server_session_clear c) ∧ same_objects c (server_session_clear c) ∧
  ∀ a, a ∈ live (server_session_clear c) ↔
    a ∈ live c ∧ persistent_id (id_of (heap_of c) a) = true.
Proof.
  intros Hwf. destruct (clear_buckets_spec c (seq 0 (Z.to_nat (capacity c))) Hwf)
    as (Hwf' & Hso & Hlive).
  { apply Forall_forall. intros i Hi%elem_of_seq. lia. }
  split_and!; [done..|]. intros a. unfold server_session_clear. rewrite Hlive.
  assert (bucket_index c (part1 (id_of (heap_of c) a)) ∈ seq 0 (Z.to_nat (capacity c))); [|naive_solver].
  apply elem_of_seq. destruct Hwf as [cs R]. rewrite <- (rep_length _ _ _ R).
  destruct (rep_bucket _ _ _ R (part1 (id_of (heap_of c) a))) as [l Hl%lookup_lt_Some]. lia.
Qed.
End table.
End SessionTable.
