(* ===== verification/SessionStore.v ===== *)
(** * The session table as its users see it

    The service handler keeps a pointer to a session of its connection and
    reads the fields through it.  [SessionStore] is what it needs of the table,
    [SessionStoreLaws] what the table promises; the table of [Session.v] is an
    instance. *)
From S2P Require Import Prelude Fastcommon Session SessionProofs SessionChains SessionTable.
Import ServerSession SessionIds SessionTable.
Local Open Scope Z_scope.

Module SessionStore.

Class SessionStore (F T : Type) := {
  (** [server_session_add_ex] of a session without an id *)
  store_add : F → bool → bool → M T addr;
  store_delete : ServerSessionIdInfo → M T unit;
  store_id : T → addr → ServerSessionIdInfo;
  store_fields : T → addr → F;
  (** the sessions in the table *)
  store_live : T → gset addr;
  store_ok : T → Prop;
}.

Class SessionStoreLaws F T `{SessionStore F T} : Prop := {
  store_add_ok f pub per t a t' :
    store_ok t → store_add f pub per t = (Ok a, t') →
    store_ok t' ∧ (a ∉ store_live t) ∧ store_live t' = {[a]} ∪ store_live t ∧
    store_fields t' a = f ∧ id_ok (store_id t' a) ∧
    (∀ b, b ∈ store_live t → store_fields t' b = store_fields t b ∧ store_id t' b = store_id t b) ∧
    (∀ b, b ∈ store_live t → store_id t b ≠ store_id t' a);
  store_add_err f pub per t e t' :
    store_ok t → store_add f pub per t = (Err e, t') →
    (e = ENOMEM ∨ e = NO_RETURN) ∧ store_ok t' ∧ store_live t' = store_live t ∧
    ∀ b, store_fields t' b = store_fields t b ∧ store_id t' b = store_id t b;
  store_delete_ok t a :
    store_ok t → a ∈ store_live t →
    ∃ t', store_delete (store_id t a) t = (Ok tt, t') ∧ store_ok t' ∧
      store_live t' = store_live t ∖ {[a]} ∧
      ∀ b, store_fields t' b = store_fields t b ∧ store_id t' b = store_id t b;
}.

(** ** The table is such a store

    The table with the number of additions so far; [entropy n] are the samples
    the id generation draws in the [n]-th one. *)
Section table.
Context {F X MB : Type} `{!Mblock MB, !MblockLaws MB, !FcCompare, !FcCompareLaws}.
Variable entropy : nat → list id_sample.

Definition no_id : ServerSessionIdInfo := {| part1 := 0; part2 := 0 |}.
Abbreviation T := (ServerSessionContext F X MB * nat)%type.

Definition table_add (f : F) (publish persistent : bool) : M T addr := λ t,
  match server_session_add_ex (entropy t.2) no_id f publish persistent t.1 with
  | Some (Some se, c) => (Ok se, (c, S t.2))
  | Some (None, c) => (Err ENOMEM, (c, S t.2))
  | None => (Err NO_RETURN, t)
  end.

Definition table_store : SessionStore F T := {|
  store_add := table_add;
  store_delete id t := let '(r, c) := server_session_delete id t.1 in (r, (c, t.2));
  store_id t a := id_of (heap_of t.1) a;
  store_fields t a := fields_of t.1 a;
  store_live t := live t.1;
  store_ok t := wf t.1;
|}.

Lemma wf_fields_of (c : ServerSessionContext F X MB) a : wf c → fields_of c a = data (mem c) a.
Proof. intros [cs R]. unfold fields_of. by rewrite (rep_fields _ _ _ R). Qed.

Lemma live_id_ok (c : ServerSessionContext F X MB) a :
  wf c → a ∈ live c → id_ok (id_of (heap_of c) a).
Proof.
  intros [cs R] Ha. apply (rep_live _ _ _ R) in Ha as [?|(i & l & Hl & Hin)]; [set_solver|].
  by apply (rep_hash _ _ _ R _ _ _ Hl).
Qed.

Lemma table_store_laws : @SessionStoreLaws F T table_store.
Proof.
  split; simpl.
  - intros f pub per [c n] a [c' n'] Hwf Hadd. unfold table_add in Hadd. simpl in *.
    pose proof (add_generated (entropy n) no_id f pub per c Hwf eq_refl) as Hg.
    destruct (server_session_add_ex _ _ _ _ _ _) as [[[se|] c1]|]; simplify_eq.
    destruct Hg as (k & smp & _ & Hno & Had). pose proof Had as [Hwf' Hfr Hlive Hid Hids Hda].
    split_and!; [done..| | | |].
    + rewrite wf_fields_of by done. by rewrite Hda, fn_lookup_insert.
    + rewrite Hid. apply generate_id_ok.
    + intros b Hb. assert (b ≠ a) by set_solver. rewrite !wf_fields_of by done.
      by rewrite Hda, fn_lookup_insert_ne, Hids.
    + intros b Hb Heq. rewrite Hid in Heq. eapply (Hno (data (mem c) b)).
      apply get_fields_ok; [done|apply generate_id_ok|]. by exists b.
  - intros f pub per [c n] e [c' n'] Hwf Hadd. unfold table_add in Hadd. simpl in *.
    pose proof (add_generated (entropy n) no_id f pub per c Hwf eq_refl) as Hg.
    destruct (server_session_add_ex _ _ _ _ _ _) as [[[se|] c1]|]; simplify_eq.
    + destruct Hg as (Hwf' & Hmem & Hlive). split_and!; [by left|done..|].
      intros b. rewrite !wf_fields_of by done. unfold heap_of. by rewrite Hmem.
    + split_and!; [by right|done..].
  - intros [c n] a Hwf Ha. simpl in *. pose proof Hwf as [cs R].
    pose proof (live_id_ok c a Hwf Ha) as Hid.
    destruct (delete_found c cs (id_of (heap_of c) a) a R Hid) as (c' & -> & Hwf' & [_ _ Hda Hen] & Hlive).
    { by apply find_live. }
    exists (c', n). split_and!; [done..|]. intros b. simpl. rewrite !wf_fields_of by done.
    unfold id_of. by rewrite Hda, Hen.
Qed.
End table.
End SessionStore.
