(* ===== verification/SessionSpec.v ===== *)
(** * What the session table promises

    The theorems a user of the table relies on, stated on the operations of
    [Session]: an invariant of every reachable table, the table as a map from
    ids to fields, the privilege checks; and the one operation that leaves the
    invariant, replacing an existing session. *)
From S2P Require Import Prelude Fastcommon Session SessionProofs SessionChains SessionTable.
Import ServerSession SessionIds SessionChains SessionTable.
Local Open Scope Z_scope.

Module SessionSpec.
Section spec.
Context {F X MB : Type} `{!Mblock MB, !MblockLaws MB, !FcCompare, !FcCompareLaws}.
Implicit Types c : ServerSessionContext F X MB.

Definition absent c (s : ServerSessionIdInfo) : Prop :=
  server_session_get_fields c s = Err SF_SESSION_ERROR_NOT_EXIST.

(** The operations on a table, with the arguments their callers give; a session
    is never added again under the id of an existing one. *)
Inductive step c : ServerSessionContext F X MB → Prop :=
| step_add samples id f pub per r c' :
    (part1 id ≠ 0 → id_ok id ∧ absent c id) →
    server_session_add_ex samples id f pub per c = Some (r, c') → step c c'
| step_delete s : id_ok s → step c (server_session_delete s c).2
| step_clear : step c (server_session_clear c).

Inductive reachable (count cap : Z) : ServerSessionContext F X MB → Prop :=
| reachable_init cbs b d x :
    mb_live b = ∅ → reachable count cap (server_session_init_ex count cap cbs b d x)
| reachable_step c c' : reachable count cap c → step c c' → reachable count cap c'.

Lemma wf_init count cap cbs b d x :
  0 < cap → mb_live b = ∅ → wf (server_session_init_ex (F:=F) (X:=X) count cap cbs b d x).
Proof.
  intros Hcap Hb. exists (replicate (Z.to_nat cap) []). split; simpl; try done.
  - by rewrite length_replicate.
  - by rewrite !length_replicate.
  - intros i l [-> Hi]%lookup_replicate. unfold bucket_head; simpl.
    by rewrite lookup_replicate_2.
  - intros i l a [-> Hi]%lookup_replicate. by intros ?%not_elem_of_nil.
  - intros i l [-> Hi]%lookup_replicate. constructor.
  - intros a. unfold live; simpl. rewrite Hb. split; [set_solver|].
    intros [?|(i & l & [-> _]%lookup_replicate & ?)]; set_solver.
Qed.

Lemma absent_ok c s : absent c s → ∀ g, server_session_get_fields c s ≠ Ok g.
Proof. unfold absent. congruence. Qed.

Lemma ok_absent c s : (∀ g, server_session_get_fields c s ≠ Ok g) → absent c s.
Proof. intros Hn. destruct (get_fields_cases c s) as [[f Hf]|]; [by destruct (Hn f)|done]. Qed.

Lemma delete_missing c s : wf c → id_ok s → absent c s →
  server_session_delete s c = (Err ENOENT, c).
Proof.
  unfold absent, server_session_get_fields, server_session_delete.
  destruct (find c s) as [[a|] p]; done.
Qed.

Lemma get_ok_find c s f : server_session_get_fields c s = Ok f → is_Some (find c s).1.
Proof. unfold server_session_get_fields. destruct (find c s) as [[a|] p]; by eauto. Qed.

Lemma wf_step c c' : wf c → step c c' → wf c'.
Proof.
  intros Hwf [samples id f pub per r c1 Hid Hadd|s Hs|].
  - destruct (decide (part1 id = 0)) as [Hz|Hz].
    + pose proof (add_generated samples id f pub per c Hwf Hz) as Hg. rewrite Hadd in Hg.
      destruct r as [se|]; [|by destruct Hg]. by destruct Hg as (? & ? & _ & _ & []).
    + destruct (Hid Hz) as [Hok Hab].
      destruct (add_given samples id f pub per c Hwf Hok Hz (absent_ok _ _ Hab))
        as (r' & c2 & Hadd' & Hr). rewrite Hadd in Hadd'. simplify_eq.
      destruct r'; [by destruct Hr|by destruct Hr].
  - destruct (get_fields_cases c s) as [[f Hf]|Hf].
    + apply get_ok_find in Hf as [a Ha]. destruct Hwf as [cs R].
      by destruct (delete_found c cs s a R Hs Ha) as (c1 & -> & ? & _).
    + by rewrite delete_missing.
  - by apply clear_spec.
Qed.


Lemma add_given_get samples id f pub per c :
  wf c → id_ok id → part1 id ≠ 0 → absent c id →
  ∃ r c', server_session_add_ex samples id f pub per c = Some (r, c') ∧ wf c' ∧
    (live c' = match r with Some se => {[se]} ∪ live c | None => live c end) ∧
    (∀ se, r = Some se → se ∉ live c) ∧
    ∀ s, id_ok s →
      server_session_get_fields c' s =
      if decide (s = id ∧ is_Some r) then Ok f else server_session_get_fields c s.
Proof.
  intros Hwf Hid Hz Hab. pose proof (absent_ok _ _ Hab) as Hno.
  destruct (add_given samples id f pub per c Hwf Hid Hz Hno) as (r & c' & Hadd & Hr).
  exists r, c'. destruct r as [se|].
  - pose proof Hr as [? ? ? _ _ _]. split_and!; [done..|by intros ? [= <-]|]. intros s Hs.
    destruct (added_get c c' se id f Hwf Hid Hr Hno) as [Hget Hoth].
    case_decide as Hd; [destruct Hd as [-> _]; exact Hget|].
    apply Hoth; [done|]. intros ->. apply Hd; eauto.
  - destruct Hr as (Hwf' & Hmem & Hlive). split_and!; [done..|]. intros s Hs.
    rewrite decide_False by (by intros [_ [? ?]]). apply get_fields_same. intros g.
    rewrite !get_fields_ok by done. unfold heap_of. by rewrite Hlive, Hmem.
Qed.

Lemma delete_get c id : wf c → id_ok id →
  wf (server_session_delete id c).2 ∧
  ∀ s, id_ok s → server_session_get_fields (server_session_delete id c).2 s =
     if decide (s = id) then Err SF_SESSION_ERROR_NOT_EXIST else server_session_get_fields c s.
Proof.
  intros Hwf Hid. destruct (get_fields_cases c id) as [[f Hf]|Hf].
  - pose proof (get_ok_find _ _ _ Hf) as [a Ha]. pose proof Hwf as [cs R].
    destruct (delete_found c cs id a R Hid Ha) as (c' & -> & Hwf' & [Hcap Hcb Hda Hen] & Hlive).
    apply find_live in Ha as [Hal Hai]; [|done..].
    assert (∀ b, id_of (heap_of c') b = id_of (heap_of c) b) as Hids
      by (intros b; unfold id_of; by rewrite Hen).
    split; [done|]. intros s Hs. simpl. case_decide as Hd.
    + apply ok_absent. intros g (b & Hb & Hbi & _)%get_fields_ok; [|done..].
      rewrite Hids in Hbi. rewrite Hlive in Hb.
      assert ((find c s).1 = Some a ∧ (find c s).1 = Some b) as [] by (rewrite !find_live; set_solver).
      set_solver.
    + apply get_fields_same. intros g. rewrite !get_fields_ok by done.
      rewrite Hda, Hlive. apply exist_proper. intros b. rewrite Hids. set_solver.
  - rewrite delete_missing by done. split; [done|]. intros s Hs. by case_decide; [subst|].
Qed.

Lemma clear_get c : wf c →
  wf (server_session_clear c) ∧
  ∀ s, id_ok s → server_session_get_fields (server_session_clear c) s =
    if part1_persistent (part1 s) then server_session_get_fields c s
    else Err SF_SESSION_ERROR_NOT_EXIST.
Proof.
  intros Hwf. destruct (clear_spec c Hwf) as (Hwf' & [Hcap Hcb Hda Hen] & Hlive).
  assert (∀ b, id_of (heap_of (server_session_clear c)) b = id_of (heap_of c) b) as Hids
    by (intros b; unfold id_of; by rewrite Hen).
  split; [done|]. intros s Hs. destruct (part1_persistent (part1 s)) eqn:Ep.
  - apply get_fields_same. intros g. rewrite !get_fields_ok by done. rewrite Hda.
    apply exist_proper. intros b. rewrite Hids, Hlive. unfold persistent_id.
    split; [naive_solver|]. intros (? & <- & ?). done.
  - apply ok_absent. intros g (b & Hb & Hbi & _)%get_fields_ok; [|done..].
    rewrite Hids in Hbi. apply Hlive in Hb as [_ Hp]. unfold persistent_id in Hp. congruence.
Qed.

(** Adding a session under a given id that is not in the table stores its
    fields under that id, in an object that was free, and leaves every other
    session as it was; when the pool is exhausted [NULL] is returned and nothing
    changes. *)
Theorem session_add_given_id samples id f pub per c :
  wf c → id_ok id → part1 id ≠ 0 → absent c id →
  ∃ r c', server_session_add_ex samples id f pub per c = Some (r, c') ∧ wf c' ∧
    size (mb_live (mb c')) = (size (mb_live (mb c)) + (if decide (is_Some r) then 1 else 0))%nat ∧
    ∀ s, id_ok s →
      server_session_get_fields c' s =
      if decide (s = id ∧ is_Some r) then Ok f else server_session_get_fields c s.
Proof.
  intros Hwf Hid Hz Hab.
  destruct (add_given_get samples id f pub per c Hwf Hid Hz Hab) as (r & c' & ? & ? & Hl & Hf & ?).
  exists r, c'. split_and!; [done..| |done]. fold (live c') (live c). rewrite Hl.
  destruct r as [se|]; simpl; [|lia].
  rewrite size_union, size_singleton by (specialize (Hf se eq_refl); set_solver). lia.
Qed.

(** C28: adding a session without an id gives it an id that no session has, that
    carries the requested publish and persistent bits; the loop that draws ids
    ends as soon as one round draws an unused id. *)
Theorem session_add_new_id samples id f pub per c :
  wf c → part1 id = 0 →
  (∀ se c', server_session_add_ex samples id f pub per c = Some (Some se, c') →
     wf c' ∧ ∃ new, id_info (entry (heap_of c' se)) = new ∧ id_ok new ∧ absent c new ∧
       part1_publish (part1 new) = pub ∧ part1_persistent (part1 new) = per ∧
       ∀ s, id_ok s →
         server_session_get_fields c' s =
         if decide (s = new) then Ok f else server_session_get_fields c s) ∧
  (∀ k s, samples !! k = Some s →
     absent c (generate_id pub per (uint16 (sn c + 1 + Z.of_nat k)) s) →
     is_Some (server_session_add_ex samples id f pub per c)).
Proof.
  intros Hwf Hz. pose proof (add_generated samples id f pub per c Hwf Hz) as Hg. split.
  - intros se c' Hadd. rewrite Hadd in Hg. destruct Hg as (k & s & Hk & Hno & Ha).
    set (new := generate_id _ _ _ s) in *. pose proof Ha as [Hwf' _ _ Hid _ _].
    assert (id_ok new) as Hok by apply generate_id_ok.
    destruct (added_get c c' se new f Hwf Hok Ha Hno) as [Hget Hoth].
    split; [done|]. exists new. split_and!; [done..|by apply ok_absent|apply pack_part1_publish|apply pack_part1_persistent|].
    intros s' Hs'. case_decide; [by subst|by apply Hoth].
  - intros k s Hk Hab. destruct (server_session_add_ex _ _ _ _ _ _); [done|].
    destruct (Hg k s Hk) as [g Hgo]. by destruct (absent_ok _ _ Hab g).
Qed.

(** Deleting a session removes exactly that session and gives its entry back
    to the pool; deleting an id that is not in the table is [ENOENT] and changes
    nothing. *)
Theorem session_delete_correct c id :
  wf c → id_ok id →
  let '(r, c') := server_session_delete id c in
  wf c' ∧ (r = Ok tt ↔ ∃ f, server_session_get_fields c id = Ok f) ∧
  (r ≠ Ok tt → r = Err ENOENT ∧ c' = c) ∧
  (∀ s, id_ok s → server_session_get_fields c' s =
     if decide (s = id) then Err SF_SESSION_ERROR_NOT_EXIST else server_session_get_fields c s) ∧
  (r = Ok tt → size (mb_live (mb c)) = S (size (mb_live (mb c')))).
Proof.
  intros Hwf Hid. destruct (delete_get c id Hwf Hid) as [Hw Hget].
  destruct (get_fields_cases c id) as [[f Hf]|Hf].
  - pose proof (get_ok_find _ _ _ Hf) as [a Ha]. pose proof Hwf as [cs R].
    destruct (delete_found c cs id a R Hid Ha) as (c' & Hd & _ & _ & Hlive). rewrite Hd in *.
    apply find_live in Ha as [Hal Hai]; [|done..].
    split_and!; [done|by split; [eauto|]|done..|].
    intros _. fold (live c) (live c'). rewrite Hlive, size_difference by set_solver.
    rewrite size_singleton. assert (size (live c) ≠ 0%nat); [|lia].
    intros Hz%size_empty_inv. set_solver.
  - rewrite delete_missing in * by done.
    split_and!; [done|by split; [|intros [? ?]; congruence]|done..].
Qed.

(** C29: clearing the table drops the sessions whose id has the persistent bit
    unset, returns their entries to the pool, and keeps the others with their
    fields. *)
Theorem session_clear_keeps_persistent c :
  wf c →
  wf (server_session_clear c) ∧
  (∀ a, a ∈ mb_live (mb (server_session_clear c)) ↔
        a ∈ mb_live (mb c) ∧ part1_persistent (part1 (id_of (heap_of c) a)) = true) ∧
  ∀ s, id_ok s →
    server_session_get_fields (server_session_clear c) s =
    if part1_persistent (part1 s) then server_session_get_fields c s
    else Err SF_SESSION_ERROR_NOT_EXIST.
Proof.
  intros Hwf. destruct (clear_get c Hwf) as [Hw Hget].
  destruct (clear_spec c Hwf) as (_ & _ & Hlive). split_and!; [done|exact Hlive|done].
Qed.

(** ** Replacing *)

Lemma find_loop_ext h h' fuel prev s :
  (∀ a, id_of h' a = id_of h a ∧ next (h' a) = next (h a)) →
  find_loop fuel h' prev s = find_loop fuel h prev s.
Proof.
  intros Hh. revert prev. induction fuel as [|fuel IH]; intros prev; simpl; [done|].
  destruct (Hh prev) as [_ ->]. destruct (next (h prev)) as [a|]; [|done].
  destruct (Hh a) as [-> _]. by rewrite IH.
Qed.

Lemma find_ext c h s :
  (∀ a, id_of h a = id_of (heap_of c) a ∧ next (h a) = next (heap_of c a)) →
  find (with_heap h c) s = find c s.
Proof.
  intros Hh. unfold find. change (heap_of (with_heap h c)) with h.
  change (fuel_of (with_heap h c)) with (fuel_of c).
  change (bucket_head (with_heap h c) _) with (bucket_head c (bucket_index c (part1 s))).
  unfold session_htable_find. destruct (bucket_head _ _) as [b|]; [|done].
  destruct (Hh b) as [-> _]. by rewrite (find_loop_ext (heap_of c) h).
Qed.

(** Adding a session under the id of an existing one ([replace]) copies the
    fields pointer of the new object into the existing entry and then frees the
    new object.  The entry of the session is left with a fields pointer into a
    freed object, and the pointer returned to the caller is that object too. *)
Theorem session_replace_dangles samples id f pub per c g se c' :
  wf c → id_ok id → part1 id ≠ 0 → server_session_get_fields c id = Ok g →
  server_session_add_ex samples id f pub per c = Some (Some se, c') →
  ∃ a, (find c' id).1 = Some a ∧ a ∈ mb_live (mb c') ∧
       fields (entry (heap_of c' a)) = se ∧ se ∉ mb_live (mb c').
Proof.
  intros Hwf Hid Hz Hg Hadd.
  destruct (add_ex_alloc samples id f pub per c Hwf)
    as [(? & Heq & _)|(c2 & se' & (Hfr & Hlive & Hsn & Hids & Hda & HR) & Heq)];
    rewrite Heq in Hadd; [done|]. clear Heq.
  rewrite (proj2 (Z.eqb_neq _ _)) in Hadd by done. simpl in Hadd. injection Hadd as -> <-.
  apply get_fields_ok in Hg as (a & Ha & Hai & _); [|done..].
  destruct Hwf as [cs R]. set (c3 := with_heap (alter (set_id id) se (heap_of c2)) c2) in *.
  assert (rep c3 cs {[se]}) as R3 by (by apply rep_loose_alter; [|apply HR]).
  assert (a ≠ se) as Hne by (by intros ->).
  assert (id_of (heap_of c3) se = id) as Hse.
  { unfold id_of, heap_of; simpl. by rewrite fn_lookup_alter. }
  assert (id_of (heap_of c3) a = id) as Ha3.
  { unfold id_of, heap_of in *; simpl. rewrite fn_lookup_alter_ne by done. by rewrite Hids. }
  assert (in_chains cs a) as Hac by (apply (rep_live _ _ _ R) in Ha; set_solver).
  assert ((find c3 id).1 = Some a) as Hf3 by (by apply (find_some c3 cs _ R3)).
  unfold session_htable_insert. rewrite Hse.
  destruct (find c3 id) as [fnd prev]. simpl in Hf3. subst fnd. simpl.
  set (h4 := alter (set_entry (entry (heap_of c3 se))) a (heap_of c3)).
  set (c4 := fast_mblock_free_object (with_heap h4 c3) se).
  destruct (call_add_func_frame c4 se) as (Hmem & Hlv & _).
  assert (live c4 = live c) as Hl4.
  { transitivity (live c2 ∖ {[se]}); [apply mb_free_live|]. rewrite Hlive. set_solver. }
  exists a. fold (live (call_add_func c4 se)). rewrite Hlv, Hl4. unfold heap_of. rewrite Hmem.
  split_and!; [|done| |done].
  - set (c5 := with_heap (heap_of c3) c4).
    assert (rep c5 cs ∅) as R5.
    { eapply (rep_ext c3); [done..|apply R3| |set_solver].
      intros b. change (live c5) with (live c4). rewrite Hl4. apply R. }
    transitivity ((find c5 id).1); [|by apply (find_some c5 cs _ R5)].
    transitivity ((find c4 id).1); [by unfold call_add_func; case_match|].
    rewrite <- (find_ext c5 h4); [done|]. intros b. change (heap_of c5) with (heap_of c3).
    unfold h4, id_of in *. destruct (decide (a = b)) as [<-|].
    + rewrite fn_lookup_alter. split; [|done]. transitivity id; [exact Hse|by symmetry].
    + by rewrite fn_lookup_alter_ne.
  - change (ent (mem c4)) with h4. unfold h4. rewrite fn_lookup_alter. apply (rep_fields _ _ _ R3).
Qed.
End spec.

Section privileges.
Context {X MB : Type} `{!Mblock MB, !MblockLaws MB, !FcCompare, !FcCompareLaws}.
Implicit Types c : ServerSessionContext SessionSyncedFields X MB.

(** [mask] asks for no bit that [priv] does not have. *)
Definition covers (priv mask : Z) : Prop :=
  ∀ i, 0 ≤ i → Z.testbit mask i = true → Z.testbit priv i = true.

(** The result a privilege check owes for the privileges [priv] of a session. *)
Definition decides (r : result unit) (priv mask : Z) : Prop :=
  (r = Ok tt ∧ covers priv mask) ∨ (r = Err EPERM ∧ ¬ covers priv mask).

Lemma decides_mask priv mask :
  decides (if Z.land priv mask =? mask then Ok tt else Err EPERM) priv mask.
Proof.
  pose proof (flags_all_spec priv mask) as Hs. unfold flags_all in Hs. unfold decides, covers.
  destruct (Z.land priv mask =? mask); [left|right]; naive_solver.
Qed.

(** Each privilege check answers for the fields stored under the session id:
    it grants exactly when every requested bit is set in the corresponding
    privilege word, denies with [EPERM] otherwise, and reports an unknown
    session as such. *)
Theorem session_priv_checks c s mask :
  match server_session_get_fields c s with
  | Ok f =>
      decides (server_session_user_priv_granted c s mask) (user_priv f) mask ∧
      decides (server_session_fstore_priv_granted c s mask) (fstore (pool_privs f)) mask ∧
      decides (server_session_fdir_priv_granted c s mask) (fdir (pool_privs f)) mask
  | Err e =>
      e = SF_SESSION_ERROR_NOT_EXIST ∧
      server_session_user_priv_granted c s mask = Err e ∧
      server_session_fstore_priv_granted c s mask = Err e ∧
      server_session_fdir_priv_granted c s mask = Err e
  end.
Proof.
  unfold server_session_get_fields, server_session_user_priv_granted,
    server_session_fstore_priv_granted, server_session_fdir_priv_granted.
  destruct (find c s) as [[a|] p]; [|done]. split_and!; apply decides_mask.
Qed.
End privileges.

End SessionSpec.

(** ** A table to evaluate *)

Module SessionExamples.
Import Ref SessionSpec.

Definition demo_fields (u p : Z) : SessionSyncedFields :=
  {| user_id := u; user_priv := p; pool_id := 0; pool_available := false;
     pool_privs := {| fdir := 0; fstore := 0 |} |}.

Definition demo_init : ServerSessionContext SessionSyncedFields unit Ref.pool :=
  server_session_init_ex 2 3 {| add_func := None; del_func := None |} Ref.empty_pool
    (λ _, demo_fields 0 0) tt.

Definition demo_id (n : Z) : ServerSessionIdInfo := {| part1 := n; part2 := 7 |}.

(** Sessions 1, 4 (same bucket) and a persistent one. *)
Definition demo_persistent : ServerSessionIdInfo := {| part1 := 2 ^ 33; part2 := 9 |}.

Definition demo_add (id : ServerSessionIdInfo) (f : SessionSyncedFields)
    (c : ServerSessionContext SessionSyncedFields unit Ref.pool) :=
  match server_session_add_ex [] id f false false c with
  | Some (_, c') => c'
  | None => c
  end.

Definition demo : ServerSessionContext SessionSyncedFields unit Ref.pool :=
  demo_add demo_persistent (demo_fields 30 3)
    (demo_add (demo_id 1) (demo_fields 10 1) (demo_add (demo_id 4) (demo_fields 40 4) demo_init)).

Definition demo_sample : id_sample :=
  {| g_current_time := 1700000000; rand := 12345; get_current_time_ns := 99; fc_safe_rand := 5 |}.

Lemma demo_id_ok n : in_uint 64 n → id_ok (demo_id n).
Proof. intros. split; [done|]. simpl. wrap_lia. Qed.

Lemma demo_add_some id f c :
  part1 id ≠ 0 →
  ∃ se, server_session_add_ex [] id f false false c = Some (Some se, demo_add id f c).
Proof.
  intros Hz. unfold demo_add, server_session_add_ex. rewrite (proj2 (Z.eqb_neq _ _)) by done.
  simpl. by eexists.
Qed.

Lemma demo_add_step id f c :
  id_ok id → part1 id ≠ 0 → absent c id → step c (demo_add id f c).
Proof. intros Hid Hz Hab. destruct (demo_add_some id f c Hz) as [se E]. by eapply step_add. Qed.

Lemma demo_reachable : reachable 2 3 demo.
Proof.
  unfold demo. do 3 (eapply reachable_step;
    [|apply demo_add_step; [split; simpl; wrap_lia|simpl; lia|vm_compute; reflexivity]]).
  by apply (reachable_init 2 3).
Qed.

Lemma demo_wf : wf demo.
Proof.
  pose proof demo_reachable as Hr. induction Hr; [by apply wf_init|by eapply wf_step].
Qed.


Lemma session_add_given_id_witness :
  absent demo (demo_id 7) ∧
  ∃ r c', server_session_add_ex [] (demo_id 7) (demo_fields 70 7) false false demo = Some (r, c') ∧
    wf c'.
Proof.
  assert (absent demo (demo_id 7)) as Hab by (vm_compute; reflexivity). split; [exact Hab|].
  destruct (session_add_given_id [] (demo_id 7) (demo_fields 70 7) false false demo
    demo_wf (demo_id_ok 7 ltac:(wrap_lia)) ltac:(done) Hab) as (r & c' & Hadd & Hwf & _).
  exists r, c'. split; [exact Hadd|exact Hwf].
Defined.

Lemma session_add_new_id_witness :
  is_Some (server_session_add_ex [demo_sample] (demo_id 0) (demo_fields 5 5) true false demo).
Proof.
  destruct (session_add_new_id [demo_sample] (demo_id 0) (demo_fields 5 5) true false demo
    demo_wf eq_refl) as [_ Hterm].
  apply (Hterm 0%nat demo_sample eq_refl). vm_compute. reflexivity.
Defined.

Lemma session_delete_correct_witness :
  let '(r, c') := server_session_delete (demo_id 4) demo in wf c' ∧ r = Ok tt.
Proof.
  pose proof (session_delete_correct demo (demo_id 4) demo_wf) as Hd.
  specialize (Hd ltac:(apply demo_id_ok; wrap_lia)).
  destruct (server_session_delete (demo_id 4) demo) as [r c'].
  destruct Hd as (Hwf & Hr & _). split; [exact Hwf|]. apply Hr.
  exists (demo_fields 40 4). vm_compute. reflexivity.
Defined.

Lemma session_clear_keeps_persistent_witness :
  wf (server_session_clear demo) ∧
  server_session_get_fields (server_session_clear demo) demo_persistent = Ok (demo_fields 30 3) ∧
  server_session_get_fields (server_session_clear demo) (demo_id 1) =
    Err SF_SESSION_ERROR_NOT_EXIST.
Proof.
  destruct (session_clear_keeps_persistent demo demo_wf) as (Hwf & _ & Hget).
  rewrite !Hget by (split; simpl; wrap_lia). split; [exact Hwf|]. vm_compute. done.
Defined.

Lemma session_replace_dangles_witness :
  ∃ se c', server_session_add_ex [] (demo_id 4) (demo_fields 40 4) false false demo =
             Some (Some se, c') ∧ se ∉ mb_live (mb c').
Proof.
  destruct (demo_add_some (demo_id 4) (demo_fields 40 4) demo) as (se & E); [done|].
  exists se, (demo_add (demo_id 4) (demo_fields 40 4) demo). split; [exact E|].
  destruct (session_replace_dangles [] (demo_id 4) (demo_fields 40 4) false false demo
    (demo_fields 40 4) se _ demo_wf (demo_id_ok 4 ltac:(wrap_lia)) ltac:(done)
    ltac:(vm_compute; reflexivity) E) as (a & _ & _ & _ & Hse). exact Hse.
Defined.

(** A sequence of the calls that [session_sync.c] makes (a session created,
    announced again, and another one created) by which the first session ends
    up with the privileges of the second: the entry left by the replacement
    reads the storage that the pool hands out next. *)
Theorem session_replace_shares_fields :
  let c1 := demo_add (demo_id 1) (demo_fields 10 0) demo_init in
  let c2 := demo_add (demo_id 1) (demo_fields 10 0) c1 in
  let c3 := demo_add (demo_id 5) (demo_fields 50 (2 ^ 62)) c2 in
  server_session_user_priv_granted c1 (demo_id 1) (2 ^ 62) = Err EPERM ∧
  server_session_user_priv_granted c3 (demo_id 1) (2 ^ 62) = Ok tt ∧
  server_session_get_fields c3 (demo_id 1) = Ok (demo_fields 50 (2 ^ 62)).
Proof. vm_compute. done. Qed.

End SessionExamples.
