(* ===== verification/FcfsFile.v ===== *)
(** * File operations of the client (src/api/fcfs_api_file.c, fcfs_api_util.h)

    Open, close, positioned and sequential reads and writes, truncation,
    allocation, seeking and locking.  A file handle is a [FCFSAPIFileInfo]; the
    directory service (FastDIR), the storage service (faststore) and the report
    queue are reached through the classes [FdirClient], [FsApi] and
    [AsyncReport]; their joint state is an abstract type [W]. *)
From Stdlib Require Import Init.Byte.
From S2P Require Import Prelude Fastcommon.
Local Open Scope Z_scope.

Module FcfsFile.

(** ** Constants of the platform headers *)
Definition O_WRONLY : Z := 1.
Definition O_RDWR : Z := 2.
Definition O_CREAT : Z := 64.
Definition O_EXCL : Z := 128.
Definition O_TRUNC : Z := 512.
Definition O_APPEND : Z := 1024.
Definition O_NOFOLLOW : Z := 131072.
Definition S_IFMT : Z := 61440.
Definition S_IFIFO : Z := 4096.
Definition S_IFCHR : Z := 8192.
Definition S_IFDIR : Z := 16384.
Definition S_IFBLK : Z := 24576.
Definition S_IFREG : Z := 32768.
Definition S_IFLNK : Z := 40960.
Definition R_OK : Z := 4.
Definition W_OK : Z := 2.
Definition SEEK_SET : Z := 0.
Definition SEEK_CUR : Z := 1.
Definition SEEK_END : Z := 2.
Definition FALLOC_FL_KEEP_SIZE : Z := 1.
Definition FALLOC_FL_PUNCH_HOLE : Z := 2.

Definition S_ISDIR (mode : Z) : bool := Z.land mode S_IFMT =? S_IFDIR.
Definition S_ISREG (mode : Z) : bool := Z.land mode S_IFMT =? S_IFREG.
Definition S_ISLNK (mode : Z) : bool := Z.land mode S_IFMT =? S_IFLNK.
Definition S_ISCHR (mode : Z) : bool := Z.land mode S_IFMT =? S_IFCHR.
Definition S_ISBLK (mode : Z) : bool := Z.land mode S_IFMT =? S_IFBLK.

(** ** Data *)

(** A block of a file and a slice of it; a file offset is [block_offset +
    slice_offset]. *)
Record FSBlockSliceKeyInfo := {
  oid : Z;
  block_offset : Z;
  slice_offset : Z;
  slice_length : Z;
}.
Definition slice_start (k : FSBlockSliceKeyInfo) : Z := block_offset k + slice_offset k.

Record FDIRDEntryStat := {
  mode : Z; uid : Z; gid : Z; rdev : Z;
  size : Z; space_end : Z; alloc : Z; nlink : Z;
  atime : Z; mtime : Z; ctime : Z;
}.
Record FDIRDEntryInfo := { inode : Z; stat : FDIRDEntryStat }.

(** The bits of [FDIR_DENTRY_FIELD_MODIFIED_FLAG_*]. *)
Record modified_flags := {
  FLAG_FILE_SIZE : bool;
  FLAG_SPACE_END : bool;
  FLAG_MTIME : bool;
  FLAG_INC_ALLOC : bool;
}.
Definition no_flags : modified_flags :=
  {| FLAG_FILE_SIZE := false; FLAG_SPACE_END := false; FLAG_MTIME := false;
     FLAG_INC_ALLOC := false |}.
Definition flags_or (f g : modified_flags) : modified_flags :=
  {| FLAG_FILE_SIZE := FLAG_FILE_SIZE f || FLAG_FILE_SIZE g;
     FLAG_SPACE_END := FLAG_SPACE_END f || FLAG_SPACE_END g;
     FLAG_MTIME := FLAG_MTIME f || FLAG_MTIME g;
     FLAG_INC_ALLOC := FLAG_INC_ALLOC f || FLAG_INC_ALLOC g |}.
Definition flags_zero (f : modified_flags) : bool :=
  negb (FLAG_FILE_SIZE f || FLAG_SPACE_END f || FLAG_MTIME f || FLAG_INC_ALLOC f).

#[global] Instance modified_flags_eq_dec : EqDecision modified_flags.
Proof. solve_decision. Defined.

Record FDIRSetDEntrySizeInfo := {
  ds_inode : Z;
  ds_file_size : Z;
  ds_inc_alloc : Z;
  ds_force : bool;
  ds_flags : modified_flags;
}.

#[global] Instance dsize_eq_dec : EqDecision FDIRSetDEntrySizeInfo.
Proof. solve_decision. Defined.

Record FDIRDentryOperator := { oper_uid : Z; oper_gid : Z; additional_gids : list Z }.

Record FCFSAPIContext := {
  persist_additional_gids : bool;
  use_sys_lock_for_append : bool;
  async_report_enabled : bool;
  trash_bin_enabled : bool;
  ns : string_t;
}.

(** Where [fi->oper.additional_gids.list] points to. *)
Inductive gids_list := GidsCaller | GidsFixed | GidsHeap | GidsNull.
#[global] Instance gids_list_eq_dec : EqDecision gids_list.
Proof. solve_decision. Defined.

Record FCFSAPIFileInfo := {
  ctx : option FCFSAPIContext;
  oper : FDIRDentryOperator;
  gids : gids_list;
  tid : Z;
  flock : option Z;
  dentry : FDIRDEntryInfo;
  flags : Z;
  magic : Z;
  last_modified_time : Z;
  offset : Z;
}.

Definition FCFS_API_MAGIC_NUMBER : Z := 1588076578.

Definition set_size (n : Z) (s : FDIRDEntryStat) := {| mode := mode s; uid := uid s;
  gid := gid s; rdev := rdev s; size := n; space_end := space_end s; alloc := alloc s;
  nlink := nlink s; atime := atime s; mtime := mtime s; ctime := ctime s |}.
Definition set_space_end (n : Z) (s : FDIRDEntryStat) := {| mode := mode s; uid := uid s;
  gid := gid s; rdev := rdev s; size := size s; space_end := n; alloc := alloc s;
  nlink := nlink s; atime := atime s; mtime := mtime s; ctime := ctime s |}.
Definition set_mtime (n : Z) (s : FDIRDEntryStat) := {| mode := mode s; uid := uid s;
  gid := gid s; rdev := rdev s; size := size s; space_end := space_end s; alloc := alloc s;
  nlink := nlink s; atime := atime s; mtime := n; ctime := ctime s |}.
Definition map_stat (f : FDIRDEntryStat → FDIRDEntryStat) (d : FDIRDEntryInfo) :=
  {| inode := inode d; stat := f (stat d) |}.

Definition set_dentry (d : FDIRDEntryInfo) (fi : FCFSAPIFileInfo) := {| ctx := ctx fi;
  oper := oper fi; gids := gids fi; tid := tid fi; flock := flock fi; dentry := d;
  flags := flags fi; magic := magic fi; last_modified_time := last_modified_time fi;
  offset := offset fi |}.
Definition set_offset (o : Z) (fi : FCFSAPIFileInfo) := {| ctx := ctx fi;
  oper := oper fi; gids := gids fi; tid := tid fi; flock := flock fi; dentry := dentry fi;
  flags := flags fi; magic := magic fi; last_modified_time := last_modified_time fi;
  offset := o |}.
Definition set_last_modified (t : Z) (fi : FCFSAPIFileInfo) := {| ctx := ctx fi;
  oper := oper fi; gids := gids fi; tid := tid fi; flock := flock fi; dentry := dentry fi;
  flags := flags fi; magic := magic fi; last_modified_time := t; offset := offset fi |}.
Definition set_magic (n : Z) (fi : FCFSAPIFileInfo) := {| ctx := ctx fi;
  oper := oper fi; gids := gids fi; tid := tid fi; flock := flock fi; dentry := dentry fi;
  flags := flags fi; magic := n; last_modified_time := last_modified_time fi;
  offset := offset fi |}.
Definition set_ctx (c : option FCFSAPIContext) (fi : FCFSAPIFileInfo) := {| ctx := c;
  oper := oper fi; gids := gids fi; tid := tid fi; flock := flock fi; dentry := dentry fi;
  flags := flags fi; magic := magic fi; last_modified_time := last_modified_time fi;
  offset := offset fi |}.
Definition set_gids (g : gids_list) (fi : FCFSAPIFileInfo) := {| ctx := ctx fi;
  oper := oper fi; gids := g; tid := tid fi; flock := flock fi; dentry := dentry fi;
  flags := flags fi; magic := magic fi; last_modified_time := last_modified_time fi;
  offset := offset fi |}.
Definition set_oper (o : FDIRDentryOperator) (t : Z) (fi : FCFSAPIFileInfo) := {| ctx := ctx fi;
  oper := o; gids := GidsCaller; tid := t; flock := flock fi; dentry := dentry fi;
  flags := flags fi; magic := magic fi; last_modified_time := last_modified_time fi;
  offset := offset fi |}.
Definition set_flags (n : Z) (fi : FCFSAPIFileInfo) := {| ctx := ctx fi;
  oper := oper fi; gids := gids fi; tid := tid fi; flock := flock fi; dentry := dentry fi;
  flags := n; magic := magic fi; last_modified_time := last_modified_time fi;
  offset := offset fi |}.
Definition set_flock (s : option Z) (fi : FCFSAPIFileInfo) := {| ctx := ctx fi;
  oper := oper fi; gids := gids fi; tid := tid fi; flock := s; dentry := dentry fi;
  flags := flags fi; magic := magic fi; last_modified_time := last_modified_time fi;
  offset := offset fi |}.

(** A write buffer: memory seen from the address the caller passed, and the
    current position of [wbuffer->buff] relative to it.  For [is_writev] the
    memory is the concatenation of the vectors and [wbuffer->iov] does not
    move. *)
Record FSAPIWriteBuffer := {
  is_writev : bool;
  wmem : Z → byte;
  wpos : Z;
}.
Definition advance_buff (n : Z) (b : FSAPIWriteBuffer) : FSAPIWriteBuffer :=
  {| is_writev := is_writev b; wmem := wmem b; wpos := wpos b + n |}.
Definition wview (b : FSAPIWriteBuffer) : Z → byte := λ i, wmem b (wpos b + i).

(** Bytes stored at position [pos] of a read buffer. *)
Definition blit (buf : list byte) (pos : Z) (bs : list byte) : list byte :=
  take (Z.to_nat pos) buf ++ bs ++ drop (Z.to_nat pos + length bs) buf.

(** The fields a stat modification sets ([FDIRStatModifyFlags] and the values). *)
Record stat_modify := {
  m_mode : option Z; m_uid : option Z; m_gid : option Z;
  m_atime : option Z; m_atime_now : bool; m_mtime : option Z; m_mtime_now : bool;
}.

(** The time arguments of [utimensat]: [UTIME_NOW], [UTIME_OMIT] or seconds. *)
Inductive utime_spec := UTIME_NOW | UTIME_OMIT | UTIME_AT (sec : Z).

(** ** The services *)

Class FdirClient (W : Type) := {
  fdir_client_lookup_inode_by_path : FDIRDentryOperator → string_t → M W Z;
  fdir_client_stat_dentry_by_path : FDIRDentryOperator → string_t → bool → M W FDIRDEntryInfo;
  fdir_client_stat_dentry_by_inode : FDIRDentryOperator → Z → bool → M W FDIRDEntryInfo;
  fdir_client_access_dentry_by_path :
    FDIRDentryOperator → string_t → Z → bool → M W FDIRDEntryInfo;
  fdir_client_access_dentry_by_inode : FDIRDentryOperator → Z → Z → bool → M W FDIRDEntryInfo;
  fdir_client_create_dentry : FDIRDentryOperator → string_t → Z → M W FDIRDEntryInfo;
  fdir_client_set_dentry_size : FDIRSetDEntrySizeInfo → M W FDIRDEntryInfo;
  fdir_client_init_session : M W Z;
  fdir_client_close_session : Z → bool → M W unit;
  (** the size and the end of the allocated space of the locked file *)
  fdir_client_dentry_sys_lock : Z → Z → M W (Z * Z);
  (** the flag tells whether a namespace is given, so that the dentry is updated *)
  fdir_client_dentry_sys_unlock_ex : Z → bool → Z → FDIRSetDEntrySizeInfo → M W unit;
  (** session, inode, operation, offset, length, owner id, owner pid *)
  fdir_client_flock_dentry_ex : Z → Z → Z → Z → Z → Z → Z → M W unit;
  (** the conflicting lock: operation, offset, length, owner id, owner pid *)
  fdir_client_getlk_dentry : Z → Z → Z → Z → Z → Z → M W (Z * Z * Z * Z * Z);
  (** which fields to modify, and their values *)
  fdir_client_modify_stat_by_inode : FDIRDentryOperator → Z → stat_modify → M W FDIRDEntryInfo;
  fdir_client_modify_stat_by_path :
    FDIRDentryOperator → string_t → stat_modify → M W FDIRDEntryInfo;
  (** the entry removed, or replaced by a rename, if any *)
  fdir_client_remove_dentry_ex : FDIRDentryOperator → string_t → M W FDIRDEntryInfo;
  fdir_client_rename_dentry_ex :
    FDIRDentryOperator → string_t → string_t → M W (option FDIRDEntryInfo);
}.

Class FsApi (W : Type) := {
  FS_FILE_BLOCK_SIZE : Z;
  fs_set_block_slice : Z → Z → Z → FSBlockSliceKeyInfo;
  fs_next_block_slice_key : FSBlockSliceKeyInfo → Z → FSBlockSliceKeyInfo;
  fs_set_slice_size : FSBlockSliceKeyInfo → Z → Z → FSBlockSliceKeyInfo;
  (** error code if any, [write_bytes], [inc_alloc] *)
  fs_api_slice_write : FSBlockSliceKeyInfo → (Z → byte) → W → (option errno * Z * Z) * W;
  (** error code if any, the bytes read *)
  fs_api_slice_read : FSBlockSliceKeyInfo → W → (option errno * list byte) * W;
  fs_api_block_delete : FSBlockSliceKeyInfo → M W Z;
  fs_api_slice_delete : FSBlockSliceKeyInfo → M W Z;
  fs_api_slice_allocate : FSBlockSliceKeyInfo → M W Z;
  fs_api_unlink_file : Z → Z → M W unit;
  (** the scatter-gather arrays of libserverframe *)
  sf_iova_first_slice : Z → M W unit;
  sf_iova_next_slice : Z → Z → M W unit;
  sf_iova_consume : Z → M W unit;
  sf_iova_memset : Z → Z → M W unit;
}.

(** What the report queue (async_reporter.c, inode_htable.c) offers. *)
Class AsyncReport (W : Type) := {
  async_reporter_push : FDIRSetDEntrySizeInfo → M W unit;
  inode_htable_check_conflict_and_wait : Z → M W unit;
}.

Section operations.
Context {W : Type} `{!Clock W, !Malloc W, !FdirClient W, !FsApi W, !AsyncReport W}.

(** ** Dentry lookups (fcfs_api_util.h) *)

Definition wait_reports (c : FCFSAPIContext) (ino : Z) : M W unit :=
  if async_report_enabled c then
    _ ← attempt (inode_htable_check_conflict_and_wait ino); mret tt
  else mret tt.

Definition fcfs_api_stat_dentry_by_inode_ex (c : FCFSAPIContext) (o : FDIRDentryOperator)
    (ino : Z) (follow : bool) : M W FDIRDEntryInfo :=
  _ ← wait_reports c ino; fdir_client_stat_dentry_by_inode o ino follow.

Definition fcfs_api_stat_dentry_by_fullname_ex (c : FCFSAPIContext) (o : FDIRDentryOperator)
    (path : string_t) (follow : bool) : M W FDIRDEntryInfo :=
  if async_report_enabled c then
    ino ← fdir_client_lookup_inode_by_path o path;
    fcfs_api_stat_dentry_by_inode_ex c o ino follow
  else fdir_client_stat_dentry_by_path o path follow.

(** The callers below all pass [FDIR_FLAGS_OUTPUT_DENTRY]. *)
Definition fcfs_api_access_dentry_by_inode_ex (c : FCFSAPIContext) (o : FDIRDentryOperator)
    (ino mask : Z) (follow : bool) : M W FDIRDEntryInfo :=
  _ ← wait_reports c ino; fdir_client_access_dentry_by_inode o ino mask follow.

Definition fcfs_api_access_dentry_by_path_ex (c : FCFSAPIContext) (o : FDIRDentryOperator)
    (path : string_t) (mask : Z) (follow : bool) : M W FDIRDEntryInfo :=
  if async_report_enabled c then
    ino ← fdir_client_lookup_inode_by_path o path;
    fcfs_api_access_dentry_by_inode_ex c o ino mask follow
  else fdir_client_access_dentry_by_path o path mask follow.

Definition FCFS_API_GET_ACCESS_FOLLOW (open_flags : Z) : bool :=
  negb (flag_set open_flags O_NOFOLLOW).
Definition FCFS_API_GET_ACCESS_MASK (open_flags : Z) : Z :=
  if flag_set open_flags O_WRONLY then W_OK
  else if flag_set open_flags O_RDWR then Z.lor R_OK W_OK
  else R_OK.

Definition fcfs_api_dentry_sys_lock_ex (ino : Z) : M W (Z * (Z * Z)) :=
  session ← fdir_client_init_session;
  sizes ← fdir_client_dentry_sys_lock session ino;
  mret (session, sizes).

Definition fcfs_api_dentry_sys_unlock (session : Z) (update : bool) (old_size : Z)
    (dsize : FDIRSetDEntrySizeInfo) : M W unit :=
  r ← attempt (fdir_client_dentry_sys_unlock_ex session update old_size dsize);
  _ ← attempt (fdir_client_close_session session (negb (is_ok r)));
  lift r.

(** ** Reporting sizes *)

(** With a [dentry] the caller's copy is updated; the result is that copy. *)
Definition report_size_and_time (c : FCFSAPIContext) (dsize : FDIRSetDEntrySizeInfo)
    (d : option FDIRDEntryInfo) : M W (option FDIRDEntryInfo * result unit) :=
  if async_report_enabled c then
    d ← match d with
        | None => mret None
        | Some d =>
            let d := if FLAG_FILE_SIZE (ds_flags dsize)
                     then map_stat (set_size (ds_file_size dsize)) d else d in
            let d := if FLAG_SPACE_END (ds_flags dsize)
                     then map_stat (set_space_end (ds_file_size dsize)) d else d in
            if FLAG_MTIME (ds_flags dsize)
            then now ← get_current_time; mret (Some (map_stat (set_mtime now) d))
            else mret (Some d)
        end;
    r ← attempt (async_reporter_push dsize);
    mret (d, r)
  else
    r ← attempt (fdir_client_set_dentry_size dsize);
    mret match r with
         | Ok d' => (match d with Some _ => Some d' | None => None end, Ok tt)
         | Err e => (d, Err e)
         end.

Record FCFSAPIWriteDoneCallbackArg := {
  bs_key : FSBlockSliceKeyInfo;
  write_bytes : Z;
  inc_alloc : Z;
  extra_file_size : Z;
  extra_space_end : Z;
  extra_last_modified_time : Z;
}.

(** The flags of a report after [write_bytes] were written. *)
Definition write_report_flags (arg : FCFSAPIWriteDoneCallbackArg) (now : Z) : modified_flags :=
  let file_size := slice_start (bs_key arg) + write_bytes arg in
  let flags :=
    if file_size >? extra_file_size arg then
      {| FLAG_FILE_SIZE := true; FLAG_SPACE_END := true; FLAG_MTIME := false;
         FLAG_INC_ALLOC := false |}
    else
      {| FLAG_FILE_SIZE := false; FLAG_SPACE_END := file_size >? extra_space_end arg;
         FLAG_MTIME := now >? extra_last_modified_time arg; FLAG_INC_ALLOC := false |} in
  if inc_alloc arg =? 0 then flags
  else if negb (FLAG_FILE_SIZE flags || FLAG_SPACE_END flags) then
    {| FLAG_FILE_SIZE := true; FLAG_SPACE_END := true; FLAG_MTIME := false;
       FLAG_INC_ALLOC := true |}
  else {| FLAG_FILE_SIZE := FLAG_FILE_SIZE flags; FLAG_SPACE_END := FLAG_SPACE_END flags;
          FLAG_MTIME := FLAG_MTIME flags; FLAG_INC_ALLOC := true |}.

Definition fcfs_api_file_report_size_and_time (c : FCFSAPIContext)
    (arg : FCFSAPIWriteDoneCallbackArg) (d : option FDIRDEntryInfo)
    : M W (modified_flags * option FDIRDEntryInfo * result unit) :=
  let file_size := slice_start (bs_key arg) + write_bytes arg in
  now ← (if file_size >? extra_file_size arg then mret 0 else get_current_time);
  let flags := write_report_flags arg now in
  if flags_zero flags then mret (flags, d, Ok tt)
  else
    '(d, r) ← report_size_and_time c
      {| ds_inode := oid (bs_key arg); ds_file_size := file_size;
         ds_inc_alloc := inc_alloc arg; ds_force := false; ds_flags := flags |} d;
    mret (flags, d, r).

Definition fcfs_api_file_write_done_callback (c : FCFSAPIContext)
    (arg : FCFSAPIWriteDoneCallbackArg) : M W unit :=
  _ ← fcfs_api_file_report_size_and_time c arg None; mret tt.

(** ** Operations on a handle: state passing over the handle and the services *)

Definition FS : Type := FCFSAPIFileInfo * W.
Definition on_services {A} (k : M W A) : M FS A :=
  λ '(fi, w), let '(r, w) := k w in (r, (fi, w)).
Definition get_fi : M FS FCFSAPIFileInfo := λ '(fi, w), (Ok fi, (fi, w)).
Definition modify_fi (f : FCFSAPIFileInfo → FCFSAPIFileInfo) : M FS unit :=
  λ '(fi, w), (Ok tt, (f fi, w)).

(** [fi->ctx->...]; the code of a handle without context is not an error code of
    the source. *)
Definition NULL_DEREFERENCE : errno := EOTHER (-1).
Definition get_ctx : M FS FCFSAPIContext :=
  fi ← get_fi; match ctx fi with Some c => mret c | None => throw NULL_DEREFERENCE end.

Definition is_writable_flags (f : Z) : bool := flag_set f O_WRONLY || flag_set f O_RDWR.

Definition check_writable (fi : FCFSAPIFileInfo) : result unit :=
  if negb (magic fi =? FCFS_API_MAGIC_NUMBER) || negb (is_writable_flags (flags fi)) then
    Err EBADF
  else if S_ISDIR (mode (stat (dentry fi))) then Err EISDIR
  else if S_ISREG (mode (stat (dentry fi))) then Ok tt
  else Err EPERM.

Definition check_readable (fi : FCFSAPIFileInfo) : result unit :=
  if negb (magic fi =? FCFS_API_MAGIC_NUMBER) || flag_set (flags fi) O_WRONLY then Err EBADF
  else if S_ISDIR (mode (stat (dentry fi))) then Err EISDIR
  else if S_ISREG (mode (stat (dentry fi))) then Ok tt
  else Err EPERM.

(** ** Writing *)

(** After a slice was written: update the handle's copy of the dentry. *)
Definition report_modified (arg : FCFSAPIWriteDoneCallbackArg) : M FS unit :=
  c ← get_ctx; fi ← get_fi;
  '(flags, d, _) ← on_services (fcfs_api_file_report_size_and_time c arg (Some (dentry fi)));
  _ ← modify_fi (set_dentry (default (dentry fi) d));
  if FLAG_MTIME flags
  then now ← on_services get_current_time; modify_fi (set_last_modified now)
  else mret tt.

Definition report_if (need_report : bool) (arg : FCFSAPIWriteDoneCallbackArg) : M FS unit :=
  if need_report then report_modified arg else mret tt.

(** The [while] loop of [do_pwrite]: [written_bytes] and [total_inc_alloc] so
    far; [new_offset] is [offset + written_bytes].  The fuel bounds the number
    of slices. *)
Fixpoint pwrite_loop (fuel : nat) (need_report : bool) (sz : Z)
    (key : FSBlockSliceKeyInfo) (wb : FSAPIWriteBuffer) (written total new_offset : Z)
    : M FS (Z * Z) :=
  match fuel with
  | O => mret (written, total)
  | S fuel =>
      fi ← get_fi;
      '(err, n, inc) ← on_services (λ w, let '(r, w) := fs_api_slice_write key (wview wb) w
                                         in (Ok r, w));
      if bool_decide (err ≠ None) && (n =? 0) then mret (written, total)
      else
        let new_offset := new_offset + n in
        let written := written + n in
        let total := total + inc in
        _ ← report_if need_report
               {| bs_key := key; write_bytes := n; inc_alloc := inc;
                  extra_file_size := size (stat (dentry fi));
                  extra_space_end := space_end (stat (dentry fi));
                  extra_last_modified_time := last_modified_time fi |};
        let remain := sz - written in
        if remain <=? 0 then mret (written, total)
        else
          let key := if n =? slice_length key then fs_next_block_slice_key key remain
                     else fs_set_slice_size key new_offset remain in
          if is_writev wb then
            r ← attempt (on_services (sf_iova_next_slice written (slice_length key)));
            match r with
            | Err _ => mret (written, total)
            | Ok _ => pwrite_loop fuel need_report sz key wb written total new_offset
            end
          else
            pwrite_loop fuel need_report sz key (advance_buff written wb) written total new_offset
  end.

(** [written_bytes], [total_inc_alloc] and the result. *)
Definition do_pwrite (wb : FSAPIWriteBuffer) (sz off : Z) (need_report : bool)
    : M FS (result unit * Z * Z) :=
  fi ← get_fi;
  let key := fs_set_block_slice (inode (dentry fi)) off sz in
  go ← (if is_writev wb && (slice_length key <? sz) then
          r ← attempt (on_services (sf_iova_first_slice (slice_length key))); mret (is_ok r)
        else mret true);
  '(written, total) ←
    (if go : bool then pwrite_loop (Z.to_nat sz) need_report sz key wb 0 0 off
     else mret (0, 0));
  mret (if written >? 0 then Ok tt else Err EIO, written, total).

(** The second component is [*written_bytes] when the code sets it. *)
Definition pwrite_wrapper (wb : FSAPIWriteBuffer) (sz off : Z) : M FS (result unit * option Z) :=
  if sz =? 0 then mret (Ok tt, None)
  else if sz <? 0 then mret (Err EINVAL, None)
  else
    fi ← get_fi;
    match check_writable fi with
    | Err e => mret (Err e, None)
    | Ok _ => '(r, written, _) ← do_pwrite wb sz off true; mret (r, Some written)
    end.

Definition FS_API_SET_WBUFFER_BUFF (m : Z → byte) : FSAPIWriteBuffer :=
  {| is_writev := false; wmem := m; wpos := 0 |}.
Definition FS_API_SET_WBUFFER_IOV (iov : list (list byte)) : FSAPIWriteBuffer :=
  {| is_writev := true; wmem := λ i, nth (Z.to_nat i) (concat iov) x00; wpos := 0 |}.
Definition fc_iov_get_bytes (iov : list (list byte)) : Z := Z.of_nat (length (concat iov)).

Definition fcfs_api_pwrite_ex (m : Z → byte) (sz off : Z) : M FS (result unit * option Z) :=
  pwrite_wrapper (FS_API_SET_WBUFFER_BUFF m) sz off.
Definition fcfs_api_pwritev_ex (iov : list (list byte)) (off : Z) : M FS (result unit * option Z) :=
  pwrite_wrapper (FS_API_SET_WBUFFER_IOV iov) (fc_iov_get_bytes iov) off.

Definition do_write (wb : FSAPIWriteBuffer) (sz : Z) : M FS (result unit * option Z) :=
  if sz =? 0 then mret (Ok tt, None)
  else if sz <? 0 then mret (Err EINVAL, None)
  else
    fi ← get_fi;
    match check_writable fi with
    | Err e => mret (Err e, None)
    | Ok _ =>
        c ← get_ctx;
        let use_sys_lock := use_sys_lock_for_append c && negb (async_report_enabled c) &&
                            flag_set (flags fi) O_APPEND in
        if use_sys_lock : bool then
          l ← attempt (on_services (fcfs_api_dentry_sys_lock_ex (inode (dentry fi))));
          match l with
          | Err e => mret (Err e, None)
          | Ok (session, (old_size, _)) =>
              _ ← modify_fi (set_offset old_size);
              '(r, written, total) ← do_pwrite wb sz old_size false;
              _ ← (if is_ok r then modify_fi (λ fi, set_offset (offset fi + written) fi)
                   else mret tt);
              fi ← get_fi;
              _ ← attempt (on_services (fcfs_api_dentry_sys_unlock session
                    (offset fi >? old_size) old_size
                    {| ds_inode := inode (dentry fi); ds_file_size := offset fi;
                       ds_inc_alloc := total; ds_force := false;
                       ds_flags := {| FLAG_FILE_SIZE := true; FLAG_SPACE_END := true;
                                      FLAG_MTIME := false; FLAG_INC_ALLOC := false |} |}));
              mret (r, Some written)
          end
        else
          '(r, written, _) ← do_pwrite wb sz (offset fi) true;
          _ ← (if is_ok r then modify_fi (λ fi, set_offset (offset fi + written) fi)
               else mret tt);
          mret (r, Some written)
    end.

Definition fcfs_api_write_ex (m : Z → byte) (sz : Z) : M FS (result unit * option Z) :=
  do_write (FS_API_SET_WBUFFER_BUFF m) sz.
Definition fcfs_api_writev_ex (iov : list (list byte)) : M FS (result unit * option Z) :=
  do_write (FS_API_SET_WBUFFER_IOV iov) (fc_iov_get_bytes iov).

(** ** Reading *)

(** The inner loop of [do_pread], which runs at most once: the bytes between the
    end of the stored data and the end of the file read as zero.  [pos] is the
    place of the slice in the caller's buffer. *)
Definition fill_hole (is_readv : bool) (off : Z) (read_bytes pos : Z)
    (key : FSBlockSliceKeyInfo) (current_read : Z) (buf : list byte)
    : M FS (result unit * Z * list byte) :=
  if negb (current_read <? slice_length key) then mret (Ok tt, current_read, buf)
  else
    fi ← get_fi;
    let current_offset := off + read_bytes + current_read in
    if current_offset =? size (stat (dentry fi)) then mret (Ok tt, current_read, buf)
    else
      r ← (if current_offset >? size (stat (dentry fi)) then
             c ← get_ctx;
             r ← attempt (on_services (fcfs_api_stat_dentry_by_inode_ex c (oper fi)
                                         (inode (dentry fi)) true));
             match r with
             | Ok d => _ ← modify_fi (set_dentry d); mret (Ok tt)
             | Err e => mret (Err e)
             end
           else mret (Ok tt));
      match r with
      | Err e => mret (Err e, current_read, buf)
      | Ok _ =>
          fi ← get_fi;
          let hole_bytes := size (stat (dentry fi)) - current_offset in
          if hole_bytes >? 0 then
            let fill_bytes := if current_read + hole_bytes >? slice_length key
                              then slice_length key - current_read else hole_bytes in
            r ← (if is_readv
                 then attempt (on_services (sf_iova_memset current_read fill_bytes))
                 else mret (Ok tt));
            match r with
            | Err e => mret (Err e, current_read, buf)
            | Ok _ => mret (Ok tt, current_read + fill_bytes,
                            blit buf (pos + current_read) (replicate (Z.to_nat fill_bytes) x00))
            end
          else mret (Ok tt, current_read, buf)
      end.

(** The [while (1)] loop.  [pos] is where the slice goes in the buffer: the
    plain buffer is indexed by [*read_bytes], the vectors by what was consumed. *)
Fixpoint pread_loop (fuel : nat) (is_readv : bool) (sz off : Z) (key : FSBlockSliceKeyInfo)
    (read_bytes pos : Z) (buf : list byte) : M FS (result unit * Z * list byte) :=
  match fuel with
  | O => mret (Ok tt, read_bytes, buf)
  | S fuel =>
      '(err, data) ← on_services (λ w, let '(r, w) := fs_api_slice_read key w in (Ok r, w));
      if bool_decide (err = None ∨ err = Some ENODATA) then
        let buf := blit buf pos data in
        '(r, current_read, buf) ←
          fill_hole is_readv off read_bytes pos key (Z.of_nat (length data)) buf;
        let read_bytes := read_bytes + current_read in
        let remain := sz - read_bytes in
        if (remain <=? 0) || (current_read <? slice_length key) then mret (r, read_bytes, buf)
        else
          c ← (if is_readv then attempt (on_services (sf_iova_consume current_read))
               else mret (Ok tt));
          match c with
          | Err e => mret (Err e, read_bytes, buf)
          | Ok _ => pread_loop fuel is_readv sz off (fs_next_block_slice_key key remain)
                      read_bytes (pos + current_read) buf
          end
      else mret (match err with Some e => Err e | None => Ok tt end, read_bytes, buf)
  end.

(** Result, [*read_bytes] and the buffer. *)
Definition do_pread (is_readv : bool) (buf : list byte) (sz off : Z)
    : M FS (result unit * Z * list byte) :=
  if sz =? 0 then mret (Ok tt, 0, buf)
  else if sz <? 0 then mret (Err EINVAL, 0, buf)
  else
    fi ← get_fi;
    match check_readable fi with
    | Err e => mret (Err e, 0, buf)
    | Ok _ => pread_loop (Z.to_nat sz) is_readv sz off
                (fs_set_block_slice (inode (dentry fi)) off sz) 0 0 buf
    end.

Definition fcfs_api_pread_ex (buf : list byte) (sz off : Z) : M FS (result unit * Z * list byte) :=
  do_pread false buf sz off.
Definition fcfs_api_preadv_ex (buf : list byte) (off : Z) : M FS (result unit * Z * list byte) :=
  do_pread true buf (Z.of_nat (length buf)) off.

Definition seq_read (is_readv : bool) (buf : list byte) (sz : Z)
    : M FS (result unit * Z * list byte) :=
  fi ← get_fi;
  '(r, n, buf) ← do_pread is_readv buf sz (offset fi);
  _ ← (if is_ok r then modify_fi (λ fi, set_offset (offset fi + n) fi) else mret tt);
  mret (r, n, buf).
Definition fcfs_api_read_ex (buf : list byte) (sz : Z) : M FS (result unit * Z * list byte) :=
  seq_read false buf sz.
Definition fcfs_api_readv_ex (buf : list byte) : M FS (result unit * Z * list byte) :=
  seq_read true buf (Z.of_nat (length buf)).

(** ** Truncating and allocating *)

(** The loop of [do_truncate]; the second component is [*total_dec_alloc], the
    negated sum of what the storage service released. *)
Fixpoint truncate_loop (fuel : nat) (key : FSBlockSliceKeyInfo) (remain total : Z)
    : M W (result unit * Z) :=
  match fuel with
  | O => mret (Ok tt, total)
  | S fuel =>
      r ← attempt (if slice_length key =? FS_FILE_BLOCK_SIZE
                   then fs_api_block_delete key else fs_api_slice_delete key);
      match r with
      | Ok _ | Err ENOENT =>
          let total := match r with Ok dec => total - dec | Err _ => total end in
          let remain := remain - slice_length key in
          if remain <=? 0 then mret (Ok tt, total)
          else truncate_loop fuel (fs_next_block_slice_key key remain) remain total
      | Err e => mret (Err e, total)
      end
  end.

Definition do_truncate (ino old_space_end off length : Z) : M W (result unit * Z) :=
  if off >=? old_space_end then mret (Ok tt, 0)
  else
    let remain := if off + length >? old_space_end then old_space_end - off else length in
    truncate_loop (Z.to_nat remain) (fs_set_block_slice ino off remain) remain 0.

Fixpoint allocate_loop (fuel : nat) (key : FSBlockSliceKeyInfo) (remain total : Z)
    : M W (result unit * Z) :=
  match fuel with
  | O => mret (Ok tt, total)
  | S fuel =>
      r ← attempt (fs_api_slice_allocate key);
      match r with
      | Err e => mret (Err e, total)
      | Ok inc =>
          let remain := remain - slice_length key in
          if remain <=? 0 then mret (Ok tt, total + inc)
          else allocate_loop fuel (fs_next_block_slice_key key remain) remain (total + inc)
      end
  end.

Definition do_allocate (ino off length : Z) : M W (result unit * Z) :=
  if length <=? 0 then mret (Ok tt, 0)
  else allocate_loop (Z.to_nat length) (fs_set_block_slice ino off length) length 0.

Definition use_sys_lock (c : FCFSAPIContext) : bool :=
  use_sys_lock_for_append c && negb (async_report_enabled c).

(** The session of the lock, if one was taken, the old size and space end. *)
Definition check_and_sys_lock (c : FCFSAPIContext) (ino : Z) (o : FDIRDentryOperator)
    : M W (option Z * (Z * Z)) :=
  if use_sys_lock c then
    '(session, sizes) ← fcfs_api_dentry_sys_lock_ex ino; mret (Some session, sizes)
  else
    d ← fcfs_api_stat_dentry_by_inode_ex c o ino true;
    mret (None, (size (stat d), space_end (stat d))).

Definition check_and_sys_unlock (c : FCFSAPIContext) (session : option Z) (old_size : Z)
    (dsize : FDIRSetDEntrySizeInfo) (r : result unit) : M W unit :=
  match session with
  | Some s =>
      u ← attempt (fcfs_api_dentry_sys_unlock s (is_ok r) old_size dsize);
      lift (match r with Ok _ => u | Err e => Err e end)
  | None =>
      match r with
      | Ok _ => '(_, r) ← report_size_and_time c dsize None; lift r
      | Err e => throw e
      end
  end.

(** What [file_truncate] reports; [dec] is [dsize.inc_alloc]. *)
Definition truncate_flags (new_size old_size sp_end dec : Z) : modified_flags :=
  if new_size >=? old_size then
    {| FLAG_FILE_SIZE := negb (new_size =? old_size); FLAG_SPACE_END := false;
       FLAG_MTIME := false; FLAG_INC_ALLOC := false |}
  else
    {| FLAG_FILE_SIZE := true; FLAG_SPACE_END := new_size <? sp_end; FLAG_MTIME := false;
       FLAG_INC_ALLOC := negb (dec =? 0) |}.

Definition file_truncate (c : FCFSAPIContext) (ino new_size : Z) (o : FDIRDentryOperator)
    : M W unit :=
  if new_size <? 0 then throw EINVAL
  else
    '(session, (old_size, sp_end)) ← check_and_sys_lock c ino o;
    '(r, dec) ← (if new_size >=? old_size then mret (Ok tt, 0)
                 else do_truncate ino sp_end new_size (old_size - new_size));
    check_and_sys_unlock c session old_size
      {| ds_inode := ino; ds_file_size := new_size; ds_inc_alloc := dec; ds_force := true;
         ds_flags := truncate_flags new_size old_size sp_end dec |} r.

Definition fcfs_api_ftruncate_ex (new_size : Z) : M FS unit :=
  fi ← get_fi;
  _ ← lift (check_writable fi);
  c ← get_ctx;
  on_services (file_truncate c (inode (dentry fi)) new_size (oper fi)).

Definition get_regular_file_inode (c : FCFSAPIContext) (o : FDIRDentryOperator)
    (path : string_t) : M W Z :=
  d ← fcfs_api_stat_dentry_by_fullname_ex c o path true;
  if S_ISDIR (mode (stat d)) then throw EISDIR else mret (inode d).

Definition fcfs_api_truncate_ex (c : FCFSAPIContext) (path : string_t) (new_size : Z)
    (o : FDIRDentryOperator) : M W unit :=
  ino ← get_regular_file_inode c o path; file_truncate c ino new_size o.

(** [oino] is the pair of [o] and [ino]; the dentry is the caller's output. *)
Definition fcfs_api_file_truncate_ex (c : FCFSAPIContext) (o : FDIRDentryOperator)
    (ino new_size : Z) : M W FDIRDEntryInfo :=
  d ← fcfs_api_access_dentry_by_inode_ex c o ino W_OK false;
  if S_ISDIR (mode (stat d)) then throw EISDIR
  else _ ← file_truncate c ino new_size o; mret d.

(** The report of [fcfs_api_fallocate_ex]: [dsize.file_size] and the flags. *)
Definition fallocate_report (md off length old_size sp_end inc : Z) : Z * modified_flags :=
  let keep := flag_set md FALLOC_FL_KEEP_SIZE in
  if Z.land md (Z.lnot FALLOC_FL_KEEP_SIZE) =? 0 then
    let file_size := off + length in
    (file_size,
     {| FLAG_FILE_SIZE := (file_size >? old_size) && negb keep;
        FLAG_SPACE_END := file_size >? sp_end; FLAG_MTIME := false;
        FLAG_INC_ALLOC := negb (inc =? 0) |})
  else if off + length >=? old_size then
    (off, {| FLAG_FILE_SIZE := negb keep; FLAG_SPACE_END := off <? sp_end; FLAG_MTIME := false;
             FLAG_INC_ALLOC := negb (inc =? 0) |})
  else if (off <? sp_end) && (off + length >=? sp_end) then
    (off, {| FLAG_FILE_SIZE := false; FLAG_SPACE_END := true; FLAG_MTIME := false;
             FLAG_INC_ALLOC := negb (inc =? 0) |})
  else
    (old_size, {| FLAG_FILE_SIZE := false; FLAG_SPACE_END := false; FLAG_MTIME := false;
                  FLAG_INC_ALLOC := negb (inc =? 0) |}).

Definition fcfs_api_fallocate_ex (md off length : Z) : M FS unit :=
  if (off <? 0) || (length <? 0) then throw EINVAL
  else
    fi ← get_fi;
    _ ← lift (check_writable fi);
    let op := Z.land md (Z.lnot FALLOC_FL_KEEP_SIZE) in
    if negb ((op =? 0) || (op =? FALLOC_FL_PUNCH_HOLE)) then throw EOPNOTSUPP
    else if length =? 0 then mret tt
    else
      c ← get_ctx;
      let ino := inode (dentry fi) in
      on_services (
        '(session, (old_size, sp_end)) ←
          (if use_sys_lock c then
             '(s, sizes) ← fcfs_api_dentry_sys_lock_ex ino; mret (Some s, sizes)
           else mret (None, (size (stat (dentry fi)), space_end (stat (dentry fi)))));
        '(r, inc) ← (if op =? 0 then do_allocate ino off length
                     else do_truncate ino sp_end off length);
        let '(file_size, fl) := fallocate_report md off length old_size sp_end inc in
        check_and_sys_unlock c session old_size
          {| ds_inode := ino; ds_file_size := file_size; ds_inc_alloc := inc;
             ds_force := true; ds_flags := fl |} r).

(** ** Offsets *)

Definition calc_file_offset_ex (off whence : Z) (refresh : bool) : M FS Z :=
  fi ← get_fi;
  if whence =? SEEK_SET then
    (if off <? 0 then throw EINVAL else mret off)
  else if whence =? SEEK_CUR then
    (if offset fi + off <? 0 then throw EINVAL else mret (offset fi + off))
  else if whence =? SEEK_END then
    _ ← (if refresh then
           c ← get_ctx;
           d ← on_services (fcfs_api_stat_dentry_by_inode_ex c (oper fi) (inode (dentry fi)) true);
           modify_fi (set_dentry d)
         else mret tt);
    fi ← get_fi;
    let new_offset := size (stat (dentry fi)) + off in
    if new_offset <? 0 then throw EINVAL else mret new_offset
  else throw EINVAL.

Definition fcfs_api_lseek (off whence : Z) : M FS unit :=
  fi ← get_fi;
  if negb (magic fi =? FCFS_API_MAGIC_NUMBER) then throw EBADF
  else new_offset ← calc_file_offset_ex off whence true; modify_fi (set_offset new_offset).

Definition fcfs_api_set_file_flags (fl : Z) : M FS unit :=
  fi ← get_fi;
  if negb (flag_set fl O_APPEND) then mret tt
  else if negb (is_writable_flags (flags fi)) then throw EBADF
  else modify_fi (λ fi, set_offset (size (stat (dentry fi)))
                          (set_flags (Z.lor (flags fi) O_APPEND) fi)).

(** ** Opening and closing *)

Definition FIXED_GROUPS_BUFF_SIZE : Z := 256.
Definition FDIR_ADDITIONAL_GROUP_BYTES (o : FDIRDentryOperator) : Z :=
  4 * Z.of_nat (length (additional_gids o)).

(** The additional groups of the operator are copied into the handle. *)
Definition persist_gids (o : FDIRDentryOperator) : M FS unit :=
  if (Z.of_nat (length (additional_gids o)) >? 0) then
    if FDIR_ADDITIONAL_GROUP_BYTES o <=? FIXED_GROUPS_BUFF_SIZE then modify_fi (set_gids GidsFixed)
    else
      ok ← on_services (λ w, let '(b, w) := fc_malloc (FDIR_ADDITIONAL_GROUP_BYTES o) w in (Ok b, w));
      if ok : bool then modify_fi (set_gids GidsHeap)
      else _ ← modify_fi (set_gids GidsNull); throw ENOMEM
  else modify_fi (set_gids GidsFixed).

(** The [O_CREAT] part: [r] is the result of the access check that came before;
    [path] is [None] when the file is opened by inode or dentry, where the
    source passes [NULL]. *)
Definition open_or_create (c : FCFSAPIContext) (path : option string_t) (o : FDIRDentryOperator)
    (md fl : Z) (r : result unit) : M FS unit :=
  if flag_set fl O_CREAT then
    match r with
    | Ok _ => if flag_set fl O_EXCL then throw EEXIST else mret tt
    | Err ENOENT =>
        match path with
        | None => throw NULL_DEREFERENCE
        | Some p =>
            cr ← attempt (on_services (fdir_client_create_dentry o p md));
            match cr with
            | Ok d => modify_fi (set_dentry d)
            | Err EEXIST =>
                if flag_set fl O_EXCL then throw EEXIST
                else
                  d ← on_services (fcfs_api_access_dentry_by_path_ex c o p
                        (FCFS_API_GET_ACCESS_MASK fl) (FCFS_API_GET_ACCESS_FOLLOW fl));
                  modify_fi (set_dentry d)
            | Err e => throw e
            end
        end
    | Err e => throw e
    end
  else lift r.

(** The checks and the truncation of a file opened for writing. *)
Definition open_for_write (c : FCFSAPIContext) (o : FDIRDentryOperator) (fl : Z) : M FS unit :=
  fi ← get_fi;
  let st := stat (dentry fi) in
  if S_ISDIR (mode st) then throw EISDIR
  else if flag_set fl O_NOFOLLOW && S_ISLNK (mode st) then throw ELOOP
  else
    _ ← modify_fi (set_last_modified (mtime st));
    _ ← (if flag_set fl O_TRUNC && (size st >? 0) then
           if S_ISLNK (mode st) then throw EPERM
           else
             _ ← on_services (file_truncate c (inode (dentry fi)) 0 o);
             modify_fi (λ fi, set_dentry (map_stat (λ s, set_space_end 0 (set_size 0 s))
                                            (dentry fi)) fi)
         else mret tt);
    modify_fi (λ fi, set_offset (if flag_set fl O_APPEND then size (stat (dentry fi)) else 0) fi).

Definition deal_open_flags (path : option string_t) (o : FDIRDentryOperator) (md t : Z)
    (r : result unit) : M FS unit :=
  _ ← modify_fi (set_oper o t);
  c ← get_ctx;
  _ ← (if persist_additional_gids c then persist_gids o else mret tt);
  fi ← get_fi;
  if negb (is_writable_flags (flags fi)) then
    _ ← modify_fi (set_offset 0);
    if flag_set (flags fi) O_TRUNC then throw EACCES else lift r
  else
    _ ← open_or_create c path o md (flags fi) r;
    open_for_write c o (flags fi).

Definition SET_FILE_COMMON_FIELDS (c : FCFSAPIContext) (fl : Z) : M FS unit :=
  modify_fi (λ fi, set_flock None (set_flags fl (set_ctx (Some c) fi))).

(** The mode of a file to create. *)
Definition open_mode (md : Z) : Z :=
  if negb (Z.land md S_IFMT =? 0) then Z.lor (Z.land md (Z.lnot S_IFMT)) S_IFREG
  else Z.lor md S_IFREG.

Definition fcfs_api_open_ex (c : FCFSAPIContext) (path : string_t) (fl : Z)
    (o : FDIRDentryOperator) (md t : Z) : M FS unit :=
  _ ← SET_FILE_COMMON_FIELDS c fl;
  r ← attempt (on_services (fcfs_api_access_dentry_by_path_ex c o path
                 (FCFS_API_GET_ACCESS_MASK fl) (FCFS_API_GET_ACCESS_FOLLOW fl)));
  _ ← (match r with Ok d => modify_fi (set_dentry d) | Err _ => mret tt end);
  _ ← deal_open_flags (Some path) o (open_mode md) t
        (match r with Ok _ => Ok tt | Err e => Err e end);
  modify_fi (set_magic FCFS_API_MAGIC_NUMBER).

Definition fcfs_api_open_by_dentry_ex (c : FCFSAPIContext) (d : FDIRDEntryInfo) (fl : Z)
    (o : FDIRDentryOperator) (md t : Z) : M FS unit :=
  _ ← SET_FILE_COMMON_FIELDS c fl;
  _ ← modify_fi (set_dentry d);
  _ ← deal_open_flags None o md t (Ok tt);
  modify_fi (set_magic FCFS_API_MAGIC_NUMBER).

Definition fcfs_api_open_by_inode_ex (c : FCFSAPIContext) (ino fl : Z)
    (o : FDIRDentryOperator) (md t : Z) : M FS unit :=
  d ← on_services (fcfs_api_access_dentry_by_inode_ex c o ino (FCFS_API_GET_ACCESS_MASK fl)
                     (FCFS_API_GET_ACCESS_FOLLOW fl));
  _ ← modify_fi (set_dentry d);
  _ ← SET_FILE_COMMON_FIELDS c fl;
  _ ← deal_open_flags None o md t (Ok tt);
  modify_fi (set_magic FCFS_API_MAGIC_NUMBER).

Definition fcfs_api_close : M FS unit :=
  fi ← get_fi;
  if negb (magic fi =? FCFS_API_MAGIC_NUMBER) then throw EBADF
  else
    _ ← (match flock fi with
         | Some s => _ ← attempt (on_services (fdir_client_close_session s true)); mret tt
         | None => mret tt
         end);
    c ← get_ctx;
    _ ← (if persist_additional_gids c && bool_decide (gids fi ≠ GidsFixed)
         then modify_fi (set_gids GidsNull) else mret tt);
    modify_fi (λ fi, set_magic 0 (set_ctx None fi)).

(** ** Locks *)

Definition LOCK_SH : Z := 1.
Definition LOCK_EX : Z := 2.
Definition LOCK_NB : Z := 4.
Definition LOCK_UN : Z := 8.
Definition F_RDLCK : Z := 0.
Definition F_WRLCK : Z := 1.
Definition F_UNLCK : Z := 2.

Definition fcntl_lock (operation off length owner_id pid : Z) : M FS unit :=
  fi ← get_fi;
  session ← (match flock fi with
             | Some s => mret s
             | None => s ← on_services fdir_client_init_session;
                       _ ← modify_fi (set_flock (Some s)); mret s
             end);
  on_services (fdir_client_flock_dentry_ex session (inode (dentry fi)) operation off length
                 owner_id pid).

Definition fcntl_unlock (operation off length owner_id pid : Z) : M FS unit :=
  fi ← get_fi;
  match flock fi with
  | None => mret tt
  | Some s =>
      r ← attempt (on_services (fdir_client_flock_dentry_ex s (inode (dentry fi)) operation off
                                  length owner_id pid));
      match r with
      | Ok _ | Err ENOENT => mret tt
      | Err e => throw e
      end
  end.

Definition fcfs_api_flock_ex2 (operation owner_id pid : Z) : M FS unit :=
  fi ← get_fi;
  if negb (magic fi =? FCFS_API_MAGIC_NUMBER) then throw EBADF
  else if flag_set operation LOCK_UN then fcntl_unlock operation 0 0 owner_id pid
  else if flag_set operation LOCK_SH || flag_set operation LOCK_EX
  then fcntl_lock operation 0 0 owner_id pid
  else throw EINVAL.

Definition fcntl_type_to_flock_op (type : Z) : result Z :=
  if type =? F_RDLCK then Ok LOCK_SH
  else if type =? F_WRLCK then Ok LOCK_EX
  else if type =? F_UNLCK then Ok LOCK_UN
  else Err EINVAL.

Definition flock_op_to_fcntl_type (operation : Z) : result Z :=
  if operation =? LOCK_SH then Ok F_RDLCK
  else if operation =? LOCK_EX then Ok F_WRLCK
  else if operation =? LOCK_UN then Ok F_UNLCK
  else Err EINVAL.

(** [struct flock]. *)
Record flock_t := { l_type : Z; l_whence : Z; l_start : Z; l_len : Z; l_pid : Z }.

Definition fcfs_api_setlk_ex (lock : flock_t) (owner_id : Z) (blocked : bool) : M FS unit :=
  fi ← get_fi;
  if negb (magic fi =? FCFS_API_MAGIC_NUMBER) then throw EBADF
  else
    operation ← lift (fcntl_type_to_flock_op (l_type lock));
    off ← calc_file_offset_ex (l_start lock) (l_whence lock) false;
    if operation =? LOCK_UN then fcntl_unlock operation off (l_len lock) owner_id (l_pid lock)
    else fcntl_lock (if blocked : bool then operation else Z.lor operation LOCK_NB) off (l_len lock)
           owner_id (l_pid lock).

Definition fcfs_api_getlk_ex (lock : flock_t) (owner_id : Z) : M FS flock_t :=
  fi ← get_fi;
  if negb (magic fi =? FCFS_API_MAGIC_NUMBER) then throw EBADF
  else
    operation ← lift (fcntl_type_to_flock_op (l_type lock));
    if operation =? LOCK_UN then throw EINVAL
    else
      off ← calc_file_offset_ex (l_start lock) (l_whence lock) false;
      '(operation, off, length, _, _) ←
        on_services (fdir_client_getlk_dentry (inode (dentry fi)) operation off (l_len lock)
                       owner_id (l_pid lock));
      mret {| l_type := match flock_op_to_fcntl_type operation with
                        | Ok t => t | Err _ => l_type lock end;
              l_whence := SEEK_SET; l_start := off; l_len := length; l_pid := l_pid lock |}.

(** ** Attributes *)

Record stat_t := {
  st_ino : Z; st_rdev : Z; st_mode : Z; st_size : Z; st_atime : Z; st_mtime : Z; st_ctime : Z;
  st_uid : Z; st_gid : Z; st_nlink : Z; st_blksize : Z; st_blocks : Z;
}.

(** The callers zero the structure first. *)
Definition fcfs_api_fill_stat (d : FDIRDEntryInfo) : stat_t :=
  let s := stat d in
  {| st_ino := inode d; st_rdev := rdev s; st_mode := mode s; st_size := size s;
     st_atime := uint32 (atime s); st_mtime := uint32 (mtime s); st_ctime := uint32 (ctime s);
     st_uid := uid s; st_gid := gid s; st_nlink := nlink s; st_blksize := 512;
     st_blocks := if alloc s >? 0 then Z.quot (alloc s + 512 - 1) 512 else 0 |}.

Definition fcfs_api_fstat : M FS stat_t :=
  fi ← get_fi;
  if negb (magic fi =? FCFS_API_MAGIC_NUMBER) then throw EBADF
  else
    c ← get_ctx;
    d ← on_services (fcfs_api_stat_dentry_by_inode_ex c (oper fi) (inode (dentry fi)) true);
    _ ← modify_fi (set_dentry d);
    mret (fcfs_api_fill_stat d).

Definition no_modify : stat_modify :=
  {| m_mode := None; m_uid := None; m_gid := None; m_atime := None; m_atime_now := false;
     m_mtime := None; m_mtime_now := false |}.

Definition SET_ONE_UTIMENS (t : utime_spec) (now : Z) : option Z * bool :=
  match t with
  | UTIME_NOW => (Some now, true)
  | UTIME_OMIT => (None, false)
  | UTIME_AT sec => (Some sec, false)
  end.

(** [times] is [None] for [NULL]; an unset flag leaves the field out, whatever
    value [stat] holds. *)
Definition FCFS_API_SET_UTIMENS (times : option (utime_spec * utime_spec)) (now : Z) : stat_modify :=
  match times with
  | None => no_modify
  | Some (a, m) =>
      let '(at_, an) := SET_ONE_UTIMENS a now in
      let '(mt, mn) := SET_ONE_UTIMENS m now in
      {| m_mode := None; m_uid := None; m_gid := None; m_atime := at_; m_atime_now := an;
         m_mtime := mt; m_mtime_now := mn |}
  end.

Definition FCFS_API_SET_UTIMES (times : option (Z * Z)) (now : Z) : stat_modify :=
  {| m_mode := None; m_uid := None; m_gid := None;
     m_atime := Some (match times with Some (a, _) => a | None => now end); m_atime_now := false;
     m_mtime := Some (match times with Some (_, m) => m | None => now end); m_mtime_now := false |}.

(** [options.flags == 0] *)
Definition modify_flags_zero (m : stat_modify) : bool :=
  bool_decide (m_mode m = None) && bool_decide (m_uid m = None) && bool_decide (m_gid m = None) &&
  bool_decide (m_atime m = None) && negb (m_atime_now m) && bool_decide (m_mtime m = None) &&
  negb (m_mtime_now m).

Definition fcfs_api_utimens_by_inode_ex (c : FCFSAPIContext) (o : FDIRDentryOperator) (ino : Z)
    (times : option (utime_spec * utime_spec)) : M W unit :=
  _ ← wait_reports c ino;
  now ← get_current_time;
  let m := FCFS_API_SET_UTIMENS times now in
  if modify_flags_zero m then mret tt
  else _ ← fdir_client_modify_stat_by_inode o ino m; mret tt.

Definition fcfs_api_utimens_by_path_ex (o : FDIRDentryOperator) (path : string_t)
    (times : option (utime_spec * utime_spec)) : M W unit :=
  now ← get_current_time;
  let m := FCFS_API_SET_UTIMENS times now in
  if modify_flags_zero m then mret tt
  else _ ← fdir_client_modify_stat_by_path o path m; mret tt.

Definition fcfs_api_utimes_by_path_ex (o : FDIRDentryOperator) (path : string_t)
    (times : option (Z * Z)) : M W unit :=
  now ← get_current_time;
  _ ← fdir_client_modify_stat_by_path o path (FCFS_API_SET_UTIMES times now); mret tt.

Definition ALLPERMS : Z := 4095.
Definition fcfs_api_chmod_ex (o : FDIRDentryOperator) (path : string_t) (md : Z) : M W unit :=
  _ ← fdir_client_modify_stat_by_path o path
        {| m_mode := Some (Z.land md ALLPERMS); m_uid := None; m_gid := None; m_atime := None;
           m_atime_now := false; m_mtime := None; m_mtime_now := false |};
  mret tt.
Definition fcfs_api_chown_ex (o : FDIRDentryOperator) (path : string_t) (u g : Z) : M W unit :=
  _ ← fdir_client_modify_stat_by_path o path
        {| m_mode := None; m_uid := Some u; m_gid := Some g; m_atime := None;
           m_atime_now := false; m_mtime := None; m_mtime_now := false |};
  mret tt.

(** ** Removing *)

(** The data of a file goes with its last name, unless a trash bin keeps it. *)
Definition releases_data (c : FCFSAPIContext) (d : FDIRDEntryInfo) : bool :=
  S_ISREG (mode (stat d)) && (nlink (stat d) =? 0) && negb (trash_bin_enabled c).

Definition fcfs_api_remove_dentry_ex (c : FCFSAPIContext) (o : FDIRDentryOperator)
    (path : string_t) : M W unit :=
  d ← fdir_client_remove_dentry_ex o path;
  if releases_data c d then fs_api_unlink_file (inode d) (space_end (stat d)) else mret tt.

Definition fcfs_api_rename_ex (c : FCFSAPIContext) (o : FDIRDentryOperator)
    (old_path new_path : string_t) : M W unit :=
  d ← fdir_client_rename_dentry_ex o old_path new_path;
  match d with
  | Some d =>
      if releases_data c d then
        _ ← attempt (fs_api_unlink_file (inode d) (space_end (stat d))); mret tt
      else mret tt
  | None => mret tt
  end.

End operations.
End FcfsFile.
