(* ===== verification/FcfsFileProofs.v ===== *)
(** * Correctness of the file operations

    What reads, writes, truncations and allocations do to the bytes of a file,
    given what the storage service does for one slice. *)
From Stdlib Require Import Init.Byte.
From S2P Require Import Prelude Fastcommon FcfsFile.
Import FcfsFile.
Local Open Scope Z_scope.

Module FileSpec.

(** ** What the services promise *)

(** [k] is a slice of one block for a request of [n] bytes: it ends with the
    request or with the block. *)
Definition slice_for {W} `{!FsApi W} (k : FSBlockSliceKeyInfo) (n : Z) : Prop :=
  0 ≤ slice_offset k < FS_FILE_BLOCK_SIZE (W:=W) ∧
  slice_length k = Z.min n (FS_FILE_BLOCK_SIZE (W:=W) - slice_offset k).

(** Slice keys: the slice at an offset, the head of the next block, and the rest
    of a block from an offset in it. *)
Class SliceKeyLaws W `{!FsApi W} : Prop := {
  fs_set_block_slice_spec o off n : 0 ≤ off → 0 < n →
    let k := fs_set_block_slice (W:=W) o off n in
    oid k = o ∧ slice_start k = off ∧ slice_for (W:=W) k n;
  fs_next_block_slice_key_spec k n : 0 < n →
    let k' := fs_next_block_slice_key (W:=W) k n in
    oid k' = oid k ∧ block_offset k' = block_offset k + FS_FILE_BLOCK_SIZE (W:=W) ∧
    slice_offset k' = 0 ∧ slice_for (W:=W) k' n;
  fs_set_slice_size_spec k off n : 0 < n →
    block_offset k ≤ off < block_offset k + FS_FILE_BLOCK_SIZE (W:=W) →
    let k' := fs_set_slice_size (W:=W) k off n in
    oid k' = oid k ∧ slice_start k' = off ∧ slice_for (W:=W) k' n;
}.

(** The bytes of the files, and which of them have storage. *)
Class Storage (W : Type) := {
  file_byte : W → Z → Z → byte;
  allocated : W → Z → Z → bool;
}.

Definition in_range (start n i : Z) : bool := (start <=? i) && (i <? start + n).

Definition same_files {W} `{!Storage W} (w w' : W) : Prop :=
  ∀ o i, file_byte w' o i = file_byte w o i ∧ allocated w' o i = allocated w o i.
Definition keeps_files {W A} `{!Storage W} (m : M W A) : Prop := ∀ w, same_files w (m w).2.

Definition is_Ok_or_ENOENT {A} (r : result A) : Prop :=
  match r with Ok _ | Err ENOENT => True | Err _ => False end.

Class StorageLaws W `{!FsApi W, !FdirClient W, !AsyncReport W, !Storage W} : Prop := {
  slice_write_spec k v w err n inc w' : 0 < slice_length k →
    fs_api_slice_write k v w = ((err, n, inc), w') →
    0 ≤ n ≤ slice_length k ∧ (err = None → 0 < n) ∧
    ∀ o i, file_byte w' o i =
           if (o =? oid k) && in_range (slice_start k) n i then v (i - slice_start k)
           else file_byte w o i;
  slice_read_spec k w err data w' : 0 < slice_length k →
    fs_api_slice_read k w = ((err, data), w') →
    same_files w w' ∧
    (err = None ∨ err = Some ENODATA →
     Z.of_nat (length data) ≤ slice_length k ∧
     (∀ j b, data !! j = Some b → b = file_byte w (oid k) (slice_start k + Z.of_nat j)) ∧
     (** what a short read leaves out has never been written *)
     ∀ i, slice_start k + Z.of_nat (length data) ≤ i < slice_start k + slice_length k →
          file_byte w (oid k) i = x00);
  delete_spec k w r w' : 0 < slice_length k →
    fs_api_slice_delete k w = (r, w') ∨ fs_api_block_delete k w = (r, w') →
    (is_Ok_or_ENOENT r → ∀ o i,
       file_byte w' o i =
         (if (o =? oid k) && in_range (slice_start k) (slice_length k) i then x00
          else file_byte w o i) ∧
       allocated w' o i =
         (if (o =? oid k) && in_range (slice_start k) (slice_length k) i then false
          else allocated w o i));
  allocate_spec k w r w' : 0 < slice_length k →
    fs_api_slice_allocate k w = (r, w') →
    (∀ o i, file_byte w' o i = file_byte w o i) ∧
    (is_ok r = true → ∀ o i, allocated w' o i =
       if (o =? oid k) && in_range (slice_start k) (slice_length k) i then true
       else allocated w o i);
  keeps_set_dentry_size d : keeps_files (fdir_client_set_dentry_size (W:=W) d);
  keeps_stat o i b : keeps_files (fdir_client_stat_dentry_by_inode (W:=W) o i b);
  keeps_lookup o p : keeps_files (fdir_client_lookup_inode_by_path (W:=W) o p);
  keeps_init_session : keeps_files (fdir_client_init_session (W:=W));
  keeps_close_session s b : keeps_files (fdir_client_close_session (W:=W) s b);
  keeps_sys_lock s i : keeps_files (fdir_client_dentry_sys_lock (W:=W) s i);
  keeps_sys_unlock s b o d : keeps_files (fdir_client_dentry_sys_unlock_ex (W:=W) s b o d);
  keeps_push d : keeps_files (async_reporter_push (W:=W) d);
  keeps_wait i : keeps_files (inode_htable_check_conflict_and_wait (W:=W) i);
  keeps_iova_first n : keeps_files (sf_iova_first_slice (W:=W) n);
  keeps_iova_next m n : keeps_files (sf_iova_next_slice (W:=W) m n);
  keeps_iova_consume n : keeps_files (sf_iova_consume (W:=W) n);
  keeps_iova_memset m n : keeps_files (sf_iova_memset (W:=W) m n);
}.

Section proofs.
Context {W : Type} `{!Clock W, !Malloc W, !FdirClient W, !FsApi W, !AsyncReport W, !Storage W}.
Context `{!SliceKeyLaws W, !StorageLaws W}.

#[local] Instance same_files_preorder : PreOrder (same_files (W:=W)).
Proof.
  split; [by intros w o i|]. intros w1 w2 w3 H1 H2 o i.
  destruct (H1 o i), (H2 o i). split; congruence.
Qed.

Create HintDb keeps.
Hint Resolve keeps_set_dentry_size keeps_stat keeps_lookup keeps_init_session
  keeps_close_session keeps_sys_lock keeps_sys_unlock keeps_push keeps_wait keeps_iova_first
  keeps_iova_next keeps_iova_consume keeps_iova_memset : keeps.

(** ** Computations that do not touch file contents *)

Lemma keeps_ret {A} (a : A) : keeps_files (mret (M:=M W) a).
Proof. intros w. reflexivity. Qed.

Lemma keeps_throw {A} e : keeps_files (throw (S:=W) (A:=A) e).
Proof. intros w. reflexivity. Qed.

Lemma keeps_lift {A} (r : result A) : keeps_files (lift (S:=W) r).
Proof. intros w. reflexivity. Qed.

Lemma keeps_gets {A} (f : W → A) : keeps_files (gets f).
Proof. intros w. reflexivity. Qed.

Lemma keeps_bind {A B} (m : M W A) (k : A → M W B) :
  keeps_files m → (∀ a, keeps_files (k a)) → keeps_files (m ≫= k).
Proof.
  intros Hm Hk w. unfold mbind, M_bind. specialize (Hm w).
  destruct (m w) as [[a|e] w']; simpl in *; [|done]. by transitivity w'; [|apply Hk].
Qed.

Lemma keeps_attempt {A} (m : M W A) : keeps_files m → keeps_files (attempt m).
Proof. intros Hm w. unfold attempt. specialize (Hm w). by destruct (m w). Qed.

Hint Resolve keeps_ret keeps_throw keeps_lift keeps_gets keeps_bind keeps_attempt : keeps.

(** Decide [keeps_files] by the structure of the computation. *)
Ltac keeps :=
  repeat match goal with
  | |- keeps_files (_ ≫= _) => apply keeps_bind; [|intros]
  | |- keeps_files (attempt _) => apply keeps_attempt
  | |- keeps_files (match ?x with _ => _ end) => destruct x
  | |- keeps_files _ => progress simpl
  end; eauto with keeps.

Lemma keeps_wait_reports c i : keeps_files (wait_reports c i).
Proof. unfold wait_reports. keeps. Qed.
Hint Resolve keeps_wait_reports : keeps.

Lemma keeps_stat_by_inode c o i b : keeps_files (fcfs_api_stat_dentry_by_inode_ex c o i b).
Proof. unfold fcfs_api_stat_dentry_by_inode_ex. keeps. Qed.

Lemma keeps_report c d e : keeps_files (report_size_and_time c d e).
Proof. unfold report_size_and_time, get_current_time. keeps. Qed.
Hint Resolve keeps_stat_by_inode keeps_report : keeps.

Lemma keeps_file_report c a d : keeps_files (fcfs_api_file_report_size_and_time c a d).
Proof. unfold fcfs_api_file_report_size_and_time, get_current_time. keeps. Qed.
Hint Resolve keeps_file_report : keeps.

(** Reporting never stops the caller: failures are values. *)
Lemma file_report_total c a d w :
  ∃ x, (fcfs_api_file_report_size_and_time c a d w).1 = Ok x.
Proof.
  unfold fcfs_api_file_report_size_and_time, report_size_and_time, mbind, M_bind, mret, M_ret,
    attempt, get_current_time, gets.
  repeat (case_match; simplify_eq/=; eauto).
Qed.

(** The handle keeps everything but its copy of the dentry and of the time. *)
Record same_handle (fi fi' : FCFSAPIFileInfo) : Prop := {
  sh_ctx : ctx fi' = ctx fi;
  sh_oper : oper fi' = oper fi;
  sh_gids : gids fi' = gids fi;
  sh_flock : flock fi' = flock fi;
  sh_flags : flags fi' = flags fi;
  sh_magic : magic fi' = magic fi;
  sh_offset : offset fi' = offset fi;
}.

#[local] Instance same_handle_preorder : PreOrder same_handle.
Proof. split; [by intros ?|]. intros ??? [] []. split; congruence. Qed.

Lemma report_modified_spec c arg fi w :
  ctx fi = Some c →
  ∃ fi' w', report_modified arg (fi, w) = (Ok tt, (fi', w')) ∧ same_handle fi fi' ∧
            same_files w w'.
Proof.
  intros Hc. unfold report_modified, get_ctx, get_fi, mbind, M_bind. simpl. rewrite Hc. simpl.
  destruct (file_report_total c arg (Some (dentry fi)) w) as [[[fl d] r] Hx].
  pose proof (keeps_file_report c arg (Some (dentry fi)) w) as Hk.
  destruct (fcfs_api_file_report_size_and_time c arg (Some (dentry fi)) w) as [x w'].
  simpl in *. subst x. simpl. destruct (FLAG_MTIME fl); simpl.
  all: by eexists _, _; split_and!; [done|by split|done].
Qed.

Lemma report_if_spec c need arg fi w :
  ctx fi = Some c →
  ∃ fi' w', report_if need arg (fi, w) = (Ok tt, (fi', w')) ∧ same_handle fi fi' ∧
            same_files w w'.
Proof. destruct need; [by apply report_modified_spec|]. by exists fi, w. Qed.

(** ** Slices *)

Lemma slice_for_length k n :
  slice_for (W:=W) k n → 0 < n → 0 < slice_length k ≤ n.
Proof. intros [Ho Hl] Hn. lia. Qed.

(** The slice after one that did not cover the request continues it. *)
Lemma next_slice k n m :
  slice_for (W:=W) k n → 0 < m → m = n - slice_length k →
  let k' := fs_next_block_slice_key k m in
  oid k' = oid k ∧ slice_start k' = slice_start k + slice_length k ∧ slice_for (W:=W) k' m ∧
  slice_length k' = Z.min m (FS_FILE_BLOCK_SIZE (W:=W)).
Proof.
  intros [Ho Hl] Hm Hmn. destruct (fs_next_block_slice_key_spec (W:=W) k m Hm) as (? & Hb & Hs & Hf).
  pose proof (proj2 Hf) as Hlen. unfold slice_start in *. rewrite Hs in *.
  split_and!; [done|lia|done|lia].
Qed.

(** The rest of a slice of which [n] bytes are done. *)
Lemma rest_of_slice k n r m :
  slice_for (W:=W) k r → 0 < m → 0 < n < slice_length k →
  let k' := fs_set_slice_size k (slice_start k + n) m in
  oid k' = oid k ∧ slice_start k' = slice_start k + n ∧ slice_for (W:=W) k' m.
Proof.
  intros [Ho Hl] Hm Hn. apply fs_set_slice_size_spec; [done|]. unfold slice_start. lia.
Qed.

(** ** Writing *)

(** The buffer positions from which the successive chunks [ns] are taken: a plain
    buffer advances by the total written so far, vectors do not advance. *)
Fixpoint src_pos (is_v : bool) (ns : list Z) (cum pos j : Z) : Z :=
  match ns with
  | [] => pos + j
  | n :: ns =>
      if j <? n then pos + j
      else src_pos is_v ns (cum + n) (if is_v then pos else pos + (cum + n)) (j - n)
  end.

Definition sum (ns : list Z) : Z := foldr Z.add 0 ns.

Lemma sum_nonneg ns : Forall (λ n, 0 < n) ns → 0 ≤ sum ns.
Proof. induction 1; simpl; lia. Qed.

Lemma in_range_true start n i : in_range start n i = true ↔ start ≤ i < start + n.
Proof. unfold in_range. rewrite andb_true_iff, Z.leb_le, Z.ltb_lt. done. Qed.

Lemma in_range_false start n i : in_range start n i = false ↔ ¬ (start ≤ i < start + n).
Proof. rewrite <- in_range_true. by destruct (in_range start n i). Qed.

(** What a run of the loop leaves: the chunks it wrote, where they came from,
    and why it stopped. *)
Record pwrite_post (o start sz : Z) (wb : FSAPIWriteBuffer) (written0 : Z) (w w' : W)
    (written : Z) (ns : list Z) : Prop := {
  pp_pos : Forall (λ n, 0 < n) ns;
  pp_written : written = written0 + sum ns;
  pp_bound : written ≤ sz;
  pp_bytes p i : file_byte w' p i =
    if (p =? o) && in_range start (sum ns) i
    then wmem wb (src_pos (is_writev wb) ns written0 (wpos wb) (i - start))
    else file_byte w p i;
}.

Lemma pwrite_post_nil o start sz wb written w :
  written ≤ sz → pwrite_post o start sz wb written w w written [].
Proof.
  intros Hw. split; [done|simpl; lia|done|]. intros p i.
  replace (in_range start (sum []) i) with false; [by rewrite andb_false_r|].
  symmetry. apply in_range_false. simpl. lia.
Qed.

(** One chunk of [n] bytes, then the rest. *)
Lemma pwrite_post_cons o start sz wb written w w1 w2 w' written' n ns :
  0 < n →
  (∀ p i, file_byte w1 p i =
     if (p =? o) && in_range start n i then wview wb (i - start) else file_byte w p i) →
  same_files w1 w2 →
  pwrite_post o (start + n) sz
    (if is_writev wb then wb else advance_buff (written + n) wb) (written + n) w2 w' written' ns →
  pwrite_post o start sz wb written w w' written' (n :: ns).
Proof.
  intros Hn Hw1 Hsame [Hpos Hwr Hb Hby]. pose proof (sum_nonneg ns Hpos).
  split; [by constructor|simpl; lia|done|]. intros p i. rewrite Hby. destruct (Hsame p i) as [-> _].
  rewrite Hw1. cbn [sum foldr src_pos]. fold (sum ns).
  destruct (Z.eqb_spec p o) as [->|]; [|done]. cbn [andb].
  destruct (in_range (start + n) (sum ns) i) eqn:E1.
  - apply in_range_true in E1. rewrite (proj2 (in_range_true start (n + sum ns) i)) by lia.
    rewrite (proj2 (Z.ltb_ge _ _)) by lia. replace (i - (start + n)) with (i - start - n) by lia.
    by destruct (is_writev wb) eqn:Ev; simpl; rewrite ?Ev.
  - apply in_range_false in E1. destruct (in_range start n i) eqn:E2.
    + apply in_range_true in E2. rewrite (proj2 (in_range_true start (n + sum ns) i)) by lia.
      by rewrite (proj2 (Z.ltb_lt _ _)) by lia.
    + apply in_range_false in E2. rewrite (proj2 (in_range_false start (n + sum ns) i)); [done|lia].
Qed.

(** Slices are written as a whole. *)
Definition writes_whole_slices : Prop :=
  ∀ k v w, (fs_api_slice_write (W:=W) k v w).1.1.2 = slice_length k.

(** No call of the storage service and of the scatter-gather library fails. *)
Definition writes_never_fail : Prop :=
  (∀ k v w, (fs_api_slice_write (W:=W) k v w).1.1.1 = None) ∧
  (∀ n w, is_ok (sf_iova_first_slice (W:=W) n w).1 = true) ∧
  (∀ m n w, is_ok (sf_iova_next_slice (W:=W) m n w).1 = true).

Lemma pwrite_loop_spec c fuel need sz key wb written total fi w :
  ctx fi = Some c → slice_for (W:=W) key (sz - written) → 0 < sz - written →
  ∃ ns written' total' fi' w',
    pwrite_loop fuel need sz key wb written total (slice_start key) (fi, w) =
      (Ok (written', total'), (fi', w')) ∧
    same_handle fi fi' ∧
    pwrite_post (oid key) (slice_start key) sz wb written w w' written' ns ∧
    (writes_never_fail → (Z.to_nat (sz - written) ≤ fuel)%nat → written' = sz) ∧
    (writes_whole_slices → ∀ k,
       sz - written ≤ slice_length key + Z.of_nat k * FS_FILE_BLOCK_SIZE (W:=W) →
       (length ns ≤ S k)%nat).
Proof.
  revert key wb written total fi w. induction fuel as [|fuel IH];
    intros key wb written total fi w Hc Hfor Hrem.
  { eexists [], _, _, fi, w. split_and!; [done..|apply pwrite_post_nil; lia|lia|simpl; lia]. }
  pose proof (slice_for_length _ _ Hfor Hrem) as Hlen.
  cbn [pwrite_loop]. bind_step.
  destruct (fs_api_slice_write key (wview wb) w) as [[[err n] inc] w1] eqn:Ew.
  destruct (slice_write_spec _ _ _ _ _ _ _ (proj1 Hlen) Ew) as (Hn & Herr & Hw1).
  erewrite bind_ok by (unfold on_services; rewrite Ew; reflexivity).
  cbv beta iota. destruct (bool_decide (err ≠ None) && (n =? 0)) eqn:Estop.
  { bool_to_prop. subst n. eexists [], _, _, fi, w1. split_and!; [done..| | |simpl; lia].
    - split; [done|simpl; lia|lia|]. intros p i. rewrite Hw1. done.
    - intros [Hnf _]. specialize (Hnf key (wview wb) w). rewrite Ew in Hnf. simpl in Hnf. by subst. }
  assert (0 < n) as Hn0.
  { destruct err; [|by apply Herr]. simpl in Estop. apply Z.eqb_neq in Estop. lia. }
  edestruct (report_if_spec c need) as (fi2 & w2 & Hr & Hh & Hs); [done|].
  erewrite bind_ok by exact Hr. clear Hr. cbv beta zeta.
  assert (ctx fi2 = Some c) as Hc2 by (by rewrite (sh_ctx _ _ Hh)).
  destruct (sz - (written + n) <=? 0) eqn:Erem; bool_to_prop.
  { eexists [n], _, _, fi2, w2. split_and!; [done..| |lia|simpl; lia].
    eapply pwrite_post_cons; [done..|]. apply pwrite_post_nil. lia. }
  set (key' := if n =? slice_length key then _ else _).
  assert (oid key' = oid key ∧ slice_start key' = slice_start key + n ∧
          slice_for (W:=W) key' (sz - (written + n))) as (Ho & Hst & Hf').
  { unfold key'. destruct (Z.eqb_spec n (slice_length key)) as [->|].
    - edestruct next_slice as (? & ? & ? & _); [exact Hfor| | |done]; lia.
    - eapply rest_of_slice; [done|lia..]. }
  assert (writes_whole_slices → ∀ k,
    sz - written ≤ slice_length key + Z.of_nat k * FS_FILE_BLOCK_SIZE (W:=W) →
    ∃ k', k = S k' ∧ sz - (written + n) ≤ slice_length key' + Z.of_nat k' * FS_FILE_BLOCK_SIZE (W:=W))
    as Hcount.
  { intros Hws k Hk. specialize (Hws key (wview wb) w). rewrite Ew in Hws. simpl in Hws. subst n.
    unfold key'. rewrite Z.eqb_refl. edestruct next_slice as (_ & _ & _ & Hl'); [exact Hfor| | |].
    3: rewrite Hl'. 1,2: lia. destruct k as [|k]; [lia|]. exists k. split; [done|].
    destruct (Z.le_ge_cases (sz - (written + slice_length key)) (FS_FILE_BLOCK_SIZE (W:=W)));
      [rewrite Z.min_l by done|rewrite Z.min_r by done; lia].
    destruct Hfor. nia. }
  destruct (is_writev wb) eqn:Ev.
  - pose proof (keeps_iova_next (written + n) (slice_length key') w2) as Hk.
    destruct (sf_iova_next_slice (written + n) (slice_length key') w2) as [r w3] eqn:Ei.
    erewrite bind_ok by (apply attempt_eq; unfold on_services; rewrite Ei; reflexivity).
    simpl in Hk. cbv beta. destruct r as [[]|e].
    + destruct (IH key' wb (written + n) (total + inc) fi2 w3) as (ns & ? & ? & fi' & w' & Heq & Hh' & Hp & Hd & Hn');
        [done..|]. rewrite Hst in Heq. eexists (n :: ns), _, _, fi', w'.
      split_and!; [exact Heq|by transitivity fi2| |by intros ??; apply Hd; [|lia]|].
      2: { intros Hws k (k' & -> & Hk')%Hcount; [|done]. simpl. apply le_n_S, Hn'; [done|exact Hk']. }
      rewrite Ho, Hst in Hp.
      eapply (pwrite_post_cons _ _ _ _ _ _ w1 w3); [done..|by transitivity w2|by rewrite Ev].
    + eexists [n], _, _, fi2, w3. split_and!; [done..| | |simpl; lia].
      * eapply (pwrite_post_cons _ _ _ _ _ _ w1 w3); [done..|by transitivity w2|].
        apply pwrite_post_nil. lia.
      * intros (_ & _ & Hnf). specialize (Hnf (written + n) (slice_length key') w2). by rewrite Ei in Hnf.
  - destruct (IH key' (advance_buff (written + n) wb) (written + n) (total + inc) fi2 w2)
      as (ns & ? & ? & fi' & w' & Heq & Hh' & Hp & Hd & Hn'); [done..|].
    rewrite Hst in Heq. eexists (n :: ns), _, _, fi', w'.
    split_and!; [exact Heq|by transitivity fi2| |by intros ??; apply Hd; [|lia]|].
    2: { intros Hws k (k' & -> & Hk')%Hcount; [|done]. simpl. apply le_n_S, Hn'; [done|exact Hk']. }
    rewrite Ho, Hst in Hp.
    eapply (pwrite_post_cons _ _ _ _ _ _ w1 w2); [done..|by rewrite Ev].
Qed.

(** [do_pwrite] as a whole, for either kind of buffer. *)
Lemma do_pwrite_spec c wb sz off need fi w :
  ctx fi = Some c → 0 ≤ off → 0 < sz →
  ∃ ns written total fi' w',
    do_pwrite wb sz off need (fi, w) =
      (Ok (if written >? 0 then Ok tt else Err EIO, written, total), (fi', w')) ∧
    same_handle fi fi' ∧ pwrite_post (inode (dentry fi)) off sz wb 0 w w' written ns ∧
    (writes_never_fail → written = sz) ∧
    (writes_whole_slices → sz ≤ FS_FILE_BLOCK_SIZE (W:=W) + 1 → (length ns ≤ 2)%nat).
Proof.
  intros Hc Hoff Hsz. unfold do_pwrite. bind_step.
  destruct (fs_set_block_slice_spec (W:=W) (inode (dentry fi)) off sz) as (Ho & Hst & Hfor); [done..|].
  set (key := fs_set_block_slice _ _ _) in *.
  assert (∃ go w1, (if is_writev wb && (slice_length key <? sz) then
      r ← attempt (on_services (sf_iova_first_slice (slice_length key))); mret (is_ok r)
      else mret true) (fi, w) = (Ok go, (fi, w1)) ∧ same_files w w1 ∧ (writes_never_fail → go = true))
    as (go & w1 & Hgo & Hs & Hnf).
  { destruct (_ && _); [|by exists true, w].
    pose proof (keeps_iova_first (slice_length key) w) as Hk.
    destruct (sf_iova_first_slice (slice_length key) w) as [r w1] eqn:Ei.
    erewrite bind_ok by (apply attempt_eq; unfold on_services; rewrite Ei; reflexivity).
    exists (is_ok r), w1. split_and!; [done..|]. intros (_ & Hn & _). specialize (Hn (slice_length key) w).
    by rewrite Ei in Hn. }
  erewrite bind_ok by exact Hgo. cbv beta. destruct go.
  - destruct (pwrite_loop_spec c (Z.to_nat sz) need sz key wb 0 0 fi w1)
      as (ns & written & total & fi' & w' & Heq & Hh & [Hpos Hwr Hbd Hby] & Hd & Hn);
      [done|by rewrite Z.sub_0_r|lia|].
    rewrite Hst in Heq. erewrite bind_ok by exact Heq. exists ns, written, total, fi', w'.
    pose proof (slice_for_length _ _ Hfor Hsz).
    split_and!; [done..| |intros Hnv; apply Hd; [done|lia]|intros Hws Hbs; apply (Hn Hws 1%nat); lia]. rewrite Ho, Hst in Hby.
    split; [done..|]. intros p i. rewrite Hby. by destruct (Hs p i) as [-> _].
  - bind_step. exists [], 0, 0, fi, w1. split_and!; [done..| |by intros ?%Hnf|simpl; lia].
    split; [done|done|lia|]. intros p i. destruct (Hs p i) as [-> _].
    replace (in_range off (sum []) i) with false; [by rewrite andb_false_r|].
    symmetry. apply in_range_false. simpl. lia.
Qed.

(** ** Reading *)

Lemma blit_length buf pos bs :
  0 ≤ pos → pos + Z.of_nat (length bs) ≤ Z.of_nat (length buf) →
  length (blit buf pos bs) = length buf.
Proof. intros. unfold blit. rewrite !length_app, length_take, length_drop. lia. Qed.

Lemma blit_lookup buf pos bs j :
  0 ≤ pos → pos + Z.of_nat (length bs) ≤ Z.of_nat (length buf) →
  blit buf pos bs !! j =
  if in_range pos (Z.of_nat (length bs)) (Z.of_nat j) then bs !! (j - Z.to_nat pos)%nat
  else buf !! j.
Proof.
  intros Hp Hl. unfold blit. destruct (in_range _ _ _) eqn:E.
  - apply in_range_true in E. rewrite lookup_app_r by (rewrite length_take; lia).
    rewrite lookup_app_l by (rewrite length_take; lia). f_equal. rewrite length_take. lia.
  - apply in_range_false in E. destruct (decide (Z.of_nat j < pos)).
    + rewrite lookup_app_l by (rewrite length_take; lia). by rewrite lookup_take_lt by lia.
    + rewrite lookup_app_r by (rewrite length_take; lia).
      rewrite lookup_app_r by (rewrite length_take; lia). rewrite lookup_drop, length_take.
      f_equal. lia.
Qed.

(** The services answer reads of the file [ino] of size [fsize] in the states [P],
    which reading does not leave: no call fails, no stored data lies beyond the
    size, the directory service knows the size. *)
Record serves (P : W → Prop) (ino fsize : Z) : Prop := {
  sv_size_nonneg : 0 ≤ fsize;
  sv_read k w : P w → P (fs_api_slice_read k w).2 ∧
    ((fs_api_slice_read k w).1.1 = None ∨ (fs_api_slice_read k w).1.1 = Some ENODATA);
  sv_within k w : P w → oid k = ino → (fs_api_slice_read k w).1.2 ≠ [] →
    slice_start k + Z.of_nat (length (fs_api_slice_read k w).1.2) ≤ fsize;
  sv_stat o b w : P w → ∃ d w', fdir_client_stat_dentry_by_inode o ino b w = (Ok d, w') ∧
    P w' ∧ inode d = ino ∧ size (stat d) = fsize;
  sv_wait w : P w → P (inode_htable_check_conflict_and_wait ino w).2;
  sv_consume n w : P w → ∃ w', sf_iova_consume n w = (Ok tt, w') ∧ P w';
  sv_memset m n w : P w → ∃ w', sf_iova_memset m n w = (Ok tt, w') ∧ P w';
}.

Lemma stat_by_inode_serves P c ino fsize o w :
  serves P ino fsize → P w →
  ∃ d w', fcfs_api_stat_dentry_by_inode_ex c o ino true w = (Ok d, w') ∧ P w' ∧ inode d = ino ∧
          size (stat d) = fsize ∧ same_files w w'.
Proof.
  intros Hsv HP. pose proof (keeps_stat_by_inode c o ino true w) as Hk.
  unfold fcfs_api_stat_dentry_by_inode_ex in *.
  assert (∃ w1, wait_reports c ino w = (Ok tt, w1) ∧ P w1) as (w1 & Hw & HP1).
  { unfold wait_reports. destruct (async_report_enabled c); [|by eexists].
    pose proof (sv_wait _ _ _ Hsv w HP) as HPw. unfold attempt, mbind, M_bind.
    destruct (inode_htable_check_conflict_and_wait ino w). by eexists. }
  erewrite bind_ok in Hk |- * by exact Hw.
  destruct (sv_stat _ _ _ Hsv o true w1 HP1) as (d & w' & Hd & HP' & Hi & Hs).
  rewrite Hd in Hk |- *. by exists d, w'.
Qed.

(** The part of a slice that belongs to the file. *)
Definition avail (fsize start len : Z) : Z := Z.max 0 (Z.min len (fsize - start)).

(** The handle after a read: at most its copy of the dentry was refreshed. *)
Definition read_handle (ino fsize : Z) (fi fi' : FCFSAPIFileInfo) : Prop :=
  same_handle fi fi' ∧ inode (dentry fi') = ino ∧ size (stat (dentry fi')) = fsize.

Lemma fill_hole_spec P c is_v ino fsize off rd key d buf fi w :
  serves P ino fsize → P w → ctx fi = Some c → inode (dentry fi) = ino → size (stat (dentry fi)) = fsize →
  0 ≤ d ≤ slice_length key → 0 ≤ rd → off + rd = slice_start key →
  (0 < d → slice_start key + d ≤ fsize) →
  ∃ fi' w', fill_hole is_v off rd rd key d buf (fi, w) =
    (Ok (Ok tt, Z.max d (avail fsize (slice_start key) (slice_length key)),
         if decide (d < avail fsize (slice_start key) (slice_length key))
         then blit buf (rd + d)
                (replicate (Z.to_nat (avail fsize (slice_start key) (slice_length key) - d)) x00)
         else buf), (fi', w')) ∧
    P w' ∧ read_handle ino fsize fi fi' ∧ same_files w w'.
Proof.
  intros Hsv HP Hc Hi Hs Hd Hrd Hst Hin. unfold fill_hole, avail.
  destruct (Z.ltb_spec d (slice_length key)) as [Hlt|Hge]; cbn [negb].
  2: { exists fi, w. rewrite decide_False by lia. rewrite Z.max_l by lia. by split_and!. }
  bind_step. rewrite Hs, Hst. destruct (Z.eqb_spec (slice_start key + d) fsize) as [He|He].
  { exists fi, w. rewrite decide_False by lia. rewrite Z.max_l by lia. by split_and!. }
  assert (∃ fi1 w1,
    (if slice_start key + d >? fsize then
       c ← get_ctx;
       r ← attempt (on_services (fcfs_api_stat_dentry_by_inode_ex c (oper fi) ino true));
       match r with
       | Ok d => _ ← modify_fi (set_dentry d); mret (Ok tt)
       | Err e => mret (Err e)
       end
     else mret (Ok tt)) (fi, w) = (Ok (Ok tt), (fi1, w1)) ∧ P w1 ∧
    read_handle ino fsize fi fi1 ∧ same_files w w1)
    as (fi1 & w1 & Hr & HP1 & (Hh1 & Hi1 & Hs1) & Hf1).
  { destruct (slice_start key + d >? fsize); [|by exists fi, w].
    destruct (stat_by_inode_serves P c ino fsize (oper fi) w Hsv HP)
      as (d' & w1 & Hst' & ? & ? & ? & Hf1).
    unfold get_ctx. do 2 (unfold mbind at 1, M_bind at 1). simpl. rewrite Hc. simpl.
    erewrite bind_ok by (apply attempt_eq; unfold on_services; rewrite Hst'; reflexivity).
    by exists (set_dentry d' fi), w1. }
  rewrite Hi. erewrite bind_ok by exact Hr. clear Hr. cbv beta iota. bind_step. rewrite Hs1.
  destruct (Z.gtb_spec (fsize - (slice_start key + d)) 0) as [Hh|Hh].
  - set (n := if _ >? slice_length key then _ else _).
    assert (n = Z.max 0 (Z.min (slice_length key) (fsize - slice_start key)) - d ∧ 0 < n) as [Hn Hn0].
    { unfold n. destruct (Z.gtb_spec (d + (fsize - (slice_start key + d))) (slice_length key)); lia. }
    assert (∃ w2, (if is_v then attempt (on_services (sf_iova_memset d n)) else mret (Ok tt))
              (fi1, w1) = (Ok (Ok tt), (fi1, w2)) ∧ P w2 ∧ same_files w1 w2) as (w2 & Hm & HP2 & Hf2).
    { destruct is_v; [|by exists w1].
      destruct (sv_memset _ _ _ Hsv d n w1 HP1) as (w2 & Em & HP2).
      pose proof (keeps_iova_memset d n w1) as Hk. rewrite Em in Hk. exists w2.
      split; [|done]. apply attempt_eq. unfold on_services. by rewrite Em. }
    erewrite bind_ok by exact Hm. cbv beta iota. exists fi1, w2. rewrite decide_True by lia.
    split_and!; [|done|done|by transitivity w1]. rewrite <- Hn.
    by replace (Z.max d _) with (d + n) by lia.
  - exists fi1, w1. rewrite decide_False by lia. by rewrite Z.max_l by lia.
Qed.

(** The buffer after a slice and its hole were stored at [pos]. *)
Lemma read_slice_buffer key (data buf : list byte) pos a w :
  0 ≤ pos → pos + a ≤ Z.of_nat (length buf) → Z.of_nat (length data) ≤ a →
  (∀ j b, data !! j = Some b → b = file_byte w (oid key) (slice_start key + Z.of_nat j)) →
  (∀ i, slice_start key + Z.of_nat (length data) ≤ i < slice_start key + a →
        file_byte w (oid key) i = x00) →
  let d := Z.of_nat (length data) in
  let buf' := if decide (d < a) then blit (blit buf pos data) (pos + d)
                                       (replicate (Z.to_nat (a - d)) x00)
              else blit buf pos data in
  length buf' = length buf ∧
  ∀ j, buf' !! j = if in_range pos a (Z.of_nat j)
                   then Some (file_byte w (oid key) (slice_start key + (Z.of_nat j - pos)))
                   else buf !! j.
Proof.
  intros Hp Hl Hd Hdata Hzero d buf'.
  assert (∀ j, blit buf pos data !! j = if in_range pos d (Z.of_nat j)
    then Some (file_byte w (oid key) (slice_start key + (Z.of_nat j - pos))) else buf !! j) as H1.
  { intros j. rewrite blit_lookup by lia. fold d. destruct (in_range pos d (Z.of_nat j)) eqn:E; [|done].
    apply in_range_true in E. destruct (data !! (j - Z.to_nat pos)%nat) as [b|] eqn:Eb.
    - rewrite (Hdata _ _ Eb). do 2 f_equal. lia.
    - apply lookup_ge_None in Eb. lia. }
  unfold buf'. clear buf'. case_decide as Hlt.
  - split; [rewrite !blit_length; rewrite ?blit_length, ?length_replicate; lia|].
    intros j. rewrite blit_lookup by (rewrite ?blit_length, ?length_replicate; lia).
    rewrite length_replicate, H1.
    destruct (in_range (pos + d) _ (Z.of_nat j)) eqn:E1; [apply in_range_true in E1|apply in_range_false in E1].
    + rewrite (proj2 (in_range_true _ _ _)) by lia. rewrite lookup_replicate_2 by lia.
      rewrite Hzero by lia. done.
    + destruct (in_range pos d (Z.of_nat j)) eqn:E2; [apply in_range_true in E2|apply in_range_false in E2].
      * by rewrite (proj2 (in_range_true _ _ _)) by lia.
      * by rewrite (proj2 (in_range_false _ _ _)) by lia.
  - split; [apply blit_length; lia|]. intros j. rewrite H1. by replace a with d by lia.
Qed.

Lemma pread_loop_spec P c fuel is_v ino fsize sz off key rd buf fi w :
  serves P ino fsize → P w → ctx fi = Some c → inode (dentry fi) = ino → size (stat (dentry fi)) = fsize →
  slice_for (W:=W) key (sz - rd) → oid key = ino → 0 ≤ rd < sz → off + rd = slice_start key →
  sz ≤ Z.of_nat (length buf) → (Z.to_nat (sz - rd) ≤ fuel)%nat →
  let n := avail fsize (off + rd) (sz - rd) in
  ∃ buf' fi' w', pread_loop fuel is_v sz off key rd rd buf (fi, w) =
      (Ok (Ok tt, rd + n, buf'), (fi', w')) ∧
    read_handle ino fsize fi fi' ∧ same_files w w' ∧ length buf' = length buf ∧
    ∀ j, buf' !! j = if in_range rd n (Z.of_nat j)
                     then Some (file_byte w ino (off + Z.of_nat j)) else buf !! j.
Proof.
  intros Hsv. revert key rd buf fi w.
  induction fuel as [|fuel IH]; intros key rd buf fi w HP Hc Hi Hs Hfor Ho Hrd Hst Hbuf Hfuel n; [lia|].
  assert (0 < slice_length key ≤ sz - rd) as Hl by (apply slice_for_length; [done|lia]).
  cbn [pread_loop]. destruct (sv_read _ _ _ Hsv key w HP) as [HP1 Herr].
  pose proof (sv_within _ _ _ Hsv key w HP Ho) as Hwithin.
  destruct (fs_api_slice_read key w) as [[err data] w1] eqn:Er. simpl in HP1, Herr, Hwithin.
  destruct (slice_read_spec _ _ _ _ _ (proj1 Hl) Er) as [Hf1 Hspec].
  destruct (Hspec Herr) as (Hlen & Hdata & Hzero). clear Hspec.
  erewrite bind_ok by (unfold on_services; rewrite Er; reflexivity).
  cbv beta iota. rewrite bool_decide_true by done.
  set (a := avail fsize (slice_start key) (slice_length key)).
  assert (Z.of_nat (length data) ≤ a) as Hda.
  { destruct data as [|b data]; [unfold a, avail; simpl; lia|]. specialize (Hwithin ltac:(done)).
    unfold a, avail in *. lia. }
  edestruct (fill_hole_spec P c is_v ino fsize off rd key (Z.of_nat (length data))
    (blit buf rd data) fi w1) as (fi2 & w2 & Hfill & HP2 & (Hh & Hi2 & Hs2) & Hf2); try done; [lia|lia| |].
  { intros Hd0. apply Hwithin. by destruct data. }
  fold a in Hfill. rewrite Z.max_r in Hfill by lia. erewrite bind_ok by exact Hfill. clear Hfill.
  assert (0 ≤ a ≤ slice_length key) as Ha by (unfold a, avail; lia).
  destruct (read_slice_buffer key data buf rd a w) as [Hlen2 Hlook]; try done; [lia|lia| |].
  { intros i Hir. apply Hzero. lia. }
  set (buf2 := if decide _ then _ else _) in *.
  assert (same_files w w2) as Hf12 by (by transitivity w1). cbv beta iota zeta.
  destruct ((sz - (rd + a) <=? 0) || (a <? slice_length key)) eqn:Estop.
  - assert (n = a) as ->.
    { unfold n, a, avail in *. apply orb_true_iff in Estop as [E|E]; bool_to_prop; lia. }
    eexists buf2, fi2, w2. split_and!; [done..|]. intros j. rewrite Hlook, Ho.
    case_match; [|done]. do 2 f_equal. lia.
  - bool_to_prop. assert (a = slice_length key) as Hal by lia. rewrite Hal in *. clear Hda Ha.
    destruct (next_slice key (sz - rd) (sz - (rd + slice_length key)))
      as (Ho' & Hst' & Hf4 & _); [done|lia..|].
    assert (∃ w3, (if is_v then attempt (on_services (sf_iova_consume (slice_length key)))
       else mret (Ok tt)) (fi2, w2) = (Ok (Ok tt), (fi2, w3)) ∧ P w3 ∧ same_files w2 w3)
      as (w3 & Hcs & HP3 & Hf3).
    { destruct is_v; [|by exists w2].
      destruct (sv_consume _ _ _ Hsv (slice_length key) w2 HP2) as (w3 & Em & HP3).
      pose proof (keeps_iova_consume (slice_length key) w2) as Hk. rewrite Em in Hk. exists w3.
      split; [|done]. apply attempt_eq. unfold on_services. by rewrite Em. }
    erewrite bind_ok by exact Hcs. cbv beta iota.
    destruct (IH (fs_next_block_slice_key key (sz - (rd + slice_length key)))
      (rd + slice_length key) buf2 fi2 w3) as (buf' & fi' & w' & -> & (Hh' & Hi' & Hs') & Hf' & Hlb & Hlk);
      [done|by rewrite (sh_ctx _ _ Hh)|done|done|exact Hf4|congruence|lia..|].
    assert (n = slice_length key + avail fsize (off + (rd + slice_length key))
                                     (sz - (rd + slice_length key))) as Hn.
    { unfold n, a, avail in *. lia. }
    exists buf', fi', w'. split_and!; [by do 4 f_equal; lia|..].
    + split; [by transitivity fi2|done].
    + transitivity w2; [done|]. by transitivity w3.
    + congruence.
    + intros j. rewrite Hlk, Hlook, Ho, Hn.
      assert (∀ i, file_byte w3 ino i = file_byte w ino i) as Hw3.
      { intros i. destruct (Hf12 ino i), (Hf3 ino i). congruence. }
      unfold avail in *. repeat case_match; rewrite ?in_range_true, ?in_range_false in *; try lia.
      all: rewrite ?Hw3; try done; do 2 f_equal; lia.
Qed.

(** ** Truncating and allocating *)

(** Bytes [start, start + n) of file [o] have no storage in [w'] and read as
    zero; everything else is as in [w]. *)
Definition released (o start n : Z) (w w' : W) : Prop :=
  ∀ p i,
    file_byte w' p i = (if (p =? o) && in_range start n i then x00 else file_byte w p i) ∧
    allocated w' p i = (if (p =? o) && in_range start n i then false else allocated w p i).

Lemma released_app o start n m w w1 w2 :
  0 ≤ n → 0 ≤ m → released o start n w w1 → released o (start + n) m w1 w2 →
  released o start (n + m) w w2.
Proof.
  intros Hn Hm H1 H2 p i. destruct (H1 p i) as [Hb1 Ha1], (H2 p i) as [-> ->].
  rewrite Hb1, Ha1. destruct (p =? o); [|done]. cbn [andb].
  destruct (in_range (start + n) m i) eqn:E2, (in_range start n i) eqn:E1,
    (in_range start (n + m) i) eqn:E3; rewrite ?in_range_true, ?in_range_false in *; try done; lia.
Qed.

Lemma truncate_loop_spec fuel key remain total w :
  slice_for (W:=W) key remain → 0 < remain → (Z.to_nat remain ≤ fuel)%nat →
  ∃ r total' w', truncate_loop fuel key remain total w = (Ok (r, total'), w') ∧
    (r = Ok tt → released (oid key) (slice_start key) remain w w').
Proof.
  revert key remain total w.
  induction fuel as [|fuel IH]; intros key remain total w Hfor Hrem Hfuel; [lia|].
  pose proof (slice_for_length _ _ Hfor Hrem) as Hl.
  cbn [truncate_loop].
  set (del := if slice_length key =? FS_FILE_BLOCK_SIZE then _ else _).
  destruct (del w) as [r w1] eqn:Ed.
  assert (fs_api_slice_delete key w = (r, w1) ∨ fs_api_block_delete key w = (r, w1)) as Hdel.
  { unfold del in Ed. destruct (_ =? _); auto. }
  erewrite bind_ok by (apply attempt_eq; exact Ed). cbv beta.
  assert (is_Ok_or_ENOENT r → ∃ r' total' w',
    (if remain - slice_length key <=? 0
     then mret (Ok tt, match r with Ok dec => total - dec | Err _ => total end)
     else truncate_loop fuel (fs_next_block_slice_key key (remain - slice_length key))
            (remain - slice_length key) match r with Ok dec => total - dec | Err _ => total end) w1 =
      (Ok (r', total'), w') ∧
    (r' = Ok tt → released (oid key) (slice_start key) remain w w')) as Hnext.
  { intros Hr. pose proof (delete_spec _ _ _ _ (proj1 Hl) Hdel Hr) as Hrel.
    destruct (remain - slice_length key <=? 0) eqn:Erem; bool_to_prop.
    - eexists _, _, w1. split; [done|]. intros _. by replace remain with (slice_length key) by lia.
    - destruct (next_slice key remain (remain - slice_length key))
        as (Ho & Hst & Hf' & _); [done|lia..|].
      edestruct (IH (fs_next_block_slice_key key (remain - slice_length key))
        (remain - slice_length key)) as (r' & total' & w' & Heq & Hpost); [exact Hf'|lia..|].
      rewrite Heq. eexists _, _, w'. split; [done|]. intros Hr'. specialize (Hpost Hr').
      rewrite Ho, Hst in Hpost. replace remain with (slice_length key + (remain - slice_length key)) by lia.
      eapply released_app; [lia..|exact Hrel|exact Hpost]. }
  destruct r as [dec|e]; [by apply Hnext|].
  destruct e; try (by eexists (Err _), _, w1). by apply Hnext.
Qed.

Lemma do_truncate_spec ino sp_end off len w :
  0 ≤ off → 0 < len →
  ∃ r dec w', do_truncate ino sp_end off len w = (Ok (r, dec), w') ∧
    (r = Ok tt → released ino off (avail sp_end off len) w w').
Proof.
  intros Hoff Hlen. unfold do_truncate. rewrite Z.geb_leb.
  destruct (Z.leb_spec sp_end off).
  { eexists _, _, w. split; [done|]. intros _ p i. unfold avail. rewrite Z.max_l by lia.
    replace (in_range off 0 i) with false by (symmetry; apply in_range_false; lia).
    by rewrite andb_false_r. }
  set (remain := if _ >? _ then _ else _).
  assert (remain = avail sp_end off len ∧ 0 < remain) as [Hr Hr0].
  { unfold remain, avail. destruct (Z.gtb_spec (off + len) sp_end); lia. }
  destruct (fs_set_block_slice_spec (W:=W) ino off remain) as (Ho & Hst & Hfor); [done..|].
  destruct (truncate_loop_spec (Z.to_nat remain) (fs_set_block_slice ino off remain) remain 0 w)
    as (r & total & w' & -> & Hpost); [done|done|lia|].
  rewrite Ho, Hst in Hpost. rewrite Hr in Hpost at 1. by eexists _, _, w'.
Qed.

Lemma allocate_loop_spec fuel key remain total w :
  slice_for (W:=W) key remain → 0 < remain → (Z.to_nat remain ≤ fuel)%nat →
  ∃ r total' w', allocate_loop fuel key remain total w = (Ok (r, total'), w') ∧
    (∀ p i, file_byte w' p i = file_byte w p i) ∧
    (r = Ok tt → ∀ p i, allocated w' p i =
       if (p =? oid key) && in_range (slice_start key) remain i then true else allocated w p i).
Proof.
  revert key remain total w.
  induction fuel as [|fuel IH]; intros key remain total w Hfor Hrem Hfuel; [lia|].
  pose proof (slice_for_length _ _ Hfor Hrem) as Hl.
  cbn [allocate_loop]. destruct (fs_api_slice_allocate key w) as [r w1] eqn:Ea.
  destruct (allocate_spec _ _ _ _ (proj1 Hl) Ea) as [Hby Hal].
  erewrite bind_ok by (apply attempt_eq; exact Ea). cbv beta.
  destruct r as [inc|e]; [|by eexists (Err _), _, w1]. specialize (Hal eq_refl).
  destruct (remain - slice_length key <=? 0) eqn:Erem; bool_to_prop.
  { eexists _, _, w1. split_and!; [done..|]. intros _. by replace remain with (slice_length key) by lia. }
  destruct (next_slice key remain (remain - slice_length key))
    as (Ho & Hst & Hf' & _); [done|lia..|].
  edestruct (IH (fs_next_block_slice_key key (remain - slice_length key))
    (remain - slice_length key)) as (r' & total' & w' & Heq & Hby' & Hal'); [exact Hf'|lia..|].
  rewrite Heq. eexists _, _, w'. split_and!; [done|by intros; rewrite Hby'|].
  intros Hr p i. rewrite (Hal' Hr), Hal, Ho, Hst. destruct (p =? oid key); [|done]. cbn [andb].
  repeat case_match; rewrite ?in_range_true, ?in_range_false in *; try done; lia.
Qed.
End proofs.
End FileSpec.
