(* ===== verification/FcfsFileRef.v ===== *)
(** * A small storage and directory service

    An executable instance of the service classes of [FcfsFile] with blocks of
    four bytes, so that the theorems about file operations can be evaluated. *)
From Stdlib Require Import Init.Byte.
From S2P Require Import Prelude Fastcommon FcfsFile FcfsFileProofs.
Import FcfsFile FileSpec.
Local Open Scope Z_scope.

Module RefStore.

Record world := {
  cells : gmap (Z * Z) byte;
  entry_info : FDIRDEntryInfo;
  now : Z;
  pushed : list FDIRSetDEntrySizeInfo;
}.

Definition set_cells (m : gmap (Z * Z) byte) (w : world) :=
  {| cells := m; entry_info := entry_info w; now := now w; pushed := pushed w |}.
Definition set_entry_info (d : FDIRDEntryInfo) (w : world) :=
  {| cells := cells w; entry_info := d; now := now w; pushed := pushed w |}.
Definition push (d : FDIRSetDEntrySizeInfo) (w : world) :=
  {| cells := cells w; entry_info := entry_info w; now := now w; pushed := pushed w ++ [d] |}.

(** Set the cells of [o] from [s] on to [f 0], [f 1], ... *)
Fixpoint fill (o s : Z) (n : nat) (f : Z → option byte → option byte)
    (m : gmap (Z * Z) byte) : gmap (Z * Z) byte :=
  match n with
  | O => m
  | S n => partial_alter (f (Z.of_nat n)) (o, s + Z.of_nat n) (fill o s n f m)
  end.

Definition key_at (o off n : Z) : FSBlockSliceKeyInfo :=
  {| oid := o; block_offset := off - off mod 4; slice_offset := off mod 4;
     slice_length := Z.min (4 - off mod 4) n |}.

(** How much of a slice there is to read: up to its last stored byte. *)
Fixpoint stored (m : gmap (Z * Z) byte) (o s : Z) (n : nat) : nat :=
  match n with
  | O => O
  | S k => if decide (is_Some (m !! (o, s + Z.of_nat k))) then S k else stored m o s k
  end.

Definition byte_at (m : gmap (Z * Z) byte) (o i : Z) : byte := default x00 (m !! (o, i)).

(** How the directory service applies a report. *)
Definition apply_size (d : FDIRSetDEntrySizeInfo) (e : FDIRDEntryInfo) : FDIRDEntryInfo :=
  let pick old new := if ds_force d then new else Z.max old new in
  let s := stat e in
  let s := if FLAG_FILE_SIZE (ds_flags d) then set_size (pick (size s) (ds_file_size d)) s else s in
  let s := if FLAG_SPACE_END (ds_flags d)
           then set_space_end (pick (space_end s) (ds_file_size d)) s else s in
  {| inode := inode e; stat := s |}.

#[export] Instance clock : Clock world := {| current_time := now |}.
#[export] Instance malloc : Malloc world := {| fc_malloc _ w := (true, w) |}.

#[export] Instance fsapi : FsApi world := {|
  FS_FILE_BLOCK_SIZE := 4;
  fs_set_block_slice := key_at;
  fs_next_block_slice_key k n :=
    {| oid := oid k; block_offset := block_offset k + 4; slice_offset := 0; slice_length := Z.min n 4 |};
  fs_set_slice_size k off n :=
    {| oid := oid k; block_offset := block_offset k; slice_offset := off - block_offset k;
       slice_length := Z.min n (4 - (off - block_offset k)) |};
  fs_api_slice_write k v w :=
    ((None, slice_length k, slice_length k),
     set_cells (fill (oid k) (slice_start k) (Z.to_nat (slice_length k)) (λ j _, Some (v j))
                  (cells w)) w);
  fs_api_slice_read k w :=
    ((None, (λ j, byte_at (cells w) (oid k) (slice_start k + Z.of_nat j)) <$>
            seq 0 (stored (cells w) (oid k) (slice_start k) (Z.to_nat (slice_length k)))), w);
  fs_api_block_delete k w :=
    (Ok (slice_length k), set_cells (fill (oid k) (slice_start k) (Z.to_nat (slice_length k))
                                       (λ _ _, None) (cells w)) w);
  fs_api_slice_delete k w :=
    (Ok (slice_length k), set_cells (fill (oid k) (slice_start k) (Z.to_nat (slice_length k))
                                       (λ _ _, None) (cells w)) w);
  fs_api_slice_allocate k w :=
    (Ok (slice_length k), set_cells (fill (oid k) (slice_start k) (Z.to_nat (slice_length k))
                                       (λ _ b, Some (default x00 b)) (cells w)) w);
  fs_api_unlink_file _ _ := mret tt;
  sf_iova_first_slice _ := mret tt;
  sf_iova_next_slice _ _ := mret tt;
  sf_iova_consume _ := mret tt;
  sf_iova_memset _ _ := mret tt;
|}.

#[export] Instance fdir : FdirClient world := {|
  fdir_client_lookup_inode_by_path _ _ := gets (λ w, inode (entry_info w));
  fdir_client_stat_dentry_by_path _ _ _ := gets entry_info;
  fdir_client_stat_dentry_by_inode _ _ _ := gets entry_info;
  fdir_client_access_dentry_by_path _ _ _ _ := gets entry_info;
  fdir_client_access_dentry_by_inode _ _ _ _ := gets entry_info;
  fdir_client_create_dentry _ _ _ := throw EEXIST;
  fdir_client_set_dentry_size d w :=
    let e := apply_size d (entry_info w) in (Ok e, set_entry_info e w);
  fdir_client_init_session := mret 1;
  fdir_client_close_session _ _ := mret tt;
  fdir_client_dentry_sys_lock _ _ :=
    gets (λ w, (size (stat (entry_info w)), space_end (stat (entry_info w))));
  fdir_client_dentry_sys_unlock_ex _ update _ d w :=
    (Ok tt, if update : bool then set_entry_info (apply_size d (entry_info w)) w else w);
  fdir_client_flock_dentry_ex _ _ _ _ _ _ _ := mret tt;
  fdir_client_getlk_dentry _ op off len id pid := mret (op, off, len, id, pid);
  fdir_client_modify_stat_by_inode _ _ _ := gets entry_info;
  fdir_client_modify_stat_by_path _ _ _ := gets entry_info;
  fdir_client_remove_dentry_ex _ _ := gets entry_info;
  fdir_client_rename_dentry_ex _ _ _ := mret None;
|}.

#[export] Instance async : AsyncReport world := {|
  async_reporter_push d w := (Ok tt, push d w);
  inode_htable_check_conflict_and_wait _ := mret tt;
|}.

#[export] Instance storage : Storage world := {|
  file_byte w o i := byte_at (cells w) o i;
  allocated w o i := bool_decide (is_Some (cells w !! (o, i)));
|}.

Lemma fill_lookup o s n f m p i :
  fill o s n f m !! (p, i) =
  if (p =? o) && in_range s (Z.of_nat n) i then f (i - s) (m !! (p, i)) else m !! (p, i).
Proof.
  induction n as [|n IH]; cbn [fill].
  - rewrite (proj2 (in_range_false s (Z.of_nat 0) i)) by lia. by rewrite andb_false_r.
  - destruct (decide ((o, s + Z.of_nat n) = (p, i))) as [Heq|Hne].
    + simplify_eq. rewrite lookup_partial_alter_eq, IH, Z.eqb_refl. cbn [andb].
      rewrite (proj2 (in_range_false s (Z.of_nat n) (s + Z.of_nat n))) by lia.
      rewrite (proj2 (in_range_true s (Z.of_nat (S n)) (s + Z.of_nat n))) by lia. f_equal. lia.
    + rewrite lookup_partial_alter_ne, IH by done. destruct (Z.eqb_spec p o) as [->|]; [|done].
      cbn [andb]. assert (i ≠ s + Z.of_nat n) by congruence.
      destruct (in_range s (Z.of_nat n) i) eqn:E1, (in_range s (Z.of_nat (S n)) i) eqn:E2;
        rewrite ?in_range_true, ?in_range_false in *; try done; lia.
Qed.

Lemma fill_lookup_Z o s z f m p i :
  0 ≤ z →
  fill o s (Z.to_nat z) f m !! (p, i) =
  if (p =? o) && in_range s z i then f (i - s) (m !! (p, i)) else m !! (p, i).
Proof. intros. by rewrite fill_lookup, Z2Nat.id. Qed.

Lemma stored_le m o s n : (stored m o s n ≤ n)%nat.
Proof. induction n as [|n IH]; simpl; [lia|]. case_decide; lia. Qed.

Lemma stored_beyond m o s n i :
  s + Z.of_nat (stored m o s n) ≤ i < s + Z.of_nat n → m !! (o, i) = None.
Proof.
  induction n as [|n IH]; simpl; [lia|]. case_decide as Hd; [lia|]. intros Hi.
  destruct (decide (i = s + Z.of_nat n)) as [->|]; [by apply eq_None_not_Some|]. apply IH. lia.
Qed.

#[export] Instance slice_laws : SliceKeyLaws world.
Proof.
  split; intros; unfold slice_for, slice_start; simpl in *;
    try pose proof (Z.mod_pos_bound off 4); split_and!; lia.
Qed.

Lemma byte_at_fill o s z f m p i :
  0 ≤ z →
  byte_at (fill o s (Z.to_nat z) f m) p i =
  if (p =? o) && in_range s z i then default x00 (f (i - s) (m !! (p, i))) else byte_at m p i.
Proof. intros. unfold byte_at. rewrite fill_lookup_Z by done. by case_match. Qed.

#[export] Instance storage_laws : StorageLaws world.
Proof.
  split; try (intros; by intros ? ? ?).
  - intros k v w err n inc w' Hl Hw. injection Hw as <- <- <- <-. split_and!; [lia..|].
    intros o i. simpl. by rewrite byte_at_fill by lia.
  - intros k w err data w' Hl Hr. injection Hr as <- <- <-.
    set (n := stored _ _ _ _). pose proof (stored_le (cells w) (oid k) (slice_start k)
      (Z.to_nat (slice_length k))) as Hn. fold n in Hn.
    split; [done|]. intros _. rewrite length_fmap, length_seq. split_and!; [lia|..].
    + intros j b Hj. apply list_lookup_fmap_Some in Hj as (x & -> & [-> _]%lookup_seq). done.
    + intros i Hi. simpl. unfold byte_at. rewrite (stored_beyond _ _ (slice_start k)
        (Z.to_nat (slice_length k))); [done|]. fold n. lia.
  - intros k w r w' Hl Hd _ o i.
    assert (w' = set_cells (fill (oid k) (slice_start k) (Z.to_nat (slice_length k))
      (λ _ _, None) (cells w)) w) as -> by (destruct Hd as [[= <- <-]|[= <- <-]]; done).
    simpl. rewrite byte_at_fill, fill_lookup_Z by lia. split; by case_match.
  - intros k w r w' Hl [= <- <-]. split.
    + intros o i. simpl. rewrite byte_at_fill by lia. by case_match.
    + intros _ o i. simpl. rewrite fill_lookup_Z by lia. by case_match.
  - intros s b o d w p i. simpl. by destruct b.
Qed.
End RefStore.
