(* ===== verification/FcfsFileSpec.v ===== *)
(** * What the file operations promise

    Reads return the bytes of the file and stop at its end; writes replace the
    bytes written and nothing else; truncation releases the right range; and the
    cases where the code departs from this. *)
From Stdlib Require Import Init.Byte.
From S2P Require Import Prelude Fastcommon FcfsFile FcfsFileProofs FcfsFileRef.
Import FcfsFile FileSpec.
Local Open Scope Z_scope.

Module FcfsFileSpec.
Section spec.
Context {W : Type} `{!Clock W, !Malloc W, !FdirClient W, !FsApi W, !AsyncReport W, !Storage W}.
Context `{!SliceKeyLaws W, !StorageLaws W}.

(** A handle opened for writing (resp. reading) a regular file. *)
Definition writable (c : FCFSAPIContext) (fi : FCFSAPIFileInfo) : Prop :=
  ctx fi = Some c ∧ check_writable fi = Ok tt.
Definition readable (c : FCFSAPIContext) (fi : FCFSAPIFileInfo) : Prop :=
  ctx fi = Some c ∧ check_readable fi = Ok tt.

Lemma src_pos_two ns j :
  (length ns ≤ 2)%nat → 0 ≤ j < sum ns → src_pos false ns 0 0 j = j.
Proof.
  destruct ns as [|n0 [|n1 [|n2 ns]]]; simpl; intros Hl Hj; repeat case_match; bool_to_prop; lia.
Qed.

(** The effect of a write of the bytes [m 0], [m 1], ... at [start] that reports
    [written] bytes in [chunks] slices. *)
Record wrote (ino start sz : Z) (m : Z → byte) (w w' : W) (written : Z) (chunks : list Z) : Prop := {
  wrote_sum : written = sum chunks;
  wrote_chunks : Forall (λ n, 0 < n) chunks;
  wrote_bound : 0 ≤ written ≤ sz;
  wrote_frame p i : p ≠ ino ∨ ¬ (start ≤ i < start + written) →
    file_byte w' p i = file_byte w p i;
  wrote_bytes j : 0 ≤ j < written →
    file_byte w' ino (start + j) = m (src_pos false chunks 0 0 j);
  wrote_right : writes_whole_slices (W:=W) → sz ≤ FS_FILE_BLOCK_SIZE (W:=W) + 1 →
    ∀ j, 0 ≤ j < written → file_byte w' ino (start + j) = m j;
  wrote_all : writes_never_fail (W:=W) → written = sz;
}.

Lemma pwrite_wrote c m sz off need fi w :
  ctx fi = Some c → 0 ≤ off → 0 < sz →
  ∃ chunks written total fi' w',
    do_pwrite (FS_API_SET_WBUFFER_BUFF m) sz off need (fi, w) =
      (Ok (if written >? 0 then Ok tt else Err EIO, written, total), (fi', w')) ∧
    same_handle fi fi' ∧ wrote (inode (dentry fi)) off sz m w w' written chunks.
Proof.
  intros Hc Hoff Hsz. destruct (do_pwrite_spec c (FS_API_SET_WBUFFER_BUFF m) sz off need fi w)
    as (ns & written & total & fi' & w' & Heq & Hh & [Hpos Hwr Hb Hby] & Hnf & Hn2); [done..|].
  pose proof (sum_nonneg ns Hpos). exists ns, written, total, fi', w'.
  assert (∀ j, 0 ≤ j < written → file_byte w' (inode (dentry fi)) (off + j) =
    m (src_pos false ns 0 0 j)) as Hsrc.
  { intros j Hj. rewrite Hby, Z.eqb_refl. cbn [andb]. rewrite (proj2 (in_range_true _ _ _)) by lia.
    simpl. do 2 f_equal. lia. }
  split_and!; [done..|]. split; [lia|done|lia| |done| |done].
  - intros p i Hout. rewrite Hby. destruct (Z.eqb_spec p (inode (dentry fi))); [|done].
    replace (in_range off (sum ns) i) with false; [done|].
    symmetry. apply in_range_false. destruct Hout; [done|lia].
  - intros Hws Hsm j Hj. rewrite Hsrc by done. f_equal. apply src_pos_two; [by apply Hn2|lia].
Qed.



(** Where a sequential write goes: the end of the file as the directory service
    knows it under the lock, or the current offset. *)
Definition write_start (c : FCFSAPIContext) (fi : FCFSAPIFileInfo) (w : W) : result (Z * W) :=
  if use_sys_lock c && flag_set (flags fi) O_APPEND then
    match fcfs_api_dentry_sys_lock_ex (inode (dentry fi)) w with
    | (Ok (_, (old_size, _)), w1) => Ok (old_size, w1)
    | (Err e, _) => Err e
    end
  else Ok (offset fi, w).

Lemma keeps_lock ino : keeps_files (fcfs_api_dentry_sys_lock_ex (W:=W) ino).
Proof.
  unfold fcfs_api_dentry_sys_lock_ex. apply keeps_bind; [apply keeps_init_session|]. intros.
  apply keeps_bind; [apply keeps_sys_lock|]. intros. apply keeps_ret.
Qed.

Lemma keeps_unlock s b o d : keeps_files (fcfs_api_dentry_sys_unlock (W:=W) s b o d).
Proof.
  unfold fcfs_api_dentry_sys_unlock. apply keeps_bind; [apply keeps_attempt, keeps_sys_unlock|].
  intros. apply keeps_bind; [apply keeps_attempt, keeps_close_session|]. intros. apply keeps_lift.
Qed.

Lemma advance_offset written (fi : FCFSAPIFileInfo) (w : W) :
  0 ≤ written →
  (if is_ok (if written >? 0 then Ok tt else Err EIO)
   then modify_fi (λ fi, set_offset (offset fi + written) fi) else mret tt) (fi, w) =
  (Ok tt, (set_offset (offset fi + written) fi, w)).
Proof.
  intros Hw. destruct (Z.gtb_spec written 0); [done|]. replace written with 0 by lia.
  rewrite Z.add_0_r. by destruct fi.
Qed.

Lemma wrote_frame_files ino start sz m w0 w w' w1 written chunks :
  same_files w0 w → same_files w' w1 → wrote ino start sz m w w' written chunks →
  wrote ino start sz m w0 w1 written chunks.
Proof.
  intros H0 H1 [Hs Hc Hb Hf Hby Hr Hall]. split; [done..| | | |done].
  - intros p i Ho. destruct (H0 p i) as [<- _], (H1 p i) as [-> _]. by apply Hf.
  - intros j Hj. destruct (H1 ino (start + j)) as [-> _]. by apply Hby.
  - intros Hws Hsm j Hj. destruct (H1 ino (start + j)) as [-> _]. by apply Hr.
Qed.

(** A sequential write of a plain buffer goes to the end of the file when the
    handle appends under the system lock, and to the current offset otherwise;
    it advances the offset past what it wrote and changes nothing else. *)
Theorem write_content c m sz fi w start w1 :
  writable c fi → write_start c fi w = Ok (start, w1) → 0 ≤ start → 0 < sz →
  ∃ chunks written fi' w',
    fcfs_api_write_ex m sz (fi, w) =
      (Ok (if written >? 0 then Ok tt else Err EIO, Some written), (fi', w')) ∧
    offset fi' = start + written ∧ wrote (inode (dentry fi)) start sz m w w' written chunks.
Proof.
  intros [Hc Hw] Hstart Hs0 Hsz. unfold fcfs_api_write_ex, do_write.
  rewrite (proj2 (Z.eqb_neq sz 0)), (proj2 (Z.ltb_ge sz 0)) by lia. bind_step. rewrite Hw.
  erewrite bind_ok by (unfold get_ctx; bind_step; rewrite Hc; reflexivity). cbv beta zeta.
  fold (use_sys_lock c). unfold write_start in Hstart.
  destruct (use_sys_lock c && flag_set (flags fi) O_APPEND).
  - pose proof (keeps_lock (inode (dentry fi)) w) as Hk.
    destruct (fcfs_api_dentry_sys_lock_ex (inode (dentry fi)) w) as [[[s [old sp]]|] w2] eqn:El;
      [|done]. injection Hstart as -> ->.
    erewrite bind_ok by (apply attempt_eq; unfold on_services; rewrite El; reflexivity).
    cbv beta iota. erewrite bind_ok by reflexivity. cbv beta.
    destruct (pwrite_wrote c m sz start false (set_offset start fi) w1)
      as (ns & written & total & fi' & w' & Heq & Hh & Hwr); [done..|].
    erewrite bind_ok by exact Heq. cbv beta iota.
    erewrite bind_ok by (apply advance_offset, (wrote_bound _ _ _ _ _ _ _ _ Hwr)). cbv beta. bind_step.
    match goal with |- context [on_services (fcfs_api_dentry_sys_unlock ?a ?b ?d ?e)] =>
      pose proof (keeps_unlock a b d e w') as Hku;
      destruct (fcfs_api_dentry_sys_unlock a b d e w') as [u w3] eqn:Eu end.
    erewrite bind_ok by (apply attempt_eq; unfold on_services; rewrite Eu; reflexivity).
    exists ns, written, (set_offset (offset fi' + written) fi'), w3.
    split_and!; [done|simpl; by rewrite (sh_offset _ _ Hh)|].
    by eapply wrote_frame_files; [| |exact Hwr].
  - injection Hstart as <- <-.
    destruct (pwrite_wrote c m sz (offset fi) true fi w)
      as (ns & written & total & fi' & w' & Heq & Hh & Hwr); [done..|].
    erewrite bind_ok by exact Heq. cbv beta iota.
    erewrite bind_ok by (apply advance_offset, (wrote_bound _ _ _ _ _ _ _ _ Hwr)). cbv beta.
    exists ns, written, (set_offset (offset fi' + written) fi'), w'.
    split_and!; [done|simpl; by rewrite (sh_offset _ _ Hh)|done].
Qed.

(** ** Truncation *)

Lemma keeps_check_lock c ino o : keeps_files (check_and_sys_lock (W:=W) c ino o).
Proof.
  unfold check_and_sys_lock. destruct (use_sys_lock c).
  - apply keeps_bind; [apply keeps_lock|]. intros [? ?]. apply keeps_ret.
  - apply keeps_bind; [apply keeps_stat_by_inode|]. intros. apply keeps_ret.
Qed.

Lemma keeps_check_unlock c s old d r : keeps_files (check_and_sys_unlock (W:=W) c s old d r).
Proof.
  unfold check_and_sys_unlock. destruct s as [s|], r as [[]|e].
  1, 2: apply keeps_bind; [apply keeps_attempt, keeps_unlock|]; intros; apply keeps_lift.
  - apply keeps_bind; [apply keeps_report|]. intros [? ?]. apply keeps_lift.
  - apply keeps_throw.
Qed.

Lemma released_same ino off n w0 w w' w1 :
  same_files w0 w → same_files w' w1 → released ino off n w w' → released ino off n w0 w1.
Proof.
  intros H0 H1 Hr p i. destruct (H0 p i) as [<- <-], (H1 p i) as [-> ->]. apply Hr.
Qed.

Lemma unlock_keeps_error c s old d e (w w' : W) :
  check_and_sys_unlock c s old d (Err e) w = (Ok tt, w') → False.
Proof.
  unfold check_and_sys_unlock. destruct s as [s|]; [|done].
  intros [(e' & _ & ?)|(a & w1 & _ & ?)]%bind_inv; done.
Qed.

Lemma file_truncate_released c ino new_size o w session old_size sp_end w1 w' :
  check_and_sys_lock c ino o w = (Ok (session, (old_size, sp_end)), w1) →
  file_truncate c ino new_size o w = (Ok tt, w') →
  0 ≤ new_size ∧
  released ino new_size (avail (Z.min old_size sp_end) new_size (Z.max 0 (old_size - new_size))) w w'.
Proof.
  intros Hlock Htr. unfold file_truncate in Htr. destruct (Z.ltb_spec new_size 0); [done|].
  split; [done|]. pose proof (keeps_check_lock c ino o w) as Hk. rewrite Hlock in Hk.
  erewrite bind_ok in Htr by exact Hlock. cbv beta iota in Htr. rewrite Z.geb_leb in Htr.
  destruct (Z.leb_spec old_size new_size).
  - erewrite bind_ok in Htr by reflexivity. cbv beta iota in Htr.
    match type of Htr with check_and_sys_unlock ?a ?b ?d ?e ?f ?g = _ =>
      pose proof (keeps_check_unlock a b d e f g) as Hk2 end. rewrite Htr in Hk2.
    replace (avail _ _ _) with 0 by (unfold avail; lia). eapply released_same; [exact Hk|exact Hk2|].
    intros p i. replace (in_range new_size 0 i) with false by (symmetry; apply in_range_false; lia).
    by rewrite andb_false_r.
  - destruct (do_truncate_spec ino sp_end new_size (old_size - new_size) w1)
      as (r & dec & w2 & Heq & Hrel); [lia..|].
    erewrite bind_ok in Htr by exact Heq. cbv beta iota in Htr.
    match type of Htr with check_and_sys_unlock ?a ?b ?d ?e ?f ?g = _ =>
      pose proof (keeps_check_unlock a b d e f g) as Hk2 end. rewrite Htr in Hk2.
    destruct r as [[]|e]; [|by exfalso; eapply unlock_keeps_error].
    eapply released_same; [exact Hk|exact Hk2|].
    replace (avail _ _ _) with (avail sp_end new_size (old_size - new_size)); [by apply Hrel|].
    unfold avail. lia.
Qed.
(** Shrinking a file releases exactly the bytes between the new and the old
    size that have space assigned ([space_end]): they have no storage and read
    as zero, every other byte of every file is untouched.  Growing it touches no
    storage. *)
Theorem truncate_releases c ino new_size o w session old_size sp_end w1 w' :
  check_and_sys_lock c ino o w = (Ok (session, (old_size, sp_end)), w1) →
  file_truncate c ino new_size o w = (Ok tt, w') →
  0 ≤ new_size ∧
  released ino new_size (avail (Z.min old_size sp_end) new_size (Z.max 0 (old_size - new_size))) w w'.
Proof. apply file_truncate_released. Qed.

(** Space allocated beyond the old size (for instance by [fallocate] with
    [FALLOC_FL_KEEP_SIZE]) is not released by shrinking the file, although the
    report sets [space_end] to the new size, after which nothing in the dentry
    refers to that space any more. *)
Theorem truncate_forgets_preallocated c ino new_size o w session old_size sp_end w1 w' :
  check_and_sys_lock c ino o w = (Ok (session, (old_size, sp_end)), w1) →
  file_truncate c ino new_size o w = (Ok tt, w') →
  new_size < old_size < sp_end →
  (∀ i, old_size ≤ i → allocated w' ino i = allocated w ino i) ∧
  (∀ dec, FLAG_SPACE_END (truncate_flags new_size old_size sp_end dec) = true).
Proof.
  intros Hlock Htr Hlt. destruct (file_truncate_released _ _ _ _ _ _ _ _ _ _ Hlock Htr) as [Hn Hrel].
  split.
  - intros i Hi. destruct (Hrel ino i) as [_ ->]. rewrite Z.eqb_refl. cbn [andb].
    rewrite (proj2 (in_range_false _ _ _)); [done|]. unfold avail. lia.
  - intros dec. unfold truncate_flags. rewrite Z.geb_leb, (proj2 (Z.leb_gt _ _)) by lia. simpl.
    apply Z.ltb_lt. lia.
Qed.

(** ** Reports *)

(** With asynchronous reports, a write inside the file that allocated space
    (a write into a hole) sets the handle's copy of the file size to the end of
    the write, even though the file is longer. *)
Theorem async_report_shrinks_size c arg d w :
  async_report_enabled c = true → inc_alloc arg ≠ 0 →
  slice_start (bs_key arg) + write_bytes arg ≤ extra_file_size arg →
  slice_start (bs_key arg) + write_bytes arg ≤ extra_space_end arg →
  ∃ fl d' r w', fcfs_api_file_report_size_and_time c arg (Some d) w = (Ok (fl, Some d', r), w') ∧
    size (stat d') = slice_start (bs_key arg) + write_bytes arg ∧
    space_end (stat d') = slice_start (bs_key arg) + write_bytes arg.
Proof.
  intros Hc Hi H1 H2. unfold fcfs_api_file_report_size_and_time, write_report_flags.
  rewrite !Z.gtb_ltb, !(proj2 (Z.ltb_ge _ _)) by lia. bind_step. rewrite (proj2 (Z.eqb_neq _ _)) by done. simpl.
  unfold report_size_and_time. rewrite Hc. simpl.
  unfold mbind, M_bind, attempt. simpl.
  match goal with |- context [async_reporter_push ?x w] => destruct (async_reporter_push x w) end.
  by eexists _, _, _, _.
Qed.

(** A write of no bytes succeeds without setting the count that the caller
    then returns to the application. *)
Lemma empty_write_sets_no_count m off (s : FS (W:=W)) :
  fcfs_api_write_ex m 0 s = (Ok (Ok tt, None), s) ∧
  fcfs_api_pwrite_ex m 0 off s = (Ok (Ok tt, None), s).
Proof. done. Qed.

(** Setting the times of a file to "now" by passing no times does nothing,
    for [utimens]; [utimes] with the same argument sets both. *)
Lemma utimens_null_is_ignored o path (w : W) :
  fcfs_api_utimens_by_path_ex o path None w = (Ok tt, w) ∧
  ∀ now, m_atime (FCFS_API_SET_UTIMES None now) = Some now ∧
         m_mtime (FCFS_API_SET_UTIMES None now) = Some now.
Proof. done. Qed.

(** ** Opening *)

(** What opening keeps of a handle once the context and the flags are set. *)
Record open_frame (fi fi' : FCFSAPIFileInfo) : Prop := {
  of_ctx : ctx fi' = ctx fi;
  of_flags : flags fi' = flags fi;
  of_flock : flock fi' = flock fi;
  of_magic : magic fi' = magic fi;
}.
#[local] Instance open_frame_preorder : PreOrder open_frame.
Proof. split; [by intros ?|]. intros ??? [] []. split; congruence. Qed.

Definition frames {A} (k : M (FS (W:=W)) A) : Prop := ∀ s, open_frame s.1 (k s).2.1.

Lemma frames_ret {A} (a : A) : frames (mret a).
Proof. intros [fi w]. done. Qed.
Lemma frames_throw {A} e : frames (throw (A:=A) e).
Proof. intros [fi w]. done. Qed.
Lemma frames_lift {A} (r : result A) : frames (lift r).
Proof. intros [fi w]. done. Qed.
Lemma frames_get_fi : frames get_fi.
Proof. intros [fi w]. done. Qed.
Lemma frames_get_ctx : frames get_ctx.
Proof. intros [fi w]. unfold get_ctx, mbind, M_bind. simpl. by destruct (ctx fi). Qed.
Lemma frames_on_services {A} (k : M W A) : frames (on_services k).
Proof. intros [fi w]. unfold on_services. by destruct (k w). Qed.
Lemma frames_modify f : (∀ fi, open_frame fi (f fi)) → frames (modify_fi f).
Proof. intros Hf [fi w]. apply Hf. Qed.
Lemma frames_attempt {A} (k : M (FS (W:=W)) A) : frames k → frames (attempt k).
Proof. intros Hk s. unfold attempt. specialize (Hk s). by destruct (k s). Qed.
Lemma frames_bind {A B} (k : M (FS (W:=W)) A) (g : A → M FS B) :
  frames k → (∀ a, frames (g a)) → frames (k ≫= g).
Proof.
  intros Hk Hg s. unfold mbind, M_bind. specialize (Hk s). destruct (k s) as [[a|e] s']; [|done].
  etransitivity; [exact Hk|apply Hg].
Qed.

Ltac frames :=
  repeat first
    [ apply frames_bind; [|intros] | apply frames_ret | apply frames_throw | apply frames_lift
    | apply frames_get_fi | apply frames_get_ctx | apply frames_attempt
    | apply frames_on_services | apply frames_modify; intros; by split
    | match goal with |- frames (match ?x with _ => _ end) => destruct x end ].

Lemma frames_deal_open_flags path o md t r : frames (deal_open_flags path o md t r).
Proof. unfold deal_open_flags, persist_gids, open_or_create, open_for_write. cbv zeta. frames. Qed.

Lemma frames_use {A} (k : M (FS (W:=W)) A) s r s' : frames k → k s = (r, s') → open_frame s.1 s'.1.
Proof. intros Hk E. specialize (Hk s). by rewrite E in Hk. Qed.

(** What a successful open guarantees of the handle. *)
Definition opened (fl : Z) (fi : FCFSAPIFileInfo) : Prop :=
  let st := stat (dentry fi) in
  if is_writable_flags fl then
    S_ISDIR (mode st) = false ∧ (flag_set fl O_NOFOLLOW = true → S_ISLNK (mode st) = false) ∧
    (flag_set fl O_TRUNC = true → size st ≤ 0) ∧
    offset fi = (if flag_set fl O_APPEND then size st else 0)
  else flag_set fl O_TRUNC = false ∧ offset fi = 0.

Lemma open_for_write_opened c o fl s fi' w' :
  is_writable_flags fl = true → open_for_write c o fl s = (Ok tt, (fi', w')) → opened fl fi'.
Proof.
  destruct s as [fi w]. intros Hw H. unfold open_for_write in H. unfold opened. rewrite Hw.
  erewrite bind_ok in H by reflexivity. cbv beta zeta in H.
  destruct (S_ISDIR (mode (stat (dentry fi)))) eqn:Ed; [done|].
  destruct (flag_set fl O_NOFOLLOW && S_ISLNK (mode (stat (dentry fi)))) eqn:El; [done|].
  assert (flag_set fl O_NOFOLLOW = true → S_ISLNK (mode (stat (dentry fi))) = false) as Hl.
  { intros Hn. by rewrite Hn in El. }
  erewrite bind_ok in H by reflexivity. cbv beta in H.
  apply bind_inv in H as [(e & _ & ?)|([] & [fi1 w1] & H1 & H)]; [done|].
  injection H as <- <-. simpl.
  destruct (flag_set fl O_TRUNC && (size (stat (dentry fi)) >? 0)) eqn:Et.
  - destruct (S_ISLNK (mode (stat (dentry fi)))) eqn:Esl; [done|].
    apply bind_inv in H1 as [(e & _ & ?)|(? & [fi2 w2] & H2 & H1)]; [done|].
    injection H1 as <- <-. unfold on_services in H2. case_match. simplify_eq/=.
    split_and!; [done..|lia|done].
  - injection H1 as <- <-. split_and!; try done. intros Htr. rewrite Htr, Z.gtb_ltb in Et. simpl in *.
    bool_to_prop. done.
Qed.

Lemma deal_open_flags_opened path o md t r fi w fi' w' :
  deal_open_flags path o md t r (fi, w) = (Ok tt, (fi', w')) → opened (flags fi) fi'.
Proof.
  intros H. unfold deal_open_flags in H. erewrite bind_ok in H by reflexivity. cbv beta in H.
  apply bind_inv in H as [(e & _ & ?)|(c & [fi1 w1] & H1 & H)]; [done|].
  apply (frames_use _ _ _ _ frames_get_ctx) in H1 as [_ Hf1 _ _].
  apply bind_inv in H as [(e & _ & ?)|([] & [fi2 w2] & H2 & H)]; [done|].
  assert (frames (if persist_additional_gids c then persist_gids o else mret tt)) as Hp
    by (unfold persist_gids; frames).
  apply (frames_use _ _ _ _ Hp) in H2 as [_ Hf2 _ _]. simpl in Hf1, Hf2.
  erewrite bind_ok in H by reflexivity. cbv beta in H. rewrite Hf2, Hf1 in H.
  destruct (is_writable_flags (flags fi)) eqn:Ew; cbn [negb] in H.
  - apply bind_inv in H as [(e & _ & ?)|([] & s3 & _ & H)]; [done|].
    by eapply open_for_write_opened.
  - unfold opened. rewrite Ew. erewrite bind_ok in H by reflexivity. cbv beta in H.
    destruct (flag_set (flags fi) O_TRUNC) eqn:Et; [done|]. by injection H as _ <- _.
Qed.

(** C31: a successful open gives a valid handle with the requested flags and no
    lock session, positioned at the end of the file for [O_APPEND] and at its
    start otherwise; a handle that can write is not a directory, nor a link under
    [O_NOFOLLOW], and has size zero under [O_TRUNC].  A failed open leaves no
    valid handle behind. *)
Theorem open_establishes_handle c path fl o md t fi w r fi' w' :
  magic fi ≠ FCFS_API_MAGIC_NUMBER →
  fcfs_api_open_ex c path fl o md t (fi, w) = (r, (fi', w')) →
  (r = Ok tt ↔ magic fi' = FCFS_API_MAGIC_NUMBER) ∧
  (r = Ok tt → ctx fi' = Some c ∧ flags fi' = fl ∧ flock fi' = None ∧ opened fl fi').
Proof.
  intros Hm H. unfold fcfs_api_open_ex in H. erewrite bind_ok in H by reflexivity. cbv beta in H.
  apply bind_inv in H as [(e & H1 & _)|(ra & [fi1 w1] & H1 & H)];
    [unfold attempt in H1; by case_match|].
  assert (fi1 = set_flock None (set_flags fl (set_ctx (Some c) fi))) as Hfi1.
  { unfold attempt, on_services in H1. repeat case_match; by simplify_eq. }
  apply bind_inv in H as [(e & H2 & _)|([] & [fi2 w2] & H2 & H)]; [by destruct ra|].
  assert (open_frame fi1 fi2) as Hf2.
  { destruct ra; injection H2 as <- <-; by split. }
  assert (open_frame fi1 fi2 → magic fi2 = magic fi ∧ ctx fi2 = Some c ∧ flags fi2 = fl ∧
          flock fi2 = None) as Hfr by (intros []; by subst fi1).
  destruct (Hfr Hf2) as (Hm2 & Hc2 & Hfl2 & Hk2). clear Hfr.
  apply bind_inv in H as [(e & H3 & ->)|([] & [fi3 w3] & H3 & H)];
    pose proof (frames_use _ _ _ _ (frames_deal_open_flags _ _ _ _ _) H3) as [Hc3 Hfl3 Hk3 Hm3];
    simpl in Hc3, Hfl3, Hk3, Hm3.
  - split; [|done]. split; [done|]. congruence.
  - injection H as <- <- <-. split; [done|]. intros _. apply deal_open_flags_opened in H3.
    rewrite Hfl2 in H3. split_and!; simpl; [congruence..|exact H3].
Qed.
End spec.
End FcfsFileSpec.

(** ** Examples *)

Module FcfsFileExamples.
Import RefStore FcfsFileSpec.

Definition demo_stat (n sp : Z) : FDIRDEntryStat :=
  {| mode := Z.lor S_IFREG 420; uid := 0; gid := 0; rdev := 0; size := n; space_end := sp;
     alloc := 0; nlink := 1; atime := 0; mtime := 0; ctime := 0 |}.
Definition demo_dentry (n sp : Z) : FDIRDEntryInfo := {| inode := 7; stat := demo_stat n sp |}.
Definition demo_ctx (lock async : bool) : FCFSAPIContext :=
  {| persist_additional_gids := false; use_sys_lock_for_append := lock;
     async_report_enabled := async; trash_bin_enabled := false; ns := [] |}.
Definition demo_oper : FDIRDentryOperator :=
  {| oper_uid := 0; oper_gid := 0; additional_gids := [] |}.

(** An open handle of a file of [n] bytes. *)
Definition demo_fi (c : FCFSAPIContext) (fl n sp : Z) : FCFSAPIFileInfo :=
  {| ctx := Some c; oper := demo_oper; gids := GidsCaller; tid := 1; flock := None;
     dentry := demo_dentry n sp; flags := fl; magic := FCFS_API_MAGIC_NUMBER;
     last_modified_time := 0; offset := 0 |}.
Definition demo_world (n sp : Z) : world :=
  {| cells := ∅; entry_info := demo_dentry n sp; now := 1; pushed := [] |}.

(** Memory in which every byte is its address. *)
Definition demo_mem (i : Z) : byte := default x00 (Byte.of_N (Z.to_N i)).

Definition demo_bytes (w : world) (n : nat) : list byte :=
  (λ i, file_byte w 7 (Z.of_nat i)) <$> seq 0 n.


Lemma write_content_witness :
  ∃ written fi' w',
    fcfs_api_write_ex demo_mem 6
      (demo_fi (demo_ctx true false) (Z.lor O_WRONLY O_APPEND) 0 0, demo_world 10 10) =
      (Ok (if written >? 0 then Ok tt else Err EIO, Some written), (fi', w')) ∧ offset fi' = 16.
Proof.
  destruct (write_content (demo_ctx true false) demo_mem 6
    (demo_fi (demo_ctx true false) (Z.lor O_WRONLY O_APPEND) 0 0) (demo_world 10 10)
    10 (demo_world 10 10)) as (chunks & written & fi' & w' & Heq & Ho & Hw); [by split|done|lia|lia|].
  exists written, fi', w'. split; [exact Heq|]. rewrite Ho, (wrote_all _ _ _ _ _ _ _ _ Hw); [done|].
  by split_and!.
Defined.

Lemma demo_serves w :
  cells w = ∅ → entry_info w = demo_dentry 6 6 → serves (λ w', w' = w) 7 6.
Proof.
  intros Hc He. split; [lia|..]; intros; subst; eauto.
  - exfalso. apply H1. simpl. rewrite Hc. assert (∀ o s n, stored ∅ o s n = 0%nat) as ->; [|done].
    intros o s n. induction n as [|n IH]; simpl; [done|]. rewrite decide_False; [done|].
    rewrite lookup_empty. by intros [? ?].
  - exists (demo_dentry 6 6), w. simpl. unfold gets. by rewrite He.
Qed.



(** Writing vectors of eight bytes over two blocks stores their first four
    bytes twice: the vectors are cut for each slice, but the uncut ones are
    handed to the storage service. *)
Theorem pwritev_repeats_first_slice :
  let '(r, (_, w)) := fcfs_api_pwritev_ex [demo_mem <$> [0; 1; 2]; demo_mem <$> [3; 4; 5; 6; 7]] 0
                        (demo_fi (demo_ctx true false) O_RDWR 0 0, demo_world 0 0) in
  r = Ok (Ok tt, Some 8) ∧ demo_bytes w 8 = demo_mem <$> [0; 1; 2; 3; 0; 1; 2; 3].
Proof. vm_compute. done. Qed.

(** With asynchronous reports, writing four bytes at the start of a sparse
    file of twelve makes a read through the same handle stop after them. *)
Theorem async_write_hides_rest_of_file :
  let s0 := (demo_fi (demo_ctx true true) O_RDWR 12 12, demo_world 12 12) in
  let s1 := (fcfs_api_pwrite_ex demo_mem 4 0 s0).2 in
  (fcfs_api_pread_ex (replicate 12 xff) 12 0 s0).1 = Ok (Ok tt, 12, replicate 12 x00) ∧
  (fcfs_api_pread_ex (replicate 12 xff) 12 0 s1).1 =
    Ok (Ok tt, 4, (demo_mem <$> [0; 1; 2; 3]) ++ replicate 8 xff).
Proof. vm_compute. done. Qed.

Lemma truncate_releases_witness :
  ∃ w', file_truncate (demo_ctx true false) 7 2 demo_oper (demo_world 12 12) = (Ok tt, w') ∧
        released 7 2 10 (demo_world 12 12) w'.
Proof.
  eexists. split; [reflexivity|].
  apply (truncate_releases (demo_ctx true false) 7 2 demo_oper (demo_world 12 12) (Some 1) 12 12
    (demo_world 12 12)); reflexivity.
Defined.

Lemma truncate_forgets_preallocated_witness :
  ∃ w', file_truncate (demo_ctx true false) 7 2 demo_oper (demo_world 12 20) = (Ok tt, w') ∧
        allocated w' 7 15 = allocated (demo_world 12 20) 7 15.
Proof.
  eexists. split; [reflexivity|].
  apply (truncate_forgets_preallocated (demo_ctx true false) 7 2 demo_oper (demo_world 12 20)
    (Some 1) 12 20 (demo_world 12 20)); [reflexivity..|lia|lia].
Defined.

Definition demo_arg : FCFSAPIWriteDoneCallbackArg :=
  {| bs_key := key_at 7 0 4; write_bytes := 4; inc_alloc := 4; extra_file_size := 12;
     extra_space_end := 12; extra_last_modified_time := 0 |}.

Lemma async_report_shrinks_size_witness :
  ∃ fl d' r w', fcfs_api_file_report_size_and_time (demo_ctx true true) demo_arg
                  (Some (demo_dentry 12 12)) (demo_world 12 12) = (Ok (fl, Some d', r), w') ∧
    size (stat d') = 4.
Proof.
  destruct (async_report_shrinks_size (demo_ctx true true) demo_arg (demo_dentry 12 12)
    (demo_world 12 12)) as (fl & d' & r & w' & Heq & Hs & _); [done|done|done|done|].
  exists fl, d', r, w'. split; [exact Heq|exact Hs].
Defined.

Definition demo_closed : FCFSAPIFileInfo := set_magic 0 (demo_fi (demo_ctx true false) 0 0 0).

Lemma open_establishes_handle_witness :
  ∃ fi' w', fcfs_api_open_ex (demo_ctx true false) [] (Z.lor O_RDWR O_TRUNC) demo_oper 0 1
              (demo_closed, demo_world 12 12) = (Ok tt, (fi', w')) ∧ opened (Z.lor O_RDWR O_TRUNC) fi'.
Proof.
  eexists _, _. split; [reflexivity|].
  eapply (open_establishes_handle (demo_ctx true false) [] (Z.lor O_RDWR O_TRUNC) demo_oper 0 1
    demo_closed (demo_world 12 12)); [done|reflexivity|reflexivity].
Defined.
End FcfsFileExamples.
