(* ===== verification/AsyncReporter.v ===== *)
(** * The asynchronous report queue (src/api/async_reporter.[ch], inode_htable.[ch])

    Writers push size reports into a queue; one thread takes the whole queue,
    merges the reports of each inode and sends them to the directory service in
    batches, then wakes up the tasks that wait for an inode.  The queue, the
    hash table of pending events and the objects are explicit state; the
    operations run one after the other, each under the locks the code takes. *)
From S2P Require Import Prelude Fastcommon FcfsFile.
Import FcfsFile.
Local Open Scope Z_scope.

Module AsyncReporter.

Inductive FCFSAPIEventType := fcfs_api_event_type_report | fcfs_api_event_type_notify.
#[global] Instance FCFSAPIEventType_eq_dec : EqDecision FCFSAPIEventType.
Proof. solve_decision. Defined.

(** [waitings] are the waiting tasks, the last one added first. *)
Record FCFSAPIAsyncReportEvent := {
  type : FCFSAPIEventType;
  id : Z;
  dsize : FDIRSetDEntrySizeInfo;
  waitings : list addr;
}.

(** An array of event pointers: its capacity and the pointers in use. *)
Record FCFSAPIAsyncReportEventPtrArray := {
  pa_alloc : Z;
  pa_events : list addr;
}.

Definition set_id (n : Z) (e : FCFSAPIAsyncReportEvent) :=
  {| type := type e; id := n; dsize := dsize e; waitings := waitings e |}.
Definition set_dsize (d : FDIRSetDEntrySizeInfo) (e : FCFSAPIAsyncReportEvent) :=
  {| type := type e; id := id e; dsize := d; waitings := waitings e |}.
Definition set_waitings (l : list addr) (e : FCFSAPIAsyncReportEvent) :=
  {| type := type e; id := id e; dsize := dsize e; waitings := l |}.
Definition push_ptr (a : addr) (p : FCFSAPIAsyncReportEventPtrArray) :=
  {| pa_alloc := pa_alloc p; pa_events := pa_events p ++ [a] |}.

Definition is_notify (e : FCFSAPIAsyncReportEvent) : bool :=
  bool_decide (type e = fcfs_api_event_type_notify).

(** The directory client's batch call and its limit. *)
Class FdirBatch (W : Type) := {
  FDIR_BATCH_SET_MAX_DENTRY_COUNT : Z;
  fdir_client_batch_set_dentry_size : list FDIRSetDEntrySizeInfo → M W unit;
}.

(** Whether libserverframe's hash table has, or can make, the entry of a key. *)
Class ShardingHtable (W : Type) := { sf_sharding_htable_entry : Z → M W unit }.

Section operations.
Context {W : Type} `{!Malloc W, !FdirBatch W, !ShardingHtable W, !FcCompare}.
Context {MB : Type} `{!Mblock MB}.

(** [htable] maps an inode to its linked events, newest first; [finished] is the
    flag of the waiting tasks; [event_pool] and [task_pool] are the allocators. *)
Record AsyncReporterContext := {
  heap : addr → FCFSAPIAsyncReportEvent;
  event_pool : MB;
  task_pool : MB;
  finished : addr → bool;
  htable : gmap Z (list addr);
  queue : list addr;
  waiting_count : Z;
  notify_count : Z;
  sorted : FCFSAPIAsyncReportEventPtrArray;
  merged : FCFSAPIAsyncReportEventPtrArray;
  world : W;
}.

(** ** Merging *)

Definition realloc_event_ptrs (p : FCFSAPIAsyncReportEventPtrArray) (w : W)
    : option FCFSAPIAsyncReportEventPtrArray * W :=
  let n := pa_alloc p * 2 in
  let '(ok, w) := fc_malloc (8 * n) w in
  (if ok : bool then Some {| pa_alloc := n; pa_events := pa_events p |} else None, w).

(** Room for one more pointer. *)
Definition check_realloc (p : FCFSAPIAsyncReportEventPtrArray) (w : W)
    : option FCFSAPIAsyncReportEventPtrArray * W :=
  if Z.of_nat (length (pa_events p)) >=? pa_alloc p then realloc_event_ptrs p w else (Some p, w).

Fixpoint to_event_ptrs (head : list addr) (p : FCFSAPIAsyncReportEventPtrArray)
    (h : addr → FCFSAPIAsyncReportEvent) (w : W)
    : result unit * FCFSAPIAsyncReportEventPtrArray * (addr → FCFSAPIAsyncReportEvent) * W :=
  match head with
  | [] => (Ok tt, p, h, w)
  | a :: head =>
      match check_realloc p w with
      | (None, w) => (Err ENOMEM, p, h, w)
      | (Some p, w) =>
          to_event_ptrs head (push_ptr a p)
            (alter (set_id (Z.of_nat (length (pa_events p)) + 1)) a h) w
      end
  end.

Definition to_event_ptr_array (head : list addr) (p : FCFSAPIAsyncReportEventPtrArray)
    (h : addr → FCFSAPIAsyncReportEvent) (w : W) :=
  to_event_ptrs head {| pa_alloc := pa_alloc p; pa_events := [] |} h w.

Definition compare_event_ptr (t1 t2 : FCFSAPIAsyncReportEvent) : Z :=
  let sub := fc_compare_int64 (ds_inode (dsize t1)) (ds_inode (dsize t2)) in
  if negb (sub =? 0) then sub else id t1 - id t2.

Definition event_le (h : addr → FCFSAPIAsyncReportEvent) (a b : addr) : Prop :=
  compare_event_ptr (h a) (h b) ≤ 0.
#[local] Instance event_le_dec h : RelDecision (event_le h).
Proof. intros a b. apply Z_le_dec. Defined.

(** [qsort] with [compare_event_ptr]; the ids make the order total, so that
    every sorting algorithm gives this list. *)
Definition qsort_events (h : addr → FCFSAPIAsyncReportEvent) (l : list addr) : list addr :=
  merge_sort (event_le h) l.

Definition sets_size (f : modified_flags) : bool := FLAG_FILE_SIZE f || FLAG_SPACE_END f.

Definition merge_dsize (dest src : FDIRSetDEntrySizeInfo) : FDIRSetDEntrySizeInfo :=
  {| ds_inode := ds_inode dest;
     ds_file_size :=
       if sets_size (ds_flags src) then
         if negb (sets_size (ds_flags dest)) then ds_file_size src
         else if ds_file_size dest <? ds_file_size src then ds_file_size src
         else ds_file_size dest
       else ds_file_size dest;
     ds_inc_alloc :=
       if FLAG_INC_ALLOC (ds_flags src) then ds_inc_alloc dest + ds_inc_alloc src
       else ds_inc_alloc dest;
     ds_force := ds_force dest;
     ds_flags := flags_or (ds_flags dest) (ds_flags src) |}.

Definition merge_event (dest src : FCFSAPIAsyncReportEvent) : FCFSAPIAsyncReportEvent :=
  set_dsize (merge_dsize (dsize dest) (dsize src)) dest.

(** The inner loop: the events that follow [current] on the same inode. *)
Fixpoint absorb (h : addr → FCFSAPIAsyncReportEvent) (current : addr) (ts : list addr) (notify : Z)
    : (addr → FCFSAPIAsyncReportEvent) * list addr * Z :=
  match ts with
  | [] => (h, [], notify)
  | t :: rest =>
      if negb (ds_force (dsize (h t))) && (ds_inode (dsize (h t)) =? ds_inode (dsize (h current)))
      then if is_notify (h t) then absorb h current rest (notify + 1)
           else absorb (<[current := merge_event (h current) (h t)]> h) current rest notify
      else (h, ts, notify)
  end.

(** The outer loop, at most one iteration per event.  [None] is the pointer
    [merge] after a failed reallocation. *)
Fixpoint merge_loop (fuel : nat) (h : addr → FCFSAPIAsyncReportEvent) (ts : list addr)
    (p : FCFSAPIAsyncReportEventPtrArray) (notify : Z) (w : W)
    : option FCFSAPIAsyncReportEventPtrArray * (addr → FCFSAPIAsyncReportEvent) * Z * W :=
  match fuel, ts with
  | S fuel, t :: rest =>
      if is_notify (h t) then merge_loop fuel h rest p (notify + 1) w
      else
        match check_realloc p w with
        | (None, w) => (None, h, notify, w)
        | (Some p, w) =>
            let p := push_ptr t p in
            if ds_force (dsize (h t)) then merge_loop fuel h rest p notify w
            else
              let '(h, rest, notify) := absorb h t rest notify in
              merge_loop fuel h rest p notify w
        end
  | _, _ => (Some p, h, notify, w)
  end.

(** [merge_events] returns zero even when the merged array could not grow; the
    count is then the difference of a null pointer and the array, and the loop
    of [deal_events], which ends at the array plus the count, visits nothing:
    the array is modelled as empty. *)
Definition merge_events (head : list addr) (s : AsyncReporterContext)
    : result unit * AsyncReporterContext :=
  let '(r, p, h, w) := to_event_ptr_array head (sorted s) (heap s) (world s) in
  let s1 := {| heap := h; event_pool := event_pool s; task_pool := task_pool s;
               finished := finished s; htable := htable s; queue := queue s;
               waiting_count := waiting_count s; notify_count := notify_count s;
               sorted := p; merged := merged s; world := w |} in
  match r with
  | Err e => (Err e, s1)
  | Ok _ =>
      let ts := if Z.of_nat (length (pa_events p)) >? 1 then qsort_events h (pa_events p)
                else pa_events p in
      let '(m, h, n, w) := merge_loop (length ts) h ts
             {| pa_alloc := pa_alloc (merged s); pa_events := [] |} 0 w in
      (Ok tt, {| heap := h; event_pool := event_pool s; task_pool := task_pool s;
                 finished := finished s; htable := htable s; queue := queue s;
                 waiting_count := waiting_count s; notify_count := n;
                 sorted := {| pa_alloc := pa_alloc p; pa_events := ts |};
                 merged := match m with
                           | Some m => m
                           | None => {| pa_alloc := pa_alloc (merged s); pa_events := [] |}
                           end;
                 world := w |})
  end.

(** ** Reporting *)

(** Repeat a batch until the service accepts it or rejects it for good; the
    outer [None] is a run that has not ended within the fuel. *)
Fixpoint batch_set_dentry_size (fuel : nat) (l : list FDIRSetDEntrySizeInfo) (w : W)
    : option (result unit) * W :=
  match fuel with
  | O => (None, w)
  | S fuel =>
      match fdir_client_batch_set_dentry_size l w with
      | (Ok tt, w) => (Some (Ok tt), w)
      | (Err ENOENT, w) => (Some (Err ENOENT), w)
      | (Err EINVAL, w) => (Some (Err EINVAL), w)
      | (Err _, w) => batch_set_dentry_size fuel l w
      end
  end.

(** Fill [g_async_reporter_ctx.dsizes] and send it whenever it is full; the
    results of the batches are dropped. *)
Fixpoint send_reports (fuel : nat) (l dsizes : list FDIRSetDEntrySizeInfo) (w : W)
    : option unit * W :=
  match l with
  | [] =>
      if 0 <? Z.of_nat (length dsizes) then
        let '(r, w) := batch_set_dentry_size fuel dsizes w in (_ ← r; Some tt, w)
      else (Some tt, w)
  | d :: l =>
      let dsizes := dsizes ++ [d] in
      if Z.of_nat (length dsizes) =? FDIR_BATCH_SET_MAX_DENTRY_COUNT (W:=W) then
        match batch_set_dentry_size fuel dsizes w with
        | (None, w) => (None, w)
        | (Some _, w) => send_reports fuel l [] w
        end
      else send_reports fuel l dsizes w
  end.

(** Wake up the tasks of an event and take a report out of the hash table. *)
Definition notify_waiting_tasks (a : addr) (s : AsyncReporterContext) : AsyncReporterContext :=
  let e := heap s a in
  {| heap := <[a := set_waitings [] e]> (heap s); event_pool := event_pool s;
     task_pool := task_pool s;
     finished := foldl (λ f t, <[t := true]> f) (finished s) (waitings e);
     htable := if is_notify e then htable s else filter (λ b, b ≠ a) <$> htable s;
     queue := queue s; waiting_count := waiting_count s; notify_count := notify_count s;
     sorted := sorted s; merged := merged s; world := world s |}.

Definition free_event (a : addr) (s : AsyncReporterContext) : AsyncReporterContext :=
  {| heap := heap s; event_pool := mb_free (ds_inode (dsize (heap s a))) a (event_pool s);
     task_pool := task_pool s; finished := finished s; htable := htable s; queue := queue s;
     waiting_count := waiting_count s; notify_count := notify_count s;
     sorted := sorted s; merged := merged s; world := world s |}.

Definition notify_waiting_tasks_and_free_events (head : list addr) (s : AsyncReporterContext) :=
  foldl (λ s a, free_event a (notify_waiting_tasks a s)) s head.

Definition deal_events (fuel : nat) (head : list addr) (s : AsyncReporterContext)
    : option (result unit) * AsyncReporterContext :=
  match merge_events head s with
  | (Err e, s) => (Some (Err e), notify_waiting_tasks_and_free_events head s)
  | (Ok _, s) =>
      let '(r, w) := send_reports fuel ((λ a, dsize (heap s a)) <$> pa_events (merged s)) []
                       (world s) in
      let s := {| heap := heap s; event_pool := event_pool s; task_pool := task_pool s;
                  finished := finished s; htable := htable s; queue := queue s;
                  waiting_count := waiting_count s; notify_count := notify_count s;
                  sorted := sorted s; merged := merged s; world := w |} in
      match r with
      | None => (None, s)
      | Some _ =>
          let s := {| heap := heap s; event_pool := event_pool s; task_pool := task_pool s;
                      finished := finished s; htable := htable s; queue := queue s;
                      waiting_count := waiting_count s -
                        (Z.of_nat (length (pa_events (sorted s))) - notify_count s);
                      notify_count := notify_count s; sorted := sorted s; merged := merged s;
                      world := world s |} in
          (Some (Ok tt), notify_waiting_tasks_and_free_events head s)
      end
  end.

(** One round of the thread: take the whole queue and deal with it. *)
Definition async_reporter_thread_round (fuel : nat) (s : AsyncReporterContext)
    : option (result unit) * AsyncReporterContext :=
  let head := queue s in
  let s := {| heap := heap s; event_pool := event_pool s; task_pool := task_pool s;
              finished := finished s; htable := htable s; queue := [];
              waiting_count := waiting_count s; notify_count := notify_count s;
              sorted := sorted s; merged := merged s; world := world s |} in
  match head with
  | [] => (Some (Ok tt), s)
  | _ => deal_events fuel head s
  end.

(** ** Pushing and waiting *)

(** [inode_htable_insert] with its callback: [fc_list_add] puts the event first. *)
Definition inode_htable_insert (ino : Z) (a : addr) (t : gmap Z (list addr)) (w : W)
    : result unit * gmap Z (list addr) * W :=
  match sf_sharding_htable_entry ino w with
  | (Err e, w) => (Err e, t, w)
  | (Ok _, w) => (Ok tt, <[ino := a :: default [] (t !! ino)]> t, w)
  end.

Definition async_reporter_push (d : FDIRSetDEntrySizeInfo) (s : AsyncReporterContext)
    : result unit * AsyncReporterContext :=
  match mb_alloc (ds_inode d) (event_pool s) with
  | (None, pool) =>
      (Err ENOMEM,
       {| heap := heap s; event_pool := pool; task_pool := task_pool s; finished := finished s;
          htable := htable s; queue := queue s; waiting_count := waiting_count s;
          notify_count := notify_count s; sorted := sorted s; merged := merged s;
          world := world s |})
  | (Some a, pool) =>
      let e := {| type := fcfs_api_event_type_report; id := id (heap s a); dsize := d;
                  waitings := waitings (heap s a) |} in
      let '(r, t, w) := inode_htable_insert (ds_inode d) a (htable s) (world s) in
      (r, {| heap := <[a := e]> (heap s); event_pool := pool; task_pool := task_pool s;
             finished := finished s; htable := t; queue := queue s ++ [a];
             waiting_count := waiting_count s + 1; notify_count := notify_count s;
             sorted := sorted s; merged := merged s; world := w |})
  end.

(** [event->dsize.file_size] and [inc_alloc] keep what the object held. *)
Definition async_reporter_push_notify (ino : Z) (s : AsyncReporterContext)
    : result addr * AsyncReporterContext :=
  match mb_alloc ino (event_pool s) with
  | (None, pool) =>
      (Err ENOMEM,
       {| heap := heap s; event_pool := pool; task_pool := task_pool s; finished := finished s;
          htable := htable s; queue := queue s; waiting_count := waiting_count s;
          notify_count := notify_count s; sorted := sorted s; merged := merged s;
          world := world s |})
  | (Some a, pool) =>
      match mb_alloc ino (task_pool s) with
      | (None, tpool) =>
          (Err ENOMEM,
           {| heap := heap s; event_pool := pool; task_pool := tpool; finished := finished s;
              htable := htable s; queue := queue s; waiting_count := waiting_count s;
              notify_count := notify_count s; sorted := sorted s; merged := merged s;
              world := world s |})
      | (Some t, tpool) =>
          let old := heap s a in
          let e := {| type := fcfs_api_event_type_notify; id := id old;
                      dsize := {| ds_inode := ino; ds_file_size := ds_file_size (dsize old);
                                  ds_inc_alloc := ds_inc_alloc (dsize old); ds_force := false;
                                  ds_flags := no_flags |};
                      waitings := t :: waitings old |} in
          (Ok t, {| heap := <[a := e]> (heap s); event_pool := pool; task_pool := tpool;
                    finished := finished s; htable := htable s; queue := queue s ++ [a];
                    waiting_count := waiting_count s; notify_count := notify_count s;
                    sorted := sorted s; merged := merged s; world := world s |})
      end
  end.

(** [async_reporter_wait_all] up to the wait: the task to wait for, if any. *)
Definition async_reporter_wait_all (ino : Z) (s : AsyncReporterContext)
    : result (option addr) * AsyncReporterContext :=
  if waiting_count s =? 0 then (Ok None, s)
  else
    match async_reporter_push_notify ino s with
    | (Ok t, s) => (Ok (Some t), s)
    | (Err e, s) => (Err e, s)
    end.

(** [inode_htable_check_conflict_and_wait] up to the wait: a task that waits for
    the newest pending report of the inode, if there is one (and a task object
    could be allocated). *)
Definition inode_htable_check_conflict (ino : Z) (s : AsyncReporterContext)
    : option addr * AsyncReporterContext :=
  match default [] (htable s !! ino) with
  | [] => (None, s)
  | a :: _ =>
      let '(t, tpool) := mb_alloc ino (task_pool s) in
      let h := match t with
               | Some t => alter (λ e, set_waitings (t :: waitings e) e) a (heap s)
               | None => heap s
               end in
      (t, {| heap := h; event_pool := event_pool s; task_pool := tpool; finished := finished s;
             htable := htable s; queue := queue s; waiting_count := waiting_count s;
             notify_count := notify_count s; sorted := sorted s; merged := merged s;
             world := world s |})
  end.

(** The end of [fcfs_api_wait_report_done_and_release]: the flag is reset and
    the task returned to its pool. *)
Definition release_waiting_task (ino : Z) (t : addr) (s : AsyncReporterContext) :=
  {| heap := heap s; event_pool := event_pool s; task_pool := mb_free ino t (task_pool s);
     finished := <[t := false]> (finished s); htable := htable s; queue := queue s;
     waiting_count := waiting_count s; notify_count := notify_count s;
     sorted := sorted s; merged := merged s; world := world s |}.
End operations.
Arguments AsyncReporterContext : clear implicits.
End AsyncReporter.
