(* ===== verification/AsyncReporterProofs.v ===== *)
(** * Merging size reports is invisible

    The reports of one inode, applied one by one in the order they were pushed,
    and the merged batch the reporter sends have the same effect on the dentry. *)
From S2P Require Import Prelude Fastcommon FcfsFile AsyncReporter.
Import FcfsFile AsyncReporter.
Local Open Scope Z_scope.

Module ReportSpec.

(** ** What a report does to a dentry *)

Record dentry_sizes := { dz_size : Z; dz_space_end : Z; dz_alloc : Z }.

Definition apply_report (d : FDIRSetDEntrySizeInfo) (t : dentry_sizes) : dentry_sizes :=
  let pick old := if ds_force d then ds_file_size d else Z.max old (ds_file_size d) in
  {| dz_size := if FLAG_FILE_SIZE (ds_flags d) then pick (dz_size t) else dz_size t;
     dz_space_end :=
       if FLAG_SPACE_END (ds_flags d) then pick (dz_space_end t) else dz_space_end t;
     dz_alloc :=
       if FLAG_INC_ALLOC (ds_flags d) then dz_alloc t + ds_inc_alloc d else dz_alloc t |}.

(** The effect of a sequence of reports on the dentry [ino]. *)
Definition apply_reports (ino : Z) (l : list FDIRSetDEntrySizeInfo) (t : dentry_sizes) :=
  foldl (λ t d, if ds_inode d =? ino then apply_report d t else t) t l.

(** The directory service applies a batch in its order; an attempt that fails
    and is repeated has changed nothing.  Allocating memory does not touch it. *)
Class DentrySizes (W : Type) := { sizes_of : W → Z → dentry_sizes }.
Class FdirBatchLaws W `{!Malloc W, !FdirBatch W, !ShardingHtable W, !DentrySizes W} : Prop := {
  batch_limit : 0 < FDIR_BATCH_SET_MAX_DENTRY_COUNT (W:=W);
  batch_applied l w w' : fdir_client_batch_set_dentry_size l w = (Ok tt, w') →
    ∀ ino, sizes_of w' ino = apply_reports ino l (sizes_of w ino);
  batch_repeated l w e w' : fdir_client_batch_set_dentry_size l w = (Err e, w') →
    e ≠ ENOENT → e ≠ EINVAL → ∀ ino, sizes_of w' ino = sizes_of w ino;
  malloc_sizes n w ino : sizes_of (fc_malloc n w).2 ino = sizes_of w ino;
  htable_sizes i w ino : sizes_of (sf_sharding_htable_entry i w).2 ino = sizes_of w ino;
}.

(** A report the way writes produce it, on a dentry in state [t]: a report of the
    file size also covers the space; one that covers the space only lies inside
    the file; the allocation is zero unless flagged. *)
Definition good_report (d : FDIRSetDEntrySizeInfo) (t : dentry_sizes) : Prop :=
  ds_force d = false →
  (FLAG_FILE_SIZE (ds_flags d) = true → FLAG_SPACE_END (ds_flags d) = true) ∧
  (FLAG_FILE_SIZE (ds_flags d) = false → FLAG_SPACE_END (ds_flags d) = true →
   ds_file_size d ≤ dz_size t) ∧
  (FLAG_INC_ALLOC (ds_flags d) = false → ds_inc_alloc d = 0).

Fixpoint good_reports (ino : Z) (l : list FDIRSetDEntrySizeInfo) (t : dentry_sizes) : Prop :=
  match l with
  | [] => True
  | d :: l =>
      if ds_inode d =? ino then good_report d t ∧ good_reports ino l (apply_report d t)
      else good_reports ino l t
  end.

(** Write reports are of this form. *)
Lemma write_report_good arg now t fl :
  write_report_flags arg now = fl → extra_file_size arg ≤ dz_size t →
  good_report {| ds_inode := oid (bs_key arg);
                 ds_file_size := slice_start (bs_key arg) + write_bytes arg;
                 ds_inc_alloc := inc_alloc arg; ds_force := false; ds_flags := fl |} t.
Proof.
  intros <- Hsz _. unfold write_report_flags. simpl.
  destruct (Z.gtb_spec (slice_start (bs_key arg) + write_bytes arg) (extra_file_size arg)),
    (Z.gtb_spec (slice_start (bs_key arg) + write_bytes arg) (extra_space_end arg)),
    (now >? extra_last_modified_time arg), (Z.eqb_spec (inc_alloc arg) 0); simpl;
    split_and!; intros; try done; lia.
Qed.

(** ** Merging two reports *)

Lemma dentry_sizes_eq t t' :
  dz_size t = dz_size t' → dz_space_end t = dz_space_end t' → dz_alloc t = dz_alloc t' → t = t'.
Proof. destruct t, t'; simpl; congruence. Qed.

Lemma merge_dsize_effect d e t :
  ds_force d = false → ds_force e = false → good_report d t → good_report e (apply_report d t) →
  apply_report e (apply_report d t) = apply_report (merge_dsize d e) t ∧
  good_report (merge_dsize d e) t.
Proof.
  intros Hd He Hgd Hge. destruct (Hgd Hd) as (Hd1 & Hd2 & Hd3), (Hge He) as (He1 & He2 & He3).
  clear Hgd Hge. unfold apply_report in *.
  destruct d as [di df da dfo [dF dS dM dI]], e as [ei ef ea efo [eF eS eM eI]], t as [ts tp ta];
    simpl in *; subst dfo efo.
  assert (da = 0 ∨ dI = true) as Hda by (destruct dI; auto).
  unfold good_report, merge_dsize, sets_size; simpl.
  destruct dF, dS, eF, eS; simpl in *; try (by specialize (Hd1 eq_refl)); try (by specialize (He1 eq_refl));
    repeat match goal with
    | H : ?a = ?a → _ |- _ => specialize (H eq_refl)
    | H : true = false → _ |- _ => clear H
    | H : false = true → _ |- _ => clear H
    end;
    (split; [|intros _; split_and!]); try done; try (intros; destruct dI, eI; simpl in *; try done; lia);
    try (apply dentry_sizes_eq; simpl; destruct dI, eI; simpl in *; try done;
         destruct (Z.ltb_spec df ef); lia); intros; destruct (Z.ltb_spec df ef); lia.
Qed.

(** ** The merged list, as a function of the events *)

Definition absorbs (d : FDIRSetDEntrySizeInfo) (e : FCFSAPIAsyncReportEvent) : bool :=
  negb (ds_force (dsize e)) && (ds_inode (dsize e) =? ds_inode d).

(** [cur] is the report that still absorbs its successors. *)
Fixpoint merged_from (cur : option FDIRSetDEntrySizeInfo) (es : list FCFSAPIAsyncReportEvent)
    : list FDIRSetDEntrySizeInfo :=
  match es with
  | [] => option_list cur
  | e :: es =>
      let fresh := if is_notify e then merged_from None es
                   else if ds_force (dsize e) then dsize e :: merged_from None es
                   else merged_from (Some (dsize e)) es in
      match cur with
      | Some d =>
          if absorbs d e then
            merged_from (Some (if is_notify e then d else merge_dsize d (dsize e))) es
          else d :: fresh
      | None => fresh
      end
  end.

(** The reports among the events. *)
Definition reports (es : list FCFSAPIAsyncReportEvent) : list FDIRSetDEntrySizeInfo :=
  dsize <$> filter (λ e, is_notify e = false) es.

Lemma reports_cons e es :
  reports (e :: es) = if is_notify e then reports es else dsize e :: reports es.
Proof.
  unfold reports. rewrite filter_cons. destruct (is_notify e) eqn:E.
  - by rewrite decide_False by done.
  - by rewrite decide_True by done.
Qed.

(** The merged reports have the effect of the reports, on every dentry. *)
Lemma merged_from_effect ino es cur t :
  (∀ d, cur = Some d → ds_force d = false) →
  good_reports ino (option_list cur ++ reports es) t →
  apply_reports ino (merged_from cur es) t = apply_reports ino (option_list cur ++ reports es) t.
Proof.
  revert cur t. induction es as [|e es IH]; intros cur t Hcur Hgood.
  { by rewrite app_nil_r. }
  rewrite reports_cons in *. cbn [merged_from].
  assert (∀ t, good_reports ino (if is_notify e then reports es else dsize e :: reports es) t →
    apply_reports ino (if is_notify e then merged_from None es
      else if ds_force (dsize e) then dsize e :: merged_from None es
      else merged_from (Some (dsize e)) es) t =
    apply_reports ino (if is_notify e then reports es else dsize e :: reports es) t) as Hfresh.
  { clear t Hgood. intros t Hgood. destruct (is_notify e); [by apply IH|].
    destruct (ds_force (dsize e)) eqn:Ef.
    - simpl in *. destruct (ds_inode (dsize e) =? ino); [apply IH; [done|apply Hgood]|by apply IH].
    - apply (IH (Some (dsize e))); [by intros ? [= <-]|done]. }
  destruct cur as [d|]; [|by apply Hfresh]. destruct (absorbs d e) eqn:Ea.
  - specialize (Hcur d eq_refl). unfold absorbs in Ea. bool_to_prop.
    destruct (is_notify e); [by apply IH; [intros ? [= <-]|]|].
    rewrite IH; [|by intros ? [= <-]|].
    all: simpl in *; rewrite H0 in *; destruct (ds_inode d =? ino); [|done].
    + destruct Hgood as (Hd & He & _). by destruct (merge_dsize_effect d (dsize e) t) as [-> _].
    + destruct Hgood as (Hd & He & Hr). destruct (merge_dsize_effect d (dsize e) t) as [<- Hm]; done.
  - simpl in *. destruct (ds_inode d =? ino); [|by apply Hfresh].
    apply Hfresh, Hgood.
Qed.

(** ** The loops compute the merged list *)

Section proofs.
Context {W : Type} `{!Malloc W, !FdirBatch W, !ShardingHtable W, !DentrySizes W, !FdirBatchLaws W}.
Context `{!FcCompare, !FcCompareLaws}.
Context {MB : Type} `{!Mblock MB, !MblockLaws MB}.
Implicit Types (h : addr → FCFSAPIAsyncReportEvent) (w : W).

(** Memory for the pointer arrays never runs out. *)
Definition mallocs_succeed : Prop := ∀ n w, (fc_malloc (W:=W) n w).1 = true.

Definition same_sizes w w' : Prop := ∀ ino, sizes_of w' ino = sizes_of w ino.
#[global] Instance same_sizes_preorder : PreOrder same_sizes.
Proof. split; [by intros w ino|]. intros w1 w2 w3 H1 H2 ino. by rewrite H2, H1. Qed.

(** Everything of an event but its id and what merging changes. *)
Record same_event (e e' : FCFSAPIAsyncReportEvent) : Prop := {
  se_type : type e' = type e;
  se_inode : ds_inode (dsize e') = ds_inode (dsize e);
  se_force : ds_force (dsize e') = ds_force (dsize e);
  se_waitings : waitings e' = waitings e;
}.
#[global] Instance same_event_preorder : PreOrder same_event.
Proof. split; [by intros ?|]. intros ??? [] []. split; congruence. Qed.

Lemma same_event_notify e e' : same_event e e' → is_notify e' = is_notify e.
Proof. intros [Ht _ _ _]. unfold is_notify. by rewrite Ht. Qed.

Lemma check_realloc_spec p w :
  mallocs_succeed →
  ∃ n w', check_realloc p w = (Some {| pa_alloc := n; pa_events := pa_events p |}, w') ∧
          same_sizes w w'.
Proof.
  intros Hm. unfold check_realloc, realloc_event_ptrs.
  destruct (_ >=? _); [|exists (pa_alloc p), w; by destruct p].
  pose proof (Hm (8 * (pa_alloc p * 2)) w) as Hok.
  pose proof (malloc_sizes (8 * (pa_alloc p * 2)) w) as Hs.
  destruct (fc_malloc (8 * (pa_alloc p * 2)) w) as [ok w']. simpl in *. subst ok. by eexists _, _.
Qed.

Lemma to_event_ptrs_spec head p h w :
  mallocs_succeed → NoDup head →
  ∃ p' h' w', to_event_ptrs head p h w = (Ok tt, p', h', w') ∧
    pa_events p' = pa_events p ++ head ∧ same_sizes w w' ∧
    (∀ a, h' a = if bool_decide (a ∈ head) then set_id (id (h' a)) (h a) else h a) ∧
    StronglySorted (λ a b, id (h' a) < id (h' b)) head ∧
    Forall (λ a, Z.of_nat (length (pa_events p)) < id (h' a)) head.
Proof.
  intros Hm. revert p h w. induction head as [|a head IH]; intros p h w Hnd.
  { exists p, h, w. rewrite app_nil_r. split_and!; [done..| |constructor|constructor].
    intros b. by rewrite bool_decide_false by apply not_elem_of_nil. }
  apply NoDup_cons in Hnd as [Ha Hnd]. cbn [to_event_ptrs].
  destruct (check_realloc_spec p w Hm) as (n & w1 & -> & Hs1). cbn [pa_events].
  edestruct (IH (push_ptr a {| pa_alloc := n; pa_events := pa_events p |})
    (alter (set_id (Z.of_nat (length (pa_events p)) + 1)) a h) w1 Hnd)
    as (p' & h' & w' & -> & Hev & Hs & Hh & Hso & Hall).
  exists p', h', w'. simpl in Hev, Hall. rewrite length_app in Hall. simpl in Hall.
  assert (h' a = set_id (Z.of_nat (length (pa_events p)) + 1) (h a)) as Hha.
  { rewrite (Hh a), bool_decide_false by done. apply fn_lookup_alter. }
  split_and!; [done|by rewrite Hev, <- app_assoc|by transitivity w1| | |].
  - intros b. destruct (decide (b = a)) as [->|Hne].
    + rewrite bool_decide_true by apply list_elem_of_here. by rewrite Hha at 1; rewrite Hha.
    + rewrite (Hh b) at 1. rewrite fn_lookup_alter_ne by done.
      destruct (decide (b ∈ head)).
      * by rewrite !bool_decide_true by (try done; by constructor).
      * rewrite !bool_decide_false; [done| |done]. by intros [?|?]%elem_of_cons.
  - constructor; [done|]. eapply Forall_impl; [exact Hall|]. intros b Hb. simpl in Hb.
    rewrite Hha. simpl. lia.
  - constructor; [rewrite Hha; simpl; lia|]. eapply Forall_impl; [exact Hall|]. simpl. lia.
Qed.

(** The facts about the comparison of inode numbers that arithmetic needs. *)
Ltac compare_facts :=
  repeat match goal with
  | |- context [fc_compare_int64 ?a ?b] =>
      lazymatch goal with
      | _ : fc_compare_int64 a b < 0 ↔ _ |- _ => fail
      | _ => pose proof (fc_compare_int64_lt a b); pose proof (fc_compare_int64_eq a b)
      end
  end.

#[local] Instance event_le_total h : Total (event_le h).
Proof.
  intros a b. unfold event_le, compare_event_ptr. compare_facts.
  repeat case_match; bool_to_prop; lia.
Qed.

#[local] Instance event_le_trans h : Transitive (event_le h).
Proof.
  intros a b c. unfold event_le, compare_event_ptr. compare_facts.
  repeat case_match; bool_to_prop; lia.
Qed.

(** Sorting keeps the order of the events of one inode. *)
Lemma qsort_inode_order h l ino :
  StronglySorted (λ a b, id (h a) < id (h b)) l →
  filter (λ a, ds_inode (dsize (h a)) = ino) (qsort_events h l) =
  filter (λ a, ds_inode (dsize (h a)) = ino) l.
Proof.
  intros Hs. set (P := λ a, ds_inode (dsize (h a)) = ino).
  assert (∀ a b, P a → P b → event_le h a b ↔ id (h a) ≤ id (h b)) as HP.
  { intros a b Ha Hb. unfold event_le, compare_event_ptr, P in *. rewrite Ha, Hb.
    rewrite (proj2 (fc_compare_int64_eq ino ino)) by done. simpl. lia. }
  apply (StronglySorted_unique_strong (event_le h)).
  - intros a b [Ha Hla]%list_elem_of_filter [Hb Hlb]%list_elem_of_filter H1 H2.
    unfold qsort_events in Hla. rewrite merge_sort_Permutation in Hla.
    apply (StronglySorted_measure_inj (λ a, id (h a)) l); [done..|].
    apply HP in H1; [|done..]. apply HP in H2; [|done..]. lia.
  - apply StronglySorted_filter, StronglySorted_merge_sort; apply _.
  - induction Hs as [|x l Hs IH Hall]; [constructor|].
    rewrite filter_cons. destruct (decide (P x)) as [Hx|]; [|done]. constructor; [done|].
    apply Forall_forall. intros y [Hy Hyl]%list_elem_of_filter. apply HP; [done..|].
    rewrite Forall_forall in Hall. specialize (Hall _ Hyl). simpl in Hall. lia.
  - apply filter_Permutation, merge_sort_Permutation.
Qed.

Definition notifies (es : list FCFSAPIAsyncReportEvent) : Z :=
  Z.of_nat (length (filter (λ e, is_notify e = true) es)).

Lemma notifies_cons e es :
  notifies (e :: es) = (if is_notify e then 1 else 0) + notifies es.
Proof. unfold notifies. rewrite filter_cons. destruct (is_notify e); simpl; lia. Qed.

Lemma merged_from_ext cur (h h' : addr → FCFSAPIAsyncReportEvent) l :
  (∀ a, a ∈ l → h' a = h a) → merged_from cur (h' <$> l) = merged_from cur (h <$> l).
Proof. intros Hext. f_equal. by apply list_fmap_ext; intros ? a Ha%list_elem_of_lookup_2; apply Hext. Qed.

Lemma absorb_spec h current ts n :
  current ∉ ts → is_notify (h current) = false →
  ∃ h' taken rest, absorb h current ts n = (h', rest, n + notifies (h <$> taken)) ∧
    ts = taken ++ rest ∧ (∀ a, a ≠ current → h' a = h a) ∧ same_event (h current) (h' current) ∧
    merged_from (Some (dsize (h current))) (h <$> ts) =
      dsize (h' current) :: merged_from None (h <$> rest).
Proof.
  revert h n. induction ts as [|t ts IH]; intros h n Hc Hn; cbn [absorb].
  { exists h, [], []. unfold notifies. simpl. by rewrite Z.add_0_r. }
  apply not_elem_of_cons in Hc as [Hct Hc]. rewrite fmap_cons. cbn [merged_from].
  unfold absorbs. destruct (negb _ && _).
  - destruct (is_notify (h t)) eqn:Et.
    + destruct (IH h (n + 1) Hc Hn) as (h' & taken & rest & -> & -> & Hh & Hs & Hmf).
      exists h', (t :: taken), rest. rewrite fmap_cons, notifies_cons, Et.
      split_and!; [by rewrite Z.add_assoc|done..].
    + set (h1 := <[current := merge_event (h current) (h t)]> h).
      assert (h1 current = merge_event (h current) (h t)) as H1 by apply fn_lookup_insert.
      assert (∀ a, a ≠ current → h1 a = h a) as Hne by (intros; by apply fn_lookup_insert_ne).
      destruct (IH h1 n Hc) as (h' & taken & rest & -> & -> & Hh & Hs & Hmf); [by rewrite H1|].
      assert (∀ a, a ∈ taken ++ rest → h1 a = h a) as Hin.
      { intros a Ha. apply Hne. by intros ->. }
      exists h', (t :: taken), rest. rewrite fmap_cons, notifies_cons, Et. split_and!; [|done| | |].
      * rewrite Z.add_0_l. do 2 f_equal. f_equal.
        apply list_fmap_ext. intros ? a Ha%list_elem_of_lookup_2. apply Hin, elem_of_app. by left.
      * intros a Ha. rewrite Hh, Hne; done.
      * etransitivity; [|exact Hs]. rewrite H1. by split.
      * rewrite (merged_from_ext _ h h1) in Hmf by done. rewrite H1 in Hmf. simpl in Hmf.
        rewrite Hmf. f_equal. apply merged_from_ext. intros a Ha. apply Hin, elem_of_app. by right.
  - exists h, [], (t :: ts). unfold notifies. simpl. by rewrite Z.add_0_r.
Qed.

Lemma merge_loop_spec fuel h ts p n w :
  mallocs_succeed → NoDup ts → (∀ a, a ∈ pa_events p → a ∉ ts) → (length ts ≤ fuel)%nat →
  ∃ p' h' w', merge_loop fuel h ts p n w = (Some p', h', n + notifies (h <$> ts), w') ∧
    (∀ a, same_event (h a) (h' a)) ∧ (∀ a, a ∉ ts → h' a = h a) ∧ same_sizes w w' ∧
    (λ a, dsize (h' a)) <$> pa_events p' =
      ((λ a, dsize (h a)) <$> pa_events p) ++ merged_from None (h <$> ts).
Proof.
  intros Hm. revert h ts p n w.
  induction fuel as [|fuel IH]; intros h ts p n w Hnd Hp Hlen; destruct ts as [|t ts];
    try (simpl in Hlen; lia).
  1, 2: exists p, h, w; rewrite app_nil_r; unfold notifies; simpl; rewrite Z.add_0_r; by split_and!.
  apply NoDup_cons in Hnd as [Ht Hnd]. cbn [merge_loop]. rewrite fmap_cons, notifies_cons.
  cbn [merged_from]. simpl in Hlen.
  destruct (is_notify (h t)) eqn:En.
  - destruct (IH h ts p (n + 1) w) as (p' & h' & w' & -> & Hse & Hout & Hs & Hmf); [done| |lia|].
    { intros a Ha Hin. apply (Hp a Ha). by right. }
    exists p', h', w'. split_and!; [by rewrite Z.add_assoc|done| |done..].
    intros a [_ Ha]%not_elem_of_cons. by apply Hout.
  - destruct (check_realloc_spec p w Hm) as (al & w1 & -> & Hs1).
    set (p1 := push_ptr t _).
    assert (∀ a (l : list addr), (∀ b, b ∈ l → b ∈ ts) → a ∈ pa_events p1 → a ∉ l) as Hp1.
    { intros a l Hl [Ha| ->%list_elem_of_singleton]%elem_of_app Hin; [|by apply Ht, Hl].
      apply (Hp a Ha). right. by apply Hl. }
    destruct (ds_force (dsize (h t))) eqn:Ef.
    + destruct (IH h ts p1 n w1) as (p' & h' & w' & -> & Hse & Hout & Hs & Hmf); [done| |lia|].
      { intros a Ha. by apply Hp1. }
      exists p', h', w'. split_and!; [by rewrite Z.add_0_l|done| |by transitivity w1|].
      * intros a [_ Ha]%not_elem_of_cons. by apply Hout.
      * rewrite Hmf. unfold p1. simpl. by rewrite fmap_app, <- app_assoc.
    + destruct (absorb_spec h t ts n Ht En) as (h1 & taken & rest & -> & -> & Hh & Hse1 & Hmf1).
      rewrite length_app in Hlen. apply NoDup_app in Hnd as (Hnd1 & Hdis & Hnd2).
      destruct (IH h1 rest p1 (n + notifies (h <$> taken)) w1)
        as (p' & h' & w' & -> & Hse & Hout & Hs & Hmf); [done| |lia|].
      { intros a Ha. apply Hp1; [|done]. intros b Hb. apply elem_of_app. by right. }
      assert (∀ a, a ∈ rest → h1 a = h a) as Hrest.
      { intros a Ha. apply Hh. intros ->. apply Ht, elem_of_app. by right. }
      exists p', h', w'. split_and!.
      * rewrite (list_fmap_ext h1 h rest); [|by intros ? a Ha%list_elem_of_lookup_2; apply Hrest].
        do 2 f_equal. unfold notifies. rewrite fmap_app, filter_app, length_app. lia.
      * intros a. etransitivity; [|apply Hse]. destruct (decide (a = t)) as [->|]; [done|].
        by rewrite Hh.
      * intros a [Hat [_ Ha]%not_elem_of_app]%not_elem_of_cons. by rewrite Hout, Hh.
      * by transitivity w1.
      * rewrite Hmf, Hmf1, (merged_from_ext _ h h1) by done. unfold p1. simpl.
        rewrite fmap_app, <- app_assoc. simpl. f_equal. apply list_fmap_ext.
        intros ? a Ha%list_elem_of_lookup_2. rewrite Hh; [done|]. intros ->.
        apply (Hp t Ha). by left.
Qed.

(** ** Sending *)

Lemma apply_reports_app ino l1 l2 t :
  apply_reports ino (l1 ++ l2) t = apply_reports ino l2 (apply_reports ino l1 t).
Proof. unfold apply_reports. by rewrite foldl_app. Qed.

(** Every batch is accepted within [fuel] attempts. *)
Definition accepts (fuel : nat) : Prop :=
  ∀ l w, (batch_set_dentry_size (W:=W) fuel l w).1 = Some (Ok tt).

Lemma batch_set_spec fuel l w w' :
  batch_set_dentry_size fuel l w = (Some (Ok tt), w') →
  ∀ ino, sizes_of w' ino = apply_reports ino l (sizes_of w ino).
Proof.
  revert w. induction fuel as [|fuel IH]; intros w Hb ino; [done|]. simpl in Hb.
  destruct (fdir_client_batch_set_dentry_size l w) as [[[]|e] w1] eqn:E.
  { injection Hb as <-. by apply batch_applied. }
  pose proof (batch_repeated l w e w1 E) as Hrep.
  destruct e; try done; rewrite (IH _ Hb), Hrep; done.
Qed.

Lemma send_reports_spec fuel l buf w :
  accepts fuel →
  ∃ w', send_reports fuel l buf w = (Some tt, w') ∧
    ∀ ino, sizes_of w' ino = apply_reports ino (buf ++ l) (sizes_of w ino).
Proof.
  intros Hacc. revert buf w. induction l as [|d l IH]; intros buf w; cbn [send_reports].
  - rewrite app_nil_r. destruct (Z.ltb_spec 0 (Z.of_nat (length buf))) as [Hl|Hl].
    + pose proof (Hacc buf w) as Ha. destruct (batch_set_dentry_size fuel buf w) as [r w'] eqn:E.
      simpl in Ha. subst r. exists w'. split; [done|]. by eapply batch_set_spec.
    + exists w. split; [done|]. destruct buf; [done|simpl in Hl; lia].
  - destruct (_ =? _).
    + pose proof (Hacc (buf ++ [d]) w) as Ha.
      destruct (batch_set_dentry_size fuel (buf ++ [d]) w) as [r w1] eqn:E. simpl in Ha. subst r.
      destruct (IH [] w1) as (w' & -> & Hw'). exists w'. split; [done|]. intros ino.
      rewrite Hw', (batch_set_spec _ _ _ _ E), <- apply_reports_app. by rewrite <- app_assoc.
    + destruct (IH (buf ++ [d]) w) as (w' & -> & Hw'). exists w'. split; [done|]. intros ino.
      by rewrite Hw', <- app_assoc.
Qed.
End proofs.
End ReportSpec.
