(* ===== verification/AsyncReporterSpec.v ===== *)
(** * What the report queue promises

    One round of the reporter thread applies every queued report, wakes every
    waiting task and empties the queue; the counters and the hash table of
    pending events always agree with the queue, so that a caller that finds no
    pending event reads up-to-date dentries. *)
From S2P Require Import Prelude Fastcommon FcfsFile AsyncReporter AsyncReporterProofs.
Import FcfsFile AsyncReporter ReportSpec.
Local Open Scope Z_scope.

Module AsyncReporterSpec.
Section spec.
Context {W : Type} `{!Malloc W, !FdirBatch W, !ShardingHtable W, !DentrySizes W, !FdirBatchLaws W}.
Context `{!FcCompare, !FcCompareLaws}.
Context {MB : Type} `{!Mblock MB, !MblockLaws MB}.
Abbreviation Ctx := (AsyncReporterContext W MB).
Implicit Types (s : Ctx) (h : addr → FCFSAPIAsyncReportEvent).

(** ** Only the reports of an inode matter to it *)

Lemma apply_reports_filter ino l t :
  apply_reports ino (filter (λ d, ds_inode d = ino) l) t = apply_reports ino l t.
Proof.
  revert t. induction l as [|d l IH]; intros t; [done|]. rewrite filter_cons. unfold apply_reports in *.
  destruct (decide (ds_inode d = ino)); simpl.
  - apply IH.
  - rewrite (proj2 (Z.eqb_neq _ _)) by done. apply IH.
Qed.

Lemma good_reports_filter ino l t :
  good_reports ino (filter (λ d, ds_inode d = ino) l) t ↔ good_reports ino l t.
Proof.
  revert t. induction l as [|d l IH]; intros t; [done|]. rewrite filter_cons.
  destruct (decide (ds_inode d = ino)); simpl.
  - rewrite (proj2 (Z.eqb_eq _ _)) by done. by rewrite IH.
  - by rewrite (proj2 (Z.eqb_neq _ _)) by done.
Qed.

Lemma filter_reports h l ino :
  filter (λ d, ds_inode d = ino) (reports (h <$> l)) =
  (λ a, dsize (h a)) <$> filter (λ a, is_notify (h a) = false)
                           (filter (λ a, ds_inode (dsize (h a)) = ino) l).
Proof.
  induction l as [|a l IH]; [done|]. rewrite fmap_cons, reports_cons, filter_cons.
  destruct (is_notify (h a)) eqn:En, (decide (ds_inode (dsize (h a)) = ino)) as [Hi|Hi];
    rewrite ?filter_cons, ?En.
  - rewrite decide_False by done. apply IH.
  - apply IH.
  - rewrite !decide_True by done. simpl. by rewrite IH.
  - rewrite decide_False by done. apply IH.
Qed.

Lemma reports_ext h h' l :
  (∀ a, a ∈ l → type (h' a) = type (h a) ∧ dsize (h' a) = dsize (h a)) →
  reports (h' <$> l) = reports (h <$> l) ∧ notifies (h' <$> l) = notifies (h <$> l).
Proof.
  induction l as [|a l IH]; intros Hext; [done|]. rewrite !fmap_cons, !reports_cons, !notifies_cons.
  destruct (Hext a) as [Ht Hd]; [by left|]. unfold is_notify. rewrite Ht, Hd.
  destruct IH as [-> ->]; [|done]. intros b Hb. apply Hext. by right.
Qed.

(** ** Merging *)

(** What merging leaves alone. *)
Record merge_frame s s' : Prop := {
  mf_event_pool : event_pool s' = event_pool s;
  mf_task_pool : task_pool s' = task_pool s;
  mf_finished : finished s' = finished s;
  mf_htable : htable s' = htable s;
  mf_queue : queue s' = queue s;
  mf_waiting : waiting_count s' = waiting_count s;
  mf_heap a : same_event (heap s a) (heap s' a);
  mf_other a : a ∉ pa_events (sorted s') → heap s' a = heap s a;
  mf_world : same_sizes (world s) (world s');
}.

Lemma merge_events_spec head s :
  mallocs_succeed (W:=W) → NoDup head →
  ∃ s', merge_events head s = (Ok tt, s') ∧ merge_frame s s' ∧
    pa_events (sorted s') ≡ₚ head ∧ notify_count s' = notifies (heap s <$> head) ∧
    ∀ ino t, good_reports ino (reports (heap s <$> head)) t →
      apply_reports ino ((λ a, dsize (heap s' a)) <$> pa_events (merged s')) t =
      apply_reports ino (reports (heap s <$> head)) t.
Proof.
  intros Hm Hnd. unfold merge_events, to_event_ptr_array.
  destruct (to_event_ptrs_spec head {| pa_alloc := pa_alloc (sorted s); pa_events := [] |}
    (heap s) (world s) Hm Hnd) as (p1 & h1 & w1 & -> & Hev & Hs1 & Hh1 & Hsorted & _).
  simpl in Hev. rewrite Hev. set (ts := if _ >? 1 then _ else _).
  assert (ts ≡ₚ head) as Hperm by (unfold ts; case_match; [apply merge_sort_Permutation|done]).
  assert (∀ a, type (h1 a) = type (heap s a) ∧ dsize (h1 a) = dsize (heap s a) ∧
               waitings (h1 a) = waitings (heap s a)) as Hsame.
  { intros a. rewrite Hh1. by case_bool_decide. }
  assert (∀ ino, filter (λ a, ds_inode (dsize (h1 a)) = ino) ts =
                 filter (λ a, ds_inode (dsize (h1 a)) = ino) head) as Hts.
  { intros ino. unfold ts. case_match; [by apply qsort_inode_order|done]. }
  destruct (merge_loop_spec (length ts) h1 ts {| pa_alloc := pa_alloc (merged s); pa_events := [] |}
    0 w1 Hm) as (p2 & h2 & w2 & -> & Hse & Hout & Hs2 & Hmf); [by rewrite Hperm|..].
  { intros a Ha. by apply not_elem_of_nil in Ha. } { done. }
  eexists. split; [done|]. destruct (reports_ext (heap s) h1 head) as [Hr Hn].
  { intros a _. by destruct (Hsame a) as (? & ? & _). }
  split_and!; simpl.
  - split; try done; simpl; [..|by transitivity w1].
    + intros a. etransitivity; [|apply Hse]. destruct (Hsame a) as (? & Hd & ?).
      by split; rewrite ?Hd.
    + intros a Ha. rewrite Hout by done. rewrite Hh1, bool_decide_false; [done|].
      by rewrite <- Hperm.
  - done.
  - rewrite <- Hn. unfold notifies. rewrite Z.add_0_l. f_equal. apply Permutation_length.
    by apply filter_Permutation, fmap_Permutation.
  - intros ino t Hgood. rewrite Hmf. simpl. rewrite <- Hr in Hgood |- *.
    assert (filter (λ d, ds_inode d = ino) (reports (h1 <$> ts)) =
            filter (λ d, ds_inode d = ino) (reports (h1 <$> head))) as Hf.
    { by rewrite !filter_reports, Hts. }
    rewrite merged_from_effect; simpl; [|done|].
    + by rewrite <- apply_reports_filter, Hf, apply_reports_filter.
    + by rewrite <- good_reports_filter, Hf, good_reports_filter.
Qed.

(** ** Waking up and freeing *)

Lemma finished_fold (l : list addr) (f : addr → bool) t :
  foldl (λ f t, <[t := true]> f) f l t = f t || bool_decide (t ∈ l).
Proof.
  revert f. induction l as [|x l IH]; intros f; simpl.
  { by destruct (f t). }
  rewrite IH. destruct (decide (t = x)) as [->|Hne].
  - rewrite fn_lookup_insert, (bool_decide_true (x ∈ x :: l)) by by left. by rewrite orb_true_r.
  - rewrite fn_lookup_insert_ne by done. f_equal. apply bool_decide_ext.
    rewrite elem_of_cons. naive_solver.
Qed.

(** The state after the events of [head] were notified and freed. *)
Record freed (head : list addr) s s' : Prop := {
  fr_finished t : finished s' t = true ↔
    finished s t = true ∨ ∃ a, a ∈ head ∧ t ∈ waitings (heap s a);
  fr_htable ino : default [] (htable s' !! ino) =
    filter (λ b, ¬ (b ∈ head ∧ is_notify (heap s b) = false)) (default [] (htable s !! ino));
  fr_live : mb_live (event_pool s') = mb_live (event_pool s) ∖ list_to_set head;
  fr_heap a : heap s' a = if bool_decide (a ∈ head) then set_waitings [] (heap s a) else heap s a;
  fr_queue : queue s' = queue s;
  fr_waiting : waiting_count s' = waiting_count s;
  fr_world : world s' = world s;
}.

Lemma notify_free_spec head s :
  NoDup head → freed head s (notify_waiting_tasks_and_free_events head s).
Proof.
  revert s. induction head as [|a head IH]; intros s Hnd.
  { split; simpl; try done.
    - intros t. split; [by left|]. intros [?|(a & ?%not_elem_of_nil & _)]; done.
    - intros ino. induction (default [] (htable s !! ino)) as [|b l IHl]; [done|].
      rewrite filter_cons, decide_True, <- IHl; [done|]. intros [?%not_elem_of_nil _]. done.
    - set_solver. }
  apply NoDup_cons in Hnd as [Ha Hnd]. simpl.
  set (s1 := free_event a (notify_waiting_tasks a s)).
  destruct (IH s1 Hnd) as [Hfin Hht Hlive Hheap Hq Hwc Hw].
  assert (∀ b, b ≠ a → heap s1 b = heap s b) as Hne by (intros; by apply fn_lookup_insert_ne).
  assert (heap s1 a = set_waitings [] (heap s a)) as Heq by apply fn_lookup_insert.
  assert (∀ t, finished s1 t = finished s t || bool_decide (t ∈ waitings (heap s a))) as Hf1
    by (intros; apply finished_fold).
  assert (htable s1 = if is_notify (heap s a) then htable s
                      else filter (λ b, b ≠ a) <$> htable s) as Ht1 by done.
  assert (mb_live (event_pool s1) = mb_live (event_pool s) ∖ {[a]}) as Hl1 by apply mb_free_live.
  assert (queue s1 = queue s ∧ waiting_count s1 = waiting_count s ∧ world s1 = world s)
    as (Hq1 & Hwc1 & Hw1) by done.
  clearbody s1. split.
  - intros t. rewrite Hfin, Hf1, orb_true_iff, bool_decide_eq_true. split.
    + intros [[?|?]|(b & Hb & Ht)]; [by left|right; exists a; by split; [left|]|].
      right. exists b. rewrite Hne in Ht by (by intros ->). by split; [right|].
    + intros [?|(b & [->|Hb]%elem_of_cons & Ht)]; [by left; left|by left; right|].
      right. exists b. rewrite Hne by (by intros ->). done.
  - intros ino. rewrite Hht, Ht1. destruct (is_notify (heap s a)) eqn:En.
    + apply list_filter_iff. intros b. rewrite elem_of_cons. destruct (decide (b = a)) as [->|Hb].
      * rewrite En. naive_solver.
      * rewrite Hne by done. naive_solver.
    + rewrite lookup_fmap. destruct (htable s !! ino) as [l|]; [|done]. simpl.
      apply filter_filter_and. intros b. rewrite elem_of_cons.
      destruct (decide (b = a)) as [->|Hb]; [naive_solver|]. rewrite Hne by done. naive_solver.
  - rewrite Hlive, Hl1. set_solver.
  - intros b. rewrite Hheap. destruct (decide (b = a)) as [->|Hb].
    + rewrite Heq, (bool_decide_true (a ∈ a :: head)) by by left. by case_bool_decide.
    + rewrite Hne by done. by rewrite (bool_decide_ext (b ∈ a :: head) (b ∈ head))
        by (rewrite elem_of_cons; naive_solver).
  - congruence.
  - congruence.
  - congruence.
Qed.

(** ** One round *)

(** The state after the events of [head] were dealt with. *)
Record dealt (head : list addr) s s' : Prop := {
  dl_finished t : finished s' t = true ↔
    finished s t = true ∨ ∃ a, a ∈ head ∧ t ∈ waitings (heap s a);
  dl_htable ino : default [] (htable s' !! ino) =
    filter (λ b, ¬ (b ∈ head ∧ is_notify (heap s b) = false)) (default [] (htable s !! ino));
  dl_live : mb_live (event_pool s') = mb_live (event_pool s) ∖ list_to_set head;
  dl_other a : a ∉ head → heap s' a = heap s a;
  dl_waitings a : a ∈ head → waitings (heap s' a) = [];
  dl_queue : queue s' = queue s;
  dl_waiting : waiting_count s' = waiting_count s - Z.of_nat (length (reports (heap s <$> head)));
}.

Lemma length_reports es : Z.of_nat (length (reports es)) = Z.of_nat (length es) - notifies es.
Proof.
  induction es as [|e es IH]; [done|]. rewrite reports_cons, notifies_cons.
  destruct (is_notify e); simpl; lia.
Qed.

Lemma merge_then_free head s s1 wc w :
  merge_frame s s1 → pa_events (sorted s1) ≡ₚ head → NoDup head →
  wc = waiting_count s - Z.of_nat (length (reports (heap s <$> head))) →
  let s2 := {| heap := heap s1; event_pool := event_pool s1; task_pool := task_pool s1;
               finished := finished s1; htable := htable s1; queue := queue s1;
               waiting_count := wc; notify_count := notify_count s1; sorted := sorted s1;
               merged := merged s1; world := w |} in
  dealt head s (notify_waiting_tasks_and_free_events head s2).
Proof.
  intros [Hep Htp Hfi Hht Hq _ Hheap Hoth _] Hperm Hnd Hwc s2.
  destruct (notify_free_spec head s2 Hnd) as [Hf Ht Hl Hh Hq2 Hw2 _].
  split.
  - intros t. rewrite Hf. simpl. rewrite Hfi. by setoid_rewrite (λ a, se_waitings _ _ (Hheap a)).
  - intros ino. rewrite Ht. simpl. rewrite Hht. apply list_filter_iff. intros b.
    by rewrite (same_event_notify _ _ (Hheap b)).
  - rewrite Hl. simpl. by rewrite Hep.
  - intros a Ha. rewrite Hh, bool_decide_false by done. simpl. apply Hoth. by rewrite Hperm.
  - intros a Ha. by rewrite Hh, bool_decide_true.
  - by rewrite Hq2.
  - by rewrite Hw2.
Qed.

Lemma deal_events_spec fuel head s :
  mallocs_succeed (W:=W) → NoDup head →
  (∀ r s', deal_events fuel head s = (Some r, s') → dealt head s s') ∧
  (accepts (W:=W) fuel →
   (∀ ino, good_reports ino (reports (heap s <$> head)) (sizes_of (world s) ino)) →
   ∃ s', deal_events fuel head s = (Some (Ok tt), s') ∧ dealt head s s' ∧
     ∀ ino, sizes_of (world s') ino =
            apply_reports ino (reports (heap s <$> head)) (sizes_of (world s) ino)).
Proof.
  intros Hm Hnd. unfold deal_events.
  destruct (merge_events_spec head s Hm Hnd) as (s1 & -> & Hmf & Hperm & Hnc & Heff).
  assert (waiting_count s1 - (Z.of_nat (length (pa_events (sorted s1))) - notify_count s1) =
    waiting_count s - Z.of_nat (length (reports (heap s <$> head)))) as Hwc.
  { by rewrite (mf_waiting _ _ Hmf), Hperm, Hnc, length_reports, length_fmap. }
  split.
  - intros r s' Hd. destruct (send_reports _ _ _ _) as [[]  w]; [|done].
    injection Hd as _ <-.
    exact (merge_then_free head s s1 _ _ Hmf Hperm Hnd Hwc).
  - intros Hacc Hgood.
    edestruct (send_reports_spec fuel ((λ a, dsize (heap s1 a)) <$> pa_events (merged s1)) []
      (world s1) Hacc) as (w & -> & Hw).
    eexists. split; [done|]. split; [exact (merge_then_free head s s1 _ _ Hmf Hperm Hnd Hwc)|]. intros ino.
    rewrite (fr_world head _ _ (notify_free_spec head _ Hnd)). simpl.
    rewrite Hw, (mf_world _ _ Hmf ino). apply Heff, Hgood.
Qed.

(** ** The invariant *)

Definition pending s : list FDIRSetDEntrySizeInfo := reports (heap s <$> queue s).

(** The queue holds distinct live events; the counter counts its reports; the
    list of an inode holds its queued reports, newest first; free objects have
    no waiting tasks. *)
Record reporter_inv s : Prop := {
  inv_nodup : NoDup (queue s);
  inv_live a : a ∈ queue s → a ∈ mb_live (event_pool s);
  inv_count : waiting_count s = Z.of_nat (length (pending s));
  inv_htable ino : default [] (htable s !! ino) =
    reverse (filter (λ a, is_notify (heap s a) = false ∧ ds_inode (dsize (heap s a)) = ino) (queue s));
  inv_free a : a ∉ queue s → waitings (heap s a) = [];
}.

Inductive step : Ctx → Ctx → Prop :=
| step_push d s r s' :
    (sf_sharding_htable_entry (ds_inode d) (world s)).1 = Ok tt →
    async_reporter_push d s = (r, s') → step s s'
| step_wait_all ino s r s' : async_reporter_wait_all ino s = (r, s') → step s s'
| step_conflict ino s r s' : inode_htable_check_conflict ino s = (r, s') → step s s'
| step_release ino t s : step s (release_waiting_task ino t s)
| step_round fuel s r s' : async_reporter_thread_round fuel s = (Some r, s') → step s s'.

(** After [async_reporter_init]: nothing queued, nothing pending. *)
Definition initial s : Prop :=
  queue s = [] ∧ waiting_count s = 0 ∧ htable s = ∅ ∧ ∀ a, waitings (heap s a) = [].

Inductive reachable : Ctx → Prop :=
| reachable_init s : initial s → reachable s
| reachable_step s s' : reachable s → step s s' → reachable s'.

Lemma initial_inv s : initial s → reporter_inv s.
Proof.
  intros (Hq & Hc & Ht & Hw). split; unfold pending; rewrite ?Hq, ?Hc, ?Ht.
  - constructor.
  - by intros a ?%not_elem_of_nil.
  - done.
  - intros ino. by rewrite lookup_empty.
  - intros a _. apply Hw.
Qed.

(** Appending a fresh event to the queue. *)
Lemma enqueue_inv s s' a e :
  reporter_inv s → a ∉ mb_live (event_pool s) →
  mb_live (event_pool s') = {[a]} ∪ mb_live (event_pool s) →
  heap s' = <[a := e]> (heap s) → queue s' = queue s ++ [a] →
  waiting_count s' = waiting_count s + (if is_notify e then 0 else 1) →
  (∀ ino, default [] (htable s' !! ino) =
     if negb (is_notify e) && (ds_inode (dsize e) =? ino)
     then a :: default [] (htable s !! ino) else default [] (htable s !! ino)) →
  reporter_inv s'.
Proof.
  intros [Hnd Hlv Hc Ht Hf] Ha Hl Hh Hq Hwc Hht.
  assert (a ∉ queue s) as Haq by (by intros ?%Hlv).
  assert (∀ b, b ∈ queue s → heap s' b = heap s b) as Hold.
  { intros b Hb. rewrite Hh. apply fn_lookup_insert_ne. by intros ->. }
  assert (heap s' a = e) as Hnew by (rewrite Hh; apply fn_lookup_insert).
  assert (heap s' <$> queue s = heap s <$> queue s) as Hmap.
  { apply list_fmap_ext. intros ? b Hb%list_elem_of_lookup_2. by apply Hold. }
  split.
  - rewrite Hq. apply NoDup_app. split_and!; [done|set_solver|apply NoDup_singleton].
  - intros b. rewrite Hq, Hl. intros [Hb| ->%list_elem_of_singleton]%elem_of_app; [|set_solver].
    apply Hlv in Hb. set_solver.
  - rewrite Hwc, Hc. unfold pending. rewrite Hq, fmap_app, Hmap, !length_reports. unfold notifies.
    rewrite filter_app, !length_app. simpl. rewrite Hnew, filter_cons.
    destruct (is_notify e); simpl; lia.
  - intros ino. rewrite Hht, Ht, Hq, filter_app, reverse_app, filter_cons, Hnew, filter_nil.
    rewrite (filter_ext_elem (λ a, is_notify (heap s' a) = false ∧ ds_inode (dsize (heap s' a)) = ino)
      (λ a, is_notify (heap s a) = false ∧ ds_inode (dsize (heap s a)) = ino)
      (queue s)) by (intros b Hb; by rewrite Hold).
    destruct (is_notify e), (Z.eqb_spec (ds_inode (dsize e)) ino); simpl;
      by repeat case_decide; naive_solver.
  - intros b. rewrite Hq, not_elem_of_app, not_elem_of_cons. intros (Hb & Hba & _).
    rewrite Hh, fn_lookup_insert_ne by done. by apply Hf.
Qed.

Lemma push_inv d s r s' :
  reporter_inv s → (sf_sharding_htable_entry (ds_inode d) (world s)).1 = Ok tt →
  async_reporter_push d s = (r, s') → reporter_inv s'.
Proof.
  intros Hinv Hent Hp. unfold async_reporter_push in Hp.
  destruct (mb_alloc (ds_inode d) (event_pool s)) as [[a|] pool] eqn:Ea.
  - apply mb_alloc_some in Ea as [Ha Hl]. unfold inode_htable_insert in Hp.
    destruct (sf_sharding_htable_entry (ds_inode d) (world s)) as [r1 w1]. simpl in Hent. subst r1.
    injection Hp as <- <-. eapply enqueue_inv; try done. simpl. intros ino.
    destruct (Z.eqb_spec (ds_inode d) ino) as [->|]; [by rewrite lookup_insert_eq|].
    by rewrite lookup_insert_ne.
  - apply mb_alloc_none in Ea. injection Hp as <- <-. destruct Hinv as [? Hlv ???].
    split; simpl; try done. intros a Ha. rewrite Ea. by apply Hlv.
Qed.

Lemma wait_all_inv ino s r s' :
  reporter_inv s → async_reporter_wait_all ino s = (r, s') → reporter_inv s'.
Proof.
  intros Hinv Hp. unfold async_reporter_wait_all, async_reporter_push_notify in Hp.
  destruct (waiting_count s =? 0); [by injection Hp as _ <-|].
  destruct (mb_alloc ino (event_pool s)) as [[a|] pool] eqn:Ea.
  - apply mb_alloc_some in Ea as [Ha Hl].
    destruct (mb_alloc ino (task_pool s)) as [[t|] tpool]; injection Hp as _ <-.
    + eapply enqueue_inv; try done. simpl. lia.
    + destruct Hinv as [? Hlv ???]. split; simpl; try done. intros b Hb%Hlv. set_solver.
  - apply mb_alloc_none in Ea. injection Hp as _ <-. destruct Hinv as [? Hlv ???].
    split; simpl; try done. intros b Hb%Hlv. by rewrite Ea.
Qed.

(** A change of the heap that keeps what the invariant reads. *)
Lemma heap_change_inv s s' :
  reporter_inv s → queue s' = queue s → event_pool s' = event_pool s →
  waiting_count s' = waiting_count s → htable s' = htable s →
  (∀ a, type (heap s' a) = type (heap s a) ∧ dsize (heap s' a) = dsize (heap s a)) →
  (∀ a, a ∉ queue s → heap s' a = heap s a) → reporter_inv s'.
Proof.
  intros [Hnd Hlv Hc Ht Hf] Hq Hep Hwc Hht Hsame Hout. split.
  - by rewrite Hq.
  - by rewrite Hq, Hep.
  - rewrite Hwc, Hc. unfold pending. rewrite Hq.
    by destruct (reports_ext (heap s) (heap s') (queue s)) as [-> _].
  - intros ino. rewrite Hht, Ht, Hq. f_equal. apply list_filter_iff. intros a.
    unfold is_notify. by destruct (Hsame a) as [-> ->].
  - intros a. rewrite Hq. intros Ha. rewrite Hout by done. by apply Hf.
Qed.

Lemma conflict_inv ino s r s' :
  reporter_inv s → inode_htable_check_conflict ino s = (r, s') → reporter_inv s'.
Proof.
  intros Hinv Hp. unfold inode_htable_check_conflict in Hp.
  destruct (default [] (htable s !! ino)) as [|a l] eqn:Et; [by injection Hp as _ <-|].
  destruct (mb_alloc ino (task_pool s)) as [t tpool]. injection Hp as _ <-.
  assert (a ∈ queue s) as Ha.
  { assert (a ∈ default [] (htable s !! ino)) as Hin by (rewrite Et; by left).
    rewrite (inv_htable _ Hinv), elem_of_reverse in Hin. by apply list_elem_of_filter in Hin as [_ ?]. }
  apply (heap_change_inv s); simpl; try done; intros b.
  - destruct t; [|done]. destruct (decide (b = a)) as [->|]; [by rewrite fn_lookup_alter|].
    by rewrite fn_lookup_alter_ne.
  - intros Hb. destruct t; [|done]. apply fn_lookup_alter_ne. by intros ->.
Qed.

Lemma round_inv fuel s r s' :
  mallocs_succeed (W:=W) → reporter_inv s →
  async_reporter_thread_round fuel s = (Some r, s') →
  reporter_inv s' ∧ queue s' = [] ∧ ∀ ino, default [] (htable s' !! ino) = [].
Proof.
  intros Hm [Hnd Hlv Hc Ht Hf] Hr. unfold async_reporter_thread_round in Hr.
  assert (∀ s', queue s' = [] → waiting_count s' = 0 → (∀ ino, default [] (htable s' !! ino) = []) →
    (∀ a, waitings (heap s' a) = []) →
    reporter_inv s' ∧ queue s' = [] ∧ ∀ ino, default [] (htable s' !! ino) = []) as Hempty.
  { clear. intros s' Hq Hc Ht Hw. split; [|done]. split; unfold pending; rewrite ?Hq; try done.
    - constructor.
    - by intros a ?%not_elem_of_nil. }
  destruct (queue s) as [|a q] eqn:Eq.
  { injection Hr as _ <-. apply Hempty; [done| | |]; simpl.
    - rewrite Hc. unfold pending. by rewrite Eq.
    - intros ino. by rewrite Ht.
    - intros b. apply Hf. apply not_elem_of_nil. }
  destruct (deal_events_spec fuel (a :: q) {| heap := heap s; event_pool := event_pool s;
    task_pool := task_pool s; finished := finished s; htable := htable s; queue := [];
    waiting_count := waiting_count s; notify_count := notify_count s; sorted := sorted s;
    merged := merged s; world := world s |} Hm Hnd) as [Hd _].
  destruct (Hd _ _ Hr) as [_ Hht _ Hoth Hwt Hq Hwc]. cbn [heap htable queue waiting_count] in *.
  apply Hempty; [done| | |].
  - rewrite Hwc, Hc. unfold pending. rewrite Eq. lia.
  - intros ino. rewrite Hht, Ht. apply elem_of_nil_inv. intros b [Hnb Hb]%list_elem_of_filter.
    apply elem_of_reverse, list_elem_of_filter in Hb as [[Hn _] Hb]. by apply Hnb.
  - intros b. destruct (decide (b ∈ a :: q)); [by apply Hwt|]. rewrite Hoth by done. by apply Hf.
Qed.

Lemma reachable_inv s : mallocs_succeed (W:=W) → reachable s → reporter_inv s.
Proof.
  intros Hm. induction 1 as [s Hs|s s' _ Hinv Hstep]; [by apply initial_inv|].
  destruct Hstep as [d s r s' Hent Hp|ino s r s' Hp|ino s r s' Hp|ino t s|fuel s r s' Hp].
  - by eapply push_inv.
  - by eapply wait_all_inv.
  - by eapply conflict_inv.
  - by apply (heap_change_inv s).
  - by apply (round_inv fuel s r s').
Qed.

(** At every moment between two operations the counter of waiting reports is
    the number of queued reports, the list of an inode holds exactly its queued
    reports with the newest first, queued events are live and distinct, and
    free event objects carry no waiting tasks. *)
Theorem reporter_invariant s :
  mallocs_succeed (W:=W) → reachable s → reporter_inv s.
Proof. apply reachable_inv. Qed.


(** A caller that waits for an inode gets a task to wait for exactly when a
    report of the inode is queued (and a task object is available), and the
    task hangs on one of these reports, so that the next round wakes it up after
    all of them were applied; likewise for waiting on the whole queue. *)
Theorem conflict_iff_pending ino s t s' :
  reporter_inv s → inode_htable_check_conflict ino s = (t, s') →
  ((mb_alloc ino (task_pool s)).1 ≠ None →
   t = None ↔ filter (λ d, ds_inode d = ino) (pending s) = []) ∧
  (∀ t', t = Some t' → queue s' = queue s ∧ pending s' = pending s ∧
     ∃ a, a ∈ queue s' ∧ ds_inode (dsize (heap s' a)) = ino ∧ t' ∈ waitings (heap s' a)) ∧
  ((async_reporter_wait_all ino s).1 = Ok None ↔ pending s = []).
Proof.
  intros Hinv Hp. pose proof (conflict_inv ino s t s' Hinv Hp) as Hinv'.
  assert (default [] (htable s !! ino) = [] ↔ filter (λ d, ds_inode d = ino) (pending s) = []) as Hnil.
  { rewrite (inv_htable _ Hinv). unfold pending.
    rewrite filter_reports, (filter_filter_and _ _
      (λ a, is_notify (heap s a) = false ∧ ds_inode (dsize (heap s a)) = ino)) by done.
    split.
    - intros H1%(f_equal reverse). rewrite reverse_involutive in H1. by rewrite H1.
    - intros H1%fmap_nil_inv. by rewrite H1. }
  unfold inode_htable_check_conflict in Hp. split_and!.
  - intros Hal. rewrite <- Hnil. destruct (default [] (htable s !! ino)); [by injection Hp as <- _|].
    destruct (mb_alloc ino (task_pool s)) as [[t1|] tp]; [|done]. by injection Hp as <- _.
  - intros t' ->. destruct (default [] (htable s !! ino)) as [|a l] eqn:Et; [done|].
    destruct (mb_alloc ino (task_pool s)) as [t1 tp]. injection Hp as -> <-. simpl.
    assert (a ∈ default [] (htable s !! ino)) as Ha by (rewrite Et; by left).
    rewrite (inv_htable _ Hinv), elem_of_reverse in Ha.
    apply list_elem_of_filter in Ha as [[_ Hi] Ha]. split_and!; [done| |].
    + unfold pending. simpl. apply reports_ext. intros b _.
      destruct (decide (b = a)) as [->|]; [by rewrite fn_lookup_alter|by rewrite fn_lookup_alter_ne].
    + exists a. rewrite fn_lookup_alter. simpl. by split_and!; [..|left].
  - unfold async_reporter_wait_all, async_reporter_push_notify. rewrite (inv_count _ Hinv).
    destruct (Z.eqb_spec (Z.of_nat (length (pending s))) 0) as [Hz|Hz].
    + split; [|done]. intros _. by apply length_zero_iff_nil; lia.
    + split; [|intros He; by rewrite He in Hz].
      destruct (mb_alloc ino (event_pool s)) as [[]], (mb_alloc ino (task_pool s)) as [[]]; done.
Qed.

Lemma check_realloc_sizes p w : same_sizes (W:=W) w (check_realloc p w).2.
Proof.
  unfold check_realloc, realloc_event_ptrs. case_match; [|done].
  pose proof (malloc_sizes (8 * (pa_alloc p * 2)) w) as Hs.
  by destruct (fc_malloc (8 * (pa_alloc p * 2)) w).
Qed.

Lemma to_event_ptrs_sizes head p h w : same_sizes (W:=W) w (to_event_ptrs head p h w).2.
Proof.
  revert p h w. induction head as [|a head IH]; intros p h w; simpl; [done|].
  pose proof (check_realloc_sizes p w) as Hs. destruct (check_realloc p w) as [[p1|] w1]; [|done].
  etransitivity; [exact Hs|apply IH].
Qed.

Lemma merge_loop_sizes fuel h ts p n w : same_sizes (W:=W) w (merge_loop fuel h ts p n w).2.
Proof.
  revert h ts p n w. induction fuel as [|fuel IH]; intros h [|t ts] p n w; simpl; [done..|].
  destruct (is_notify (h t)); [apply IH|].
  pose proof (check_realloc_sizes p w) as Hs. destruct (check_realloc p w) as [[p1|] w1]; [|done].
  etransitivity; [exact Hs|]. case_match; [apply IH|].
  destruct (absorb h t ts n) as [[h1 rest] n1]. apply IH.
Qed.

End spec.
End AsyncReporterSpec.

(** ** Examples *)

Module AsyncReporterExamples.
Import AsyncReporterSpec Ref.

(** A directory service that accepts every batch at once; memory may be
    exhausted ([tight]) or not. *)
Record service (tight : bool) := { sv_sizes : gmap Z dentry_sizes }.
Arguments sv_sizes {tight} _.

Definition zero_sizes : dentry_sizes := {| dz_size := 0; dz_space_end := 0; dz_alloc := 0 |}.
Definition sv_lookup {tight} (v : service tight) (ino : Z) : dentry_sizes := default zero_sizes (sv_sizes v !! ino).
Definition sv_apply (d : FDIRSetDEntrySizeInfo) {tight} (v : service tight) : service tight :=
  {| sv_sizes := <[ds_inode d := apply_report d (sv_lookup v (ds_inode d))]> (sv_sizes v) |}.

#[export] Instance service_malloc tight : Malloc (service tight) :=
  {| fc_malloc _ v := (negb tight, v) |}.
#[export] Instance service_batch tight : FdirBatch (service tight) := {|
  FDIR_BATCH_SET_MAX_DENTRY_COUNT := 2;
  fdir_client_batch_set_dentry_size l v := (Ok tt, foldl (λ v d, sv_apply d v) v l);
|}.
#[export] Instance service_htable tight : ShardingHtable (service tight) :=
  {| sf_sharding_htable_entry _ := mret tt |}.
#[export] Instance service_sizes tight : DentrySizes (service tight) := {| sizes_of := sv_lookup |}.

Lemma sv_fold {tight} l (v : service tight) ino :
  sv_lookup (foldl (λ v d, sv_apply d v) v l) ino = apply_reports ino l (sv_lookup v ino).
Proof.
  revert v. induction l as [|d l IH]; intros v; [done|]. simpl. rewrite IH. f_equal.
  unfold sv_lookup, sv_apply. simpl.
  destruct (Z.eqb_spec (ds_inode d) ino) as [->|]; [by rewrite lookup_insert_eq|].
  by rewrite lookup_insert_ne.
Qed.

#[export] Instance service_laws tight : FdirBatchLaws (service tight).
Proof. split; try done. intros l w w' [= <-] ino. apply sv_fold. Qed.

Definition demo_event : FCFSAPIAsyncReportEvent :=
  {| type := fcfs_api_event_type_report; id := 0;
     dsize := {| ds_inode := 0; ds_file_size := 0; ds_inc_alloc := 0; ds_force := false;
                 ds_flags := no_flags |}; waitings := [] |}.

(** The state after initialisation, with arrays of [n] pointers. *)
Definition demo_init (tight : bool) (n : Z) : AsyncReporterContext (service tight) pool :=
  {| heap := λ _, demo_event; event_pool := empty_pool; task_pool := empty_pool;
     finished := λ _, false; htable := ∅; queue := []; waiting_count := 0; notify_count := 0;
     sorted := {| pa_alloc := 1024; pa_events := [] |};
     merged := {| pa_alloc := n; pa_events := [] |};
     world := {| sv_sizes := ∅ |} |}.

Definition demo_report (ino n inc : Z) : FDIRSetDEntrySizeInfo :=
  {| ds_inode := ino; ds_file_size := n; ds_inc_alloc := inc; ds_force := false;
     ds_flags := {| FLAG_FILE_SIZE := true; FLAG_SPACE_END := true; FLAG_MTIME := false;
                    FLAG_INC_ALLOC := true |} |}.

(** Three reports on two files, and a task waiting for the first file. *)
Definition demo_state (tight : bool) (n : Z) : AsyncReporterContext (service tight) pool :=
  let s := (async_reporter_push (demo_report 7 4 4) (demo_init tight n)).2 in
  let s := (async_reporter_push (demo_report 5 9 1) s).2 in
  let s := (async_reporter_push (demo_report 7 8 4) s).2 in
  (inode_htable_check_conflict 7 s).2.

Lemma demo_initial tight n : initial (demo_init tight n).
Proof. by split_and!. Qed.

Lemma reporter_demo_reachable tight n : reachable (demo_state tight n).
Proof.
  eapply reachable_step; [|by eapply (step_conflict 7), surjective_pairing].
  eapply reachable_step; [|by eapply (step_push (demo_report 7 8 4)), surjective_pairing].
  eapply reachable_step; [|by eapply (step_push (demo_report 5 9 1)), surjective_pairing].
  eapply reachable_step; [|by eapply (step_push (demo_report 7 4 4)), surjective_pairing].
  apply reachable_init, demo_initial.
Qed.

Lemma demo_mallocs : mallocs_succeed (W:=service false).
Proof. done. Qed.

Lemma reporter_invariant_witness : reporter_inv (demo_state false 1024).
Proof.
  apply reporter_invariant; [exact demo_mallocs|exact (reporter_demo_reachable false 1024)].
Defined.

Lemma demo_inv : reporter_inv (demo_state false 1024).
Proof. apply reachable_inv; [exact demo_mallocs|exact (reporter_demo_reachable false 1024)]. Qed.

Lemma demo_pending :
  pending (demo_state false 1024) = [demo_report 7 4 4; demo_report 5 9 1; demo_report 7 8 4].
Proof. vm_compute. done. Qed.

Lemma demo_report_good ino n inc t : good_report (demo_report ino n inc) t.
Proof. intros _. by split_and!. Qed.

Lemma demo_good ino :
  good_reports ino (pending (demo_state false 1024)) (sizes_of (world (demo_state false 1024)) ino).
Proof.
  rewrite demo_pending. cbn [good_reports].
  repeat case_match; repeat first [exact I | apply demo_report_good | apply conj].
Qed.


Lemma conflict_iff_pending_witness :
  (async_reporter_wait_all 5 (demo_state false 1024)).1 = Ok None ↔
  pending (demo_state false 1024) = [].
Proof.
  eapply (conflict_iff_pending 5 (demo_state false 1024)); [exact demo_inv|apply surjective_pairing].
Defined.

End AsyncReporterExamples.
