(* ===== verification/AuthProto.v ===== *)
(** * The wire format of the authentication service (src/auth/common/auth_proto.h)

    Requests and responses are C structs of [char] arrays, laid over a buffer.
    A struct is described by the offsets of its fields; a name is a length byte
    followed by the bytes, and what comes after a name moves with its length.
    Reading behind the end of a body gives 0 here and leftovers of the receive
    buffer in C; every reader compares the total length before it uses what it
    has read. *)
From S2P Require Import Prelude Fastcommon.
From Stdlib Require Import Strings.Byte.
Local Open Scope Z_scope.

Module AuthProto.

(** ** What libserverframe provides ([sf/sf_proto.h]) *)

Record SFListLimitInfo := { offset : Z; count : Z }.

Class ServerFrame := {
  SF_PROTO_ACTIVE_TEST_REQ : Z;
  SF_PROTO_ACTIVE_TEST_RESP : Z;
  SF_SERVICE_PROTO_GET_LEADER_REQ : Z;
  SF_SERVICE_PROTO_GET_LEADER_RESP : Z;
  (** the length of the body, then what it is checked against *)
  server_expect_body_length : Z → Z → result unit;
  server_check_min_body_length : Z → Z → result unit;
  server_check_body_length : Z → Z → Z → result unit;
  sf_proto_pack_limit : SFListLimitInfo → list byte;
  sf_proto_extract_limit : list byte → SFListLimitInfo;
  sf_proto_deal_active_test : list byte → result unit;
}.

(** ** Commands *)

Definition FCFS_AUTH_SERVICE_PROTO_USER_LOGIN_REQ : Z := 9.
Definition FCFS_AUTH_SERVICE_PROTO_USER_LOGIN_RESP : Z := 10.
Definition FCFS_AUTH_SERVICE_PROTO_USER_CREATE_REQ : Z := 21.
Definition FCFS_AUTH_SERVICE_PROTO_USER_CREATE_RESP : Z := 22.
Definition FCFS_AUTH_SERVICE_PROTO_USER_LIST_REQ : Z := 23.
Definition FCFS_AUTH_SERVICE_PROTO_USER_LIST_RESP : Z := 24.
Definition FCFS_AUTH_SERVICE_PROTO_USER_GRANT_REQ : Z := 25.
Definition FCFS_AUTH_SERVICE_PROTO_USER_GRANT_RESP : Z := 26.
Definition FCFS_AUTH_SERVICE_PROTO_USER_REMOVE_REQ : Z := 27.
Definition FCFS_AUTH_SERVICE_PROTO_USER_REMOVE_RESP : Z := 28.
Definition FCFS_AUTH_SERVICE_PROTO_USER_PASSWD_REQ : Z := 29.
Definition FCFS_AUTH_SERVICE_PROTO_USER_PASSWD_RESP : Z := 30.
Definition FCFS_AUTH_SERVICE_PROTO_GET_MASTER_REQ : Z := 61.
Definition FCFS_AUTH_SERVICE_PROTO_GET_MASTER_RESP : Z := 62.
Definition FCFS_AUTH_SERVICE_PROTO_CLUSTER_STAT_REQ : Z := 63.
Definition FCFS_AUTH_SERVICE_PROTO_CLUSTER_STAT_RESP : Z := 64.
Definition FCFS_AUTH_SERVICE_PROTO_SPOOL_CREATE_REQ : Z := 71.
Definition FCFS_AUTH_SERVICE_PROTO_SPOOL_CREATE_RESP : Z := 72.
Definition FCFS_AUTH_SERVICE_PROTO_SPOOL_LIST_REQ : Z := 73.
Definition FCFS_AUTH_SERVICE_PROTO_SPOOL_LIST_RESP : Z := 74.
Definition FCFS_AUTH_SERVICE_PROTO_SPOOL_REMOVE_REQ : Z := 75.
Definition FCFS_AUTH_SERVICE_PROTO_SPOOL_REMOVE_RESP : Z := 76.
Definition FCFS_AUTH_SERVICE_PROTO_SPOOL_SET_QUOTA_REQ : Z := 77.
Definition FCFS_AUTH_SERVICE_PROTO_SPOOL_SET_QUOTA_RESP : Z := 78.
Definition FCFS_AUTH_SERVICE_PROTO_SPOOL_GET_QUOTA_REQ : Z := 79.
Definition FCFS_AUTH_SERVICE_PROTO_SPOOL_GET_QUOTA_RESP : Z := 80.
Definition FCFS_AUTH_SERVICE_PROTO_GPOOL_GRANT_REQ : Z := 91.
Definition FCFS_AUTH_SERVICE_PROTO_GPOOL_GRANT_RESP : Z := 92.
Definition FCFS_AUTH_SERVICE_PROTO_GPOOL_WITHDRAW_REQ : Z := 93.
Definition FCFS_AUTH_SERVICE_PROTO_GPOOL_WITHDRAW_RESP : Z := 94.
Definition FCFS_AUTH_SERVICE_PROTO_GPOOL_LIST_REQ : Z := 95.
Definition FCFS_AUTH_SERVICE_PROTO_GPOOL_LIST_RESP : Z := 96.

Definition auth_service_requests : list Z :=
  [FCFS_AUTH_SERVICE_PROTO_USER_LOGIN_REQ; FCFS_AUTH_SERVICE_PROTO_USER_CREATE_REQ;
   FCFS_AUTH_SERVICE_PROTO_USER_PASSWD_REQ; FCFS_AUTH_SERVICE_PROTO_USER_LIST_REQ;
   FCFS_AUTH_SERVICE_PROTO_USER_GRANT_REQ; FCFS_AUTH_SERVICE_PROTO_USER_REMOVE_REQ;
   FCFS_AUTH_SERVICE_PROTO_SPOOL_CREATE_REQ; FCFS_AUTH_SERVICE_PROTO_SPOOL_LIST_REQ;
   FCFS_AUTH_SERVICE_PROTO_SPOOL_REMOVE_REQ; FCFS_AUTH_SERVICE_PROTO_SPOOL_SET_QUOTA_REQ;
   FCFS_AUTH_SERVICE_PROTO_SPOOL_GET_QUOTA_REQ; FCFS_AUTH_SERVICE_PROTO_GPOOL_GRANT_REQ;
   FCFS_AUTH_SERVICE_PROTO_GPOOL_WITHDRAW_REQ; FCFS_AUTH_SERVICE_PROTO_GPOOL_LIST_REQ;
   FCFS_AUTH_SERVICE_PROTO_CLUSTER_STAT_REQ; FCFS_AUTH_SERVICE_PROTO_GET_MASTER_REQ].

(** What the callers rely on of libserverframe. *)
Class ServerFrameLaws `{ServerFrame} : Prop := {
  server_expect_body_length_eq len n :
    server_expect_body_length len n = if len =? n then Ok tt else Err EINVAL;
  server_check_min_body_length_eq len n :
    server_check_min_body_length len n = if n <=? len then Ok tt else Err EINVAL;
  server_check_body_length_eq len lo hi :
    server_check_body_length len lo hi =
    if (lo <=? len) && (len <=? hi) then Ok tt else Err EINVAL;
  (** the cases of a [switch] differ *)
  SF_PROTO_ACTIVE_TEST_REQ_new : SF_PROTO_ACTIVE_TEST_REQ ∉ auth_service_requests;
  SF_SERVICE_PROTO_GET_LEADER_REQ_new :
    SF_SERVICE_PROTO_GET_LEADER_REQ ∉ SF_PROTO_ACTIVE_TEST_REQ :: auth_service_requests;
  length_sf_proto_pack_limit l : length (sf_proto_pack_limit l) = 8%nat;
  sf_proto_extract_pack l : in_sint 32 (offset l) → in_sint 32 (count l) →
    sf_proto_extract_limit (sf_proto_pack_limit l) = l;
}.

Definition NAME_MAX : Z := 255.
Definition FCFS_AUTH_PASSWD_LEN : Z := 16.
Definition FCFS_AUTH_SESSION_ID_LEN : Z := 16.

(** ** Fields of a buffer *)

Definition byte_val (b : byte) : Z := Z.of_N (Byte.to_N b).

(** [unsigned char c = z] *)
Definition byte_of (z : Z) : byte :=
  match Byte.of_N (Z.to_N (z mod 256)) with Some b => b | None => x00 end.

Definition char_at (p : list byte) (i : Z) : Z :=
  match p !! Z.to_nat i with Some b => byte_val b | None => 0 end.
Definition bytes_at (p : list byte) (i n : Z) : list byte :=
  take (Z.to_nat n) (drop (Z.to_nat i) p).

(** [FCFSAuthProtoNameInfo]: the length byte at [i], the bytes behind it. *)
Definition name_at (p : list byte) (i : Z) : string_t := bytes_at p (i + 1) (char_at p i).
Definition pack_name (s : string_t) : list byte := byte_of (Z.of_nat (length s)) :: s.

(** [FCFSAuthProtoUserPoolPair] at [i]: the offset of its second name. *)
Definition pair_second (p : list byte) (i : Z) : Z := i + 1 + char_at p i.
Definition fcfs_auth_parse_user_pool_pair (p : list byte) (i : Z) : string_t * string_t :=
  (name_at p i, name_at p (pair_second p i)).
Definition pair_length (p : list byte) (i : Z) : Z :=
  char_at p i + char_at p (pair_second p i).
Definition fcfs_auth_pack_user_pool_pair (username poolname : string_t) : list byte :=
  pack_name username ++ pack_name poolname.

(** ** Sizes of the structs *)

Definition sizeof_FCFSAuthProtoUserLoginReq : Z := 1 + FCFS_AUTH_PASSWD_LEN + 1 + 1.
Definition sizeof_FCFSAuthProtoUserCreateReq : Z := 8 + FCFS_AUTH_PASSWD_LEN + 1.
Definition sizeof_FCFSAuthProtoUserPasswdReq : Z := FCFS_AUTH_PASSWD_LEN + 1.
Definition sizeof_FCFSAuthProtoUserListReq : Z := 8 + 1.
Definition sizeof_FCFSAuthProtoListRespHeader : Z := 4 + 1 + 3.
Definition sizeof_FCFSAuthProtoUserListRespBodyPart : Z := 8 + 1.
Definition sizeof_FCFSAuthProtoUserGrantReq : Z := 8 + 1.
Definition sizeof_FCFSAuthProtoUserRemoveReq : Z := 1.
Definition sizeof_FCFSAuthProtoSPoolCreateReq : Z := 8 + 1 + 1.
Definition sizeof_FCFSAuthProtoSPoolCreateResp : Z := 1.
Definition sizeof_FCFSAuthProtoSPoolListReq : Z := 8 + 1 + 1.
Definition sizeof_FCFSAuthProtoSPoolListRespBodyPart : Z := 8 + 1.
Definition sizeof_FCFSAuthProtoSPoolRemoveReq : Z := 1.
Definition sizeof_FCFSAuthProtoSPoolSetQuotaReq : Z := 8 + 1.
Definition sizeof_FCFSAuthProtoSPoolGetQuotaReq : Z := 1.
Definition sizeof_FCFSAuthProtoSPoolGrantReq : Z := 4 + 4 + 1 + 1.
Definition sizeof_FCFSAuthProtoSPoolWithdrawReq : Z := 1 + 1.
Definition sizeof_FCFSAuthProtoGPoolListReq : Z := sizeof_FCFSAuthProtoSPoolListReq.
Definition sizeof_FCFSAuthProtoGPoolListRespBodyPart : Z := 4 + 4 + 1 + 1.
Definition sizeof_FCFSAuthProtoClusterStatReq : Z := 8.

(** [FCFSAuthProtoListRespHeader]; the padding is not written (leftovers of the
    send buffer, zeros here, read by nobody). *)
Definition list_resp_header `{BuffCodec} (count : Z) (is_last : bool) : list byte :=
  int2buff count ++ [byte_of (Z.b2z is_last)] ++ [x00; x00; x00].

(** ** Reading what was packed *)

Lemma byte_val_of z : 0 ≤ z < 256 → byte_val (byte_of z) = z.
Proof.
  intros Hz. unfold byte_of, byte_val. rewrite Z.mod_small by done.
  destruct (Byte.of_N (Z.to_N z)) as [b|] eqn:E.
  - apply Byte.to_of_N in E. rewrite E. lia.
  - apply Byte.of_N_None_iff in E. lia.
Qed.

Lemma byte_val_range b : 0 ≤ byte_val b < 256.
Proof. unfold byte_val. pose proof (Byte.to_N_bounded b). lia. Qed.

Lemma char_at_range p i : 0 ≤ char_at p i < 256.
Proof. unfold char_at. case_match; [apply byte_val_range|lia]. Qed.

Lemma char_at_app pre c post : char_at (pre ++ c :: post) (Z.of_nat (length pre)) = byte_val c.
Proof. unfold char_at. by rewrite Nat2Z.id, lookup_app_r, Nat.sub_diag. Qed.

Lemma bytes_at_app pre l post i n :
  i = Z.of_nat (length pre) → n = Z.of_nat (length l) → bytes_at (pre ++ l ++ post) i n = l.
Proof.
  intros -> ->. unfold bytes_at. by rewrite !Nat2Z.id, drop_app_length, take_app_length.
Qed.

Lemma bytes_at_front l post n : n = Z.of_nat (length l) → bytes_at (l ++ post) 0 n = l.
Proof. exact (bytes_at_app [] l post 0 n eq_refl). Qed.
Lemma bytes_at_back pre l i n :
  i = Z.of_nat (length pre) → n = Z.of_nat (length l) → bytes_at (pre ++ l) i n = l.
Proof. intros. rewrite <- (app_nil_r l) at 1. by apply bytes_at_app. Qed.

Lemma char_at_name pre n post i :
  i = Z.of_nat (length pre) → Z.of_nat (length n) ≤ NAME_MAX →
  char_at (pre ++ pack_name n ++ post) i = Z.of_nat (length n).
Proof.
  intros -> Hn. unfold pack_name. rewrite <- app_comm_cons, char_at_app, byte_val_of; [done|].
  unfold NAME_MAX in Hn. lia.
Qed.

Lemma name_at_app pre n post i :
  i = Z.of_nat (length pre) → Z.of_nat (length n) ≤ NAME_MAX →
  name_at (pre ++ pack_name n ++ post) i = n.
Proof.
  intros Hi Hn. unfold name_at. rewrite (char_at_name _ _ _ _ Hi Hn).
  unfold pack_name. rewrite <- app_comm_cons, cons_middle, app_assoc.
  apply bytes_at_app; [rewrite length_app; simpl; lia|done].
Qed.

(** A name that passes the check of the length lies inside the body. *)
Lemma length_bytes_at p i n :
  0 ≤ i → 0 ≤ n → i + n ≤ Z.of_nat (length p) → Z.of_nat (length (bytes_at p i n)) = n.
Proof. intros. unfold bytes_at. rewrite length_take, length_drop. lia. Qed.

Lemma length_pack_name n : Z.of_nat (length (pack_name n)) = 1 + Z.of_nat (length n).
Proof. unfold pack_name. simpl. lia. Qed.

Lemma parse_pack_pair pre u p post i :
  i = Z.of_nat (length pre) → Z.of_nat (length u) ≤ NAME_MAX → Z.of_nat (length p) ≤ NAME_MAX →
  let b := pre ++ fcfs_auth_pack_user_pool_pair u p ++ post in
  fcfs_auth_parse_user_pool_pair b i = (u, p) ∧
  pair_length b i = Z.of_nat (length u) + Z.of_nat (length p).
Proof.
  intros Hi Hu Hp b. unfold fcfs_auth_parse_user_pool_pair, pair_length, pair_second, b,
    fcfs_auth_pack_user_pool_pair.
  rewrite <- (app_assoc (pack_name u)), (name_at_app _ u), (char_at_name _ u) by done.
  rewrite (app_assoc pre (pack_name u)).
  assert (i + 1 + Z.of_nat (length u) = Z.of_nat (length (pre ++ pack_name u))) as Hj
    by (rewrite length_app; pose proof (length_pack_name u); lia).
  by rewrite name_at_app, (char_at_name _ p) by done.
Qed.
End AuthProto.
