(* ===== verification/AuthDB.v ===== *)
(** * The authentication database (src/auth/server/db/auth_db.c)

    Users, storage pools and grants, kept in memory in skip lists of pointers
    and written through to a backend (src/auth/server/db/dao/), which is an
    interface here.  Objects live in heaps indexed by address; the mutex is not
    modelled, each operation runs as a whole.  Changes of privileges are handed
    to callbacks, modelled as a log. *)
From S2P Require Import Prelude Fastcommon.
Local Open Scope Z_scope.

Module AuthDB.

(** ** Data (auth_types.h, auth_db.h) *)

Definition FCFS_AUTH_USER_STATUS_NORMAL : Z := 0.
Definition FCFS_AUTH_USER_STATUS_DELETED : Z := 1.
Definition FCFS_AUTH_POOL_STATUS_NORMAL : Z := 0.
Definition FCFS_AUTH_POOL_STATUS_DELETED : Z := 1.
Definition FCFS_AUTH_USER_PRIV_ALL : Z := 15.
Definition FCFS_AUTH_POOL_ACCESS_NONE : Z := 0.
Definition FCFS_AUTH_POOL_ACCESS_ALL : Z := 6.
Definition FCFS_AUTH_UNLIMITED_QUOTA_VAL : Z := -1.

Record FCFSAuthSPoolPriviledges := { fdir : Z; fstore : Z }.
#[global] Instance FCFSAuthSPoolPriviledges_eq_dec : EqDecision FCFSAuthSPoolPriviledges.
Proof. solve_decision. Defined.

(** [user_passwd] is [None] for a null pointer. *)
Record FCFSAuthUserInfo := {
  user_id : Z; user_name : string_t; user_passwd : option string_t; user_priv : Z;
  user_status : Z;
}.
Record FCFSAuthStoragePoolInfo := {
  pool_id : Z; pool_name : string_t; pool_quota : Z; pool_used : Z; pool_status : Z;
}.
Record FCFSAuthGrantedPoolInfo := {
  granted_id : Z; granted_pool_id : Z; granted_privs : FCFSAuthSPoolPriviledges;
}.
Record FCFSAuthGrantedPoolFullInfo := {
  gf_granted : FCFSAuthGrantedPoolInfo; gf_username : string_t; gf_pool_name : string_t;
}.

Definition FCFS_AUTH_POOL_AVAILABLE (p : FCFSAuthStoragePoolInfo) : bool :=
  (pool_quota p =? FCFS_AUTH_UNLIMITED_QUOTA_VAL) || (pool_used p <? pool_quota p).

(** What the registered callbacks are told. *)
Inductive priv_change :=
| user_priv_changed (user_id new_priv : Z)
| pool_priv_changed (user_id pool_id : Z) (privs : FCFSAuthSPoolPriviledges)
| pool_quota_avail_changed (pool_id : Z) (available : bool).

(** The backend operations, by what they take and return. *)
Class AuthDao (D : Type) := {
  dao_user_create : FCFSAuthUserInfo → M D Z;
  dao_user_remove : Z → M D unit;
  dao_user_update_priv : Z → Z → M D unit;
  dao_user_update_passwd : Z → string_t → M D unit;
  dao_user_list : M D (list FCFSAuthUserInfo);
  dao_spool_create : string_t → FCFSAuthStoragePoolInfo → M D Z;
  dao_spool_remove : Z → M D unit;
  dao_spool_set_quota : Z → Z → M D unit;
  dao_spool_list : string_t → M D (list FCFSAuthStoragePoolInfo);
  dao_granted_create : string_t → FCFSAuthGrantedPoolInfo → M D Z;
  dao_granted_remove : string_t → Z → M D unit;
  dao_granted_list : string_t → M D (list FCFSAuthGrantedPoolInfo);
  dao_spool_set_base_path_inode : M D unit;
  dao_spool_get_auto_id : M D Z;
  dao_spool_set_auto_id : Z → M D unit;
}.

(** The allocator of names: a copy of the string, or no memory. *)
Class NameAllocator (D : Type) := { fast_allocator_alloc_string : string_t → M D string_t }.

(** ** Arrays of the lists (auth_func.c) *)

(** The doubling loop of [fcfs_auth_*_check_realloc_array] on [int]; [None]: the
    loop has not ended. *)
Fixpoint grow_alloc (fuel : nat) (new_alloc target_count : Z) : option Z :=
  if new_alloc <? target_count then
    match fuel with
    | O => None
    | S fuel => grow_alloc fuel (int32 (new_alloc * 2)) target_count
    end
  else Some new_alloc.

(** The capacity of the caller's array afterwards; [sz] is the element size.
    Doubling a 32-bit number 32 times leaves 0, from where the loop cannot end. *)
Definition check_realloc_array {W} `{!Malloc W} (sz alloc target_count : Z) : M W Z :=
  if alloc >=? target_count then mret alloc
  else
    match grow_alloc 32 alloc target_count with
    | None => throw NO_RETURN
    | Some n =>
        λ w, let '(ok, w) := fc_malloc (sz * n) w in (if ok : bool then Ok n else Err ENOMEM, w)
    end.
Definition fcfs_auth_user_check_realloc_array {W} `{!Malloc W} := check_realloc_array (W:=W) 56.
Definition fcfs_auth_spool_check_realloc_array {W} `{!Malloc W} := check_realloc_array (W:=W) 48.
Definition fcfs_auth_gpool_check_realloc_array {W} `{!Malloc W} := check_realloc_array (W:=W) 56.

Section operations.
Context {D : Type} `{!AuthDao D, !NameAllocator D, !Malloc D}.
Context {MB : Type} `{!Mblock MB}.
Context {SLs SLi : Type → Type} `{!UniqSkiplist string_t SLs, !UniqSkiplist Z SLi}.

Record DBUserInfo := {
  user : FCFSAuthUserInfo;
  created : SLs addr;
  granted : SLi addr;
}.
Record DBStoragePoolInfo := { pool : FCFSAuthStoragePoolInfo; pool_user : addr }.
Record DBGrantedPoolInfo := { grant : FCFSAuthGrantedPoolInfo; sp : addr }.

(** The allocators: of users (0), of storage pools (1) and of grants (2). *)
Record AuthDBContext := {
  mem : Z → MB;
  users : addr → DBUserInfo;
  pools : addr → DBStoragePoolInfo;
  grants : addr → DBGrantedPoolInfo;
  user_count : Z;
  user_sl : SLs addr;
  by_id : SLi addr;
  by_name : SLs addr;
  auto_id : Z;
  backend : D;
  changes : list priv_change;
}.
Abbreviation S := AuthDBContext.

Definition set_mem x (s : S) : S := {| mem := x; users := users s; pools := pools s;
  grants := grants s; user_count := user_count s; user_sl := user_sl s; by_id := by_id s;
  by_name := by_name s; auto_id := auto_id s; backend := backend s; changes := changes s |}.
Definition set_users x (s : S) : S := {| mem := mem s; users := x; pools := pools s;
  grants := grants s; user_count := user_count s; user_sl := user_sl s; by_id := by_id s;
  by_name := by_name s; auto_id := auto_id s; backend := backend s; changes := changes s |}.
Definition set_pools x (s : S) : S := {| mem := mem s; users := users s; pools := x;
  grants := grants s; user_count := user_count s; user_sl := user_sl s; by_id := by_id s;
  by_name := by_name s; auto_id := auto_id s; backend := backend s; changes := changes s |}.
Definition set_grants x (s : S) : S := {| mem := mem s; users := users s; pools := pools s;
  grants := x; user_count := user_count s; user_sl := user_sl s; by_id := by_id s;
  by_name := by_name s; auto_id := auto_id s; backend := backend s; changes := changes s |}.
Definition set_user_sl n x (s : S) : S := {| mem := mem s; users := users s; pools := pools s;
  grants := grants s; user_count := n; user_sl := x; by_id := by_id s;
  by_name := by_name s; auto_id := auto_id s; backend := backend s; changes := changes s |}.
Definition set_by_id x (s : S) : S := {| mem := mem s; users := users s; pools := pools s;
  grants := grants s; user_count := user_count s; user_sl := user_sl s; by_id := x;
  by_name := by_name s; auto_id := auto_id s; backend := backend s; changes := changes s |}.
Definition set_by_name x (s : S) : S := {| mem := mem s; users := users s; pools := pools s;
  grants := grants s; user_count := user_count s; user_sl := user_sl s; by_id := by_id s;
  by_name := x; auto_id := auto_id s; backend := backend s; changes := changes s |}.
Definition set_auto_id x (s : S) : S := {| mem := mem s; users := users s; pools := pools s;
  grants := grants s; user_count := user_count s; user_sl := user_sl s; by_id := by_id s;
  by_name := by_name s; auto_id := x; backend := backend s; changes := changes s |}.
Definition set_backend x (s : S) : S := {| mem := mem s; users := users s; pools := pools s;
  grants := grants s; user_count := user_count s; user_sl := user_sl s; by_id := by_id s;
  by_name := by_name s; auto_id := auto_id s; backend := x; changes := changes s |}.
Definition log_change x (s : S) : S := {| mem := mem s; users := users s; pools := pools s;
  grants := grants s; user_count := user_count s; user_sl := user_sl s; by_id := by_id s;
  by_name := by_name s; auto_id := auto_id s; backend := backend s; changes := changes s ++ [x] |}.

Definition with_user f (u : DBUserInfo) : DBUserInfo :=
  {| user := f (user u); created := created u; granted := granted u |}.
Definition with_pool f (p : DBStoragePoolInfo) : DBStoragePoolInfo :=
  {| pool := f (pool p); pool_user := pool_user p |}.

Definition set_user_id x (u : FCFSAuthUserInfo) := {| user_id := x; user_name := user_name u;
  user_passwd := user_passwd u; user_priv := user_priv u; user_status := user_status u |}.
Definition set_user_name x (u : FCFSAuthUserInfo) := {| user_id := user_id u; user_name := x;
  user_passwd := user_passwd u; user_priv := user_priv u; user_status := user_status u |}.
Definition set_user_passwd x (u : FCFSAuthUserInfo) := {| user_id := user_id u;
  user_name := user_name u; user_passwd := x; user_priv := user_priv u;
  user_status := user_status u |}.
Definition set_user_priv x (u : FCFSAuthUserInfo) := {| user_id := user_id u;
  user_name := user_name u; user_passwd := user_passwd u; user_priv := x;
  user_status := user_status u |}.
Definition set_user_status x (u : FCFSAuthUserInfo) := {| user_id := user_id u;
  user_name := user_name u; user_passwd := user_passwd u; user_priv := user_priv u;
  user_status := x |}.
Definition set_pool_id x (p : FCFSAuthStoragePoolInfo) := {| pool_id := x; pool_name := pool_name p;
  pool_quota := pool_quota p; pool_used := pool_used p; pool_status := pool_status p |}.
Definition set_pool_name x (p : FCFSAuthStoragePoolInfo) := {| pool_id := pool_id p; pool_name := x;
  pool_quota := pool_quota p; pool_used := pool_used p; pool_status := pool_status p |}.
Definition set_pool_quota x (p : FCFSAuthStoragePoolInfo) := {| pool_id := pool_id p;
  pool_name := pool_name p; pool_quota := x; pool_used := pool_used p; pool_status := pool_status p |}.
Definition set_pool_used x (p : FCFSAuthStoragePoolInfo) := {| pool_id := pool_id p;
  pool_name := pool_name p; pool_quota := pool_quota p; pool_used := x; pool_status := pool_status p |}.
Definition set_pool_status x (p : FCFSAuthStoragePoolInfo) := {| pool_id := pool_id p;
  pool_name := pool_name p; pool_quota := pool_quota p; pool_used := pool_used p; pool_status := x |}.

Definition mod_user (a : addr) f : M S unit := modify (λ s, set_users (alter f a (users s)) s).
Definition mod_pool (a : addr) f : M S unit := modify (λ s, set_pools (alter f a (pools s)) s).
Definition mod_grant (a : addr) f : M S unit := modify (λ s, set_grants (alter f a (grants s)) s).

Definition on_backend {A} (m : M D A) : M S A :=
  λ s, let '(r, d) := m (backend s) in (r, set_backend d s).
Definition alloc_object (i : Z) : M S addr :=
  λ s, let '(r, m) := mb_alloc i (mem s i) in
       (match r with Some a => Ok a | None => Err ENOMEM end, set_mem (<[i := m]> (mem s)) s).
Definition free_object (i : Z) (a : addr) : M S unit :=
  modify (λ s, set_mem (<[i := mb_free i a (mem s i)]> (mem s)) s).

(** ** Users *)

Definition user_get (username : string_t) (s : S) : option addr := sl_find (user_sl s) username.

Definition user_set_passwd (a : addr) (passwd : string_t) : M S unit :=
  r ← attempt (on_backend (fast_allocator_alloc_string passwd));
  match r with
  | Ok v => mod_user a (with_user (set_user_passwd (Some v)))
  | Err e => _ ← mod_user a (with_user (set_user_passwd None)); throw e
  end.

(** [*dbuser] in and out. *)
Definition user_create (dbuser : option addr) (u : FCFSAuthUserInfo) (addto_backend : bool)
    : M S addr :=
  '(a, need_insert) ←
    match dbuser with
    | Some a => mret (a, false)
    | None =>
        a ← alloc_object 0;
        n ← on_backend (fast_allocator_alloc_string (user_name u));
        _ ← mod_user a (with_user (set_user_name n));
        mret (a, true)
    end;
  _ ← user_set_passwd a (default [] (user_passwd u));
  _ ← mod_user a (with_user (set_user_priv (user_priv u)));
  id ← (if addto_backend : bool
        then info ← gets (λ s, user (users s a)); on_backend (dao_user_create info)
        else mret (user_id u));
  _ ← mod_user a (with_user (set_user_id id));
  _ ← mod_user a (with_user (set_user_status (user_status u)));
  _ ← (if need_insert : bool then
         modify (λ s, match sl_insert (user_sl s) (user_name (user (users s a))) a with
                      | (Ok _, sl) => set_user_sl (user_count s + 1) sl s
                      | (Err _, sl) => set_user_sl (user_count s) sl s
                      end)
       else mret tt);
  mret a.

Definition user_normal (u : DBUserInfo) : bool := user_status (user u) =? FCFS_AUTH_USER_STATUS_NORMAL.
Definition spool_normal (p : DBStoragePoolInfo) : bool :=
  pool_status (pool p) =? FCFS_AUTH_POOL_STATUS_NORMAL.

Definition adb_user_create (u : FCFSAuthUserInfo) : M S unit :=
  s ← get;
  match user_get (user_name u) s with
  | Some a => if user_normal (users s a) then throw EEXIST
              else _ ← user_create (Some a) u true; mret tt
  | None => _ ← user_create None u true; mret tt
  end.

Definition adb_user_get (username : string_t) (s : S) : option addr :=
  match user_get username s with
  | Some a => if user_normal (users s a) then Some a else None
  | None => None
  end.

Definition adb_user_remove (username : string_t) : M S unit :=
  s ← get;
  match adb_user_get username s with
  | None => throw ENOENT
  | Some a =>
      _ ← on_backend (dao_user_remove (user_id (user (users s a))));
      _ ← mod_user a (with_user (set_user_status FCFS_AUTH_USER_STATUS_DELETED));
      modify (λ s, set_user_sl (user_count s - 1) (user_sl s) s)
  end.

Definition adb_user_update_priv (username : string_t) (priv : Z) : M S unit :=
  s ← get;
  match adb_user_get username s with
  | None => throw ENOENT
  | Some a =>
      if user_priv (user (users s a)) =? priv then mret tt
      else
        _ ← on_backend (dao_user_update_priv (user_id (user (users s a))) priv);
        _ ← mod_user a (with_user (set_user_priv priv));
        modify (log_change (user_priv_changed (user_id (user (users s a))) priv))
  end.

(** The result of [user_set_passwd] is dropped. *)
Definition adb_user_update_passwd (username passwd : string_t) : M S unit :=
  s ← get;
  match adb_user_get username s with
  | None => throw ENOENT
  | Some a =>
      _ ← on_backend (dao_user_update_passwd (user_id (user (users s a))) passwd);
      _ ← attempt (user_set_passwd a passwd); mret tt
  end.

(** The loops of the list operations: at most [count] elements that pass. *)
Fixpoint list_loop {A} (next : list A) (keep : A → bool) (count : nat) : list A :=
  match next, count with
  | a :: next, Datatypes.S n =>
      if keep a then a :: list_loop next keep n else list_loop next keep count
  | _, _ => []
  end.

(** The caller's array is its capacity; the result is the new capacity and the
    elements. *)
Definition adb_user_list (offset count alloc : Z) : M S (Z * list FCFSAuthUserInfo) :=
  n ← on_backend (fcfs_auth_user_check_realloc_array alloc count);
  s ← get;
  mret (n, (λ e, user (users s e.2)) <$>
           list_loop (drop (Z.to_nat offset) (sl_elements (user_sl s)))
             (λ e, user_normal (users s e.2)) (Z.to_nat count)).

(** ** Storage pools *)

Definition get_spool_by_id (id : Z) (s : S) : option addr := sl_find (by_id s) id.
Definition get_spool_by_name (name : string_t) (s : S) : option addr := sl_find (by_name s) name.
Definition user_spool_get (u : addr) (poolname : string_t) (s : S) : option addr :=
  sl_find (created (users s u)) poolname.

Definition by_id_insert (p : addr) : M S unit := λ s,
  let '(r, sl) := sl_insert (by_id s) (pool_id (pool (pools s p))) p in (r, set_by_id sl s).
Definition by_name_insert (p : addr) : M S unit := λ s,
  let '(r, sl) := sl_insert (by_name s) (pool_name (pool (pools s p))) p in (r, set_by_name sl s).
Definition spool_global_skiplists_insert (p : addr) : M S unit :=
  _ ← by_id_insert p; by_name_insert p.

Definition created_insert (u p : addr) : M S unit := λ s,
  let '(r, sl) := sl_insert (created (users s u)) (pool_name (pool (pools s p))) p in
  (r, set_users (alter (λ x, {| user := user x; created := sl; granted := granted x |}) u (users s)) s).

Definition storage_pool_create (u : addr) (dbspool : option addr) (info : FCFSAuthStoragePoolInfo)
    (addto_backend : bool) : M S addr :=
  '(p, need_insert) ←
    match dbspool with
    | Some p => mret (p, false)
    | None =>
        p ← alloc_object 1;
        n ← on_backend (fast_allocator_alloc_string (pool_name info));
        _ ← mod_pool p (λ x, {| pool := set_pool_name n (pool x); pool_user := u |});
        mret (p, true)
    end;
  _ ← mod_pool p (with_pool (set_pool_quota (pool_quota info)));
  _ ← (if addto_backend : bool then
         s ← get;
         r ← attempt (on_backend (dao_spool_create (user_name (user (users s u))) (pool (pools s p))));
         match r with
         | Ok id => mod_pool p (with_pool (set_pool_id id))
         | Err e => _ ← free_object 1 p; throw e
         end
       else mod_pool p (with_pool (set_pool_id (pool_id info))));
  _ ← mod_pool p (with_pool (set_pool_status (pool_status info)));
  r ← (if need_insert : bool
       then attempt (_ ← spool_global_skiplists_insert p; created_insert u p)
       else mret (Ok tt));
  match r with
  | Ok _ => mret p
  | Err e =>
      s ← get;
      _ ← attempt (on_backend (dao_spool_remove (pool_id (pool (pools s p)))));
      _ ← free_object 1 p;
      throw e
  end.

Definition adb_spool_create (username : string_t) (info : FCFSAuthStoragePoolInfo) : M S unit :=
  s ← get;
  match adb_user_get username s with
  | None => throw ENOENT
  | Some u =>
      match user_spool_get u (pool_name info) s with
      | Some p =>
          if spool_normal (pools s p) then throw EEXIST
          else _ ← storage_pool_create u (Some p) info true; mret tt
      | None =>
          match get_spool_by_name (pool_name info) s with
          | Some _ => throw EEXIST
          | None => _ ← storage_pool_create u None info true; mret tt
          end
      end
  end.

(** The owner need not be in normal status. *)
Definition find_spool (username poolname : string_t) (s : S) : option addr :=
  u ← user_get username s; user_spool_get u poolname s.

Definition adb_spool_get (username poolname : string_t) (s : S) : option FCFSAuthStoragePoolInfo :=
  p ← find_spool username poolname s;
  if spool_normal (pools s p) then Some (pool (pools s p)) else None.

Definition adb_spool_remove (username poolname : string_t) : M S unit :=
  s ← get;
  match find_spool username poolname s with
  | Some p =>
      if spool_normal (pools s p) then
        _ ← on_backend (dao_spool_remove (pool_id (pool (pools s p))));
        mod_pool p (with_pool (set_pool_status FCFS_AUTH_POOL_STATUS_DELETED))
      else throw ENOENT
  | None => throw ENOENT
  end.

Definition call_pool_quota_avail_func (p : addr) (old_avail : bool) : M S unit :=
  modify (λ s, let new_avail := FCFS_AUTH_POOL_AVAILABLE (pool (pools s p)) in
               if eqb new_avail old_avail then s
               else log_change (pool_quota_avail_changed (pool_id (pool (pools s p))) new_avail) s).

Definition adb_spool_set_quota (username poolname : string_t) (quota : Z) : M S unit :=
  s ← get;
  match find_spool username poolname s with
  | Some p =>
      if spool_normal (pools s p) then
        if pool_quota (pool (pools s p)) =? quota then mret tt
        else
          _ ← on_backend (dao_spool_set_quota (pool_id (pool (pools s p))) quota);
          _ ← mod_pool p (with_pool (set_pool_quota quota));
          call_pool_quota_avail_func p (FCFS_AUTH_POOL_AVAILABLE (pool (pools s p)))
      else throw ENOENT
  | None => throw ENOENT
  end.

Definition adb_spool_get_quota (poolname : string_t) (s : S) : result Z :=
  match get_spool_by_name poolname s with
  | Some p => if spool_normal (pools s p) then Ok (pool_quota (pool (pools s p))) else Err ENOENT
  | None => Err ENOENT
  end.

(** The status is not looked at. *)
Definition adb_spool_global_get (poolname : string_t) (s : S) : option addr :=
  get_spool_by_name poolname s.

Definition adb_spool_access (poolname : string_t) (s : S) : result unit :=
  match adb_spool_global_get poolname s with Some _ => Ok tt | None => Err ENOENT end.

Definition adb_spool_set_used_bytes (poolname : string_t) (used_bytes : Z) : M S unit :=
  s ← get;
  match adb_spool_global_get poolname s with
  | None => throw ENOENT
  | Some p =>
      if pool_used (pool (pools s p)) =? used_bytes then mret tt
      else
        _ ← mod_pool p (with_pool (set_pool_used used_bytes));
        call_pool_quota_avail_func p (FCFS_AUTH_POOL_AVAILABLE (pool (pools s p)))
  end.

Definition adb_spool_list (username : string_t) (offset count alloc : Z)
    : M S (Z * list FCFSAuthStoragePoolInfo) :=
  n ← on_backend (fcfs_auth_spool_check_realloc_array alloc count);
  s ← get;
  match user_get username s with
  | None => throw ENOENT
  | Some u =>
      mret (n, (λ e, pool (pools s e.2)) <$>
               list_loop (drop (Z.to_nat offset) (sl_elements (created (users s u))))
                 (λ e, spool_normal (pools s e.2)) (Z.to_nat count))
  end.

(** ** Grants *)

Definition granted_pool_get (u : addr) (id : Z) (s : S) : option addr :=
  sl_find (granted (users s u)) id.

Definition granted_insert (u g : addr) (id : Z) : M S unit := λ s,
  let '(r, sl) := sl_insert (granted (users s u)) id g in
  (r, set_users (alter (λ x, {| user := user x; created := created x; granted := sl |}) u (users s)) s).

Definition granted_pool_create (u : addr) (dbgranted : option addr)
    (info : FCFSAuthGrantedPoolInfo) (addto_backend : bool) : M S addr :=
  '(g, need_insert) ←
    match dbgranted with
    | Some g => mret (g, false)
    | None => g ← alloc_object 2; mret (g, true)
    end;
  _ ← mod_grant g (λ x, {| grant := {| granted_id := granted_id (grant x);
                                       granted_pool_id := granted_pool_id info;
                                       granted_privs := granted_privs info |}; sp := sp x |});
  id ← (if addto_backend : bool then
          s ← get;
          r ← attempt (on_backend (dao_granted_create (user_name (user (users s u)))
                                     (grant (grants s g))));
          match r with
          | Ok id => mret id
          | Err e => _ ← free_object 2 g; throw e
          end
        else mret (granted_id info));
  _ ← mod_grant g (λ x, {| grant := {| granted_id := id;
                                       granted_pool_id := granted_pool_id (grant x);
                                       granted_privs := granted_privs (grant x) |}; sp := sp x |});
  if need_insert : bool then
    s ← get;
    r ← attempt (match get_spool_by_id (granted_pool_id info) s with
                 | Some p =>
                     _ ← mod_grant g (λ x, {| grant := grant x; sp := p |});
                     granted_insert u g (granted_pool_id info)
                 | None => throw ENOENT
                 end);
    match r with
    | Ok _ => mret g
    | Err e => _ ← free_object 2 g; throw e
    end
  else mret g.

Definition adb_granted_create (username : string_t) (info : FCFSAuthGrantedPoolInfo) : M S unit :=
  s ← get;
  match adb_user_get username s with
  | None => throw ENOENT
  | Some u =>
      let dbgranted := granted_pool_get u (granted_pool_id info) s in
      let changed := match dbgranted with
                     | Some g => negb ((fdir (granted_privs (grant (grants s g))) =?
                                        fdir (granted_privs info)) &&
                                       (fstore (granted_privs (grant (grants s g))) =?
                                        fstore (granted_privs info)))
                     | None => false
                     end in
      if bool_decide (dbgranted ≠ None) && negb changed then mret tt
      else
        g ← granted_pool_create u dbgranted info true;
        if changed then
          modify (λ s, log_change (pool_priv_changed (user_id (user (users s u)))
                         (granted_pool_id (grant (grants s g)))
                         (granted_privs (grant (grants s g)))) s)
        else mret tt
  end.

(** [uniq_skiplist_delete] calls [free_granted_pool_func] on the element. *)
Definition adb_granted_remove (username : string_t) (id : Z) : M S unit :=
  s ← get;
  match adb_user_get username s with
  | None => throw ENOENT
  | Some u =>
      match granted_pool_get u id s with
      | None => throw ENOENT
      | Some g =>
          _ ← on_backend (dao_granted_remove username id);
          _ ← modify (log_change (pool_priv_changed (user_id (user (users s u)))
                        (granted_pool_id (grant (grants s g)))
                        {| fdir := FCFS_AUTH_POOL_ACCESS_NONE; fstore := FCFS_AUTH_POOL_ACCESS_NONE |}));
          _ ← modify (λ s, set_users (alter (λ x, {| user := user x; created := created x;
                 granted := sl_delete (granted x) (granted_pool_id (grant (grants s g))) |}) u
                 (users s)) s);
          free_object 2 g
      end
  end.

Definition set_gpool_full_info (g : addr) (s : S) : FCFSAuthGrantedPoolFullInfo :=
  let p := pools s (sp (grants s g)) in
  {| gf_granted := grant (grants s g);
     gf_username := user_name (user (users s (pool_user p)));
     gf_pool_name := pool_name (pool p) |}.

Definition adb_granted_full_get (username : string_t) (id : Z) (s : S)
    : result FCFSAuthGrantedPoolFullInfo :=
  match adb_user_get username s with
  | None => Err ENOENT
  | Some u => match granted_pool_get u id s with
              | Some g => Ok (set_gpool_full_info g s)
              | None => Err ENOENT
              end
  end.

Definition adb_granted_privs_get (u p : addr) (s : S) : result FCFSAuthSPoolPriviledges :=
  if bool_decide (pool_user (pools s p) = u) then
    Ok {| fdir := FCFS_AUTH_POOL_ACCESS_ALL; fstore := FCFS_AUTH_POOL_ACCESS_ALL |}
  else
    match granted_pool_get u (pool_id (pool (pools s p))) s with
    | Some g => Ok (granted_privs (grant (grants s g)))
    | None => Err ENOENT
    end.

Definition adb_granted_list (username : string_t) (offset count alloc : Z)
    : M S (Z * list FCFSAuthGrantedPoolFullInfo) :=
  n ← on_backend (fcfs_auth_gpool_check_realloc_array alloc count);
  s ← get;
  match user_get username s with
  | None => throw ENOENT
  | Some u =>
      mret (n, (λ e, set_gpool_full_info e.2 s) <$>
               list_loop (drop (Z.to_nat offset) (sl_elements (granted (users s u))))
                 (λ _, true) (Z.to_nat count))
  end.

(** ** Loading *)

Fixpoint convert_spool_array (u : addr) (l : list FCFSAuthStoragePoolInfo) : M S unit :=
  match l with
  | [] => mret tt
  | info :: l => _ ← storage_pool_create u None info false; convert_spool_array u l
  end.

Definition load_user_spool (u : addr) : M S unit :=
  s ← get;
  l ← on_backend (dao_spool_list (user_name (user (users s u))));
  convert_spool_array u l.

Fixpoint convert_granted_array (u : addr) (l : list FCFSAuthGrantedPoolInfo) : M S unit :=
  match l with
  | [] => mret tt
  | info :: l => _ ← granted_pool_create u None info false; convert_granted_array u l
  end.

Definition load_granted_pool (u : addr) : M S unit :=
  s ← get;
  l ← on_backend (dao_granted_list (user_name (user (users s u))));
  convert_granted_array u l.

Fixpoint load_users (l : list FCFSAuthUserInfo) : M S unit :=
  match l with
  | [] => mret tt
  | info :: l =>
      a ← user_create None info false;
      _ ← load_user_spool a;
      load_users l
  end.

Fixpoint load_grants (l : list (string_t * addr)) : M S unit :=
  match l with
  | [] => mret tt
  | (_, u) :: l => _ ← load_granted_pool u; load_grants l
  end.

Definition convert_user_array (l : list FCFSAuthUserInfo) : M S unit :=
  _ ← load_users l;
  s ← get;
  load_grants (sl_elements (user_sl s)).

(** [AUTO_ID_INITIAL] comes from the configuration. *)
Definition load_pool_auto_id (AUTO_ID_INITIAL : Z) : M S unit :=
  _ ← on_backend dao_spool_set_base_path_inode;
  id ← on_backend dao_spool_get_auto_id;
  modify (set_auto_id (if AUTO_ID_INITIAL >? id then AUTO_ID_INITIAL else id)).

Definition adb_load_data (AUTO_ID_INITIAL : Z) : M S unit :=
  l ← on_backend dao_user_list;
  _ ← convert_user_array l;
  load_pool_auto_id AUTO_ID_INITIAL.

(** [user.status] is not initialised: [stack] is what the variable holds.  [saved]
    is the result of writing the key file. *)
Definition adb_check_generate_admin_user (mode_first : bool) (name passwd : string_t) (stack : Z)
    (saved : result unit) : M S unit :=
  s ← get;
  let need_create := if mode_first then user_count s =? 0
                     else bool_decide (adb_user_get name s = None) in
  if need_create then
    _ ← adb_user_create {| user_id := stack; user_name := name; user_passwd := Some passwd;
                           user_priv := FCFS_AUTH_USER_PRIV_ALL; user_status := stack |};
    lift saved
  else mret tt.

Definition adb_spool_get_auto_id (s : S) : Z := auto_id s.

Definition adb_spool_inc_auto_id : M S unit :=
  _ ← modify (λ s, set_auto_id (int64 (auto_id s + 1)) s);
  s ← get; on_backend (dao_spool_set_auto_id (auto_id s)).

Definition adb_spool_next_auto_id : M S Z :=
  _ ← modify (λ s, set_auto_id (int64 (auto_id s + 1)) s);
  s ← get; _ ← on_backend (dao_spool_set_auto_id (auto_id s)); mret (auto_id s).
End operations.
Arguments AuthDBContext : clear implicits.
End AuthDB.
