(* ===== verification/AuthDBProofs.v ===== *)
(** * Consistency of the authentication database

    The skip lists of users, pools and grants agree with each other and with the
    objects they point to, and every successful operation keeps it that way. *)
From S2P Require Import Prelude Fastcommon AuthDB.
Import AuthDB.
Local Open Scope Z_scope.

Module AuthDBProofs.

(** What the database relies on of its backend: a pool is a directory entry named
    by its owner and its name, whose inode is the pool id; creating it again gives
    the same inode.  The names of users and pools have to be names for a directory. *)
Class DaoInodes (D : Type) := {
  dao_pool_inode : D → string_t → string_t → option Z;
  dao_name_ok : string_t → Prop;
}.
Arguments dao_name_ok D {_} _.

Definition keeps_inodes {D A} `{!DaoInodes D} (m : M D A) : Prop :=
  ∀ d u n, dao_pool_inode (m d).2 u n = dao_pool_inode d u n.

Class AuthDaoLaws D `{!AuthDao D, !NameAllocator D, !Malloc D, !DaoInodes D} : Prop := {
  dao_spool_create_inode u p d id d' : dao_name_ok D u → dao_name_ok D (pool_name p) →
    dao_spool_create u p d = (Ok id, d') →
    dao_pool_inode d' u (pool_name p) = Some id ∧
    (∀ id0, dao_pool_inode d u (pool_name p) = Some id0 → id0 = id) ∧
    ∀ u' n', (u', n') ≠ (u, pool_name p) → dao_pool_inode d' u' n' = dao_pool_inode d u' n';
  dao_spool_create_other u p d u' n' : dao_name_ok D u → dao_name_ok D (pool_name p) →
    (u', n') ≠ (u, pool_name p) → dao_pool_inode (dao_spool_create u p d).2 u' n' = dao_pool_inode d u' n';
  keeps_user_create u : dao_name_ok D (user_name u) → keeps_inodes (dao_user_create (D:=D) u);
  keeps_user_remove i : keeps_inodes (dao_user_remove (D:=D) i);
  keeps_update_priv i p : keeps_inodes (dao_user_update_priv (D:=D) i p);
  keeps_update_passwd i p : keeps_inodes (dao_user_update_passwd (D:=D) i p);
  keeps_spool_remove i : keeps_inodes (dao_spool_remove (D:=D) i);
  keeps_set_quota i q : keeps_inodes (dao_spool_set_quota (D:=D) i q);
  keeps_granted_create u g : dao_name_ok D u → keeps_inodes (dao_granted_create (D:=D) u g);
  keeps_granted_remove u i : dao_name_ok D u → keeps_inodes (dao_granted_remove (D:=D) u i);
  keeps_alloc_string v : keeps_inodes (fast_allocator_alloc_string (D:=D) v);
  alloc_string_copy v d v' d' : fast_allocator_alloc_string (D:=D) v d = (Ok v', d') → v' = v;
}.

Create Rewrite HintDb heap.
Hint Rewrite @fn_lookup_alter @fn_lookup_insert : heap.

(** Take a successful run apart: the value and the state after the first part. *)
Tactic Notation "run" hyp(H) "as" simple_intropattern(x) ident(s1) ident(H1) :=
  apply bind_inv in H as [(? & _ & ?)|(x & s1 & H1 & H)]; [done|].

Section proofs.
Context {D : Type} `{!AuthDao D, !NameAllocator D, !Malloc D, !DaoInodes D, !AuthDaoLaws D}.
Context {MB : Type} `{!Mblock MB, !MblockLaws MB}.
Context `{!FcCompare}.
Context {SLs SLi : Type → Type} `{!UniqSkiplist string_t SLs, !UniqSkiplist Z SLi}.
Context `{!UniqSkiplistLaws fc_string_compare SLs, !UniqSkiplistLaws fc_compare_int64 SLi}.
Abbreviation S := (AuthDBContext D MB SLs SLi).
Implicit Types s : S.

Definition live (i : Z) s : gset addr := mb_live (mem s i).

Record wf s : Prop := {
  (** users are listed under their names *)
  wf_user n a : sl_find (user_sl s) n = Some a → user_name (user (users s a)) = n ∧ a ∈ live 0 s;
  (** pools are listed under their names and under their ids; their owner is a user *)
  wf_by_name n p : sl_find (by_name s) n = Some p →
    pool_name (pool (pools s p)) = n ∧ p ∈ live 1 s ∧
    sl_find (by_id s) (pool_id (pool (pools s p))) = Some p ∧
    ∃ un, sl_find (user_sl s) un = Some (pool_user (pools s p));
  wf_by_id i p : sl_find (by_id s) i = Some p →
    pool_id (pool (pools s p)) = i ∧ sl_find (by_name s) (pool_name (pool (pools s p))) = Some p;
  (** a user's list holds the pools the user owns *)
  wf_created u n p : sl_find (created (users s u)) n = Some p ↔
    sl_find (by_name s) n = Some p ∧ pool_user (pools s p) = u;
  (** grants are listed under the pool id and point to that pool *)
  wf_granted u i g : sl_find (granted (users s u)) i = Some g →
    granted_pool_id (grant (grants s g)) = i ∧ g ∈ live 2 s ∧
    sl_find (by_id s) i = Some (sp (grants s g));
  wf_granted_inj u u' i i' g : sl_find (granted (users s u)) i = Some g →
    sl_find (granted (users s u')) i' = Some g → u = u';
  (** only listed users own pools and grants *)
  wf_listed a : (∀ n, sl_find (user_sl s) n ≠ Some a) → ∀ i, sl_find (granted (users s a)) i = None;
  (** the backend knows each pool under its id *)
  wf_inode un u n p : sl_find (user_sl s) un = Some u → sl_find (created (users s u)) n = Some p →
    dao_pool_inode (backend s) un n = Some (pool_id (pool (pools s p)));
}.

(** ** Inverting successful runs *)

Lemma on_backend_inv {A} (m : M D A) s x s' :
  on_backend m s = (Ok x, s') → ∃ d, m (backend s) = (Ok x, d) ∧ s' = set_backend d s.
Proof. unfold on_backend. destruct (m (backend s)) as [r d]. intros [= -> <-]. by exists d. Qed.

Lemma alloc_object_inv i s a s' :
  alloc_object i s = (Ok a, s') →
  ∃ m, s' = set_mem (<[i := m]> (mem s)) s ∧ (a ∉ live i s) ∧ mb_live m = {[a]} ∪ live i s.
Proof.
  unfold alloc_object. destruct (mb_alloc i (mem s i)) as [[b|] m] eqn:E; [|done].
  intros [= -> <-]. apply mb_alloc_some in E as [??]. by exists m.
Qed.

Lemma sl_insert_ok {K} {cmp : K → K → Z} {SL} `{!UniqSkiplist K SL, !UniqSkiplistLaws cmp SL}
    `{!EqDecision K} {V} (sl : SL V) k v sl' :
  sl_insert sl k v = (Ok tt, sl') →
  sl_find sl k = None ∧ ∀ j, sl_find sl' j = if decide (j = k) then Some v else sl_find sl j.
Proof.
  intros Hin. destruct (sl_find sl k) as [w|] eqn:E.
  { rewrite (sl_insert_dup _ _ _ _ _ E) in Hin. done. }
  split; [done|]. intros j. destruct (sl_insert_new _ sl k v E) as [H'|(sl2 & H' & Hk & Hne)].
  { rewrite H' in Hin. done. }
  rewrite Hin in H'. injection H' as <-. case_decide as Hj; [by subst|by apply Hne].
Qed.

Lemma sl_insert_err {K} {cmp : K → K → Z} {SL} `{!UniqSkiplist K SL, !UniqSkiplistLaws cmp SL}
    {V} (sl : SL V) k v e sl' :
  sl_insert sl k v = (Err e, sl') → sl' = sl.
Proof.
  intros Hin. destruct (sl_find sl k) as [w|] eqn:E.
  { rewrite (sl_insert_dup _ _ _ _ _ E) in Hin. congruence. }
  destruct (sl_insert_new _ sl k v E) as [H'|(sl2 & H' & _)]; rewrite H' in Hin; congruence.
Qed.

Lemma user_set_passwd_inv a v s s' :
  user_set_passwd a v s = (Ok tt, s') →
  ∃ d, s' = set_users (alter (with_user (set_user_passwd (Some v))) a (users s)) (set_backend d s) ∧
       ∀ u n, dao_pool_inode d u n = dao_pool_inode (backend s) u n.
Proof.
  unfold user_set_passwd, mbind, M_bind, attempt, on_backend.
  pose proof (keeps_alloc_string v (backend s)) as Hk.
  pose proof (alloc_string_copy v (backend s)) as Hc.
  destruct (fast_allocator_alloc_string v (backend s)) as [[v'|e] d]; [|done].
  intros [= <-]. rewrite (Hc _ _ eq_refl). by exists d.
Qed.

(** What [user_create] does to the state, the new object being [a]. *)
Record user_created (dbuser : option addr) (u : FCFSAuthUserInfo) (a : addr) s s' : Prop := {
  uc_pools : pools s' = pools s;
  uc_grants : grants s' = grants s;
  uc_by_id : by_id s' = by_id s;
  uc_by_name : by_name s' = by_name s;
  uc_changes : changes s' = changes s;
  uc_other b : b ≠ a → users s' b = users s b;
  uc_lists : created (users s' a) = created (users s a) ∧ granted (users s' a) = granted (users s a);
  uc_name : user_name (user (users s' a)) =
    match dbuser with Some _ => user_name (user (users s a)) | None => user_name u end;
  uc_passwd : user_passwd (user (users s' a)) = Some (default [] (user_passwd u));
  uc_priv : user_priv (user (users s' a)) = user_priv u;
  uc_status : user_status (user (users s' a)) = user_status u;
  uc_inodes un n : dao_pool_inode (backend s') un n = dao_pool_inode (backend s) un n;
  uc_mem i : i ≠ 0 → mem s' i = mem s i;
  uc_addr : match dbuser with
            | Some b => a = b ∧ mem s' = mem s ∧ user_sl s' = user_sl s ∧ user_count s' = user_count s
            | None => (a ∉ live 0 s) ∧ live 0 s' = {[a]} ∪ live 0 s ∧
                ((user_sl s' = user_sl s ∧ user_count s' = user_count s ∧
                  is_ok (sl_insert (user_sl s) (user_name u) a).1 = false) ∨
                 (sl_find (user_sl s) (user_name u) = None ∧ user_count s' = user_count s + 1 ∧
                  ∀ n, sl_find (user_sl s') n =
                       if decide (n = user_name u) then Some a else sl_find (user_sl s) n))
            end;
}.

(** Reading a heap after a chain of updates. *)
Ltac fields := split; cbn; autorewrite with heap; try done;
  try (by intros; rewrite !fn_lookup_alter_ne); try (by intros; rewrite fn_lookup_insert_ne);
  try (by intros; repeat match goal with H : ∀ _ _, dao_pool_inode _ _ _ = _ |- _ =>
                           rewrite H; clear H end).

(** The backend call of [user_create]. *)
Lemma user_backend_inv (addto : bool) a id0 s id s1 : dao_name_ok D (user_name (user (users s a))) →
  (if addto then info ← gets (λ s, user (users s a)); on_backend (dao_user_create info)
   else mret id0) s = (Ok id, s1) →
  ∃ d, s1 = set_backend d s ∧ ∀ un n, dao_pool_inode d un n = dao_pool_inode (backend s) un n.
Proof.
  intros Hok. destruct addto.
  - intros Hr. run Hr as info s0 Hg. injection Hg as <- <-.
    apply on_backend_inv in Hr as (d & Hd & ->). exists d. split; [done|]. intros un n.
    pose proof (keeps_user_create (user (users s a)) Hok (backend s) un n) as Hk. by rewrite Hd in Hk.
  - intros [= <- <-]. exists (backend s). by destruct s.
Qed.

Lemma user_create_inv dbuser u addto s a s' :
  dao_name_ok D (match dbuser with Some b => user_name (user (users s b)) | None => user_name u end) →
  user_create dbuser u addto s = (Ok a, s') → user_created dbuser u a s s'.
Proof.
  intros Hok Hr. unfold user_create in Hr. run Hr as [b need] s1 Hobj. cbv beta iota in Hr.
  run Hr as [] s2 Hpw. run Hr as [] s3 Hpr. injection Hpr as <-.
  run Hr as id s4 Hbk. apply user_backend_inv in Hbk as (d2 & -> & Hk2).
  2: { apply user_set_passwd_inv in Hpw as (d1 & -> & _). cbn. rewrite !fn_lookup_alter. cbn.
       destruct dbuser as [c|]; [by injection Hobj as <- _ <-|].
       run Hobj as c s8 Hal. run Hobj as nm s9 Hnm. run Hobj as [] s10 Hset.
       injection Hobj as <- _ <-. injection Hset as <-. apply on_backend_inv in Hnm as (d0 & Hnm & ->).
       apply alloc_string_copy in Hnm as ->. cbn. by rewrite fn_lookup_alter. }
  run Hr as [] s5 Hid. injection Hid as <-. run Hr as [] s6 Hst. injection Hst as <-.
  run Hr as [] s7 Hin. injection Hr as <- <-.
  apply user_set_passwd_inv in Hpw as (d1 & -> & Hk1). cbn in Hk1, Hk2.
  destruct dbuser as [c|].
  { injection Hobj as <- <- <-. injection Hin as <-. fields. }
  run Hobj as c s8 Hal. run Hobj as nm s9 Hnm. run Hobj as [] s10 Hset.
  injection Hobj as <- <- <-. injection Hset as <-.
  apply alloc_object_inv in Hal as (m & -> & Hfresh & Hm).
  apply on_backend_inv in Hnm as (d0 & Hnm & ->). cbn in Hnm.
  pose proof (keeps_alloc_string (user_name u) (backend s)) as Hk0. rewrite Hnm in Hk0. cbn in Hk0.
  apply alloc_string_copy in Hnm as ->.
  apply modify_inv in Hin as ->. cbn in Hk1. cbn. autorewrite with heap. cbn.
  destruct (sl_insert (user_sl s) (user_name u) c) as [[[]|e] sl] eqn:Ei.
  - apply sl_insert_ok in Ei as [Hn Hsl]. fields.
    unfold live. cbn. autorewrite with heap. split_and!; [done..|]. by right.
  - pose proof (sl_insert_err _ _ _ _ _ Ei) as ->. fields.
    unfold live. cbn. autorewrite with heap. split_and!; [done..|]. left. by rewrite Ei.
Qed.

(** ** Preservation *)

(** Changes the invariant does not see. *)
Record same_shape s s' : Prop := {
  ss_user_sl : user_sl s' = user_sl s;
  ss_by_id : by_id s' = by_id s;
  ss_by_name : by_name s' = by_name s;
  ss_mem : mem s' = mem s;
  ss_name a : user_name (user (users s' a)) = user_name (user (users s a));
  ss_created a : created (users s' a) = created (users s a);
  ss_granted a : granted (users s' a) = granted (users s a);
  ss_pool_name p : pool_name (pool (pools s' p)) = pool_name (pool (pools s p));
  ss_pool_id p : pool_id (pool (pools s' p)) = pool_id (pool (pools s p));
  ss_pool_user p : pool_user (pools s' p) = pool_user (pools s p);
  ss_grants g : granted_pool_id (grant (grants s' g)) = granted_pool_id (grant (grants s g)) ∧
                sp (grants s' g) = sp (grants s g);
  ss_inodes un n : dao_pool_inode (backend s') un n = dao_pool_inode (backend s) un n;
}.

Lemma same_shape_wf s s' : same_shape s s' → wf s → wf s'.
Proof.
  intros [Hu Hi Hn Hm Hnm Hcr Hgr Hpn Hpi Hpu Hg Hin] [W1 W2 W3 W4 W5 W6 W7 W8].
  split; unfold live in *; rewrite ?Hu, ?Hi, ?Hn, ?Hm.
  - intros n a. rewrite Hnm. apply W1.
  - intros n p. rewrite Hpn, Hpi, Hpu. apply W2.
  - intros i p. rewrite Hpi, Hpn. apply W3.
  - intros u n p. rewrite Hcr, Hpu. apply W4.
  - intros u i g. rewrite Hgr. destruct (Hg g) as [-> ->]. apply W5.
  - intros u u' i i' g. rewrite !Hgr. apply W6.
  - intros a Ha i. rewrite Hgr. by apply W7.
  - intros un u n p. rewrite Hcr, Hin, Hpi. apply W8.
Qed.

Lemma user_created_wf dbuser u a s s' : wf s → user_created dbuser u a s s' → wf s'.
Proof.
  intros Hwf [Hp Hg Hi Hn _ Hoth [Hcr Hgr] Hname _ _ _ Hin Hmem Haddr].
  assert (∀ b, created (users s' b) = created (users s b) ∧ granted (users s' b) = granted (users s b))
    as Hlists.
  { intros b. destruct (decide (b = a)) as [->|]; [done|by rewrite Hoth]. }
  assert (∀ b, created (users s' b) = created (users s b)) as Hcr' by apply Hlists.
  assert (∀ b, granted (users s' b) = granted (users s b)) as Hgr' by apply Hlists.
  destruct dbuser as [b|].
  { destruct Haddr as (-> & Hm & Hsl & _). apply (same_shape_wf s); [|done].
    split; rewrite ?Hp, ?Hg; try done. intros c. destruct (decide (c = b)) as [->|]; [done|].
    by rewrite Hoth. }
  destruct Haddr as (Hfresh & Hlive & Hsl). destruct Hwf as [W1 W2 W3 W4 W5 W6 W7 W8].
  assert (∀ i, i ≠ 0 → live i s' = live i s) as Hl by (intros i ?; unfold live; by rewrite Hmem).
  assert (∀ n b, sl_find (user_sl s) n = Some b → b ≠ a) as Hne.
  { intros n b Hb ->. by apply W1 in Hb as [_ ?]. }
  assert (∀ n b, sl_find (user_sl s) n = Some b → sl_find (user_sl s') n = Some b) as Hmono.
  { intros n b Hb. destruct Hsl as [[-> _]|(Hnone & _ & ->)]; [done|].
    rewrite decide_False; [done|]. congruence. }
  assert (∀ n b, sl_find (user_sl s') n = Some b →
    sl_find (user_sl s) n = Some b ∨ (b = a ∧ n = user_name u)) as Hinv.
  { intros n b. destruct Hsl as [[-> _]|(_ & _ & ->)]; [by left|]. case_decide; [|by left].
    intros [= <-]. by right. }
  assert (∀ n p, sl_find (created (users s a)) n = Some p → False) as Hnone.
  { intros n p [Hbn Hpu]%W4. apply W2 in Hbn as (_ & _ & _ & un & Hun). rewrite Hpu in Hun.
    by apply Hne in Hun. }
  split; rewrite ?Hp, ?Hg, ?Hi, ?Hn.
  - intros n b [Hb|[-> ->]]%Hinv.
    + rewrite Hoth by (by eapply Hne). apply W1 in Hb as [? ?]. rewrite Hlive. set_solver.
    + rewrite Hname, Hlive. set_solver.
  - intros n p (? & ? & ? & un & Hun)%W2. rewrite Hl by done. split_and!; try done. eauto.
  - apply W3.
  - intros b n p. rewrite Hcr'. apply W4.
  - intros b i g. rewrite Hgr', Hl by done. apply W5.
  - intros b b' i i' g. rewrite !Hgr'. apply W6.
  - intros b Hb i. rewrite Hgr'. apply W7. intros n Hn'. by apply (Hb n), Hmono.
  - intros un b n p [Hb|[-> ->]]%Hinv; rewrite Hcr', Hin; [by apply W8|]. by intros ?%Hnone.
Qed.

(** ** Pools *)

(** What a successful [storage_pool_create] does, the pool object being [p], where the
    backend is written or knows the pool. *)
Record pool_created (u : addr) (dbspool : option addr) (info : FCFSAuthStoragePoolInfo) (p : addr)
    s s' : Prop := {
  pc_grants : grants s' = grants s;
  pc_user_sl : user_sl s' = user_sl s;
  pc_changes : changes s' = changes s;
  pc_user b : user (users s' b) = user (users s b) ∧ granted (users s' b) = granted (users s b);
  pc_created b : b ≠ u → created (users s' b) = created (users s b);
  pc_other q : q ≠ p → pools s' q = pools s q;
  pc_quota : pool_quota (pool (pools s' p)) = pool_quota info;
  pc_status : pool_status (pool (pools s' p)) = pool_status info;
  pc_used : pool_used (pool (pools s' p)) = pool_used (pool (pools s p));
  pc_mem i : i ≠ 1 → mem s' i = mem s i;
  pc_inode :
    let un := user_name (user (users s u)) in
    let n := pool_name (pool (pools s' p)) in
    dao_pool_inode (backend s') un n = Some (pool_id (pool (pools s' p))) ∧
    (∀ id0, dao_pool_inode (backend s) un n = Some id0 → id0 = pool_id (pool (pools s' p))) ∧
    ∀ un' n', (un', n') ≠ (un, n) →
      dao_pool_inode (backend s') un' n' = dao_pool_inode (backend s) un' n';
  pc_addr :
    match dbspool with
    | Some q =>
        p = q ∧ mem s' = mem s ∧ by_id s' = by_id s ∧ by_name s' = by_name s ∧
        created (users s' u) = created (users s u) ∧
        pool_name (pool (pools s' p)) = pool_name (pool (pools s p)) ∧
        pool_user (pools s' p) = pool_user (pools s p)
    | None =>
        (p ∉ live 1 s) ∧ live 1 s' = {[p]} ∪ live 1 s ∧
        pool_name (pool (pools s' p)) = pool_name info ∧ pool_user (pools s' p) = u ∧
        (sl_find (by_id s) (pool_id (pool (pools s' p))) = None ∧
         ∀ i, sl_find (by_id s') i =
              if decide (i = pool_id (pool (pools s' p))) then Some p else sl_find (by_id s) i) ∧
        (sl_find (by_name s) (pool_name info) = None ∧
         ∀ n, sl_find (by_name s') n =
              if decide (n = pool_name info) then Some p else sl_find (by_name s) n) ∧
        ∀ n, sl_find (created (users s' u)) n =
             if decide (n = pool_name info) then Some p else sl_find (created (users s u)) n
    end;
}.

(** The backend call of [storage_pool_create]. *)
Lemma spool_backend_inv (addto : bool) u p id0 s x s1 :
  (if addto then
     s ← get;
     r ← attempt (on_backend (dao_spool_create (user_name (user (users s u))) (pool (pools s p))));
     match r with
     | Ok id => mod_pool p (with_pool (set_pool_id id))
     | Err e => _ ← free_object 1 p; throw e
     end
   else mod_pool p (with_pool (set_pool_id id0))) s = (Ok x, s1) →
  ∃ id d, s1 = set_pools (alter (with_pool (set_pool_id id)) p (pools s)) (set_backend d s) ∧
    if addto
    then dao_spool_create (user_name (user (users s u))) (pool (pools s p)) (backend s) = (Ok id, d)
    else id = id0 ∧ d = backend s.
Proof.
  destruct addto; intros Hr.
  - run Hr as s0 s2 Hg. injection Hg as <- <-.
    unfold mbind, M_bind, attempt, on_backend in Hr.
    destruct (dao_spool_create _ _ _) as [[id|e] d]; [|done].
    apply modify_inv in Hr as ->. by exists id, d.
  - apply modify_inv in Hr as ->. exists id0, (backend s). by destruct s.
Qed.

Lemma spool_insert_inv u p s s' :
  (_ ← spool_global_skiplists_insert p; created_insert u p) s = (Ok tt, s') →
  ∃ ids names mine,
    s' = set_users (alter (λ x, {| user := user x; created := mine; granted := granted x |}) u (users s))
           (set_by_name names (set_by_id ids s)) ∧
    let id := pool_id (pool (pools s p)) in
    let nm := pool_name (pool (pools s p)) in
    (sl_find (by_id s) id = None ∧
     ∀ i, sl_find ids i = if decide (i = id) then Some p else sl_find (by_id s) i) ∧
    (sl_find (by_name s) nm = None ∧
     ∀ n, sl_find names n = if decide (n = nm) then Some p else sl_find (by_name s) n) ∧
    ∀ n, sl_find mine n = if decide (n = nm) then Some p else sl_find (created (users s u)) n.
Proof.
  intros Hr. run Hr as [] s2 Hg. run Hg as [] s1 Hi. unfold by_id_insert in Hi.
  destruct (sl_insert (by_id s) _ p) as [r ids] eqn:E1. injection Hi as -> <-.
  unfold by_name_insert in Hg. cbn in Hg.
  destruct (sl_insert (by_name s) _ p) as [r names] eqn:E2. injection Hg as -> <-.
  unfold created_insert in Hr. cbn in Hr.
  destruct (sl_insert (created (users s u)) _ p) as [r mine] eqn:E3. injection Hr as -> <-.
  apply sl_insert_ok in E1, E2, E3. destruct E3 as [_ E3]. by exists ids, names, mine.
Qed.

(** Written or known, the backend has the pool under its id. *)
Lemma known_inode (addto : bool) un info id0 d id d' :
  dao_name_ok D un → dao_name_ok D (pool_name info) →
  (addto = false → dao_pool_inode d un (pool_name info) = Some id0) →
  (if addto then dao_spool_create un info d = (Ok id, d') else id = id0 ∧ d' = d) →
  dao_pool_inode d' un (pool_name info) = Some id ∧
  (∀ i, dao_pool_inode d un (pool_name info) = Some i → i = id) ∧
  ∀ un' n', (un', n') ≠ (un, pool_name info) → dao_pool_inode d' un' n' = dao_pool_inode d un' n'.
Proof.
  intros Hun Hpn Hk Hd. destruct addto; [by apply dao_spool_create_inode|].
  destruct Hd as [-> ->]. specialize (Hk eq_refl). split_and!; [done| |done]. congruence.
Qed.

Lemma storage_pool_create_inv u dbspool info (addto : bool) s p s' :
  let n := match dbspool with Some q => pool_name (pool (pools s q)) | None => pool_name info end in
  dao_name_ok D (user_name (user (users s u))) → dao_name_ok D n →
  (addto = false → dao_pool_inode (backend s) (user_name (user (users s u))) n = Some (pool_id info)) →
  storage_pool_create u dbspool info addto s = (Ok p, s') → pool_created u dbspool info p s s'.
Proof.
  intros n Hun Hpn Hknown Hr. unfold storage_pool_create in Hr. run Hr as [q need] s1 Hobj. cbv beta iota in Hr.
  run Hr as [] s2 Hq. apply modify_inv in Hq as ->. run Hr as [] s3 Hbk.
  apply spool_backend_inv in Hbk as (id & d & -> & Hdao). run Hr as [] s4 Hst.
  apply modify_inv in Hst as ->. run Hr as r s5 Hins.
  destruct r as [[]|e]; [|by run Hr as s6 s7 Hg; run Hr as r s8 Hg2; run Hr as [] s9 Hg3].
  injection Hr as <- <-.
  assert (user (users s1 u) = user (users s u) ∧ pool_name (pool (pools s1 q)) = n ∧
    ∀ un m, dao_pool_inode (backend s1) un m = dao_pool_inode (backend s) un m) as (Hus1 & Hpn1 & Hk1).
  { subst n. destruct dbspool as [q'|]; [by injection Hobj as <- _ <-|].
    run Hobj as q' s8 Hal. run Hobj as nm s9 Hnm. run Hobj as [] s10 Hset.
    injection Hobj as <- _ <-. apply modify_inv in Hset as ->.
    apply alloc_object_inv in Hal as (m & -> & _). apply on_backend_inv in Hnm as (d0 & Hnm & ->).
    pose proof (keeps_alloc_string (pool_name info) (backend s)) as Hk0. cbn in Hnm. rewrite Hnm in Hk0.
    apply alloc_string_copy in Hnm as ->. cbn. by rewrite fn_lookup_alter. }
  apply known_inode in Hdao as (Hd1 & Hd2 & Hd3);
    [|cbn; rewrite ?fn_lookup_alter; cbn; rewrite ?Hus1, ?Hpn1, ?Hk1; auto..].
  clear Hus1 Hpn1 Hk1 Hknown Hpn. subst n.
  cbn in Hd1, Hd2, Hd3. autorewrite with heap in *. cbn in Hd1, Hd2, Hd3.
  destruct dbspool as [q'|].
  { injection Hobj as <- <- <-. injection Hins as <-. fields. }
  run Hobj as q' s8 Hal. run Hobj as nm s9 Hnm. run Hobj as [] s10 Hset.
  injection Hobj as <- <- <-. apply modify_inv in Hset as ->.
  apply alloc_object_inv in Hal as (m & -> & Hfresh & Hm).
  apply on_backend_inv in Hnm as (d0 & Hnm & ->). cbn in Hnm.
  pose proof (keeps_alloc_string (pool_name info) (backend s)) as Hk0. rewrite Hnm in Hk0. cbn in Hk0.
  apply alloc_string_copy in Hnm as ->. cbn in Hd1, Hd2, Hd3. autorewrite with heap in *.
  cbn in Hd1, Hd2, Hd3.
  apply attempt_inv, spool_insert_inv in Hins as (ids & names & mine & -> & Hids & Hnames & Hmine).
  cbn in Hids, Hnames, Hmine. autorewrite with heap in *. cbn in Hids, Hnames, Hmine.
  fields.
  - intros b. destruct (decide (b = u)) as [->|]; [by rewrite fn_lookup_alter|].
    by rewrite fn_lookup_alter_ne.
  - split_and!; [done|intros id0; rewrite <- Hk0; apply Hd2|].
    intros un' n' Hne. by rewrite Hd3, Hk0.
Qed.

(** A pool created again is the entry of the same owner and keeps its id. *)
Lemma pool_recreated_wf un u q info s s' :
  wf s → sl_find (user_sl s) un = Some u → sl_find (created (users s u)) (pool_name info) = Some q →
  pool_created u (Some q) info q s s' → wf s'.
Proof.
  intros Hwf Hu Hq [Hg Hsl _ Husr Hcr Hoth _ _ _ Hmem [Hi1 [Hi2 Hi3]] (_ & Hm & Hbi & Hbn & Hcru & Hpn & Hpu)].
  destruct (wf_user _ Hwf un u Hu) as [Hun _].
  destruct (proj1 (wf_created _ Hwf u _ q) Hq) as [Hbq _].
  destruct (wf_by_name _ Hwf _ _ Hbq) as [Hnq _].
  pose proof (wf_inode _ Hwf un u _ q Hu Hq) as Hino.
  rewrite Hpn, Hnq, Hun in *. pose proof (Hi2 _ Hino) as Hid.
  assert (∀ x, pool_name (pool (pools s' x)) = pool_name (pool (pools s x)) ∧
               pool_id (pool (pools s' x)) = pool_id (pool (pools s x)) ∧
               pool_user (pools s' x) = pool_user (pools s x)) as Hpools.
  { intros x. destruct (decide (x = q)) as [->|]; [|by rewrite Hoth].
    rewrite Hpn. by split_and!. }
  apply (same_shape_wf s); [|done]. split; try done; try (intros; apply Hpools); try (intros; apply Husr).
  - intros a. by destruct (Husr a) as [-> _].
  - intros a. destruct (decide (a = u)) as [->|]; [done|by apply Hcr].
  - intros g. by rewrite Hg.
  - intros un' n'. destruct (decide ((un', n') = (un, pool_name info))) as [[= -> ->]|Hne].
    + by rewrite Hi1, Hino, Hid.
    + by apply Hi3.
Qed.

Lemma pool_new_wf un u info p s s' :
  wf s → sl_find (user_sl s) un = Some u → pool_created u None info p s s' → wf s'.
Proof.
  intros Hwf Hu [Hg Hsl _ Husr Hcr Hoth _ _ _ Hmem [Hi1 [Hi2 Hi3]]
    (Hfresh & Hlive & Hpn & Hpu & [Hidn Hid] & [Hnn Hn] & Hmine)].
  destruct Hwf as [W1 W2 W3 W4 W5 W6 W7 W8]. destruct (W1 un u Hu) as [Hun _]. rewrite Hpn, Hun in *.
  set (id := pool_id (pool (pools s' p))) in *.
  assert (∀ i, i ≠ 1 → live i s' = live i s) as Hl by (intros i ?; unfold live; by rewrite Hmem).
  assert (∀ n q, sl_find (by_name s) n = Some q → q ≠ p) as Hne.
  { intros n q Hq ->. by apply W2 in Hq as (_ & ? & _). }
  assert (∀ i q, sl_find (by_id s) i = Some q → q ≠ p) as Hne'.
  { intros i q Hq. apply W3 in Hq as [_ Hq]. by eapply Hne. }
  assert (∀ i q, sl_find (by_id s) i = Some q → sl_find (by_id s') i = Some q) as Himono.
  { intros i q Hq. rewrite Hid, decide_False; [done|]. congruence. }
  split; rewrite ?Hsl, ?Hg.
  - intros n a Ha. destruct (Husr a) as [-> _]. rewrite Hl by done. by apply W1.
  - intros n q. rewrite Hn. case_decide as Hnm; [intros [= <-]|intros Hq].
    + subst n. rewrite Hpn, Hpu, Hlive, Hid, decide_True by done.
      split_and!; [done|set_solver|done|by exists un].
    + rewrite (Hoth q) by (by eapply Hne). destruct (W2 _ _ Hq) as (? & ? & ? & ?).
      rewrite Hlive. split_and!; [done|set_solver|by apply Himono|done].
  - intros i q. rewrite Hid. case_decide as Hi; [intros [= <-]|intros Hq].
    + subst i. by rewrite Hpn, Hn, decide_True.
    + rewrite (Hoth q) by (by eapply Hne'). destruct (W3 _ _ Hq) as [? Hq']. split; [done|].
      rewrite Hn, decide_False; [done|]. congruence.
  - intros v n q. destruct (decide (v = u)) as [->|Hv].
    + rewrite Hmine, Hn. case_decide as Hnm.
      * split; [by intros [= <-]|by intros [[= <-] _]].
      * rewrite W4. split; intros [Hq Hqu]; (split; [done|]); revert Hqu;
          by rewrite (Hoth q) by (by eapply Hne).
    + rewrite Hcr, W4, Hn by done. case_decide as Hnm.
      * subst n. rewrite Hnn. split; [by intros [? _]|]. intros [[= <-] Hq]. by rewrite Hpu in Hq.
      * split; intros [Hq Hqu]; (split; [done|]); revert Hqu; by rewrite (Hoth q) by (by eapply Hne).
  - intros v i g. destruct (Husr v) as [_ ->]. intros (? & ? & ?)%W5. rewrite Hl by done.
    split_and!; [done..|by apply Himono].
  - intros v v' i i' g. destruct (Husr v) as [_ ->], (Husr v') as [_ ->]. apply W6.
  - intros a Ha i. destruct (Husr a) as [_ ->]. by apply W7.
  - intros un' v n q Hv Hq.
    destruct (decide ((un', n) = (un, pool_name info))) as [[= -> ->]|Hneq].
    + rewrite Hu in Hv. injection Hv as <-. rewrite Hmine, decide_True in Hq by done.
      injection Hq as <-. done.
    + rewrite Hi3 by done.
      assert (sl_find (created (users s v)) n = Some q) as Hq0.
      { destruct (decide (v = u)) as [->|]; [|by rewrite Hcr in Hq].
        rewrite Hmine, decide_False in Hq; [done|]. intros ->. apply Hneq.
        destruct (W1 un' u Hv) as [<- _]. by rewrite Hun. }
      rewrite (W8 _ _ _ _ Hv Hq0). apply W4 in Hq0 as [Hq0 _]. by rewrite (Hoth q) by (by eapply Hne).
Qed.

(** ** Grants *)

Record grant_created (u : addr) (dbgranted : option addr) (info : FCFSAuthGrantedPoolInfo) (g : addr)
    s s' : Prop := {
  gc_pools : pools s' = pools s;
  gc_user_sl : user_sl s' = user_sl s;
  gc_by_id : by_id s' = by_id s;
  gc_by_name : by_name s' = by_name s;
  gc_changes : changes s' = changes s;
  gc_inodes un n : dao_pool_inode (backend s') un n = dao_pool_inode (backend s) un n;
  gc_mem i : i ≠ 2 → mem s' i = mem s i;
  gc_user b : user (users s' b) = user (users s b) ∧ created (users s' b) = created (users s b);
  gc_granted b : b ≠ u → granted (users s' b) = granted (users s b);
  gc_other h : h ≠ g → grants s' h = grants s h;
  gc_pool_id : granted_pool_id (grant (grants s' g)) = granted_pool_id info;
  gc_privs : granted_privs (grant (grants s' g)) = granted_privs info;
  gc_addr :
    match dbgranted with
    | Some h => g = h ∧ mem s' = mem s ∧ granted (users s' u) = granted (users s u) ∧
                sp (grants s' g) = sp (grants s g)
    | None =>
        (g ∉ live 2 s) ∧ live 2 s' = {[g]} ∪ live 2 s ∧
        sl_find (by_id s) (granted_pool_id info) = Some (sp (grants s' g)) ∧
        sl_find (granted (users s u)) (granted_pool_id info) = None ∧
        ∀ i, sl_find (granted (users s' u)) i =
             if decide (i = granted_pool_id info) then Some g else sl_find (granted (users s u)) i
    end;
}.

Lemma grant_backend_inv (addto : bool) u g (id0 : Z) s id s1 :
  dao_name_ok D (user_name (user (users s u))) →
  (if addto then
     s ← get;
     r ← attempt (on_backend (dao_granted_create (user_name (user (users s u))) (grant (grants s g))));
     match r with
     | Ok id => mret id
     | Err e => _ ← free_object 2 g; throw e
     end
   else mret id0) s = (Ok id, s1) →
  ∃ d, s1 = set_backend d s ∧ ∀ un n, dao_pool_inode d un n = dao_pool_inode (backend s) un n.
Proof.
  intros Hok Hr. destruct addto; [|injection Hr as <- <-; exists (backend s); by destruct s]. run Hr as s0 s2 Hg. injection Hg as <- <-.
  unfold mbind, M_bind, attempt, on_backend in Hr.
  pose proof (keeps_granted_create (user_name (user (users s u))) (grant (grants s g)) Hok (backend s)) as Hk.
  destruct (dao_granted_create _ _ _) as [[i|e] d]; [|done]. injection Hr as <- <-. by exists d.
Qed.

Lemma granted_pool_create_inv u dbg info addto s g s' : dao_name_ok D (user_name (user (users s u))) →
  granted_pool_create u dbg info addto s = (Ok g, s') → grant_created u dbg info g s s'.
Proof.
  intros Hok Hr. unfold granted_pool_create in Hr. run Hr as [h need] s1 Hobj. cbv beta iota in Hr.
  run Hr as [] s2 Hf. apply modify_inv in Hf as ->. run Hr as id s3 Hbk.
  apply grant_backend_inv in Hbk as (d & -> & Hk).
  2: { destruct dbg as [h'|]; [by injection Hobj as _ _ <-|]. run Hobj as h' s5 Hal. injection Hobj as _ _ <-.
       by apply alloc_object_inv in Hal as (m & -> & _). }
  run Hr as [] s4 Hid.
  apply modify_inv in Hid as ->. cbn in Hk.
  destruct dbg as [h'|].
  { injection Hobj as <- <- <-. injection Hr as <- <-. fields. }
  run Hobj as h' s5 Hal. injection Hobj as <- <- <-.
  apply alloc_object_inv in Hal as (m & -> & Hfresh & Hm). cbn in Hk.
  run Hr as s6 s7 Hg. injection Hg as <- <-. run Hr as r s8 Hins. apply attempt_inv in Hins.
  destruct r as [[]|e]; [|by run Hr as [] s9 Hx]. injection Hr as <- <-.
  unfold get_spool_by_id in Hins. cbn in Hins.
  destruct (sl_find (by_id s) (granted_pool_id info)) as [p|] eqn:Ep; [|done].
  run Hins as [] s9 Hsp. apply modify_inv in Hsp as ->. unfold granted_insert in Hins. cbn in Hins.
  destruct (sl_insert (granted (users s u)) (granted_pool_id info) h') as [r gl] eqn:Ei.
  injection Hins as -> <-. apply sl_insert_ok in Ei as [Hn Hgl]. fields.
  intros b. destruct (decide (b = u)) as [->|]; [by rewrite fn_lookup_alter|].
  by rewrite fn_lookup_alter_ne.
Qed.

Lemma grant_created_wf un u dbg info g s s' :
  wf s → sl_find (user_sl s) un = Some u → dbg = sl_find (granted (users s u)) (granted_pool_id info) →
  grant_created u dbg info g s s' → wf s'.
Proof.
  intros Hwf Hu Hdbg [Hp Hsl Hbi Hbn _ Hin Hmem Husr Hgr Hoth Hpid _ Haddr].
  destruct dbg as [h|].
  { destruct Haddr as (-> & Hm & Hgu & Hsp). symmetry in Hdbg.
    destruct (wf_granted _ Hwf _ _ _ Hdbg) as [Hid _].
    apply (same_shape_wf s); [|done]. split; try done; try (intros; by rewrite Hp).
    - intros a. by destruct (Husr a) as [-> _].
    - intros a. apply Husr.
    - intros a. destruct (decide (a = u)) as [->|]; [done|by apply Hgr].
    - intros x. destruct (decide (x = h)) as [->|]; [|by rewrite Hoth]. by rewrite Hpid, Hid. }
  destruct Haddr as (Hfresh & Hlive & Hsp & Hnone & Hins). destruct Hwf as [W1 W2 W3 W4 W5 W6 W7 W8].
  assert (∀ i, i ≠ 2 → live i s' = live i s) as Hl by (intros i ?; unfold live; by rewrite Hmem).
  assert (∀ v i x, sl_find (granted (users s v)) i = Some x → x ≠ g) as Hne.
  { intros v i x Hx ->. by apply W5 in Hx as (_ & ? & _). }
  assert (∀ v i x, sl_find (granted (users s' v)) i = Some x →
    sl_find (granted (users s v)) i = Some x ∨ (v = u ∧ i = granted_pool_id info ∧ x = g)) as Hinv.
  { intros v i x. destruct (decide (v = u)) as [->|]; [|by rewrite Hgr; [left|]].
    rewrite Hins. case_decide; [|by left]. intros [= <-]. by right. }
  split; rewrite ?Hsl, ?Hbi, ?Hbn, ?Hp.
  - intros n a Ha. destruct (Husr a) as [-> _]. rewrite Hl by done. by apply W1.
  - intros n q. rewrite Hl by done. apply W2.
  - apply W3.
  - intros v n q. destruct (Husr v) as [_ ->]. apply W4.
  - intros v i x [Hx|(-> & -> & ->)]%Hinv.
    + rewrite Hoth by (by eapply Hne). destruct (W5 _ _ _ Hx) as (? & ? & ?). rewrite Hlive.
      split_and!; [done|set_solver|done].
    + rewrite Hpid, Hlive. split_and!; [done|set_solver|done].
  - intros v v' i i' x [Hx|(-> & -> & ->)]%Hinv [Hx'|(-> & -> & Heq)]%Hinv; try done.
    + by eapply W6.
    + subst. by apply Hne in Hx.
    + by apply Hne in Hx'.
  - intros a Ha i. destruct (decide (a = u)) as [->|]; [by apply Ha in Hu|].
    rewrite Hgr by done. by apply W7.
  - intros un' v n q. destruct (Husr v) as [_ ->]. rewrite Hin. apply W8.
Qed.

Lemma granted_remove_inv username id s s' :
  dao_name_ok D username → wf s → adb_granted_remove username id s = (Ok tt, s') →
  ∃ u g, adb_user_get username s = Some u ∧ granted_pool_get u id s = Some g ∧
    pools s' = pools s ∧ grants s' = grants s ∧ user_sl s' = user_sl s ∧ by_id s' = by_id s ∧
    by_name s' = by_name s ∧
    (∀ un n, dao_pool_inode (backend s') un n = dao_pool_inode (backend s) un n) ∧
    (∀ i, i ≠ 2 → mem s' i = mem s i) ∧ live 2 s' = live 2 s ∖ {[g]} ∧
    (∀ b, user (users s' b) = user (users s b) ∧ created (users s' b) = created (users s b)) ∧
    (∀ b, b ≠ u → granted (users s' b) = granted (users s b)) ∧
    (∀ i, sl_find (granted (users s' u)) i =
          if decide (i = id) then None else sl_find (granted (users s u)) i) ∧
    changes s' = changes s ++ [pool_priv_changed (user_id (user (users s u))) id
      {| fdir := FCFS_AUTH_POOL_ACCESS_NONE; fstore := FCFS_AUTH_POOL_ACCESS_NONE |}].
Proof.
  intros Hok Hwf Hr. unfold adb_granted_remove in Hr. run Hr as s0 s1 Hg. injection Hg as <- <-.
  destruct (adb_user_get username s) as [u|] eqn:Eu; [|done].
  destruct (granted_pool_get u id s) as [g|] eqn:Eg; [|done].
  destruct (wf_granted _ Hwf _ _ _ Eg) as [Hid _].
  run Hr as [] s2 Hbk. run Hr as [] s3 Hlog. run Hr as [] s4 Hdel.
  apply modify_inv in Hr as ->, Hdel as ->, Hlog as ->.
  apply on_backend_inv in Hbk as (d & Hd & ->).
  pose proof (keeps_granted_remove username id Hok (backend s)) as Hk. rewrite Hd in Hk.
  exists u, g. cbn. rewrite Hid. split_and!; try done.
  - intros i Hi. by rewrite fn_lookup_insert_ne.
  - unfold live. cbn. rewrite fn_lookup_insert. apply mb_free_live.
  - intros b. destruct (decide (b = u)) as [->|]; [by rewrite fn_lookup_alter|].
    by rewrite fn_lookup_alter_ne.
  - intros b Hb. by rewrite fn_lookup_alter_ne.
  - intros i. rewrite fn_lookup_alter. cbn. case_decide as Hi; [subst i; apply sl_find_delete|].
    by apply sl_find_delete_ne.
Qed.

Lemma granted_remove_wf username id s s' :
  dao_name_ok D username → wf s → adb_granted_remove username id s = (Ok tt, s') → wf s'.
Proof.
  intros Hok Hwf Hr. destruct (granted_remove_inv _ _ _ _ Hok Hwf Hr)
    as (u & g & Hu & Hg & Hp & Hgs & Hsl & Hbi & Hbn & Hin & Hmem & Hlive & Husr & Hgr & Hdel & _).
  destruct Hwf as [W1 W2 W3 W4 W5 W6 W7 W8].
  assert (∀ i, i ≠ 2 → live i s' = live i s) as Hl by (intros i ?; unfold live; by rewrite Hmem).
  assert (∀ v i x, sl_find (granted (users s' v)) i = Some x →
    sl_find (granted (users s v)) i = Some x ∧ x ≠ g) as Hinv.
  { intros v i x Hx. destruct (decide (v = u)) as [->|Hv].
    - rewrite Hdel in Hx. case_decide as Hi; [done|]. split; [done|]. intros ->.
      destruct (W5 _ _ _ Hx) as [<- _], (W5 _ _ _ Hg) as [Hid _]. done.
    - rewrite Hgr in Hx by done. split; [done|]. intros ->. by apply Hv, (W6 _ _ _ _ _ Hx Hg). }
  split; rewrite ?Hsl, ?Hbi, ?Hbn, ?Hp, ?Hgs.
  - intros n a Ha. destruct (Husr a) as [-> _]. rewrite Hl by done. by apply W1.
  - intros n q. rewrite Hl by done. apply W2.
  - apply W3.
  - intros v n q. destruct (Husr v) as [_ ->]. apply W4.
  - intros v i x [Hx Hne]%Hinv. destruct (W5 _ _ _ Hx) as (? & ? & ?). rewrite Hlive.
    split_and!; [done|set_solver|done].
  - intros v v' i i' x [Hx _]%Hinv [Hx' _]%Hinv. by eapply W6.
  - intros a Ha i. destruct (sl_find (granted (users s' a)) i) as [x|] eqn:Ex; [|done].
    apply Hinv in Ex as [Ex _]. by rewrite W7 in Ex.
  - intros un' v n q. destruct (Husr v) as [_ ->]. rewrite Hin. apply W8.
Qed.
End proofs.

End AuthDBProofs.
