(* ===== verification/AuthDBSpec.v ===== *)
(** * What the authentication database promises

    The consistency invariant of [AuthDBProofs] for every sequence of
    operations; users, pools and grants as maps; and the places where the code
    departs from that. *)
From Stdlib Require Import Init.Byte.
From S2P Require Import Prelude Fastcommon AuthDB AuthDBProofs.
Import AuthDB AuthDBProofs.
Local Open Scope Z_scope.

Module AuthDBSpec.
Section spec.
Context {D : Type} `{!AuthDao D, !NameAllocator D, !Malloc D, !DaoInodes D, !AuthDaoLaws D}.
Context {MB : Type} `{!Mblock MB, !MblockLaws MB}.
Context `{!FcCompare}.
Context {SLs SLi : Type → Type} `{!UniqSkiplist string_t SLs, !UniqSkiplist Z SLi}.
Context `{!UniqSkiplistLaws fc_string_compare SLs, !UniqSkiplistLaws fc_compare_int64 SLi}.
Abbreviation S := (AuthDBContext D MB SLs SLi).
Implicit Types s : S.

(** ** The operations as a type *)

Inductive adb_op :=
| UserCreate (u : FCFSAuthUserInfo)
| UserRemove (n : string_t)
| UserUpdatePriv (n : string_t) (priv : Z)
| UserUpdatePasswd (n passwd : string_t)
| SpoolCreate (un : string_t) (info : FCFSAuthStoragePoolInfo)
| SpoolRemove (un n : string_t)
| SpoolSetQuota (un n : string_t) (quota : Z)
| SpoolSetUsed (n : string_t) (used : Z)
| GrantedCreate (un : string_t) (info : FCFSAuthGrantedPoolInfo)
| GrantedRemove (un : string_t) (id : Z).

Definition run_op (op : adb_op) : M S unit :=
  match op with
  | UserCreate u => adb_user_create u
  | UserRemove n => adb_user_remove n
  | UserUpdatePriv n p => adb_user_update_priv n p
  | UserUpdatePasswd n p => adb_user_update_passwd n p
  | SpoolCreate un info => adb_spool_create un info
  | SpoolRemove un n => adb_spool_remove un n
  | SpoolSetQuota un n q => adb_spool_set_quota un n q
  | SpoolSetUsed n b => adb_spool_set_used_bytes n b
  | GrantedCreate un info => adb_granted_create un info
  | GrantedRemove un id => adb_granted_remove un id
  end.

(** ** Updates in place *)

Lemma adb_user_get_inv n s a :
  adb_user_get n s = Some a → sl_find (user_sl s) n = Some a ∧ user_normal (users s a) = true.
Proof.
  unfold adb_user_get, user_get. destruct (sl_find (user_sl s) n) as [b|]; [|done].
  destruct (user_normal (users s b)) eqn:E; [|done]. by intros [= <-].
Qed.

(** A user's own fields change, but not the name. *)
Lemma user_update_shape a f d s s' :
  (∀ u, user_name (f u) = user_name u) →
  (∀ un n, dao_pool_inode d un n = dao_pool_inode (backend s) un n) →
  users s' = alter (with_user f) a (users s) → pools s' = pools s → grants s' = grants s →
  mem s' = mem s → user_sl s' = user_sl s → by_id s' = by_id s → by_name s' = by_name s →
  backend s' = d → same_shape s s'.
Proof.
  intros Hf Hd Hu Hp Hg Hm Hsl Hi Hn Hb.
  split; rewrite ?Hp, ?Hg, ?Hb, ?Hu; try done; intros b;
    (destruct (decide (b = a)) as [->|]; [by rewrite ?fn_lookup_alter; cbn; rewrite ?Hf|]);
    by rewrite fn_lookup_alter_ne.
Qed.

(** A pool's quota, usage or status changes. *)
Lemma pool_update_shape p f d s s' :
  (∀ x, pool_name (f x) = pool_name x ∧ pool_id (f x) = pool_id x) →
  (∀ un n, dao_pool_inode d un n = dao_pool_inode (backend s) un n) →
  pools s' = alter (with_pool f) p (pools s) → users s' = users s → grants s' = grants s →
  mem s' = mem s → user_sl s' = user_sl s → by_id s' = by_id s → by_name s' = by_name s →
  backend s' = d → same_shape s s'.
Proof.
  intros Hf Hd Hp Hu Hg Hm Hsl Hi Hn Hb.
  split; rewrite ?Hp, ?Hg, ?Hb, ?Hu; try done; intros q;
    (destruct (decide (q = p)) as [->|];
      [by rewrite ?fn_lookup_alter; cbn; destruct (Hf (pool (pools s p))) as [? ?]|]);
    by rewrite fn_lookup_alter_ne.
Qed.

Lemma log_shape c s s' : same_shape s s' → same_shape s (log_change c s').
Proof. by intros []. Qed.

Lemma quota_avail_shape p old s s' s'' x :
  same_shape s s' → call_pool_quota_avail_func p old s' = (Ok x, s'') → same_shape s s''.
Proof.
  intros Hs Hr. apply modify_inv in Hr as ->. cbv beta zeta.
  destruct (Bool.eqb _ _); [done|by apply log_shape].
Qed.

(** ** Each operation keeps the database consistent *)

Lemma user_create_wf u s s' :
  dao_name_ok D (user_name u) → wf s → adb_user_create u s = (Ok tt, s') → wf s'.
Proof.
  intros Hok Hwf Hr. unfold adb_user_create in Hr. run Hr as s0 s1 Hg. injection Hg as <- <-.
  destruct (user_get (user_name u) s) as [a|] eqn:Ea.
  - destruct (user_normal (users s a)); [done|]. run Hr as b s2 Hc. injection Hr as <-.
    apply user_create_inv in Hc; [by eapply user_created_wf|].
    by destruct (wf_user _ Hwf _ _ Ea) as [-> _].
  - run Hr as b s2 Hc. injection Hr as <-. apply user_create_inv in Hc; [|done].
    by eapply user_created_wf.
Qed.

Lemma user_remove_wf n s s' : wf s → adb_user_remove n s = (Ok tt, s') → wf s'.
Proof.
  intros Hwf Hr. unfold adb_user_remove in Hr. run Hr as s0 s1 Hg. injection Hg as <- <-.
  destruct (adb_user_get n s) as [a|]; [|done]. run Hr as [] s2 Hb. run Hr as [] s3 Hm.
  apply modify_inv in Hr as ->, Hm as ->. apply on_backend_inv in Hb as (d & Hd & ->).
  pose proof (keeps_user_remove (user_id (user (users s a))) (backend s)) as Hk. rewrite Hd in Hk.
  apply (same_shape_wf s); [|done].
  by apply (user_update_shape a (set_user_status FCFS_AUTH_USER_STATUS_DELETED) d).
Qed.

Lemma user_update_priv_wf n v s s' : wf s → adb_user_update_priv n v s = (Ok tt, s') → wf s'.
Proof.
  intros Hwf Hr. unfold adb_user_update_priv in Hr. run Hr as s0 s1 Hg. injection Hg as <- <-.
  destruct (adb_user_get n s) as [a|]; [|done]. destruct (_ =? v); [by injection Hr as <-|].
  run Hr as [] s2 Hb. run Hr as [] s3 Hm. apply modify_inv in Hr as ->, Hm as ->.
  apply on_backend_inv in Hb as (d & Hd & ->).
  pose proof (keeps_update_priv (user_id (user (users s a))) v (backend s)) as Hk. rewrite Hd in Hk.
  apply (same_shape_wf s); [|done]. apply log_shape.
  by apply (user_update_shape a (set_user_priv v) d).
Qed.

Lemma user_update_passwd_wf n v s s' : wf s → adb_user_update_passwd n v s = (Ok tt, s') → wf s'.
Proof.
  intros Hwf Hr. unfold adb_user_update_passwd in Hr. run Hr as s0 s1 Hg. injection Hg as <- <-.
  destruct (adb_user_get n s) as [a|]; [|done]. run Hr as [] s2 Hb.
  apply on_backend_inv in Hb as (d & Hd & ->).
  pose proof (keeps_update_passwd (user_id (user (users s a))) v (backend s)) as Hk.
  rewrite Hd in Hk. run Hr as r s3 Hp. injection Hr as <-. apply attempt_inv in Hp.
  unfold user_set_passwd, mbind, M_bind, attempt, on_backend in Hp. cbn in Hp.
  pose proof (keeps_alloc_string v d) as Hk2.
  destruct (fast_allocator_alloc_string v d) as [[v'|e] d2]; cbn in Hp; injection Hp as _ <-;
    (apply (same_shape_wf s); [|done]).
  - apply (user_update_shape a (set_user_passwd (Some v')) d2); try done.
    intros. by rewrite Hk2, Hk.
  - apply (user_update_shape a (set_user_passwd None) d2); try done. intros. by rewrite Hk2, Hk.
Qed.

(** A user that is found has the name it was looked up by. *)
Lemma found_user_ok un u s :
  wf s → adb_user_get un s = Some u → dao_name_ok D un →
  dao_name_ok D (user_name (user (users s u))).
Proof. intros Hwf [Hu _]%adb_user_get_inv. by destruct (wf_user _ Hwf _ _ Hu) as [-> _]. Qed.

Lemma spool_create_inv un info s s' :
  dao_name_ok D un → dao_name_ok D (pool_name info) →
  wf s → adb_spool_create un info s = (Ok tt, s') →
  ∃ u p, adb_user_get un s = Some u ∧
    pool_created u (user_spool_get u (pool_name info) s) info p s s' ∧
    (∀ q, user_spool_get u (pool_name info) s = Some q → q = p ∧ spool_normal (pools s q) = false) ∧
    (user_spool_get u (pool_name info) s = None → get_spool_by_name (pool_name info) s = None).
Proof.
  intros Hun Hpn Hwf Hr. unfold adb_spool_create in Hr. run Hr as s0 s1 Hg. injection Hg as <- <-.
  destruct (adb_user_get un s) as [u|] eqn:Eu; [|done].
  pose proof (found_user_ok _ _ _ Hwf Eu Hun) as Huok.
  destruct (user_spool_get u (pool_name info) s) as [q|] eqn:Eq.
  - destruct (spool_normal (pools s q)) eqn:En; [done|]. run Hr as p s2 Hc. injection Hr as <-.
    apply storage_pool_create_inv in Hc; [|done| |done].
    2: { apply (wf_created _ Hwf) in Eq as [Eq _]. by destruct (wf_by_name _ Hwf _ _ Eq) as [-> _]. }
    pose proof (pc_addr _ _ _ _ _ _ Hc) as (-> & _).
    exists u, q. rewrite Eq. split; [done|]. split; [exact Hc|]. split; [by intros ? [= <-]|done].
  - destruct (get_spool_by_name (pool_name info) s) as [q|] eqn:En; [done|].
    run Hr as p s2 Hc. injection Hr as <-. apply storage_pool_create_inv in Hc; [|done..].
    exists u, p. by rewrite Eq.
Qed.

Lemma spool_create_wf un info s s' :
  dao_name_ok D un → dao_name_ok D (pool_name info) →
  wf s → adb_spool_create un info s = (Ok tt, s') → wf s'.
Proof.
  intros Hun Hpn Hwf Hr. destruct (spool_create_inv _ _ _ _ Hun Hpn Hwf Hr) as (u & p & Hu & Hpc & Hq & _).
  apply adb_user_get_inv in Hu as [Hu _].
  destruct (user_spool_get u (pool_name info) s) as [q|] eqn:Eq.
  - destruct (Hq q eq_refl) as [-> _]. by eapply pool_recreated_wf.
  - by eapply pool_new_wf.
Qed.

Lemma spool_remove_wf un n s s' : wf s → adb_spool_remove un n s = (Ok tt, s') → wf s'.
Proof.
  intros Hwf Hr. unfold adb_spool_remove in Hr. run Hr as s0 s1 Hg. injection Hg as <- <-.
  destruct (find_spool un n s) as [p|]; [|done]. destruct (spool_normal (pools s p)); [|done].
  run Hr as [] s2 Hb. apply modify_inv in Hr as ->. apply on_backend_inv in Hb as (d & Hd & ->).
  pose proof (keeps_spool_remove (pool_id (pool (pools s p))) (backend s)) as Hk. rewrite Hd in Hk.
  apply (same_shape_wf s); [|done].
  by apply (pool_update_shape p (set_pool_status FCFS_AUTH_POOL_STATUS_DELETED) d).
Qed.

Lemma spool_set_quota_wf un n q s s' : wf s → adb_spool_set_quota un n q s = (Ok tt, s') → wf s'.
Proof.
  intros Hwf Hr. unfold adb_spool_set_quota in Hr. run Hr as s0 s1 Hg. injection Hg as <- <-.
  destruct (find_spool un n s) as [p|]; [|done]. destruct (spool_normal (pools s p)); [|done].
  destruct (_ =? q); [by injection Hr as <-|]. run Hr as [] s2 Hb. run Hr as [] s3 Hm.
  apply modify_inv in Hm as ->. apply on_backend_inv in Hb as (d & Hd & ->).
  pose proof (keeps_set_quota (pool_id (pool (pools s p))) q (backend s)) as Hk. rewrite Hd in Hk.
  apply (same_shape_wf s); [|done]. eapply quota_avail_shape; [|exact Hr].
  by apply (pool_update_shape p (set_pool_quota q) d).
Qed.

Lemma spool_set_used_wf n b s s' : wf s → adb_spool_set_used_bytes n b s = (Ok tt, s') → wf s'.
Proof.
  intros Hwf Hr. unfold adb_spool_set_used_bytes in Hr. run Hr as s0 s1 Hg. injection Hg as <- <-.
  destruct (adb_spool_global_get n s) as [p|]; [|done]. destruct (_ =? b); [by injection Hr as <-|].
  run Hr as [] s3 Hm. apply modify_inv in Hm as ->.
  apply (same_shape_wf s); [|done]. eapply quota_avail_shape; [|exact Hr].
  by apply (pool_update_shape p (set_pool_used b) (backend s)).
Qed.

Lemma granted_create_inv un info s s' :
  dao_name_ok D un → wf s → adb_granted_create un info s = (Ok tt, s') →
  ∃ u, adb_user_get un s = Some u ∧
    let dbg := granted_pool_get u (granted_pool_id info) s in
    ((∃ g, dbg = Some g ∧ granted_privs (grant (grants s g)) = granted_privs info ∧ s' = s) ∨
     ∃ g s1, grant_created u dbg info g s s1 ∧
       s' = if bool_decide (dbg = None) then s1
            else log_change (pool_priv_changed (user_id (user (users s1 u)))
                   (granted_pool_id (grant (grants s1 g))) (granted_privs (grant (grants s1 g)))) s1).
Proof.
  intros Hun Hwf Hr. unfold adb_granted_create in Hr. run Hr as s0 s1 Hg. injection Hg as <- <-.
  destruct (adb_user_get un s) as [u|] eqn:Eu; [|done]. exists u. split; [done|].
  pose proof (found_user_ok _ _ _ Hwf Eu Hun) as Huok.
  destruct (granted_pool_get u (granted_pool_id info) s) as [g|]; simpl in Hr.
  - destruct (Z.eqb_spec (fdir (granted_privs (grant (grants s g)))) (fdir (granted_privs info))),
      (Z.eqb_spec (fstore (granted_privs (grant (grants s g)))) (fstore (granted_privs info)));
      simpl in Hr.
    { left. exists g. injection Hr as <-. split_and!; [done| |done].
      destruct (granted_privs (grant (grants s g))), (granted_privs info); simpl in *; congruence. }
    all: right; run Hr as h s1 Hc; apply granted_pool_create_inv in Hc; [|done];
      apply modify_inv in Hr as ->; by exists h, s1.
  - right. run Hr as h s1 Hc. apply granted_pool_create_inv in Hc; [|done].
    injection Hr as <-. by exists h, s1.
Qed.

Lemma granted_create_wf un info s s' :
  dao_name_ok D un → wf s → adb_granted_create un info s = (Ok tt, s') → wf s'.
Proof.
  intros Hun Hwf Hr. destruct (granted_create_inv _ _ _ _ Hun Hwf Hr)
    as (u & Hu & [(g & _ & _ & ->)|(g & s1 & Hgc & ->)]); [done|].
  apply adb_user_get_inv in Hu as [Hu _].
  assert (wf s1) as Hwf1 by (by eapply (grant_created_wf un u _ info g s s1)).
  case_match; [done|]. apply (same_shape_wf s1); [|done]. by apply log_shape.
Qed.

(** ** Operations that fail *)

(** From [s] to [s'], the lists, the objects [L] that they hold, and the inodes [K] of their
    pools have stayed. *)
Record stays (L : Z → gset addr) (K : string_t → string_t → Prop) s s' : Prop := {
  st_user_sl : user_sl s' = user_sl s;
  st_by_id : by_id s' = by_id s;
  st_by_name : by_name s' = by_name s;
  st_live i : L i ⊆ live i s → L i ⊆ live i s';
  st_name a : a ∈ L 0 → user_name (user (users s' a)) = user_name (user (users s a));
  st_lists a : created (users s' a) = created (users s a) ∧ granted (users s' a) = granted (users s a);
  st_pools p : p ∈ L 1 → pools s' p = pools s p;
  st_grants g : g ∈ L 2 → grants s' g = grants s g;
  st_inodes un n : K un n → dao_pool_inode (backend s') un n = dao_pool_inode (backend s) un n;
}.
#[local] Instance stays_preorder L K : PreOrder (stays L K).
Proof.
  split; [by intros s|]. intros s1 s2 s3 [A1 A2 A3 A4 A5 A6 A7 A8 A9] [B1 B2 B3 B4 B5 B6 B7 B8 B9].
  split; try congruence.
  - intros i Hi. auto.
  - intros a Ha. rewrite B5 by done. auto.
  - intros a. destruct (B6 a) as [-> ->]. apply A6.
  - intros p Hp. rewrite B7 by done. auto.
  - intros g Hg. rewrite B8 by done. auto.
  - intros un n Hk. rewrite B9 by done. auto.
Qed.

(** The objects that are in use, and the pools that are listed. *)
Definition in_use s : Z → gset addr := λ i, live i s.
Definition listed s (un n : string_t) : Prop :=
  ∃ u p, sl_find (user_sl s) un = Some u ∧ sl_find (created (users s u)) n = Some p.

Lemma stays_wf s s' : stays (in_use s) (listed s) s s' → wf s → wf s'.
Proof.
  intros [A1 A2 A3 A4 A5 A6 A7 A8 A9] Hwf. pose proof Hwf as [W1 W2 W3 W4 W5 W6 W7 W8].
  assert (∀ a, created (users s' a) = created (users s a)) as Acr by apply A6.
  assert (∀ a, granted (users s' a) = granted (users s a)) as Agr by apply A6.
  assert (∀ i, live i s ⊆ live i s') as Alive by (intros i; by apply A4).
  assert (∀ n p, sl_find (by_name s) n = Some p → pools s' p = pools s p) as Ap.
  { intros n p Hp. apply A7. by apply W2 in Hp as (_ & ? & _). }
  split; rewrite ?A1, ?A2, ?A3.
  - intros n a Ha. apply W1 in Ha as [? ?]. rewrite A5 by done. split; [done|by apply Alive].
  - intros n p Hp. rewrite (Ap n p Hp). apply W2 in Hp as (? & ? & ? & ?). split_and!; [done|by apply Alive|done..].
  - intros i p Hp. pose proof (W3 _ _ Hp) as [? Hn]. by rewrite (Ap _ _ Hn).
  - intros u n p. rewrite Acr, W4. split; intros [Hp ?]; (split; [done|]); by rewrite (Ap n p Hp) in *.
  - intros u i g. rewrite Agr. intros Hg. apply W5 in Hg as (? & ? & ?). rewrite A8 by done.
    split_and!; [done|by apply Alive|done].
  - intros u u' i i' g. rewrite !Agr. apply W6.
  - intros a Ha i. rewrite Agr. by apply W7.
  - intros un u n p Hu. rewrite Acr. intros Hp. rewrite A9 by (by exists u, p).
    rewrite (Ap n p) by (by apply W4 in Hp as [? _]). by apply (W8 un u).
Qed.

(** When [m] fails, everything in use has stayed. *)
Section fails.
Variables (L : Z → gset addr) (K : string_t → string_t → Prop).
Definition fails_well {A} (m : M S A) s : Prop := ∀ e s', m s = (Err e, s') → stays L K s s'.

Lemma fails_bind {A B} (m : M S A) (f : A → M S B) s :
  kept (stays L K) m s → (∀ x s1, m s = (Ok x, s1) → fails_well (f x) s1) → fails_well (m ≫= f) s.
Proof.
  intros Hk Hf e s' Hr. apply bind_inv in Hr as [(e' & Hm & _)|(x & s1 & Hm & Hr)];
    unfold kept in Hk; rewrite Hm in Hk; [done|]. etrans; [exact Hk|by eapply Hf].
Qed.
Lemma fails_kept {A} (m : M S A) s : kept (stays L K) m s → fails_well m s.
Proof. intros Hk e s' Hr. unfold kept in Hk. by rewrite Hr in Hk. Qed.
Lemma fails_throw {A} e s : fails_well (throw (A:=A) e) s.
Proof. by intros e' s' [= _ <-]. Qed.
Lemma fails_ret {A} (x : A) s : fails_well (mret x) s.
Proof. by intros e' s' [=]. Qed.
Lemma fails_modify (f : S → S) s : fails_well (modify f) s.
Proof. by intros e' s' [=]. Qed.

Lemma stays_backend {A} (m : M D A) s : keeps_inodes m → kept (stays L K) (on_backend m) s.
Proof.
  intros Hm. unfold kept, on_backend. specialize (Hm (backend s)). destruct (m (backend s)) as [r d].
  split; done.
Qed.
Lemma stays_alloc i s : kept (stays L K) (alloc_object i) s.
Proof.
  unfold kept, alloc_object. destruct (mb_alloc i (mem s i)) as [[a|] m] eqn:E;
    (split; try done); intros j Hj; unfold live in *; simpl;
    (destruct (decide (i = j)) as [<-|]; [rewrite fn_lookup_insert|by rewrite fn_lookup_insert_ne]).
  - apply mb_alloc_some in E as [_ ->]. set_solver.
  - by apply mb_alloc_none in E as ->.
Qed.
Lemma stays_free i a s : a ∉ L i → kept (stays L K) (free_object i a) s.
Proof.
  intros Ha. split; try done. intros j Hj. unfold live in *. simpl.
  destruct (decide (i = j)) as [<-|]; [rewrite fn_lookup_insert, mb_free_live|by rewrite fn_lookup_insert_ne].
  set_solver.
Qed.
Lemma stays_user a f s :
  (∀ u, created (f u) = created u ∧ granted (f u) = granted u) →
  a ∉ L 0 ∨ (∀ u, user_name (user (f u)) = user_name (user u)) → kept (stays L K) (mod_user a f) s.
Proof.
  intros Hf Hn. split; try done; simpl; intros b; (destruct (decide (a = b)) as [<-|];
    [rewrite fn_lookup_alter|by rewrite fn_lookup_alter_ne]); [|apply Hf].
  intros Hb. by destruct Hn as [|Hn]; [|apply Hn].
Qed.
Lemma stays_pool p f s : p ∉ L 1 → kept (stays L K) (mod_pool p f) s.
Proof.
  intros Hp. split; try done; simpl. intros q Hq. rewrite fn_lookup_alter_ne; [done|]. by intros ->.
Qed.
Lemma stays_grant g f s : g ∉ L 2 → kept (stays L K) (mod_grant g f) s.
Proof.
  intros Hp. split; try done; simpl. intros q Hq. rewrite fn_lookup_alter_ne; [done|]. by intros ->.
Qed.
End fails.

(** The database before anything is loaded. *)
Definition initial s : Prop :=
  user_sl s = sl_empty _ ∧ by_id s = sl_empty _ ∧ by_name s = sl_empty _ ∧
  ∀ a, created (users s a) = sl_empty _ ∧ granted (users s a) = sl_empty _.

(** The names an operation hands to the backend are names it can store. *)
Definition op_ok (op : adb_op) : Prop :=
  match op with
  | UserCreate u => dao_name_ok D (user_name u)
  | SpoolCreate un info => dao_name_ok D un ∧ dao_name_ok D (pool_name info)
  | GrantedCreate un _ | GrantedRemove un _ => dao_name_ok D un
  | _ => True
  end.

(** States reached by operations that succeed; the other way an operation ends
    without having done anything is covered by the theorems about it. *)
Inductive reachable : S → Prop :=
| reachable_initial s : initial s → reachable s
| reachable_op op s s' : reachable s → op_ok op → run_op op s = (Ok tt, s') → reachable s'.

Lemma initial_wf s : initial s → wf s.
Proof.
  intros (H1 & H2 & H3 & H4).
  assert (∀ a, created (users s a) = sl_empty _) as H5 by apply H4.
  assert (∀ a, granted (users s a) = sl_empty _) as H6 by apply H4.
  split; intros; rewrite ?H1, ?H2, ?H3, ?H5, ?H6, ?sl_find_empty in *; try done.
  by split; [|intros [? _]].
Qed.

Lemma run_op_wf op s s' : op_ok op → wf s → run_op op s = (Ok tt, s') → wf s'.
Proof.
  destruct op; simpl; intros Hok; [by apply user_create_wf|apply user_remove_wf|apply user_update_priv_wf
    |apply user_update_passwd_wf|apply spool_create_wf; apply Hok|apply spool_remove_wf
    |apply spool_set_quota_wf|apply spool_set_used_wf|by apply granted_create_wf
    |by apply granted_remove_wf].
Qed.


(** ** Users as a map *)

(** What [adb_user_get] shows of a user. *)
Definition user_view s (n : string_t) : option FCFSAuthUserInfo :=
  (λ a, user (users s a)) <$> adb_user_get n s.

(** The skip lists do not run out of memory. *)
Definition inserts_succeed : Prop :=
  ∀ V (sl : SLs V) k v, sl_find sl k = None → is_ok (sl_insert sl k v).1 = true.

Lemma user_view_eq s n :
  user_view s n = match sl_find (user_sl s) n with
                  | Some a => if user_normal (users s a) then Some (user (users s a)) else None
                  | None => None
                  end.
Proof.
  unfold user_view, adb_user_get, user_get. destruct (sl_find (user_sl s) n) as [a|]; [|done].
  by destruct (user_normal (users s a)).
Qed.

(** A change of one listed user. *)
Lemma user_view_update n a s s' :
  wf s → sl_find (user_sl s) n = Some a → user_sl s' = user_sl s →
  (∀ b, b ≠ a → users s' b = users s b) →
  ∀ m, user_view s' m = if decide (m = n) then (if user_normal (users s' a)
                          then Some (user (users s' a)) else None) else user_view s m.
Proof.
  intros Hwf Ha Hsl Hoth m. rewrite !user_view_eq, Hsl. case_decide as Hm; [by rewrite Hm, Ha|].
  destruct (sl_find (user_sl s) m) as [b|] eqn:Eb; [|done]. rewrite Hoth; [done|]. intros ->.
  apply Hm. destruct (wf_user _ Hwf _ _ Ha) as [<- _], (wf_user _ Hwf _ _ Eb) as [<- _]. done.
Qed.

(** C33: creating a user that does not exist makes it visible with the given
    password and privileges and changes no other user; creating one that exists
    is refused and changes nothing. *)
Theorem adb_user_create_correct u s r s' :
  dao_name_ok D (user_name u) → wf s → inserts_succeed → user_status u = FCFS_AUTH_USER_STATUS_NORMAL →
  adb_user_create u s = (r, s') →
  (user_view s (user_name u) ≠ None → r = Err EEXIST ∧ s' = s) ∧
  (r = Ok tt → user_view s (user_name u) = None ∧
     ∃ id, ∀ m, user_view s' m = if decide (m = user_name u)
       then Some {| user_id := id; user_name := user_name u;
                    user_passwd := Some (default [] (user_passwd u)); user_priv := user_priv u;
                    user_status := FCFS_AUTH_USER_STATUS_NORMAL |}
       else user_view s m).
Proof.
  intros Hok Hwf Hins Hst Hr.
  assert (∀ a s1 db, user_created db u a s s1 → user_name (user (users s1 a)) = user_name u →
    user_normal (users s1 a) = true ∧ ∃ id, user (users s1 a) =
      {| user_id := id; user_name := user_name u; user_passwd := Some (default [] (user_passwd u));
         user_priv := user_priv u; user_status := FCFS_AUTH_USER_STATUS_NORMAL |}) as Hinfo.
  { intros a s1 db [_ _ _ _ _ _ _ _ Hpw Hpr Hs _ _ _] Hn. unfold user_normal. rewrite Hs, Hst.
    split; [done|]. exists (user_id (user (users s1 a))). rewrite Hst in Hs.
    destruct (user (users s1 a)). simpl in *. congruence. }
  unfold adb_user_create in Hr. erewrite bind_ok in Hr by reflexivity. cbv beta in Hr.
  rewrite user_view_eq. unfold user_get in Hr.
  destruct (sl_find (user_sl s) (user_name u)) as [a|] eqn:Ea.
  - destruct (user_normal (users s a)) eqn:En; [by injection Hr as <- <-|].
    split; [done|]. intros ->. split; [done|]. run Hr as b s2 Hc. injection Hr as <-.
    destruct (wf_user _ Hwf _ _ Ea) as [Hna _].
    apply user_create_inv in Hc; [|by rewrite Hna].
    pose proof (uc_addr _ _ _ _ _ Hc) as (-> & _ & Hsl & _).
    destruct (Hinfo _ _ _ Hc) as (Hnorm & id & Hid); [by rewrite (uc_name _ _ _ _ _ Hc)|].
    exists id. intros m. rewrite (user_view_update (user_name u) a s) by (try done; apply Hc).
    by rewrite Hnorm, Hid.
  - split; [done|]. intros ->. split; [done|]. run Hr as b s2 Hc. injection Hr as <-.
    apply user_create_inv in Hc; [|done]. pose proof (uc_addr _ _ _ _ _ Hc) as (Hfresh & _ & Hsl).
    destruct (Hinfo _ _ _ Hc) as (Hnorm & id & Hid); [by rewrite (uc_name _ _ _ _ _ Hc)|].
    exists id. intros m. rewrite !user_view_eq.
    destruct Hsl as [(_ & _ & Hf)|(_ & _ & Hsl)]; [by rewrite Hins in Hf|]. rewrite Hsl. case_decide; [by rewrite Hnorm, Hid|].
    destruct (sl_find (user_sl s) m) as [c|] eqn:Ec; [|done].
    rewrite (uc_other _ _ _ _ _ Hc); [done|]. intros ->. by apply (wf_user _ Hwf) in Ec as [_ ?].
Qed.

(** Removing a user hides it, changing privileges or the password changes
    just that, and no other user is affected; an unknown user is [ENOENT]; a
    change of privileges is announced exactly when they differ. *)
Theorem adb_user_change_correct n s :
  wf s →
  (∀ s', adb_user_remove n s = (Ok tt, s') →
     ∀ m, user_view s' m = if decide (m = n) then None else user_view s m) ∧
  (∀ priv s', adb_user_update_priv n priv s = (Ok tt, s') →
     ∃ u, user_view s n = Some u ∧
       (∀ m, user_view s' m = if decide (m = n) then Some (set_user_priv priv u) else user_view s m) ∧
       changes s' = changes s ++ (if user_priv u =? priv then []
                                  else [user_priv_changed (user_id u) priv])) ∧
  (user_view s n = None → adb_user_remove n s = (Err ENOENT, s) ∧
     (∀ p, adb_user_update_priv n p s = (Err ENOENT, s)) ∧
     ∀ p, adb_user_update_passwd n p s = (Err ENOENT, s)).
Proof.
  intros Hwf. unfold adb_user_remove, adb_user_update_priv, adb_user_update_passwd.
  assert (user_view s n = (λ a, user (users s a)) <$> adb_user_get n s) as Hv by done.
  split_and!.
  - intros s' Hr m. erewrite bind_ok in Hr by reflexivity. cbv beta in Hr.
    destruct (adb_user_get n s) as [a|] eqn:Ea; [|done]. apply adb_user_get_inv in Ea as [Ea _].
    run Hr as [] s2 Hb. run Hr as [] s3 Hm. apply modify_inv in Hr as ->, Hm as ->.
    apply on_backend_inv in Hb as (d & _ & ->).
    rewrite (user_view_update n a s); [|done..|by intros b Hb; cbn; rewrite fn_lookup_alter_ne].
    cbn. rewrite fn_lookup_alter. by destruct (decide (m = n)).
  - intros priv s' Hr. erewrite bind_ok in Hr by reflexivity. cbv beta in Hr.
    destruct (adb_user_get n s) as [a|] eqn:Ea; [|done]. apply adb_user_get_inv in Ea as [Ea Hn].
    exists (user (users s a)). split; [done|].
    destruct (Z.eqb_spec (user_priv (user (users s a))) priv) as [Heq|].
    { injection Hr as <-. rewrite app_nil_r. split; [|done]. intros m. case_decide as Hm; [|done].
      subst m. rewrite Hv. cbn. f_equal. rewrite <- Heq. by destruct (user (users s a)). }
    run Hr as [] s2 Hb. run Hr as [] s3 Hm. apply modify_inv in Hr as ->, Hm as ->.
    apply on_backend_inv in Hb as (d & _ & ->). split; [|done]. intros m.
    rewrite (user_view_update n a s); [|done..|by intros b Hb; cbn; rewrite fn_lookup_alter_ne].
    cbn. rewrite fn_lookup_alter. unfold user_normal in *. cbn. by rewrite Hn.
  - rewrite Hv. intros Hnone. unfold mbind, M_bind. cbn. destruct (adb_user_get n s); [done|].
    by split_and!.
Qed.

(** ** Pools *)

Lemma adb_spool_get_eq un n s :
  adb_spool_get un n s =
  match sl_find (user_sl s) un with
  | Some u => match sl_find (created (users s u)) n with
              | Some p => if spool_normal (pools s p) then Some (pool (pools s p)) else None
              | None => None
              end
  | None => None
  end.
Proof.
  unfold adb_spool_get, find_spool, user_get, user_spool_get. simpl.
  destruct (sl_find (user_sl s) un) as [u|]; [|done]. simpl.
  by destruct (sl_find (created (users s u)) n).
Qed.

(** A new or revived pool is in its owner's list and in no other. *)
Lemma pool_created_lookup u db info p s s' :
  pool_created u db info p s s' → db = sl_find (created (users s u)) (pool_name info) →
  sl_find (created (users s' u)) (pool_name info) = Some p ∧
  ∀ v n, n ≠ pool_name info → sl_find (created (users s' v)) n = sl_find (created (users s v)) n.
Proof.
  intros [_ _ _ _ Hcr _ _ _ _ _ _ Haddr] Hdb. destruct db as [q|].
  - destruct Haddr as (-> & _ & _ & _ & Hcu & _). rewrite Hcu. split; [done|].
    intros v n _. destruct (decide (v = u)) as [->|]; [by rewrite Hcu|by rewrite Hcr].
  - destruct Haddr as (_ & _ & _ & _ & _ & _ & Hmine). split; [by rewrite Hmine, decide_True|].
    intros v n Hn. destruct (decide (v = u)) as [->|]; [|by rewrite Hcr].
    by rewrite Hmine, decide_False.
Qed.

(** A pool that is created belongs to its creator, has the given quota and
    is found by its name; no other user has a pool of that name, and all other
    pools stay as they are.  A name in use is refused. *)
Theorem adb_spool_create_correct un info s r s' :
  dao_name_ok D un → dao_name_ok D (pool_name info) → wf s → pool_status info = FCFS_AUTH_POOL_STATUS_NORMAL →
  adb_spool_create un info s = (r, s') →
  ((∃ un', adb_spool_get un' (pool_name info) s ≠ None) → s' = s ∧ (r = Err EEXIST ∨ r = Err ENOENT)) ∧
  (r = Ok tt →
     (∃ id used, adb_spool_get un (pool_name info) s' =
        Some {| pool_id := id; pool_name := pool_name info; pool_quota := pool_quota info;
                pool_used := used; pool_status := FCFS_AUTH_POOL_STATUS_NORMAL |}) ∧
     adb_spool_get_quota (pool_name info) s' = Ok (pool_quota info) ∧
     (∀ un', un' ≠ un → adb_spool_get un' (pool_name info) s' = None) ∧
     ∀ un' n, n ≠ pool_name info → adb_spool_get un' n s' = adb_spool_get un' n s).
Proof.
  intros Hun Hpn Hwf Hst Hr. split.
  { intros [un' Hex]. rewrite adb_spool_get_eq in Hex.
    destruct (sl_find (user_sl s) un') as [u'|]; [|done].
    destruct (sl_find (created (users s u')) (pool_name info)) as [q|] eqn:Eq; [|done].
    destruct (spool_normal (pools s q)) eqn:En; [|done]. clear Hex.
    apply (wf_created _ Hwf) in Eq as [Eq Hqu].
    unfold adb_spool_create in Hr. erewrite bind_ok in Hr by reflexivity. cbv beta in Hr.
    destruct (adb_user_get un s) as [u|]; [|injection Hr as <- <-; auto].
    unfold user_spool_get, get_spool_by_name in Hr. rewrite Eq in Hr.
    destruct (sl_find (created (users s u)) (pool_name info)) as [q'|] eqn:Eq';
      [|injection Hr as <- <-; auto].
    apply (wf_created _ Hwf) in Eq' as [Eq' _]. rewrite Eq in Eq'. injection Eq' as <-.
    rewrite En in Hr. injection Hr as <- <-. auto. }
  intros ->. pose proof (spool_create_wf _ _ _ _ Hun Hpn Hwf Hr) as Hwf'.
  destruct (spool_create_inv _ _ _ _ Hun Hpn Hwf Hr) as (u & p & Hu & Hpc & _ & _).
  apply adb_user_get_inv in Hu as [Hu _].
  destruct (pool_created_lookup _ _ _ _ _ _ Hpc eq_refl) as [Hlk Hother].
  destruct (proj1 (wf_created _ Hwf' _ _ _) Hlk) as [Hbn Hpu].
  destruct (wf_by_name _ Hwf' _ _ Hbn) as [Hnm _].
  assert (spool_normal (pools s' p) = true) as Hnorm.
  { unfold spool_normal. by rewrite (pc_status _ _ _ _ _ _ Hpc), Hst. }
  assert (user_sl s' = user_sl s) as Hsl by apply Hpc.
  split_and!.
  - rewrite adb_spool_get_eq, Hsl, Hu, Hlk, Hnorm.
    exists (pool_id (pool (pools s' p))), (pool_used (pool (pools s' p))).
    pose proof (pc_quota _ _ _ _ _ _ Hpc). pose proof (pc_status _ _ _ _ _ _ Hpc).
    destruct (pool (pools s' p)); simpl in *. congruence.
  - unfold adb_spool_get_quota, get_spool_by_name. rewrite Hbn, Hnorm.
    by rewrite (pc_quota _ _ _ _ _ _ Hpc).
  - intros un' Hne. rewrite adb_spool_get_eq, Hsl.
    destruct (sl_find (user_sl s) un') as [v|] eqn:Ev; [|done].
    destruct (sl_find (created (users s' v)) (pool_name info)) as [q|] eqn:Eq; [|done].
    apply (wf_created _ Hwf') in Eq as [Eq Hqv]. rewrite Hbn in Eq. injection Eq as <-.
    rewrite Hpu in Hqv. subst v. exfalso. apply Hne.
    destruct (wf_user _ Hwf _ _ Hu) as [<- _], (wf_user _ Hwf _ _ Ev) as [<- _]. done.
  - intros un' n Hn. rewrite !adb_spool_get_eq, Hsl.
    destruct (sl_find (user_sl s) un') as [v|]; [|done]. rewrite Hother by done.
    destruct (sl_find (created (users s v)) n) as [q|] eqn:Eq; [|done].
    rewrite (pc_other _ _ _ _ _ _ Hpc); [done|]. intros ->.
    rewrite <- (Hother v n Hn) in Eq. apply (wf_created _ Hwf') in Eq as [Eq _].
    apply (wf_by_name _ Hwf') in Eq as [Eq _]. congruence.
Qed.

(** Setting a quota or the used bytes changes that field of the pool, and
    the change of availability is announced exactly when there is one. *)
Theorem quota_changes_announced s :
  (∀ un n q s', adb_spool_set_quota un n q s = (Ok tt, s') →
     ∃ p, find_spool un n s = Some p ∧ pool_quota (pool (pools s' p)) = q ∧
       pool_used (pool (pools s' p)) = pool_used (pool (pools s p)) ∧
       changes s' = changes s ++
         (if eqb (FCFS_AUTH_POOL_AVAILABLE (pool (pools s' p))) (FCFS_AUTH_POOL_AVAILABLE (pool (pools s p)))
          then [] else [pool_quota_avail_changed (pool_id (pool (pools s p)))
                          (FCFS_AUTH_POOL_AVAILABLE (pool (pools s' p)))])) ∧
  (∀ n b s', adb_spool_set_used_bytes n b s = (Ok tt, s') →
     ∃ p, adb_spool_global_get n s = Some p ∧ pool_used (pool (pools s' p)) = b ∧
       pool_quota (pool (pools s' p)) = pool_quota (pool (pools s p)) ∧
       changes s' = changes s ++
         (if eqb (FCFS_AUTH_POOL_AVAILABLE (pool (pools s' p))) (FCFS_AUTH_POOL_AVAILABLE (pool (pools s p)))
          then [] else [pool_quota_avail_changed (pool_id (pool (pools s p)))
                          (FCFS_AUTH_POOL_AVAILABLE (pool (pools s' p)))])).
Proof.
  split.
  - intros un n q s' Hr. unfold adb_spool_set_quota in Hr. erewrite bind_ok in Hr by reflexivity.
    cbv beta in Hr. destruct (find_spool un n s) as [p|]; [|done].
    destruct (spool_normal (pools s p)); [|done]. exists p.
    destruct (Z.eqb_spec (pool_quota (pool (pools s p))) q) as [<-|].
    { injection Hr as <-. rewrite eqb_reflx, app_nil_r. by split_and!. }
    run Hr as [] s2 Hb. run Hr as [] s3 Hm. apply modify_inv in Hr as ->, Hm as ->.
    apply on_backend_inv in Hb as (d & _ & ->). cbn. rewrite fn_lookup_alter. cbn.
    destruct (eqb _ _) eqn:E; cbn; rewrite ?fn_lookup_alter; cbn; by rewrite ?E, ?app_nil_r.
  - intros n b s' Hr. unfold adb_spool_set_used_bytes in Hr. erewrite bind_ok in Hr by reflexivity.
    cbv beta in Hr. destruct (adb_spool_global_get n s) as [p|]; [|done]. exists p.
    destruct (Z.eqb_spec (pool_used (pool (pools s p))) b) as [<-|].
    { injection Hr as <-. rewrite eqb_reflx, app_nil_r. by split_and!. }
    run Hr as [] s3 Hm. apply modify_inv in Hr as ->, Hm as ->. cbn. rewrite fn_lookup_alter. cbn.
    destruct (eqb _ _) eqn:E; cbn; rewrite ?fn_lookup_alter; cbn; by rewrite ?E, ?app_nil_r.
Qed.

(** ** Grants *)

(** The privileges granted to user [v] on the pool with id [i]. *)
Definition grant_at s (v : addr) (i : Z) : option FCFSAuthSPoolPriviledges :=
  (λ g, granted_privs (grant (grants s g))) <$> granted_pool_get v i s.

Lemma granted_create_grants un info s s' :
  dao_name_ok D un → wf s → adb_granted_create un info s = (Ok tt, s') →
  ∃ u, adb_user_get un s = Some u ∧ pools s' = pools s ∧ (∀ a, user (users s' a) = user (users s a)) ∧
    (∀ v i, grant_at s' v i =
       if decide (v = u ∧ i = granted_pool_id info) then Some (granted_privs info) else grant_at s v i) ∧
    (∀ old, grant_at s u (granted_pool_id info) = Some old → old ≠ granted_privs info →
       changes s' = changes s ++
         [pool_priv_changed (user_id (user (users s u))) (granted_pool_id info) (granted_privs info)]).
Proof.
  intros Hun Hwf Hr. destruct (granted_create_inv _ _ _ _ Hun Hwf Hr) as (u & Hu & Hcase).
  exists u. unfold grant_at, granted_pool_get in *.
  destruct Hcase as [(g & Hg & Hpr & ->)|(g & s1 & Hgc & Hs')].
  { rewrite Hg. split_and!; [done..| |intros ? [= <-]; congruence]. intros v i.
    destruct (decide _) as [[-> ->]|]; [|done]. rewrite Hg. simpl. by rewrite Hpr. }
  assert (pools s' = pools s1 ∧ users s' = users s1 ∧ grants s' = grants s1) as (Hsp & Hsu & Hsg)
    by (subst s'; by case_match).
  destruct Hgc as [Hp _ _ _ Hch _ _ Husr Hgr Hoth Hpid Hpr Haddr]. rewrite Hsp, Hsu, Hsg.
  assert (∀ x i, sl_find (granted (users s x)) i = Some g → x = u ∧ i = granted_pool_id info) as Hwho.
  { intros x i Hx. destruct (sl_find (granted (users s u)) (granted_pool_id info)) as [h|] eqn:Eh.
    - destruct Haddr as (-> & _). split; [by eapply (wf_granted_inj _ Hwf)|].
      destruct (wf_granted _ Hwf _ _ _ Hx) as [<- _], (wf_granted _ Hwf _ _ _ Eh) as [-> _]. done.
    - destruct Haddr as (Hf & _). by apply (wf_granted _ Hwf) in Hx as (_ & ? & _). }
  split_and!; [done|done|intros a; apply Husr| |].
  - intros v i.
    assert (sl_find (granted (users s1 v)) i =
      if decide (v = u ∧ i = granted_pool_id info) then Some g else sl_find (granted (users s v)) i) as ->.
    { destruct (decide (v = u)) as [->|Hv].
      2: { rewrite Hgr by done. rewrite decide_False; [done|tauto]. }
      destruct (sl_find (granted (users s u)) (granted_pool_id info)) as [h|] eqn:Eh.
      - destruct Haddr as (-> & _ & -> & _). destruct (decide _) as [[_ ->]|]; done.
      - destruct Haddr as (_ & _ & _ & _ & ->). repeat case_decide; tauto. }
    destruct (decide _) as [|Hn]; [simpl; by rewrite Hpr|].
    destruct (sl_find (granted (users s v)) i) as [x|] eqn:Ex; [|done]. simpl.
    rewrite Hoth; [done|]. intros ->. by destruct Hn; apply Hwho.
  - intros old Hold _. destruct (sl_find (granted (users s u)) (granted_pool_id info)) as [h|]; [|done].
    subst s'. rewrite bool_decide_false by done. simpl. rewrite Hch, Hpid, Hpr. by destruct (Husr u) as [-> _].
Qed.

Lemma granted_remove_grants un id s s' :
  dao_name_ok D un → wf s → adb_granted_remove un id s = (Ok tt, s') →
  ∃ u, adb_user_get un s = Some u ∧ pools s' = pools s ∧ (∀ a, user (users s' a) = user (users s a)) ∧
    (∀ v i, grant_at s' v i = if decide (v = u ∧ i = id) then None else grant_at s v i) ∧
    changes s' = changes s ++ [pool_priv_changed (user_id (user (users s u))) id
      {| fdir := FCFS_AUTH_POOL_ACCESS_NONE; fstore := FCFS_AUTH_POOL_ACCESS_NONE |}].
Proof.
  intros Hun Hwf Hr. destruct (granted_remove_inv _ _ _ _ Hun Hwf Hr)
    as (u & g & Hu & Hg & Hp & Hgs & _ & _ & _ & _ & _ & _ & Husr & Hgr & Hdel & Hch).
  exists u. split_and!; [done..|intros a; apply Husr| |done]. intros v i. unfold grant_at, granted_pool_get. rewrite Hgs.
  destruct (decide (v = u)) as [->|Hv].
  - rewrite Hdel. repeat case_decide; try done; naive_solver.
  - rewrite Hgr by done. by rewrite decide_False by tauto.
Qed.

Lemma granted_privs_get_at v p s :
  adb_granted_privs_get v p s =
  if bool_decide (pool_user (pools s p) = v)
  then Ok {| fdir := FCFS_AUTH_POOL_ACCESS_ALL; fstore := FCFS_AUTH_POOL_ACCESS_ALL |}
  else match grant_at s v (pool_id (pool (pools s p))) with Some x => Ok x | None => Err ENOENT end.
Proof. unfold adb_granted_privs_get, grant_at. case_match; [done|]. by destruct (granted_pool_get _ _ _). Qed.

(** C34: granting a pool to a user gives exactly that user exactly the stated
    privileges on exactly that pool, and revoking it takes them away; the owner
    of a pool has all privileges throughout. *)
Theorem adb_grant_correct un s :
  dao_name_ok D un → wf s →
  (∀ info s', adb_granted_create un info s = (Ok tt, s') →
     ∃ u, adb_user_get un s = Some u ∧ ∀ v p, adb_granted_privs_get v p s' =
       if decide (v = u ∧ pool_id (pool (pools s p)) = granted_pool_id info ∧ pool_user (pools s p) ≠ u)
       then Ok (granted_privs info) else adb_granted_privs_get v p s) ∧
  (∀ id s', adb_granted_remove un id s = (Ok tt, s') →
     ∃ u, adb_user_get un s = Some u ∧ ∀ v p, adb_granted_privs_get v p s' =
       if decide (v = u ∧ pool_id (pool (pools s p)) = id ∧ pool_user (pools s p) ≠ u)
       then Err ENOENT else adb_granted_privs_get v p s).
Proof.
  intros Hun Hwf. split.
  - intros info s' Hr. destruct (granted_create_grants _ _ _ _ Hun Hwf Hr) as (u & Hu & Hp & _ & Hg & _).
    exists u. split; [done|]. intros v p. rewrite !granted_privs_get_at, Hp, Hg.
    case_bool_decide; repeat case_decide; naive_solver.
  - intros id s' Hr. destruct (granted_remove_grants _ _ _ _ Hun Hwf Hr) as (u & Hu & Hp & _ & Hg & _).
    exists u. split; [done|]. intros v p. rewrite !granted_privs_get_at, Hp, Hg.
    case_bool_decide; repeat case_decide; naive_solver.
Qed.

(** ** Listing *)

(** Doubling from a power of two ends at the next power, unless that is past
    [int]. *)
Lemma grow_alloc_pow2 fuel k target :
  0 ≤ k ≤ 30 → (Z.to_nat (30 - k) ≤ fuel)%nat → target ≤ 2 ^ 30 →
  ∃ j, k ≤ j ≤ 30 ∧ grow_alloc fuel (2 ^ k) target = Some (2 ^ j) ∧ target ≤ 2 ^ j ∧
       (j = k ∨ 2 ^ j < 2 * target).
Proof.
  revert k. induction fuel as [|fuel IH]; intros k Hk Hf Ht; simpl;
    (destruct (Z.ltb_spec (2 ^ k) target) as [Hlt|]; [|exists k; split_and!; auto; lia]).
  { assert (k = 30) as -> by lia. lia. }
  assert (k < 30) as Hk30.
  { destruct (decide (k = 30)) as [->|]; lia. }
  rewrite Z.mul_comm, <- Z.pow_succ_r by lia.
  assert (2 ^ Z.succ k ≤ 2 ^ 30) by (apply Z.pow_le_mono_r; lia).
  assert (0 < 2 ^ Z.succ k) by (apply Z.pow_pos_nonneg; lia).
  unfold int32. rewrite sint_wrap_small; [|lia|unfold in_sint; simpl; lia].
  destruct (IH (Z.succ k)) as (j & Hj & Hg & Hle & Hup); [lia..|].
  exists j. split_and!; [lia..|done|done|]. right.
  destruct Hup as [->|]; [|lia]. rewrite Z.pow_succ_r by lia. lia.
Qed.

Lemma grow_alloc_stuck fuel n target :
  (n = 0 ∨ n = -2 ^ 31 ∨ ∃ k, 0 ≤ k ≤ 30 ∧ n = 2 ^ k) → 2 ^ 30 < target →
  grow_alloc fuel n target = None.
Proof.
  revert n. induction fuel as [|fuel IH]; intros n Hn Ht; simpl.
  all: assert (n < target) as Hlt
    by (destruct Hn as [->|[->|(k & Hk & ->)]]; [lia..|];
        assert (2 ^ k ≤ 2 ^ 30) by (apply Z.pow_le_mono_r; lia); lia).
  all: apply Z.ltb_lt in Hlt; rewrite Hlt.
  { done. }
  apply IH; [|done]. destruct Hn as [->|[->|(k & Hk & ->)]]; [by left..|].
  destruct (decide (k = 30)) as [->|]; [by right; left|]. right; right.
  exists (Z.succ k). split; [lia|]. rewrite Z.mul_comm, <- Z.pow_succ_r by lia.
  assert (2 ^ Z.succ k ≤ 2 ^ 30) by (apply Z.pow_le_mono_r; lia).
  assert (0 < 2 ^ Z.succ k) by (apply Z.pow_pos_nonneg; lia).
  unfold int32. apply sint_wrap_small; [lia|unfold in_sint; simpl; lia].
Qed.

Lemma check_realloc_array_spec {W} `{!Malloc W} sz count (w : W) r w' :
  check_realloc_array sz 256 count w = (r, w') →
  (r = Err ENOMEM ∧ 256 < count ≤ 2 ^ 30) ∨ (r = Err NO_RETURN ∧ 2 ^ 30 < count) ∨
  ∃ n, count ≤ n ∧ r = Ok n.
Proof.
  unfold check_realloc_array. rewrite Z.geb_leb. destruct (Z.leb_spec count 256).
  { intros [= <- <-]. right; right. eauto. }
  destruct (Z.le_gt_cases count (2 ^ 30)).
  - destruct (grow_alloc_pow2 32 8 count) as (j & Hj & Hg & Hle & _); [lia..|].
    change (2 ^ 8) with 256 in Hg. rewrite Hg.
    destruct (fc_malloc _ w) as [[] w2]; intros [= <- <-]; [right; right; eauto|by left].
  - rewrite grow_alloc_stuck; [|right; right; by exists 8|lia]. intros [= <- <-]. auto.
Qed.

(** The growth of a list's array, which starts with 256 elements, ends with
    room for the requested count and at most twice as much if the count is at
    most 2^30; for a greater count the doubled capacity overflows and the loop
    never ends, whatever the number of iterations. *)
Theorem list_array_growth (target : Z) :
  256 < target →
  (target ≤ 2 ^ 30 → ∃ n, target ≤ n < 2 * target ∧ n ≤ 2 ^ 30 ∧
     ∀ fuel, (22 ≤ fuel)%nat → grow_alloc fuel 256 target = Some n) ∧
  (2 ^ 30 < target → ∀ fuel, grow_alloc fuel 256 target = None).
Proof.
  intros Hlo. change 256 with (2 ^ 8) in *. split.
  - intros Ht. destruct (grow_alloc_pow2 22 8 target) as (j & Hj & Hg & Hle & [->|Hup]); [lia..|].
    exists (2 ^ j). assert (2 ^ j ≤ 2 ^ 30) by (apply Z.pow_le_mono_r; lia).
    split_and!; [done..|]. intros fuel Hf.
    destruct (grow_alloc_pow2 fuel 8 target) as (i & Hi & Hgi & Hlei & [->|Hupi]); [lia..|].
    rewrite Hgi. do 2 f_equal.
    destruct (Z.lt_trichotomy i j) as [Hij|[->|Hij]]; [|done|].
    + assert (2 ^ Z.succ i ≤ 2 ^ j) by (apply Z.pow_le_mono_r; lia). rewrite Z.pow_succ_r in * by lia. lia.
    + assert (2 ^ Z.succ j ≤ 2 ^ i) by (apply Z.pow_le_mono_r; lia). rewrite Z.pow_succ_r in * by lia. lia.
  - intros Ht fuel. apply grow_alloc_stuck; [|done]. right; right. exists 8. lia.
Qed.

Lemma list_loop_spec {A} (l : list A) keep n :
  list_loop l keep n = take n (filter (λ a, keep a = true) l).
Proof.
  revert n. induction l as [|a l IH]; intros [|n]; simpl; [done..|].
  rewrite filter_cons. destruct (keep a) eqn:E.
  - rewrite decide_True by done. simpl. by rewrite IH.
  - rewrite decide_False by done. by rewrite IH.
Qed.

(** A page of users is made of the next [count] users in normal status after
    the [offset]-th element of the list, deleted users included in the offset,
    in the order of their names; the caller's array, of 256 elements at first,
    has room for it.  The call fails only if the array cannot be allocated, and
    does not return for counts above 2^30. *)
Theorem adb_user_list_page offset count s r s' :
  adb_user_list offset count 256 s = (r, s') →
  (r = Err ENOMEM ∧ 256 < count ≤ 2 ^ 30) ∨ (r = Err NO_RETURN ∧ 2 ^ 30 < count) ∨
  ∃ n, count ≤ n ∧
    r = Ok (n, take (Z.to_nat count)
                 ((λ e, user (users s e.2)) <$>
                  filter (λ e, user_normal (users s e.2) = true)
                    (drop (Z.to_nat offset) (sl_elements (user_sl s))))).
Proof.
  intros Hr. unfold adb_user_list in Hr. apply bind_inv in Hr as Hr'.
  unfold on_backend, fcfs_auth_user_check_realloc_array in Hr'.
  destruct (check_realloc_array 56 256 count (backend s)) as [r0 d] eqn:E.
  destruct (check_realloc_array_spec _ _ _ _ _ E) as [[-> ?]|[[-> ?]|(n & Hn & ->)]];
    destruct Hr' as [(e & [= <- <-] & ->)|(a & s1 & [= <- <-] & Hr')]; [by left|by right; left|].
  right; right. exists n. split; [done|]. injection Hr' as <- <-. simpl.
  by rewrite list_loop_spec, fmap_take.
Qed.
End spec.
End AuthDBSpec.

(** ** Examples *)

Module AuthDBExamples.
Import Ref AuthDB AuthDBProofs AuthDBSpec.

(** A backend of numbered directory entries, which may refuse pools. *)
Record dir := { dir_inodes : gmap (string_t * string_t) Z; dir_next : Z; dir_full : bool }.

Definition new_inode (w : dir) : result Z * dir :=
  (Ok (dir_next w),
   {| dir_inodes := dir_inodes w; dir_next := dir_next w + 1; dir_full := dir_full w |}).

#[export] Instance dir_dao : AuthDao dir := {|
  dao_user_create _ := new_inode;
  dao_user_remove _ := mret tt;
  dao_user_update_priv _ _ := mret tt;
  dao_user_update_passwd _ _ := mret tt;
  dao_user_list := mret [];
  dao_spool_create u p w :=
    if dir_full w then (Err EIO, w) else
    match dir_inodes w !! (u, pool_name p) with
    | Some i => (Ok i, w)
    | None => (Ok (dir_next w),
               {| dir_inodes := <[(u, pool_name p) := dir_next w]> (dir_inodes w);
                  dir_next := dir_next w + 1; dir_full := dir_full w |})
    end;
  dao_spool_remove _ := mret tt;
  dao_spool_set_quota _ _ := mret tt;
  dao_spool_list _ := mret [];
  dao_granted_create _ _ := new_inode;
  dao_granted_remove _ _ := mret tt;
  dao_granted_list _ := mret [];
  dao_spool_set_base_path_inode := mret tt;
  dao_spool_get_auto_id := mret 0;
  dao_spool_set_auto_id _ := mret tt;
|}.
#[export] Instance dir_names : NameAllocator dir := {| fast_allocator_alloc_string v := mret v |}.
#[export] Instance dir_malloc : Malloc dir := {| fc_malloc _ w := (true, w) |}.
#[export] Instance dir_pool_inodes : DaoInodes dir :=
  {| dao_pool_inode w u n := dir_inodes w !! (u, n); dao_name_ok _ := True |}.

#[export] Instance dir_laws : AuthDaoLaws dir.
Proof.
  split; try (intros; by intros ? ? ?); [| |by intros v d v' d' [= <- <-]].
  - intros u p d id d' _ _ Hc. simpl in *. destruct (dir_full d); [done|].
    destruct (dir_inodes d !! (u, pool_name p)) as [i|] eqn:E; injection Hc as <- <-.
    + split_and!; [done| |done]. intros id0 Hi. congruence.
    + simpl. split_and!; [by rewrite lookup_insert_eq|congruence|].
      intros u' n' Hne. by rewrite lookup_insert_ne.
  - intros u p d u' n' _ _ Hne. simpl. destruct (dir_full d); [done|].
    destruct (dir_inodes d !! (u, pool_name p)); [done|]. simpl. by rewrite lookup_insert_ne.
Qed.

#[export] Instance names_list : UniqSkiplist string_t (gmap string_t) := skiplist fc_string_compare.
#[export] Instance ids_list : UniqSkiplist Z (gmap Z) := skiplist fc_compare_int64.
#[export] Instance names_laws : UniqSkiplistLaws fc_string_compare (gmap string_t).
Proof. exact (skiplist_laws fc_string_compare). Qed.
#[export] Instance ids_laws : UniqSkiplistLaws fc_compare_int64 (gmap Z).
Proof. exact (skiplist_laws fc_compare_int64). Qed.

Abbreviation DB := (AuthDBContext dir Ref.pool (gmap string_t) (gmap Z)).

Definition blank_user : FCFSAuthUserInfo :=
  {| user_id := 0; user_name := []; user_passwd := None; user_priv := 0; user_status := 0 |}.
Definition blank_pool : FCFSAuthStoragePoolInfo :=
  {| pool_id := 0; pool_name := []; pool_quota := 0; pool_used := 0; pool_status := 0 |}.
Definition no_privs : FCFSAuthSPoolPriviledges := {| fdir := 0; fstore := 0 |}.

Definition empty_db : DB :=
  {| mem := λ _, empty_pool;
     users := λ _, {| user := blank_user; created := ∅; granted := ∅ |};
     pools := λ _, {| pool := blank_pool; pool_user := 0%nat |};
     grants := λ _, {| grant := {| granted_id := 0; granted_pool_id := 0; granted_privs := no_privs |};
                       sp := 0%nat |};
     user_count := 0; user_sl := ∅; by_id := ∅; by_name := ∅; auto_id := 0;
     backend := {| dir_inodes := ∅; dir_next := 100; dir_full := false |}; changes := [] |}.

Definition ann : string_t := [x61].
Definition bob : string_t := [x62].
Definition data : string_t := [x64].
Definition demo_user (n : string_t) : FCFSAuthUserInfo :=
  {| user_id := 0; user_name := n; user_passwd := Some [x70]; user_priv := 2; user_status := 0 |}.
Definition demo_pool : FCFSAuthStoragePoolInfo :=
  {| pool_id := 0; pool_name := data; pool_quota := 1000; pool_used := 0; pool_status := 0 |}.
Definition read_write : FCFSAuthSPoolPriviledges := {| fdir := 6; fstore := 6 |}.
Definition demo_grant (id : Z) : FCFSAuthGrantedPoolInfo :=
  {| granted_id := 0; granted_pool_id := id; granted_privs := read_write |}.

Fixpoint run_ops (ops : list adb_op) (s : DB) : DB :=
  match ops with [] => s | op :: ops => run_ops ops (run_op op s).2 end.
Fixpoint all_ok (ops : list adb_op) (s : DB) : bool :=
  match ops with [] => true | op :: ops => is_ok (run_op op s).1 && all_ok ops (run_op op s).2 end.

(** This backend stores any name. *)
Lemma demo_name_ok n : dao_name_ok dir n.
Proof. exact I. Qed.
Lemma demo_op_ok op : op_ok (D:=dir) op.
Proof. by destruct op. Qed.

(** Two users, a pool (whose id is 102) and a grant. *)
Definition setup : list adb_op :=
  [UserCreate (demo_user ann); UserCreate (demo_user bob); SpoolCreate ann demo_pool;
   GrantedCreate bob (demo_grant 102)].

Lemma run_ops_reachable ops s : reachable s → all_ok ops s = true → reachable (run_ops ops s).
Proof.
  revert s. induction ops as [|op ops IH]; intros s Hs Hok; [done|]. simpl in *.
  apply andb_true_iff in Hok as [Hop Hok]. apply IH; [|done]. eapply (reachable_op op); [exact Hs|apply demo_op_ok|].
  destruct (run_op op s) as [[[]|] s']; [done|done].
Qed.

Lemma empty_db_initial : initial empty_db.
Proof. by split_and!. Qed.

Lemma run_ops_wf ops s : wf s → all_ok ops s = true → wf (run_ops ops s).
Proof.
  revert s. induction ops as [|op ops IH]; intros s Hs Hok; [done|]. simpl in *.
  apply andb_true_iff in Hok as [Hop Hok]. apply IH; [|done]. eapply (run_op_wf op); [apply demo_op_ok|exact Hs|].
  destruct (run_op op s) as [[[]|] s']; [done|done].
Qed.

Lemma setup_ok : all_ok setup empty_db = true.
Proof. vm_compute. exact eq_refl. Qed.
Lemma setup_wf : wf (run_ops setup empty_db).
Proof. apply run_ops_wf; [apply initial_wf, empty_db_initial|exact setup_ok]. Qed.

Lemma demo_inserts : inserts_succeed (SLs:=gmap string_t).
Proof. intros V sl k v Hk. simpl in *. by rewrite Hk. Qed.


Lemma adb_user_create_correct_witness :
  user_view empty_db ann = None.
Proof.
  eapply (adb_user_create_correct (demo_user ann) empty_db _ _ (demo_name_ok _) (initial_wf _ empty_db_initial)
    demo_inserts eq_refl (surjective_pairing _)). vm_compute. exact eq_refl.
Defined.

Lemma adb_user_change_correct_witness :
  adb_user_remove data (run_ops setup empty_db) = (Err ENOENT, run_ops setup empty_db).
Proof.
  apply (adb_user_change_correct data (run_ops setup empty_db) setup_wf). vm_compute. exact eq_refl.
Defined.

Lemma adb_spool_create_correct_witness :
  (adb_spool_create bob demo_pool (run_ops setup empty_db)).2 = run_ops setup empty_db.
Proof.
  eapply (adb_spool_create_correct bob demo_pool (run_ops setup empty_db) _ _
    (demo_name_ok _) (demo_name_ok _) setup_wf eq_refl
    (surjective_pairing _)).
  exists ann. vm_compute. discriminate.
Defined.

Lemma adb_grant_correct_witness :
  let s := run_ops setup empty_db in
  ∃ u, adb_user_get bob s = Some u ∧
    adb_granted_privs_get u 1%nat (adb_granted_remove bob 102 s).2 = Err ENOENT.
Proof.
  intros s. destruct (adb_grant_correct bob s (demo_name_ok _) setup_wf) as [_ Hrm].
  destruct (Hrm 102 (adb_granted_remove bob 102 s).2) as (u & Hu & Hget).
  { apply run_eta. vm_compute. exact eq_refl. }
  exists u. split; [exact Hu|]. rewrite Hget. apply decide_True.
  assert (adb_user_get bob s = Some 2%nat) as Hbob by (vm_compute; exact eq_refl).
  rewrite Hbob in Hu. injection Hu as <-. split; [exact eq_refl|].
  split; vm_compute; [exact eq_refl|]. discriminate.
Defined.

Lemma adb_user_list_page_witness :
  ∃ n l, 300 ≤ n ∧ (adb_user_list 0 300 256 (run_ops setup empty_db)).1 = Ok (n, l).
Proof.
  destruct (adb_user_list_page 0 300 (run_ops setup empty_db) _ _ (surjective_pairing _))
    as [[Hr _]|[[_ Hr]|(n & Hn & Hr)]].
  - vm_compute in Hr. discriminate.
  - discriminate.
  - rewrite Hr. exists n. eexists. split; [exact Hn|exact eq_refl].
Defined.

Lemma list_array_growth_witness :
  ∃ n, 300 ≤ n < 600 ∧ grow_alloc 22 256 300 = Some n.
Proof.
  destruct (list_array_growth 300) as [(n & Hn & _ & Hg) _]; [reflexivity|discriminate|].
  exists n. split; [exact Hn|exact (Hg 22%nat (le_n _))].
Defined.

(** A user created anew under the name of a removed one inherits the grants
    of the removed one. *)
Theorem recreated_user_keeps_grants :
  let ops := setup ++ [UserRemove bob; UserCreate (demo_user bob)] in
  let s := run_ops ops empty_db in
  all_ok ops empty_db = true ∧
  ∃ u p, adb_user_get bob s = Some u ∧ adb_spool_global_get data s = Some p ∧
    adb_granted_privs_get u p s = Ok read_write.
Proof.
  cbv zeta. split; [vm_compute; exact eq_refl|]. exists 2%nat, 1%nat.
  split_and!; vm_compute; exact eq_refl.
Qed.

(** The number of users is wrong once a removed user is created again: the
    counter says none while a user exists, so that an administrator would be
    generated in the mode that does so for an empty database. *)
Theorem user_count_drifts :
  let ops := [UserCreate (demo_user ann); UserRemove ann; UserCreate (demo_user ann)] in
  let s := run_ops ops empty_db in
  all_ok ops empty_db = true ∧ user_view s ann ≠ None ∧ user_count s = 0 ∧
  user_view (adb_check_generate_admin_user true bob [x70] 0 (Ok tt) s).2 bob ≠ None.
Proof. vm_compute. split_and!; first [exact eq_refl|discriminate]. Qed.

(** The generated administrator gets whatever status the uninitialised
    variable holds; with any other value than zero the user is created
    successfully and cannot be found. *)
Theorem generated_admin_unusable :
  let '(r, s) := adb_check_generate_admin_user false ann [x70] 1 (Ok tt) empty_db in
  r = Ok tt ∧ user_view s ann = None ∧ user_count s = 1.
Proof. vm_compute. split_and!; exact eq_refl. Qed.

(** When the backend refuses to create a removed pool again, the object of
    the pool is freed while the lists still point to it. *)
Theorem failed_recreate_dangles :
  let s := run_ops (setup ++ [SpoolRemove ann data]) empty_db in
  let s := set_backend {| dir_inodes := dir_inodes (backend s); dir_next := dir_next (backend s);
                          dir_full := true |} s in
  let '(r, s') := adb_spool_create ann demo_pool s in
  r = Err EIO ∧ ∃ p, sl_find (by_name s') data = Some p ∧ (p ∉ live 1 s').
Proof.
  vm_compute. split; [exact eq_refl|]. exists 1%nat. split; [exact eq_refl|].
  intros Hin. vm_compute in Hin. discriminate.
Qed.

(** A removed pool still answers the access check, and its name cannot be
    used by anybody else. *)
Theorem removed_pool_still_accessible :
  let s := run_ops (setup ++ [SpoolRemove ann data]) empty_db in
  adb_spool_get ann data s = None ∧ adb_spool_access data s = Ok tt ∧
  (adb_spool_create bob demo_pool s).1 = Err EEXIST.
Proof. vm_compute. split_and!; exact eq_refl. Qed.
End AuthDBExamples.
