(* ===== verification/ServiceHandler.v ===== *)
(** * The service handler of the authentication server
      (src/auth/server/service_handler.c, common_handler.c)

    Requests of clients on the service port: login, management of users, pools
    and grants, lists, and the state of the cluster.  A handler runs on the
    database of [AuthDB.v], a session table that offers [SessionStore], and the
    context of its connection; it gives the response or an error code, whose
    message text is left out.  A connection is served by one thread, which runs
    a request to its end before the next. *)
From Stdlib Require Import Init.Byte.
From S2P Require Import Prelude Fastcommon Session SessionStore AuthProto AuthDB.
Import ServerSession(ServerSessionIdInfo, part1, part2) SessionStore AuthProto AuthDB.
Local Open Scope Z_scope.

Module ServiceHandler.

(** ** What libfastcommon provides for names *)
Class NameTools := {
  fc_check_filename_ex : string_t → result unit;
  #[global] name_itoa :: FcItoa;
  (** source, tag, value, size of the output buffer *)
  str_replace : string_t → string_t → string_t → Z → result string_t;
}.

Definition FCFS_AUTH_USER_PRIV_USER_MANAGE : Z := 1.
Definition FCFS_AUTH_USER_PRIV_CREATE_POOL : Z := 2.
Definition FCFS_AUTH_SESSION_FLAGS_PUBLISH : Z := 1.
Definition FCFS_AUTH_FIXED_USER_COUNT : Z := 256.
Definition FCFS_AUTH_CLUSTER_STAT_FILTER_BY_IS_ONLINE : Z := 1.
Definition FCFS_AUTH_CLUSTER_STAT_FILTER_BY_IS_MASTER : Z := 2.
Definition SF_SERVER_TASK_TYPE_NONE : Z := 0.
Definition AUTH_SERVER_TASK_TYPE_SESSION : Z := 1.

(** "${auto_id}" *)
Definition FCFS_AUTH_AUTO_ID_TAG_STR : string_t := [x24; x7b; x61; x75; x74; x6f; x5f; x69; x64; x7d].
Definition FCFS_AUTH_AUTO_ID_TAG_LEN : Z := 10.

(** ** Data *)

Record ServerSessionFields := {
  publish : bool;
  dbuser : option addr;
  dbpool : option addr;
  pool_privs : FCFSAuthSPoolPriviledges;
}.

(** [behind]: the memory of the receive buffer after the body. *)
Record request := { cmd : Z; body : list byte; behind : list byte }.
Record response := { resp_cmd : Z; resp_body : list byte }.

Record FCFSAuthClusterServerInfo := {
  server_id : Z; service_ip : string_t; service_port : Z; is_online : bool;
}.
(** The pointers [CLUSTER_MASTER_PTR], [CLUSTER_NEXT_MASTER] and
    [CLUSTER_MYSELF_PTR] are positions in the array. *)
Record cluster_vars := {
  servers : list FCFSAuthClusterServerInfo;
  CLUSTER_MASTER_PTR : option nat;
  CLUSTER_NEXT_MASTER : option nat;
  CLUSTER_MYSELF_PTR : nat;
}.
Definition MYSELF_IS_MASTER (c : cluster_vars) : bool :=
  bool_decide (CLUSTER_MASTER_PTR c = Some (CLUSTER_MYSELF_PTR c)).

(** A [switch] on the command. *)
Fixpoint switch {A} (cmd : Z) (cases : list (Z * A)) (dflt : A) : A :=
  match cases with
  | [] => dflt
  | (c, a) :: cases => if cmd =? c then a else switch cmd cases dflt
  end.

(** [strstr] on memory that need not end where the name ends. *)
Fixpoint c_string (p : list byte) : list byte :=
  match p with
  | [] => []
  | c :: p => if bool_decide (c = x00) then [] else c :: c_string p
  end.
Fixpoint occurs (tag p : list byte) : bool :=
  bool_decide (take (length tag) p = tag) ||
  match p with [] => false | _ :: p => occurs tag p end.
Definition strstr (p tag : list byte) : bool := occurs tag (c_string p).

(** The loops that fill the response of a list: entries while they fit, how many
    were packed, and whether one did not fit. *)
Fixpoint pack_entries {A} (enc : A → list byte) (space : Z) (l : list A) : list byte * Z * bool :=
  match l with
  | [] => ([], 0, false)
  | a :: l =>
      if Z.of_nat (length (enc a)) >? space then ([], 0, true)
      else
        let '(b, n, truncated) := pack_entries enc (space - Z.of_nat (length (enc a))) l in
        (enc a ++ b, n + 1, truncated)
  end.

Section handler.
Context `{!BuffCodec, !ServerFrame, !NameTools}.
Context {D : Type} `{!AuthDao D, !NameAllocator D, !Malloc D}.
Context {MB : Type} `{!Mblock MB}.
Context {SLs SLi : Type → Type} `{!UniqSkiplist string_t SLs, !UniqSkiplist Z SLi}.
Context {T : Type} `{!SessionStore ServerSessionFields T}.

(** Configuration, and the room for the body of a response. *)
Variable POOL_NAME_TEMPLATE : string_t.
Variable send_space : Z.
(** [fc_server_get_address_by_peer] on the addresses of a server *)
Variable address_by_peer : FCFSAuthClusterServerInfo → string_t * Z.
Variable IP_ADDRESS_SIZE : Z.
Variable cluster : cluster_vars.

Abbreviation DB := (AuthDBContext D MB SLs SLi).

Record service_state := {
  adb : DB;
  table : T;
  SESSION_ENTRY : option addr;
  SERVER_TASK_TYPE : Z;
}.
Abbreviation S := service_state.

Definition set_adb x (s : S) : S := {| adb := x; table := table s;
  SESSION_ENTRY := SESSION_ENTRY s; SERVER_TASK_TYPE := SERVER_TASK_TYPE s |}.
Definition set_table x (s : S) : S := {| adb := adb s; table := x;
  SESSION_ENTRY := SESSION_ENTRY s; SERVER_TASK_TYPE := SERVER_TASK_TYPE s |}.
Definition set_session x t (s : S) : S := {| adb := adb s; table := table s;
  SESSION_ENTRY := x; SERVER_TASK_TYPE := t |}.

Definition on_db {A} (m : M DB A) : M S A :=
  λ s, let '(r, d) := m (adb s) in (r, set_adb d s).
Definition on_table {A} (m : M T A) : M S A :=
  λ s, let '(r, t) := m (table s) in (r, set_table t s).
Definition done (c : Z) (m : M S unit) : M S response :=
  _ ← m; mret {| resp_cmd := c; resp_body := [] |}.
Definition body_len (req : request) : Z := Z.of_nat (length (body req)).

(** [SESSION_FIELDS->dbuser]; [EFAULT] stands for following a null pointer. *)
Definition session_dbuser (s : S) : option addr :=
  e ← SESSION_ENTRY s; dbuser (store_fields (table s) e).
Definition SESSION_USER : M S FCFSAuthUserInfo :=
  s ← get;
  match session_dbuser s with
  | Some u => mret (user (users (adb s) u))
  | None => throw EFAULT
  end.

Definition service_task_finish_cleanup : M S unit :=
  s ← get;
  if SERVER_TASK_TYPE s =? AUTH_SERVER_TASK_TYPE_SESSION then
    _ ← match SESSION_ENTRY s with
        | Some e =>
            _ ← attempt (on_table (store_delete (store_id (table s) e)));
            modify (set_session None (SERVER_TASK_TYPE s))
        | None => mret tt
        end;
    modify (λ s, set_session (SESSION_ENTRY s) SF_SERVER_TASK_TYPE_NONE s)
  else mret tt.

(** ** The check before a request *)

(** What a command requires: nothing ([None]), or a session whose user has one of
    the bits, where 0 asks for the session only; [Err] for unknown commands. *)
Definition required_priv (c : Z) : result (option Z) :=
  switch c
    [(SF_PROTO_ACTIVE_TEST_REQ, Ok None);
     (FCFS_AUTH_SERVICE_PROTO_GET_MASTER_REQ, Ok None);
     (FCFS_AUTH_SERVICE_PROTO_CLUSTER_STAT_REQ, Ok None);
     (FCFS_AUTH_SERVICE_PROTO_USER_LOGIN_REQ, Ok None);
     (FCFS_AUTH_SERVICE_PROTO_SPOOL_GET_QUOTA_REQ, Ok None);
     (FCFS_AUTH_SERVICE_PROTO_USER_CREATE_REQ, Ok (Some FCFS_AUTH_USER_PRIV_USER_MANAGE));
     (FCFS_AUTH_SERVICE_PROTO_USER_PASSWD_REQ, Ok (Some FCFS_AUTH_USER_PRIV_USER_MANAGE));
     (FCFS_AUTH_SERVICE_PROTO_USER_LIST_REQ, Ok (Some FCFS_AUTH_USER_PRIV_USER_MANAGE));
     (FCFS_AUTH_SERVICE_PROTO_USER_GRANT_REQ, Ok (Some FCFS_AUTH_USER_PRIV_USER_MANAGE));
     (FCFS_AUTH_SERVICE_PROTO_USER_REMOVE_REQ, Ok (Some FCFS_AUTH_USER_PRIV_USER_MANAGE));
     (FCFS_AUTH_SERVICE_PROTO_SPOOL_CREATE_REQ, Ok (Some FCFS_AUTH_USER_PRIV_CREATE_POOL));
     (FCFS_AUTH_SERVICE_PROTO_SPOOL_LIST_REQ, Ok (Some FCFS_AUTH_USER_PRIV_CREATE_POOL));
     (FCFS_AUTH_SERVICE_PROTO_SPOOL_REMOVE_REQ, Ok (Some FCFS_AUTH_USER_PRIV_CREATE_POOL));
     (FCFS_AUTH_SERVICE_PROTO_SPOOL_SET_QUOTA_REQ, Ok (Some FCFS_AUTH_USER_PRIV_CREATE_POOL));
     (FCFS_AUTH_SERVICE_PROTO_GPOOL_GRANT_REQ, Ok (Some FCFS_AUTH_USER_PRIV_CREATE_POOL));
     (FCFS_AUTH_SERVICE_PROTO_GPOOL_WITHDRAW_REQ, Ok (Some FCFS_AUTH_USER_PRIV_CREATE_POOL));
     (FCFS_AUTH_SERVICE_PROTO_GPOOL_LIST_REQ, Ok (Some 0))]
    (Err (NEG EINVAL)).

Definition check_user_priv (req : request) : M S unit :=
  p ← lift (required_priv (cmd req));
  match p with
  | None => mret tt
  | Some the_priv =>
      s ← get;
      match SESSION_ENTRY s with
      | None => throw EPERM
      | Some _ =>
          if the_priv =? 0 then mret tt
          else u ← SESSION_USER; ensure (flag_set (user_priv u) the_priv) EPERM
      end
  end.

(** ** Users *)

Definition fc_string_equal (a : option string_t) (b : string_t) : bool := bool_decide (a = Some b).

(** The fields of the session holder that a login fills in. *)
Definition login_fields (u : addr) (poolname : string_t) (flags : Z) : M S ServerSessionFields :=
  s ← get;
  '(p, privs) ←
    (if 0 <? Z.of_nat (length poolname) then
       match adb_spool_global_get poolname (adb s) with
       | None => throw ENOENT
       | Some p =>
           match adb_granted_privs_get u p (adb s) with
           | Ok privs => mret (Some p, privs)
           | Err _ => throw EPERM
           end
       end
     else mret (None, {| fdir := 0; fstore := 0 |}));
  mret {| publish := flag_set flags FCFS_AUTH_SESSION_FLAGS_PUBLISH; dbuser := Some u;
          dbpool := p; pool_privs := privs |}.

Definition service_deal_user_login (req : request) : M S response :=
  let b := body req in
  _ ← lift (server_check_min_body_length (body_len req) (sizeof_FCFSAuthProtoUserLoginReq + 1));
  let flags := char_at b 0 in
  let passwd := bytes_at b 1 FCFS_AUTH_PASSWD_LEN in
  let '(username, poolname) := fcfs_auth_parse_user_pool_pair b 17 in
  _ ← lift (server_expect_body_length (body_len req)
              (sizeof_FCFSAuthProtoUserLoginReq + pair_length b 17));
  s ← get;
  if bool_decide (SESSION_ENTRY s ≠ None) then throw (NEG EEXIST)
  else if negb (SERVER_TASK_TYPE s =? SF_SERVER_TASK_TYPE_NONE) then throw (NEG EEXIST)
  else
    match adb_user_get username (adb s) with
    | None => throw EPERM
    | Some u =>
        if fc_string_equal (user_passwd (user (users (adb s) u))) passwd then
          f ← login_fields u poolname flags;
          r ← attempt (on_table (store_add f (publish f) false));
          match r with
          | Err NO_RETURN => throw NO_RETURN
          | Err _ => throw ENOMEM
          | Ok e =>
              _ ← modify (set_session (Some e) AUTH_SERVER_TASK_TYPE_SESSION);
              s ← get;
              let id := store_id (table s) e in
              mret {| resp_cmd := FCFS_AUTH_SERVICE_PROTO_USER_LOGIN_RESP;
                      resp_body := long2buff (int64 (part1 id)) ++ long2buff (int64 (part2 id)) |}
          end
        else throw EPERM
    end.

Definition service_deal_user_create (req : request) : M S unit :=
  let b := body req in
  _ ← lift (server_check_body_length (body_len req) (sizeof_FCFSAuthProtoUserCreateReq + 1)
              (sizeof_FCFSAuthProtoUserCreateReq + NAME_MAX));
  _ ← lift (server_expect_body_length (body_len req)
              (sizeof_FCFSAuthProtoUserCreateReq + char_at b 24));
  let name := name_at b 24 in
  _ ← lift (fc_check_filename_ex name);
  on_db (adb_user_create {| user_id := 0; user_name := name;
    user_passwd := Some (bytes_at b 8 FCFS_AUTH_PASSWD_LEN);
    user_priv := buff2long (bytes_at b 0 8); user_status := FCFS_AUTH_USER_STATUS_NORMAL |}).

Definition service_deal_user_passwd (req : request) : M S unit :=
  let b := body req in
  _ ← lift (server_check_body_length (body_len req) (sizeof_FCFSAuthProtoUserPasswdReq + 1)
              (sizeof_FCFSAuthProtoUserPasswdReq + NAME_MAX));
  _ ← lift (server_expect_body_length (body_len req)
              (sizeof_FCFSAuthProtoUserPasswdReq + char_at b 16));
  on_db (adb_user_update_passwd (name_at b 16) (bytes_at b 0 FCFS_AUTH_PASSWD_LEN)).

Definition service_parse_limit (p : list byte) : SFListLimitInfo :=
  let l := sf_proto_extract_limit p in
  {| offset := offset l; count := if count l <=? 0 then 1024 else count l |}.

(** The response of a list: [n] entries were found for a request of [limit]. *)
Definition list_response {A} (c : Z) (enc : A → list byte) (l : list A) (n limit : Z) : response :=
  let '(b, packed, truncated) := pack_entries enc (send_space - sizeof_FCFSAuthProtoListRespHeader) l in
  {| resp_cmd := c;
     resp_body := list_resp_header packed ((n <? limit) && negb truncated) ++ b |}.

(** [FCFSAuthProtoUserListRespBodyPart] *)
Definition pack_user (u : FCFSAuthUserInfo) : list byte :=
  long2buff (user_priv u) ++ pack_name (user_name u).

Definition service_deal_user_list (req : request) : M S response :=
  let b := body req in
  _ ← lift (server_check_body_length (body_len req) sizeof_FCFSAuthProtoUserListReq
              (sizeof_FCFSAuthProtoUserListReq + NAME_MAX));
  let username := name_at b 8 in
  _ ← lift (server_expect_body_length (body_len req)
              (sizeof_FCFSAuthProtoUserListReq + char_at b 8));
  '(l, n) ←
    (if 0 <? Z.of_nat (length username) then
       s ← get;
       match adb_user_get username (adb s) with
       | None => throw ENOENT
       | Some u => mret ([user (users (adb s) u)], 100)
       end
     else
       let limit := service_parse_limit (bytes_at b 0 8) in
       r ← on_db (adb_user_list (offset limit) (count limit) FCFS_AUTH_FIXED_USER_COUNT);
       mret (r.2, count limit));
  mret (list_response FCFS_AUTH_SERVICE_PROTO_USER_LIST_RESP pack_user l (Z.of_nat (length l)) n).

Definition service_deal_user_grant (req : request) : M S unit :=
  let b := body req in
  _ ← lift (server_check_body_length (body_len req) (sizeof_FCFSAuthProtoUserGrantReq + 1)
              (sizeof_FCFSAuthProtoUserGrantReq + NAME_MAX));
  _ ← lift (server_expect_body_length (body_len req)
              (sizeof_FCFSAuthProtoUserGrantReq + char_at b 8));
  on_db (adb_user_update_priv (name_at b 8) (buff2long (bytes_at b 0 8))).

Definition service_deal_user_remove (req : request) : M S unit :=
  let b := body req in
  _ ← lift (server_check_body_length (body_len req) (sizeof_FCFSAuthProtoUserRemoveReq + 1)
              (sizeof_FCFSAuthProtoUserRemoveReq + NAME_MAX));
  _ ← lift (server_expect_body_length (body_len req)
              (sizeof_FCFSAuthProtoUserRemoveReq + char_at b 0));
  on_db (adb_user_remove (name_at b 0)).

(** ** Storage pools *)

(** The [do ... while] loop of [spool_create_by_template]; the name found.
    [NO_RETURN] when the fuel ends. *)
Fixpoint template_loop (fuel : nat) (username pool_name : string_t) (spool : FCFSAuthStoragePoolInfo)
    (dryrun : bool) (n : Z) : M S string_t :=
  match fuel with
  | O => throw NO_RETURN
  | Datatypes.S fuel =>
      name ← lift (str_replace pool_name FCFS_AUTH_AUTO_ID_TAG_STR (fc_itoa n) (NAME_MAX + 1));
      if dryrun then
        s ← get;
        match adb_spool_access name (adb s) with
        | Ok _ =>
            n ← on_db adb_spool_next_auto_id;
            template_loop fuel username pool_name spool dryrun n
        | Err ENOENT => mret name
        | Err e => throw e
        end
      else
        r ← attempt (on_db (adb_spool_create username (set_pool_name name spool)));
        match r with
        | Ok _ => _ ← on_db adb_spool_inc_auto_id; mret name
        | Err EEXIST =>
            n ← on_db adb_spool_next_auto_id;
            template_loop fuel username pool_name spool dryrun n
        | Err e => throw e
        end
  end.

(** Each round but the last meets another pool, so the number of pools is enough
    when the names differ. *)
Definition template_fuel (s : S) : nat := Datatypes.S (length (sl_elements (by_name (adb s)))).

Definition spool_create_by_template (username pool_name : string_t)
    (spool : FCFSAuthStoragePoolInfo) (dryrun : bool) : M S string_t :=
  s ← get;
  template_loop (template_fuel s) username pool_name spool dryrun (adb_spool_get_auto_id (adb s)).

Definition service_deal_spool_create (req : request) : M S response :=
  let b := body req in
  _ ← lift (server_check_body_length (body_len req) sizeof_FCFSAuthProtoSPoolCreateReq
              (sizeof_FCFSAuthProtoSPoolCreateReq + NAME_MAX));
  _ ← lift (server_expect_body_length (body_len req)
              (sizeof_FCFSAuthProtoSPoolCreateReq + char_at b 9));
  let dryrun := negb (char_at b 8 =? 0) in
  (* the name, and the memory behind it *)
  '(name, rest) ←
    (if Z.of_nat (length (name_at b 9)) =? 0 then mret (POOL_NAME_TEMPLATE, [])
     else _ ← lift (fc_check_filename_ex (name_at b 9)); mret (name_at b 9, behind req));
  (* the id and the usage are not set, and not read by the creation *)
  let spool := {| pool_id := 0; pool_name := name; pool_quota := buff2long (bytes_at b 0 8);
                  pool_used := 0; pool_status := FCFS_AUTH_POOL_STATUS_NORMAL |} in
  me ← SESSION_USER;
  let username := user_name me in
  final ←
    (if (Z.of_nat (length name) >=? FCFS_AUTH_AUTO_ID_TAG_LEN) &&
        strstr (name ++ rest) FCFS_AUTH_AUTO_ID_TAG_STR
     then spool_create_by_template username name spool dryrun
     else if dryrun then
       s ← get;
       match adb_spool_access name (adb s) with
       | Ok _ => throw EEXIST
       | Err ENOENT => mret name
       | Err e => throw e
       end
     else _ ← on_db (adb_spool_create username spool); mret name);
  mret {| resp_cmd := FCFS_AUTH_SERVICE_PROTO_SPOOL_CREATE_RESP; resp_body := pack_name final |}.

(** [SPOOL_GET] *)
Definition SPOOL_GET (username poolname : string_t) : M S FCFSAuthStoragePoolInfo :=
  s ← get;
  match adb_spool_get username poolname (adb s) with
  | Some spool => mret spool
  | None => throw ENOENT
  end.

(** [FCFSAuthProtoSPoolListRespBodyPart] *)
Definition pack_spool (p : FCFSAuthStoragePoolInfo) : list byte :=
  long2buff (pool_quota p) ++ pack_name (pool_name p).

(** The name whose pools are listed, and the check of the right to see them. *)
Definition spool_list_owner (me : FCFSAuthUserInfo) (username poolname : string_t) : M S string_t :=
  if Z.of_nat (length username) =? 0 then mret (user_name me)
  else if bool_decide (username = user_name me) then mret username
  else if negb (flag_set (user_priv me) FCFS_AUTH_USER_PRIV_USER_MANAGE) then
    if 0 <? Z.of_nat (length poolname) then
      spool ← SPOOL_GET username poolname;
      s ← get;
      match adb_granted_full_get (user_name me) (pool_id spool) (adb s) with
      | Ok _ => mret username
      | Err _ => throw EPERM
      end
    else throw EPERM
  else mret username.

Definition service_deal_spool_list (req : request) : M S response :=
  let b := body req in
  _ ← lift (server_check_body_length (body_len req) sizeof_FCFSAuthProtoSPoolListReq
              (sizeof_FCFSAuthProtoSPoolListReq + NAME_MAX * 2));
  let '(username, poolname) := fcfs_auth_parse_user_pool_pair b 8 in
  _ ← lift (server_expect_body_length (body_len req)
              (sizeof_FCFSAuthProtoSPoolListReq + pair_length b 8));
  me ← SESSION_USER;
  username ← spool_list_owner me username poolname;
  '(l, n) ←
    (if 0 <? Z.of_nat (length poolname) then
       spool ← SPOOL_GET username poolname; mret ([spool], 100)
     else
       let limit := service_parse_limit (bytes_at b 0 8) in
       r ← on_db (adb_spool_list username (offset limit) (count limit) FCFS_AUTH_FIXED_USER_COUNT);
       mret (r.2, count limit));
  mret (list_response FCFS_AUTH_SERVICE_PROTO_SPOOL_LIST_RESP pack_spool l (Z.of_nat (length l)) n).

Definition service_deal_spool_remove (req : request) : M S unit :=
  let b := body req in
  _ ← lift (server_check_body_length (body_len req) (sizeof_FCFSAuthProtoSPoolRemoveReq + 1)
              (sizeof_FCFSAuthProtoSPoolRemoveReq + NAME_MAX));
  _ ← lift (server_expect_body_length (body_len req)
              (sizeof_FCFSAuthProtoSPoolRemoveReq + char_at b 0));
  me ← SESSION_USER;
  on_db (adb_spool_remove (user_name me) (name_at b 0)).

Definition service_deal_spool_set_quota (req : request) : M S unit :=
  let b := body req in
  _ ← lift (server_check_body_length (body_len req) (sizeof_FCFSAuthProtoSPoolSetQuotaReq + 1)
              (sizeof_FCFSAuthProtoSPoolSetQuotaReq + NAME_MAX));
  _ ← lift (server_expect_body_length (body_len req)
              (sizeof_FCFSAuthProtoSPoolSetQuotaReq + char_at b 8));
  me ← SESSION_USER;
  on_db (adb_spool_set_quota (user_name me) (name_at b 8) (buff2long (bytes_at b 0 8))).

Definition service_deal_spool_get_quota (req : request) : M S response :=
  let b := body req in
  _ ← lift (server_check_body_length (body_len req) (sizeof_FCFSAuthProtoSPoolGetQuotaReq + 1)
              (sizeof_FCFSAuthProtoSPoolGetQuotaReq + NAME_MAX));
  _ ← lift (server_expect_body_length (body_len req)
              (sizeof_FCFSAuthProtoSPoolGetQuotaReq + char_at b 0));
  s ← get;
  quota ← lift (adb_spool_get_quota (name_at b 0) (adb s));
  mret {| resp_cmd := FCFS_AUTH_SERVICE_PROTO_SPOOL_GET_QUOTA_RESP; resp_body := long2buff quota |}.

(** ** Grants *)

Definition service_deal_spool_grant (req : request) : M S unit :=
  let b := body req in
  _ ← lift (server_check_body_length (body_len req) (sizeof_FCFSAuthProtoSPoolGrantReq + 2)
              (sizeof_FCFSAuthProtoSPoolGrantReq + 2 * NAME_MAX));
  let '(dest, poolname) := fcfs_auth_parse_user_pool_pair b 8 in
  _ ← lift (server_expect_body_length (body_len req)
              (sizeof_FCFSAuthProtoSPoolGrantReq + pair_length b 8));
  me ← SESSION_USER;
  spool ← SPOOL_GET (user_name me) poolname;
  let privs := {| fdir := buff2int (bytes_at b 0 4); fstore := buff2int (bytes_at b 4 4) |} in
  _ ← ensure (negb ((fdir privs =? FCFS_AUTH_POOL_ACCESS_NONE) &&
                    (fstore privs =? FCFS_AUTH_POOL_ACCESS_NONE))) EINVAL;
  on_db (adb_granted_create dest
    {| granted_id := 0; granted_pool_id := pool_id spool; granted_privs := privs |}).

Definition service_deal_spool_withdraw (req : request) : M S unit :=
  let b := body req in
  _ ← lift (server_check_body_length (body_len req) (sizeof_FCFSAuthProtoSPoolWithdrawReq + 2)
              (sizeof_FCFSAuthProtoSPoolWithdrawReq + 2 * NAME_MAX));
  let '(dest, poolname) := fcfs_auth_parse_user_pool_pair b 0 in
  _ ← lift (server_expect_body_length (body_len req)
              (sizeof_FCFSAuthProtoSPoolWithdrawReq + pair_length b 0));
  me ← SESSION_USER;
  spool ← SPOOL_GET (user_name me) poolname;
  on_db (adb_granted_remove dest (pool_id spool)).

(** [FCFSAuthProtoGPoolListRespBodyPart] *)
Definition pack_gpool (g : FCFSAuthGrantedPoolFullInfo) : list byte :=
  int2buff (fdir (granted_privs (gf_granted g))) ++
  int2buff (fstore (granted_privs (gf_granted g))) ++
  fcfs_auth_pack_user_pool_pair (gf_username g) (gf_pool_name g).

Definition service_deal_gpool_list (req : request) : M S response :=
  let b := body req in
  _ ← lift (server_check_body_length (body_len req) sizeof_FCFSAuthProtoGPoolListReq
              (sizeof_FCFSAuthProtoGPoolListReq + NAME_MAX * 2));
  let '(username, poolname) := fcfs_auth_parse_user_pool_pair b 8 in
  _ ← lift (server_expect_body_length (body_len req)
              (sizeof_FCFSAuthProtoGPoolListReq + pair_length b 8));
  me ← SESSION_USER;
  username ←
    (if Z.of_nat (length username) =? 0 then mret (user_name me)
     else _ ← ensure (flag_set (user_priv me) FCFS_AUTH_USER_PRIV_USER_MANAGE) EPERM; mret username);
  let named := 0 <? Z.of_nat (length poolname) in
  let limit := if named then {| offset := 0; count := 1000 * 1000 |}
               else service_parse_limit (bytes_at b 0 8) in
  r ← on_db (adb_granted_list username (offset limit) (count limit) FCFS_AUTH_FIXED_USER_COUNT);
  let l := if named then filter (λ g, gf_pool_name g = poolname) r.2 else r.2 in
  mret (list_response FCFS_AUTH_SERVICE_PROTO_GPOOL_LIST_RESP pack_gpool l
          (Z.of_nat (length r.2)) (count limit)).

(** ** The cluster *)

(** [fc_safe_strcpy] into a field of [IP_ADDRESS_SIZE] bytes; what follows the
    terminator is not written (zeros here, read by nobody). *)
Definition ip_field (ip : string_t) : list byte :=
  let s := take (Z.to_nat (IP_ADDRESS_SIZE - 1)) ip in
  s ++ replicate (Z.to_nat IP_ADDRESS_SIZE - length s) x00.

(** [FCFSAuthProtoClusterStatRespBodyPart] *)
Definition pack_server (online master : bool) (cs : FCFSAuthClusterServerInfo) : list byte :=
  int2buff (server_id cs) ++ [byte_of (Z.b2z online); byte_of (Z.b2z master); x00] ++
  short2buff (service_port cs) ++ ip_field (service_ip cs).

(** The loop over the servers; [i] is the position of the first. *)
Fixpoint cluster_stat_parts (filter_by is_online' is_master : Z) (i : nat)
    (l : list FCFSAuthClusterServerInfo) : list (list byte) :=
  match l with
  | [] => []
  | cs :: l =>
      let master := bool_decide (CLUSTER_MASTER_PTR cluster = Some i) in
      let online := master || is_online cs in
      let rest := cluster_stat_parts filter_by is_online' is_master (Datatypes.S i) l in
      if (0 <? filter_by) &&
         ((flag_set filter_by FCFS_AUTH_CLUSTER_STAT_FILTER_BY_IS_ONLINE &&
           negb (Z.b2z online =? is_online')) ||
          (flag_set filter_by FCFS_AUTH_CLUSTER_STAT_FILTER_BY_IS_MASTER &&
           negb (Z.b2z master =? is_master)))
      then rest
      else pack_server online master cs :: rest
  end.

(** [char] is signed. *)
Definition signed_char (z : Z) : Z := sint_wrap 8 z.

Definition service_deal_cluster_stat (req : request) : M S response :=
  let b := body req in
  _ ← lift (server_expect_body_length (body_len req) sizeof_FCFSAuthProtoClusterStatReq);
  let parts := cluster_stat_parts (signed_char (char_at b 0)) (signed_char (char_at b 1))
                 (signed_char (char_at b 2)) 0 (servers cluster) in
  mret {| resp_cmd := FCFS_AUTH_SERVICE_PROTO_CLUSTER_STAT_RESP;
          resp_body := int2buff (Z.of_nat (length parts)) ++ [x00; x00; x00; x00] ++ mjoin parts |}.

Definition fcfs_auth_deal_get_master (c : Z) (req : request) : M S response :=
  _ ← lift (server_expect_body_length (body_len req) 0);
  let master := match CLUSTER_MASTER_PTR cluster with
                | Some m => Some m
                | None => CLUSTER_NEXT_MASTER cluster
                end in
  match m ← master; servers cluster !! m with
  | None => throw SF_RETRIABLE_ERROR_NO_SERVER
  | Some cs =>
      let '(ip, port) := address_by_peer cs in
      mret {| resp_cmd := c;
              resp_body := int2buff (server_id cs) ++ short2buff port ++ [x00; x00] ++ ip_field ip |}
  end.

(** ** Dispatch *)

Definition service_process (req : request) : M S response :=
  let c := cmd req in
  if negb (MYSELF_IS_MASTER cluster) &&
     negb ((c =? FCFS_AUTH_SERVICE_PROTO_GET_MASTER_REQ) || (c =? SF_SERVICE_PROTO_GET_LEADER_REQ) ||
           (c =? SF_PROTO_ACTIVE_TEST_REQ))
  then throw SF_RETRIABLE_ERROR_NOT_MASTER
  else
    switch c
      [(SF_PROTO_ACTIVE_TEST_REQ,
          done SF_PROTO_ACTIVE_TEST_RESP (lift (sf_proto_deal_active_test (body req))));
       (FCFS_AUTH_SERVICE_PROTO_USER_LOGIN_REQ, service_deal_user_login req);
       (FCFS_AUTH_SERVICE_PROTO_USER_CREATE_REQ,
          done FCFS_AUTH_SERVICE_PROTO_USER_CREATE_RESP (service_deal_user_create req));
       (FCFS_AUTH_SERVICE_PROTO_USER_PASSWD_REQ,
          done FCFS_AUTH_SERVICE_PROTO_USER_PASSWD_RESP (service_deal_user_passwd req));
       (FCFS_AUTH_SERVICE_PROTO_USER_LIST_REQ, service_deal_user_list req);
       (FCFS_AUTH_SERVICE_PROTO_USER_GRANT_REQ,
          done FCFS_AUTH_SERVICE_PROTO_USER_GRANT_RESP (service_deal_user_grant req));
       (FCFS_AUTH_SERVICE_PROTO_USER_REMOVE_REQ,
          done FCFS_AUTH_SERVICE_PROTO_USER_REMOVE_RESP (service_deal_user_remove req));
       (FCFS_AUTH_SERVICE_PROTO_SPOOL_CREATE_REQ, service_deal_spool_create req);
       (FCFS_AUTH_SERVICE_PROTO_SPOOL_LIST_REQ, service_deal_spool_list req);
       (FCFS_AUTH_SERVICE_PROTO_SPOOL_REMOVE_REQ,
          done FCFS_AUTH_SERVICE_PROTO_SPOOL_REMOVE_RESP (service_deal_spool_remove req));
       (FCFS_AUTH_SERVICE_PROTO_SPOOL_SET_QUOTA_REQ,
          done FCFS_AUTH_SERVICE_PROTO_SPOOL_SET_QUOTA_RESP (service_deal_spool_set_quota req));
       (FCFS_AUTH_SERVICE_PROTO_SPOOL_GET_QUOTA_REQ, service_deal_spool_get_quota req);
       (FCFS_AUTH_SERVICE_PROTO_GPOOL_GRANT_REQ,
          done FCFS_AUTH_SERVICE_PROTO_GPOOL_GRANT_RESP (service_deal_spool_grant req));
       (FCFS_AUTH_SERVICE_PROTO_GPOOL_WITHDRAW_REQ,
          done FCFS_AUTH_SERVICE_PROTO_GPOOL_WITHDRAW_RESP (service_deal_spool_withdraw req));
       (FCFS_AUTH_SERVICE_PROTO_GPOOL_LIST_REQ, service_deal_gpool_list req);
       (FCFS_AUTH_SERVICE_PROTO_CLUSTER_STAT_REQ, service_deal_cluster_stat req);
       (FCFS_AUTH_SERVICE_PROTO_GET_MASTER_REQ,
          fcfs_auth_deal_get_master FCFS_AUTH_SERVICE_PROTO_GET_MASTER_RESP req);
       (SF_SERVICE_PROTO_GET_LEADER_REQ,
          fcfs_auth_deal_get_master SF_SERVICE_PROTO_GET_LEADER_RESP req)]
      (throw (NEG EINVAL)).

(** The stage in which a request is received. *)
Definition service_deal_task (req : request) : M S response :=
  _ ← check_user_priv req; service_process req.
End handler.
Arguments service_state : clear implicits.
End ServiceHandler.
