(* ===== verification/ServiceProofs.v ===== *)
(** * The service handler and the database

    Which operations of the database a request can cause, and that users stay
    listed under their names whatever the result of an operation is. *)
From Stdlib Require Import Init.Byte.
From S2P Require Import Prelude Fastcommon Session SessionStore AuthProto AuthDB AuthDBProofs AuthDBSpec ServiceHandler.
Import ServerSession(ServerSessionIdInfo, part1, part2) SessionStore AuthProto AuthDB
  AuthDBProofs AuthDBSpec ServiceHandler.
Local Open Scope Z_scope.

Module ServiceProofs.

(** The user of the session. *)
Section session.
Context {D MB : Type} {SLs SLi : Type → Type} {T : Type} `{!SessionStore ServerSessionFields T}.
Abbreviation S := (service_state D MB SLs SLi T).
Implicit Types s : S.

Definition session_user s : option FCFSAuthUserInfo :=
  u ← session_dbuser s; Some (user (users (adb s) u)).

Lemma SESSION_USER_eq s :
  SESSION_USER s = (match session_user s with Some u => Ok u | None => Err EFAULT end, s).
Proof. unfold SESSION_USER, session_user. rewrite (bind_ok _ _ _ s s) by done. by destruct (session_dbuser s). Qed.

Lemma kept_session_user {B} R `{!PreOrder R} (k : FCFSAuthUserInfo → M S B) s :
  (∀ u, session_user s = Some u → kept R (k u) s) → kept R (SESSION_USER ≫= k) s.
Proof.
  intros Hk. apply kept_bind; [apply _|by unfold kept; rewrite SESSION_USER_eq|].
  intros u s'. rewrite SESSION_USER_eq. destruct (session_user s) as [v|]; [|done].
  intros [= <- <-]. by apply Hk.
Qed.
End session.

(** Step through a handler; [leaf] deals with the calls of the components. *)
Ltac keep_step leaf :=
  lazymatch goal with
  | |- ∀ _, _ => intro
  | |- kept _ (mret _) _ => apply kept_ret; apply _
  | |- kept _ (throw _) _ => apply kept_throw; apply _
  | |- kept _ (lift _) _ => apply kept_lift; apply _
  | |- kept _ (ensure _ _) _ => apply kept_ensure; apply _
  | |- kept _ (match ?x with _ => _ end) _ => destruct x eqn:?
  | |- kept _ (lift _ ≫= _) _ => apply kept_lift_bind; [apply _|]; intros ? ?
  | |- kept _ (SESSION_USER ≫= _) _ => apply kept_session_user; [apply _|]; intros ? ?
  | |- kept _ (get ≫= _) _ => apply kept_get_bind
  | |- kept _ ((match ?x with _ => _ end) ≫= _) _ => destruct x eqn:?
  | |- kept _ (mret _ ≫= _) _ =>
      apply kept_bind; [apply _|apply kept_ret; apply _|];
      let H := fresh in intros ? ? H; injection H as <- <-
  | |- kept _ (throw _ ≫= _) _ => apply kept_bind; [apply _|apply kept_throw; apply _|done]
  | |- _ => leaf
  end.
Ltac keep_with leaf := repeat (cbv beta zeta; keep_step leaf).

Section proofs.
Context `{!BuffCodec, !ServerFrame, !ServerFrameLaws, !NameTools}.
Context {D : Type} `{!AuthDao D, !NameAllocator D, !Malloc D}.
Context {MB : Type} `{!Mblock MB}.
Context {SLs SLi : Type → Type} `{!UniqSkiplist string_t SLs, !UniqSkiplist Z SLi}.
Context {T : Type} `{!SessionStore ServerSessionFields T}.
Variable POOL_NAME_TEMPLATE : string_t.
Variable send_space : Z.
Variable address_by_peer : FCFSAuthClusterServerInfo → string_t * Z.
Variable IP_ADDRESS_SIZE : Z.
Variable cluster : cluster_vars.

Abbreviation DB := (AuthDBContext D MB SLs SLi).
Abbreviation S := (service_state D MB SLs SLi T).
Implicit Types (s : S) (d : DB).

(** ** What a session may do *)

(** The operations that the user [me] may cause: those on users with the right
    to manage users, those on the user's own pools with the right to create
    pools. *)
Definition permitted (me : FCFSAuthUserInfo) d (op : adb_op) : Prop :=
  match op with
  | UserCreate _ | UserRemove _ | UserUpdatePriv _ _ | UserUpdatePasswd _ _ =>
      flag_set (user_priv me) FCFS_AUTH_USER_PRIV_USER_MANAGE = true
  | SpoolCreate un _ | SpoolRemove un _ | SpoolSetQuota un _ _ =>
      un = user_name me ∧ flag_set (user_priv me) FCFS_AUTH_USER_PRIV_CREATE_POOL = true
  | GrantedCreate _ info =>
      (∃ n p, adb_spool_get (user_name me) n d = Some p ∧ pool_id p = granted_pool_id info) ∧
      flag_set (user_priv me) FCFS_AUTH_USER_PRIV_CREATE_POOL = true
  | GrantedRemove _ id =>
      (∃ n p, adb_spool_get (user_name me) n d = Some p ∧ pool_id p = id) ∧
      flag_set (user_priv me) FCFS_AUTH_USER_PRIV_CREATE_POOL = true
  | SpoolSetUsed _ _ => False
  end.

(** One step of the database on behalf of a connection, whose user is [me] if it
    has a session: a permitted operation with whatever result, a new number for
    pool names, or the allocation of the array of a list. *)
Inductive db_step (me : option FCFSAuthUserInfo) : relation DB :=
| step_op u op d : me = Some u → permitted u d op → db_step me d (run_op op d).2
| step_next_id u d : me = Some u → flag_set (user_priv u) FCFS_AUTH_USER_PRIV_CREATE_POOL = true →
    db_step me d (adb_spool_next_auto_id d).2
| step_inc_id u d : me = Some u → flag_set (user_priv u) FCFS_AUTH_USER_PRIV_CREATE_POOL = true →
    db_step me d (adb_spool_inc_auto_id d).2
| step_array u n d : me = Some u → db_step me d (set_backend (fc_malloc n (backend d)).2 d).

Definition db_steps (me : option FCFSAuthUserInfo) (s s' : S) : Prop :=
  rtc (db_step me) (adb s) (adb s').
#[global] Instance db_steps_preorder me : PreOrder (db_steps me).
Proof. split; intros ?*; unfold db_steps; [reflexivity|apply transitivity]. Qed.

Lemma kept_on_db {A} me (m : M DB A) s :
  rtc (db_step me) (adb s) (m (adb s)).2 → kept (db_steps me) (on_db m) s.
Proof. unfold kept, on_db, db_steps. by destruct (m (adb s)). Qed.

Lemma kept_on_table {A} me (m : M T A) s : kept (db_steps me) (on_table m) s.
Proof. unfold kept, on_table, db_steps. by destruct (m (table s)). Qed.

Lemma kept_op me u op s :
  me = Some u → permitted u (adb s) op → kept (db_steps me) (on_db (run_op op)) s.
Proof. intros -> Hp. by apply kept_on_db, rtc_once, (step_op _ u). Qed.

(** ** Lists only allocate *)

Lemma check_realloc_steps me u sz alloc n d :
  me = Some u → kept (rtc (db_step me)) (on_backend (check_realloc_array sz alloc n)) d.
Proof.
  intros Hme. unfold kept, on_backend, check_realloc_array.
  assert (∀ x : result Z, rtc (db_step me) d (x, set_backend (backend d) d).2) as Hid.
  { intros x. simpl. destruct d. apply rtc_refl. }
  destruct (alloc >=? n); [apply Hid|]. destruct (grow_alloc 32 alloc n) as [k|]; [|apply Hid].
  destruct (fc_malloc (sz * k) (backend d)) as [ok b] eqn:E. apply rtc_once. simpl.
  replace b with (fc_malloc (sz * k) (backend d)).2 by (by rewrite E). by eapply step_array.
Qed.

Lemma user_list_steps me u o c k d :
  me = Some u → kept (rtc (db_step me)) (adb_user_list o c k) d.
Proof.
  intros. apply kept_bind; [apply _|by eapply check_realloc_steps|]. intros. apply kept_get_bind, kept_ret; apply _.
Qed.
Lemma spool_list_steps me u n o c k d :
  me = Some u → kept (rtc (db_step me)) (adb_spool_list n o c k) d.
Proof.
  intros. apply kept_bind; [apply _|by eapply check_realloc_steps|]. intros ? s' _.
  apply kept_get_bind. destruct (user_get n s'); [apply kept_ret|apply kept_throw]; apply _.
Qed.
Lemma granted_list_steps me u n o c k d :
  me = Some u → kept (rtc (db_step me)) (adb_granted_list n o c k) d.
Proof.
  intros. apply kept_bind; [apply _|by eapply check_realloc_steps|]. intros ? s' _.
  apply kept_get_bind. destruct (user_get n s'); [apply kept_ret|apply kept_throw]; apply _.
Qed.

Ltac keep := keep_with ltac:(idtac; lazymatch goal with |- kept _ (on_table _) _ => apply kept_on_table end).

Section handlers.
Variable me : FCFSAuthUserInfo.
Abbreviation R := (db_steps (Some me)).
Abbreviation may p := (flag_set (user_priv me) p = true).

Lemma user_create_kept req s : may FCFS_AUTH_USER_PRIV_USER_MANAGE →
  kept R (service_deal_user_create req) s.
Proof. intros. unfold service_deal_user_create. keep. by eapply (kept_op _ me (UserCreate _)). Qed.
Lemma user_passwd_kept req s : may FCFS_AUTH_USER_PRIV_USER_MANAGE →
  kept R (service_deal_user_passwd req) s.
Proof. intros. unfold service_deal_user_passwd. keep. by eapply (kept_op _ me (UserUpdatePasswd _ _)). Qed.
Lemma user_grant_kept req s : may FCFS_AUTH_USER_PRIV_USER_MANAGE →
  kept R (service_deal_user_grant req) s.
Proof. intros. unfold service_deal_user_grant. keep. by eapply (kept_op _ me (UserUpdatePriv _ _)). Qed.
Lemma user_remove_kept req s : may FCFS_AUTH_USER_PRIV_USER_MANAGE →
  kept R (service_deal_user_remove req) s.
Proof. intros. unfold service_deal_user_remove. keep. by eapply (kept_op _ me (UserRemove _)). Qed.

Lemma user_list_kept req s : kept R (service_deal_user_list send_space req) s.
Proof.
  unfold service_deal_user_list. do 2 (apply kept_lift_bind; [apply _|]; intros ? _).
  apply kept_bind; [apply _| |intros [l n] s' _; keep]. destruct (0 <? _).
  - keep.
  - cbv zeta. apply kept_bind; [apply _| |keep]. by eapply kept_on_db, user_list_steps.
Qed.

Lemma SPOOL_GET_kept me' un pn s : kept (db_steps me') (SPOOL_GET un pn) s.
Proof. unfold SPOOL_GET. keep. Qed.
Lemma SPOOL_GET_inv un pn s p s' :
  SPOOL_GET un pn s = (Ok p, s') → s' = s ∧ adb_spool_get un pn (adb s) = Some p.
Proof.
  unfold SPOOL_GET. rewrite (bind_ok _ _ _ s s) by done.
  destruct (adb_spool_get un pn (adb s)); [|done]. by intros [= <- <-].
Qed.

Lemma spool_list_kept req s : kept R (service_deal_spool_list send_space req) s.
Proof.
  unfold service_deal_spool_list. apply kept_lift_bind; [apply _|]. intros ? _.
  cbv zeta. destruct (fcfs_auth_parse_user_pool_pair _ _) as [un pn].
  apply kept_lift_bind; [apply _|]. intros ? _. apply kept_session_user; [apply _|]. intros v _.
  apply kept_bind; [apply _| |].
  - unfold spool_list_owner. keep. apply kept_bind; [apply _|apply SPOOL_GET_kept|]. intros. keep.
  - intros owner s1 _. apply kept_bind; [apply _| |intros [l n] s' _; keep]. destruct (0 <? _).
    + apply kept_bind; [apply _|apply SPOOL_GET_kept|keep].
    + cbv zeta. apply kept_bind; [apply _| |keep]. by eapply kept_on_db, spool_list_steps.
Qed.

Lemma gpool_list_kept by_me req s :
  by_me = session_user s → kept (db_steps by_me) (service_deal_gpool_list send_space req) s.
Proof.
  intros Hme. unfold service_deal_gpool_list. apply kept_lift_bind; [apply _|]. intros ? _.
  cbv zeta. destruct (fcfs_auth_parse_user_pool_pair _ _) as [un pn].
  apply kept_lift_bind; [apply _|]. intros ? _. apply kept_session_user; [apply _|]. intros v Hv.
  apply kept_bind; [apply _| |].
  - keep. apply kept_bind; [apply _|apply kept_ensure; apply _|keep].
  - intros owner s1 _. apply kept_bind; [apply _| |keep].
    apply kept_on_db, (granted_list_steps _ v). congruence.
Qed.

Lemma template_loop_kept fuel pn spool dry n s : may FCFS_AUTH_USER_PRIV_CREATE_POOL →
  kept R (template_loop fuel (user_name me) pn spool dry n) s.
Proof.
  intros Hc. revert n s. induction fuel as [|fuel IH]; intros n s; simpl; [keep|].
  apply kept_lift_bind; [apply _|]. intros name _.
  assert (∀ s, kept R (on_db adb_spool_next_auto_id) s) as Hnext.
  { intros s0. by eapply kept_on_db, rtc_once, step_next_id. }
  destruct dry.
  - apply kept_get_bind. destruct (adb_spool_access name (adb s)); [|keep].
    apply kept_bind; [apply _|apply Hnext|]. intros. apply IH.
  - apply kept_bind; [apply _| |].
    { by eapply kept_attempt, (kept_op _ me (SpoolCreate _ _)). }
    intros r s1 _. destruct r as [[]|e].
    + apply kept_bind; [apply _| |keep]. by eapply kept_on_db, rtc_once, step_inc_id.
    + destruct e; keep. apply kept_bind; [apply _|apply Hnext|]. intros. apply IH.
Qed.

Lemma spool_create_kept req s :
  session_user s = Some me → may FCFS_AUTH_USER_PRIV_CREATE_POOL →
  kept R (service_deal_spool_create POOL_NAME_TEMPLATE req) s.
Proof.
  intros Hme Hc. unfold service_deal_spool_create. cbv zeta.
  do 2 (apply kept_lift_bind; [apply _|]; intros ? _).
  assert (∀ c : string_t * list byte → M S response, (∀ x, kept R (c x) s) →
    kept R ((if Z.of_nat (length (name_at (body req) 9)) =? 0 then mret (POOL_NAME_TEMPLATE, [])
             else _ ← lift (fc_check_filename_ex (name_at (body req) 9));
                  mret (name_at (body req) 9, behind req)) ≫= c) s) as Hname.
  { intros c Hcont. apply kept_bind; [apply _|keep|]. intros x s'. case_match.
    - intros [= <- <-]. apply Hcont.
    - intros [(? & _ & ?)|(? & ? & [= _ <-] & Hr)]%bind_inv; [done|].
      injection Hr as <- <-. apply Hcont. }
  apply Hname. intros [name rest]. apply kept_session_user; [apply _|]. intros u Hu.
  rewrite Hme in Hu. injection Hu as <-.
  apply kept_bind; [apply _| |keep]. destruct (_ && _); [|destruct (negb _)].
  - unfold spool_create_by_template. apply kept_get_bind. by apply template_loop_kept.
  - keep.
  - apply kept_bind; [apply _| |keep]. by eapply (kept_op _ me (SpoolCreate _ _)).
Qed.

Lemma spool_remove_kept req s :
  session_user s = Some me → may FCFS_AUTH_USER_PRIV_CREATE_POOL →
  kept R (service_deal_spool_remove req) s.
Proof.
  intros Hme Hc. unfold service_deal_spool_remove. keep. simplify_eq.
  by eapply (kept_op _ me (SpoolRemove _ _)).
Qed.
Lemma spool_set_quota_kept req s :
  session_user s = Some me → may FCFS_AUTH_USER_PRIV_CREATE_POOL →
  kept R (service_deal_spool_set_quota req) s.
Proof.
  intros Hme Hc. unfold service_deal_spool_set_quota. keep. simplify_eq.
  by eapply (kept_op _ me (SpoolSetQuota _ _ _)).
Qed.

Lemma spool_grant_kept req s :
  session_user s = Some me → may FCFS_AUTH_USER_PRIV_CREATE_POOL →
  kept R (service_deal_spool_grant req) s.
Proof.
  intros Hme Hc. unfold service_deal_spool_grant. cbv zeta.
  apply kept_lift_bind; [apply _|]. intros ? _.
  destruct (fcfs_auth_parse_user_pool_pair _ _) as [dest pn].
  apply kept_lift_bind; [apply _|]. intros ? _. apply kept_session_user; [apply _|]. intros u Hu.
  simplify_eq. apply kept_bind; [apply _|apply SPOOL_GET_kept|].
  intros p s' [-> Hp]%SPOOL_GET_inv. apply kept_bind; [apply _|apply kept_ensure; apply _|].
  intros ? s'. unfold ensure. case_match; [|done]. intros [= <- <-].
  eapply (kept_op _ me (GrantedCreate _ _)); [done|]. simpl. eauto.
Qed.
Lemma spool_withdraw_kept req s :
  session_user s = Some me → may FCFS_AUTH_USER_PRIV_CREATE_POOL →
  kept R (service_deal_spool_withdraw req) s.
Proof.
  intros Hme Hc. unfold service_deal_spool_withdraw. cbv zeta.
  apply kept_lift_bind; [apply _|]. intros ? _.
  destruct (fcfs_auth_parse_user_pool_pair _ _) as [dest pn].
  apply kept_lift_bind; [apply _|]. intros ? _. apply kept_session_user; [apply _|]. intros u Hu.
  simplify_eq. apply kept_bind; [apply _|apply SPOOL_GET_kept|].
  intros p s' [-> Hp]%SPOOL_GET_inv. eapply (kept_op _ me (GrantedRemove _ _)); [done|].
  simpl. eauto.
Qed.
End handlers.

(** ** Dispatch *)

Lemma switch_cases {A} (P : A → Prop) c l (x : A) :
  Forall (λ e, c = e.1 → P e.2) l → P x → P (switch c l x).
Proof.
  induction 1 as [|[k a] l Hk Hl IH]; intros Hx; simpl in *; [done|].
  destruct (Z.eqb_spec c k); [by apply Hk|by apply IH].
Qed.

Lemma kept_done me c m s : kept (db_steps me) m s → kept (db_steps me) (done c m) s.
Proof. intros Hm. apply kept_bind; [apply _|done|keep]. Qed.

Lemma check_user_priv_inv req s x s' :
  check_user_priv req s = (Ok x, s') →
  s' = s ∧ ∃ p, required_priv (cmd req) = Ok p ∧
    ∀ q, p = Some q → SESSION_ENTRY s ≠ None ∧
      (q ≠ 0 → ∃ u, session_user s = Some u ∧ flag_set (user_priv u) q = true).
Proof.
  unfold check_user_priv. intros [(? & _ & ?)|(p & s1 & Hl & Hr)]%bind_inv; [done|].
  injection Hl as Hp <-. destruct p as [q|].
  - rewrite (bind_ok _ _ _ s s) in Hr by done. destruct (SESSION_ENTRY s) eqn:Es; [|done].
    destruct (Z.eqb_spec q 0).
    { injection Hr as _ <-. split; [done|]. exists (Some q). split; [done|]. by intros ? [= <-]. }
    apply bind_inv in Hr as [(? & _ & ?)|(u & s2 & Hu & Hr)]; [done|].
    rewrite SESSION_USER_eq in Hu. destruct (session_user s) as [v|] eqn:Ev; [|done].
    injection Hu as <- <-. unfold ensure in Hr. destruct (flag_set _ _) eqn:Ef; [|done].
    injection Hr as _ <-. split; [done|]. exists (Some q). split; [done|].
    intros ? [= <-]. split; [done|]. eauto.
  - injection Hr as _ <-. split; [done|]. by exists None.
Qed.

(** The commands of libserverframe are none of ours. *)
Lemma required_priv_cmd c : c ∈ auth_service_requests →
  required_priv c =
  if decide (c ∈ [FCFS_AUTH_SERVICE_PROTO_GET_MASTER_REQ; FCFS_AUTH_SERVICE_PROTO_CLUSTER_STAT_REQ;
                  FCFS_AUTH_SERVICE_PROTO_USER_LOGIN_REQ; FCFS_AUTH_SERVICE_PROTO_SPOOL_GET_QUOTA_REQ])
  then Ok None
  else if decide (c ∈ [FCFS_AUTH_SERVICE_PROTO_USER_CREATE_REQ; FCFS_AUTH_SERVICE_PROTO_USER_PASSWD_REQ;
                       FCFS_AUTH_SERVICE_PROTO_USER_LIST_REQ; FCFS_AUTH_SERVICE_PROTO_USER_GRANT_REQ;
                       FCFS_AUTH_SERVICE_PROTO_USER_REMOVE_REQ])
  then Ok (Some FCFS_AUTH_USER_PRIV_USER_MANAGE)
  else if decide (c = FCFS_AUTH_SERVICE_PROTO_GPOOL_LIST_REQ) then Ok (Some 0)
  else Ok (Some FCFS_AUTH_USER_PRIV_CREATE_POOL).
Proof.
  intros Hc. unfold required_priv. simpl. pose proof SF_PROTO_ACTIVE_TEST_REQ_new as Hnew.
  destruct (Z.eqb_spec c SF_PROTO_ACTIVE_TEST_REQ) as [->|_]; [done|]. clear Hnew.
  unfold auth_service_requests in Hc. repeat apply elem_of_cons in Hc as [->|Hc]; [reflexivity..|].
  by apply not_elem_of_nil in Hc.
Qed.

Lemma required_priv_leader : required_priv SF_SERVICE_PROTO_GET_LEADER_REQ = Err (NEG EINVAL).
Proof.
  unfold required_priv. pose proof SF_SERVICE_PROTO_GET_LEADER_REQ_new as Hnew.
  unfold auth_service_requests in Hnew. rewrite !not_elem_of_cons in Hnew. simpl.
  repeat (rewrite (proj2 (Z.eqb_neq _ _)) by tauto). done.
Qed.

Abbreviation deal_task :=
  (service_deal_task POOL_NAME_TEMPLATE send_space address_by_peer IP_ADDRESS_SIZE cluster).

(** The user on whose behalf the master works. *)
Definition acting_user s : option FCFSAuthUserInfo :=
  if MYSELF_IS_MASTER cluster then session_user s else None.

Lemma user_login_kept me req s : kept (db_steps me) (service_deal_user_login req) s.
Proof.
  unfold service_deal_user_login. cbv zeta. apply kept_lift_bind; [apply _|]. intros ? _.
  destruct (fcfs_auth_parse_user_pool_pair _ _) as [un pn]. keep.
  apply kept_bind; [apply _| |].
  - unfold login_fields. apply kept_get_bind. apply kept_bind; [apply _| |intros [? ?]; keep]. keep.
  - intros f s1 _. apply kept_bind; [apply _|apply kept_attempt, kept_on_table|].
    intros r s2 _. destruct r as [e|[]]; keep. apply kept_bind; [apply _| |keep].
    apply kept_modify. unfold db_steps. cbn. reflexivity.
Qed.

(** Without the cases that need a privilege, the result of the check says who
    acts. *)
Definition entitled (me : option FCFSAuthUserInfo) (c : Z) s : Prop :=
  ∀ q, required_priv c = Ok (Some q) → me = session_user s ∧
    (q ≠ 0 → ∃ u, session_user s = Some u ∧ flag_set (user_priv u) q = true).

Lemma entitled_priv me c q s :
  entitled me c s → c ∈ auth_service_requests → required_priv c = Ok (Some q) → q ≠ 0 →
  ∃ u, me = Some u ∧ session_user s = Some u ∧ flag_set (user_priv u) q = true.
Proof. intros He _ Hq Hz. destruct (He q Hq) as (-> & (u & Hu & Hf)); [done|]. eauto. Qed.

Ltac need q He :=
  destruct (entitled_priv _ _ q _ He) as (u & -> & Hu & Hf);
  [by compute_done|by rewrite required_priv_cmd by compute_done|done|].

Lemma service_process_kept me req s :
  (MYSELF_IS_MASTER cluster = true ∨
   cmd req ∈ [FCFS_AUTH_SERVICE_PROTO_GET_MASTER_REQ; SF_PROTO_ACTIVE_TEST_REQ] →
   entitled me (cmd req) s) →
  cmd req ≠ SF_SERVICE_PROTO_GET_LEADER_REQ →
  kept (db_steps me) (service_process POOL_NAME_TEMPLATE send_space address_by_peer
                        IP_ADDRESS_SIZE cluster req) s.
Proof.
  intros He Hl. unfold service_process. cbv zeta. match goal with |- kept _ (if ?b then _ else _) _ => destruct b eqn:Hg end; [keep|].
  assert (entitled me (cmd req) s) as He'.
  { apply He. destruct (MYSELF_IS_MASTER cluster); [by left|right]. simpl in Hg. bool_to_prop.
    apply orb_true_iff in Hg as [[?%Z.eqb_eq|?%Z.eqb_eq]%orb_true_iff|?%Z.eqb_eq]; set_solver. }
  clear He. rename He' into He.
  apply (switch_cases (λ m, kept (db_steps me) m s)); [|keep].
  rewrite !Forall_cons, Forall_nil. split_and!; try done; simpl; intros Hc; rewrite Hc in He.
  all: try apply kept_done.
  - keep.
  - apply user_login_kept.
  - need FCFS_AUTH_USER_PRIV_USER_MANAGE He. by apply user_create_kept.
  - need FCFS_AUTH_USER_PRIV_USER_MANAGE He. by apply user_passwd_kept.
  - need FCFS_AUTH_USER_PRIV_USER_MANAGE He. by apply user_list_kept.
  - need FCFS_AUTH_USER_PRIV_USER_MANAGE He. by apply user_grant_kept.
  - need FCFS_AUTH_USER_PRIV_USER_MANAGE He. by apply user_remove_kept.
  - need FCFS_AUTH_USER_PRIV_CREATE_POOL He. by apply spool_create_kept.
  - need FCFS_AUTH_USER_PRIV_CREATE_POOL He. by apply spool_list_kept.
  - need FCFS_AUTH_USER_PRIV_CREATE_POOL He. by apply spool_remove_kept.
  - need FCFS_AUTH_USER_PRIV_CREATE_POOL He. by apply spool_set_quota_kept.
  - unfold service_deal_spool_get_quota. keep.
  - need FCFS_AUTH_USER_PRIV_CREATE_POOL He. by apply spool_grant_kept.
  - need FCFS_AUTH_USER_PRIV_CREATE_POOL He. by apply spool_withdraw_kept.
  - destruct (He 0) as [Hme _]; [by rewrite required_priv_cmd by compute_done|].
    by apply gpool_list_kept.
  - unfold service_deal_cluster_stat. keep.
  - unfold fcfs_auth_deal_get_master. keep.
Qed.

Lemma service_deal_task_kept req s : kept (db_steps (acting_user s)) (deal_task req) s.
Proof.
  apply kept_bind; [apply _| |].
  { unfold check_user_priv. keep. }
  intros x s1 (-> & p & Hp & Hsess)%check_user_priv_inv. apply service_process_kept.
  2: { intros Hc. by rewrite Hc, required_priv_leader in Hp. }
  unfold acting_user. intros Hm q Hq. rewrite Hp in Hq. injection Hq as ->.
  destruct (Hsess q eq_refl) as [_ Hu]. split; [|done]. destruct (MYSELF_IS_MASTER cluster); [done|].
  destruct Hm as [|[Hc|[Hc|Hc]%elem_of_cons]%elem_of_cons]; [done| | |by apply not_elem_of_nil in Hc]; rewrite Hc in Hp.
  - by rewrite required_priv_cmd in Hp by compute_done.
  - unfold required_priv in Hp. simpl in Hp. by rewrite Z.eqb_refl in Hp.
Qed.
End proofs.

(** ** Only a login touches the sessions *)
Section sessions.
Context `{!BuffCodec, !ServerFrame, !NameTools}.
Context {D : Type} `{!AuthDao D, !NameAllocator D, !Malloc D}.
Context {MB : Type} `{!Mblock MB}.
Context {SLs SLi : Type → Type} `{!UniqSkiplist string_t SLs, !UniqSkiplist Z SLi}.
Context {T : Type} `{!SessionStore ServerSessionFields T}.
Variable POOL_NAME_TEMPLATE : string_t.
Variable send_space : Z.
Variable address_by_peer : FCFSAuthClusterServerInfo → string_t * Z.
Variable IP_ADDRESS_SIZE : Z.
Variable cluster : cluster_vars.
Abbreviation S := (service_state D MB SLs SLi T).
Implicit Types s : S.

Definition quiet s s' : Prop :=
  table s' = table s ∧ SESSION_ENTRY s' = SESSION_ENTRY s ∧ SERVER_TASK_TYPE s' = SERVER_TASK_TYPE s.
#[global] Instance quiet_preorder : PreOrder quiet.
Proof. split; [done|]. intros ? ? ? (?&?&?) (?&?&?). unfold quiet. split_and!; congruence. Qed.

Lemma quiet_on_db {A} (m : M (AuthDBContext D MB SLs SLi) A) s : kept quiet (on_db m) s.
Proof. unfold kept, on_db. by destruct (m (adb s)). Qed.

Ltac hush := keep_with ltac:(idtac; lazymatch goal with
  | |- kept _ (on_db _) _ => apply quiet_on_db
  | |- kept _ (attempt _) _ => apply kept_attempt
  | |- kept _ (_ ≫= _) _ => apply kept_bind; [apply _| |]
  end).

Lemma quiet_template fuel un pn sp dry n s : kept quiet (template_loop fuel un pn sp dry n) s.
Proof.
  revert n s. induction fuel as [|fuel IH]; intros n s; simpl; hush; apply IH.
Qed.

(** What a login does to its connection, whether or not the session table has
    room. *)
Definition logged_in s s' : Prop :=
  SESSION_ENTRY s = None ∧ SERVER_TASK_TYPE s = SF_SERVER_TASK_TYPE_NONE ∧ adb s' = adb s ∧
  ∃ f u n, dbuser f = Some u ∧ adb_user_get n (adb s) = Some u ∧
    ((∃ e, store_add f (publish f) false (table s) = (Ok e, table s') ∧
           SESSION_ENTRY s' = Some e ∧ SERVER_TASK_TYPE s' = AUTH_SERVER_TASK_TYPE_SESSION) ∨
     (∃ e, store_add f (publish f) false (table s) = (Err e, table s') ∧
           SESSION_ENTRY s' = None ∧ SERVER_TASK_TYPE s' = SF_SERVER_TASK_TYPE_NONE)).

Lemma login_fields_inv u pn flags s r s' :
  login_fields u pn flags s = (r, s') →
  s' = s ∧ ∀ f, r = Ok f → publish f = flag_set flags FCFS_AUTH_SESSION_FLAGS_PUBLISH ∧
    dbuser f = Some u ∧
    if decide (pn = []) then dbpool f = None ∧ pool_privs f = {| fdir := 0; fstore := 0 |}
    else ∃ p, adb_spool_global_get pn (adb s) = Some p ∧ dbpool f = Some p ∧
              adb_granted_privs_get u p (adb s) = Ok (pool_privs f).
Proof.
  unfold login_fields. rewrite (bind_ok _ _ _ s s) by done. intros Hr.
  destruct pn as [|c pn]; simpl in Hr.
  { injection Hr as <- <-. split; [done|]. by intros f [= <-]. }
  replace (0 <? Z.of_nat (Datatypes.S (length pn))) with true in Hr by (symmetry; apply Z.ltb_lt; lia).
  destruct (adb_spool_global_get (c :: pn) (adb s)) as [p|]; [|by injection Hr as <- <-].
  destruct (adb_granted_privs_get u p (adb s)) as [privs|e] eqn:Ep; injection Hr as <- <-; [|done].
  split; [done|]. intros f [= <-]. split_and!; [done..|]. rewrite decide_False by done. by exists p.
Qed.

Lemma user_login_session req s :
  ends (λ s', quiet s s' ∨ logged_in s s') (service_deal_user_login req) s.
Proof.
  unfold service_deal_user_login. cbv zeta. apply ends_lift; [by left|]. intros _ _.
  destruct (fcfs_auth_parse_user_pool_pair (body req) 17) as [un pn].
  apply ends_lift; [by left|]. intros _ _. apply ends_bind; [|done]. intros ? ? [= <- <-].
  case_bool_decide as Hse; [by left|].
  destruct (Z.eqb_spec (SERVER_TASK_TYPE s) SF_SERVER_TASK_TYPE_NONE) as [Hty|]; [|by left]. simpl.
  destruct (adb_user_get un (adb s)) as [u|] eqn:Eu; [|by left].
  destruct (fc_string_equal _ _); [|by left].
  apply ends_bind; [|intros e s' [-> _]%login_fields_inv; by left].
  intros f s' [-> Hf]%login_fields_inv. destruct (Hf f eq_refl) as (_ & Hu & _).
  apply ends_bind; [|intros e s'; unfold attempt; by destruct (on_table _ s)]. intros r s1 Ha%attempt_inv.
  unfold on_table in Ha. destruct (store_add f (publish f) false (table s)) as [r' t'] eqn:Ea.
  injection Ha as -> <-. right. destruct r as [e|e].
  - split_and!; [done..|]. exists f, u, un. split_and!; [done..|]. left. by exists e.
  - assert (∀ e', logged_in s (throw (A:=response) e' (set_table t' s)).2) as Herr.
    { intros e'. split_and!; [done..|]. exists f, u, un. split_and!; [done..|]. right. by exists e. }
    destruct e; apply Herr.
Qed.

Lemma deal_task_session req s :
  let s' := (service_deal_task POOL_NAME_TEMPLATE send_space address_by_peer IP_ADDRESS_SIZE
               cluster req s).2 in
  quiet s s' ∨ logged_in s s'.
Proof.
  cbv zeta. unfold service_deal_task, mbind, M_bind.
  assert (kept quiet (check_user_priv req) s) as Hq by (unfold check_user_priv; hush).
  unfold kept in Hq. destruct (check_user_priv req s) as [[x|e] s1] eqn:Ec; [|by left].
  apply check_user_priv_inv in Ec as [-> _]. clear Hq. unfold service_process. cbv zeta.
  match goal with |- context [if ?b then _ else _] => destruct b end; [by left|].
  apply (switch_cases (λ m, quiet s (m s).2 ∨ logged_in s (m s).2)); [|by left].
  assert (∀ A (m : M S A), kept quiet m s → quiet s (m s).2 ∨ logged_in s (m s).2) as Hk
    by (intros A m Hm; by left).
  rewrite !Forall_cons, Forall_nil. split_and!; try done; simpl; intros _.
  2: apply user_login_session.
  all: apply Hk.
  all: unfold done, service_deal_user_create, service_deal_user_passwd, service_deal_user_list,
    service_deal_user_grant, service_deal_user_remove, service_deal_spool_create,
    service_deal_spool_list, spool_list_owner, SPOOL_GET, service_deal_spool_remove,
    service_deal_spool_set_quota, service_deal_spool_get_quota, service_deal_spool_grant,
    service_deal_spool_withdraw, service_deal_gpool_list, service_deal_cluster_stat,
    fcfs_auth_deal_get_master, spool_create_by_template, SPOOL_GET; hush; try apply quiet_template.
Qed.
End sessions.

(** ** Users stay listed

    Whatever an operation does and whatever its result, the users that were
    listed are listed under the same names, and new ones are listed under
    theirs: a pointer to a user stays good. *)
Section users.
Context {D : Type} `{!AuthDao D, !NameAllocator D, !Malloc D}.
Context {MB : Type} `{!Mblock MB, !MblockLaws MB}.
Context `{!FcCompare}.
Context {SLs SLi : Type → Type} `{!UniqSkiplist string_t SLs, !UniqSkiplist Z SLi}.
Context `{!UniqSkiplistLaws fc_string_compare SLs}.
Abbreviation DB := (AuthDBContext D MB SLs SLi).
Implicit Types d : DB.

Record users_stay d d' : Prop := {
  us_live a : a ∈ live 0 d → a ∈ live 0 d';
  us_name a : a ∈ live 0 d → user_name (user (users d' a)) = user_name (user (users d a));
  us_listed n a : sl_find (user_sl d) n = Some a → sl_find (user_sl d') n = Some a;
  us_new n a : sl_find (user_sl d') n = Some a →
    sl_find (user_sl d) n = Some a ∨ (a ∈ live 0 d' ∧ user_name (user (users d' a)) = n);
}.
#[global] Instance users_stay_preorder : PreOrder users_stay.
Proof.
  split; [by split; auto|]. intros d1 d2 d3 [L1 N1 S1 W1] [L2 N2 S2 W2]. split; [by auto| |by auto|].
  - intros a Ha. by rewrite N2, N1 by auto.
  - intros n a [Ha|?]%W2; [|by right]. apply W1 in Ha as [?|[Hl Hn]]; [by left|right].
    split; [by auto|]. by rewrite N2.
Qed.

Lemma stay_same d d' :
  mem d' 0 = mem d 0 → user_sl d' = user_sl d →
  (∀ a, user_name (user (users d' a)) = user_name (user (users d a))) → users_stay d d'.
Proof. intros Hm Hs Hn. split; unfold live; rewrite ?Hm, ?Hs; auto. Qed.

Lemma alter_name (f : DBUserInfo → DBUserInfo) (us : addr → DBUserInfo (SLs:=SLs) (SLi:=SLi)) a b :
  (∀ u, user_name (user (f u)) = user_name (user u)) →
  user_name (user (alter f a us b)) = user_name (user (us b)).
Proof.
  intros Hf. destruct (decide (a = b)) as [->|]; [by rewrite fn_lookup_alter|].
  by rewrite fn_lookup_alter_ne.
Qed.

Lemma stay_backend {A} (m : M D A) d : kept users_stay (on_backend m) d.
Proof. unfold kept, on_backend. destruct (m (backend d)). by apply stay_same. Qed.

Lemma stay_mod_user a f d :
  (∀ u, user_name (f u) = user_name u) → kept users_stay (mod_user a (with_user f)) d.
Proof. intros Hf. apply kept_modify, stay_same; try done. intros b. apply alter_name. intros u. apply Hf. Qed.
Lemma stay_mod_pool a f d : kept users_stay (mod_pool a f) d.
Proof. by apply kept_modify, stay_same. Qed.
Lemma stay_mod_grant a f d : kept users_stay (mod_grant a f) d.
Proof. by apply kept_modify, stay_same. Qed.
Lemma stay_log c d : kept users_stay (modify (log_change c)) d.
Proof. by apply kept_modify, stay_same. Qed.

Lemma stay_alloc i d : kept users_stay (alloc_object i) d.
Proof.
  unfold kept, alloc_object. destruct (mb_alloc i (mem d i)) as [r m] eqn:E.
  split; simpl; try done; [|by left].
  intros a Ha. unfold live in *. simpl. destruct (decide (i = 0)) as [->|].
  - rewrite fn_lookup_insert. destruct r as [b|].
    + apply mb_alloc_some in E as [_ ->]. set_solver.
    + by rewrite (mb_alloc_none _ _ _ E).
  - by rewrite fn_lookup_insert_ne.
Qed.
Lemma stay_free i a d : i ≠ 0 → kept users_stay (free_object i a) d.
Proof. intros Hi. apply kept_modify, stay_same; try done. simpl. by rewrite fn_lookup_insert_ne. Qed.

Lemma stay_created_insert u p d : kept users_stay (created_insert u p) d.
Proof.
  unfold kept, created_insert. destruct (sl_insert _ _ _) as [r sl]. apply stay_same; try done.
  intros a. by apply alter_name.
Qed.
Lemma stay_granted_insert u g i d : kept users_stay (granted_insert u g i) d.
Proof.
  unfold kept, granted_insert. destruct (sl_insert _ _ _) as [r sl]. apply stay_same; try done.
  intros a. by apply alter_name.
Qed.
Lemma stay_global_insert p d : kept users_stay (spool_global_skiplists_insert p) d.
Proof.
  apply kept_bind; [apply _|..]; [|intros ? ? _]; unfold kept, by_id_insert, by_name_insert;
    destruct (sl_insert _ _ _); by apply stay_same.
Qed.

(** One step of an operation; what is left is a change of users. *)
Ltac stay_step :=
  lazymatch goal with
  | |- ∀ _, _ => intro
  | |- kept _ (mret _) _ => apply kept_ret; apply _
  | |- kept _ (throw _) _ => apply kept_throw; apply _
  | |- kept _ (gets _) _ => apply kept_gets; apply _
  | |- kept _ get _ => apply kept_get; apply _
  | |- kept _ (on_backend _) _ => apply stay_backend
  | |- kept _ (attempt _) _ => apply kept_attempt
  | |- kept _ (alloc_object _) _ => apply stay_alloc
  | |- kept _ (free_object _ _) _ => by apply stay_free
  | |- kept _ (mod_user _ _) _ => by apply stay_mod_user
  | |- kept _ (mod_pool _ _) _ => apply stay_mod_pool
  | |- kept _ (mod_grant _ _) _ => apply stay_mod_grant
  | |- kept _ (modify (log_change _)) _ => apply stay_log
  | |- kept _ (created_insert _ _) _ => apply stay_created_insert
  | |- kept _ (granted_insert _ _ _) _ => apply stay_granted_insert
  | |- kept _ (spool_global_skiplists_insert _) _ => apply stay_global_insert
  | |- kept _ (match ?x with _ => _ end) _ => destruct x
  | |- kept _ (_ ≫= _) _ => apply kept_bind; [apply _| |]
  end.
Ltac stay := repeat (cbv beta zeta; stay_step).

Lemma stay_set_passwd a p d : kept users_stay (user_set_passwd a p) d.
Proof. unfold user_set_passwd. stay. Qed.

(** A new object may be named, as nobody lists it yet. *)
Lemma stay_new_user n d :
  kept users_stay (a ← alloc_object 0; n ← on_backend (fast_allocator_alloc_string n);
                   _ ← mod_user a (with_user (set_user_name n)); mret (a, true)) d.
Proof.
  unfold kept, alloc_object, on_backend, mbind, M_bind.
  destruct (mb_alloc 0 (mem d 0)) as [[a|] m] eqn:E; simpl.
  2: { split; try done; [|by left]. unfold live; simpl. intros b.
       by rewrite fn_lookup_insert, (mb_alloc_none _ _ _ E). }
  apply mb_alloc_some in E as [Hf Hm]. unfold live.
  destruct (fast_allocator_alloc_string n (backend d)) as [[v|e] d']; simpl; split; unfold live; simpl;
    try done; try (by left); intros b Hb; rewrite ?fn_lookup_insert, ?Hm; try set_solver.
  destruct (decide (a = b)) as [->|]; [done|by rewrite fn_lookup_alter_ne].
Qed.

Lemma stay_list_user a d :
  a ∈ live 0 d →
  users_stay d (match sl_insert (user_sl d) (user_name (user (users d a))) a with
                | (Ok _, sl) => set_user_sl (user_count d + 1) sl d
                | (Err _, sl) => set_user_sl (user_count d) sl d
                end).
Proof.
  intros Ha. destruct (sl_insert _ _ _) as [[[]|e] sl] eqn:E; split; simpl; try done.
  - intros n b Hb. apply sl_insert_ok in E as [Hn ->]. rewrite decide_False; [done|]. congruence.
  - intros n b. apply sl_insert_ok in E as [_ ->]. case_decide; [|by left].
    intros [= <-]. by right.
  - intros n b Hb. by apply sl_insert_err in E as ->.
  - intros n b Hb. left. by apply sl_insert_err in E as <-.
Qed.

Lemma kept_bind_live {A B} a (m : M DB A) (k : A → M DB B) d :
  kept users_stay m d → a ∈ live 0 d → (∀ x d', a ∈ live 0 d' → kept users_stay (k x) d') →
  kept users_stay (m ≫= k) d.
Proof.
  intros Hm Ha Hk. apply kept_bind; [apply _|done|]. intros x d' Hr. apply Hk.
  unfold kept in Hm. rewrite Hr in Hm. by apply Hm.
Qed.

Lemma stay_user_create db u b d : kept users_stay (user_create db u b) d.
Proof.
  unfold user_create. destruct db as [c|].
  { apply kept_bind; [apply _|stay|]. intros [a need] d1 Hr. injection Hr as <- <- <-.
    stay; apply stay_set_passwd. }
  apply kept_bind; [apply _|apply stay_new_user|]. intros [a need] d1 Hr.
  assert (a ∈ live 0 d1 ∧ need = true) as [Ha ->].
  { apply bind_inv in Hr as [(? & _ & ?)|(a' & d2 & (m & -> & _ & Hm)%alloc_object_inv & Hr)]; [done|].
    apply bind_inv in Hr as [(? & _ & ?)|(n' & d3 & (d4 & _ & ->)%on_backend_inv & Hr)]; [done|].
    apply bind_inv in Hr as [(? & _ & ?)|([] & d5 & ->%modify_inv & Hr)]; [done|].
    injection Hr as Hr1 <- <-. subst a'. unfold live. simpl. rewrite fn_lookup_insert, Hm. set_solver. }
  cbv beta iota. apply (kept_bind_live a); [apply stay_set_passwd|done|]. intros _ d2 H2.
  apply (kept_bind_live a); [by apply stay_mod_user|done|]. intros _ d3 H3.
  apply (kept_bind_live a); [stay|done|]. intros id d4 H4.
  apply (kept_bind_live a); [by apply stay_mod_user|done|]. intros _ d5 H5.
  apply (kept_bind_live a); [by apply stay_mod_user|done|]. intros _ d6 H6.
  apply kept_bind; [apply _| |stay]. by apply kept_modify, stay_list_user.
Qed.

Lemma stay_storage_pool_create u db info b d : kept users_stay (storage_pool_create u db info b) d.
Proof. unfold storage_pool_create. stay. Qed.
Lemma stay_granted_pool_create u db info b d : kept users_stay (granted_pool_create u db info b) d.
Proof. unfold granted_pool_create. stay. Qed.
Lemma stay_quota_avail p o d : kept users_stay (call_pool_quota_avail_func p o) d.
Proof. apply kept_modify. cbv beta zeta. case_match; [reflexivity|by apply stay_same]. Qed.


Ltac stay_more := stay;
  lazymatch goal with
  | |- kept _ (user_create _ _ _) _ => apply stay_user_create
  | |- kept _ (user_set_passwd _ _) _ => apply stay_set_passwd
  | |- kept _ (storage_pool_create _ _ _ _) _ => apply stay_storage_pool_create
  | |- kept _ (granted_pool_create _ _ _ _) _ => apply stay_granted_pool_create
  | |- kept _ (call_pool_quota_avail_func _ _) _ => apply stay_quota_avail
  | |- kept _ (modify _) _ => apply kept_modify, stay_same; try done; intros; simpl; by rewrite ?alter_name
  end.

Lemma stay_run_op op d : kept users_stay (run_op op) d.
Proof.
  destruct op; simpl.
  - unfold adb_user_create. stay_more.
  - unfold adb_user_remove. stay_more.
  - unfold adb_user_update_priv. stay_more.
  - unfold adb_user_update_passwd. stay_more.
  - unfold adb_spool_create. stay_more.
  - unfold adb_spool_remove. stay.
  - unfold adb_spool_set_quota. stay_more.
  - unfold adb_spool_set_used_bytes. stay_more.
  - unfold adb_granted_create. stay_more.
  - unfold adb_granted_remove. stay_more.
Qed.

Lemma stay_db_step me d d' : db_step me d d' → users_stay d d'.
Proof.
  destruct 1 as [u op d _ _|u d _ _|u d _ _|u n d _].
  - apply stay_run_op.
  - unfold adb_spool_next_auto_id. change (kept users_stay adb_spool_next_auto_id d).
    unfold adb_spool_next_auto_id. stay. by apply kept_modify, stay_same.
  - change (kept users_stay adb_spool_inc_auto_id d).
    unfold adb_spool_inc_auto_id. stay. by apply kept_modify, stay_same.
  - by apply stay_same.
Qed.

Lemma stay_db_steps me d d' : rtc (db_step me) d d' → users_stay d d'.
Proof. induction 1 as [|x y z Hxy _ IH]; [reflexivity|]. etrans; [by eapply stay_db_step|done]. Qed.
End users.
End ServiceProofs.
