(* ===== verification/ServiceSpec.v ===== *)
(** * What the service handler promises

    A request changes the database only through operations its user may cause;
    connections keep pointing to sessions and users that exist; a login needs
    the password and gives the privileges the database records. *)
From Stdlib Require Import Init.Byte.
From S2P Require Import Prelude Fastcommon Session SessionStore SessionSpec AuthProto AuthDB AuthDBProofs AuthDBSpec ServiceHandler ServiceProofs.
Import ServerSession(ServerSessionIdInfo, part1, part2) SessionStore AuthProto AuthDB
  AuthDBProofs AuthDBSpec ServiceHandler ServiceProofs.
Local Open Scope Z_scope.

Module ServiceSpec.
Section spec.
Context `{!BuffCodec, !BuffCodecLaws, !ServerFrame, !ServerFrameLaws, !NameTools}.
Context {D : Type} `{!AuthDao D, !NameAllocator D, !Malloc D}.
Context {MB : Type} `{!Mblock MB, !MblockLaws MB}.
Context `{!FcCompare}.
Context {SLs SLi : Type → Type} `{!UniqSkiplist string_t SLs, !UniqSkiplist Z SLi}.
Context `{!UniqSkiplistLaws fc_string_compare SLs}.
Context {T : Type} `{!SessionStore ServerSessionFields T, !SessionStoreLaws ServerSessionFields T}.
Variable POOL_NAME_TEMPLATE : string_t.
Variable send_space : Z.
Variable address_by_peer : FCFSAuthClusterServerInfo → string_t * Z.
Variable IP_ADDRESS_SIZE : Z.
Variable cluster : cluster_vars.

Abbreviation DB := (AuthDBContext D MB SLs SLi).
Abbreviation S := (service_state D MB SLs SLi T).
Abbreviation deal_task :=
  (service_deal_task POOL_NAME_TEMPLATE send_space address_by_peer IP_ADDRESS_SIZE cluster).
Implicit Types (s : S) (d : DB).

(** ** Authorization *)

(** The contents of the database, without what belongs to the allocators. *)
Record same_data d d' : Prop := {
  sd_users : users d' = users d;
  sd_pools : pools d' = pools d;
  sd_grants : grants d' = grants d;
  sd_user_sl : user_sl d' = user_sl d;
  sd_by_id : by_id d' = by_id d;
  sd_by_name : by_name d' = by_name d;
  sd_count : user_count d' = user_count d;
  sd_auto_id : auto_id d' = auto_id d;
  sd_changes : changes d' = changes d;
}.
#[local] Instance same_data_preorder : PreOrder same_data.
Proof. split; [by split|]. intros d1 d2 d3 [] []. split; congruence. Qed.

Lemma unprivileged_step u d d' :
  flag_set (user_priv u) FCFS_AUTH_USER_PRIV_USER_MANAGE = false →
  flag_set (user_priv u) FCFS_AUTH_USER_PRIV_CREATE_POOL = false →
  db_step (Some u) d d' → same_data d d'.
Proof.
  intros Hm Hc Hstep. remember (Some u) as me eqn:Hme.
  destruct Hstep as [v op ? Hv Hp|v ? Hv Hf|v ? Hv Hf|v n ? Hv]; simplify_eq; try congruence.
  - destruct op; simpl in Hp; naive_solver congruence.
  - by split.
Qed.

(** C5: whatever a request contains and however it ends, the database is changed
    by a sequence of operations that the user of the connection's session may
    cause: changes of users with the right to manage users, changes of pools and
    grants only for pools of that user and with the right to create pools.
    Without a session or on a server that is not master nothing changes, and
    without these rights no data do. *)
Theorem service_permitted req s :
  let s' := (deal_task req s).2 in
  rtc (db_step (acting_user cluster s)) (adb s) (adb s') ∧
  (acting_user cluster s = None → adb s' = adb s) ∧
  (∀ u, session_user s = Some u →
     flag_set (user_priv u) FCFS_AUTH_USER_PRIV_USER_MANAGE = false →
     flag_set (user_priv u) FCFS_AUTH_USER_PRIV_CREATE_POOL = false →
     same_data (adb s) (adb s')).
Proof.
  pose proof (service_deal_task_kept POOL_NAME_TEMPLATE send_space address_by_peer
    IP_ADDRESS_SIZE cluster req s) as Hk. unfold kept, db_steps in Hk. cbv zeta.
  assert (acting_user cluster s = None → adb (deal_task req s).2 = adb s) as Hnone.
  { intros Hn. rewrite Hn in Hk. destruct (rtc_inv _ _ Hk) as [|(y & Hy & _)]; [done|].
    inversion Hy; simplify_eq. }
  split_and!; [done..|]. intros u Hu Hm Hc. unfold acting_user in *.
  destruct (MYSELF_IS_MASTER cluster); [|by rewrite Hnone]. rewrite Hu in Hk.
  clear Hnone Hu. induction Hk as [|x y z Hxy _ IH]; [reflexivity|].
  etrans; [by eapply unprivileged_step|done].
Qed.

(** ** Connections *)

(** The server with its connections. *)
Record server := {
  sv_adb : DB;
  sv_table : T;
  sv_conns : nat → option addr * Z;
}.
Definition at_conn (c : nat) (sv : server) : S :=
  {| adb := sv_adb sv; table := sv_table sv; SESSION_ENTRY := (sv_conns sv c).1;
     SERVER_TASK_TYPE := (sv_conns sv c).2 |}.
Definition put_conn (c : nat) (s : S) (sv : server) : server :=
  {| sv_adb := adb s; sv_table := table s;
     sv_conns := <[c := (SESSION_ENTRY s, SERVER_TASK_TYPE s)]> (sv_conns sv) |}.

Inductive server_step (sv : server) : server → Prop :=
| conn_request c req : server_step sv (put_conn c (deal_task req (at_conn c sv)).2 sv)
| conn_close c : server_step sv (put_conn c (service_task_finish_cleanup (at_conn c sv)).2 sv).

Definition users_listed d : Prop :=
  ∀ n a, sl_find (user_sl d) n = Some a → user_name (user (users d a)) = n ∧ a ∈ live 0 d.

Record conn_inv (sv : server) : Prop := {
  ci_store : store_ok (sv_table sv);
  ci_users : users_listed (sv_adb sv);
  ci_none c : (sv_conns sv c).1 = None → (sv_conns sv c).2 = SF_SERVER_TASK_TYPE_NONE;
  ci_entry c e : (sv_conns sv c).1 = Some e →
    (sv_conns sv c).2 = AUTH_SERVER_TASK_TYPE_SESSION ∧ e ∈ store_live (sv_table sv) ∧
    ∃ u, dbuser (store_fields (sv_table sv) e) = Some u ∧ u ∈ live 0 (sv_adb sv) ∧
      sl_find (user_sl (sv_adb sv)) (user_name (user (users (sv_adb sv) u))) = Some u;
  ci_own c c' e : (sv_conns sv c).1 = Some e → (sv_conns sv c').1 = Some e → c = c';
}.

Lemma users_listed_stay d d' : users_stay d d' → users_listed d → users_listed d'.
Proof.
  intros [L N S W] Hl n a [Ha|[? ?]]%W; [|done]. destruct (Hl n a Ha) as [Hn Hlive].
  split; [by rewrite N|by auto].
Qed.

Lemma stay_deal_task req s : users_stay (adb s) (adb (deal_task req s).2).
Proof.
  eapply stay_db_steps. exact (service_deal_task_kept POOL_NAME_TEMPLATE send_space
    address_by_peer IP_ADDRESS_SIZE cluster req s).
Qed.

(** The user of a session is still listed after the database moved on. *)
Lemma entry_stays d d' u :
  users_stay d d' →
  u ∈ live 0 d ∧ sl_find (user_sl d) (user_name (user (users d u))) = Some u →
  u ∈ live 0 d' ∧ sl_find (user_sl d') (user_name (user (users d' u))) = Some u.
Proof. intros [L N S _] [Hu Hf]. split; [by auto|]. rewrite N by done. by auto. Qed.

Lemma conn_inv_quiet c s' sv :
  conn_inv sv → quiet (at_conn c sv) s' → users_stay (sv_adb sv) (adb s') →
  conn_inv (put_conn c s' sv).
Proof.
  intros [Ho Hu Hn He Hi] (Ht & Hs & Hty) Hstay.
  assert (∀ x, <[c := (SESSION_ENTRY s', SERVER_TASK_TYPE s')]> (sv_conns sv) x = sv_conns sv x) as Hc.
  { intros x. destruct (decide (c = x)) as [->|]; [|by rewrite fn_lookup_insert_ne].
    rewrite fn_lookup_insert, Hs, Hty. simpl. by destruct (sv_conns sv x). }
  split; simpl; rewrite ?Ht; [done|by eapply users_listed_stay|..].
  - intros x. rewrite Hc. apply Hn.
  - intros x e. rewrite Hc. intros (? & ? & u & Hdb & Hul)%He. split_and!; [done..|].
    exists u. split; [done|]. by eapply entry_stays.
  - intros x y e. rewrite !Hc. apply Hi.
Qed.

Lemma conn_inv_login c s' sv :
  conn_inv sv → logged_in (at_conn c sv) s' → conn_inv (put_conn c s' sv).
Proof.
  intros Hinv (Hnone & Hty & Hadb & f & u & n & Hf & Hu & Hadd). simpl in *.
  apply adb_user_get_inv in Hu as [Hu _]. pose proof Hinv as [Ho Hul Hn He Hi].
  destruct (Hul _ _ Hu) as [Hname Hlive].
  destruct Hadd as [(e & Ha & Hs & Ht)|(e & Ha & Hs & Ht)].
  - destruct (store_add_ok _ _ _ _ _ _ Ho Ha) as (Ho' & Hfr & Hl & Hfe & _ & Hkeep & _).
    assert (∀ x a, (sv_conns sv x).1 = Some a → a ≠ e) as Hne.
    { intros x a (_ & Hin & _)%He ->. done. }
    split; simpl; rewrite ?Hadb; [done..| | |].
    + intros x. destruct (decide (c = x)) as [->|]; [by rewrite fn_lookup_insert, Hs|].
      rewrite fn_lookup_insert_ne by done. apply Hn.
    + intros x a. destruct (decide (c = x)) as [->|].
      * rewrite fn_lookup_insert. simpl. rewrite Hs. intros [= <-]. split_and!; [done|set_solver|].
        exists u. rewrite Hfe, Hname. split_and!; done.
      * rewrite fn_lookup_insert_ne by done. intros (? & Hin & v & Hv & ?)%He.
        split_and!; [done|set_solver|]. exists v. by destruct (Hkeep a Hin) as [-> _].
    + intros x y a. destruct (decide (c = x)) as [Hx|Hx], (decide (c = y)) as [Hy|Hy]; subst; try done.
      * rewrite fn_lookup_insert, fn_lookup_insert_ne by done. simpl. rewrite Hs.
        intros [= <-] ?%Hne. done.
      * rewrite fn_lookup_insert, fn_lookup_insert_ne by done. simpl. rewrite Hs.
        intros ?%Hne [= <-]. done.
      * rewrite !fn_lookup_insert_ne by done. apply Hi.
  - destruct (store_add_err _ _ _ _ _ _ Ho Ha) as (_ & Ho' & Hl & Hkeep).
    apply (conn_inv_quiet c (set_table (table (at_conn c sv)) s')) in Hinv.
    2: { split_and!; simpl; congruence. }
    2: { simpl. by rewrite Hadb. }
    destruct Hinv as [_ Hul' Hn' He' Hi']. simpl in *. split; simpl; try done.
    intros x a (? & Hin & v & Hv & ?)%He'. split_and!; [done|by rewrite Hl|].
    exists v. by destruct (Hkeep a) as [-> _].
Qed.

Lemma cleanup_inv s :
  store_ok (table s) →
  (∀ e, SESSION_ENTRY s = Some e →
     e ∈ store_live (table s) ∧ SERVER_TASK_TYPE s = AUTH_SERVER_TASK_TYPE_SESSION) →
  (SESSION_ENTRY s = None → SERVER_TASK_TYPE s = SF_SERVER_TASK_TYPE_NONE) →
  let s' := (service_task_finish_cleanup s).2 in
  adb s' = adb s ∧ SESSION_ENTRY s' = None ∧ SERVER_TASK_TYPE s' = SF_SERVER_TASK_TYPE_NONE ∧
  store_ok (table s') ∧
  (∀ b, b ∈ store_live (table s) → SESSION_ENTRY s ≠ Some b → b ∈ store_live (table s')) ∧
  ∀ b, store_fields (table s') b = store_fields (table s) b.
Proof.
  intros Ho He Hn. unfold service_task_finish_cleanup. rewrite (bind_ok _ _ _ s s) by done.
  destruct (SESSION_ENTRY s) as [e|] eqn:Es.
  - destruct (He e eq_refl) as [Hin ->]. simpl.
    destruct (store_delete_ok (table s) e Ho Hin) as (t' & Hd & Ho' & Hl & Hk).
    unfold mbind, M_bind, attempt, on_table. simpl. rewrite Hd. simpl.
    split_and!; [done..| |by apply Hk]. intros b Hb Hne. rewrite Hl. set_solver.
  - rewrite Hn by done. simpl. split_and!; auto.
Qed.

Lemma conn_inv_step sv sv' : conn_inv sv → server_step sv sv' → conn_inv sv'.
Proof.
  intros Hinv [c req|c].
  - destruct (deal_task_session POOL_NAME_TEMPLATE send_space address_by_peer IP_ADDRESS_SIZE
      cluster req (at_conn c sv)) as [Hq|Hl]; [|by apply conn_inv_login].
    apply conn_inv_quiet; [done..|]. exact (stay_deal_task req (at_conn c sv)).
  - pose proof Hinv as [Ho Hul Hn He Hi].
    destruct (cleanup_inv (at_conn c sv)) as (Ha & Hs & Ht & Ho' & Hl & Hk).
    { done. } { intros e Hse. simpl in Hse. by destruct (He c e Hse) as (? & ? & _). } { apply Hn. }
    set (s' := (service_task_finish_cleanup (at_conn c sv)).2) in *. simpl in Ha, Hl, Hk.
    split; simpl; rewrite ?Ha; [done..| | |].
    + intros x. destruct (decide (c = x)) as [->|]; [by rewrite fn_lookup_insert, Hs|].
      rewrite fn_lookup_insert_ne by done. apply Hn.
    + intros x e. destruct (decide (c = x)) as [->|].
      { rewrite fn_lookup_insert, Hs. done. }
      rewrite fn_lookup_insert_ne by done. intros Hx. destruct (He x e Hx) as (? & Hin & u & Hu & ?).
      split_and!; [done|..]; [|exists u; by rewrite Hk]. apply Hl; [done|]. intros Hc. by destruct (Hi x c e).
    + intros x y e. destruct (decide (c = x)) as [Hx|Hx], (decide (c = y)) as [Hy|Hy]; subst; try done;
        rewrite ?fn_lookup_insert, ?fn_lookup_insert_ne by done; simpl; rewrite ?Hs; try done. apply Hi.
Qed.

Definition server_start (sv : server) : Prop :=
  store_ok (sv_table sv) ∧ users_listed (sv_adb sv) ∧
  ∀ c, sv_conns sv c = (None, SF_SERVER_TASK_TYPE_NONE).

(** C4: in every state that requests of any contents and disconnections can lead
    to, each connection that is logged in points to a session of the table that
    no other connection has, the session names a user that is listed under its
    name, and reading the session's user never follows a null pointer. *)
Theorem connections_invariant sv0 sv :
  server_start sv0 → rtc server_step sv0 sv →
  conn_inv sv ∧ ∀ c, (sv_conns sv c).1 ≠ None → session_user (at_conn c sv) ≠ None.
Proof.
  intros (Ho & Hul & Hc) Hr. assert (conn_inv sv) as Hinv.
  { assert (conn_inv sv0) as Hi0 by (split; try done; intros; rewrite ?Hc in *; done).
    clear Ho Hul Hc.
    induction Hr as [|x y z Hxy _ IH]; [done|]. by eapply IH, conn_inv_step. }
  split; [done|]. intros c Hne. destruct (sv_conns sv c).1 as [e|] eqn:Ee; [|done].
  destruct (ci_entry _ Hinv c e Ee) as (_ & _ & u & Hu & _).
  unfold session_user, session_dbuser. simpl. rewrite Ee. simpl. by rewrite Hu.
Qed.

(** ** Login *)

Definition login_request (flags : Z) (pw un pn rest : list byte) : request :=
  {| cmd := FCFS_AUTH_SERVICE_PROTO_USER_LOGIN_REQ;
     body := byte_of flags :: pw ++ fcfs_auth_pack_user_pool_pair un pn;
     behind := rest |}.

Lemma length_pack_pair un pn :
  Z.of_nat (length (fcfs_auth_pack_user_pool_pair un pn)) =
  2 + Z.of_nat (length un) + Z.of_nat (length pn).
Proof.
  unfold fcfs_auth_pack_user_pool_pair. rewrite length_app, Nat2Z.inj_add, !length_pack_name. lia.
Qed.

(** The handler, given a well-formed request. *)
Lemma login_runs flags pw un pn rest s :
  0 ≤ flags < 256 → Z.of_nat (length pw) = FCFS_AUTH_PASSWD_LEN →
  0 < Z.of_nat (length un) ≤ NAME_MAX → Z.of_nat (length pn) ≤ NAME_MAX →
  MYSELF_IS_MASTER cluster = true →
  SESSION_ENTRY s = None → SERVER_TASK_TYPE s = SF_SERVER_TASK_TYPE_NONE →
  deal_task (login_request flags pw un pn rest) s =
  match adb_user_get un (adb s) with
  | None => (Err EPERM, s)
  | Some u =>
      if fc_string_equal (user_passwd (user (users (adb s) u))) pw then
        (f ← login_fields u pn flags;
         r ← attempt (on_table (store_add f (publish f) false));
         match r with
         | Err NO_RETURN => throw NO_RETURN
         | Err _ => throw ENOMEM
         | Ok e =>
             _ ← modify (set_session (Some e) AUTH_SERVER_TASK_TYPE_SESSION);
             s ← get;
             let id := store_id (table s) e in
             mret {| resp_cmd := FCFS_AUTH_SERVICE_PROTO_USER_LOGIN_RESP;
                     resp_body := long2buff (int64 (part1 id)) ++ long2buff (int64 (part2 id)) |}
         end) s
      else (Err EPERM, s)
  end.
Proof.
  intros Hfl Hpw Hun Hpn Hm Hs Hty. unfold service_deal_task, check_user_priv.
  change (cmd (login_request flags pw un pn rest)) with FCFS_AUTH_SERVICE_PROTO_USER_LOGIN_REQ.
  rewrite required_priv_cmd by compute_done. erewrite !bind_ok by reflexivity.
  unfold service_process. rewrite Hm. cbv zeta.
  change (cmd (login_request flags pw un pn rest)) with FCFS_AUTH_SERVICE_PROTO_USER_LOGIN_REQ.
  cbn [negb andb]. unfold switch at 1.
  rewrite (proj2 (Z.eqb_neq FCFS_AUTH_SERVICE_PROTO_USER_LOGIN_REQ SF_PROTO_ACTIVE_TEST_REQ)).
  2: { intros Heq. apply SF_PROTO_ACTIVE_TEST_REQ_new. rewrite <- Heq. by compute_done. }
  rewrite Z.eqb_refl. unfold service_deal_user_login. cbv zeta.
  set (b := body (login_request flags pw un pn rest)).
  assert (char_at b 0 = flags) as Hflags
    by (etrans; [exact (char_at_app [] (byte_of flags) _)|by apply byte_val_of]).
  assert (bytes_at b 1 FCFS_AUTH_PASSWD_LEN = pw) as Hpass
    by exact (bytes_at_app [byte_of flags] pw _ 1 _ eq_refl (eq_sym Hpw)).
  destruct (parse_pack_pair (byte_of flags :: pw) un pn [] 17) as [Hpair Hlen];
    [simpl; unfold FCFS_AUTH_PASSWD_LEN in Hpw; lia|lia|lia|].
  rewrite app_nil_r in Hpair, Hlen. change ((byte_of flags :: pw) ++ _) with b in Hpair, Hlen.
  assert (Z.of_nat (length b) = sizeof_FCFSAuthProtoUserLoginReq + pair_length b 17) as Hblen.
  { unfold b at 1. cbn [body login_request length]. rewrite length_app, Hlen.
    pose proof (length_pack_pair un pn).
    unfold sizeof_FCFSAuthProtoUserLoginReq, FCFS_AUTH_PASSWD_LEN in *. lia. }
  unfold body_len. fold b. rewrite server_check_min_body_length_eq, server_expect_body_length_eq.
  rewrite (proj2 (Z.leb_le _ _)) by lia. rewrite Hblen, Z.eqb_refl, Hpair, Hflags, Hpass.
  erewrite !bind_ok by reflexivity. rewrite bool_decide_false by (intros Hn; by apply Hn).
  rewrite Hty. cbn [negb]. rewrite Z.eqb_refl. cbn [negb].
  destruct (adb_user_get un (adb s)); [|reflexivity]. by case_match.
Qed.

(** C24: a login with a well-formed request succeeds only for a user in normal
    status with that password; a session is then created for exactly that user,
    with the privileges the database records for the named pool (none without a
    pool), and the response carries its id.  A login that fails leaves the
    connection, the sessions and the database as they were; an unknown user and
    a wrong password are both [EPERM]. *)
Theorem login_correct flags pw un pn rest s :
  0 ≤ flags < 256 → Z.of_nat (length pw) = FCFS_AUTH_PASSWD_LEN →
  0 < Z.of_nat (length un) ≤ NAME_MAX → Z.of_nat (length pn) ≤ NAME_MAX →
  MYSELF_IS_MASTER cluster = true →
  SESSION_ENTRY s = None → SERVER_TASK_TYPE s = SF_SERVER_TASK_TYPE_NONE → store_ok (table s) →
  let '(r, s') := deal_task (login_request flags pw un pn rest) s in
  adb s' = adb s ∧
  match r with
  | Ok resp => ∃ u e,
      adb_user_get un (adb s) = Some u ∧ user_passwd (user (users (adb s) u)) = Some pw ∧
      SESSION_ENTRY s' = Some e ∧ SERVER_TASK_TYPE s' = AUTH_SERVER_TASK_TYPE_SESSION ∧
      store_live (table s') = {[e]} ∪ store_live (table s) ∧ (e ∉ store_live (table s)) ∧
      (let f := store_fields (table s') e in
       dbuser f = Some u ∧ publish f = flag_set flags FCFS_AUTH_SESSION_FLAGS_PUBLISH ∧
       if decide (pn = []) then pool_privs f = {| fdir := 0; fstore := 0 |}
       else ∃ p, adb_spool_global_get pn (adb s) = Some p ∧ dbpool f = Some p ∧
                 adb_granted_privs_get u p (adb s) = Ok (pool_privs f)) ∧
      let id := store_id (table s') e in
      uint64 (buff2long (bytes_at (resp_body resp) 0 8)) = part1 id ∧
      uint64 (buff2long (bytes_at (resp_body resp) 8 8)) = part2 id
  | Err x =>
      SESSION_ENTRY s' = None ∧ SERVER_TASK_TYPE s' = SF_SERVER_TASK_TYPE_NONE ∧
      store_live (table s') = store_live (table s) ∧
      ((∀ u, adb_user_get un (adb s) = Some u → user_passwd (user (users (adb s) u)) ≠ Some pw) →
       x = EPERM)
  end.
Proof.
  intros Hfl Hpw Hun Hpn Hm Hs Hty Ho. rewrite login_runs by done.
  destruct (adb_user_get un (adb s)) as [u|] eqn:Eu; [|by split_and!].
  unfold fc_string_equal. case_bool_decide as Hp; [|by split_and!].
  destruct (login_fields u pn flags s) as [[f|x] s1] eqn:Ef.
  2: { rewrite (bind_err _ _ _ _ _ Ef). apply login_fields_inv in Ef as [-> _].
       split_and!; try done. intros Hno. by destruct (Hno u eq_refl). }
  rewrite (bind_ok _ _ _ _ _ Ef). apply login_fields_inv in Ef as [-> Hf].
  destruct (Hf f eq_refl) as (Hpub & Hdb & Hpool). clear Hf.
  unfold on_table at 1, attempt at 1. unfold mbind at 1, M_bind at 1.
  destruct (store_add f (publish f) false (table s)) as [r t'] eqn:Ea.
  destruct r as [e|x].
  - destruct (store_add_ok _ _ _ _ _ _ Ho Ea) as (_ & Hfr & Hl & Hfe & [Hid1 Hid2] & _ & _).
    unfold mbind, M_bind, modify, get, mret, M_ret. cbn -[bytes_at]. split; [done|].
    exists u, e. rewrite Hfe. split_and!; try done.
    + destruct (decide (pn = [])); [by destruct Hpool|done].
    + rewrite bytes_at_front by (by rewrite length_long2buff). by apply uint64_buff2long.
    + rewrite bytes_at_back by (by rewrite length_long2buff). by apply uint64_buff2long.
  - destruct (store_add_err _ _ _ _ _ _ Ho Ea) as (Hx & _ & Hl & _).
    assert (∀ e', let '(r, s') := throw (A:=response) e' (set_table t' s) in
      adb s' = adb s ∧ r = Err e' ∧ SESSION_ENTRY s' = None ∧
      SERVER_TASK_TYPE s' = SF_SERVER_TASK_TYPE_NONE ∧
      store_live (table s') = store_live (table s)) as Herr by (intros; by split_and!).
    destruct Hx as [-> | ->]; cbn in Herr |- *; destruct (Herr ENOMEM) as (? & _ & ? & ? & ?);
      split_and!; try done; intros Hno; by destruct (Hno u eq_refl).
Qed.

End spec.
End ServiceSpec.

(** ** Examples *)
Module ServiceExamples.
Import Ref AuthDB AuthDBProofs AuthDBSpec AuthDBExamples ServiceHandler ServiceProofs ServiceSpec.

#[export] Instance frame : ServerFrame := {|
  SF_PROTO_ACTIVE_TEST_REQ := 35; SF_PROTO_ACTIVE_TEST_RESP := 36;
  SF_SERVICE_PROTO_GET_LEADER_REQ := 47; SF_SERVICE_PROTO_GET_LEADER_RESP := 48;
  server_expect_body_length len n := if len =? n then Ok tt else Err EINVAL;
  server_check_min_body_length len n := if n <=? len then Ok tt else Err EINVAL;
  server_check_body_length len lo hi :=
    if (lo <=? len) && (len <=? hi) then Ok tt else Err EINVAL;
  sf_proto_pack_limit l := int2buff (offset l) ++ int2buff (count l);
  sf_proto_extract_limit b :=
    {| offset := buff2int (bytes_at b 0 4); count := buff2int (bytes_at b 4 4) |};
  sf_proto_deal_active_test b := match b with [] => Ok tt | _ => Err EINVAL end;
|}.
#[export] Instance frame_laws : ServerFrameLaws.
Proof.
  split; try done; [by compute_done..|].
  intros [o c] Ho Hc. cbn [sf_proto_extract_limit sf_proto_pack_limit frame offset count] in *.
  rewrite bytes_at_front, bytes_at_back by (by rewrite length_int2buff).
  by rewrite !buff2int_int2buff.
Qed.

(** Names without a slash; a tag at the end of a name is replaced. *)
#[export] Instance name_tools : NameTools := {|
  fc_check_filename_ex n := if bool_decide (x2f ∈ n) then Err EINVAL else Ok tt;
  name_itoa := {| fc_itoa n := [byte_of (48 + n mod 10)] |};
  str_replace s tag v size :=
    let k := (length s - length tag)%nat in
    let out := if bool_decide (drop k s = tag) then take k s ++ v else s in
    if Z.of_nat (length out) <? size then Ok out else Err ENOSPC;
|}.

Definition demo_entropy (n : nat) : list ServerSession.id_sample :=
  [{| ServerSession.g_current_time := 1700000000; ServerSession.rand := 12345;
      ServerSession.get_current_time_ns := 99 + Z.of_nat n; ServerSession.fc_safe_rand := 5 |}].

Definition blank_fields : ServerSessionFields :=
  {| publish := false; dbuser := None; dbpool := None; pool_privs := no_privs |}.
Definition sessions : Type := ServerSession.ServerSessionContext ServerSessionFields unit Ref.pool * nat.
#[export] Instance demo_store : SessionStore ServerSessionFields sessions := table_store demo_entropy.
#[export] Instance demo_store_laws : SessionStoreLaws ServerSessionFields sessions.
Proof. exact (table_store_laws demo_entropy). Qed.
Definition no_sessions : sessions :=
  (ServerSession.server_session_init_ex 2 3
     {| ServerSession.add_func := None; ServerSession.del_func := None |} Ref.empty_pool
     (λ _, blank_fields) tt, 0%nat).

(** A cluster of one server. *)
Definition demo_server : FCFSAuthClusterServerInfo :=
  {| server_id := 1; service_ip := [x31]; service_port := 31012; is_online := true |}.
Definition demo_cluster : cluster_vars :=
  {| servers := [demo_server]; CLUSTER_MASTER_PTR := Some 0%nat; CLUSTER_NEXT_MASTER := None;
     CLUSTER_MYSELF_PTR := 0%nat |}.
Definition demo_address (cs : FCFSAuthClusterServerInfo) : string_t * Z :=
  (service_ip cs, service_port cs).
Definition demo_template : string_t := data ++ FCFS_AUTH_AUTO_ID_TAG_STR.

Abbreviation demo_task := (service_deal_task demo_template 65536 demo_address 46 demo_cluster).
Abbreviation St := (service_state dir Ref.pool (gmap string_t) (gmap Z) sessions).

Definition secret : string_t := replicate 16 x70.
Definition admin : FCFSAuthUserInfo :=
  {| user_id := 0; user_name := ann; user_passwd := Some secret; user_priv := 3; user_status := 0 |}.
Definition admin_db := run_ops [UserCreate admin] empty_db.
Definition demo_state : St :=
  {| adb := admin_db; table := no_sessions; SESSION_ENTRY := None;
     SERVER_TASK_TYPE := SF_SERVER_TASK_TYPE_NONE |}.
Definition demo_login : request := login_request 1 secret ann [] [].
Definition demo_create : request :=
  {| cmd := FCFS_AUTH_SERVICE_PROTO_USER_CREATE_REQ;
     body := long2buff 2 ++ secret ++ pack_name bob; behind := [] |}.

Lemma no_sessions_ok : store_ok no_sessions.
Proof. apply SessionSpec.SessionSpec.wf_init; [lia|exact eq_refl]. Qed.

Definition start : server (T:=sessions) :=
  {| sv_adb := admin_db; sv_table := no_sessions; sv_conns := λ _, (None, SF_SERVER_TASK_TYPE_NONE) |}.

Lemma admin_wf : wf admin_db.
Proof. apply run_ops_wf; [apply initial_wf, empty_db_initial|vm_compute; exact eq_refl]. Qed.

(** Without a login the request to create a user changes nothing. *)
Lemma service_permitted_witness : adb (demo_task demo_create demo_state).2 = adb demo_state.
Proof.
  apply (service_permitted demo_template 65536 demo_address 46 demo_cluster demo_create demo_state).
  exact eq_refl.
Defined.

Lemma connections_invariant_witness :
  let sv := put_conn 0 (demo_task demo_login (at_conn 0 start)).2 start in
  (sv_conns sv 0%nat).1 ≠ None ∧ session_user (at_conn 0 sv) ≠ None.
Proof.
  intros sv. assert ((sv_conns sv 0%nat).1 ≠ None) as Hne by (vm_compute; discriminate).
  split; [exact Hne|].
  apply (connections_invariant demo_template 65536 demo_address 46 demo_cluster start sv); [| |exact Hne].
  - split_and!; [exact no_sessions_ok| |done]. intros n a Ha. exact (wf_user _ admin_wf n a Ha).
  - apply rtc_once. constructor.
Defined.

Lemma login_correct_witness :
  let '(r, s') := demo_task demo_login demo_state in is_ok r = true ∧ adb s' = adb demo_state.
Proof.
  assert (is_ok (demo_task demo_login demo_state).1 = true) as Hok by (vm_compute; exact eq_refl).
  pose proof (login_correct demo_template 65536 demo_address 46 demo_cluster 1 secret ann [] []
    demo_state ltac:(lia) eq_refl ltac:(vm_compute; split; [reflexivity|discriminate])
    ltac:(vm_compute; discriminate) eq_refl eq_refl eq_refl no_sessions_ok) as Hl.
  fold demo_login in Hl. destruct (demo_task demo_login demo_state) as [r s'].
  split; [exact Hok|exact (proj1 Hl)].
Defined.

(** The status of a user is looked at when logging in only: the session of an
    administrator that has been removed still creates users. *)
Theorem removed_admin_still_manages :
  let s1 := (demo_task demo_login demo_state).2 in
  let s2 := (on_db (run_op (UserRemove ann)) s1).2 in
  adb_user_get ann (adb s2) = None ∧ is_ok (demo_task demo_create s2).1 = true.
Proof. split; vm_compute; exact eq_refl. Qed.
End ServiceExamples.
