(* ===== verification/SessionSubscribe.v ===== *)
(** * Publication of sessions (src/auth/server/session_subscribe.c)

    The authentication server publishes its sessions to the other servers, which
    subscribe on the cluster port.  A published session is linked in a list; each
    subscriber has a queue of entries (a session was created or changed, a session
    was removed) that the network threads send.  The callbacks of the session
    table and of the database fill the queues.

    What the component reads of the database is the class [SessionDB].  The rest
    of the server's global state, [server_state], is the state of the session
    table's callbacks.  The lists and queues of libfastcommon are lists here, in
    their order; entries and subscribers are objects of a pool. *)
From S2P Require Import Prelude Fastcommon Session AuthDB ServiceHandler.
Import ServerSession.
Import AuthDB(priv_change, user_priv_changed, pool_priv_changed, pool_quota_avail_changed).
Import ServiceHandler(cluster_vars, MYSELF_IS_MASTER, ServerSessionFields, publish, dbuser, dbpool).
Local Open Scope Z_scope.

Module SessionSubscribe.

Definition FCFS_AUTH_SESSION_OP_TYPE_CREATE : Z := 67.  (* C *)
Definition FCFS_AUTH_SESSION_OP_TYPE_REMOVE : Z := 82.  (* R *)

(** What a published session says of its user and its pool. *)
Class SessionDB (D : Type) := {
  db_user_id : D → addr → Z;
  db_user_priv : D → addr → Z;
  db_pool_id : D → addr → Z;
  db_pool_available : D → addr → bool;
}.

(** The database of [AuthDB.v]. *)
#[export] Instance auth_session_db {D MB : Type} {SLs SLi : Type → Type} :
    SessionDB (AuthDB.AuthDBContext D MB SLs SLi) := {|
  db_user_id d u := AuthDB.user_id (AuthDB.user (AuthDB.users d u));
  db_user_priv d u := AuthDB.user_priv (AuthDB.user (AuthDB.users d u));
  db_pool_id d p := AuthDB.pool_id (AuthDB.pool (AuthDB.pools d p));
  db_pool_available d p := AuthDB.FCFS_AUTH_POOL_AVAILABLE (AuthDB.pool (AuthDB.pools d p));
|}.

Record ServerSessionSubscribeEntry := {
  operation : Z;
  session : ServerSessionIdInfo;
  synced : SessionSyncedFields;
}.

(** [nio_thread]: the network thread of the subscriber's connection. *)
Record ServerSessionSubscriber := {
  queue : list (addr * ServerSessionSubscribeEntry);
  in_queue : bool;
  nio_thread : nat;
}.

Definition zero_fields : SessionSyncedFields :=
  {| user_id := 0; user_priv := 0; pool_id := 0; pool_available := false;
     pool_privs := {| fdir := 0; fstore := 0 |} |}.

Definition synced_privs (p : AuthDB.FCFSAuthSPoolPriviledges) : FCFSAuthSPoolPriviledges :=
  {| fdir := AuthDB.fdir p; fstore := AuthDB.fstore p |}.

(** The null pointer is address 0. *)
Definition deref (p : option addr) : addr := default 0%nat p.

Section subscribe.
Context {D MB : Type} `{!SessionDB D, !Mblock MB}.

(** [subs_pool]: the pools of entries (0) and of subscribers (1).  [nio_queues]:
    the list of each network thread of the subscribers it has to serve. *)
Record ServerSessionSubscribeContext := {
  subs_pool : MB;
  subs : addr → ServerSessionSubscriber;
  subscribers : list addr;
  sessions : list addr;
  nio_queues : nat → list addr;
}.

Record server_state := {
  db : D;
  cluster : cluster_vars;
  subscribe_ctx : ServerSessionSubscribeContext;
}.
Abbreviation S := server_state.
Abbreviation C := ServerSessionSubscribeContext.

Definition set_ctx (c : C) (s : S) : S :=
  {| db := db s; cluster := cluster s; subscribe_ctx := c |}.
Definition set_db (d : D) (s : S) : S :=
  {| db := d; cluster := cluster s; subscribe_ctx := subscribe_ctx s |}.
Definition set_pool x (c : C) : C := {| subs_pool := x; subs := subs c;
  subscribers := subscribers c; sessions := sessions c; nio_queues := nio_queues c |}.
Definition set_subs x (c : C) : C := {| subs_pool := subs_pool c; subs := x;
  subscribers := subscribers c; sessions := sessions c; nio_queues := nio_queues c |}.
Definition set_subscribers x (c : C) : C := {| subs_pool := subs_pool c; subs := subs c;
  subscribers := x; sessions := sessions c; nio_queues := nio_queues c |}.
Definition set_sessions x (c : C) : C := {| subs_pool := subs_pool c; subs := subs c;
  subscribers := subscribers c; sessions := x; nio_queues := nio_queues c |}.
Definition set_nio_queues x (c : C) : C := {| subs_pool := subs_pool c; subs := subs c;
  subscribers := subscribers c; sessions := sessions c; nio_queues := x |}.

Definition set_queue q (x : ServerSessionSubscriber) :=
  {| queue := q; in_queue := in_queue x; nio_thread := nio_thread x |}.
Definition set_in_queue b (x : ServerSessionSubscriber) :=
  {| queue := queue x; in_queue := b; nio_thread := nio_thread x |}.

Definition pool_alloc (i : Z) : M C addr := λ c,
  match mb_alloc i (subs_pool c) with
  | (Some a, b) => (Ok a, set_pool b c)
  | (None, b) => (Err ENOMEM, set_pool b c)
  end.
Definition pool_free (i : Z) (a : addr) (c : C) : C := set_pool (mb_free i a (subs_pool c)) c.

(** ** Entries *)

Definition set_session_subscribe_entry (d : D) (m : memory ServerSessionFields) (s : addr)
    : ServerSessionSubscribeEntry :=
  let x := entry (ent m s) in
  let f := data m (fields x) in
  {| operation := FCFS_AUTH_SESSION_OP_TYPE_CREATE;
     session := id_info x;
     synced :=
       {| user_id := db_user_id d (deref (dbuser f));
          user_priv := db_user_priv d (deref (dbuser f));
          pool_id := match dbpool f with Some p => db_pool_id d p | None => 0 end;
          pool_available := match dbpool f with Some p => db_pool_available d p | None => false end;
          pool_privs := match dbpool f with
                        | Some _ => synced_privs (ServiceHandler.pool_privs f)
                        | None => {| fdir := 0; fstore := 0 |}
                        end |} |}.

(** ** Queues *)

(** [cluster_subscriber_queue_push_ex] of cluster_handler.c; waking up the thread
    is not state. *)
Definition cluster_subscriber_queue_push_ex (s : addr) (c : C) : C :=
  if in_queue (subs c s) then c
  else
    let t := nio_thread (subs c s) in
    set_nio_queues (<[t := nio_queues c t ++ [s]]> (nio_queues c))
      (set_subs (alter (set_in_queue true) s (subs c)) c).

(** [fc_queue_push_ex], which tells whether the queue was empty, and the call that
    follows it. *)
Definition queue_push (s a : addr) (e : ServerSessionSubscribeEntry) (c : C) : C :=
  let q := queue (subs c s) in
  let c := set_subs (alter (set_queue (q ++ [(a, e)])) s (subs c)) c in
  if bool_decide (q = []) then cluster_subscriber_queue_push_ex s c else c.

Fixpoint publish_loop (e : ServerSessionSubscribeEntry) (l : list addr) : M C unit :=
  match l with
  | [] => mret tt
  | s :: l =>
      a ← pool_alloc 0;
      _ ← modify (queue_push s a e);
      publish_loop e l
  end.

Definition publish_entry_to_all_subscribers (e : ServerSessionSubscribeEntry) : M C unit :=
  c ← get; publish_loop e (subscribers c).

(** The callers drop the result. *)
Definition publish_entry (e : ServerSessionSubscribeEntry) (s : S) : S :=
  set_ctx (publish_entry_to_all_subscribers e (subscribe_ctx s)).2 s.

Definition publish_session_to_all_subscribers (m : memory ServerSessionFields) (a : addr)
    (s : S) : S :=
  publish_entry (set_session_subscribe_entry (db s) m a) s.

(** ** Callbacks of the session table *)

Definition server_session_add_callback (m : memory ServerSessionFields) (a : addr) (s : S) : S :=
  if publish (data m (fields (entry (ent m a)))) then
    let c := subscribe_ctx s in
    publish_session_to_all_subscribers m a
      (set_ctx (set_sessions (sessions c ++ [fields (entry (ent m a))]) c) s)
  else s.

Definition remove_entry (id : ServerSessionIdInfo) : ServerSessionSubscribeEntry :=
  {| operation := FCFS_AUTH_SESSION_OP_TYPE_REMOVE; session := id; synced := zero_fields |}.

Definition server_session_del_callback (m : memory ServerSessionFields) (a : addr) (s : S) : S :=
  let f := fields (entry (ent m a)) in
  if publish (data m f) && MYSELF_IS_MASTER (cluster s) then
    let c := subscribe_ctx s in
    publish_entry (remove_entry (id_info (entry (ent m a))))
      (set_ctx (set_sessions (filter (λ x, x ≠ f) (sessions c)) c) s)
  else s.

Definition g_server_session_callbacks : ServerSessionCallbacks ServerSessionFields S :=
  {| add_func := Some server_session_add_callback;
     del_func := Some server_session_del_callback |}.

(** ** Callbacks of the database *)

Record ServerSessionMatchParam := {
  match_user_id : Z;
  match_pool_id : Z;
  match_pool_privs : option AuthDB.FCFSAuthSPoolPriviledges;
}.

Section table.
Context {MBt : Type} `{!Mblock MBt}.
Abbreviation T := (ServerSessionContext ServerSessionFields S MBt).

Definition session_matches (p : ServerSessionMatchParam) (d : D) (f : ServerSessionFields) : bool :=
  ((match_user_id p =? 0) || (db_user_id d (deref (dbuser f)) =? match_user_id p)) &&
  ((match_pool_id p =? 0) ||
   match dbpool f with Some q => db_pool_id d q =? match_pool_id p | None => false end).

Definition set_pool_privs (p : option AuthDB.FCFSAuthSPoolPriviledges) (f : ServerSessionFields)
    : ServerSessionFields :=
  match p with
  | Some privs => {| publish := publish f; dbuser := dbuser f; dbpool := dbpool f;
                     ServiceHandler.pool_privs := privs |}
  | None => f
  end.

(** One round of the loop: [f] is the address of the fields, which is that of the
    session ([FCFS_AUTH_SERVER_SESSION_BY_FIELDS]). *)
Definition publish_matched (p : ServerSessionMatchParam) (c : T) (f : addr) : T :=
  if session_matches p (db (cb_state c)) (data (mem c) f) then
    let c := with_data (alter (set_pool_privs (match_pool_privs p)) f (data (mem c))) c in
    with_cb (publish_session_to_all_subscribers (mem c) f (cb_state c)) c
  else c.

Definition publish_matched_server_sessions (p : ServerSessionMatchParam) (c : T) : T :=
  let x := subscribe_ctx (cb_state c) in
  if bool_decide (subscribers x = []) then c else foldl (publish_matched p) c (sessions x).

Definition user_priv_change_callback (uid new_priv : Z) : T → T :=
  publish_matched_server_sessions
    {| match_user_id := uid; match_pool_id := 0; match_pool_privs := None |}.
Definition pool_priv_change_callback (uid pid : Z) (privs : AuthDB.FCFSAuthSPoolPriviledges) : T → T :=
  publish_matched_server_sessions
    {| match_user_id := uid; match_pool_id := pid; match_pool_privs := Some privs |}.
Definition pool_quota_avail_change_callback (pid : Z) (available : bool) : T → T :=
  publish_matched_server_sessions
    {| match_user_id := 0; match_pool_id := pid; match_pool_privs := None |}.

(** [g_db_priv_change_callbacks] *)
Definition priv_change_callback (ch : priv_change) : T → T :=
  match ch with
  | user_priv_changed uid priv => user_priv_change_callback uid priv
  | pool_priv_changed uid pid privs => pool_priv_change_callback uid pid privs
  | pool_quota_avail_changed pid available => pool_quota_avail_change_callback pid available
  end.

(** An operation of the subscribers, run from the table. *)
Definition on_ctx {A} (m : M C A) : M T A := λ c,
  let '(r, x) := m (subscribe_ctx (cb_state c)) in
  (r, with_cb (set_ctx x (cb_state c)) c).
End table.

(** ** Subscribers *)

(** The loop of [push_all_sessions_to_queue]: the chain of entries.  When an entry
    cannot be allocated the ones before it are neither queued nor freed. *)
Fixpoint push_all_loop (d : D) (m : memory ServerSessionFields) (l : list addr)
    : M C (list (addr * ServerSessionSubscribeEntry)) :=
  match l with
  | [] => mret []
  | f :: l =>
      if part1_publish (part1 (id_info (entry (ent m f)))) then
        a ← pool_alloc 0;
        q ← push_all_loop d m l;
        mret ((a, set_session_subscribe_entry d m f) :: q)
      else push_all_loop d m l
  end.

Definition push_all_sessions_to_queue (d : D) (m : memory ServerSessionFields) (s : addr) : M C unit :=
  c ← get;
  q ← push_all_loop d m (sessions c);
  modify (λ c, set_subs (alter (λ x, set_queue (queue x ++ q) x) s (subs c)) c).

(** [nio.task] is set by the caller before anything reads it. *)
Definition session_subscribe_alloc (thread : nat) : M C addr :=
  s ← pool_alloc 1;
  _ ← modify (λ c, set_subs
                (alter (λ x, {| queue := queue x; in_queue := in_queue x; nio_thread := thread |})
                   s (subs c)) c);
  mret s.

(** The first half, [push_all_sessions_to_queue], holds the lock of the sessions,
    the second that of the subscribers.  Its result is dropped. *)
Definition register_push (d : D) (m : memory ServerSessionFields) (s : addr) : M C unit :=
  _ ← attempt (push_all_sessions_to_queue d m s); mret tt.
Definition register_link (s : addr) : M C unit :=
  modify (λ c, set_subscribers (subscribers c ++ [s]) c).
Definition session_subscribe_register (d : D) (m : memory ServerSessionFields) (s : addr) : M C unit :=
  _ ← register_push d m s; register_link s.

Definition session_subscribe_unregister (s : addr) (c : C) : C :=
  set_subscribers (filter (λ x, x ≠ s) (subscribers c)) c.

Definition session_subscribe_free_entries (q : list (addr * ServerSessionSubscribeEntry)) (c : C) : C :=
  foldl (λ c x, pool_free 0 x.1 c) c q.

Definition session_subscribe_release (s : addr) (c : C) : C :=
  let q := queue (subs c s) in
  let c := set_subs (alter (set_queue []) s (subs c)) c in
  pool_free 1 s (session_subscribe_free_entries q c).

Definition session_subscribe_clear_session (c : C) : C := set_sessions [] c.
End subscribe.
Arguments ServerSessionSubscribeContext : clear implicits.
Arguments server_state : clear implicits.
End SessionSubscribe.
