(* ===== verification/SessionPush.v ===== *)
(** * Sending sessions to a subscriber and receiving them
      (src/auth/server/cluster_handler.c, src/auth/client/session_sync.c)

    The network threads of the server send what is queued for a subscriber, as
    much as fits into a message.  The subscriber takes the message apart into an
    array and applies it to its own session table. *)
From Stdlib Require Import Init.Byte.
From S2P Require Import Prelude Fastcommon Session AuthProto AuthDB ServiceHandler SessionSubscribe.
Import ServerSession AuthProto SessionSubscribe.
Import AuthDB(grow_alloc).
Local Open Scope Z_scope.

Module SessionPush.

Definition FCFS_AUTH_SERVICE_PROTO_SESSION_PUSH_REQ : Z := 13.

(** ** The wire format *)

Definition sizeof_FCFSAuthProtoSessionPushRespBodyHeader : Z := 4.
(** pool: available, id, fdir, fstore; user: id, priv *)
Definition sizeof_FCFSAuthProtoSessionPushEntry : Z := 1 + 8 + 4 + 4 + 8 + 8.
(** id1, id2, operation *)
Definition sizeof_FCFSAuthProtoSessionPushRespBodyPart : Z := 8 + 8 + 1.

Section push.
Context `{!BuffCodec}.

Definition pack_push_entry (f : SessionSyncedFields) : list byte :=
  [byte_of (Z.b2z (pool_available f))] ++ long2buff (pool_id f) ++
  int2buff (fdir (pool_privs f)) ++ int2buff (fstore (pool_privs f)) ++
  long2buff (user_id f) ++ long2buff (user_priv f).

Definition pack_push_part (e : ServerSessionSubscribeEntry) : list byte :=
  long2buff (int64 (part1 (session e))) ++ long2buff (int64 (part2 (session e))) ++
  [byte_of (operation e)] ++
  (if operation e =? FCFS_AUTH_SESSION_OP_TYPE_CREATE then pack_push_entry (synced e) else []).

(** The [while] loop of [cluster_deal_queue] with [room] bytes left: the bytes
    written, the entries packed, the entries left over. *)
Fixpoint pack_queue (room : Z) (q : list (addr * ServerSessionSubscribeEntry))
    : list byte * list (addr * ServerSessionSubscribeEntry) *
      list (addr * ServerSessionSubscribeEntry) :=
  match q with
  | [] => ([], [], [])
  | x :: q' =>
      if sizeof_FCFSAuthProtoSessionPushRespBodyPart +
         sizeof_FCFSAuthProtoSessionPushEntry >? room then ([], [], q)
      else
        let b := pack_push_part x.2 in
        let '(bs, packed, rest) := pack_queue (room - Z.of_nat (length b)) q' in
        (b ++ bs, x :: packed, rest)
  end.

(** ** The network thread of the server *)
Section server.
Context {MB : Type} `{!Mblock MB}.
Abbreviation C := (ServerSessionSubscribeContext MB).

(** The result, the body of the message that is sent, if any, and the state.
    [can_send]: the connection is alive and has sent what it had to.  [room]: the
    send buffer behind the header.  [EFAULT]: a null pointer is followed (no entry
    fits into the buffer). *)
Definition cluster_deal_queue (can_send : bool) (room : Z) (s : addr) (c : C)
    : result unit * option (list byte) * C :=
  if negb can_send then (Err EAGAIN, None, c)
  else
    let q := queue (subs c s) in
    let c := set_subs (alter (set_queue []) s (subs c)) c in
    match q with
    | [] => (Ok tt, None, c)
    | _ =>
        let '(bs, packed, rest) :=
          pack_queue (room - sizeof_FCFSAuthProtoSessionPushRespBodyHeader) q in
        let body := int2buff (Z.of_nat (length packed)) ++ bs in
        match packed, rest with
        | _, [] => (Ok tt, Some body, session_subscribe_free_entries packed c)
        | [], _ => (Err EFAULT, None, c)
        | _, _ =>
            let c := set_subs (alter (λ x, set_queue (rest ++ queue x) x) s (subs c)) c in
            (Err EAGAIN, Some body, session_subscribe_free_entries packed c)
        end
    end.

Definition cluster_subscriber_queue_pop (t : nat) (c : C) : option addr * C :=
  match nio_queues c t with
  | [] => (None, c)
  | s :: l =>
      (Some s, set_subs (alter (set_in_queue false) s (subs c))
                 (set_nio_queues (<[t := l]> (nio_queues c)) c))
  end.

(** One round of the loop of [cluster_thread_loop_callback]: the subscriber served and
    the message sent to it; [None] when the list is empty. *)
Definition thread_round (can_send : addr → bool) (room : Z) (t : nat) (c : C)
    : option (addr * option (list byte)) * C :=
  match cluster_subscriber_queue_pop t c with
  | (None, c) => (None, c)
  | (Some s, c) =>
      let '(r, msg, c) := cluster_deal_queue (can_send s) room s c in
      (Some (s, msg), if is_ok r then c else cluster_subscriber_queue_push_ex s c)
  end.

(** The messages sent, oldest first, with the subscribers they go to. *)
Fixpoint thread_loop (count : nat) (can_send : addr → bool) (room : Z) (t : nat) (c : C)
    : list (addr * list byte) * C :=
  match count with
  | O => ([], c)
  | S count =>
      match thread_round can_send room t c with
      | (None, c) => ([], c)
      | (Some (s, msg), c) =>
          let '(l, c) := thread_loop count can_send room t c in
          (match msg with Some b => (s, b) :: l | None => l end, c)
      end
  end.
Definition cluster_thread_loop_callback (can_send : addr → bool) (room : Z) (t : nat) (c : C)
    : list (addr * list byte) * C :=
  thread_loop (length (nio_queues c t)) can_send room t c.

Definition session_subscriber_cleanup (s : addr) (c : C) : C :=
  let c := session_subscribe_unregister s c in
  let c := if in_queue (subs c s) then
             let t := nio_thread (subs c s) in
             set_nio_queues (<[t := filter (λ x, x ≠ s) (nio_queues c t)]> (nio_queues c))
               (set_subs (alter (set_in_queue false) s (subs c)) c)
           else c in
  session_subscribe_release s c.

(** The end of [cluster_deal_session_subscribe], when the user may subscribe: a
    subscriber on network thread [thread]. *)
Definition cluster_subscribe {D : Type} `{!SessionDB D} (d : D)
    (m : memory ServiceHandler.ServerSessionFields) (thread : nat) : M C addr :=
  s ← session_subscribe_alloc thread;
  _ ← session_subscribe_register d m s;
  _ ← modify (λ c, if bool_decide (queue (subs c s) = []) then c
                   else cluster_subscriber_queue_push_ex s c);
  mret s.
End server.

(** ** The subscriber *)

(** [session_array]: [alloc] and the entries up to [count]. *)
Record SyncedSessionArray := {
  sync_alloc : Z;
  sync_entries : list ServerSessionSubscribeEntry;
}.
(** [operation] with padding, the two ids, the fields *)
Definition sizeof_SyncedSessionEntry : Z := 8 + 16 + 40.

Section client.
Context {W : Type} `{!Malloc W}.

(** [bytes] is an [int]. *)
Definition check_realloc_session_array (alloc target_count : Z) : M W Z :=
  if target_count <=? alloc then mret alloc
  else
    match grow_alloc 32 (if alloc =? 0 then 4 * 1024 else int32 (2 * alloc)) target_count with
    | None => throw NO_RETURN
    | Some n =>
        λ w, let '(ok, w) := fc_malloc (int32 (sizeof_SyncedSessionEntry * n)) w in
             (if ok : bool then Ok n else Err ENOMEM, w)
    end.

Definition unpack_push_entry (p : list byte) (i : Z) : SessionSyncedFields :=
  {| pool_available := negb (char_at p i =? 0);
     pool_id := buff2long (bytes_at p (i + 1) 8);
     pool_privs := {| fdir := buff2int (bytes_at p (i + 9) 4);
                      fstore := buff2int (bytes_at p (i + 13) 4) |};
     user_id := buff2long (bytes_at p (i + 17) 8);
     user_priv := buff2long (bytes_at p (i + 25) 8) |}.

(** The loop over [count] entries from offset [i]; the fields of an entry that is
    not a creation are left as they were, and not used ([zero_fields] here). *)
Fixpoint parse_entries (count : nat) (p : list byte) (body_len i : Z)
    : result (list ServerSessionSubscribeEntry * Z) :=
  match count with
  | O => Ok ([], i)
  | S count =>
      if i + sizeof_FCFSAuthProtoSessionPushRespBodyPart >? body_len then Err EINVAL
      else
        let op := char_at p (i + 16) in
        let create := op =? FCFS_AUTH_SESSION_OP_TYPE_CREATE in
        let e := {| operation := op;
                    session := {| part1 := uint64 (buff2long (bytes_at p i 8));
                                  part2 := uint64 (buff2long (bytes_at p (i + 8) 8)) |};
                    synced := if create then unpack_push_entry p (i + 17) else zero_fields |} in
        match parse_entries count p body_len
                (i + sizeof_FCFSAuthProtoSessionPushRespBodyPart +
                 (if create then sizeof_FCFSAuthProtoSessionPushEntry else 0)) with
        | Ok (l, j) => Ok (e :: l, j)
        | Err e => Err e
        end
  end.

(** [p] is the body that was received, of [response->header.body_len] bytes. *)
Definition parse_session_push (p : list byte) (array : SyncedSessionArray) : M W SyncedSessionArray :=
  let body_len := Z.of_nat (length p) in
  let count := buff2int (bytes_at p 0 4) in
  alloc ← check_realloc_session_array (sync_alloc array) count;
  match parse_entries (Z.to_nat count) p body_len sizeof_FCFSAuthProtoSessionPushRespBodyHeader with
  | Err e => throw e
  | Ok (l, j) =>
      if body_len =? j then mret {| sync_alloc := alloc; sync_entries := l |} else throw EINVAL
  end.

Context {X MBt : Type} `{!Mblock MBt, !FcCompare}.
Abbreviation T := (ServerSessionContext SessionSyncedFields X MBt).

(** An entry without an id, which no server sends, would make the table draw one:
    [samples] are what it draws from; [None] when it draws for ever. *)
Definition deal_session_entry (samples : list id_sample) (e : ServerSessionSubscribeEntry) (c : T)
    : option T :=
  if operation e =? FCFS_AUTH_SESSION_OP_TYPE_CREATE then
    snd <$> server_session_add_ex samples (session e) (synced e) true false c
  else Some (server_session_delete (session e) c).2.

Fixpoint deal_session_array (samples : list id_sample) (l : list ServerSessionSubscribeEntry) (c : T)
    : option T :=
  match l with
  | [] => Some c
  | e :: l => c ← deal_session_entry samples e c; deal_session_array samples l c
  end.

(** What the [while] loop of [session_sync] gets from its connection: a message, a
    timeout with the result of the active test, another failure, or the end of the
    process ([SF_G_CONTINUE_FLAG]). *)
Inductive sync_event :=
| sync_push (body : list byte)
| sync_timeout (active_test : result unit)
| sync_failed (e : errno)
| sync_stop.

(** The final [server_session_clear] is left out only when the process ends.  [None]:
    the function does not return. *)
Fixpoint session_sync (samples : list id_sample) (events : list sync_event)
    (array : SyncedSessionArray) (c : T) (w : W) : option (T * W) :=
  match events with
  | [] => None
  | sync_stop :: _ => Some (c, w)
  | sync_failed _ :: _ | sync_timeout (Err _) :: _ => Some (server_session_clear c, w)
  | sync_timeout (Ok _) :: events => session_sync samples events array c w
  | sync_push body :: events =>
      match parse_session_push body array w with
      | (Ok array, w) =>
          c ← deal_session_array samples (sync_entries array) c;
          session_sync samples events array c w
      | (Err NO_RETURN, _) => None
      | (Err _, w) => Some (server_session_clear c, w)
      end
  end.
End client.
End push.
End SessionPush.
