(* ===== verification/SessionSubscribeProofs.v ===== *)
(** * The queues of the subscribers: ownership, order, no lost wake-up

    An invariant of the lists and queues of [SessionSubscribe], kept by every
    operation on them: each object of the pool is a registered subscriber or an
    entry of exactly one queue, and a subscriber with entries is in the list of its
    network thread. *)
From S2P Require Import Prelude Fastcommon Session ServiceHandler SessionSubscribe SessionPush.
Import SessionSubscribe SessionPush.
Local Open Scope Z_scope.

(** The pools do not run out of memory. *)
Class MblockTotal (MB : Type) `{!Mblock MB} : Prop :=
  mb_alloc_total i m : ∃ a m', mb_alloc i m = (Some a, m').

Module SubscribeQueues.
Section queues.
Context `{!BuffCodec, !BuffCodecLaws} {MB : Type} `{!Mblock MB, !MblockLaws MB}.
Abbreviation C := (ServerSessionSubscribeContext MB).
Implicit Types c : C.

Abbreviation item := (addr * ServerSessionSubscribeEntry)%type.

Definition entries_of c (s : addr) : list ServerSessionSubscribeEntry := (queue (subs c s)).*2.

(** The objects held: the subscribers and the entries of their queues. *)
Definition owned c : list addr :=
  subscribers c ++ (subscribers c ≫= λ s, (queue (subs c s)).*1).

(** [w]: the subscribers that may have entries without being in a thread's list. *)
Record queues_but (w : gset addr) c : Prop := {
  q_nodup : NoDup (owned c);
  q_live a : a ∈ owned c ↔ a ∈ mb_live (subs_pool c);
  q_idle s : s ∉ subscribers c → queue (subs c s) = [] ∧ in_queue (subs c s) = false;
  q_nio s t : s ∈ nio_queues c t ↔ in_queue (subs c s) = true ∧ nio_thread (subs c s) = t;
  q_nio_nodup t : NoDup (nio_queues c t);
  q_wake s : s ∉ w → queue (subs c s) ≠ [] → in_queue (subs c s) = true;
}.
Definition queues_ok c : Prop := queues_but ∅ c.

(** ** Changing one queue *)

Lemma bind_alter (l : list addr) (s : addr) (f : ServerSessionSubscriber → ServerSessionSubscriber) m :
  s ∉ l → (l ≫= λ x, (queue (alter f s m x)).*1) = (l ≫= λ x, (queue (m x)).*1).
Proof.
  induction l as [|x l IH]; intros Hs; [done|]. apply not_elem_of_cons in Hs as [Hne Hs]. simpl.
  rewrite fn_lookup_alter_ne by done. f_equal. by apply IH.
Qed.

Lemma bind_ext_in {A B} (f g : A → list B) l : (∀ x, x ∈ l → f x = g x) → l ≫= f = l ≫= g.
Proof.
  induction l as [|x l IH]; intros Hx; [done|]. rewrite !bind_cons, Hx by (by left). f_equal.
  apply IH. intros. apply Hx. by right.
Qed.

(** The entries of a list of subscribers, one of them set apart. *)
Lemma bind_split (l : list addr) (s : addr) (f : ServerSessionSubscriber → ServerSessionSubscriber) m :
  NoDup l → s ∈ l →
  (l ≫= λ x, (queue (m x)).*1) ≡ₚ (queue (m s)).*1 ++ (filter (λ x, x ≠ s) l ≫= λ x, (queue (m x)).*1) ∧
  (l ≫= λ x, (queue (alter f s m x)).*1) ≡ₚ
    (queue (f (m s))).*1 ++ (filter (λ x, x ≠ s) l ≫= λ x, (queue (m x)).*1).
Proof.
  induction l as [|x l IH]; intros Hnd Hs; [by apply not_elem_of_nil in Hs|].
  apply NoDup_cons in Hnd as [Hx Hnd]. rewrite filter_cons. simpl.
  destruct (decide (x = s)) as [->|Hne].
  - rewrite decide_False by (by intros []). rewrite fn_lookup_alter, bind_alter by done.
    rewrite (filter_all (λ x, x ≠ s) l); [done|]. by intros y Hy ->.
  - rewrite decide_True by done. rewrite fn_lookup_alter_ne by done.
    apply elem_of_cons in Hs as [->|Hs]; [done|]. destruct (IH Hnd Hs) as [H1 H2]. simpl.
    rewrite H1, H2. split; solve_Permutation.
Qed.

Definition others c (s : addr) : list addr :=
  subscribers c ++ (filter (λ x, x ≠ s) (subscribers c) ≫= λ x, (queue (subs c x)).*1).

Lemma owned_split c s :
  NoDup (subscribers c) → s ∈ subscribers c → owned c ≡ₚ (queue (subs c s)).*1 ++ others c s.
Proof.
  intros Hnd Hs. unfold owned, others. destruct (bind_split _ s id (subs c) Hnd Hs) as [-> _].
  solve_Permutation.
Qed.

Lemma owned_alter c c' s f :
  NoDup (subscribers c) → s ∈ subscribers c → subscribers c' = subscribers c →
  subs c' = alter f s (subs c) → owned c' ≡ₚ (queue (f (subs c s))).*1 ++ others c s.
Proof.
  intros Hnd Hs Hsubs Hs'. unfold owned, others. rewrite Hsubs, Hs'.
  destruct (bind_split _ s f (subs c) Hnd Hs) as [_ ->]. solve_Permutation.
Qed.

Lemma owned_ext c c' :
  subscribers c' = subscribers c → (∀ s, queue (subs c' s) = queue (subs c s)) → owned c' = owned c.
Proof.
  intros Hl Hq. unfold owned. rewrite Hl. f_equal.
  apply list_bind_ext; [|done]. intros s. by rewrite Hq.
Qed.

Lemma q_subs_nodup w c : queues_but w c → NoDup (subscribers c).
Proof. intros Q. pose proof (q_nodup _ _ Q) as Hn. unfold owned in Hn. by apply NoDup_app in Hn as [? _]. Qed.

Lemma q_subs_live w c s : queues_but w c → s ∈ subscribers c → s ∈ mb_live (subs_pool c).
Proof. intros Q Hs. apply (q_live _ _ Q). apply elem_of_app. by left. Qed.

Lemma q_nio_subs w c s t : queues_but w c → s ∈ nio_queues c t → s ∈ subscribers c.
Proof.
  intros Q Hs. destruct (decide (s ∈ subscribers c)) as [|Hn]; [done|].
  apply (q_nio _ _ Q) in Hs as [Hin _]. apply (q_idle _ _ Q) in Hn as [_ ?]. congruence.
Qed.

(** What the operations on queues leave alone. *)
Record same_lists c c' : Prop := {
  sl_sessions : sessions c' = sessions c;
  sl_subscribers : subscribers c' = subscribers c;
  sl_thread s : nio_thread (subs c' s) = nio_thread (subs c s);
}.
#[global] Instance same_lists_preorder : PreOrder same_lists.
Proof. split; [done|]. intros a b d [] []. split; [congruence..|]. intros s. congruence. Qed.

(** ** The list of a thread *)

Lemma push_ex_queue c s x : queue (subs (cluster_subscriber_queue_push_ex s c) x) = queue (subs c x).
Proof.
  unfold cluster_subscriber_queue_push_ex. destruct (in_queue (subs c s)); [done|]. simpl.
  destruct (decide (s = x)) as [->|]; [by rewrite fn_lookup_alter|by rewrite fn_lookup_alter_ne].
Qed.

Lemma push_ex_frame c s : same_lists c (cluster_subscriber_queue_push_ex s c) ∧
  subs_pool (cluster_subscriber_queue_push_ex s c) = subs_pool c.
Proof.
  unfold cluster_subscriber_queue_push_ex. destruct (in_queue (subs c s)); [done|].
  split; [split; simpl; [done..|]|done]. intros x.
  destruct (decide (s = x)) as [->|]; [by rewrite fn_lookup_alter|by rewrite fn_lookup_alter_ne].
Qed.

Lemma push_ex_ok w c s :
  queues_but ({[s]} ∪ w) c → s ∈ subscribers c →
  queues_but w (cluster_subscriber_queue_push_ex s c).
Proof.
  intros Q Hs. pose proof (push_ex_frame c s) as [[_ Hl Ht] Hp].
  assert (owned (cluster_subscriber_queue_push_ex s c) = owned c) as Ho
    by (apply owned_ext; [done|apply push_ex_queue]).
  destruct Q as [Qn Ql Qi Qq Qd Qw].
  split; rewrite ?Ho, ?Hp, ?Hl; [done..| | | |].
  - intros x Hx. destruct (Qi x Hx). rewrite push_ex_queue. split; [done|].
    unfold cluster_subscriber_queue_push_ex. destruct (in_queue (subs c s)); [done|]. simpl.
    rewrite fn_lookup_alter_ne; [done|]. by intros ->.
  - intros x t. rewrite Ht. unfold cluster_subscriber_queue_push_ex.
    destruct (in_queue (subs c s)) eqn:E; [done|]. simpl.
    destruct (decide (s = x)) as [->|Hne].
    + rewrite fn_lookup_alter. simpl. destruct (decide (nio_thread (subs c x) = t)) as [<-|].
      * rewrite fn_lookup_insert. set_solver.
      * rewrite fn_lookup_insert_ne, Qq by done. naive_solver.
    + rewrite fn_lookup_alter_ne by done. rewrite <- Qq.
      destruct (decide (nio_thread (subs c s) = t)) as [<-|].
      * rewrite fn_lookup_insert. set_solver.
      * by rewrite fn_lookup_insert_ne.
  - intros t. unfold cluster_subscriber_queue_push_ex. destruct (in_queue (subs c s)) eqn:E; [done|].
    simpl. destruct (decide (nio_thread (subs c s) = t)) as [<-|].
    + rewrite fn_lookup_insert. apply NoDup_app. split_and!; [done| |apply NoDup_singleton].
      intros x Hx ->%list_elem_of_singleton. apply Qq in Hx as [? _]. congruence.
    + by rewrite fn_lookup_insert_ne.
  - intros x Hx. rewrite push_ex_queue. intros Hq. unfold cluster_subscriber_queue_push_ex.
    destruct (in_queue (subs c s)) eqn:E.
    + destruct (decide (x = s)) as [->|]; [done|]. apply Qw; [set_solver|done].
    + simpl. destruct (decide (s = x)) as [->|]; [by rewrite fn_lookup_alter|].
      rewrite fn_lookup_alter_ne by done. apply Qw; [set_solver|done].
Qed.

Lemma queues_weaken w c s : queues_but w c → queues_but ({[s]} ∪ w) c.
Proof. intros []. split; try done. intros x Hx. set_solver. Qed.

(** A subscriber that has no entries, or is in its list, needs no exception. *)
Lemma queues_strengthen w c s :
  queues_but ({[s]} ∪ w) c → (queue (subs c s) ≠ [] → in_queue (subs c s) = true) → queues_but w c.
Proof.
  intros [Qn Ql Qi Qq Qd Qw] Hs. split; try done. intros x Hx Hq.
  destruct (decide (x = s)) as [->|]; [by apply Hs|]. apply Qw; [set_solver|done].
Qed.

(** Replacing the queue of a subscriber, with the pool that goes with it. *)
Lemma set_queue_ok w c s q b :
  queues_but w c → s ∈ subscribers c → NoDup (q.*1 ++ others c s) →
  (∀ a, a ∈ q.*1 ++ others c s ↔ a ∈ mb_live b) →
  queues_but ({[s]} ∪ w) (set_pool b (set_subs (alter (set_queue q) s (subs c)) c)).
Proof.
  intros Q Hs Hn Hb. pose proof (q_subs_nodup _ _ Q) as Hnd. destruct Q as [Qn Ql Qi Qq Qd Qw].
  set (c' := set_pool b _).
  assert (owned c' ≡ₚ q.*1 ++ others c s) as Ho by (by apply (owned_alter c c' s (set_queue q))).
  assert (∀ x, in_queue (subs c' x) = in_queue (subs c x) ∧ nio_thread (subs c' x) = nio_thread (subs c x)) as He.
  { intros x. simpl. destruct (decide (s = x)) as [->|]; [by rewrite fn_lookup_alter|by rewrite fn_lookup_alter_ne]. }
  split; try done.
  - by rewrite Ho.
  - intros a. by rewrite Ho.
  - intros x Hx. simpl. rewrite fn_lookup_alter_ne; [by apply Qi|]. by intros ->.
  - intros x t. destruct (He x) as [-> ->]. apply Qq.
  - intros x Hx. assert (s ≠ x) by set_solver. destruct (He x) as [-> _].
    simpl. rewrite fn_lookup_alter_ne by done. apply Qw. set_solver.
Qed.

(** ** Publishing *)

(** The list of the subscribers and their entries after [e] was published to [l]. *)
Record published (e : ServerSessionSubscribeEntry) (l : list addr) c c' : Prop := {
  pub_lists : same_lists c c';
  pub_in s : s ∈ l → entries_of c' s = entries_of c s ++ [e];
  pub_out s : s ∉ l → entries_of c' s = entries_of c s;
}.

Lemma NoDup_owned_new w c a :
  queues_but w c → a ∉ mb_live (subs_pool c) → NoDup (a :: owned c).
Proof. intros Q Ha. apply NoDup_cons. split; [|apply Q]. by intros ?%(q_live _ _ Q). Qed.

Lemma queue_push_ok c s a e b :
  queues_ok c → s ∈ subscribers c → mb_alloc 0 (subs_pool c) = (Some a, b) →
  queues_ok (queue_push s a e (set_pool b c)) ∧
  published e [s] c (queue_push s a e (set_pool b c)).
Proof.
  intros Q Hs Ha. destruct (mb_alloc_some _ _ _ _ Ha) as [Hnew Hlive].
  set (q := queue (subs c s)).
  set (c1 := set_subs (alter (set_queue (q ++ [(a, e)])) s (subs c)) (set_pool b c)).
  assert (queue_push s a e (set_pool b c) =
          if bool_decide (q = []) then cluster_subscriber_queue_push_ex s c1 else c1) as -> by done.
  pose proof (owned_split c s (q_subs_nodup _ _ Q) Hs) as Hsp.
  assert ((q ++ [(a, e)]).*1 ++ others c s ≡ₚ a :: owned c) as Hp
    by (rewrite Hsp, fmap_app; simpl; solve_Permutation).
  assert (queues_but {[s]} c1) as Q1.
  { rewrite <- (union_empty_r_L {[s]}). apply (set_queue_ok ∅ c s (q ++ [(a, e)]) b Q Hs).
    - rewrite Hp. by eapply NoDup_owned_new.
    - intros x. rewrite Hp, Hlive, elem_of_cons, (q_live _ _ Q). set_solver. }
  assert (published e [s] c c1) as P.
  { split; [split; simpl; [done..|]| |]; intros x; unfold entries_of; simpl.
    - destruct (decide (s = x)) as [->|]; [by rewrite fn_lookup_alter|by rewrite fn_lookup_alter_ne].
    - intros ->%list_elem_of_singleton. rewrite fn_lookup_alter. simpl. by rewrite fmap_app.
    - intros Hx. rewrite fn_lookup_alter_ne; [done|]. set_solver. }
  case_bool_decide as Hq.
  - split; [apply push_ex_ok; [by rewrite union_empty_r_L|done]|].
    destruct P as [Pl Pi Po]. split; [etrans; [exact Pl|apply push_ex_frame]|..];
      intros x; unfold entries_of; rewrite push_ex_queue; [apply Pi|apply Po].
  - split; [|done]. apply (queues_strengthen _ _ s); [by rewrite union_empty_r_L|]. intros _.
    simpl. rewrite fn_lookup_alter. simpl. apply (q_wake _ _ Q); [set_solver|done].
Qed.

Section total.
Context `{!MblockTotal MB}.

Lemma pool_alloc_ok i c : ∃ a b,
  mb_alloc i (subs_pool c) = (Some a, b) ∧ pool_alloc i c = (Ok a, set_pool b c).
Proof. destruct (mb_alloc_total i (subs_pool c)) as (a & b & E). exists a, b. unfold pool_alloc. by rewrite E. Qed.

Lemma publish_loop_ok e l c :
  queues_ok c → NoDup l → (∀ s, s ∈ l → s ∈ subscribers c) →
  ∃ c', publish_loop e l c = (Ok tt, c') ∧ queues_ok c' ∧ published e l c c'.
Proof.
  revert c. induction l as [|s l IH]; intros c Q Hnd Hl.
  - exists c. split_and!; [done..|]. split; [done| |done]. by intros s ?%not_elem_of_nil.
  - apply NoDup_cons in Hnd as [Hs Hnd]. simpl.
    destruct (pool_alloc_ok 0 c) as (a & b & Ha & E). rewrite (bind_ok _ _ _ _ _ E). bind_step.
    destruct (queue_push_ok c s a e b Q (Hl s (list_elem_of_here _ _)) Ha) as [Q1 [[Hse Hsu Hth] P1 P2]].
    destruct (IH (queue_push s a e (set_pool b c)) Q1 Hnd) as (c' & -> & Q2 & [L2 I2 O2]).
    { intros x Hx. rewrite Hsu. apply Hl. by right. }
    exists c'. split_and!; [done..|]. split.
    + etrans; [|exact L2]. by split.
    + intros x [->|Hx]%elem_of_cons; [by rewrite O2, P1 by set_solver|].
      rewrite I2 by done. rewrite P2; [done|]. set_solver.
    + intros x Hx. rewrite O2, P2; set_solver.
Qed.

Lemma publish_entry_ok e c :
  queues_ok c →
  ∃ c', publish_entry_to_all_subscribers e c = (Ok tt, c') ∧ queues_ok c' ∧
        published e (subscribers c) c c'.
Proof. intros Q. apply publish_loop_ok; [done|by eapply q_subs_nodup|done]. Qed.

End total.

(** ** Sending *)

Lemma free_entries_frame (q : list item) c :
  mb_live (subs_pool (session_subscribe_free_entries q c)) = mb_live (subs_pool c) ∖ list_to_set q.*1 ∧
  subs (session_subscribe_free_entries q c) = subs c ∧
  sessions (session_subscribe_free_entries q c) = sessions c ∧
  subscribers (session_subscribe_free_entries q c) = subscribers c ∧
  nio_queues (session_subscribe_free_entries q c) = nio_queues c.
Proof.
  unfold session_subscribe_free_entries. revert c.
  induction q as [|x q IH]; intros c; simpl; [split_and!; [set_solver|done..]|].
  destruct (IH (pool_free 0 x.1 c)) as (-> & -> & -> & -> & ->).
  split_and!; [|done..]. simpl. rewrite mb_free_live. set_solver.
Qed.

Lemma queues_ext w c c' :
  mb_live (subs_pool c') = mb_live (subs_pool c) → (∀ x, subs c' x = subs c x) →
  subscribers c' = subscribers c → nio_queues c' = nio_queues c →
  queues_but w c → queues_but w c'.
Proof.
  intros Hp Hs Hl Hn Q.
  assert (owned c' = owned c) as Ho by (apply owned_ext; [done|]; intros x; by rewrite Hs).
  destruct Q. split; intros *; rewrite ?Ho, ?Hp, ?Hs, ?Hl, ?Hn; eauto.
Qed.

(** Entries at the front of a queue leave it and are freed. *)
Lemma drop_packed_ok w c s (packed rest : list item) :
  queues_but w c → s ∈ subscribers c → queue (subs c s) = packed ++ rest →
  queues_but ({[s]} ∪ w)
    (session_subscribe_free_entries packed (set_subs (alter (set_queue rest) s (subs c)) c)).
Proof.
  intros Q Hs Hq. pose proof (owned_split c s (q_subs_nodup _ _ Q) Hs) as Hsp.
  rewrite Hq, fmap_app, <- app_assoc in Hsp.
  set (c1 := set_subs (alter (set_queue rest) s (subs c)) c).
  pose proof (free_entries_frame packed c1) as (Hp & Hsub & _ & Hl & Hn).
  set (c2 := session_subscribe_free_entries packed c1) in *.
  eapply (queues_ext _ (set_pool (subs_pool c2) c1)); [done|intros x; by rewrite Hsub|done..|].
  pose proof (q_nodup _ _ Q) as Hnd. rewrite Hsp in Hnd. apply NoDup_app in Hnd as (_ & Hdis & Hnd).
  apply (set_queue_ok w c s rest _ Q Hs); [done|]. intros a. rewrite Hp. simpl.
  pose proof (q_live _ _ Q a) as Hl'. rewrite Hsp, elem_of_app in Hl'. specialize (Hdis a).
  rewrite elem_of_difference, elem_of_list_to_set. tauto.
Qed.

(** The body of the message that carries [es]. *)
Definition push_message (es : list ServerSessionSubscribeEntry) : option (list Byte.byte) :=
  match es with
  | [] => None
  | _ => Some (int2buff (Z.of_nat (length es)) ++ (es ≫= pack_push_part))
  end.

Lemma pack_queue_spec room (q : list item) bs packed rest :
  pack_queue room q = (bs, packed, rest) → q = packed ++ rest ∧ bs = packed.*2 ≫= pack_push_part.
Proof.
  revert room bs packed rest. induction q as [|x q IH]; intros room bs packed rest; simpl.
  - by intros [= <- <- <-].
  - destruct (_ >? _); [by intros [= <- <- <-]|].
    destruct (pack_queue _ q) as [[bs' packed'] rest'] eqn:E. intros [= <- <- <-].
    destruct (IH _ _ _ _ E) as [-> ->]. done.
Qed.

Lemma pack_queue_room room (q : list item) bs packed rest :
  pack_queue room q = (bs, packed, rest) → Z.of_nat (length packed) * 17 ≤ Z.max 0 room.
Proof.
  revert room bs packed rest. induction q as [|x q IH]; intros room bs packed rest; simpl.
  - intros [= <- <- <-]. simpl. lia.
  - destruct (_ >? _) eqn:E; [intros [= <- <- <-]; simpl; lia|].
    destruct (pack_queue _ q) as [[bs' packed'] rest'] eqn:Ep. intros [= <- <- <-].
    assert (17 ≤ length (pack_push_part x.2))%nat as Hl.
    { unfold pack_push_part. autorewrite with cfs. rewrite !length_long2buff. simpl. lia. }
    apply IH in Ep. rewrite Z.gtb_ltb in E. apply Z.ltb_ge in E.
    unfold sizeof_FCFSAuthProtoSessionPushRespBodyPart, sizeof_FCFSAuthProtoSessionPushEntry in E.
    simpl length. lia.
Qed.

Lemma pack_queue_progress room (q : list item) bs packed rest :
  50 ≤ room → q ≠ [] → pack_queue room q = (bs, packed, rest) → packed ≠ [].
Proof.
  intros Hr Hq. destruct q as [|x q]; [done|]. simpl.
  destruct (_ >? _) eqn:E; [apply Z.gtb_lt in E; unfold sizeof_FCFSAuthProtoSessionPushRespBodyPart,
    sizeof_FCFSAuthProtoSessionPushEntry in E; lia|].
  destruct (pack_queue _ q) as [[bs' packed'] rest']. by intros [= <- <- <-].
Qed.

(** What one attempt to serve [s] does: entries [es] leave the front of its queue in
    one message. *)
Record served (can_send : bool) (room : Z) (s : addr) (es : list ServerSessionSubscribeEntry)
    (msg : option (list Byte.byte)) c c' : Prop := {
  sv_lists : same_lists c c';
  sv_queue : entries_of c s = es ++ entries_of c' s;
  sv_msg : msg = push_message es;
  sv_others x : x ≠ s → entries_of c' x = entries_of c x;
  sv_progress : can_send = true → entries_of c s ≠ [] → es ≠ [];
  sv_room : Z.of_nat (length es) * 17 ≤ Z.max 0 room;
}.

Lemma served_ext can_send room s es msg c c' c'' :
  served can_send room s es msg c c' → same_lists c' c'' →
  (∀ x, queue (subs c'' x) = queue (subs c' x)) → served can_send room s es msg c c''.
Proof.
  intros [L Hq Hm Ho Hp Hc] L' Hx. assert (∀ x, entries_of c'' x = entries_of c' x) as He
    by (intros x; unfold entries_of; by rewrite Hx).
  split; [by etrans|by rewrite He|done| |done..]. intros x Hne. rewrite He. by apply Ho.
Qed.

Lemma served_drop can_send room c s (packed rest : list item) :
  queue (subs c s) = packed ++ rest → (can_send = true → queue (subs c s) ≠ [] → packed ≠ []) →
  Z.of_nat (length packed) * 17 ≤ Z.max 0 room →
  served can_send room s packed.*2 (push_message packed.*2) c
    (session_subscribe_free_entries packed (set_subs (alter (set_queue rest) s (subs c)) c)).
Proof.
  intros Hq Hp Hroom. pose proof (free_entries_frame packed
    (set_subs (alter (set_queue rest) s (subs c)) c)) as (_ & Hsub & Hse & Hl & _).
  split; [split; [done..|]| | | | |by rewrite length_fmap]; unfold entries_of; rewrite ?Hsub; simpl.
  - intros x. destruct (decide (s = x)) as [->|]; [by rewrite fn_lookup_alter|by rewrite fn_lookup_alter_ne].
  - rewrite fn_lookup_alter, Hq. simpl. by rewrite fmap_app.
  - done.
  - intros x Hne. by rewrite fn_lookup_alter_ne.
  - intros Hc Hn Hnil. apply (Hp Hc); [by intros Hz; rewrite Hz in Hn|].
    by apply fmap_nil_inv in Hnil.
Qed.

Lemma deal_queue_ok can_send room s c r msg c' :
  54 ≤ room → queues_but {[s]} c → s ∈ subscribers c →
  cluster_deal_queue can_send room s c = (r, msg, c') →
  queues_but {[s]} c' ∧ (∃ es, served can_send room s es msg c c') ∧
  (is_ok r = true → queue (subs c' s) = []).
Proof.
  intros Hr Q Hs. unfold cluster_deal_queue. destruct can_send; simpl.
  2: { intros [= <- <- <-]. split_and!; [done| |done]. exists []. split; [done..|simpl; lia]. }
  set (c1 := set_subs _ c). destruct (queue (subs c s)) as [|x q] eqn:Eq.
  - intros [= <- <- <-]. pose proof (drop_packed_ok _ c s [] [] Q Hs Eq) as Q1.
    rewrite union_idemp_L in Q1. split_and!; [exact Q1| |].
    + exists []. exact (served_drop true room c s [] [] Eq ltac:(by rewrite Eq) ltac:(simpl; lia)).
    + intros _. simpl. by rewrite fn_lookup_alter.
  - destruct (pack_queue _ _) as [[bs packed] rest] eqn:Ep.
    assert (packed ≠ []) as Hne.
    { refine (pack_queue_progress _ (x :: q) _ _ _ _ _ Ep); [|done].
      unfold sizeof_FCFSAuthProtoSessionPushRespBodyHeader. lia. }
    destruct (pack_queue_spec _ _ _ _ _ Ep) as [Hq ->]. rewrite <- Eq in Hq.
    pose proof (drop_packed_ok _ c s packed rest Q Hs Hq) as Q1. rewrite union_idemp_L in Q1.
    assert (Z.of_nat (length packed) * 17 ≤ Z.max 0 room) as Hroom.
    { apply pack_queue_room in Ep. unfold sizeof_FCFSAuthProtoSessionPushRespBodyHeader in Ep. lia. }
    pose proof (served_drop true room c s packed rest Hq ltac:(done) Hroom) as Hsv.
    destruct packed as [|y packed]; [done|]. destruct rest as [|z rest].
    + intros [= <- <- <-]. split_and!; [exact Q1| |].
      * exists (y :: packed).*2. rewrite <- (length_fmap snd). exact Hsv.
      * intros _. rewrite (proj1 (proj2 (free_entries_frame _ _))). simpl. by rewrite fn_lookup_alter.
    + intros [= <- <- <-]. set (c2 := set_subs _ c1).
      assert (∀ y0, subs c2 y0 = subs (set_subs (alter (set_queue (z :: rest)) s (subs c)) c) y0) as Hx.
      { intros y0. simpl. destruct (decide (s = y0)) as [->|].
        - rewrite !fn_lookup_alter. simpl. by rewrite app_nil_r.
        - by rewrite !fn_lookup_alter_ne. }
      change (session_subscribe_free_entries packed (pool_free 0 y.1 c2))
        with (session_subscribe_free_entries (y :: packed) c2).
      pose proof (free_entries_frame (y :: packed) c2) as (Hf & Hfs & Hfse & Hfl & Hfn).
      pose proof (free_entries_frame (y :: packed) (set_subs (alter (set_queue (z :: rest)) s (subs c)) c))
        as (Hg & Hgs & Hgse & Hgl & Hgn).
      assert (∀ y0, subs (session_subscribe_free_entries (y :: packed) c2) y0 =
        subs (session_subscribe_free_entries (y :: packed)
                (set_subs (alter (set_queue (z :: rest)) s (subs c)) c)) y0) as Hy
        by (intros y0; rewrite Hfs, Hgs; apply Hx).
      split_and!; [|exists (y :: packed).*2|done].
      * refine (queues_ext _ _ _ _ _ _ _ Q1); [by rewrite Hf, Hg|done|by rewrite Hfl, Hgl|by rewrite Hfn, Hgn].
      * rewrite <- (length_fmap snd). eapply served_ext; [exact Hsv|split|];
          [by rewrite Hfse, Hgse|by rewrite Hfl, Hgl|..]; intros y0; by rewrite Hy.
Qed.

Lemma pop_ok c t s l c1 :
  queues_ok c → nio_queues c t = s :: l → cluster_subscriber_queue_pop t c = (Some s, c1) →
  queues_but {[s]} c1 ∧ same_lists c c1 ∧ subs_pool c1 = subs_pool c ∧
  ∀ x, queue (subs c1 x) = queue (subs c x).
Proof.
  intros Q Ht. unfold cluster_subscriber_queue_pop. rewrite Ht. intros [= <-]. set (c1 := set_subs _ _).
  assert (∀ x, queue (subs c1 x) = queue (subs c x) ∧ nio_thread (subs c1 x) = nio_thread (subs c x)) as Hx.
  { intros x. simpl. destruct (decide (s = x)) as [->|]; [by rewrite fn_lookup_alter|by rewrite fn_lookup_alter_ne]. }
  assert (owned c1 = owned c) as Ho by (apply owned_ext; [done|]; intros x; apply Hx).
  assert (same_lists c c1) as L by (split; [done..|]; intros x; apply Hx).
  split_and!; [|done..|intros x; apply Hx]. destruct Q as [Qn Ql Qi Qq Qd Qw].
  assert (s ∈ nio_queues c t) as Hs by (rewrite Ht; by left). pose proof (Qq s t) as Hst.
  pose proof (Qd t) as Hd. rewrite Ht in Hd. apply NoDup_cons in Hd as [Hsl Hd].
  split; rewrite ?Ho; [done..| | | |].
  - intros x Hxs. destruct (Hx x) as [-> _]. destruct (Qi x Hxs). split; [done|]. simpl.
    destruct (decide (s = x)) as [->|]; [by rewrite fn_lookup_alter|by rewrite fn_lookup_alter_ne].
  - intros x u. destruct (Hx x) as [_ ->]. simpl. destruct (decide (s = x)) as [<-|Hne].
    + rewrite fn_lookup_alter. simpl. split; [|by intros []]. intros Hin. exfalso.
      destruct (decide (t = u)) as [<-|Htu]; [by rewrite fn_lookup_insert in Hin|].
      rewrite fn_lookup_insert_ne in Hin by done. apply Qq in Hin. naive_solver.
    + rewrite fn_lookup_alter_ne by done. rewrite <- Qq.
      destruct (decide (t = u)) as [<-|]; [|by rewrite fn_lookup_insert_ne].
      rewrite fn_lookup_insert, Ht, elem_of_cons. naive_solver.
  - intros u. simpl. destruct (decide (t = u)) as [<-|]; [by rewrite fn_lookup_insert|].
    by rewrite fn_lookup_insert_ne.
  - intros x Hxs. destruct (Hx x) as [-> _]. simpl. rewrite fn_lookup_alter_ne by set_solver.
    apply Qw. set_solver.
Qed.

Lemma thread_round_ok can_send room t c r c' :
  54 ≤ room → queues_ok c → thread_round can_send room t c = (r, c') →
  match r with
  | None => nio_queues c t = [] ∧ c' = c
  | Some (s, msg) =>
      s ∈ subscribers c ∧ head (nio_queues c t) = Some s ∧ queues_ok c' ∧
      ∃ es, served (can_send s) room s es msg c c'
  end.
Proof.
  intros Hr Q. unfold thread_round. destruct (cluster_subscriber_queue_pop t c) as [[s|] c1] eqn:Ep.
  - destruct (nio_queues c t) as [|s' l] eqn:Et;
      [unfold cluster_subscriber_queue_pop in Ep; by rewrite Et in Ep|].
    assert (s' = s) as ->; [|rename Et into Hnio].
    { unfold cluster_subscriber_queue_pop in Ep. rewrite Et in Ep. by injection Ep. }
    destruct (pop_ok _ _ _ _ _ Q Hnio Ep) as (Q1 & L1 & _ & Hq1).
    assert (s ∈ subscribers c) as Hs by (apply (q_nio_subs ∅ c s t Q); rewrite Hnio; by left).
    assert (s ∈ subscribers c1) as Hs1 by (by rewrite (sl_subscribers _ _ L1)).
    destruct (cluster_deal_queue _ _ _ _) as [[r' msg] c2] eqn:Ed. intros [= <- <-].
    destruct (deal_queue_ok _ _ _ _ _ _ _ Hr Q1 Hs1 Ed) as (Q2 & (es & Hsv) & Hok).
    assert (served (can_send s) room s es msg c c2) as Hsv'.
    { assert (∀ x, entries_of c1 x = entries_of c x) as He by (intros x; unfold entries_of; by rewrite Hq1).
      destruct Hsv as [V1 V2 V3 V4 V5 V6]. rewrite He in *.
      split; [by etrans|done..| |done|done]. intros x Hx. by rewrite V4, He. }
    destruct (is_ok r').
    + split_and!; [done..| |by exists es]. apply (queues_strengthen _ _ s); [by rewrite union_empty_r_L|].
      by rewrite Hok.
    + split_and!; [done..|apply push_ex_ok; [by rewrite union_empty_r_L|]|exists es].
      * by rewrite (sl_subscribers _ _ (sv_lists _ _ _ _ _ _ _ Hsv')).
      * eapply served_ext; [exact Hsv'|apply push_ex_frame|apply push_ex_queue].
  - unfold cluster_subscriber_queue_pop in Ep. destruct (nio_queues c t) eqn:Et; [|done].
    by intros [= <- <-]; simplify_eq.
Qed.

(** ** Every round makes progress *)

Lemma alter_queue_in (f : ServerSessionSubscriber → ServerSessionSubscriber) (s x : addr)
    (m : addr → ServerSessionSubscriber) :
  (∀ y, in_queue (f y) = in_queue y ∧ nio_thread (f y) = nio_thread y) →
  in_queue (alter f s m x) = in_queue (m x) ∧ nio_thread (alter f s m x) = nio_thread (m x).
Proof.
  intros Hf. destruct (decide (s = x)) as [->|]; [rewrite fn_lookup_alter; apply Hf|].
  by rewrite fn_lookup_alter_ne.
Qed.

Lemma deal_queue_frame can_send room s c r msg c' :
  cluster_deal_queue can_send room s c = (r, msg, c') →
  nio_queues c' = nio_queues c ∧
  (∀ x, in_queue (subs c' x) = in_queue (subs c x) ∧ nio_thread (subs c' x) = nio_thread (subs c x)) ∧
  (can_send = true → 54 ≤ room → is_ok r = false → queue (subs c' s) ≠ []).
Proof.
  unfold cluster_deal_queue. destruct can_send; simpl; [|by intros [= <- <- <-]].
  set (c1 := set_subs _ c).
  assert (∀ x, in_queue (subs c1 x) = in_queue (subs c x) ∧ nio_thread (subs c1 x) = nio_thread (subs c x)) as H1
    by (intros x; by apply alter_queue_in).
  destruct (queue (subs c s)) as [|x q] eqn:Eq; [by intros [= <- <- <-]|].
  destruct (pack_queue _ _) as [[bs packed] rest] eqn:Ep.
  assert (54 ≤ room → packed ≠ []) as Hne.
  { intros Hr. refine (pack_queue_progress _ (x :: q) _ _ _ _ _ Ep); [|done].
    unfold sizeof_FCFSAuthProtoSessionPushRespBodyHeader. lia. }
  destruct packed as [|y packed], rest as [|z rest].
  - intros [= <- <- <-]. split_and!; [done..|]. intros _ Hr. by destruct (Hne Hr).
  - intros [= <- <- <-]. split_and!; [done..|]. intros _ Hr. by destruct (Hne Hr).
  - pose proof (free_entries_frame (y :: packed) c1) as (_ & F2 & _ & _ & F5).
    intros [= <- _ <-]. change (session_subscribe_free_entries packed (pool_free 0 y.1 c1))
      with (session_subscribe_free_entries (y :: packed) c1). rewrite F2, F5. done.
  - set (c2 := set_subs (alter (λ x, set_queue ((z :: rest) ++ queue x) x) s (subs c1)) c1).
    pose proof (free_entries_frame (y :: packed) c2) as (_ & F2 & _ & _ & F5).
    intros [= <- _ <-]. change (session_subscribe_free_entries packed (pool_free 0 y.1 _))
      with (session_subscribe_free_entries (y :: packed) c2). rewrite F2, F5. split_and!; [done| |].
    + intros w. destruct (H1 w) as [<- <-]. by apply (alter_queue_in (λ x, set_queue ((z :: rest) ++ queue x) x)).
    + intros _ _ _. simpl. by rewrite !fn_lookup_alter.
Qed.

Lemma thread_round_nio can_send room t c s msg c' l :
  queues_ok c → 54 ≤ room → nio_queues c t = s :: l → can_send s = true →
  thread_round can_send room t c = (Some (s, msg), c') →
  nio_queues c' t = l ++ (if bool_decide (queue (subs c' s) = []) then [] else [s]).
Proof.
  intros Q Hr Ht Hc. unfold thread_round.
  destruct (cluster_subscriber_queue_pop t c) as [s1 c1] eqn:Ep.
  assert (s1 = Some s ∧ nio_queues c1 t = l ∧ in_queue (subs c1 s) = false ∧ nio_thread (subs c1 s) = t)
    as (-> & Hn1 & Hi1 & Ht1).
  { unfold cluster_subscriber_queue_pop in Ep. rewrite Ht in Ep. injection Ep as <- <-. simpl.
    rewrite fn_lookup_insert, fn_lookup_alter. split_and!; [done..|].
    apply (q_nio _ _ Q). rewrite Ht. by left. }
  destruct (pop_ok _ _ _ _ _ Q Ht Ep) as (Q1 & L1 & _ & _).
  assert (s ∈ subscribers c1) as Hs1.
  { rewrite (sl_subscribers _ _ L1). apply (q_nio_subs ∅ c s t Q). rewrite Ht. by left. }
  destruct (cluster_deal_queue _ _ _ _) as [[r m] c2] eqn:Ed. intros [= -> <-]. rewrite Hc in Ed.
  destruct (deal_queue_ok _ _ _ _ _ _ _ Hr Q1 Hs1 Ed) as (_ & _ & Hok).
  destruct (deal_queue_frame _ _ _ _ _ _ _ Ed) as (Hn2 & Hi2 & Hno). destruct (Hi2 s) as [Hi Hth].
  destruct (is_ok r).
  - rewrite bool_decide_eq_true_2 by (by apply Hok). by rewrite Hn2, Hn1, app_nil_r.
  - rewrite push_ex_queue, bool_decide_eq_false_2 by (by apply Hno).
    unfold cluster_subscriber_queue_push_ex. rewrite Hi, Hi1, Hth, Ht1. simpl.
    by rewrite fn_lookup_insert, Hn2, Hn1.
Qed.

(** How much a thread has to do. *)
Definition waiting c (t : nat) : nat :=
  sum_list_with (λ s, S (length (entries_of c s))) (nio_queues c t).

Lemma thread_round_waiting can_send room t c r c' :
  queues_ok c → 54 ≤ room → (∀ s, can_send s = true) →
  thread_round can_send room t c = (r, c') → nio_queues c t ≠ [] →
  (waiting c' t < waiting c t)%nat.
Proof.
  intros Q Hr Hc Ht Hne. pose proof (thread_round_ok _ _ _ _ _ _ Hr Q Ht) as Hok.
  destruct r as [[s msg]|]; [|by destruct Hok].
  destruct Hok as (_ & Hh & _ & es & [_ Hq _ Ho Hp _]).
  destruct (nio_queues c t) as [|s' l] eqn:El; [done|]. simpl in Hh. injection Hh as ->.
  pose proof (thread_round_nio _ _ _ _ _ _ _ l Q Hr El (Hc s) Ht) as Hn.
  pose proof (q_nio_nodup _ _ Q t) as Hnd. rewrite El in Hnd. apply NoDup_cons in Hnd as [Hsl _].
  unfold waiting. rewrite Hn, El, sum_list_with_app. simpl.
  assert (sum_list_with (λ s, S (length (entries_of c' s))) l =
          sum_list_with (λ s, S (length (entries_of c s))) l) as ->.
  { clear -Hsl Ho. induction l as [|x l IH]; [done|]. apply not_elem_of_cons in Hsl as [? ?].
    simpl. by rewrite IH, Ho. }
  case_bool_decide as Hz; simpl; [lia|]. rewrite Hq, length_app in *.
  assert (entries_of c' s ≠ []) as Hz' by (unfold entries_of; by intros ?%fmap_nil_inv).
  destruct es as [|e es]; [|simpl; lia]. simpl in *. by destruct (Hp (Hc s)).
Qed.

(** ** Subscribing and leaving *)

Definition unqueue (s : addr) c : C :=
  if in_queue (subs c s) then
    let t := nio_thread (subs c s) in
    set_nio_queues (<[t := filter (λ x, x ≠ s) (nio_queues c t)]> (nio_queues c))
      (set_subs (alter (set_in_queue false) s (subs c)) c)
  else c.

Lemma unqueue_spec c s :
  (∀ x t, x ∈ nio_queues c t ↔ in_queue (subs c x) = true ∧ nio_thread (subs c x) = t) →
  (∀ t, NoDup (nio_queues c t)) →
  (∀ x, queue (subs (unqueue s c) x) = queue (subs c x)) ∧ in_queue (subs (unqueue s c) s) = false ∧
  (∀ x, x ≠ s → subs (unqueue s c) x = subs c x) ∧
  (∀ x t, x ∈ nio_queues (unqueue s c) t ↔ x ∈ nio_queues c t ∧ x ≠ s) ∧
  (∀ t, NoDup (nio_queues (unqueue s c) t)) ∧
  subs_pool (unqueue s c) = subs_pool c ∧ sessions (unqueue s c) = sessions c ∧
  subscribers (unqueue s c) = subscribers c.
Proof.
  intros Qq Qd. unfold unqueue. destruct (in_queue (subs c s)) eqn:E; simpl.
  - set (u := nio_thread (subs c s)). split_and!; try done.
    + intros x. destruct (decide (s = x)) as [->|]; [by rewrite fn_lookup_alter|by rewrite fn_lookup_alter_ne].
    + by rewrite fn_lookup_alter.
    + intros x Hx. by rewrite fn_lookup_alter_ne.
    + intros x t. destruct (decide (u = t)) as [<-|Hut].
      * rewrite fn_lookup_insert, list_elem_of_filter. naive_solver.
      * rewrite fn_lookup_insert_ne by done. split; [|by intros []]. intros Hx. split; [done|].
        intros ->. apply Qq in Hx. naive_solver.
    + intros t. destruct (decide (u = t)) as [<-|]; [|by rewrite fn_lookup_insert_ne].
      rewrite fn_lookup_insert. by apply NoDup_filter.
  - split_and!; try done. intros x t. split; [|by intros []]. intros Hx. split; [done|].
    intros ->. apply Qq in Hx as [? _]. congruence.
Qed.

Lemma owned_remove c s :
  NoDup (subscribers c) → s ∈ subscribers c →
  owned c ≡ₚ (s :: (queue (subs c s)).*1) ++
             (filter (λ x, x ≠ s) (subscribers c) ++
              (filter (λ x, x ≠ s) (subscribers c) ≫= λ x, (queue (subs c x)).*1)).
Proof.
  intros Hnd Hs. unfold owned. destruct (bind_split _ s id (subs c) Hnd Hs) as [-> _].
  assert (subscribers c ≡ₚ s :: filter (λ x, x ≠ s) (subscribers c)) as Hp; [|rewrite Hp at 1; simpl; solve_Permutation].
  apply NoDup_Permutation; [done| |].
  - apply NoDup_cons. split; [|by apply NoDup_filter]. rewrite list_elem_of_filter. tauto.
  - intros x. rewrite elem_of_cons, list_elem_of_filter. destruct (decide (x = s)); naive_solver.
Qed.

Lemma cleanup_ok c s :
  queues_ok c → s ∈ subscribers c →
  queues_ok (session_subscriber_cleanup s c) ∧
  subscribers (session_subscriber_cleanup s c) = filter (λ x, x ≠ s) (subscribers c) ∧
  sessions (session_subscriber_cleanup s c) = sessions c ∧
  ∀ x, x ≠ s → subs (session_subscriber_cleanup s c) x = subs c x.
Proof.
  intros Q Hs. pose proof (owned_remove c s (q_subs_nodup _ _ Q) Hs) as Hsp.
  set (c1 := session_subscribe_unregister s c).
  change (session_subscriber_cleanup s c) with (session_subscribe_release s (unqueue s c1)).
  destruct (unqueue_spec c1 s) as (U1 & U2 & U3 & U4 & U5 & U6 & U7 & U8); [apply Q..|].
  unfold session_subscribe_release. set (c2 := unqueue s c1) in *.
  set (c3 := set_subs (alter (set_queue []) s (subs c2)) c2).
  pose proof (free_entries_frame (queue (subs c2 s)) c3) as (F1 & F2 & F3 & F4 & F5).
  set (c4 := session_subscribe_free_entries _ c3) in *.
  assert (∀ x, x ≠ s → subs c4 x = subs c x) as Hne.
  { intros x Hx. rewrite F2. simpl. rewrite fn_lookup_alter_ne by done. by rewrite U3. }
  assert (queue (subs c4 s) = [] ∧ in_queue (subs c4 s) = false) as [Hq4 Hi4].
  { rewrite F2. simpl. by rewrite fn_lookup_alter. }
  assert (subscribers c4 = filter (λ x, x ≠ s) (subscribers c)) as Hl4 by (by rewrite F4; simpl; rewrite U8).
  split_and!; [|exact Hl4|by transitivity (sessions c4); [|rewrite F3; simpl; rewrite U7]|done].
  assert (owned (pool_free 1 s c4) = filter (λ x, x ≠ s) (subscribers c) ++
    (filter (λ x, x ≠ s) (subscribers c) ≫= λ x, (queue (subs c x)).*1)) as Ho.
  { unfold owned. simpl. rewrite Hl4. f_equal. apply bind_ext_in.
    intros x [Hx _]%list_elem_of_filter. by rewrite Hne. }
  pose proof (q_nodup _ _ Q) as Hnd. rewrite Hsp in Hnd. apply NoDup_app in Hnd as (_ & Hdis & Hnd).
  split; rewrite ?Ho; [done| | | | |].
  - intros a. simpl. rewrite mb_free_live, F1. simpl. rewrite U1, U6. simpl.
    pose proof (q_live _ _ Q a) as Hl. rewrite Hsp, elem_of_app, elem_of_cons in Hl.
    specialize (Hdis a). rewrite elem_of_cons in Hdis.
    rewrite !elem_of_difference, elem_of_list_to_set, elem_of_singleton. simpl in *. tauto.
  - simpl. intros x. rewrite Hl4, list_elem_of_filter. destruct (decide (x = s)) as [->|Hx]; [done|].
    intros Hn. rewrite Hne by done. apply (q_idle _ _ Q). tauto.
  - intros x t. simpl. rewrite F5. simpl. rewrite U4. change (nio_queues c1) with (nio_queues c).
    rewrite (q_nio _ _ Q). destruct (decide (x = s)) as [->|Hx].
    + rewrite Hi4. naive_solver.
    + rewrite Hne by done. tauto.
  - intros t. simpl. rewrite F5. apply U5.
  - intros x _. simpl. destruct (decide (x = s)) as [->|Hx]; [by rewrite Hq4|].
    rewrite Hne by done. apply (q_wake _ _ Q). set_solver.
Qed.

Section subscribe.
Context `{!MblockTotal MB} {D : Type} `{!SessionDB D}.

Definition publish_bit (m : ServerSession.memory ServiceHandler.ServerSessionFields) (f : addr) : bool :=
  ServerSession.part1_publish (ServerSession.part1
    (ServerSession.id_info (ServerSession.entry (ServerSession.ent m f)))).

Lemma push_all_loop_ok (d : D) m l c :
  ∃ q b, push_all_loop d m l c = (Ok q, set_pool b c) ∧
    q.*2 = set_session_subscribe_entry d m <$> filter (publish_bit m) l ∧
    mb_live b = list_to_set q.*1 ∪ mb_live (subs_pool c) ∧
    NoDup q.*1 ∧ ∀ a, a ∈ q.*1 → a ∉ mb_live (subs_pool c).
Proof.
  revert c. induction l as [|f l IH]; intros c; simpl.
  - exists [], (subs_pool c). split_and!; [by destruct c|done|set_solver|constructor|].
    by intros a ?%not_elem_of_nil.
  - rewrite filter_cons. fold (publish_bit m f). case_decide as Hd.
    + rewrite (Is_true_true_1 _ Hd).
      destruct (pool_alloc_ok 0 c) as (a & b & Ha & Hal). rewrite (bind_ok _ _ _ _ _ Hal).
      destruct (mb_alloc_some _ _ _ _ Ha) as [Hnew Hlive].
      destruct (IH (set_pool b c)) as (q & b' & Hp & Hq & Hl & Hn & Hf). simpl in *.
      rewrite (bind_ok _ _ _ _ _ Hp). exists ((a, set_session_subscribe_entry d m f) :: q), b'.
      split_and!; [done|by rewrite fmap_cons, Hq| | |].
      * simpl. rewrite Hl, Hlive. set_solver.
      * simpl. apply NoDup_cons. split; [|done]. intros Hin. specialize (Hf _ Hin). set_solver.
      * simpl. intros x [->|Hx]%elem_of_cons; [done|]. specialize (Hf _ Hx). set_solver.
    + rewrite (Is_true_false_1 _ Hd). apply IH.
Qed.

(** A new subscriber with its first entries, linked to the others. *)
Lemma link_ok c c' s (q : list item) t :
  queues_ok c → s ∉ mb_live (subs_pool c) → NoDup (s :: q.*1) →
  (∀ a, a ∈ q.*1 → a ∉ mb_live (subs_pool c)) →
  mb_live (subs_pool c') = {[s]} ∪ list_to_set q.*1 ∪ mb_live (subs_pool c) →
  subscribers c' = subscribers c ++ [s] → nio_queues c' = nio_queues c →
  (∀ x, x ≠ s → subs c' x = subs c x) →
  subs c' s = {| queue := q; in_queue := false; nio_thread := t |} →
  queues_but {[s]} c'.
Proof.
  intros Q Hs Hnd Hf Hb Hl Hn Hne He. assert (s ∉ subscribers c) as Hns.
  { intros Hin. by apply (q_subs_live _ _ _ Q) in Hin. }
  assert (owned c' ≡ₚ (s :: q.*1) ++ owned c) as Ho.
  { unfold owned. rewrite Hl, bind_app. simpl. rewrite He. simpl.
    rewrite (bind_ext_in _ (λ x, (queue (subs c x)).*1) (subscribers c)).
    - rewrite app_nil_r. solve_Permutation.
    - intros x Hx. rewrite Hne; [done|]. by intros ->. }
  assert (∀ a, a ∈ s :: q.*1 → a ∉ mb_live (subs_pool c)) as Hall
    by (intros a [->|Ha]%elem_of_cons; [done|by apply Hf]).
  destruct Q as [Qn Ql Qi Qq Qd Qw]. destruct (Qi s Hns) as [Hqs His]. split.
  - rewrite Ho. apply NoDup_app. split_and!; [done| |done]. intros a Ha. rewrite Ql. by apply Hall.
  - intros a. rewrite Ho, elem_of_app, elem_of_cons, Ql, Hb. set_solver.
  - intros x. rewrite Hl. intros Hx. rewrite Hne by set_solver. apply Qi. set_solver.
  - intros x u. rewrite Hn. destruct (decide (x = s)) as [->|]; [|by rewrite Hne].
    rewrite He. simpl. rewrite Qq, His. naive_solver.
  - intros u. by rewrite Hn.
  - intros x Hx. assert (x ≠ s) by set_solver. rewrite Hne by done. apply Qw. set_solver.
Qed.

Lemma subscribe_ok (d : D) m thread c :
  queues_ok c →
  ∃ s c', cluster_subscribe d m thread c = (Ok s, c') ∧ queues_ok c' ∧ sessions c' = sessions c ∧
    subscribers c' = subscribers c ++ [s] ∧ (s ∉ subscribers c) ∧
    entries_of c' s = (set_session_subscribe_entry d m <$> filter (publish_bit m) (sessions c)) ∧
    ∀ x, x ≠ s → entries_of c' x = entries_of c x.
Proof.
  intros Q. unfold cluster_subscribe, session_subscribe_alloc, session_subscribe_register, register_push,
    register_link, push_all_sessions_to_queue.
  destruct (pool_alloc_ok 1 c) as (s & b & Ha & Hal). destruct (mb_alloc_some _ _ _ _ Ha) as [Hnew Hlive].
  set (c1 := set_subs (alter (λ x, {| queue := queue x; in_queue := in_queue x; nio_thread := thread |}) s
                         (subs c)) (set_pool b c)).
  destruct (push_all_loop_ok d m (sessions c) c1) as (q & b2 & Hp & Hq & Hl & Hnd & Hf). simpl in Hl, Hf.
  assert (s ∉ subscribers c) as Hns by (intros Hin; by apply (q_subs_live _ _ _ Q) in Hin).
  destruct (q_idle _ _ Q s Hns) as [Hqs His].
  set (c2 := set_subscribers (subscribers c ++ [s])
               (set_subs (alter (λ x, set_queue (queue x ++ q) x) s (subs c1)) (set_pool b2 c1))).
  assert (queues_but {[s]} c2) as Q2.
  { apply (link_ok c c2 s q thread Q Hnew).
    - apply NoDup_cons. split; [|done]. intros Hin. specialize (Hf _ Hin). set_solver.
    - intros a Ha'. specialize (Hf _ Ha'). set_solver.
    - simpl. rewrite Hl, Hlive. set_solver.
    - done.
    - done.
    - intros x Hx. simpl. by rewrite !fn_lookup_alter_ne.
    - simpl. rewrite !fn_lookup_alter. simpl. by rewrite Hqs, His. }
  assert (queue (subs c2 s) = q) as Hq2 by (simpl; rewrite !fn_lookup_alter; simpl; by rewrite Hqs).
  assert (∀ x, x ≠ s → queue (subs c2 x) = queue (subs c x)) as Hne
    by (intros x Hx; simpl; by rewrite !fn_lookup_alter_ne).
  exists s, (if bool_decide (queue (subs c2 s) = []) then c2 else cluster_subscriber_queue_push_ex s c2).
  split.
  { rewrite (bind_ok _ _ _ s c1); [|by rewrite (bind_ok _ _ _ _ _ Hal)]. cbv beta.
    rewrite (bind_ok _ _ _ tt c2); [done|]. rewrite (bind_ok _ _ _ tt (set_subs
      (alter (λ x, set_queue (queue x ++ q) x) s (subs c1)) (set_pool b2 c1))); [done|].
    rewrite (bind_ok _ _ _ (Ok tt) (set_subs (alter (λ x, set_queue (queue x ++ q) x) s (subs c1))
      (set_pool b2 c1))); [done|]. apply attempt_eq. erewrite bind_ok by reflexivity.
    by rewrite (bind_ok _ _ _ _ _ Hp). }
  case_bool_decide as Hz.
  - split_and!; [|done..|unfold entries_of; by rewrite Hq2, Hq|intros x Hx; unfold entries_of; by rewrite Hne].
    apply (queues_strengthen _ _ s); [by rewrite union_empty_r_L|done].
  - destruct (push_ex_frame c2 s) as [[-> -> _] _].
    split_and!; [|done..| |].
    + apply push_ex_ok; [by rewrite union_empty_r_L|]. simpl. set_solver.
    + unfold entries_of. by rewrite push_ex_queue, Hq2, Hq.
    + intros x Hx. unfold entries_of. by rewrite push_ex_queue, Hne.
Qed.
End subscribe.
End queues.
End SubscribeQueues.
