(* ===== verification/SessionReplica.v ===== *)
(** * What a sequence of published entries means

    A subscriber's view of the sessions is a map from ids to fields; an entry of a
    queue is a change of it.  Here: maps built from lists of sessions, the round trip
    of entries through a message, and the effect of a message on the subscriber's
    session table. *)
From Stdlib Require Import Init.Byte.
From S2P Require Import Prelude Fastcommon Session SessionProofs SessionTable SessionSpec AuthProto SessionSubscribe SessionPush SessionSubscribeProofs.
Import ServerSession SessionTable AuthProto SessionSubscribe SessionPush SubscribeQueues.
Local Open Scope Z_scope.

Module SessionReplica.

#[global] Program Instance session_id_countable : Countable ServerSessionIdInfo :=
  inj_countable' (λ s, (part1 s, part2 s)) (λ p, {| part1 := p.1; part2 := p.2 |}) _.
Next Obligation. by intros []. Qed.

Abbreviation replica := (gmap ServerSessionIdInfo SessionSyncedFields).

Definition apply_entry (r : replica) (e : ServerSessionSubscribeEntry) : replica :=
  if operation e =? FCFS_AUTH_SESSION_OP_TYPE_CREATE then <[session e := synced e]> r
  else delete (session e) r.
Definition replay (es : list ServerSessionSubscribeEntry) (r : replica) : replica :=
  foldl apply_entry r es.

Lemma replay_app es es' r : replay (es ++ es') r = replay es' (replay es r).
Proof. apply foldl_app. Qed.

(** ** The map of a list of sessions *)
Section build.
Context (key : addr → ServerSessionIdInfo) (ent : addr → ServerSessionSubscribeEntry).
Hypothesis ent_create : ∀ a, operation (ent a) = FCFS_AUTH_SESSION_OP_TYPE_CREATE.
Hypothesis ent_key : ∀ a, session (ent a) = key a.

Definition build (l : list addr) : replica := replay (ent <$> l) ∅.

Lemma build_snoc l a : build (l ++ [a]) = <[key a := synced (ent a)]> (build l).
Proof.
  unfold build. rewrite fmap_app, replay_app. simpl. unfold apply_entry.
  by rewrite ent_create, Z.eqb_refl, ent_key.
Qed.

Definition keys_differ (l : list addr) : Prop := ∀ a b, a ∈ l → b ∈ l → key a = key b → a = b.

Lemma build_lookup l k f : keys_differ l →
  build l !! k = Some f ↔ ∃ a, a ∈ l ∧ key a = k ∧ synced (ent a) = f.
Proof.
  induction l as [|a l IH] using rev_ind; intros Hk.
  - unfold build; simpl. rewrite lookup_empty. split; [done|].
    by intros (a & ?%not_elem_of_nil & _).
  - rewrite build_snoc, lookup_insert_Some, IH by (intros x y ? ?; apply Hk; set_solver). split.
    + intros [[<- <-]|(Hne & x & Hx & Hxk & Hf)]; [exists a|exists x]; set_solver.
    + intros (x & [Hx|Hx]%elem_of_app & <- & <-); [|apply list_elem_of_singleton in Hx as ->; by left].
      destruct (decide (key a = key x)) as [Heq|]; [|right; split; [done|by exists x]].
      left. assert (a = x) as -> by (apply Hk; set_solver). done.
Qed.

Lemma build_filter l a : keys_differ l → a ∈ l →
  build (filter (λ x, x ≠ a) l) = delete (key a) (build l).
Proof.
  intros Hk Ha. assert (keys_differ (filter (λ x, x ≠ a) l)) as Hk'
    by (intros x y [_ Hx]%list_elem_of_filter [_ Hy]%list_elem_of_filter; by apply Hk).
  apply map_eq. intros k. apply option_eq. intros f.
  rewrite lookup_delete_Some, !build_lookup by done.
  setoid_rewrite list_elem_of_filter. split.
  - intros (x & [Hne Hx] & <- & <-). split; [|by exists x]. intros Heq. apply Hne. symmetry. by apply Hk.
  - intros (Hne & x & Hx & <- & <-). exists x. split_and!; [|done..]. by intros ->.
Qed.

End build.

(** A new entry for one of the sessions. *)
Lemma build_update key ent l a e :
  (∀ x, operation (ent x) = FCFS_AUTH_SESSION_OP_TYPE_CREATE) → (∀ x, session (ent x) = key x) →
  operation e = FCFS_AUTH_SESSION_OP_TYPE_CREATE → session e = key a → keys_differ key l → a ∈ l →
  build (<[a := e]> ent) l = apply_entry (build ent l) e.
Proof.
  intros Hc Hk He Hke Hl Ha. unfold apply_entry. rewrite He, Z.eqb_refl, Hke.
  assert (∀ x, operation ((<[a := e]> ent : addr → ServerSessionSubscribeEntry) x) =
    FCFS_AUTH_SESSION_OP_TYPE_CREATE ∧ session ((<[a := e]> ent : addr → ServerSessionSubscribeEntry) x) = key x) as Hx.
  { intros x. destruct (decide (a = x)) as [<-|];
      [by rewrite fn_lookup_insert|by rewrite fn_lookup_insert_ne]. }
  apply map_eq. intros k. apply option_eq. intros f.
  rewrite lookup_insert_Some, !(build_lookup key) by (done || apply Hx). split.
  - intros (x & Hxl & <- & <-). destruct (decide (a = x)) as [<-|Hne].
    + left. by rewrite fn_lookup_insert.
    + right. rewrite fn_lookup_insert_ne by done. split; [|by exists x]. by intros ?%Hl.
  - intros [[<- <-]|(Hne & x & Hxl & <- & <-)].
    + exists a. by rewrite fn_lookup_insert.
    + exists x. rewrite fn_lookup_insert_ne; [done|]. by intros ->.
Qed.

(** Two ways to fill in the entries that agree on a list give the same map. *)
Lemma build_ext ent ent' l : (∀ a, a ∈ l → ent a = ent' a) → build ent l = build ent' l.
Proof. intros He. unfold build. f_equal.
  apply list_fmap_ext. intros i a Ha. by apply He, list_elem_of_lookup_2 with i. Qed.

(** ** The round trip of a message *)

Definition fields_ok (f : SessionSyncedFields) : Prop :=
  in_sint 64 (user_id f) ∧ in_sint 64 (user_priv f) ∧ in_sint 64 (pool_id f) ∧
  in_sint 32 (fdir (pool_privs f)) ∧ in_sint 32 (fstore (pool_privs f)).

(** The entries that the server makes. *)
Definition entry_ok (e : ServerSessionSubscribeEntry) : Prop :=
  id_ok (session e) ∧
  ((operation e = FCFS_AUTH_SESSION_OP_TYPE_CREATE ∧ fields_ok (synced e)) ∨
   e = remove_entry (session e)).

Section wire.
Context `{!BuffCodec, !BuffCodecLaws}.

Lemma bytes_at_drop x p i n :
  Z.of_nat (length x) ≤ i → bytes_at (x ++ p) i n = bytes_at p (i - Z.of_nat (length x)) n.
Proof.
  intros Hi. unfold bytes_at. f_equal. rewrite drop_app_ge by lia. f_equal. lia.
Qed.
Lemma bytes_at_here x p i n :
  i = 0 → n = Z.of_nat (length x) → bytes_at (x ++ p) i n = x.
Proof. intros -> ->. by apply bytes_at_front. Qed.
Lemma char_at_drop x p i :
  Z.of_nat (length x) ≤ i → char_at (x ++ p) i = char_at p (i - Z.of_nat (length x)).
Proof.
  intros Hi. unfold char_at. rewrite lookup_app_r by lia.
  by replace (Z.to_nat i - length x)%nat with (Z.to_nat (i - Z.of_nat (length x))) by lia.
Qed.

Lemma length_pack_entry f : length (pack_push_entry f) = 33%nat.
Proof. unfold pack_push_entry. autorewrite with cfs. by rewrite !length_long2buff, !length_int2buff. Qed.

(** Reading a field of a struct that is a sequence of fields. *)
Ltac field_lia :=
  rewrite ?length_long2buff, ?length_int2buff, ?length_pack_entry; simpl length; lia.
Ltac read_field :=
  rewrite <- ?app_assoc; repeat rewrite bytes_at_drop by field_lia;
  apply bytes_at_here; field_lia.

Lemma unpack_pack_entry pre f post i :
  i = Z.of_nat (length pre) → fields_ok f →
  unpack_push_entry (pre ++ pack_push_entry f ++ post) i = f.
Proof.
  intros -> (H1 & H2 & H3 & H4 & H5). unfold pack_push_entry, unpack_push_entry.
  set (p := pre ++ _). set (n := Z.of_nat (length pre)).
  assert (bytes_at p (n + 1) 8 = long2buff (pool_id f)) as -> by (unfold p, n; read_field).
  assert (bytes_at p (n + 9) 4 = int2buff (fdir (pool_privs f))) as -> by (unfold p, n; read_field).
  assert (bytes_at p (n + 13) 4 = int2buff (fstore (pool_privs f))) as -> by (unfold p, n; read_field).
  assert (bytes_at p (n + 17) 8 = long2buff (user_id f)) as -> by (unfold p, n; read_field).
  assert (bytes_at p (n + 25) 8 = long2buff (user_priv f)) as -> by (unfold p, n; read_field).
  assert (char_at p n = Z.b2z (pool_available f)) as ->.
  { unfold p, n. rewrite char_at_drop, Z.sub_diag by lia. unfold char_at. simpl.
    apply byte_val_of. by destruct (pool_available f). }
  rewrite !buff2long_long2buff, !buff2int_int2buff by done.
  destruct f as [? ? ? av []]; simpl. by destruct av.
Qed.

Lemma length_pack_part e :
  Z.of_nat (length (pack_push_part e)) =
  17 + (if operation e =? FCFS_AUTH_SESSION_OP_TYPE_CREATE then 33 else 0).
Proof.
  unfold pack_push_part. autorewrite with cfs. rewrite !length_long2buff.
  destruct (_ =? _); rewrite ?length_pack_entry; simpl; lia.
Qed.

(** An entry of a message comes out as it went in, and the next one is behind it. *)
Lemma parse_entry pre e post body_len i :
  i = Z.of_nat (length pre) → entry_ok e →
  i + Z.of_nat (length (pack_push_part e)) ≤ body_len →
  ∀ n, parse_entries (S n) (pre ++ pack_push_part e ++ post) body_len i =
    match parse_entries n (pre ++ pack_push_part e ++ post) body_len
            (i + Z.of_nat (length (pack_push_part e))) with
    | Ok (l, j) => Ok (e :: l, j)
    | Err x => Err x
    end.
Proof.
  intros -> [[Hid1 Hid2] Hop] Hlen n. rewrite length_pack_part in *. simpl.
  set (p := pre ++ pack_push_part e ++ post) in *. set (k := Z.of_nat (length pre)) in *.
  assert (0 ≤ operation e < 256) as Hb by (destruct Hop as [[-> _]| ->]; done).
  assert (bytes_at p k 8 = long2buff (int64 (part1 (session e)))) as ->
    by (unfold p, k, pack_push_part; read_field).
  assert (bytes_at p (k + 8) 8 = long2buff (int64 (part2 (session e)))) as ->
    by (unfold p, k, pack_push_part; read_field).
  assert (char_at p (k + 16) = operation e) as ->.
  { unfold p, k, pack_push_part. rewrite <- !app_assoc, !char_at_drop by field_lia.
    rewrite !length_long2buff. replace (_ - _ - _ - _) with 0 by lia. by apply byte_val_of. }
  rewrite !uint64_buff2long by done.
  unfold sizeof_FCFSAuthProtoSessionPushRespBodyPart, sizeof_FCFSAuthProtoSessionPushEntry.
  destruct (_ >? _) eqn:Eg; [apply Z.gtb_lt in Eg; destruct (_ =? _); lia|].
  assert ((if operation e =? FCFS_AUTH_SESSION_OP_TYPE_CREATE then unpack_push_entry p (k + 17)
           else zero_fields) = synced e) as ->.
  { destruct Hop as [[Hc Hf]| ->]; [|done]. rewrite Hc, Z.eqb_refl. unfold p, pack_push_part.
    rewrite Hc, Z.eqb_refl.
    set (h := long2buff (int64 (part1 (session e))) ++ long2buff (int64 (part2 (session e))) ++
              [byte_of FCFS_AUTH_SESSION_OP_TYPE_CREATE]).
    replace (pre ++ _) with ((pre ++ h) ++ pack_push_entry (synced e) ++ post)
      by (unfold h; by rewrite <- !app_assoc).
    apply unpack_pack_entry; [|done]. unfold h, k. autorewrite with cfs.
    rewrite !length_long2buff. simpl. lia. }
  change (8 + 8 + 1) with 17. change (1 + 8 + 4 + 4 + 8 + 8) with 33.
  rewrite Z.add_assoc. clearbody p. by destruct e as [? [] ?].
Qed.

(** The body of a message is taken apart into what was packed. *)
Lemma parse_packed es pre post body_len i :
  i = Z.of_nat (length pre) → Forall entry_ok es →
  i + Z.of_nat (length (es ≫= pack_push_part)) ≤ body_len →
  parse_entries (length es) (pre ++ (es ≫= pack_push_part) ++ post) body_len i =
  Ok (es, i + Z.of_nat (length (es ≫= pack_push_part))).
Proof.
  intros Hi Hok. revert pre i Hi. induction Hok as [|e es He Hok IH]; intros pre i Hi Hlen.
  - simpl. by rewrite Z.add_0_r.
  - rewrite bind_cons, length_app in *. cbn [length]. rewrite <- app_assoc.
    rewrite (parse_entry pre e _ body_len i Hi He) by lia.
    rewrite app_assoc, IH; [|rewrite length_app; lia|lia]. do 2 f_equal. lia.
Qed.

(** What a subscriber does to its view with the body of a message. *)
Definition apply_push (b : list byte) (r : replica) : replica :=
  match parse_entries (Z.to_nat (buff2int (bytes_at b 0 4))) b (Z.of_nat (length b)) 4 with
  | Ok (es, _) => replay es r
  | Err _ => r
  end.

Lemma parse_message es b :
  Forall entry_ok es → Z.of_nat (length es) < 2 ^ 31 → push_message es = Some b →
  buff2int (bytes_at b 0 4) = Z.of_nat (length es) ∧
  parse_entries (length es) b (Z.of_nat (length b)) 4 = Ok (es, Z.of_nat (length b)).
Proof.
  intros Hok Hlen Hb. unfold push_message in Hb.
  assert (b = int2buff (Z.of_nat (length es)) ++ (es ≫= pack_push_part) ++ []) as ->.
  { rewrite app_nil_r. by destruct es; simplify_eq. }
  rewrite bytes_at_front by (by rewrite length_int2buff).
  rewrite buff2int_int2buff by wrap_lia. split; [done|].
  rewrite (parse_packed es _ [] _ 4); [|by rewrite length_int2buff|done|];
    autorewrite with cfs; rewrite length_int2buff; simpl; [do 2 f_equal|]; lia.
Qed.

Lemma apply_push_message es b r :
  Forall entry_ok es → Z.of_nat (length es) < 2 ^ 31 → push_message es = Some b →
  apply_push b r = replay es r.
Proof.
  intros Hok Hlen Hb. destruct (parse_message es b Hok Hlen Hb) as [Hn Hp]. unfold apply_push.
  by rewrite Hn, Nat2Z.id, Hp.
Qed.
End wire.
End SessionReplica.
