(* ===== verification/SessionSubscribeSpec.v ===== *)
(** * Subscribers receive the sessions of the server

    The server with its session table, database and subscribers as a transition
    system, and the invariant that relates each subscriber's view to the table: what
    was sent to it and what is queued for it, in this order, make up exactly the
    published sessions with their current fields. *)
From Stdlib Require Import Init.Byte.
From S2P Require Import Prelude Fastcommon Session SessionProofs SessionTable SessionSpec AuthProto AuthDB ServiceHandler SessionStore SessionSubscribe SessionPush SessionSubscribeProofs SessionReplica.
Import ServerSession SessionIds SessionTable SessionSubscribe SessionPush SubscribeQueues SessionReplica.
Import AuthDB(priv_change, user_priv_changed, pool_priv_changed, pool_quota_avail_changed).
Import ServiceHandler(ServerSessionFields, publish, dbuser, dbpool, MYSELF_IS_MASTER).
Import SessionStore(no_id).
Local Open Scope Z_scope.

(** ** The callbacks run once, on the final memory *)
Module TableCallbacks.
Section callbacks.
Context {F X MB : Type} `{!Mblock MB, !MblockLaws MB, !FcCompare, !FcCompareLaws}.
Implicit Types c : ServerSessionContext F X MB.

Definition same_cb c c' : Prop := callbacks c' = callbacks c ∧ cb_state c' = cb_state c.

Lemma insert_same_cb se replace c : same_cb c (session_htable_insert se replace c).2.
Proof.
  unfold session_htable_insert. destruct (find _ _) as [[found|] [prev|]]; [destruct replace..| |]; done.
Qed.

Lemma generate_same_cb samples se pub per c c' :
  generate_loop samples se pub per c = Some c' → same_cb c c'.
Proof.
  revert c. induction samples as [|s samples IH]; intros c; simpl; [done|].
  set (c1 := with_heap _ _). assert (same_cb c c1) as [H1 H2] by done.
  pose proof (insert_same_cb se false c1) as [H3 H4].
  destruct (session_htable_insert se false c1) as [r c2]. simpl in *.
  assert (same_cb c c2) as [H5 H6] by (split; congruence).
  destruct r as [[]|[]]; try (by intros [= <-]). intros [H7 H8]%IH. split; congruence.
Qed.

Lemma add_callback samples id f pub per c r c' :
  server_session_add_ex samples id f pub per c = Some (r, c') →
  callbacks c' = callbacks c ∧
  cb_state c' = match r, add_func (callbacks c) with
                | Some se, Some g => g (mem c') se (cb_state c)
                | _, _ => cb_state c
                end.
Proof.
  unfold server_session_add_ex. destruct (mb_alloc _ _) as [[se|] b]; [|by intros [= <- <-]].
  set (c1 := with_data _ _). assert (same_cb c c1) as [H1 H2] by done. clearbody c1.
  intros Hb. apply bind_Some in Hb as (c2 & Hc2 & Hr). injection Hr as <- <-.
  assert (same_cb c1 c2) as [H3 H4].
  { destruct (part1 id =? 0); [by eapply generate_same_cb|]. injection Hc2 as <-.
    apply (insert_same_cb se true (with_heap (alter (set_id id) se (heap_of c1)) c1)). }
  assert (callbacks c2 = callbacks c) as H5 by congruence. unfold call_add_func. rewrite H5.
  destruct (add_func (callbacks c)); simpl; split; congruence.
Qed.

Lemma delete_callback id c a g :
  (find c id).1 = Some a → del_func (callbacks c) = Some g →
  ∃ m, data m = data (mem c) ∧ (∀ b, entry (ent m b) = entry (heap_of c b)) ∧
    callbacks (server_session_delete id c).2 = callbacks c ∧
    cb_state (server_session_delete id c).2 = g m a (cb_state c).
Proof.
  unfold server_session_delete. destruct (find c id) as [[found|] prev]; [|done].
  simpl. intros [= ->] Hg. set (c1 := match prev with None => _ | Some p => _ end).
  assert (same_cb c c1 ∧ data (mem c1) = data (mem c) ∧
          ∀ b, entry (heap_of c1 b) = entry (heap_of c b)) as ([H1 H2] & H3 & H4).
  { unfold c1. destruct prev; split_and!; try done. intros b. apply entry_alter_next. }
  exists (mem c1). unfold free_hash_entry. rewrite H1, Hg. simpl. by rewrite H2.
Qed.
End callbacks.
End TableCallbacks.

Module SubscribeSpec.
Import TableCallbacks.

Section spec.
Context `{!BuffCodec, !BuffCodecLaws, !FcCompare, !FcCompareLaws}.
Context {D MB MBt : Type} `{!SessionDB D, !Mblock MB, !MblockLaws MB, !MblockTotal MB}.
Context `{!Mblock MBt, !MblockLaws MBt}.

Abbreviation T := (ServerSessionContext ServerSessionFields (server_state D MB) MBt).
Implicit Types c : T.

Definition ctx c : ServerSessionSubscribeContext MB := subscribe_ctx (cb_state c).
Definition with_ctx (x : ServerSessionSubscribeContext MB) c : T := with_cb (set_ctx x (cb_state c)) c.
Definition with_db (d : D) c : T := with_cb (set_db d (cb_state c)) c.

(** What is published of a session. *)
Definition session_fields (d : D) (f : ServerSessionFields) : SessionSyncedFields :=
  {| user_id := db_user_id d (deref (dbuser f));
     user_priv := db_user_priv d (deref (dbuser f));
     pool_id := match dbpool f with Some p => db_pool_id d p | None => 0 end;
     pool_available := match dbpool f with Some p => db_pool_available d p | None => false end;
     pool_privs := match dbpool f with
                   | Some _ => synced_privs (ServiceHandler.pool_privs f)
                   | None => {| fdir := 0; fstore := 0 |}
                   end |}.
Definition create_entry (id : ServerSessionIdInfo) (f : SessionSyncedFields) :=
  {| operation := FCFS_AUTH_SESSION_OP_TYPE_CREATE; session := id; synced := f |}.

Definition key_of c (a : addr) : ServerSessionIdInfo := id_of (heap_of c) a.
Definition entry_of c (a : addr) : ServerSessionSubscribeEntry :=
  create_entry (key_of c a) (session_fields (db (cb_state c)) (data (mem c) a)).

(** The published sessions as a map. *)
Definition view c : replica := build (entry_of c) (sessions (ctx c)).

(** The values of the database fit their C types. *)
Definition db_ok (d : D) : Prop :=
  ∀ a, in_sint 64 (db_user_id d a) ∧ in_sint 64 (db_user_priv d a) ∧ in_sint 64 (db_pool_id d a).
Definition privs_ok (p : AuthDB.FCFSAuthSPoolPriviledges) : Prop :=
  in_sint 32 (AuthDB.fdir p) ∧ in_sint 32 (AuthDB.fstore p).

(** What was sent to each subscriber, as its view. *)
Abbreviation views := (addr → replica).

(** [R] is the view of every subscriber once it has received what is queued. *)
Definition synced_to (x : ServerSessionSubscribeContext MB) (dl : views) (R : replica) : Prop :=
  ∀ s, s ∈ subscribers x → replay (entries_of x s) (dl s) = R.

(** [e]: the entries that the subscribers have, or have queued, of the published
    sessions. *)
Record synced_with (e : addr → ServerSessionSubscribeEntry) c (dl : views) : Prop := {
  is_wf : wf c;
  is_callbacks : callbacks c = g_server_session_callbacks;
  is_master : MYSELF_IS_MASTER (cluster (cb_state c)) = true;
  is_db : db_ok (db (cb_state c));
  is_queues : queues_ok (ctx c);
  is_nodup : NoDup (sessions (ctx c));
  is_sessions a : a ∈ sessions (ctx c) ↔ a ∈ live c ∧ publish (data (mem c) a) = true;
  is_bit a : a ∈ live c → part1_publish (part1 (key_of c a)) = publish (data (mem c) a);
  is_privs a : a ∈ live c → privs_ok (ServiceHandler.pool_privs (data (mem c) a));
  is_entries s : Forall entry_ok (entries_of (ctx c) s);
  is_synced : synced_to (ctx c) dl (build e (sessions (ctx c)));
}.
(** They are the current ones. *)
Abbreviation in_sync c dl := (synced_with (entry_of c) c dl).

(** ** Small facts *)

Lemma entry_of_eq c a : wf c → set_session_subscribe_entry (db (cb_state c)) (mem c) a = entry_of c a.
Proof.
  intros [cs R]. unfold set_session_subscribe_entry. cbv zeta.
  change (ent (mem c)) with (heap_of c). by rewrite (rep_fields _ _ _ R).
Qed.

Lemma session_keys_differ c l :
  wf c → (∀ a, a ∈ l → a ∈ live c) → keys_differ (key_of c) l.
Proof.
  intros Hwf Hl a b Ha Hb Heq. pose proof (SessionStore.live_id_ok c a Hwf (Hl a Ha)) as Hok.
  assert ((find c (key_of c a)).1 = Some a) as Hfa by (apply find_live; auto).
  assert ((find c (key_of c a)).1 = Some b) as Hfb
    by (apply find_live; [done..|]; split; [by apply Hl|by symmetry]).
  congruence.
Qed.

Lemma entry_of_ok c a :
  wf c → db_ok (db (cb_state c)) → a ∈ live c →
  privs_ok (ServiceHandler.pool_privs (data (mem c) a)) → entry_ok (entry_of c a).
Proof.
  intros Hwf Hdb Ha [Hp1 Hp2]. split; [by apply SessionStore.live_id_ok|]. left. split; [done|].
  unfold fields_ok; simpl. destruct (Hdb (deref (dbuser (data (mem c) a)))) as (? & ? & _).
  destruct (dbpool (data (mem c) a)) as [p|]; simpl; split_and!; try done.
  apply Hdb.
Qed.

Lemma publish_state e (s : server_state D MB) dl R :
  queues_ok (subscribe_ctx s) → synced_to (subscribe_ctx s) dl R →
  let s' := publish_entry e s in
  db s' = db s ∧ cluster s' = cluster s ∧ queues_ok (subscribe_ctx s') ∧
  sessions (subscribe_ctx s') = sessions (subscribe_ctx s) ∧
  subscribers (subscribe_ctx s') = subscribers (subscribe_ctx s) ∧
  (∀ P : ServerSessionSubscribeEntry → Prop, P e → (∀ x, Forall P (entries_of (subscribe_ctx s) x)) →
     ∀ x, Forall P (entries_of (subscribe_ctx s') x)) ∧
  synced_to (subscribe_ctx s') dl (apply_entry R e).
Proof.
  intros Q Hs. simpl. unfold publish_entry.
  destruct (publish_entry_ok e (subscribe_ctx s) Q) as (x' & -> & Q' & [[L1 L2 _] Pi Po]). simpl.
  split_and!; [done..| |].
  - intros P He Hall x. destruct (decide (x ∈ subscribers (subscribe_ctx s))) as [Hx|Hx].
    + rewrite Pi by done. apply Forall_app. split; [done|by constructor].
    + by rewrite Po.
  - intros x Hx. rewrite L2 in Hx. rewrite Pi, replay_app by done. simpl. by rewrite Hs.
Qed.

(** The same memory seen through another pool or other counters. *)
Lemma in_sync_ext c c' dl :
  wf c' → callbacks c' = callbacks c → mem c' = mem c → live c' = live c →
  cb_state c' = cb_state c → in_sync c dl → in_sync c' dl.
Proof.
  intros Hwf Hcb Hm Hl Hx [I1 I2 I3 I4 I5 I6 I7 I8 I9 I10 I11].
  assert (view c' = view c) as Hv by (unfold view, entry_of, key_of, heap_of, ctx; by rewrite Hm, Hx).
  split; fold (view c'); rewrite ?Hv; unfold ctx, key_of, heap_of in *; rewrite ?Hcb, ?Hx, ?Hm, ?Hl; done.
Qed.

(** ** Sessions come and go *)

Lemma wf_with_cb x c : wf c → wf (with_cb x c).
Proof. intros [cs R]. exists cs. by eapply rep_ext; [done..|apply R|apply R|apply R]. Qed.

(** [R] changes by [e] when [e] is published from a state with other sessions. *)
Lemma publish_sessions e l c dl :
  in_sync c dl → entry_ok e →
  let s' := publish_entry e (set_ctx (set_sessions l (ctx c)) (cb_state c)) in
  db s' = db (cb_state c) ∧ cluster s' = cluster (cb_state c) ∧ queues_ok (subscribe_ctx s') ∧
  sessions (subscribe_ctx s') = l ∧ (∀ x, Forall entry_ok (entries_of (subscribe_ctx s') x)) ∧
  synced_to (subscribe_ctx s') dl (apply_entry (view c) e).
Proof.
  intros I He. set (s1 := set_ctx (set_sessions l (ctx c)) (cb_state c)).
  assert (queues_ok (subscribe_ctx s1)) as Q1 by (by eapply queues_ext; [..|apply I]).
  destruct (publish_state e s1 dl (view c) Q1 (is_synced _ _ _ I)) as (P1 & P2 & P3 & P4 & _ & P5 & P6).
  split_and!; [done..| |done]. apply P5; [done|]. apply (is_entries _ _ _ I).
Qed.

(** The table with a new session. *)
Lemma in_sync_add c c' se f dl :
  in_sync c dl → wf c' → callbacks c' = callbacks c → se ∉ live c → live c' = {[se]} ∪ live c →
  data (mem c') se = f → part1_publish (part1 (key_of c' se)) = publish f →
  (∀ a, a ∈ live c → key_of c' a = key_of c a ∧ data (mem c') a = data (mem c) a) →
  privs_ok (ServiceHandler.pool_privs f) →
  cb_state c' = (if publish f then
      publish_session_to_all_subscribers (mem c') se
        (set_ctx (set_sessions (sessions (ctx c) ++ [se]) (ctx c)) (cb_state c))
    else cb_state c) →
  in_sync c' dl.
Proof.
  intros I Hwf Hcbs Hfr Hl Hnew Hbit Hold Hf Hcb.
  assert (∀ a, a ∈ live c' → part1_publish (part1 (key_of c' a)) = publish (data (mem c') a)) as Jb.
  { intros a. rewrite Hl. intros [->%elem_of_singleton|Ha]%elem_of_union; [by rewrite Hnew|].
    destruct (Hold a Ha) as [-> ->]. by apply I. }
  assert (∀ a, a ∈ live c' → privs_ok (ServiceHandler.pool_privs (data (mem c') a))) as Jp.
  { intros a. rewrite Hl. intros [->%elem_of_singleton|Ha]%elem_of_union; [by rewrite Hnew|].
    destruct (Hold a Ha) as [_ ->]. by apply I. }
  assert (∀ a, a ∈ live c' ∧ publish (data (mem c') a) = true ↔
               a ∈ sessions (ctx c) ∨ a = se ∧ publish f = true) as Js.
  { intros a. rewrite Hl, elem_of_union, elem_of_singleton, (is_sessions _ _ _ I). split.
    - intros [[->|Ha] Hp]; [right; by rewrite Hnew in Hp|left]. by destruct (Hold a Ha) as [_ <-].
    - intros [[Ha Hp]|[-> Hp]]; [destruct (Hold a Ha) as [_ ->]; tauto|by rewrite Hnew; auto]. }
  assert (db (cb_state c') = db (cb_state c) → ∀ a, a ∈ sessions (ctx c) → entry_of c' a = entry_of c a) as He.
  { intros Hdb a [Ha _]%(is_sessions _ _ _ I). unfold entry_of. destruct (Hold a Ha) as [-> ->]. by rewrite Hdb. }
  destruct (publish f) eqn:Epub.
  - assert (entry_of (with_cb (cb_state c) c') se = set_session_subscribe_entry (db (cb_state c)) (mem c') se) as Hent.
    { symmetry. apply (entry_of_eq (with_cb (cb_state c) c')). by apply wf_with_cb. }
    unfold publish_session_to_all_subscribers in Hcb. simpl in Hcb. rewrite <- Hent in Hcb.
    destruct (publish_sessions (entry_of (with_cb (cb_state c) c') se) (sessions (ctx c) ++ [se]) c dl I)
      as (P1 & P2 & P3 & P4 & P5 & P6).
    { apply entry_of_ok; [by apply wf_with_cb|apply I|..]; simpl; [|apply Jp]; rewrite ?Hl; set_solver. }
    rewrite <- Hcb in *.
    assert (view c' = apply_entry (view c) (entry_of (with_cb (cb_state c) c') se)) as Hv.
    { unfold view. fold (ctx c') in P4. rewrite P4, (build_snoc (key_of c')) by done.
      rewrite (build_ext _ (entry_of c)) by (by apply He). unfold apply_entry. simpl. by rewrite P1. }
    split; fold (view c'); rewrite ?Hv; unfold ctx in *; rewrite ?P1, ?P2, ?P4; try done; [by rewrite Hcbs; apply I|by apply I..| |].
    + apply NoDup_app. split_and!; [apply I| |apply NoDup_singleton].
      intros a Ha ->%list_elem_of_singleton. apply (is_sessions _ _ _ I) in Ha. tauto.
    + intros a. rewrite Js, elem_of_app, list_elem_of_singleton. naive_solver.
  - assert (view c' = view c) as Hv.
    { unfold view, ctx. rewrite Hcb. apply build_ext. apply He. by rewrite Hcb. }
    pose proof I as [I1 I2 I3 I4 I5 I6 I7 I8 I9 I10 I11].
    split; fold (view c'); rewrite ?Hv; unfold ctx in *; rewrite ?Hcb; try done; [congruence|].
    intros a. rewrite Js. naive_solver.
Qed.

Lemma in_sync_login samples f per c r c' dl :
  in_sync c dl → privs_ok (ServiceHandler.pool_privs f) →
  server_session_add_ex samples no_id f (publish f) per c = Some (r, c') → in_sync c' dl.
Proof.
  intros I Hf Hadd. destruct (add_callback _ _ _ _ _ _ _ _ Hadd) as [Hcbs Hcb].
  pose proof (add_generated samples no_id f (publish f) per c (is_wf _ _ _ I) eq_refl) as Hg.
  rewrite Hadd in Hg. destruct r as [se|].
  2: { destruct Hg as (Hwf & Hm & Hl). by apply (in_sync_ext c). }
  destruct Hg as (k & smp & _ & _ & [Hwf Hfr Hl Hid Hids Hda]).
  rewrite (is_callbacks _ _ _ I) in Hcb. simpl in Hcb.
  assert (fields (entry (ent (mem c') se)) = se) as Hfse by (destruct Hwf as [cs R]; apply (rep_fields _ _ _ R)).
  assert (part1_publish (part1 (key_of c' se)) = publish f) as Hbit
    by (unfold key_of; rewrite Hid; apply pack_part1_publish).
  assert (∀ a, a ∈ live c → key_of c' a = key_of c a ∧ data (mem c') a = data (mem c) a) as Hold.
  { intros a Ha. assert (a ≠ se) by (by intros ->). unfold key_of. rewrite Hda, Hids by done.
    by rewrite fn_lookup_insert_ne. }
  assert (data (mem c') se = f) as Hnew by (by rewrite Hda, fn_lookup_insert).
  unfold server_session_add_callback in Hcb. rewrite Hfse, Hnew in Hcb.
  apply (in_sync_add c c' se f dl I); [done..|exact Hf| ].
  rewrite Hcb. by destruct (publish f).
Qed.

Lemma in_sync_logout id c dl :
  in_sync c dl → id_ok id → in_sync (server_session_delete id c).2 dl.
Proof.
  intros I Hid. destruct (get_fields_cases c id) as [[g Hg]|Hg].
  2: { by rewrite SessionSpec.delete_missing by (done || apply I). }
  apply SessionSpec.get_ok_find in Hg as [a Ha]. pose proof (is_wf _ _ _ I) as [cs R].
  destruct (delete_callback id c a server_session_del_callback Ha) as (m & Hm1 & Hm2 & Hcbs & Hcb).
  { by rewrite (is_callbacks _ _ _ I). }
  destruct (delete_found c cs id a R Hid Ha) as (c' & Hdel & Hwf & [_ _ Hda Hen] & Hl).
  rewrite Hdel in *. simpl in *.
  apply find_live in Ha as [Hal Hai]; [|apply I|done].
  unfold server_session_del_callback in Hcb. rewrite Hm1, Hm2, (rep_fields _ _ _ R), (is_master _ _ _ I),
    andb_true_r in Hcb. change (id_info (entry (heap_of c a))) with (key_of c a) in Hcb.
  fold (ctx c) in Hcb.
  assert (∀ b, key_of c' b = key_of c b) as Hkey by (intros b; unfold key_of, id_of; by rewrite Hen).
  assert (∀ b, b ∈ live c' ↔ b ∈ live c ∧ b ≠ a) as Hlive by (intros b; rewrite Hl; set_solver).
  assert (db (cb_state c') = db (cb_state c) → ∀ b, entry_of c' b = entry_of c b) as He.
  { intros Hdb b. unfold entry_of. by rewrite Hkey, Hda, Hdb. }
  assert (∀ b, b ∈ live c' → part1_publish (part1 (key_of c' b)) = publish (data (mem c') b)) as Jb.
  { intros b [Hb _]%Hlive. rewrite Hkey, Hda. by apply I. }
  assert (∀ b, b ∈ live c' → privs_ok (ServiceHandler.pool_privs (data (mem c') b))) as Jp.
  { intros b [Hb _]%Hlive. rewrite Hda. by apply I. }
  destruct (publish (data (mem c) a)) eqn:Epub.
  - destruct (publish_sessions (remove_entry (key_of c a)) (filter (λ x, x ≠ a) (sessions (ctx c))) c dl I)
      as (P1 & P2 & P3 & P4 & P5 & P6).
    { split; [by unfold key_of; rewrite Hai|by right]. }
    rewrite <- Hcb in *.
    assert (view c' = apply_entry (view c) (remove_entry (key_of c a))) as Hv.
    { unfold view. fold (ctx c') in P4. rewrite P4, (build_ext _ (entry_of c)) by (intros; by apply He).
      rewrite (build_filter (key_of c)); [done..| |by apply I].
      apply session_keys_differ; [apply I|]. by intros b [? _]%(is_sessions _ _ _ I). }
    split; fold (view c'); rewrite ?Hv; unfold ctx in *; rewrite ?P1, ?P2, ?P4; try done; [by rewrite Hcbs; apply I|by apply I..| |].
    + apply NoDup_filter, I.
    + intros b. rewrite list_elem_of_filter, Hlive, Hda, (is_sessions _ _ _ I). tauto.
  - assert (view c' = view c) as Hv.
    { unfold view, ctx. rewrite Hcb. apply build_ext. intros; apply He. by rewrite Hcb. }
    pose proof I as [I1 I2 I3 I4 I5 I6 I7 I8 I9 I10 I11].
    split; fold (view c'); rewrite ?Hv; unfold ctx in *; rewrite ?Hcb; try done; [congruence|].
    intros b. rewrite I7, Hlive, Hda. split; [|tauto]. intros [? ?]. split_and!; [done| |done].
    intros ->. congruence.
Qed.

(** ** Changes of privileges and quotas *)

(** Entries that create the sessions under their ids. *)
Definition creates c (e : addr → ServerSessionSubscribeEntry) : Prop :=
  ∀ a, operation (e a) = FCFS_AUTH_SESSION_OP_TYPE_CREATE ∧ session (e a) = key_of c a.

(** What a round over the sessions leaves alone. *)
Record same_server c c' : Prop := {
  ss_db : db (cb_state c') = db (cb_state c);
  ss_sessions : sessions (ctx c') = sessions (ctx c);
  ss_keys a : key_of c' a = key_of c a;
  ss_match p a : session_matches p (db (cb_state c')) (data (mem c') a) =
                 session_matches p (db (cb_state c)) (data (mem c) a);
}.
#[local] Instance same_server_preorder : PreOrder same_server.
Proof. split; [done|]. intros x y z [] []. split; intros; congruence. Qed.

Lemma set_pool_privs_match p q (d : D) f : session_matches p d (set_pool_privs q f) = session_matches p d f.
Proof. by destruct q. Qed.

Lemma publish_matched_ok p c f e dl :
  synced_with e c dl → creates c e → f ∈ sessions (ctx c) →
  (∀ privs, match_pool_privs p = Some privs → privs_ok privs) →
  let c' := publish_matched p c f in
  ∃ e', synced_with e' c' dl ∧ creates c' e' ∧ same_server c c' ∧
    (∀ a, e a = entry_of c a ∨ a = f ∧ session_matches p (db (cb_state c)) (data (mem c) f) = true →
          e' a = entry_of c' a).
Proof.
  intros I He Hf Hp. cbv zeta. unfold publish_matched.
  destruct (session_matches p (db (cb_state c)) (data (mem c) f)) eqn:Em.
  2: { exists e. split_and!; [done..|]. intros a [?|[-> ?]]; [done|congruence]. }
  set (c1 := with_data (alter (set_pool_privs (match_pool_privs p)) f (data (mem c))) c).
  assert (wf c1) as Hwf1.
  { destruct (is_wf _ _ _ I) as [cs R]. exists cs. by eapply rep_ext; [done..|apply R|apply R|apply R]. }
  unfold publish_session_to_all_subscribers. rewrite (entry_of_eq c1 f Hwf1).
  set (s' := publish_entry (entry_of c1 f) (cb_state c1)). set (c' := with_cb s' c1).
  assert (∀ a, data (mem c1) a = if decide (a = f) then set_pool_privs (match_pool_privs p) (data (mem c) a)
                                 else data (mem c) a) as Hda.
  { intros a. simpl. case_decide as Hd; [subst; by rewrite fn_lookup_alter|by rewrite fn_lookup_alter_ne]. }
  assert (∀ a, a ∈ live c → privs_ok (ServiceHandler.pool_privs (data (mem c1) a))) as Jp.
  { intros a Ha. rewrite Hda. case_decide; [|by apply I].
    destruct (match_pool_privs p) as [privs|]; [by apply Hp|by apply I]. }
  assert (∀ a, publish (data (mem c1) a) = publish (data (mem c) a)) as Jpub.
  { intros a. rewrite Hda. case_decide; [|done]. by destruct (match_pool_privs p). }
  assert (f ∈ live c) as Hfl by (by apply (is_sessions _ _ _ I)).
  destruct (publish_state (entry_of c1 f) (cb_state c1) dl (build e (sessions (ctx c)))
    (is_queues _ _ _ I) (is_synced _ _ _ I)) as (P1 & P2 & P3 & P4 & P5 & P6 & P7).
  fold s' in P1, P2, P3, P4, P5, P6, P7. clearbody s'.
  change (cb_state c1) with (cb_state c) in P1, P2, P4. fold (ctx c) in P4.
  assert (∀ a, entry_of c' a = entry_of c1 a) as He' by (intros a; unfold entry_of; simpl; by rewrite P1).
  exists (<[f := entry_of c1 f]> e). split_and!.
  - split; try done; unfold ctx.
    + by apply wf_with_cb.
    + apply I.
    + change (cb_state c') with s'. rewrite P2. apply I.
    + change (cb_state c') with s'. rewrite P1. apply I.
    + change (cb_state c') with s'. rewrite P4. apply I.
    + change (cb_state c') with s'. intros a. rewrite P4, (is_sessions _ _ _ I). change (data (mem c')) with (data (mem c1)). by rewrite Jpub.
    + intros a Ha. change (data (mem c')) with (data (mem c1)). rewrite Jpub. by apply I.
    + apply P6; [|apply I]. apply entry_of_ok; [done|apply I|done|by apply Jp].
    + change (cb_state c') with s'. rewrite P4, (build_update (key_of c)); [done|apply He..|done|done| |done].
      apply session_keys_differ; [apply I|]. by intros a [? _]%(is_sessions _ _ _ I).
  - intros a. destruct (decide (f = a)) as [<-|]; [by rewrite fn_lookup_insert|].
    rewrite fn_lookup_insert_ne by done. apply He.
  - split; [done|exact P4|done|]. intros q a. change (cb_state c') with s'.
    change (data (mem c')) with (data (mem c1)). rewrite P1, Hda.
    case_decide; [apply set_pool_privs_match|done].
  - intros a Ha. rewrite He'. destruct (decide (f = a)) as [<-|Hne]; [by rewrite fn_lookup_insert|].
    rewrite fn_lookup_insert_ne by done. destruct Ha as [->|[-> _]]; [|done].
    unfold entry_of. change (key_of c1 a) with (key_of c a). by rewrite Hda, decide_False.
Qed.

Lemma publish_matched_all p l c e dl :
  synced_with e c dl → creates c e → (∀ f, f ∈ l → f ∈ sessions (ctx c)) →
  (∀ privs, match_pool_privs p = Some privs → privs_ok privs) →
  let c' := foldl (publish_matched p) c l in
  ∃ e', synced_with e' c' dl ∧ creates c' e' ∧ same_server c c' ∧
    (∀ a, e a = entry_of c a ∨ a ∈ l ∧ session_matches p (db (cb_state c)) (data (mem c) a) = true →
          e' a = entry_of c' a).
Proof.
  revert c e. induction l as [|f l IH]; intros c e I He Hl Hp; simpl.
  - exists e. split_and!; [done..|]. intros a [?|[?%not_elem_of_nil _]]; done.
  - destruct (publish_matched_ok p c f e dl I He (Hl f (list_elem_of_here _ _)) Hp)
      as (e1 & I1 & He1 & S1 & Hf1).
    destruct (IH (publish_matched p c f) e1 I1 He1) as (e2 & I2 & He2 & S2 & Hf2); [|done|].
    { intros x Hx. rewrite (ss_sessions _ _ S1). apply Hl. by right. }
    exists e2. split_and!; [done..|by etrans|]. intros a [Ha|[[->|Ha]%elem_of_cons Hm]];
      apply Hf2; [left; apply Hf1; by left|left; apply Hf1; by right|].
    right. by rewrite (ss_match _ _ S1).
Qed.

(** After the sessions that match were published, they and those that were up to date
    before are. *)
Lemma publish_sessions_ok p c e dl :
  synced_with e c dl → creates c e →
  (∀ privs, match_pool_privs p = Some privs → privs_ok privs) →
  let c' := publish_matched_server_sessions p c in
  ∃ e', synced_with e' c' dl ∧ creates c' e' ∧ same_server c c' ∧
    (∀ a, a ∈ sessions (ctx c) →
          e a = entry_of c a ∨ session_matches p (db (cb_state c)) (data (mem c) a) = true →
          e' a = entry_of c' a).
Proof.
  intros I He Hp. unfold publish_matched_server_sessions. case_bool_decide as Hs.
  - exists (entry_of c). split_and!; [|done..]. destruct I. split; try done.
    intros s. unfold ctx. rewrite Hs. by intros ?%not_elem_of_nil.
  - destruct (publish_matched_all p (sessions (ctx c)) c e dl I He ltac:(done) Hp)
      as (e' & ? & ? & ? & Hf). exists e'. split_and!; [done..|].
    intros a Ha [?|?]; apply Hf; auto.
Qed.

Definition change_param (ch : priv_change) : ServerSessionMatchParam :=
  match ch with
  | user_priv_changed uid _ => {| match_user_id := uid; match_pool_id := 0; match_pool_privs := None |}
  | pool_priv_changed uid pid privs =>
      {| match_user_id := uid; match_pool_id := pid; match_pool_privs := Some privs |}
  | pool_quota_avail_changed pid _ =>
      {| match_user_id := 0; match_pool_id := pid; match_pool_privs := None |}
  end.
Definition change_ok (ch : priv_change) : Prop :=
  match ch with pool_priv_changed _ _ privs => privs_ok privs | _ => True end.

Definition run_changes (chs : list priv_change) c : T := foldl (λ c ch, priv_change_callback ch c) c chs.

Lemma run_changes_ok chs c e dl :
  synced_with e c dl → creates c e → Forall change_ok chs →
  ∃ e', synced_with e' (run_changes chs c) dl ∧ same_server c (run_changes chs c) ∧
    (∀ a, a ∈ sessions (ctx c) →
          e a = entry_of c a ∨
          (∃ ch, ch ∈ chs ∧ session_matches (change_param ch) (db (cb_state c)) (data (mem c) a) = true) →
          e' a = entry_of (run_changes chs c) a).
Proof.
  intros I He Hok. revert c e I He. induction Hok as [|ch chs Hch Hok IH]; intros c e I He; simpl.
  - exists e. split_and!; [done..|]. intros a _ [?|(ch & ?%not_elem_of_nil & _)]; done.
  - destruct (publish_sessions_ok (change_param ch) c e dl I He) as (e1 & I1 & He1 & S1 & Hf1).
    { intros x Hx. destruct ch; simplify_eq/=; done. }
    replace (publish_matched_server_sessions (change_param ch) c) with (priv_change_callback ch c) in *
      by (by destruct ch).
    destruct (IH _ e1 I1 He1) as (e2 & I2 & S2 & Hf2). exists e2. split_and!; [done|by etrans|].
    intros a Ha Hor. apply Hf2; [by rewrite (ss_sessions _ _ S1)|].
    destruct Hor as [?|(ch' & [->|Hin]%elem_of_cons & Hm)]; [left; by apply Hf1; auto..|].
    right. exists ch'. by rewrite (ss_match _ _ S1).
Qed.

(** The database tells of every change that published sessions show. *)
Definition announced (d d' : D) (chs : list priv_change) : Prop :=
  ∀ a, (db_user_id d' a = db_user_id d a ∧ db_user_priv d' a = db_user_priv d a ∨
        ∃ priv, user_priv_changed (db_user_id d' a) priv ∈ chs) ∧
       (db_pool_id d' a = db_pool_id d a ∧ db_pool_available d' a = db_pool_available d a ∨
        ∃ av, pool_quota_avail_changed (db_pool_id d' a) av ∈ chs).

Lemma announced_entry c d' chs a :
  announced (db (cb_state c)) d' chs →
  entry_of c a = entry_of (with_db d' c) a ∨
  ∃ ch, ch ∈ chs ∧ session_matches (change_param ch) d' (data (mem c) a) = true.
Proof.
  intros Han. unfold entry_of. simpl. set (f := data (mem c) a).
  destruct (Han (deref (dbuser f))) as [[[Hu1 Hu2]|[priv Hu]] _].
  2: { right. exists (user_priv_changed (db_user_id d' (deref (dbuser f))) priv). split; [done|].
       unfold session_matches. simpl. by rewrite Z.eqb_refl, orb_true_r. }
  destruct (dbpool f) as [q|] eqn:Eq.
  - destruct (Han q) as [_ [[Hp1 Hp2]|[av Hp]]].
    + left. unfold session_fields. rewrite Eq. change (key_of (with_db d' c) a) with (key_of c a).
      by rewrite Hu1, Hu2, Hp1, Hp2.
    + right. exists (pool_quota_avail_changed (db_pool_id d' q) av). split; [done|].
      unfold session_matches. simpl. by rewrite Eq, Z.eqb_refl, orb_true_r.
  - left. unfold session_fields. rewrite Eq. change (key_of (with_db d' c) a) with (key_of c a).
    by rewrite Hu1, Hu2.
Qed.

Lemma in_sync_change d' chs c dl :
  in_sync c dl → db_ok d' → announced (db (cb_state c)) d' chs → Forall change_ok chs →
  in_sync (run_changes chs (with_db d' c)) dl.
Proof.
  intros I Hd Han Hok.
  assert (synced_with (entry_of c) (with_db d' c) dl) as I1.
  { pose proof I as []. split; try done. by apply wf_with_cb. }
  destruct (run_changes_ok chs (with_db d' c) (entry_of c) dl I1 ltac:(done) Hok)
    as (e' & [] & S' & Hf). split; try done. intros s Hs. rewrite is_synced0 by done. apply build_ext.
  intros a Ha. apply Hf; [by rewrite <- (ss_sessions _ _ S')|].
  exact (announced_entry c d' chs a Han).
Qed.

(** ** Subscribers *)

(** Only the queues changed. *)
Lemma in_sync_ctx c x dl dl' :
  in_sync c dl → queues_ok x → sessions x = sessions (ctx c) →
  (∀ s, Forall entry_ok (entries_of x s)) → synced_to x dl' (view c) →
  in_sync (with_ctx x c) dl'.
Proof.
  intros I Q Hs He Hsy. pose proof I as [I1 I2 I3 I4 I5 I6 I7 I8 I9 I10 I11].
  split; try done; unfold ctx in *; simpl; rewrite ?Hs; try done. by apply wf_with_cb.
Qed.

Lemma in_sync_leave s c dl :
  in_sync c dl → s ∈ subscribers (ctx c) →
  in_sync (with_ctx (session_subscriber_cleanup s (ctx c)) c) dl.
Proof.
  intros I Hs. destruct (cleanup_ok (ctx c) s (is_queues _ _ _ I) Hs) as (Q & Hl & Hse & Hne).
  apply (in_sync_ctx c _ dl); [done..| |].
  - intros x. destruct (decide (x = s)) as [->|Hx].
    + unfold entries_of. rewrite (proj1 (q_idle _ _ Q s ltac:(rewrite Hl, list_elem_of_filter; tauto))).
      constructor.
    + unfold entries_of. rewrite Hne by done. apply (is_entries _ _ _ I).
  - intros x. rewrite Hl, list_elem_of_filter. intros [Hx Hin]. unfold entries_of. rewrite Hne by done.
    by apply (is_synced _ _ _ I).
Qed.

(** What a round of a network thread sends changes the view of the receiver. *)
Definition deliver (r : option (addr * option (list byte))) (dl : views) : views :=
  match r with
  | Some (s, Some b) => <[s := apply_push b (dl s)]> dl
  | _ => dl
  end.

Lemma in_sync_round can_send room t r x c dl :
  in_sync c dl → 54 ≤ room < 2 ^ 31 → thread_round can_send room t (ctx c) = (r, x) →
  in_sync (with_ctx x c) (deliver r dl).
Proof.
  intros I Hr Ht. pose proof (thread_round_ok _ _ _ _ _ _ (proj1 Hr) (is_queues _ _ _ I) Ht) as Hok.
  destruct r as [[s msg]|].
  2: { destruct Hok as [_ ->]. apply (in_sync_ctx c _ dl); try done; apply I. }
  destruct Hok as (Hs & _ & Q & es & [[L1 L2 _] Hq -> Hne _ Hroom]).
  assert (Forall entry_ok es ∧ Forall entry_ok (entries_of x s)) as [He1 He2].
  { apply Forall_app. rewrite <- Hq. apply (is_entries _ _ _ I). }
  assert (Z.of_nat (length es) < 2 ^ 31) as Hlen by lia.
  apply (in_sync_ctx c _ dl); [done..| |].
  - intros y. destruct (decide (y = s)) as [->|]; [done|]. rewrite Hne by done. apply (is_entries _ _ _ I).
  - intros y Hy. rewrite L2 in Hy. pose proof (is_synced _ _ _ I y Hy) as Hsy.
    fold (view c) in Hsy.
    destruct (decide (y = s)) as [->|Hys].
    + rewrite Hq, replay_app in Hsy. rewrite <- Hsy. f_equal.
      destruct (push_message es) as [b|] eqn:Eb; simpl.
      * rewrite fn_lookup_insert. by apply apply_push_message.
      * destruct es; [done|]. simpl in Eb. done.
    + rewrite Hne by done. rewrite <- Hsy. f_equal. unfold deliver.
      destruct (push_message es); [by rewrite fn_lookup_insert_ne|done].
Qed.

(** A subscriber starts with every published session queued and an empty view. *)
Lemma in_sync_subscribe thread s x c dl :
  in_sync c dl → cluster_subscribe (db (cb_state c)) (mem c) thread (ctx c) = (Ok s, x) →
  in_sync (with_ctx x c) (<[s := ∅]> dl).
Proof.
  intros I Hsub.
  destruct (subscribe_ok (db (cb_state c)) (mem c) thread (ctx c) (is_queues _ _ _ I))
    as (s' & x' & Heq & Q & Hse & Hl & Hs & He & Hne). rewrite Hsub in Heq. simplify_eq.
  assert (entries_of x' s' = entry_of c <$> sessions (ctx c)) as Hes.
  { rewrite He, filter_all.
    - apply list_fmap_ext. intros i a _. by apply entry_of_eq, I.
    - intros a [Ha Hp]%(is_sessions _ _ _ I). rewrite <- (is_bit _ _ _ I) in Hp by done.
      by apply Is_true_true_2. }
  apply (in_sync_ctx c _ dl); [done..| |].
  - intros y. destruct (decide (y = s')) as [->|]; [|rewrite Hne by done; apply (is_entries _ _ _ I)].
    rewrite Hes. apply Forall_fmap, Forall_forall. intros a [Ha _]%(is_sessions _ _ _ I).
    apply entry_of_ok; [apply I..|done|by apply (is_privs _ _ _ I)].
  - intros y Hy. rewrite Hl in Hy. destruct (decide (y = s')) as [->|Hys].
    + by rewrite fn_lookup_insert, Hes.
    + rewrite fn_lookup_insert_ne, Hne by done. apply (is_synced _ _ _ I). set_solver.
Qed.

(** ** The server as a transition system *)

(** A login, a logout, an operation of the database with the callbacks it calls, a new
    subscriber, the end of a subscriber's connection, and a round of a network thread.
    The server is the master, and a login asks for a published id for a published
    session (as [service_deal_user_login] does). *)
Inductive sub_step : T * views → T * views → Prop :=
| sub_login samples f per r c c' dl :
    privs_ok (ServiceHandler.pool_privs f) →
    server_session_add_ex samples no_id f (publish f) per c = Some (r, c') →
    sub_step (c, dl) (c', dl)
| sub_logout id c dl : id_ok id → sub_step (c, dl) ((server_session_delete id c).2, dl)
| sub_change d' chs c dl :
    db_ok d' → announced (db (cb_state c)) d' chs → Forall change_ok chs →
    sub_step (c, dl) (run_changes chs (with_db d' c), dl)
| sub_subscribe thread s x c dl :
    cluster_subscribe (db (cb_state c)) (mem c) thread (ctx c) = (Ok s, x) →
    sub_step (c, dl) (with_ctx x c, <[s := ∅]> dl)
| sub_leave s c dl :
    s ∈ subscribers (ctx c) →
    sub_step (c, dl) (with_ctx (session_subscriber_cleanup s (ctx c)) c, dl)
| sub_round can_send room t r x c dl :
    54 ≤ room < 2 ^ 31 → thread_round can_send room t (ctx c) = (r, x) →
    sub_step (c, dl) (with_ctx x c, deliver r dl).

(** No sessions and no subscribers. *)
Record idle_ctx (x : ServerSessionSubscribeContext MB) : Prop := {
  idle_pool : mb_live (subs_pool x) = ∅;
  idle_subs s : queue (subs x s) = [] ∧ in_queue (subs x s) = false;
  idle_subscribers : subscribers x = [];
  idle_sessions : sessions x = [];
  idle_nio t : nio_queues x t = [];
}.

Inductive sub_reachable : T * views → Prop :=
| sub_init count cap b fs d cl x dl :
    0 < cap → mb_live b = ∅ → db_ok d → MYSELF_IS_MASTER cl = true → idle_ctx x →
    sub_reachable (server_session_init_ex count cap g_server_session_callbacks b fs
                     {| db := d; cluster := cl; subscribe_ctx := x |}, dl)
| sub_next cd cd' : sub_reachable cd → sub_step cd cd' → sub_reachable cd'.

Lemma sub_reachable_sync cd : sub_reachable cd → in_sync cd.1 cd.2.
Proof.
  induction 1 as [count cap b fs d cl x dl Hcap Hb Hd Hm [X1 X2 X3 X4 X5]|cd cd' _ I Hs]; simpl.
  - split; simpl; try done.
    + by apply SessionSpec.wf_init.
    + unfold ctx; simpl. split; unfold owned; rewrite ?X3; simpl.
      * constructor.
      * intros a. rewrite X1. set_solver.
      * intros s _. apply X2.
      * intros s t. rewrite X5. destruct (X2 s) as [_ ->]. split; [by intros ?%not_elem_of_nil|by intros []].
      * intros t. rewrite X5. constructor.
      * intros s _. by destruct (X2 s) as [-> _].
    + unfold ctx; simpl. rewrite X4. constructor.
    + intros a. unfold ctx, live; simpl. rewrite X4, Hb. set_solver.
    + intros a. unfold live; simpl. rewrite Hb. set_solver.
    + intros a. unfold live; simpl. rewrite Hb. set_solver.
    + intros s. unfold entries_of, ctx; simpl. destruct (X2 s) as [-> _]. constructor.
    + intros s. unfold ctx; simpl. rewrite X3. by intros ?%not_elem_of_nil.
  - destruct Hs; simpl in *.
    + by eapply in_sync_login.
    + by apply in_sync_logout.
    + by apply in_sync_change.
    + by eapply in_sync_subscribe.
    + by apply in_sync_leave.
    + by eapply in_sync_round.
Qed.

Lemma view_lookup c dl id f : in_sync c dl →
  view c !! id = Some f ↔
  ∃ a, a ∈ live c ∧ publish (data (mem c) a) = true ∧ key_of c a = id ∧
       session_fields (db (cb_state c)) (data (mem c) a) = f.
Proof.
  intros I. unfold view. rewrite (build_lookup (key_of c)); [|done..|].
  - apply exist_proper. intros a. rewrite (is_sessions _ _ _ I). simpl. tauto.
  - apply session_keys_differ; [apply I|]. by intros a [? _]%(is_sessions _ _ _ I).
Qed.


(** ** Catching up *)

(** [n] rounds of thread [t], with connections that always can send. *)
Fixpoint rounds (n : nat) (room : Z) (t : nat) (cd : T * views) : T * views :=
  match n with
  | O => cd
  | S n =>
      let '(r, x) := thread_round (λ _, true) room t (ctx cd.1) in
      rounds n room t (with_ctx x cd.1, deliver r cd.2)
  end.

Lemma round_lists can_send room t r x c :
  54 ≤ room → queues_ok (ctx c) → thread_round can_send room t (ctx c) = (r, x) → same_lists (ctx c) x.
Proof.
  intros Hr Q Ht. pose proof (thread_round_ok _ _ _ _ _ _ Hr Q Ht) as Hok.
  destruct r as [[s msg]|]; [by destruct Hok as (_ & _ & _ & es & [])|by destruct Hok as [_ ->]].
Qed.

Lemma rounds_ok n room t c dl :
  in_sync c dl → 54 ≤ room < 2 ^ 31 → (waiting (ctx c) t ≤ n)%nat →
  let cd' := rounds n room t (c, dl) in
  in_sync cd'.1 cd'.2 ∧ view cd'.1 = view c ∧ same_lists (ctx c) (ctx cd'.1) ∧ nio_queues (ctx cd'.1) t = [].
Proof.
  revert c dl. induction n as [|n IH]; intros c dl I Hr Hw; simpl.
  - split_and!; [done..|]. unfold waiting in Hw. destruct (nio_queues (ctx c) t); [done|]. simpl in Hw. lia.
  - destruct (thread_round _ room t (ctx c)) as [r x] eqn:Et.
    pose proof (round_lists _ _ _ _ _ _ (proj1 Hr) (is_queues _ _ _ I) Et) as L.
    destruct (IH (with_ctx x c) (deliver r dl)) as (I' & Hv & L' & Hn); [by eapply in_sync_round|done| |].
    + change (ctx (with_ctx x c)) with x. destruct (nio_queues (ctx c) t) as [|s l] eqn:El.
      * pose proof (thread_round_ok _ _ _ _ _ _ (proj1 Hr) (is_queues _ _ _ I) Et) as Hok.
        destruct r as [[s msg]|]; [destruct Hok as (_ & Hh & _); by rewrite El in Hh|].
        destruct Hok as [_ ->]. unfold waiting. rewrite El. simpl. lia.
      * pose proof (thread_round_waiting _ _ _ _ _ _ (is_queues _ _ _ I) (proj1 Hr) ltac:(done) Et) as Hlt.
        rewrite El in Hlt. specialize (Hlt ltac:(done)). lia.
    + split_and!; [done| |by etrans|done]. rewrite Hv. unfold view. change (ctx (with_ctx x c)) with x.
      by rewrite (sl_sessions _ _ L).
Qed.


(** ** A withdrawal that nobody hears of *)

(** C40: the privileges that a session has on its pool are changed by the loop that
    tells the subscribers, which is skipped when there are none: a grant that is
    changed or withdrawn then leaves the session, and the subscribers that come
    later, with the privileges it had before. *)
Theorem withdrawal_without_subscribers uid pid privs thread c dl s x a :
  sub_reachable (c, dl) → subscribers (ctx c) = [] →
  let c' := priv_change_callback (pool_priv_changed uid pid privs) c in
  cluster_subscribe (db (cb_state c')) (mem c') thread (ctx c') = (Ok s, x) →
  a ∈ sessions (ctx c) →
  data (mem c') a = data (mem c) a ∧ entry_of c a ∈ entries_of x s.
Proof.
  intros I%sub_reachable_sync Hs. simpl. unfold pool_priv_change_callback, publish_matched_server_sessions.
  rewrite bool_decide_eq_true_2 by done. intros Hsub Ha. split; [done|].
  destruct (subscribe_ok (db (cb_state c)) (mem c) thread (ctx c) (is_queues _ _ _ I))
    as (s' & x' & Heq & _ & _ & _ & _ & He & _). rewrite Hsub in Heq. simplify_eq.
  rewrite He. apply list_elem_of_fmap. exists a. rewrite (entry_of_eq c) by apply I. split; [done|].
  apply list_elem_of_filter. split; [|done]. apply (is_sessions _ _ _ I) in Ha as [Ha Hp].
  rewrite <- (is_bit _ _ _ I) in Hp by done. by apply Is_true_true_2.
Qed.
End spec.
End SubscribeSpec.
