(* ===== verification/SubscribeDB.v ===== *)
(** * The database and the subscribers

    The operations of the authentication database call the callbacks of
    [session_subscribe.c] for every change that a published session shows, so that a
    management call leaves the subscribers in step with the database; the one that
    does not is the creation of a user or a pool over a removed one. *)
From S2P Require Import Prelude Fastcommon Session SessionTable AuthDB AuthDBProofs AuthDBSpec ServiceHandler SessionSubscribe SessionPush SessionSubscribeProofs SessionReplica SessionSubscribeSpec.
Import ServerSession(cb_state, data).
Import SessionTable AuthDB AuthDBProofs AuthDBSpec SessionSubscribe SessionPush SubscribeQueues SessionReplica SubscribeSpec.
Local Open Scope Z_scope.

Module SubscribeDB.
Section db.
Context `{!BuffCodec, !BuffCodecLaws, !FcCompare, !FcCompareLaws}.
Context {DD MB MBt MBd : Type} `{!AuthDao DD, !NameAllocator DD, !Malloc DD, !Mblock MBd}.
Context {SLs SLi : Type → Type} `{!UniqSkiplist string_t SLs, !UniqSkiplist Z SLi}.
Context `{!Mblock MB, !MblockLaws MB, !MblockTotal MB, !Mblock MBt, !MblockLaws MBt}.
Abbreviation S := (AuthDBContext DD MBd SLs SLi).
Abbreviation T := (ServerSession.ServerSessionContext ServiceHandler.ServerSessionFields (server_state S MB) MBt).
Implicit Types (s : S) (c : T).

(** A run that announces what it changes. *)
Definition announces s s' : Prop := ∃ chs, changes s' = changes s ++ chs ∧ announced s s' chs.

#[local] Instance announces_preorder : PreOrder announces.
Proof.
  split.
  - intros s. exists []. split; [by rewrite app_nil_r|]. intros a. split; by left.
  - intros s s1 s2 (l1 & E1 & A1) (l2 & E2 & A2). exists (l1 ++ l2).
    split; [by rewrite E2, E1, app_assoc|]. intros a. destruct (A1 a) as [U1 P1], (A2 a) as [U2 P2]. split.
    + destruct U2 as [[Hi Hp]|[p Hin]]; [|right; exists p; set_solver]. rewrite Hi, Hp.
      destruct U1 as [?|[p Hin]]; [by left|right; exists p; set_solver].
    + destruct P2 as [[Hi Hp]|[p Hin]]; [|right; exists p; set_solver]. rewrite Hi, Hp.
      destruct P1 as [?|[p Hin]]; [by left|right; exists p; set_solver].
Qed.

(** A change of what no session shows. *)
Lemma announces_same s s' :
  changes s' = changes s →
  (∀ a, user_id (user (users s' a)) = user_id (user (users s a)) ∧
        user_priv (user (users s' a)) = user_priv (user (users s a))) →
  (∀ a, pool (pools s' a) = pool (pools s a) ∨
        (pool_id (pool (pools s' a)) = pool_id (pool (pools s a)) ∧
         FCFS_AUTH_POOL_AVAILABLE (pool (pools s' a)) = FCFS_AUTH_POOL_AVAILABLE (pool (pools s a)))) →
  announces s s'.
Proof.
  intros Hc Hu Hp. exists []. split; [by rewrite app_nil_r|]. intros a. split; left; [by apply Hu|].
  simpl. destruct (Hp a) as [->|[-> ->]]; done.
Qed.
Lemma announces_users s s' : changes s' = changes s → pools s' = pools s →
  (∀ a, user_id (user (users s' a)) = user_id (user (users s a)) ∧
        user_priv (user (users s' a)) = user_priv (user (users s a))) → announces s s'.
Proof. intros Hc Hp Hu. apply announces_same; [done..|]. intros a. left. by rewrite Hp. Qed.
Lemma announces_frame s s' : changes s' = changes s → users s' = users s → pools s' = pools s → announces s s'.
Proof. intros Hc Hu Hp. apply announces_users; [done..|]. intros a. by rewrite Hu. Qed.
Lemma announces_log ch s : announces s (log_change ch s).
Proof. exists [ch]. split; [done|]. intros a. split; by left. Qed.

Lemma alter_rel {V} (P : V → V → Prop) f a (h : addr → V) b :
  (∀ u, P u u) → (∀ u, P (f u) u) → P (alter f a h b) (h b).
Proof.
  intros Hr Hf. destruct (decide (a = b)) as [<-|];
    [by rewrite fn_lookup_alter|by rewrite fn_lookup_alter_ne].
Qed.

Abbreviation quiet m s := (kept announces m s).

Lemma quiet_backend {A} (m : M DD A) s : quiet (on_backend m) s.
Proof. unfold kept, on_backend. destruct (m (backend s)). by apply announces_frame. Qed.
Lemma quiet_alloc i s : quiet (alloc_object i) s.
Proof. unfold kept, alloc_object. destruct (mb_alloc _ _). by apply announces_frame. Qed.
Lemma quiet_free i a s : quiet (free_object i a) s.
Proof. by apply announces_frame. Qed.
Lemma quiet_grant a f s : quiet (mod_grant a f) s.
Proof. by apply announces_frame. Qed.
Lemma quiet_user a f s :
  (∀ u, user_id (user (f u)) = user_id (user u) ∧ user_priv (user (f u)) = user_priv (user u)) →
  quiet (mod_user a f) s.
Proof.
  intros Hf. apply announces_users; [done..|]. intros b. simpl.
  by apply (alter_rel (λ x y, user_id (user x) = user_id (user y) ∧ user_priv (user x) = user_priv (user y))).
Qed.
Lemma quiet_pool a f s :
  (∀ p, pool_id (pool (f p)) = pool_id (pool p) ∧
        FCFS_AUTH_POOL_AVAILABLE (pool (f p)) = FCFS_AUTH_POOL_AVAILABLE (pool p)) →
  quiet (mod_pool a f) s.
Proof.
  intros Hf. apply announces_same; [done..|]. intros b. right. simpl.
  by apply (alter_rel (λ x y, pool_id (pool x) = pool_id (pool y) ∧
    FCFS_AUTH_POOL_AVAILABLE (pool x) = FCFS_AUTH_POOL_AVAILABLE (pool y))).
Qed.
Lemma quiet_granted_insert u g id s : quiet (granted_insert u g id) s.
Proof.
  unfold kept, granted_insert. destruct (sl_insert _ _ _). apply announces_users; [done..|]. intros b. simpl.
  by apply (alter_rel (λ x y, user_id (user x) = user_id (user y) ∧ user_priv (user x) = user_priv (user y))).
Qed.
Lemma quiet_log ch s : quiet (modify (log_change ch)) s.
Proof. apply announces_log. Qed.
Lemma quiet_log_of (f : S → priv_change) s : quiet (modify (λ s, log_change (f s) s)) s.
Proof. apply announces_log. Qed.

(** Run an operation piece by piece. *)
Ltac quiet :=
  repeat lazymatch goal with
  | |- kept _ (get ≫= _) _ => apply (kept_get_bind announces)
  | |- kept _ (_ ≫= _) _ => apply (kept_bind announces); [|intros ? ? _]
  | |- kept _ (mret _) _ => apply (kept_ret announces)
  | |- kept _ (throw _) _ => apply (kept_throw announces)
  | |- kept _ (attempt _) _ => apply (kept_attempt announces)
  | |- kept _ (on_backend _) _ => apply quiet_backend
  | |- kept _ (alloc_object _) _ => apply quiet_alloc
  | |- kept _ (free_object _ _) _ => apply quiet_free
  | |- kept _ (mod_grant _ _) _ => apply quiet_grant
  | |- kept _ (mod_user _ _) _ => by apply quiet_user
  | |- kept _ (mod_pool _ _) _ => by apply quiet_pool
  | |- kept _ (granted_insert _ _ _) _ => apply quiet_granted_insert
  | |- kept _ (modify (log_change _)) _ => apply quiet_log
  | |- kept _ (modify (λ s, log_change _ s)) _ => apply quiet_log_of
  | |- kept _ (match _ with _ => _ end) _ => case_match
  end.

Lemma backend_run {A} (m : M DD A) s r s' :
  on_backend m s = (r, s') → s' = set_backend (backend s') s.
Proof. unfold on_backend. destruct (m (backend s)). by intros [= _ <-]. Qed.

Lemma quiet_update_priv n priv s : quiet (adb_user_update_priv n priv) s.
Proof.
  unfold adb_user_update_priv. apply (kept_get_bind announces).
  destruct (adb_user_get n s) as [u|]; [|apply (kept_throw announces)].
  case_match; [apply (kept_ret announces)|].
  apply (kept_bind announces); [apply quiet_backend|]. intros [] s1 Hs1%backend_run.
  apply (f_equal users) in Hs1. simpl in Hs1.
  exists [user_priv_changed (user_id (user (users s u))) priv]. split; [done|]. intros a.
  split; [|by left]. simpl. destruct (decide (u = a)) as [<-|].
  - right. exists priv. rewrite fn_lookup_alter, Hs1. simpl. set_solver.
  - left. by rewrite fn_lookup_alter_ne.
Qed.

(** A new quota or usage, with the callback when the availability has changed. *)
Lemma quiet_avail p f s :
  (∀ x, pool_id (f x) = pool_id x) →
  quiet (_ ← mod_pool p (with_pool f);
         call_pool_quota_avail_func p (FCFS_AUTH_POOL_AVAILABLE (pool (pools s p)))) s.
Proof.
  intros Hf. unfold kept, call_pool_quota_avail_func. simpl. rewrite fn_lookup_alter. simpl.
  destruct (eqb _ _) eqn:Ee.
  - apply eqb_prop in Ee. apply announces_same; [done..|]. intros a. simpl.
    destruct (decide (p = a)) as [<-|]; [|left; by rewrite fn_lookup_alter_ne].
    right. rewrite fn_lookup_alter. simpl. by rewrite Hf.
  - eexists [_]. split; [done|]. intros a. split; [by left|]. simpl.
    destruct (decide (p = a)) as [<-|]; [|left; by rewrite fn_lookup_alter_ne].
    right. eexists. rewrite fn_lookup_alter. apply list_elem_of_singleton. done.
Qed.

Lemma quiet_set_quota u n quota s : quiet (adb_spool_set_quota u n quota) s.
Proof.
  unfold adb_spool_set_quota. apply (kept_get_bind announces). do 3 (case_match; try by quiet).
  apply (kept_bind announces); [apply quiet_backend|]. intros [] s1 Hs1%backend_run.
  rewrite Hs1. by apply (quiet_avail _ _ (set_backend _ s)).
Qed.

Lemma quiet_set_used n used s : quiet (adb_spool_set_used_bytes n used) s.
Proof.
  unfold adb_spool_set_used_bytes. apply (kept_get_bind announces). do 2 (case_match; try by quiet).
  by apply quiet_avail.
Qed.

Lemma quiet_user_remove n s : quiet (adb_user_remove n) s.
Proof.
  unfold adb_user_remove. quiet. by apply announces_frame.
Qed.
Lemma quiet_update_passwd n passwd s : quiet (adb_user_update_passwd n passwd) s.
Proof. unfold adb_user_update_passwd, user_set_passwd. quiet. Qed.
Lemma quiet_spool_remove u n s : quiet (adb_spool_remove u n) s.
Proof. unfold adb_spool_remove. quiet. Qed.
Lemma quiet_granted_create u info s : quiet (adb_granted_create u info) s.
Proof. unfold adb_granted_create, granted_pool_create. quiet. Qed.
Lemma quiet_granted_remove u id s : quiet (adb_granted_remove u id) s.
Proof.
  unfold adb_granted_remove. quiet. apply announces_users; [done..|]. intros b. simpl.
  by apply (alter_rel (λ x y, user_id (user x) = user_id (user y) ∧ user_priv (user x) = user_priv (user y))).
Qed.

(** ** A call with its callbacks *)

(** The operations that do not create users or pools. *)
Definition on_existing (op : adb_op) : Prop :=
  match op with UserCreate _ | SpoolCreate _ _ => False | _ => True end.

Lemma existing_announces op s : on_existing op → announces s (run_op op s).2.
Proof.
  intros Hop. destruct op; simpl; [done|apply quiet_user_remove|apply quiet_update_priv|apply quiet_update_passwd
    |done|apply quiet_spool_remove|apply quiet_set_quota|apply quiet_set_used|apply quiet_granted_create
    |apply quiet_granted_remove].
Qed.

(** What the run [m] told the callbacks. *)
Definition told (m : M S unit) s : list priv_change := drop (length (changes s)) (changes (m s).2).

(** An operation of the database in the server: the callbacks look at the database and
    change the sessions and the queues, so that it does not matter whether they run
    during or after it. *)
Definition db_call (m : M S unit) c : result unit * T :=
  let s := db (cb_state c) in ((m s).1, run_changes (told m s) (with_db (m s).2 c)).

Lemma db_call_reachable op c dl :
  sub_reachable (c, dl) → on_existing op →
  db_ok (run_op op (db (cb_state c))).2 → Forall change_ok (told (run_op op) (db (cb_state c))) →
  sub_reachable ((db_call (run_op op) c).2, dl).
Proof.
  intros Hr Hm Hd Hch. set (s := db (cb_state c)) in *.
  destruct (existing_announces op s Hm) as (chs & Hchs & Han).
  assert (told (run_op op) s = chs) as Ht by (unfold told; by rewrite Hchs, drop_app_length).
  eapply sub_next; [done|]. simpl. apply sub_change; [done| |done]. fold s. by rewrite Ht.
Qed.

(** ** Grants *)

(** What the operations other than those on grants leave as it is. *)
Definition same_grants s s' : Prop := ∀ v i, grant_at s' v i = grant_at s v i.
#[local] Instance same_grants_preorder : PreOrder same_grants.
Proof. split; [by intros s v i|]. intros s1 s2 s3 H1' H2' v i. by rewrite H2', H1'. Qed.

Lemma same_grants_frame s s' :
  grants s' = grants s → (∀ a, granted (users s' a) = granted (users s a)) → same_grants s s'.
Proof. intros Hg Hu v i. unfold grant_at, granted_pool_get. by rewrite Hg, Hu. Qed.
Lemma grants_backend {A} (m : M DD A) s : kept same_grants (on_backend m) s.
Proof. unfold kept, on_backend. destruct (m (backend s)). by apply same_grants_frame. Qed.
Lemma grants_user a f s : (∀ u, granted (f u) = granted u) → kept same_grants (mod_user a f) s.
Proof.
  intros Hf. apply same_grants_frame; [done|]. intros b. simpl.
  by apply (alter_rel (λ x y, granted x = granted y)).
Qed.
Lemma grants_modify f s :
  grants (f s) = grants s → (∀ a, granted (users (f s) a) = granted (users s a)) → kept same_grants (modify f) s.
Proof. intros. by apply same_grants_frame. Qed.

Ltac grants :=
  repeat lazymatch goal with
  | |- kept _ (get ≫= _) _ => apply (kept_get_bind same_grants)
  | |- kept _ (_ ≫= _) _ => apply (kept_bind same_grants); [|intros ? ? _]
  | |- kept _ (mret _) _ => apply (kept_ret same_grants)
  | |- kept _ (throw _) _ => apply (kept_throw same_grants)
  | |- kept _ (attempt _) _ => apply (kept_attempt same_grants)
  | |- kept _ (on_backend _) _ => apply grants_backend
  | |- kept _ (mod_user _ _) _ => by apply grants_user
  | |- kept _ (mod_pool _ _) _ => by apply same_grants_frame
  | |- kept _ (modify _) _ => by apply grants_modify
  | |- kept _ (match _ with _ => _ end) _ => case_match
  end.

Lemma quota_avail_grants p old s : kept same_grants (call_pool_quota_avail_func p old) s.
Proof. unfold call_pool_quota_avail_func. apply grants_modify; [by destruct (eqb _ _)|]. intros a. by destruct (eqb _ _). Qed.

Definition on_grants (op : adb_op) : Prop :=
  match op with GrantedCreate _ _ | GrantedRemove _ _ => True | _ => False end.
Lemma others_grants op s : on_existing op → ¬ on_grants op → kept same_grants (run_op op) s.
Proof.
  intros Hop Hg. destruct op; try done; simpl; unfold adb_user_remove, adb_user_update_priv, adb_user_update_passwd,
    user_set_passwd, adb_spool_remove, adb_spool_set_quota, adb_spool_set_used_bytes; grants; apply quota_avail_grants.
Qed.

(** The privileges that replace a grant. *)
Definition no_access : FCFSAuthSPoolPriviledges :=
  {| fdir := FCFS_AUTH_POOL_ACCESS_NONE; fstore := FCFS_AUTH_POOL_ACCESS_NONE |}.

(** A round over the sessions sets the pool privileges of those that match. *)
Lemma publish_matched_data p c f a :
  data (ServerSession.mem (publish_matched p c f)) a =
    (if bool_decide (a = f) && session_matches p (db (cb_state c)) (data (ServerSession.mem c) a)
     then set_pool_privs (match_pool_privs p) (data (ServerSession.mem c) a) else data (ServerSession.mem c) a) ∧
  db (cb_state (publish_matched p c f)) = db (cb_state c).
Proof.
  unfold publish_matched. destruct (decide (a = f)) as [->|Hne].
  - rewrite bool_decide_true by done. simpl. destruct (session_matches _ _ _); [|done]. simpl.
    split; [by rewrite fn_lookup_alter|done].
  - rewrite bool_decide_false by done. simpl. destruct (session_matches _ _ (data _ f)); [|done]. simpl.
    split; [by rewrite fn_lookup_alter_ne|done].
Qed.
Lemma publish_all_privs p privs l c a :
  match_pool_privs p = Some privs →
  session_matches p (db (cb_state c)) (data (ServerSession.mem c) a) = true →
  a ∈ l ∨ ServiceHandler.pool_privs (data (ServerSession.mem c) a) = privs →
  ServiceHandler.pool_privs (data (ServerSession.mem (foldl (publish_matched p) c l)) a) = privs.
Proof.
  intros Hp. revert c. induction l as [|f l IH]; intros c Hm Hor; simpl.
  { by destruct Hor as [?%not_elem_of_nil|]. }
  destruct (publish_matched_data p c f a) as [Hd Hdb]. apply IH.
  - rewrite Hdb, Hd. case_match; [by rewrite set_pool_privs_match|done].
  - rewrite Hd, Hm, andb_true_r, Hp. case_bool_decide as Ha; [by right|].
    destruct Hor as [[|]%elem_of_cons|]; [done|by left|by right].
Qed.

(** ** A user created over a removed one *)
Section recreated.
Context `{!DaoInodes DD, !AuthDaoLaws DD, !MblockLaws MBd}.
Context `{!UniqSkiplistLaws fc_string_compare SLs, !UniqSkiplistLaws fc_compare_int64 SLi}.

Lemma publish_all_pool p l c a :
  ServiceHandler.dbpool (data (ServerSession.mem (foldl (publish_matched p) c l)) a) =
  ServiceHandler.dbpool (data (ServerSession.mem c) a).
Proof.
  revert c. induction l as [|f l IH]; intros c; simpl; [done|]. rewrite IH.
  destruct (publish_matched_data p c f a) as [-> _]. case_match; [|done]. by destruct (match_pool_privs p).
Qed.

(** After a change of a grant was told, the sessions of the user on the pool have the new
    privileges, here and on every subscriber. *)
Lemma told_grant_shown uid pid privs s' c dl a :
  let c' := run_changes [pool_priv_changed uid pid privs] (with_db s' c) in
  synced_with (entry_of c) c dl → synced_with (entry_of c') c' dl → db_ok s' → privs_ok privs →
  subscribers (ctx c) ≠ [] → a ∈ sessions (ctx c) →
  session_matches (change_param (pool_priv_changed uid pid privs)) s' (data (ServerSession.mem c) a) = true →
  (ServiceHandler.pool_privs (data (ServerSession.mem c') a) = privs ∧
   ServiceHandler.dbpool (data (ServerSession.mem c') a) = ServiceHandler.dbpool (data (ServerSession.mem c) a)) ∧
  ∀ sub, sub ∈ subscribers (ctx c') → replay (entries_of (ctx c') sub) (dl sub) !! key_of c' a =
    Some (session_fields s' (data (ServerSession.mem c') a)).
Proof.
  intros c' I I' Hd Hp Hsub Ha Hm. split.
  - unfold c', run_changes. simpl. unfold pool_priv_change_callback, publish_matched_server_sessions. simpl.
    unfold ctx in Hsub. rewrite bool_decide_false by done. split; [|by rewrite publish_all_pool].
    apply publish_all_privs; [done| |by left]. exact Hm.
  - assert (synced_with (entry_of c) (with_db s' c) dl) as I1.
    { pose proof I as []. split; try done. by apply wf_with_cb. }
    destruct (run_changes_ok [pool_priv_changed uid pid privs] (with_db s' c) (entry_of c) dl I1 ltac:(done)
      ltac:(by apply Forall_singleton)) as (_ & _ & Sm & _). fold c' in Sm.
    intros sub Hin. rewrite (is_synced _ _ _ I' sub Hin). fold (view c'). apply (view_lookup c' dl); [done|].
    exists a. rewrite (ss_db _ _ Sm). assert (a ∈ sessions (ctx c')) as Ha' by (by rewrite (ss_sessions _ _ Sm)).
    apply (is_sessions _ _ _ I') in Ha' as [? ?]. by split_and!.
Qed.

(** C19: each operation of the database on existing users, pools and grants tells the
    callbacks everything that a published session shows, whether it succeeds or fails
    half-way: after it, what every subscriber was sent and what is queued for it are
    again the published sessions with their current fields.  When a subscriber is there
    and the operation has replaced or withdrawn a grant, the published sessions of the
    user on the pool have the new privileges, or none, on the server and on every
    subscriber. *)
Theorem database_changes_reach_subscribers op c dl :
  let s := db (cb_state c) in
  let c' := (db_call (run_op op) c).2 in
  sub_reachable (c, dl) → on_existing op →
  db_ok (run_op op s).2 → Forall change_ok (told (run_op op) s) →
  sub_reachable (c', dl) ∧
  (∀ sub, sub ∈ subscribers (ctx c') → replay (entries_of (ctx c') sub) (dl sub) = view c') ∧
  (wf s → op_ok (D:=DD) op → (db_call (run_op op) c).1 = Ok tt → subscribers (ctx c) ≠ [] →
   ∀ a u p old, a ∈ sessions (ctx c) →
     ServiceHandler.dbuser (data (ServerSession.mem c) a) = Some u →
     ServiceHandler.dbpool (data (ServerSession.mem c) a) = Some p →
     let pid := pool_id (pool (pools s p)) in
     grant_at s u pid = Some old → grant_at (run_op op s).2 u pid ≠ Some old →
     let privs := default no_access (grant_at (run_op op s).2 u pid) in
     ServiceHandler.pool_privs (data (ServerSession.mem c') a) = privs ∧
     ∀ sub, sub ∈ subscribers (ctx c') →
       ∃ f, replay (entries_of (ctx c') sub) (dl sub) !! key_of c' a = Some f ∧
            ServerSession.pool_privs f = synced_privs privs).
Proof.
  intros s c' Hr Hm Hd Hch. pose proof (db_call_reachable op c dl Hr Hm Hd Hch) as Hr'. fold c' in Hr'.
  pose proof (sub_reachable_sync _ Hr') as I'. pose proof (sub_reachable_sync _ Hr) as I. simpl in I, I'.
  split_and!; [done|apply (is_synced _ _ _ I')|]. intros Hwf Hop Hok Hsub a u p old Ha Hu Hp pid Hold Hnew privs.
  assert (∃ uid, told (run_op op) s = [pool_priv_changed uid pid privs] ∧
    uid = user_id (user (users (run_op op s).2 u)) ∧ pools (run_op op s).2 = pools s) as (uid & Ht & Huid & Hpools).
  { assert (on_grants op) as Hg.
    { destruct op; try done; destruct Hnew; rewrite <- Hold; exact (others_grants _ s Hm (λ x, x) u pid). }
    unfold db_call in Hok. simpl in Hok. fold s in Hok. unfold told, privs.
    destruct (run_op op s) as [r s'] eqn:E. simpl in *. subst r.
    destruct op as [| | | | | | | |un info|un id]; try done; clear Hg.
    - destruct (granted_create_grants un info s s' Hop Hwf E) as (v & _ & Hps & Hus & Hg & Hc).
      rewrite Hg in Hnew. rewrite Hg. destruct (decide _) as [[-> Hi]|]; [|done]. rewrite Hi in Hold.
      rewrite (Hc old Hold) by congruence. rewrite drop_app_length, Hus, Hi. by eexists.
    - destruct (granted_remove_grants un id s s' Hop Hwf E) as (v & _ & Hps & Hus & Hg & Hc).
      rewrite Hg in Hnew. rewrite Hg. destruct (decide _) as [[-> Hi]|]; [|done].
      rewrite Hc, drop_app_length, Hus, Hi. by eexists. }
  assert (c' = run_changes [pool_priv_changed uid pid privs] (with_db (run_op op s).2 c)) as Hc'.
  { unfold c', db_call. simpl. fold s. by rewrite Ht. }
  clearbody c'. subst c'. rewrite Ht in Hch.
  destruct (told_grant_shown uid pid privs (run_op op s).2 c dl a) as [[Hdata Hpool] Hrep]; try done.
  { by apply Forall_cons in Hch as [? _]. }
  { unfold session_matches. simpl. rewrite Hu, Hp. simpl. rewrite Huid, Z.eqb_refl, Hpools, orb_true_r.
    unfold pid. by rewrite Z.eqb_refl, orb_true_r. }
  split; [done|]. intros sub Hin. eexists. split; [by apply Hrep|].
  unfold session_fields. cbn [ServerSession.pool_privs]. by rewrite Hpool, Hp, Hdata.
Qed.

Lemma recreate_inv u s a s' :
  dao_name_ok DD (user_name (user (users s a))) →
  user_get (user_name u) s = Some a → user_normal (users s a) = false →
  adb_user_create u s = (Ok tt, s') →
  changes s' = changes s ∧ user_priv (user (users s' a)) = user_priv u.
Proof.
  intros Hok Hg Hn Hr. unfold adb_user_create in Hr. erewrite bind_ok in Hr by reflexivity.
  cbv beta in Hr. rewrite Hg, Hn in Hr. run Hr as b s1 Hc. injection Hr as <-.
  apply user_create_inv in Hc; [|done]. destruct (uc_addr _ _ _ _ _ Hc) as (-> & _).
  split; [apply (uc_changes _ _ _ _ _ Hc)|apply (uc_priv _ _ _ _ _ Hc)].
Qed.

(** Creating a user again that was removed sets its privileges without telling the
    callbacks: a session of the user that is still published shows the new privileges
    on the server, and the old ones on every subscriber, with nothing queued that would
    change it. *)
Theorem recreated_user_diverges u c dl sub x a :
  dao_name_ok DD (user_name (user (users (db (cb_state c)) a))) →
  sub_reachable (c, dl) → sub ∈ subscribers (ctx c) → x ∈ sessions (ctx c) →
  ServiceHandler.dbuser (data (ServerSession.mem c) x) = Some a →
  user_get (user_name u) (db (cb_state c)) = Some a →
  user_normal (users (db (cb_state c)) a) = false →
  user_priv (user (users (db (cb_state c)) a)) ≠ user_priv u →
  (db_call (adb_user_create u) c).1 = Ok tt →
  let c' := (db_call (adb_user_create u) c).2 in
  replay (entries_of (ctx c') sub) (dl sub) !! key_of c x = Some (synced (entry_of c x)) ∧
  ServerSession.user_priv (synced (entry_of c' x)) = user_priv u ∧
  ServerSession.user_priv (synced (entry_of c x)) ≠ user_priv u.
Proof.
  intros Hok I%sub_reachable_sync Hsub Hx Hu Hg Hn Hne Hr. unfold db_call in *. set (s := db (cb_state c)) in *.
  destruct (adb_user_create u s) as [r s'] eqn:Hc. simpl in *. subst r.
  destruct (recreate_inv u s a s' Hok Hg Hn Hc) as [Hch Hp].
  assert (told (adb_user_create u) s = []) as ->
    by (unfold told; rewrite Hc; simpl; by rewrite Hch, drop_all).
  change (ctx (run_changes [] (with_db s' c))) with (ctx c). split_and!.
  - rewrite (is_synced _ _ _ I sub Hsub). fold (view c). apply (view_lookup c dl); [done|].
    exists x. by apply (is_sessions _ _ _ I) in Hx as [? ?].
  - simpl. by rewrite Hu.
  - simpl. by rewrite Hu.
Qed.
End recreated.
End db.
End SubscribeDB.
