(* ===== verification/SessionSyncSpec.v ===== *)
(** * The subscriber applies what it receives

    The loop of [session_sync] on the messages of the server: the session table of
    the subscriber holds exactly the sessions of its view, as long as no session is
    announced a second time (which the table does not survive, see
    [session_replace_dangles]); and how large its array for a message gets. *)
From Stdlib Require Import Init.Byte.
From S2P Require Import Prelude Fastcommon Session SessionProofs SessionTable SessionSpec AuthProto AuthDB AuthDBSpec SessionSubscribe SessionPush SessionSubscribeProofs SessionReplica.
Import ServerSession SessionTable SessionSpec AuthProto SessionSubscribe SessionPush SubscribeQueues SessionReplica.
Import AuthDB(grow_alloc) AuthDBSpec.
Local Open Scope Z_scope.

(** [malloc] of a positive size succeeds. *)
Class MallocTotal (W : Type) `{!Malloc W} : Prop :=
  fc_malloc_total n w : 0 < n → ∃ w', fc_malloc n w = (true, w').

Module SessionSyncSpec.
Section spec.
Context `{!BuffCodec, !BuffCodecLaws, !FcCompare, !FcCompareLaws}.
Context {W X MB : Type} `{!Malloc W, !MallocTotal W, !Mblock MB, !MblockLaws MB, !MblockTotal MB}.
Abbreviation T := (ServerSessionContext SessionSyncedFields X MB).
Implicit Types c : T.

(** ** The array *)

Definition alloc_ok (alloc : Z) : Prop := alloc = 0 ∨ ∃ k, 12 ≤ k ≤ 24 ∧ alloc = 2 ^ k.

Lemma alloc_ok_nonneg alloc : alloc_ok alloc → 0 ≤ alloc.
Proof. intros [->|(k & Hk & ->)]; [done|]. apply Z.pow_nonneg; lia. Qed.

Lemma realloc_grows alloc count :
  alloc_ok alloc → alloc < count ≤ 2 ^ 30 →
  ∃ j, 12 ≤ j ≤ 30 ∧ count ≤ 2 ^ j ∧ (2 ^ j < 2 * count ∨ j = 12) ∧
    check_realloc_session_array (W:=W) alloc count = λ w,
      let '(ok, w) := fc_malloc (int32 (64 * 2 ^ j)) w in (if ok : bool then Ok (2 ^ j) else Err ENOMEM, w).
Proof.
  intros Ha Hc. unfold check_realloc_session_array. rewrite (proj2 (Z.leb_gt _ _)) by lia.
  assert (∃ k, 12 ≤ k ≤ 25 ∧ (k = 12 ∨ 2 ^ k = 2 * alloc) ∧
    (if alloc =? 0 then 4 * 1024 else int32 (2 * alloc)) = 2 ^ k) as (k & Hk & Hka & ->).
  { destruct Ha as [->|(k & Hk & ->)]; [exists 12; split_and!; [lia..|by left|done]|]. exists (k + 1).
    assert (2 ^ (k + 1) = 2 * 2 ^ k) as -> by (rewrite Z.pow_add_r; lia).
    assert (0 < 2 ^ k) by (apply Z.pow_pos_nonneg; lia).
    assert (2 ^ k ≤ 2 ^ 24) by (apply Z.pow_le_mono_r; lia).
    rewrite (proj2 (Z.eqb_neq _ _)) by lia. split_and!; [lia..|by right|]. apply sint_wrap_small; [lia|].
    unfold in_sint. simpl. lia. }
  destruct (grow_alloc_pow2 32 k count) as (j & Hj & -> & Hle & Hup); [lia..|].
  exists j. split_and!; [lia..|done| |done]. destruct Hup as [->|]; [|by left].
  destruct Hka as [->| ->]; [by right|left; lia].
Qed.

Lemma realloc_bytes alloc count :
  alloc_ok alloc → alloc < count ≤ 2 ^ 24 →
  ∃ n, count ≤ n ∧ alloc_ok n ∧
     check_realloc_session_array (W:=W) alloc count = λ w,
       let '(ok, w) := fc_malloc (64 * n) w in (if ok : bool then Ok n else Err ENOMEM, w).
Proof.
  intros Ha Hc. destruct (realloc_grows alloc count Ha ltac:(lia)) as (j & Hj & Hle & Hup & ->).
  assert (12 ≤ j ≤ 24) as Hj24.
  { split; [lia|]. destruct Hup as [Hup| ->]; [|lia]. apply Z.lt_succ_r.
    apply (Z.pow_lt_mono_r_iff 2); simpl; lia. }
  exists (2 ^ j). split_and!; [done|right; by exists j|].
  assert (0 < 2 ^ j) by (apply Z.pow_pos_nonneg; lia).
  assert (2 ^ j ≤ 2 ^ 24) by (apply Z.pow_le_mono_r; lia).
  unfold int32. rewrite sint_wrap_small; [done|lia|]. unfold in_sint. simpl. lia.
Qed.


(** ** The table *)

(** The sessions of the table are those of the map [r]. *)
Definition shows c (r : replica) : Prop :=
  wf c ∧ ∀ s, id_ok s →
    server_session_get_fields c s = match r !! s with
                                    | Some f => Ok f
                                    | None => Err SF_SESSION_ERROR_NOT_EXIST
                                    end.

(** No session is announced while the subscriber has it. *)
Fixpoint fresh_run (es : list ServerSessionSubscribeEntry) (r : replica) : Prop :=
  match es with
  | [] => True
  | e :: es =>
      (operation e = FCFS_AUTH_SESSION_OP_TYPE_CREATE → part1 (session e) ≠ 0 ∧ r !! session e = None) ∧
      fresh_run es (apply_entry r e)
  end.

Lemma fresh_run_app es es' r : fresh_run (es ++ es') r ↔ fresh_run es r ∧ fresh_run es' (replay es r).
Proof. revert r. induction es as [|e es IH]; intros r; simpl; [naive_solver|]. rewrite IH. naive_solver. Qed.

Lemma add_some samples id f pub per c r c' :
  server_session_add_ex samples id f pub per c = Some (r, c') → is_Some r.
Proof.
  unfold server_session_add_ex. set (c0 := with_allocator_next _ _). set (i := _ mod _).
  destruct (mb_alloc_total i (mb c0)) as (a & m & ->).
  intros (c1 & _ & [= <- _])%bind_Some. by eexists.
Qed.

Lemma deal_entry_ok samples e c r :
  shows c r → id_ok (session e) →
  (operation e = FCFS_AUTH_SESSION_OP_TYPE_CREATE → part1 (session e) ≠ 0 ∧ r !! session e = None) →
  ∃ c', deal_session_entry samples e c = Some c' ∧ shows c' (apply_entry r e).
Proof.
  intros [Hwf Hget] Hid Hnew. unfold deal_session_entry, apply_entry.
  destruct (Z.eqb_spec (operation e) FCFS_AUTH_SESSION_OP_TYPE_CREATE) as [Hop|Hop].
  - destruct (Hnew Hop) as [Hz Hr]. assert (absent c (session e)) as Hab
      by (unfold absent; by rewrite Hget, Hr).
    destruct (add_given_get samples (session e) (synced e) true false c Hwf Hid Hz Hab)
      as (o & c' & Hadd & Hwf' & _ & _ & Hget').
    rewrite Hadd. exists c'. split; [done|]. split; [done|]. intros s Hs. rewrite Hget' by done.
    case_decide as Hd.
    + destruct Hd as [-> _]. by rewrite lookup_insert_eq.
    + rewrite lookup_insert_ne; [by apply Hget|]. intros <-. apply Hd. split; [done|]. by eapply add_some.
  - exists (server_session_delete (session e) c).2. split; [done|].
    destruct (delete_get c (session e) Hwf Hid) as [Hwf' Hget']. split; [done|].
    intros s Hs. rewrite Hget' by done. case_decide as Hd.
    + subst. by rewrite lookup_delete_eq.
    + rewrite lookup_delete_ne by done. by apply Hget.
Qed.

Lemma deal_array_ok samples es c r :
  shows c r → Forall entry_ok es → fresh_run es r →
  ∃ c', deal_session_array samples es c = Some c' ∧ shows c' (replay es r).
Proof.
  intros Hc Hes. revert c r Hc. induction Hes as [|e es [He _] Hes IH]; intros c r Hc Hf; [by exists c|].
  destruct Hf as [Hf1 Hf2]. destruct (deal_entry_ok samples e c r Hc He Hf1) as (c1 & E & Hc1).
  simpl. rewrite E. by apply IH.
Qed.

(** ** The loop *)

(** The events of a connection on which the messages arrive that make up [es], with
    timeouts between them that the active test survives. *)
Inductive received : list sync_event → list ServerSessionSubscribeEntry → Prop :=
| received_nil : received [] []
| received_push es b evs es' :
    push_message es = Some b → Z.of_nat (length es) ≤ 2 ^ 24 →
    received evs es' → received (sync_push b :: evs) (es ++ es')
| received_idle evs es : received evs es → received (sync_timeout (Ok tt) :: evs) es.

Lemma parse_push_ok es b array (w : W) :
  Forall entry_ok es → Z.of_nat (length es) ≤ 2 ^ 24 → push_message es = Some b →
  alloc_ok (sync_alloc array) →
  ∃ n w', alloc_ok n ∧
    parse_session_push b array w = (Ok {| sync_alloc := n; sync_entries := es |}, w').
Proof.
  intros Hok Hlen Hb Ha. destruct (parse_message es b Hok ltac:(lia) Hb) as [Hn Hp].
  unfold parse_session_push. rewrite Hn.
  assert (∃ n w', alloc_ok n ∧
    check_realloc_session_array (sync_alloc array) (Z.of_nat (length es)) w = (Ok n, w'))
    as (n & w' & Hn' & E).
  { destruct (Z_le_gt_dec (Z.of_nat (length es)) (sync_alloc array)) as [Hle|Hgt].
    - exists (sync_alloc array), w. split; [done|]. unfold check_realloc_session_array.
      by rewrite (proj2 (Z.leb_le _ _)).
    - destruct (realloc_bytes (sync_alloc array) (Z.of_nat (length es)) Ha ltac:(lia))
        as (n & Hle & Hn' & E). rewrite E.
      destruct (fc_malloc_total (64 * n) w) as [w' ->]; [apply alloc_ok_nonneg in Ha; lia|]. by exists n, w'. }
  exists n, w'. split; [done|]. rewrite (bind_ok _ _ _ _ _ E), Nat2Z.id.
  unfold sizeof_FCFSAuthProtoSessionPushRespBodyHeader. rewrite Hp. by rewrite Z.eqb_refl.
Qed.

Lemma session_sync_received samples evs es rest array c r w :
  received evs es → Forall entry_ok es → fresh_run es r → shows c r → alloc_ok (sync_alloc array) →
  ∃ array' c' w', shows c' (replay es r) ∧
    session_sync samples (evs ++ rest) array c w = session_sync samples rest array' c' w'.
Proof.
  intros Hr. revert array c r w. induction Hr as [|es b evs es' Hb Hlen Hr IH|evs es Hr IH];
    intros array c r w Hok Hf Hc Ha; [by exists array, c, w| |].
  - apply Forall_app in Hok as [Hok Hok']. apply fresh_run_app in Hf as [Hf Hf'].
    destruct (parse_push_ok es b array w Hok Hlen Hb Ha) as (n & w1 & Hn & E).
    destruct (deal_array_ok samples es c r Hc Hok Hf) as (c1 & E1 & Hc1).
    simpl. rewrite E. simpl. rewrite E1, replay_app. simpl. by eapply IH.
  - simpl. by apply IH.
Qed.


Lemma add_defined samples id f pub per c : part1 id ≠ 0 →
  ∃ se c', server_session_add_ex samples id f pub per c = Some (Some se, c').
Proof.
  intros Hz. unfold server_session_add_ex. set (c0 := with_allocator_next _ _). set (i := _ mod _).
  destruct (mb_alloc_total i (mb c0)) as (a & m & ->). rewrite (proj2 (Z.eqb_neq _ _)) by done.
  simpl. by eexists _, _.
Qed.

(** A change of a session that the subscriber has is announced like a new session;
    the subscriber's table replaces it, and the entry is left with a fields pointer into
    an object that is back in the pool. *)
Theorem announced_change_dangles samples e b g array c r w :
  shows c r → r !! session e = Some g → part1 (session e) ≠ 0 →
  entry_ok e → operation e = FCFS_AUTH_SESSION_OP_TYPE_CREATE → push_message [e] = Some b →
  alloc_ok (sync_alloc array) →
  ∃ c' w' a, session_sync samples [sync_push b; sync_stop] array c w = Some (c', w') ∧
    (find c' (session e)).1 = Some a ∧ fields (entry (heap_of c' a)) ∉ mb_live (mb c').
Proof.
  intros [Hwf Hget] Hr Hz He Hop Hb Ha. pose proof He as [Hid _].
  assert (server_session_get_fields c (session e) = Ok g) as Hg by (by rewrite Hget, Hr).
  destruct (parse_push_ok [e] b array w) as (n & w1 & Hn & E); [by constructor|done..|].
  destruct (add_defined samples (session e) (synced e) true false c Hz) as (se & c' & Hadd).
  destruct (session_replace_dangles _ _ _ _ _ _ _ _ _ Hwf Hid Hz Hg Hadd) as (a & Hf & _ & Hfl & Hse).
  exists c', w1, a. split_and!; [|done|by rewrite Hfl].
  simpl. rewrite E. simpl. unfold deal_session_entry. by rewrite Hop, Z.eqb_refl, Hadd.
Qed.
End spec.
End SessionSyncSpec.
