(* ===== verification/SubscribeExamples.v ===== *)
(** * Subscribers at work

    A server with two users, a pool, sessions and a subscriber: the theorems on the
    replication of sessions applied to it, and a session that falls between the two
    halves of a subscription. *)
From Stdlib Require Import Init.Byte.
From S2P Require Import Prelude Fastcommon Session SessionProofs SessionTable SessionSpec AuthDB AuthDBProofs AuthDBSpec ServiceHandler ServiceSpec SessionStore SessionSubscribe SessionPush SessionSubscribeProofs SessionReplica SessionSubscribeSpec SubscribeDB SessionSyncSpec.
Import ServerSession(ServerSessionContext, server_session_init_ex, server_session_add_ex, server_session_delete, cb_state, server_session_get_fields, find, heap_of).
Import SessionTable AuthDBSpec SessionSubscribe SessionPush SubscribeQueues SessionReplica SubscribeSpec SubscribeDB SessionSyncSpec.
Local Open Scope Z_scope.

Module SubscribeExamples.
Import AuthDB(adb_user_update_priv, adb_user_remove, adb_user_create, FCFSAuthUserInfo, user_get, user_normal, users, user, user_priv, user_id, user_name, user_passwd, user_status, priv_change, pool_priv_changed).
Import Ref AuthDBExamples.
Import ServiceExamples(blank_fields, demo_cluster, demo_entropy).

#[export] Instance pool_total : MblockTotal Ref.pool.
Proof. intros i m. by eexists _, _. Qed.
#[export] Instance unit_malloc : Malloc unit := {| fc_malloc _ w := (true, w) |}.
#[export] Instance unit_malloc_total : MallocTotal unit.
Proof. intros n w _. by eexists. Qed.

Abbreviation Srv := (ServerSessionContext ServiceHandler.ServerSessionFields (server_state DB Ref.pool) Ref.pool).

Definition idle : ServerSessionSubscribeContext Ref.pool :=
  {| subs_pool := Ref.empty_pool;
     subs := λ _, {| queue := []; in_queue := false; nio_thread := 0 |};
     subscribers := []; sessions := []; nio_queues := λ _, [] |}.
Definition demo_db : DB := run_ops setup empty_db.
Definition boot : Srv :=
  server_session_init_ex 2 3 g_server_session_callbacks Ref.empty_pool (λ _, blank_fields)
    {| db := demo_db; cluster := demo_cluster; subscribe_ctx := idle |}.

(** Bob (object 2), on the pool (object 1). *)
Definition bob_fields : ServiceHandler.ServerSessionFields :=
  {| ServiceHandler.publish := true; ServiceHandler.dbuser := Some 2%nat;
     ServiceHandler.dbpool := Some 1%nat; ServiceHandler.pool_privs := read_write |}.

Definition login (c : Srv) : Srv :=
  match server_session_add_ex (demo_entropy 0) SessionStore.no_id bob_fields true false c with
  | Some (_, c') => c'
  | None => c
  end.
Definition subscribe (c : Srv) : Srv :=
  with_ctx (cluster_subscribe (db (cb_state c)) (ServerSession.mem c) 0 (ctx c)).2 c.
Definition no_views : addr → replica := λ _, ∅.

Definition one_session : Srv := login boot.
Definition one_subscriber : Srv := subscribe one_session.
(** The subscriber, object 1 of the pool. *)
Definition first_views : addr → replica := <[1%nat := ∅]> no_views.

Lemma demo_db_ok : db_ok demo_db.
Proof. intros [|[|[|a]]]; vm_compute; split_and!; by intros. Qed.

Lemma boot_reachable dl : sub_reachable (boot, dl).
Proof. apply sub_init; [lia|done|apply demo_db_ok|done|]. by split. Qed.

Lemma login_step (c : Srv) dl r c' :
  server_session_add_ex (demo_entropy 0) SessionStore.no_id bob_fields true false c = Some (r, c') →
  sub_step (c, dl) (c', dl).
Proof. intros E. eapply sub_login; [|exact E]. split; vm_compute; by split. Qed.

Lemma one_session_reachable : sub_reachable (one_session, no_views).
Proof.
  unfold one_session, login.
  destruct (server_session_add_ex _ _ _ _ _ boot) as [[r c']|] eqn:E; [|apply boot_reachable].
  eapply sub_next; [apply (boot_reachable no_views)|]. by eapply login_step.
Qed.

Lemma subscribe_first :
  cluster_subscribe (db (cb_state one_session)) (ServerSession.mem one_session) 0 (ctx one_session) =
  (Ok 1%nat, (cluster_subscribe (db (cb_state one_session)) (ServerSession.mem one_session) 0
                (ctx one_session)).2).
Proof. apply run_eta. vm_compute. reflexivity. Qed.

Lemma one_subscriber_reachable : sub_reachable (one_subscriber, first_views).
Proof. eapply sub_next; [apply one_session_reachable|]. apply sub_subscribe with 0%nat, subscribe_first. Qed.


Lemma one_subscriber_listed : 1%nat ∈ subscribers (ctx one_subscriber).
Proof. vm_compute. left. Qed.
Lemma one_subscriber_thread : nio_thread (subs (ctx one_subscriber) 1%nat) = 0%nat.
Proof. vm_compute. reflexivity. Qed.


(** ** The grant of Bob is withdrawn while nobody listens *)

Lemma nobody_listens : subscribers (ctx one_session) = [].
Proof. vm_compute. reflexivity. Qed.
Abbreviation withdrawn := (priv_change_callback (pool_priv_changed 101 102 no_privs) one_session).
Abbreviation late := (cluster_subscribe (db (cb_state withdrawn)) (ServerSession.mem withdrawn) 0
                        (ctx withdrawn)).
Lemma subscribe_withdrawn : late = (Ok 1%nat, late.2).
Proof. apply run_eta. vm_compute. reflexivity. Qed.
Lemma bob_session : 1%nat ∈ sessions (ctx one_session).
Proof. vm_compute. left. Qed.

Lemma withdrawal_without_subscribers_witness : entry_of one_session 1%nat ∈ entries_of late.2 1%nat.
Proof.
  exact (proj2 (withdrawal_without_subscribers 101 102 no_privs 0 one_session no_views 1%nat late.2 1%nat
    one_session_reachable nobody_listens subscribe_withdrawn bob_session)).
Defined.

(** ** Changes of the database *)

(** The grant of Bob on the pool, of which he has a session, is withdrawn. *)
Definition withdraw : adb_op := GrantedRemove bob 102.
Definition after : DB := (run_op withdraw (db (cb_state one_subscriber))).2.

Lemma withdraw_ok : db_ok after ∧ Forall change_ok (told (run_op withdraw) (db (cb_state one_subscriber))).
Proof.
  split; [intros [|[|[|a]]]; vm_compute; split_and!; by intros|].
  apply Forall_forall. intros ch Hch. vm_compute in Hch. apply list_elem_of_singleton in Hch as ->.
  split; vm_compute; by split.
Qed.
Lemma withdraw_facts :
  (db_call (run_op withdraw) one_subscriber).1 = Ok tt ∧ subscribers (ctx one_subscriber) ≠ [] ∧
  1%nat ∈ sessions (ctx one_subscriber) ∧
  AuthDB.pool_id (AuthDB.pool (AuthDB.pools (db (cb_state one_subscriber)) 1%nat)) = 102 ∧
  grant_at (db (cb_state one_subscriber)) 2 102 = Some read_write ∧ grant_at after 2 102 = None.
Proof. vm_compute. split_and!; try reflexivity; try discriminate. left. Qed.
Lemma one_subscriber_wf : AuthDBProofs.wf (db (cb_state one_subscriber)).
Proof. exact setup_wf. Qed.

Lemma database_changes_reach_subscribers_witness :
  let c' := (db_call (run_op withdraw) one_subscriber).2 in
  sub_reachable (c', first_views) ∧ ServiceHandler.pool_privs (ServerSession.data (ServerSession.mem c') 1%nat) = no_access.
Proof.
  destruct withdraw_ok as [Hd Hc]. destruct withdraw_facts as (H1 & H2 & H3 & H4 & H5 & H6).
  destruct (database_changes_reach_subscribers withdraw one_subscriber first_views
    one_subscriber_reachable I Hd Hc) as (Hr & _ & Hg). split; [exact Hr|].
  destruct (Hg one_subscriber_wf (demo_name_ok _) H1 H2 1%nat 2%nat 1%nat read_write H3 eq_refl eq_refl) as [Hp _].
  - rewrite H4. exact H5.
  - rewrite H4. unfold after in H6. rewrite H6. discriminate.
  - rewrite H4 in Hp. unfold after in H6. rewrite H6 in Hp. exact Hp.
Defined.

(** Bob is removed, with the session still there. *)
Definition removed : Srv := (db_call (run_op (UserRemove bob)) one_subscriber).2.
Lemma removed_reachable : sub_reachable (removed, first_views).
Proof.
  apply db_call_reachable; [apply one_subscriber_reachable|done| |].
  - intros [|[|[|a]]]; vm_compute; split_and!; by intros.
  - apply Forall_forall. intros ch Hch. vm_compute in Hch. by apply not_elem_of_nil in Hch.
Qed.

Definition new_bob : FCFSAuthUserInfo :=
  {| user_id := 0; user_name := bob; user_passwd := Some [x70]; user_priv := 1; user_status := 0 |}.
Lemma removed_facts :
  1%nat ∈ subscribers (ctx removed) ∧ 1%nat ∈ sessions (ctx removed) ∧
  ServiceHandler.dbuser (ServerSession.data (ServerSession.mem removed) 1%nat) = Some 2%nat ∧
  user_get bob (db (cb_state removed)) = Some 2%nat ∧
  user_normal (users (db (cb_state removed)) 2%nat) = false ∧
  user_priv (user (users (db (cb_state removed)) 2%nat)) = 2 ∧
  (db_call (adb_user_create new_bob) removed).1 = Ok tt.
Proof. vm_compute. split_and!; try reflexivity; left. Qed.

Lemma recreated_user_diverges_witness :
  ServerSession.user_priv (synced (entry_of (db_call (adb_user_create new_bob) removed).2 1%nat)) = 1 ∧
  ServerSession.user_priv (synced (entry_of removed 1%nat)) ≠ 1.
Proof.
  destruct removed_facts as (H1 & H2 & H3 & H4 & H5 & H6 & H7).
  assert (user_priv (user (users (db (cb_state removed)) 2%nat)) ≠ user_priv new_bob) as H8
    by (rewrite H6; discriminate).
  destruct (recreated_user_diverges new_bob removed first_views 1%nat 1%nat 2%nat (demo_name_ok _) removed_reachable
    H1 H2 H3 H4 H5 H8 H7) as (_ & Hn & Ho). split; [exact Hn|exact Ho].
Defined.

(** ** A session between the two halves of a subscription *)

(** [session_subscribe_register] queues the sessions under one lock and links the
    subscriber under another: a login in between is published to the others only. *)
Definition missed : Srv :=
  let c := boot in
  let x := (session_subscribe_alloc 0 (ctx c)).2 in
  let x := (register_push (db (cb_state c)) (ServerSession.mem c) 1%nat x).2 in
  let c := login (with_ctx x c) in
  with_ctx (register_link 1%nat (ctx c)).2 c.

Lemma register_misses_login :
  subscribers (ctx missed) = [1%nat] ∧ sessions (ctx missed) = [1%nat] ∧
  ServiceHandler.publish (ServerSession.data (ServerSession.mem missed) 1%nat) = true ∧
  entries_of (ctx missed) 1%nat = [].
Proof. vm_compute. done. Qed.

(** ** The subscriber *)

Abbreviation Cli := (ServerSessionContext ServerSession.SessionSyncedFields unit Ref.pool).
Definition client : Cli := SessionExamples.demo_init.
Definition fields_with (priv : Z) : ServerSession.SessionSyncedFields := SessionExamples.demo_fields 10 priv.
Definition announce (n priv : Z) : ServerSessionSubscribeEntry :=
  create_entry (SessionExamples.demo_id n) (fields_with priv).
Definition empty_array : SyncedSessionArray := {| sync_alloc := 0; sync_entries := [] |}.

Lemma client_shows : shows client ∅.
Proof.
  split; [by apply SessionSpec.wf_init|]. intros s Hs. rewrite lookup_empty.
  apply SessionSpec.ok_absent. intros g (a & Ha & _)%get_fields_ok; [|by apply SessionSpec.wf_init|done].
  done.
Qed.

Lemma announce_ok n priv : 0 ≤ n < 2 ^ 32 → 0 ≤ priv < 2 ^ 32 → entry_ok (announce n priv).
Proof.
  intros Hn Hp. split; [apply SessionExamples.demo_id_ok; wrap_lia|]. left. split; [done|].
  unfold fields_ok. simpl. split_and!; wrap_lia.
Qed.

(** A session appears, another one too, and the first one goes. *)
Definition story : list ServerSessionSubscribeEntry :=
  [announce 1 3; announce 2 4; remove_entry (SessionExamples.demo_id 1)].
Definition story_bytes : list byte := default [] (push_message story).
Lemma story_message : push_message story = Some story_bytes.
Proof. vm_compute. reflexivity. Qed.
Lemma story_received : received [sync_push story_bytes] story.
Proof.
  rewrite <- (app_nil_r story). apply received_push; [apply story_message|done|constructor].
Qed.
Lemma story_ok : Forall entry_ok story.
Proof.
  unfold story. apply Forall_cons_2; [apply announce_ok; lia|]. apply Forall_cons_2; [apply announce_ok; lia|].
  apply Forall_singleton. split; [apply SessionExamples.demo_id_ok; wrap_lia|by right].
Qed.
Lemma story_fresh : fresh_run story ∅.
Proof. by vm_compute. Qed.



(** A table with the session, and its change. *)
Definition told_once : Cli := SessionExamples.demo_add (SessionExamples.demo_id 1) (fields_with 3) client.
Definition change_bytes : list byte := default [] (push_message [announce 1 5]).
Lemma change_message : push_message [announce 1 5] = Some change_bytes.
Proof. vm_compute. reflexivity. Qed.
Lemma told_once_shows : shows told_once (apply_entry ∅ (announce 1 3)).
Proof.
  destruct (deal_entry_ok [] (announce 1 3) client ∅ client_shows) as (c' & Hd & Hs);
    [apply SessionExamples.demo_id_ok; wrap_lia|done|].
  assert (deal_session_entry [] (announce 1 3) client = Some told_once) as Ht by (vm_compute; reflexivity).
  congruence.
Qed.

Lemma announced_change_dangles_witness :
  ∃ (c' : Cli) w' a,
    session_sync [] [sync_push change_bytes; sync_stop] empty_array told_once tt = Some (c', w') ∧
    (find c' (SessionExamples.demo_id 1)).1 = Some a ∧
    ServerSession.fields (ServerSession.entry (heap_of c' a)) ∉ mb_live (ServerSession.mb c').
Proof.
  assert (entry_ok (announce 1 5)) as He by (apply announce_ok; lia).
  exact (announced_change_dangles [] (announce 1 5) change_bytes (fields_with 3) empty_array told_once _ tt
    told_once_shows ltac:(vm_compute; reflexivity) ltac:(discriminate) He eq_refl change_message
    (or_introl eq_refl)).
Defined.

End SubscribeExamples.
