(* ===== verification/ClientProto.v ===== *)
(** * The client side of the authentication service (src/auth/client/client_proto.c)

    A call checks its arguments, packs a request, exchanges it for a response
    and unpacks that.  The exchange is libserverframe's and a class here; what
    is sent is the command and the body, the header with their length is put on
    by it.  Output parameters are results. *)
From Stdlib Require Import Init.Byte.
From S2P Require Import Prelude Fastcommon AuthProto AuthDB ServiceHandler.
Import AuthProto AuthDB ServiceHandler(request, cmd, body, behind, response, resp_cmd, resp_body,
  FCFS_AUTH_FIXED_USER_COUNT, c_string).
Local Open Scope Z_scope.

Module ClientProto.

Definition FCFS_AUTH_SERVICE_PROTO_SESSION_SUBSCRIBE_REQ : Z := 11.
Definition FCFS_AUTH_SERVICE_PROTO_SESSION_SUBSCRIBE_RESP : Z := 12.
Definition FCFS_AUTH_SERVICE_PROTO_SESSION_VALIDATE_REQ : Z := 15.
Definition FCFS_AUTH_SERVICE_PROTO_SESSION_VALIDATE_RESP : Z := 16.

(** ** The exchange ([sf/sf_proto.h]): command and body of the request, command
    of the response *)
Class Transport (W : Type) := {
  (** a response of the given size *)
  sf_send_and_recv_response : Z → list byte → Z → Z → M W (list byte);
  sf_send_and_recv_none_body_response : Z → list byte → Z → M W unit;
  (** a response of at most the given size *)
  sf_send_and_recv_response_ex1 : Z → list byte → Z → Z → M W (list byte);
  (** a response of at least the given size *)
  sf_send_and_recv_vary_response : Z → list byte → Z → Z → M W (list byte);
  fast_mpool_alloc_string_ex : string_t → M W string_t;
  (** the size of the body that follows; then reading so many bytes *)
  sf_send_and_check_response_header : Z → list byte → Z → M W Z;
  tcprecvdata_nb : Z → M W (list byte);
  (** the operations of the connection manager; the [comm_type] of the connection *)
  get_connection : M W Z;
  get_master_connection : M W Z;
  SF_CLIENT_RELEASE_CONNECTION : result unit → M W unit;
}.

(** ** Packing *)

Definition check_name_ex (name : string_t) (required : bool) : result unit :=
  let min_length := if required then 1 else 0 in
  if (Z.of_nat (length name) <? min_length) || (Z.of_nat (length name) >? NAME_MAX)
  then Err EINVAL else Ok tt.

Definition pack_name_ex (name : string_t) (required : bool) : result (list byte) :=
  match check_name_ex name required with Ok _ => Ok (pack_name name) | Err e => Err e end.

Definition pack_user_pool_pair_ex (username poolname : string_t) (required : bool)
    : result (list byte) :=
  match check_name_ex username required with
  | Err e => Err e
  | Ok _ => match check_name_ex poolname required with
            | Err e => Err e
            | Ok _ => Ok (fcfs_auth_pack_user_pool_pair username poolname)
            end
  end.

Definition pack_user_passwd_pair (username passwd : string_t) : result (list byte) :=
  if negb (Z.of_nat (length passwd) =? FCFS_AUTH_PASSWD_LEN) then Err EINVAL
  else match pack_name_ex username true with Ok n => Ok (passwd ++ n) | Err e => Err e end.

(** The array of a list call: the elements written, their [count] and the
    capacity. *)
Record client_array (A : Type) := { items : list A; array_count : Z; alloc : Z }.
Arguments items {A} _.
Arguments array_count {A} _.
Arguments alloc {A} _.
Definition init_array {A} : client_array A :=
  {| items := []; array_count := 0; alloc := FCFS_AUTH_FIXED_USER_COUNT |}.

(** The fields that a list call fills in. *)
Record listed_user := { lu_name : string_t; lu_priv : Z }.
Record listed_spool := { ls_name : string_t; ls_quota : Z }.
Record listed_gpool := { lg_username : string_t; lg_pool_name : string_t; lg_privs : FCFSAuthSPoolPriviledges }.

Record FCFSAuthClientServerEntry := {
  master_id : Z; master_ip : string_t; master_port : Z; master_comm_type : Z;
}.
Record FCFSAuthClusterStatFilter := { filter_by : Z; filter_online : Z; filter_master : Z }.
Record FCFSAuthClientClusterStatEntry := {
  stat_online : bool; stat_master : bool; stat_id : Z; stat_ip : string_t; stat_port : Z;
}.

Section client.
Context `{!BuffCodec, !ServerFrame}.
Context {W : Type} `{!Transport W, !Malloc W}.

(** ** Sessions *)

(** The new session id. *)
Definition fcfs_auth_client_proto_user_login (username passwd poolname : string_t) (flags : Z)
    : M W (list byte) :=
  up_pair ← lift (pack_user_passwd_pair username passwd);
  pname ← lift (pack_name_ex poolname false);
  resp ← sf_send_and_recv_response FCFS_AUTH_SERVICE_PROTO_USER_LOGIN_REQ
           (byte_of flags :: up_pair ++ pname)
           FCFS_AUTH_SERVICE_PROTO_USER_LOGIN_RESP FCFS_AUTH_SESSION_ID_LEN;
  mret (bytes_at resp 0 FCFS_AUTH_SESSION_ID_LEN).

Definition fcfs_auth_client_proto_session_subscribe (username passwd : string_t) : M W unit :=
  up_pair ← lift (pack_user_passwd_pair username passwd);
  sf_send_and_recv_none_body_response FCFS_AUTH_SERVICE_PROTO_SESSION_SUBSCRIBE_REQ up_pair
    FCFS_AUTH_SERVICE_PROTO_SESSION_SUBSCRIBE_RESP.

(** The code the server answers with; [padding] is left uninitialised. *)
Definition fcfs_auth_client_proto_session_validate (session_id validate_key padding : list byte)
    (priv_type pool_id priv_required : Z) : M W Z :=
  _ ← ensure (Z.of_nat (length validate_key) =? FCFS_AUTH_PASSWD_LEN) EINVAL;
  _ ← ensure (Z.of_nat (length session_id) =? FCFS_AUTH_SESSION_ID_LEN) EINVAL;
  resp ← sf_send_and_recv_response FCFS_AUTH_SERVICE_PROTO_SESSION_VALIDATE_REQ
           (session_id ++ validate_key ++ [byte_of priv_type] ++ padding ++
            long2buff pool_id ++ long2buff priv_required)
           FCFS_AUTH_SERVICE_PROTO_SESSION_VALIDATE_RESP 4;
  mret (buff2int (bytes_at resp 0 4)).

(** ** Users *)

Definition fcfs_auth_client_proto_user_create (name passwd : string_t) (priv : Z) : M W unit :=
  up_pair ← lift (pack_user_passwd_pair name passwd);
  sf_send_and_recv_none_body_response FCFS_AUTH_SERVICE_PROTO_USER_CREATE_REQ
    (long2buff priv ++ up_pair) FCFS_AUTH_SERVICE_PROTO_USER_CREATE_RESP.

Definition fcfs_auth_client_proto_user_passwd (username passwd : string_t) : M W unit :=
  up_pair ← lift (pack_user_passwd_pair username passwd);
  sf_send_and_recv_none_body_response FCFS_AUTH_SERVICE_PROTO_USER_PASSWD_REQ up_pair
    FCFS_AUTH_SERVICE_PROTO_USER_PASSWD_RESP.

Definition fcfs_auth_client_proto_user_grant (username : string_t) (priv : Z) : M W unit :=
  name ← lift (pack_name_ex username true);
  sf_send_and_recv_none_body_response FCFS_AUTH_SERVICE_PROTO_USER_GRANT_REQ
    (long2buff priv ++ name) FCFS_AUTH_SERVICE_PROTO_USER_GRANT_RESP.

Definition fcfs_auth_client_proto_user_remove (username : string_t) : M W unit :=
  name ← lift (pack_name_ex username true);
  sf_send_and_recv_none_body_response FCFS_AUTH_SERVICE_PROTO_USER_REMOVE_REQ name
    FCFS_AUTH_SERVICE_PROTO_USER_REMOVE_RESP.

(** ** Lists *)

(** The loop over the entries of a response, from offset [p]. *)
Fixpoint parse_entries {A} (parse : list byte → Z → M W (A * Z)) (n : nat) (b : list byte) (p : Z)
    : M W (list A * Z) :=
  match n with
  | O => mret ([], p)
  | S n =>
      '(a, p) ← parse b p;
      '(l, p) ← parse_entries parse n b p;
      mret (a :: l, p)
  end.

(** What the three [..._list_do] functions do with a response: the array with the
    new entries, and whether they are the last.  The entries are written from the
    position [count] on; a negative number of them lowers [count]. *)
Definition take_entries {A} (realloc : Z → Z → M W Z) (parse : list byte → Z → M W (A * Z))
    (array : client_array A) (resp : list byte) : M W (client_array A * bool) :=
  let count := buff2int (bytes_at resp 0 4) in
  let is_last := negb (char_at resp 4 =? 0) in
  n ← realloc (alloc array) (int32 (array_count array + count));
  '(l, p) ← parse_entries parse (Z.to_nat count) resp sizeof_FCFSAuthProtoListRespHeader;
  if negb (Z.of_nat (length resp) =? p) then throw EINVAL
  else mret ({| items := take (Z.to_nat (array_count array)) (items array) ++ l;
               array_count := int32 (array_count array + count); alloc := n |}, is_last).

Definition parse_user (b : list byte) (p : Z) : M W (listed_user * Z) :=
  name ← fast_mpool_alloc_string_ex (name_at b (p + 8));
  mret ({| lu_name := name; lu_priv := buff2long (bytes_at b p 8) |},
        p + sizeof_FCFSAuthProtoUserListRespBodyPart + Z.of_nat (length name)).

Definition client_proto_user_list_do (username : string_t) (limit : SFListLimitInfo)
    (array : client_array listed_user) : M W (client_array listed_user * bool) :=
  name ← lift (pack_name_ex username false);
  resp ← sf_send_and_recv_vary_response FCFS_AUTH_SERVICE_PROTO_USER_LIST_REQ
           (sf_proto_pack_limit limit ++ name) FCFS_AUTH_SERVICE_PROTO_USER_LIST_RESP
           sizeof_FCFSAuthProtoListRespHeader;
  take_entries fcfs_auth_user_check_realloc_array parse_user array resp.

(** The [while] loop of [client_proto_list_wrapper]. *)
Fixpoint list_wrapper_loop {A} (fuel : nat)
    (list_func : SFListLimitInfo → client_array A → M W (client_array A * bool))
    (limit : SFListLimitInfo) (array : client_array A) : M W (client_array A) :=
  match fuel with
  | O => throw NO_RETURN
  | S fuel =>
      let new_offset := int32 (offset limit + array_count array) in
      let new_count := if count limit <=? 0 then 0 else int32 (count limit - array_count array) in
      if (0 <? count limit) && (new_count =? 0) then mret array
      else
        '(array, is_last) ← list_func {| offset := new_offset; count := new_count |} array;
        if is_last : bool then mret array else list_wrapper_loop fuel list_func limit array
  end.

Definition client_proto_list_wrapper {A} (fuel : nat)
    (list_func : SFListLimitInfo → client_array A → M W (client_array A * bool))
    (limit : SFListLimitInfo) (array : client_array A) : M W (client_array A) :=
  if (0 <? count limit) && (count limit <=? 64) then
    '(array, _) ← list_func limit array; mret array
  else list_wrapper_loop fuel list_func limit array.

Definition fcfs_auth_client_proto_user_list (fuel : nat) (username : string_t)
    (limit : SFListLimitInfo) (array : client_array listed_user) : M W (client_array listed_user) :=
  client_proto_list_wrapper fuel (client_proto_user_list_do username) limit array.

(** ** Storage pools *)

(** The name of the pool that was created; [name_size] is the room for it.  It is
    compared as unsigned: a negative one is large. *)
Definition fcfs_auth_client_proto_spool_create (name : string_t) (quota name_size : Z) (dryrun : bool)
    : M W string_t :=
  n ← lift (pack_name_ex name false);
  let buff_size := if (0 <=? name_size) && (name_size <? NAME_MAX) then name_size
                   else sizeof_FCFSAuthProtoSPoolCreateResp + NAME_MAX in
  resp ← sf_send_and_recv_response_ex1 FCFS_AUTH_SERVICE_PROTO_SPOOL_CREATE_REQ
           (long2buff quota ++ [byte_of (Z.b2z dryrun)] ++ n)
           FCFS_AUTH_SERVICE_PROTO_SPOOL_CREATE_RESP buff_size;
  _ ← ensure (Z.of_nat (length resp) =? sizeof_FCFSAuthProtoSPoolCreateResp + char_at resp 0) EINVAL;
  mret (name_at resp 0).

Definition parse_spool (b : list byte) (p : Z) : M W (listed_spool * Z) :=
  name ← fast_mpool_alloc_string_ex (name_at b (p + 8));
  mret ({| ls_name := name; ls_quota := buff2long (bytes_at b p 8) |},
        p + sizeof_FCFSAuthProtoSPoolListRespBodyPart + Z.of_nat (length name)).

Definition client_proto_spool_list_do (username poolname : string_t) (limit : SFListLimitInfo)
    (array : client_array listed_spool) : M W (client_array listed_spool * bool) :=
  up_pair ← lift (pack_user_pool_pair_ex username poolname false);
  resp ← sf_send_and_recv_vary_response FCFS_AUTH_SERVICE_PROTO_SPOOL_LIST_REQ
           (sf_proto_pack_limit limit ++ up_pair) FCFS_AUTH_SERVICE_PROTO_SPOOL_LIST_RESP
           sizeof_FCFSAuthProtoListRespHeader;
  take_entries fcfs_auth_spool_check_realloc_array parse_spool array resp.

Definition fcfs_auth_client_proto_spool_list (fuel : nat) (username poolname : string_t)
    (limit : SFListLimitInfo) (array : client_array listed_spool) : M W (client_array listed_spool) :=
  client_proto_list_wrapper fuel (client_proto_spool_list_do username poolname) limit array.

Definition fcfs_auth_client_proto_spool_remove (poolname : string_t) : M W unit :=
  name ← lift (pack_name_ex poolname true);
  sf_send_and_recv_none_body_response FCFS_AUTH_SERVICE_PROTO_SPOOL_REMOVE_REQ name
    FCFS_AUTH_SERVICE_PROTO_SPOOL_REMOVE_RESP.

Definition fcfs_auth_client_proto_spool_set_quota (poolname : string_t) (quota : Z) : M W unit :=
  name ← lift (pack_name_ex poolname true);
  sf_send_and_recv_none_body_response FCFS_AUTH_SERVICE_PROTO_SPOOL_SET_QUOTA_REQ
    (long2buff quota ++ name) FCFS_AUTH_SERVICE_PROTO_SPOOL_SET_QUOTA_RESP.

Definition fcfs_auth_client_proto_spool_get_quota (poolname : string_t) : M W Z :=
  name ← lift (pack_name_ex poolname true);
  resp ← sf_send_and_recv_response FCFS_AUTH_SERVICE_PROTO_SPOOL_GET_QUOTA_REQ name
           FCFS_AUTH_SERVICE_PROTO_SPOOL_GET_QUOTA_RESP 8;
  mret (buff2long (bytes_at resp 0 8)).

(** ** Grants *)

Definition fcfs_auth_client_proto_gpool_grant (username poolname : string_t)
    (privs : FCFSAuthSPoolPriviledges) : M W unit :=
  up_pair ← lift (pack_user_pool_pair_ex username poolname true);
  sf_send_and_recv_none_body_response FCFS_AUTH_SERVICE_PROTO_GPOOL_GRANT_REQ
    (int2buff (fdir privs) ++ int2buff (fstore privs) ++ up_pair)
    FCFS_AUTH_SERVICE_PROTO_GPOOL_GRANT_RESP.

Definition fcfs_auth_client_proto_gpool_withdraw (username poolname : string_t) : M W unit :=
  up_pair ← lift (pack_user_pool_pair_ex username poolname true);
  sf_send_and_recv_none_body_response FCFS_AUTH_SERVICE_PROTO_GPOOL_WITHDRAW_REQ up_pair
    FCFS_AUTH_SERVICE_PROTO_GPOOL_WITHDRAW_RESP.

Definition parse_gpool (b : list byte) (p : Z) : M W (listed_gpool * Z) :=
  let privs := {| fdir := buff2int (bytes_at b p 4); fstore := buff2int (bytes_at b (p + 4) 4) |} in
  username ← fast_mpool_alloc_string_ex (name_at b (p + 8));
  pname ← fast_mpool_alloc_string_ex (name_at b (pair_second b (p + 8)));
  mret ({| lg_username := username; lg_pool_name := pname; lg_privs := privs |},
        p + sizeof_FCFSAuthProtoGPoolListRespBodyPart + Z.of_nat (length username) +
        Z.of_nat (length pname)).

Definition client_proto_gpool_list_do (username poolname : string_t) (limit : SFListLimitInfo)
    (array : client_array listed_gpool) : M W (client_array listed_gpool * bool) :=
  up_pair ← lift (pack_user_pool_pair_ex username poolname false);
  resp ← sf_send_and_recv_vary_response FCFS_AUTH_SERVICE_PROTO_GPOOL_LIST_REQ
           (sf_proto_pack_limit limit ++ up_pair) FCFS_AUTH_SERVICE_PROTO_GPOOL_LIST_RESP
           sizeof_FCFSAuthProtoListRespHeader;
  take_entries fcfs_auth_gpool_check_realloc_array parse_gpool array resp.

Definition fcfs_auth_client_proto_gpool_list (fuel : nat) (username poolname : string_t)
    (limit : SFListLimitInfo) (array : client_array listed_gpool) : M W (client_array listed_gpool) :=
  client_proto_list_wrapper fuel (client_proto_gpool_list_do username poolname) limit array.
(** ** The cluster *)

Variable IP_ADDRESS_SIZE : Z.

(** The string copied from a field of [IP_ADDRESS_SIZE] bytes and cut off there. *)
Definition ip_string (field : list byte) : string_t :=
  c_string (take (Z.to_nat (IP_ADDRESS_SIZE - 1)) field).

Definition sizeof_FCFSAuthProtoGetServerResp : Z := 4 + 2 + 2 + IP_ADDRESS_SIZE.
Definition sizeof_FCFSAuthProtoClusterStatRespBodyHeader : Z := 4 + 4.
Definition sizeof_FCFSAuthProtoClusterStatRespBodyPart : Z := 4 + 1 + 1 + 1 + 2 + IP_ADDRESS_SIZE.

Definition code_of {A} (r : result A) : result unit :=
  match r with Ok _ => Ok tt | Err e => Err e end.

Definition fcfs_auth_client_get_master : M W FCFSAuthClientServerEntry :=
  comm_type ← get_connection;
  r ← attempt (sf_send_and_recv_response FCFS_AUTH_SERVICE_PROTO_GET_MASTER_REQ []
                 FCFS_AUTH_SERVICE_PROTO_GET_MASTER_RESP sizeof_FCFSAuthProtoGetServerResp);
  _ ← attempt (SF_CLIENT_RELEASE_CONNECTION (code_of r));
  resp ← lift r;
  mret {| master_id := buff2int (bytes_at resp 0 4);
          master_port := buff2short (bytes_at resp 4 2);
          master_ip := ip_string (bytes_at resp 8 IP_ADDRESS_SIZE);
          master_comm_type := comm_type |}.

(** The body of the response: into a buffer on the stack or one that is
    allocated. *)
Definition cluster_stat_recv (filter : FCFSAuthClusterStatFilter) (padding : list byte)
    : M W (list byte) :=
  body_len ← sf_send_and_check_response_header FCFS_AUTH_SERVICE_PROTO_CLUSTER_STAT_REQ
    ([byte_of (filter_by filter); byte_of (filter_online filter); byte_of (filter_master filter)] ++ padding)
    FCFS_AUTH_SERVICE_PROTO_CLUSTER_STAT_RESP;
  _ ← (if body_len >? 8 * 1024 then
         λ w, let '(ok, w) := fc_malloc body_len w in ensure ok ENOMEM w
       else mret tt);
  tcprecvdata_nb body_len.

(** [FCFSAuthProtoClusterStatRespBodyPart] at [p] *)
Definition parse_server (b : list byte) (p : Z) : FCFSAuthClientClusterStatEntry :=
  {| stat_id := buff2int (bytes_at b p 4);
     stat_online := negb (char_at b (p + 4) =? 0);
     stat_master := negb (char_at b (p + 5) =? 0);
     stat_port := buff2short (bytes_at b (p + 7) 2);
     stat_ip := ip_string (bytes_at b (p + 9) IP_ADDRESS_SIZE) |}.

Fixpoint parse_servers (n : nat) (b : list byte) (p : Z) : list FCFSAuthClientClusterStatEntry :=
  match n with
  | O => []
  | S n => parse_server b p :: parse_servers n b (p + sizeof_FCFSAuthProtoClusterStatRespBodyPart)
  end.

(** The entries; there is room for [size].  The five bytes of [padding] are not
    initialised. *)
Definition fcfs_auth_client_cluster_stat (filter : FCFSAuthClusterStatFilter) (padding : list byte)
    (size : Z) : M W (list FCFSAuthClientClusterStatEntry) :=
  _ ← get_master_connection;
  r ← attempt
    (b ← cluster_stat_recv filter padding;
     let count := buff2int (bytes_at b 0 4) in
     let calc_size := int32 (sizeof_FCFSAuthProtoClusterStatRespBodyHeader +
                             count * sizeof_FCFSAuthProtoClusterStatRespBodyPart) in
     if negb (calc_size =? Z.of_nat (length b)) then throw EINVAL
     else if size <? count then throw ENOSPC
     else mret (parse_servers (Z.to_nat count) b sizeof_FCFSAuthProtoClusterStatRespBodyHeader));
  _ ← attempt (SF_CLIENT_RELEASE_CONNECTION (code_of r));
  lift r.
End client.

(** ** A transport that reaches the server [serve]

    While the connection is up, a request is served once and the exchange gives
    the server's body, or its code as the result (a negated code closes the
    connection; which code the client then sees is left open, as it is for a
    response of another command or size than expected).  [leftover] is what the
    server's receive buffer holds behind the request. *)
Section connected.
Context {W : Type} `{!Transport W}.
Variable serve : request → M W response.
Variable leftover : W → list byte.

Definition exchanges {A} (c : Z) (b : list byte) (rc : Z) (fits : Z → bool)
    (take_body : list byte → A) (m : M W A) : Prop := ∀ w,
  match serve {| cmd := c; body := b; behind := leftover w |} w with
  | (Ok resp, w') =>
      if (resp_cmd resp =? rc) && fits (Z.of_nat (length (resp_body resp)))
      then m w = (Ok (take_body (resp_body resp)), w')
      else ∃ e, m w = (Err e, w')
  | (Err e, w') => ∃ e', m w = (Err e', w') ∧ ((∀ x, e ≠ NEG x) → e' = e)
  end.

Class Connected : Prop := {
  recv_response c b rc n :
    exchanges c b rc (Z.eqb n) id (sf_send_and_recv_response c b rc n);
  recv_none c b rc :
    exchanges c b rc (Z.eqb 0) (λ _, tt) (sf_send_and_recv_none_body_response c b rc);
  recv_at_most c b rc n :
    exchanges c b rc (λ k, k <=? n) id (sf_send_and_recv_response_ex1 c b rc n);
  recv_at_least c b rc n :
    exchanges c b rc (Z.leb n) id (sf_send_and_recv_vary_response c b rc n);
}.

(** Header and body read one after the other: in between, the body is in flight
    and part of the state. *)
Class ConnectedParts : Prop := {
  recv_parts c b rc w :
    match serve {| cmd := c; body := b; behind := leftover w |} w with
    | (Ok resp, w') =>
        if resp_cmd resp =? rc then
          ∃ w1, sf_send_and_check_response_header c b rc w =
                  (Ok (Z.of_nat (length (resp_body resp))), w1) ∧
                tcprecvdata_nb (Z.of_nat (length (resp_body resp))) w1 = (Ok (resp_body resp), w')
        else ∃ e, sf_send_and_check_response_header c b rc w = (Err e, w')
    | (Err e, w') => ∃ e', sf_send_and_check_response_header c b rc w = (Err e', w') ∧
                           ((∀ x, e ≠ NEG x) → e' = e)
    end;
}.
End connected.
Arguments Connected W {_} serve leftover.
Arguments ConnectedParts W {_} serve leftover.

(** The pool of strings copies, when it has room. *)
Class StringPool (W : Type) `{!Transport W} : Prop := {
  alloc_string_ok v w : fast_mpool_alloc_string_ex v w = (Ok v, w);
}.
End ClientProto.
