(* ===== verification/ClientSpec.v ===== *)
(** * Client and server of the authentication service together

    A management call of [ClientProto.v], sent over a connection to the handler
    of [ServiceHandler.v], is the operation of [AuthDB.v] it names: what the
    client packs is what the handler reads. *)
From Stdlib Require Import Init.Byte.
From S2P Require Import Prelude Fastcommon Session SessionStore AuthProto AuthDB AuthDBProofs AuthDBSpec ServiceHandler ServiceProofs ServiceSpec ClientProto.
Import SessionStore AuthProto AuthDB AuthDBSpec ServiceHandler ServiceProofs ClientProto.
Local Open Scope Z_scope.

Module ClientSpec.

(** A buffer that ends in a name. *)
Lemma tail_name pre n i :
  i = Z.of_nat (length pre) → Z.of_nat (length n) ≤ NAME_MAX →
  let b := pre ++ pack_name n in
  char_at b i = Z.of_nat (length n) ∧ name_at b i = n ∧
  Z.of_nat (length b) = i + 1 + Z.of_nat (length n).
Proof.
  intros Hi Hn b. unfold b. rewrite <- (app_nil_r (pack_name n)).
  rewrite char_at_name, name_at_app by done. split_and!; [done..|].
  rewrite !length_app. pose proof (length_pack_name n). simpl. lia.
Qed.

(** ... and one that ends in two. *)
Lemma tail_pair pre u p i :
  i = Z.of_nat (length pre) → Z.of_nat (length u) ≤ NAME_MAX → Z.of_nat (length p) ≤ NAME_MAX →
  let b := pre ++ fcfs_auth_pack_user_pool_pair u p in
  fcfs_auth_parse_user_pool_pair b i = (u, p) ∧
  pair_length b i = Z.of_nat (length u) + Z.of_nat (length p) ∧
  Z.of_nat (length b) = i + 2 + Z.of_nat (length u) + Z.of_nat (length p).
Proof.
  intros Hi Hu Hp b. destruct (parse_pack_pair pre u p [] i Hi Hu Hp) as [H1 H2].
  rewrite app_nil_r in H1, H2. split_and!; [done..|]. unfold b, fcfs_auth_pack_user_pool_pair.
  rewrite !length_app. pose proof (length_pack_name u). pose proof (length_pack_name p). lia.
Qed.

Section spec.
Context `{!BuffCodec, !BuffCodecLaws, !ServerFrame, !ServerFrameLaws, !NameTools}.
Context {D : Type} `{!AuthDao D, !NameAllocator D, !Malloc D}.
Context {MB : Type} `{!Mblock MB}.
Context {SLs SLi : Type → Type} `{!UniqSkiplist string_t SLs, !UniqSkiplist Z SLi}.
Context {T : Type} `{!SessionStore ServerSessionFields T}.
Variable POOL_NAME_TEMPLATE : string_t.
Variable send_space : Z.
Variable address_by_peer : FCFSAuthClusterServerInfo → string_t * Z.
Variable IP_ADDRESS_SIZE : Z.
Variable cluster : cluster_vars.

Abbreviation DB := (AuthDBContext D MB SLs SLi).
Abbreviation S := (service_state D MB SLs SLi T).
Abbreviation deal_task :=
  (service_deal_task POOL_NAME_TEMPLATE send_space address_by_peer IP_ADDRESS_SIZE cluster).
Abbreviation process :=
  (service_process POOL_NAME_TEMPLATE send_space address_by_peer IP_ADDRESS_SIZE cluster).
Implicit Types (s : S) (d : DB).

(** ** The calls that change the database *)

Inductive manage_call :=
| CallUserCreate (n pw : string_t) (priv : Z)
| CallUserPasswd (n pw : string_t)
| CallUserGrant (n : string_t) (priv : Z)
| CallUserRemove (n : string_t)
| CallSpoolRemove (n : string_t)
| CallSpoolSetQuota (n : string_t) (quota : Z)
| CallGrant (u n : string_t) (privs : FCFSAuthSPoolPriviledges)
| CallWithdraw (u n : string_t).

Definition run_call `{!Transport S} (c : manage_call) : M S unit :=
  match c with
  | CallUserCreate n pw priv => fcfs_auth_client_proto_user_create n pw priv
  | CallUserPasswd n pw => fcfs_auth_client_proto_user_passwd n pw
  | CallUserGrant n priv => fcfs_auth_client_proto_user_grant n priv
  | CallUserRemove n => fcfs_auth_client_proto_user_remove n
  | CallSpoolRemove n => fcfs_auth_client_proto_spool_remove n
  | CallSpoolSetQuota n q => fcfs_auth_client_proto_spool_set_quota n q
  | CallGrant u n privs => fcfs_auth_client_proto_gpool_grant u n privs
  | CallWithdraw u n => fcfs_auth_client_proto_gpool_withdraw u n
  end.

(** What the arguments have to be for the client to send them. *)
Definition name_fits (n : string_t) : Prop := 1 ≤ Z.of_nat (length n) ≤ NAME_MAX.
Definition sendable (c : manage_call) : Prop :=
  match c with
  | CallUserCreate n pw _ | CallUserPasswd n pw =>
      name_fits n ∧ Z.of_nat (length pw) = FCFS_AUTH_PASSWD_LEN
  | CallUserGrant n _ | CallUserRemove n | CallSpoolRemove n | CallSpoolSetQuota n _ => name_fits n
  | CallGrant u n _ | CallWithdraw u n => name_fits u ∧ name_fits n
  end.

(** The numbers are those of the C types. *)
Definition typed (c : manage_call) : Prop :=
  match c with
  | CallUserCreate _ _ z | CallUserGrant _ z | CallSpoolSetQuota _ z => in_sint 64 z
  | CallGrant _ _ privs => in_sint 32 (fdir privs) ∧ in_sint 32 (fstore privs)
  | _ => True
  end.

Definition needs (c : manage_call) : Z :=
  match c with
  | CallUserCreate _ _ _ | CallUserPasswd _ _ | CallUserGrant _ _ | CallUserRemove _ =>
      FCFS_AUTH_USER_PRIV_USER_MANAGE
  | _ => FCFS_AUTH_USER_PRIV_CREATE_POOL
  end.

(** What a call of the user [me] means for the database. *)
Definition on_own_pool (me : FCFSAuthUserInfo) (n : string_t) (k : Z → M DB unit) : M DB unit :=
  d ← get;
  match adb_spool_get (user_name me) n d with
  | Some p => k (pool_id p)
  | None => throw ENOENT
  end.
Definition meaning (me : FCFSAuthUserInfo) (c : manage_call) : M DB unit :=
  match c with
  | CallUserCreate n pw priv =>
      _ ← lift (fc_check_filename_ex n);
      run_op (UserCreate {| user_id := 0; user_name := n; user_passwd := Some pw;
                            user_priv := priv; user_status := FCFS_AUTH_USER_STATUS_NORMAL |})
  | CallUserPasswd n pw => run_op (UserUpdatePasswd n pw)
  | CallUserGrant n priv => run_op (UserUpdatePriv n priv)
  | CallUserRemove n => run_op (UserRemove n)
  | CallSpoolRemove n => run_op (SpoolRemove (user_name me) n)
  | CallSpoolSetQuota n q => run_op (SpoolSetQuota (user_name me) n q)
  | CallGrant u n privs =>
      on_own_pool me n (λ id,
        _ ← ensure (negb ((fdir privs =? FCFS_AUTH_POOL_ACCESS_NONE) &&
                          (fstore privs =? FCFS_AUTH_POOL_ACCESS_NONE))) EINVAL;
        run_op (GrantedCreate u {| granted_id := 0; granted_pool_id := id; granted_privs := privs |}))
  | CallWithdraw u n => on_own_pool me n (λ id, run_op (GrantedRemove u id))
  end.

(** The request of a call, and the command of its response. *)
Definition call_cmd (c : manage_call) : Z * Z :=
  match c with
  | CallUserCreate _ _ _ => (FCFS_AUTH_SERVICE_PROTO_USER_CREATE_REQ, FCFS_AUTH_SERVICE_PROTO_USER_CREATE_RESP)
  | CallUserPasswd _ _ => (FCFS_AUTH_SERVICE_PROTO_USER_PASSWD_REQ, FCFS_AUTH_SERVICE_PROTO_USER_PASSWD_RESP)
  | CallUserGrant _ _ => (FCFS_AUTH_SERVICE_PROTO_USER_GRANT_REQ, FCFS_AUTH_SERVICE_PROTO_USER_GRANT_RESP)
  | CallUserRemove _ => (FCFS_AUTH_SERVICE_PROTO_USER_REMOVE_REQ, FCFS_AUTH_SERVICE_PROTO_USER_REMOVE_RESP)
  | CallSpoolRemove _ => (FCFS_AUTH_SERVICE_PROTO_SPOOL_REMOVE_REQ, FCFS_AUTH_SERVICE_PROTO_SPOOL_REMOVE_RESP)
  | CallSpoolSetQuota _ _ => (FCFS_AUTH_SERVICE_PROTO_SPOOL_SET_QUOTA_REQ, FCFS_AUTH_SERVICE_PROTO_SPOOL_SET_QUOTA_RESP)
  | CallGrant _ _ _ => (FCFS_AUTH_SERVICE_PROTO_GPOOL_GRANT_REQ, FCFS_AUTH_SERVICE_PROTO_GPOOL_GRANT_RESP)
  | CallWithdraw _ _ => (FCFS_AUTH_SERVICE_PROTO_GPOOL_WITHDRAW_REQ, FCFS_AUTH_SERVICE_PROTO_GPOOL_WITHDRAW_RESP)
  end.
Definition call_body (c : manage_call) : list byte :=
  match c with
  | CallUserCreate n pw priv => long2buff priv ++ pw ++ pack_name n
  | CallUserPasswd n pw => pw ++ pack_name n
  | CallUserGrant n z | CallSpoolSetQuota n z => long2buff z ++ pack_name n
  | CallUserRemove n | CallSpoolRemove n => pack_name n
  | CallGrant u n privs =>
      int2buff (fdir privs) ++ int2buff (fstore privs) ++ fcfs_auth_pack_user_pool_pair u n
  | CallWithdraw u n => fcfs_auth_pack_user_pool_pair u n
  end.

Definition handler (c : manage_call) (req : request) : M S unit :=
  match c with
  | CallUserCreate _ _ _ => service_deal_user_create req
  | CallUserPasswd _ _ => service_deal_user_passwd req
  | CallUserGrant _ _ => service_deal_user_grant req
  | CallUserRemove _ => service_deal_user_remove req
  | CallSpoolRemove _ => service_deal_spool_remove req
  | CallSpoolSetQuota _ _ => service_deal_spool_set_quota req
  | CallGrant _ _ _ => service_deal_spool_grant req
  | CallWithdraw _ _ => service_deal_spool_withdraw req
  end.

(** ** Dispatch *)

Lemma process_call c req s :
  MYSELF_IS_MASTER cluster = true → cmd req = (call_cmd c).1 →
  process req s = done (call_cmd c).2 (handler c req) s.
Proof.
  intros Hm Hc. unfold service_process. cbv zeta. rewrite Hm, Hc. cbn [negb andb].
  pose proof SF_PROTO_ACTIVE_TEST_REQ_new as Hnew.
  unfold switch at 1. rewrite (proj2 (Z.eqb_neq (call_cmd c).1 SF_PROTO_ACTIVE_TEST_REQ)).
  { by destruct c. }
  intros Heq. apply Hnew. rewrite <- Heq. by destruct c; compute_done.
Qed.

Lemma call_priv c : required_priv (call_cmd c).1 = Ok (Some (needs c)).
Proof. destruct c; by rewrite required_priv_cmd by compute_done. Qed.

Lemma needs_nonzero c : (needs c =? 0) = false.
Proof. by destruct c. Qed.

Lemma deal_call c req s :
  MYSELF_IS_MASTER cluster = true → cmd req = (call_cmd c).1 → SESSION_ENTRY s ≠ None →
  deal_task req s =
  match session_user s with
  | None => (Err EFAULT, s)
  | Some me =>
      if flag_set (user_priv me) (needs c) then done (call_cmd c).2 (handler c req) s
      else (Err EPERM, s)
  end.
Proof.
  intros Hm Hc Hs. unfold service_deal_task, check_user_priv. rewrite Hc, call_priv.
  destruct (SESSION_ENTRY s) as [e|] eqn:Es; [|done].
  unfold mbind, M_bind, lift, get at 1. rewrite Es, needs_nonzero, SESSION_USER_eq.
  destruct (session_user s) as [me|]; [|done]. unfold ensure.
  destruct (flag_set _ _); [|done]. simpl. by apply process_call.
Qed.

(** ** The handlers read what was packed *)

(** The checks of the length pass for a body of the right size. *)
Lemma check_length {A} len lo hi n (k : M S A) s :
  len = n → lo ≤ n ≤ hi →
  (_ ← lift (server_check_body_length len lo hi); _ ← lift (server_expect_body_length len n); k) s
  = k s.
Proof.
  intros -> Hn. rewrite server_check_body_length_eq, server_expect_body_length_eq, Z.eqb_refl.
  rewrite (proj2 (Z.leb_le lo n)), (proj2 (Z.leb_le n hi)) by lia. done.
Qed.

Lemma session_user_run {A} me (k : FCFSAuthUserInfo → M S A) s :
  session_user s = Some me → (SESSION_USER ≫= k) s = k me s.
Proof. intros Hme. apply bind_ok. by rewrite SESSION_USER_eq, Hme. Qed.

Lemma set_adb_same s : set_adb (adb s) s = s.
Proof. by destruct s. Qed.

Lemma on_db_lift {A B} (r : result A) (k : A → M DB B) s :
  on_db (x ← lift r; k x) s = (x ← lift r; on_db (k x)) s.
Proof. unfold on_db, mbind, M_bind, lift. destruct r; [done|]. by rewrite set_adb_same. Qed.

Lemma on_own_pool_eq me n k s :
  on_db (on_own_pool me n k) s = (p ← SPOOL_GET (user_name me) n; on_db (k (pool_id p))) s.
Proof.
  unfold on_db, on_own_pool, SPOOL_GET, mbind, M_bind, get, throw, mret, M_ret.
  destruct (adb_spool_get _ _ _); [done|]. by rewrite set_adb_same.
Qed.

Ltac sizes := unfold sizeof_FCFSAuthProtoUserCreateReq, sizeof_FCFSAuthProtoUserPasswdReq,
  sizeof_FCFSAuthProtoUserGrantReq, sizeof_FCFSAuthProtoUserRemoveReq,
  sizeof_FCFSAuthProtoSPoolRemoveReq, sizeof_FCFSAuthProtoSPoolSetQuotaReq,
  sizeof_FCFSAuthProtoSPoolGrantReq, sizeof_FCFSAuthProtoSPoolWithdrawReq, name_fits,
  FCFS_AUTH_PASSWD_LEN, NAME_MAX in *;
  rewrite ?length_app, ?length_long2buff, ?length_int2buff; lia.

Lemma user_create_reads c n pw priv rest s :
  name_fits n → Z.of_nat (length pw) = FCFS_AUTH_PASSWD_LEN → in_sint 64 priv →
  let req := {| cmd := c; body := long2buff priv ++ pw ++ pack_name n; behind := rest |} in
  service_deal_user_create req s =
  (_ ← lift (fc_check_filename_ex n);
   on_db (adb_user_create {| user_id := 0; user_name := n; user_passwd := Some pw;
     user_priv := priv; user_status := FCFS_AUTH_USER_STATUS_NORMAL |})) s.
Proof.
  intros Hn Hpw Hpriv. cbv zeta. unfold service_deal_user_create, body_len. cbv zeta. cbn [body].
  destruct (tail_name (long2buff priv ++ pw) n 24) as (Hc & Hnm & Hl); [sizes|sizes|].
  rewrite <- app_assoc in Hc, Hnm, Hl. rewrite check_length by (rewrite ?Hc, ?Hl; sizes).
  rewrite Hnm, bytes_at_app, bytes_at_front by sizes. by rewrite buff2long_long2buff.
Qed.

Lemma user_passwd_reads c n pw rest s :
  name_fits n → Z.of_nat (length pw) = FCFS_AUTH_PASSWD_LEN →
  service_deal_user_passwd {| cmd := c; body := pw ++ pack_name n; behind := rest |} s =
  on_db (adb_user_update_passwd n pw) s.
Proof.
  intros Hn Hpw. unfold service_deal_user_passwd, body_len. cbv zeta. cbn [body].
  destruct (tail_name pw n 16) as (Hc & Hnm & Hl); [sizes|sizes|].
  rewrite check_length by (rewrite ?Hc, ?Hl; sizes). by rewrite Hnm, bytes_at_front by sizes.
Qed.

(** A number and a name. *)
Lemma number_name n z :
  name_fits n → in_sint 64 z → let b := long2buff z ++ pack_name n in
  char_at b 8 = Z.of_nat (length n) ∧ name_at b 8 = n ∧
  Z.of_nat (length b) = 9 + Z.of_nat (length n) ∧ buff2long (bytes_at b 0 8) = z.
Proof.
  intros Hn Hz b. destruct (tail_name (long2buff z) n 8) as (Hc & Hnm & Hl); [sizes|sizes|].
  split_and!; [done..|]. unfold b. rewrite bytes_at_front by sizes. by apply buff2long_long2buff.
Qed.

Lemma handler_reads me c rest s :
  sendable c → typed c → session_user s = Some me →
  handler c {| cmd := (call_cmd c).1; body := call_body c; behind := rest |} s =
  on_db (meaning me c) s.
Proof.
  intros Hs Ht Hme. destruct c as [n pw priv|n pw|n z|n|n|n z|u n privs|u n];
    cbn [handler call_body meaning sendable typed run_op] in *.
  - destruct Hs. rewrite user_create_reads by done. by rewrite on_db_lift.
  - destruct Hs. by apply user_passwd_reads.
  - unfold service_deal_user_grant, body_len. cbv zeta. cbn [body].
    destruct (number_name n z Hs Ht) as (Hc & Hnm & Hl & Hz).
    rewrite check_length by (rewrite ?Hc, ?Hl; sizes). by rewrite Hnm, Hz.
  - unfold service_deal_user_remove, body_len. cbv zeta. cbn [body].
    destruct (tail_name [] n 0) as (Hc & Hnm & Hl); [done|sizes|]. simpl app in *.
    rewrite check_length by (rewrite ?Hc, ?Hl; sizes). by rewrite Hnm.
  - unfold service_deal_spool_remove, body_len. cbv zeta. cbn [body].
    destruct (tail_name [] n 0) as (Hc & Hnm & Hl); [done|sizes|]. simpl app in *.
    rewrite check_length by (rewrite ?Hc, ?Hl; sizes). by rewrite (session_user_run me), Hnm.
  - unfold service_deal_spool_set_quota, body_len. cbv zeta. cbn [body].
    destruct (number_name n z Hs Ht) as (Hc & Hnm & Hl & Hz).
    rewrite check_length by (rewrite ?Hc, ?Hl; sizes). by rewrite (session_user_run me), Hnm, Hz.
  - destruct Hs as [Hu Hn], Ht as [Hd Hf].
    unfold service_deal_spool_grant, body_len. cbv zeta. cbn [body].
    destruct (tail_pair (int2buff (fdir privs) ++ int2buff (fstore privs)) u n 8)
      as (Hp & Hpl & Hl); [sizes..|]. rewrite <- app_assoc in Hp, Hpl, Hl. rewrite Hp.
    rewrite check_length by (rewrite ?Hpl, ?Hl; sizes). rewrite (session_user_run me) by done.
    rewrite on_own_pool_eq. unfold mbind, M_bind. destruct (SPOOL_GET _ _ s) as [[p|] s1]; [|done].
    rewrite bytes_at_front, bytes_at_app by sizes. rewrite !buff2int_int2buff by done.
    destruct privs as [fd fs]. unfold on_db, ensure. simpl.
    destruct (negb _); simpl; [done|]. by rewrite set_adb_same.
  - destruct Hs as [Hu Hn]. unfold service_deal_spool_withdraw, body_len. cbv zeta. cbn [body].
    destruct (tail_pair [] u n 0) as (Hp & Hpl & Hl); [done|sizes..|]. simpl app in *. rewrite Hp.
    rewrite check_length by (rewrite ?Hpl, ?Hl; sizes). rewrite (session_user_run me) by done.
    by rewrite on_own_pool_eq.
Qed.

(** ** The calls *)
Section calls.
Context `{!Transport S}.
Variable leftover : S → list byte.
Context `{!Connected S deal_task leftover}.

Lemma check_name_fits n : check_name_ex n true = Ok tt ↔ name_fits n.
Proof.
  unfold check_name_ex, name_fits. destruct (_ || _) eqn:E; split; intros Hx; try done.
  - apply orb_true_iff in E as [E|E]; bool_to_prop; lia.
  - bool_to_prop. lia.
Qed.
Lemma check_name_res n b : check_name_ex n b = Ok tt ∨ check_name_ex n b = Err EINVAL.
Proof. unfold check_name_ex. case_match; auto. Qed.

(** The client sends the request of a call, or refuses its arguments. *)
Lemma run_call_sends c s :
  sendable c →
  run_call c s = sf_send_and_recv_none_body_response (call_cmd c).1 (call_body c) (call_cmd c).2 s.
Proof.
  intros Hs. destruct c; cbn [run_call call_cmd call_body sendable fst snd] in *;
    unfold fcfs_auth_client_proto_user_create, fcfs_auth_client_proto_user_passwd,
      fcfs_auth_client_proto_user_grant, fcfs_auth_client_proto_user_remove,
      fcfs_auth_client_proto_spool_remove, fcfs_auth_client_proto_spool_set_quota,
      fcfs_auth_client_proto_gpool_grant, fcfs_auth_client_proto_gpool_withdraw,
      pack_user_passwd_pair, pack_user_pool_pair_ex, pack_name_ex.
  1, 2: destruct Hs as [Hn Hp]; rewrite (proj2 (check_name_fits _) Hn), Hp; by simpl.
  1-4: rewrite (proj2 (check_name_fits _) Hs); by simpl.
  all: destruct Hs as [Hu Hn]; by rewrite (proj2 (check_name_fits _) Hu), (proj2 (check_name_fits _) Hn).
Qed.

Lemma run_call_refuses c s : ¬ sendable c → run_call c s = (Err EINVAL, s).
Proof.
  intros Hs. destruct c; cbn [run_call sendable] in *;
    unfold fcfs_auth_client_proto_user_create, fcfs_auth_client_proto_user_passwd,
      fcfs_auth_client_proto_user_grant, fcfs_auth_client_proto_user_remove,
      fcfs_auth_client_proto_spool_remove, fcfs_auth_client_proto_spool_set_quota,
      fcfs_auth_client_proto_gpool_grant, fcfs_auth_client_proto_gpool_withdraw,
      pack_user_passwd_pair, pack_user_pool_pair_ex, pack_name_ex; rewrite <- ?check_name_fits in Hs;
    repeat match goal with
    | |- context [negb (?a =? ?b)] => destruct (Z.eqb_spec a b); simpl; [|done]
    | |- context [check_name_ex ?n true] =>
        destruct (check_name_res n true) as [E|E]; rewrite E in *; clear E; simpl; try done
    end; exfalso; tauto.
Qed.

(** The same state, and the same result up to the codes that close the
    connection. *)
Definition agrees {A} (x y : result A * S) : Prop :=
  x.2 = y.2 ∧
  match y.1 with
  | Ok a => x.1 = Ok a
  | Err e => ∃ e', x.1 = Err e' ∧ ((∀ n, e ≠ NEG n) → e' = e)
  end.

Lemma none_body_agrees c s (m : M S unit) :
  deal_task {| cmd := (call_cmd c).1; body := call_body c; behind := leftover s |} s =
    done (call_cmd c).2 m s →
  agrees (sf_send_and_recv_none_body_response (call_cmd c).1 (call_body c) (call_cmd c).2 s) (m s).
Proof.
  intros Hd. pose proof (recv_none deal_task leftover (call_cmd c).1 (call_body c) (call_cmd c).2 s) as Hr.
  rewrite Hd in Hr. unfold done, mbind, M_bind in Hr. destruct (m s) as [[[]|e] s1]; simpl in Hr.
  - rewrite Z.eqb_refl in Hr. simpl in Hr. rewrite Hr. by split.
  - destruct Hr as (e' & -> & He). split; [done|]. by exists e'.
Qed.

End calls.
End spec.
End ClientSpec.
