(* ===== verification/ClientLists.v ===== *)
(** * Lists across the connection

    The client asks for a list in pages, the server packs as many entries as fit
    into its send buffer.  Here: packing and parsing a page, the loop of
    [client_proto_list_wrapper] against any server of pages, and the list of
    users with the handler of [ServiceHandler.v] as that server. *)
From Stdlib Require Import Init.Byte.
From S2P Require Import Prelude Fastcommon Session SessionStore AuthProto AuthDB AuthDBProofs AuthDBSpec ServiceHandler ServiceProofs ServiceSpec ClientProto ClientSpec.
Import SessionStore AuthProto AuthDB AuthDBSpec ServiceHandler ServiceProofs ClientProto ClientSpec.
Local Open Scope Z_scope.

Module ClientLists.

(** ** A page *)

(** The entries that fit are a prefix; there is room for one at least if there
    is room for the greatest. *)
Lemma pack_entries_spec {A} (enc : A → list byte) B space l :
  Forall (λ a, Z.of_nat (length (enc a)) ≤ B) l → 0 ≤ B →
  ∃ k : nat, (k ≤ length l)%nat ∧
    pack_entries enc space l =
      (mjoin (enc <$> take k l), Z.of_nat k, negb (k =? length l)%nat) ∧
    (Z.of_nat (length l) * B ≤ space → k = length l) ∧
    (B ≤ space → l ≠ [] → (0 < k)%nat).
Proof.
  intros Hall HB. revert space. induction Hall as [|a l Ha Hall IH]; intros space.
  { exists 0%nat. by split_and!. }
  cbn [pack_entries]. rewrite Z.gtb_ltb. destruct (Z.ltb_spec space (Z.of_nat (length (enc a)))).
  - exists 0%nat. split_and!; [lia|done| |lia]. cbn [length]. nia.
  - destruct (IH (space - Z.of_nat (length (enc a)))) as (k & Hk & -> & Hfull & _).
    exists (S k). split_and!; cbn [length]; [lia| | |lia].
    + rewrite firstn_cons, fmap_cons. cbn [mjoin list_join].
      replace (Z.of_nat k + 1) with (Z.of_nat (S k)) by lia. done.
    + intros. f_equal. apply Hfull. nia.
Qed.

Lemma parse_pack_entries {W A B} (parse : list byte → Z → M W (B * Z)) (enc : A → list byte)
    (f : A → B) (w : W) pre l post :
  (∀ a pre post, a ∈ l →
     parse (pre ++ enc a ++ post) (Z.of_nat (length pre)) w =
     (Ok (f a, Z.of_nat (length (pre ++ enc a))), w)) →
  parse_entries parse (length l) (pre ++ mjoin (enc <$> l) ++ post) (Z.of_nat (length pre)) w =
  (Ok (f <$> l, Z.of_nat (length (pre ++ mjoin (enc <$> l)))), w).
Proof.
  revert pre. induction l as [|a l IH]; intros pre Hparse; simpl.
  { by rewrite app_nil_r. }
  rewrite <- app_assoc. rewrite (bind_ok _ _ _ _ _ (Hparse a pre _ (list_elem_of_here _ _))).
  rewrite (app_assoc pre (enc a)), (app_assoc pre).
  assert (∀ a0 pre0 post0, a0 ∈ l →
     parse (pre0 ++ enc a0 ++ post0) (Z.of_nat (length pre0)) w =
     (Ok (f a0, Z.of_nat (length (pre0 ++ enc a0))), w)) as Hp
    by (intros; apply Hparse; by right).
  by rewrite (bind_ok _ _ _ _ _ (IH (pre ++ enc a) Hp)).
Qed.

(** ** The loop over the pages *)
Section paging.
Context {W A : Type} (R : W → Prop) (all : list A).

(** The array holds [l]. *)
Definition holds (a : client_array A) (l : list A) : Prop :=
  items a = l ∧ array_count a = Z.of_nat (length l) ∧ ∃ k, 8 ≤ k ≤ 30 ∧ alloc a = 2 ^ k.

Definition page (o c : Z) : list A :=
  take (Z.to_nat (if c <=? 0 then 1024 else c)) (drop (Z.to_nat o) all).

(** What is asked of the function that fetches a page: it appends a prefix of
    it, not empty unless the page is, and says truly whether the list ends. *)
Definition serves (list_func : SFListLimitInfo → client_array A → M W (client_array A * bool)) : Prop :=
  ∀ o c a l w, 0 ≤ o < 2 ^ 30 → 0 ≤ c ≤ 2 ^ 30 → R w → holds a l →
    Z.of_nat (length l) ≤ o →
    ∃ k a' last w', list_func {| offset := o; count := c |} a w = (Ok (a', last), w') ∧ R w' ∧
      holds a' (l ++ take k (page o c)) ∧ (k ≤ length (page o c))%nat ∧
      (page o c ≠ [] → (0 < k)%nat) ∧
      last = bool_decide (k = length (page o c) ∧
                          Z.of_nat (length (page o c)) < (if c <=? 0 then 1024 else c)) ∧
      (0 < c ≤ 64 → k = length (page o c)).

(** The list that a limit asks for. *)
Definition limited (limit : SFListLimitInfo) : list A :=
  let l := drop (Z.to_nat (offset limit)) all in
  if count limit <=? 0 then l else take (Z.to_nat (count limit)) l.

Section loop.
Variable list_func : SFListLimitInfo → client_array A → M W (client_array A * bool).
Hypothesis Hserves : serves list_func.
Hypothesis Hall : Z.of_nat (length all) < 2 ^ 30.
Variable limit : SFListLimitInfo.
Hypothesis Hoffset : 0 ≤ offset limit < 2 ^ 30.
Hypothesis Hcount : count limit ≤ 2 ^ 30.

Lemma length_limited : (length (limited limit) ≤ length all)%nat.
Proof. unfold limited. case_match; rewrite ?length_take, length_drop; lia. Qed.

Lemma limited_offset n : (n ≤ length (limited limit))%nat → (0 < n)%nat →
  offset limit + Z.of_nat n ≤ Z.of_nat (length all).
Proof. unfold limited. case_match; rewrite ?length_take, length_drop; lia. Qed.

(** What the loop asks for next. *)
Definition next_count (n : nat) : Z := if count limit <=? 0 then 0 else count limit - Z.of_nat n.

(** The next page begins the rest of the list and, if it is not full, is all of
    it. *)
Lemma next_page l tl :
  limited limit = l ++ tl → (0 < count limit → Z.of_nat (length l) < count limit) →
  let p := page (offset limit + Z.of_nat (length l)) (next_count (length l)) in
  p `prefix_of` tl ∧
  (Z.of_nat (length p) < (if next_count (length l) <=? 0 then 1024 else next_count (length l)) →
   p = tl).
Proof.
  intros Hl Hlc. assert (tl = drop (length l) (limited limit)) as -> by (by rewrite Hl, drop_app_length).
  clear Hl. unfold page, limited, next_count. rewrite Z2Nat.inj_add, Nat2Z.id by lia.
  destruct (Z.leb_spec (count limit) 0); simpl.
  - rewrite drop_drop. split; [apply prefix_take|]. rewrite length_take. intros Hlen.
    apply take_ge. lia.
  - rewrite (proj2 (Z.leb_gt _ _)) by lia. rewrite skipn_firstn_comm, drop_drop.
    rewrite Z2Nat.inj_sub, Nat2Z.id by lia. done.
Qed.

(** The numbers of the loop stay in the range of [int]. *)
Lemma loop_ranges l :
  l `prefix_of` limited limit →
  0 ≤ offset limit + Z.of_nat (length l) < 2 ^ 30 ∧
  (0 < count limit → Z.of_nat (length l) ≤ count limit) ∧
  int32 (offset limit + Z.of_nat (length l)) = offset limit + Z.of_nat (length l) ∧
  (if count limit <=? 0 then 0 else int32 (count limit - Z.of_nat (length l))) =
  next_count (length l).
Proof.
  intros Hl%prefix_length. pose proof (limited_offset (length l) Hl) as Ho.
  assert (0 < count limit → Z.of_nat (length l) ≤ count limit) as Hlc.
  { intros Hc. unfold limited in Hl. rewrite (proj2 (Z.leb_gt _ _)), length_take in Hl by lia. lia. }
  assert (0 ≤ offset limit + Z.of_nat (length l) < 2 ^ 30) by lia.
  unfold next_count. split_and!; [lia..|done|wrap_lia|].
  destruct (Z.leb_spec (count limit) 0); [done|wrap_lia].
Qed.

Lemma list_wrapper_loop_ok fuel l a w :
  l `prefix_of` limited limit → (length (limited limit) - length l < fuel)%nat → R w → holds a l →
  ∃ a' w', list_wrapper_loop fuel list_func limit a w = (Ok a', w') ∧ R w' ∧ holds a' (limited limit).
Proof.
  revert l a w. induction fuel as [|fuel IH]; intros l a w Hl Hf HR Ha; [lia|].
  destruct (loop_ranges l Hl) as (Ho & Hlc & Eo & Ec). pose proof Hl as [tl Htl].
  cbn [list_wrapper_loop]. rewrite (proj1 (proj2 Ha)), Eo, Ec. clear Eo Ec.
  destruct ((0 <? count limit) && (next_count (length l) =? 0)) eqn:Edone.
  { exists a, w. split_and!; [done..|]. replace (limited limit) with l; [done|].
    unfold next_count in Edone. bool_to_prop. rewrite (proj2 (Z.leb_gt _ _)) in * by lia.
    apply prefix_length_eq; [done|]. unfold limited.
    rewrite (proj2 (Z.leb_gt _ _)), length_take by lia. lia. }
  assert (0 < count limit → Z.of_nat (length l) < count limit) as Hlt.
  { intros Hc. unfold next_count in Edone. rewrite (proj2 (Z.ltb_lt 0 _) Hc) in Edone.
    rewrite (proj2 (Z.leb_gt _ _)) in Edone by lia. simpl in Edone. bool_to_prop. lia. }
  destruct (next_page l tl Htl Hlt) as [[tl' Hp] Hend].
  destruct (Hserves (offset limit + Z.of_nat (length l)) (next_count (length l)) a l w)
    as (k & a' & last & w' & Hrun & HR' & Ha' & Hk & Hpos & -> & _);
    [lia|unfold next_count; destruct (Z.leb_spec (count limit) 0); lia|done|done|lia|].
  rewrite (bind_ok _ _ _ _ _ Hrun). clear Hrun.
  set (p := page _ _) in *. case_bool_decide as Hlast.
  - destruct Hlast as [-> Hlt']. exists a', w'. split_and!; [done..|].
    by rewrite firstn_all, (Hend Hlt'), <- Htl in Ha'.
  - assert (0 < k)%nat as Hk0.
    { destruct (decide (p = [])) as [Hnil|]; [|by apply Hpos]. destruct Hlast. rewrite Hnil in *.
      simpl in *. split; [lia|]. destruct (Z.leb_spec (next_count (length l)) 0); lia. }
    apply (IH (l ++ take k p)); [| |done..].
    + rewrite Htl, Hp. exists (drop k p ++ tl'). by rewrite <- app_assoc, (app_assoc (take k p)), take_drop.
    + apply (f_equal length) in Htl, Hp. rewrite length_app in Htl, Hp.
      rewrite length_app, length_take. lia.
Qed.

(** The whole wrapper, on an array that is empty. *)
Lemma client_proto_list_wrapper_ok fuel w :
  (length all < fuel)%nat → R w →
  ∃ a' w', client_proto_list_wrapper fuel list_func limit init_array w = (Ok a', w') ∧ R w' ∧
    holds a' (limited limit).
Proof.
  intros Hf HR. pose proof length_limited.
  assert (holds init_array []) as Hinit by (split_and!; [done..|]; by exists 8).
  unfold client_proto_list_wrapper. destruct (_ && _) eqn:E.
  - bool_to_prop. destruct (Hserves (offset limit) (count limit) init_array [] w)
      as (k & a' & last & w' & Hrun & HR' & Ha' & _ & _ & _ & Hk); [done|lia|done|done|simpl; lia|].
    destruct limit as [o c]; simpl in *. rewrite (bind_ok _ _ _ _ _ Hrun). exists a', w'.
    split_and!; [done..|]. rewrite Hk, firstn_all in Ha' by lia.
    unfold limited; simpl. unfold page in Ha'. by rewrite (proj2 (Z.leb_gt _ _)) in Ha' |- * by lia.
  - apply (list_wrapper_loop_ok fuel []); [apply prefix_nil|simpl; lia|done..].
Qed.
End loop.
End paging.

(** ** Growing the array *)
Lemma check_realloc_pow2 {W} `{!Malloc W} sz k target (w : W) :
  8 ≤ k ≤ 30 → target ≤ 2 ^ 30 → (∀ n w, (fc_malloc n w).1 = true) →
  ∃ j w', 8 ≤ j ≤ 30 ∧ check_realloc_array sz (2 ^ k) target w = (Ok (2 ^ j), w') ∧
    (w' = w ∨ ∃ n, w' = (fc_malloc n w).2).
Proof.
  intros Hk Ht Hm. unfold check_realloc_array. rewrite Z.geb_leb.
  destruct (Z.leb_spec target (2 ^ k)); [exists k, w; auto|].
  destruct (grow_alloc_pow2 32 k target) as (j & Hj & -> & _ & _); [lia..|].
  pose proof (Hm (sz * 2 ^ j) w) as Hok. exists j, (fc_malloc (sz * 2 ^ j) w).2.
  destruct (fc_malloc _ w) as [[] w'] eqn:E; [|done]. split_and!; [lia..|done|].
  right. exists (sz * 2 ^ j). by rewrite E.
Qed.

(** ** The list of users *)
Section users.
Context `{!BuffCodec, !BuffCodecLaws, !ServerFrame, !ServerFrameLaws, !NameTools}.
Context {D : Type} `{!AuthDao D, !NameAllocator D, !Malloc D}.
Context {MB : Type} `{!Mblock MB}.
Context {SLs SLi : Type → Type} `{!UniqSkiplist string_t SLs, !UniqSkiplist Z SLi}.
Context {T : Type} `{!SessionStore ServerSessionFields T}.
Variable POOL_NAME_TEMPLATE : string_t.
Variable send_space : Z.
Variable address_by_peer : FCFSAuthClusterServerInfo → string_t * Z.
Variable IP_ADDRESS_SIZE : Z.
Variable cluster : cluster_vars.

Abbreviation DB := (AuthDBContext D MB SLs SLi).
Abbreviation S := (service_state D MB SLs SLi T).
Abbreviation deal_task :=
  (service_deal_task POOL_NAME_TEMPLATE send_space address_by_peer IP_ADDRESS_SIZE cluster).
Implicit Types (s : S) (d : DB).

Definition entry_of (u : FCFSAuthUserInfo) : listed_user :=
  {| lu_name := user_name u; lu_priv := user_priv u |}.
Definition db_users d : list FCFSAuthUserInfo := (λ e, user (users d e.2)) <$> sl_elements (user_sl d).

(** Users that fit the messages. *)
Definition user_packs (u : FCFSAuthUserInfo) : Prop :=
  Z.of_nat (length (user_name u)) ≤ NAME_MAX ∧ in_sint 64 (user_priv u).

Lemma length_pack_user u :
  Z.of_nat (length (pack_user u)) = 9 + Z.of_nat (length (user_name u)).
Proof. unfold pack_user. rewrite length_app, length_long2buff. pose proof (length_pack_name (user_name u)). lia. Qed.

Lemma parse_pack_user `{!Transport S, !StringPool S} u pre post s :
  user_packs u →
  parse_user (pre ++ pack_user u ++ post) (Z.of_nat (length pre)) s =
  (Ok (entry_of u, Z.of_nat (length (pre ++ pack_user u))), s).
Proof.
  intros [Hn Hp]. unfold parse_user, pack_user. rewrite <- app_assoc.
  rewrite (app_assoc pre), (name_at_app (pre ++ _)) by (rewrite ?length_app, ?length_long2buff; lia).
  rewrite (bind_ok _ _ _ _ _ (alloc_string_ok _ _)). unfold mret, M_ret, entry_of. do 3 f_equal.
  - rewrite <- app_assoc, bytes_at_app by (rewrite ?length_long2buff; done).
    by rewrite buff2long_long2buff.
  - rewrite !length_app, length_long2buff. pose proof (length_pack_name (user_name u)).
    unfold sizeof_FCFSAuthProtoUserListRespBodyPart. lia.
Qed.

(** The server part *)
Section serving.
Hypothesis Hmaster : MYSELF_IS_MASTER cluster = true.
Hypothesis Hmalloc : ∀ n (w : D), (fc_malloc n w).1 = true.
Variable s0 : S.
Variable me : FCFSAuthUserInfo.
Hypothesis Hme : session_user s0 = Some me.
Hypothesis Hpriv : flag_set (user_priv me) FCFS_AUTH_USER_PRIV_USER_MANAGE = true.
Hypothesis Hnormal : ∀ e, e ∈ sl_elements (user_sl (adb s0)) → user_normal (users (adb s0) e.2) = true.

(** What listing depends on. *)
Definition same_users s : Prop :=
  users (adb s) = users (adb s0) ∧ user_sl (adb s) = user_sl (adb s0) ∧
  table s = table s0 ∧ SESSION_ENTRY s = SESSION_ENTRY s0.

Lemma same_users_session s : same_users s → session_user s = Some me.
Proof.
  intros (Hu & _ & Ht & He). unfold session_user, session_dbuser in *. by rewrite Hu, Ht, He.
Qed.

Definition user_page (o c : Z) : list FCFSAuthUserInfo := page (db_users (adb s0)) o c.

Lemma adb_user_list_runs o c s :
  same_users s → 0 < c ≤ 2 ^ 30 →
  ∃ n d', adb_user_list o c 256 (adb s) =
            (Ok (n, take (Z.to_nat c) (drop (Z.to_nat o) (db_users (adb s0)))), d') ∧
          same_users (set_adb d' s).
Proof.
  intros (Hu & Hsl & Ht & He) Hc. unfold adb_user_list, fcfs_auth_user_check_realloc_array.
  destruct (check_realloc_pow2 56 8 c (backend (adb s))) as (j & w' & _ & Hr & _); [lia..|done|].
  change (2 ^ 8) with 256 in Hr. exists (2 ^ j), (set_backend w' (adb s)).
  unfold on_backend, mbind, M_bind. rewrite Hr. unfold get, mret, M_ret. simpl. rewrite Hu, Hsl.
  split; [|by split_and!]. do 3 f_equal. rewrite list_loop_spec. unfold db_users.
  rewrite <- fmap_drop, fmap_take. do 2 f_equal. apply filter_all.
  intros e Hin. apply Hnormal. rewrite <- (take_drop (Z.to_nat o) (sl_elements _)). set_solver.
Qed.

Lemma deal_user_list_dispatch req s :
  same_users s → cmd req = FCFS_AUTH_SERVICE_PROTO_USER_LIST_REQ →
  deal_task req s = service_deal_user_list send_space req s.
Proof.
  intros Hs Hc. unfold service_deal_task, check_user_priv. rewrite Hc, required_priv_cmd by compute_done.
  pose proof (same_users_session s Hs) as Hu.
  assert (SESSION_ENTRY s ≠ None) as Hne
    by (intros Hn; unfold session_user, session_dbuser in Hu; by rewrite Hn in Hu).
  destruct (SESSION_ENTRY s) as [e|] eqn:Ee; [|done].
  unfold mbind, M_bind, lift, get at 1. simpl. rewrite Ee, SESSION_USER_eq, Hu.
  unfold ensure. rewrite Hpriv. simpl. unfold service_process. cbv zeta. rewrite Hmaster, Hc.
  unfold switch at 1. rewrite (proj2 (Z.eqb_neq _ SF_PROTO_ACTIVE_TEST_REQ)); [done|].
  intros Heq. apply SF_PROTO_ACTIVE_TEST_REQ_new. rewrite <- Heq. by compute_done.
Qed.

Definition page_limit (c : Z) : Z := if c <=? 0 then 1024 else c.

Lemma deal_user_list o c rest s :
  same_users s → 0 ≤ o < 2 ^ 30 → 0 ≤ c ≤ 2 ^ 30 →
  ∃ s', deal_task {| cmd := FCFS_AUTH_SERVICE_PROTO_USER_LIST_REQ;
                     body := sf_proto_pack_limit {| offset := o; count := c |} ++ pack_name [];
                     behind := rest |} s =
    (Ok (list_response send_space FCFS_AUTH_SERVICE_PROTO_USER_LIST_RESP pack_user (user_page o c)
           (Z.of_nat (length (user_page o c))) (page_limit c)), s') ∧ same_users s'.
Proof.
  intros Hs Ho Hc. rewrite deal_user_list_dispatch by done.
  unfold service_deal_user_list, body_len. cbv zeta. cbn [body].
  set (lim := {| offset := o; count := c |}).
  destruct (tail_name (sf_proto_pack_limit lim) [] 8) as (Hch & Hnm & Hl);
    [by rewrite length_sf_proto_pack_limit|done|].
  rewrite check_length by (rewrite ?Hch, ?Hl; unfold sizeof_FCFSAuthProtoUserListReq, NAME_MAX; simpl; lia).
  rewrite Hnm. change (0 <? Z.of_nat (length [])) with false. cbv iota.
  assert (service_parse_limit (bytes_at (sf_proto_pack_limit lim ++ pack_name []) 0 8) =
          {| offset := o; count := page_limit c |}) as ->.
  { unfold service_parse_limit. rewrite bytes_at_front by (by rewrite length_sf_proto_pack_limit).
    by rewrite sf_proto_extract_pack by (simpl; wrap_lia). }
  destruct (adb_user_list_runs o (page_limit c) s) as (n & d' & Hr & Hs');
    [done|unfold page_limit; destruct (Z.leb_spec c 0); lia|].
  exists (set_adb d' s). split; [|done].
  unfold on_db, mbind, M_bind. cbn [offset count]. unfold FCFS_AUTH_FIXED_USER_COUNT. by rewrite Hr.
Qed.

(** The client part *)
Section fetching.
Context `{!Transport S, !Malloc S, !StringPool S}.
Variable leftover : S → list byte.
Context `{!Connected S deal_task leftover}.
Hypothesis Hcmalloc : ∀ n s, fc_malloc n s = (true, s).
Hypothesis Hpacks : Forall user_packs (db_users (adb s0)).
Hypothesis Hspace : sizeof_FCFSAuthProtoListRespHeader + 64 * (9 + NAME_MAX) ≤ send_space.
Hypothesis Hsmall : Z.of_nat (length (db_users (adb s0))) < 2 ^ 30.

Lemma length_page {A} (l : list A) o c :
  Z.of_nat (length (page l o c)) ≤ page_limit c ∧
  Z.of_nat (length (page l o c)) ≤ Z.max 0 (Z.of_nat (length l) - o).
Proof.
  unfold page, page_limit. rewrite length_take, length_drop. destruct (Z.leb_spec c 0); lia.
Qed.

(** What a response holds. *)
Lemma take_users a l k last s :
  holds a l → (k ≤ 2 ^ 30)%Z → Z.of_nat (length l) + k < 2 ^ 30 → ∀ us, Forall user_packs us →
  Z.of_nat (length us) = k →
  ∃ a', take_entries fcfs_auth_user_check_realloc_array parse_user a
          (list_resp_header k last ++ mjoin (pack_user <$> us)) s = (Ok (a', last), s) ∧
        holds a' (l ++ (entry_of <$> us)).
Proof.
  intros (Hit & Hn & j & Hj & Hal) Hk Hlk us Hus Hlen. unfold take_entries. cbv zeta.
  set (h := list_resp_header k last).
  assert (length h = 8%nat) as Hh by (unfold h, list_resp_header; by rewrite !length_app, length_int2buff).
  assert (buff2int (bytes_at (h ++ mjoin (pack_user <$> us)) 0 4) = k) as ->.
  { unfold h, list_resp_header. rewrite <- app_assoc, bytes_at_front by (by rewrite length_int2buff).
    apply buff2int_int2buff. wrap_lia. }
  assert (negb (char_at (h ++ mjoin (pack_user <$> us)) 4 =? 0) = last) as ->.
  { unfold h, list_resp_header. rewrite <- app_assoc.
    replace 4 with (Z.of_nat (length (int2buff k))) by (by rewrite length_int2buff).
    cbn [app]. rewrite char_at_app, byte_val_of by (destruct last; simpl; lia). by destruct last. }
  rewrite Hn, Hal. replace (int32 (Z.of_nat (length l) + k)) with (Z.of_nat (length l) + k) by wrap_lia.
  destruct (check_realloc_pow2 56 j (Z.of_nat (length l) + k) s) as (i & s' & Hi & Hr & Hs');
    [lia..|by intros; rewrite Hcmalloc|].
  assert (s' = s) as -> by (destruct Hs' as [|[? ->]]; [done|by rewrite Hcmalloc]).
  unfold fcfs_auth_user_check_realloc_array. rewrite (bind_ok _ _ _ _ _ Hr).
  pose proof (parse_pack_entries parse_user pack_user entry_of s h us []) as Hp.
  rewrite app_nil_r in Hp. replace (Z.to_nat k) with (length us) by lia.
  change sizeof_FCFSAuthProtoListRespHeader with 8. replace 8 with (Z.of_nat (length h)) by (by rewrite Hh).
  rewrite (bind_ok _ _ _ _ _ (Hp ltac:(intros; rewrite Forall_forall in Hus; apply parse_pack_user; by auto))).
  rewrite Z.eqb_refl. simpl. eexists. split; [done|]. split_and!; simpl.
  - by rewrite Nat2Z.id, firstn_all2, Hit by (rewrite Hit; lia).
  - rewrite length_app, length_fmap. lia.
  - eauto.
Qed.

Lemma user_list_serves :
  serves same_users (entry_of <$> db_users (adb s0)) (client_proto_user_list_do []).
Proof.
  intros o c a l s Ho Hc Hs Ha Hlo.
  destruct (deal_user_list o c (leftover s) s Hs Ho Hc) as (s' & Hd & Hs').
  assert (page (entry_of <$> db_users (adb s0)) o c = entry_of <$> user_page o c) as Hpage.
  { unfold user_page, page. by rewrite <- fmap_drop, fmap_take. }
  rewrite Hpage. destruct (length_page (db_users (adb s0)) o c) as [Hl1 Hl2].
  fold (user_page o c) in Hl1, Hl2.
  assert (Forall user_packs (user_page o c)) as Hup by (by apply Forall_take, Forall_drop).
  destruct (pack_entries_spec pack_user (9 + NAME_MAX)
    (send_space - sizeof_FCFSAuthProtoListRespHeader) (user_page o c))
    as (k & Hk & Hpk & Hfull & Hpos); [|by unfold NAME_MAX; lia|].
  { eapply Forall_impl; [exact Hup|]. intros u [Hu _]. rewrite length_pack_user. lia. }
  pose proof (recv_at_least deal_task leftover FCFS_AUTH_SERVICE_PROTO_USER_LIST_REQ
    (sf_proto_pack_limit {| offset := o; count := c |} ++ pack_name [])
    FCFS_AUTH_SERVICE_PROTO_USER_LIST_RESP sizeof_FCFSAuthProtoListRespHeader s) as Hrecv.
  rewrite Hd in Hrecv. unfold list_response in Hrecv. rewrite Hpk in Hrecv. cbn [resp_cmd resp_body] in Hrecv.
  set (last := (_ <? page_limit c) && _) in Hrecv.
  set (b := list_resp_header (Z.of_nat k) last ++ _) in Hrecv.
  assert ((sizeof_FCFSAuthProtoListRespHeader <=? Z.of_nat (length b)) = true) as Hb.
  { apply Z.leb_le. unfold b, list_resp_header. rewrite !length_app, length_int2buff. simpl.
    unfold sizeof_FCFSAuthProtoListRespHeader. lia. }
  rewrite Z.eqb_refl, Hb in Hrecv. simpl in Hrecv.
  destruct (take_users a l (Z.of_nat k) last s' Ha) with (us := take k (user_page o c))
    as (a' & Ht & Ha'); [lia|lia|by apply Forall_take|rewrite length_take; lia|].
  rewrite fmap_take in Ha'. exists k, a', last, s'. rewrite length_fmap. split_and!; try done.
  - unfold client_proto_user_list_do. rewrite (bind_ok _ _ _ (pack_name []) s) by done.
    by rewrite (bind_ok _ _ _ _ _ Hrecv).
  - intros Hne. apply Hpos; [unfold NAME_MAX, sizeof_FCFSAuthProtoListRespHeader in *; lia|].
    intros Hnil. apply Hne. by rewrite Hnil.
  - unfold last, page_limit. rewrite negb_involutive. destruct (Nat.eqb_spec k (length (user_page o c)));
      destruct (Z.ltb_spec (Z.of_nat (length (user_page o c))) (if c <=? 0 then 1024 else c));
      simpl; case_bool_decide; naive_solver lia.
  - intros Hc64. apply Hfull. unfold page_limit in Hl1. rewrite (proj2 (Z.leb_gt _ _)) in Hl1 by lia.
    unfold NAME_MAX in *. lia.
Qed.

End fetching.
End serving.
End users.
End ClientLists.

(** ** Examples *)
Module ClientExamples.
Import Ref AuthDBExamples ServiceExamples ClientLists.

(** A transport that calls the server, with room for [space] bytes in its
    responses. *)
Section transport.
Variable space : Z.
Abbreviation serve := (service_deal_task demo_template space demo_address 46 demo_cluster).

Definition exchange {A} (c : Z) (b : list byte) (rc : Z) (fits : Z → bool) (f : list byte → A)
    : M St A := λ s,
  match serve {| cmd := c; body := b; behind := [] |} s with
  | (Ok resp, s') =>
      (if (resp_cmd resp =? rc) && fits (Z.of_nat (length (resp_body resp)))
       then Ok (f (resp_body resp)) else Err EINVAL, s')
  | (Err e, s') => (Err e, s')
  end.

Lemma exchange_ok {A} c b rc fits (f : list byte → A) :
  exchanges serve (λ _, []) c b rc fits f (exchange c b rc fits f).
Proof.
  intros s. unfold exchange. destruct (serve _ s) as [[resp|e] s'].
  - destruct (_ && _); [done|by eexists].
  - by eexists.
Qed.

(** Only the exchanges in one piece are of interest here. *)
#[local] Instance demo_transport : Transport St := {|
  sf_send_and_recv_response c b rc n := exchange c b rc (Z.eqb n) id;
  sf_send_and_recv_none_body_response c b rc := exchange c b rc (Z.eqb 0) (λ _, tt);
  sf_send_and_recv_response_ex1 c b rc n := exchange c b rc (λ k, k <=? n) id;
  sf_send_and_recv_vary_response c b rc n := exchange c b rc (Z.leb n) id;
  fast_mpool_alloc_string_ex v := mret v;
  sf_send_and_check_response_header _ _ _ := throw EIO;
  tcprecvdata_nb _ := throw EIO;
  get_connection := throw EIO;
  get_master_connection := throw EIO;
  SF_CLIENT_RELEASE_CONNECTION _ := mret tt;
|}.
#[local] Instance demo_connected : Connected St serve (λ _, []).
Proof. split; intros; apply exchange_ok. Qed.
#[local] Instance demo_strings : StringPool St.
Proof. by split. Qed.
End transport.

#[local] Instance wide : Transport St := demo_transport 65536.
#[local] Instance wide_connected : Connected St demo_task (λ _, []) := demo_connected 65536.
#[local] Instance wide_strings : StringPool St := demo_strings 65536.
#[local] Instance client_malloc : Malloc St := {| fc_malloc _ s := (true, s) |}.

(** The administrator, logged in. *)
Definition logged : St := (demo_task demo_login demo_state).2.
Lemma logged_user : session_user logged = Some (user (users (adb logged) 1%nat)).
Proof. vm_compute. exact eq_refl. Qed.


Lemma dir_malloc_ok n (w : dir) : (fc_malloc n w).1 = true.
Proof. done. Qed.

Lemma logged_users : db_users (adb logged) = [set_user_id 100 admin].
Proof. vm_compute. exact eq_refl. Qed.
Lemma logged_normal e : e ∈ sl_elements (user_sl (adb logged)) → user_normal (users (adb logged) e.2) = true.
Proof.
  assert (forallb (λ e, user_normal (users (adb logged) e.2)) (sl_elements (user_sl (adb logged))) = true)
    as Hall by (vm_compute; exact eq_refl).
  intros He. rewrite forallb_forall in Hall. by apply Hall, list_elem_of_In.
Qed.


(** The client's offset counts the users received, the server's also those that
    were removed: after a removed user, the second page repeats entries of the
    first. *)
Theorem user_list_repeats :
  let carl := [x63] in
  let ops := [UserCreate (demo_user bob); UserCreate (demo_user carl); UserCreate (demo_user [x41]);
              UserRemove [x41]] in
  let s := set_adb (run_ops ops (adb logged)) logged in
  let list := @fcfs_auth_client_proto_user_list _ _ _ (demo_transport 20) _ in
  all_ok ops (adb logged) = true ∧
  ∃ a, (list 9%nat [] {| offset := 0; count := 0 |} init_array s).1 = Ok a ∧
    lu_name <$> items a = [ann; ann; bob; carl].
Proof.
  cbv zeta. split; [vm_compute; exact eq_refl|]. eexists. split; vm_compute; exact eq_refl.
Qed.
End ClientExamples.
