(* ===== verification/ClientCluster.v ===== *)
(** * The state of the cluster as clients see it

    What [fcfs_auth_client_get_master] and [fcfs_auth_client_cluster_stat]
    report is what the server's handlers know: messages and padding in between
    lose nothing. *)
From Stdlib Require Import Init.Byte.
From S2P Require Import Prelude Fastcommon Session SessionStore AuthProto AuthDB AuthDBProofs AuthDBSpec ServiceHandler ServiceProofs ServiceSpec ClientProto.
Import SessionStore AuthProto AuthDB ServiceHandler ServiceProofs ClientProto.
Local Open Scope Z_scope.

Module ClientCluster.

Lemma signed_char_byte z : in_sint 8 z → signed_char (byte_val (byte_of z)) = z.
Proof.
  intros Hz. unfold signed_char. assert (byte_val (byte_of z) = z mod 256) as ->.
  { replace (byte_of z) with (byte_of (z mod 256)) by (unfold byte_of; by rewrite Zmod_mod).
    apply byte_val_of. apply Z.mod_pos_bound. lia. }
  unfold sint_wrap, in_sint in *. change (2 ^ 8) with 256. change (2 ^ (8 - 1)) with 128 in *.
  Z.to_euclidean_division_equations; lia.
Qed.

(** Text without a zero byte. *)
Definition c_text (s : string_t) : Prop := x00 ∉ s.

Lemma c_string_text s k : c_text s → c_string (s ++ replicate k x00) = s.
Proof.
  induction s as [|c s IH]; simpl; intros Hs; [by destruct k|].
  apply not_elem_of_cons in Hs as [Hc Hs]. rewrite bool_decide_false by congruence. by rewrite IH.
Qed.

Section cluster.
Context `{!BuffCodec, !BuffCodecLaws}.
Variable IP_ADDRESS_SIZE : Z.

(** An address fits its field, with the terminator. *)
Definition ip_fits (ip : string_t) : Prop := c_text ip ∧ Z.of_nat (length ip) < IP_ADDRESS_SIZE.

Lemma length_ip_field ip : 0 < IP_ADDRESS_SIZE → Z.of_nat (length (ip_field IP_ADDRESS_SIZE ip)) = IP_ADDRESS_SIZE.
Proof. intros Hs. unfold ip_field. rewrite length_app, length_replicate, length_take. lia. Qed.

Lemma ip_string_field ip : ip_fits ip → ip_string IP_ADDRESS_SIZE (ip_field IP_ADDRESS_SIZE ip) = ip.
Proof.
  intros [Ht Hl]. unfold ip_string, ip_field.
  rewrite (take_ge ip) by lia. rewrite take_app_ge, take_replicate by lia. by apply c_string_text.
Qed.

Lemma ip_fits_size ip : ip_fits ip → 0 < IP_ADDRESS_SIZE.
Proof. intros [_ Hl]. lia. Qed.

(** ** Entries *)

Definition server_fits (cs : FCFSAuthClusterServerInfo) : Prop :=
  in_sint 32 (server_id cs) ∧ in_uint 16 (service_port cs) ∧ ip_fits (service_ip cs).

Definition stat_of (online master : bool) (cs : FCFSAuthClusterServerInfo) : FCFSAuthClientClusterStatEntry :=
  {| stat_online := online; stat_master := master; stat_id := server_id cs;
     stat_ip := service_ip cs; stat_port := service_port cs |}.

Abbreviation part_size := (sizeof_FCFSAuthProtoClusterStatRespBodyPart IP_ADDRESS_SIZE).
Abbreviation pack := (pack_server IP_ADDRESS_SIZE).

Lemma length_pack_server o m cs :
  0 < IP_ADDRESS_SIZE → Z.of_nat (length (pack o m cs)) = part_size.
Proof.
  intros Hs. unfold pack_server. pose proof (length_ip_field (service_ip cs) Hs).
  rewrite !length_app, length_int2buff, length_short2buff. simpl.
  unfold sizeof_FCFSAuthProtoClusterStatRespBodyPart. lia.
Qed.

Lemma flag_at pre x post : negb (char_at (pre ++ byte_of (Z.b2z x) :: post) (Z.of_nat (length pre)) =? 0) = x.
Proof. rewrite char_at_app, byte_val_of by (destruct x; simpl; lia). by destruct x. Qed.

Lemma parse_pack_server pre o m cs post :
  server_fits cs →
  parse_server IP_ADDRESS_SIZE (pre ++ pack o m cs ++ post) (Z.of_nat (length pre)) = stat_of o m cs.
Proof.
  intros (Hid & Hport & Hip). pose proof (ip_fits_size _ Hip) as Hs.
  pose proof (length_ip_field (service_ip cs) Hs) as Hlen.
  unfold parse_server, pack_server, stat_of. rewrite <- !app_assoc. simpl app.
  set (id := int2buff (server_id cs)). set (pt := short2buff (service_port cs)).
  set (ip := ip_field _ _) in *. set (p := Z.of_nat (length pre)).
  assert (length id = 4%nat) as Hlid by apply length_int2buff.
  assert (length pt = 2%nat) as Hlpt by apply length_short2buff.
  f_equal.
  - replace (p + 4) with (Z.of_nat (length (pre ++ id))) by (rewrite length_app; lia).
    rewrite app_assoc. apply flag_at.
  - replace (p + 5) with (Z.of_nat (length ((pre ++ id) ++ [byte_of (Z.b2z o)])))
      by (rewrite !length_app; simpl; lia).
    rewrite app_assoc, (cons_middle (byte_of (Z.b2z o))), app_assoc. apply flag_at.
  - rewrite bytes_at_app by (rewrite ?Hlid; done). by apply buff2int_int2buff.
  - rewrite (app_assoc pre id). change (?a :: ?b :: x00 :: ?l) with ([a; b; x00] ++ l).
    rewrite (app_assoc (pre ++ id)), (app_assoc _ pt).
    rewrite bytes_at_app by (rewrite ?length_app; simpl; lia). by apply ip_string_field.
  - rewrite (app_assoc pre id). change (?a :: ?b :: x00 :: ?l) with ([a; b; x00] ++ l).
    rewrite (app_assoc (pre ++ id)). rewrite bytes_at_app by (rewrite ?length_app; simpl; lia).
    by apply buff2short_short2buff.
Qed.

(** ** The view of the cluster *)
Variable cluster : cluster_vars.

Definition entry_at (i : nat) (cs : FCFSAuthClusterServerInfo) : FCFSAuthClientClusterStatEntry :=
  let master := bool_decide (CLUSTER_MASTER_PTR cluster = Some i) in
  stat_of (master || is_online cs) master cs.

(** An entry passes the filter. *)
Definition wanted (f : FCFSAuthClusterStatFilter) (e : FCFSAuthClientClusterStatEntry) : Prop :=
  0 < filter_by f →
  (flag_set (filter_by f) FCFS_AUTH_CLUSTER_STAT_FILTER_BY_IS_ONLINE = true →
   Z.b2z (stat_online e) = filter_online f) ∧
  (flag_set (filter_by f) FCFS_AUTH_CLUSTER_STAT_FILTER_BY_IS_MASTER = true →
   Z.b2z (stat_master e) = filter_master f).
#[global] Instance wanted_dec f e : Decision (wanted f e).
Proof. unfold wanted. apply _. Defined.

Definition cluster_view (f : FCFSAuthClusterStatFilter) : list FCFSAuthClientClusterStatEntry :=
  filter (wanted f) (imap entry_at (servers cluster)).

Lemma cluster_stat_parts_cons f i cs l :
  let parts := cluster_stat_parts IP_ADDRESS_SIZE cluster (filter_by f) (filter_online f) (filter_master f) in
  parts i (cs :: l) =
  if decide (wanted f (entry_at i cs))
  then pack (stat_online (entry_at i cs)) (stat_master (entry_at i cs)) cs :: parts (S i) l
  else parts (S i) l.
Proof.
  cbv zeta. cbn [cluster_stat_parts]. unfold entry_at. cbn [stat_online stat_master stat_of].
  match goal with |- (if ?b then _ else _) = _ => destruct b eqn:E end.
  - rewrite decide_False; [done|]. intros Hw. apply andb_true_iff in E as [Hf%Z.ltb_lt E].
    destruct (Hw Hf) as [H1 H2]. simpl in *.
    apply orb_true_iff in E as [[Ef E]%andb_true_iff|[Ef E]%andb_true_iff];
      apply negb_true_iff, Z.eqb_neq in E; by auto.
  - rewrite decide_True; [done|]. intros Hf. rewrite (proj2 (Z.ltb_lt _ _) Hf) in E. simpl in *.
    apply orb_false_iff in E as [E1 E2].
    split; intros Hfl; rewrite Hfl in *; simpl in *; bool_to_prop; done.
Qed.

Lemma parse_parts f i l pre :
  Forall server_fits l →
  let parts := cluster_stat_parts IP_ADDRESS_SIZE cluster (filter_by f) (filter_online f)
                 (filter_master f) i l in
  parse_servers IP_ADDRESS_SIZE (length parts) (pre ++ mjoin parts) (Z.of_nat (length pre)) =
    filter (wanted f) (imap (λ j, entry_at (i + j)) l) ∧
  Z.of_nat (length (mjoin parts)) = Z.of_nat (length parts) * part_size.
Proof.
  cbv zeta. intros Hl. revert i pre. induction Hl as [|cs l Hcs Hl IH]; intros i pre; [done|].
  rewrite cluster_stat_parts_cons, imap_cons, filter_cons, Nat.add_0_r.
  assert (imap ((λ j, entry_at (i + j)) ∘ S) l = imap (λ j, entry_at (S i + j)) l) as ->
    by (apply imap_ext; intros; simpl; f_equal; lia).
  case_decide as Hw; [|apply IH]. pose proof Hcs as (_ & _ & Hip%ip_fits_size).
  cbn [length parse_servers]. change (mjoin (?x :: ?ps)) with (x ++ mjoin ps). split.
  - rewrite parse_pack_server by done. f_equal.
    pose proof (length_pack_server (stat_online (entry_at i cs)) (stat_master (entry_at i cs)) cs Hip) as Hlen.
    rewrite <- Hlen, <- Nat2Z.inj_add, <- length_app, app_assoc. apply IH.
  - rewrite length_app, Nat2Z.inj_add, length_pack_server by done.
    destruct (IH (S i) pre) as [_ ->]. lia.
Qed.

Lemma length_parse_servers n b p : length (parse_servers IP_ADDRESS_SIZE n b p) = n.
Proof. revert p. induction n as [|n IH]; intros p; simpl; [done|]. by rewrite IH. Qed.
End cluster.

(** ** Over a connection

    The state is the server's, and the bytes in flight. *)
Section calls.
Context `{!BuffCodec, !BuffCodecLaws, !ServerFrame, !ServerFrameLaws, !NameTools}.
Context {D : Type} `{!AuthDao D, !NameAllocator D, !Malloc D}.
Context {MB : Type} `{!Mblock MB}.
Context {SLs SLi : Type → Type} `{!UniqSkiplist string_t SLs, !UniqSkiplist Z SLi}.
Context {T : Type} `{!SessionStore ServerSessionFields T}.
Variable POOL_NAME_TEMPLATE : string_t.
Variable send_space : Z.
Variable address_by_peer : FCFSAuthClusterServerInfo → string_t * Z.
Variable IP_ADDRESS_SIZE : Z.
Variable cluster : cluster_vars.

Abbreviation W := (service_state D MB SLs SLi T * list byte)%type.
Definition serve (req : request) : M W response := λ w,
  let '(r, s) := service_deal_task POOL_NAME_TEMPLATE send_space address_by_peer IP_ADDRESS_SIZE
                   cluster req w.1 in (r, (s, w.2)).

Context `{!Transport W, !Malloc W}.
Variable leftover : W → list byte.
(** Connections are to be had and are given back. *)
Variable comm_type : Z.
Hypothesis Hconn : ∀ w : W, get_connection w = (Ok comm_type, w).
Hypothesis Hmconn : ∀ w : W, get_master_connection w = (Ok comm_type, w).
Hypothesis Hrelease : ∀ r (w : W), SF_CLIENT_RELEASE_CONNECTION r w = (Ok tt, w).

Lemma serve_open c b rest w (k : M (service_state D MB SLs SLi T) response) resp :
  c ∈ [FCFS_AUTH_SERVICE_PROTO_GET_MASTER_REQ; FCFS_AUTH_SERVICE_PROTO_CLUSTER_STAT_REQ] →
  service_process POOL_NAME_TEMPLATE send_space address_by_peer IP_ADDRESS_SIZE cluster
    {| cmd := c; body := b; behind := rest |} = k → k w.1 = (resp, w.1) →
  serve {| cmd := c; body := b; behind := rest |} w = (resp, w).
Proof.
  clear Hconn Hmconn Hrelease. intros Hc Hk Hr. unfold serve, service_deal_task, check_user_priv. cbn [cmd].
  rewrite required_priv_cmd.
  - rewrite decide_True by set_solver. rewrite Hk.
    rewrite (bind_ok _ _ _ tt w.1) by done. rewrite Hr. by destruct w.
  - unfold auth_service_requests. set_solver.
Qed.

Lemma process_open c b rest :
  MYSELF_IS_MASTER cluster = true ∨ c = FCFS_AUTH_SERVICE_PROTO_GET_MASTER_REQ →
  let req := {| cmd := c; body := b; behind := rest |} in
  c ∈ [FCFS_AUTH_SERVICE_PROTO_GET_MASTER_REQ; FCFS_AUTH_SERVICE_PROTO_CLUSTER_STAT_REQ] →
  service_process (T:=T) (D:=D) (MB:=MB) (SLs:=SLs) (SLi:=SLi) POOL_NAME_TEMPLATE send_space
    address_by_peer IP_ADDRESS_SIZE cluster req =
  if c =? FCFS_AUTH_SERVICE_PROTO_GET_MASTER_REQ
  then fcfs_auth_deal_get_master address_by_peer IP_ADDRESS_SIZE cluster
         FCFS_AUTH_SERVICE_PROTO_GET_MASTER_RESP req
  else service_deal_cluster_stat IP_ADDRESS_SIZE cluster req.
Proof.
  clear Hconn Hmconn Hrelease. intros Hm req Hc. unfold service_process. cbv zeta. cbn [cmd req].
  assert (c ≠ SF_PROTO_ACTIVE_TEST_REQ) as Hna.
  { intros ->. apply SF_PROTO_ACTIVE_TEST_REQ_new. unfold auth_service_requests. set_solver. }
  unfold switch at 1. rewrite (proj2 (Z.eqb_neq _ _) Hna).
  apply elem_of_cons in Hc as [->|Hc%list_elem_of_singleton].
  - by rewrite andb_false_r.
  - subst c. destruct Hm as [-> | ?]; [done|done].
Qed.

(** The server that [get_master] names. *)
Definition known_master : option FCFSAuthClusterServerInfo :=
  m ← (match CLUSTER_MASTER_PTR cluster with Some m => Some m | None => CLUSTER_NEXT_MASTER cluster end);
  servers cluster !! m.

(** [fcfs_auth_client_get_master] reports the server that is the master, or
    that is to become it, with its id and the address at which the client's
    network reaches it; when there is none the call fails with the code of the
    server.  Any server answers, master or not, and nothing changes. *)
Theorem get_master_roundtrip `{!Connected W serve leftover} w :
  (∀ cs, known_master = Some cs →
     in_sint 32 (server_id cs) ∧ in_uint 16 (address_by_peer cs).2 ∧
     ip_fits IP_ADDRESS_SIZE (address_by_peer cs).1) →
  fcfs_auth_client_get_master IP_ADDRESS_SIZE w =
  (match known_master with
   | Some cs => Ok {| master_id := server_id cs; master_ip := (address_by_peer cs).1;
                      master_port := (address_by_peer cs).2; master_comm_type := comm_type |}
   | None => Err SF_RETRIABLE_ERROR_NO_SERVER
   end, w).
Proof.
  clear Hmconn. intros Hfits. unfold fcfs_auth_client_get_master. rewrite (bind_ok _ _ _ _ _ (Hconn w)).
  pose proof (recv_response serve leftover FCFS_AUTH_SERVICE_PROTO_GET_MASTER_REQ []
    FCFS_AUTH_SERVICE_PROTO_GET_MASTER_RESP (sizeof_FCFSAuthProtoGetServerResp IP_ADDRESS_SIZE) w) as Hr.
  erewrite serve_open in Hr; [|set_solver|apply process_open; [by right|set_solver]|].
  2: { rewrite Z.eqb_refl. unfold fcfs_auth_deal_get_master.
       rewrite server_expect_body_length_eq. rewrite (bind_ok _ _ _ tt w.1) by done.
       fold known_master. instantiate (1 := match known_master with
         | Some cs => Ok {| resp_cmd := FCFS_AUTH_SERVICE_PROTO_GET_MASTER_RESP;
             resp_body := int2buff (server_id cs) ++ short2buff (address_by_peer cs).2 ++ [x00; x00] ++
                          ip_field IP_ADDRESS_SIZE (address_by_peer cs).1 |}
         | None => Err SF_RETRIABLE_ERROR_NO_SERVER end).
       destruct known_master as [cs|]; [|done]. by destruct (address_by_peer cs). }
  destruct known_master as [cs|] eqn:Ek.
  - destruct (Hfits cs eq_refl) as (Hid & Hport & Hip).
    pose proof (length_ip_field IP_ADDRESS_SIZE (address_by_peer cs).1 (ip_fits_size _ _ Hip)) as Hlen.
    assert (∀ b, Z.of_nat (length b) = sizeof_FCFSAuthProtoGetServerResp IP_ADDRESS_SIZE →
      (sizeof_FCFSAuthProtoGetServerResp IP_ADDRESS_SIZE =? Z.of_nat (length (b : list byte))) = true) as Hsz
      by (intros b ->; apply Z.eqb_refl).
    cbn [resp_cmd resp_body] in Hr. rewrite Z.eqb_refl, Hsz in Hr.
    2: { rewrite !length_app, length_int2buff, length_short2buff. simpl.
         unfold sizeof_FCFSAuthProtoGetServerResp. lia. }
    cbn [andb] in Hr. rewrite (bind_ok _ _ _ _ _ (attempt_eq _ _ _ _ Hr)).
    rewrite (bind_ok _ _ _ _ _ (attempt_eq _ _ _ _ (Hrelease _ w))).
    unfold lift, mbind, M_bind, mret, M_ret, id. do 3 f_equal.
    + rewrite bytes_at_front by (by rewrite length_int2buff). by apply buff2int_int2buff.
    + rewrite !app_assoc. rewrite bytes_at_back.
      * by apply ip_string_field.
      * by rewrite !length_app, length_int2buff, length_short2buff.
      * done.
    + rewrite bytes_at_app by (by rewrite ?length_int2buff, ?length_short2buff).
      by apply buff2short_short2buff.
  - destruct Hr as (e' & Hr & He). rewrite He in Hr by done.
    rewrite (bind_ok _ _ _ _ _ (attempt_eq _ _ _ _ Hr)).
    by rewrite (bind_ok _ _ _ _ _ (attempt_eq _ _ _ _ (Hrelease _ w))).
Qed.

(** The server's answer to a request for the state of the cluster. *)
Definition stat_body (f : FCFSAuthClusterStatFilter) : list byte :=
  let parts := cluster_stat_parts IP_ADDRESS_SIZE cluster (filter_by f) (filter_online f)
                 (filter_master f) 0 (servers cluster) in
  int2buff (Z.of_nat (length parts)) ++ [x00; x00; x00; x00] ++ mjoin parts.

Definition filter_fits (f : FCFSAuthClusterStatFilter) : Prop :=
  in_sint 8 (filter_by f) ∧ in_sint 8 (filter_online f) ∧ in_sint 8 (filter_master f).

Lemma serve_cluster_stat f padding rest w :
  MYSELF_IS_MASTER cluster = true → filter_fits f → length padding = 5%nat →
  serve {| cmd := FCFS_AUTH_SERVICE_PROTO_CLUSTER_STAT_REQ;
           body := [byte_of (filter_by f); byte_of (filter_online f); byte_of (filter_master f)] ++ padding;
           behind := rest |} w =
  (Ok {| resp_cmd := FCFS_AUTH_SERVICE_PROTO_CLUSTER_STAT_RESP; resp_body := stat_body f |}, w).
Proof.
  clear Hconn Hmconn Hrelease. intros Hm (Hf1 & Hf2 & Hf3) Hp. eapply serve_open; [set_solver|apply process_open; [by left|set_solver]|].
  cbn [Z.eqb]. change (FCFS_AUTH_SERVICE_PROTO_CLUSTER_STAT_REQ =? FCFS_AUTH_SERVICE_PROTO_GET_MASTER_REQ)
    with false. cbv iota. unfold service_deal_cluster_stat, body_len. cbn [body].
  rewrite server_expect_body_length_eq, length_app, Hp. rewrite (bind_ok _ _ _ tt w.1) by done.
  cbv zeta. unfold char_at. simpl lookup. cbv beta iota. by rewrite !signed_char_byte.
Qed.

(** What the client reads out of it. *)
Lemma stat_body_reads f :
  Forall (server_fits IP_ADDRESS_SIZE) (servers cluster) →
  let n := length (cluster_view cluster f) in
  Z.of_nat n < 2 ^ 31 →
  buff2int (bytes_at (stat_body f) 0 4) = Z.of_nat n ∧
  Z.of_nat (length (stat_body f)) = sizeof_FCFSAuthProtoClusterStatRespBodyHeader +
    Z.of_nat n * sizeof_FCFSAuthProtoClusterStatRespBodyPart IP_ADDRESS_SIZE ∧
  parse_servers IP_ADDRESS_SIZE n (stat_body f) sizeof_FCFSAuthProtoClusterStatRespBodyHeader =
    cluster_view cluster f.
Proof.
  intros Hs n Hn. unfold stat_body. cbv zeta.
  set (parts := cluster_stat_parts _ _ _ _ _ _ _).
  destruct (parse_parts IP_ADDRESS_SIZE cluster f 0 (servers cluster)
    (int2buff (Z.of_nat (length parts)) ++ [x00; x00; x00; x00]) Hs) as [Hparse Hlen].
  fold parts in Hparse, Hlen. change (filter _ (imap _ (servers cluster))) with (cluster_view cluster f) in Hparse.
  assert (length parts = n) as Hparts by (unfold n; by rewrite <- Hparse, length_parse_servers).
  rewrite length_app, length_int2buff, <- app_assoc in Hparse. rewrite Hparts in *. split_and!.
  - rewrite bytes_at_front by (by rewrite length_int2buff). apply buff2int_int2buff. wrap_lia.
  - rewrite !length_app, length_int2buff. simpl.
    unfold sizeof_FCFSAuthProtoClusterStatRespBodyHeader in *. lia.
  - exact Hparse.
Qed.

Lemma length_cluster_view f :
  Forall (server_fits IP_ADDRESS_SIZE) (servers cluster) →
  Z.of_nat (length (cluster_view cluster f)) ≤ Z.of_nat (length (stat_body f)).
Proof.
  intros Hs. destruct (parse_parts IP_ADDRESS_SIZE cluster f 0 (servers cluster) [] Hs) as [Hp Hl].
  change (filter _ (imap _ (servers cluster))) with (cluster_view cluster f) in Hp.
  rewrite <- Hp, length_parse_servers. unfold stat_body. cbv zeta. rewrite !length_app.
  destruct (servers cluster) as [|cs l]; [simpl; lia|]. inversion Hs as [|? ? (_ & _ & Hip%ip_fits_size) _].
  unfold sizeof_FCFSAuthProtoClusterStatRespBodyPart in Hl. nia.
Qed.

(** C27: [fcfs_auth_client_cluster_stat] reports exactly the servers of the
    cluster that pass the filter, in order, with their ids, addresses, ports and
    whether they are online and master, where the master counts as online; if
    the caller's array is too small for them the call fails with [ENOSPC]. *)
Theorem cluster_stat_roundtrip `{!ConnectedParts W serve leftover} f padding size w :
  MYSELF_IS_MASTER cluster = true → filter_fits f → length padding = 5%nat →
  Forall (server_fits IP_ADDRESS_SIZE) (servers cluster) →
  Z.of_nat (length (stat_body f)) ≤ 8 * 1024 →
  fcfs_auth_client_cluster_stat IP_ADDRESS_SIZE f padding size w =
  (if size <? Z.of_nat (length (cluster_view cluster f)) then Err ENOSPC
   else Ok (cluster_view cluster f), w).
Proof.
  clear Hconn. intros Hm Hf Hp Hs Hsize. unfold fcfs_auth_client_cluster_stat.
  rewrite (bind_ok _ _ _ _ _ (Hmconn w)).
  pose proof (recv_parts serve leftover FCFS_AUTH_SERVICE_PROTO_CLUSTER_STAT_REQ
    ([byte_of (filter_by f); byte_of (filter_online f); byte_of (filter_master f)] ++ padding)
    FCFS_AUTH_SERVICE_PROTO_CLUSTER_STAT_RESP w) as Hr.
  rewrite serve_cluster_stat in Hr by done. cbn [resp_cmd resp_body] in Hr. rewrite Z.eqb_refl in Hr.
  destruct Hr as (w1 & Hh & Hb).
  assert (cluster_stat_recv f padding w = (Ok (stat_body f), w)) as Hrecv.
  { unfold cluster_stat_recv. rewrite (bind_ok _ _ _ _ _ Hh), Z.gtb_ltb, (proj2 (Z.ltb_ge _ _)) by lia.
    by rewrite (bind_ok _ _ _ tt w1). }
  assert (Z.of_nat (length (cluster_view cluster f)) < 2 ^ 31) as Hn.
  { pose proof (length_cluster_view f Hs). lia. }
  destruct (stat_body_reads f Hs Hn) as (Hc & Hl & Hps).
  set (r := if size <? _ then _ else _).
  assert (∀ k : M W (list FCFSAuthClientClusterStatEntry), k w = (r, w) →
    (x ← attempt k; _ ← attempt (SF_CLIENT_RELEASE_CONNECTION (code_of x)); lift x) w = (r, w)) as Hk.
  { intros k Hkw. rewrite (bind_ok _ _ _ _ _ (attempt_eq _ _ _ _ Hkw)).
    by rewrite (bind_ok _ _ _ _ _ (attempt_eq _ _ _ _ (Hrelease _ w))). }
  apply Hk. rewrite (bind_ok _ _ _ _ _ Hrecv). cbv zeta. rewrite Hc, <- Hl.
  replace (int32 (Z.of_nat (length (stat_body f)))) with (Z.of_nat (length (stat_body f))) by wrap_lia.
  rewrite Z.eqb_refl. cbn [negb]. unfold r. rewrite Nat2Z.id, Hps. by destruct (size <? _).
Qed.
End calls.
End ClientCluster.

(** ** Examples *)
Module ClientClusterExamples.
Import Ref AuthDBExamples ServiceExamples ClientCluster.

Abbreviation Wd := (St * list byte)%type.
Abbreviation demo_serve :=
  (ClientCluster.serve (D:=dir) (MB:=Ref.pool) (SLs:=gmap string_t) (SLi:=gmap Z) (T:=sessions)
     demo_template 65536 demo_address 46 demo_cluster).

Definition send {A} (c : Z) (b : list byte) (rc : Z) (fits : Z → bool) (f : list byte → M Wd A)
    : M Wd A := λ w,
  match demo_serve {| cmd := c; body := b; behind := [] |} w with
  | (Ok resp, w') =>
      if (resp_cmd resp =? rc) && fits (Z.of_nat (length (resp_body resp)))
      then f (resp_body resp) w' else (Err EINVAL, w')
  | (Err e, w') => (Err e, w')
  end.

(** The body waits in front of the bytes in flight until it is read. *)
#[export] Instance wire : Transport Wd := {|
  sf_send_and_recv_response c b rc n := send c b rc (Z.eqb n) mret;
  sf_send_and_recv_none_body_response c b rc := send c b rc (Z.eqb 0) (λ _, mret tt);
  sf_send_and_recv_response_ex1 c b rc n := send c b rc (λ k, k <=? n) mret;
  sf_send_and_recv_vary_response c b rc n := send c b rc (Z.leb n) mret;
  fast_mpool_alloc_string_ex v := mret v;
  sf_send_and_check_response_header c b rc :=
    send c b rc (λ _, true) (λ body w, (Ok (Z.of_nat (length body)), (w.1, body ++ w.2)));
  tcprecvdata_nb n w := (Ok (take (Z.to_nat n) w.2), (w.1, drop (Z.to_nat n) w.2));
  get_connection := mret 7;
  get_master_connection := mret 7;
  SF_CLIENT_RELEASE_CONNECTION _ := mret tt;
|}.
#[export] Instance wire_malloc : Malloc Wd := {| fc_malloc _ w := (true, w) |}.

Lemma send_ok {A} c b rc fits (f : list byte → A) :
  exchanges demo_serve (λ _, []) c b rc fits f (send c b rc fits (λ body, mret (f body))).
Proof.
  intros w. unfold send. destruct (demo_serve _ w) as [[resp|e] w']; [|by eexists].
  match goal with |- if ?b then _ else _ => destruct b end; [done|by eexists].
Qed.
#[export] Instance wire_connected : Connected Wd demo_serve (λ _, []).
Proof. split; intros; apply send_ok. Qed.
#[export] Instance wire_parts : ConnectedParts Wd demo_serve (λ _, []).
Proof.
  split. intros c b rc w. unfold sf_send_and_check_response_header, tcprecvdata_nb, wire, send.
  destruct (demo_serve _ w) as [[resp|e] w']; [|eexists; by split].
  rewrite andb_true_r. destruct (resp_cmd resp =? rc); [|by eexists]. eexists. split; [done|]. simpl.
  rewrite Nat2Z.id, take_app_length, drop_app_length. by destruct w'.
Qed.

Lemma wire_conn (w : Wd) : get_connection w = (Ok 7, w).
Proof. done. Qed.
Lemma wire_master_conn (w : Wd) : get_master_connection w = (Ok 7, w).
Proof. done. Qed.
Lemma wire_release (r : result unit) (w : Wd) : SF_CLIENT_RELEASE_CONNECTION r w = (Ok tt, w).
Proof. done. Qed.

Lemma demo_fits : server_fits 46 demo_server.
Proof.
  split_and!; [vm_compute; split; [discriminate|exact eq_refl]..|].
  split; [|exact eq_refl]. unfold c_text. by compute_done.
Qed.

Lemma get_master_roundtrip_witness :
  fcfs_auth_client_get_master 46 (demo_state, []) =
  (Ok {| master_id := 1; master_ip := [x31]; master_port := 31012; master_comm_type := 7 |},
   (demo_state, [])).
Proof.
  apply (get_master_roundtrip demo_template 65536 demo_address 46 demo_cluster (λ _, []) 7
    wire_conn wire_release (demo_state, [])).
  intros cs [= <-]. exact demo_fits.
Defined.

Lemma cluster_stat_roundtrip_witness :
  fcfs_auth_client_cluster_stat 46 {| filter_by := 2; filter_online := 0; filter_master := 1 |}
    [x00; x00; x00; x00; x00] 4 (demo_state, []) =
  (Ok [{| stat_online := true; stat_master := true; stat_id := 1; stat_ip := [x31];
          stat_port := 31012 |}], (demo_state, [])).
Proof.
  apply (cluster_stat_roundtrip demo_template 65536 demo_address 46 demo_cluster (λ _, []) 7
    wire_master_conn wire_release
    {| filter_by := 2; filter_online := 0; filter_master := 1 |}
    [x00; x00; x00; x00; x00] 4 (demo_state, []) eq_refl).
  - split; [|split]; (split; vm_compute; first [discriminate|exact eq_refl]).
  - exact eq_refl.
  - apply Forall_singleton, demo_fits.
  - vm_compute. discriminate.
Defined.
End ClientClusterExamples.
