(* ===== verification/FdManager.v ===== *)
(** * File descriptors of the POSIX layer (src/api/std/fd_manager.c, fd_manager.h)

    A descriptor is a number that an object of [file_info_allocator] gets when it
    is initialised and keeps for ever; the array [file_parray] maps it to the
    object while the file is open, and grows by [FILE_INFO_ALLOC_ONCE] slots when
    an object gets a number beyond it.  Module [FdManager] has the operations of
    one thread, module [FdRace] the atomic steps of [set_file_info] and
    [file_parray_realloc] for two threads that run at the same time. *)
From Stdlib Require Import Init.Byte.
From S2P Require Import Prelude Fastcommon.
Local Open Scope Z_scope.

Module FdManager.

Definition FILE_INFO_ALLOC_ONCE : Z := 1024.
Definition FCFS_POSIX_API_FD_BASE : Z := 2 * 2 ^ 28.
Definition FCFS_PAPI_IS_MY_FD (fd : Z) : bool := fd >? FCFS_POSIX_API_FD_BASE.
Definition FCFS_FD_TO_INDEX (fd : Z) : Z := fd - FCFS_POSIX_API_FD_BASE - 1.

(** ** The object pool of libfastcommon

    A pool without free object takes a new trunk of objects from memory and runs
    the initialiser on each; if one fails the trunk is given back. *)
Class FinfoAllocator (MB : Type) := {
  (** the objects of the trunk to take, none if an object is free *)
  mb_grow : MB → option (list addr) * MB;
  mb_drop : list addr → MB → MB;
  mb_take : MB → option addr * MB;
  mb_put : addr → MB → MB;
  (** the objects initialised so far, and those handed out *)
  mb_objs : MB → gset addr;
  mb_used : MB → gset addr;
}.

Class FinfoAllocatorLaws MB `{!FinfoAllocator MB} : Prop := {
  mb_grow_some m l m' : mb_grow m = (Some l, m') →
    NoDup l ∧ list_to_set l ## mb_objs m ∧ mb_objs m' = list_to_set l ∪ mb_objs m ∧
    mb_used m' = mb_used m;
  mb_grow_none m m' : mb_grow m = (None, m') → mb_objs m' = mb_objs m ∧ mb_used m' = mb_used m;
  mb_take_some m a m' : mb_take m = (Some a, m') →
    a ∈ mb_objs m ∧ (a ∉ mb_used m) ∧ mb_objs m' = mb_objs m ∧ mb_used m' = {[a]} ∪ mb_used m;
  mb_take_none m m' : mb_take m = (None, m') → mb_objs m' = mb_objs m ∧ mb_used m' = mb_used m;
  mb_put_objs m a : mb_objs (mb_put a m) = mb_objs m;
  mb_put_used m a : mb_used (mb_put a m) = mb_used m ∖ {[a]};
  (** memory is finite *)
  mb_finite m : Z.of_nat (size (mb_objs m)) < 2 ^ 30;
}.

(** The fields that the manager uses; a file name that was freed is [None]. *)
Record FCFSPosixAPIFileInfo := { filename : option string_t; fd : Z }.
Definition set_filename x (f : FCFSPosixAPIFileInfo) := {| filename := x; fd := fd f |}.
Definition set_fd x (f : FCFSPosixAPIFileInfo) := {| filename := filename f; fd := x |}.

Section manager.
Context {MB W : Type} `{!FinfoAllocator MB, !Malloc W}.

(** [files] is NULL at first, which is the empty array. *)
Record FCFSFDManagerContext := {
  generation : Z;
  in_realloc : bool;
  next_fd : Z;
  file_info_allocator : MB;
  files : list (option addr);
  count : Z;
  finfos : addr → FCFSPosixAPIFileInfo;
  heap : W;
}.
Abbreviation S := FCFSFDManagerContext.

Definition set_next_fd x (c : S) : S := {| generation := generation c; in_realloc := in_realloc c;
  next_fd := x; file_info_allocator := file_info_allocator c; files := files c; count := count c;
  finfos := finfos c; heap := heap c |}.
Definition set_allocator x (c : S) : S := {| generation := generation c; in_realloc := in_realloc c;
  next_fd := next_fd c; file_info_allocator := x; files := files c; count := count c;
  finfos := finfos c; heap := heap c |}.
Definition set_files x (c : S) : S := {| generation := generation c; in_realloc := in_realloc c;
  next_fd := next_fd c; file_info_allocator := file_info_allocator c; files := x; count := count c;
  finfos := finfos c; heap := heap c |}.
Definition set_finfos x (c : S) : S := {| generation := generation c; in_realloc := in_realloc c;
  next_fd := next_fd c; file_info_allocator := file_info_allocator c; files := files c;
  count := count c; finfos := x; heap := heap c |}.
Definition set_heap x (c : S) : S := {| generation := generation c; in_realloc := in_realloc c;
  next_fd := next_fd c; file_info_allocator := file_info_allocator c; files := files c;
  count := count c; finfos := finfos c; heap := x |}.

Definition malloc (n : Z) : M S bool := λ c,
  let '(ok, w) := fc_malloc n (heap c) in (Ok ok, set_heap w c).

(** The old array is freed after a delay, which other threads rely on. *)
Definition file_parray_realloc : M S unit :=
  c ← get;
  if in_realloc c then mret tt
  else
    let new_count := int32 (count c + FILE_INFO_ALLOC_ONCE) in
    ok ← malloc (8 * new_count);
    if ok : bool then
      modify (λ c, {| generation := int32 (generation c + 1); in_realloc := false;
        next_fd := next_fd c; file_info_allocator := file_info_allocator c;
        files := files c ++ replicate (Z.to_nat FILE_INFO_ALLOC_ONCE) None;
        count := new_count; finfos := finfos c; heap := heap c |})
    else throw ENOMEM.

Definition finfo_init_func (a : addr) : M S unit :=
  _ ← modify (λ c, set_next_fd (int32 (next_fd c + 1)) c);
  c ← get;
  _ ← modify (set_finfos (alter (set_fd (next_fd c)) a (finfos c)));
  let elt_count := next_fd c - FCFS_POSIX_API_FD_BASE in
  if elt_count <=? count c then mret tt else file_parray_realloc.

Fixpoint init_objects (l : list addr) : M S unit :=
  match l with
  | [] => mret tt
  | a :: l => _ ← finfo_init_func a; init_objects l
  end.

(** [fast_mblock_alloc_object] with [finfo_init_func]; [None] is NULL. *)
Definition fast_mblock_alloc_object : M S (option addr) :=
  c ← get;
  let '(l, m) := mb_grow (file_info_allocator c) in
  _ ← modify (set_allocator m);
  match l with
  | None => mret None
  | Some l =>
      r ← attempt (init_objects l);
      match r with
      | Err _ => _ ← modify (λ c, set_allocator (mb_drop l (file_info_allocator c)) c); mret None
      | Ok _ =>
          c ← get;
          let '(a, m) := mb_take (file_info_allocator c) in
          _ ← modify (set_allocator m); mret a
      end
  end.
Definition fast_mblock_free_object (a : addr) : M S unit :=
  modify (λ c, set_allocator (mb_put a (file_info_allocator c)) c).

(** The state of a program that has called [fcfs_fd_manager_init]. *)
Definition fcfs_fd_manager_init (m : MB) (f : addr → FCFSPosixAPIFileInfo) (w : W) : S :=
  {| generation := 0; in_realloc := false; next_fd := 0 + FCFS_POSIX_API_FD_BASE;
     file_info_allocator := m; files := []; count := 0; finfos := f; heap := w |}.

(** Without another thread the loop runs once; [EFAULT] is an access outside the
    array. *)
Definition set_file_info (index : Z) (old_finfo new_finfo : option addr) : M S unit :=
  c ← get;
  match (if 0 <=? index then files c !! Z.to_nat index else None) with
  | None => throw EFAULT
  | Some x =>
      if bool_decide (x = old_finfo)
      then modify (set_files (<[Z.to_nat index := new_finfo]> (files c)))
      else throw EBUSY
  end.

Definition free_finfo (a : addr) : M S unit :=
  _ ← modify (λ c, set_finfos (alter (set_filename None) a (finfos c)) c);
  fast_mblock_free_object a.

Definition fcfs_fd_manager_alloc (name : string_t) : M S (option addr) :=
  o ← fast_mblock_alloc_object;
  match o with
  | None => mret None
  | Some a =>
      ok ← malloc (Z.of_nat (length name) + 2);
      if ok : bool then
        _ ← modify (λ c, set_finfos (alter (set_filename (Some name)) a (finfos c)) c);
        c ← get;
        r ← attempt (set_file_info (FCFS_FD_TO_INDEX (fd (finfos c a))) None (Some a));
        match r with
        | Ok _ => mret (Some a)
        | Err EFAULT => throw EFAULT
        | Err _ => _ ← free_finfo a; mret None
        end
      else
        _ ← modify (λ c, set_finfos (alter (set_filename None) a (finfos c)) c);
        _ ← fast_mblock_free_object a; mret None
  end.

Definition in_parray (c : S) (index : Z) : bool := (index >=? 0) && (index <? count c).
Definition file_at (c : S) (index : Z) : option addr := mjoin (files c !! Z.to_nat index).

(** [None] is NULL; the code, which is only logged, is [ENOENT] or [EOVERFLOW]. *)
Definition fcfs_fd_manager_get (c : S) (fd : Z) : option addr :=
  let index := FCFS_FD_TO_INDEX fd in
  if in_parray c index then file_at c index else None.

Definition fcfs_fd_manager_free (a : addr) : M S unit :=
  c ← get;
  let index := FCFS_FD_TO_INDEX (fd (finfos c a)) in
  _ ← (if in_parray c index then
         if bool_decide (file_at c index = Some a) then set_file_info index (Some a) None
         else throw ENOENT
       else throw EOVERFLOW);
  free_finfo a.

(** A path of a directory ends with a slash afterwards; only called on open
    files, which have a name. *)
Definition fcfs_fd_manager_normalize_path (a : addr) : M S unit :=
  modify (λ c, set_finfos (alter (λ f,
    match filename f with
    | Some n => if bool_decide (last n = Some x2f) then f else set_filename (Some (n ++ [x2f])) f
    | None => f
    end) a (finfos c)) c).
End manager.
Arguments FCFSFDManagerContext : clear implicits.
End FdManager.

(** ** Two threads at the same time

    One thread runs [set_file_info], another [file_parray_realloc]; a step is one
    atomic access to the shared variables.  Arrays have numbers, the array of
    pointers is the one that [files] names. *)
Module FdRace.
Import FdManager.

(** Where [file_parray_realloc] is. *)
Inductive realloc_pc :=
| R_enter
| R_alloc
| R_copy (old_files new_files : nat) (old_count : nat) (i : nat)
| R_files (old_files new_files old_count : nat)
| R_count (old_count : nat)
| R_generation
| R_leave
| R_done.

(** Where [set_file_info] is. *)
Inductive set_pc :=
| S_generation
| S_files (old_generation : Z)
| S_swap (old_generation : Z) (files : nat)
| S_in_realloc (old_generation : Z)
| S_same_generation (old_generation : Z)
| S_done (r : result unit).

Record shared := {
  arrays : nat → list (option addr);
  next_array : nat;
  files : nat;
  count : nat;
  generation : Z;
  in_realloc : bool;
}.
Record race := { sh : shared; realloc_at : realloc_pc; set_at : set_pc }.

Definition with_arrays x (s : shared) : shared := {| arrays := x; next_array := next_array s;
  files := files s; count := count s; generation := generation s; in_realloc := in_realloc s |}.
Definition with_in_realloc x (s : shared) : shared := {| arrays := arrays s;
  next_array := next_array s; files := files s; count := count s; generation := generation s;
  in_realloc := x |}.

(** The next access of [file_parray_realloc]. *)
Definition realloc_step (s : shared) (pc : realloc_pc) : shared * realloc_pc :=
  match pc with
  | R_enter => if in_realloc s then (s, R_done) else (with_in_realloc true s, R_alloc)
  | R_alloc =>
      let n := next_array s in
      let zeros := replicate (count s + Z.to_nat FILE_INFO_ALLOC_ONCE) None in
      ({| arrays := <[n := zeros]> (arrays s); next_array := Datatypes.S n; files := files s;
          count := count s; generation := generation s; in_realloc := in_realloc s |},
       R_copy (files s) n (count s) 0)
  | R_copy old new oc i =>
      if (i <? oc)%nat then
        (with_arrays (<[new := <[i := mjoin (arrays s old !! i)]> (arrays s new)]> (arrays s)) s,
         R_copy old new oc (Datatypes.S i))
      else (s, R_files old new oc)
  | R_files old new oc =>
      ({| arrays := arrays s; next_array := next_array s;
          files := if (files s =? old)%nat then new else files s; count := count s;
          generation := generation s; in_realloc := in_realloc s |}, R_count oc)
  | R_count oc =>
      ({| arrays := arrays s; next_array := next_array s; files := files s;
          count := if (count s =? oc)%nat then oc + Z.to_nat FILE_INFO_ALLOC_ONCE else count s;
          generation := generation s; in_realloc := in_realloc s |}, R_generation)
  | R_generation =>
      ({| arrays := arrays s; next_array := next_array s; files := files s; count := count s;
          generation := int32 (generation s + 1); in_realloc := in_realloc s |}, R_leave)
  | R_leave => (with_in_realloc false s, R_done)
  | R_done => (s, R_done)
  end.

(** The next access of [set_file_info]. *)
Definition set_step (index : nat) (old new : option addr) (s : shared) (pc : set_pc)
    : shared * set_pc :=
  match pc with
  | S_generation => (s, S_files (generation s))
  | S_files g => (s, S_swap g (files s))
  | S_swap g p =>
      if bool_decide (arrays s p !! index = Some old)
      then (with_arrays (<[p := <[index := new]> (arrays s p)]> (arrays s)) s, S_in_realloc g)
      else (s, S_done (Err EBUSY))
  | S_in_realloc g => (s, if in_realloc s then S_generation else S_same_generation g)
  | S_same_generation g => (s, if generation s =? g then S_done (Ok tt) else S_generation)
  | S_done r => (s, S_done r)
  end.

Inductive race_step (index : nat) (old new : option addr) : race → race → Prop :=
| step_realloc r s' pc' : realloc_step (sh r) (realloc_at r) = (s', pc') →
    race_step index old new r {| sh := s'; realloc_at := pc'; set_at := set_at r |}
| step_set r s' pc' : set_step index old new (sh r) (set_at r) = (s', pc') →
    race_step index old new r {| sh := s'; realloc_at := realloc_at r; set_at := pc' |}.

(** What a reader finds. *)
Definition slot (r : race) (index : nat) : option addr :=
  mjoin (arrays (sh r) (files (sh r)) !! index).

(** A schedule: [true] lets [file_parray_realloc] take a step. *)
Fixpoint run (index : nat) (old new : option addr) (sched : list bool) (r : race) : race :=
  match sched with
  | [] => r
  | true :: sched =>
      let '(s, pc) := realloc_step (sh r) (realloc_at r) in
      run index old new sched {| sh := s; realloc_at := pc; set_at := set_at r |}
  | false :: sched =>
      let '(s, pc) := set_step index old new (sh r) (set_at r) in
      run index old new sched {| sh := s; realloc_at := realloc_at r; set_at := pc |}
  end.

Lemma run_steps index old new sched r : rtc (race_step index old new) r (run index old new sched r).
Proof.
  revert r. induction sched as [|b sched IH]; intros r; simpl; [done|]. destruct b.
  - destruct (realloc_step (sh r) (realloc_at r)) as [s pc] eqn:E.
    eapply rtc_l; [by apply step_realloc|apply IH].
  - destruct (set_step index old new (sh r) (set_at r)) as [s pc] eqn:E.
    eapply rtc_l; [by apply step_set|apply IH].
Qed.
End FdRace.
