(* ===== verification/FdManagerSpec.v ===== *)
(** * What the descriptors of the POSIX layer promise

    Open files and descriptors correspond one to one; opening and closing change
    a table from descriptors to names at one descriptor. *)
From Stdlib Require Import Init.Byte.
From S2P Require Import Prelude Fastcommon FdManager.
Import FdManager.
Local Open Scope Z_scope.

Module FdManagerSpec.
Section spec.
Context {MB W : Type} `{!FinfoAllocator MB, !FinfoAllocatorLaws MB, !Malloc W}.
Abbreviation S := (FCFSFDManagerContext MB W).
Implicit Types c : S.

(** ** The invariant

    [D] are the objects that have a descriptor, [U] those of open files. *)
Record inv_on (D U : gset addr) c : Prop := {
  io_len : count c = Z.of_nat (length (files c));
  io_idle : in_realloc c = false;
  io_next : next_fd c = FCFS_POSIX_API_FD_BASE + Z.of_nat (size D);
  io_room : Z.of_nat (size D) ≤ count c ≤ 2 ^ 30 + FILE_INFO_ALLOC_ONCE;
  io_open : U ⊆ D;
  io_fd a : a ∈ D → FCFS_POSIX_API_FD_BASE < fd (finfos c a) ≤ next_fd c;
  io_inj a b : a ∈ D → b ∈ D → fd (finfos c a) = fd (finfos c b) → a = b;
  io_slot (i : nat) a : files c !! i = Some (Some a) ↔
    a ∈ U ∧ FCFS_FD_TO_INDEX (fd (finfos c a)) = Z.of_nat i;
  io_name a : a ∈ U → filename (finfos c a) ≠ None;
}.
Definition inv c : Prop :=
  inv_on (mb_objs (file_info_allocator c)) (mb_used (file_info_allocator c)) c.

(** ** Lookups *)

Lemma get_spec D U c x a :
  inv_on D U c → fcfs_fd_manager_get c x = Some a ↔ a ∈ U ∧ fd (finfos c a) = x.
Proof.
  intros I. unfold fcfs_fd_manager_get, in_parray, file_at.
  set (i := FCFS_FD_TO_INDEX x). rewrite Z.geb_leb. split.
  - destruct (_ && _) eqn:E; [|done]. bool_to_prop. intros Hm.
    destruct (files c !! Z.to_nat i) as [o|] eqn:Ef; [|done]. simpl in Hm. subst o.
    apply (io_slot _ _ _ I) in Ef as [Ha Hi]. split; [done|].
    unfold i, FCFS_FD_TO_INDEX in *. lia.
  - intros [Ha <-]. pose proof (io_fd _ _ _ I a (io_open _ _ _ I a Ha)) as Hfd.
    assert (files c !! Z.to_nat i = Some (Some a)) as Ef.
    { apply (io_slot _ _ _ I). split; [done|]. unfold i, FCFS_FD_TO_INDEX. lia. }
    pose proof (lookup_lt_Some _ _ _ Ef) as Hlt. rewrite (io_len _ _ _ I).
    rewrite (proj2 (Z.leb_le _ _)), (proj2 (Z.ltb_lt _ _)) by (unfold i, FCFS_FD_TO_INDEX in *; lia).
    simpl. by rewrite Ef.
Qed.

(** The names of the open descriptors. *)
Definition fd_view c (x : Z) : option string_t :=
  a ← fcfs_fd_manager_get c x; filename (finfos c a).

Lemma fd_view_same D U c c' D' :
  inv_on D U c → inv_on D' U c' → (∀ a, a ∈ U → finfos c' a = finfos c a) →
  ∀ x, fd_view c' x = fd_view c x.
Proof.
  intros I I' Hsame x. unfold fd_view. destruct (fcfs_fd_manager_get c x) as [a|] eqn:E.
  - apply (get_spec _ _ _ _ _ I) in E as [Ha Hx]. simpl.
    rewrite (proj2 (get_spec _ _ _ x a I')) by (by rewrite Hsame). simpl. by rewrite Hsame.
  - destruct (fcfs_fd_manager_get c' x) as [a|] eqn:E'; [|done].
    apply (get_spec _ _ _ _ _ I') in E' as [Ha Hx]. rewrite Hsame in Hx by done.
    by rewrite (proj2 (get_spec _ _ _ x a I)) in E.
Qed.

(** ** Growing *)
Hypothesis Hmalloc : ∀ n (w : W), (fc_malloc n w).1 = true.

Lemma malloc_ok n c : malloc n c = (Ok true, set_heap (fc_malloc n (heap c)).2 c).
Proof. unfold malloc. pose proof (Hmalloc n (heap c)). destruct (fc_malloc n (heap c)). simpl in *. by subst. Qed.

Lemma realloc_runs c :
  in_realloc c = false → count c = Z.of_nat (length (files c)) → 0 ≤ count c ≤ 2 ^ 30 →
  ∃ c', file_parray_realloc c = (Ok tt, c') ∧ finfos c' = finfos c ∧ next_fd c' = next_fd c ∧
    file_info_allocator c' = file_info_allocator c ∧ in_realloc c' = false ∧
    count c' = count c + FILE_INFO_ALLOC_ONCE ∧
    files c' = files c ++ replicate (Z.to_nat FILE_INFO_ALLOC_ONCE) None.
Proof.
  intros Hi Hl Hc. unfold file_parray_realloc. rewrite (bind_ok _ _ _ c c) by done. rewrite Hi.
  cbv zeta. rewrite (bind_ok _ _ _ _ _ (malloc_ok _ _)). eexists. split; [done|].
  split_and!; try done. cbn [count]. unfold FILE_INFO_ALLOC_ONCE. wrap_lia.
Qed.

Lemma lookup_grown (l : list (option addr)) n i a :
  (l ++ replicate n None) !! i = Some (Some a) ↔ l !! i = Some (Some a).
Proof.
  rewrite lookup_app_Some. split; [|by left]. intros [|[_ Hr]]; [done|].
  apply lookup_replicate in Hr as [? _]. done.
Qed.

(** An object gets the next descriptor, in an array that has room for it. *)
Lemma new_object_inv D U c c' a :
  inv_on D U c → a ∉ D →
  (∀ i b, files c' !! i = Some (Some b) ↔ files c !! i = Some (Some b)) →
  count c' = Z.of_nat (length (files c')) → in_realloc c' = false →
  next_fd c' = next_fd c + 1 →
  Z.of_nat (size D) + 1 ≤ count c' ≤ 2 ^ 30 + FILE_INFO_ALLOC_ONCE →
  finfos c' = alter (set_fd (next_fd c + 1)) a (finfos c) → inv_on ({[a]} ∪ D) U c'.
Proof.
  intros I Ha Hfs Hc Hid Hx Hroom Hfi. pose proof I as [_ _ Hn _ Ho Hf Hj Hs Hm].
  assert (size ({[a]} ∪ D) = Datatypes.S (size D)) as Hsize
    by (by rewrite size_union, size_singleton by (by apply disjoint_singleton_l)).
  assert (∀ b, b ≠ a → finfos c' b = finfos c b) as Hne
    by (intros; rewrite Hfi; by apply fn_lookup_alter_ne).
  assert (fd (finfos c' a) = next_fd c + 1) as Hfa by (by rewrite Hfi, fn_lookup_alter).
  split; rewrite ?Hsize, ?Hx; try done; [lia|lia|set_solver|..].
  - intros b [->%elem_of_singleton|Hb]%elem_of_union; [lia|].
    rewrite Hne by set_solver. pose proof (Hf b Hb). lia.
  - intros b d Hb Hd. destruct (decide (b = a)) as [->|Hba], (decide (d = a)) as [->|Hda]; [done|..];
      rewrite ?Hfa, ?Hne by done.
    + pose proof (Hf d ltac:(set_solver)). lia.
    + pose proof (Hf b ltac:(set_solver)). lia.
    + apply Hj; set_solver.
  - intros i b. rewrite Hfs, Hs.
    split; intros [HbU HbI]; (split; [done|]); assert (b ≠ a) by set_solver;
      [by rewrite Hne|by rewrite Hne in HbI].
  - intros b HbU. rewrite Hne by set_solver. by apply Hm.
Qed.

Lemma init_func_ok D U c a :
  inv_on D U c → a ∉ D → Z.of_nat (size D) < 2 ^ 30 →
  ∃ c', finfo_init_func a c = (Ok tt, c') ∧ inv_on ({[a]} ∪ D) U c' ∧
    file_info_allocator c' = file_info_allocator c ∧ (∀ b, b ≠ a → finfos c' b = finfos c b).
Proof.
  intros I Ha Hsz. pose proof I as [Hl Hi Hn Hr _ _ _ _ _].
  unfold finfo_init_func. unfold mbind, M_bind, modify, get.
  cbn [next_fd set_next_fd set_finfos finfos count].
  assert (int32 (next_fd c + 1) = next_fd c + 1) as ->
    by (rewrite Hn; unfold FCFS_POSIX_API_FD_BASE; wrap_lia).
  set (c1 := set_finfos _ _). pose proof (new_object_inv D U c) as Hinv.
  assert (∀ b, b ≠ a → finfos c1 b = finfos c b) as Hne by (intros; by apply fn_lookup_alter_ne).
  destruct (Z.leb_spec (next_fd c + 1 - FCFS_POSIX_API_FD_BASE) (count c)).
  - exists c1. split_and!; try done. apply Hinv; try done; simpl; lia.
  - destruct (realloc_runs c1) as (c' & -> & Ef & Ex & Ea & Ei & Ec & El); [done|done|simpl; lia|].
    exists c'. rewrite Ef, Ea. split_and!; try done. unfold FILE_INFO_ALLOC_ONCE in *.
    apply Hinv; try done.
    + intros i b. rewrite El. apply lookup_grown.
    + rewrite Ec, El, length_app, length_replicate. simpl. lia.
    + rewrite Ec. simpl. lia.
Qed.

Lemma init_objects_ok l D U c :
  inv_on D U c → NoDup l → list_to_set l ## D →
  Z.of_nat (size D) + Z.of_nat (length l) < 2 ^ 30 →
  ∃ c', init_objects l c = (Ok tt, c') ∧ inv_on (list_to_set l ∪ D) U c' ∧
    file_info_allocator c' = file_info_allocator c ∧ (∀ b, b ∉ l → finfos c' b = finfos c b).
Proof.
  revert D c. induction l as [|a l IH]; intros D c I Hnd Hdis Hsz; simpl.
  { exists c. replace (∅ ∪ D) with D by set_solver. by split_and!. }
  apply NoDup_cons in Hnd as [Hal Hnd]. simpl in Hsz.
  destruct (init_func_ok D U c a I) as (c1 & Hr & I1 & Ha1 & Hf1); [set_solver|lia|].
  rewrite (bind_ok _ _ _ _ _ Hr).
  destruct (IH ({[a]} ∪ D) c1 I1 Hnd) as (c2 & -> & I2 & Ha2 & Hf2).
  { rewrite list_to_set_cons in Hdis. set_solver. }
  { rewrite size_union, size_singleton by set_solver. lia. }
  exists c2. split_and!; [done| |congruence|].
  - replace ({[a]} ∪ list_to_set l ∪ D) with (list_to_set l ∪ ({[a]} ∪ D)) by set_solver. done.
  - intros b [? ?]%not_elem_of_cons. by rewrite Hf2, Hf1.
Qed.

(** The pool with its initialiser: an object that is not in use, or none. *)
Lemma alloc_object_ok c :
  inv c →
  ∃ o c', fast_mblock_alloc_object c = (Ok o, c') ∧
    let m := file_info_allocator c in let m' := file_info_allocator c' in
    inv_on (mb_objs m') (mb_used m) c' ∧
    (∀ b, b ∈ mb_used m → finfos c' b = finfos c b) ∧
    match o with
    | Some a => a ∈ mb_objs m' ∧ (a ∉ mb_used m) ∧ mb_used m' = {[a]} ∪ mb_used m
    | None => mb_used m' = mb_used m
    end.
Proof.
  intros I. unfold fast_mblock_alloc_object. rewrite (bind_ok _ _ _ c c) by done.
  destruct (mb_grow (file_info_allocator c)) as [[l|] m1] eqn:Eg; rewrite (bind_ok _ _ _ tt (set_allocator m1 c)) by done.
  2: { apply mb_grow_none in Eg as [Ho Hu]. exists None, (set_allocator m1 c). split; [done|].
       cbv zeta. cbn [file_info_allocator set_allocator]. rewrite Ho. split_and!; [by destruct I|done|done]. }
  pose proof (mb_finite m1) as Hfin. apply mb_grow_some in Eg as (Hnd & Hdis & Ho & Hu).
  rewrite Ho, size_union, size_list_to_set in Hfin by done.
  destruct (init_objects_ok l (mb_objs (file_info_allocator c)) (mb_used (file_info_allocator c))
    (set_allocator m1 c)) as (c2 & Hr & I2 & Ha2 & Hf2); [by destruct I|done|done|lia|].
  rewrite (bind_ok _ _ _ _ _ (attempt_eq _ _ _ _ Hr)), (bind_ok _ _ _ c2 c2) by done.
  assert (∀ b, b ∈ mb_used (file_info_allocator c) → finfos c2 b = finfos c b) as Hsame.
  { intros b Hb. rewrite Hf2; [done|]. pose proof (io_open _ _ _ I b Hb). set_solver. }
  rewrite Ha2. cbn [file_info_allocator set_allocator]. rewrite <- Ho in I2.
  destruct (mb_take m1) as [[a|] m2] eqn:Et; eexists _, (set_allocator m2 c2);
    (split; [reflexivity|]); cbv zeta; cbn [file_info_allocator set_allocator].
  - apply mb_take_some in Et as (Hain & Hau & Ho2 & Hu2). rewrite Ho2, Hu2, Hu in *.
    split_and!; [by destruct I2|done..].
  - apply mb_take_none in Et as (Ho2 & Hu2). rewrite Ho2, Hu2, Hu in *.
    split_and!; [by destruct I2|done..].
Qed.

(** ** Opening and closing *)

(** A slot and the name of its object change together. *)
Lemma open_inv D U c c' a i name :
  inv_on D U c → a ∈ D → a ∉ U → Z.of_nat i = FCFS_FD_TO_INDEX (fd (finfos c a)) →
  files c' = <[i := Some a]> (files c) → finfos c' = alter (set_filename (Some name)) a (finfos c) →
  count c' = count c → in_realloc c' = in_realloc c → next_fd c' = next_fd c →
  inv_on D ({[a]} ∪ U) c'.
Proof.
  intros [Hl Hi Hn Hr Ho Hf Hj Hs Hm] Ha Hau Hix Efs Efi Ec Er En.
  assert (∀ b, fd (finfos c' b) = fd (finfos c b)) as Hfd.
  { intros b. rewrite Efi. destruct (decide (b = a)) as [->|];
      [by rewrite fn_lookup_alter|by rewrite fn_lookup_alter_ne]. }
  assert (i < length (files c))%nat as Hlt.
  { pose proof (Hf a Ha). unfold FCFS_FD_TO_INDEX in Hix. lia. }
  split; rewrite ?Ec, ?Er, ?En, ?Efs, ?length_insert; try done; [set_solver|..].
  - intros b. rewrite Hfd. apply Hf.
  - intros b d. rewrite !Hfd. apply Hj.
  - intros k b. rewrite Hfd. destruct (decide (k = i)) as [->|].
    + rewrite list_lookup_insert_eq by done. split.
      * intros [= <-]. split; [set_solver|by rewrite Hix].
      * intros [[->%elem_of_singleton|Hb]%elem_of_union Hk]; [done|]. rewrite (Hj a b) in Hau; [done|done|by apply Ho|].
        unfold FCFS_FD_TO_INDEX in *. lia.
    + rewrite list_lookup_insert_ne, Hs by done. split; [set_solver|].
      intros [[->%elem_of_singleton|Hb]%elem_of_union Hk]; [lia|done].
  - intros b Hb. rewrite Efi. destruct (decide (b = a)) as [->|]; [by rewrite fn_lookup_alter|].
    rewrite fn_lookup_alter_ne by done. apply Hm. set_solver.
Qed.

Lemma close_inv D U c c' a i :
  inv_on D U c → a ∈ U → Z.of_nat i = FCFS_FD_TO_INDEX (fd (finfos c a)) →
  files c' = <[i := None]> (files c) → finfos c' = alter (set_filename None) a (finfos c) →
  count c' = count c → in_realloc c' = in_realloc c → next_fd c' = next_fd c →
  inv_on D (U ∖ {[a]}) c'.
Proof.
  intros [Hl Hi Hn Hr Ho Hf Hj Hs Hm] Ha Hix Efs Efi Ec Er En.
  assert (∀ b, fd (finfos c' b) = fd (finfos c b)) as Hfd.
  { intros b. rewrite Efi. destruct (decide (b = a)) as [->|];
      [by rewrite fn_lookup_alter|by rewrite fn_lookup_alter_ne]. }
  split; rewrite ?Ec, ?Er, ?En, ?Efs, ?length_insert; try done; [set_solver|..].
  - intros b. rewrite Hfd. apply Hf.
  - intros b d. rewrite !Hfd. apply Hj.
  - intros k b. rewrite Hfd. destruct (decide (k = i)) as [->|].
    + split; [intros Hk; apply list_lookup_insert_Some in Hk; naive_solver|].
      intros [[Hb Hba]%elem_of_difference Hk]. destruct Hba. apply elem_of_singleton.
      apply Hj; [by apply Ho..|]. unfold FCFS_FD_TO_INDEX in *. lia.
    + rewrite list_lookup_insert_ne, Hs by done. split; [|set_solver].
      intros [Hb Hk]. split; [|done]. apply elem_of_difference. split; [done|].
      intros ->%elem_of_singleton. lia.
  - intros b [Hb Hba]%elem_of_difference. rewrite Efi, fn_lookup_alter_ne by set_solver. by apply Hm.
Qed.

Lemma set_file_info_ok c (i : nat) x y :
  files c !! i = Some x → set_file_info (Z.of_nat i) x y c = (Ok tt, set_files (<[i := y]> (files c)) c).
Proof.
  intros Hx. unfold set_file_info. rewrite (bind_ok _ _ _ c c) by done.
  rewrite (proj2 (Z.leb_le _ _)) by lia. by rewrite Nat2Z.id, Hx, bool_decide_true.
Qed.

(** The slot of an object that is not in use is free. *)
Lemma slot_free D U c a :
  inv_on D U c → a ∈ D → a ∉ U →
  ∃ i : nat, Z.of_nat i = FCFS_FD_TO_INDEX (fd (finfos c a)) ∧ files c !! i = Some None.
Proof.
  intros I Ha Hau. pose proof (io_fd _ _ _ I a Ha) as Hfd. pose proof (io_room _ _ _ I) as Hr.
  rewrite (io_len _ _ _ I) in Hr. rewrite (io_next _ _ _ I) in Hfd.
  exists (Z.to_nat (FCFS_FD_TO_INDEX (fd (finfos c a)))).
  assert (0 ≤ FCFS_FD_TO_INDEX (fd (finfos c a)) < Z.of_nat (length (files c))) as Hi
    by (unfold FCFS_FD_TO_INDEX; lia).
  split; [lia|]. destruct (lookup_lt_is_Some_2 (files c) (Z.to_nat (FCFS_FD_TO_INDEX (fd (finfos c a)))))
    as [[b|] Hb]; [lia| |done].
  pose proof Hb as Hb'. apply (io_slot _ _ _ I) in Hb' as [HbU Hbi].
  rewrite (io_inj _ _ _ I a b) in Hau; [done|done|by apply (io_open _ _ _ I)|].
  unfold FCFS_FD_TO_INDEX in *. lia.
Qed.

Lemma alloc_runs name c :
  inv c →
  ∃ o c', fcfs_fd_manager_alloc name c = (Ok o, c') ∧ inv c' ∧
    let U := mb_used (file_info_allocator c) in
    match o with
    | Some a => (a ∉ U) ∧ mb_used (file_info_allocator c') = {[a]} ∪ U ∧
                filename (finfos c' a) = Some name
    | None => mb_used (file_info_allocator c') = U
    end ∧ ∀ b, b ∈ U → finfos c' b = finfos c b.
Proof.
  intros I. unfold fcfs_fd_manager_alloc.
  destruct (alloc_object_ok c I) as (o & c1 & Hr & I1 & Hsame & Ho). rewrite (bind_ok _ _ _ _ _ Hr).
  destruct o as [a|].
  2: { exists None, c1. split_and!; try done. unfold inv. by rewrite Ho. }
  destruct Ho as (Hain & Hau & Hu). rewrite (bind_ok _ _ _ _ _ (malloc_ok _ _)).
  set (c2 := set_heap _ c1). unfold mbind at 1, M_bind at 1, modify at 1.
  set (c3 := set_finfos _ c2). rewrite (bind_ok _ _ _ c3 c3) by done.
  assert (fd (finfos c3 a) = fd (finfos c1 a)) as Hfd by (unfold c3; simpl; by rewrite fn_lookup_alter).
  destruct (slot_free _ _ _ _ I1 Hain Hau) as (i & Hi & Hfree). rewrite Hfd, <- Hi.
  rewrite (bind_ok _ _ _ _ _ (attempt_eq _ _ _ _ (set_file_info_ok c3 i None (Some a) Hfree))).
  exists (Some a). eexists. split; [reflexivity|]. split_and!; try done.
  - unfold inv. cbn [file_info_allocator set_files c3 set_finfos c2 set_heap]. rewrite Hu.
    by eapply (open_inv _ _ c1 _ a i name).
  - simpl. by rewrite fn_lookup_alter.
  - intros b Hb. simpl. rewrite fn_lookup_alter_ne by set_solver. by apply Hsame.
Qed.

Lemma free_open c a :
  inv c → a ∈ mb_used (file_info_allocator c) →
  ∃ c', fcfs_fd_manager_free a c = (Ok tt, c') ∧ inv c' ∧
    mb_used (file_info_allocator c') = mb_used (file_info_allocator c) ∖ {[a]} ∧
    ∀ b, b ≠ a → finfos c' b = finfos c b.
Proof.
  intros I Ha. unfold fcfs_fd_manager_free. rewrite (bind_ok _ _ _ c c) by done. cbv zeta.
  assert (∃ i : nat, FCFS_FD_TO_INDEX (fd (finfos c a)) = Z.of_nat i ∧ files c !! i = Some (Some a))
    as (i & Hi & Hslot).
  { pose proof (io_fd _ _ _ I a (io_open _ _ _ I a Ha)) as Hfd.
    exists (Z.to_nat (FCFS_FD_TO_INDEX (fd (finfos c a)))).
    rewrite (io_slot _ _ _ I), Z2Nat.id by (unfold FCFS_FD_TO_INDEX; lia). done. }
  pose proof (lookup_lt_Some _ _ _ Hslot) as Hlt.
  unfold in_parray, file_at. rewrite Hi, Nat2Z.id, Hslot, Z.geb_leb, (io_len _ _ _ I).
  rewrite (proj2 (Z.leb_le _ _)), (proj2 (Z.ltb_lt _ _)) by lia. simpl. rewrite bool_decide_true by done.
  rewrite (bind_ok _ _ _ _ _ (set_file_info_ok c i _ None Hslot)).
  eexists. split; [reflexivity|]. split_and!.
  - unfold inv. simpl. rewrite mb_put_objs, mb_put_used. by eapply (close_inv _ _ c _ a i).
  - simpl. apply mb_put_used.
  - intros b Hb. simpl. by rewrite fn_lookup_alter_ne.
Qed.

(** Freeing what is not open is refused. *)
Lemma free_closed c a :
  inv c → a ∉ mb_used (file_info_allocator c) →
  fcfs_fd_manager_free a c = (Err ENOENT, c) ∨ fcfs_fd_manager_free a c = (Err EOVERFLOW, c).
Proof.
  intros I Ha. unfold fcfs_fd_manager_free. rewrite (bind_ok _ _ _ c c) by done. cbv zeta.
  destruct (in_parray c _) eqn:Ei; [left|by right]. rewrite bool_decide_false; [done|].
  intros Hat. apply Ha. apply (get_spec _ _ _ (fd (finfos c a)) a I).
  unfold fcfs_fd_manager_get. by rewrite Ei.
Qed.

Lemma normalize_inv c a :
  inv c → inv (fcfs_fd_manager_normalize_path a c).2.
Proof.
  intros [Hl Hi Hn Hr Ho Hf Hj Hs Hm].
  set (c' := (fcfs_fd_manager_normalize_path a c).2).
  assert (∀ b, fd (finfos c' b) = fd (finfos c b) ∧
    (filename (finfos c b) ≠ None → filename (finfos c' b) ≠ None)) as Hsame.
  { intros b. simpl. destruct (decide (b = a)) as [->|]; [|by rewrite fn_lookup_alter_ne].
    rewrite fn_lookup_alter. destruct (filename (finfos c a)) eqn:E; [|by rewrite E].
    case_bool_decide; [by rewrite E|done]. }
  split; try done; simpl.
  - intros b. destruct (Hsame b) as [Hb _]. simpl in Hb. rewrite Hb. apply Hf.
  - intros b d. destruct (Hsame b) as [Hb _], (Hsame d) as [Hd _]. simpl in Hb, Hd. rewrite Hb, Hd. apply Hj.
  - intros i b. destruct (Hsame b) as [Hb _]. simpl in Hb. rewrite Hb. apply Hs.
  - intros b HbU. apply (Hsame b), Hm, HbU.
Qed.

(** ** Runs *)

Inductive reachable : S → Prop :=
| fd_init m f w : mb_objs m = ∅ → mb_used m = ∅ → reachable (fcfs_fd_manager_init m f w)
| fd_alloc name c : reachable c → reachable (fcfs_fd_manager_alloc name c).2
| fd_free a c : reachable c → reachable (fcfs_fd_manager_free a c).2
| fd_normalize a c : reachable c → reachable (fcfs_fd_manager_normalize_path a c).2.

Lemma init_inv m f w : mb_objs m = ∅ → mb_used m = ∅ → inv (fcfs_fd_manager_init m f w).
Proof.
  intros Ho Hu. unfold inv. simpl. rewrite Ho, Hu.
  split; simpl; try done; try set_solver; rewrite ?size_empty; try (unfold FILE_INFO_ALLOC_ONCE; lia).
Qed.

Lemma fd_reachable_inv c : reachable c → inv c.
Proof.
  induction 1 as [m f w Ho Hu|name c _ I|a c _ I|a c _ I].
  - by apply init_inv.
  - destruct (alloc_runs name c I) as (o & c' & -> & I' & _). done.
  - destruct (decide (a ∈ mb_used (file_info_allocator c))) as [Ha|Ha].
    + by destruct (free_open c a I Ha) as (c' & -> & I' & _).
    + by destruct (free_closed c a I Ha) as [-> | ->].
  - by apply normalize_inv.
Qed.

Lemma alloc_view c c' a name :
  inv c → inv c' → (a ∉ mb_used (file_info_allocator c)) →
  mb_used (file_info_allocator c') = {[a]} ∪ mb_used (file_info_allocator c) →
  filename (finfos c' a) = Some name →
  (∀ b, b ∈ mb_used (file_info_allocator c) → finfos c' b = finfos c b) →
  let x := fd (finfos c' a) in
  fcfs_fd_manager_get c' x = Some a ∧ fd_view c x = None ∧
  ∀ y, fd_view c' y = if decide (y = x) then Some name else fd_view c y.
Proof.
  intros I I' Hau Hu Hname Hsame x.
  assert (fcfs_fd_manager_get c' x = Some a) as Hget
    by (apply (get_spec _ _ _ _ _ I'); rewrite Hu; set_solver).
  assert (∀ y b, y ≠ x → fcfs_fd_manager_get c' y = Some b ↔ fcfs_fd_manager_get c y = Some b) as Hother.
  { intros y b Hy. rewrite (get_spec _ _ _ _ _ I), (get_spec _ _ _ _ _ I'), Hu. split.
    - intros [[->%elem_of_singleton|Hb]%elem_of_union Hf]; [by destruct Hy|]. by rewrite <- Hsame.
    - intros [Hb Hf]. rewrite Hsame by done. set_solver. }
  split_and!; [done|..].
  - unfold fd_view. destruct (fcfs_fd_manager_get c x) as [b|] eqn:E; [|done].
    apply (get_spec _ _ _ _ _ I) in E as [Hb Hf]. rewrite <- Hsame in Hf by done.
    assert (fcfs_fd_manager_get c' x = Some b) by (apply (get_spec _ _ _ _ _ I'); rewrite Hu; set_solver).
    congruence.
  - intros y. case_decide as Hy; [subst y; unfold fd_view; rewrite Hget; done|].
    unfold fd_view. destruct (fcfs_fd_manager_get c y) as [b|] eqn:E.
    + rewrite (proj2 (Hother y b Hy) E). simpl. apply (get_spec _ _ _ _ _ I) in E as [Hb _]. by rewrite Hsame.
    + destruct (fcfs_fd_manager_get c' y) as [b|] eqn:E'; [|done]. by rewrite (proj1 (Hother y b Hy) E') in E.
Qed.

Lemma free_view c c' a :
  inv c → inv c' → a ∈ mb_used (file_info_allocator c) →
  mb_used (file_info_allocator c') = mb_used (file_info_allocator c) ∖ {[a]} →
  (∀ b, b ≠ a → finfos c' b = finfos c b) →
  ∀ y, fd_view c' y = if decide (y = fd (finfos c a)) then None else fd_view c y.
Proof.
  intros I I' Ha Hu Hsame y.
  assert (∀ b, fcfs_fd_manager_get c' y = Some b ↔ b ≠ a ∧ fcfs_fd_manager_get c y = Some b) as Hiff.
  { intros b. rewrite (get_spec _ _ _ _ _ I), (get_spec _ _ _ _ _ I'), Hu, elem_of_difference, elem_of_singleton.
    split; [intros [[? ?] Hf]; by rewrite <- Hsame|intros (? & ? & ?); by rewrite Hsame]. }
  assert (fcfs_fd_manager_get c y = Some a ↔ y = fd (finfos c a)) as Hga
    by (rewrite (get_spec _ _ _ _ _ I); naive_solver).
  unfold fd_view. destruct (fcfs_fd_manager_get c' y) as [b|] eqn:E'.
  - destruct (proj1 (Hiff b) eq_refl) as [Hba Hb]. rewrite Hb in *. rewrite decide_False by naive_solver.
    simpl. by rewrite Hsame.
  - case_decide as Hy; [done|]. destruct (fcfs_fd_manager_get c y) as [b|] eqn:E; [|done].
    exfalso. assert (b ≠ a) as Hba by naive_solver. by pose proof (proj2 (Hiff b) (conj Hba eq_refl)).
Qed.

(** C32: every descriptor of an open file is a positive [int] above the base by
    which the library tells its own descriptors from those of the system; it is
    the descriptor of that file and of no other, and the file has a name. *)
Theorem fd_typed c x a :
  reachable c → fcfs_fd_manager_get c x = Some a →
  FCFS_PAPI_IS_MY_FD x = true ∧ in_sint 32 x ∧ in_parray c (FCFS_FD_TO_INDEX x) = true ∧
  fd (finfos c a) = x ∧ filename (finfos c a) ≠ None ∧
  (∀ y, fcfs_fd_manager_get c y = Some a → y = x) ∧
  ∀ b, fcfs_fd_manager_get c x = Some b → b = a.
Proof.
  intros I%fd_reachable_inv Hg. pose proof Hg as [Ha Hx]%(get_spec _ _ _ _ _ I).
  pose proof (io_fd _ _ _ I a (io_open _ _ _ I a Ha)) as Hfd. rewrite Hx, (io_next _ _ _ I) in Hfd.
  pose proof (mb_finite (file_info_allocator c)) as Hfin. split_and!.
  - unfold FCFS_PAPI_IS_MY_FD. rewrite Z.gtb_ltb. apply Z.ltb_lt. lia.
  - unfold FCFS_POSIX_API_FD_BASE in *. wrap_lia.
  - unfold fcfs_fd_manager_get in Hg. by destruct (in_parray c _).
  - done.
  - by apply (io_name _ _ _ I).
  - intros y [_ Hy]%(get_spec _ _ _ _ _ I). congruence.
  - intros b Hb. congruence.
Qed.

(** C12: the manager implements a table from descriptors to names.  Opening a file
    either gives a descriptor that was not open and enters the name there, or
    fails and leaves the table; closing an open file removes its entry; closing
    a file that is not open is an error and changes nothing. *)
Theorem fd_table_refines c :
  reachable c →
  (∀ name, ∃ o c', fcfs_fd_manager_alloc name c = (Ok o, c') ∧
     match o with
     | Some a => let x := fd (finfos c' a) in
         fcfs_fd_manager_get c' x = Some a ∧ fd_view c x = None ∧
         ∀ y, fd_view c' y = if decide (y = x) then Some name else fd_view c y
     | None => ∀ y, fd_view c' y = fd_view c y
     end) ∧
  (∀ x a, fcfs_fd_manager_get c x = Some a →
     ∃ c', fcfs_fd_manager_free a c = (Ok tt, c') ∧
       ∀ y, fd_view c' y = if decide (y = x) then None else fd_view c y) ∧
  (∀ a, (∀ x, fcfs_fd_manager_get c x ≠ Some a) →
     fcfs_fd_manager_free a c = (Err ENOENT, c) ∨ fcfs_fd_manager_free a c = (Err EOVERFLOW, c)).
Proof.
  intros I%fd_reachable_inv. split_and!.
  - intros name. destruct (alloc_runs name c I) as (o & c' & Hr & I' & Ho & Hsame).
    exists o, c'. split; [done|]. destruct o as [a|].
    + destruct Ho as (Hau & Hu & Hname). by eapply alloc_view.
    + unfold inv in I'. rewrite Ho in I'. by eapply fd_view_same.
  - intros x a [Ha Hx]%(get_spec _ _ _ _ _ I). destruct (free_open c a I Ha) as (c' & Hr & I' & Hu & Hsame).
    exists c'. split; [done|]. intros y. rewrite <- Hx. by eapply free_view.
  - intros a Hno. apply free_closed; [done|]. intros Ha. eapply (Hno (fd (finfos c a))).
    by apply (get_spec _ _ _ _ _ I).
Qed.
End spec.

(** ** The race *)
Import FdRace.

(** An array of one free slot, a thread about to fill it and one about to enlarge
    the array. *)
Definition race_start : race :=
  {| sh := {| arrays := λ _, [None]; next_array := 1; files := 0; count := 1; generation := 0;
              in_realloc := false |};
     realloc_at := R_enter; set_at := S_generation |}.

(** [set_file_info] may report failure although it has done its work: when
    the array is enlarged meanwhile, the pointer that was stored is copied to the
    new array, the loop tries again and finds its own pointer there.  The caller
    then frees the object, which the array goes on pointing to. *)
Theorem set_file_info_race (a : addr) :
  ∃ r, rtc (race_step 0 None (Some a)) race_start r ∧
    realloc_at r = R_done ∧ set_at r = S_done (Err EBUSY) ∧ FdRace.slot r 0 = Some a.
Proof.
  exists (run 0 None (Some a)
    [true; false; false; false; false; true; true; true; true; true; true; true; false; false; false]
    race_start).
  split; [apply run_steps|]. vm_compute. by split_and!.
Qed.
End FdManagerSpec.

(** ** Examples *)
Module FdManagerExamples.
Import FdManagerSpec.

(** A pool of at most eight objects, in trunks of one. *)
Record small_pool := { made : nat; taken : gset addr }.
Definition pool_objs (m : small_pool) : gset addr := list_to_set (seq 0 (Nat.min (made m) 8)).
Definition free_object (m : small_pool) : option (nat * addr) :=
  list_find (λ a, a ∉ taken m) (seq 0 (Nat.min (made m) 8)).

#[export] Instance small_allocator : FinfoAllocator small_pool := {|
  mb_grow m :=
    match free_object m with
    | Some _ => (Some [], m)
    | None => if (made m <? 8)%nat
              then (Some [made m], {| made := S (made m); taken := taken m |}) else (None, m)
    end;
  mb_drop _ m := m;
  mb_take m :=
    match free_object m with
    | Some (_, a) => (Some a, {| made := made m; taken := {[a]} ∪ taken m |})
    | None => (None, m)
    end;
  mb_put a m := {| made := made m; taken := taken m ∖ {[a]} |};
  mb_objs := pool_objs;
  mb_used := taken;
|}.

#[export] Instance small_laws : FinfoAllocatorLaws small_pool.
Proof.
  split.
  - intros m l m'. simpl. destruct (free_object m).
    { intros [= <- <-]. split_and!; [constructor|set_solver..]. }
    destruct (Nat.ltb_spec (made m) 8) as [Hlt|]; [|done]. intros [= <- <-].
    unfold pool_objs. cbn [made taken].
    rewrite (Nat.min_l (made m)) by lia. rewrite (Nat.min_l (S _)) by lia. split_and!.
    + apply NoDup_singleton.
    + intros x Hx Hs. rewrite elem_of_list_to_set, elem_of_seq in Hs. apply elem_of_list_to_set, list_elem_of_singleton in Hx. lia.
    + rewrite seq_S. simpl. set_solver.
    + done.
  - intros m m'. simpl. destruct (free_object m); [done|]. by destruct (_ <? _)%nat; intros [= <-].
  - intros m a m'. simpl. destruct (free_object m) as [[i b]|] eqn:E; [|done]. intros [= <- <-].
    apply list_find_Some in E as (Hi & Hb & _). simpl. split_and!; [|done..].
    apply elem_of_list_to_set. by eapply list_elem_of_lookup_2.
  - intros m m'. simpl. destruct (free_object m) as [[i b]|]; [done|]. by intros [= <-].
  - done.
  - done.
  - intros m. simpl. unfold pool_objs. rewrite size_list_to_set by apply NoDup_seq. rewrite length_seq. lia.
Qed.

#[export] Instance unit_malloc : Malloc unit := {| fc_malloc _ w := (true, w) |}.
Lemma unit_malloc_ok n (w : unit) : (fc_malloc n w).1 = true.
Proof. done. Qed.

Definition fresh : FCFSFDManagerContext small_pool unit :=
  fcfs_fd_manager_init {| made := 0; taken := ∅ |} (λ _, {| filename := None; fd := 0 |}) tt.
Definition opened := (fcfs_fd_manager_alloc [x61] fresh).2.

Lemma fresh_reachable : reachable fresh.
Proof. by apply fd_init. Qed.
Lemma opened_reachable : reachable opened.
Proof. apply fd_alloc, fresh_reachable. Qed.

Lemma fd_typed_witness : in_sint 32 536870913 ∧ fcfs_fd_manager_get opened 536870913 = Some 0%nat.
Proof.
  assert (fcfs_fd_manager_get opened 536870913 = Some 0%nat) as Hg by (vm_compute; exact eq_refl).
  split; [|exact Hg].
  apply (fd_typed unit_malloc_ok opened 536870913 0%nat opened_reachable Hg).
Defined.

Lemma fd_table_refines_witness :
  ∃ c', fcfs_fd_manager_free 0%nat opened = (Ok tt, c') ∧ fd_view c' 536870913 = None.
Proof.
  destruct (fd_table_refines unit_malloc_ok opened opened_reachable) as (_ & Hfree & _).
  destruct (Hfree 536870913 0%nat) as (c' & Hr & Hv); [vm_compute; exact eq_refl|].
  exists c'. split; [exact Hr|]. rewrite Hv. exact eq_refl.
Defined.
End FdManagerExamples.
