(* ===== verification/Atomic.v ===== *)
(** * Programs made of atomic steps

    Handlers that share memory with other threads without a lock around all of it
    are written as sequences of atomic steps (a load, a compare-and-swap, what is
    done while a lock is held).  Run to its end without others such a program is an
    [M] computation; run beside others, its steps interleave with theirs.  A
    rely-guarantee rule carries what every single step does to all interleavings. *)
From S2P Require Import Prelude.

Module Atomic.

(** A program, and one that ends with a code or a value. *)
Inductive prog (S A : Type) : Type :=
| Done (a : A)
| Step (B : Type) (f : S → B * S) (k : B → prog S A).
Arguments Done {S A} _.
Arguments Step {S A B} _ _.

Definition P (S A : Type) : Type := prog S (result A).

Section programs.
Context {S : Type}.

Fixpoint prog_bind {A B} (p : prog S A) (k : A → prog S B) : prog S B :=
  match p with
  | Done a => k a
  | Step f q => Step f (λ b, prog_bind (q b) k)
  end.

#[global] Instance P_ret : MRet (P S) := λ A a, Done (Ok a).
#[global] Instance P_bind : MBind (P S) := λ A B k p,
  prog_bind p (λ r, match r with Ok a => k a | Err e => Done (Err e) end).

Definition fail {A} (e : errno) : P S A := Done (Err e).
Definition give {A} (r : result A) : P S A := Done r.
Definition atomic {A} (f : S → A * S) : P S A := Step f (λ a, Done (Ok a)).
Definition load {A} (f : S → A) : P S A := atomic (λ s, (f s, s)).
Definition update (f : S → S) : P S unit := atomic (λ s, (tt, f s)).

(** Alone, from beginning to end. *)
Fixpoint run_prog {A} (p : prog S A) (s : S) : A * S :=
  match p with
  | Done a => (a, s)
  | Step f k => let '(b, s) := f s in run_prog (k b) s
  end.
Definition run {A} (p : P S A) : M S A := run_prog p.

Lemma run_prog_bind {A B} (p : prog S A) (k : A → prog S B) s :
  run_prog (prog_bind p k) s = let '(a, s) := run_prog p s in run_prog (k a) s.
Proof.
  revert s. induction p as [a|C f q IH]; intros s; simpl; [done|].
  destruct (f s) as [b s']. apply IH.
Qed.

Lemma run_bind {A B} (p : P S A) (k : A → P S B) s :
  run (p ≫= k) s = (run p ≫= λ a, run (k a)) s.
Proof.
  unfold run, mbind at 1, P_bind, mbind, M_bind. rewrite run_prog_bind.
  by destruct (run_prog p s) as [[a|e] s'].
Qed.

(** ** Interleaving *)

(** What a program may rely on of the others, and what each of its steps has to
    guarantee, from the states where it may be. *)
Fixpoint safe {A} (R G : S → S → Prop) (H : S → Prop) (p : prog S A) : Prop :=
  match p with
  | Done _ => True
  | Step f k =>
      (∀ s, H s → G s (f s).2) ∧
      ∀ b, safe R G (λ s', ∃ s, H s ∧ (f s).1 = b ∧ R (f s).2 s') (k b)
  end.

Lemma safe_mono {A} (R G : S → S → Prop) (H H' : S → Prop) (p : prog S A) :
  (∀ s, H' s → H s) → safe R G H p → safe R G H' p.
Proof.
  revert H H'. induction p as [a|B f k IH]; intros H H' HH; simpl; [done|].
  intros [Hf Hk]. split; [naive_solver|]. intros b. eapply IH; [|apply Hk]. naive_solver.
Qed.

(** A bind, when the first part gives [a] only in states where [Q a] holds. *)
Fixpoint gives {A} (R : S → S → Prop) (H : S → Prop) (p : prog S A) (Q : A → S → Prop) : Prop :=
  match p with
  | Done a => ∀ s, H s → Q a s
  | Step f k => ∀ b, gives R (λ s', ∃ s, H s ∧ (f s).1 = b ∧ R (f s).2 s') (k b) Q
  end.

Lemma safe_prog_bind {A B} (R G : S → S → Prop) H (p : prog S A) (k : A → prog S B) (Q : A → S → Prop) :
  safe R G H p → gives R H p Q → (∀ a, safe R G (Q a) (k a)) → safe R G H (prog_bind p k).
Proof.
  revert H. induction p as [a|C f q IH]; intros H Hs Hg Hk; simpl in *.
  - by eapply safe_mono, Hk.
  - destruct Hs as [Hf Hs]. split; [done|]. intros b. by apply IH.
Qed.

(** What every step of a program keeps, the whole run keeps. *)
Lemma safe_run {A} (R G Q : S → S → Prop) `{!PreOrder Q} (H : S → Prop) (p : prog S A) s :
  (∀ s, R s s) → (∀ s s', G s s' → Q s s') → safe R G H p → H s → Q s (run_prog p s).2.
Proof.
  intros HR HG. revert H s. induction p as [a|B f k IH]; intros H s; simpl; [by intros|].
  intros [Hf Hk] Hs. specialize (Hf s Hs). specialize (Hk (f s).1). destruct (f s) as [b s'] eqn:E. simpl in *.
  etrans; [by apply HG|]. eapply IH; [exact Hk|]. exists s. by rewrite E.
Qed.

Section threads.
Context {J A : Type} (code : nat → J → prog S A).

(** Thread [c] runs the program of job [j]. *)
Record config := { shared : S; pool : nat → option (J * prog S A) }.

Inductive tstep (c : nat) : config → config → Prop :=
| t_start s p j :
    p c = None → tstep c {| shared := s; pool := p |}
                        {| shared := s; pool := <[c := Some (j, code c j)]> p |}
| t_act s p j B (f : S → B * S) k :
    p c = Some (j, Step f k) →
    tstep c {| shared := s; pool := p |}
           {| shared := (f s).2; pool := <[c := Some (j, k (f s).1)]> p |}
| t_end s p j a :
    p c = Some (j, Done a) →
    tstep c {| shared := s; pool := p |} {| shared := s; pool := <[c := None]> p |}.

Inductive treachable (s0 : S) : config → Prop :=
| t_init p : (∀ c, p c = None) → treachable s0 {| shared := s0; pool := p |}
| t_next c x y : treachable s0 x → tstep c x y → treachable s0 y.

Context (R : nat → S → S → Prop) (G : nat → J → S → S → Prop).
Hypothesis R_pre : ∀ c, PreOrder (R c).
Hypothesis G_R : ∀ c c' j s s', G c j s s' → c ≠ c' → R c' s s'.
Hypothesis code_safe : ∀ c j, safe (R c) (G c j) (λ _, True) (code c j).

Definition pool_safe (x : config) : Prop :=
  ∀ c j p, pool x c = Some (j, p) → ∃ H, H (shared x) ∧ safe (R c) (G c j) H p ∧
    (∀ s s', H s → R c s s' → H s').

Lemma step_guarantee c x y :
  pool_safe x → tstep c x y →
  pool_safe y ∧ (shared y = shared x ∨ ∃ j p, pool x c = Some (j, p) ∧ G c j (shared x) (shared y)).
Proof.
  intros Hx Hs. destruct Hs as [s p j Hc|s p j B f k Hc|s p j a Hc]; simpl.
  - split; [|by left]. intros c' j' p' Hp. simpl in Hp. destruct (decide (c = c')) as [<-|].
    + rewrite fn_lookup_insert in Hp. simplify_eq. by exists (λ _, True).
    + rewrite fn_lookup_insert_ne in Hp by done. by apply (Hx c').
  - destruct (Hx c j _ Hc) as (H & Hh & [Hf Hk] & Hst). simpl in Hh.
    specialize (Hf _ Hh). split; [|right; by exists j, (Step f k)].
    intros c' j' p' Hp. simpl in Hp. destruct (decide (c = c')) as [<-|Hne].
    + rewrite fn_lookup_insert in Hp. simplify_eq. simpl. eexists. split_and!; [|apply Hk|].
      * exists s. split_and!; [done..|reflexivity].
      * intros s1 s2 (s3 & H1 & H2 & H3) HR. exists s3. split_and!; [done..|by etrans].
    + rewrite fn_lookup_insert_ne in Hp by done. destruct (Hx c' j' p' Hp) as (H' & Hh' & Hs' & Hst').
      exists H'. split_and!; [|done..]. eapply Hst'; [done|]. by eapply G_R.
  - split; [|by left]. intros c' j' p' Hp. simpl in Hp. destruct (decide (c = c')) as [<-|].
    + by rewrite fn_lookup_insert in Hp.
    + rewrite fn_lookup_insert_ne in Hp by done. by apply (Hx c').
Qed.

(** Whatever the interleaving, a step that changes the memory is one of the steps
    that the thread's program guarantees. *)
Lemma threads_guarantee s0 c x y :
  treachable s0 x → tstep c x y →
  shared y = shared x ∨ ∃ j p, pool x c = Some (j, p) ∧ G c j (shared x) (shared y).
Proof.
  intros Hr Hs. assert (pool_safe x) as Hx; [|by apply (step_guarantee c x y)].
  clear Hs. induction Hr as [p Hp|c' x' y' _ IH Hs]; [|by apply (step_guarantee c' x' y')].
  intros c' j' p' Hc. simpl in Hc. by rewrite Hp in Hc.
Qed.
End threads.
End programs.
Arguments config : clear implicits.
End Atomic.
