(* ===== verification/VoteServer.v ===== *)
(** * The vote server (src/vote/server/service_group_htable.c, service_handler.c,
      common_handler.c)

    Servers of other clusters join the group of their service to vote: the group
    remembers the leader as long as the leader's connection lasts, and arbitrates
    between candidates in two phases.  [leader_id] and [next_leader] of a group are
    loaded and swapped without a lock, so that the handlers are programs of atomic
    steps; what is done under the lock of a bucket is one step.  A connection is a
    number, the address of its task; tasks are reused for later connections. *)
From Stdlib Require Import Init.Byte.
From S2P Require Import Prelude Fastcommon AuthProto ServiceHandler Atomic.
Import AuthProto Atomic.
Import ServiceHandler(request, cmd, body, behind, response, resp_cmd, resp_body, cluster_vars, servers,
  CLUSTER_MASTER_PTR, CLUSTER_NEXT_MASTER, CLUSTER_MYSELF_PTR, MYSELF_IS_MASTER, switch, body_len,
  FCFSAuthClusterServerInfo, server_id, is_online, pack_server).
Local Open Scope Z_scope.

Module VoteServer.

(** ** Constants (vote_proto.h, vote_types.h, server_types.h) *)
Definition FCFS_VOTE_SERVICE_PROTO_GET_MASTER_REQ : Z := 61.
Definition FCFS_VOTE_SERVICE_PROTO_GET_MASTER_RESP : Z := 62.
Definition FCFS_VOTE_SERVICE_PROTO_CLIENT_JOIN_REQ : Z := 63.
Definition FCFS_VOTE_SERVICE_PROTO_CLIENT_JOIN_RESP : Z := 64.
Definition FCFS_VOTE_SERVICE_PROTO_PRE_SET_NEXT_LEADER : Z := 67.
Definition FCFS_VOTE_SERVICE_PROTO_COMMIT_NEXT_LEADER : Z := 69.
Definition FCFS_VOTE_SERVICE_PROTO_ACTIVE_CHECK_REQ : Z := 71.
Definition FCFS_VOTE_SERVICE_PROTO_ACTIVE_CHECK_RESP : Z := 72.
Definition FCFS_VOTE_SERVICE_PROTO_CLUSTER_STAT_REQ : Z := 77.
Definition FCFS_VOTE_SERVICE_PROTO_CLUSTER_STAT_RESP : Z := 78.
Definition FCFS_VOTE_SERVICE_ID_FAUTH : Z := 65.
Definition FCFS_VOTE_SERVICE_ID_FDIR : Z := 68.
Definition FCFS_VOTE_SERVICE_ID_FSTORE : Z := 83.
Definition VOTE_SERVER_TASK_TYPE_NONE : Z := 0.
Definition VOTE_SERVER_TASK_TYPE_VOTE_NODE : Z := 1.

(** What libserverframe defines for status requests and acknowledgements. *)
Class VoteFrame := {
  SF_PROTO_ACK : Z;
  SF_CLUSTER_PROTO_GET_SERVER_STATUS_REQ : Z;
  SF_CLUSTER_PROTO_GET_SERVER_STATUS_RESP : Z;
  sizeof_SFProtoGetServerStatusReq : Z;
  SF_CLUSTER_CONFIG_SIGN_LEN : Z;
  (** [SFProtoGetServerResp]: the struct from id, address and port, and its fields *)
  server_resp : Z → string_t → Z → list byte;
  sizeof_SFProtoGetServerResp : Z;
  server_resp_id : list byte → Z;
  server_resp_ip : list byte → string_t;
  server_resp_port : list byte → Z;
  (** [SFProtoGetServerStatusReq] from servers_sign, cluster_sign, server_id and is_leader *)
  sf_proto_get_server_status_pack : list byte → option (list byte) → Z → bool → list byte;
}.
Definition FCFS_VOTE_SERVICE_PROTO_GET_VOTE_REQ `{!VoteFrame} : Z := SF_CLUSTER_PROTO_GET_SERVER_STATUS_REQ.
Definition FCFS_VOTE_SERVICE_PROTO_GET_VOTE_RESP `{!VoteFrame} : Z := SF_CLUSTER_PROTO_GET_SERVER_STATUS_RESP.

(** ** Data *)

Record FCFSVoteServiceGroupInfo := {
  hash_code : Z; service_id : Z; response_size : Z; group_id : Z;
  next_leader : Z; leader_id : Z;
  task : option nat;
  next : option addr;
}.

(** The part of a task that a handler uses: its type and [SERVICE_PEER]. *)
Record task_arg := {
  SERVER_TASK_TYPE : Z;
  peer_group : option addr;
  peer_server_id : Z;
  peer_persistent : bool;
}.

Definition htable_capacity : Z := 1361.

Section server.
Context {MB : Type} `{!Mblock MB}.

(** [closing]: the tasks told to close, oldest first. *)
Record vote_state := {
  allocator : MB;
  groups : addr → FCFSVoteServiceGroupInfo;
  buckets : list (option addr);
  tasks : nat → task_arg;
  closing : list nat;
}.
Abbreviation S := vote_state.

Definition set_table m g b (s : S) : S := {| allocator := m; groups := g; buckets := b;
  tasks := tasks s; closing := closing s |}.
Definition set_groups g (s : S) : S := {| allocator := allocator s; groups := g;
  buckets := buckets s; tasks := tasks s; closing := closing s |}.
Definition set_tasks t (s : S) : S := {| allocator := allocator s; groups := groups s;
  buckets := buckets s; tasks := t; closing := closing s |}.
Definition notify_close (t : nat) (s : S) : S := {| allocator := allocator s; groups := groups s;
  buckets := buckets s; tasks := tasks s; closing := closing s ++ [t] |}.

Definition set_leader x (g : FCFSVoteServiceGroupInfo) := {| hash_code := hash_code g;
  service_id := service_id g; response_size := response_size g; group_id := group_id g;
  next_leader := next_leader g; leader_id := x; task := task g; next := next g |}.
Definition set_next_leader x (g : FCFSVoteServiceGroupInfo) := {| hash_code := hash_code g;
  service_id := service_id g; response_size := response_size g; group_id := group_id g;
  next_leader := x; leader_id := leader_id g; task := task g; next := next g |}.
Definition set_task x (g : FCFSVoteServiceGroupInfo) := {| hash_code := hash_code g;
  service_id := service_id g; response_size := response_size g; group_id := group_id g;
  next_leader := next_leader g; leader_id := leader_id g; task := x; next := next g |}.

(** [__sync_bool_compare_and_swap] on the two fields *)
Definition cas_leader (g : addr) (old new : Z) : P S bool := atomic (λ s,
  if leader_id (groups s g) =? old
  then (true, set_groups (alter (set_leader new) g (groups s)) s) else (false, s)).
Definition cas_next_leader (g : addr) (old new : Z) : P S bool := atomic (λ s,
  if next_leader (groups s g) =? old
  then (true, set_groups (alter (set_next_leader new) g (groups s)) s) else (false, s)).

(** ** The hash table of the groups *)

(** All buckets are empty; the memory of the pool as it comes. *)
Definition service_group_htable_init (m : MB) (g : addr → FCFSVoteServiceGroupInfo) (t : nat → task_arg) : S :=
  {| allocator := m; groups := g; buckets := replicate (Z.to_nat htable_capacity) None;
     tasks := t; closing := [] |}.

Definition group_hash (sid gid : Z) : Z :=
  uint64 (Z.lor (Z.shiftl (int64 sid) 32) (int64 gid)).
Definition bucket_index (hash : Z) : nat := Z.to_nat (hash mod htable_capacity).
Definition bucket (s : S) (hash : Z) : option addr := default None (buckets s !! bucket_index hash).

(** The chain of a bucket is no longer than the number of objects. *)
Fixpoint find_group (fuel : nat) (g : addr → FCFSVoteServiceGroupInfo) (p : option addr) (hash : Z)
    : option addr :=
  match fuel, p with
  | Datatypes.S fuel, Some a => if hash =? hash_code (g a) then Some a else find_group fuel g (next (g a)) hash
  | _, _ => None
  end.
Definition fuel_of (s : S) : nat := Datatypes.S (size (mb_live (allocator s))).

(** The search, and the new object when there is none; the flag tells which.
    [next_leader] of a new object is what the memory holds. *)
Definition htable_lookup (sid gid leader rsize : Z) (t : option nat) (s : S)
    : option (addr * bool) * S :=
  let hash := group_hash sid gid in
  match find_group (fuel_of s) (groups s) (bucket s hash) hash with
  | Some a => (Some (a, false), s)
  | None =>
      match mb_alloc 0 (allocator s) with
      | (None, m) => (None, set_table m (groups s) (buckets s) s)
      | (Some a, m) =>
          (Some (a, true),
           set_table m
             (alter (λ x, {| hash_code := hash; service_id := sid; response_size := rsize;
                             group_id := gid; next_leader := next_leader x; leader_id := leader;
                             task := if 0 <? leader then t else None;
                             next := bucket s hash |}) a (groups s))
             (<[bucket_index hash := Some a]> (buckets s)) s)
      end
  end.

Definition replace_task (g : addr) (t : option nat) : P S unit := update (λ s,
  match t with
  | Some x =>
      if bool_decide (task (groups s g) = Some x) then s
      else
        let s := match task (groups s g) with Some old => notify_close old s | None => s end in
        set_groups (alter (set_task (Some x)) g (groups s)) s
  | None => s
  end).

(** The result, and [*group]. *)
Definition service_group_htable_get (sid gid leader rsize : Z) (t : option nat)
    : P S (result unit * option addr) :=
  found ← atomic (htable_lookup sid gid leader rsize t);
  match found with
  | None => mret (Err ENOMEM, None)
  | Some (g, true) => mret (Ok tt, Some g)
  | Some (g, false) =>
      if 0 <? leader then
        old ← load (λ s, leader_id (groups s g));
        r ← (if old =? 0 then
               swapped ← cas_leader g old leader;
               mret (if swapped : bool then Ok tt else Err SF_CLUSTER_ERROR_LEADER_INCONSISTENT)
             else if old =? leader then mret (Ok tt)
             else mret (Err SF_CLUSTER_ERROR_LEADER_INCONSISTENT));
        match r with
        | Ok _ => _ ← replace_task g t; mret (Ok tt, Some g)
        | Err e => mret (Err e, Some g)
        end
      else mret (Ok tt, Some g)
  end.

Definition service_group_htable_unset_task (g : addr) : P S unit :=
  update (λ s, set_groups (alter (set_task None) g (groups s)) s).

Fixpoint chain_tasks (fuel : nat) (g : addr → FCFSVoteServiceGroupInfo) (p : option addr) : list nat :=
  match fuel, p with
  | Datatypes.S fuel, Some a => match task (g a) with Some t => [t] | None => [] end ++ chain_tasks fuel g (next (g a))
  | _, _ => []
  end.
(** The lock of each bucket is taken in turn. *)
Fixpoint clear_buckets (n : nat) (i : nat) : P S unit :=
  match n with
  | O => mret tt
  | Datatypes.S n =>
      _ ← update (λ s, foldl (λ s t, notify_close t s) s
                         (chain_tasks (fuel_of s) (groups s) (default None (buckets s !! i))));
      clear_buckets n (Datatypes.S i)
  end.
Definition service_group_htable_clear_tasks : P S unit := clear_buckets (Z.to_nat htable_capacity) 0.

(** ** Handlers *)
Context `{!BuffCodec, !ServerFrame, !VoteFrame}.

(** The room for the body of a response; the digest of the configuration. *)
Variable send_space : Z.
Variable CLUSTER_CONFIG_SIGN_BUF : list byte.
Variable IP_ADDRESS_SIZE : Z.
Variable address_by_peer : FCFSAuthClusterServerInfo → string_t * Z.

Definition set_peer t (x : task_arg) : P S unit := update (λ s, set_tasks (<[t := x]> (tasks s)) s).

Definition ack : response := {| resp_cmd := SF_PROTO_ACK; resp_body := [] |}.

Definition service_recv_timeout_callback (t : nat) : P S unit :=
  x ← load (λ s, tasks s t);
  if (SERVER_TASK_TYPE x =? VOTE_SERVER_TASK_TYPE_VOTE_NODE) && bool_decide (peer_group x ≠ None)
  then fail ETIMEDOUT else mret tt.

(** [EFAULT]: a null pointer is followed. *)
Definition service_task_finish_cleanup (t : nat) : P S unit :=
  x ← load (λ s, tasks s t);
  if SERVER_TASK_TYPE x =? VOTE_SERVER_TASK_TYPE_VOTE_NODE then
    match peer_group x with
    | None => fail EFAULT
    | Some g =>
        swapped ← cas_leader g (peer_server_id x) 0;
        pers ← (if (swapped : bool) && peer_persistent x
                then _ ← service_group_htable_unset_task g; mret false
                else mret (peer_persistent x));
        set_peer t {| SERVER_TASK_TYPE := VOTE_SERVER_TASK_TYPE_NONE; peer_group := None;
                      peer_server_id := 0; peer_persistent := pers |}
    end
  else mret tt.

(** [FCFSVoteProtoClientJoinReq] *)
Definition sizeof_FCFSVoteProtoClientJoinReq : Z := 16 + SF_CLUSTER_CONFIG_SIGN_LEN.

Definition service_check_config_sign (config_sign : list byte) : result unit :=
  if bool_decide (config_sign = CLUSTER_CONFIG_SIGN_BUF) then Ok tt else Err EFAULT.

(** The locals of [service_deal_client_join]. *)
Record join_args := {
  j_server_id : Z; j_group_id : Z; j_response_size : Z; j_service_id : Z;
  j_is_leader : bool; j_persistent : bool;
}.
Definition join_request (b : list byte) : join_args :=
  {| j_server_id := buff2int (bytes_at b 0 4);
     j_group_id := buff2int (bytes_at b 4 4);
     j_response_size := buff2short (bytes_at b 8 2);
     j_service_id := char_at b 11;
     j_is_leader := negb (char_at b 10 =? 0);
     j_persistent := negb (char_at b 12 =? 0) |}.

(** The checks of the request itself. *)
Definition join_check (req : request) : result join_args :=
  let a := join_request (body req) in
  match server_expect_body_length (body_len req) sizeof_FCFSVoteProtoClientJoinReq with
  | Err e => Err e
  | Ok _ =>
      if negb (bool_decide (j_service_id a ∈ [FCFS_VOTE_SERVICE_ID_FAUTH; FCFS_VOTE_SERVICE_ID_FDIR;
                                              FCFS_VOTE_SERVICE_ID_FSTORE])) then Err (NEG EINVAL)
      else if j_server_id a <=? 0 then Err (NEG EINVAL)
      else if (j_response_size a <=? 0) || (j_response_size a >? send_space) then Err (NEG EINVAL)
      else if j_persistent a && negb (j_is_leader a) then Err (NEG EINVAL)
      else match service_check_config_sign (bytes_at (body req) 16 SF_CLUSTER_CONFIG_SIGN_LEN) with
           | Err e => Err e
           | Ok _ => Ok a
           end
  end.

(** The size of the responses is an [int] here and a [short] in the table. *)
Definition service_deal_client_join (t : nat) (req : request) : P S response :=
  a ← give (join_check req);
  x ← load (λ s, tasks s t);
  if bool_decide (peer_group x ≠ None) then fail EEXIST
  else
    '(r, g) ← service_group_htable_get (j_service_id a) (j_group_id a)
                (if j_persistent a && j_is_leader a then j_server_id a else 0) (sint_wrap 16 (j_response_size a))
                (if j_persistent a then Some t else None);
    _ ← give r;
    _ ← set_peer t {| SERVER_TASK_TYPE := VOTE_SERVER_TASK_TYPE_VOTE_NODE; peer_group := g;
                      peer_server_id := j_server_id a; peer_persistent := j_persistent a |};
    mret {| resp_cmd := FCFS_VOTE_SERVICE_PROTO_CLIENT_JOIN_RESP; resp_body := [] |}.

(** The group and the server id of a connection that has joined. *)
Definition service_check_login (t : nat) : P S (addr * Z) :=
  x ← load (λ s, tasks s t);
  if SERVER_TASK_TYPE x =? VOTE_SERVER_TASK_TYPE_VOTE_NODE then
    match peer_group x with Some g => mret (g, peer_server_id x) | None => fail EPERM end
  else fail EPERM.

(** A negative size makes [memset] run over the memory of the process. *)
Definition service_deal_get_vote (t : nat) (req : request) : P S response :=
  _ ← give (server_expect_body_length (body_len req) sizeof_SFProtoGetServerStatusReq);
  '(g, _) ← service_check_login t;
  n ← load (λ s, response_size (groups s g));
  if n <? 0 then fail EFAULT
  else mret {| resp_cmd := FCFS_VOTE_SERVICE_PROTO_GET_VOTE_RESP; resp_body := replicate (Z.to_nat n) x00 |}.

Definition service_deal_active_check (t : nat) (req : request) : P S response :=
  _ ← give (server_expect_body_length (body_len req) 0);
  '(g, me) ← service_check_login t;
  leader ← load (λ s, leader_id (groups s g));
  if negb (leader =? me) then fail SF_CLUSTER_ERROR_LEADER_INCONSISTENT
  else mret {| resp_cmd := FCFS_VOTE_SERVICE_PROTO_ACTIVE_CHECK_RESP; resp_body := [] |}.

Definition service_deal_next_leader (t : nat) (req : request) : P S response :=
  _ ← give (server_expect_body_length (body_len req) 0);
  '(g, me) ← service_check_login t;
  old ← load (λ s, leader_id (groups s g));
  if negb (old =? 0) then
    if old =? me then mret ack else fail SF_CLUSTER_ERROR_LEADER_INCONSISTENT
  else
    nxt ← load (λ s, next_leader (groups s g));
    if cmd req =? FCFS_VOTE_SERVICE_PROTO_PRE_SET_NEXT_LEADER then
      if nxt =? 0 then
        swapped ← cas_next_leader g 0 me;
        if swapped : bool then mret ack else fail SF_CLUSTER_ERROR_LEADER_INCONSISTENT
      else if nxt =? me then mret ack
      else _ ← cas_next_leader g nxt 0; fail SF_CLUSTER_ERROR_LEADER_INCONSISTENT
    else
      _ ← cas_next_leader g nxt 0;
      if negb (nxt =? me) then fail SF_CLUSTER_ERROR_LEADER_INCONSISTENT
      else
        swapped ← cas_leader g 0 me;
        if swapped : bool then mret ack
        else
          leader ← load (λ s, leader_id (groups s g));
          if leader =? me then mret ack else fail SF_CLUSTER_ERROR_LEADER_INCONSISTENT.

(** ** The cluster of the vote servers themselves *)

Fixpoint cluster_stat_parts (master : option nat) (i : nat) (l : list FCFSAuthClusterServerInfo)
    : list (list byte) :=
  match l with
  | [] => []
  | cs :: l =>
      let is_master := bool_decide (master = Some i) in
      pack_server IP_ADDRESS_SIZE (is_master || is_online cs) is_master cs ::
      cluster_stat_parts master (Datatypes.S i) l
  end.
Definition service_deal_cluster_stat (cluster : cluster_vars) (req : request) : P S response :=
  _ ← give (server_expect_body_length (body_len req) 0);
  mret {| resp_cmd := FCFS_VOTE_SERVICE_PROTO_CLUSTER_STAT_RESP;
          resp_body := int2buff (Z.of_nat (length (servers cluster))) ++ [x00; x00; x00; x00] ++
                       mjoin (cluster_stat_parts (CLUSTER_MASTER_PTR cluster) 0 (servers cluster)) |}.

Definition fcfs_vote_deal_get_master (cluster : cluster_vars) (c : Z) (req : request) : P S response :=
  _ ← give (server_expect_body_length (body_len req) 0);
  let master := match CLUSTER_MASTER_PTR cluster with
                | Some m => Some m
                | None => CLUSTER_NEXT_MASTER cluster
                end in
  match m ← master; servers cluster !! m with
  | None => fail SF_RETRIABLE_ERROR_NO_SERVER
  | Some cs =>
      let '(ip, port) := address_by_peer cs in
      mret {| resp_cmd := c; resp_body := server_resp (server_id cs) ip port |}
  end.

(** ** Dispatch *)
Definition service_process (cluster : cluster_vars) (t : nat) (req : request) : P S response :=
  let c := cmd req in
  if negb (MYSELF_IS_MASTER cluster) &&
     negb ((c =? FCFS_VOTE_SERVICE_PROTO_GET_MASTER_REQ) || (c =? SF_SERVICE_PROTO_GET_LEADER_REQ))
  then fail SF_RETRIABLE_ERROR_NOT_MASTER
  else
    switch c
      [(SF_PROTO_ACTIVE_TEST_REQ,
          _ ← give (sf_proto_deal_active_test (body req));
          mret {| resp_cmd := SF_PROTO_ACTIVE_TEST_RESP; resp_body := [] |});
       (FCFS_VOTE_SERVICE_PROTO_CLUSTER_STAT_REQ, service_deal_cluster_stat cluster req);
       (FCFS_VOTE_SERVICE_PROTO_GET_MASTER_REQ,
          fcfs_vote_deal_get_master cluster FCFS_VOTE_SERVICE_PROTO_GET_MASTER_RESP req);
       (SF_SERVICE_PROTO_GET_LEADER_REQ,
          fcfs_vote_deal_get_master cluster SF_SERVICE_PROTO_GET_LEADER_RESP req);
       (FCFS_VOTE_SERVICE_PROTO_CLIENT_JOIN_REQ, service_deal_client_join t req);
       (FCFS_VOTE_SERVICE_PROTO_GET_VOTE_REQ, service_deal_get_vote t req);
       (FCFS_VOTE_SERVICE_PROTO_PRE_SET_NEXT_LEADER, service_deal_next_leader t req);
       (FCFS_VOTE_SERVICE_PROTO_COMMIT_NEXT_LEADER, service_deal_next_leader t req);
       (FCFS_VOTE_SERVICE_PROTO_ACTIVE_CHECK_REQ, service_deal_active_check t req)]
      (fail (NEG EINVAL)).
End server.
Arguments vote_state : clear implicits.
End VoteServer.
