(* ===== verification/VoteSpec.v ===== *)
(** * What the vote server promises

    The groups as a map from service and group number to a leader and a candidate, and
    the connections that have joined them: the abstract server.  The handlers of
    [VoteServer.v], run one after the other, are exactly its operations; run beside
    each other, their single steps still hand the leadership over only through
    nobody. *)
From Stdlib Require Import Init.Byte.
From S2P Require Import Prelude Fastcommon AuthProto ServiceHandler ServiceProofs SessionSubscribeProofs Atomic VoteServer.
Import AuthProto Atomic VoteServer.
Import ServiceProofs(switch_cases).
Import ServiceHandler(request, cmd, body, response, resp_cmd, resp_body, cluster_vars, servers,
  MYSELF_IS_MASTER, switch, body_len, FCFSAuthClusterServerInfo).
Local Open Scope Z_scope.

Module VoteTable.
Section table.
Context {MB : Type} `{!Mblock MB, !MblockLaws MB}.
Abbreviation S := (vote_state MB).
Implicit Types (s : S) (g : addr → FCFSVoteServiceGroupInfo).

(** ** Chains *)

Fixpoint chain g (p : option addr) (l : list addr) : Prop :=
  match l with
  | [] => p = None
  | a :: l => p = Some a ∧ chain g (next (g a)) l
  end.

Lemma group_chain_frame g g' p l : (∀ a, a ∈ l → next (g' a) = next (g a)) → chain g p l → chain g' p l.
Proof.
  revert p. induction l as [|a l IH]; intros p Hf; simpl; [done|]. intros [-> Hc].
  split; [done|]. rewrite Hf by set_solver. apply IH; [set_solver|done].
Qed.

(** The search stops at the first object of the chain with the hash. *)
Lemma find_group_chain fuel g p l h : chain g p l → (length l ≤ fuel)%nat →
  match find_group fuel g p h with
  | Some a => a ∈ l ∧ hash_code (g a) = h
  | None => ∀ a, a ∈ l → hash_code (g a) ≠ h
  end.
Proof.
  revert fuel p. induction l as [|a l IH]; intros fuel p Hc Hlen; simpl in Hc.
  - subst p. destruct fuel; simpl; by intros a ?%not_elem_of_nil.
  - destruct Hc as [-> Hc]. destruct fuel as [|fuel]; simpl in Hlen; [lia|]. simpl.
    destruct (Z.eqb_spec h (hash_code (g a))) as [->|Hne]; [split; [left|done]|].
    specialize (IH fuel (next (g a)) Hc ltac:(lia)). destruct (find_group fuel g _ h) as [b|].
    + destruct IH as [? ?]. split; [by right|done].
    + intros b [->|Hb]%elem_of_cons; [congruence|by apply IH].
Qed.

(** ** The table *)

(** The keys that clients use: a service, and a group number that is not negative. *)
Definition key_ok (k : Z * Z) : Prop := 0 ≤ k.1 < 2 ^ 15 ∧ 0 ≤ k.2 < 2 ^ 31.
Definition key_of (x : FCFSVoteServiceGroupInfo) : Z * Z := (service_id x, group_id x).

Record table_ok s (cs : list (list addr)) : Prop := {
  to_length : length cs = Z.to_nat htable_capacity;
  to_buckets : length (buckets s) = length cs;
  to_chain i l : cs !! i = Some l → chain (groups s) (default None (buckets s !! i)) l;
  to_index i l a : cs !! i = Some l → a ∈ l → bucket_index (hash_code (groups s a)) = i;
  to_nodup i l : cs !! i = Some l → NoDup l;
  to_live a : a ∈ mb_live (allocator s) ↔ ∃ i l, cs !! i = Some l ∧ a ∈ l;
  to_unique a b : a ∈ mb_live (allocator s) → b ∈ mb_live (allocator s) →
    hash_code (groups s a) = hash_code (groups s b) → a = b;
  to_key a : a ∈ mb_live (allocator s) →
    key_ok (key_of (groups s a)) ∧
    hash_code (groups s a) = group_hash (service_id (groups s a)) (group_id (groups s a));
}.

Definition group_at s (h : Z) : option addr := find_group (fuel_of s) (groups s) (bucket s h) h.

Lemma bucket_index_lt h : (bucket_index h < Z.to_nat htable_capacity)%nat.
Proof. unfold bucket_index, htable_capacity. pose proof (Z.mod_pos_bound h 1361). lia. Qed.

Lemma table_chain s cs h : table_ok s cs → ∃ l, cs !! bucket_index h = Some l ∧
  chain (groups s) (bucket s h) l ∧ (length l ≤ fuel_of s)%nat.
Proof.
  intros T. destruct (lookup_lt_is_Some_2 cs (bucket_index h)) as [l Hl].
  { rewrite (to_length _ _ T). apply bucket_index_lt. }
  exists l. split_and!; [done|by apply (to_chain _ _ T)|]. unfold fuel_of. apply Nat.le_le_succ_r.
  rewrite <- (size_list_to_set (C:=gset addr)) by by eapply (to_nodup _ _ T).
  apply subseteq_size. intros a Ha%elem_of_list_to_set. apply (to_live _ _ T). by exists (bucket_index h), l.
Qed.

Lemma group_at_some s cs h a : table_ok s cs →
  group_at s h = Some a ↔ a ∈ mb_live (allocator s) ∧ hash_code (groups s a) = h.
Proof.
  intros T. destruct (table_chain s cs h T) as (l & Hl & Hc & Hlen).
  pose proof (find_group_chain _ _ _ _ h Hc Hlen) as Hf. fold (group_at s h) in Hf. split.
  - intros E. rewrite E in Hf. destruct Hf as [Ha Hh]. split; [|done]. apply (to_live _ _ T). by exists (bucket_index h), l.
  - intros [Ha Hh]. pose proof Ha as Hlive. apply (to_live _ _ T) in Ha as (i & l' & Hl' & Hal').
    pose proof (to_index _ _ T _ _ _ Hl' Hal') as Hi. rewrite Hh in Hi. subst i. simplify_eq.
    destruct (group_at s (hash_code (groups s a))) as [b|]; [|by destruct (Hf a Hal')].
    destruct Hf as [Hb Hbh]. f_equal. apply (to_unique _ _ T); [|done..]. apply (to_live _ _ T).
    by exists (bucket_index (hash_code (groups s a))), l.
Qed.

(** Changes of the leader, the candidate or the task keep the table. *)
Definition same_keys (x y : FCFSVoteServiceGroupInfo) : Prop :=
  hash_code x = hash_code y ∧ service_id x = service_id y ∧ group_id x = group_id y ∧ next x = next y.

Lemma table_ok_fields s s' cs :
  allocator s' = allocator s → buckets s' = buckets s →
  (∀ a, same_keys (groups s' a) (groups s a)) → table_ok s cs → table_ok s' cs.
Proof.
  intros Ha Hb Hk [T1 T2 T3 T4 T5 T6 T7 T8]. split; rewrite ?Ha, ?Hb; try done.
  - intros i l Hl. eapply group_chain_frame, T3, Hl. intros a _. apply Hk.
  - intros i l a Hl Hal. destruct (Hk a) as [-> _]. by eapply T4.
  - intros a b Hla Hlb. destruct (Hk a) as [-> _], (Hk b) as [-> _]. by apply T7.
  - intros a Hla. unfold key_of. destruct (Hk a) as (-> & -> & -> & _). by apply T8.
Qed.

Lemma group_at_fields s s' cs h :
  allocator s' = allocator s → buckets s' = buckets s →
  (∀ a, same_keys (groups s' a) (groups s a)) → table_ok s cs → group_at s' h = group_at s h.
Proof.
  intros Ha Hb Hk T. pose proof (table_ok_fields s s' cs Ha Hb Hk T) as T'.
  apply option_eq. intros a. rewrite (group_at_some s' cs), (group_at_some s cs) by done.
  destruct (Hk a) as [-> _]. by rewrite Ha.
Qed.

(** ** Hash codes *)

Lemma lor_shiftl_add a b n : 0 ≤ n → 0 ≤ b < 2 ^ n → Z.lor (Z.shiftl a n) b = a * 2 ^ n + b.
Proof.
  intros Hn Hb. rewrite Z.shiftl_mul_pow2 by lia. symmetry. apply Z.add_nocarry_lor.
  apply Z.bits_inj'. intros i Hi. rewrite Z.land_spec, Z.bits_0. destruct (Z_lt_le_dec i n) as [Hin|Hin].
  - by rewrite Z.mul_pow2_bits_low.
  - apply andb_false_iff. right. rewrite <- (Z.mod_small b (2 ^ n)) by done. apply Z.mod_pow2_bits_high. lia.
Qed.

Lemma group_hash_eq k : key_ok k → group_hash k.1 k.2 = k.1 * 2 ^ 32 + k.2.
Proof.
  intros [H1 H2]. unfold group_hash. replace (int64 k.1) with k.1 by wrap_lia.
  replace (int64 k.2) with k.2 by wrap_lia. rewrite lor_shiftl_add by lia. wrap_lia.
Qed.

Lemma group_hash_inj k k' : key_ok k → key_ok k' → group_hash k.1 k.2 = group_hash k'.1 k'.2 → k = k'.
Proof.
  intros Hk Hk'. rewrite !group_hash_eq by done. destruct k as [a b], k' as [a' b'], Hk as [? ?], Hk' as [? ?].
  simpl in *. intros. assert (a = a') by lia. f_equal; lia.
Qed.

(** ** A new group *)
Section new.
Context s cs (k : Z * Z) (leader rsize : Z) (t : option nat) (a : addr) (m : MB) (T : table_ok s cs) (Hk : key_ok k).
Context (Hnone : group_at s (group_hash k.1 k.2) = None) (Ha : mb_alloc 0 (allocator s) = (Some a, m)).

Definition new_group (x : FCFSVoteServiceGroupInfo) : FCFSVoteServiceGroupInfo :=
  {| hash_code := group_hash k.1 k.2; service_id := k.1; response_size := rsize; group_id := k.2;
     next_leader := next_leader x; leader_id := leader; task := if 0 <? leader then t else None;
     next := bucket s (group_hash k.1 k.2) |}.
Definition with_new : S :=
  set_table m (alter new_group a (groups s)) (<[bucket_index (group_hash k.1 k.2) := Some a]> (buckets s)) s.

Lemma new_fresh : (a ∉ mb_live (allocator s)) ∧ mb_live m = {[a]} ∪ mb_live (allocator s).
Proof. exact (mb_alloc_some _ _ _ _ Ha). Qed.

Lemma new_other b : b ∈ mb_live (allocator s) → groups with_new b = groups s b.
Proof.
  intros Hb. simpl. apply fn_lookup_alter_ne. intros Hab. destruct new_fresh as [Hn _]. apply Hn.
  by rewrite Hab.
Qed.
Lemma new_self : groups with_new a = new_group (groups s a).
Proof. simpl. by rewrite fn_lookup_alter. Qed.

Lemma table_ok_new : ∃ cs', table_ok with_new cs'.
Proof.
  destruct new_fresh as [Hfr Hm]. set (i := bucket_index (group_hash k.1 k.2)).
  destruct (table_chain s cs (group_hash k.1 k.2) T) as (l & Hl & Hc & _). fold i in Hl.
  assert (i < length (buckets s))%nat as Hi by (rewrite (to_buckets _ _ T); by eapply lookup_lt_Some).
  assert (∀ j l' b, cs !! j = Some l' → b ∈ l' → b ∈ mb_live (allocator s)) as Hin
    by (intros; apply (to_live _ _ T); eauto).
  assert (∀ j l', <[i := a :: l]> cs !! j = Some l' →
    (j = i ∧ l' = a :: l) ∨ (j ≠ i ∧ cs !! j = Some l')) as Hcase.
  { intros j l'. rewrite list_lookup_insert_Some. naive_solver. }
  exists (<[i := a :: l]> cs). split; simpl; rewrite ?length_insert.
  - apply (to_length _ _ T).
  - apply (to_buckets _ _ T).
  - intros j l' [[-> ->]|[Hj Hl']]%Hcase.
    + rewrite list_lookup_insert_eq by done. split; [done|]. rewrite fn_lookup_alter. simpl.
      eapply group_chain_frame, Hc. intros b Hb. apply (f_equal next), new_other. by eapply Hin.
    + rewrite list_lookup_insert_ne by done. eapply group_chain_frame, (to_chain _ _ T), Hl'.
      intros b Hb. apply (f_equal next), new_other. by eapply Hin.
  - fold with_new. intros j l' b [[-> ->]|[Hj Hl']]%Hcase Hb; change (alter new_group a (groups s)) with (groups with_new).
    + apply elem_of_cons in Hb as [->|Hb]; [by rewrite new_self|]. rewrite new_other by (by eapply Hin).
      by eapply (to_index _ _ T).
    + rewrite new_other by (by eapply Hin). by eapply (to_index _ _ T).
  - intros j l' [[-> ->]|[Hj Hl']]%Hcase; [|by eapply (to_nodup _ _ T)].
    constructor; [|by eapply (to_nodup _ _ T)]. intros Hb. apply Hfr. by eapply Hin.
  - intros b. simpl. rewrite Hm, elem_of_union, elem_of_singleton, (to_live _ _ T). split.
    + intros [->|(j & l' & Hl' & Hb)].
      * exists i, (a :: l). rewrite list_lookup_insert_eq by (by eapply lookup_lt_Some). set_solver.
      * destruct (decide (j = i)) as [->|Hj].
        -- rewrite Hl in Hl'. injection Hl' as <-. exists i, (a :: l).
           rewrite list_lookup_insert_eq by (by eapply lookup_lt_Some). set_solver.
        -- exists j, l'. by rewrite list_lookup_insert_ne.
    + intros (j & l' & [[-> ->]|[Hj Hl']]%Hcase & Hb); [|by eauto 6].
      apply elem_of_cons in Hb as [->|Hb]; eauto 6.
  - assert (∀ b, b ∈ mb_live (allocator s) → hash_code (groups s b) ≠ group_hash k.1 k.2) as Hno.
    { intros b Hb Hh. assert (group_at s (group_hash k.1 k.2) = Some b) by (by eapply group_at_some). congruence. }
    intros b b'. rewrite Hm, !elem_of_union, !elem_of_singleton.
    change (alter new_group a (groups s)) with (groups with_new).
    intros [->|Hb] [->|Hb']; rewrite ?new_self, ?new_other by done; simpl; [done|..].
    + intros Hh. by destruct (Hno b' Hb').
    + intros Hh. by destruct (Hno b Hb).
    + by apply (to_unique _ _ T).
  - intros b. rewrite Hm, elem_of_union, elem_of_singleton.
    change (alter new_group a (groups s)) with (groups with_new). intros [->|Hb].
    + rewrite new_self. split; [exact Hk|done].
    + rewrite new_other by done. by apply (to_key _ _ T).
Qed.
End new.

End table.
End VoteTable.

Module VoteSpec.
Import VoteTable.

(** ** The abstract server *)

Record vcell := { v_leader : Z; v_next : Z; v_size : Z }.
Record vmember := { m_key : Z * Z; m_server : Z; m_persistent : bool }.
Record vspec := { cells : gmap (Z * Z) vcell; members : gmap nat vmember }.

Definition with_leader x c := {| v_leader := x; v_next := v_next c; v_size := v_size c |}.
Definition with_next x c := {| v_leader := v_leader c; v_next := x; v_size := v_size c |}.
Definition put_cell k c v := {| cells := <[k := c]> (cells v); members := members v |}.

(** The commands of libserverframe differ from those of the vote server. *)
Definition service_requests `{!ServerFrame, !VoteFrame} : list Z :=
  [SF_PROTO_ACTIVE_TEST_REQ; FCFS_VOTE_SERVICE_PROTO_CLUSTER_STAT_REQ;
   FCFS_VOTE_SERVICE_PROTO_GET_MASTER_REQ; SF_SERVICE_PROTO_GET_LEADER_REQ;
   FCFS_VOTE_SERVICE_PROTO_CLIENT_JOIN_REQ; FCFS_VOTE_SERVICE_PROTO_GET_VOTE_REQ;
   FCFS_VOTE_SERVICE_PROTO_PRE_SET_NEXT_LEADER; FCFS_VOTE_SERVICE_PROTO_COMMIT_NEXT_LEADER;
   FCFS_VOTE_SERVICE_PROTO_ACTIVE_CHECK_REQ].
Class VoteFrameLaws `{!ServerFrame, !VoteFrame} : Prop := { vf_requests : NoDup service_requests }.

Lemma switch_at {A} c (l : list (Z * A)) (a x : A) : NoDup l.*1 → (c, a) ∈ l → switch c l x = a.
Proof.
  induction l as [|[d b] l IH]; [by intros _ ?%not_elem_of_nil|]. simpl. rewrite NoDup_cons.
  intros [Hd Hl] [[= -> ->]|Hin]%elem_of_cons; [by rewrite Z.eqb_refl|].
  destruct (Z.eqb_spec c d) as [->|]; [|by apply IH]. destruct Hd. apply list_elem_of_fmap. by exists (d, a).
Qed.

Section spec.
Context `{!BuffCodec, !ServerFrame, !VoteFrame, !VoteFrameLaws}.

(** The cell of a group after a connection has entered it; [lead] is the server that
    wants to lead, which needs the leadership to be free or its own, or 0. *)
Definition entered (o : option vcell) (lead rsize : Z) : option vcell :=
  match o with
  | None => Some {| v_leader := lead; v_next := 0; v_size := rsize |}
  | Some c =>
      if lead =? 0 then Some c
      else if (v_leader c =? 0) || (v_leader c =? lead) then Some (with_leader lead c)
      else None
  end.

Definition spec_join (t : nat) (a : join_args) (v : vspec) : result response * vspec :=
  match members v !! t with
  | Some _ => (Err EEXIST, v)
  | None =>
      let k := (j_service_id a, j_group_id a) in
      match entered (cells v !! k) (if j_persistent a then j_server_id a else 0)
              (sint_wrap 16 (j_response_size a)) with
      | None => (Err SF_CLUSTER_ERROR_LEADER_INCONSISTENT, v)
      | Some c =>
          (Ok {| resp_cmd := FCFS_VOTE_SERVICE_PROTO_CLIENT_JOIN_RESP; resp_body := [] |},
           {| cells := <[k := c]> (cells v);
              members := <[t := {| m_key := k; m_server := j_server_id a; m_persistent := j_persistent a |}]>
                           (members v) |})
      end
  end.

(** An operation of a connection on the cell of its group. *)
Definition on_cell (t : nat) (f : Z → vcell → result response * vcell) (v : vspec) : result response * vspec :=
  match members v !! t with
  | None => (Err EPERM, v)
  | Some m =>
      match cells v !! m_key m with
      | None => (Err EPERM, v)
      | Some c => let '(r, c) := f (m_server m) c in (r, put_cell (m_key m) c v)
      end
  end.

Definition spec_next_leader (pre : bool) (me : Z) (c : vcell) : result response * vcell :=
  let no := Err SF_CLUSTER_ERROR_LEADER_INCONSISTENT in
  if negb (v_leader c =? 0) then (if v_leader c =? me then Ok ack else no, c)
  else if pre then
    if (v_next c =? 0) || (v_next c =? me) then (Ok ack, with_next me c) else (no, with_next 0 c)
  else
    if v_next c =? me then (Ok ack, with_leader me (with_next 0 c)) else (no, with_next 0 c).

Definition spec_active_check (me : Z) (c : vcell) : result response * vcell :=
  (if v_leader c =? me then Ok {| resp_cmd := FCFS_VOTE_SERVICE_PROTO_ACTIVE_CHECK_RESP; resp_body := [] |}
   else Err SF_CLUSTER_ERROR_LEADER_INCONSISTENT, c).

Definition spec_get_vote (me : Z) (c : vcell) : result response * vcell :=
  (if v_size c <? 0 then Err EFAULT
   else Ok {| resp_cmd := FCFS_VOTE_SERVICE_PROTO_GET_VOTE_RESP; resp_body := replicate (Z.to_nat (v_size c)) x00 |}, c).

(** A connection ends: its server is no longer the leader. *)
Definition spec_leave (t : nat) (v : vspec) : vspec :=
  match members v !! t with
  | None => v
  | Some m =>
      {| cells := alter (λ c, if v_leader c =? m_server m then with_leader 0 c else c) (m_key m) (cells v);
         members := delete t (members v) |}
  end.

(** ** What the server's memory stands for *)
Context {MB : Type} `{!Mblock MB, !MblockLaws MB, !MblockTotal MB}.
Abbreviation S := (vote_state MB).
Implicit Types s : S.

Definition cell_of (x : FCFSVoteServiceGroupInfo) : vcell :=
  {| v_leader := leader_id x; v_next := next_leader x; v_size := response_size x |}.
Definition cell s (k : Z * Z) : option vcell :=
  (λ a, cell_of (groups s a)) <$> group_at s (group_hash k.1 k.2).
Definition member s (t : nat) : option vmember :=
  (λ g, {| m_key := key_of (groups s g); m_server := peer_server_id (tasks s t);
           m_persistent := peer_persistent (tasks s t) |}) <$> peer_group (tasks s t).

(** The objects that are not in use are zeroed, as they come from the pool. *)
Record refines s (v : vspec) : Prop := {
  r_table : ∃ cs, table_ok s cs;
  r_fresh a : a ∉ mb_live (allocator s) → next_leader (groups s a) = 0;
  r_cells k : key_ok k → cells v !! k = cell s k;
  r_members t : members v !! t = member s t;
  r_type t : (SERVER_TASK_TYPE (tasks s t) =? VOTE_SERVER_TASK_TYPE_VOTE_NODE) =
             bool_decide (peer_group (tasks s t) ≠ None);
  r_group t g : peer_group (tasks s t) = Some g → g ∈ mb_live (allocator s);
}.

Lemma cell_live s cs g : table_ok s cs → g ∈ mb_live (allocator s) →
  cell s (key_of (groups s g)) = Some (cell_of (groups s g)).
Proof.
  intros T Hg. unfold cell. destruct (to_key _ _ T g Hg) as [_ Hh]. simpl.
  assert (group_at s (group_hash (service_id (groups s g)) (group_id (groups s g))) = Some g) as ->; [|done].
  by apply (group_at_some s cs).
Qed.

(** A live object changes, but for its key. *)
Lemma cell_alter s cs g f k :
  table_ok s cs → g ∈ mb_live (allocator s) → (∀ x, same_keys (f x) x) → key_ok k →
  cell (set_groups (alter f g (groups s)) s) k =
  if decide (k = key_of (groups s g)) then Some (cell_of (f (groups s g))) else cell s k.
Proof.
  intros T Hg Hf Hk. unfold cell. set (s' := set_groups _ s).
  assert (∀ a, same_keys (groups s' a) (groups s a)) as Hkeys.
  { intros a. simpl. destruct (decide (g = a)) as [<-|]; [by rewrite fn_lookup_alter|].
    by rewrite fn_lookup_alter_ne. }
  rewrite (group_at_fields s s' cs) by done. destruct (to_key _ _ T g Hg) as [Hgk Hgh]. case_decide as Hd.
  - subst k. assert (group_at s (group_hash (key_of (groups s g)).1 (key_of (groups s g)).2) = Some g) as ->
      by (by apply (group_at_some s cs)). simpl. by rewrite fn_lookup_alter.
  - destruct (group_at s (group_hash k.1 k.2)) as [a|] eqn:E; [|done]. simpl. rewrite fn_lookup_alter_ne; [done|].
    intros <-. apply (group_at_some s cs) in E as [_ E]; [|done]. apply Hd.
    apply group_hash_inj; [done..|]. simpl. congruence.
Qed.

Lemma same_keys_leader x g : same_keys (set_leader x g) g.
Proof. done. Qed.
Lemma same_keys_next_leader x g : same_keys (set_next_leader x g) g.
Proof. done. Qed.

(** The step of a handler on the group of a connection. *)
Lemma refines_alter s v g f c :
  refines s v → g ∈ mb_live (allocator s) → (∀ x, same_keys (f x) x) →
  cell_of (f (groups s g)) = c →
  refines (set_groups (alter f g (groups s)) s) (put_cell (key_of (groups s g)) c v).
Proof.
  intros [[cs T] R2 R3 R4 R5 R6] Hg Hf Hc.
  assert (∀ a, same_keys (alter f g (groups s) a) (groups s a)) as Hkeys.
  { intros a. destruct (decide (g = a)) as [<-|]; [by rewrite fn_lookup_alter|].
    by rewrite fn_lookup_alter_ne. }
  split; simpl; try done.
  - exists cs. by eapply table_ok_fields, T.
  - intros a Ha. rewrite fn_lookup_alter_ne; [by apply R2|]. by intros <-.
  - intros k Hk. rewrite (cell_alter s cs) by done. case_decide as Hd; [subst; by rewrite lookup_insert_eq|].
    rewrite lookup_insert_ne by done. by apply R3.
  - intros t. rewrite R4. unfold member. simpl. destruct (peer_group (tasks s t)) as [a|]; [|done]. simpl.
    unfold key_of. by destruct (Hkeys a) as (_ & -> & -> & _).
Qed.

(** ** The handlers *)

(** The connection of a member. *)
Lemma member_facts s v t m : refines s v → members v !! t = Some m →
  ∃ g, peer_group (tasks s t) = Some g ∧ g ∈ mb_live (allocator s) ∧ m_key m = key_of (groups s g) ∧
    m_server m = peer_server_id (tasks s t) ∧ m_persistent m = peer_persistent (tasks s t) ∧
    (SERVER_TASK_TYPE (tasks s t) =? VOTE_SERVER_TASK_TYPE_VOTE_NODE) = true ∧
    cells v !! m_key m = Some (cell_of (groups s g)).
Proof.
  intros R Hm. rewrite (r_members _ _ R) in Hm. unfold member in Hm.
  destruct (peer_group (tasks s t)) as [g|] eqn:Eg; [|done]. injection Hm as <-. exists g.
  pose proof (r_group _ _ R t g Eg) as Hg. destruct (r_table _ _ R) as [cs T]. split_and!; try done.
  - rewrite (r_type _ _ R), Eg. done.
  - simpl. rewrite (r_cells _ _ R) by (by apply (to_key _ _ T)). by apply (cell_live s cs).
Qed.

Lemma not_member s v t : refines s v → members v !! t = None →
  peer_group (tasks s t) = None ∧ (SERVER_TASK_TYPE (tasks s t) =? VOTE_SERVER_TASK_TYPE_VOTE_NODE) = false.
Proof.
  intros R Hm. rewrite (r_members _ _ R) in Hm. unfold member in Hm.
  destruct (peer_group (tasks s t)) as [g|] eqn:Eg; [done|]. split; [done|]. by rewrite (r_type _ _ R), Eg.
Qed.

(** Handlers that work on the group of their connection. *)
Definition serves {A} (p : P S A) s (o : result A * vspec) : Prop :=
  (run p s).1 = o.1 ∧ refines (run p s).2 o.2.

Lemma put_cell_same s v k c : refines s v → cells v !! k = Some c → refines s (put_cell k c v).
Proof.
  intros [R1 R2 R3 R4 R5 R6] Hc. split; try done. intros k' Hk'. simpl. rewrite <- R3 by done.
  by rewrite insert_id.
Qed.

Lemma check_login_member s v t m : refines s v → members v !! t = Some m →
  ∃ g, run (service_check_login t) s = (Ok (g, m_server m), s) ∧ peer_group (tasks s t) = Some g.
Proof.
  intros R Hm. destruct (member_facts s v t m R Hm) as (g & Hg & _ & _ & Hs & _ & Ht & _). exists g.
  unfold service_check_login, run. cbn. by rewrite Ht, Hg, Hs.
Qed.

Lemma check_login_none s v t : refines s v → members v !! t = None →
  run (service_check_login t) s = (Err EPERM, s).
Proof. intros R Hm. destruct (not_member s v t R Hm) as [_ Ht]. unfold service_check_login, run. cbn. by rewrite Ht. Qed.

Lemma serves_on_cell (k : addr → Z → P S response) f t n req s v :
  refines s v →
  (∀ g me, g ∈ mb_live (allocator s) →
     let '(r, c) := f me (cell_of (groups s g)) in
     (run (k g me) s).1 = r ∧ refines (run (k g me) s).2 (put_cell (key_of (groups s g)) c v)) →
  serves (_ ← give (server_expect_body_length (body_len req) n); '(g, me) ← service_check_login t; k g me) s
    (match server_expect_body_length (body_len req) n with
     | Err e => (Err e, v)
     | Ok _ => on_cell t f v
     end).
Proof.
  intros R Hk. unfold serves. rewrite run_bind. unfold give. destruct (server_expect_body_length _ _) as [[]|e]; [|done].
  erewrite bind_ok by reflexivity. rewrite run_bind. unfold on_cell. destruct (members v !! t) as [m|] eqn:Hm.
  2: { by rewrite (bind_err _ _ _ _ _ (check_login_none s v t R Hm)). }
  destruct (member_facts s v t m R Hm) as (g & Hg & Hgl & Hkey & Hs & _ & _ & Hc). rewrite Hc.
  destruct (check_login_member s v t m R Hm) as (g' & Hl & Hg'). simplify_eq.
  rewrite (bind_ok _ _ _ _ _ Hl). specialize (Hk g (m_server m) Hgl). rewrite Hkey.
  by destruct (f (m_server m) (cell_of (groups s g))) as [r c].
Qed.

Lemma cell_of_live s v g : refines s v → g ∈ mb_live (allocator s) →
  cells v !! key_of (groups s g) = Some (cell_of (groups s g)).
Proof.
  intros R Hg. destruct (r_table _ _ R) as [cs T]. rewrite (r_cells _ _ R) by (by apply (to_key _ _ T)).
  by apply (cell_live s cs).
Qed.

Lemma put_cell_twice k c c' v : put_cell k c (put_cell k c' v) = put_cell k c v.
Proof. unfold put_cell. simpl. by rewrite insert_insert_eq. Qed.

Lemma next_leader_serves t req s v :
  refines s v →
  serves (service_deal_next_leader t req) s
    (match server_expect_body_length (body_len req) 0 with
     | Err e => (Err e, v)
     | Ok _ => on_cell t (spec_next_leader (cmd req =? FCFS_VOTE_SERVICE_PROTO_PRE_SET_NEXT_LEADER)) v
     end).
Proof.
  intros R. apply serves_on_cell; [done|]. intros g me Hg. unfold spec_next_leader, run. cbn.
  pose proof (put_cell_same _ _ _ _ R (cell_of_live s v g R Hg)) as Hsame.
  destruct (negb (leader_id (groups s g) =? 0)) eqn:El; [by destruct (leader_id (groups s g) =? me)|].
  apply negb_false_iff, Z.eqb_eq in El. destruct (cmd req =? _); cbn.
  - destruct (Z.eqb_spec (next_leader (groups s g)) 0) as [Hz|Hz]; cbn.
    + rewrite Hz. cbn. split; [done|]. by apply refines_alter.
    + destruct (Z.eqb_spec (next_leader (groups s g)) me) as [<-|]; cbn; [by split|].
      rewrite Z.eqb_refl. split; [done|]. by apply refines_alter.
  - rewrite Z.eqb_refl. destruct (Z.eqb_spec (next_leader (groups s g)) me) as [<-|]; cbn.
    + rewrite fn_lookup_alter. cbn. rewrite El. cbn. split; [done|].
      pose proof (refines_alter s v g (set_next_leader 0) _ R Hg ltac:(done) eq_refl) as R'.
      apply (refines_alter _ _ g (set_leader (next_leader (groups s g))) (with_leader (next_leader (groups s g))
        (with_next 0 (cell_of (groups s g))))) in R'; [|done..|].
      * cbn in R'. rewrite fn_lookup_alter, put_cell_twice in R'. exact R'.
      * cbn. by rewrite fn_lookup_alter.
    + split; [done|]. by apply refines_alter.
Qed.

Lemma active_check_serves t req s v :
  refines s v →
  serves (service_deal_active_check t req) s
    (match server_expect_body_length (body_len req) 0 with
     | Err e => (Err e, v)
     | Ok _ => on_cell t spec_active_check v
     end).
Proof.
  intros R. apply serves_on_cell; [done|]. intros g me Hg. unfold spec_active_check, run. cbn.
  pose proof (put_cell_same _ _ _ _ R (cell_of_live s v g R Hg)) as Hsame.
  by destruct (leader_id (groups s g) =? me).
Qed.

Lemma get_vote_serves t req s v :
  refines s v →
  serves (service_deal_get_vote t req) s
    (match server_expect_body_length (body_len req) sizeof_SFProtoGetServerStatusReq with
     | Err e => (Err e, v)
     | Ok _ => on_cell t spec_get_vote v
     end).
Proof.
  intros R. apply serves_on_cell; [done|]. intros g me Hg. unfold spec_get_vote, run. cbn.
  pose proof (put_cell_same _ _ _ _ R (cell_of_live s v g R Hg)) as Hsame.
  by destruct (response_size (groups s g) <? 0).
Qed.

(** The task of a connection changes. *)
Definition put_member t (x : option vmember) v : vspec :=
  {| cells := cells v; members := partial_alter (λ _, x) t (members v) |}.

Lemma refines_task s v t x :
  refines s v →
  (SERVER_TASK_TYPE x =? VOTE_SERVER_TASK_TYPE_VOTE_NODE) = bool_decide (peer_group x ≠ None) →
  (∀ g, peer_group x = Some g → g ∈ mb_live (allocator s)) →
  refines (set_tasks (<[t := x]> (tasks s)) s)
    (put_member t ((λ g, {| m_key := key_of (groups s g); m_server := peer_server_id x;
                            m_persistent := peer_persistent x |}) <$> peer_group x) v).
Proof.
  intros [R1 R2 R3 R4 R5 R6] Hx Hg. pose proof R1 as [cs T].
  split; try done.
  - exists cs. by eapply table_ok_fields, T.
  - intros t'. unfold member. simpl. destruct (decide (t = t')) as [<-|].
    + by rewrite lookup_partial_alter_eq, fn_lookup_insert.
    + rewrite lookup_partial_alter_ne, fn_lookup_insert_ne by done. apply R4.
  - intros t'. simpl. destruct (decide (t = t')) as [<-|];
      [by rewrite fn_lookup_insert|by rewrite fn_lookup_insert_ne].
  - intros t'. simpl. destruct (decide (t = t')) as [<-|].
    + rewrite fn_lookup_insert. apply Hg.
    + rewrite fn_lookup_insert_ne by done. apply R6.
Qed.

(** Only the [task] of a group changes, which the specification does not have. *)
Lemma refines_set_task s v g x : refines s v → g ∈ mb_live (allocator s) →
  refines (set_groups (alter (set_task x) g (groups s)) s) v.
Proof.
  intros R Hg. pose proof (refines_alter s v g (set_task x) _ R Hg ltac:(done) eq_refl) as R'.
  pose proof (cell_of_live s v g R Hg) as Hc. destruct v as [c m]. unfold put_cell in R'. simpl in *.
  change (cell_of (set_task x (groups s g))) with (cell_of (groups s g)) in R'.
  by rewrite insert_id in R' by done.
Qed.

(** The end of a connection. *)
Lemma leave_serves t s v : refines s v → serves (service_task_finish_cleanup t) s (Ok tt, spec_leave t v).
Proof.
  intros R. unfold serves, service_task_finish_cleanup, spec_leave, run. cbn.
  destruct (members v !! t) as [m|] eqn:Hm.
  2: { destruct (not_member s v t R Hm) as [_ ->]. done. }
  destruct (member_facts s v t m R Hm) as (g & Hg & Hgl & Hkey & Hs & Hp & Ht & Hc). rewrite Ht, Hg. cbn.
  set (F := λ c : vcell, if v_leader c =? m_server m then with_leader 0 c else c).
  assert (alter F (m_key m) (cells v) = <[m_key m := F (cell_of (groups s g))]> (cells v)) as ->.
  { apply map_eq. intros k. destruct (decide (m_key m = k)) as [<-|].
    - by rewrite lookup_alter_eq, lookup_insert_eq, Hc.
    - by rewrite lookup_alter_ne, lookup_insert_ne. }
  set (idle p := {| SERVER_TASK_TYPE := VOTE_SERVER_TASK_TYPE_NONE; peer_group := None;
                    peer_server_id := 0; peer_persistent := p |}).
  assert (∀ s1 p, refines s1 (put_cell (key_of (groups s g)) (F (cell_of (groups s g))) v) →
    refines (set_tasks (<[t := idle p]> (tasks s1)) s1)
      {| cells := <[m_key m := F (cell_of (groups s g))]> (cells v); members := delete t (members v) |}) as Hleave.
  { intros s1 p R1. rewrite Hkey. by apply (refines_task s1 _ t (idle p) R1). }
  subst F. cbn [v_leader cell_of] in *. rewrite <- Hs. destruct (Z.eqb_spec (leader_id (groups s g)) (m_server m)) as [Hl|Hl].
  - assert (refines (set_groups (alter (set_leader 0) g (groups s)) s)
      (put_cell (key_of (groups s g)) (with_leader 0 (cell_of (groups s g))) v)) as R1 by (by apply refines_alter).
    destruct (peer_persistent (tasks s t)); cbn; (split; [done|]).
    + apply (Hleave (set_groups _ (set_groups _ s))). by apply refines_set_task.
    + by apply (Hleave (set_groups _ s)).
  - cbn. split; [done|]. apply Hleave. apply put_cell_same; [done|]. by apply cell_of_live.
Qed.

(** ** Joining *)

Lemma refines_close s v t : refines s v → refines (notify_close t s) v.
Proof.
  intros [[cs T] R2 R3 R4 R5 R6]. split; try done. exists cs. by eapply table_ok_fields, T.
Qed.

Lemma replace_task_ok s v g t : refines s v → g ∈ mb_live (allocator s) →
  ∃ s', run (replace_task g t) s = (Ok tt, s') ∧ refines s' v ∧ tasks s' = tasks s ∧
    allocator s' = allocator s ∧ ∀ a, key_of (groups s' a) = key_of (groups s a).
Proof.
  intros R Hg. eexists. split; [done|]. cbn. destruct t as [x|]; [|done]. case_bool_decide as Ht; [done|].
  set (s1 := match task (groups s g) with Some old => notify_close old s | None => s end).
  assert (refines s1 v ∧ tasks s1 = tasks s ∧ allocator s1 = allocator s ∧ groups s1 = groups s)
    as (R1 & X1 & X2 & X3).
  { unfold s1. destruct (task (groups s g)); [|done]. split_and!; try done. by apply refines_close. }
  clearbody s1. split_and!; [|done..|].
  - apply refines_set_task; [done|]. by rewrite X2.
  - intros a. simpl. rewrite X3. destruct (decide (g = a)) as [<-|];
      [by rewrite fn_lookup_alter|by rewrite fn_lookup_alter_ne].
Qed.

Lemma refines_new s v cs k leader rsize t a m :
  refines s v → table_ok s cs → key_ok k → group_at s (group_hash k.1 k.2) = None →
  mb_alloc 0 (allocator s) = (Some a, m) →
  refines (with_new s k leader rsize t a m)
    (put_cell k {| v_leader := leader; v_next := 0; v_size := rsize |} v).
Proof.
  intros R T Hk Hn Ha. destruct (new_fresh s a m Ha) as [Hfr Hm].
  destruct (table_ok_new s cs k leader rsize t a m T Hk Hn Ha) as [cs' T'].
  set (s' := with_new s k leader rsize t a m) in *.
  assert (∀ b, b ∈ mb_live (allocator s) → groups s' b = groups s b) as Hold.
  { intros b Hb. by apply new_other. }
  assert (groups s' a = new_group s k leader rsize t (groups s a)) as Hself by apply new_self.
  split; [by exists cs'| | | |apply (r_type _ _ R)|].
  - intros b Hb. change (allocator s') with m in Hb. rewrite Hm in Hb. simpl.
    rewrite fn_lookup_alter_ne by set_solver. apply (r_fresh _ _ R). set_solver.
  - intros k' Hk'. unfold cell. destruct (decide (k = k')) as [<-|Hne].
    + assert (group_at s' (group_hash k.1 k.2) = Some a) as ->.
      { apply (group_at_some s' cs'); [done|]. change (allocator s') with m. rewrite Hm, Hself. set_solver. }
      simpl. rewrite lookup_insert_eq. f_equal. change (alter _ a (groups s) a) with (groups s' a).
      rewrite Hself. unfold cell_of. simpl. f_equal. by rewrite (r_fresh _ _ R).
    + simpl. rewrite lookup_insert_ne by done. rewrite (r_cells _ _ R) by done. unfold cell.
      assert (group_at s' (group_hash k'.1 k'.2) = group_at s (group_hash k'.1 k'.2)) as ->.
      { apply option_eq. intros b. rewrite (group_at_some s' cs'), (group_at_some s cs) by done.
        change (allocator s') with m. rewrite Hm, elem_of_union, elem_of_singleton. split.
        - intros [[->|Hb] Hh]; [|by rewrite Hold in Hh]. rewrite Hself in Hh. simpl in Hh.
          by apply group_hash_inj in Hh.
        - intros [Hb Hh]. rewrite Hold by done. auto. }
      destruct (group_at s (group_hash k'.1 k'.2)) as [b|] eqn:Eb; [|done]. simpl. f_equal. f_equal.
      symmetry. apply Hold. by eapply group_at_some in Eb as [? _].
  - intros t'. simpl. rewrite (r_members _ _ R). unfold member. simpl.
    destruct (peer_group (tasks s t')) as [b|] eqn:Eb; [|done]. simpl. f_equal. f_equal.
    change (alter _ a (groups s) b) with (groups s' b). by rewrite Hold by (by eapply (r_group _ _ R)).
  - intros t' b Hb. change (allocator s') with m. rewrite Hm. apply (r_group _ _ R) in Hb. set_solver.
Qed.

Lemma htable_get_ok s v k lead rsize t :
  refines s v → key_ok k → 0 ≤ lead →
  ∃ r o s', run (service_group_htable_get k.1 k.2 lead rsize t) s = (Ok (r, o), s') ∧
    match entered (cells v !! k) lead rsize with
    | None => r = Err SF_CLUSTER_ERROR_LEADER_INCONSISTENT ∧ s' = s
    | Some c => r = Ok tt ∧ tasks s' = tasks s ∧ refines s' (put_cell k c v) ∧
        ∃ g, o = Some g ∧ g ∈ mb_live (allocator s') ∧ key_of (groups s' g) = k
    end.
Proof.
  intros R Hk Hlead. destruct (r_table _ _ R) as [cs T]. rewrite (r_cells _ _ R) by done. unfold cell.
  unfold service_group_htable_get. setoid_rewrite run_bind.
  assert (run (atomic (htable_lookup k.1 k.2 lead rsize t)) s =
    (Ok (htable_lookup k.1 k.2 lead rsize t s).1, (htable_lookup k.1 k.2 lead rsize t s).2)) as Hat.
  { unfold run, atomic. cbn. by destruct (htable_lookup _ _ _ _ _ s). }
  rewrite (bind_ok _ _ _ _ _ Hat). clear Hat. unfold htable_lookup. fold (group_at s (group_hash k.1 k.2)).
  destruct (group_at s (group_hash k.1 k.2)) as [g|] eqn:Eg; cbn [fst snd fmap option_fmap option_map].
  2: { destruct (mb_alloc_total 0 (allocator s)) as (a & m & Ha). rewrite Ha. cbn [fst snd].
       exists (Ok tt), (Some a), (with_new s k lead rsize t a m). split; [done|].
       split_and!; [done..|by eapply refines_new|]. exists a.
       destruct (new_fresh s a m Ha) as [_ Hm]. split_and!; [done| |].
       - simpl. rewrite Hm. set_solver.
       - unfold key_of. rewrite new_self. by destruct k. }
  apply (group_at_some s cs) in Eg as [Hgl Hgh]; [|done].
  assert (key_of (groups s g) = k) as Hgk.
  { destruct (to_key _ _ T g Hgl) as [? ?]. apply group_hash_inj; [done..|]. simpl. congruence. }
  unfold entered. rewrite Z.ltb_antisym. destruct (Z.eqb_spec lead 0) as [->|Hz].
  { exists (Ok tt), (Some g), s. split; [done|]. split_and!; [done..| |by exists g].
    rewrite <- Hgk. apply put_cell_same; [done|]. by apply cell_of_live. }
  rewrite (proj2 (Z.leb_gt _ _)) by lia. cbn [negb]. rewrite run_bind.
  erewrite bind_ok by reflexivity. cbv beta. rewrite run_bind. cbn [v_leader cell_of].
  assert (∀ s1 c, refines s1 (put_cell k c v) → allocator s1 = allocator s → tasks s1 = tasks s →
    key_of (groups s1 g) = k →
    ∃ s', run (_ ← replace_task g t; mret (Ok tt, Some g)) s1 = (Ok (Ok tt, Some g), s') ∧
      tasks s' = tasks s ∧ refines s' (put_cell k c v) ∧ g ∈ mb_live (allocator s') ∧
      key_of (groups s' g) = k) as Hrep.
  { intros s1 c R1 Ha Ht Hk1.
    destruct (replace_task_ok s1 _ g t R1) as (s' & E & R' & Ht' & Ha' & Hk'); [by rewrite Ha|].
    exists s'. rewrite run_bind, (bind_ok _ _ _ _ _ E). rewrite Ht', Ha', Hk', Ha. done. }
  destruct (Z.eqb_spec (leader_id (groups s g)) 0) as [Hl|Hl]; cbn [orb].
  - destruct (Hrep (set_groups (alter (set_leader lead) g (groups s)) s)
      (with_leader lead (cell_of (groups s g)))) as (s' & E & ? & ? & ? & ?); [|done..| |].
    + rewrite <- Hgk. by apply refines_alter.
    + simpl. by rewrite fn_lookup_alter.
    + exists (Ok tt), (Some g), s'. split; [|by eauto 8].
      erewrite (bind_ok _ _ _ (Ok tt)); [exact E|]. unfold run, cas_leader. cbn. by rewrite Hl.
  - destruct (Z.eqb_spec (leader_id (groups s g)) lead) as [Hll|Hll]; cbn [orb].
    + destruct (Hrep s (with_leader lead (cell_of (groups s g)))) as (s' & E & ? & ? & ? & ?); [|done..|].
      * rewrite <- Hll, <- Hgk. apply (put_cell_same _ _ _ (cell_of (groups s g))); [done|by apply cell_of_live].
      * exists (Ok tt), (Some g), s'. split; [exact E|by eauto 8].
    + by exists (Err SF_CLUSTER_ERROR_LEADER_INCONSISTENT), (Some g), s.
Qed.

Section server.
Variables (send_space : Z) (sign : list byte) (ip_size : Z) (address : FCFSAuthClusterServerInfo → string_t * Z).
Abbreviation join := (service_deal_client_join (MB:=MB) send_space sign).

Lemma join_check_ok req a : join_check send_space sign req = Ok a →
  a = join_request (body req) ∧ 0 ≤ j_service_id a < 2 ^ 15 ∧ 0 < j_server_id a ∧
  (j_persistent a = true → j_is_leader a = true).
Proof.
  unfold join_check. set (x := join_request (body req)). clearbody x.
  destruct (server_expect_body_length _ _); [|done].
  case_bool_decide as Hs; [|done]. simpl. destruct (Z.leb_spec (j_server_id x) 0); [done|].
  assert (0 ≤ j_service_id x < 2 ^ 15) as Hx.
  { rewrite !elem_of_cons in Hs. unfold FCFS_VOTE_SERVICE_ID_FAUTH, FCFS_VOTE_SERVICE_ID_FDIR,
      FCFS_VOTE_SERVICE_ID_FSTORE in Hs. destruct Hs as [?|[?|[?|Hs]]]; [lia..|by apply not_elem_of_nil in Hs]. }
  destruct (_ || _); [done|]. destruct (j_persistent x) eqn:Ep, (j_is_leader x) eqn:Ei; simpl; try done;
    (destruct (service_check_config_sign _ _); [|done]); intros [= <-]; split_and!; try done; try lia; congruence.
Qed.

Lemma join_serves t req s v :
  refines s v → 0 ≤ j_group_id (join_request (body req)) < 2 ^ 31 →
  serves (join t req) s
    (match join_check send_space sign req with
     | Err e => (Err e, v)
     | Ok a => spec_join t a v
     end).
Proof.
  intros R Hgid. unfold serves, service_deal_client_join. rewrite run_bind. unfold give.
  destruct (join_check send_space sign req) as [a|e] eqn:Ej; [|done]. erewrite bind_ok by reflexivity. cbv beta.
  apply join_check_ok in Ej as (Ha & Hsv & Hsid & Hlead). rewrite <- Ha in Hgid. clear Ha.
  rewrite run_bind. erewrite bind_ok by reflexivity. cbv beta. unfold spec_join.
  destruct (members v !! t) as [m|] eqn:Hm.
  { destruct (member_facts s v t m R Hm) as (g & -> & _). by rewrite bool_decide_true. }
  destruct (not_member s v t R Hm) as [-> _]. rewrite bool_decide_false by naive_solver.
  set (k := (j_service_id a, j_group_id a)). assert (key_ok k) as Hk by (by split).
  set (lead := if j_persistent a then j_server_id a else 0).
  assert ((if j_persistent a && j_is_leader a then j_server_id a else 0) = lead) as ->.
  { unfold lead. destruct (j_persistent a); [|done]. by rewrite Hlead. }
  assert (0 ≤ lead) as Hl by (unfold lead; destruct (j_persistent a); lia).
  destruct (htable_get_ok s v k lead (sint_wrap 16 (j_response_size a)) (if j_persistent a then Some t else None) R Hk Hl)
    as (r & o & s' & E & Hr).
  rewrite run_bind, (bind_ok _ _ _ _ _ E). cbv beta iota. rewrite run_bind.
  destruct (entered (cells v !! k) lead (sint_wrap 16 (j_response_size a))) as [c|].
  - destruct Hr as (-> & Ht & R' & g & -> & Hg & Hgk). unfold give. erewrite bind_ok by reflexivity.
    split; [done|]. cbn.
    pose proof (refines_task s' _ t {| SERVER_TASK_TYPE := VOTE_SERVER_TASK_TYPE_VOTE_NODE;
      peer_group := Some g; peer_server_id := j_server_id a; peer_persistent := j_persistent a |} R'
      eq_refl ltac:(by intros ? [= <-])) as R''. simpl in R''. by rewrite Hgk in R''.
  - by destruct Hr as [-> ->].
Qed.

(** ** The service *)

Definition vote_commands : list Z :=
  [FCFS_VOTE_SERVICE_PROTO_CLIENT_JOIN_REQ; FCFS_VOTE_SERVICE_PROTO_GET_VOTE_REQ;
   FCFS_VOTE_SERVICE_PROTO_PRE_SET_NEXT_LEADER; FCFS_VOTE_SERVICE_PROTO_COMMIT_NEXT_LEADER;
   FCFS_VOTE_SERVICE_PROTO_ACTIVE_CHECK_REQ].

Definition expecting {A} (req : request) (n : Z) (o : result A * vspec) (v : vspec) : result A * vspec :=
  match server_expect_body_length (body_len req) n with Err e => (Err e, v) | Ok _ => o end.

Definition spec_serve (t : nat) (req : request) (v : vspec) : result response * vspec :=
  switch (cmd req)
    [(FCFS_VOTE_SERVICE_PROTO_CLIENT_JOIN_REQ,
        match join_check send_space sign req with Err e => (Err e, v) | Ok a => spec_join t a v end);
     (FCFS_VOTE_SERVICE_PROTO_GET_VOTE_REQ,
        expecting req sizeof_SFProtoGetServerStatusReq (on_cell t spec_get_vote v) v);
     (FCFS_VOTE_SERVICE_PROTO_PRE_SET_NEXT_LEADER,
        expecting req 0 (on_cell t (spec_next_leader true) v) v);
     (FCFS_VOTE_SERVICE_PROTO_COMMIT_NEXT_LEADER,
        expecting req 0 (on_cell t (spec_next_leader false) v) v);
     (FCFS_VOTE_SERVICE_PROTO_ACTIVE_CHECK_REQ,
        expecting req 0 (on_cell t spec_active_check v) v)]
    (Err (NEG EINVAL), v).

Abbreviation process := (service_process (MB:=MB) send_space sign ip_size address).

(** The group number of a join request is not negative. *)
Definition group_ok (req : request) : Prop :=
  cmd req = FCFS_VOTE_SERVICE_PROTO_CLIENT_JOIN_REQ → 0 ≤ j_group_id (join_request (body req)) < 2 ^ 31.

(** Find a case of a [switch]. *)
Ltac at_case := repeat first [left; done | right].

Lemma process_serves cluster t req s v :
  refines s v → MYSELF_IS_MASTER cluster = true →
  group_ok req → cmd req ∈ vote_commands →
  serves (process cluster t req) s (spec_serve t req v).
Proof.
  intros R Hm Hg Hc. unfold service_process, spec_serve. rewrite Hm. cbn [negb andb].
  pose proof vf_requests as Hnd. assert (NoDup vote_commands) as Hnd'
    by (apply (NoDup_app (take 4 service_requests)), Hnd).
  assert (cmd req = FCFS_VOTE_SERVICE_PROTO_CLIENT_JOIN_REQ → serves (join t req) s
    (match join_check send_space sign req with Err e => (Err e, v) | Ok a => spec_join t a v end)) as S1
    by (intros E; by apply join_serves, Hg).
  pose proof (get_vote_serves t req s v R) as S2.
  pose proof (next_leader_serves t req s v R) as S3. pose proof (active_check_serves t req s v R) as S4.
  unfold vote_commands in Hc. rewrite !elem_of_cons in Hc.
  destruct Hc as [Hc|[Hc|[Hc|[Hc|[Hc|Hc]]]]]; [..|by apply not_elem_of_nil in Hc]; rewrite Hc in *.
  - rewrite (switch_at _ _ (join t req)), (switch_at _ _ (match join_check send_space sign req with
      Err e => (Err e, v) | Ok a => spec_join t a v end)); [by apply S1|exact Hnd'|at_case|exact Hnd|at_case].
  - rewrite (switch_at _ _ (service_deal_get_vote t req)), (switch_at _ _
      (expecting req sizeof_SFProtoGetServerStatusReq (on_cell t spec_get_vote v) v));
      [exact S2|exact Hnd'|at_case|exact Hnd|at_case].
  - rewrite (switch_at _ _ (service_deal_next_leader t req)), (switch_at _ _
      (expecting req 0 (on_cell t (spec_next_leader true) v) v));
      [exact S3|exact Hnd'|at_case|exact Hnd|at_case].
  - rewrite (switch_at _ _ (service_deal_next_leader t req)), (switch_at _ _
      (expecting req 0 (on_cell t (spec_next_leader false) v) v));
      [exact S3|exact Hnd'|at_case|exact Hnd|at_case].
  - rewrite (switch_at _ _ (service_deal_active_check t req)), (switch_at _ _
      (expecting req 0 (on_cell t spec_active_check v) v));
      [exact S4|exact Hnd'|at_case|exact Hnd|at_case].
Qed.

Lemma process_other cluster t req s :
  (MYSELF_IS_MASTER cluster = true → cmd req ∉ vote_commands) → (run (process cluster t req) s).2 = s.
Proof.
  intros Hc. unfold service_process.
  destruct (negb (MYSELF_IS_MASTER cluster) && _) eqn:Em; [done|].
  assert (cmd req ∉ vote_commands) as Hn.
  { destruct (MYSELF_IS_MASTER cluster); [by apply Hc|]. cbn [negb andb] in Em.
    apply negb_false_iff, orb_true_iff in Em.
    pose proof vf_requests as (_ & Hd & _)%(NoDup_app (take 4 service_requests)).
    apply (Hd (cmd req)). destruct Em as [->%Z.eqb_eq| ->%Z.eqb_eq]; simpl; set_solver. }
  clear Hc Em. apply (switch_cases (λ p, (run p s).2 = s)); [|done].
  assert (∀ k (p : P S response), k ∈ vote_commands → cmd req = k → (run p s).2 = s) as Hvote
    by (intros k p Hk Hk'; by rewrite <- Hk' in Hk).
  repeat (apply Forall_cons; split); [..|by apply Forall_nil]; simpl;
    try (apply Hvote; unfold vote_commands; rewrite !elem_of_cons; tauto); intros _.
  - unfold run, give. by destruct (sf_proto_deal_active_test (body req)).
  - unfold run, service_deal_cluster_stat, give. by destruct (server_expect_body_length _ _).
  - unfold run, fcfs_vote_deal_get_master, give. destruct (server_expect_body_length _ _); [|done]. cbn.
    destruct (_ ≫= _); [|done]. by destruct (address _).
  - unfold run, fcfs_vote_deal_get_master, give. destruct (server_expect_body_length _ _); [|done]. cbn.
    destruct (_ ≫= _); [|done]. by destruct (address _).
Qed.


(** ** Leaders *)

(** A leader has a connection. *)
Record led v : Prop := {
  led_leader k c : cells v !! k = Some c → v_leader c ≠ 0 →
    ∃ t m, members v !! t = Some m ∧ m_key m = k ∧ m_server m = v_leader c;
  led_server t m : members v !! t = Some m → 0 < m_server m;
}.

Lemma led_put_cell v k c c' :
  led v → cells v !! k = Some c' →
  (v_leader c = v_leader c' ∨ v_leader c = 0 ∨
   ∃ t m, members v !! t = Some m ∧ m_key m = k ∧ m_server m = v_leader c) → led (put_cell k c v).
Proof.
  intros [L1 L2] Hc' Hc. split; [|done]. simpl. intros k' x [[<- <-]|[Hne Hx]]%lookup_insert_Some Hl; [|by eapply L1].
  destruct Hc as [Hc|[Hc|Hc]]; [|done..]. rewrite Hc in *. by apply (L1 k c').
Qed.

Lemma led_on_cell t f v :
  led v →
  (∀ me c, v_leader (f me c).2 = v_leader c ∨ v_leader (f me c).2 = 0 ∨ v_leader (f me c).2 = me) →
  led (on_cell t f v).2.
Proof.
  intros L Hf. unfold on_cell. destruct (members v !! t) as [m|] eqn:Hm; [|done].
  destruct (cells v !! m_key m) as [c|] eqn:Hc; [|done]. specialize (Hf (m_server m) c).
  destruct (f (m_server m) c) as [r c']. simpl in *. eapply led_put_cell; [done..|].
  destruct Hf as [?|[?|Hf]]; [by left|by right; left|]. right; right. by exists t, m.
Qed.

Lemma led_join t a v : led v → 0 < j_server_id a → led (spec_join t a v).2.
Proof.
  intros [L1 L2] Ha. unfold spec_join. destruct (members v !! t) as [m|] eqn:Hm; [done|].
  set (k := (j_service_id a, j_group_id a)). set (lead := if j_persistent a then j_server_id a else 0).
  destruct (entered (cells v !! k) lead (sint_wrap 16 (j_response_size a))) as [c|] eqn:Ee; [|done].
  set (m := {| m_key := k; m_server := j_server_id a; m_persistent := j_persistent a |}).
  assert (∀ k' c', cells v !! k' = Some c' → v_leader c' ≠ 0 →
    ∃ t' m', (<[t := m]> (members v) : gmap nat vmember) !! t' = Some m' ∧ m_key m' = k' ∧ m_server m' = v_leader c') as Hold.
  { intros k' c' Hc' Hl'. destruct (L1 k' c' Hc' Hl') as (t' & m' & Ht' & ?). exists t', m'.
    rewrite lookup_insert_ne; [done|]. intros <-. congruence. }
  split; simpl.
  - intros k' c' [[<- <-]|[Hne Hc']]%lookup_insert_Some Hl; [|by apply Hold].
    assert (v_leader c = lead ∨ cells v !! k = Some c) as [Hc|Hc].
    { unfold entered in Ee. destruct (cells v !! k) as [x|]; [|injection Ee as <-; by left].
      destruct (lead =? 0); [right; congruence|]. destruct (_ || _); [|done]. injection Ee as <-. by left. }
    + exists t, m. rewrite lookup_insert_eq. split_and!; [done..|]. rewrite Hc in *.
      unfold lead in *. by destruct (j_persistent a).
    + by apply (Hold k c).
  - intros t' m' [[_ <-]|[_ Hm']]%lookup_insert_Some; [done|by eapply L2].
Qed.

Lemma led_leave t v : led v → led (spec_leave t v).
Proof.
  intros [L1 L2]. unfold spec_leave. destruct (members v !! t) as [m|] eqn:Hm; [|done]. split; simpl.
  - intros k c Hc Hl.
    assert (∃ c0, cells v !! k = Some c0 ∧ v_leader c = v_leader c0 ∧ (k = m_key m → v_leader c0 ≠ m_server m))
      as (c0 & Hc0 & Hlc & Hne).
    { destruct (decide (m_key m = k)) as [<-|Hk]; [|rewrite lookup_alter_ne in Hc by done; by exists c].
      rewrite lookup_alter_eq in Hc. destruct (cells v !! m_key m) as [c0|]; [|done]. injection Hc as <-.
      exists c0. destruct (Z.eqb_spec (v_leader c0) (m_server m)) as [He|He]; [|done]. simpl in Hl. done. }
    rewrite Hlc in *. destruct (L1 k c0 Hc0 Hl) as (t' & m' & Ht' & Hk' & Hs'). exists t', m'.
    split; [|done]. rewrite lookup_delete_ne; [done|]. intros <-. rewrite Hm in Ht'. injection Ht' as <-.
    by destruct (Hne (eq_sym Hk')).
  - intros t' m' [_ Hm']%lookup_delete_Some. by eapply L2.
Qed.

Lemma led_serve t req v : led v → led (spec_serve t req v).2.
Proof.
  intros L. unfold spec_serve. apply (switch_cases (λ o, led o.2)); [|done].
  repeat (apply Forall_cons; split); [..|by apply Forall_nil]; simpl; intros _.
  - destruct (join_check send_space sign req) as [a|] eqn:Ej; [|done].
    apply join_check_ok in Ej as (_ & _ & Ha & _). by apply led_join.
  - unfold expecting. destruct (server_expect_body_length _ _); [|done]. apply led_on_cell; [done|]. by left.
  - unfold expecting. destruct (server_expect_body_length _ _); [|done]. apply led_on_cell; [done|].
    intros me c. unfold spec_next_leader. do 2 (case_match; [by auto|]). by auto.
  - unfold expecting. destruct (server_expect_body_length _ _); [|done]. apply led_on_cell; [done|].
    intros me c. unfold spec_next_leader. do 2 (case_match; [by auto|]). by auto.
  - unfold expecting. destruct (server_expect_body_length _ _); [|done]. apply led_on_cell; [done|]. by left.
Qed.

(** ** A server at work *)

(** Requests of any connection in any role of the server, the ends of connections, and
    the closing of all of them when the server is no longer the master. *)
Inductive vote_reachable : S → Prop :=
| vote_init m g ts :
    mb_live m = ∅ → (∀ a, next_leader (g a) = 0) →
    (∀ t, SERVER_TASK_TYPE (ts t) = VOTE_SERVER_TASK_TYPE_NONE ∧ peer_group (ts t) = None) →
    vote_reachable (service_group_htable_init m g ts)
| vote_request cluster t req s :
    vote_reachable s → group_ok req →
    vote_reachable (run (process cluster t req) s).2
| vote_close t s : vote_reachable s → vote_reachable (run (service_task_finish_cleanup t) s).2
| vote_clear s : vote_reachable s → vote_reachable (run service_group_htable_clear_tasks s).2.

Lemma refines_init m g ts :
  mb_live m = ∅ → (∀ a, next_leader (g a) = 0) →
  (∀ t, SERVER_TASK_TYPE (ts t) = VOTE_SERVER_TASK_TYPE_NONE ∧ peer_group (ts t) = None) →
  refines (service_group_htable_init m g ts) {| cells := ∅; members := ∅ |}.
Proof.
  intros Hm Hg Ht. unfold service_group_htable_init. generalize (eq_refl (Z.to_nat htable_capacity)).
  generalize (Z.to_nat htable_capacity) at 2 3. intros n Hn. set (s := {| allocator := m |}).
  assert (table_ok s (replicate n [])) as T.
  { split; unfold s; simpl; rewrite ?Hm.
    - by rewrite length_replicate.
    - by rewrite !length_replicate.
    - intros i l [-> Hi]%lookup_replicate. simpl. by rewrite lookup_replicate_2.
    - intros i l a [-> Hi]%lookup_replicate. by intros ?%not_elem_of_nil.
    - intros i l [-> Hi]%lookup_replicate. constructor.
    - intros a. split; [set_solver|]. intros (i & l & [-> _]%lookup_replicate & Ha). set_solver.
    - set_solver.
    - set_solver. }
  split; simpl; try done.
  - by exists (replicate n []).
  - intros k Hk. unfold cell. destruct (group_at s _) as [a|] eqn:E; [|done].
    apply (group_at_some _ (replicate n [])) in E as [Ha _]; [|done]. simpl in Ha. set_solver.
  - intros t. unfold member. simpl. by destruct (Ht t) as [_ ->].
  - intros t. by destruct (Ht t) as [-> ->].
  - intros t a Ha. destruct (Ht t) as [_ Hx]. congruence.
Qed.

Lemma refines_clear n i s v : refines s v → refines (run (clear_buckets n i) s).2 v.
Proof.
  revert i s. induction n as [|n IH]; intros i s R; [done|]. unfold clear_buckets; fold (clear_buckets (MB:=MB)).
  rewrite run_bind. erewrite bind_ok by reflexivity. apply IH.
  generalize (chain_tasks (fuel_of s) (groups s) (default None (buckets s !! i))). intros l. revert s R.
  induction l as [|x l IHl]; intros s R; [done|]. simpl. by apply IHl, refines_close.
Qed.

Lemma vote_reachable_led s : vote_reachable s → ∃ v, refines s v ∧ led v.
Proof.
  induction 1 as [m g ts Hm Hg Ht|cluster t req s _ (v & R & L) Hg|t s _ (v & R & L)|s _ (v & R & L)].
  - eexists. split; [by apply refines_init|]. split; simpl; [intros k c|intros t x]; by rewrite lookup_empty.
  - destruct (decide (MYSELF_IS_MASTER cluster = true ∧ cmd req ∈ vote_commands)) as [[Hm Hc]|Hn].
    + destruct (process_serves cluster t req s v R Hm Hg Hc) as [_ R'].
      exists (spec_serve t req v).2. split; [done|by apply led_serve].
    + exists v. rewrite process_other; [done|]. intros Hm Hc. by apply Hn.
  - destruct (leave_serves t s v R) as [_ R']. exists (spec_leave t v). split; [done|by apply led_leave].
  - exists v. split; [by apply refines_clear|done].
Qed.

(** C21: in every state the vote server gets into, the groups are different groups of
    services, and a group that has a leader has a connection of that very server that
    joined it: no leader outlives its connections. *)
Theorem vote_leader_connected s :
  vote_reachable s →
  (∀ g g', g ∈ mb_live (allocator s) → g' ∈ mb_live (allocator s) →
     key_of (groups s g) = key_of (groups s g') → g = g') ∧
  ∀ g, g ∈ mb_live (allocator s) → leader_id (groups s g) ≠ 0 →
    ∃ t, peer_group (tasks s t) = Some g ∧ peer_server_id (tasks s t) = leader_id (groups s g) ∧
         SERVER_TASK_TYPE (tasks s t) = VOTE_SERVER_TASK_TYPE_VOTE_NODE.
Proof.
  intros Hr. destruct (vote_reachable_led s Hr) as (v & R & [L _]). destruct (r_table _ _ R) as [cs T].
  assert (∀ g g', g ∈ mb_live (allocator s) → g' ∈ mb_live (allocator s) →
     key_of (groups s g) = key_of (groups s g') → g = g') as Hu.
  { intros g g' Hg Hg' [= H3 H4]. apply (to_unique _ _ T); [done..|].
    destruct (to_key _ _ T g Hg) as [_ ->], (to_key _ _ T g' Hg') as [_ ->]. by rewrite H3, H4. }
  split; [done|]. intros g Hg Hl. pose proof (cell_of_live s v g R Hg) as Hc.
  destruct (L _ _ Hc Hl) as (t & m & Hm & Hk & Hs). simpl in Hs.
  destruct (member_facts s v t m R Hm) as (g' & Hg' & Hgl' & Hk' & Hs' & _ & Ht & _). exists t.
  assert (g' = g) as -> by (apply Hu; [done..|congruence]). split_and!; [done|congruence|by apply Z.eqb_eq].
Qed.

End server.

End spec.
End VoteSpec.
