(* ===== verification/VoteThreads.v ===== *)
(** * Vote handlers beside each other

    The handlers of several connections run in several threads, and load and swap the
    leader of a group without a lock.  Whatever the interleaving of their steps, the
    leadership of a group is taken only when it is free, by a connection of the server
    that takes it, and given up only when a connection of the leader ends. *)
From Stdlib Require Import Init.Byte.
From S2P Require Import Prelude Fastcommon AuthProto ServiceHandler ServiceProofs Atomic VoteServer VoteSpec.
Import AuthProto Atomic VoteServer.
Import ServiceProofs(switch_cases).
Import VoteSpec(join_check_ok).
Import ServiceHandler(request, cmd, body, response, resp_cmd, resp_body, cluster_vars, switch, body_len,
  FCFSAuthClusterServerInfo).
Local Open Scope Z_scope.

Module VoteThreads.
Section threads.
Context `{!BuffCodec, !ServerFrame, !VoteFrame}.
Context {MB : Type} `{!Mblock MB, !MblockLaws MB}.
Variables (send_space : Z) (sign : list byte) (ip_size : Z) (address : FCFSAuthClusterServerInfo → string_t * Z).
Abbreviation S := (vote_state MB).
Implicit Types s : S.

(** What a thread does for a connection: a request, or its end. *)
Inductive job := Serve (cluster : cluster_vars) (req : request) | Close.

Definition code (t : nat) (j : job) : prog S (result response) :=
  match j with
  | Serve cluster req => service_process send_space sign ip_size address cluster t req
  | Close => _ ← service_task_finish_cleanup t; mret ack
  end.

(** The task of a connection is its own. *)
Definition rely (t : nat) s s' : Prop := tasks s' t = tasks s t.

(** The server for which a step may take the leadership of [g]: the one that joins as
    leader, or the one whose connection joined [g] before. *)
Definition may_lead (t : nat) (j : job) s (g : addr) (x : Z) : Prop :=
  match j with
  | Serve _ req =>
      (j_persistent (join_request (body req)) = true ∧ x = j_server_id (join_request (body req))) ∨
      (peer_group (tasks s t) = Some g ∧ x = peer_server_id (tasks s t))
  | Close => False
  end.

Definition leader s (g : addr) : Z := leader_id (groups s g).

Definition handover (t : nat) (j : job) s s' (g : addr) : Prop :=
  leader s' g = leader s g ∨
  (leader s g = 0 ∧ may_lead t j s g (leader s' g)) ∨
  (leader s' g = 0 ∧ j = Close ∧ peer_group (tasks s t) = Some g ∧ peer_server_id (tasks s t) = leader s g).

Definition guarantee (t : nat) (j : job) s s' : Prop :=
  (∀ t', t' ≠ t → tasks s' t' = tasks s t') ∧
  ∀ g, g ∈ mb_live (allocator s) → handover t j s s' g.

#[local] Instance rely_preorder t : PreOrder (rely t).
Proof. split; [done|]. unfold rely. intros s s1 s2 E1 E2. congruence. Qed.

Lemma guarantee_refl t j s : guarantee t j s s.
Proof. split; [done|]. by left. Qed.

(** A step that changes neither tasks nor leaders. *)
Lemma guarantee_quiet t j s s' :
  tasks s' = tasks s → (∀ g, g ∈ mb_live (allocator s) → leader s' g = leader s g) → guarantee t j s s'.
Proof. intros Ht Hl. split; [intros; by rewrite Ht|]. left. by apply Hl. Qed.

Abbreviation ok t j := (safe (rely t) (guarantee t j)).

(** ** Steps *)

(** The assertion of a program that has read its task. *)
Definition at_task (t : nat) (x : task_arg) s : Prop := tasks s t = x.

Lemma ok_step {A B} t j x (f : S → B * S) (k : B → prog S A) :
  (∀ s, tasks s t = x → guarantee t j s (f s).2 ∧ tasks (f s).2 t = x) →
  (∀ b, ok t j (at_task t x) (k b)) → ok t j (at_task t x) (Step f k).
Proof.
  intros Hf Hk. split; [intros s Hs; by apply Hf|]. intros b. eapply safe_mono, Hk.
  intros s' (s & Hs & _ & HR). unfold at_task. rewrite HR. by apply Hf.
Qed.

Lemma ok_load_task {A} t j Q (k : task_arg → prog S A) :
  (∀ x, ok t j (at_task t x) (k x)) → ok t j Q (Step (λ s, (tasks s t, s)) k).
Proof.
  intros Hk. split; [intros; apply guarantee_refl|]. intros x. eapply safe_mono, Hk.
  intros s' (s & _ & Hx & HR). unfold at_task. rewrite HR. done.
Qed.

Lemma ok_load {A B} t j x (f : S → B) (k : B → prog S A) :
  (∀ b, ok t j (at_task t x) (k b)) → ok t j (at_task t x) (Step (λ s, (f s, s)) k).
Proof. intros Hk. apply ok_step; [|done]. intros s Hs. split; [apply guarantee_refl|done]. Qed.

Lemma ok_done {A} t j Q (a : A) : ok t j Q (Done a).
Proof. done. Qed.

Lemma alter_leader f g s a :
  (∀ x, leader_id (f x) = leader_id x) → leader_id (alter f g (groups s) a) = leader_id (groups s a).
Proof.
  intros Hf. destruct (decide (g = a)) as [<-|]; [by rewrite fn_lookup_alter|by rewrite fn_lookup_alter_ne].
Qed.

Lemma ok_cas_next {A} t j x g old new (k : bool → prog S A) :
  (∀ b, ok t j (at_task t x) (k b)) →
  ok t j (at_task t x) (Step (λ s, if next_leader (groups s g) =? old
    then (true, set_groups (alter (set_next_leader new) g (groups s)) s) else (false, s)) k).
Proof.
  intros Hk. apply ok_step; [|done]. intros s Hs. destruct (_ =? _); (split; [|done]); [|apply guarantee_refl].
  apply guarantee_quiet; [done|]. intros a _. by apply alter_leader.
Qed.

Lemma ok_cas_leader {A} t j x g old new (k : bool → prog S A) :
  (∀ s, tasks s t = x → leader s g = old →
     (old = 0 ∧ may_lead t j s g new) ∨
     (new = 0 ∧ j = Close ∧ peer_group x = Some g ∧ peer_server_id x = old)) →
  (∀ b, ok t j (at_task t x) (k b)) →
  ok t j (at_task t x) (Step (λ s, if leader_id (groups s g) =? old
    then (true, set_groups (alter (set_leader new) g (groups s)) s) else (false, s)) k).
Proof.
  intros Hc Hk. apply ok_step; [|done]. intros s Hs.
  destruct (Z.eqb_spec (leader_id (groups s g)) old) as [Hl|]; (split; [|done]); [|apply guarantee_refl].
  split; [done|]. intros a _. unfold handover, leader. simpl. destruct (decide (g = a)) as [<-|].
  - rewrite fn_lookup_alter. simpl. right. destruct (Hc s Hs Hl) as [[-> Hm]|(-> & -> & Hg & Ho)]; [by left|].
    right. rewrite Hs. unfold leader in *. by rewrite Hl.
  - left. by rewrite fn_lookup_alter_ne.
Qed.

Lemma ok_set_peer {A} t j Q x (k : unit → prog S A) :
  (∀ b Q', ok t j Q' (k b)) → ok t j Q (Step (λ s, (tt, set_tasks (<[t := x]> (tasks s)) s)) k).
Proof.
  intros Hk. split; [|intros b; apply Hk]. intros s _. split; [|by left].
  intros t' Ht'. simpl. by rewrite fn_lookup_insert_ne.
Qed.

(** ** Handlers *)

Lemma ok_lookup {A} t j x sid gid lead rsize tk (k : option (addr * bool) → prog S A) :
  (∀ b, ok t j (at_task t x) (k b)) → ok t j (at_task t x) (Step (htable_lookup sid gid lead rsize tk) k).
Proof.
  intros Hk. apply ok_step; [|done]. intros s Hs. unfold htable_lookup.
  destruct (find_group _ _ _ _); [split; [apply guarantee_refl|done]|].
  destruct (mb_alloc 0 (allocator s)) as [[a|] m] eqn:Ea; (split; [|done]); [|by apply guarantee_quiet].
  apply guarantee_quiet; [done|]. intros g Hg. unfold leader. simpl. rewrite fn_lookup_alter_ne; [done|].
  apply mb_alloc_some in Ea as [Ha _]. by intros <-.
Qed.

Lemma ok_replace_task {A} t j x g y (k : unit → prog S A) :
  (∀ b, ok t j (at_task t x) (k b)) →
  ok t j (at_task t x) (Step (λ s, (tt,
    if bool_decide (task (groups s g) = Some y) then s
    else let s := match task (groups s g) with Some old => notify_close old s | None => s end in
         set_groups (alter (set_task (Some y)) g (groups s)) s)) k).
Proof.
  intros Hk. apply ok_step; [|done]. intros s Hs. cbn.
  case_bool_decide; [split; [apply guarantee_refl|done]|]. split; [|by destruct (task (groups s g))].
  apply guarantee_quiet; [by destruct (task (groups s g))|]. intros a _. unfold leader. simpl.
  destruct (task (groups s g)); simpl; by apply alter_leader.
Qed.

#[local] Arguments safe : simpl never.

(** Take a program apart. *)
Ltac steps :=
  repeat (unfold mret, P_ret; cbn; first
    [ apply ok_done | apply ok_load_task; intros ? | apply ok_load; intros ?
    | apply ok_cas_next; intros ? | apply ok_set_peer; intros ? ? | case_match ]).

Lemma ok_join cluster t req Q : ok t (Serve cluster req) Q (service_deal_client_join send_space sign t req).
Proof.
  unfold service_deal_client_join, give. destruct (join_check send_space sign req) as [a|] eqn:Ej; [|done].
  apply join_check_ok in Ej as (Ha & _ & _ & Hl).
  apply ok_load_task. intros x. case_bool_decide; [done|]. unfold service_group_htable_get. cbn.
  apply ok_lookup. intros [[g []]|]; [by steps| |done].
  destruct (Z.ltb_spec 0 (if j_persistent a && j_is_leader a then j_server_id a else 0)) as [Hlt|]; [|by steps].
  destruct (j_persistent a) eqn:Ep; [|done]. rewrite Hl in Hlt |- * by done. cbn in *.
  assert (∀ b, ok t (Serve cluster req) (at_task t x)
    (Step (λ s, (tt, if bool_decide (task (groups s g) = Some t) then s
      else let s := match task (groups s g) with Some old => notify_close old s | None => s end in
           set_groups (alter (set_task (Some t)) g (groups s)) s))
      (λ _ : unit, Step (λ s, (tt, set_tasks (<[t := b]> (tasks s)) s))
         (λ _ : unit, Done (Ok {| resp_cmd := FCFS_VOTE_SERVICE_PROTO_CLIENT_JOIN_RESP; resp_body := [] |}))))) as Hrep.
  { intros b. apply ok_replace_task. intros _. by steps. }
  apply ok_load. intros old. unfold mret, P_ret. cbn.
  destruct (Z.eqb_spec old 0) as [->|]; cbn; [|case_match; [apply Hrep|done]].
  apply ok_cas_leader; [|intros []; [apply Hrep|done]].
  intros s Hs Hl0. left. split; [done|]. left. by rewrite <- Ha.
Qed.

Lemma ok_next_leader cluster t req Q : ok t (Serve cluster req) Q (service_deal_next_leader t req).
Proof.
  unfold service_deal_next_leader, give. destruct (server_expect_body_length _ _); [|done]. cbn.
  apply ok_load_task. intros x. destruct (SERVER_TASK_TYPE x =? _); [|done].
  destruct (peer_group x) as [g|] eqn:Hg; [|done]. unfold mret, P_ret. cbn.
  apply ok_load. intros old. destruct (negb (old =? 0)); [by case_match|].
  apply ok_load. intros nxt. destruct (cmd req =? _); [by steps|].
  apply ok_cas_next. intros _. destruct (negb _); [done|].
  apply ok_cas_leader; [|intros []; by steps].
  intros s Hs _. left. split; [done|]. right. by rewrite Hs.
Qed.

Lemma ok_cleanup t Q : ok t Close Q (code t Close).
Proof.
  unfold code, service_task_finish_cleanup. cbn. apply ok_load_task. intros x.
  destruct (SERVER_TASK_TYPE x =? _); [|done]. destruct (peer_group x) as [g|] eqn:Hg; [|done]. cbn.
  apply ok_cas_leader; [by right|]. intros swapped. destruct (swapped && peer_persistent x); [|by steps].
  cbn. apply ok_step; [|intros _; by steps]. intros s Hs. split; [|done].
  apply guarantee_quiet; [done|]. intros a _. by apply alter_leader.
Qed.

Lemma ok_code t j Q : ok t j Q (code t j).
Proof.
  destruct j as [cluster req|]; [|apply ok_cleanup]. simpl. unfold service_process.
  destruct (negb _ && _); [done|].
  apply (switch_cases (λ p, ok t (Serve cluster req) Q p)); [|done].
  repeat (apply Forall_cons; split); [..|by apply Forall_nil]; simpl; intros _.
  - unfold give. by destruct (sf_proto_deal_active_test (body req)).
  - unfold service_deal_cluster_stat, give. by destruct (server_expect_body_length _ _).
  - unfold fcfs_vote_deal_get_master, give. destruct (server_expect_body_length _ _); [|done]. by steps.
  - unfold fcfs_vote_deal_get_master, give. destruct (server_expect_body_length _ _); [|done]. by steps.
  - apply ok_join.
  - unfold service_deal_get_vote, give. destruct (server_expect_body_length _ _); [|done]. by steps.
  - apply ok_next_leader.
  - apply ok_next_leader.
  - unfold service_deal_active_check, give. destruct (server_expect_body_length _ _); [|done]. by steps.
Qed.

(** C20: however the steps of the handlers interleave, a step that changes the leader of a
    group either takes a leadership that is free, for the server that joins as leader or
    whose connection joined the group, or gives it up at the end of a connection of the
    leader: it never passes from one server to another. *)
Theorem leadership_passes_through_nobody s0 t x y g :
  treachable code s0 x → tstep code t x y → g ∈ mb_live (allocator (shared x)) →
  leader (shared y) g ≠ leader (shared x) g →
  ∃ j p, pool x t = Some (j, p) ∧
    ((leader (shared x) g = 0 ∧ may_lead t j (shared x) g (leader (shared y) g)) ∨
     (leader (shared y) g = 0 ∧ j = Close ∧ peer_group (tasks (shared x) t) = Some g ∧
      peer_server_id (tasks (shared x) t) = leader (shared x) g)).
Proof.
  intros Hr Hs Hg Hne.
  destruct (threads_guarantee code rely guarantee rely_preorder) with s0 t x y as [Heq|(j & p & Hp & _ & Hh)];
    [|intros; apply ok_code|done..| |].
  - intros c c' j s s' [Ht _] Hc. apply Ht. congruence.
  - by rewrite Heq in Hne.
  - exists j, p. split; [done|]. by destruct (Hh g Hg).
Qed.

End threads.
End VoteThreads.
