(* ===== verification/VoteClient.v ===== *)
(** * The client of the vote server (src/vote/client/client_proto.c, client_proto.h)

    A server of another cluster finds the master of the vote servers, joins the group
    of its service over a connection and votes, checks or sets the next leader over it.
    The connections are libfastcommon's and libserverframe's: a class here. *)
From Stdlib Require Import Init.Byte.
From S2P Require Import Prelude Fastcommon AuthProto ServiceHandler ClientProto VoteServer.
Import AuthProto VoteServer.
Import ClientProto(FCFSAuthClientClusterStatEntry, stat_online, stat_master, stat_id, stat_ip, stat_port,
  ip_string, parse_servers, sizeof_FCFSAuthProtoClusterStatRespBodyHeader,
  sizeof_FCFSAuthProtoClusterStatRespBodyPart).
Local Open Scope Z_scope.

Module VoteClient.

(** A connection is a number ([sock]); addresses are pairs of text and port. *)
Class VoteNet (W : Type) := {
  rand : W → Z * W;
  (** connect to the server at a position of the configuration, or to an address *)
  fc_server_make_connection : Z → M W nat;
  conn_pool_connect_server : string_t * Z → M W nat;
  conn_pool_disconnect_server : nat → W → W;
  FC_CONNECTION_SERVER_EQUAL1 : nat → string_t * Z → W → bool;
  (** command and body of the request, command (and size) of the response *)
  sf_send_and_recv_response : nat → Z → list byte → Z → Z → M W (list byte);
  sf_send_and_recv_none_body_response : nat → Z → list byte → Z → M W unit;
  sf_send_and_check_response_header : nat → Z → list byte → Z → M W Z;
  tcprecvdata_nb : nat → Z → M W (list byte);
}.

Record FCFSVoteClientJoinRequest := {
  jr_server_id : Z; jr_group_id : Z; jr_response_size : Z; jr_service_id : Z;
  jr_is_leader : bool; jr_persistent : bool;
}.

Section client.
Context `{!BuffCodec, !VoteFrame} {W : Type} `{!VoteNet W, !Malloc W}.

(** The configured servers and the digest of their configuration. *)
Variable server_count : Z.
Variable md5_digest : list byte.
Variable IP_ADDRESS_SIZE : Z.

Definition disconnect (conn : nat) : M W unit := modify (conn_pool_disconnect_server conn).

(** The servers after [index], round to it again; [e] is the last error. *)
Fixpoint try_servers (fuel : nat) (i index : Z) (e : errno) : M W nat :=
  match fuel with
  | O => throw e
  | S fuel =>
      if i =? index then throw e
      else
        r ← attempt (fc_server_make_connection i);
        match r with
        | Ok conn => mret conn
        | Err e => try_servers fuel ((i + 1) mod server_count) index e
        end
  end.
Definition get_connection : M W nat :=
  n ← (λ w, let '(n, w) := rand w in (Ok n, w));
  let index := n mod server_count in
  r ← attempt (fc_server_make_connection index);
  match r with
  | Ok conn => mret conn
  | Err e => try_servers (Z.to_nat server_count) ((index + 1) mod server_count) index e
  end.

Definition vote_client_proto_get_master_connection_ex : M W nat :=
  conn ← get_connection;
  r ← attempt (sf_send_and_recv_response conn FCFS_VOTE_SERVICE_PROTO_GET_MASTER_REQ []
                 FCFS_VOTE_SERVICE_PROTO_GET_MASTER_RESP sizeof_SFProtoGetServerResp);
  match r with
  | Err e => _ ← disconnect conn; throw e
  | Ok resp =>
      let master := (ip_string IP_ADDRESS_SIZE (server_resp_ip resp), server_resp_port resp) in
      equal ← gets (FC_CONNECTION_SERVER_EQUAL1 conn master);
      if equal : bool then mret conn
      else _ ← disconnect conn; conn_pool_connect_server master
  end.

(** [FCFSVoteProtoClientJoinReq]; [padding] is not initialised. *)
Definition pack_join (r : FCFSVoteClientJoinRequest) (padding : list byte) : list byte :=
  int2buff (jr_server_id r) ++ int2buff (jr_group_id r) ++ short2buff (jr_response_size r) ++
  [byte_of (Z.b2z (jr_is_leader r)); byte_of (jr_service_id r); byte_of (Z.b2z (jr_persistent r))] ++
  padding ++ md5_digest.

Definition vote_client_proto_join_ex (conn : nat) (r : FCFSVoteClientJoinRequest) (padding : list byte)
    : M W unit :=
  sf_send_and_recv_none_body_response conn FCFS_VOTE_SERVICE_PROTO_CLIENT_JOIN_REQ (pack_join r padding)
    FCFS_VOTE_SERVICE_PROTO_CLIENT_JOIN_RESP.

Definition vote_client_proto_get_vote_ex (conn : nat) (servers_sign : list byte)
    (cluster_sign : option (list byte)) (server_id : Z) (is_leader : bool) (in_len : Z) : M W (list byte) :=
  sf_send_and_recv_response conn FCFS_VOTE_SERVICE_PROTO_GET_VOTE_REQ
    (sf_proto_get_server_status_pack servers_sign cluster_sign server_id is_leader)
    FCFS_VOTE_SERVICE_PROTO_GET_VOTE_RESP in_len.

Definition vote_client_proto_notify_next_leader_ex (conn : nat) (req_cmd : Z) : M W unit :=
  sf_send_and_recv_none_body_response conn req_cmd [] SF_PROTO_ACK.

Definition vote_client_proto_active_check_ex (conn : nat) : M W unit :=
  sf_send_and_recv_none_body_response conn FCFS_VOTE_SERVICE_PROTO_ACTIVE_CHECK_REQ []
    FCFS_VOTE_SERVICE_PROTO_ACTIVE_CHECK_RESP.

Definition vote_client_proto_close_connection_ex (conn : nat) : M W unit := disconnect conn.

Definition fcfs_vote_client_join_ex (r : FCFSVoteClientJoinRequest) (padding : list byte) : M W nat :=
  conn ← vote_client_proto_get_master_connection_ex;
  x ← attempt (vote_client_proto_join_ex conn r padding);
  match x with
  | Ok _ => mret conn
  | Err e => _ ← vote_client_proto_close_connection_ex conn; throw e
  end.

Definition fcfs_vote_client_get_vote_ex (r : FCFSVoteClientJoinRequest) (padding : list byte)
    (servers_sign : list byte) (cluster_sign : option (list byte)) (in_len : Z) : M W (list byte) :=
  conn ← fcfs_vote_client_join_ex r padding;
  x ← attempt (vote_client_proto_get_vote_ex conn servers_sign cluster_sign (jr_server_id r)
                 (jr_is_leader r) in_len);
  _ ← vote_client_proto_close_connection_ex conn;
  lift x.

Definition fcfs_vote_client_notify_next_leader_ex (r : FCFSVoteClientJoinRequest) (padding : list byte)
    (req_cmd : Z) : M W unit :=
  conn ← fcfs_vote_client_join_ex r padding;
  x ← attempt (vote_client_proto_notify_next_leader_ex conn req_cmd);
  _ ← vote_client_proto_close_connection_ex conn;
  lift x.

(** The entries; there is room for [size].  The structs have the fields of those of the
    authentication service. *)
Definition cluster_stat_recv (conn : nat) : M W (list byte) :=
  body_len ← sf_send_and_check_response_header conn FCFS_VOTE_SERVICE_PROTO_CLUSTER_STAT_REQ []
               FCFS_VOTE_SERVICE_PROTO_CLUSTER_STAT_RESP;
  _ ← (if body_len >? 8 * 1024 then
         λ w, let '(ok, w) := fc_malloc body_len w in ensure ok ENOMEM w
       else mret tt);
  tcprecvdata_nb conn body_len.
Definition fcfs_vote_client_cluster_stat_ex (size : Z) : M W (list FCFSAuthClientClusterStatEntry) :=
  conn ← vote_client_proto_get_master_connection_ex;
  r ← attempt
    (b ← cluster_stat_recv conn;
     let count := buff2int (bytes_at b 0 4) in
     let calc_size := int32 (sizeof_FCFSAuthProtoClusterStatRespBodyHeader +
                             count * sizeof_FCFSAuthProtoClusterStatRespBodyPart IP_ADDRESS_SIZE) in
     if negb (calc_size =? Z.of_nat (length b)) then throw EINVAL
     else if size <? count then throw ENOSPC
     else mret (parse_servers IP_ADDRESS_SIZE (Z.to_nat count) b sizeof_FCFSAuthProtoClusterStatRespBodyHeader));
  _ ← vote_client_proto_close_connection_ex conn;
  lift r.
End client.
End VoteClient.
