(* ===== verification/VoteClientSpec.v ===== *)
(** * Voting over connections

    The client of [VoteClient.v] connected to the server of [VoteServer.v]: what a call
    packs is what the handler reads, the vote a server gets, and what becomes of a leader
    that was set over a connection which the call closes. *)
From Stdlib Require Import Init.Byte.
From S2P Require Import Prelude Fastcommon AuthProto ServiceHandler ClientProto ClientCluster SessionReplica SessionSubscribeProofs Atomic VoteServer VoteSpec VoteClient.
Import AuthProto Atomic VoteServer VoteTable VoteSpec VoteClient.
Import ClientProto(ip_string).
Import ClientCluster(ip_fits).
Import SessionReplica(bytes_at_drop, bytes_at_here, char_at_drop).
Import ServiceHandler(request, cmd, body, behind, response, resp_cmd, resp_body, cluster_vars, servers,
  CLUSTER_MASTER_PTR, MYSELF_IS_MASTER, body_len, FCFSAuthClusterServerInfo, server_id).
Local Open Scope Z_scope.

(** The structs of libserverframe keep their fields. *)
Class VoteFrameStructs `{!VoteFrame} (ip_size : Z) : Prop := {
  length_server_resp i ip port : Z.of_nat (length (server_resp i ip port)) = sizeof_SFProtoGetServerResp;
  server_resp_address i ip port : ip_fits ip_size ip → in_uint 16 port →
    ip_string ip_size (server_resp_ip (server_resp i ip port)) = ip ∧
    server_resp_port (server_resp i ip port) = port;
  length_status_pack a b i l :
    Z.of_nat (length (sf_proto_get_server_status_pack a b i l)) = sizeof_SFProtoGetServerStatusReq;
}.

Module VoteClientSpec.
Section link.
Context `{!BuffCodec, !BuffCodecLaws, !ServerFrame, !ServerFrameLaws, !VoteFrame, !VoteFrameLaws}.
Context {MB : Type} `{!Mblock MB, !MblockLaws MB, !MblockTotal MB}.
Variables (send_space : Z) (sign : list byte) (ip_size : Z) (address : FCFSAuthClusterServerInfo → string_t * Z).
Context `{!VoteFrameStructs ip_size}.
Variable cluster : cluster_vars.
Abbreviation S := (vote_state MB).
Abbreviation process := (service_process (MB:=MB) send_space sign ip_size address cluster).

(** ** A world in which the connections lead to the server *)
Section laws.
Context {W : Type} `{!VoteNet W} (vl : W → S) (master_address : string_t * Z).

Definition exchanges {A} (t : nat) (c : Z) (b : list byte) (rc : Z) (fits : Z → bool)
    (take_body : list byte → A) (m : M W A) : Prop := ∀ w,
  match run (process t {| cmd := c; body := b; behind := [] |}) (vl w) with
  | (Ok resp, s') =>
      ∃ w', vl w' = s' ∧
        if (resp_cmd resp =? rc) && fits (Z.of_nat (length (resp_body resp)))
        then m w = (Ok (take_body (resp_body resp)), w')
        else ∃ e, m w = (Err e, w')
  | (Err e, s') => ∃ w' e', vl w' = s' ∧ m w = (Err e', w') ∧ ((∀ x, e ≠ NEG x) → e' = e)
  end.

(** Every configured server is the master, reached over a new connection; closing a
    connection ends it on the server. *)
Class VoteLink : Prop := {
  link_rand w : vl (rand w).2 = vl w;
  link_make i w : ∃ t w', fc_server_make_connection i w = (Ok t, w') ∧ vl w' = vl w ∧
    peer_group (tasks (vl w) t) = None ∧ ∀ w1, FC_CONNECTION_SERVER_EQUAL1 t master_address w1 = true;
  link_close t w : vl (conn_pool_disconnect_server t w) = (run (service_task_finish_cleanup t) (vl w)).2;
  link_response t c b rc n :
    exchanges t c b rc (Z.eqb n) id (sf_send_and_recv_response t c b rc n);
  link_none t c b rc :
    exchanges t c b rc (Z.eqb 0) (λ _, tt) (sf_send_and_recv_none_body_response t c b rc);
}.
End laws.

Context {W : Type} `{!VoteNet W} (vl : W → S) (cs : FCFSAuthClusterServerInfo) (server_count : Z).
Context `{!VoteLink vl (address cs)}.
Hypothesis cluster_master : MYSELF_IS_MASTER cluster = true.
Hypothesis master_is_cs : (m ← CLUSTER_MASTER_PTR cluster; servers cluster !! m) = Some cs.
Hypothesis address_fits : ip_fits ip_size (address cs).1 ∧ in_uint 16 (address cs).2.

Abbreviation get_master := (vote_client_proto_get_master_connection_ex (W:=W) server_count ip_size).

Lemma process_get_master t s :
  run (process t {| cmd := FCFS_VOTE_SERVICE_PROTO_GET_MASTER_REQ; body := []; behind := [] |}) s =
  (Ok {| resp_cmd := FCFS_VOTE_SERVICE_PROTO_GET_MASTER_RESP;
         resp_body := server_resp (server_id cs) (address cs).1 (address cs).2 |}, s).
Proof.
  unfold service_process. rewrite cluster_master. cbn [negb andb cmd body].
  rewrite (switch_at _ _ (fcfs_vote_deal_get_master address cluster FCFS_VOTE_SERVICE_PROTO_GET_MASTER_RESP
    {| cmd := FCFS_VOTE_SERVICE_PROTO_GET_MASTER_REQ; body := []; behind := [] |}));
    [|exact vf_requests|repeat first [left; done|right]].
  unfold fcfs_vote_deal_get_master, give. rewrite server_expect_body_length_eq. cbn.
  destruct (CLUSTER_MASTER_PTR cluster) as [m|]; [|done]. cbn in *. rewrite master_is_cs.
  by destruct (address cs).
Qed.

Lemma master_connection w : ∃ t w', get_master w = (Ok t, w') ∧ vl w' = vl w ∧
  peer_group (tasks (vl w) t) = None.
Proof.
  unfold vote_client_proto_get_master_connection_ex, get_connection.
  destruct (rand w) as [n w0] eqn:Er. pose proof (link_rand vl (address cs) w) as Hr. rewrite Er in Hr. simpl in Hr.
  destruct (link_make vl (address cs) (n mod server_count) w0) as (t & w1 & Hm & Hv & Hp & He).
  assert (get_connection server_count w = (Ok t, w1)) as Hc.
  { unfold get_connection. unfold mbind at 1, M_bind at 1. rewrite Er.
    rewrite (bind_ok _ _ _ _ _ (attempt_eq _ _ _ _ Hm)). done. }
  fold (get_connection (W:=W) server_count). rewrite (bind_ok _ _ _ _ _ Hc).
  pose proof (link_response vl (address cs) t FCFS_VOTE_SERVICE_PROTO_GET_MASTER_REQ []
    FCFS_VOTE_SERVICE_PROTO_GET_MASTER_RESP sizeof_SFProtoGetServerResp w1) as Hx.
  rewrite process_get_master in Hx. destruct Hx as (w2 & Hw2 & Hx). cbn in Hx.
  rewrite length_server_resp, Z.eqb_refl in Hx.
  rewrite (bind_ok _ _ _ _ _ (attempt_eq _ _ _ _ Hx)).
  destruct (server_resp_address (server_id cs) _ _ (proj1 address_fits) (proj2 address_fits)) as [Hip Hpt].
  unfold id. rewrite Hip, Hpt. unfold gets. erewrite bind_ok by reflexivity. cbv beta.
  rewrite <- surjective_pairing, He. exists t, w2. split_and!; [done|congruence|]. by rewrite <- Hr.
Qed.

(** ** What a join request says *)

Definition join_args_of (r : FCFSVoteClientJoinRequest) : join_args :=
  {| j_server_id := jr_server_id r; j_group_id := jr_group_id r; j_response_size := jr_response_size r;
     j_service_id := jr_service_id r; j_is_leader := jr_is_leader r; j_persistent := jr_persistent r |}.

(** A request that the server accepts. *)
Record join_ok (r : FCFSVoteClientJoinRequest) : Prop := {
  jo_server : 0 < jr_server_id r < 2 ^ 31;
  jo_group : 0 ≤ jr_group_id r < 2 ^ 31;
  jo_size : 0 < jr_response_size r < 2 ^ 15 ∧ jr_response_size r ≤ send_space;
  jo_service : jr_service_id r ∈ [FCFS_VOTE_SERVICE_ID_FAUTH; FCFS_VOTE_SERVICE_ID_FDIR; FCFS_VOTE_SERVICE_ID_FSTORE];
  jo_leader : jr_persistent r = true → jr_is_leader r = true;
}.

Lemma service_byte x : x ∈ [FCFS_VOTE_SERVICE_ID_FAUTH; FCFS_VOTE_SERVICE_ID_FDIR; FCFS_VOTE_SERVICE_ID_FSTORE] →
  0 ≤ x < 256.
Proof.
  rewrite !elem_of_cons. unfold FCFS_VOTE_SERVICE_ID_FAUTH, FCFS_VOTE_SERVICE_ID_FDIR, FCFS_VOTE_SERVICE_ID_FSTORE.
  intros [?|[?|[?|Hx]]]; [lia..|by apply not_elem_of_nil in Hx].
Qed.

Ltac field_lia := rewrite ?length_int2buff, ?length_short2buff; simpl length; lia.
Ltac read_field :=
  rewrite <- ?app_assoc; repeat rewrite bytes_at_drop by field_lia; apply bytes_at_here; field_lia.

Lemma join_request_pack r padding :
  join_ok r → join_request (pack_join sign r padding) = join_args_of r.
Proof.
  intros [J1 J2 J3 J4 J5]. apply service_byte in J4. unfold join_request, pack_join.
  set (b := int2buff _ ++ _).
  assert (bytes_at b 0 4 = int2buff (jr_server_id r)) as -> by (unfold b; read_field).
  assert (bytes_at b 4 4 = int2buff (jr_group_id r)) as -> by (unfold b; read_field).
  assert (bytes_at b 8 2 = short2buff (jr_response_size r)) as -> by (unfold b; read_field).
  assert (∀ i c, 10 ≤ i ≤ 12 → [byte_of (Z.b2z (jr_is_leader r)); byte_of (jr_service_id r);
      byte_of (Z.b2z (jr_persistent r))] !! Z.to_nat (i - 10) = Some (byte_of c) → 0 ≤ c < 256 →
    char_at b i = c) as Hc.
  { intros i c Hi Hl Hr. unfold b. rewrite !char_at_drop by field_lia.
    rewrite !length_int2buff, length_short2buff. unfold char_at.
    replace (i - _ - _ - _) with (i - 10) by (simpl; lia).
    rewrite lookup_app_l by (simpl; lia). rewrite Hl. by apply byte_val_of. }
  rewrite (Hc 10 (Z.b2z (jr_is_leader r))), (Hc 11 (jr_service_id r)), (Hc 12 (Z.b2z (jr_persistent r)));
    try done; try (by destruct (jr_is_leader r)); try (by destruct (jr_persistent r)).
  rewrite !buff2int_int2buff, buff2short_short2buff by wrap_lia. unfold join_args_of. f_equal.
  - by destruct (jr_is_leader r).
  - by destruct (jr_persistent r).
Qed.

Lemma join_check_pack r padding :
  join_ok r → length padding = 3%nat → Z.of_nat (length sign) = SF_CLUSTER_CONFIG_SIGN_LEN →
  join_check send_space sign {| cmd := FCFS_VOTE_SERVICE_PROTO_CLIENT_JOIN_REQ;
                                body := pack_join sign r padding; behind := [] |} = Ok (join_args_of r).
Proof.
  intros J Hp Hs. unfold join_check. cbn [body]. rewrite join_request_pack by done. pose proof J as [J1 J2 J3 J4 J5].
  rewrite server_expect_body_length_eq. unfold body_len. cbn [body].
  assert (Z.of_nat (length (pack_join sign r padding)) = sizeof_FCFSVoteProtoClientJoinReq) as ->.
  { unfold pack_join, sizeof_FCFSVoteProtoClientJoinReq. rewrite !length_app, !length_int2buff, length_short2buff, Hp.
    simpl. lia. }
  rewrite Z.eqb_refl. cbn. rewrite bool_decide_eq_true_2 by done. cbn.
  rewrite (proj2 (Z.leb_gt _ _)) by lia. rewrite (proj2 (Z.leb_gt (jr_response_size r) 0)) by lia.
  destruct (Z.gtb_spec (jr_response_size r) send_space); [lia|]. cbn.
  assert (jr_persistent r && negb (jr_is_leader r) = false) as ->.
  { destruct (jr_persistent r); [|done]. by rewrite J5. }
  unfold service_check_config_sign. rewrite bool_decide_eq_true_2; [done|].
  unfold pack_join. rewrite !app_assoc. apply bytes_at_back; [|done].
  rewrite !length_app, !length_int2buff, length_short2buff, Hp. simpl. lia.
Qed.

(** ** Calls *)

Abbreviation spec := (spec_serve send_space sign).

(** The answer to a request, as a client sees it. *)
Definition answers {A} (rc : Z) (fits : Z → bool) (take_body : list byte → A) (r : result response)
    (x : result A) : Prop :=
  match r with
  | Ok resp => if (resp_cmd resp =? rc) && fits (Z.of_nat (length (resp_body resp)))
               then x = Ok (take_body (resp_body resp)) else ∃ e, x = Err e
  | Err e => ∃ e', x = Err e' ∧ ((∀ y, e ≠ NEG y) → e' = e)
  end.

Lemma vote_exchange_ok {A} t c b rc fits (take_body : list byte → A) m w v :
  exchanges vl t c b rc fits take_body m → refines (vl w) v → c ∈ vote_commands →
  group_ok {| cmd := c; body := b; behind := [] |} →
  let o := spec t {| cmd := c; body := b; behind := [] |} v in
  ∃ x w', m w = (x, w') ∧ refines (vl w') o.2 ∧ answers rc fits take_body o.1 x.
Proof.
  intros Hx R Hc Hg. specialize (Hx w).
  destruct (process_serves send_space sign ip_size address cluster t {| cmd := c; body := b; behind := [] |}
    (vl w) v R cluster_master Hg Hc) as [E R'].
  destruct (run _ (vl w)) as [r s']. simpl in E, R'. subst r. simpl. unfold answers.
  destruct (spec t _ v).1 as [resp|e].
  - destruct Hx as (w' & <- & Hx). destruct (_ && _); [by exists (Ok (take_body (resp_body resp))), w'|].
    destruct Hx as [e He]. exists (Err e), w'. eauto.
  - destruct Hx as (w' & e' & <- & He & Heq). exists (Err e'), w'. eauto.
Qed.

Lemma close_ok t w v : refines (vl w) v →
  ∃ w', vote_client_proto_close_connection_ex t w = (Ok tt, w') ∧ refines (vl w') (spec_leave t v).
Proof.
  intros R. exists (conn_pool_disconnect_server t w). split; [done|].
  rewrite (link_close vl (address cs)). apply (leave_serves t (vl w) v R).
Qed.

Lemma spec_at c b f t v :
  (c, f) ∈ [(FCFS_VOTE_SERVICE_PROTO_CLIENT_JOIN_REQ,
        match join_check send_space sign {| cmd := c; body := b; behind := [] |} with
        | Err e => (Err e, v) | Ok a => spec_join t a v end);
     (FCFS_VOTE_SERVICE_PROTO_GET_VOTE_REQ,
        expecting {| cmd := c; body := b; behind := [] |} sizeof_SFProtoGetServerStatusReq (on_cell t spec_get_vote v) v);
     (FCFS_VOTE_SERVICE_PROTO_PRE_SET_NEXT_LEADER,
        expecting {| cmd := c; body := b; behind := [] |} 0 (on_cell t (spec_next_leader true) v) v);
     (FCFS_VOTE_SERVICE_PROTO_COMMIT_NEXT_LEADER,
        expecting {| cmd := c; body := b; behind := [] |} 0 (on_cell t (spec_next_leader false) v) v);
     (FCFS_VOTE_SERVICE_PROTO_ACTIVE_CHECK_REQ,
        expecting {| cmd := c; body := b; behind := [] |} 0 (on_cell t spec_active_check v) v)] →
  spec t {| cmd := c; body := b; behind := [] |} v = f.
Proof.
  intros Hin. unfold spec_serve. cbn [cmd]. apply switch_at; [|done].
  apply (NoDup_app (take 4 service_requests)), vf_requests.
Qed.

Section calls.
Variables (r : FCFSVoteClientJoinRequest) (padding : list byte).
Hypothesis r_ok : join_ok r.
Hypothesis padding_length : length padding = 3%nat.
Hypothesis sign_length : Z.of_nat (length sign) = SF_CLUSTER_CONFIG_SIGN_LEN.
Abbreviation join_call := (fcfs_vote_client_join_ex (W:=W) server_count sign ip_size r padding).
Abbreviation key := (jr_service_id r, jr_group_id r).

Lemma spec_join_pack t v :
  spec t {| cmd := FCFS_VOTE_SERVICE_PROTO_CLIENT_JOIN_REQ; body := pack_join sign r padding; behind := [] |} v =
  spec_join t (join_args_of r) v.
Proof.
  assert (join_check send_space sign {| cmd := FCFS_VOTE_SERVICE_PROTO_CLIENT_JOIN_REQ;
    body := pack_join sign r padding; behind := [] |} = Ok (join_args_of r)) as Hj by (by apply join_check_pack).
  erewrite (spec_at FCFS_VOTE_SERVICE_PROTO_CLIENT_JOIN_REQ) by left. by rewrite Hj.
Qed.

(** A join succeeds on a connection that is a member afterwards, or the connection is
    closed and nothing has changed. *)
Lemma join_call_ok w v : refines (vl w) v →
  ∃ t w', members v !! t = None ∧
    match spec_join t (join_args_of r) v with
    | (Ok _, v') => join_call w = (Ok t, w') ∧ refines (vl w') v'
    | (Err e, _) => (∃ e', join_call w = (Err e', w') ∧ ((∀ y, e ≠ NEG y) → e' = e)) ∧ refines (vl w') v
    end.
Proof.
  intros R. destruct (master_connection w) as (t & w1 & Hm & Hv & Hp).
  assert (members v !! t = None) as Hn.
  { rewrite (r_members _ _ R). unfold member. by rewrite Hp. }
  rewrite <- Hv in R.
  assert (group_ok {| cmd := FCFS_VOTE_SERVICE_PROTO_CLIENT_JOIN_REQ; body := pack_join sign r padding; behind := [] |}) as Hg.
  { intros _. cbn [body]. rewrite join_request_pack by done. apply r_ok. }
  destruct (vote_exchange_ok t _ _ _ _ _ _ w1 v (link_none vl (address cs) t FCFS_VOTE_SERVICE_PROTO_CLIENT_JOIN_REQ
    (pack_join sign r padding) FCFS_VOTE_SERVICE_PROTO_CLIENT_JOIN_RESP) R ltac:(left) Hg)
    as (x & w2 & Hx & R2 & Ha). rewrite spec_join_pack in R2, Ha.
  exists t. unfold fcfs_vote_client_join_ex. rewrite (bind_ok _ _ _ _ _ Hm).
  unfold vote_client_proto_join_ex. rewrite (bind_ok _ _ _ _ _ (attempt_eq _ _ _ _ Hx)).
  unfold spec_join in *. rewrite Hn in *.
  unfold answers in Ha. destruct (entered _ _ _) as [c|]; cbn in R2, Ha.
  - change (x = Ok tt) in Ha. subst x. by exists w2.
  - destruct Ha as (e' & -> & He). destruct (close_ok t w2 v R2) as (w3 & Hw3 & R3).
    unfold spec_leave in R3. rewrite Hn in R3. exists w3. rewrite (bind_ok _ _ _ _ _ Hw3). split; [done|].
    split; [by exists e'|done].
Qed.

(** The member that the call leaves behind. *)
Lemma joined t v rp v' : members v !! t = None → spec_join t (join_args_of r) v = (Ok rp, v') →
  ∃ c, entered (cells v !! key) (if jr_persistent r then jr_server_id r else 0) (sint_wrap 16 (jr_response_size r)) = Some c ∧
    v' = {| cells := <[key := c]> (cells v);
            members := <[t := {| m_key := key; m_server := jr_server_id r; m_persistent := jr_persistent r |}]> (members v) |}.
Proof.
  intros Hn. unfold spec_join. rewrite Hn. cbn [join_args_of j_persistent j_server_id j_response_size j_service_id j_group_id].
  destruct (entered _ _ _) as [c|]; [|done]. intros [= _ <-]. by exists c.
Qed.

Lemma commit_leads me c rsp c' : spec_next_leader false me c = (Ok rsp, c') → v_leader c' = me.
Proof.
  unfold spec_next_leader. destruct (negb (v_leader c =? 0)).
  - destruct (Z.eqb_spec (v_leader c) me); intros [= ? ?]; by subst.
  - destruct (Z.eqb_spec (v_next c) me); intros [= ? ?]; by subst.
Qed.

(** A connection that joined and leaves takes the leadership of its server with it. *)
Lemma leave_joined t m c v :
  members v !! t = None → v_leader c = m_server m →
  let v1 := {| cells := <[m_key m := c]> (cells v); members := <[t := m]> (members v) |} in
  members (spec_leave t v1) = members v ∧ cells (spec_leave t v1) !! m_key m = Some (with_leader 0 c).
Proof.
  intros Hn Hl. unfold spec_leave. simpl. rewrite lookup_insert_eq. simpl. split.
  - by rewrite delete_insert_id.
  - rewrite lookup_alter_eq, lookup_insert_eq. simpl. by rewrite Hl, Z.eqb_refl.
Qed.

(** C37: a leader that is committed by [fcfs_vote_client_notify_next_leader] is gone when the
    call returns: the connection over which it was committed is closed by the call, and
    with it ends the leadership; even that of a leader whose own connection is still
    there. *)
Theorem notified_leader_forgotten w w' v :
  refines (vl w) v → jr_persistent r = false →
  fcfs_vote_client_notify_next_leader_ex server_count sign ip_size r padding
    FCFS_VOTE_SERVICE_PROTO_COMMIT_NEXT_LEADER w = (Ok tt, w') →
  ∃ v' c, refines (vl w') v' ∧ cells v' !! key = Some c ∧ v_leader c = 0 ∧ members v' = members v.
Proof.
  intros R Hnp Hcall. unfold fcfs_vote_client_notify_next_leader_ex in Hcall.
  destruct (join_call_ok w v R) as (t & w1 & Hn & Hj).
  destruct (spec_join t (join_args_of r) v) as [[rp|e] v1] eqn:Es.
  2: { destruct Hj as [(e' & Hj & _) _]. by rewrite (bind_err _ _ _ _ _ Hj) in Hcall. }
  destruct Hj as [Hj R1]. rewrite (bind_ok _ _ _ _ _ Hj) in Hcall. clear Hj.
  destruct (joined t v rp v1 Hn Es) as (c & Hc & Hv1). subst v1. set (v1 := {| cells := _ |}) in R1.
  destruct (vote_exchange_ok t _ _ _ _ _ _ w1 v1 (link_none vl (address cs) t
    FCFS_VOTE_SERVICE_PROTO_COMMIT_NEXT_LEADER [] SF_PROTO_ACK) R1) as (x & w2 & Hx & R2 & Ha);
    [unfold vote_commands; rewrite !elem_of_cons; tauto|done|].
  erewrite (spec_at FCFS_VOTE_SERVICE_PROTO_COMMIT_NEXT_LEADER) in R2, Ha by (do 3 right; left).
  unfold expecting in R2, Ha. rewrite server_expect_body_length_eq in R2, Ha. cbn [body_len body length] in R2, Ha.
  unfold vote_client_proto_notify_next_leader_ex in Hcall.
  rewrite (bind_ok _ _ _ _ _ (attempt_eq _ _ _ _ Hx)) in Hcall.
  destruct (close_ok t w2 _ R2) as (w3 & Hw3 & R3). rewrite (bind_ok _ _ _ _ _ Hw3) in Hcall.
  destruct x as [[]|]; [|done]. injection Hcall as <-. clear R2 Hw3 Hx.
  set (m := {| m_key := key; m_server := jr_server_id r; m_persistent := jr_persistent r |}).
  assert (on_cell t (spec_next_leader false) v1 =
    let '(o, c) := spec_next_leader false (jr_server_id r) c in (o, put_cell key c v1)) as Hon.
  { unfold on_cell, v1. cbn [members cells]. by rewrite !lookup_insert_eq. }
  destruct (spec_next_leader false (jr_server_id r) c) as [o c'] eqn:En.
  change (body_len _ =? 0) with true in R3, Ha. cbn iota in R3, Ha. rewrite Hon in R3, Ha. cbn [fst snd] in R3, Ha.
  destruct o as [rsp|e]; [|by destruct Ha as (? & ? & _)].
  destruct (leave_joined t m c' v Hn (commit_leads _ _ _ _ En)) as [Hm Hcell].
  unfold v1, put_cell in R3. cbn [members cells] in R3. rewrite insert_insert_eq in R3.
  eexists _, (with_leader 0 c'). split_and!; [exact R3|exact Hcell|done|exact Hm].
Qed.
End calls.

End link.
End VoteClientSpec.
