(* ===== verification/VoteExamples.v ===== *)
(** * A vote server at work

    A server with its clients: the theorems on votes applied to it, and runs that show
    what becomes of a leader when one of several connections of its server ends, when
    it connects again, and when two servers are committed one after the other. *)
From Stdlib Require Import Init.Byte.
From S2P Require Import Prelude Fastcommon AuthProto ServiceHandler ServiceSpec ClientProto ClientCluster SessionSubscribeProofs SubscribeExamples Atomic VoteServer VoteSpec VoteThreads VoteClient VoteClientSpec.
Import AuthProto Atomic VoteServer VoteTable VoteSpec VoteClient VoteClientSpec.
Import ServiceHandler(request, cmd, body, behind, response, resp_cmd, resp_body, cluster_vars, body_len,
  FCFSAuthClusterServerInfo, server_id, MYSELF_IS_MASTER).
Import Ref.
Import ServiceExamples(demo_server, demo_cluster, demo_address).
Import ServiceHandler(ip_field).
Import ClientCluster(ip_fits, ip_string_field).
Local Open Scope Z_scope.

Module VoteExamples.
#[local] Existing Instance ServiceExamples.frame.
#[local] Existing Instance ServiceExamples.frame_laws.
#[local] Existing Instance SubscribeExamples.pool_total.

(** ** A frame *)
Definition to_length (n : nat) (l : list byte) : list byte := take n (l ++ replicate n x00).
Lemma length_to_length n l : length (to_length n l) = n.
Proof. unfold to_length. rewrite length_take, length_app, length_replicate. lia. Qed.

#[export] Instance vote_frame : VoteFrame := {|
  SF_PROTO_ACK := 6;
  SF_CLUSTER_PROTO_GET_SERVER_STATUS_REQ := 201;
  SF_CLUSTER_PROTO_GET_SERVER_STATUS_RESP := 202;
  sizeof_SFProtoGetServerStatusReq := 40;
  SF_CLUSTER_CONFIG_SIGN_LEN := 16;
  server_resp i ip port := int2buff i ++ ip_field 46 ip ++ short2buff port;
  sizeof_SFProtoGetServerResp := 52;
  server_resp_id b := buff2int (bytes_at b 0 4);
  server_resp_ip b := bytes_at b 4 46;
  server_resp_port b := buff2short (bytes_at b 50 2);
  sf_proto_get_server_status_pack a b i l :=
    to_length 40 (a ++ default [] b ++ int2buff i ++ [byte_of (Z.b2z l)]);
|}.
#[export] Instance vote_frame_laws : VoteFrameLaws.
Proof. split. vm_compute. repeat constructor; rewrite ?elem_of_cons, ?elem_of_nil; lia. Qed.
#[export] Instance vote_frame_structs : VoteFrameStructs 46.
Proof.
  split.
  - intros i ip port. cbn [server_resp vote_frame].
    pose proof (ClientCluster.length_ip_field 46 ip ltac:(lia)).
    rewrite !length_app, length_int2buff, length_short2buff. cbn [sizeof_SFProtoGetServerResp vote_frame]. lia.
  - intros i ip port Hip Hp. cbn [server_resp server_resp_ip server_resp_port vote_frame].
    pose proof (ClientCluster.length_ip_field 46 ip ltac:(lia)) as Hl.
    rewrite bytes_at_app by (rewrite ?length_int2buff; lia). split; [by apply ip_string_field|].
    rewrite app_assoc, bytes_at_back by (rewrite ?length_app, ?length_int2buff, ?length_short2buff; lia).
    by apply buff2short_short2buff.
  - intros a b i l. cbn [sf_proto_get_server_status_pack vote_frame]. by rewrite length_to_length.
Qed.

(** ** A server and its connections *)
Abbreviation S := (vote_state Ref.pool).
Definition sign : list byte := replicate 16 x2a.
Abbreviation process := (service_process (MB:=Ref.pool) 65536 sign 46 demo_address demo_cluster).
Abbreviation cleanup := (service_task_finish_cleanup (MB:=Ref.pool)).

Definition no_task : task_arg := {| SERVER_TASK_TYPE := VOTE_SERVER_TASK_TYPE_NONE; peer_group := None;
  peer_server_id := 0; peer_persistent := false |}.
Definition zeroed : FCFSVoteServiceGroupInfo := {| hash_code := 0; service_id := 0; response_size := 0;
  group_id := 0; next_leader := 0; leader_id := 0; task := None; next := None |}.
Definition init : S := service_group_htable_init Ref.empty_pool (λ _, zeroed) (λ _, no_task).

Lemma own_job t j (s : S) t' :
  t' ≠ t → tasks (run (VoteThreads.code 65536 sign 46 demo_address t j) s).2 t' = tasks s t'.
Proof.
  set (same := λ s s' : S, t' ≠ t → tasks s' t' = tasks s t').
  assert (PreOrder same).
  { split; [by intros ? ?|]. intros s1 s2 s3 E1 E2 Hn. by rewrite E2, E1. }
  refine (safe_run _ _ same _ _ s _ _ (VoteThreads.ok_code 65536 sign 46 demo_address t j (λ _, True)) I); [done|].
  intros s1 s2 [Ht _] Hn. by apply Ht.
Qed.
Lemma own_task t req (s : S) t' : t' ≠ t → tasks (run (process t req) s).2 t' = tasks s t'.
Proof. exact (own_job t (VoteThreads.Serve demo_cluster req) s t'). Qed.
Lemma own_cleanup t (s : S) t' : t' ≠ t → tasks (run (cleanup t) s).2 t' = tasks s t'.
Proof.
  intros Hn. rewrite <- (own_job t VoteThreads.Close s t' Hn). unfold VoteThreads.code. rewrite run_bind.
  unfold mbind, M_bind. by destruct (run (cleanup t) s) as [[]].
Qed.

(** The server and a bound on the connections that it knows. *)
Definition quiet_from (w : S * nat) : Prop := ∀ t, (w.2 ≤ t)%nat → peer_group (tasks w.1 t) = None.
Definition world : Type := { w : S * nat | quiet_from w }.
Abbreviation server w := ((proj1_sig w).1).

Definition boot : world := exist quiet_from (init, 0%nat) (λ t _, eq_refl).

Lemma quiet_after (w : world) t (s : S) :
  (∀ t', t' ≠ t → tasks s t' = tasks (server w) t') →
  quiet_from (s, Nat.max (Datatypes.S t) (proj1_sig w).2).
Proof.
  intros Hs t' Ht. simpl in *. rewrite Hs by lia. apply (proj2_sig w). lia.
Qed.
Definition request_at (t : nat) (req : request) (w : world) : world :=
  exist quiet_from _ (quiet_after w t (run (process t req) (server w)).2 (own_task t req (server w))).
Definition close_at (t : nat) (w : world) : world :=
  exist quiet_from _ (quiet_after w t (run (cleanup t) (server w)).2 (own_cleanup t (server w))).

Definition exchange {A} (t : nat) (c : Z) (b : list byte) (rc : Z) (fits : Z → bool) (f : list byte → A)
    : M world A := λ w,
  let req := {| cmd := c; body := b; behind := [] |} in
  match (run (process t req) (server w)).1 with
  | Ok resp =>
      (if (resp_cmd resp =? rc) && fits (Z.of_nat (length (resp_body resp)))
       then Ok (f (resp_body resp)) else Err EINVAL, request_at t req w)
  | Err e => (Err e, request_at t req w)
  end.

#[export] Instance wire : VoteNet world := {|
  rand w := (0, w);
  fc_server_make_connection _ w := (Ok (proj1_sig w).2, w);
  conn_pool_connect_server _ w := (Ok (proj1_sig w).2, w);
  conn_pool_disconnect_server t w := close_at t w;
  FC_CONNECTION_SERVER_EQUAL1 _ _ _ := true;
  sf_send_and_recv_response t c b rc n := exchange t c b rc (Z.eqb n) id;
  sf_send_and_recv_none_body_response t c b rc := exchange t c b rc (Z.eqb 0) (λ _, tt);
  sf_send_and_check_response_header t c b rc :=
    exchange t c b rc (λ _, true) (λ l, Z.of_nat (length l));
  tcprecvdata_nb _ n w := (Ok (replicate (Z.to_nat n) x00), w);
|}.

Lemma exchange_spec {A} t c b rc fits (f : list byte → A) :
  exchanges 65536 sign 46 demo_address demo_cluster (λ w : world, server w) t c b rc fits f
    (exchange t c b rc fits f).
Proof.
  intros w. unfold exchange. set (req := {| cmd := c |}).
  assert (server (request_at t req w) = (run (process t req) (server w)).2) as Hw by done.
  generalize dependent (request_at t req w). intros w'.
  destruct (run (process t req) (server w)) as [[resp|e] s']; simpl; intros <-.
  - exists w'. split; [done|]. by destruct (_ && _); [|eexists].
  - by exists w', e.
Qed.
#[export] Instance wire_link :
  VoteLink 65536 sign 46 demo_address demo_cluster (λ w : world, server w) (demo_address demo_server).
Proof.
  split; intros.
  - done.
  - exists (proj1_sig w).2, w. split_and!; [done..| |done]. by apply (proj2_sig w).
  - done.
  - apply exchange_spec.
  - apply exchange_spec.
Qed.

(** ** Requests *)
Definition candidate (id : Z) : FCFSVoteClientJoinRequest := {| jr_server_id := id; jr_group_id := 1;
  jr_response_size := 8; jr_service_id := FCFS_VOTE_SERVICE_ID_FAUTH; jr_is_leader := false; jr_persistent := false |}.
Definition leading (id : Z) : FCFSVoteClientJoinRequest := {| jr_server_id := id; jr_group_id := 1;
  jr_response_size := 8; jr_service_id := FCFS_VOTE_SERVICE_ID_FAUTH; jr_is_leader := true; jr_persistent := true |}.
Definition join_as (r : FCFSVoteClientJoinRequest) : request :=
  {| cmd := FCFS_VOTE_SERVICE_PROTO_CLIENT_JOIN_REQ; body := pack_join sign r [x00; x00; x00]; behind := [] |}.
Definition bare (c : Z) : request := {| cmd := c; body := []; behind := [] |}.

Lemma init_refines : refines init {| cells := ∅; members := ∅ |}.
Proof. by apply refines_init. Qed.
Lemma init_reachable : vote_reachable 65536 sign 46 demo_address init.
Proof. by apply vote_init. Qed.
Lemma leading_ok : group_ok (join_as (leading 7)).
Proof. intros _. vm_compute. by split. Qed.


(** Server 7 leads over connection 0; the group is object 1. *)
Definition led_by_7 : S := (run (process 0 (join_as (leading 7))) init).2.
Lemma led_by_7_reachable : vote_reachable 65536 sign 46 demo_address led_by_7.
Proof. apply vote_request; [apply init_reachable|apply leading_ok]. Qed.
Lemma led_by_7_live : 1%nat ∈ mb_live (allocator led_by_7).
Proof. vm_compute. done. Qed.
Lemma led_by_7_leader : leader_id (groups led_by_7 1%nat) ≠ 0.
Proof. vm_compute. done. Qed.

Lemma vote_leader_connected_witness :
  ∃ t, peer_group (tasks led_by_7 t) = Some 1%nat ∧
       peer_server_id (tasks led_by_7 t) = leader_id (groups led_by_7 1%nat) ∧
       SERVER_TASK_TYPE (tasks led_by_7 t) = VOTE_SERVER_TASK_TYPE_VOTE_NODE.
Proof.
  destruct (vote_leader_connected 65536 sign 46 demo_address led_by_7 led_by_7_reachable) as [_ H1].
  exact (H1 1%nat led_by_7_live led_by_7_leader).
Defined.

(** ** The end of a connection, beside the others *)
Abbreviation jobs := (VoteThreads.code 65536 sign 46 demo_address).
Abbreviation idle := ({| shared := led_by_7; Atomic.pool := λ _, None |} : config S VoteThreads.job (result response)).
Abbreviation next_state p := (match p with Step f _ => (f led_by_7).2 | Done _ => led_by_7 end).
Abbreviation next_prog p := (match p with Step f k => k (f led_by_7).1 | Done a => Done a end).
(** The task is loaded; then the leader is swapped. *)
Abbreviation loading := (jobs 0%nat VoteThreads.Close).
Abbreviation swapping := (next_prog loading).
Abbreviation at_swap := ({| shared := led_by_7; Atomic.pool := <[0%nat := Some (VoteThreads.Close, swapping)]>
  (<[0%nat := Some (VoteThreads.Close, loading)]> (λ _, None)) |} : config S VoteThreads.job (result response)).
Abbreviation swapped := ({| shared := next_state swapping; Atomic.pool := <[0%nat := Some (VoteThreads.Close, next_prog swapping)]>
  (Atomic.pool at_swap) |} : config S VoteThreads.job (result response)).

Lemma at_swap_reachable : treachable jobs led_by_7 at_swap.
Proof.
  eapply (t_next jobs led_by_7 0%nat); [eapply (t_next jobs led_by_7 0%nat)|].
  - apply (t_init jobs led_by_7 (λ _, None)). done.
  - apply t_start with (j := VoteThreads.Close). done.
  - exact (t_act jobs 0 led_by_7 (<[0%nat := Some (VoteThreads.Close, loading)]> (λ _, None)) VoteThreads.Close
      _ _ _ eq_refl).
Qed.
Lemma swap_step : tstep jobs 0 at_swap swapped.
Proof. exact (t_act jobs 0 led_by_7 (Atomic.pool at_swap) VoteThreads.Close _ _ _ eq_refl). Qed.
Lemma swap_changes : VoteThreads.leader (shared swapped) 1%nat ≠ VoteThreads.leader (shared at_swap) 1%nat.
Proof. vm_compute. discriminate. Qed.

Lemma leadership_passes_through_nobody_witness :
  ∃ j p, Atomic.pool at_swap 0%nat = Some (j, p) ∧
    ((VoteThreads.leader led_by_7 1%nat = 0 ∧
      VoteThreads.may_lead 0 j led_by_7 1%nat (VoteThreads.leader (shared swapped) 1%nat)) ∨
     (VoteThreads.leader (shared swapped) 1%nat = 0 ∧ j = VoteThreads.Close ∧
      peer_group (tasks led_by_7 0%nat) = Some 1%nat ∧
      peer_server_id (tasks led_by_7 0%nat) = VoteThreads.leader led_by_7 1%nat)).
Proof.
  exact (VoteThreads.leadership_passes_through_nobody 65536 sign 46 demo_address led_by_7 0%nat at_swap swapped
    1%nat at_swap_reachable swap_step led_by_7_live swap_changes).
Defined.

(** ** A commit over a connection of its own *)
Abbreviation notify c r := (fcfs_vote_client_notify_next_leader_ex (W:=world) 1 sign 46 r [x00; x00; x00] c).
Definition pre_set : world :=
  request_at 0 (bare FCFS_VOTE_SERVICE_PROTO_PRE_SET_NEXT_LEADER) (request_at 0 (join_as (candidate 7)) boot).
Abbreviation committed := (notify FCFS_VOTE_SERVICE_PROTO_COMMIT_NEXT_LEADER (candidate 7) pre_set).

Lemma candidate_ok : group_ok (join_as (candidate 7)).
Proof. intros _. vm_compute. by split. Qed.
Lemma pre_set_reachable : vote_reachable 65536 sign 46 demo_address (server pre_set).
Proof.
  apply (vote_request 65536 sign 46 demo_address demo_cluster 0%nat (bare FCFS_VOTE_SERVICE_PROTO_PRE_SET_NEXT_LEADER)).
  - apply (vote_request 65536 sign 46 demo_address demo_cluster 0%nat (join_as (candidate 7)));
      [apply init_reachable|apply candidate_ok].
  - by intros [=].
Qed.
Lemma committed_ok : committed = (Ok tt, committed.2).
Proof. apply run_eta. vm_compute. reflexivity. Qed.
Lemma candidate_join_ok : join_ok 65536 (candidate 7).
Proof. split; [simpl; lia..|left|done]. Qed.
Lemma sign_fits : Z.of_nat (length sign) = SF_CLUSTER_CONFIG_SIGN_LEN.
Proof. done. Qed.
Lemma demo_address_fits : ip_fits 46 (demo_address demo_server).1 ∧ in_uint 16 (demo_address demo_server).2.
Proof. split; [split; [by compute_done|done]|by split]. Qed.

Lemma notified_leader_forgotten_witness : ∃ v v' c,
  refines (server pre_set) v ∧ refines (server committed.2) v' ∧
  cells v' !! (FCFS_VOTE_SERVICE_ID_FAUTH, 1) = Some c ∧ v_leader c = 0 ∧ members v' = members v.
Proof.
  destruct (vote_reachable_led 65536 sign 46 demo_address _ pre_set_reachable) as (v & R & _).
  destruct (notified_leader_forgotten 65536 sign 46 demo_address demo_cluster (λ w : world, server w) demo_server 1
    eq_refl eq_refl demo_address_fits (candidate 7) [x00; x00; x00] candidate_join_ok eq_refl sign_fits
    pre_set committed.2 v R eq_refl committed_ok) as (v' & c & H1 & H2 & H3 & H4).
  exists v, v', c. auto.
Defined.

(** ** Runs *)

(** Server 7 commits itself, then server 8: each is told that it leads. *)
Lemma two_servers_commit :
  let pre := FCFS_VOTE_SERVICE_PROTO_PRE_SET_NEXT_LEADER in
  let commit := FCFS_VOTE_SERVICE_PROTO_COMMIT_NEXT_LEADER in
  let w1 := (notify pre (candidate 7) boot).2 in
  let w2 := (notify commit (candidate 7) w1).2 in
  let w3 := (notify pre (candidate 8) w2).2 in
  (notify commit (candidate 7) w1).1 = Ok tt ∧ (notify commit (candidate 8) w3).1 = Ok tt.
Proof. vm_compute. by split. Qed.

(** The leader connects again before its old connection is closed: the end of the old
    one takes the leadership, and the task, from the new one. *)
Lemma reconnected_leader_forgotten :
  let s := (run (process 1 (join_as (leading 7))) led_by_7).2 in
  let s' := (run (cleanup 0) s).2 in
  closing s = [0%nat] ∧ leader_id (groups s 1%nat) = 7 ∧ task (groups s 1%nat) = Some 1%nat ∧
  leader_id (groups s' 1%nat) = 0 ∧ task (groups s' 1%nat) = None ∧ peer_group (tasks s' 1%nat) = Some 1%nat.
Proof. vm_compute. done. Qed.

(** A short connection of the leader ends first: at the end of the lasting one its task
    stays with the group, and is told to close when another server joins as leader,
    whatever it is used for by then. *)
Lemma ended_task_told_to_close :
  let s := (run (process 1 (join_as (candidate 7))) led_by_7).2 in
  let s := (run (cleanup 0) (run (cleanup 1) s).2).2 in
  task (groups s 1%nat) = Some 0%nat ∧ peer_group (tasks s 0%nat) = None ∧
  closing (run (process 2 (join_as (leading 8))) s).2 = [0%nat].
Proof. vm_compute. done. Qed.

(** Negative groups of different services are one group. *)
Lemma negative_groups_collide :
  group_hash FCFS_VOTE_SERVICE_ID_FAUTH (-1) = group_hash FCFS_VOTE_SERVICE_ID_FDIR (-1).
Proof. reflexivity. Qed.
End VoteExamples.
