(* ===== verification/PoolUsage.v ===== *)
(** * The usage of pools (src/auth/server/db/pool_usage_updater.c)

    A thread of the master subscribes to the statistics of the directory service and
    writes the used bytes of every namespace into the database.  It runs until the
    generation changes.  What other threads do meanwhile happens in [sleep]. *)
From S2P Require Import Prelude Fastcommon AuthDB.
Import AuthDB.
Local Open Scope Z_scope.

Class FdirStat (E : Type) := {
  fdir_client_namespace_stat_array_init : M E unit;
  fdir_client_simple_init : M E unit;
  create_refresh_thread : M E unit;
  get_master_connection : M E nat;
  close_connection : nat → E → E;
  fdir_client_proto_nss_subscribe : nat → M E unit;
  (** the entries, names and used bytes, and whether they are the last *)
  fdir_client_proto_nss_fetch : nat → M E (list (string_t * Z) * bool);
}.

Module PoolUsage.

Record PoolUsageUpdaterContext := { inited : bool; running : bool; current : Z; next : Z }.
Definition IS_SAME_GENERATION (c : PoolUsageUpdaterContext) : bool := current c =? next c.

Definition set_inited (c : PoolUsageUpdaterContext) : PoolUsageUpdaterContext :=
  {| inited := true; running := running c; current := current c; next := next c |}.
Definition set_running b (c : PoolUsageUpdaterContext) : PoolUsageUpdaterContext :=
  {| inited := inited c; running := b; current := current c; next := next c |}.

Section updater.
Context {E : Type} `{!FdirStat E}.

(** ** Starting and stopping *)
Record updater := { updater_ctx : PoolUsageUpdaterContext; env : E }.
Definition on_env {A} (m : M E A) : M updater A := λ u,
  let '(r, e) := m (env u) in (r, {| updater_ctx := updater_ctx u; env := e |}).
Definition change_ctx (f : PoolUsageUpdaterContext → PoolUsageUpdaterContext) : M updater unit :=
  modify (λ u, {| updater_ctx := f (updater_ctx u); env := env u |}).

Definition pool_usage_updater_init : M updater unit :=
  _ ← on_env fdir_client_namespace_stat_array_init; on_env fdir_client_simple_init.

Definition next_generation (c : PoolUsageUpdaterContext) : PoolUsageUpdaterContext :=
  {| inited := inited c; running := running c; current := uint32 (next c + 1); next := uint32 (next c + 1) |}.

Definition pool_usage_updater_start : M updater unit :=
  u ← get;
  _ ← (if inited (updater_ctx u) then mret tt
       else _ ← pool_usage_updater_init; change_ctx set_inited);
  u ← get;
  if running (updater_ctx u) then mret tt
  else _ ← change_ctx next_generation; on_env create_refresh_thread.

(** What is left when the wait for the thread is over. *)
Definition pool_usage_updater_terminate (c : PoolUsageUpdaterContext) : PoolUsageUpdaterContext :=
  if negb (inited c) || negb (running c) then c
  else {| inited := inited c; running := false; current := current c; next := uint32 (next c + 1) |}.

(** ** The thread *)
Context {D MB : Type} `{!AuthDao D, !NameAllocator D, !Malloc D, !Mblock MB}.
Context {SLs SLi : Type → Type} `{!UniqSkiplist string_t SLs, !UniqSkiplist Z SLi}.
Record thread_state := {
  up : updater;
  adb : AuthDBContext D MB SLs SLi;
  SF_G_CONTINUE_FLAG : bool;
}.
Abbreviation S := thread_state.
Variable sleep : Z → S → S.
Variable POOL_USAGE_REFRESH_INTERVAL : Z.

Definition on_updater {A} (m : M updater A) : M S A := λ s,
  let '(r, u) := m (up s) in (r, {| up := u; adb := adb s; SF_G_CONTINUE_FLAG := SF_G_CONTINUE_FLAG s |}).
Definition on_adb {A} (m : M (AuthDBContext D MB SLs SLi) A) : M S A := λ s,
  let '(r, d) := m (adb s) in (r, {| up := up s; adb := d; SF_G_CONTINUE_FLAG := SF_G_CONTINUE_FLAG s |}).
Definition same_generation (s : S) : bool := IS_SAME_GENERATION (updater_ctx (up s)).

Fixpoint set_used (l : list (string_t * Z)) : M S unit :=
  match l with
  | [] => mret tt
  | (ns_name, used_bytes) :: l =>
      _ ← attempt (on_adb (adb_spool_set_used_bytes ns_name used_bytes)); set_used l
  end.

Fixpoint nss_fetch (fuel : nat) (conn : nat) : M S unit :=
  match fuel with
  | O => throw NO_RETURN
  | Datatypes.S fuel =>
      p ← on_updater (on_env (fdir_client_proto_nss_fetch conn));
      let '(entries, is_last) := p in
      if bool_decide (entries = []) then mret tt
      else
        _ ← set_used entries;
        same ← gets same_generation;
        if negb is_last && same then nss_fetch fuel conn else mret tt
  end.

(** Seconds, as long as the generation is the same. *)
Fixpoint rest (n : nat) : M S unit :=
  match n with
  | O => mret tt
  | Datatypes.S n =>
      same ← gets same_generation;
      if same : bool then _ ← modify (sleep 1); rest n else mret tt
  end.

Fixpoint refresh_loop (fuel : nat) (conn : nat) : M S unit :=
  match fuel with
  | O => throw NO_RETURN
  | Datatypes.S fuel =>
      s ← get;
      if SF_G_CONTINUE_FLAG s && same_generation s then
        _ ← nss_fetch fuel conn;
        _ ← rest (Z.to_nat POOL_USAGE_REFRESH_INTERVAL);
        refresh_loop fuel conn
      else mret tt
  end.
Definition pool_usage_refresh (fuel : nat) (conn : nat) : M S unit :=
  _ ← on_updater (on_env (fdir_client_proto_nss_subscribe conn)); refresh_loop fuel conn.

Fixpoint refresh_thread_loop (fuel : nat) : M S unit :=
  match fuel with
  | O => throw NO_RETURN
  | Datatypes.S fuel =>
      s ← get;
      if SF_G_CONTINUE_FLAG s then
        r ← attempt (on_updater (on_env get_master_connection));
        match r with
        | Err _ => _ ← modify (sleep 1); refresh_thread_loop fuel
        | Ok conn =>
            r ← attempt (pool_usage_refresh fuel conn);
            if bool_decide (r = Err NO_RETURN) then throw NO_RETURN
            else
              _ ← on_updater (on_env (modify (close_connection conn)));
              same ← gets same_generation;
              if same : bool then _ ← modify (sleep 1); refresh_thread_loop fuel else mret tt
        end
      else mret tt
  end.
Definition pool_usage_refresh_thread_func (fuel : nat) : M S unit :=
  _ ← on_updater (change_ctx (set_running true));
  _ ← refresh_thread_loop fuel;
  on_updater (change_ctx (set_running false)).
End updater.
Arguments updater : clear implicits.
Arguments thread_state : clear implicits.
End PoolUsage.
