(* ===== verification/Election.v ===== *)
(** * The election of the master (src/auth/server/cluster_relationship.c)

    The servers of a cluster choose a master: each asks the others for their status,
    sorts what it gets, and the one that finds itself last makes all others set it in
    two rounds.  The master then watches that enough servers are with it, and steps
    down when they are not.

    What the server does when it takes over and gives up is a class, so that the
    election is separate from the rest of the server; [AuthCluster.v] has the instance.
    The functions are run one after the other; what other threads do meanwhile is what
    happens in [sleep]. *)
From Stdlib Require Import Init.Byte.
From S2P Require Import Prelude Fastcommon AuthProto ServiceHandler VoteServer VoteClient.
Import AuthProto VoteServer VoteClient.
Import ServiceHandler(cluster_vars, servers, CLUSTER_MASTER_PTR, CLUSTER_NEXT_MASTER, CLUSTER_MYSELF_PTR,
  MYSELF_IS_MASTER, FCFSAuthClusterServerInfo, server_id, is_online).
Local Open Scope Z_scope.

(** The servers of the cluster over the network, by position; the clock; threads. *)
Class ClusterNet (W : Type) := {
  fc_server_make_connection_ex : nat → M W nat;
  g_current_time : W → Z;
  init_pthread_lock : M W unit;
  fc_create_thread : M W unit;
}.

(** libserverframe's rules on how many servers are enough: with the vote node or not,
    of how many, how many are there. *)
Class Quorum := {
  sf_election_quorum_check : bool → Z → Z → bool;
  SF_ELECTION_QUORUM_NEED_REQUEST_VOTE_NODE : bool → Z → Z → bool;
  SF_ELECTION_QUORUM_NEED_CHECK_VOTE_NODE : bool → Z → bool;
}.

(** What a server has besides its part in the election: the variables of the cluster,
    what it does before and after it becomes the master, and when it steps down; whether
    it has a vote node. *)
Class Server (D : Type) := {
  vars : D → cluster_vars;
  set_vars : cluster_vars → D → D;
  load_data : M D unit;
  start_duties : M D unit;
  end_duties : D → D;
  VOTE_NODE_ENABLED : bool;
  (** the seconds to sleep after a check of the master has failed *)
  check_fail_sleep : Z;
}.

(** The C library's sort. *)
Class Qsort := { qsort {A} : (A → A → Z) → list A → list A }.

Module Election.

(** ** Constants and data *)
Definition FCFS_AUTH_CLUSTER_PROTO_GET_SERVER_STATUS_REQ : Z := 201.
Definition FCFS_AUTH_CLUSTER_PROTO_GET_SERVER_STATUS_RESP : Z := 202.
Definition FCFS_AUTH_CLUSTER_PROTO_JOIN_MASTER : Z := 203.
Definition FCFS_AUTH_CLUSTER_PROTO_PING_MASTER_REQ : Z := 205.
Definition FCFS_AUTH_CLUSTER_PROTO_PING_MASTER_RESP : Z := 206.
Definition FCFS_AUTH_CLUSTER_PROTO_PRE_SET_NEXT_MASTER : Z := 207.
Definition FCFS_AUTH_CLUSTER_PROTO_COMMIT_NEXT_MASTER : Z := 208.
Definition sizeof_FCFSAuthProtoGetServerStatusResp : Z := 4 + 1 + 3.
Definition RAND_MAX : Z := 2147483647.
Definition MAX_SLEEP_SECONDS : Z := 10.
Definition STATUS_ARRAY_FIXED_COUNT : Z := 8.

(** [cs]: the position of the server, none for the vote node. *)
Record FCFSAuthClusterServerStatus := { cs : option nat; is_master : bool; status_id : Z }.

Section election.
Context `{!BuffCodec, !VoteFrame, !Quorum, !Qsort} {D W : Type} `{!Server D, !VoteNet W, !ClusterNet W, !Malloc W}.

(** The entries of the array of inactive servers, up to its count, are the position of a
    server and the time of the next check. *)
Record node := {
  data : D;
  inactive : list (nat * Z);
  alloc : Z;
  VOTE_CONNECTION : option nat;
  SF_G_CONTINUE_FLAG : bool;
  net : W;
}.
Abbreviation S := node.

Definition set_data x (s : S) : S := {| data := x; inactive := inactive s; alloc := alloc s;
  VOTE_CONNECTION := VOTE_CONNECTION s; SF_G_CONTINUE_FLAG := SF_G_CONTINUE_FLAG s; net := net s |}.
Definition set_inactive x (s : S) : S := {| data := data s; inactive := x; alloc := alloc s;
  VOTE_CONNECTION := VOTE_CONNECTION s; SF_G_CONTINUE_FLAG := SF_G_CONTINUE_FLAG s; net := net s |}.
Definition set_alloc x (s : S) : S := {| data := data s; inactive := inactive s; alloc := x;
  VOTE_CONNECTION := VOTE_CONNECTION s; SF_G_CONTINUE_FLAG := SF_G_CONTINUE_FLAG s; net := net s |}.
Definition set_vote_connection x (s : S) : S := {| data := data s; inactive := inactive s; alloc := alloc s;
  VOTE_CONNECTION := x; SF_G_CONTINUE_FLAG := SF_G_CONTINUE_FLAG s; net := net s |}.
Definition set_net x (s : S) : S := {| data := data s; inactive := inactive s; alloc := alloc s;
  VOTE_CONNECTION := VOTE_CONNECTION s; SF_G_CONTINUE_FLAG := SF_G_CONTINUE_FLAG s; net := x |}.
Definition sf_terminate_myself (s : S) : S := {| data := data s; inactive := inactive s; alloc := alloc s;
  VOTE_CONNECTION := VOTE_CONNECTION s; SF_G_CONTINUE_FLAG := false; net := net s |}.

Definition on_net {A} (m : M W A) : M S A := λ s, let '(r, w) := m (net s) in (r, set_net w s).
Definition on_data {A} (m : M D A) : M S A := λ s, let '(r, d) := m (data s) in (r, set_data d s).
Definition cluster (s : S) : cluster_vars := vars (data s).
Definition set_cluster x (s : S) : S := set_data (set_vars x (data s)) s.
Definition now (s : S) : Z := g_current_time (net s).

Definition set_master_ptr x (v : cluster_vars) : cluster_vars := {| servers := servers v;
  CLUSTER_MASTER_PTR := x; CLUSTER_NEXT_MASTER := CLUSTER_NEXT_MASTER v; CLUSTER_MYSELF_PTR := CLUSTER_MYSELF_PTR v |}.
Definition set_next_master x (v : cluster_vars) : cluster_vars := {| servers := servers v;
  CLUSTER_MASTER_PTR := CLUSTER_MASTER_PTR v; CLUSTER_NEXT_MASTER := x; CLUSTER_MYSELF_PTR := CLUSTER_MYSELF_PTR v |}.
Definition change_cluster (f : cluster_vars → cluster_vars) : M S unit :=
  modify (λ s, set_cluster (f (cluster s)) s).

Definition server_count (v : cluster_vars) : Z := Z.of_nat (length (servers v)).
Definition id_of (v : cluster_vars) (i : nat) : Z := default 0 (server_id <$> servers v !! i).
Definition CLUSTER_MY_SERVER_ID (v : cluster_vars) : Z := id_of v (CLUSTER_MYSELF_PTR v).

Definition NEED_REQUEST_VOTE_NODE (s : S) (active_count : Z) : bool :=
  SF_ELECTION_QUORUM_NEED_REQUEST_VOTE_NODE VOTE_NODE_ENABLED (server_count (cluster s)) active_count.
Definition NEED_CHECK_VOTE_NODE (s : S) : bool :=
  SF_ELECTION_QUORUM_NEED_CHECK_VOTE_NODE VOTE_NODE_ENABLED (server_count (cluster s)).
Definition quorum_check (s : S) (count : Z) : bool :=
  sf_election_quorum_check VOTE_NODE_ENABLED (server_count (cluster s)) count.

(** The digest of the configuration; the vote servers, the digest of theirs, and the
    padding of a join request, which is not initialised. *)
Variable CLUSTER_CONFIG_SIGN_BUF : list byte.
Variable vote_server_count : Z.
Variable vote_sign : list byte.
Variable IP_ADDRESS_SIZE : Z.
Variable padding : list byte.

(** ** Talking to the others *)
Definition proto_unpack_server_status (resp : list byte) (p : option nat) : FCFSAuthClusterServerStatus :=
  {| cs := p; is_master := negb (char_at resp 4 =? 0); status_id := buff2int (bytes_at resp 0 4) |}.

Definition proto_get_server_status (conn : nat) (p : option nat) : M S FCFSAuthClusterServerStatus :=
  v ← gets cluster;
  n ← on_net (sf_send_and_check_response_header conn FCFS_AUTH_CLUSTER_PROTO_GET_SERVER_STATUS_REQ
                (int2buff (CLUSTER_MY_SERVER_ID v) ++ CLUSTER_CONFIG_SIGN_BUF)
                FCFS_AUTH_CLUSTER_PROTO_GET_SERVER_STATUS_RESP);
  _ ← ensure (n =? sizeof_FCFSAuthProtoGetServerStatusResp) EINVAL;
  resp ← on_net (tcprecvdata_nb conn n);
  mret (proto_unpack_server_status resp p).

Definition disconnect_server (conn : nat) : M S unit := on_net (disconnect conn).

(** [padding[4]] of the request is not initialised. *)
Definition proto_join_master (conn : nat) (pad : list byte) : M S unit :=
  v ← gets cluster;
  on_net (sf_send_and_recv_none_body_response conn FCFS_AUTH_CLUSTER_PROTO_JOIN_MASTER
            (int2buff (CLUSTER_MY_SERVER_ID v) ++ pad ++ CLUSTER_CONFIG_SIGN_BUF) SF_PROTO_ACK).
Definition proto_ping_master (conn : nat) : M S unit :=
  on_net (sf_send_and_recv_none_body_response conn FCFS_AUTH_CLUSTER_PROTO_PING_MASTER_REQ []
            FCFS_AUTH_CLUSTER_PROTO_PING_MASTER_RESP).

Definition cluster_get_server_status_ex (i : nat) : M S FCFSAuthClusterServerStatus :=
  v ← gets cluster;
  if bool_decide (i = CLUSTER_MYSELF_PTR v) then
    mret {| cs := Some i; is_master := MYSELF_IS_MASTER v; status_id := CLUSTER_MY_SERVER_ID v |}
  else
    conn ← on_net (fc_server_make_connection_ex i);
    r ← attempt (proto_get_server_status conn (Some i));
    _ ← disconnect_server conn;
    lift r.

(** ** The inactive servers *)
Definition SET_SERVER_DETECT_ENTRY (i : nat) (s : S) : nat * Z := (i, now s + 1).

Definition init_inactive_server_array : M S unit := modify (λ s,
  set_inactive ((λ i, SET_SERVER_DETECT_ENTRY i s) <$>
    filter (λ i, i ≠ CLUSTER_MYSELF_PTR (cluster s)) (seq 0 (length (servers (cluster s))))) s).

Definition cluster_relationship_add_to_inactive_sarray (i : nat) : M S unit := modify (λ s,
  if bool_decide (i ∈ (inactive s).*1) then s
  else if Z.of_nat (length (inactive s)) <? alloc s
  then set_inactive (inactive s ++ [SET_SERVER_DETECT_ENTRY i s]) s
  else s).

(** The first entry of the server is taken out, and those after it move up. *)
Fixpoint remove_entry (i : nat) (l : list (nat * Z)) : list (nat * Z) :=
  match l with
  | [] => []
  | e :: l => if bool_decide (e.1 = i) then l else e :: remove_entry i l
  end.
Definition cluster_relationship_remove_from_inactive_sarray (i : nat) : M S unit :=
  modify (λ s, set_inactive (remove_entry i (inactive s)) s).

(** ** The master pointer *)
Definition cluster_unset_master (m : option nat) : M S bool := λ s,
  if bool_decide (CLUSTER_MASTER_PTR (cluster s) = m)
  then (Ok true, set_cluster (set_master_ptr None (cluster s)) s) else (Ok false, s).

Definition close_vote_connection : M S unit :=
  c ← gets VOTE_CONNECTION;
  match c with
  | Some conn => _ ← on_net (vote_client_proto_close_connection_ex conn); modify (set_vote_connection None)
  | None => mret tt
  end.

Definition cluster_relationship_trigger_reselect_master : M S unit :=
  v ← gets cluster;
  if bool_decide (CLUSTER_MASTER_PTR v ≠ Some (CLUSTER_MYSELF_PTR v)) then mret tt
  else
    unset ← cluster_unset_master (CLUSTER_MASTER_PTR v);
    if negb unset then mret tt
    else
      need ← gets NEED_CHECK_VOTE_NODE;
      _ ← (if need : bool then close_vote_connection else mret tt);
      modify (λ s, set_data (end_duties (data s)) s).

Definition cluster_relationship_pre_set_master (m : nat) : M S unit :=
  v ← gets cluster;
  match CLUSTER_NEXT_MASTER v with
  | None => change_cluster (set_next_master (Some m))
  | Some n => if bool_decide (n = m) then mret tt
              else _ ← change_cluster (set_next_master None); throw EEXIST
  end.

Definition or_terminate (m : M S unit) : M S unit :=
  r ← attempt m;
  match r with
  | Ok _ => mret tt
  | Err e => _ ← modify sf_terminate_myself; throw e
  end.

(** The swap is repeated until the new master is there. *)
Definition cluster_relationship_set_master (m : nat) : M S unit :=
  v ← gets cluster;
  if bool_decide (CLUSTER_MASTER_PTR v = Some m) then mret tt
  else
    _ ← (if bool_decide (CLUSTER_MYSELF_PTR v = m) then or_terminate (on_data load_data) else mret tt);
    _ ← change_cluster (set_master_ptr (Some m));
    if bool_decide (CLUSTER_MYSELF_PTR v = m) then or_terminate (on_data start_duties) else mret tt.

Definition cluster_relationship_commit_master (m : nat) : M S unit :=
  v ← gets cluster;
  match CLUSTER_NEXT_MASTER v with
  | None => throw EBUSY
  | Some n =>
      if bool_decide (n ≠ m) then _ ← change_cluster (set_next_master None); throw EBUSY
      else
        r ← attempt (cluster_relationship_set_master m);
        _ ← change_cluster (set_next_master None);
        lift r
  end.

(** ** The master watches *)
Definition do_check_brainsplit (i : nat) : M S unit :=
  st ← cluster_get_server_status_ex i;
  if is_master st then _ ← cluster_relationship_trigger_reselect_master; throw EEXIST
  else mret tt.

(** From entry [k] on, [n] entries; [count] is the number of inactive servers left. *)
Fixpoint cluster_check_brainsplit (n k : nat) (count : Z) : M S Z :=
  match n with
  | O => mret count
  | Datatypes.S n =>
      s ← get;
      match inactive s !! k with
      | None => mret count
      | Some (i, next_time) =>
          if next_time >? now s then cluster_check_brainsplit n (Datatypes.S k) count
          else
            r ← attempt (do_check_brainsplit i);
            if bool_decide (r = Err EEXIST) then throw EEXIST
            else
              _ ← modify (λ s, set_inactive (<[k := (i, now s + 1)]> (inactive s)) s);
              cluster_check_brainsplit n (Datatypes.S k) (if is_ok r then count - 1 else count)
      end
  end.

Definition fill_join_request (persistent : bool) (s : S) : FCFSVoteClientJoinRequest :=
  {| jr_server_id := CLUSTER_MY_SERVER_ID (cluster s); jr_group_id := 1;
     jr_response_size := sizeof_FCFSAuthProtoGetServerStatusResp;
     jr_service_id := FCFS_VOTE_SERVICE_ID_FAUTH;
     jr_is_leader := MYSELF_IS_MASTER (cluster s); jr_persistent := persistent |}.

Definition vote_node_active_check : M S unit :=
  s ← get;
  conn ← (match VOTE_CONNECTION s with
          | Some conn => mret conn
          | None =>
              conn ← on_net (fcfs_vote_client_join_ex vote_server_count vote_sign IP_ADDRESS_SIZE
                               (fill_join_request true s) padding);
              _ ← modify (set_vote_connection (Some conn)); mret conn
          end);
  r ← attempt (on_net (vote_client_proto_active_check_ex conn));
  match r with
  | Ok _ => mret tt
  | Err e => _ ← close_vote_connection; throw e
  end.

(** Whether the vote node is with the master. *)
Definition check_vote_node : M S bool :=
  need ← gets NEED_CHECK_VOTE_NODE;
  if need : bool then
    r ← attempt vote_node_active_check;
    match r with
    | Ok _ => mret true
    | Err e =>
        if bool_decide (e = SF_CLUSTER_ERROR_LEADER_INCONSISTENT)
        then _ ← cluster_relationship_trigger_reselect_master; throw EBUSY
        else mret false
    end
  else mret false.
Definition master_check : M S unit :=
  vote_node_active ← check_vote_node;
  s ← get;
  let n := length (inactive s) in
  if (0 <? n)%nat then
    inactive_count ← cluster_check_brainsplit n 0 (Z.of_nat n);
    s ← get;
    let active_count := server_count (cluster s) - inactive_count + Z.b2z vote_node_active in
    if quorum_check s active_count then mret tt
    else _ ← cluster_relationship_trigger_reselect_master; throw EBUSY
  else mret tt.

(** ** The candidate *)
Definition cluster_cmp_server_status (a b : FCFSAuthClusterServerStatus) : Z :=
  let sub := Z.b2z (is_master a) - Z.b2z (is_master b) in
  if negb (sub =? 0) then sub else int32 (status_id a - status_id b).

Definition get_vote_server_status : M S FCFSAuthClusterServerStatus :=
  s ← get;
  let v := cluster s in
  resp ← (match VOTE_CONNECTION s with
          | Some conn =>
              r ← attempt (on_net (vote_client_proto_get_vote_ex conn CLUSTER_CONFIG_SIGN_BUF None
                     (CLUSTER_MY_SERVER_ID v) (MYSELF_IS_MASTER v) sizeof_FCFSAuthProtoGetServerStatusResp));
              match r with
              | Ok resp => mret resp
              | Err e => _ ← close_vote_connection; throw e
              end
          | None =>
              on_net (fcfs_vote_client_get_vote_ex vote_server_count vote_sign IP_ADDRESS_SIZE
                        (fill_join_request false s) padding CLUSTER_CONFIG_SIGN_BUF None
                        sizeof_FCFSAuthProtoGetServerStatusResp)
          end);
  mret (proto_unpack_server_status resp None).

Definition notify_vote_next_leader (vote_req_cmd : Z) : M S unit :=
  s ← get;
  on_net (fcfs_vote_client_notify_next_leader_ex vote_server_count vote_sign IP_ADDRESS_SIZE
            (fill_join_request false s) padding vote_req_cmd).

(** The statuses of the servers that answer, in order, and the last error. *)
Fixpoint get_statuses (l : list nat) (e : option errno) : M S (list FCFSAuthClusterServerStatus * option errno) :=
  match l with
  | [] => mret ([], e)
  | i :: l =>
      r ← attempt (cluster_get_server_status_ex i);
      match r with
      | Ok st => p ← get_statuses l e; mret (st :: p.1, p.2)
      | Err x => get_statuses l (if bool_decide (x = ENOENT) then e else Some x)
      end
  end.

(** The status of the candidate and the number of servers that are there. *)
Definition cluster_get_master : M S (FCFSAuthClusterServerStatus * Z) :=
  s ← get;
  let count := server_count (cluster s) in
  _ ← (if count <? STATUS_ARRAY_FIXED_COUNT then mret tt
       else on_net (λ w, let '(ok, w) := fc_malloc (int32 (16 * count)) w in ensure ok ENOMEM w));
  p ← get_statuses (seq 0 (length (servers (cluster s)))) None;
  let '(l, e) := p in
  if bool_decide (l = []) then throw (default ENOENT e)
  else
    s ← get;
    l ← (if NEED_REQUEST_VOTE_NODE s (Z.of_nat (length l)) then
           r ← attempt get_vote_server_status;
           mret (match r with Ok st => l ++ [st] | Err _ => l end)
         else mret l);
    match last (qsort cluster_cmp_server_status l) with
    | Some st => mret (st, Z.of_nat (length l))
    | None => throw EFAULT
    end.

(** ** Notification

    A notification returns its result and, when it wrote it, [*bConnectFail]. *)
Definition do_notify_master_changed (i m : nat) (cmd : Z) : M S (result unit * option bool) :=
  v ← gets cluster;
  r ← attempt (on_net (fc_server_make_connection_ex i));
  match r with
  | Err e => mret (Err e, Some true)
  | Ok conn =>
      r ← attempt (on_net (sf_send_and_recv_none_body_response conn cmd (int2buff (id_of v m)) SF_PROTO_ACK));
      _ ← disconnect_server conn;
      mret (r, Some false)
  end.

Definition cluster_pre_set_next_master (i m : nat) : M S (result unit * option bool) :=
  v ← gets cluster;
  if bool_decide (i = CLUSTER_MYSELF_PTR v) then
    r ← attempt (cluster_relationship_pre_set_master m);
    _ ← (if is_ok r then init_inactive_server_array else mret tt);
    mret (r, None)
  else do_notify_master_changed i m FCFS_AUTH_CLUSTER_PROTO_PRE_SET_NEXT_MASTER.

Definition cluster_commit_next_master (i m : nat) : M S (result unit * option bool) :=
  v ← gets cluster;
  if bool_decide (i = CLUSTER_MYSELF_PTR v) then
    r ← attempt (cluster_relationship_commit_master m); mret (r, None)
  else do_notify_master_changed i m FCFS_AUTH_CLUSTER_PROTO_COMMIT_NEXT_MASTER.

(** The servers [l]; [bConnectFail] keeps what the last notification that wrote it left,
    at first whatever the stack holds. *)
Fixpoint notify_servers (notify_func : nat → nat → M S (result unit * option bool)) (m : nat) (l : list nat)
    (bConnectFail : bool) (success_count : Z) : M S Z :=
  match l with
  | [] => mret success_count
  | i :: l =>
      p ← notify_func i m;
      let bConnectFail := default bConnectFail p.2 in
      match p.1 with
      | Ok _ => notify_servers notify_func m l bConnectFail (success_count + 1)
      | Err e => if negb bConnectFail then throw e
                 else notify_servers notify_func m l bConnectFail success_count
      end
  end.

Definition notify_next_master (notify_func : nat → nat → M S (result unit * option bool)) (m : nat)
    (vote_req_cmd : Z) (stack : bool) : M S unit :=
  s ← get;
  let count := server_count (cluster s) in
  success_count ← notify_servers notify_func m (seq 0 (length (servers (cluster s)))) stack 0;
  need ← gets NEED_CHECK_VOTE_NODE;
  success_count ← (if need : bool then
    r ← attempt (notify_vote_next_leader vote_req_cmd);
    match r with
    | Ok _ => mret (if success_count <? count then success_count + 1 else success_count)
    | Err e => if bool_decide (e = SF_CLUSTER_ERROR_LEADER_INCONSISTENT)
               then throw (NEG SF_CLUSTER_ERROR_LEADER_INCONSISTENT) else mret success_count
    end
   else mret success_count);
  s ← get;
  if quorum_check s success_count then mret tt else throw EAGAIN.

Definition cluster_notify_master_changed (m : nat) (stack : bool) : M S unit :=
  _ ← notify_next_master cluster_pre_set_next_master m FCFS_VOTE_SERVICE_PROTO_PRE_SET_NEXT_LEADER stack;
  r ← attempt (notify_next_master cluster_commit_next_master m FCFS_VOTE_SERVICE_PROTO_COMMIT_NEXT_LEADER stack);
  match r with
  | Ok _ => mret tt
  | Err e =>
      _ ← cluster_relationship_trigger_reselect_master;
      throw (if bool_decide (e = NEG SF_CLUSTER_ERROR_LEADER_INCONSISTENT)
             then SF_CLUSTER_ERROR_MASTER_INCONSISTENT else e)
  end.

(** ** The election *)
Variable sleep : Z → S → S.
Variable ELECTION_MAX_WAIT_TIME : Z.
Variable ELECTION_MASTER_LOST_TIMEOUT : Z.

(** The rounds, from the [i]th on, until there is a master or a candidate.  What is
    logged is left out. *)
Fixpoint select_rounds (fuel : nat) (start_time i max_sleep_secs : Z) : M S (option FCFSAuthClusterServerStatus) :=
  match fuel with
  | O => throw NO_RETURN
  | Datatypes.S fuel =>
      v ← gets cluster;
      match CLUSTER_MASTER_PTR v with
      | Some _ => mret None
      | None =>
          p ← cluster_get_master;
          let '(st, active_count) := p in
          let i := i + 1 in
          s ← get;
          let count := server_count (cluster s) in
          if negb (quorum_check s active_count) then
            _ ← modify (sleep 1); select_rounds fuel start_time i max_sleep_secs
          else if (active_count =? count) || ((active_count >=? 2) && is_master st) then mret (Some st)
          else
            let remain_time := ELECTION_MAX_WAIT_TIME - (now s - start_time) in
            if remain_time <=? 0 then mret (Some st)
            else
              _ ← modify (sleep (Z.min remain_time max_sleep_secs));
              select_rounds fuel start_time i
                (if (i mod 2 =? 0) && (max_sleep_secs <? 8) then max_sleep_secs * 2 else max_sleep_secs)
      end
  end.

(** The vote node, whose [cs] is null, is never followed as a master: [EFAULT]. *)
Definition cluster_select_master (fuel : nat) (stack : bool) : M S unit :=
  start_time ← gets now;
  o ← select_rounds fuel start_time 0 1;
  v ← gets cluster;
  match CLUSTER_MASTER_PTR v, o with
  | Some _, _ => mret tt
  | None, None => throw EFAULT
  | None, Some st =>
      if bool_decide (cs st = Some (CLUSTER_MYSELF_PTR v))
      then cluster_notify_master_changed (CLUSTER_MYSELF_PTR v) stack
      else match cs st with
           | None => throw EFAULT
           | Some m =>
               if is_master st then _ ← attempt (cluster_relationship_set_master m); mret tt
               else throw ENOENT
           end
  end.

(** ** The thread *)

(** The result and [*is_ping], with the connection to the master. *)
Definition cluster_ping_master (m : nat) (conn : option nat) (pad : list byte) : M S (result unit * bool * option nat) :=
  v ← gets cluster;
  if bool_decide (CLUSTER_MYSELF_PTR v = m) then r ← attempt master_check; mret (r, false, conn)
  else
    c ← (match conn with
         | Some c => mret (Ok c)
         | None =>
             attempt (c ← on_net (fc_server_make_connection_ex m);
                      r ← attempt (proto_join_master c pad);
                      match r with
                      | Ok _ => mret c
                      | Err e => _ ← disconnect_server c; throw e
                      end)
         end);
    match c with
    | Err e => mret (Err e, true, None)
    | Ok c =>
        r ← attempt (proto_ping_master c);
        match r with
        | Ok _ => mret (Ok tt, true, Some c)
        | Err e => _ ← disconnect_server c; mret (Err e, true, None)
        end
    end.

(** The variables of the thread. *)
Record thread_vars := { fail_count : Z; ping_start_time : Z; mconn : option nat }.

Definition random_sleep : M S Z := on_net (λ w, let '(r, w) := rand w in
  (Ok (1 + r * MAX_SLEEP_SECONDS / RAND_MAX), w)).

(** One turn of the loop: the variables and how long to sleep. *)
Definition cluster_thread_turn (fuel : nat) (stack : bool) (pad : list byte) (t : thread_vars)
    : M S (thread_vars * Z) :=
  v ← gets cluster;
  match CLUSTER_MASTER_PTR v with
  | None =>
      r ← attempt (cluster_select_master fuel stack);
      match r with
      | Err e => if bool_decide (e = NO_RETURN) then throw e else n ← random_sleep; mret (t, n)
      | Ok _ =>
          _ ← (match mconn t with Some c => disconnect_server c | None => mret tt end);
          time ← gets now;
          mret ({| fail_count := fail_count t; ping_start_time := time; mconn := None |}, 1)
      end
  | Some m =>
      p ← cluster_ping_master m (mconn t) pad;
      let '(r, is_ping, conn) := p in
      time ← gets now;
      match r with
      | Ok _ => mret ({| fail_count := 0; ping_start_time := time; mconn := conn |}, 1)
      | Err e =>
          let t := {| fail_count := fail_count t; ping_start_time := ping_start_time t; mconn := conn |} in
          if is_ping : bool then
            let failed n := {| fail_count := n; ping_start_time := ping_start_time t; mconn := conn |} in
            let n := fail_count t + 1 in
            if bool_decide (e = SF_RETRIABLE_ERROR_NOT_MASTER) then
              _ ← cluster_unset_master (Some m); mret (failed 0, 0)
            else if time - ping_start_time t >? ELECTION_MASTER_LOST_TIMEOUT then
              if n >? 1 then _ ← cluster_unset_master (Some m); mret (failed 0, 0) else mret (failed n, 0)
            else mret (failed n, 1)
          else mret (t, check_fail_sleep (D:=D))
      end
  end.

Fixpoint cluster_thread_loop (turns fuel : nat) (stack : bool) (pad : list byte) (t : thread_vars) : M S unit :=
  match turns with
  | O => throw NO_RETURN
  | Datatypes.S turns =>
      s ← get;
      if SF_G_CONTINUE_FLAG s then
        p ← cluster_thread_turn fuel stack pad t;
        _ ← (if 0 <? p.2 then modify (sleep p.2) else mret tt);
        cluster_thread_loop turns fuel stack pad p.1
      else mret tt
  end.
Definition cluster_thread_entrance (turns fuel : nat) (stack : bool) (pad : list byte) : M S unit :=
  time ← gets now;
  cluster_thread_loop turns fuel stack pad {| fail_count := 0; ping_start_time := time; mconn := None |}.

Definition cluster_relationship_init : M S unit :=
  _ ← modify (set_vote_connection None);
  s ← get;
  let count := server_count (cluster s) in
  _ ← on_net (λ w, let '(ok, w) := fc_malloc (int32 (16 * count)) w in ensure ok ENOMEM w);
  _ ← on_net init_pthread_lock;
  _ ← modify (set_alloc count);
  on_net fc_create_thread.
End election.
Arguments node : clear implicits.
End Election.
