(* ===== verification/AuthCluster.v ===== *)
(** * The cluster port of the authentication server (src/auth/server/cluster_handler.c)

    Other servers of the cluster take part in elections and ping the master here, and
    the servers of other services subscribe to sessions or have them validated.  The
    server itself is the session table of [Session.v], whose callbacks carry the
    database, the variables of the cluster and the subscribers; it is the [Server]
    that [Election.v] elects. *)
From Stdlib Require Import Init.Byte.
From S2P Require Import Prelude Fastcommon AuthProto Session AuthDB ServiceHandler SessionSubscribe SessionPush ClientProto VoteServer VoteClient PoolUsage Election.
Import ServerSession(ServerSessionIdInfo, ServerSessionContext, part1, part2, server_session_get_fields, server_session_clear, server_session_add_ex, id_sample, mem, cb_state, with_cb, heap_of, id_of).
Import VoteClient(VoteNet).
Import AuthProto VoteServer(VoteFrame, SF_PROTO_ACK, SF_CLUSTER_CONFIG_SIGN_LEN) SessionSubscribe SessionPush PoolUsage Election.
Import ServiceHandler(request, cmd, body, behind, response, resp_cmd, resp_body, switch, body_len, cluster_vars,
  servers, CLUSTER_MASTER_PTR, CLUSTER_NEXT_MASTER, CLUSTER_MYSELF_PTR, MYSELF_IS_MASTER, ServerSessionFields,
  publish, dbuser, dbpool, pool_privs, FCFSAuthClusterServerInfo, server_id, service_ip, service_port, is_online,
  fc_string_equal, ip_field, SF_SERVER_TASK_TYPE_NONE).
Import AuthDB(FCFS_AUTH_POOL_ACCESS_ALL).
Import ClientProto(FCFS_AUTH_SERVICE_PROTO_SESSION_SUBSCRIBE_REQ, FCFS_AUTH_SERVICE_PROTO_SESSION_SUBSCRIBE_RESP,
  FCFS_AUTH_SERVICE_PROTO_SESSION_VALIDATE_REQ, FCFS_AUTH_SERVICE_PROTO_SESSION_VALIDATE_RESP).
Local Open Scope Z_scope.

(** The database as the cluster port uses it. *)
Class ClusterDB (DB : Type) := {
  db_user_get : string_t → DB → option addr;
  db_user_passwd : DB → addr → option string_t;
  db_load : M DB unit;
  auth_db_destroy : DB → DB;
}.

(** libfastcommon's search for a server by its id, in the order of the array. *)
Class ServerConfig := { fc_server_get_by_id : list FCFSAuthClusterServerInfo → Z → option nat }.

Module AuthCluster.

Definition AUTH_SERVER_TASK_TYPE_SUBSCRIBE : Z := 2.
Definition AUTH_SERVER_TASK_TYPE_RELATIONSHIP : Z := 3.
Definition fcfs_auth_validate_priv_type_user : Z := 117.  (* u *)
Definition fcfs_auth_validate_priv_type_pool_fdir : Z := 100.  (* d *)
Definition fcfs_auth_validate_priv_type_pool_fstore : Z := 115.  (* s *)
Definition FCFS_AUTH_USER_PRIV_MONITOR_CLUSTER : Z := 4.
Definition FCFS_AUTH_USER_PRIV_SUBSCRIBE_SESSION : Z := 8.
(** The number of the code [EPERM]. *)
Definition EPERM_NUMBER : Z := 1.
Definition sizeof_FCFSAuthProtoSessionSubscribeReq : Z := 16 + 1.
Definition sizeof_FCFSAuthProtoSessionValidateReq : Z := 16 + 16 + 1 + 7 + 8 + 8.

(** [shared] is the union of [SESSION_SUBSCRIBER] and [CLUSTER_PEER]: one pointer. *)
Record cluster_task := { SERVER_TASK_TYPE : Z; shared : option nat }.
Definition idle_task : cluster_task := {| SERVER_TASK_TYPE := SF_SERVER_TASK_TYPE_NONE; shared := None |}.

(** ** The server *)
Section data.
Context {DB MB MBt E : Type} `{!SessionDB DB, !ClusterDB DB, !Mblock MB, !Mblock MBt, !FdirStat E}.
Abbreviation Srv := (ServerSessionContext ServerSessionFields (server_state DB MB) MBt).
Record auth_data := { sess : Srv; usage : updater E }.

Definition set_sess x (d : auth_data) : auth_data := {| sess := x; usage := usage d |}.
Definition data_vars (d : auth_data) : cluster_vars := SessionSubscribe.cluster (cb_state (sess d)).
Definition with_vars (v : cluster_vars) (c : Srv) : Srv :=
  with_cb {| db := db (cb_state c); SessionSubscribe.cluster := v; subscribe_ctx := subscribe_ctx (cb_state c) |} c.
Definition with_db (x : DB) (c : Srv) : Srv := with_cb (set_db x (cb_state c)) c.
Definition with_ctx x (c : Srv) : Srv := with_cb (set_ctx x (cb_state c)) c.

Definition on_db {A} (m : M DB A) : M auth_data A := λ d,
  let '(r, x) := m (db (cb_state (sess d))) in (r, set_sess (with_db x (sess d)) d).
Definition on_usage {A} (m : M (updater E) A) : M auth_data A := λ d,
  let '(r, u) := m (usage d) in (r, {| sess := sess d; usage := u |}).

(** The end of [cluster_relationship_trigger_reselect_master]. *)
Definition end_mastership (d : auth_data) : auth_data :=
  let c := with_ctx (session_subscribe_clear_session (subscribe_ctx (cb_state (sess d)))) (sess d) in
  let c := server_session_clear c in
  let u := {| updater_ctx := pool_usage_updater_terminate (updater_ctx (usage d)); env := env (usage d) |} in
  {| sess := with_db (auth_db_destroy (db (cb_state c))) c; usage := u |}.

Definition auth_server (vote_node_enabled : bool) : Server auth_data := {|
  vars := data_vars;
  set_vars v d := set_sess (with_vars v (sess d)) d;
  load_data := on_db db_load;
  start_duties := on_usage pool_usage_updater_start;
  end_duties := end_mastership;
  VOTE_NODE_ENABLED := vote_node_enabled;
  check_fail_sleep := 0;
|}.
End data.
Arguments auth_data : clear implicits.

(** ** Handlers *)
Section handler.
Context `{!BuffCodec, !ServerFrame, !VoteFrame, !Quorum, !ServerConfig} {DB MB MBt E W : Type}.
Context `{!SessionDB DB, !ClusterDB DB, !Mblock MB, !Mblock MBt, !FcCompare, !FdirStat E}.
Context `{!VoteNet W, !ClusterNet W}.
Variable vote_node_enabled : bool.
#[local] Instance my_server : Server (auth_data DB MB MBt E) := auth_server vote_node_enabled.

Record cluster_state := { nd : node (auth_data DB MB MBt E) W; ctasks : nat → cluster_task }.
Abbreviation S := cluster_state.
Abbreviation Srv := (ServerSessionContext ServerSessionFields (server_state DB MB) MBt).

Definition on_node {A} (m : M (node (auth_data DB MB MBt E) W) A) : M S A := λ s,
  let '(r, n) := m (nd s) in (r, {| nd := n; ctasks := ctasks s |}).
Definition set_task (t : nat) (x : cluster_task) : M S unit :=
  modify (λ s, {| nd := nd s; ctasks := <[t := x]> (ctasks s) |}).
Definition on_srv (f : Srv → Srv) : M S unit :=
  on_node (modify (λ n, Election.set_data (set_sess (f (sess (Election.data n))) (Election.data n)) n)).
Definition srv (s : S) : Srv := sess (Election.data (nd s)).
Definition my_cluster (s : S) : cluster_vars := Election.cluster (nd s).

Variable CLUSTER_CONFIG_SIGN_BUF : list byte.
Variable validate_key : list byte.
Variable IP_ADDRESS_SIZE : Z.
Variable address_by_peer : FCFSAuthClusterServerInfo → string_t * Z.
(** The padding of a status in the send buffer, which is not initialised. *)
Variable padding : list byte.

Definition fcfs_auth_get_server_by_id (v : cluster_vars) (id : Z) : option nat :=
  fc_server_get_by_id (servers v) id.

Definition cluster_recv_timeout_callback (t : nat) : M S unit :=
  x ← gets (λ s, ctasks s t);
  if ((SERVER_TASK_TYPE x =? AUTH_SERVER_TASK_TYPE_RELATIONSHIP) ||
      (SERVER_TASK_TYPE x =? AUTH_SERVER_TASK_TYPE_SUBSCRIBE)) && bool_decide (shared x ≠ None)
  then throw ETIMEDOUT else mret tt.

Definition set_online (b : bool) (cs : FCFSAuthClusterServerInfo) : FCFSAuthClusterServerInfo :=
  {| server_id := server_id cs; service_ip := service_ip cs; service_port := service_port cs; is_online := b |}.
Definition server_online (i : nat) (b : bool) : M S unit :=
  on_node (change_cluster (λ v, {| servers := alter (set_online b) i (servers v);
    CLUSTER_MASTER_PTR := CLUSTER_MASTER_PTR v; CLUSTER_NEXT_MASTER := CLUSTER_NEXT_MASTER v;
    CLUSTER_MYSELF_PTR := CLUSTER_MYSELF_PTR v |})).

Definition cluster_task_finish_cleanup (t : nat) : M S unit :=
  x ← gets (λ s, ctasks s t);
  if SERVER_TASK_TYPE x =? AUTH_SERVER_TASK_TYPE_RELATIONSHIP then
    _ ← (match shared x with
         | Some peer => _ ← server_online peer false; on_node (cluster_relationship_add_to_inactive_sarray peer)
         | None => mret tt
         end);
    set_task t idle_task
  else if SERVER_TASK_TYPE x =? AUTH_SERVER_TASK_TYPE_SUBSCRIBE then
    _ ← (match shared x with
         | Some s => on_srv (λ c, with_ctx (session_subscriber_cleanup s (subscribe_ctx (cb_state c))) c)
         | None => mret tt
         end);
    set_task t idle_task
  else mret tt.

(** [thread]: the network thread of the connection. *)
Definition cluster_deal_session_subscribe (t thread : nat) (req : request) : M S response :=
  let b := body req in
  _ ← lift (server_check_min_body_length (body_len req) (sizeof_FCFSAuthProtoSessionSubscribeReq + 1));
  let username := name_at b 16 in
  let passwd := bytes_at b 0 FCFS_AUTH_PASSWD_LEN in
  _ ← lift (server_expect_body_length (body_len req)
              (sizeof_FCFSAuthProtoSessionSubscribeReq + char_at b 16));
  s ← get;
  if negb (SERVER_TASK_TYPE (ctasks s t) =? SF_SERVER_TASK_TYPE_NONE) then throw EEXIST
  else
    let d := db (cb_state (srv s)) in
    match db_user_get username d with
    | None => throw EPERM
    | Some u =>
        if negb (fc_string_equal (db_user_passwd d u) passwd) then throw EPERM
        else if negb (flag_set (db_user_priv d u) FCFS_AUTH_USER_PRIV_SUBSCRIBE_SESSION) then throw EPERM
        else
          let '(r, x) := cluster_subscribe d (mem (srv s)) thread (subscribe_ctx (cb_state (srv s))) in
          _ ← on_srv (with_ctx x);
          match r with
          | Err _ =>
              _ ← set_task t {| SERVER_TASK_TYPE := SERVER_TASK_TYPE (ctasks s t); shared := None |};
              throw ENOMEM
          | Ok a =>
              _ ← set_task t {| SERVER_TASK_TYPE := AUTH_SERVER_TASK_TYPE_SUBSCRIBE; shared := Some a |};
              mret {| resp_cmd := FCFS_AUTH_SERVICE_PROTO_SESSION_SUBSCRIBE_RESP; resp_body := [] |}
          end
    end.

(** [pool_id] is not looked at. *)
Definition session_validate (c : Srv) (session : ServerSessionIdInfo) (priv_type pool_id priv_required : Z)
    : result unit :=
  match server_session_get_fields c session with
  | Err e => Err e
  | Ok f =>
      let session_priv :=
        if priv_type =? fcfs_auth_validate_priv_type_user then
          match dbuser f with
          | Some u => db_user_priv (db (cb_state c)) u
          | None => Z.lor FCFS_AUTH_USER_PRIV_MONITOR_CLUSTER FCFS_AUTH_USER_PRIV_SUBSCRIBE_SESSION
          end
        else if priv_type =? fcfs_auth_validate_priv_type_pool_fdir then AuthDB.fdir (pool_privs f)
        else if priv_type =? fcfs_auth_validate_priv_type_pool_fstore then AuthDB.fstore (pool_privs f)
        else 0 in
      if Z.land session_priv priv_required =? priv_required then Ok tt else Err EPERM
  end.

Definition cluster_deal_session_validate (req : request) : M S response :=
  let b := body req in
  _ ← lift (server_expect_body_length (body_len req) sizeof_FCFSAuthProtoSessionValidateReq);
  let session := {| part1 := uint64 (buff2long (bytes_at b 0 8)); part2 := uint64 (buff2long (bytes_at b 8 8)) |} in
  if negb (bool_decide (bytes_at b 16 FCFS_AUTH_PASSWD_LEN = validate_key)) then throw EACCES
  else
    s ← get;
    let r := session_validate (srv s) session (char_at b 32) (buff2long (bytes_at b 40 8))
               (buff2long (bytes_at b 48 8)) in
    if bool_decide (r = Err SF_SESSION_ERROR_NOT_EXIST) then throw SF_SESSION_ERROR_NOT_EXIST
    else mret {| resp_cmd := FCFS_AUTH_SERVICE_PROTO_SESSION_VALIDATE_RESP;
                 resp_body := int2buff (if is_ok r then 0 else EPERM_NUMBER) |}.

Definition cluster_check_config_sign (config_sign : list byte) : M S unit :=
  ensure (bool_decide (config_sign = CLUSTER_CONFIG_SIGN_BUF)) EFAULT.

Definition cluster_deal_get_server_status (req : request) : M S response :=
  let b := body req in
  _ ← lift (server_expect_body_length (body_len req) (4 + SF_CLUSTER_CONFIG_SIGN_LEN));
  _ ← cluster_check_config_sign (bytes_at b 4 SF_CLUSTER_CONFIG_SIGN_LEN);
  v ← gets my_cluster;
  mret {| resp_cmd := FCFS_AUTH_CLUSTER_PROTO_GET_SERVER_STATUS_RESP;
          resp_body := int2buff (CLUSTER_MY_SERVER_ID v) ++ [byte_of (Z.b2z (MYSELF_IS_MASTER v))] ++ padding |}.

Definition ack : response := {| resp_cmd := SF_PROTO_ACK; resp_body := [] |}.

(** Neither the master nor about to be. *)
Definition not_master (v : cluster_vars) : bool :=
  negb (MYSELF_IS_MASTER v) && negb (bool_decide (CLUSTER_NEXT_MASTER v = Some (CLUSTER_MYSELF_PTR v))).

Definition cluster_deal_join_master (t : nat) (req : request) : M S response :=
  let b := body req in
  _ ← lift (server_expect_body_length (body_len req) (8 + SF_CLUSTER_CONFIG_SIGN_LEN));
  v ← gets my_cluster;
  match fcfs_auth_get_server_by_id v (buff2int (bytes_at b 0 4)) with
  | None => throw ENOENT
  | Some peer =>
      _ ← cluster_check_config_sign (bytes_at b 8 SF_CLUSTER_CONFIG_SIGN_LEN);
      if not_master v then throw SF_RETRIABLE_ERROR_NOT_MASTER
      else if bool_decide (peer = CLUSTER_MYSELF_PTR v) then throw EINVAL
      else
        x ← gets (λ s, ctasks s t);
        if bool_decide (shared x ≠ None) then throw EEXIST
        else
          _ ← set_task t {| SERVER_TASK_TYPE := AUTH_SERVER_TASK_TYPE_RELATIONSHIP; shared := Some peer |};
          _ ← server_online peer true;
          _ ← on_node (cluster_relationship_remove_from_inactive_sarray peer);
          mret ack
  end.

Definition cluster_deal_ping_master (t : nat) (req : request) : M S response :=
  _ ← lift (server_expect_body_length (body_len req) 0);
  x ← gets (λ s, ctasks s t);
  if bool_decide (shared x = None) then throw EINVAL
  else
    v ← gets my_cluster;
    if not_master v then throw SF_RETRIABLE_ERROR_NOT_MASTER
    else mret {| resp_cmd := FCFS_AUTH_CLUSTER_PROTO_PING_MASTER_RESP; resp_body := [] |}.

Definition cluster_deal_next_master (req : request) : M S response :=
  _ ← lift (server_expect_body_length (body_len req) 4);
  v ← gets my_cluster;
  if MYSELF_IS_MASTER v then
    _ ← on_node cluster_relationship_trigger_reselect_master; throw EEXIST
  else
    match fcfs_auth_get_server_by_id v (buff2int (bytes_at (body req) 0 4)) with
    | None => throw ENOENT
    | Some m =>
        _ ← on_node (if cmd req =? FCFS_AUTH_CLUSTER_PROTO_PRE_SET_NEXT_MASTER
                     then cluster_relationship_pre_set_master m
                     else cluster_relationship_commit_master m);
        mret ack
    end.

(** The cases of [fcfs_auth_deal_get_master]. *)
Definition cluster_deal_get_master (c : Z) (req : request) : M S response :=
  _ ← lift (server_expect_body_length (body_len req) 0);
  v ← gets my_cluster;
  let master := match CLUSTER_MASTER_PTR v with Some m => Some m | None => CLUSTER_NEXT_MASTER v end in
  match m ← master; servers v !! m with
  | None => throw SF_RETRIABLE_ERROR_NO_SERVER
  | Some cs =>
      let '(ip, port) := address_by_peer cs in
      mret {| resp_cmd := c; resp_body := int2buff (server_id cs) ++ short2buff port ++ [x00; x00] ++
                                          ip_field IP_ADDRESS_SIZE ip |}
  end.

Definition cluster_process (t thread : nat) (req : request) : M S response :=
  let c := cmd req in
  s ← get;
  let v := my_cluster s in
  if negb (MYSELF_IS_MASTER v) && (c =? FCFS_AUTH_SERVICE_PROTO_SESSION_SUBSCRIBE_REQ)
  then throw SF_RETRIABLE_ERROR_NOT_MASTER
  else if (c =? FCFS_AUTH_SERVICE_PROTO_SESSION_VALIDATE_REQ) && not_master v
  then throw SF_RETRIABLE_ERROR_NOT_MASTER
  else
    switch c
      [(SF_PROTO_ACTIVE_TEST_REQ,
          if (SERVER_TASK_TYPE (ctasks s t) =? AUTH_SERVER_TASK_TYPE_SUBSCRIBE) && negb (MYSELF_IS_MASTER v)
          then throw SF_RETRIABLE_ERROR_NOT_MASTER
          else _ ← lift (sf_proto_deal_active_test (body req));
               mret {| resp_cmd := SF_PROTO_ACTIVE_TEST_RESP; resp_body := [] |});
       (FCFS_AUTH_SERVICE_PROTO_SESSION_SUBSCRIBE_REQ, cluster_deal_session_subscribe t thread req);
       (FCFS_AUTH_SERVICE_PROTO_SESSION_VALIDATE_REQ, cluster_deal_session_validate req);
       (FCFS_AUTH_CLUSTER_PROTO_GET_SERVER_STATUS_REQ, cluster_deal_get_server_status req);
       (FCFS_AUTH_CLUSTER_PROTO_PRE_SET_NEXT_MASTER, cluster_deal_next_master req);
       (FCFS_AUTH_CLUSTER_PROTO_COMMIT_NEXT_MASTER, cluster_deal_next_master req);
       (FCFS_AUTH_CLUSTER_PROTO_JOIN_MASTER, cluster_deal_join_master t req);
       (FCFS_AUTH_CLUSTER_PROTO_PING_MASTER_REQ, cluster_deal_ping_master t req);
       (FCFS_AUTH_SERVICE_PROTO_GET_MASTER_REQ, cluster_deal_get_master FCFS_AUTH_SERVICE_PROTO_GET_MASTER_RESP req);
       (SF_SERVICE_PROTO_GET_LEADER_REQ, cluster_deal_get_master SF_SERVICE_PROTO_GET_LEADER_RESP req)]
      (throw (NEG EINVAL)).
End handler.
Arguments cluster_state : clear implicits.
End AuthCluster.
