(* ===== verification/AuthDBLife.v ===== *)
(** * The life of the database (src/auth/server/db/auth_db.c, and [load_data] of
      src/auth/server/cluster_relationship.c)

    A server that becomes the master sets up the pools and lists of the database and
    fills them from the directory; one that steps down gives them up. *)
From S2P Require Import Prelude Fastcommon AuthDB Session SessionSubscribe PoolUsage Election AuthCluster.
Import AuthDB.
Import SessionSubscribe(SessionDB, db_user_id, db_user_priv, db_pool_id, db_pool_available).
#[local] Existing Instance SessionSubscribe.auth_session_db.
Local Open Scope Z_scope.

(** Setting up a lock, the allocator of names, a pool of objects and a list: each may
    fail, and what is set up is empty. *)
Class AdbSetup (D MB : Type) := {
  adb_init_lock : M D unit;
  fast_allocator_init_ex : M D unit;
  fast_mblock_init_ex1 : Z → M D MB;
  uniq_skiplist_init : M D unit;
}.

Module AuthDBLife.
Section life.
Context {D MB : Type} `{!AuthDao D, !NameAllocator D, !Malloc D, !Mblock MB, !AdbSetup D MB}.
Context {SLs SLi : Type → Type} `{!UniqSkiplist string_t SLs, !UniqSkiplist Z SLi}.
Abbreviation C := (AuthDBContext D MB SLs SLi).

(** What is left of a database that is given up is not read. *)
Record adb_global := { adb_ctx : C; inited : bool }.
Definition on_ctx {A} (m : M C A) : M adb_global A := λ g,
  let '(r, c) := m (adb_ctx g) in (r, {| adb_ctx := c; inited := inited g |}).
Definition set_inited (b : bool) (g : adb_global) : adb_global := {| adb_ctx := adb_ctx g; inited := b |}.

(** Called for each object that the pool of users hands out for the first time. *)
Definition user_alloc_init (u : DBUserInfo (SLs:=SLs) (SLi:=SLi)) : DBUserInfo (SLs:=SLs) (SLi:=SLi) :=
  {| user := user u; created := sl_empty _; granted := sl_empty _ |}.

Definition init_allocator (i : Z) : M C unit :=
  m ← on_backend (fast_mblock_init_ex1 i);
  modify (λ c : C, set_mem (<[i := m]> (mem c)) c).
Definition init_allocators : M C unit :=
  _ ← init_allocator 0;
  _ ← modify (λ c : C, set_users (λ a, user_alloc_init (users c a)) c);
  _ ← init_allocator 1;
  init_allocator 2.

Definition init_skiplists : M C unit :=
  _ ← on_backend uniq_skiplist_init;
  _ ← modify (λ c : C, set_user_sl (user_count c) (sl_empty _) c);
  _ ← on_backend uniq_skiplist_init;
  _ ← on_backend uniq_skiplist_init;
  _ ← on_backend uniq_skiplist_init;
  _ ← modify (set_by_id (sl_empty _));
  _ ← on_backend uniq_skiplist_init;
  modify (set_by_name (sl_empty _)).

Definition auth_db_init : M adb_global unit :=
  _ ← on_ctx (on_backend adb_init_lock);
  _ ← on_ctx (on_backend fast_allocator_init_ex);
  _ ← on_ctx init_allocators;
  _ ← on_ctx init_skiplists;
  modify (set_inited true).

Definition auth_db_destroy (g : adb_global) : adb_global := if inited g then set_inited false g else g.

(** The configuration: the first id of pools, when to make an administrator, its name;
    its password and whether it could be saved; what the stack holds. *)
Variables (AUTO_ID_INITIAL : Z) (mode_first : bool) (name passwd : string_t) (stack : Z) (saved : result unit).

Definition adb_load_data : M adb_global unit :=
  _ ← auth_db_init; on_ctx (AuthDB.adb_load_data AUTO_ID_INITIAL).

Definition load_data : M adb_global unit :=
  _ ← adb_load_data; on_ctx (adb_check_generate_admin_user mode_first name passwd stack saved).

#[export] Instance life_session_db : SessionDB adb_global := {|
  db_user_id g := db_user_id (adb_ctx g);
  db_user_priv g := db_user_priv (adb_ctx g);
  db_pool_id g := db_pool_id (adb_ctx g);
  db_pool_available g := db_pool_available (adb_ctx g);
|}.
Definition life_cluster_db : ClusterDB adb_global := {|
  db_user_get n g := adb_user_get n (adb_ctx g);
  db_user_passwd g u := user_passwd (user (users (adb_ctx g) u));
  db_load := load_data;
  AuthCluster.auth_db_destroy := auth_db_destroy;
|}.
End life.
Arguments adb_global : clear implicits.
End AuthDBLife.
