(* ===== verification/ElectionSpec.v ===== *)
(** * The election: the candidate, the inactive servers, stepping down

    The candidate a server finds does not depend on how the answers are sorted, nor on
    their order; the array of inactive servers is a set of other servers; a master that
    finds too few servers with it is a master no longer. *)
From Stdlib Require Import Init.Byte.
From S2P Require Import Prelude Fastcommon AuthProto ServiceHandler VoteServer VoteClient Election.
Import AuthProto VoteServer VoteClient Election.
Import ServiceHandler(cluster_vars, servers, CLUSTER_MASTER_PTR, CLUSTER_NEXT_MASTER, CLUSTER_MYSELF_PTR,
  MYSELF_IS_MASTER, FCFSAuthClusterServerInfo, server_id, is_online).
Local Open Scope Z_scope.

(** [qsort] sorts, if the comparison is one: it orders the elements of the list. *)
Definition orders {A} (cmp : A → A → Z) (l : list A) : Prop :=
  (∀ a b, a ∈ l → b ∈ l → cmp a b ≤ 0 ∨ cmp b a ≤ 0) ∧
  (∀ a b c, a ∈ l → b ∈ l → c ∈ l → cmp a b ≤ 0 → cmp b c ≤ 0 → cmp a c ≤ 0).
Class QsortLaws `{!Qsort} : Prop := {
  qsort_perm {A} (cmp : A → A → Z) l : qsort cmp l ≡ₚ l;
  qsort_sorted {A} (cmp : A → A → Z) l : orders cmp l → StronglySorted (λ a b, cmp a b ≤ 0) (qsort cmp l);
}.

(** The variables of the cluster are what was written last, and only the functions of
    the election write them; [good] servers stay good. *)
Class ServerLaws (D : Type) `{!Server D} (good : D → Prop) : Prop := {
  vars_set x (d : D) : vars (set_vars x d) = x;
  vars_load (d : D) : vars (load_data d).2 = vars d;
  vars_start (d : D) : vars (start_duties d).2 = vars d;
  vars_end (d : D) : good d → vars (end_duties d) = vars d;
  good_set x (d : D) : good d → good (set_vars x d);
  good_load (d : D) : good d → good (load_data d).2;
  good_start (d : D) : good d → good (start_duties d).2;
  good_end (d : D) : good d → good (end_duties d);
}.

(** Time passes. *)
Class ClusterClock (W : Type) `{!VoteNet W, !ClusterNet W, !Malloc W} : Prop := {
  clock_connect i w : g_current_time w ≤ g_current_time (fc_server_make_connection_ex i w).2;
  clock_vote i w : g_current_time w ≤ g_current_time (fc_server_make_connection i w).2;
  clock_address a w : g_current_time w ≤ g_current_time (conn_pool_connect_server a w).2;
  clock_rand w : g_current_time w ≤ g_current_time (rand w).2;
  clock_close c w : g_current_time w ≤ g_current_time (conn_pool_disconnect_server c w);
  clock_none c x b rc w : g_current_time w ≤ g_current_time (sf_send_and_recv_none_body_response c x b rc w).2;
  clock_response c x b rc n w : g_current_time w ≤ g_current_time (sf_send_and_recv_response c x b rc n w).2;
  clock_header c x b rc w : g_current_time w ≤ g_current_time (sf_send_and_check_response_header c x b rc w).2;
  clock_recv c n w : g_current_time w ≤ g_current_time (tcprecvdata_nb c n w).2;
  clock_malloc n w : g_current_time w ≤ g_current_time (fc_malloc n w).2;
}.

Module ElectionSpec.

(** ** The candidate *)

(** A server is better than another if it is the master and the other is not, or else
    if its id is greater. *)
Definition better (a b : FCFSAuthClusterServerStatus) : bool :=
  if bool_decide (is_master a = is_master b) then status_id b <? status_id a else is_master a.
Definition winner (l : list FCFSAuthClusterServerStatus) : option FCFSAuthClusterServerStatus :=
  foldr (λ a o, match o with
                | None => Some a
                | Some b => Some (if better a b then a else b)
                end) None l.

Definition ids_ok (l : list FCFSAuthClusterServerStatus) : Prop :=
  Forall (λ a, 0 ≤ status_id a < 2 ^ 31) l ∧ NoDup (status_id <$> l).

Lemma cmp_better a b : 0 ≤ status_id a < 2 ^ 31 → 0 ≤ status_id b < 2 ^ 31 →
  cluster_cmp_server_status a b ≤ 0 ↔ better a b = false.
Proof.
  intros Ha Hb. unfold cluster_cmp_server_status, better.
  assert (int32 (status_id a - status_id b) ≤ 0 ↔ (status_id b <? status_id a) = false) as Hid.
  { rewrite Z.ltb_ge. wrap_lia. }
  by destruct (is_master a), (is_master b).
Qed.

Lemma better_asym a b : better a b = true → better b a = false.
Proof.
  unfold better. destruct (is_master a), (is_master b); simpl; rewrite ?Z.ltb_lt, ?Z.ltb_ge; try done; lia.
Qed.
Lemma better_trans a b c : better a b = false → better b c = false → better a c = false.
Proof.
  unfold better. destruct (is_master a), (is_master b), (is_master c); simpl; rewrite ?Z.ltb_ge; try done; lia.
Qed.
Lemma better_id a b : better a b = false → better b a = false → status_id a = status_id b.
Proof.
  unfold better. destruct (is_master a), (is_master b); simpl; rewrite ?Z.ltb_ge; try done; lia.
Qed.

(** One of the list, and none of it is better. *)
Definition best (a : FCFSAuthClusterServerStatus) (l : list FCFSAuthClusterServerStatus) : Prop :=
  a ∈ l ∧ ∀ b, b ∈ l → better b a = false.

Lemma best_unique a b l : NoDup (status_id <$> l) → best a l → best b l → a = b.
Proof.
  intros Hnd [Ha Hba] [Hb Hab]. pose proof (better_id a b (Hab a Ha) (Hba b Hb)) as Hid.
  apply list_elem_of_lookup in Ha as [i Hi], Hb as [j Hj].
  assert (i = j) as ->; [|congruence].
  apply (NoDup_lookup (status_id <$> l) i j (status_id a)); [done|by rewrite list_lookup_fmap, Hi|].
  by rewrite list_lookup_fmap, Hj, Hid.
Qed.

Lemma winner_best l : l ≠ [] → ∃ a, winner l = Some a ∧ best a l.
Proof.
  induction l as [|x l IH]; [done|]. intros _. simpl. destruct (decide (l = [])) as [->|Hl].
  { exists x. split; [done|]. split; [left|]. intros b [->|?%not_elem_of_nil]%elem_of_cons; [|done].
    unfold better. by rewrite bool_decide_true, Z.ltb_irrefl. }
  destruct (IH Hl) as (a & -> & Ha & Hb). eexists. split; [done|]. destruct (better x a) eqn:Ex; split.
  - left.
  - intros b [->|Hin]%elem_of_cons; [unfold better; by rewrite bool_decide_true, Z.ltb_irrefl|].
    eapply better_trans; [by apply Hb|by apply better_asym].
  - by right.
  - intros b [->|Hin]%elem_of_cons; [done|by apply Hb].
Qed.

Section sorting.
Context `{!Qsort, !QsortLaws}.

Lemma cmp_orders l : Forall (λ a, 0 ≤ status_id a < 2 ^ 31) l → orders cluster_cmp_server_status l.
Proof.
  rewrite Forall_forall. intros Hl. split.
  - intros a b Ha Hb. rewrite !cmp_better by auto. destruct (better a b) eqn:E; [|by left].
    right. by apply better_asym.
  - intros a b c Ha Hb Hc. rewrite !cmp_better by auto. apply better_trans.
Qed.

Lemma last_greatest {A} (R : A → A → Prop) (l : list A) a :
  StronglySorted R l → last l = Some a → ∀ b, b ∈ l → b = a ∨ R b a.
Proof.
  intros Hs [l' ->]%last_Some b [Hb|Hb%list_elem_of_singleton]%elem_of_app; [|by left]. right.
  apply StronglySorted_app in Hs as (Hs & _ & _). apply Hs; [done|]. by left.
Qed.

Lemma candidate_best l : ids_ok l → l ≠ [] → ∃ a, last (qsort cluster_cmp_server_status l) = Some a ∧ best a l.
Proof.
  intros [Hids Hnd] Hl. set (q := qsort cluster_cmp_server_status l).
  pose proof (qsort_perm cluster_cmp_server_status l) as Hp. fold q in Hp.
  destruct (last q) as [a|] eqn:Ea.
  2: { apply last_None in Ea. rewrite Ea in Hp. by apply Permutation_nil in Hp. }
  exists a. split; [done|].
  assert (a ∈ l) as Ha by (rewrite <- Hp; apply last_Some in Ea as [l' ->]; set_solver).
  split; [done|]. intros b Hb. rewrite <- Hp in Hb. rewrite Forall_forall in Hids.
  destruct (last_greatest _ q a (qsort_sorted _ l (cmp_orders l ltac:(by apply Forall_forall))) Ea b Hb) as [->|Hc].
  - unfold better. by rewrite bool_decide_true, Z.ltb_irrefl.
  - apply cmp_better in Hc; [done|apply Hids; by rewrite <- Hp|by apply Hids].
Qed.

Lemma candidate_winner l : ids_ok l → last (qsort cluster_cmp_server_status l) = winner l.
Proof.
  intros Hok. destruct (decide (l = [])) as [->|Hl].
  { pose proof (Permutation_nil (symmetry (qsort_perm cluster_cmp_server_status [])))  as ->. done. }
  destruct (candidate_best l Hok Hl) as (a & -> & Ha), (winner_best l Hl) as (b & -> & Hb).
  f_equal. by apply (best_unique a b l (proj2 Hok)).
Qed.

Lemma winner_perm l l' : NoDup (status_id <$> l) → l ≡ₚ l' → winner l = winner l'.
Proof.
  intros Hnd Hp. destruct (decide (l = [])) as [->|Hl].
  { by apply Permutation_nil in Hp as ->. }
  assert (l' ≠ []) as Hl' by (intros ->; by apply Permutation_nil_r in Hp).
  destruct (winner_best l Hl) as (a & -> & Ha), (winner_best l' Hl') as (b & -> & Hb & Hbb).
  f_equal. apply (best_unique a b l Hnd Ha). split; [by rewrite Hp|]. intros c. rewrite Hp. apply Hbb.
Qed.
End sorting.

(** ** The array of inactive servers *)
Section array.
Context {D W : Type} `{!Server D, !ClusterNet W}.
Abbreviation S := (node D W).
Implicit Types s : S.

Definition other (v : cluster_vars) (i : nat) : Prop := (i < length (servers v))%nat ∧ i ≠ CLUSTER_MYSELF_PTR v.
(** Other servers, each once; there is room for all servers. *)
Record inactive_ok s : Prop := {
  ia_nodup : NoDup (inactive s).*1;
  ia_other : Forall (other (cluster s)) (inactive s).*1;
  ia_alloc : alloc s = server_count (cluster s);
}.

Lemma inactive_room i s : inactive_ok s → other (cluster s) i → i ∉ (inactive s).*1 →
  (length (inactive s) < length (servers (cluster s)))%nat.
Proof.
  intros [Hnd Ho _] Hi Hni.
  assert (NoDup (i :: (inactive s).*1)) as Hnd' by (by constructor).
  assert (i :: (inactive s).*1 ⊆+ seq 0 (length (servers (cluster s)))) as Hsub.
  { apply NoDup_submseteq; [done|]. intros j [->|Hj]%elem_of_cons; apply elem_of_seq; [destruct Hi; lia|].
    rewrite Forall_forall in Ho. destruct (Ho j Hj). lia. }
  apply submseteq_length in Hsub. simpl in Hsub. rewrite length_fmap, length_seq in Hsub. lia.
Qed.

Lemma add_inactive i s : inactive_ok s → other (cluster s) i →
  ∃ s', cluster_relationship_add_to_inactive_sarray i s = (Ok tt, s') ∧ data s' = data s ∧ inactive_ok s' ∧
    ∀ j, j ∈ (inactive s').*1 ↔ j = i ∨ j ∈ (inactive s).*1.
Proof.
  intros Hok Hi. unfold cluster_relationship_add_to_inactive_sarray, modify. eexists. split; [done|].
  case_bool_decide as Hin; [naive_solver|].
  pose proof (inactive_room i s Hok Hi Hin). destruct Hok as [Hnd Ho Ha].
  destruct (Z.ltb_spec (Z.of_nat (length (inactive s))) (alloc s)) as [Hlt|Hge].
  2: { rewrite Ha in Hge. unfold server_count in Hge. lia. }
  assert ((inactive s ++ [SET_SERVER_DETECT_ENTRY i s]).*1 = (inactive s).*1 ++ [i]) as Hl by (by rewrite fmap_app).
  split_and!; [done|split; simpl; rewrite ?Hl|simpl; rewrite Hl; set_solver].
  - apply NoDup_app. split_and!; [done|set_solver|apply NoDup_singleton].
  - apply Forall_app. split; [done|]. by constructor.
  - done.
Qed.

Lemma remove_entry_elem i l : NoDup l.*1 →
  NoDup (remove_entry i l).*1 ∧ ∀ j, j ∈ (remove_entry i l).*1 ↔ j ∈ l.*1 ∧ j ≠ i.
Proof.
  induction l as [|[k tm] l IH]; simpl; [by split; [constructor|set_solver]|]. rewrite NoDup_cons. intros [Hk Hnd].
  destruct (IH Hnd) as [Hn He]. case_bool_decide; simpl in *; subst.
  - split; [done|]. intros j. rewrite elem_of_cons. split; [|naive_solver]. intros Hj. split; [by right|]. by intros ->.
  - split; [rewrite NoDup_cons, He; naive_solver|]. intros j. rewrite !elem_of_cons, He. naive_solver.
Qed.

Lemma remove_inactive i s : inactive_ok s →
  ∃ s', cluster_relationship_remove_from_inactive_sarray i s = (Ok tt, s') ∧ data s' = data s ∧ inactive_ok s' ∧
    ∀ j, j ∈ (inactive s').*1 ↔ j ∈ (inactive s).*1 ∧ j ≠ i.
Proof.
  intros [Hnd Ho Ha]. eexists. split; [done|]. destruct (remove_entry_elem i (inactive s) Hnd) as [Hn He].
  split_and!; [done|split; [done| |done]|done]. rewrite Forall_forall in *. intros j [Hj _]%He. by apply Ho.
Qed.

Lemma init_inactive s : alloc s = server_count (cluster s) →
  ∃ s', init_inactive_server_array s = (Ok tt, s') ∧ data s' = data s ∧ inactive_ok s' ∧
    ∀ j, j ∈ (inactive s').*1 ↔ other (cluster s) j.
Proof.
  intros Ha. eexists. split; [done|]. set (l := filter _ _).
  assert (((λ i, SET_SERVER_DETECT_ENTRY i s) <$> l).*1 = l) as Hl.
  { rewrite <- list_fmap_compose. by apply list_fmap_id. }
  assert (∀ j, j ∈ l ↔ other (cluster s) j) as He.
  { intros j. unfold l, other. rewrite list_elem_of_filter, elem_of_seq. naive_solver lia. }
  split_and!; [done| |simpl; rewrite Hl; exact He]. split; simpl; rewrite ?Hl; [|by apply Forall_forall; intros ? ?%He|done].
  apply NoDup_filter, NoDup_seq.
Qed.

(** The array of inactive servers is a set of other servers of the cluster.  Starting it
    gives all others; adding one adds it, for there is always room, and taking one out
    takes it out; each is there at most once. *)
Theorem inactive_array_is_set i s :
  inactive_ok s →
  (∃ s', init_inactive_server_array s = (Ok tt, s') ∧ inactive_ok s' ∧
     ∀ j, j ∈ (inactive s').*1 ↔ other (cluster s) j) ∧
  (other (cluster s) i → ∃ s', cluster_relationship_add_to_inactive_sarray i s = (Ok tt, s') ∧ inactive_ok s' ∧
     ∀ j, j ∈ (inactive s').*1 ↔ j = i ∨ j ∈ (inactive s).*1) ∧
  (∃ s', cluster_relationship_remove_from_inactive_sarray i s = (Ok tt, s') ∧ inactive_ok s' ∧
     ∀ j, j ∈ (inactive s').*1 ↔ j ∈ (inactive s).*1 ∧ j ≠ i).
Proof.
  intros Hok. split_and!.
  - destruct (init_inactive s (ia_alloc s Hok)) as (s' & ? & _ & ?). eauto.
  - intros Hi. destruct (add_inactive i s Hok Hi) as (s' & ? & _ & ?). eauto.
  - destruct (remove_inactive i s Hok) as (s' & ? & _ & ?). eauto.
Qed.
End array.

Section node.
Context `{!BuffCodec, !VoteFrame, !Quorum, !Qsort, !QsortLaws} {D W : Type}.
Context (good : D → Prop) `{!Server D, !ServerLaws D good, !VoteNet W, !ClusterNet W, !Malloc W}.
Abbreviation S := (node D W).
Implicit Types s : S.
Variables (sign : list byte) (vote_server_count : Z) (vote_sign : list byte) (ip_size : Z) (padding : list byte).

(** ** Frames *)
Definition same_data (s s' : S) : Prop := data s' = data s ∧ inactive s' = inactive s ∧ alloc s' = alloc s.
#[local] Instance same_data_preorder : PreOrder same_data.
Proof. split; [by intros s|]. intros s1 s2 s3 (? & ? & ?) (? & ? & ?). unfold same_data. split_and!; congruence. Qed.

Lemma kept_on_net {A} (m : M W A) s : kept same_data (on_net m) s.
Proof. unfold kept, on_net. by destruct (m (net s)). Qed.
#[local] Hint Resolve kept_on_net : kept.

Ltac keep := keep_by ltac:(idtac; lazymatch goal with
  | |- kept _ (modify _) _ => apply kept_modify; solve [repeat split]
  end).

Lemma close_same s : kept same_data close_vote_connection s.
Proof. unfold close_vote_connection. keep. Qed.
Lemma disconnect_same c s : kept same_data (disconnect_server c) s.
Proof. apply kept_on_net. Qed.
#[local] Hint Resolve close_same disconnect_same : kept.
Lemma status_same i s : kept same_data (cluster_get_server_status_ex sign i) s.
Proof. unfold cluster_get_server_status_ex, proto_get_server_status. keep. Qed.
Abbreviation get_vote := (get_vote_server_status (D:=D) (W:=W) sign vote_server_count vote_sign ip_size padding).
Lemma get_vote_same s : kept same_data get_vote s.
Proof. unfold get_vote_server_status. keep. Qed.
#[local] Hint Resolve status_same get_vote_same : kept.
Lemma statuses_same l e s : kept same_data (get_statuses sign l e) s.
Proof. revert e s. induction l as [|i l IH]; intros e s; simpl; keep. Qed.
Lemma vote_check_same s :
  kept same_data (vote_node_active_check vote_server_count vote_sign ip_size padding) s.
Proof. unfold vote_node_active_check. keep. Qed.
#[local] Hint Resolve statuses_same vote_check_same : kept.
Lemma get_master_same s :
  kept same_data (cluster_get_master sign vote_server_count vote_sign ip_size padding) s.
Proof. unfold cluster_get_master. keep. Qed.

(** ** The answers *)
Definition own_status (v : cluster_vars) : FCFSAuthClusterServerStatus :=
  {| cs := Some (CLUSTER_MYSELF_PTR v); is_master := MYSELF_IS_MASTER v; status_id := CLUSTER_MY_SERVER_ID v |}.

Lemma own_answer s :
  cluster_get_server_status_ex sign (CLUSTER_MYSELF_PTR (cluster s)) s = (Ok (own_status (cluster s)), s).
Proof. unfold cluster_get_server_status_ex. erewrite bind_ok by reflexivity. by rewrite bool_decide_true. Qed.

Lemma answer_of i s st s' : cluster_get_server_status_ex sign i s = (Ok st, s') → cs st = Some i.
Proof.
  unfold cluster_get_server_status_ex. erewrite bind_ok by reflexivity. case_bool_decide; [by intros [= <- _]|].
  intros [(? & _ & [=])|(c & s1 & _ & E2)]%bind_inv.
  apply bind_inv in E2 as [(? & _ & [=])|(r & s2 & E2%attempt_inv & E3)].
  apply bind_inv in E3 as [(? & _ & [=])|([] & s3 & _ & [= -> _])].
  unfold proto_get_server_status in E2.
  apply bind_inv in E2 as [(? & _ & [=])|(? & ? & _ & E2)].
  apply bind_inv in E2 as [(? & _ & [=])|(? & ? & _ & E2)].
  apply bind_inv in E2 as [(? & _ & [=])|(? & ? & _ & E2)].
  apply bind_inv in E2 as [(? & _ & [=])|(? & ? & _ & E2)]. by injection E2 as <-.
Qed.

(** The servers of a list are asked one after the other; those that answer. *)
Abbreviation ask i := (cluster_get_server_status_ex (D:=D) (W:=W) sign i).
Inductive asked : list nat → S → list FCFSAuthClusterServerStatus → S → Prop :=
  | asked_all s : asked [] s [] s
  | asked_answer i l s st s1 sts s' :
      ask i s = (Ok st, s1) → asked l s1 sts s' → asked (i :: l) s (st :: sts) s'
  | asked_silent i l s e s1 sts s' :
      ask i s = (Err e, s1) → asked l s1 sts s' → asked (i :: l) s sts s'.

Lemma statuses_asked l e s : ∃ sts e' s', get_statuses sign l e s = (Ok (sts, e'), s') ∧ asked l s sts s'.
Proof.
  revert e s. induction l as [|i l IH]; intros e s; simpl; [eexists [], e, s; split; [done|constructor]|].
  destruct (ask i s) as [[st|x] s1] eqn:E; rewrite (bind_ok _ _ _ _ _ (attempt_eq _ _ _ _ E)).
  - destruct (IH e s1) as (sts & e' & s' & E1 & Ha). rewrite (bind_ok _ _ _ _ _ E1).
    eexists (st :: sts), e', s'. split; [done|by econstructor].
  - destruct (IH (if bool_decide (x = ENOENT) then e else Some x) s1) as (sts & e' & s' & E1 & Ha).
    exists sts, e', s'. split; [done|by econstructor].
Qed.

(** While they are asked, nothing changes in the server that asks. *)
Lemma asked_data l s sts s' : asked l s sts s' → data s' = data s.
Proof.
  induction 1 as [|i l s st s1 sts s' E _ IH|i l s x s1 sts s' E _ IH]; [done|..];
    pose proof (status_same i s) as K; unfold kept in K; rewrite E in K; destruct K as [Hd _]; simpl in Hd; congruence.
Qed.
Lemma asked_elem l s sts s' st :
  asked l s sts s' → st ∈ sts → ∃ i s1 s2, i ∈ l ∧ data s1 = data s ∧ ask i s1 = (Ok st, s2).
Proof.
  induction 1 as [s|i l s x s1 sts s' E _ IH|i l s x s1 sts s' E _ IH]; [by intros ?%not_elem_of_nil|..];
    pose proof (status_same i s) as K; unfold kept in K; rewrite E in K; destruct K as [Hd _]; simpl in Hd.
  - intros [->|Hin]%elem_of_cons; [exists i, s, s1; split_and!; [left|done..]|].
    destruct (IH Hin) as (j & s2 & s3 & ? & ? & ?). exists j, s2, s3. split_and!; [by right|congruence|done].
  - intros Hin. destruct (IH Hin) as (j & s2 & s3 & ? & ? & ?). exists j, s2, s3.
    split_and!; [by right|congruence|done].
Qed.
Lemma asked_cs l s sts s' : asked l s sts s' → cs <$> sts `sublist_of` Some <$> l.
Proof.
  induction 1 as [s|i l s x s1 sts s' E _ IH|i l s x s1 sts s' E _ IH]; [constructor|..]; simpl.
  - rewrite (answer_of _ _ _ _ E). by constructor.
  - by constructor.
Qed.
Lemma asked_own l s sts s' :
  asked l s sts s' → CLUSTER_MYSELF_PTR (cluster s) ∈ l → own_status (cluster s) ∈ sts.
Proof.
  induction 1 as [s|i l s x s1 sts s' E _ IH|i l s x s1 sts s' E _ IH]; [by intros ?%not_elem_of_nil|..];
    pose proof (status_same i s) as K; unfold kept in K; rewrite E in K; destruct K as [Hd _]; simpl in Hd;
    unfold cluster in *; rewrite Hd in IH; pose proof (own_answer s) as Eo; unfold cluster in Eo;
    (intros [<-|Hin]%elem_of_cons; [rewrite E in Eo|]).
  - injection Eo as -> _. left.
  - right. by apply IH.
  - done.
  - by apply IH.
Qed.

(** The answers of an election from [s] on: those of the servers, and after them that of
    the vote node if it is asked, which it is when the number of servers calls for it, and
    answers.  Room for the answers of many servers is allocated first. *)
Definition room s : S :=
  if server_count (cluster s) <? STATUS_ARRAY_FIXED_COUNT then s
  else set_net (fc_malloc (int32 (16 * server_count (cluster s))) (net s)).2 s.
Definition vote_answer s (n : Z) : list FCFSAuthClusterServerStatus :=
  if NEED_REQUEST_VOTE_NODE s n then match (get_vote s).1 with Ok st => [st] | Err _ => [] end else [].
Definition answers s (l : list FCFSAuthClusterServerStatus) : Prop := ∃ sts s1,
  asked (seq 0 (length (servers (cluster s)))) (room s) sts s1 ∧ l = sts ++ vote_answer s1 (Z.of_nat (length sts)).

Abbreviation get_master := (cluster_get_master (D:=D) (W:=W) sign vote_server_count vote_sign ip_size padding).

Lemma room_data s : data (room s) = data s.
Proof. unfold room. by destruct (_ <? _). Qed.

Lemma get_master_answers s st n s' :
  (CLUSTER_MYSELF_PTR (cluster s) < length (servers (cluster s)))%nat →
  get_master s = (Ok (st, n), s') →
  ∃ l, answers s l ∧ n = Z.of_nat (length l) ∧ last (qsort cluster_cmp_server_status l) = Some st.
Proof.
  intros Hme. unfold cluster_get_master. erewrite bind_ok by reflexivity. cbv beta zeta.
  set (m := if _ <? _ then _ else _). intros [(? & _ & [=])|([] & s1 & E1 & E)]%bind_inv.
  assert (s1 = room s) as ->.
  { unfold m, room in *. destruct (_ <? _); [by injection E1|]. unfold on_net in E1.
    destruct (fc_malloc _ _) as [[] w]; simpl in E1; [by injection E1|done]. }
  destruct (statuses_asked (seq 0 (length (servers (cluster s)))) None (room s)) as (sts & e & s2 & E2 & Ha).
  rewrite (bind_ok _ _ _ _ _ E2) in E.
  assert (own_status (cluster (room s)) ∈ sts) as Ho.
  { apply (asked_own _ _ _ _ Ha). unfold cluster. rewrite room_data. apply elem_of_seq. unfold cluster in Hme. lia. }
  rewrite bool_decide_false in E by (intros ->; by apply not_elem_of_nil in Ho).
  erewrite bind_ok in E by reflexivity. cbv beta in E.
  apply bind_inv in E as [(? & _ & [=])|(l & s3 & E3 & E)].
  assert (answers s l) as Hl.
  { exists sts, s2. split; [done|]. unfold vote_answer. destruct (NEED_REQUEST_VOTE_NODE _ _).
    2: { injection E3 as <- _. by rewrite app_nil_r. }
    apply bind_inv in E3 as [(? & _ & [=])|(r & s4 & E3%attempt_inv & E4)]. rewrite E3. simpl.
    injection E4 as <- _. destruct r; [done|by rewrite app_nil_r]. }
  exists l. destruct (last _) as [a|]; [|done]. injection E as -> <- _. auto.
Qed.

(** The servers have ids of their own, each answers with its id, and the vote node, which
    is neither a server nor a master, with zeros. *)
Record identified s : Prop := {
  id_distinct : NoDup (server_id <$> servers (cluster s));
  id_range : Forall (λ x, 0 < server_id x < 2 ^ 31) (servers (cluster s));
  id_answered i s1 st s2 : (i < length (servers (cluster s)))%nat → data s1 = data s →
    ask i s1 = (Ok st, s2) → status_id st = id_of (cluster s) i;
  id_vote s1 st s2 : data s1 = data s → get_vote s1 = (Ok st, s2) → is_master st = false ∧ status_id st = 0;
}.

Lemma id_of_range s i : identified s → (i < length (servers (cluster s)))%nat → 0 < id_of (cluster s) i < 2 ^ 31.
Proof.
  intros Hid [x Hx]%lookup_lt_is_Some_2. unfold id_of. rewrite Hx. simpl.
  pose proof (id_range s Hid) as Hr. rewrite Forall_forall in Hr. by apply Hr, list_elem_of_lookup_2 with i.
Qed.
Lemma asked_ids s sts s1 :
  identified s → asked (seq 0 (length (servers (cluster s)))) (room s) sts s1 →
  ∀ st, st ∈ sts → ∃ i, cs st = Some i ∧ (i < length (servers (cluster s)))%nat ∧ status_id st = id_of (cluster s) i.
Proof.
  intros Hid Ha st Hst. destruct (asked_elem _ _ _ _ _ Ha Hst) as (i & s2 & s3 & Hi & Hd & E).
  apply elem_of_seq in Hi. exists i. split_and!; [by eapply answer_of|lia|].
  eapply (id_answered s Hid i s2); [lia| |done]. by rewrite Hd, room_data.
Qed.
Lemma id_of_inj s i j :
  identified s → (i < length (servers (cluster s)))%nat → (j < length (servers (cluster s)))%nat →
  id_of (cluster s) i = id_of (cluster s) j → i = j.
Proof.
  intros Hid [x Hx]%lookup_lt_is_Some_2 [y Hy]%lookup_lt_is_Some_2. unfold id_of. rewrite Hx, Hy. simpl. intros Hxy.
  apply (NoDup_lookup (server_id <$> servers (cluster s)) i j (server_id x)); [apply Hid|..];
    rewrite list_lookup_fmap; [by rewrite Hx|by rewrite Hy, Hxy].
Qed.

Lemma vote_answer_zero s s1 n st :
  identified s → data s1 = data s → st ∈ vote_answer s1 n →
  cs st = None ∧ is_master st = false ∧ status_id st = 0.
Proof.
  intros Hid Hd. unfold vote_answer. destruct (NEED_REQUEST_VOTE_NODE _ _); [|by intros ?%not_elem_of_nil].
  destruct (get_vote s1) as [[a|] s2] eqn:E; simpl; [|by intros ?%not_elem_of_nil].
  intros ->%list_elem_of_singleton. split; [|by eapply (id_vote s Hid s1)].
  unfold get_vote_server_status in E. erewrite bind_ok in E by reflexivity. cbv beta zeta in E.
  apply bind_inv in E as [(? & _ & [=])|(resp & s5 & _ & [= <- _])]. done.
Qed.
Lemma vote_answer_short s n : (length (vote_answer s n) ≤ 1)%nat.
Proof. unfold vote_answer. destruct (NEED_REQUEST_VOTE_NODE s n); [destruct (get_vote s).1|]; simpl; lia. Qed.

Lemma answers_ids s l : identified s → answers s l → ids_ok l.
Proof.
  intros Hid (sts & s1 & Ha & ->). pose proof (asked_ids s sts s1 Hid Ha) as Hs.
  pose proof (asked_data _ _ _ _ Ha) as Hd. rewrite room_data in Hd.
  pose proof (λ st, vote_answer_zero s s1 (Z.of_nat (length sts)) st Hid Hd) as Hv. split.
  - rewrite Forall_forall. intros st [Hin|Hin]%elem_of_app.
    + destruct (Hs st Hin) as (i & _ & Hi & ->). pose proof (id_of_range s i Hid Hi). lia.
    + destruct (Hv st Hin) as (_ & _ & ->). lia.
  - rewrite fmap_app. apply NoDup_app. split_and!.
    + assert (NoDup (cs <$> sts)) as Hnd.
      { eapply sublist_NoDup; [|by eapply asked_cs]. apply NoDup_fmap_2; [|apply NoDup_seq]. by intros ?? [=]. }
      apply NoDup_fmap_2_strong; [|by eapply NoDup_fmap_1]. intros x y Hx Hy Hxy.
      destruct (Hs x Hx) as (i & Ci & Hi & Ei), (Hs y Hy) as (j & Cj & Hj & Ej).
      assert (i = j) as <- by (apply (id_of_inj s); congruence). apply list_elem_of_lookup in Hx as [p Hp], Hy as [q Hq].
      assert (p = q) as <-; [|congruence].
      apply (NoDup_lookup (cs <$> sts) p q (Some i)); [done|by rewrite list_lookup_fmap, Hp; simpl; rewrite Ci|].
      by rewrite list_lookup_fmap, Hq; simpl; rewrite Cj.
    + intros k (x & -> & Hx)%list_elem_of_fmap (y & Exy & Hy)%list_elem_of_fmap.
      destruct (Hs x Hx) as (i & _ & Hi & Ei), (Hv y Hy) as (_ & _ & Ey).
      pose proof (id_of_range s i Hid Hi). rewrite Ei, Ey in Exy. lia.
    + pose proof (vote_answer_short s1 (Z.of_nat (length sts))) as Hl.
      destruct (vote_answer s1 _) as [|a [|b r]]; simpl in *; [constructor|apply NoDup_singleton|lia].
Qed.

(** C15: the candidate that a server finds is the one among the servers that answer, itself
    and the others, which is a master or else has the greatest id: the same however the
    answers are sorted and in whatever order they come, so that all servers that get
    the same answers agree on it.  The answer of the vote node counts, but the vote node
    is never the candidate.  The ids of the servers differ, and each answers with its own. *)
Theorem candidate_of_answers s st n s' :
  identified s → (CLUSTER_MYSELF_PTR (cluster s) < length (servers (cluster s)))%nat →
  get_master s = (Ok (st, n), s') →
  ∃ l, answers s l ∧ n = Z.of_nat (length l) ∧ own_status (cluster s) ∈ l ∧
    st ∈ l ∧ (∀ b, b ∈ l → b ≠ st → better st b = true) ∧
    (∀ l', l' ≡ₚ l → winner l' = Some st) ∧
    ∃ i, cs st = Some i ∧ (i < length (servers (cluster s)))%nat ∧ status_id st = id_of (cluster s) i.
Proof.
  intros Hid Hme Hg. destruct (get_master_answers s st n s' Hme Hg) as (l & Ha & Hn & Hl).
  exists l. pose proof (answers_ids s l Hid Ha) as Hok. rewrite candidate_winner in Hl by done.
  pose proof Ha as (sts & s1 & Has & Hsl). pose proof (asked_data _ _ _ _ Has) as Hd. rewrite room_data in Hd.
  assert (own_status (cluster s) ∈ sts) as Ho.
  { unfold cluster. rewrite <- room_data. apply (asked_own _ _ _ _ Has). unfold cluster. rewrite room_data.
    apply elem_of_seq. unfold cluster in Hme. lia. }
  assert (own_status (cluster s) ∈ l) as Hol by (rewrite Hsl; apply elem_of_app; by left).
  destruct (winner_best l) as (a & Ha' & Hb); [by intros ->; apply not_elem_of_nil in Hol|].
  rewrite Hl in Ha'. injection Ha' as <-. pose proof Hb as [Hin Hbest]. split_and!; [done..| | |].
  - intros b Hbl Hne. destruct (better st b) eqn:E; [done|]. destruct Hne.
    by apply (best_unique b st l); [apply Hok|split; [done|]; intros c Hc; eapply better_trans; [by apply Hbest|]|].
  - intros l' Hp. rewrite <- Hl. apply winner_perm; [|done]. rewrite Hp. apply Hok.
  - rewrite Hsl in Hin. apply elem_of_app in Hin as [Hin|Hin]; [by eapply asked_ids|].
    destruct (vote_answer_zero s s1 _ st Hid Hd Hin) as (_ & Hm & Hi). specialize (Hbest _ Hol). unfold better in Hbest.
    rewrite Hm, Hi in Hbest. simpl in Hbest. destruct (MYSELF_IS_MASTER _); simpl in Hbest; [done|].
    apply Z.ltb_ge in Hbest. pose proof (id_of_range s _ Hid Hme). unfold CLUSTER_MY_SERVER_ID in Hbest. lia.
Qed.

(** ** Stepping down *)

(** The master pointer is null and the duties of a master are ended. *)
Definition resigned s s' : Prop :=
  data s' = end_duties (set_vars (set_master_ptr None (cluster s)) (data s)) ∧
  (inactive s').*1 = (inactive s).*1.
(** Nothing has changed but the times of the next checks. *)
Definition watched s s' : Prop :=
  data s' = data s ∧ (inactive s').*1 = (inactive s).*1 ∧ alloc s' = alloc s.

Lemma resigned_not_master s s' : good (data s) → resigned s s' → CLUSTER_MASTER_PTR (cluster s') = None.
Proof.
  intros Hg [Hd _]. unfold cluster. rewrite Hd, (vars_end (good:=good)) by (by apply good_set).
  by rewrite (vars_set (good:=good)).
Qed.
Lemma same_watched s s' : same_data s s' → watched s s'.
Proof. intros (? & E & ?). split_and!; [done|by rewrite E|done]. Qed.
Lemma watched_cluster s s' : watched s s' → cluster s' = cluster s.
Proof. intros [Hd _]. unfold cluster. by rewrite Hd. Qed.
Lemma watched_trans s s1 s2 : watched s s1 → watched s1 s2 → watched s s2.
Proof. intros (? & ? & ?) (? & ? & ?). split_and!; congruence. Qed.
Lemma watched_resigned s s1 s2 : watched s s1 → resigned s1 s2 → resigned s s2.
Proof.
  intros Hw [Hd Hi]. pose proof (watched_cluster _ _ Hw) as Hc. destruct Hw as (Hd' & Hi' & _).
  split; [|congruence]. by rewrite Hd, Hc, Hd'.
Qed.

Lemma trigger_resigns s : MYSELF_IS_MASTER (cluster s) = true →
  ∃ s', cluster_relationship_trigger_reselect_master s = (Ok tt, s') ∧ resigned s s'.
Proof.
  intros Hm%bool_decide_eq_true. unfold cluster_relationship_trigger_reselect_master.
  erewrite bind_ok by reflexivity. rewrite bool_decide_false by naive_solver.
  erewrite bind_ok by (unfold cluster_unset_master; by rewrite bool_decide_true). simpl.
  set (s1 := set_cluster _ s). erewrite bind_ok by reflexivity.
  set (m := if NEED_CHECK_VOTE_NODE s1 then _ else _).
  assert (∃ s2, m s1 = (Ok tt, s2) ∧ same_data s1 s2) as (s2 & E & Hd & Hi & _).
  { unfold m. destruct (NEED_CHECK_VOTE_NODE s1); [|by exists s1].
    unfold close_vote_connection. erewrite bind_ok by reflexivity. destruct (VOTE_CONNECTION s1); [|by exists s1].
    unfold on_net, mbind, M_bind. simpl. by eexists. }
  rewrite (bind_ok _ _ _ _ _ E). eexists. split; [done|]. split; simpl; [by rewrite Hd|by rewrite Hi].
Qed.

(** The polls of the master's check, from entry [k] of the array on, at most [n] of them: an
    entry whose time has not come is left alone; of the others the server is asked, and
    the time of its next check set.  The list has the servers that answer as followers. *)
Inductive polled : nat → nat → S → list nat → S → Prop :=
  | polled_end n k s : n = 0%nat ∨ inactive s !! k = None → polled n k s [] s
  | polled_later n k s i tm l s' :
      inactive s !! k = Some (i, tm) → now s < tm →
      polled n (Datatypes.S k) s l s' → polled (Datatypes.S n) k s l s'
  | polled_follower n k s i tm st s1 l s' :
      inactive s !! k = Some (i, tm) → tm ≤ now s → ask i s = (Ok st, s1) → is_master st = false →
      polled n (Datatypes.S k) (set_inactive (<[k := (i, now s1 + 1)]> (inactive s1)) s1) l s' →
      polled (Datatypes.S n) k s (i :: l) s'
  | polled_silent n k s i tm e s1 l s' :
      inactive s !! k = Some (i, tm) → tm ≤ now s → ask i s = (Err e, s1) → e ≠ EEXIST →
      polled n (Datatypes.S k) (set_inactive (<[k := (i, now s1 + 1)]> (inactive s1)) s1) l s' →
      polled (Datatypes.S n) k s l s'.

(** After some of these polls, the time of server [i] has come. *)
Definition next_asked k s i s1 : Prop := ∃ m l tm,
  polled m k s l s1 ∧ inactive s1 !! (k + m)%nat = Some (i, tm) ∧ tm ≤ now s1.

Lemma ask_watched i s : watched s (ask i s).2.
Proof. apply same_watched, status_same. Qed.

Lemma polled_entry s s1 k i tm :
  watched s s1 → inactive s !! k = Some (i, tm) →
  watched s (set_inactive (<[k := (i, now s1 + 1)]> (inactive s1)) s1).
Proof.
  intros (H4 & H5 & H6) Ek. split_and!; [done| |done]. simpl. rewrite list_fmap_insert, H5. simpl.
  apply list_insert_id. by rewrite list_lookup_fmap, Ek.
Qed.
Lemma polled_watched n k s l s' :
  polled n k s l s' → watched s s' ∧ l `sublist_of` drop k (inactive s).*1.
Proof.
  induction 1 as [n k s _|n k s i tm l s' Ek _ _ [IH1 IH2]|n k s i tm st s1 l s' Ek _ E _ _ [IH1 IH2]
                 |n k s i tm e s1 l s' Ek _ E _ _ [IH1 IH2]]; [split; [done|apply sublist_nil_l]|..];
    rewrite (drop_S _ i) by (by rewrite list_lookup_fmap, Ek).
  { split; [done|by constructor]. }
  all: pose proof (ask_watched i s) as Hw; rewrite E in Hw; simpl in Hw;
    pose proof (polled_entry s s1 k i tm Hw Ek) as Hw2; split; [by eapply watched_trans|];
    destruct Hw2 as (_ & Hi & _); rewrite Hi in IH2; by constructor.
Qed.

Lemma next_asked_now k s i tm : inactive s !! k = Some (i, tm) → tm ≤ now s → next_asked k s i s.
Proof. intros Ek Ht. exists 0%nat, [], tm. rewrite Nat.add_0_r. split_and!; [constructor; auto|done..]. Qed.

Lemma brainsplit_rounds n k count s r s' :
  MYSELF_IS_MASTER (cluster s) = true → cluster_check_brainsplit sign n k count s = (r, s') →
  match r with
  | Ok c => ∃ l, polled n k s l s' ∧ c = count - Z.of_nat (length l)
  | Err e => e = EEXIST ∧ ∃ i s1, next_asked k s i s1 ∧
      ((∃ st s2, ask i s1 = (Ok st, s2) ∧ is_master st = true) ∧ resigned s s' ∨ ask i s1 = (Err EEXIST, s'))
  end.
Proof.
  revert k count s. induction n as [|n IH]; intros k count s Hm.
  { intros [= <- <-]. exists []. split; [constructor; auto|simpl; lia]. }
  unfold cluster_check_brainsplit; fold (cluster_check_brainsplit (D:=D) (W:=W) sign).
  erewrite bind_ok by reflexivity. cbv beta. destruct (inactive s !! k) as [[i tm]|] eqn:Ek.
  2: { intros [= <- <-]. exists []. split; [constructor; auto|simpl; lia]. }
  destruct (Z.gtb_spec tm (now s)) as [Ht|Ht].
  { intros Hc. apply IH in Hc; [|done]. destruct r as [c|e].
    - destruct Hc as (l & Hp & ->). exists l. split; [by eapply polled_later|done].
    - destruct Hc as (-> & j & s1 & (m & l & tj & Hp & Ej) & Hc). split; [done|].
      exists j, s1. split; [|done]. exists (Datatypes.S m), l, tj. split; [by eapply polled_later|].
      by replace (k + Datatypes.S m)%nat with (Datatypes.S k + m)%nat by lia. }
  pose proof (ask_watched i s) as Hw. unfold do_check_brainsplit.
  destruct (ask i s) as [[st|x] s1] eqn:E; cbn [snd] in Hw; pose proof (watched_cluster _ _ Hw) as Hcl;
    pose proof (polled_entry s s1 k i tm Hw Ek) as Hw2; pose proof (watched_cluster _ _ Hw2) as Hcl2.
  - destruct (is_master st) eqn:Em.
    { destruct (trigger_resigns s1 ltac:(by rewrite Hcl)) as (s2 & E2 & Hr).
      erewrite bind_ok by (apply attempt_eq; rewrite (bind_ok _ _ _ _ _ E), Em, (bind_ok _ _ _ _ _ E2); reflexivity).
      intros [= <- <-]. split; [done|]. exists i, s.
      split; [by apply next_asked_now with tm|]. left. split; [eauto|by apply (watched_resigned s s1)]. }
    erewrite bind_ok by (apply attempt_eq; rewrite (bind_ok _ _ _ _ _ E), Em; reflexivity).
    rewrite bool_decide_false by done. erewrite bind_ok by reflexivity. intros Hc.
    apply IH in Hc; [|by rewrite Hcl2]. destruct r as [c|e].
    + destruct Hc as (l & Hp & ->). exists (i :: l). split; [by eapply polled_follower|simpl; lia].
    + destruct Hc as (-> & j & s2 & (m & l & tj & Hp & Ej) & Hc). split; [done|]. exists j, s2. split.
      { exists (Datatypes.S m), (i :: l), tj. split; [by eapply polled_follower|].
        by replace (k + Datatypes.S m)%nat with (Datatypes.S k + m)%nat by lia. }
      destruct Hc as [[? ?]|?]; [left|by right]. split; [done|by eapply watched_resigned].
  - erewrite bind_ok by (apply attempt_eq; rewrite (bind_err _ _ _ _ _ E); reflexivity).
    case_bool_decide as He.
    { intros [= <- <-]. split; [done|]. injection He as ->. exists i, s.
      split; [by apply next_asked_now with tm|by right]. }
    erewrite bind_ok by reflexivity. intros Hc. assert (x ≠ EEXIST) as Hx by congruence.
    apply IH in Hc; [|by rewrite Hcl2]. destruct r as [c|e].
    + destruct Hc as (l & Hp & ->). exists l. split; [by eapply polled_silent|done].
    + destruct Hc as (-> & j & s2 & (m & l & tj & Hp & Ej) & Hc). split; [done|]. exists j, s2. split.
      { exists (Datatypes.S m), l, tj. split; [by eapply polled_silent|].
        by replace (k + Datatypes.S m)%nat with (Datatypes.S k + m)%nat by lia. }
      destruct Hc as [[? ?]|?]; [left|by right]. split; [done|by eapply watched_resigned].
Qed.

Abbreviation check := (master_check (D:=D) (W:=W) sign vote_server_count vote_sign ip_size padding).

(** The vote node is with the master: it is needed and has acknowledged that the master is
    alive.  It counts for nothing when it is not needed or could not be reached. *)
Definition vote_counted s (vote : bool) s1 : Prop :=
  if vote then NEED_CHECK_VOTE_NODE s = true ∧
               vote_node_active_check vote_server_count vote_sign ip_size padding s = (Ok tt, s1)
  else NEED_CHECK_VOTE_NODE s = false ∧ s1 = s ∨
       ∃ e, vote_node_active_check vote_server_count vote_sign ip_size padding s = (Err e, s1) ∧
            e ≠ SF_CLUSTER_ERROR_LEADER_INCONSISTENT.

Lemma check_vote_node_ok s r s' :
  MYSELF_IS_MASTER (cluster s) = true →
  check_vote_node vote_server_count vote_sign ip_size padding s = (r, s') →
  match r with
  | Ok vote => watched s s' ∧ vote_counted s vote s'
  | Err e => e = EBUSY ∧ resigned s s'
  end.
Proof.
  intros Hm. unfold check_vote_node. erewrite bind_ok by reflexivity. destruct (NEED_CHECK_VOTE_NODE s) eqn:En.
  2: { intros [= <- <-]. split; [done|by left]. }
  pose proof (vote_check_same s) as K. unfold kept in K.
  destruct (vote_node_active_check vote_server_count vote_sign ip_size padding s) as [r1 s1] eqn:E. simpl in K. apply same_watched in K.
  rewrite (bind_ok _ _ _ _ _ (attempt_eq _ _ _ _ E)). destruct r1 as [[]|e]; [by intros [= <- <-]|].
  case_bool_decide; [|intros [= <- <-]; split; [done|right; eauto]]. rewrite <- (watched_cluster _ _ K) in Hm.
  destruct (trigger_resigns s1 Hm) as (s2 & E2 & Hr). rewrite (bind_ok _ _ _ _ _ E2). intros [= <- <-].
  split; [done|by apply (watched_resigned s s1)].
Qed.

(** C14: the check of a master succeeds only when enough servers are with it: those that
    are not in the array of inactive servers, those of the array that this check asked
    and that answered as followers, and the vote node if it is needed and this check had
    its acknowledgement; then nothing has changed.  When it fails, the server is no
    longer the master and has ended the duties of one, because too few were with it, the
    vote node had another leader or a server that it asked is a master too; unless a
    server that it asked answered with the error [EEXIST], which the code takes for a
    second master. *)
Theorem master_check_correct s r s' :
  good (data s) → MYSELF_IS_MASTER (cluster s) = true → check s = (r, s') →
  match r with
  | Ok _ =>
      data s' = data s ∧
      ∃ vote s1 l, vote_counted s vote s1 ∧ polled (length (inactive s)) 0 s1 l s' ∧
        l `sublist_of` (inactive s).*1 ∧
        (inactive s = [] ∨
         quorum_check s (server_count (cluster s) - Z.of_nat (length (inactive s)) + Z.of_nat (length l) +
                         Z.b2z vote) = true)
  | Err e =>
      e = EBUSY ∧ resigned s s' ∧ CLUSTER_MASTER_PTR (cluster s') = None ∨
      e = EEXIST ∧ ∃ vote s1 i s2, vote_counted s vote s1 ∧ next_asked 0 s1 i s2 ∧
        ((∃ st s3, ask i s2 = (Ok st, s3) ∧ is_master st = true) ∧
         resigned s s' ∧ CLUSTER_MASTER_PTR (cluster s') = None ∨
         ask i s2 = (Err EEXIST, s'))
  end.
Proof.
  intros Hg Hm. unfold master_check.
  destruct (check_vote_node vote_server_count vote_sign ip_size padding s) as [r1 s1] eqn:E1. pose proof (check_vote_node_ok s r1 s1 Hm E1) as H1'.
  destruct r1 as [vote|e].
  2: { rewrite (bind_err _ _ _ _ _ E1). intros [= <- <-]. destruct H1' as [-> Hr]. left. split_and!; [done..|].
       by apply (resigned_not_master s). }
  destruct H1' as [H1' Hv]. rewrite (bind_ok _ _ _ _ _ E1). erewrite bind_ok by reflexivity. cbv zeta beta.
  pose proof (watched_cluster _ _ H1') as Hc1. pose proof H1' as (Hd1 & Hi1 & _).
  assert (length (inactive s1) = length (inactive s)) as Hlen by (by rewrite <- !(length_fmap fst), Hi1).
  destruct (Nat.ltb_spec 0 (length (inactive s1))) as [Hpos|Hz].
  2: { intros [= <- <-]. split; [done|]. assert (length (inactive s) = 0)%nat as Hz' by lia.
       exists vote, s1, []. rewrite Hz'. split_and!; [done|constructor; auto|apply sublist_nil_l|].
       left. by apply length_zero_iff_nil. }
  rewrite Hlen.
  destruct (cluster_check_brainsplit sign (length (inactive s)) 0 (Z.of_nat (length (inactive s))) s1)
    as [r2 s2] eqn:E2.
  pose proof (brainsplit_rounds _ _ _ s1 r2 s2 ltac:(by rewrite Hc1) E2) as H2'.
  destruct r2 as [c|e].
  2: { rewrite (bind_err _ _ _ _ _ E2). intros [= <- <-]. destruct H2' as (-> & i & s3 & Hn & H2'). right.
       split; [done|]. exists vote, s1, i, s3. split_and!; [done..|]. destruct H2' as [[H2' Hr]|]; [left|by right].
       split_and!; [done|by apply (watched_resigned s s1)|apply (resigned_not_master s1); [by rewrite Hd1|done]]. }
  destruct H2' as (l & Hp & ->). pose proof (polled_watched _ _ _ _ _ Hp) as [Hw2 Hs].
  rewrite (bind_ok _ _ _ _ _ E2). erewrite bind_ok by reflexivity.
  cbv beta. pose proof (watched_trans _ _ _ H1' Hw2) as Hw. pose proof (watched_cluster _ _ Hw) as Hc2.
  assert (∀ n, quorum_check s2 n = quorum_check s n) as Hq by (intros n; unfold quorum_check; by rewrite Hc2).
  rewrite Hq, Hc2. rewrite drop_0, Hi1 in Hs.
  destruct (quorum_check s _) eqn:Eq.
  - intros [= <- <-]. split; [apply Hw|]. exists vote, s1, l. split_and!; [done..|]. right.
    rewrite <- Eq. f_equal. lia.
  - destruct (trigger_resigns s2 ltac:(by rewrite Hc2)) as (s3 & E3 & Hr). rewrite (bind_ok _ _ _ _ _ E3).
    intros [= <- <-]. left.
    split_and!; [done|by apply (watched_resigned s s2)|apply (resigned_not_master s2); [|done]].
    by destruct Hw as [-> _].
Qed.
(** ** The election ends *)
Section ends.
Context `{!ClusterClock W}.

Definition later (w w' : W) : Prop := g_current_time w ≤ g_current_time w'.
#[local] Instance later_preorder : PreOrder later.
Proof. split; [by intros w; unfold later|]. unfold later. intros w1 w2 w3. lia. Qed.
Definition not_before s s' : Prop := now s ≤ now s'.
#[local] Instance not_before_preorder : PreOrder not_before.
Proof. split; [by intros s; unfold not_before|]. unfold not_before. intros s1 s2 s3. lia. Qed.

Lemma later_connect i w : kept later (fc_server_make_connection_ex i) w.
Proof. apply clock_connect. Qed.
Lemma later_vote i w : kept later (fc_server_make_connection i) w.
Proof. apply clock_vote. Qed.
Lemma later_address x w : kept later (conn_pool_connect_server x) w.
Proof. apply clock_address. Qed.
Lemma later_close c w : kept later (disconnect c) w.
Proof. apply clock_close. Qed.
Lemma later_none c x b rc w : kept later (sf_send_and_recv_none_body_response c x b rc) w.
Proof. apply clock_none. Qed.
Lemma later_response c x b rc n w : kept later (sf_send_and_recv_response c x b rc n) w.
Proof. apply clock_response. Qed.
Lemma later_header c x b rc w : kept later (sf_send_and_check_response_header c x b rc) w.
Proof. apply clock_header. Qed.
Lemma later_recv c n w : kept later (tcprecvdata_nb c n) w.
Proof. apply clock_recv. Qed.
#[local] Hint Resolve later_connect later_vote later_address later_close later_none later_response later_header later_recv : kept.
Lemma later_malloc n w : kept later (λ w, let '(ok, w) := fc_malloc n w in ensure ok ENOMEM w) w.
Proof. unfold kept, later. pose proof (clock_malloc n w) as Hc. by destruct (fc_malloc n w) as [[] w']. Qed.
#[local] Hint Resolve later_malloc : kept.
Ltac keep_time := keep_by ltac:(idtac; fail).

Lemma later_try fuel i k e w : kept later (try_servers vote_server_count fuel i k e) w.
Proof. revert i e w. induction fuel as [|fuel IH]; intros i e w; simpl; keep_time. Qed.
#[local] Hint Resolve later_try : kept.
Lemma later_get_vote r p sg w :
  kept later (fcfs_vote_client_get_vote_ex vote_server_count vote_sign ip_size r p sg None 8) w.
Proof.
  unfold fcfs_vote_client_get_vote_ex, fcfs_vote_client_join_ex, vote_client_proto_get_master_connection_ex,
    get_connection, vote_client_proto_join_ex, vote_client_proto_get_vote_ex, vote_client_proto_close_connection_ex.
  keep_time. unfold kept, later. pose proof (clock_rand w). by destruct (rand w).
Qed.
#[local] Hint Resolve later_get_vote : kept.

Lemma not_before_net {A} (m : M W A) s : kept later m (net s) → kept not_before (on_net m) s.
Proof. unfold kept, on_net, not_before, now, later. by destruct (m (net s)). Qed.
Ltac keep_now := keep_by ltac:(idtac; lazymatch goal with
  | |- kept _ (on_net _) _ => apply not_before_net; keep_time
  | |- kept _ (disconnect_server _) _ => apply not_before_net; keep_time
  | |- kept _ (modify _) _ => apply kept_modify; solve [unfold not_before, now; simpl; lia]
  end).

Lemma status_now i s : kept not_before (cluster_get_server_status_ex sign i) s.
Proof. unfold cluster_get_server_status_ex, proto_get_server_status. keep_now. Qed.
#[local] Hint Resolve status_now : kept.
Lemma statuses_now l e s : kept not_before (get_statuses sign l e) s.
Proof. revert e s. induction l as [|i l IH]; intros e s; simpl; keep_now. Qed.
#[local] Hint Resolve statuses_now : kept.
Lemma get_master_now s : kept not_before get_master s.
Proof.
  unfold cluster_get_master, get_vote_server_status, close_vote_connection, vote_client_proto_close_connection_ex,
    vote_client_proto_get_vote_ex. keep_now.
Qed.

(** What happens in a sleep is up to the others, but it takes the time.  Enough servers
    answer in the states [alive]. *)
Variables (sleep : Z → S → S) (max_wait : Z) (alive : S → Prop).
Hypothesis sleep_now : ∀ n s, now s + n ≤ now (sleep n s).
Hypothesis sleep_alive : ∀ n s, alive s → alive (sleep n s).
Hypothesis enough : ∀ s st n s', alive s → get_master s = (Ok (st, n), s') → alive s' ∧ quorum_check s' n = true.
Abbreviation rounds := (select_rounds (D:=D) (W:=W) sign vote_server_count vote_sign ip_size padding sleep max_wait).

(** The rounds end because there is a master, or with the candidate of a round that had
    enough servers, or with the error of a round. *)
Definition outcome (r : result (option FCFSAuthClusterServerStatus)) s' : Prop :=
  match r with
  | Ok None => CLUSTER_MASTER_PTR (cluster s') ≠ None
  | Ok (Some st) => ∃ s1 n, get_master s1 = (Ok (st, n), s') ∧ quorum_check s' n = true
  | Err e => ∃ s1, get_master s1 = (Err e, s')
  end.

Lemma rounds_end fuel start i secs s :
  alive s → 1 ≤ secs → Z.max 0 (max_wait - (now s - start)) + 1 ≤ Z.of_nat fuel →
  ∃ r s', rounds fuel start i secs s = (r, s') ∧ outcome r s'.
Proof.
  revert i secs s. induction fuel as [|fuel IH]; intros i secs s Hal Hsecs Hf; [lia|].
  unfold select_rounds; fold rounds. erewrite bind_ok by reflexivity.
  destruct (CLUSTER_MASTER_PTR (cluster s)) eqn:Em.
  { eexists _, _. split; [done|]. simpl. by rewrite Em. }
  destruct (get_master s) as [[[st n]|e] s1] eqn:Eg.
  2: { rewrite (bind_err _ _ _ _ _ Eg). eexists _, _. split; [done|]. by exists s. }
  rewrite (bind_ok _ _ _ _ _ Eg). erewrite bind_ok by reflexivity. cbv beta zeta.
  destruct (enough _ _ _ _ Hal Eg) as [Hal1 Hq]. rewrite Hq. cbn [negb].
  assert (outcome (Ok (Some st)) s1) as Hout by (by exists s, n).
  pose proof (get_master_now s) as Hn. unfold kept, not_before in Hn. rewrite Eg in Hn. cbn [snd] in Hn.
  destruct (_ || _); [by eexists _, _|].
  destruct (Z.leb_spec (max_wait - (now s1 - start)) 0); [by eexists _, _|].
  erewrite bind_ok by reflexivity. set (k := Z.min _ secs). pose proof (sleep_now k s1) as Hs.
  apply IH; [by apply sleep_alive|destruct (_ && _); lia|lia].
Qed.

(** C16: as long as enough servers answer, an election comes to an end: after at most as many
    rounds as seconds are allowed for waiting, the server knows a master, or has the
    candidate of a round that had enough servers, or a round has failed. *)
Theorem election_ends fuel s :
  alive s → Z.max 0 max_wait + 1 ≤ Z.of_nat fuel →
  ∃ r s', rounds fuel (now s) 0 1 s = (r, s') ∧ outcome r s'.
Proof. intros Hal Hf. apply rounds_end; [done|lia..]. Qed.
End ends.

(** ** The thread keeps the array *)
Section thread.
Variables (total me : nat).
Definition node_ok s : Prop := good (data s) ∧ inactive_ok s ∧
  length (servers (cluster s)) = total ∧ CLUSTER_MYSELF_PTR (cluster s) = me.
Definition node_keeps s s' : Prop := node_ok s → node_ok s'.
#[local] Instance node_keeps_preorder : PreOrder node_keeps.
Proof. split; [by intros s Hs|]. intros s1 s2 s3 H12 H23 Hs. auto. Qed.

(** A change of the data that keeps the servers, and of the times in the array. *)
Lemma node_ok_change s s' :
  node_ok s → good (data s') → length (servers (cluster s')) = length (servers (cluster s)) →
  CLUSTER_MYSELF_PTR (cluster s') = CLUSTER_MYSELF_PTR (cluster s) → (inactive s').*1 = (inactive s).*1 →
  alloc s' = alloc s → node_ok s'.
Proof.
  intros (_ & [Hnd Ho Ha] & Hcount & Hself) Hg Hl Hme Hi Hal. split_and!; [done| |congruence..].
  split; rewrite ?Hi; [done| |].
  - eapply Forall_impl; [exact Ho|]. intros j. unfold other. by rewrite Hl, Hme.
  - unfold server_count in *. by rewrite Hal, Hl.
Qed.
Lemma keeps_same s s' : same_data s s' → node_keeps s s'.
Proof.
  intros (Hd & Hi & Ha) Hs. eapply node_ok_change; [exact Hs|by rewrite Hd; apply Hs|..]; unfold cluster; by rewrite ?Hd, ?Hi.
Qed.
Lemma keeps_kept {A} (m : M S A) s : kept same_data m s → kept node_keeps m s.
Proof. apply keeps_same. Qed.
Lemma keeps_cluster f s :
  (∀ v, CLUSTER_MYSELF_PTR (f v) = CLUSTER_MYSELF_PTR v ∧ servers (f v) = servers v) →
  node_keeps s (set_cluster (f (cluster s)) s).
Proof.
  intros Hf Hs. destruct (Hf (cluster s)) as [F1 F2].
  assert (cluster (set_cluster (f (cluster s)) s) = f (cluster s)) as Hc by (unfold cluster; simpl; by rewrite (vars_set (good:=good))).
  eapply node_ok_change; [exact Hs|simpl; by apply good_set, Hs|rewrite Hc, F2|rewrite Hc, F1|..]; done.
Qed.
Lemma keeps_data d s : good d → vars d = vars (data s) → node_keeps s (set_data d s).
Proof. intros Hg Hv Hs. eapply node_ok_change; [exact Hs|done|unfold cluster; simpl; by rewrite Hv..|done|done]. Qed.
Lemma keeps_load s : kept node_keeps (on_data load_data) s.
Proof.
  intros Hs. unfold on_data. pose proof (vars_load (good:=good) (data s)) as Hv.
  pose proof (good_load (data s) (proj1 Hs)) as Hg. destruct (load_data (data s)) as [r d]. by apply (keeps_data d s).
Qed.
Lemma keeps_start s : kept node_keeps (on_data start_duties) s.
Proof.
  intros Hs. unfold on_data. pose proof (vars_start (good:=good) (data s)) as Hv.
  pose proof (good_start (data s) (proj1 Hs)) as Hg. destruct (start_duties (data s)) as [r d]. by apply (keeps_data d s).
Qed.
Lemma keeps_end s : kept node_keeps (modify (λ s, set_data (end_duties (data s)) s)) s.
Proof.
  intros Hs. apply (keeps_data (end_duties (data s)) s); [by apply good_end, Hs|by apply (vars_end (good:=good)), Hs|done].
Qed.
Lemma keeps_net {A} (m : M W A) s : kept node_keeps (on_net m) s.
Proof. apply keeps_kept, kept_on_net. Qed.
Lemma keeps_unset m s : kept node_keeps (cluster_unset_master m) s.
Proof.
  unfold kept, cluster_unset_master. case_bool_decide; [|by intros Hs]. by apply (keeps_cluster (set_master_ptr None)).
Qed.
#[local] Hint Resolve keeps_load keeps_start keeps_end keeps_net keeps_unset : kept.
Ltac keep_node := keep_by ltac:(idtac; lazymatch goal with
  | |- kept _ (change_cluster _) _ => apply keeps_cluster; solve [by intros]
  | |- kept _ (modify _) _ => apply kept_modify, keeps_same; solve [repeat split]
  end).

Lemma keeps_trigger s : kept node_keeps cluster_relationship_trigger_reselect_master s.
Proof. unfold cluster_relationship_trigger_reselect_master, close_vote_connection. keep_node. Qed.
Lemma keeps_init s : kept node_keeps init_inactive_server_array s.
Proof.
  intros (Hg & Hok & Hc). destruct (init_inactive s (ia_alloc s Hok)) as (s' & E & Hd & Hok' & _). rewrite E.
  unfold node_ok, cluster. simpl. by rewrite Hd.
Qed.
Lemma keeps_status i s : kept node_keeps (cluster_get_server_status_ex sign i) s.
Proof. apply keeps_kept, status_same. Qed.
#[local] Hint Resolve keeps_trigger keeps_init keeps_status : kept.

Definition same_entries s s' : Prop := (inactive s').*1 = (inactive s).*1.
#[local] Instance same_entries_preorder : PreOrder same_entries.
Proof. split; [by intros s|]. unfold same_entries. intros s1 s2 s3. congruence. Qed.
Lemma entries_net {A} (m : M W A) s : kept same_entries (on_net m) s.
Proof. unfold kept, on_net. by destruct (m (net s)). Qed.
Lemma entries_unset m s : kept same_entries (cluster_unset_master m) s.
Proof. unfold kept, cluster_unset_master. by case_bool_decide. Qed.
Lemma entries_status i s : kept same_entries (cluster_get_server_status_ex sign i) s.
Proof. pose proof (status_same i s) as (_ & Hi & _). unfold kept, same_entries. by rewrite Hi. Qed.
#[local] Hint Resolve entries_net entries_unset entries_status : kept.
Lemma entries_check i s : kept same_entries (do_check_brainsplit sign i) s.
Proof.
  unfold do_check_brainsplit, cluster_relationship_trigger_reselect_master, close_vote_connection.
  keep_by ltac:(idtac; lazymatch goal with |- kept _ (modify _) _ => apply kept_modify; solve [done] end).
Qed.

Lemma keeps_check i s : kept node_keeps (do_check_brainsplit sign i) s.
Proof. unfold do_check_brainsplit. keep_node. Qed.
Lemma keeps_brainsplit n k count s : kept node_keeps (cluster_check_brainsplit sign n k count) s.
Proof.
  revert k count s. induction n as [|n IH]; intros k count s; [apply kept_ret; apply _|].
  unfold cluster_check_brainsplit; fold (cluster_check_brainsplit (D:=D) (W:=W) sign).
  apply kept_bind; [apply _|keep_node|]. intros s1 s2 [= <- <-].
  destruct (inactive s !! k) as [[i tm]|] eqn:Ek; [|keep_node]. destruct (tm >? now s); [apply IH|].
  apply kept_bind; [apply _|apply kept_attempt, keeps_check|]. intros r s1 Er%attempt_inv.
  case_bool_decide; [keep_node|].
  apply kept_bind; [apply _| |intros [] s2 _; apply IH].
  pose proof (entries_check i s) as He. unfold kept, same_entries in He. rewrite Er in He. simpl in He.
  assert ((inactive s1).*1 !! k = Some i) as Hk by (rewrite He, list_lookup_fmap; by rewrite Ek).
  intros Hs. eapply node_ok_change; [exact Hs|apply Hs|done|done| |done]. simpl.
  rewrite list_fmap_insert. simpl. by apply list_insert_id.
Qed.
#[local] Hint Resolve keeps_brainsplit : kept.

Lemma keeps_master_check s : kept node_keeps check s.
Proof. unfold master_check, check_vote_node, vote_node_active_check, close_vote_connection. keep_node. Qed.
Lemma keeps_get_master s : kept node_keeps get_master s.
Proof. apply keeps_kept, get_master_same. Qed.
Lemma keeps_pre_set m s : kept node_keeps (cluster_relationship_pre_set_master m) s.
Proof. unfold cluster_relationship_pre_set_master. keep_node. Qed.
Lemma keeps_set_master m s : kept node_keeps (cluster_relationship_set_master m) s.
Proof. unfold cluster_relationship_set_master, or_terminate. keep_node. Qed.
#[local] Hint Resolve keeps_master_check keeps_get_master keeps_pre_set keeps_set_master : kept.
Lemma keeps_commit m s : kept node_keeps (cluster_relationship_commit_master m) s.
Proof. unfold cluster_relationship_commit_master. keep_node. Qed.
#[local] Hint Resolve keeps_commit : kept.
Lemma keeps_notify_pre i m s : kept node_keeps (cluster_pre_set_next_master i m) s.
Proof. unfold cluster_pre_set_next_master, do_notify_master_changed, disconnect_server. keep_node. Qed.
Lemma keeps_notify_commit i m s : kept node_keeps (cluster_commit_next_master i m) s.
Proof. unfold cluster_commit_next_master, do_notify_master_changed, disconnect_server. keep_node. Qed.
Lemma keeps_notify_servers f m l b n s :
  (∀ i s, kept node_keeps (f i m) s) → kept node_keeps (notify_servers f m l b n) s.
Proof. intros Hf. revert b n s. induction l as [|i l IH]; intros b n s; simpl; keep_node. Qed.
Lemma keeps_notify_next f m x b s :
  (∀ i s, kept node_keeps (f i m) s) →
  kept node_keeps (notify_next_master vote_server_count vote_sign ip_size padding f m x b) s.
Proof. intros Hf. unfold notify_next_master, notify_vote_next_leader. keep_node. by apply keeps_notify_servers. Qed.

Variables (sleep : Z → S → S) (max_wait : Z).
Abbreviation rounds := (select_rounds (D:=D) (W:=W) sign vote_server_count vote_sign ip_size padding sleep max_wait).
Hypothesis sleep_keeps : ∀ n s, node_ok s → node_ok (sleep n s).
Lemma keeps_rounds fuel start k secs s : kept node_keeps (rounds fuel start k secs) s.
Proof.
  revert k secs s. induction fuel as [|fuel IH]; intros k secs s; simpl;
    keep_by ltac:(idtac; lazymatch goal with |- kept _ (modify (sleep _)) _ => apply kept_modify; intros Hs; by apply sleep_keeps end).
Qed.
#[local] Hint Resolve keeps_rounds : kept.
Lemma keeps_select fuel b s :
  kept node_keeps (cluster_select_master sign vote_server_count vote_sign ip_size padding sleep max_wait fuel b) s.
Proof.
  unfold cluster_select_master, cluster_notify_master_changed.
  keep_node; apply keeps_notify_next; intros i s1; [apply keeps_notify_pre|apply keeps_notify_commit].
Qed.
#[local] Hint Resolve keeps_select : kept.

(** A turn of the election thread. *)
Lemma keeps_turn lost fuel b pad tv s :
  kept node_keeps (cluster_thread_turn sign vote_server_count vote_sign ip_size padding sleep max_wait lost fuel b pad tv) s.
Proof.
  unfold cluster_thread_turn, cluster_ping_master, proto_join_master, proto_ping_master, random_sleep, disconnect_server.
  keep_node.
Qed.
End thread.
End node.
End ElectionSpec.
