(* ===== verification/ElectionExamples.v ===== *)
(** * Elections at work

    Three servers over a network that is up or down: the theorems on the candidate, on
    the check of the master and on the end of an election applied to them. *)
From Stdlib Require Import Init.Byte.
From S2P Require Import Prelude Fastcommon AuthProto ServiceHandler VoteServer VoteClient VoteSpec VoteExamples Election ElectionSpec.
Import AuthProto VoteServer VoteClient Election ElectionSpec.
Import ServiceHandler(cluster_vars, servers, CLUSTER_MASTER_PTR, CLUSTER_NEXT_MASTER, CLUSTER_MYSELF_PTR,
  MYSELF_IS_MASTER, FCFSAuthClusterServerInfo, server_id, service_ip, service_port, is_online).
Import Ref.
Local Open Scope Z_scope.

Module ElectionExamples.
#[local] Existing Instance VoteExamples.vote_frame.

(** ** Majorities, sorting by insertion *)
#[export] Instance majority : Quorum := {|
  sf_election_quorum_check _ total active := total <? 2 * active;
  SF_ELECTION_QUORUM_NEED_REQUEST_VOTE_NODE vote total active := vote && (2 * active =? total);
  SF_ELECTION_QUORUM_NEED_CHECK_VOTE_NODE vote total := vote && Z.even total;
|}.

Fixpoint insert {A} (cmp : A → A → Z) (a : A) (l : list A) : list A :=
  match l with
  | [] => [a]
  | b :: l => if cmp a b <=? 0 then a :: b :: l else b :: insert cmp a l
  end.
#[export] Instance insertion_sort : Qsort := {| qsort A cmp l := foldr (insert cmp) [] l |}.

Lemma insert_perm {A} (cmp : A → A → Z) a l : insert cmp a l ≡ₚ a :: l.
Proof.
  induction l as [|b l IH]; [done|]. simpl. destruct (_ <=? 0); [done|]. rewrite IH. apply Permutation_swap.
Qed.
Lemma foldr_perm {A} (cmp : A → A → Z) l : foldr (insert cmp) [] l ≡ₚ l.
Proof. induction l as [|a l IH]; [done|]. simpl. by rewrite insert_perm, IH. Qed.
Lemma insert_sorted {A} (cmp : A → A → Z) a l :
  orders cmp (a :: l) → StronglySorted (λ a b, cmp a b ≤ 0) l →
  StronglySorted (λ a b, cmp a b ≤ 0) (insert cmp a l).
Proof.
  intros [Htot Htr]. induction l as [|b l IH]; intros Hs; [repeat constructor|].
  apply StronglySorted_inv in Hs as [Hs Hb]. simpl. destruct (Z.leb_spec (cmp a b) 0) as [Hab|Hab].
  - constructor; [by constructor|]. constructor; [done|]. rewrite Forall_forall in *. intros x Hx.
    apply (Htr a b x); [set_solver..|done|by apply Hb].
  - constructor.
    + apply IH; [| |done]; [intros x y Hx Hy; apply Htot; set_solver|].
      intros x y z Hx Hy Hz. apply Htr; set_solver.
    + rewrite insert_perm. constructor; [|done].
      destruct (Htot a b); [set_solver..|lia|done].
Qed.
#[export] Instance insertion_sort_laws : QsortLaws.
Proof.
  split.
  - intros A cmp l. apply foldr_perm.
  - intros A cmp l. simpl. induction l as [|a l IH]; intros [Htot Htr]; [constructor|]. simpl.
    assert (∀ x, x ∈ a :: foldr (insert cmp) [] l → x ∈ a :: l) as Hin by (intros x; by rewrite foldr_perm).
    apply insert_sorted; [|apply IH]; split.
    + intros x y Hx%Hin Hy%Hin. by apply Htot.
    + intros x y z Hx%Hin Hy%Hin Hz%Hin. by apply Htr.
    + intros x y Hx Hy. apply Htot; set_solver.
    + intros x y z Hx Hy Hz. apply Htr; set_solver.
Qed.

(** ** Three servers *)
#[export] Instance plain_server : Server cluster_vars := {|
  vars v := v; set_vars v _ := v; load_data := mret tt; start_duties := mret tt; end_duties v := v;
  VOTE_NODE_ENABLED := false; check_fail_sleep := 0;
|}.
#[export] Instance plain_server_laws : ServerLaws cluster_vars (λ _, True).
Proof. by split. Qed.

(** A network on which every server answers that it is a follower, or none does. *)
Record world := { time : Z; up : bool; asked : Z }.
#[export] Instance world_votes : VoteNet world := {|
  rand w := (0, w);
  fc_server_make_connection _ w := (Err EIO, w);
  conn_pool_connect_server _ w := (Err EIO, w);
  conn_pool_disconnect_server _ w := w;
  FC_CONNECTION_SERVER_EQUAL1 _ _ _ := true;
  sf_send_and_recv_response _ _ _ _ _ w := (Err EIO, w);
  sf_send_and_recv_none_body_response _ _ _ _ w := (Ok tt, w);
  sf_send_and_check_response_header c _ _ _ w := (Ok 8, {| time := time w; up := up w; asked := Z.of_nat c |});
  tcprecvdata_nb _ _ w := (Ok (int2buff (asked w + 1) ++ [x00; x00; x00; x00]), w);
|}.
#[export] Instance world_net : ClusterNet world := {|
  fc_server_make_connection_ex i w := (if up w then Ok i else Err EIO, w);
  g_current_time := time;
  init_pthread_lock := mret tt;
  fc_create_thread := mret tt;
|}.
#[export] Instance world_malloc : Malloc world := {| fc_malloc _ w := (true, w) |}.
#[export] Instance world_clock : ClusterClock world.
Proof. split; intros; simpl; lia. Qed.

Definition server (id : Z) : FCFSAuthClusterServerInfo :=
  {| server_id := id; service_ip := [x31]; service_port := 31012; is_online := true |}.
(** Server 3 as it sees the cluster. *)
Definition trio (m : option nat) : cluster_vars :=
  {| servers := [server 1; server 2; server 3]; CLUSTER_MASTER_PTR := m; CLUSTER_NEXT_MASTER := None;
     CLUSTER_MYSELF_PTR := 2%nat |}.
Definition at_work (m : option nat) (l : list (nat * Z)) (b : bool) : node cluster_vars world :=
  {| data := trio m; inactive := l; alloc := 3; VOTE_CONNECTION := None; SF_G_CONTINUE_FLAG := true;
     net := {| time := 100; up := b; asked := 0 |} |}.
Abbreviation get_master := (cluster_get_master (D:=cluster_vars) (W:=world) [] 0 [] 46 []).
Abbreviation check := (master_check (D:=cluster_vars) (W:=world) [] 0 [] 46 []).

Definition found : FCFSAuthClusterServerStatus := {| cs := Some 2%nat; is_master := false; status_id := 3 |}.
Lemma election_of_3 : get_master (at_work None [] true) = (Ok (found, 3), (get_master (at_work None [] true)).2).
Proof. apply run_eta. vm_compute. reflexivity. Qed.

Lemma among_three : (CLUSTER_MYSELF_PTR (cluster (at_work None [] true)) <
  length (servers (cluster (at_work None [] true))))%nat.
Proof. vm_compute. lia. Qed.

Abbreviation ask i := (cluster_get_server_status_ex (D:=cluster_vars) (W:=world) [] i).

(** Each server says who it is. *)
Lemma three_identified : identified [] 0 [] 46 [] (at_work None [] true).
Proof.
  split.
  - apply (bool_decide_unpack _). vm_compute. exact I.
  - apply (bool_decide_unpack _). vm_compute. exact I.
  - intros i s1 st s2 Hi Hd. destruct s1 as [d l al vc fl [t u a]]. simpl in Hd. subst d.
    destruct i as [|[|[|i]]]; [destruct u; vm_compute; by intros [= <- _]..|simpl in Hi; lia].
  - intros s1 st s2 Hd. destruct s1 as [d l al vc fl w]. simpl in Hd. subst d.
    unfold get_vote_server_status. erewrite bind_ok by reflexivity. cbv beta zeta. by destruct vc.
Qed.

Lemma candidate_of_answers_witness :
  identified [] 0 [] 46 [] (at_work None [] true) ∧
  ∃ l, answers [] 0 [] 46 [] (at_work None [] true) l ∧ 3 = Z.of_nat (length l) ∧ winner l = Some found.
Proof.
  split; [exact three_identified|].
  destruct (candidate_of_answers (W:=world) [] 0 [] 46 [] (at_work None [] true) found 3 _
    three_identified among_three election_of_3) as (l & Ha & Hn & _ & _ & _ & Hw & _).
  exists l. split; [exact Ha|]. split; [exact Hn|]. exact (Hw l (reflexivity l)).
Defined.

(** The others have gone, and the network is down. *)
Definition alone : node cluster_vars world := at_work (Some 2%nat) [(0%nat, 50); (1%nat, 50)] false.
Lemma alone_fails : check alone = (Err EBUSY, (check alone).2).
Proof. apply run_eta. vm_compute. reflexivity. Qed.
(** The network is up again: both answer as followers. *)
Definition together : node cluster_vars world := at_work (Some 2%nat) [(0%nat, 50); (1%nat, 50)] true.
Lemma together_succeeds : check together = (Ok tt, (check together).2).
Proof. apply run_eta. vm_compute. reflexivity. Qed.
Lemma master_check_correct_witness :
  MYSELF_IS_MASTER (cluster alone) = true ∧ CLUSTER_MASTER_PTR (cluster (check alone).2) = None ∧
  MYSELF_IS_MASTER (cluster together) = true ∧
  ∃ vote s1 l, vote_counted 0 [] 46 [] together vote s1 ∧ polled [] 2 0 s1 l (check together).2 ∧
    quorum_check together (3 - 2 + Z.of_nat (length l) + Z.b2z vote) = true.
Proof.
  assert (MYSELF_IS_MASTER (cluster alone) = true) as Hm by (vm_compute; reflexivity). split; [exact Hm|].
  split.
  - destruct (master_check_correct (λ _, True) [] 0 [] 46 [] alone _ _ I Hm alone_fails) as [(_ & _ & H1)|[H1 _]];
      [exact H1|discriminate].
  - assert (MYSELF_IS_MASTER (cluster together) = true) as Ht by (vm_compute; reflexivity). split; [exact Ht|].
    destruct (master_check_correct (λ _, True) [] 0 [] 46 [] together _ _ I Ht together_succeeds)
      as (_ & vote & s1 & l & Hv & Hp & _ & [H1|Hq]); [discriminate|].
    exists vote, s1, l. split; [exact Hv|]. split; [exact Hp|exact Hq].
Defined.

(** ** The end of an election *)
Definition alive (s : node cluster_vars world) : Prop := data s = trio None ∧ up (net s) = true.
Definition sleep (n : Z) (s : node cluster_vars world) : node cluster_vars world :=
  set_net {| time := time (net s) + n; up := up (net s); asked := asked (net s) |} s.

Lemma all_answer s st n s' : alive s → get_master s = (Ok (st, n), s') → alive s' ∧ quorum_check s' n = true.
Proof.
  destruct s as [d l al vc fl [t u a]]. intros [Hd Hu]. simpl in Hd, Hu. subst d u.
  vm_compute. by intros [= <- <- <-].
Qed.

Lemma sleep_passes n (s : node cluster_vars world) : now s + n ≤ now (sleep n s).
Proof. unfold now, sleep. simpl. lia. Qed.
Lemma sleep_alive n s : alive s → alive (sleep n s).
Proof. done. Qed.

Lemma election_ends_witness :
  let s := at_work None [] true in
  alive s ∧ ∃ r s', select_rounds [] 0 [] 46 [] sleep 20 21 (now s) 0 1 s = (r, s') ∧ outcome [] 0 [] 46 [] r s'.
Proof.
  intros s. assert (alive s) as Ha by (split; reflexivity). split; [exact Ha|].
  exact (election_ends [] 0 [] 46 [] sleep 20 alive sleep_passes sleep_alive all_answer 21%nat s Ha ltac:(lia)).
Defined.
End ElectionExamples.
