(* ===== verification/AuthClusterSpec.v ===== *)
(** * The cluster port: what a request may change, and what a new master leaves behind

    Requests of the cluster port change the master pointers of a server only when they
    set the next master.  The server of [AuthCluster.v] is a [Server] for the election.
    A server that has itself set as the master over an unreliable network is known as
    the master by as many servers as the quorum asks for, or is not the master. *)
From Stdlib Require Import Init.Byte.
From S2P Require Import Prelude Fastcommon AuthProto Session SessionProofs SessionTable SessionSpec AuthDB ServiceHandler ServiceProofs SessionSubscribe SessionPush SessionSubscribeProofs SessionReplica SessionSubscribeSpec ClientProto VoteServer VoteClient VoteSpec PoolUsage Election AuthCluster ElectionSpec.
Import VoteSpec(switch_at) SessionReplica(bytes_at_drop, bytes_at_here, char_at_drop).
Import ServerSession(ServerSessionIdInfo, ServerSessionContext, part1, part2, server_session_get_fields, server_session_clear, mem, cb_state, with_cb, heap_of, id_of, id_ok, part1_persistent).
Import VoteClient.
Import VoteServer(FCFS_VOTE_SERVICE_PROTO_PRE_SET_NEXT_LEADER, FCFS_VOTE_SERVICE_PROTO_COMMIT_NEXT_LEADER).
Import AuthProto VoteServer(VoteFrame, SF_PROTO_ACK, SF_CLUSTER_CONFIG_SIGN_LEN) SessionSubscribe SessionPush PoolUsage Election ElectionSpec AuthCluster.
Import ServiceHandler(request, cmd, body, behind, response, resp_cmd, resp_body, switch, body_len, cluster_vars,
  servers, CLUSTER_MASTER_PTR, CLUSTER_NEXT_MASTER, CLUSTER_MYSELF_PTR, MYSELF_IS_MASTER, ServerSessionFields,
  publish, dbuser, dbpool, pool_privs, FCFSAuthClusterServerInfo, server_id, is_online).
Import ClientProto(FCFS_AUTH_SERVICE_PROTO_SESSION_SUBSCRIBE_REQ, FCFS_AUTH_SERVICE_PROTO_SESSION_VALIDATE_REQ,
  FCFS_AUTH_SERVICE_PROTO_SESSION_VALIDATE_RESP, fcfs_auth_client_proto_session_validate, Connected, Transport, recv_response).
Import ServiceProofs(switch_cases).
Local Open Scope Z_scope.

(** The search by id finds the one server that has it. *)
Class ServerConfigLaws `{!ServerConfig} : Prop := {
  get_by_id_found l i (cs : FCFSAuthClusterServerInfo) : NoDup (server_id <$> l) → l !! i = Some cs →
    fc_server_get_by_id l (server_id cs) = Some i;
  get_by_id_range l id i : fc_server_get_by_id l id = Some i → (i < length l)%nat;
}.

(** The commands of libserverframe differ from those of the cluster. *)
Definition cluster_requests `{!ServerFrame} : list Z :=
  [SF_PROTO_ACTIVE_TEST_REQ; FCFS_AUTH_SERVICE_PROTO_SESSION_SUBSCRIBE_REQ;
   FCFS_AUTH_SERVICE_PROTO_SESSION_VALIDATE_REQ; FCFS_AUTH_CLUSTER_PROTO_GET_SERVER_STATUS_REQ;
   FCFS_AUTH_CLUSTER_PROTO_PRE_SET_NEXT_MASTER; FCFS_AUTH_CLUSTER_PROTO_COMMIT_NEXT_MASTER;
   FCFS_AUTH_CLUSTER_PROTO_JOIN_MASTER; FCFS_AUTH_CLUSTER_PROTO_PING_MASTER_REQ;
   FCFS_AUTH_SERVICE_PROTO_GET_MASTER_REQ; SF_SERVICE_PROTO_GET_LEADER_REQ].
Class ClusterFrameLaws `{!ServerFrame} : Prop := { cf_requests : NoDup cluster_requests }.

Module AuthClusterSpec.

(** ** The server *)
Section data.
Context {DB MB MBt E : Type} `{!SessionDB DB, !ClusterDB DB, !Mblock MB, !Mblock MBt, !FdirStat E}.
Abbreviation D := (auth_data DB MB MBt E).
Abbreviation Srv := (ServerSessionContext ServerSessionFields (server_state DB MB) MBt).

(** What the callback for freed sessions keeps, clearing the table keeps. *)
Section clearing.
Variable P : server_state DB MB → Prop.
Hypothesis P_del : ∀ m a x, P x → P (server_session_del_callback m a x).
Definition state_ok (c : Srv) : Prop := ServerSession.callbacks c = g_server_session_callbacks ∧ P (cb_state c).

Lemma free_chain_state fuel (c : Srv) o : state_ok c → state_ok (ServerSession.free_chain fuel c o).
Proof.
  revert c o. induction fuel as [|fuel IH]; intros c o [Hc Hp]; simpl; [done|]. destruct o; [|done].
  apply IH. unfold ServerSession.free_hash_entry. rewrite Hc. by split; [|apply P_del].
Qed.
Lemma clear_state (c : Srv) : state_ok c → state_ok (server_session_clear c).
Proof.
  unfold server_session_clear. generalize (seq 0 (Z.to_nat (ServerSession.capacity c))). intros l. revert c.
  induction l as [|i l IH]; intros c Hc; [done|]. simpl. apply IH. unfold ServerSession.clear_bucket.
  destruct (ServerSession.bucket_head c i); [|done].
  destruct (ServerSession.clear_walk _ _ _ _ _) as [[h keep] remove]. by apply free_chain_state.
Qed.
End clearing.

Definition good (d : D) : Prop := ServerSession.callbacks (sess d) = g_server_session_callbacks.

#[export] Instance auth_server_laws vote : ServerLaws D (Server0:=auth_server vote) good.
Proof.
  split.
  - done.
  - intros d. cbn. unfold on_db. by destruct (db_load _).
  - intros d. cbn. unfold on_usage. by destruct (pool_usage_updater_start _).
  - intros d Hg. cbn. set (c := with_ctx _ _).
    apply (clear_state (λ x, SessionSubscribe.cluster x = data_vars d)); [|done]. intros m a x <-.
    unfold server_session_del_callback. by destruct (_ && _).
  - done.
  - intros d Hg. cbn. unfold on_db. by destruct (db_load _).
  - intros d Hg. cbn. unfold on_usage. by destruct (pool_usage_updater_start _).
  - intros d Hg. unfold good. cbn. by apply (clear_state (λ _, True)).
Qed.

(** Without the master's part, the callback does nothing. *)
Lemma clear_when_not_master (c : Srv) :
  ServerSession.callbacks c = g_server_session_callbacks →
  MYSELF_IS_MASTER (SessionSubscribe.cluster (cb_state c)) = false →
  cb_state (server_session_clear c) = cb_state c.
Proof.
  intros Hc Hm. apply (clear_state (λ x, x = cb_state c)); [|done]. intros m a x ->.
  unfold server_session_del_callback. by rewrite Hm, andb_false_r.
Qed.
End data.

(** ** Requests and the master pointers *)
Section handler.
Context `{!BuffCodec, !ServerFrame, !VoteFrame, !Quorum, !ServerConfig} {DB MB MBt E W : Type}.
Context `{!SessionDB DB, !ClusterDB DB, !Mblock MB, !Mblock MBt, !FcCompare, !FdirStat E}.
Context `{!VoteNet W, !ClusterNet W}.
Variables (vote : bool) (sign key : list byte) (ip_size : Z) (address : FCFSAuthClusterServerInfo → string_t * Z).
Variable padding : list byte.
Abbreviation S := (cluster_state DB MB MBt E W).
Abbreviation N := (node (auth_data DB MB MBt E) W).
#[local] Instance this_server : Server (auth_data DB MB MBt E) := auth_server vote.
Abbreviation process := (cluster_process (DB:=DB) (MB:=MB) (MBt:=MBt) (E:=E) (W:=W) vote sign key ip_size address padding).
Abbreviation vars_of s := (my_cluster (W:=W) vote s).
Implicit Types s : S.

Definition same_ptrs s s' : Prop :=
  CLUSTER_MASTER_PTR (vars_of s') = CLUSTER_MASTER_PTR (vars_of s) ∧
  CLUSTER_NEXT_MASTER (vars_of s') = CLUSTER_NEXT_MASTER (vars_of s).
#[global] Instance same_ptrs_preorder : PreOrder same_ptrs.
Proof. split; [by intros s|]. intros s1 s2 s3 [? ?] [? ?]. unfold same_ptrs. split; congruence. Qed.

Lemma ptrs_task t x s : kept same_ptrs (set_task t x) s.
Proof. by apply kept_modify. Qed.
Lemma ptrs_ctx f s : (∀ c, SessionSubscribe.cluster (cb_state (f c)) = SessionSubscribe.cluster (cb_state c)) →
  kept same_ptrs (on_srv f) s.
Proof.
  intros Hf. unfold kept, same_ptrs, my_cluster, Election.cluster. simpl. unfold data_vars. simpl.
  by rewrite Hf.
Qed.
Lemma ptrs_online i b s : kept same_ptrs (server_online vote i b) s.
Proof. done. Qed.
Lemma ptrs_remove i s : kept same_ptrs (on_node (cluster_relationship_remove_from_inactive_sarray i)) s.
Proof. done. Qed.
Lemma ptrs_add i s : kept same_ptrs (on_node (cluster_relationship_add_to_inactive_sarray i)) s.
Proof.
  unfold kept, on_node, cluster_relationship_add_to_inactive_sarray, modify. simpl.
  destruct (bool_decide _); [done|]. by destruct (_ <? _).
Qed.
#[local] Hint Resolve ptrs_task ptrs_online ptrs_remove ptrs_add : kept.

Ltac keep := keep_by ltac:(idtac; lazymatch goal with
  | |- kept _ (on_srv _) _ => apply ptrs_ctx; solve [done]
  end).

(** Only the two requests that set the next master change the pointers. *)
Lemma process_ptrs t th req s :
  cmd req ∉ [FCFS_AUTH_CLUSTER_PROTO_PRE_SET_NEXT_MASTER; FCFS_AUTH_CLUSTER_PROTO_COMMIT_NEXT_MASTER] →
  kept same_ptrs (process t th req) s.
Proof.
  intros Hcmd. unfold cluster_process. apply kept_bind; [apply _|keep|]. intros s1 s2 [= <- <-]. cbv zeta.
  destruct (_ && _); [keep|]. destruct (_ && _); [keep|]. apply (switch_cases (λ m, kept same_ptrs m s)); [|keep].
  rewrite !elem_of_cons in Hcmd. rewrite Forall_forall. intros [d m] Hin Hd. simpl in Hd.
  repeat (apply elem_of_cons in Hin as [[= -> ->]|Hin]); [..|by apply not_elem_of_nil in Hin]; simpl; try (exfalso; tauto).
  - keep.
  - unfold cluster_deal_session_subscribe. keep.
  - unfold cluster_deal_session_validate. keep.
  - unfold cluster_deal_get_server_status, cluster_check_config_sign. keep.
  - unfold cluster_deal_join_master, cluster_check_config_sign. keep.
  - unfold cluster_deal_ping_master. keep.
  - unfold cluster_deal_get_master. keep.
  - unfold cluster_deal_get_master. keep.
Qed.

(** A commit that is acknowledged has set the master. *)
Context `{!BuffCodecLaws, !ServerFrameLaws, !ClusterFrameLaws}.

Lemma set_master_other (m : nat) (n : N) :
  CLUSTER_MYSELF_PTR (Election.cluster n) ≠ m →
  ∃ n', cluster_relationship_set_master m n = (Ok tt, n') ∧
    CLUSTER_MASTER_PTR (Election.cluster n') = Some m.
Proof.
  intros Hm. unfold cluster_relationship_set_master. erewrite bind_ok by reflexivity.
  case_bool_decide; [by eexists|]. rewrite bool_decide_false by done.
  erewrite bind_ok by reflexivity. erewrite bind_ok by reflexivity. by eexists.
Qed.

Lemma commit_other (m : nat) (n n' : N) :
  CLUSTER_MYSELF_PTR (Election.cluster n) ≠ m →
  cluster_relationship_commit_master m n = (Ok tt, n') →
  CLUSTER_MASTER_PTR (Election.cluster n') = Some m ∧ CLUSTER_NEXT_MASTER (Election.cluster n') = None.
Proof.
  intros Hm. unfold cluster_relationship_commit_master. erewrite bind_ok by reflexivity.
  destruct (CLUSTER_NEXT_MASTER _) as [k|]; [|done]. case_bool_decide; [by intros [= ]|].
  destruct (set_master_other m n Hm) as (n1 & E1 & Hn1).
  rewrite (bind_ok _ _ _ _ _ (attempt_eq _ _ _ _ E1)). erewrite bind_ok by reflexivity. intros [= <-]. by split.
Qed.

Lemma commit_response t th id m bh s resp s' :
  in_sint 32 id → fc_server_get_by_id (servers (vars_of s)) id = Some m → CLUSTER_MYSELF_PTR (vars_of s) ≠ m →
  process t th {| cmd := FCFS_AUTH_CLUSTER_PROTO_COMMIT_NEXT_MASTER; body := int2buff id; behind := bh |} s =
    (Ok resp, s') →
  CLUSTER_MASTER_PTR (vars_of s') = Some m ∧ CLUSTER_NEXT_MASTER (vars_of s') = None.
Proof.
  intros Hid Hm Hne. unfold cluster_process. erewrite bind_ok by reflexivity. cbv zeta. cbn [cmd].
  change (FCFS_AUTH_CLUSTER_PROTO_COMMIT_NEXT_MASTER =? FCFS_AUTH_SERVICE_PROTO_SESSION_SUBSCRIBE_REQ) with false.
  change (FCFS_AUTH_CLUSTER_PROTO_COMMIT_NEXT_MASTER =? FCFS_AUTH_SERVICE_PROTO_SESSION_VALIDATE_REQ) with false.
  rewrite andb_false_r. cbn [andb]. set (req := {| cmd := _ |}).
  rewrite (switch_at _ _ (cluster_deal_next_master vote req));
    [|exact cf_requests|repeat first [left; done|right]].
  unfold cluster_deal_next_master. rewrite server_expect_body_length_eq.
  unfold body_len. cbn [body req]. rewrite length_int2buff. change (Z.of_nat 4 =? 4) with true. cbn iota.
  erewrite bind_ok by reflexivity. erewrite bind_ok by reflexivity.
  destruct (MYSELF_IS_MASTER (vars_of s)).
  { intros [(? & _ & [=])|([] & ? & _ & [=])]%bind_inv. }
  rewrite <- (app_nil_r (int2buff id)), bytes_at_front by (by rewrite length_int2buff).
  unfold fcfs_auth_get_server_by_id. rewrite buff2int_int2buff, Hm by done.
  intros [(? & _ & [=])|([] & s1 & En & [= _ <-])]%bind_inv.
  unfold on_node in En. destruct (cluster_relationship_commit_master m (nd s)) as [r n'] eqn:Ec.
  change (cmd req =? FCFS_AUTH_CLUSTER_PROTO_PRE_SET_NEXT_MASTER) with false in En. cbn iota in En.
  change (my_server vote) with this_server in En. rewrite Ec in En. injection En as -> <-. by apply (commit_other m (nd s)).
Qed.

(** ** Stepping down *)
Context `{!FcCompareLaws, !MblockLaws MBt}.

Lemma end_mastership_sessions (d : auth_data DB MB MBt E) :
  good d → SessionTable.wf (sess d) → MYSELF_IS_MASTER (data_vars d) = false →
  SessionTable.wf (sess (end_mastership d)) ∧
  cb_state (sess (end_mastership d)) =
    {| db := auth_db_destroy (db (cb_state (sess d))); SessionSubscribe.cluster := data_vars d;
       subscribe_ctx := session_subscribe_clear_session (subscribe_ctx (cb_state (sess d))) |} ∧
  ∀ id, id_ok id → server_session_get_fields (sess (end_mastership d)) id =
    if part1_persistent (part1 id) then server_session_get_fields (sess d) id
    else Err SF_SESSION_ERROR_NOT_EXIST.
Proof.
  intros Hg Hwf Hm. unfold end_mastership. cbn [sess].
  set (c := with_ctx _ (sess d)).
  assert (SessionTable.wf c) as Hwfc by (by apply SubscribeSpec.wf_with_cb).
  destruct (SessionSpec.clear_get c Hwfc) as [Hw Hget].
  pose proof (clear_when_not_master c Hg Hm) as Hcb. split_and!.
  - by apply SubscribeSpec.wf_with_cb.
  - cbn. by rewrite Hcb.
  - intros id Hid. exact (Hget id Hid).
Qed.

(** C13: when a master steps down, no session of a client is valid any longer, whatever it is
    asked for; the sessions that the server keeps for itself are as they were, nothing
    is published, the database is given up, and the server is not the master. *)
Theorem stepping_down_ends_sessions (n : N) :
  good (data n) → SessionTable.wf (sess (data n)) → MYSELF_IS_MASTER (Election.cluster n) = true →
  ∃ n', cluster_relationship_trigger_reselect_master n = (Ok tt, n') ∧
    let c := sess (data n) in let c' := sess (data n') in
    SessionTable.wf c' ∧ CLUSTER_MASTER_PTR (Election.cluster n') = None ∧
    db (cb_state c') = auth_db_destroy (db (cb_state c)) ∧ sessions (subscribe_ctx (cb_state c')) = [] ∧
    ∀ id, id_ok id →
      if part1_persistent (part1 id)
      then server_session_get_fields c' id = server_session_get_fields c id
      else ∀ priv_type pool_id priv_required,
        session_validate c' id priv_type pool_id priv_required = Err SF_SESSION_ERROR_NOT_EXIST.
Proof.
  intros Hg Hwf Hm. destruct (trigger_resigns n Hm) as (n' & E1 & [Hd _]). exists n'. split; [done|].
  set (d := set_vars (set_master_ptr None (Election.cluster n)) (data n)) in Hd.
  destruct (end_mastership_sessions d) as (Hw & Hcb & Hget).
  { done. }
  { by apply SubscribeSpec.wf_with_cb. }
  { by apply bool_decide_eq_false. }
  change (data n' = end_mastership d) in Hd. cbv zeta. unfold Election.cluster. cbn [vars this_server auth_server].
  unfold data_vars. rewrite Hd, Hcb. split_and!; [done..|].
  intros id Hid. specialize (Hget id Hid). destruct (part1_persistent (part1 id)); [done|].
  intros. unfold session_validate. by rewrite Hget.
Qed.

(** ** Validation *)
Inductive question := AskUser | AskFdir | AskFstore.
Definition question_type (q : question) : Z :=
  match q with
  | AskUser => fcfs_auth_validate_priv_type_user
  | AskFdir => fcfs_auth_validate_priv_type_pool_fdir
  | AskFstore => fcfs_auth_validate_priv_type_pool_fstore
  end.
(** The privileges of a session; those of the server's own have no user. *)
Definition held (d : DB) (f : ServerSessionFields) (q : question) : Z :=
  match q with
  | AskUser => match dbuser f with Some u => db_user_priv d u | None => 12 end
  | AskFdir => AuthDB.fdir (pool_privs f)
  | AskFstore => AuthDB.fstore (pool_privs f)
  end.
Definition packed_id (id : ServerSessionIdInfo) : list byte :=
  long2buff (int64 (part1 id)) ++ long2buff (int64 (part2 id)).

Lemma session_validate_eq (c : ServerSessionContext ServerSessionFields (server_state DB MB) MBt) id q pool req :
  session_validate c id (question_type q) pool req =
  match server_session_get_fields c id with
  | Err e => Err e
  | Ok f => if Z.land (held (db (cb_state c)) f q) req =? req then Ok tt else Err EPERM
  end.
Proof. unfold session_validate. destruct (server_session_get_fields c id) as [f|]; [|done]. by destruct q. Qed.

Definition validate_body id (k pad : list byte) (q : question) (pool req : Z) : list byte :=
  packed_id id ++ k ++ [byte_of (question_type q)] ++ pad ++ long2buff pool ++ long2buff req.

Lemma validate_body_fields id k pad q pool req (b := validate_body id k pad q pool req) :
  length k = 16%nat → length pad = 7%nat →
  length b = 56%nat ∧ bytes_at b 0 8 = long2buff (int64 (part1 id)) ∧
  bytes_at b 8 8 = long2buff (int64 (part2 id)) ∧ bytes_at b 16 16 = k ∧ char_at b 32 = question_type q ∧
  bytes_at b 40 8 = long2buff pool ∧ bytes_at b 48 8 = long2buff req.
Proof.
  intros Hk Hpad. unfold b, validate_body, packed_id. rewrite <- !app_assoc.
  pose proof (length_long2buff (int64 (part1 id))) as L1. pose proof (length_long2buff (int64 (part2 id))) as L2.
  pose proof (length_long2buff pool) as L3. pose proof (length_long2buff req) as L4.
  split_and!.
  - rewrite !length_app, L1, L2, L3, L4, Hk, Hpad. done.
  - apply bytes_at_here; [done|by rewrite L1].
  - rewrite bytes_at_drop, L1 by (rewrite L1; lia). apply bytes_at_here; [done|by rewrite L2].
  - do 2 (rewrite bytes_at_drop by (rewrite ?L1, ?L2; lia); rewrite ?L1, ?L2). apply bytes_at_here; [done|by rewrite Hk].
  - do 3 (rewrite char_at_drop by (rewrite ?L1, ?L2, ?Hk; lia); rewrite ?L1, ?L2, ?Hk).
    change (char_at ([byte_of (question_type q)] ++ pad ++ long2buff pool ++ long2buff req) 0 = question_type q).
    by destruct q.
  - do 5 (rewrite bytes_at_drop by (rewrite ?L1, ?L2, ?Hk, ?Hpad; simpl; lia); rewrite ?L1, ?L2, ?Hk, ?Hpad).
    apply bytes_at_here; [done|by rewrite L3].
  - do 6 (rewrite bytes_at_drop by (rewrite ?L1, ?L2, ?L3, ?Hk, ?Hpad; simpl; lia); rewrite ?L1, ?L2, ?L3, ?Hk, ?Hpad).
    rewrite <- (app_nil_r (long2buff req)) at 1. apply bytes_at_here; [done|by rewrite L4].
Qed.

Lemma process_validate id k pad q pool req bh s :
  id_ok id → length k = 16%nat → length pad = 7%nat → in_sint 64 pool → in_sint 64 req →
  process 0 0 {| cmd := FCFS_AUTH_SERVICE_PROTO_SESSION_VALIDATE_REQ; body := validate_body id k pad q pool req;
                 behind := bh |} s =
  (if not_master (vars_of s) then Err SF_RETRIABLE_ERROR_NOT_MASTER
   else if bool_decide (k ≠ key) then Err EACCES
   else match server_session_get_fields (srv s) id with
        | Err _ => Err SF_SESSION_ERROR_NOT_EXIST
        | Ok f => Ok {| resp_cmd := FCFS_AUTH_SERVICE_PROTO_SESSION_VALIDATE_RESP;
            resp_body := int2buff (if Z.land (held (db (cb_state (srv s))) f q) req =? req then 0 else EPERM_NUMBER) |}
        end, s).
Proof.
  intros [Hid1 Hid2] Hk Hpad Hpool Hreq. unfold cluster_process. erewrite bind_ok by reflexivity. cbv zeta. cbn [cmd].
  change (FCFS_AUTH_SERVICE_PROTO_SESSION_VALIDATE_REQ =? FCFS_AUTH_SERVICE_PROTO_SESSION_SUBSCRIBE_REQ) with false.
  rewrite andb_false_r, Z.eqb_refl. cbn [andb]. destruct (not_master (vars_of s)); [done|]. set (r := {| cmd := _ |}).
  rewrite (switch_at _ _ (cluster_deal_session_validate key r)); [|exact cf_requests|repeat first [left; done|right]].
  unfold cluster_deal_session_validate. rewrite server_expect_body_length_eq. unfold body_len. cbn [body r].
  destruct (validate_body_fields id k pad q pool req Hk Hpad) as (Hl & B0 & B8 & B16 & B32 & B40 & B48).
  rewrite Hl. change (Z.of_nat 56 =? sizeof_FCFSAuthProtoSessionValidateReq) with true. cbn iota.
  erewrite bind_ok by reflexivity. change FCFS_AUTH_PASSWD_LEN with 16.
  rewrite B0, B8, B16, B32, B40, B48, !uint64_buff2long, !buff2long_long2buff by done.
  destruct (decide (k = key)) as [->|Hne].
  2: { by rewrite (bool_decide_false (k = key)), (bool_decide_true (k ≠ key)). }
  rewrite (bool_decide_true (key = key)), (bool_decide_false (key ≠ key)) by tauto. cbn [negb].
  erewrite bind_ok by reflexivity. cbv beta zeta. rewrite session_validate_eq.
  replace {| part1 := part1 id; part2 := part2 id |} with id by (by destruct id).
  destruct (server_session_get_fields (srv s) id) as [f|e] eqn:Ef.
  - by destruct (_ =? req).
  - unfold server_session_get_fields in Ef. destruct (ServerSession.find (srv s) id) as [[a|] p]; [done|].
    by injection Ef as <-.
Qed.

(** C23: a session is validated for whoever knows the key, by the master or the server
    that is about to be it: the call of the client gives 0 if the session is in the
    table and has all the privileges asked for, of its user or of its pool, and the
    number of [EPERM] if it lacks one; otherwise it fails with the reason.  Nothing
    changes, and the pool that is asked for does not matter. *)
Theorem validate_roundtrip {leftover} `{!Transport S, !Connected S (process 0 0) leftover}
    id (k pad : list byte) q pool req s :
  id_ok id → length k = 16%nat → length pad = 7%nat → in_sint 64 pool → in_sint 64 req →
  fcfs_auth_client_proto_session_validate (packed_id id) k pad (question_type q) pool req s =
  (if not_master (vars_of s) then Err SF_RETRIABLE_ERROR_NOT_MASTER
   else if bool_decide (k ≠ key) then Err EACCES
   else match server_session_get_fields (srv s) id with
        | Err _ => Err SF_SESSION_ERROR_NOT_EXIST
        | Ok f => Ok (if Z.land (held (db (cb_state (srv s))) f q) req =? req then 0 else EPERM_NUMBER)
        end, s).
Proof.
  intros [Hid1 Hid2] Hk Hpad Hpool Hreq. unfold fcfs_auth_client_proto_session_validate.
  assert (length (packed_id id) = 16%nat) as Hlen by (unfold packed_id; by rewrite length_app, !length_long2buff).
  rewrite Hk, Hlen. erewrite bind_ok by reflexivity. erewrite bind_ok by reflexivity.
  pose proof (recv_response (process 0 0) leftover FCFS_AUTH_SERVICE_PROTO_SESSION_VALIDATE_REQ
    (validate_body id k pad q pool req) FCFS_AUTH_SERVICE_PROTO_SESSION_VALIDATE_RESP 4 s) as Hr.
  rewrite process_validate in Hr by done. fold (validate_body id k pad q pool req).
  destruct (not_master _); [|case_bool_decide; [|destruct (server_session_get_fields _ id) as [f|]]].
  4: { destruct Hr as (er & Hr & He). rewrite (bind_err _ _ _ _ _ Hr). by rewrite He. }
  1-2: destruct Hr as (er & Hr & He); rewrite (bind_err _ _ _ _ _ Hr); by rewrite He.
  cbn [resp_cmd resp_body] in Hr. rewrite length_int2buff, Z.eqb_refl in Hr.
  change (true && (4 =? Z.of_nat 4)) with true in Hr. cbn iota in Hr.
  rewrite (bind_ok _ _ _ _ _ Hr). clear Hr.
  set (x := if _ =? req then _ else _). change ((Ok (buff2int (bytes_at (int2buff x) 0 4)), s) = (Ok x, s)).
  assert (in_sint 32 x) as Hx by (unfold x; destruct (_ =? req); by vm_compute).
  rewrite <- (app_nil_r (int2buff x)), bytes_at_front by (by rewrite length_int2buff).
  by rewrite buff2int_int2buff.
Qed.

(** ** The servers that have joined *)
Context `{!ServerConfigLaws}.
Variables (count me : nat).
Abbreviation node_fine n := (node_ok (D:=auth_data DB MB MBt E) (W:=W) good count me n).
(** A connection of the cluster belongs to another server. *)
Definition server_ok s : Prop := node_fine (nd s) ∧
  ∀ t, SERVER_TASK_TYPE (ctasks s t) = AUTH_SERVER_TASK_TYPE_RELATIONSHIP →
    ∃ i, shared (ctasks s t) = Some i ∧ (i < count)%nat ∧ i ≠ me.
Definition server_keeps s s' : Prop := server_ok s → server_ok s'.
#[local] Instance server_keeps_preorder : PreOrder server_keeps.
Proof. split; [by intros s Hs|]. intros s1 s2 s3 H12 H23 Hs. auto. Qed.

Lemma keeps_on_node {A} (m : M N A) s :
  (node_fine (nd s) → node_fine (m (nd s)).2) → kept server_keeps (on_node m) s.
Proof. unfold kept, on_node. intros Hm [Hn Ht]. destruct (m (nd s)) as [r n]. split; [by apply Hm|done]. Qed.
Lemma keeps_task t x s :
  (SERVER_TASK_TYPE x = AUTH_SERVER_TASK_TYPE_RELATIONSHIP → ∃ i, shared x = Some i ∧ (i < count)%nat ∧ i ≠ me) →
  kept server_keeps (set_task t x) s.
Proof.
  intros Hx [Hn Ht]. split; [done|]. intros t'. simpl. destruct (decide (t = t')) as [<-|].
  - by rewrite fn_lookup_insert.
  - rewrite fn_lookup_insert_ne by done. apply Ht.
Qed.
Lemma keeps_srv f s :
  (∀ c, cb_state (f c) = set_ctx (subscribe_ctx (cb_state (f c))) (cb_state c) ∧
        ServerSession.callbacks (f c) = ServerSession.callbacks c) →
  kept server_keeps (on_srv f) s.
Proof.
  intros Hf. apply keeps_on_node. intros Hn. destruct (Hf (srv s)) as [Hs Hc].
  eapply node_ok_change; [exact Hn|..]; try done; unfold good, Election.cluster; cbn; unfold data_vars; cbn.
  - fold (srv s). rewrite Hc. apply Hn.
  - fold (srv s). by rewrite Hs.
  - fold (srv s). by rewrite Hs.
Qed.
Lemma keeps_online i b s : kept server_keeps (server_online vote i b) s.
Proof.
  apply keeps_on_node. intros Hn. eapply node_ok_change; [exact Hn|apply Hn|..]; try done.
  unfold Election.cluster. cbn. apply length_alter.
Qed.
Lemma keeps_add i s : (i < count)%nat → i ≠ me →
  kept server_keeps (on_node (cluster_relationship_add_to_inactive_sarray i)) s.
Proof.
  intros Hi Hme. apply keeps_on_node. intros (Hg & Hok & Hc & Hs).
  destruct (add_inactive i (nd s) Hok) as (n' & -> & Hd & Hok' & _); [by split; [rewrite Hc|rewrite Hs]|].
  unfold node_ok, Election.cluster. simpl. by rewrite Hd.
Qed.
Lemma keeps_remove i s : kept server_keeps (on_node (cluster_relationship_remove_from_inactive_sarray i)) s.
Proof.
  apply keeps_on_node. intros (Hg & Hok & Hc). destruct (remove_inactive i (nd s) Hok) as (n' & -> & Hd & Hok' & _).
  unfold node_ok, Election.cluster. simpl. by rewrite Hd.
Qed.
#[local] Hint Resolve keeps_online keeps_remove : kept.
Ltac keep_server := keep_by ltac:(idtac; lazymatch goal with
  | |- kept _ (on_srv _) _ => apply keeps_srv; solve [done]
  | |- kept _ (set_task _ _) _ => apply keeps_task; solve [done]
  end).

Lemma keeps_next_master req s : kept server_keeps (cluster_deal_next_master vote req) s.
Proof.
  unfold cluster_deal_next_master. keep_server; apply keeps_on_node; intros Hn.
  - by apply (keeps_trigger good).
  - destruct (_ =? _); [by apply (keeps_pre_set good)|by apply (keeps_commit good)].
Qed.
Lemma keeps_join t req s : kept server_keeps (cluster_deal_join_master vote sign t req) s.
Proof.
  intros Hs. pose proof Hs as [(_ & _ & Hc & Hme) _]. revert Hs.
  change (kept server_keeps (cluster_deal_join_master vote sign t req) s). unfold cluster_deal_join_master.
  apply kept_bind; [apply _|keep_server|]. intros [] s1 [= _ <-].
  apply kept_bind; [apply _|keep_server|]. intros v s1 [= <- <-].
  destruct (fcfs_auth_get_server_by_id _ _) as [peer|] eqn:Ep; [|keep_server].
  apply get_by_id_range in Ep. apply kept_bind; [apply _|unfold cluster_check_config_sign; keep_server|].
  intros [] s1 _. destruct (not_master _); [keep_server|]. case_bool_decide as Hp; [keep_server|].
  apply kept_bind; [apply _|keep_server|]. intros x s2 [= <- <-]. case_bool_decide; [keep_server|].
  apply kept_bind; [apply _| |intros; keep_server]. apply keeps_task. intros _. exists peer. split_and!; [done| |].
  - rewrite <- Hc. exact Ep.
  - rewrite <- Hme. exact Hp.
Qed.
#[local] Hint Resolve keeps_next_master keeps_join : kept.

Lemma keeps_subscribe t th req s : kept server_keeps (cluster_deal_session_subscribe t th req) s.
Proof.
  unfold cluster_deal_session_subscribe. do 2 (apply kept_bind; [apply _|keep_server|intros [] ? _]).
  apply kept_bind; [apply _|keep_server|]. intros s1 s2 _.
  destruct (Z.eqb_spec (SERVER_TASK_TYPE (ctasks s1 t)) ServiceHandler.SF_SERVER_TASK_TYPE_NONE) as [He|];
    cbn [negb]; [|keep_server]. keep_server. apply keeps_task. simpl. by rewrite He.
Qed.
#[local] Hint Resolve keeps_subscribe : kept.

Lemma keeps_process t th req s : kept server_keeps (process t th req) s.
Proof.
  unfold cluster_process. apply kept_bind; [apply _|keep_server|]. intros s1 s2 [= <- <-]. cbv zeta.
  destruct (_ && _); [keep_server|]. destruct (_ && _); [keep_server|].
  apply (switch_cases (λ m, kept server_keeps m s)); [|keep_server].
  repeat (apply Forall_cons; split); [..|by apply Forall_nil]; intros _; cbn [snd]; try solve [keep_server].
  - unfold cluster_deal_session_validate. keep_server.
  - unfold cluster_deal_get_server_status, cluster_check_config_sign. keep_server.
  - unfold cluster_deal_ping_master. keep_server.
  - unfold cluster_deal_get_master. keep_server.
  - unfold cluster_deal_get_master. keep_server.
Qed.

Lemma keeps_cleanup t s : kept server_keeps (cluster_task_finish_cleanup vote t) s.
Proof.
  intros Hs. pose proof Hs as [_ Ht]. specialize (Ht t). revert Hs.
  change (kept server_keeps (cluster_task_finish_cleanup vote t) s). unfold cluster_task_finish_cleanup.
  apply kept_bind; [apply _|keep_server|]. intros x s1 [= <- <-].
  destruct (Z.eqb_spec (SERVER_TASK_TYPE (ctasks s t)) AUTH_SERVER_TASK_TYPE_RELATIONSHIP) as [He|]; [|keep_server].
  destruct (Ht He) as (i & -> & Hi & Hme). keep_server. by apply keeps_add.
Qed.

(** C22: whatever is asked on the cluster port, whichever connection ends, and whatever the
    election thread does in a turn, the array of inactive servers is one of other
    servers of the cluster, without repetition and with room for all of them, and a
    connection of the cluster belongs to another server; if this was so before. *)
Theorem cluster_server_invariant `{!Qsort, !Malloc W} (vote_count : Z) (vote_sign jpad : list byte)
    (sleep : Z → N → N) (max_wait lost : Z) s t th req fuel b pad tv :
  server_ok s → (∀ n x, node_fine x → node_fine (sleep n x)) →
  server_ok (process t th req s).2 ∧ server_ok (cluster_task_finish_cleanup vote t s).2 ∧
  server_ok {| nd := (cluster_thread_turn sign vote_count vote_sign ip_size jpad sleep max_wait lost fuel b pad tv
                        (nd s)).2;
               ctasks := ctasks s |}.
Proof.
  intros Hs Hsleep. split_and!; [by apply keeps_process|by apply keeps_cleanup|].
  split; [|apply Hs]. apply (keeps_turn good sign vote_count vote_sign ip_size jpad count me sleep max_wait Hsleep), Hs.
Qed.
End handler.

(** ** The others over the network *)
Section peers.
Context `{!BuffCodec, !BuffCodecLaws, !ServerFrame, !ServerFrameLaws, !ClusterFrameLaws, !VoteFrame}.
Context `{!Quorum, !Qsort, !ServerConfig, !ServerConfigLaws} {DB MB MBt E W U : Type}.
Context `{!SessionDB DB, !ClusterDB DB, !Mblock MB, !Mblock MBt, !FcCompare, !FdirStat E}.
Context `{!VoteNet W, !ClusterNet W, !Malloc W, !VoteNet U, !ClusterNet U}.
Variables (vote : bool) (sign key : list byte) (ip_size : Z) (address : FCFSAuthClusterServerInfo → string_t * Z).
Variables (padding : list byte) (vote_server_count : Z) (vote_sign join_padding : list byte).
#[local] Instance my_own : Server (auth_data DB MB MBt E) := auth_server vote.
Abbreviation N := (node (auth_data DB MB MBt E) W).
Abbreviation PS := (cluster_state DB MB MBt E U).
Abbreviation process := (cluster_process (DB:=DB) (MB:=MB) (MBt:=MBt) (E:=E) (W:=U) vote sign key ip_size address padding).
Abbreviation vars_of p := (my_cluster (W:=U) vote p).
Abbreviation same_ptrs := (same_ptrs (W:=U) vote).
Implicit Types (s : N) (w : W).

(** A request may be lost, or its answer: the server that the connection leads to may or
    may not have dealt with it, and has if there is an answer.  Connections that lead
    elsewhere do not matter to the servers. *)
Definition delivered {A} (peers : W → nat → PS) (target : W → nat → option nat) (c : nat) (req : request)
    (m : M W A) : Prop := ∀ w, let '(r, w') := m w in
  match target w c with
  | None => ∀ j, peers w' j = peers w j
  | Some i =>
      (∀ j, j ≠ i → peers w' j = peers w j) ∧
      ∃ t th, (peers w' i = peers w i ∨ peers w' i = (process t th req (peers w i)).2) ∧
        (is_ok r = true → ∃ resp, process t th req (peers w i) = (Ok resp, peers w' i))
  end.

(** The servers have one configuration, with the server ids [ids]; connecting and closing
    does not touch their master pointers. *)
Class PeerLink (ids : list Z) (peers : W → nat → PS) (target : W → nat → option nat) : Prop := {
  peer_config w i : server_id <$> servers (vars_of (peers w i)) = ids ∧ CLUSTER_MYSELF_PTR (vars_of (peers w i)) = i;
  peer_connect i w j : same_ptrs (peers w j) (peers (fc_server_make_connection_ex i w).2 j);
  peer_target i w c w' : fc_server_make_connection_ex i w = (Ok c, w') → target w' c = Some i;
  peer_vote i w j : same_ptrs (peers w j) (peers (fc_server_make_connection i w).2 j);
  peer_address a w j : same_ptrs (peers w j) (peers (conn_pool_connect_server a w).2 j);
  peer_rand w j : same_ptrs (peers w j) (peers (rand w).2 j);
  peer_close c w j : same_ptrs (peers w j) (peers (conn_pool_disconnect_server c w) j);
  peer_none c x b rc : delivered peers target c {| cmd := x; body := b; behind := [] |}
    (sf_send_and_recv_none_body_response c x b rc);
  peer_response c x b rc n : delivered peers target c {| cmd := x; body := b; behind := [] |}
    (sf_send_and_recv_response c x b rc n);
}.

Context (ids : list Z) (peers : W → nat → PS) (target : W → nat → option nat) `{!PeerLink ids peers target}.
Hypothesis ids_ok : NoDup ids ∧ Forall (in_sint 32) ids.

Definition peers_same w w' : Prop := ∀ j, same_ptrs (peers w j) (peers w' j).
#[local] Instance peers_same_preorder : PreOrder peers_same.
Proof.
  split; [by intros w j|]. intros w1 w2 w3 H1' H2' j. etrans; [apply H1'|apply H2'].
Qed.

Lemma same_delivered {A} c req (m : M W A) w :
  cmd req ∉ [FCFS_AUTH_CLUSTER_PROTO_PRE_SET_NEXT_MASTER; FCFS_AUTH_CLUSTER_PROTO_COMMIT_NEXT_MASTER] →
  delivered peers target c req m → kept peers_same m w.
Proof.
  intros Hc Hd. specialize (Hd w). unfold kept. destruct (m w) as [r w']. simpl. intros j.
  destruct (target w c) as [i|]; [|by rewrite Hd]. destruct Hd as [Hne (t & th & Hp & _)].
  destruct (decide (j = i)) as [->|]; [|by rewrite Hne]. destruct Hp as [->| ->]; [done|].
  by apply process_ptrs.
Qed.

Lemma same_none c x b rc w :
  x ∉ [FCFS_AUTH_CLUSTER_PROTO_PRE_SET_NEXT_MASTER; FCFS_AUTH_CLUSTER_PROTO_COMMIT_NEXT_MASTER] →
  kept peers_same (sf_send_and_recv_none_body_response c x b rc) w.
Proof. intros Hx. by eapply same_delivered, peer_none. Qed.
Lemma same_response c x b rc n w :
  x ∉ [FCFS_AUTH_CLUSTER_PROTO_PRE_SET_NEXT_MASTER; FCFS_AUTH_CLUSTER_PROTO_COMMIT_NEXT_MASTER] →
  kept peers_same (sf_send_and_recv_response c x b rc n) w.
Proof. intros Hx. by eapply same_delivered, peer_response. Qed.
Lemma same_vote_connect i w : kept peers_same (fc_server_make_connection i) w.
Proof. intros j. apply (peer_vote (ids:=ids) (target:=target)). Qed.
Lemma same_address a w : kept peers_same (conn_pool_connect_server a) w.
Proof. intros j. apply (peer_address (ids:=ids) (target:=target)). Qed.
Lemma same_close c w : kept peers_same (disconnect c) w.
Proof. intros j. apply (peer_close (ids:=ids) (target:=target)). Qed.
#[local] Hint Resolve same_vote_connect same_address same_close : kept.

Ltac keep_peers := keep_by ltac:(idtac; lazymatch goal with
  | |- kept _ (sf_send_and_recv_none_body_response _ _ _ _) _ => apply same_none
  | |- kept _ (sf_send_and_recv_response _ _ _ _ _) _ => apply same_response
  end).

Lemma same_try_servers fuel i k e w : kept peers_same (try_servers vote_server_count fuel i k e) w.
Proof. revert i e w. induction fuel as [|fuel IH]; intros i e w; simpl; keep_peers. Qed.
Lemma same_get_connection w : kept peers_same (get_connection vote_server_count) w.
Proof.
  unfold get_connection. apply kept_bind; [apply _| |].
  - intros j. pose proof (peer_rand (ids:=ids) (target:=target) w j) as Hr. by destruct (rand w).
  - intros. keep_peers. apply same_try_servers.
Qed.
Lemma same_vote_notify r pad x w :
  x ∉ [FCFS_AUTH_CLUSTER_PROTO_PRE_SET_NEXT_MASTER; FCFS_AUTH_CLUSTER_PROTO_COMMIT_NEXT_MASTER] →
  kept peers_same (fcfs_vote_client_notify_next_leader_ex vote_server_count vote_sign ip_size r pad x) w.
Proof.
  intros Hx. unfold fcfs_vote_client_notify_next_leader_ex, fcfs_vote_client_join_ex,
    vote_client_proto_get_master_connection_ex, vote_client_proto_join_ex,
    vote_client_proto_notify_next_leader_ex, vote_client_proto_close_connection_ex.
  assert (∀ z, z < 200 → z ∉ [FCFS_AUTH_CLUSTER_PROTO_PRE_SET_NEXT_MASTER;
    FCFS_AUTH_CLUSTER_PROTO_COMMIT_NEXT_MASTER]) as Hlow.
  { intros z Hz [->|[->|?%not_elem_of_nil]%elem_of_cons]%elem_of_cons; unfold FCFS_AUTH_CLUSTER_PROTO_PRE_SET_NEXT_MASTER,
      FCFS_AUTH_CLUSTER_PROTO_COMMIT_NEXT_MASTER in *; lia || done. }
  repeat (keep_peers; first [apply same_get_connection|by apply Hlow|done]).
Qed.

(** ** The server that has itself set *)
Variable a : nat.
Record own_ok s : Prop := {
  own_good : good (data s);
  own_self : CLUSTER_MYSELF_PTR (cluster s) = a;
  own_ids : server_id <$> servers (cluster s) = ids;
}.
Definition own_keeps s s' : Prop := own_ok s → own_ok s'.
#[local] Instance own_keeps_preorder : PreOrder own_keeps.
Proof. split; [by intros s Hs|]. intros s1 s2 s3 H1' H2' Hs. auto. Qed.

Lemma own_same s s' : data s' = data s → own_keeps s s'.
Proof. intros Hd [G1 G2 G3]. unfold cluster in *. split; unfold cluster; by rewrite Hd. Qed.
Lemma own_net {A} (m : M W A) s : kept own_keeps (on_net m) s.
Proof. unfold kept, on_net. destruct (m (net s)). by apply own_same. Qed.
Lemma own_change f s :
  (∀ v, CLUSTER_MYSELF_PTR (f v) = CLUSTER_MYSELF_PTR v ∧ servers (f v) = servers v) →
  kept own_keeps (change_cluster f) s.
Proof.
  intros Hf [G1 G2 G3]. specialize (Hf (cluster s)). destruct Hf as [F1 F2].
  assert (cluster (change_cluster f s).2 = f (cluster s)) as Hc by done.
  split; rewrite ?Hc; [done|by rewrite F1|by rewrite F2].
Qed.
Lemma own_load s : kept own_keeps (on_data load_data) s.
Proof.
  intros [G1 G2 G3]. unfold on_data, cluster, good in *. cbn in *. unfold on_db.
  destruct (db_load _) as [r x]. by split.
Qed.
Lemma own_start s : kept own_keeps (on_data start_duties) s.
Proof.
  intros [G1 G2 G3]. unfold on_data, cluster, good in *. cbn in *. unfold on_usage.
  destruct (pool_usage_updater_start _) as [r x]. by split.
Qed.
Lemma own_modify f s : data (f s) = data s → kept own_keeps (modify f) s.
Proof. intros Hd. by apply kept_modify, own_same. Qed.
#[local] Hint Resolve own_net own_load own_start : kept.

Ltac keep_own := keep_by ltac:(idtac; lazymatch goal with
  | |- kept _ (change_cluster _) _ => apply own_change; solve [by intros]
  | |- kept _ (modify _) _ => apply own_modify; solve [done]
  end).

Lemma own_notify i m c s : kept own_keeps (do_notify_master_changed i m c) s.
Proof. unfold do_notify_master_changed, disconnect_server. keep_own. Qed.
#[local] Hint Resolve own_notify : kept.
Lemma own_pre_set i m s : kept own_keeps (cluster_pre_set_next_master i m) s.
Proof. unfold cluster_pre_set_next_master, cluster_relationship_pre_set_master, init_inactive_server_array. keep_own. Qed.
Lemma own_commit i m s : kept own_keeps (cluster_commit_next_master i m) s.
Proof.
  unfold cluster_commit_next_master, cluster_relationship_commit_master, cluster_relationship_set_master, or_terminate.
  keep_own.
Qed.
Lemma own_notify_servers f m l b n s :
  (∀ i s, kept own_keeps (f i m) s) → kept own_keeps (notify_servers f m l b n) s.
Proof. intros Hf. revert b n s. induction l as [|i l IH]; intros b n s; simpl; keep_own. Qed.
Lemma own_notify_next f m x b s :
  (∀ i s, kept own_keeps (f i m) s) →
  kept own_keeps (notify_next_master vote_server_count vote_sign ip_size join_padding f m x b) s.
Proof.
  intros Hf. unfold notify_next_master, notify_vote_next_leader. keep_own. by apply own_notify_servers.
Qed.

(** A server that has [a] as its master, and no next master. *)
Definition has_master (v : cluster_vars) : Prop := CLUSTER_MASTER_PTR v = Some a ∧ CLUSTER_NEXT_MASTER v = None.
Definition known (i : nat) s : Prop :=
  if decide (i = a) then has_master (cluster s) else has_master (vars_of (peers (net s) i)).

Lemma same_known s s' : data s' = data s → peers_same (net s) (net s') → ∀ j, known j s → known j s'.
Proof.
  intros Hd Hp j. unfold known, cluster. rewrite Hd. case_decide; [done|].
  destruct (Hp j) as [P1 P2]. unfold has_master. by rewrite P1, P2.
Qed.

Lemma terminate_ok (m : M N unit) s s' : or_terminate m s = (Ok tt, s') → m s = (Ok tt, s').
Proof.
  unfold or_terminate. intros [(? & _ & [=])|(r & s1 & Er%attempt_inv & E1)]%bind_inv.
  destruct r as [[]|]; [by injection E1 as <-|done].
Qed.

Lemma start_cluster s : cluster (on_data start_duties s).2 = cluster s.
Proof.
  unfold on_data, cluster. pose proof (vars_start (good:=good) (data s)) as Hv.
  by destruct (start_duties (data s)).
Qed.
Lemma commit_self s s' :
  own_ok s → cluster_relationship_commit_master a s = (Ok tt, s') → has_master (cluster s').
Proof.
  intros [_ Hme _]. unfold cluster_relationship_commit_master. erewrite bind_ok by reflexivity.
  destruct (CLUSTER_NEXT_MASTER _) as [k|]; [|done]. case_bool_decide; [by intros [=]|].
  intros [(? & _ & [=])|(r & s1 & Er%attempt_inv & E1)]%bind_inv.
  erewrite bind_ok in E1 by reflexivity. injection E1 as -> <-. split; [|done]. simpl.
  assert (CLUSTER_MASTER_PTR (cluster s1) = Some a) as Hs1; [|exact Hs1].
  unfold cluster_relationship_set_master in Er. erewrite bind_ok in Er by reflexivity.
  case_bool_decide as Hm; [by injection Er as <-|]. rewrite Hme, bool_decide_true in Er by done.
  apply bind_inv in Er as [(? & _ & [=])|([] & s2 & _ & Er)]. erewrite bind_ok in Er by reflexivity.
  apply terminate_ok in Er.
  pose proof (start_cluster (set_cluster (set_master_ptr (Some a) (cluster s2)) s2)) as Hc. rewrite Er in Hc.
  cbn [snd] in Hc. by rewrite Hc.
Qed.

Definition same_net s s' : Prop := net s' = net s.
#[local] Instance same_net_preorder : PreOrder same_net.
Proof. split; [by intros s|]. unfold same_net. intros s1 s2 s3 H1' H2'. congruence. Qed.
Lemma net_data {A} (m : M (auth_data DB MB MBt E) A) s : kept same_net (on_data m) s.
Proof. unfold kept, on_data. by destruct (m (data s)). Qed.
#[local] Hint Resolve net_data : kept.
Ltac keep_net := keep_by ltac:(idtac; lazymatch goal with
  | |- kept _ (modify _) _ => apply kept_modify; solve [done]
  | |- kept _ (change_cluster _) _ => apply kept_modify; solve [done]
  end).
Lemma commit_self_net s : kept same_net (cluster_relationship_commit_master a) s.
Proof.
  unfold cluster_relationship_commit_master, cluster_relationship_set_master, or_terminate. keep_net.
Qed.

Lemma commit_delivered i c w r w' v :
  i ≠ a → target w c = Some i → server_id <$> servers v = ids → (a < length ids)%nat →
  sf_send_and_recv_none_body_response c FCFS_AUTH_CLUSTER_PROTO_COMMIT_NEXT_MASTER
    (int2buff (Election.id_of v a)) SF_PROTO_ACK w = (r, w') →
  (∀ j, j ≠ i → peers w' j = peers w j) ∧ (r = Ok tt → has_master (vars_of (peers w' i))).
Proof.
  intros Hne Ht Hv Ha Hs.
  pose proof (peer_none (ids:=ids) (peers:=peers) (target:=target) c FCFS_AUTH_CLUSTER_PROTO_COMMIT_NEXT_MASTER
    (int2buff (Election.id_of v a)) SF_PROTO_ACK w) as Hd.
  rewrite Hs, Ht in Hd. destruct Hd as [Hj (t & th & _ & Hok)]. split; [done|]. intros ->.
  destruct (Hok eq_refl) as [resp Hp]. destruct (peer_config (target:=target) w i) as [Hids Hme].
  destruct (lookup_lt_is_Some_2 ids a Ha) as [id Hid].
  assert (Election.id_of v a = id) as Hidv.
  { unfold Election.id_of. rewrite <- Hv, list_lookup_fmap in Hid. by rewrite Hid. }
  pose proof Hid as Hid'. rewrite <- Hids, list_lookup_fmap in Hid'.
  destruct (servers (vars_of (peers w i)) !! a) as [cs|] eqn:Ecs; [|done]. injection Hid' as Hcs.
  destruct ids_ok as [Hnd Hrange]. rewrite Forall_forall in Hrange.
  assert (in_sint 32 id) as Hin by (apply Hrange; by apply list_elem_of_lookup_2 with a).
  rewrite Hidv in Hp.
  refine (commit_response vote sign key ip_size address padding t th id a [] _ resp _ Hin _ _ Hp);
    [|by rewrite Hme].
  rewrite <- Hcs. apply get_by_id_found; [by rewrite Hids|done].
Qed.

Lemma commit_step i s p s1 :
  own_ok s → (a < length ids)%nat → cluster_commit_next_master i a s = (Ok p, s1) →
  (p.1 = Ok tt → known i s1) ∧ ∀ j, j ≠ i → known j s → known j s1.
Proof.
  intros Ho Ha. unfold cluster_commit_next_master. erewrite bind_ok by reflexivity. rewrite (own_self s Ho).
  case_bool_decide as Hi.
  { subst i. destruct (cluster_relationship_commit_master a s) as [r s2] eqn:Ec.
    rewrite (bind_ok _ _ _ _ _ (attempt_eq _ _ _ _ Ec)). intros [= <- <-]. simpl. split.
    - intros ->. unfold known. rewrite decide_True by done. by apply (commit_self s).
    - intros j Hj. unfold known. rewrite !decide_False by done.
      pose proof (commit_self_net s) as Hn. unfold kept, same_net in Hn. rewrite Ec in Hn. simpl in Hn. by rewrite Hn. }
  unfold do_notify_master_changed. erewrite bind_ok by reflexivity.
  pose proof (λ j, peer_connect (ids:=ids) (peers:=peers) (target:=target) i (net s) j) as Hcon.
  destruct (fc_server_make_connection_ex i (net s)) as [[c|e] w1] eqn:E1; simpl in Hcon.
  2: { erewrite bind_ok by (apply attempt_eq; unfold on_net; by rewrite E1). intros [= <- <-]. simpl.
       split; [done|]. intros j _. by apply same_known. }
  erewrite bind_ok by (apply attempt_eq; unfold on_net; by rewrite E1).
  pose proof (peer_target (ids:=ids) (peers:=peers) i (net s) c w1 E1) as Ht.
  destruct (sf_send_and_recv_none_body_response c FCFS_AUTH_CLUSTER_PROTO_COMMIT_NEXT_MASTER
    (int2buff (Election.id_of (cluster s) a)) SF_PROTO_ACK w1) as [r w2] eqn:E2.
  destruct (commit_delivered i c w1 r w2 (cluster s) Hi Ht (own_ids s Ho) Ha E2) as [Hj Hm].
  erewrite bind_ok by (apply attempt_eq; unfold on_net; cbn [net set_net]; by rewrite E2).
  erewrite bind_ok by reflexivity. intros [= <- <-]. cbn [fst].
  pose proof (λ j, peer_close (ids:=ids) (peers:=peers) (target:=target) c w2 j) as Hcl. split.
  - intros Hr. specialize (Hm Hr). unfold known. rewrite decide_False by done. simpl.
    destruct (Hcl i) as [C1 C2]. unfold has_master in *. by rewrite C1, C2.
  - intros j Hne. unfold known. case_decide; [done|]. simpl. destruct (Hcl j) as [C1 C2], (Hcon j) as [D1 D2].
    unfold has_master. by rewrite C1, C2, Hj, D1, D2.
Qed.

Lemma commit_servers l b c s n s' :
  own_ok s → (a < length ids)%nat → NoDup l →
  notify_servers cluster_commit_next_master a l b c s = (Ok n, s') →
  (∀ j, j ∉ l → known j s → known j s') ∧
  ∃ L, L `sublist_of` l ∧ n = c + Z.of_nat (length L) ∧ ∀ i, i ∈ L → known i s'.
Proof.
  intros Ho Ha. revert b c s Ho. induction l as [|i l IH]; intros b c s Ho Hnd; simpl.
  { intros [= <- <-]. split; [done|]. exists []. split_and!; [done|simpl; lia|set_solver]. }
  apply NoDup_cons in Hnd as [Hil Hnd].
  intros [(? & _ & [=])|(p & s1 & E1 & E2)]%bind_inv.
  pose proof (commit_step i s p s1 Ho Ha E1) as [Hk Hother].
  assert (own_ok s1) as Ho1.
  { pose proof (own_commit i a s) as K. unfold kept in K. rewrite E1 in K. by apply K. }
  destruct p as [[[]|e] o]; cbn [fst snd] in *.
  - destruct (IH _ _ s1 Ho1 Hnd E2) as [Hkeep (L & HL & Hn & HK)]. split.
    + intros j Hj Hkj. rewrite not_elem_of_cons in Hj. apply Hkeep; [tauto|]. apply Hother; tauto.
    + exists (i :: L). split_and!; [by constructor|simpl; lia|].
      intros j [->|Hj]%elem_of_cons; [|by apply HK]. apply Hkeep; auto.
  - destruct (negb _); [done|]. destruct (IH _ _ s1 Ho1 Hnd E2) as [Hkeep (L & HL & Hn & HK)]. split.
    + intros j Hj Hkj. rewrite not_elem_of_cons in Hj. apply Hkeep; [tauto|]. apply Hother; tauto.
    + exists L. split_and!; [by constructor|done..].
Qed.

Abbreviation notify_next f x b := (notify_next_master vote_server_count vote_sign ip_size join_padding f a x b).

(** The vote node is asked over the network; the server itself does not change. *)
Lemma vote_notified x s r s' :
  x ∉ [FCFS_AUTH_CLUSTER_PROTO_PRE_SET_NEXT_MASTER; FCFS_AUTH_CLUSTER_PROTO_COMMIT_NEXT_MASTER] →
  notify_vote_next_leader vote_server_count vote_sign ip_size join_padding x s = (r, s') →
  data s' = data s ∧ peers_same (net s) (net s').
Proof.
  intros Hx. unfold notify_vote_next_leader. erewrite bind_ok by reflexivity. unfold on_net. cbv beta.
  pose proof (same_vote_notify (fill_join_request false s) join_padding x (net s) Hx) as K. unfold kept in K.
  destruct (fcfs_vote_client_notify_next_leader_ex _ _ _ _ _ _ (net s)) as [r' w']. by intros [= _ <-].
Qed.

(** The vote node counts when it is needed and has acknowledged the commit, which is the
    last thing that is done. *)
Definition vote_committed (voted : bool) s' : Prop :=
  voted = true → NEED_CHECK_VOTE_NODE s' = true ∧
    ∃ s1, notify_vote_next_leader vote_server_count vote_sign ip_size join_padding
            FCFS_VOTE_SERVICE_PROTO_COMMIT_NEXT_LEADER s1 = (Ok tt, s').

Lemma commit_round b s s' :
  own_ok s → (a < length ids)%nat →
  notify_next cluster_commit_next_master FCFS_VOTE_SERVICE_PROTO_COMMIT_NEXT_LEADER b s = (Ok tt, s') →
  ∃ L (voted : bool), L `sublist_of` seq 0 (length ids) ∧ (∀ i, i ∈ L → known i s') ∧
    vote_committed voted s' ∧
    quorum_check s' (Z.of_nat (length L) + Z.b2z voted) = true.
Proof.
  intros Ho Ha. unfold notify_next_master. erewrite bind_ok by reflexivity. cbv beta zeta.
  assert (length (servers (cluster s)) = length ids) as Hlen by (by rewrite <- (own_ids s Ho), length_fmap).
  rewrite Hlen. intros [(? & _ & [=])|(n & s1 & E1 & E2)]%bind_inv.
  destruct (commit_servers _ _ _ _ _ _ Ho Ha (NoDup_seq _ _) E1) as [_ (L & HL & Hn & HK)].
  erewrite bind_ok in E2 by reflexivity. cbv beta in E2.
  apply bind_inv in E2 as [(? & _ & [=])|(n2 & s2 & E2 & E3)]. erewrite bind_ok in E3 by reflexivity. cbv beta in E3.
  assert (s' = s2 ∧ quorum_check s2 n2 = true) as [-> Hq].
  { destruct (quorum_check s2 n2); [by injection E3|done]. }
  assert (data s2 = data s1 ∧ peers_same (net s1) (net s2) ∧
    ∃ voted : bool, vote_committed voted s2 ∧ n2 = n + Z.b2z voted) as (Hd & Hp & voted & Hv & Hn2).
  { destruct (NEED_CHECK_VOTE_NODE s1) eqn:En.
    2: { injection E2 as <- <-. split_and!; [done..|]. exists false. split; [done|simpl; lia]. }
    apply bind_inv in E2 as [(? & _ & [=])|(r & s3 & Er%attempt_inv & E4)].
    pose proof Er as Er'. apply vote_notified in Er as [Hd Hp]; [|by rewrite !not_elem_of_cons; split_and!; [..|apply not_elem_of_nil]].
    destruct r as [[]|e].
    - injection E4 as <- <-. split_and!; [done..|]. destruct (n <? _); [exists true|exists false]; split; simpl;
        try done; try lia. intros _. split; [|by exists s1]. rewrite <- En. unfold NEED_CHECK_VOTE_NODE, cluster. by rewrite Hd.
    - case_bool_decide; [done|]. injection E4 as <- <-. split_and!; [done..|]. exists false. split; [done|simpl; lia]. }
  exists L, voted. split_and!; [done| |done|].
  - intros i Hi. by apply (same_known s1 s2 Hd Hp), HK.
  - rewrite <- Hq. f_equal. lia.
Qed.

(** ** Before the commit *)
Definition same_master s s' : Prop := CLUSTER_MASTER_PTR (cluster s') = CLUSTER_MASTER_PTR (cluster s).
#[local] Instance same_master_preorder : PreOrder same_master.
Proof. split; [by intros s|]. unfold same_master. intros s1 s2 s3 H1' H2'. congruence. Qed.
Lemma master_net {A} (m : M W A) s : kept same_master (on_net m) s.
Proof. unfold kept, on_net. by destruct (m (net s)). Qed.
#[local] Hint Resolve master_net : kept.
Ltac keep_master := keep_by ltac:(idtac; lazymatch goal with
  | |- kept _ (modify _) _ => apply kept_modify; solve [done]
  | |- kept _ (change_cluster _) _ => apply kept_modify; solve [done]
  end).
Lemma pre_set_master_same i m s : kept same_master (cluster_pre_set_next_master i m) s.
Proof.
  unfold cluster_pre_set_next_master, cluster_relationship_pre_set_master, init_inactive_server_array,
    do_notify_master_changed, disconnect_server. keep_master.
Qed.
#[local] Hint Resolve pre_set_master_same : kept.
Lemma pre_servers_same m l b n s : kept same_master (notify_servers cluster_pre_set_next_master m l b n) s.
Proof. revert b n s. induction l as [|i l IH]; intros b n s; simpl; keep_master. Qed.
#[local] Hint Resolve pre_servers_same : kept.
Lemma pre_round_same x b s : kept same_master (notify_next cluster_pre_set_next_master x b) s.
Proof. unfold notify_next_master, notify_vote_next_leader. keep_master. Qed.

Lemma trigger_not_master s s' :
  own_ok s → cluster_relationship_trigger_reselect_master s = (Ok tt, s') → MYSELF_IS_MASTER (cluster s') = false.
Proof.
  intros Ho. destruct (MYSELF_IS_MASTER (cluster s)) eqn:Em.
  - destruct (trigger_resigns s Em) as (s1 & -> & Hr). intros [= <-]. apply bool_decide_eq_false.
    rewrite (resigned_not_master good s s1 (own_good s Ho) Hr). done.
  - unfold cluster_relationship_trigger_reselect_master. erewrite bind_ok by reflexivity.
    unfold MYSELF_IS_MASTER in Em. apply bool_decide_eq_false in Em. rewrite bool_decide_true by done.
    intros [= <-]. by apply bool_decide_eq_false.
Qed.

(** C3: when a server has had itself set as the master, over a network that loses
    requests and answers, then as many servers as the quorum asks for have it as their
    master and no other next master; the vote node counts as one more only if it is
    needed and has acknowledged the commit to this server, which it may have forgotten
    when the call returns.  When it has not succeeded, it is not the master. *)
Theorem elected_master_known stack s r s' :
  own_ok s → (a < length ids)%nat → MYSELF_IS_MASTER (cluster s) = false →
  cluster_notify_master_changed vote_server_count vote_sign ip_size join_padding a stack s = (r, s') →
  match r with
  | Ok _ => ∃ L (voted : bool), L `sublist_of` seq 0 (length ids) ∧ (∀ i, i ∈ L → known i s') ∧
      vote_committed voted s' ∧
      quorum_check s' (Z.of_nat (length L) + Z.b2z voted) = true
  | Err _ => MYSELF_IS_MASTER (cluster s') = false
  end.
Proof.
  intros Ho Ha Hm. unfold cluster_notify_master_changed.
  pose proof (pre_round_same FCFS_VOTE_SERVICE_PROTO_PRE_SET_NEXT_LEADER stack s) as K1.
  pose proof (own_notify_next cluster_pre_set_next_master a FCFS_VOTE_SERVICE_PROTO_PRE_SET_NEXT_LEADER stack s
    (λ i, own_pre_set i a)) as K2. unfold kept in K1, K2.
  destruct (notify_next cluster_pre_set_next_master FCFS_VOTE_SERVICE_PROTO_PRE_SET_NEXT_LEADER stack s)
    as [[[]|e] s1] eqn:E1; cbn [snd] in K1, K2; specialize (K2 Ho).
  2: { rewrite (bind_err _ _ _ _ _ E1). intros [= <- <-]. unfold MYSELF_IS_MASTER in *. unfold same_master in K1.
       by rewrite K1, (own_self s1 K2), <- (own_self s Ho). }
  rewrite (bind_ok _ _ _ _ _ E1).
  destruct (notify_next cluster_commit_next_master FCFS_VOTE_SERVICE_PROTO_COMMIT_NEXT_LEADER stack s1)
    as [[[]|e] s2] eqn:E2; rewrite (bind_ok _ _ _ _ _ (attempt_eq _ _ _ _ E2)).
  - intros [= <- <-]. by apply (commit_round stack s1).
  - assert (own_ok s2) as Ho2.
    { pose proof (own_notify_next cluster_commit_next_master a FCFS_VOTE_SERVICE_PROTO_COMMIT_NEXT_LEADER stack s1
        (λ i, own_commit i a)) as K3. unfold kept in K3. rewrite E2 in K3. by apply K3. }
    intros [(? & Et & ->)|([] & s3 & Et & Ef)]%bind_inv.
    + destruct (MYSELF_IS_MASTER (cluster s2)) eqn:Em.
      * destruct (trigger_resigns s2 Em) as (? & Et' & _). by rewrite Et' in Et.
      * unfold cluster_relationship_trigger_reselect_master in Et. erewrite bind_ok in Et by reflexivity.
        unfold MYSELF_IS_MASTER in Em. apply bool_decide_eq_false in Em. by rewrite bool_decide_true in Et.
    + injection Ef as <- <-. by apply (trigger_not_master s2).
Qed.
End peers.
End AuthClusterSpec.
