(* ===== verification/AuthClusterExamples.v ===== *)
(** * A cluster of authentication servers at work

    Three servers that deal with each other's requests: a master is elected and steps
    down, and a session is validated. *)
From Stdlib Require Import Init.Byte.
From S2P Require Import Prelude Fastcommon AuthProto Session SessionProofs SessionTable SessionSpec SessionStore AuthDB AuthDBSpec ServiceHandler ServiceProofs ServiceSpec SessionSubscribe SessionPush SessionSubscribeProofs SubscribeExamples ClientProto VoteServer VoteClient VoteSpec VoteExamples PoolUsage Election AuthCluster AuthDBLife ElectionSpec ElectionExamples AuthClusterSpec.
Import ServerSession(ServerSessionIdInfo, ServerSessionContext, part1, part2, server_session_get_fields, server_session_init_ex, server_session_add_ex, id_ok, cb_state, part1_persistent).
Import AuthProto VoteClient SessionSubscribe SessionPush PoolUsage Election ElectionSpec AuthCluster AuthDBLife AuthClusterSpec.
Import ServiceHandler(request, cmd, body, behind, response, resp_cmd, resp_body, cluster_vars,
  servers, CLUSTER_MASTER_PTR, CLUSTER_NEXT_MASTER, CLUSTER_MYSELF_PTR, MYSELF_IS_MASTER, ServerSessionFields,
  FCFSAuthClusterServerInfo, server_id, is_online, publish, dbuser, dbpool, pool_privs).
Import ClientProto(Transport, Connected, exchanges, fcfs_auth_client_proto_session_validate).
Import Ref AuthDBExamples.
Import ServiceExamples(blank_fields, demo_entropy, demo_address, secret).
Import ElectionExamples(server).
Local Open Scope Z_scope.

Module AuthClusterExamples.
#[local] Existing Instance ServiceExamples.frame.
#[local] Existing Instance ServiceExamples.frame_laws.
#[local] Existing Instance VoteExamples.vote_frame.
#[local] Existing Instance ElectionExamples.majority.
#[local] Existing Instance ElectionExamples.insertion_sort.
#[local] Existing Instance ElectionExamples.world_votes.
#[local] Existing Instance ElectionExamples.world_net.
#[local] Existing Instance ElectionExamples.world_malloc.

(** ** What the servers rely on *)
#[export] Instance search : ServerConfig := {|
  fc_server_get_by_id l id := fst <$> list_find (λ x, server_id x = id) l
|}.
#[export] Instance search_laws : ServerConfigLaws.
Proof.
  split.
  - intros l i x Hl Hi. simpl. apply fmap_Some. exists (i, x). split; [|done]. apply list_find_Some.
    split_and!; [done..|]. intros j y Hj Hlt Heq.
    assert (j = i); [|lia]. eapply (NoDup_lookup _ _ _ (server_id x) Hl).
    + by rewrite list_lookup_fmap, Hj, <- Heq.
    + by rewrite list_lookup_fmap, Hi.
  - intros l id i. simpl. intros ([j x] & H1 & ->)%fmap_Some. apply list_find_Some in H1 as (H1 & _).
    by apply lookup_lt_Some in H1.
Qed.
#[export] Instance cluster_frame : ClusterFrameLaws.
Proof. split. vm_compute. repeat constructor; rewrite ?elem_of_cons, ?elem_of_nil; lia. Qed.

#[export] Instance setup_dir : AdbSetup dir Ref.pool := {|
  adb_init_lock := mret tt; fast_allocator_init_ex := mret tt; fast_mblock_init_ex1 _ := mret empty_pool;
  uniq_skiplist_init := mret tt;
|}.
Abbreviation ADB := (adb_global dir Ref.pool (gmap string_t) (gmap Z)).
#[export] Instance cluster_db : ClusterDB ADB := life_cluster_db 100 true ann secret 0 (Ok tt).
#[export] Instance no_statistics : FdirStat unit := {|
  fdir_client_namespace_stat_array_init := mret tt; fdir_client_simple_init := mret tt;
  create_refresh_thread := mret tt; PoolUsage.get_master_connection := throw EIO; close_connection _ e := e;
  fdir_client_proto_nss_subscribe _ := throw EIO; fdir_client_proto_nss_fetch _ := throw EIO;
|}.

(** ** A server *)
Abbreviation Data := (auth_data ADB Ref.pool Ref.pool unit).
Abbreviation U := ElectionExamples.world.
Abbreviation PS := (cluster_state ADB Ref.pool Ref.pool unit U).
Definition sign : list byte := replicate 16 x2a.
Definition key : list byte := replicate 16 x3a.
Abbreviation process := (cluster_process (DB:=ADB) (MB:=Ref.pool) (MBt:=Ref.pool) (E:=unit) (W:=U) false sign key 46
  demo_address [x00; x00; x00]).
Abbreviation vars_of p := (my_cluster (W:=U) false p).

Definition vars_at (i : nat) (m : option nat) : cluster_vars :=
  {| servers := [server 1; server 2; server 3]; CLUSTER_MASTER_PTR := m; CLUSTER_NEXT_MASTER := None;
     CLUSTER_MYSELF_PTR := i |}.
Definition data_at (i : nat) (m : option nat) : Data := {|
  sess := server_session_init_ex 2 3 g_server_session_callbacks Ref.empty_pool (λ _, blank_fields)
    {| db := {| adb_ctx := run_ops setup empty_db; inited := true |}; SessionSubscribe.cluster := vars_at i m;
       subscribe_ctx := SubscribeExamples.idle |};
  usage := {| updater_ctx := {| PoolUsage.inited := true; running := true; current := 1; PoolUsage.next := 1 |};
              env := tt |};
|}.
Definition node_at {W} (w : W) (i : nat) (m : option nat) : node Data W :=
  {| Election.data := data_at i m; inactive := []; alloc := 3; VOTE_CONNECTION := None; SF_G_CONTINUE_FLAG := true; net := w |}.
Definition quiet : U := {| ElectionExamples.time := 100; ElectionExamples.up := false; ElectionExamples.asked := 0 |}.
Definition peer_at (i : nat) : PS := {| nd := node_at quiet i None; ctasks := λ _, idle_task |}.

(** ** The servers of the cluster *)
Definition configured (i : nat) (p : PS) : Prop :=
  server_id <$> servers (vars_of p) = [1; 2; 3] ∧ CLUSTER_MYSELF_PTR (vars_of p) = i.
Definition world : Type := { w : nat → PS | ∀ i, configured i (w i) }.
Definition boot : world := exist _ peer_at (λ i, conj eq_refl eq_refl).
Abbreviation peers w := (proj1_sig w).

Lemma put_ok (i : nat) (p : PS) (w : world) :
  configured i p → ∀ j, configured j ((<[i := p]> (peers w : nat → PS)) j).
Proof.
  intros Hp j. destruct (decide (i = j)) as [<-|]; [by rewrite fn_lookup_insert|].
  rewrite fn_lookup_insert_ne by done. apply (proj2_sig w).
Qed.
(** A request that would change the configuration is lost. *)
Definition exchange {A} (i : nat) (c : Z) (b : list byte) (rc : Z) (fits : Z → bool) (f : list byte → A)
    : M world A := λ w,
  let o := process 0 0 {| cmd := c; body := b; behind := [] |} (peers w i) in
  match decide (configured i o.2) with
  | left H => (match o.1 with
               | Ok resp => if (resp_cmd resp =? rc) && fits (Z.of_nat (length (resp_body resp)))
                            then Ok (f (resp_body resp)) else Err EINVAL
               | Err e => Err e
               end, exist _ _ (put_ok i o.2 w H))
  | right _ => (Err EIO, w)
  end.
#[export] Instance world_votes : VoteNet world := {|
  rand w := (0, w);
  fc_server_make_connection _ w := (Err EIO, w);
  conn_pool_connect_server _ w := (Err EIO, w);
  conn_pool_disconnect_server _ w := w;
  FC_CONNECTION_SERVER_EQUAL1 _ _ _ := true;
  sf_send_and_recv_response i c b rc n := exchange i c b rc (Z.eqb n) id;
  sf_send_and_recv_none_body_response i c b rc := exchange i c b rc (Z.eqb 0) (λ _, tt);
  sf_send_and_check_response_header i c b rc := throw EIO;
  tcprecvdata_nb _ _ := throw EIO;
|}.
#[export] Instance world_net : ClusterNet world := {|
  fc_server_make_connection_ex i w := (Ok i, w);
  g_current_time _ := 100; init_pthread_lock := mret tt; fc_create_thread := mret tt;
|}.
#[export] Instance world_malloc : Malloc world := {| fc_malloc _ w := (true, w) |}.

Lemma exchange_delivered {A} i c b rc fits (f : list byte → A) :
  delivered false sign key 46 demo_address [x00; x00; x00] (λ w : world, peers w) (λ _ c, Some c) i
    {| cmd := c; body := b; behind := [] |} (exchange i c b rc fits f).
Proof.
  intros w. unfold exchange. set (req := {| cmd := c |}). destruct (decide _) as [Hc|Hc]; cbn [proj1_sig].
  - split; [intros j Hj; by rewrite fn_lookup_insert_ne|]. exists 0%nat, 0%nat. rewrite fn_lookup_insert.
    split; [by right|]. clear Hc. destruct (process 0 0 req (peers w i)) as [[resp|e] p']; simpl; [by eauto|done].
  - split; [done|]. exists 0%nat, 0%nat. by split; [left|].
Qed.
#[export] Instance world_link : PeerLink false sign key 46 demo_address [x00; x00; x00] [1; 2; 3]
  (λ w : world, peers w) (λ _ c, Some c).
Proof.
  split.
  - intros w i. apply (proj2_sig w).
  - intros i w j. reflexivity.
  - intros i w c w' Hc. by injection Hc as <- <-.
  - intros i w j. reflexivity.
  - intros a w j. reflexivity.
  - intros w j. reflexivity.
  - intros c w j. reflexivity.
  - intros c x b rc. apply exchange_delivered.
  - intros c x b rc n. apply exchange_delivered.
Qed.

(** ** Server 3 is elected *)
Abbreviation Own := (node Data world).
Definition third : Own := node_at boot 2 None.
Abbreviation elect := (cluster_notify_master_changed (Server0:=my_own false) (W:=world) 0 [] 46 [] 2 false).

Lemma ids_fine : NoDup [1; 2; 3] ∧ Forall (in_sint 32) [1; 2; 3].
Proof.
  split; [repeat constructor; rewrite ?elem_of_cons, ?elem_of_nil; lia|].
  repeat constructor; vm_compute; done.
Qed.
Lemma third_own : own_ok (DB:=ADB) (MB:=Ref.pool) (MBt:=Ref.pool) (E:=unit) (W:=world) false [1; 2; 3] 2 third.
Proof. split; exact eq_refl. Qed.
Lemma third_follows : MYSELF_IS_MASTER (Election.cluster (Server0:=my_own false) third) = false.
Proof. exact eq_refl. Qed.
Lemma two_of_three : (2 < length [1; 2; 3])%nat.
Proof. simpl. lia. Qed.
Lemma third_elected : elect third = (Ok tt, (elect third).2).
Proof. apply run_eta. vm_compute. reflexivity. Qed.

Lemma elected_master_known_witness :
  ∃ (L : list nat) (voted : bool),
    (∀ i, i ∈ L → known (W:=world) false (λ w : world, peers w) 2 i (elect third).2) ∧
    quorum_check (Server0:=my_own false) (elect third).2 (Z.of_nat (length L) + Z.b2z voted) = true.
Proof.
  pose proof (elected_master_known false sign key 46 demo_address [x00; x00; x00] 0 [] [] [1; 2; 3]
    (λ w : world, peers w) (λ _ c, Some c) ids_fine 2 false third _ _ third_own two_of_three third_follows
    third_elected) as He.
  destruct He as (L & voted & _ & HL & Hv & Hq). exists L, voted. split; [exact HL|exact Hq].
Defined.

(** ** Bob's session on the master *)
Abbreviation Srv := (ServerSessionContext ServerSessionFields (server_state ADB Ref.pool) Ref.pool).
Definition bob_id : ServerSessionIdInfo := {| part1 := 7; part2 := 7 |}.
Definition with_bob (c : Srv) : Srv :=
  match server_session_add_ex [] bob_id SubscribeExamples.bob_fields true false c with
  | Some (_, c') => c'
  | None => c
  end.
Definition master : PS :=
  {| nd := set_data (set_sess (with_bob (sess (data_at 0 (Some 0%nat)))) (data_at 0 (Some 0%nat)))
             (node_at quiet 0 (Some 0%nat));
     ctasks := λ _, idle_task |}.
Lemma bob_id_ok : id_ok bob_id.
Proof. split; simpl; wrap_lia. Qed.

Lemma master_wf : SessionTable.wf (sess (Election.data (nd master))).
Proof.
  assert (SessionTable.wf (sess (data_at 0 (Some 0%nat)))) as Hwf by (by apply SessionSpec.wf_init).
  change (SessionTable.wf (with_bob (sess (data_at 0 (Some 0%nat))))). unfold with_bob.
  destruct (server_session_add_ex _ _ _ _ _ _) as [[r c']|] eqn:Ea; [|done].
  apply (SessionSpec.wf_step _ _ Hwf). eapply SessionSpec.step_add; [|exact Ea].
  intros _. split; [exact bob_id_ok|]. vm_compute. reflexivity.
Qed.

Lemma stepping_down_ends_sessions_witness :
  server_session_get_fields (sess (Election.data (nd master))) bob_id = Ok SubscribeExamples.bob_fields ∧
  ∃ n', cluster_relationship_trigger_reselect_master (Server0:=this_server false) (nd master) = (Ok tt, n') ∧
    session_validate (sess (Election.data n')) bob_id 117 0 0 = Err SF_SESSION_ERROR_NOT_EXIST.
Proof.
  split; [vm_compute; reflexivity|].
  destruct (stepping_down_ends_sessions false (nd master) eq_refl master_wf eq_refl)
    as (n' & E1 & _ & _ & _ & _ & Hid).
  exists n'. split; [exact E1|exact (Hid bob_id bob_id_ok 117 0 0)].
Defined.

Definition exchange_at {A} (c : Z) (b : list byte) (rc : Z) (fits : Z → bool) (f : list byte → A) : M PS A := λ s,
  match process 0 0 {| cmd := c; body := b; behind := [] |} s with
  | (Ok resp, s') => (if (resp_cmd resp =? rc) && fits (Z.of_nat (length (resp_body resp)))
                      then Ok (f (resp_body resp)) else Err EINVAL, s')
  | (Err e, s') => (Err e, s')
  end.
Lemma exchange_at_ok {A} c b rc fits (f : list byte → A) :
  exchanges (process 0 0) (λ _, []) c b rc fits f (exchange_at c b rc fits f).
Proof.
  intros s. unfold exchange_at. destruct (process 0 0 _ s) as [[resp|e] s'].
  - destruct (_ && _); [done|by eexists].
  - by eexists.
Qed.
#[local] Instance transport : Transport PS := {|
  ClientProto.sf_send_and_recv_response c b rc n := exchange_at c b rc (Z.eqb n) id;
  ClientProto.sf_send_and_recv_none_body_response c b rc := exchange_at c b rc (Z.eqb 0) (λ _, tt);
  ClientProto.sf_send_and_recv_response_ex1 c b rc n := exchange_at c b rc (λ k, k <=? n) id;
  ClientProto.sf_send_and_recv_vary_response c b rc n := exchange_at c b rc (Z.leb n) id;
  ClientProto.fast_mpool_alloc_string_ex v := mret v;
  ClientProto.sf_send_and_check_response_header _ _ _ := throw EIO;
  ClientProto.tcprecvdata_nb _ := throw EIO;
  ClientProto.get_connection := throw EIO;
  ClientProto.get_master_connection := throw EIO;
  ClientProto.SF_CLIENT_RELEASE_CONNECTION _ := mret tt;
|}.
#[local] Instance transport_connected : Connected PS (process 0 0) (λ _, []).
Proof. split; intros; apply exchange_at_ok. Qed.

(** Bob may read and write in the pool, and asks for one of both in the directory. *)
Lemma validate_roundtrip_witness :
  fcfs_auth_client_proto_session_validate (packed_id bob_id) key (replicate 7 x00) (question_type AskFdir) 0 2 master =
  (Ok 0, master).
Proof.
  pose proof (validate_roundtrip (leftover := λ _, []) false sign key 46 demo_address [x00; x00; x00]
    bob_id key (replicate 7 x00) AskFdir 0 2 master bob_id_ok eq_refl eq_refl ltac:(wrap_lia) ltac:(wrap_lia)) as Hv.
  rewrite Hv. f_equal.
Defined.

(** ** The state of a server *)
Lemma cluster_server_invariant_witness :
  server_ok (W:=U) false 3 0 master ∧
  server_ok (W:=U) false 3 0
    (process 5 0 {| cmd := FCFS_AUTH_CLUSTER_PROTO_JOIN_MASTER; body := int2buff 2 ++ replicate 4 x00 ++ sign;
                    behind := [] |} master).2.
Proof.
  assert (server_ok (W:=U) false 3 0 master) as Hm.
  { split; [|intros t Ht; discriminate Ht]. split; [reflexivity|]. split; [|split; reflexivity].
    split; [constructor|constructor|reflexivity]. }
  split; [exact Hm|].
  exact (proj1 (cluster_server_invariant false sign key 46 demo_address [x00; x00; x00] 3 0 0 [] [] (λ _ n, n) 0 0
    master 5 0 _ 0 false [] {| fail_count := 0; ping_start_time := 0; mconn := None |} Hm (λ _ x Hx, Hx))).
Defined.
End AuthClusterExamples.
