(* ===== verification/Dao.v ===== *)
(** * The database in the directory service (src/auth/server/db/dao/)

    Users, pools and grants are directories and files of FastDIR in a namespace of their
    own: [/home/<user>] with the attributes of the user, [/home/<user>/created/<pool>]
    and [/home/<user>/granted/<pool id>].  The client of FastDIR is an interface.  The
    memory of the arrays of directory entries is not modelled, apart from the
    allocations that may fail. *)
From Stdlib Require Import Init.Byte Strings.String.
From S2P Require Import Prelude Fastcommon AuthDB AuthDBLife.
Import AuthDB.
Local Open Scope Z_scope.

(** A path within a namespace. *)
Record FDIRDEntryFullName := { ns : string_t; path : string_t }.

(** The client of FastDIR (fdir_client.h), the operator being root throughout, and the
    strings of a memory pool.  A directory entry is a name and an inode. *)
Class FdirClient (W : Type) := {
  fdir_client_create_dentry : FDIRDEntryFullName → Z → M W Z;
  fdir_client_lookup_inode_by_path : FDIRDEntryFullName → M W Z;
  fdir_client_remove_dentry : FDIRDEntryFullName → M W unit;
  fdir_client_set_xattr_by_inode : string_t → Z → string_t → string_t → M W unit;
  fdir_client_get_xattr_by_inode : string_t → Z → string_t → Z → M W string_t;
  fdir_client_list_dentry_by_inode : string_t → Z → M W (list (string_t * Z));
  fdir_client_list_dentry_by_path : FDIRDEntryFullName → M W (list (string_t * Z));
  fdir_client_dentry_array_init : M W unit;
  fast_mpool_alloc_string : string_t → M W string_t;
}.

Module Dao.

(** ** Numbers in text ([strtoll] of the C library, base 10) *)

Definition digit (b : byte) : option Z :=
  let z := Z.of_N (Byte.to_N b) in if (48 <=? z) && (z <=? 57) then Some (z - 48) else None.
Definition isspace (b : byte) : bool :=
  let z := Z.of_N (Byte.to_N b) in (z =? 32) || (9 <=? z) && (z <=? 13).

Fixpoint skip_spaces (s : string_t) : string_t :=
  match s with b :: s' => if isspace b then skip_spaces s' else s | [] => [] end.
Definition read_sign (s : string_t) : bool * string_t :=
  match s with
  | x2d :: s' => (true, s')
  | x2b :: s' => (false, s')
  | _ => (false, s)
  end.
Fixpoint read_digits (n : Z) (s : string_t) : Z * string_t :=
  match s with
  | b :: s' => match digit b with Some d => read_digits (10 * n + d) s' | None => (n, s) end
  | [] => (n, [])
  end.

(** The number, limited to 64 bits, and the rest of the text ([endptr]); a text without
    digits is 0 and all of it is left. *)
Definition strtoll (s : string_t) : Z * string_t :=
  let '(neg, t) := read_sign (skip_spaces s) in
  match t with
  | b :: _ =>
      match digit b with
      | Some _ => let '(n, rest) := read_digits 0 t in
                  ((if neg : bool then Z.max (- 2 ^ 63) (- n) else Z.min (2 ^ 63 - 1) n), rest)
      | None => (0, s)
      end
  | [] => (0, s)
  end.

(** [*endptr == '\0'] *)
Definition at_end (s : string_t) : bool :=
  match s with [] => true | b :: _ => bool_decide (b = x00) end.

(** ** Names and paths (types.h, func.h, func.c) *)

Definition AUTH_NAMESPACE_STR : string_t := list_byte_of_string "sys-auth".
Definition AUTH_BASE_PATH_STR : string_t := list_byte_of_string "/home".
Definition AUTH_DIR_NAME_CREATED_STR : string_t := list_byte_of_string "created".
Definition AUTH_DIR_NAME_GRANTED_STR : string_t := list_byte_of_string "granted".
Definition AUTH_XTTR_NAME_PASSWD : string_t := list_byte_of_string "passwd".
Definition AUTH_XTTR_NAME_PRIV : string_t := list_byte_of_string "priv".
Definition AUTH_XTTR_NAME_STATUS : string_t := list_byte_of_string "status".
Definition AUTH_XTTR_NAME_QUOTA : string_t := list_byte_of_string "quota".
Definition AUTH_XTTR_NAME_FDIR : string_t := list_byte_of_string "fdir".
Definition AUTH_XTTR_NAME_FSTORE : string_t := list_byte_of_string "fstore".
Definition AUTH_XTTR_NAME_POOL_AUTO_ID : string_t := list_byte_of_string "auto_pid".
Definition DAO_NAMESPACE : string_t := AUTH_NAMESPACE_STR.

(** [0700 | S_IFDIR] and [0700 | S_IFREG] *)
Definition DAO_MODE_DIR : Z := 16832.
Definition DAO_MODE_FILE : Z := 33216.

Definition slash : byte := x2f.

Definition AUTH_SET_BASE_PATH : FDIRDEntryFullName :=
  {| ns := AUTH_NAMESPACE_STR; path := AUTH_BASE_PATH_STR |}.
Definition AUTH_SET_USER_HOME (username : string_t) : FDIRDEntryFullName :=
  {| ns := AUTH_NAMESPACE_STR; path := AUTH_BASE_PATH_STR ++ [slash] ++ username |}.
Definition AUTH_SET_USER_PATH1 (username subdir1 : string_t) : FDIRDEntryFullName :=
  {| ns := AUTH_NAMESPACE_STR;
     path := AUTH_BASE_PATH_STR ++ [slash] ++ username ++ [slash] ++ subdir1 |}.
Definition AUTH_SET_USER_PATH2 (username subdir1 subdir2 : string_t) : FDIRDEntryFullName :=
  {| ns := AUTH_NAMESPACE_STR;
     path := AUTH_BASE_PATH_STR ++ [slash] ++ username ++ [slash] ++ subdir1 ++ [slash] ++ subdir2 |}.
Definition AUTH_SET_GRANTED_POOL_PATH `{!FcItoa} (username : string_t) (granted_id : Z)
    : FDIRDEntryFullName :=
  {| ns := AUTH_NAMESPACE_STR;
     path := AUTH_BASE_PATH_STR ++ [slash] ++ username ++ [slash] ++ AUTH_DIR_NAME_GRANTED_STR ++
             [slash] ++ fc_itoa granted_id |}.

Section dao.
Context {W : Type} `{!FdirClient W, !Malloc W, !NameAllocator W, !FcItoa}.

(** The client's context, and the inode of [/home] as the last load found it. *)
Record dao_state := { client : W; DAO_BASE_PATH_INODE : Z }.
Abbreviation S := dao_state.

Definition on_client {A} (m : M W A) : M S A := λ s,
  let '(r, w) := m (client s) in
  (r, {| client := w; DAO_BASE_PATH_INODE := DAO_BASE_PATH_INODE s |}).

(** ** Attributes (func.h) *)

Definition dao_set_xattr_string (inode : Z) (name value : string_t) : M S unit :=
  on_client (fdir_client_set_xattr_by_inode DAO_NAMESPACE inode name value).

Definition dao_set_xattr_integer (inode : Z) (name : string_t) (nv : Z) : M S unit :=
  dao_set_xattr_string inode name (fc_itoa nv).

Definition dao_get_xattr_string (inode : Z) (name : string_t) (size : Z) : M S string_t :=
  r ← attempt (on_client (fdir_client_get_xattr_by_inode DAO_NAMESPACE inode name size));
  match r with
  | Err ENODATA => mret []
  | _ => lift r
  end.

Definition dao_get_xattr_int64 (inode : Z) (name : string_t) : M S Z :=
  value ← dao_get_xattr_string inode name 31;
  match value with
  | [] => mret 0
  | _ => let '(nv, endptr) := strtoll value in
         if at_end endptr then mret nv else throw EINVAL
  end.

Definition dao_get_xattr_int32 (inode : Z) (name : string_t) : M S Z :=
  n ← dao_get_xattr_int64 inode name; mret (int32 n).

(** ** Users (user.c) *)

Definition user_make_subdir (username subdir : string_t) (check_exist : bool) : M S unit :=
  let path := AUTH_SET_USER_PATH1 username subdir in
  found ← (if check_exist then
             r ← attempt (on_client (fdir_client_lookup_inode_by_path path));
             match r with
             | Ok _ => mret true
             | Err ENOENT => mret false
             | Err e => throw e
             end
           else mret false);
  if found : bool then mret tt
  else
    r ← attempt (on_client (fdir_client_create_dentry path DAO_MODE_DIR));
    match r with
    | Ok _ | Err EEXIST => mret tt
    | Err e => throw e
    end.

(** The inode is the id of the user. *)
Definition dao_user_create (user : FCFSAuthUserInfo) : M S Z :=
  let path := AUTH_SET_USER_HOME (user_name user) in
  r ← attempt (on_client (fdir_client_create_dentry path DAO_MODE_DIR));
  '(inode, check_exist) ←
    match r with
    | Ok inode => mret (inode, false)
    | Err EEXIST => inode ← on_client (fdir_client_lookup_inode_by_path path); mret (inode, true)
    | Err e => throw e
    end;
  _ ← user_make_subdir (user_name user) AUTH_DIR_NAME_CREATED_STR check_exist;
  _ ← user_make_subdir (user_name user) AUTH_DIR_NAME_GRANTED_STR check_exist;
  _ ← dao_set_xattr_string inode AUTH_XTTR_NAME_PASSWD (default [] (user_passwd user));
  _ ← dao_set_xattr_integer inode AUTH_XTTR_NAME_PRIV (user_priv user);
  _ ← dao_set_xattr_integer inode AUTH_XTTR_NAME_STATUS FCFS_AUTH_USER_STATUS_NORMAL;
  mret inode.

Definition dao_user_update_priv (user_id priv : Z) : M S unit :=
  dao_set_xattr_integer user_id AUTH_XTTR_NAME_PRIV priv.
Definition dao_user_update_passwd (user_id : Z) (passwd : string_t) : M S unit :=
  dao_set_xattr_string user_id AUTH_XTTR_NAME_PASSWD passwd.
Definition dao_user_remove (user_id : Z) : M S unit :=
  dao_set_xattr_integer user_id AUTH_XTTR_NAME_STATUS FCFS_AUTH_USER_STATUS_DELETED.

(** The loads start with arrays of 256 elements; [sz] is the element size. *)
Definition array_for (sz count : Z) : M S unit :=
  if count >? 256 then
    λ s, let '(ok, w) := fc_malloc (sz * count) (client s) in
         (if ok : bool then Ok tt else Err ENOMEM,
          {| client := w; DAO_BASE_PATH_INODE := DAO_BASE_PATH_INODE s |})
  else mret tt.

Definition dump_user (entry : string_t * Z) : M S FCFSAuthUserInfo :=
  value ← dao_get_xattr_string entry.2 AUTH_XTTR_NAME_PASSWD 256;
  passwd ← on_client (fast_mpool_alloc_string value);
  priv ← dao_get_xattr_int64 entry.2 AUTH_XTTR_NAME_PRIV;
  status ← dao_get_xattr_int32 entry.2 AUTH_XTTR_NAME_STATUS;
  mret {| user_id := entry.2; user_name := entry.1; user_passwd := Some passwd;
          user_priv := priv; user_status := status |}.

(** The loops over the directory entries. *)
Fixpoint dump_loop {A} (dump : string_t * Z → M S A) (entries : list (string_t * Z)) : M S (list A) :=
  match entries with
  | [] => mret []
  | entry :: entries => a ← dump entry; l ← dump_loop dump entries; mret (a :: l)
  end.

Definition dump_to_user_array (darray : list (string_t * Z)) : M S (list FCFSAuthUserInfo) :=
  _ ← array_for 56 (Z.of_nat (length darray)); dump_loop dump_user darray.

(** The base directory is created where there is none. *)
Definition dao_user_list : M S (list FCFSAuthUserInfo) :=
  let path := AUTH_SET_BASE_PATH in
  _ ← on_client fdir_client_dentry_array_init;
  r ← attempt (on_client (fdir_client_lookup_inode_by_path path));
  inode ← match r with
          | Ok inode => mret inode
          | Err ENOENT =>
              _ ← on_client (fdir_client_create_dentry
                    {| ns := AUTH_NAMESPACE_STR; path := [slash] |} DAO_MODE_DIR);
              on_client (fdir_client_create_dentry path DAO_MODE_DIR)
          | Err e => throw e
          end;
  darray ← on_client (fdir_client_list_dentry_by_inode DAO_NAMESPACE inode);
  dump_to_user_array darray.

(** ** Storage pools (storage_pool.c) *)

Definition dao_spool_create (username : string_t) (spool : FCFSAuthStoragePoolInfo) : M S Z :=
  let path := AUTH_SET_USER_PATH2 username AUTH_DIR_NAME_CREATED_STR (pool_name spool) in
  r ← attempt (on_client (fdir_client_create_dentry path DAO_MODE_FILE));
  inode ← match r with
          | Ok inode => mret inode
          | Err EEXIST => on_client (fdir_client_lookup_inode_by_path path)
          | Err e => throw e
          end;
  _ ← dao_set_xattr_integer inode AUTH_XTTR_NAME_QUOTA (pool_quota spool);
  _ ← dao_set_xattr_integer inode AUTH_XTTR_NAME_STATUS FCFS_AUTH_POOL_STATUS_NORMAL;
  mret inode.

Definition dao_spool_remove (spool_id : Z) : M S unit :=
  dao_set_xattr_integer spool_id AUTH_XTTR_NAME_STATUS FCFS_AUTH_POOL_STATUS_DELETED.
Definition dao_spool_set_quota (spool_id quota : Z) : M S unit :=
  dao_set_xattr_integer spool_id AUTH_XTTR_NAME_QUOTA quota.

(** The used bytes are not set: [stack] is what the array holds. *)
Definition dump_spool (stack : Z) (entry : string_t * Z) : M S FCFSAuthStoragePoolInfo :=
  quota ← dao_get_xattr_int64 entry.2 AUTH_XTTR_NAME_QUOTA;
  status ← dao_get_xattr_int32 entry.2 AUTH_XTTR_NAME_STATUS;
  mret {| pool_id := entry.2; pool_name := entry.1; pool_quota := quota; pool_used := stack;
          pool_status := status |}.

Definition dump_to_spool_array (stack : Z) (darray : list (string_t * Z))
    : M S (list FCFSAuthStoragePoolInfo) :=
  _ ← array_for 48 (Z.of_nat (length darray)); dump_loop (dump_spool stack) darray.

Definition dao_spool_list (stack : Z) (username : string_t) : M S (list FCFSAuthStoragePoolInfo) :=
  _ ← on_client fdir_client_dentry_array_init;
  darray ← on_client (fdir_client_list_dentry_by_path
             (AUTH_SET_USER_PATH1 username AUTH_DIR_NAME_CREATED_STR));
  dump_to_spool_array stack darray.

Definition dao_spool_set_base_path_inode : M S unit :=
  inode ← on_client (fdir_client_lookup_inode_by_path AUTH_SET_BASE_PATH);
  modify (λ s, {| client := client s; DAO_BASE_PATH_INODE := inode |}).
Definition dao_spool_get_auto_id : M S Z :=
  s ← get; dao_get_xattr_int64 (DAO_BASE_PATH_INODE s) AUTH_XTTR_NAME_POOL_AUTO_ID.
Definition dao_spool_set_auto_id (auto_id : Z) : M S unit :=
  s ← get; dao_set_xattr_integer (DAO_BASE_PATH_INODE s) AUTH_XTTR_NAME_POOL_AUTO_ID auto_id.

(** ** Grants (granted_pool.c) *)

Definition dao_granted_create (username : string_t) (granted : FCFSAuthGrantedPoolInfo) : M S Z :=
  let path := AUTH_SET_GRANTED_POOL_PATH username (granted_pool_id granted) in
  r ← attempt (on_client (fdir_client_lookup_inode_by_path path));
  inode ← match r with
          | Ok inode => mret inode
          | Err ENOENT => on_client (fdir_client_create_dentry path DAO_MODE_FILE)
          | Err e => throw e
          end;
  _ ← dao_set_xattr_integer inode AUTH_XTTR_NAME_FDIR (fdir (granted_privs granted));
  _ ← dao_set_xattr_integer inode AUTH_XTTR_NAME_FSTORE (fstore (granted_privs granted));
  mret inode.

Definition dao_granted_remove (username : string_t) (pool_id : Z) : M S unit :=
  on_client (fdir_client_remove_dentry (AUTH_SET_GRANTED_POOL_PATH username pool_id)).

(** The name of an entry is a number, cut off at 31 bytes; what follows the number is
    not looked at. *)
Definition dump_granted (entry : string_t * Z) : M S FCFSAuthGrantedPoolInfo :=
  fdir ← dao_get_xattr_int32 entry.2 AUTH_XTTR_NAME_FDIR;
  fstore ← dao_get_xattr_int32 entry.2 AUTH_XTTR_NAME_FSTORE;
  mret {| granted_id := entry.2; granted_pool_id := (strtoll (take 31 entry.1)).1;
          granted_privs := {| fdir := fdir; fstore := fstore |} |}.

Definition dump_to_granted_array (darray : list (string_t * Z)) : M S (list FCFSAuthGrantedPoolInfo) :=
  _ ← array_for 56 (Z.of_nat (length darray)); dump_loop dump_granted darray.

Definition dao_granted_list (username : string_t) : M S (list FCFSAuthGrantedPoolInfo) :=
  _ ← on_client fdir_client_dentry_array_init;
  darray ← on_client (fdir_client_list_dentry_by_path
             (AUTH_SET_USER_PATH1 username AUTH_DIR_NAME_GRANTED_STR));
  dump_to_granted_array darray.

(** ** As the backend of the database *)

Definition fdir_dao (stack : Z) : AuthDao S := {|
  AuthDB.dao_user_create := dao_user_create;
  AuthDB.dao_user_remove := dao_user_remove;
  AuthDB.dao_user_update_priv := dao_user_update_priv;
  AuthDB.dao_user_update_passwd := dao_user_update_passwd;
  AuthDB.dao_user_list := dao_user_list;
  AuthDB.dao_spool_create := dao_spool_create;
  AuthDB.dao_spool_remove := dao_spool_remove;
  AuthDB.dao_spool_set_quota := dao_spool_set_quota;
  AuthDB.dao_spool_list := dao_spool_list stack;
  AuthDB.dao_granted_create := dao_granted_create;
  AuthDB.dao_granted_remove := dao_granted_remove;
  AuthDB.dao_granted_list := dao_granted_list;
  AuthDB.dao_spool_set_base_path_inode := dao_spool_set_base_path_inode;
  AuthDB.dao_spool_get_auto_id := dao_spool_get_auto_id;
  AuthDB.dao_spool_set_auto_id := dao_spool_set_auto_id;
|}.

#[export] Instance dao_names : NameAllocator S := {|
  fast_allocator_alloc_string v := on_client (fast_allocator_alloc_string v);
|}.
#[export] Instance dao_malloc : Malloc S := {|
  fc_malloc n s := let '(ok, w) := fc_malloc n (client s) in
    (ok, {| client := w; DAO_BASE_PATH_INODE := DAO_BASE_PATH_INODE s |});
|}.
#[export] Instance dao_setup {MB} `{!AdbSetup W MB} : AdbSetup S MB := {|
  adb_init_lock := on_client (adb_init_lock (MB:=MB));
  fast_allocator_init_ex := on_client (fast_allocator_init_ex (MB:=MB));
  fast_mblock_init_ex1 i := on_client (fast_mblock_init_ex1 i);
  uniq_skiplist_init := on_client (uniq_skiplist_init (MB:=MB));
|}.
End dao.
Arguments dao_state : clear implicits.
End Dao.
