(* ===== verification/DaoText.v ===== *)
(** * Numbers and paths as text

    The decimal text of a number is read back by [strtoll], and a path built from names
    has these names as its components. *)
From Stdlib Require Import Init.Byte Strings.Byte.
From S2P Require Import Prelude Fastcommon Dao.
Import Dao.
Local Open Scope Z_scope.

Module DaoText.

(** ** Numbers as text *)

Definition digit_byte (n : Z) : byte := default x00 (Byte.of_N (Z.to_N (48 + n))).

Fixpoint digits (fuel : nat) (n : Z) (acc : string_t) : string_t :=
  match fuel with
  | O => acc
  | S fuel => let acc := digit_byte (n mod 10) :: acc in
              if n <? 10 then acc else digits fuel (n / 10) acc
  end.
(** The decimal text of a 64-bit integer, which has at most 19 digits. *)
Definition decimal (n : Z) : string_t :=
  if n <? 0 then x2d :: digits 19 (- n) [] else digits 19 n [].

Lemma digit_byte_spec n : 0 ≤ n < 10 → digit (digit_byte n) = Some n.
Proof.
  intros Hn. assert (n = 0 ∨ n = 1 ∨ n = 2 ∨ n = 3 ∨ n = 4 ∨ n = 5 ∨ n = 6 ∨ n = 7 ∨ n = 8 ∨ n = 9)
    as Hc by lia. by repeat destruct Hc as [->|Hc]; [..|subst].
Qed.

Lemma read_digits_digits fuel m n acc :
  0 ≤ n < 10 ^ Z.of_nat fuel → (0 < fuel)%nat →
  ∃ j : nat, read_digits m (digits fuel n acc) = read_digits (m * 10 ^ Z.of_nat j + n) acc.
Proof.
  revert n acc. induction fuel as [|fuel IH]; intros n acc Hn Hf; [lia|]. simpl digits.
  pose proof (Z.mod_pos_bound n 10). pose proof (Z.div_mod n 10).
  destruct (Z.ltb_spec n 10) as [Hlt|Hge].
  - exists 1%nat. simpl read_digits. rewrite digit_byte_spec by lia. rewrite Z.mod_small by lia.
    f_equal. lia.
  - rewrite Nat2Z.inj_succ, Z.pow_succ_r in Hn by lia.
    assert (0 ≤ n / 10 < 10 ^ Z.of_nat fuel) as Hq
      by (split; [apply Z.div_pos; lia|apply Z.div_lt_upper_bound; lia]).
    destruct (IH (n / 10) (digit_byte (n mod 10) :: acc) Hq) as [j Hj];
      [destruct fuel; [simpl in Hq|]; lia|].
    exists (S j). rewrite Hj. simpl. rewrite digit_byte_spec by lia. f_equal.
    rewrite Nat2Z.inj_succ, Z.pow_succ_r by lia. lia.
Qed.

Lemma digits_shape fuel n acc :
  0 ≤ n → Forall (λ b, digit b ≠ None) acc →
  Forall (λ b, digit b ≠ None) (digits fuel n acc) ∧
  (length (digits fuel n acc) ≤ fuel + length acc)%nat ∧
  ((0 < fuel)%nat → digits fuel n acc ≠ []).
Proof.
  revert n acc. induction fuel as [|fuel IH]; intros n acc Hn Hacc; simpl; [split_and!; [done|lia|lia]|].
  pose proof (Z.mod_pos_bound n 10).
  assert (Forall (λ b, digit b ≠ None) (digit_byte (n mod 10) :: acc)) as Hacc'
    by (constructor; [rewrite digit_byte_spec by lia|]; done).
  destruct (n <? 10); [split_and!; [done|simpl; lia|done]|].
  destruct (IH (n / 10) _ ltac:(apply Z.div_pos; lia) Hacc') as (IH1 & IH2 & IH3).
  simpl in IH2. split_and!; [done|lia|]. intros _. destruct fuel; [done|]. apply IH3. lia.
Qed.

Lemma digit_not_special b : digit b ≠ None → isspace b = false ∧ b ≠ x2d ∧ b ≠ x2b ∧ b ≠ x2f.
Proof.
  unfold digit, isspace. intros Hd. destruct (Z.leb_spec 48 (Z.of_N (Byte.to_N b))); [|done].
  destruct (Z.leb_spec (Z.of_N (Byte.to_N b)) 57); [|done].
  split_and!; [|by intros -> ..]. destruct (Z.eqb_spec (Z.of_N (Byte.to_N b)) 32); [lia|].
  destruct (Z.leb_spec (Z.of_N (Byte.to_N b)) 13); [lia|]. by rewrite andb_false_r.
Qed.

Lemma strtoll_digits n neg s :
  0 ≤ n < 10 ^ 19 → read_sign (skip_spaces s) = (neg, digits 19 n []) →
  strtoll s = (if neg : bool then Z.max (- 2 ^ 63) (- n) else Z.min (2 ^ 63 - 1) n, []).
Proof.
  intros Hn Hs. unfold strtoll. rewrite Hs.
  destruct (digits_shape 19 n [] ltac:(lia) (Forall_nil_2 _)) as (Hall & _ & Hne).
  destruct (read_digits_digits 19 0 n []) as [j Hj]; [done|lia|].
  destruct (digits 19 n []) as [|b t] eqn:E; [by destruct Hne; [lia|]|].
  apply Forall_cons in Hall as [Hb _]. destruct (digit b) eqn:Eb; [|done].
  rewrite Hj. simpl. f_equal.
Qed.

(** What is written is read back. *)
Lemma strtoll_decimal n : in_sint 64 n → strtoll (decimal n) = (n, []).
Proof.
  unfold in_sint, decimal. change (2 ^ (64 - 1)) with 9223372036854775808. intros Hn.
  destruct (Z.ltb_spec n 0) as [Hneg|Hpos].
  - rewrite (strtoll_digits (- n) true) by (done || lia). f_equal. lia.
  - rewrite (strtoll_digits n false); [f_equal; lia|lia|].
    destruct (digits_shape 19 n [] ltac:(lia) (Forall_nil_2 _)) as (Hall & _ & Hne).
    destruct (digits 19 n []) as [|b t]; [by destruct Hne; [lia|]|].
    apply Forall_cons in Hall as [Hb _]. destruct (digit_not_special b Hb) as (Hs & H1 & H2 & _).
    simpl. rewrite Hs. by destruct b.
Qed.

Lemma decimal_inj n m : in_sint 64 n → in_sint 64 m → decimal n = decimal m → n = m.
Proof.
  intros Hn Hm Heq. pose proof (strtoll_decimal n Hn) as H1. rewrite Heq, strtoll_decimal in H1 by done.
  by injection H1.
Qed.

(** The text is a name for a directory entry, and short. *)
Lemma decimal_shape n : in_sint 64 n → decimal n ≠ [] ∧ (slash ∉ decimal n) ∧ (length (decimal n) ≤ 20)%nat.
Proof.
  intros Hn. unfold decimal.
  assert (∀ m, 0 ≤ m → digits 19 m [] ≠ [] ∧ (slash ∉ digits 19 m []) ∧
    (length (digits 19 m []) ≤ 19)%nat) as Hd.
  { intros m Hm. destruct (digits_shape 19 m [] Hm (Forall_nil_2 _)) as (Hall & Hlen & Hne).
    split_and!; [apply Hne; lia| |cbn [length] in Hlen; lia]. intros Hin. rewrite Forall_forall in Hall.
    by destruct (digit_not_special slash (Hall _ Hin)) as (_ & _ & _ & ?). }
  destruct (Z.ltb_spec n 0).
  - destruct (Hd (- n)) as (H1 & H2 & H3); [lia|]. split_and!; [done| |cbn [length]; lia].
    by intros [?|?]%elem_of_cons.
  - destruct (Hd n) as (H1 & H2 & H3); [lia|]. split_and!; [done..|lia].
Qed.

(** ** Paths *)

(** A path names the components between its slashes. *)
Fixpoint split_slash (s : string_t) : list string_t :=
  match s with
  | [] => [[]]
  | c :: s => if bool_decide (c = slash) then [] :: split_slash s
              else match split_slash s with k :: r => (c :: k) :: r | [] => [[c]] end
  end.
Definition split_path (s : string_t) : list string_t := filter (λ k, k ≠ []) (split_slash s).

Definition name_ok (n : string_t) : Prop := n ≠ [] ∧ slash ∉ n.
#[export] Instance name_ok_dec n : Decision (name_ok n).
Proof. unfold name_ok. apply _. Defined.

Lemma split_slash_name k : slash ∉ k → split_slash k = [k].
Proof.
  induction k as [|c k IH]; [done|]. intros [Hc Hk]%not_elem_of_cons. simpl.
  rewrite bool_decide_false by done. by rewrite IH.
Qed.
Lemma split_slash_app k s : slash ∉ k → split_slash (k ++ [slash] ++ s) = k :: split_slash s.
Proof.
  induction k as [|c k IH]; [done|]. intros [Hc Hk]%not_elem_of_cons. simpl.
  rewrite bool_decide_false by done. simpl in IH. by rewrite IH.
Qed.

Lemma split_path_app k s : name_ok k → split_path (k ++ [slash] ++ s) = k :: split_path s.
Proof. intros [Hne Hk]. unfold split_path. rewrite split_slash_app, filter_cons by done. by rewrite decide_True. Qed.
Lemma split_path_name k : name_ok k → split_path k = [k].
Proof. intros [Hne Hk]. unfold split_path. rewrite split_slash_name, filter_cons by done. by rewrite decide_True. Qed.
Lemma split_path_root s : split_path (slash :: s) = split_path s.
Proof. unfold split_path. simpl. by rewrite filter_cons, decide_False by naive_solver. Qed.
End DaoText.
