(* ===== verification/DaoStore.v ===== *)
(** * The database and what is stored of it

    What a backend keeps of users, pools and grants is a table of each; the laws say how
    the operations of the backend change the tables and what the listings return.
    Against them: the tables follow the database in memory through every operation, and
    a server that loads the tables has the database that was stored. *)
From S2P Require Import Prelude Fastcommon AuthDB AuthDBProofs AuthDBSpec.
Import AuthDB AuthDBProofs AuthDBSpec.
Local Open Scope Z_scope.

(** Of a pool: its id, quota and status; of a grant: its id and privileges. *)
Class DaoStore (D : Type) := {
  st_user : D → string_t → option FCFSAuthUserInfo;
  st_pool : D → string_t → string_t → option (Z * Z * Z);
  st_grant : D → string_t → Z → option (Z * FCFSAuthSPoolPriviledges);
  (** the last automatic id of a pool *)
  st_auto : D → Z;
  (** the tables are in order; the base directory has been found *)
  st_ok : D → Prop;
  st_based : D → Prop;
}.

Section frames.
Context {D : Type} `{!DaoStore D}.
Implicit Types d : D.

Definition same_users d d' : Prop := ∀ n, st_user d' n = st_user d n.
Definition same_pools d d' : Prop := ∀ un n, st_pool d' un n = st_pool d un n.
Definition same_grants d d' : Prop := ∀ un i, st_grant d' un i = st_grant d un i.
(** A step from [d] to [d'] as far as order and automatic ids go. *)
Definition st_keep d d' : Prop :=
  st_ok d' ∧ (st_based d → st_based d' ∧ st_auto d' = st_auto d).
Record st_same d d' : Prop := {
  sm_users : same_users d d';
  sm_pools : same_pools d d';
  sm_grants : same_grants d d';
  sm_ok : st_ok d → st_ok d';
  sm_based : st_based d → st_based d';
  sm_auto : st_auto d' = st_auto d;
}.

#[export] Instance st_same_preorder : PreOrder st_same.
Proof.
  split; [by intros d; split|]. intros d1 d2 d3 [A1 A2 A3 A4 A5 A6] [B1 B2 B3 B4 B5 B6].
  split; try (intros ?; try intros ?); rewrite ?B1, ?B2, ?B3, ?B6; auto.
Qed.
End frames.

Class DaoStoreLaws D `{!AuthDao D, !NameAllocator D, !DaoInodes D, !DaoStore D} : Prop := {
  st_user_name (d : D) n x : st_user d n = Some x →
    dao_name_ok D n ∧ user_name x = n ∧ user_passwd x ≠ None;
  st_pool_inode (d : D) un n x : st_pool d un n = Some x →
    dao_name_ok D n ∧ dao_pool_inode d un n = Some x.1.1;
  st_pool_owner (d : D) un n : st_ok d → st_pool d un n ≠ None → st_user d un ≠ None;
  st_grant_owner (d : D) un i : st_ok d → st_grant d un i ≠ None → st_user d un ≠ None;
  alloc_stored v (d : D) : st_same d (fast_allocator_alloc_string v d).2;
  user_create_stored u (d : D) id d' :
    st_ok d → dao_name_ok D (user_name u) → in_sint 64 (user_priv u) →
    dao_user_create u d = (Ok id, d') →
    st_keep d d' ∧ same_pools d d' ∧ same_grants d d' ∧
    ∀ n, st_user d' n = if decide (n = user_name u) then
      Some {| user_id := id; user_name := n; user_passwd := Some (default [] (user_passwd u));
              user_priv := user_priv u; user_status := FCFS_AUTH_USER_STATUS_NORMAL |}
      else st_user d n;
  user_remove_stored n x (d d' : D) :
    st_ok d → st_user d n = Some x → dao_user_remove (user_id x) d = (Ok tt, d') →
    st_keep d d' ∧ same_pools d d' ∧ same_grants d d' ∧
    ∀ m, st_user d' m = if decide (m = n) then Some (set_user_status FCFS_AUTH_USER_STATUS_DELETED x)
                        else st_user d m;
  user_priv_stored n x p (d d' : D) :
    st_ok d → st_user d n = Some x → in_sint 64 p → dao_user_update_priv (user_id x) p d = (Ok tt, d') →
    st_keep d d' ∧ same_pools d d' ∧ same_grants d d' ∧
    ∀ m, st_user d' m = if decide (m = n) then Some (set_user_priv p x) else st_user d m;
  user_passwd_stored n x p (d d' : D) :
    st_ok d → st_user d n = Some x → dao_user_update_passwd (user_id x) p d = (Ok tt, d') →
    st_keep d d' ∧ same_pools d d' ∧ same_grants d d' ∧
    ∀ m, st_user d' m = if decide (m = n) then Some (set_user_passwd (Some p) x) else st_user d m;
  user_list_stored (d : D) l d' :
    st_ok d → dao_user_list d = (Ok l, d') →
    st_same d d' ∧ NoDup (user_name <$> l) ∧ ∀ x, x ∈ l ↔ st_user d (user_name x) = Some x;
  spool_create_stored un p (d : D) id d' :
    st_ok d → dao_name_ok D un → dao_name_ok D (pool_name p) → in_sint 64 (pool_quota p) →
    dao_spool_create un p d = (Ok id, d') →
    st_keep d d' ∧ same_users d d' ∧ same_grants d d' ∧
    ∀ un' n, st_pool d' un' n = if decide (un' = un ∧ n = pool_name p)
      then Some (id, pool_quota p, FCFS_AUTH_POOL_STATUS_NORMAL) else st_pool d un' n;
  spool_remove_stored un n id q st (d d' : D) :
    st_ok d → st_pool d un n = Some (id, q, st) → dao_spool_remove id d = (Ok tt, d') →
    st_keep d d' ∧ same_users d d' ∧ same_grants d d' ∧
    ∀ un' m, st_pool d' un' m = if decide (un' = un ∧ m = n)
      then Some (id, q, FCFS_AUTH_POOL_STATUS_DELETED) else st_pool d un' m;
  spool_quota_stored un n id q st q' (d d' : D) :
    st_ok d → st_pool d un n = Some (id, q, st) → in_sint 64 q' →
    dao_spool_set_quota id q' d = (Ok tt, d') →
    st_keep d d' ∧ same_users d d' ∧ same_grants d d' ∧
    ∀ un' m, st_pool d' un' m = if decide (un' = un ∧ m = n)
      then Some (id, q', st) else st_pool d un' m;
  spool_list_stored un (d : D) l d' :
    st_ok d → dao_name_ok D un → dao_spool_list un d = (Ok l, d') →
    st_same d d' ∧ NoDup (pool_name <$> l) ∧
    (∀ p, p ∈ l → st_pool d un (pool_name p) = Some (pool_id p, pool_quota p, pool_status p)) ∧
    ∀ n x, st_pool d un n = Some x → n ∈ pool_name <$> l;
  granted_create_stored un g (d : D) id d' :
    st_ok d → dao_name_ok D un → in_sint 64 (granted_pool_id g) →
    in_sint 32 (fdir (granted_privs g)) → in_sint 32 (fstore (granted_privs g)) →
    dao_granted_create un g d = (Ok id, d') →
    st_keep d d' ∧ same_users d d' ∧ same_pools d d' ∧
    ∀ un' i, st_grant d' un' i = if decide (un' = un ∧ i = granted_pool_id g)
      then Some (id, granted_privs g) else st_grant d un' i;
  granted_remove_stored un i (d d' : D) :
    st_ok d → dao_name_ok D un → in_sint 64 i → dao_granted_remove un i d = (Ok tt, d') →
    st_keep d d' ∧ same_users d d' ∧ same_pools d d' ∧
    ∀ un' j, st_grant d' un' j = if decide (un' = un ∧ j = i) then None else st_grant d un' j;
  granted_list_stored un (d : D) l d' :
    st_ok d → dao_name_ok D un → dao_granted_list un d = (Ok l, d') →
    st_same d d' ∧ NoDup (granted_pool_id <$> l) ∧
    (∀ g, g ∈ l → st_grant d un (granted_pool_id g) = Some (granted_id g, granted_privs g)) ∧
    ∀ i x, st_grant d un i = Some x → i ∈ granted_pool_id <$> l;
  base_stored (d d' : D) :
    st_ok d → dao_spool_set_base_path_inode d = (Ok tt, d') →
    st_same d d' ∧ st_based d';
  get_auto_stored (d : D) v d' :
    st_ok d → st_based d → dao_spool_get_auto_id d = (Ok v, d') → st_same d d' ∧ v = st_auto d;
  set_auto_stored a (d d' : D) :
    st_ok d → st_based d → in_sint 64 a → dao_spool_set_auto_id a d = (Ok tt, d') →
    st_ok d' ∧ same_users d d' ∧ same_pools d d' ∧ same_grants d d' ∧ st_based d' ∧ st_auto d' = a;
}.

Module DaoStored.
Section stored.
Context {D : Type} `{!AuthDao D, !NameAllocator D, !Malloc D, !DaoInodes D, !AuthDaoLaws D}.
Context `{!DaoStore D, !DaoStoreLaws D}.
Context {MB : Type} `{!Mblock MB, !MblockLaws MB}.
Context `{!FcCompare}.
Context {SLs SLi : Type → Type} `{!UniqSkiplist string_t SLs, !UniqSkiplist Z SLi}.
Context `{!UniqSkiplistLaws fc_string_compare SLs, !UniqSkiplistLaws fc_compare_int64 SLi}.
Abbreviation S := (AuthDBContext D MB SLs SLi).
Implicit Types s : S.

(** ** The tables of the database in memory *)

Definition pool_key (p : FCFSAuthStoragePoolInfo) : Z * Z * Z := (pool_id p, pool_quota p, pool_status p).
Definition grant_key (g : FCFSAuthGrantedPoolInfo) : Z * FCFSAuthSPoolPriviledges :=
  (granted_id g, granted_privs g).

Definition mem_user s (n : string_t) : option FCFSAuthUserInfo :=
  (λ a, user (users s a)) <$> user_get n s.
Definition mem_pool s (un n : string_t) : option (Z * Z * Z) :=
  u ← user_get un s; p ← user_spool_get u n s; Some (pool_key (pool (pools s p))).
Definition mem_grant s (un : string_t) (i : Z) : option (Z * FCFSAuthSPoolPriviledges) :=
  u ← user_get un s; g ← granted_pool_get u i s; Some (grant_key (grant (grants s g))).

(** A password that could not be copied is missing in memory. *)
Definition user_agrees (m x : FCFSAuthUserInfo) : Prop := m = x ∨ m = set_user_passwd None x.

(** The last automatic id that was handed out. *)
Variable last : Z.

Record stored s : Prop := {
  so_ok : st_ok (backend s);
  so_based : st_based (backend s);
  so_user n : option_Forall2 user_agrees (mem_user s n) (st_user (backend s) n);
  so_pool un n : mem_pool s un n = st_pool (backend s) un n;
  so_grant un i : mem_grant s un i = st_grant (backend s) un i;
  so_auto : st_auto (backend s) = last;
  so_auto_le : last ≤ auto_id s;
}.

(** Arguments as the messages carry them. *)
Definition op_ranged (op : adb_op) : Prop :=
  op_ok (D:=D) op ∧
  match op with
  | UserCreate u => in_sint 64 (user_priv u) ∧ user_status u = FCFS_AUTH_USER_STATUS_NORMAL
  | UserUpdatePriv _ p => in_sint 64 p
  | SpoolCreate _ p => in_sint 64 (pool_quota p) ∧ pool_status p = FCFS_AUTH_POOL_STATUS_NORMAL
  | SpoolSetQuota _ _ q => in_sint 64 q
  | GrantedCreate _ g => in_sint 64 (granted_pool_id g) ∧ in_sint 32 (fdir (granted_privs g)) ∧
                         in_sint 32 (fstore (granted_privs g))
  | GrantedRemove _ i => in_sint 64 i
  | _ => True
  end.

(** ** What the backend sees of a creation *)

Lemma on_backend_alloc v s r s' :
  on_backend (fast_allocator_alloc_string v) s = (r, s') →
  ∃ d, s' = set_backend d s ∧ st_same (backend s) d.
Proof.
  unfold on_backend. pose proof (alloc_stored v (backend s)) as Hs.
  destruct (fast_allocator_alloc_string v (backend s)) as [r0 d]. intros [= <- <-]. by exists d.
Qed.

Lemma user_set_passwd_backend a v s r s' :
  user_set_passwd a v s = (r, s') → ∃ d x, st_same (backend s) d ∧ (r = Ok tt → x = Some v) ∧
    (r ≠ Ok tt → x = None) ∧
    s' = set_users (alter (with_user (set_user_passwd x)) a (users s)) (set_backend d s).
Proof.
  unfold user_set_passwd, mbind, M_bind, attempt.
  destruct (on_backend (fast_allocator_alloc_string v) s) as [r0 s1] eqn:E.
  pose proof (on_backend_alloc _ _ _ _ E) as (d & -> & Hs). destruct r0 as [v'|e].
  - apply on_backend_inv in E as (d' & E & _). apply alloc_string_copy in E as ->.
    intros [= <- <-]. by exists d, (Some v).
  - intros [= <- <-]. by exists d, None.
Qed.

Lemma user_create_backend db u (addto : bool) s a s' :
  user_create db u addto s = (Ok a, s') →
  ∃ d info, st_same (backend s) d ∧ auto_id s' = auto_id s ∧
    user_name info = user_name (user (users s' a)) ∧
    user_passwd info = Some (default [] (user_passwd u)) ∧ user_priv info = user_priv u ∧
    if addto then dao_user_create info d = (Ok (user_id (user (users s' a))), backend s')
    else user_id (user (users s' a)) = user_id u ∧ backend s' = d.
Proof.
  intros Hr. unfold user_create in Hr. run Hr as [b need] s1 Hobj. cbv beta iota in Hr.
  run Hr as [] s2 Hpw. run Hr as [] s3 Hpr. apply modify_inv in Hpr as ->. run Hr as id s4 Hbk.
  run Hr as [] s5 Hid. apply modify_inv in Hid as ->. run Hr as [] s6 Hst. apply modify_inv in Hst as ->.
  run Hr as [] s7 Hin. injection Hr as <- <-.
  assert (st_same (backend s) (backend s1) ∧ auto_id s1 = auto_id s) as [H1 Ha].
  { destruct db as [c|]; [by injection Hobj as _ _ <-|].
    run Hobj as c s8 Hal. run Hobj as nm s9 Hnm. run Hobj as [] s10 Hset.
    injection Hobj as _ _ <-. apply modify_inv in Hset as ->.
    apply alloc_object_inv in Hal as (m & -> & _). by apply on_backend_alloc in Hnm as (d0 & -> & Hs). }
  apply user_set_passwd_backend in Hpw as (d & x & Hd & Hx & _ & ->). rewrite (Hx eq_refl) in Hbk.
  exists d. destruct addto.
  - run Hbk as info s8 Hg. injection Hg as <- <-. apply on_backend_inv in Hbk as (d' & Hdao & ->).
    eexists. split; [by etrans|]. cbn in Hdao.
    assert (users s7 b = with_user (set_user_status (user_status u)) (with_user (set_user_id id)
              (with_user (set_user_priv (user_priv u)) (with_user (set_user_passwd
                 (Some (default [] (user_passwd u)))) (users s1 b)))) ∧ backend s7 = d' ∧
            auto_id s7 = auto_id s) as (-> & -> & ->).
    { destruct need; [apply modify_inv in Hin as ->|injection Hin as <-]; cbn;
        autorewrite with heap; [destruct (sl_insert _ _ _) as [[]]|]; cbn;
        autorewrite with heap; rewrite ?(Hx eq_refl); done. }
    split_and!; [done|..|exact Hdao]; cbn; autorewrite with heap; done.
  - injection Hbk as <- <-. exists (user (users s7 b)). split; [by etrans|].
    destruct need; [apply modify_inv in Hin as ->|injection Hin as <-]; cbn;
      autorewrite with heap; [destruct (sl_insert _ _ _) as [[]]|]; cbn;
      autorewrite with heap; rewrite ?(Hx eq_refl); done.
Qed.

Lemma storage_pool_create_backend u db info (addto : bool) s p s' :
  storage_pool_create u db info addto s = (Ok p, s') →
  ∃ d i, st_same (backend s) d ∧ auto_id s' = auto_id s ∧
    pool_name i = pool_name (pool (pools s' p)) ∧ pool_quota i = pool_quota info ∧
    if addto then dao_spool_create (user_name (user (users s u))) i d =
                  (Ok (pool_id (pool (pools s' p))), backend s')
    else pool_id (pool (pools s' p)) = pool_id info ∧ backend s' = d.
Proof.
  intros Hr. unfold storage_pool_create in Hr. run Hr as [q need] s1 Hobj. cbv beta iota in Hr.
  run Hr as [] s2 Hq. apply modify_inv in Hq as ->. run Hr as [] s3 Hbk.
  apply spool_backend_inv in Hbk as (id & d & -> & Hdao). run Hr as [] s4 Hst.
  apply modify_inv in Hst as ->. run Hr as r s5 Hins.
  destruct r as [[]|e]; [|by run Hr as s6 s7 Hg; run Hr as r s8 Hg2; run Hr as [] s9 Hg3].
  injection Hr as <- <-.
  assert (st_same (backend s) (backend s1) ∧ auto_id s1 = auto_id s ∧ users s1 = users s)
    as (H1 & Ha & Hu).
  { destruct db as [c|]; [by injection Hobj as _ _ <-|].
    run Hobj as c s8 Hal. run Hobj as nm s9 Hnm. run Hobj as [] s10 Hset.
    injection Hobj as _ _ <-. apply modify_inv in Hset as ->.
    apply alloc_object_inv in Hal as (m & -> & _). by apply on_backend_alloc in Hnm as (d0 & -> & Hs). }
  cbn in Hdao. rewrite Hu in Hdao. autorewrite with heap in Hdao.
  assert (pools s5 q = with_pool (set_pool_status (pool_status info)) (with_pool (set_pool_id id)
            (with_pool (set_pool_quota (pool_quota info)) (pools s1 q))) ∧
          backend s5 = d ∧ auto_id s5 = auto_id s) as (-> & -> & ->).
  { destruct need; [apply attempt_inv, spool_insert_inv in Hins as (ids & names & mine & -> & _)
      |injection Hins as <-]; cbn; autorewrite with heap; done. }
  exists (backend s1), (pool (with_pool (set_pool_quota (pool_quota info)) (pools s1 q))).
  by split_and!.
Qed.

Lemma granted_pool_create_backend u db info (addto : bool) s g s' :
  granted_pool_create u db info addto s = (Ok g, s') →
  ∃ i, auto_id s' = auto_id s ∧ granted_pool_id i = granted_pool_id info ∧
    granted_privs i = granted_privs info ∧
    if addto then dao_granted_create (user_name (user (users s u))) i (backend s) =
                  (Ok (granted_id (grant (grants s' g))), backend s')
    else granted_id (grant (grants s' g)) = granted_id info ∧ backend s' = backend s.
Proof.
  intros Hr. unfold granted_pool_create in Hr. run Hr as [h need] s1 Hobj. cbv beta iota in Hr.
  run Hr as [] s2 Hf. apply modify_inv in Hf as ->. run Hr as id s3 Hbk.
  run Hr as [] s4 Hid. apply modify_inv in Hid as ->.
  assert (backend s1 = backend s ∧ auto_id s1 = auto_id s ∧ users s1 = users s) as (Hb & Ha & Hu).
  { destruct db as [c|]; [by injection Hobj as _ _ <-|]. run Hobj as h' s5 Hal.
    injection Hobj as _ _ <-. by apply alloc_object_inv in Hal as (m & -> & _). }
  assert (g = h ∧ granted_id (grant (grants s' h)) = id ∧ backend s' = backend s3 ∧
          auto_id s' = auto_id s3) as (-> & -> & -> & ->).
  { destruct need; [|injection Hr as <- <-; cbn; by autorewrite with heap].
    run Hr as s6 s7 Hg. injection Hg as <- <-. run Hr as r s8 Hins. apply attempt_inv in Hins.
    destruct r as [[]|e]; [|by run Hr as [] s9 Hx]. injection Hr as <- <-.
    destruct (get_spool_by_id _ _) as [p|]; [|done]. run Hins as [] s9 Hsp.
    apply modify_inv in Hsp as ->. unfold granted_insert in Hins. destruct (sl_insert _ _ _) as [r gl].
    injection Hins as _ <-. cbn. by autorewrite with heap. }
  destruct addto; [|injection Hbk as <- <-; by exists info].
  run Hbk as s5 s6 Hg. injection Hg as <- <-. unfold mbind, M_bind, attempt, on_backend in Hbk.
  cbn in Hbk. rewrite Hb, Hu in Hbk. autorewrite with heap in Hbk.
  destruct (dao_granted_create _ _ _) as [[i|e] d] eqn:E; [|done]. injection Hbk as <- <-.
  eexists. split_and!; [done|..|exact E]; done.
Qed.

(** ** What an operation changes of the tables in memory *)

(** Users and lists as they were. *)
Definition same_mem_users s s' : Prop := ∀ n, mem_user s' n = mem_user s n.
Definition same_mem_pools s s' : Prop := ∀ un n, mem_pool s' un n = mem_pool s un n.
Definition same_mem_grants s s' : Prop := ∀ un i, mem_grant s' un i = mem_grant s un i.

Lemma mem_user_eq s n : mem_user s n = (λ a, user (users s a)) <$> sl_find (user_sl s) n.
Proof. done. Qed.
Lemma mem_pool_eq s un n u :
  sl_find (user_sl s) un = Some u →
  mem_pool s un n = (λ p, pool_key (pool (pools s p))) <$> sl_find (created (users s u)) n.
Proof. intros Hu. unfold mem_pool, user_get, user_spool_get. rewrite Hu. simpl. by destruct (sl_find _ n). Qed.
Lemma mem_grant_eq s un i u :
  sl_find (user_sl s) un = Some u →
  mem_grant s un i = (λ g, grant_key (grant (grants s g))) <$> sl_find (granted (users s u)) i.
Proof. intros Hu. unfold mem_grant, user_get, granted_pool_get. rewrite Hu. simpl. by destruct (sl_find _ i). Qed.
Lemma mem_pool_none s un n : sl_find (user_sl s) un = None → mem_pool s un n = None.
Proof. intros Hu. unfold mem_pool, user_get. by rewrite Hu. Qed.
Lemma mem_grant_none s un i : sl_find (user_sl s) un = None → mem_grant s un i = None.
Proof. intros Hu. unfold mem_grant, user_get. by rewrite Hu. Qed.

Lemma fresh_user_empty s a n i :
  wf s → a ∉ live 0 s → sl_find (created (users s a)) n = None ∧ sl_find (granted (users s a)) i = None.
Proof.
  intros Hwf Ha. split.
  - destruct (sl_find (created (users s a)) n) as [p|] eqn:E; [|done].
    apply (wf_created _ Hwf) in E as [E Hu]. apply (wf_by_name _ Hwf) in E as (_ & _ & _ & un & Hun).
    rewrite Hu in Hun. by apply (wf_user _ Hwf) in Hun as [_ ?].
  - apply (wf_listed _ Hwf). intros m Hm. by apply (wf_user _ Hwf) in Hm as [_ ?].
Qed.

(** The lists of the users are the same; a user that is new has none. *)
Lemma mem_lists_same s s' :
  wf s → pools s' = pools s → grants s' = grants s →
  (∀ b, created (users s' b) = created (users s b) ∧ granted (users s' b) = granted (users s b)) →
  (∀ un, sl_find (user_sl s') un = sl_find (user_sl s) un ∨
         sl_find (user_sl s) un = None ∧ ∃ a, sl_find (user_sl s') un = Some a ∧ a ∉ live 0 s) →
  same_mem_pools s s' ∧ same_mem_grants s s'.
Proof.
  intros Hwf Hp Hg Hl Hsl.
  split; intros un i; (destruct (Hsl un) as [Heq|(Hnone & a & Ha & Hfresh)];
    [destruct (sl_find (user_sl s) un) as [c|] eqn:Ec|]).
  - rewrite (mem_pool_eq s' un i c), (mem_pool_eq s un i c), Hp by done. by destruct (Hl c) as [-> _].
  - by rewrite !mem_pool_none.
  - rewrite (mem_pool_eq s' un i a), (mem_pool_none s) by done. destruct (Hl a) as [-> _].
    by destruct (fresh_user_empty s a i 0) as [-> _].
  - rewrite (mem_grant_eq s' un i c), (mem_grant_eq s un i c), Hg by done. by destruct (Hl c) as [_ ->].
  - by rewrite !mem_grant_none.
  - rewrite (mem_grant_eq s' un i a), (mem_grant_none s) by done. destruct (Hl a) as [_ ->].
    by destruct (fresh_user_empty s a [] i) as [_ ->].
Qed.

Lemma mem_user_created u a s s' :
  wf s → inserts_succeed (SLs:=SLs) → user_created (user_get (user_name u) s) u a s s' →
  (∀ n, mem_user s' n = if decide (n = user_name u) then Some (user (users s' a)) else mem_user s n) ∧
  same_mem_pools s s' ∧ same_mem_grants s s'.
Proof.
  intros Hwf Hins Huc. pose proof (uc_addr _ _ _ _ _ Huc) as Haddr.
  destruct Huc as [Hp Hg _ _ _ Hoth [Hcr Hgr] _ _ _ _ _ _ _]. unfold user_get in *.
  assert (∀ b, created (users s' b) = created (users s b) ∧ granted (users s' b) = granted (users s b))
    as Hl by (intros b; destruct (decide (b = a)) as [->|]; [done|by rewrite Hoth]).
  destruct (sl_find (user_sl s) (user_name u)) as [b|] eqn:Eb.
  - destruct Haddr as (-> & _ & Hsl & _).
    split; [|apply mem_lists_same; [done..|]; intros un; left; by rewrite Hsl].
    intros n. rewrite !mem_user_eq, Hsl. case_decide as Hn; [by rewrite Hn, Eb|].
    destruct (sl_find (user_sl s) n) as [c|] eqn:Ec; [|done]. simpl. rewrite Hoth; [done|]. intros ->.
    destruct (wf_user _ Hwf _ _ Ec) as [<- _], (wf_user _ Hwf _ _ Eb) as [? _]. done.
  - destruct Haddr as (Hfresh & _ & [(_ & _ & Hf)|(_ & _ & Hsl)]); [by rewrite Hins in Hf|].
    split; [|apply mem_lists_same; [done..|]; intros un; rewrite Hsl; case_decide as Hun;
             [subst un; right; eauto|by left]].
    intros n. rewrite !mem_user_eq, Hsl. case_decide as Hn; [done|].
    destruct (sl_find (user_sl s) n) as [c|] eqn:Ec; [|done]. simpl. rewrite Hoth; [done|]. intros ->.
    by apply (wf_user _ Hwf) in Ec as [_ ?].
Qed.

Lemma mem_pool_created un u info p s s' :
  wf s → wf s' → sl_find (user_sl s) un = Some u →
  pool_created u (user_spool_get u (pool_name info) s) info p s s' →
  same_mem_users s s' ∧ same_mem_grants s s' ∧
  ∀ un' n, mem_pool s' un' n = if decide (un' = un ∧ n = pool_name info)
    then Some (pool_key (pool (pools s' p))) else mem_pool s un' n.
Proof.
  intros Hwf Hwf' Hu Hpc. destruct (pool_created_lookup _ _ _ _ _ _ Hpc eq_refl) as [Hlk Hother].
  destruct Hpc as [Hg Hsl _ Husr Hcr Hoth _ _ _ _ _ _]. split_and!.
  - intros n. rewrite !mem_user_eq, Hsl. destruct (sl_find (user_sl s) n) as [a|]; [|done]. simpl.
    by destruct (Husr a) as [-> _].
  - intros un' i. destruct (sl_find (user_sl s) un') as [a|] eqn:Ea.
    + rewrite (mem_grant_eq s' un' i a), (mem_grant_eq s un' i a), Hg by (by rewrite ?Hsl).
      by destruct (Husr a) as [_ ->].
    + by rewrite !mem_grant_none by (by rewrite ?Hsl).
  - intros un' n. destruct (sl_find (user_sl s) un') as [a|] eqn:Ea.
    2: { rewrite !mem_pool_none by (by rewrite ?Hsl). rewrite decide_False; [done|].
         intros [-> _]. congruence. }
    rewrite (mem_pool_eq s' un' n a) by (by rewrite Hsl).
    destruct (decide (un' = un ∧ n = pool_name info)) as [[-> ->]|Hne].
    { assert (a = u) as -> by congruence. by rewrite Hlk. }
    rewrite (mem_pool_eq s un' n a) by done.
    assert (sl_find (created (users s' a)) n = sl_find (created (users s a)) n) as Hsame.
    { destruct (decide (a = u)) as [->|]; [|by rewrite Hcr]. apply Hother. intros ->. apply Hne.
      destruct (wf_user _ Hwf _ _ Ea) as [<- _], (wf_user _ Hwf _ _ Hu) as [<- _]. done. }
    rewrite Hsame. destruct (sl_find (created (users s a)) n) as [q|] eqn:Eq; [|done]. simpl.
    rewrite Hoth; [done|]. intros ->. apply Hne.
    apply (wf_created _ Hwf') in Hsame as [Hn Hpu], Hlk as [Hn' Hpu'].
    apply (wf_by_name _ Hwf') in Hn as [<- _], Hn' as [Hn' _]. split; [|done].
    assert (a = u) as -> by congruence.
    destruct (wf_user _ Hwf _ _ Ea) as [<- _], (wf_user _ Hwf _ _ Hu) as [<- _]. done.
Qed.

(** Users and lists of pools that an operation on grants leaves alone. *)
Lemma mem_pools_same s s' :
  pools s' = pools s → user_sl s' = user_sl s →
  (∀ b, user (users s' b) = user (users s b) ∧ created (users s' b) = created (users s b)) →
  same_mem_users s s' ∧ same_mem_pools s s'.
Proof.
  intros Hp Hsl Hu. split.
  - intros n. rewrite !mem_user_eq, Hsl. destruct (sl_find (user_sl s) n) as [a|]; [|done]. simpl.
    by destruct (Hu a) as [-> _].
  - intros un n. destruct (sl_find (user_sl s) un) as [a|] eqn:Ea.
    + rewrite (mem_pool_eq s' un n a), (mem_pool_eq s un n a), Hp by (by rewrite ?Hsl).
      by destruct (Hu a) as [_ ->].
    + by rewrite !mem_pool_none by (by rewrite ?Hsl).
Qed.

(** One entry of one user's list of grants changes. *)
Lemma mem_grants_change un u i x s s' :
  wf s → sl_find (user_sl s) un = Some u → user_sl s' = user_sl s →
  (∀ b, b ≠ u → granted (users s' b) = granted (users s b)) →
  (∀ j, j ≠ i → sl_find (granted (users s' u)) j = sl_find (granted (users s u)) j) →
  ((λ g, grant_key (grant (grants s' g))) <$> sl_find (granted (users s' u)) i = x) →
  (∀ v j g, sl_find (granted (users s v)) j = Some g → (v, j) ≠ (u, i) → grants s' g = grants s g) →
  ∀ un' j, mem_grant s' un' j = if decide (un' = un ∧ j = i) then x else mem_grant s un' j.
Proof.
  intros Hwf Hu Hsl Hoth Hj Hx Hg un' j. destruct (sl_find (user_sl s) un') as [a|] eqn:Ea.
  2: { rewrite !mem_grant_none by (by rewrite ?Hsl). rewrite decide_False; [done|]. intros [-> _]. congruence. }
  rewrite (mem_grant_eq s' un' j a) by (by rewrite Hsl).
  destruct (decide (un' = un ∧ j = i)) as [[-> ->]|Hne]; [assert (a = u) as -> by congruence; done|].
  rewrite (mem_grant_eq s un' j a) by done.
  assert ((a, j) ≠ (u, i)) as Hne'.
  { intros [= -> ->]. apply Hne.
    destruct (wf_user _ Hwf _ _ Ea) as [<- _], (wf_user _ Hwf _ _ Hu) as [<- _]. done. }
  assert (sl_find (granted (users s' a)) j = sl_find (granted (users s a)) j) as ->.
  { destruct (decide (a = u)) as [->|]; [apply Hj; congruence|by rewrite Hoth]. }
  destruct (sl_find (granted (users s a)) j) as [g|] eqn:Eg; [|done]. simpl. by rewrite (Hg a j g).
Qed.

Lemma mem_grant_created un u info g s s' :
  wf s → sl_find (user_sl s) un = Some u →
  grant_created u (granted_pool_get u (granted_pool_id info) s) info g s s' →
  same_mem_users s s' ∧ same_mem_pools s s' ∧
  ∀ un' i, mem_grant s' un' i = if decide (un' = un ∧ i = granted_pool_id info)
    then Some (grant_key (grant (grants s' g))) else mem_grant s un' i.
Proof.
  intros Hwf Hu [Hp Hsl _ _ _ _ _ Husr Hgr Hoth _ _ Haddr].
  destruct (mem_pools_same s s' Hp Hsl Husr) as [H1 H2]. split_and!; [done..|].
  unfold granted_pool_get in Haddr.
  apply (mem_grants_change un u); try done.
  - intros j Hj. destruct (sl_find (granted (users s u)) (granted_pool_id info)) as [h|].
    + by destruct Haddr as (_ & _ & -> & _).
    + destruct Haddr as (_ & _ & _ & _ & ->). by rewrite decide_False.
  - destruct (sl_find (granted (users s u)) (granted_pool_id info)) as [h|] eqn:Eh.
    + destruct Haddr as (-> & _ & -> & _). by rewrite Eh.
    + destruct Haddr as (_ & _ & _ & _ & ->). by rewrite decide_True.
  - intros v j h Hh Hne. apply Hoth. intros ->.
    destruct (sl_find (granted (users s u)) (granted_pool_id info)) as [h|] eqn:Eh.
    + destruct Haddr as (-> & _). apply Hne. f_equal; [by eapply (wf_granted_inj _ Hwf)|].
      destruct (wf_granted _ Hwf _ _ _ Hh) as [<- _], (wf_granted _ Hwf _ _ _ Eh) as [-> _]. done.
    + destruct Haddr as (Hf & _). by apply (wf_granted _ Hwf) in Hh as (_ & ? & _).
Qed.

(** One user's or one pool's own fields change. *)
Lemma mem_user_update n a s s' :
  wf s → sl_find (user_sl s) n = Some a → user_sl s' = user_sl s → pools s' = pools s →
  grants s' = grants s → (∀ b, b ≠ a → users s' b = users s b) →
  created (users s' a) = created (users s a) → granted (users s' a) = granted (users s a) →
  (∀ m, mem_user s' m = if decide (m = n) then Some (user (users s' a)) else mem_user s m) ∧
  same_mem_pools s s' ∧ same_mem_grants s s'.
Proof.
  intros Hwf Ha Hsl Hp Hg Hoth Hc Hgr.
  split; [|apply mem_lists_same; [done..| |intros un; left; by rewrite Hsl]].
  - intros m. rewrite !mem_user_eq, Hsl. case_decide as Hm; [by rewrite Hm, Ha|].
    destruct (sl_find (user_sl s) m) as [b|] eqn:Eb; [|done]. simpl. rewrite Hoth; [done|]. intros ->.
    destruct (wf_user _ Hwf _ _ Ha) as [<- _], (wf_user _ Hwf _ _ Eb) as [? _]. done.
  - intros b. destruct (decide (b = a)) as [->|]; [done|by rewrite Hoth].
Qed.

Lemma mem_pool_update un n p s s' :
  wf s → find_spool un n s = Some p → user_sl s' = user_sl s → users s' = users s →
  grants s' = grants s → (∀ q, q ≠ p → pools s' q = pools s q) →
  same_mem_users s s' ∧ same_mem_grants s s' ∧
  ∀ un' m, mem_pool s' un' m = if decide (un' = un ∧ m = n)
    then Some (pool_key (pool (pools s' p))) else mem_pool s un' m.
Proof.
  unfold find_spool, user_get, user_spool_get. intros Hwf Hf Hsl Hu Hg Hoth.
  destruct (sl_find (user_sl s) un) as [u|] eqn:Eu; [|done]. simpl in Hf. split_and!.
  - intros m. by rewrite !mem_user_eq, Hsl, Hu.
  - intros un' i. unfold mem_grant, user_get, granted_pool_get. by rewrite Hsl, Hu, Hg.
  - intros un' m. destruct (sl_find (user_sl s) un') as [a|] eqn:Ea.
    2: { rewrite !mem_pool_none by (by rewrite ?Hsl). rewrite decide_False; [done|]. intros [-> _]. congruence. }
    rewrite (mem_pool_eq s' un' m a), Hu by (by rewrite Hsl).
    destruct (decide (un' = un ∧ m = n)) as [[-> ->]|Hne].
    { assert (a = u) as -> by congruence. by rewrite Hf. }
    rewrite (mem_pool_eq s un' m a) by done.
    destruct (sl_find (created (users s a)) m) as [q|] eqn:Eq; [|done]. simpl. rewrite Hoth; [done|].
    intros ->. apply Hne. apply (wf_created _ Hwf) in Eq as [Hn Hpu], Hf as [Hn' Hpu'].
    apply (wf_by_name _ Hwf) in Hn as [<- _], Hn' as [Hn' _]. split; [|done].
    assert (a = u) as -> by congruence.
    destruct (wf_user _ Hwf _ _ Ea) as [<- _], (wf_user _ Hwf _ _ Eu) as [<- _]. done.
Qed.

(** ** Every operation keeps the tables equal *)

Lemma stored_users n m x s s' :
  stored s → st_keep (backend s) (backend s') ∧ same_pools (backend s) (backend s') ∧
    same_grants (backend s) (backend s') ∧
    (∀ k, st_user (backend s') k = if decide (k = n) then Some x else st_user (backend s) k) →
  auto_id s' = auto_id s →
  (∀ k, mem_user s' k = if decide (k = n) then Some m else mem_user s k) ∧
    same_mem_pools s s' ∧ same_mem_grants s s' →
  user_agrees m x → stored s'.
Proof.
  intros [O1 O2 O3 O4 O5 O6 O7] ((K1 & K2) & Kp & Kg & Ku) Ha (Mu & Mp & Mg) Hx.
  destruct (K2 O2) as [K3 K4]. split; try done.
  - intros k. rewrite Mu, Ku. case_decide; [by constructor|apply O3].
  - intros un k. by rewrite Mp, Kp.
  - intros un i. by rewrite Mg, Kg.
  - by rewrite K4.
  - by rewrite Ha.
Qed.

Lemma stored_pools un n x s s' :
  stored s → st_keep (backend s) (backend s') ∧ same_users (backend s) (backend s') ∧
    same_grants (backend s) (backend s') ∧
    (∀ un' k, st_pool (backend s') un' k =
       if decide (un' = un ∧ k = n) then Some x else st_pool (backend s) un' k) →
  auto_id s' = auto_id s →
  same_mem_users s s' ∧ same_mem_grants s s' ∧
    (∀ un' k, mem_pool s' un' k = if decide (un' = un ∧ k = n) then Some x else mem_pool s un' k) →
  stored s'.
Proof.
  intros [O1 O2 O3 O4 O5 O6 O7] ((K1 & K2) & Ku & Kg & Kp) Ha (Mu & Mg & Mp).
  destruct (K2 O2) as [K3 K4]. split; try done.
  - intros k. rewrite Mu, Ku. apply O3.
  - intros un' k. rewrite Mp, Kp. by case_decide.
  - intros un' i. by rewrite Mg, Kg.
  - by rewrite K4.
  - by rewrite Ha.
Qed.

Lemma stored_grants un i x s s' :
  stored s → st_keep (backend s) (backend s') ∧ same_users (backend s) (backend s') ∧
    same_pools (backend s) (backend s') ∧
    (∀ un' j, st_grant (backend s') un' j =
       if decide (un' = un ∧ j = i) then x else st_grant (backend s) un' j) →
  auto_id s' = auto_id s →
  same_mem_users s s' ∧ same_mem_pools s s' ∧
    (∀ un' j, mem_grant s' un' j = if decide (un' = un ∧ j = i) then x else mem_grant s un' j) →
  stored s'.
Proof.
  intros [O1 O2 O3 O4 O5 O6 O7] ((K1 & K2) & Ku & Kp & Kg) Ha (Mu & Mp & Mg).
  destruct (K2 O2) as [K3 K4]. split; try done.
  - intros k. rewrite Mu, Ku. apply O3.
  - intros un' k. by rewrite Mp, Kp.
  - intros un' j. rewrite Mg, Kg. by case_decide.
  - by rewrite K4.
  - by rewrite Ha.
Qed.

(** Copying a string does not touch the tables. *)
Lemma stored_same_backend d s : stored s → st_same (backend s) d → stored (set_backend d s).
Proof.
  intros [O1 O2 O3 O4 O5 O6 O7] [S1 S2 S3 S4 S5 S6]. split; cbn; auto; try congruence.
  - intros n. rewrite S1. apply O3.
  - intros un n. rewrite S2. apply O4.
  - intros un i. rewrite S3. apply O5.
Qed.

(** A user in memory is the stored one, apart from a password that is missing. *)
Lemma stored_user_id n a s :
  stored s → sl_find (user_sl s) n = Some a →
  ∃ x, st_user (backend s) n = Some x ∧ user_agrees (user (users s a)) x ∧
       user_id x = user_id (user (users s a)).
Proof.
  intros Hs Ha. pose proof (so_user _ Hs n) as Hu. rewrite mem_user_eq, Ha in Hu. simpl in Hu.
  inversion Hu as [m x Hx Hm Hst|]; subst. exists x. split_and!; [done..|].
  by destruct Hx as [->| ->].
Qed.

Lemma user_agrees_with f (u : DBUserInfo (SLs:=SLs) (SLi:=SLi)) x :
  (∀ y, f (set_user_passwd None y) = set_user_passwd None (f y)) →
  user_agrees (user u) x → user_agrees (user (with_user f u)) (f x).
Proof. intros Hf [<-|Hu]; [by left|]. right. simpl. by rewrite Hu, Hf. Qed.

Lemma user_create_keeps u s s' :
  op_ranged (UserCreate u) → inserts_succeed (SLs:=SLs) → wf s → stored s →
  adb_user_create u s = (Ok tt, s') → stored s'.
Proof.
  intros [Hok [Hpr Hst]] Hins Hwf Hs Hr. unfold adb_user_create in Hr. run Hr as s0 s1 Hg. injection Hg as <- <-.
  assert (∃ a, user_create (user_get (user_name u) s) u true s = (Ok a, s')) as [a Hc].
  { destruct (user_get (user_name u) s) as [a|]; [destruct (user_normal (users s a)); [done|]|];
      run Hr as b s2 Hc; injection Hr as <-; by exists b. }
  clear Hr. pose proof Hc as Hc'.
  assert (dao_name_ok D match user_get (user_name u) s with
            Some b => user_name (user (users s b)) | None => user_name u end) as Hn.
  { destruct (user_get (user_name u) s) as [b|] eqn:Eb; [|done].
    by destruct (wf_user _ Hwf _ _ Eb) as [-> _]. }
  apply user_create_inv in Hc'; [|done]. pose proof (mem_user_created _ _ _ _ Hwf Hins Hc') as Hmem.
  apply user_create_backend in Hc as (d & info & Hd & Ha & Hin & Hip & Hiv & Hdao).
  assert (user_name info = user_name u) as Hname.
  { rewrite Hin, (uc_name _ _ _ _ _ Hc'). destruct (user_get (user_name u) s) as [b|] eqn:Eb; [|done].
    destruct (wf_user _ Hwf _ _ Eb) as [Hb _]. by destruct (uc_addr _ _ _ _ _ Hc') as [-> _]. }
  pose proof (stored_same_backend d s Hs Hd) as Hs1.
  apply user_create_stored in Hdao; [|apply (so_ok _ Hs1)|by rewrite Hname|by rewrite Hiv].
  rewrite Hname, Hip, Hiv in Hdao.
  assert (user (users s' a) = {| user_id := user_id (user (users s' a)); user_name := user_name u;
    user_passwd := Some (default [] (user_passwd u)); user_priv := user_priv u;
    user_status := FCFS_AUTH_USER_STATUS_NORMAL |}) as Hinfo.
  { pose proof (uc_passwd _ _ _ _ _ Hc'). pose proof (uc_priv _ _ _ _ _ Hc').
    pose proof (uc_status _ _ _ _ _ Hc'). destruct (user (users s' a)). simpl in *. congruence. }
  apply (stored_users (user_name u) (user (users s' a)) (user (users s' a)) (set_backend d s)); try done.
  - destruct Hdao as (K & P & G & U). split_and!; try done. intros k. rewrite U.
    case_decide; [|done]. subst k. f_equal. done.
  - by left.
Qed.

Lemma user_remove_keeps n s s' : wf s → stored s → adb_user_remove n s = (Ok tt, s') → stored s'.
Proof.
  intros Hwf Hs Hr. unfold adb_user_remove in Hr. run Hr as s0 s1 Hg. injection Hg as <- <-.
  destruct (adb_user_get n s) as [a|] eqn:Ea; [|done]. apply adb_user_get_inv in Ea as [Ea _].
  run Hr as [] s2 Hb. run Hr as [] s3 Hm. apply modify_inv in Hr as ->, Hm as ->.
  apply on_backend_inv in Hb as (d & Hd & ->).
  destruct (stored_user_id n a s Hs Ea) as (x & Hx & Hag & Hid). rewrite <- Hid in Hd.
  eapply stored_users; [exact Hs|eapply user_remove_stored; [apply Hs|exact Hx|exact Hd]|done|
    apply (mem_user_update n a); try done|]; cbn; rewrite ?fn_lookup_alter; try done.
  - intros b Hb. by rewrite fn_lookup_alter_ne.
  - by apply user_agrees_with.
Qed.

Lemma user_priv_keeps n p s s' :
  in_sint 64 p → wf s → stored s → adb_user_update_priv n p s = (Ok tt, s') → stored s'.
Proof.
  intros Hp Hwf Hs Hr. unfold adb_user_update_priv in Hr. run Hr as s0 s1 Hg. injection Hg as <- <-.
  destruct (adb_user_get n s) as [a|] eqn:Ea; [|done]. apply adb_user_get_inv in Ea as [Ea _].
  destruct (_ =? p); [by injection Hr as <-|].
  run Hr as [] s2 Hb. run Hr as [] s3 Hm. apply modify_inv in Hr as ->, Hm as ->.
  apply on_backend_inv in Hb as (d & Hd & ->).
  destruct (stored_user_id n a s Hs Ea) as (x & Hx & Hag & Hid). rewrite <- Hid in Hd.
  eapply stored_users; [exact Hs|eapply user_priv_stored; [apply Hs|exact Hx|exact Hp|exact Hd]|done|
    apply (mem_user_update n a); try done|]; cbn; rewrite ?fn_lookup_alter; try done.
  - intros b Hb. by rewrite fn_lookup_alter_ne.
  - by apply user_agrees_with.
Qed.

Lemma user_passwd_keeps n p s s' :
  wf s → stored s → adb_user_update_passwd n p s = (Ok tt, s') → stored s'.
Proof.
  intros Hwf Hs Hr. unfold adb_user_update_passwd in Hr. run Hr as s0 s1 Hg. injection Hg as <- <-.
  destruct (adb_user_get n s) as [a|] eqn:Ea; [|done]. apply adb_user_get_inv in Ea as [Ea _].
  run Hr as [] s2 Hb. apply on_backend_inv in Hb as (d & Hd & ->).
  destruct (stored_user_id n a s Hs Ea) as (x & Hx & Hag & Hid). rewrite <- Hid in Hd.
  run Hr as r s3 Hpw. injection Hr as <-. apply attempt_inv, user_set_passwd_backend in Hpw
    as (d2 & v & Hd2 & Hv & Hv' & ->). cbn in Hd2.
  pose proof (user_passwd_stored n x p (backend s) d (so_ok _ Hs) Hx Hd) as ((K1 & K2) & Kp & Kg & Ku).
  pose proof (sm_ok _ _ Hd2 K1).
  apply (stored_users n (set_user_passwd v (user (users s a))) (set_user_passwd (Some p) x) s);
    [done| |done|..].
  - cbn. destruct Hd2 as [S1 S2 S3 S4 S5 S6]. split_and!; [split; [done|]|..].
    + intros Hba. destruct (K2 Hba). split; [by apply S5|congruence].
    + intros un k. by rewrite S2, Kp.
    + intros un k. by rewrite S3, Kg.
    + intros k. by rewrite S1, Ku.
  - assert (set_user_passwd v (user (users s a)) =
      user (alter (with_user (set_user_passwd v)) a (users s) a)) as -> by (by rewrite fn_lookup_alter).
    apply (mem_user_update n a); try done; cbn; rewrite ?fn_lookup_alter; try done.
    intros b Hb. by rewrite fn_lookup_alter_ne.
  - destruct r as [[]|e]; [rewrite Hv by done|rewrite Hv' by done]; destruct Hag as [->| ->];
      [by left..|by right|by right].
Qed.

Lemma spool_create_keeps un info s s' :
  op_ranged (SpoolCreate un info) → wf s → stored s →
  adb_spool_create un info s = (Ok tt, s') → stored s'.
Proof.
  intros [[Hun Hpn] [Hq Hst]] Hwf Hs Hr.
  pose proof (spool_create_wf _ _ _ _ Hun Hpn Hwf Hr) as Hwf'.
  unfold adb_spool_create in Hr. run Hr as s0 s1 Hg. injection Hg as <- <-.
  destruct (adb_user_get un s) as [u|] eqn:Eu; [|done].
  pose proof (found_user_ok _ _ _ Hwf Eu Hun) as Huok. apply adb_user_get_inv in Eu as [Eu _].
  destruct (wf_user _ Hwf _ _ Eu) as [Hname _].
  assert (∃ p, storage_pool_create u (user_spool_get u (pool_name info) s) info true s = (Ok p, s'))
    as [p Hc].
  { destruct (user_spool_get u (pool_name info) s) as [q|].
    - destruct (spool_normal (pools s q)); [done|]. run Hr as p s2 Hc. injection Hr as <-. by exists p.
    - destruct (get_spool_by_name (pool_name info) s); [done|]. run Hr as p s2 Hc.
      injection Hr as <-. by exists p. }
  clear Hr. pose proof Hc as Hc'.
  assert (match user_spool_get u (pool_name info) s with
          | Some q => pool_name (pool (pools s q)) | None => pool_name info end = pool_name info) as Hpq.
  { destruct (user_spool_get u (pool_name info) s) as [q|] eqn:Eq; [|done].
    apply (wf_created _ Hwf) in Eq as [Eq _]. by destruct (wf_by_name _ Hwf _ _ Eq) as [-> _]. }
  apply storage_pool_create_inv in Hc'; [|done|by rewrite Hpq|done].
  pose proof (mem_pool_created un u info p s s' Hwf Hwf' Eu Hc') as Hmem.
  apply storage_pool_create_backend in Hc as (d & i & Hd & Ha & Hin & Hiq & Hdao).
  destruct (pool_created_lookup _ _ _ _ _ _ Hc' eq_refl) as [Hlk _].
  apply (wf_created _ Hwf') in Hlk as [Hlk _]. destruct (wf_by_name _ Hwf' _ _ Hlk) as [Hnm _].
  rewrite Hnm in Hin. rewrite Hname in Hdao.
  pose proof (stored_same_backend d s Hs Hd) as Hs1.
  apply spool_create_stored in Hdao; [|apply (so_ok _ Hs1)|done|by rewrite Hin|by rewrite Hiq].
  rewrite Hin, Hiq in Hdao.
  assert (pool_key (pool (pools s' p)) = (pool_id (pool (pools s' p)), pool_quota info,
    FCFS_AUTH_POOL_STATUS_NORMAL)) as Hkey.
  { unfold pool_key. by rewrite (pc_quota _ _ _ _ _ _ Hc'), (pc_status _ _ _ _ _ _ Hc'), Hst. }
  rewrite Hkey in Hmem.
  by eapply (stored_pools un (pool_name info) _ (set_backend d s)).
Qed.

(** A pool in memory is the stored one. *)
Lemma stored_pool_key un n p s :
  stored s → find_spool un n s = Some p → st_pool (backend s) un n = Some (pool_key (pool (pools s p))).
Proof.
  intros Hs Hf. rewrite <- (so_pool _ Hs). unfold mem_pool, find_spool in *.
  destruct (user_get un s) as [u|]; [|done]. simpl in *. by rewrite Hf.
Qed.

Lemma spool_remove_keeps un n s s' : wf s → stored s → adb_spool_remove un n s = (Ok tt, s') → stored s'.
Proof.
  intros Hwf Hs Hr. unfold adb_spool_remove in Hr. run Hr as s0 s1 Hg. injection Hg as <- <-.
  destruct (find_spool un n s) as [p|] eqn:Ep; [|done]. destruct (spool_normal (pools s p)); [|done].
  run Hr as [] s2 Hb. apply modify_inv in Hr as ->. apply on_backend_inv in Hb as (d & Hd & ->).
  pose proof (stored_pool_key _ _ _ _ Hs Ep) as Hk.
  eapply stored_pools; [exact Hs|eapply spool_remove_stored; [apply Hs|exact Hk|exact Hd]|done|].
  assert ((pool_id (pool (pools s p)), pool_quota (pool (pools s p)), FCFS_AUTH_POOL_STATUS_DELETED) =
    pool_key (pool (alter (with_pool (set_pool_status FCFS_AUTH_POOL_STATUS_DELETED)) p (pools s) p)))
    as -> by (by rewrite fn_lookup_alter).
  apply (mem_pool_update un n p s); try done. intros q Hq. cbn. by rewrite fn_lookup_alter_ne.
Qed.

(** What is told to the callbacks is not stored. *)
Lemma stored_log c s : stored s → stored (log_change c s).
Proof. by intros []. Qed.
Lemma quota_avail_stored p old s s' x :
  stored s → call_pool_quota_avail_func p old s = (Ok x, s') → stored s'.
Proof.
  intros Hs Hr. apply modify_inv in Hr as ->. cbv beta zeta.
  destruct (Bool.eqb _ _); [done|by apply stored_log].
Qed.

Lemma spool_quota_keeps un n q s s' :
  in_sint 64 q → wf s → stored s → adb_spool_set_quota un n q s = (Ok tt, s') → stored s'.
Proof.
  intros Hq Hwf Hs Hr. unfold adb_spool_set_quota in Hr. run Hr as s0 s1 Hg. injection Hg as <- <-.
  destruct (find_spool un n s) as [p|] eqn:Ep; [|done]. destruct (spool_normal (pools s p)); [|done].
  destruct (_ =? q); [by injection Hr as <-|]. run Hr as [] s2 Hb. run Hr as [] s3 Hm.
  apply modify_inv in Hm as ->. apply on_backend_inv in Hb as (d & Hd & ->).
  pose proof (stored_pool_key _ _ _ _ Hs Ep) as Hk. eapply quota_avail_stored; [|exact Hr].
  eapply stored_pools; [exact Hs|eapply spool_quota_stored; [apply Hs|exact Hk|exact Hq|exact Hd]|done|].
  assert ((pool_id (pool (pools s p)), q, pool_status (pool (pools s p))) =
    pool_key (pool (alter (with_pool (set_pool_quota q)) p (pools s) p)))
    as -> by (by rewrite fn_lookup_alter).
  apply (mem_pool_update un n p s); try done. intros r Hne. cbn. by rewrite fn_lookup_alter_ne.
Qed.

Lemma spool_used_keeps n b s s' : stored s → adb_spool_set_used_bytes n b s = (Ok tt, s') → stored s'.
Proof.
  intros Hs Hr. unfold adb_spool_set_used_bytes in Hr. run Hr as s0 s1 Hg. injection Hg as <- <-.
  destruct (adb_spool_global_get n s) as [p|]; [|done]. destruct (_ =? b); [by injection Hr as <-|].
  run Hr as [] s3 Hm. apply modify_inv in Hm as ->. eapply quota_avail_stored; [|exact Hr].
  destruct Hs as [O1 O2 O3 O4 O5 O6 O7]. split; try done. intros un m. rewrite <- O4.
  unfold mem_pool, user_get, user_spool_get. cbn. destruct (sl_find (user_sl s) un) as [u|]; [|done].
  simpl. destruct (sl_find _ m) as [q|]; [|done]. simpl.
  destruct (decide (q = p)) as [->|]; [by rewrite fn_lookup_alter|by rewrite fn_lookup_alter_ne].
Qed.

Lemma granted_create_keeps un info s s' :
  op_ranged (GrantedCreate un info) → wf s → stored s →
  adb_granted_create un info s = (Ok tt, s') → stored s'.
Proof.
  intros [Hun (Hid & Hfd & Hfs)] Hwf Hs Hr. simpl in Hun.
  unfold adb_granted_create in Hr. run Hr as s0 s1 Hg. injection Hg as <- <-.
  destruct (adb_user_get un s) as [u|] eqn:Eu; [|done].
  pose proof (found_user_ok _ _ _ Hwf Eu Hun) as Huok. apply adb_user_get_inv in Eu as [Eu _].
  destruct (wf_user _ Hwf _ _ Eu) as [Hname _].
  destruct (bool_decide (granted_pool_get u (granted_pool_id info) s ≠ None) && _);
    [by injection Hr as <-|].
  run Hr as g s1 Hc.
  enough (stored s1) as Hs1.
  { case_match; [apply modify_inv in Hr as ->; by apply stored_log|by injection Hr as <-]. }
  clear Hr. pose proof Hc as Hc'. apply granted_pool_create_inv in Hc'; [|done].
  pose proof (mem_grant_created un u info g s s1 Hwf Eu Hc') as Hmem.
  apply granted_pool_create_backend in Hc as (i & Ha & Hip & Hiv & Hdao).
  rewrite Hname in Hdao. apply granted_create_stored in Hdao; [|apply Hs|done|by rewrite ?Hip, ?Hiv..].
  rewrite Hip, Hiv in Hdao. unfold grant_key in Hmem. rewrite (gc_privs _ _ _ _ _ _ Hc') in Hmem.
  by eapply stored_grants.
Qed.

Lemma granted_remove_keeps un i s s' :
  op_ranged (GrantedRemove un i) → wf s → stored s →
  adb_granted_remove un i s = (Ok tt, s') → stored s'.
Proof.
  intros [Hun Hi] Hwf Hs Hr. simpl in Hun, Hi.
  destruct (granted_remove_inv _ _ _ _ Hun Hwf Hr)
    as (u & g & Hu & Hg & Hp & Hgs & Hsl & _ & _ & _ & _ & _ & Husr & Hgr & Hdel & _).
  unfold adb_granted_remove in Hr. run Hr as s0 s1 Hg0. injection Hg0 as <- <-. rewrite Hu, Hg in Hr.
  apply adb_user_get_inv in Hu as [Hu _].
  run Hr as [] s2 Hb. run Hr as [] s3 Hlog. run Hr as [] s4 Hd.
  assert (backend s' = backend s2 ∧ auto_id s' = auto_id s2) as [Hbk Ha].
  { apply modify_inv in Hr as ->, Hd as ->, Hlog as ->. done. }
  apply on_backend_inv in Hb as (d & Hdao & ->). cbn in Hbk, Ha. rewrite <- Hbk in Hdao.
  apply granted_remove_stored in Hdao; [|apply Hs|done..].
  destruct (mem_pools_same s s' Hp Hsl Husr) as [M1 M2].
  eapply stored_grants; [exact Hs|exact Hdao|done|split_and!; [done..|]].
  apply (mem_grants_change un u); try done.
  - intros j Hj. by rewrite Hdel, decide_False.
  - by rewrite Hdel, decide_True.
  - intros v j h _ _. by rewrite Hgs.
Qed.

Lemma run_op_stored op s s' :
  op_ranged op → inserts_succeed (SLs:=SLs) → wf s → stored s → run_op op s = (Ok tt, s') → stored s'.
Proof.
  intros Hop Hins Hwf Hs. destruct op; simpl.
  - by apply user_create_keeps.
  - by apply user_remove_keeps.
  - apply user_priv_keeps; [apply Hop|done..].
  - by apply user_passwd_keeps.
  - by apply spool_create_keeps.
  - by apply spool_remove_keeps.
  - apply spool_quota_keeps; [apply Hop|done..].
  - by apply spool_used_keeps.
  - by apply granted_create_keeps.
  - by apply granted_remove_keeps.
Qed.
End stored.
End DaoStored.
