(* ===== verification/DaoLoad.v ===== *)
(** * Loading the stored database

    What [adb_load_data] builds is the database the backend has stored, so that a server
    that becomes the master goes on where the last one stopped, and automatic ids of
    pools are not handed out twice. *)
From S2P Require Import Prelude Fastcommon AuthDB AuthDBProofs AuthDBSpec DaoStore.
Import AuthDB AuthDBProofs AuthDBSpec DaoStored.
Local Open Scope Z_scope.

Module DaoLoad.
Section load.
Context {D : Type} `{!AuthDao D, !NameAllocator D, !Malloc D, !DaoInodes D, !AuthDaoLaws D}.
Context `{!DaoStore D, !DaoStoreLaws D}.
Context {MB : Type} `{!Mblock MB, !MblockLaws MB}.
Context `{!FcCompare, !FcCompareLaws}.
Context {SLs SLi : Type → Type} `{!UniqSkiplist string_t SLs, !UniqSkiplist Z SLi}.
Context `{!UniqSkiplistLaws fc_string_compare SLs, !UniqSkiplistLaws fc_compare_int64 SLi}.
Context (Hins : inserts_succeed (SLs:=SLs)).
Abbreviation S := (AuthDBContext D MB SLs SLi).
Implicit Types s : S.

(** The users [us], the pools [ps] and the grants [gs] have been loaded from [d]. *)
Record loading (d : D) s (us : gset string_t) (ps : gset (string_t * string_t))
    (gs : gset (string_t * Z)) : Prop := {
  lo_wf : wf s;
  lo_same : st_same d (backend s);
  lo_user n : mem_user s n = if decide (n ∈ us) then st_user d n else None;
  lo_pool un n : mem_pool s un n = if decide ((un, n) ∈ ps) then st_pool d un n else None;
  lo_grant un i : mem_grant s un i = if decide ((un, i) ∈ gs) then st_grant d un i else None;
}.

Lemma initial_loading s : initial s → loading (backend s) s ∅ ∅ ∅.
Proof.
  intros Hs. pose proof (initial_wf s Hs) as Hwf. destruct Hs as (Hu & _).
  split; [done|done|..].
  - intros n. by rewrite mem_user_eq, Hu, sl_find_empty.
  - intros un n. by rewrite mem_pool_none by (by rewrite Hu, sl_find_empty).
  - intros un i. by rewrite mem_grant_none by (by rewrite Hu, sl_find_empty).
Qed.

(** ** One user, one pool, one grant *)

Lemma load_user_step d x s us ps gs a s' :
  loading d s us ps gs → st_user d (user_name x) = Some x → user_name x ∉ us →
  user_create None x false s = (Ok a, s') →
  loading d s' ({[user_name x]} ∪ us) ps gs ∧ sl_find (user_sl s') (user_name x) = Some a.
Proof.
  intros [L1 L2 L3 L4 L5] Hx Hnew Hr. destruct (st_user_name _ _ _ Hx) as (Hok & _ & Hpw).
  assert (user_get (user_name x) s = None) as Hnone.
  { pose proof (L3 (user_name x)) as Hm. rewrite decide_False in Hm by done. unfold mem_user in Hm.
    by destruct (user_get (user_name x) s). }
  pose proof Hr as Hc. apply user_create_inv in Hc; [|done].
  apply user_create_backend in Hr as (d1 & i & Hd & _ & _ & _ & _ & Hid & Hb).
  pose proof (user_created_wf _ _ _ _ _ L1 Hc) as Hwf'.
  assert (user_created (user_get (user_name x) s) x a s s') as Hc' by (by rewrite Hnone).
  destruct (mem_user_created _ _ _ _ L1 Hins Hc') as (Mu & Mp & Mg).
  assert (user (users s' a) = x) as Heq.
  { pose proof (uc_passwd _ _ _ _ _ Hc) as Hpw'. pose proof (uc_priv _ _ _ _ _ Hc).
    pose proof (uc_status _ _ _ _ _ Hc). pose proof (uc_name _ _ _ _ _ Hc).
    destruct (user (users s' a)), x as [xi xn [xp|] xv xs]; [|done]. simpl in *. congruence. }
  assert (sl_find (user_sl s') (user_name x) = Some a) as Hfind.
  { destruct (uc_addr _ _ _ _ _ Hc) as (_ & _ & [(_ & _ & Hf)|(_ & _ & ->)]);
      [by rewrite Hins in Hf|by rewrite decide_True]. }
  split; [|done]. split.
  - done.
  - rewrite Hb. by etrans.
  - intros n. rewrite Mu, Heq, L3. destruct (decide (n = user_name x)) as [->|];
      [by rewrite decide_True by set_solver|]. by apply decide_ext; set_solver.
  - intros un n. by rewrite Mp, L4.
  - intros un i'. by rewrite Mg, L5.
Qed.

Lemma load_pool_step d un u info s us ps gs p s' :
  loading d s us ps gs → sl_find (user_sl s) un = Some u → dao_name_ok D un →
  st_pool d un (pool_name info) = Some (pool_key info) → (un, pool_name info) ∉ ps →
  storage_pool_create u None info false s = (Ok p, s') →
  loading d s' us ({[(un, pool_name info)]} ∪ ps) gs ∧ user_sl s' = user_sl s.
Proof.
  intros [L1 L2 L3 L4 L5] Hu Hun Hx Hnew Hr. destruct (wf_user _ L1 _ _ Hu) as [Hname _].
  assert (user_spool_get u (pool_name info) s = None) as Hnone.
  { pose proof (L4 un (pool_name info)) as Hm. rewrite decide_False in Hm by done.
    rewrite (mem_pool_eq s un _ u Hu) in Hm. unfold user_spool_get.
    by destruct (sl_find (created (users s u)) (pool_name info)). }
  assert (st_pool (backend s) un (pool_name info) = Some (pool_key info)) as Hx'
    by (by rewrite (sm_pools _ _ L2)).
  destruct (st_pool_inode _ _ _ _ Hx') as [Hpn Hino].
  pose proof Hr as Hc. apply storage_pool_create_inv in Hc; [|by rewrite Hname|done|by rewrite Hname].
  apply storage_pool_create_backend in Hr as (d1 & i & Hd & _ & _ & _ & Hid & Hb).
  pose proof (pool_new_wf _ _ _ _ _ _ L1 Hu Hc) as Hwf'.
  assert (pool_created u (user_spool_get u (pool_name info) s) info p s s') as Hc' by (by rewrite Hnone).
  destruct (mem_pool_created _ _ _ _ _ _ L1 Hwf' Hu Hc') as (Mu & Mg & Mp).
  assert (pool_key (pool (pools s' p)) = pool_key info) as Hkey.
  { unfold pool_key. by rewrite Hid, (pc_quota _ _ _ _ _ _ Hc), (pc_status _ _ _ _ _ _ Hc). }
  split; [|by apply (pc_user_sl _ _ _ _ _ _ Hc)]. split.
  - done.
  - rewrite Hb. by etrans.
  - intros n. by rewrite Mu, L3.
  - intros un' n. rewrite Mp, Hkey, L4. destruct (decide (un' = un ∧ n = pool_name info)) as [[-> ->]|Hne].
    + by rewrite decide_True by set_solver.
    + apply decide_ext. set_solver.
  - intros un' i'. by rewrite Mg, L5.
Qed.

Lemma load_grant_step d un u info s us ps gs g s' :
  loading d s us ps gs → sl_find (user_sl s) un = Some u → dao_name_ok D un →
  st_grant d un (granted_pool_id info) = Some (grant_key info) → (un, granted_pool_id info) ∉ gs →
  granted_pool_create u None info false s = (Ok g, s') →
  loading d s' us ps ({[(un, granted_pool_id info)]} ∪ gs) ∧ user_sl s' = user_sl s.
Proof.
  intros [L1 L2 L3 L4 L5] Hu Hun Hx Hnew Hr. destruct (wf_user _ L1 _ _ Hu) as [Hname _].
  assert (granted_pool_get u (granted_pool_id info) s = None) as Hnone.
  { pose proof (L5 un (granted_pool_id info)) as Hm. rewrite decide_False in Hm by done.
    rewrite (mem_grant_eq s un _ u Hu) in Hm. unfold granted_pool_get.
    by destruct (sl_find (granted (users s u)) (granted_pool_id info)). }
  pose proof Hr as Hc. apply granted_pool_create_inv in Hc; [|by rewrite Hname].
  apply granted_pool_create_backend in Hr as (i & _ & _ & _ & Hid & Hb).
  assert (grant_created u (granted_pool_get u (granted_pool_id info) s) info g s s') as Hc'
    by (by rewrite Hnone).
  pose proof (grant_created_wf _ _ _ _ _ _ _ L1 Hu eq_refl Hc') as Hwf'.
  destruct (mem_grant_created _ _ _ _ _ _ L1 Hu Hc') as (Mu & Mp & Mg).
  assert (grant_key (grant (grants s' g)) = grant_key info) as Hkey.
  { unfold grant_key. by rewrite Hid, (gc_privs _ _ _ _ _ _ Hc). }
  split; [|by apply (gc_user_sl _ _ _ _ _ _ Hc)]. split.
  - done.
  - by rewrite Hb.
  - intros n. by rewrite Mu, L3.
  - intros un' n. by rewrite Mp, L4.
  - intros un' j. rewrite Mg, Hkey, L5.
    destruct (decide (un' = un ∧ j = granted_pool_id info)) as [[-> ->]|Hne].
    + by rewrite decide_True by set_solver.
    + apply decide_ext. set_solver.
Qed.

(** ** The loops *)

(** A listing leaves what has been loaded as it is. *)
Lemma loading_backend d s us ps gs d2 :
  loading d s us ps gs → st_same (backend s) d2 → loading d (set_backend d2 s) us ps gs.
Proof.
  intros [L1 L2 L3 L4 L5] Hd. split; [|by etrans|done..].
  destruct L1 as [W1 W2 W3 W4 W5 W6 W7 W8]. split; [done..|]. intros un u n p Hu Hp. cbn in *.
  assert (st_pool d2 un n = Some (pool_key (pool (pools s p)))) as Hst.
  { rewrite (sm_pools _ _ Hd), (sm_pools _ _ L2). pose proof (L4 un n) as Hm.
    rewrite (mem_pool_eq s un n u Hu), Hp in Hm. simpl in Hm. by destruct (decide _). }
  by destruct (st_pool_inode _ _ _ _ Hst) as [_ ->].
Qed.

Lemma convert_spool_loading d un u l s us ps gs s' :
  loading d s us ps gs → sl_find (user_sl s) un = Some u → dao_name_ok D un → NoDup (pool_name <$> l) →
  (∀ p, p ∈ l → st_pool d un (pool_name p) = Some (pool_key p)) →
  (∀ p, p ∈ l → (un, pool_name p) ∉ ps) →
  convert_spool_array u l s = (Ok tt, s') →
  loading d s' us (ps ∪ list_to_set (pair un <$> (pool_name <$> l))) gs ∧ user_sl s' = user_sl s.
Proof.
  revert s ps. induction l as [|x l IH]; intros s ps HL Hu Hun Hnd Hst Hnew Hr; simpl in Hr.
  { injection Hr as <-. split; [|done]. simpl. by rewrite union_empty_r_L. }
  run Hr as p s1 Hc. simpl in Hnd. apply NoDup_cons in Hnd as [Hx Hnd].
  destruct (load_pool_step _ _ _ _ _ _ _ _ _ _ HL Hu Hun (Hst x (list_elem_of_here _ _))
    (Hnew x (list_elem_of_here _ _)) Hc) as [HL1 Hsl].
  destruct (IH s1 _ HL1) as [HL2 Hsl2]; [by rewrite Hsl|done..| | |done|].
  - intros y Hy. apply Hst. by right.
  - intros y Hy [Heq%elem_of_singleton|Hin]%elem_of_union; [|by apply (Hnew y); [right|]].
    injection Heq as Heq. apply Hx. rewrite <- Heq. by apply list_elem_of_fmap_2.
  - split; [|by rewrite Hsl2]. rewrite !fmap_cons, list_to_set_cons.
    by rewrite (assoc_L (∪)), (comm_L (∪) ps).
Qed.

Lemma convert_granted_loading d un u l s us ps gs s' :
  loading d s us ps gs → sl_find (user_sl s) un = Some u → dao_name_ok D un →
  NoDup (granted_pool_id <$> l) →
  (∀ g, g ∈ l → st_grant d un (granted_pool_id g) = Some (grant_key g)) →
  (∀ g, g ∈ l → (un, granted_pool_id g) ∉ gs) →
  convert_granted_array u l s = (Ok tt, s') →
  loading d s' us ps (gs ∪ list_to_set (pair un <$> (granted_pool_id <$> l))) ∧ user_sl s' = user_sl s.
Proof.
  revert s gs. induction l as [|x l IH]; intros s gs HL Hu Hun Hnd Hst Hnew Hr; simpl in Hr.
  { injection Hr as <-. split; [|done]. simpl. by rewrite union_empty_r_L. }
  run Hr as p s1 Hc. simpl in Hnd. apply NoDup_cons in Hnd as [Hx Hnd].
  destruct (load_grant_step _ _ _ _ _ _ _ _ _ _ HL Hu Hun (Hst x (list_elem_of_here _ _))
    (Hnew x (list_elem_of_here _ _)) Hc) as [HL1 Hsl].
  destruct (IH s1 _ HL1) as [HL2 Hsl2]; [by rewrite Hsl|done..| | |done|].
  - intros y Hy. apply Hst. by right.
  - intros y Hy [Heq%elem_of_singleton|Hin]%elem_of_union; [|by apply (Hnew y); [right|]].
    injection Heq as Heq. apply Hx. rewrite <- Heq. by apply list_elem_of_fmap_2.
  - split; [|by rewrite Hsl2]. rewrite !fmap_cons, list_to_set_cons.
    by rewrite (assoc_L (∪)), (comm_L (∪) gs).
Qed.

(** The pools of the users loaded, and only those, have been loaded. *)
Definition pools_complete (d : D) (us : gset string_t) (ps : gset (string_t * string_t)) : Prop :=
  ∀ un n, ((un, n) ∈ ps → un ∈ us) ∧ (un ∈ us → st_pool d un n ≠ None → (un, n) ∈ ps).
Definition grants_complete (d : D) (us : gset string_t) (gs : gset (string_t * Z)) : Prop :=
  ∀ un i, ((un, i) ∈ gs → un ∈ us) ∧ (un ∈ us → st_grant d un i ≠ None → (un, i) ∈ gs).

Lemma load_user_spool_loading d un u s us ps gs s' :
  st_ok d → loading d s us ps gs → sl_find (user_sl s) un = Some u → dao_name_ok D un →
  un ∈ us → pools_complete d (us ∖ {[un]}) ps →
  load_user_spool u s = (Ok tt, s') →
  ∃ ps', loading d s' us ps' gs ∧ pools_complete d us ps' ∧ user_sl s' = user_sl s.
Proof.
  intros Hok HL Hu Hun Hin Hps Hr. unfold load_user_spool in Hr. run Hr as s0 s1 Hg.
  injection Hg as <- <-. run Hr as l s1 Hl. apply on_backend_inv in Hl as (d2 & Hl & ->).
  destruct (wf_user _ (lo_wf _ _ _ _ _ HL) _ _ Hu) as [Hname _]. rewrite Hname in Hl.
  pose proof (lo_same _ _ _ _ _ HL) as Hsame.
  apply spool_list_stored in Hl as (Hd2 & Hnd & Hall & Hcompl); [|by apply Hsame|done].
  apply (convert_spool_loading d un u l (set_backend d2 s) us ps gs) in Hr as [HL' Hsl];
    [|by apply loading_backend|done..| |].
  - eexists. split_and!; [exact HL'| |exact Hsl]. intros un' n.
    rewrite elem_of_union, elem_of_list_to_set, <- list_fmap_compose, list_elem_of_fmap. split.
    + intros [Hp|(p & [= -> ->] & Hp)]; [|done]. apply (Hps un' n) in Hp. set_solver.
    + intros Hun' Hp. destruct (decide (un' = un)) as [->|Hne].
      * right. destruct (st_pool d un n) as [x|] eqn:Ex; [|done].
        rewrite <- (sm_pools _ _ Hsame) in Ex. apply Hcompl, list_elem_of_fmap in Ex as (p & -> & Hp').
        by exists p.
      * left. apply Hps; [set_solver|done].
  - intros p Hp. rewrite <- (sm_pools _ _ Hsame). by apply Hall.
  - intros p Hp Hp'. apply (Hps un (pool_name p)) in Hp'. set_solver.
Qed.

Lemma load_users_loading d l s us ps s' :
  st_ok d → loading d s us ps ∅ → pools_complete d us ps → NoDup (user_name <$> l) →
  (∀ x, x ∈ l → st_user d (user_name x) = Some x) → (∀ x, x ∈ l → user_name x ∉ us) →
  load_users l s = (Ok tt, s') →
  ∃ ps', let us' := us ∪ list_to_set (user_name <$> l) in
    loading d s' us' ps' ∅ ∧ pools_complete d us' ps'.
Proof.
  intros Hok. revert s us ps. induction l as [|x l IH]; intros s us ps HL Hps Hnd Hst Hnew Hr; simpl in Hr.
  { injection Hr as <-. exists ps. simpl. by rewrite union_empty_r_L. }
  run Hr as a s1 Hc. run Hr as [] s2 Hp. simpl in Hnd. apply NoDup_cons in Hnd as [Hx Hnd].
  pose proof (Hst x (list_elem_of_here _ _)) as Hstx. pose proof (Hnew x (list_elem_of_here _ _)) as Hnx.
  destruct (load_user_step _ _ _ _ _ _ _ _ HL Hstx Hnx Hc) as [HL1 Ha].
  destruct (st_user_name _ _ _ Hstx) as (Hok' & _).
  destruct (load_user_spool_loading d (user_name x) a s1 _ ps ∅ s2 Hok HL1 Ha Hok')
    as (ps1 & HL2 & Hps1 & _); [set_solver| |done|].
  { replace (({[user_name x]} ∪ us) ∖ {[user_name x]}) with us; [done|].
       apply set_eq. set_solver. }
  destruct (IH s2 _ ps1 HL2 Hps1 Hnd) as (ps' & HL' & Hps'); [| |done|].
  - intros y Hy. apply Hst. by right.
  - intros y Hy [Heq%elem_of_singleton|Hin]%elem_of_union; [|by apply (Hnew y); [right|]].
    apply Hx. rewrite <- Heq. by apply list_elem_of_fmap_2.
  - exists ps'. rewrite fmap_cons, list_to_set_cons, (assoc_L (∪)), (comm_L (∪) us). done.
Qed.

Lemma load_granted_pool_loading d un u s us ps gs us0 s' :
  st_ok d → loading d s us ps gs → sl_find (user_sl s) un = Some u → dao_name_ok D un →
  un ∉ us0 → grants_complete d us0 gs → load_granted_pool u s = (Ok tt, s') →
  ∃ gs', loading d s' us ps gs' ∧ grants_complete d ({[un]} ∪ us0) gs' ∧ user_sl s' = user_sl s.
Proof.
  intros Hok HL Hu Hun Hin Hgs Hr. unfold load_granted_pool in Hr. run Hr as s0 s1 Hg.
  injection Hg as <- <-. run Hr as l s1 Hl. apply on_backend_inv in Hl as (d2 & Hl & ->).
  destruct (wf_user _ (lo_wf _ _ _ _ _ HL) _ _ Hu) as [Hname _]. rewrite Hname in Hl.
  pose proof (lo_same _ _ _ _ _ HL) as Hsame.
  apply granted_list_stored in Hl as (Hd2 & Hnd & Hall & Hcompl); [|by apply Hsame|done].
  apply (convert_granted_loading d un u l (set_backend d2 s) us ps gs) in Hr as [HL' Hsl];
    [|by apply loading_backend|done..| |].
  - eexists. split_and!; [exact HL'| |exact Hsl]. intros un' n.
    rewrite elem_of_union, elem_of_list_to_set, <- list_fmap_compose, list_elem_of_fmap. split.
    + intros [Hp|(p & [= -> ->] & Hp)]; [|set_solver]. apply (Hgs un' n) in Hp. set_solver.
    + intros Hun' Hp. destruct (decide (un' = un)) as [->|Hne].
      * right. destruct (st_grant d un n) as [x|] eqn:Ex; [|done].
        rewrite <- (sm_grants _ _ Hsame) in Ex. apply Hcompl, list_elem_of_fmap in Ex as (p & -> & Hp').
        by exists p.
      * left. apply Hgs; [set_solver|done].
  - intros p Hp. rewrite <- (sm_grants _ _ Hsame). by apply Hall.
  - intros p Hp Hp'. apply (Hgs un (granted_pool_id p)) in Hp'. set_solver.
Qed.

Lemma load_grants_loading d l s us ps gs us0 s' :
  st_ok d → loading d s us ps gs → grants_complete d us0 gs → NoDup l.*1 →
  (∀ k u, (k, u) ∈ l → sl_find (user_sl s) k = Some u) → (∀ k, k ∈ l.*1 → k ∉ us0) →
  (∀ k, k ∈ l.*1 → dao_name_ok D k) →
  load_grants l s = (Ok tt, s') →
  ∃ gs', loading d s' us ps gs' ∧ grants_complete d (us0 ∪ list_to_set l.*1) gs'.
Proof.
  intros Hok. revert s gs us0. induction l as [|[k u] l IH]; intros s gs us0 HL Hgs Hnd Hst Hnew Hnm Hr; simpl in Hr.
  { injection Hr as <-. exists gs. simpl. by rewrite union_empty_r_L. }
  run Hr as [] s1 Hp. simpl in Hnd. apply NoDup_cons in Hnd as [Hx Hnd].
  assert (k ∈ ((k, u) :: l).*1) as Hk by (simpl; by left).
  destruct (load_granted_pool_loading d k u s us ps gs us0 s1 Hok HL) as (gs1 & HL1 & Hgs1 & Hsl);
    [apply Hst; by left|by apply Hnm|by apply Hnew|done|done|].
  destruct (IH s1 gs1 _ HL1 Hgs1 Hnd) as (gs' & HL' & Hgs'); [| | |done|].
  - intros k' u' Hin. rewrite Hsl. apply Hst. by right.
  - intros k' Hin [->%elem_of_singleton|Hin']%elem_of_union; [done|]. apply (Hnew k'); [|done].
    simpl. by right.
  - intros k' Hin. apply Hnm. simpl. by right.
  - exists gs'. split; [done|]. simpl.
    by rewrite (assoc_L (∪)), (comm_L (∪) us0).
Qed.

(** ** The whole load *)

Lemma elements_nodup {V} (sl : SLs V) : NoDup (sl_elements sl).*1.
Proof.
  pose proof (sl_elements_sorted (cmp:=fc_string_compare) V sl) as Hs.
  induction Hs as [|x l Hl IH Hall]; [constructor|]. simpl. constructor; [|done].
  intros (y & Heq & Hy)%list_elem_of_fmap. rewrite Forall_forall in Hall. specialize (Hall _ Hy).
  simpl in Hall. rewrite <- Heq, (cmp_refl (P:=λ _, True)) in Hall by done. lia.
Qed.

(** Everything has been loaded. *)
Lemma loading_all d s us ps gs :
  st_ok d → loading d s us ps gs → (∀ n, st_user d n ≠ None → n ∈ us) → pools_complete d us ps →
  grants_complete d us gs →
  (∀ n, mem_user s n = st_user d n) ∧ (∀ un n, mem_pool s un n = st_pool d un n) ∧
  ∀ un i, mem_grant s un i = st_grant d un i.
Proof.
  intros Hok [_ _ L3 L4 L5] Hus Hps Hgs. split_and!.
  - intros n. rewrite L3. case_decide as Hn; [done|]. destruct (st_user d n) eqn:E; [|done].
    exfalso. by apply Hn, Hus; rewrite E.
  - intros un n. rewrite L4. case_decide as Hn; [done|]. destruct (st_pool d un n) eqn:E; [|done].
    exfalso. apply Hn, Hps; [|by rewrite E]. apply Hus, (st_pool_owner d un n Hok). by rewrite E.
  - intros un i. rewrite L5. case_decide as Hn; [done|]. destruct (st_grant d un i) eqn:E; [|done].
    exfalso. apply Hn, Hgs; [|by rewrite E]. apply Hus, (st_grant_owner d un i Hok). by rewrite E.
Qed.

(** The list of users has the users that were loaded. *)
Lemma loaded_keys d l s ps gs :
  (∀ x, x ∈ l ↔ st_user d (user_name x) = Some x) →
  loading d s (list_to_set (user_name <$> l)) ps gs →
  ∀ k, k ∈ (sl_elements (user_sl s)).*1 ↔ k ∈ user_name <$> l.
Proof.
  intros Hmem HL k. pose proof (lo_user _ _ _ _ _ HL k) as Hk. rewrite mem_user_eq in Hk.
  rewrite list_elem_of_fmap. split.
  - intros ([k' u] & -> & Hin). apply sl_find_elements in Hin. simpl in *. rewrite Hin in Hk.
    destruct (decide _) as [Hd|]; [by apply elem_of_list_to_set in Hd|done].
  - intros Hin. rewrite decide_True in Hk by (by apply elem_of_list_to_set).
    apply list_elem_of_fmap in Hin as (x & -> & Hx). apply Hmem in Hx. rewrite Hx in Hk.
    destruct (sl_find (user_sl s) (user_name x)) as [u|] eqn:E; [|done].
    exists (user_name x, u). split; [done|]. by apply sl_find_elements.
Qed.

Lemma convert_user_loading d l s s' :
  st_ok d → loading d s ∅ ∅ ∅ → NoDup (user_name <$> l) →
  (∀ x, x ∈ l ↔ st_user d (user_name x) = Some x) → convert_user_array l s = (Ok tt, s') →
  ∃ us ps gs, loading d s' us ps gs ∧ (∀ n, st_user d n ≠ None → n ∈ us) ∧
    pools_complete d us ps ∧ grants_complete d us gs.
Proof.
  intros Hok HL Hnd Hmem Hc. unfold convert_user_array in Hc. run Hc as [] s1 Hu.
  destruct (load_users_loading d l s ∅ ∅ s1 Hok HL) as (ps & HL1 & Hps);
    [by intros un n; split; set_solver|done|intros x; apply Hmem|set_solver|done|].
  cbv zeta in HL1, Hps. rewrite union_empty_l_L in HL1, Hps.
  run Hc as s2 s3 Hg. injection Hg as <- <-.
  pose proof (loaded_keys d l s1 ps ∅ Hmem HL1) as Hkeys.
  destruct (load_grants_loading d (sl_elements (user_sl s1)) s1 _ ps ∅ ∅ s' Hok HL1) as (gs & HL2 & Hgs);
    [by intros un i; split; set_solver|apply elements_nodup|by intros k u ?%sl_find_elements|set_solver| |done|].
  { intros k (x & -> & Hx%Hmem)%Hkeys%list_elem_of_fmap. by apply st_user_name in Hx as [? _]. }
  exists (list_to_set (user_name <$> l)), ps, gs. split_and!; [done| |done|].
  - intros n Hn. destruct (st_user d n) as [x|] eqn:E; [|done].
    destruct (st_user_name _ _ _ E) as (_ & Hx & _). apply elem_of_list_to_set. rewrite <- Hx.
    apply list_elem_of_fmap_2, Hmem. by rewrite Hx.
  - replace (list_to_set (user_name <$> l)) with
      (∅ ∪ list_to_set (sl_elements (user_sl s1)).*1 : gset string_t); [done|].
    apply set_eq. intros k. rewrite elem_of_union, !elem_of_list_to_set, Hkeys. set_solver.
Qed.

Lemma load_stored A s0 s' :
  initial s0 → st_ok (backend s0) → adb_load_data A s0 = (Ok tt, s') →
  wf s' ∧ stored (st_auto (backend s0)) s' ∧ st_same (backend s0) (backend s') ∧
  (∀ n, mem_user s' n = st_user (backend s0) n) ∧ auto_id s' = Z.max A (st_auto (backend s0)).
Proof.
  intros Hini Hok Hr. set (d := backend s0) in *. unfold adb_load_data in Hr.
  run Hr as l s1 Hl. apply on_backend_inv in Hl as (d1 & Hl & ->).
  apply user_list_stored in Hl as (Hd1 & Hnd & Hmem); [|done].
  assert (loading d (set_backend d1 s0) ∅ ∅ ∅) as HL
    by (by apply loading_backend; [apply initial_loading|]).
  run Hr as [] s2 Hc.
  destruct (convert_user_loading d l _ _ Hok HL Hnd Hmem Hc) as (us & ps & gs & HL2 & Hus & Hps & Hgs).
  unfold load_pool_auto_id in Hr. run Hr as [] s4 Hb. apply on_backend_inv in Hb as (d2 & Hb & ->).
  apply base_stored in Hb as [Hd2 Hba]; [|by apply HL2]. pose proof (loading_backend _ _ _ _ _ _ HL2 Hd2) as HL3.
  run Hr as v s5 Hv. apply on_backend_inv in Hv as (d3 & Hv & ->). cbn in Hv.
  apply get_auto_stored in Hv as [Hd3 ->]; [|by apply HL3|done].
  pose proof (loading_backend _ _ _ _ _ _ HL3 Hd3) as HL4. apply modify_inv in Hr as ->. cbn in HL4.
  destruct (loading_all _ _ _ _ _ Hok HL4 Hus Hps Hgs) as (Mu & Mp & Mg).
  pose proof (lo_same _ _ _ _ _ HL4) as Hsame. cbn in Hsame.
  assert (st_auto d2 = st_auto d) as Hauto by (apply HL3).
  assert ((if A >? st_auto d2 then A else st_auto d2) = Z.max A (st_auto d)) as ->
    by (rewrite Hauto; destruct (A >? st_auto d) eqn:E; bool_to_prop; lia).
  split_and!; [| |done|exact Mu|done].
  - destruct (lo_wf _ _ _ _ _ HL4) as [W1 W2 W3 W4 W5 W6 W7 W8]. by split.
  - split; cbn; [by apply Hsame|by apply Hd3|..].
    + intros n. rewrite (sm_users _ _ Hsame), <- (Mu n). unfold mem_user. cbn.
      change (user_get n (set_auto_id ?x ?s)) with (user_get n s).
      destruct (user_get n _); constructor. by left.
    + intros un n. rewrite (sm_pools _ _ Hsame). apply Mp.
    + intros un i. rewrite (sm_grants _ _ Hsame). apply Mg.
    + by apply Hsame.
    + lia.
Qed.

(** ** The database over the years *)

(** Another server reads the same tables. *)
Record same_tables (d d' : D) : Prop := {
  ta_ok : st_ok d';
  ta_users : same_users d d';
  ta_pools : same_pools d d';
  ta_grants : same_grants d d';
  ta_auto : st_auto d' = st_auto d;
}.

(** An operation succeeds, an automatic id is handed out, or another server becomes the
    master and loads the database. *)
Inductive db_step : S → S → Prop :=
| step_op op s s' : op_ranged (D:=D) op → run_op op s = (Ok tt, s') → db_step s s'
| step_auto_id v s s' : in_sint 64 (auto_id s + 1) → adb_spool_next_auto_id s = (Ok v, s') → db_step s s'
| step_takeover A s s0 s' : same_tables (backend s) (backend s0) → initial s0 →
    adb_load_data A s0 = (Ok tt, s') → db_step s s'.

(** What holds in between. *)
Definition kept_db s : Prop := wf s ∧ stored (st_auto (backend s)) s.

Lemma next_auto_id_stored v s s' :
  kept_db s → in_sint 64 (auto_id s + 1) → adb_spool_next_auto_id s = (Ok v, s') →
  kept_db s' ∧ v = auto_id s + 1 ∧ st_auto (backend s') = v.
Proof.
  intros [Hwf [O1 O2 O3 O4 O5 O6 O7]] Hrange Hr. unfold adb_spool_next_auto_id in Hr.
  run Hr as [] s1 Hm. apply modify_inv in Hm as ->. run Hr as s2 s3 Hg. injection Hg as <- <-.
  run Hr as [] s4 Hb. injection Hr as <- <-. apply on_backend_inv in Hb as (d & Hd & ->).
  cbn in *. unfold int64 in *. rewrite sint_wrap_small in * by (done || lia).
  apply set_auto_stored in Hd as (K1 & Ku & Kp & Kg & Kb & Ka); [|done..].
  split_and!; [|done..]. split.
  - destruct Hwf as [W1 W2 W3 W4 W5 W6 W7 W8]. split; [done..|]. cbn. intros un u n p Hu Hp.
    assert (st_pool d un n = Some (pool_key (pool (pools s p)))) as Hst.
    { rewrite Kp, <- O4, (mem_pool_eq s un n u Hu). by rewrite Hp. }
    by destruct (st_pool_inode _ _ _ _ Hst) as [_ ->].
  - split; cbn; try done.
    + intros n. rewrite Ku. apply O3.
    + intros un n. rewrite Kp. apply O4.
    + intros un i. rewrite Kg. apply O5.
    + lia.
Qed.

Lemma db_step_kept s s' :
  db_step s s' → kept_db s → kept_db s' ∧ st_auto (backend s) ≤ st_auto (backend s').
Proof.
  intros Hstep [Hwf Hs]. destruct Hstep as [op s s' Hop Hr|v s s' Hrange Hr|A s s0 s' Ht Hini Hr].
  - pose proof (run_op_stored _ _ _ _ Hop Hins Hwf Hs Hr) as Hs'. pose proof (so_auto _ _ Hs') as Ha.
    split; [split|lia]; [by eapply run_op_wf; [apply Hop|..]|by rewrite Ha].
  - destruct (next_auto_id_stored v s s') as (Hk & -> & Ha); [done..|]. split; [done|].
    pose proof (so_auto_le _ _ Hs). lia.
  - destruct (load_stored A s0 s' Hini (ta_ok _ _ Ht) Hr) as (Hwf' & Hs' & Hsame & _).
    pose proof (so_auto _ _ Hs') as Ha. pose proof (ta_auto _ _ Ht).
    split; [split; [done|by rewrite Ha]|lia].
Qed.

Lemma db_steps_kept s s' :
  rtc db_step s s' → kept_db s → kept_db s' ∧ st_auto (backend s) ≤ st_auto (backend s').
Proof.
  induction 1 as [s|s s1 s' Hst _ IH]; intros Hk; [done|].
  destruct (db_step_kept _ _ Hst Hk) as [Hk1 Hle]. destruct (IH Hk1). split; [done|lia].
Qed.

Lemma first_load_kept A s0 s :
  initial s0 → st_ok (backend s0) → adb_load_data A s0 = (Ok tt, s) → kept_db s.
Proof.
  intros Hini Hok Hr. destruct (load_stored A s0 s Hini Hok Hr) as (Hwf & Hs & _).
  pose proof (so_auto _ _ Hs) as Ha. split; [done|]. by rewrite Ha.
Qed.

(** ** What the operations show of the tables *)

(** A pool with the bytes used left out, which are not stored. *)
Definition without_used : FCFSAuthStoragePoolInfo → FCFSAuthStoragePoolInfo := set_pool_used 0.

Lemma spool_get_mem s un n :
  wf s → without_used <$> adb_spool_get un n s =
  match mem_pool s un n with
  | Some (id, q, st) => if st =? FCFS_AUTH_POOL_STATUS_NORMAL
      then Some {| pool_id := id; pool_name := n; pool_quota := q; pool_used := 0; pool_status := st |}
      else None
  | None => None
  end.
Proof.
  intros Hwf. rewrite adb_spool_get_eq. destruct (sl_find (user_sl s) un) as [u|] eqn:Eu.
  2: { by rewrite mem_pool_none. }
  rewrite (mem_pool_eq s un n u Eu). destruct (sl_find (created (users s u)) n) as [p|] eqn:Ep; [|done].
  simpl. unfold spool_normal. destruct (_ =? _); [|done]. simpl. do 2 f_equal.
  apply (wf_created _ Hwf) in Ep as [Ep _]. by apply (wf_by_name _ Hwf) in Ep as [<- _].
Qed.

Lemma user_view_agrees s s' n :
  option_Forall2 user_agrees (mem_user s n) (mem_user s' n) →
  option_Forall2 user_agrees (user_view s n) (user_view s' n).
Proof.
  rewrite !mem_user_eq, !user_view_eq. unfold user_normal.
  destruct (sl_find (user_sl s) n) as [a|], (sl_find (user_sl s') n) as [b|]; simpl;
    inversion 1 as [x y Hxy|]; subst; [|constructor].
  assert (user_status (user (users s a)) = user_status (user (users s' b))) as ->
    by (by destruct Hxy as [->| ->]).
  destruct (_ =? _); by constructor.
Qed.

(** A pool is found by its id exactly under its owner and its name. *)
Lemma pool_by_id_mem s i p :
  wf s → sl_find (by_id s) i = Some p →
  ∃ q st, mem_pool s (user_name (user (users s (pool_user (pools s p))))) (pool_name (pool (pools s p)))
          = Some (i, q, st).
Proof.
  intros Hwf Hp. destruct (wf_by_id _ Hwf _ _ Hp) as [Hi Hn].
  destruct (wf_by_name _ Hwf _ _ Hn) as (_ & _ & _ & un & Hun).
  destruct (wf_user _ Hwf _ _ Hun) as [Hname _]. rewrite Hname.
  rewrite (mem_pool_eq s un _ _ Hun).
  assert (sl_find (created (users s (pool_user (pools s p)))) (pool_name (pool (pools s p))) = Some p) as ->
    by (by apply (wf_created _ Hwf)).
  simpl. unfold pool_key. rewrite Hi. eauto.
Qed.

Lemma mem_pool_by_id s un n i q st :
  wf s → mem_pool s un n = Some (i, q, st) →
  ∃ p, sl_find (by_id s) i = Some p ∧ pool_name (pool (pools s p)) = n ∧
       user_name (user (users s (pool_user (pools s p)))) = un.
Proof.
  intros Hwf Hm. destruct (sl_find (user_sl s) un) as [u|] eqn:Eu.
  2: { by rewrite mem_pool_none in Hm. }
  rewrite (mem_pool_eq s un n u Eu) in Hm.
  destruct (sl_find (created (users s u)) n) as [p|] eqn:Ep; [|done]. injection Hm as <- _ _. exists p.
  apply (wf_created _ Hwf) in Ep as [Ep Hpu]. destruct (wf_by_name _ Hwf _ _ Ep) as (Hn & _ & Hi & _).
  destruct (wf_user _ Hwf _ _ Eu) as [Hname _]. by rewrite Hpu.
Qed.

Lemma adb_user_get_agrees s s' n :
  option_Forall2 user_agrees (user_view s n) (user_view s' n) →
  (∃ u u', adb_user_get n s = Some u ∧ adb_user_get n s' = Some u') ∨
  (adb_user_get n s = None ∧ adb_user_get n s' = None).
Proof.
  unfold user_view. destruct (adb_user_get n s) as [u|], (adb_user_get n s') as [u'|]; simpl;
    inversion 1; [left; eauto|by right].
Qed.

Lemma granted_full_get_same s s' un i :
  wf s → wf s' → option_Forall2 user_agrees (user_view s un) (user_view s' un) →
  (∀ un n, mem_pool s' un n = mem_pool s un n) → mem_grant s' un i = mem_grant s un i →
  adb_granted_full_get un i s' = adb_granted_full_get un i s.
Proof.
  intros Hwf Hwf' Hu Hp Hg. unfold adb_granted_full_get.
  destruct (adb_user_get_agrees _ _ _ Hu) as [(u & u' & Eu & Eu')|[-> ->]]; [|done]. rewrite Eu, Eu'.
  apply adb_user_get_inv in Eu as [Eu _], Eu' as [Eu' _].
  rewrite (mem_grant_eq s un i u Eu), (mem_grant_eq s' un i u' Eu') in Hg. unfold granted_pool_get.
  destruct (sl_find (granted (users s u)) i) as [g|] eqn:Eg,
    (sl_find (granted (users s' u')) i) as [g'|] eqn:Eg'; try done. simpl in Hg. f_equal.
  destruct (wf_granted _ Hwf _ _ _ Eg) as (Hid & _ & Hsp), (wf_granted _ Hwf' _ _ _ Eg') as (Hid' & _ & Hsp').
  destruct (pool_by_id_mem s i _ Hwf Hsp) as (q & st & Hm). rewrite <- Hp in Hm.
  destruct (mem_pool_by_id s' _ _ _ _ _ Hwf' Hm) as (p' & Hp' & Hn & Hun).
  rewrite Hp' in Hsp'. injection Hsp' as ->. unfold set_gpool_full_info. cbv zeta. rewrite Hn, Hun.
  f_equal. injection Hg as Hk1 Hk2.
  destruct (grant (grants s g)), (grant (grants s' g')). simpl in *. congruence.
Qed.

(** ** A new master *)

(** A server that becomes the master and loads the database has the users, pools and
    grants that the last one had, whatever operations and changes of the master came
    before; only the bytes used of a pool are not stored, and a password that the last
    master could not copy is back. *)
Lemma takeover_restores A A' s0 s1 s s2 s' :
  initial s0 → st_ok (backend s0) → adb_load_data A s0 = (Ok tt, s1) → rtc db_step s1 s →
  same_tables (backend s) (backend s2) → initial s2 → adb_load_data A' s2 = (Ok tt, s') →
  wf s' ∧
  (∀ n, option_Forall2 user_agrees (user_view s n) (user_view s' n)) ∧
  (∀ un n, without_used <$> adb_spool_get un n s' = without_used <$> adb_spool_get un n s) ∧
  ∀ un i, adb_granted_full_get un i s' = adb_granted_full_get un i s.
Proof.
  intros Hini Hok Hl Hsteps Ht Hini2 Hl2.
  destruct (db_steps_kept _ _ Hsteps (first_load_kept _ _ _ Hini Hok Hl)) as [[Hwf Hs] _].
  destruct (load_stored A' s2 s' Hini2 (ta_ok _ _ Ht) Hl2) as (Hwf' & Hs' & Hsame & Mu & _).
  assert (∀ un n, mem_pool s' un n = mem_pool s un n) as Mp.
  { intros un n. rewrite (so_pool _ _ Hs), (so_pool _ _ Hs'), (sm_pools _ _ Hsame). apply Ht. }
  assert (∀ un i, mem_grant s' un i = mem_grant s un i) as Mg.
  { intros un i. rewrite (so_grant _ _ Hs), (so_grant _ _ Hs'), (sm_grants _ _ Hsame). apply Ht. }
  assert (∀ n, option_Forall2 user_agrees (user_view s n) (user_view s' n)) as Hv.
  { intros n. apply user_view_agrees. rewrite Mu, (ta_users _ _ Ht). apply (so_user _ _ Hs). }
  split_and!; [done..| |].
  - intros un n. by rewrite !spool_get_mem, Mp.
  - intros un i. by apply granted_full_get_same.
Qed.

(** An automatic id of a pool is not handed out again, whichever server is the master. *)
Lemma auto_ids_increase A s0 s1 s v s2 s3 v' s4 :
  initial s0 → st_ok (backend s0) → adb_load_data A s0 = (Ok tt, s1) → rtc db_step s1 s →
  in_sint 64 (auto_id s + 1) → adb_spool_next_auto_id s = (Ok v, s2) → rtc db_step s2 s3 →
  in_sint 64 (auto_id s3 + 1) → adb_spool_next_auto_id s3 = (Ok v', s4) → v < v'.
Proof.
  intros Hini Hok Hl Hsteps Hr1 Hn1 Hsteps2 Hr2 Hn2.
  destruct (db_steps_kept _ _ Hsteps (first_load_kept _ _ _ Hini Hok Hl)) as [Hk _].
  destruct (next_auto_id_stored _ _ _ Hk Hr1 Hn1) as (Hk2 & _ & Ha).
  destruct (db_steps_kept _ _ Hsteps2 Hk2) as [Hk3 Hle].
  destruct (next_auto_id_stored _ _ _ Hk3 Hr2 Hn2) as (_ & -> & _).
  pose proof (so_auto_le _ _ (proj2 Hk3)). lia.
Qed.
End load.
End DaoLoad.
