(* ===== verification/DaoSpec.v ===== *)
(** * The directory service as a store of the database

    The laws of the client of FastDIR, as far as the authentication server uses it: a
    namespace is a tree of entries with inodes, and an inode has attributes.  With them,
    the functions of [Dao] are a backend as [AuthDBProofs] and [DaoStore] expect it. *)
From Stdlib Require Import Init.Byte Strings.Byte Strings.String.
From S2P Require Import Prelude Fastcommon AuthDB AuthDBProofs AuthDBSpec AuthDBLife Dao DaoText DaoStore.
Import AuthDB AuthDBProofs Dao.
Local Open Scope Z_scope.

(** ** The laws of the client of FastDIR *)

(** The entries of the namespace by their paths, and the attributes of inodes. *)
Class FdirView (W : Type) := {
  dent : W → list string_t → option Z;
  attr : W → Z → string_t → option string_t;
}.

Definition same_view {W} `{!FdirView W} (w w' : W) : Prop :=
  (∀ p, dent w' p = dent w p) ∧ ∀ i k, attr w' i k = attr w i k.
#[export] Instance same_view_preorder {W} `{!FdirView W} : PreOrder (same_view (W:=W)).
Proof.
  split; [by split|]. intros w1 w2 w3 [A1 A2] [B1 B2].
  split; intros; [by rewrite B1|by rewrite B2].
Qed.

(** The names of the namespace of the authentication server. *)
Definition in_auth (n : FDIRDEntryFullName) : Prop := ns n = AUTH_NAMESPACE_STR.

(** What a directory listing returns. *)
Definition lists_entries {W} `{!FdirView W} (w : W) (p : list string_t) (l : list (string_t * Z)) : Prop :=
  NoDup l.*1 ∧ ∀ k j, (k, j) ∈ l ↔ DaoText.name_ok k ∧ dent w (p ++ [k]) = Some j.

(** A call that fails may have had its effect on the entry it names. *)
Class FdirLaws W `{!FdirClient W, !Malloc W, !NameAllocator W, !FdirView W} : Prop := {
  fdir_create_any n m (w : W) q : in_auth n → let w' := (fdir_client_create_dentry n m w).2 in
    q ≠ DaoText.split_path (path n) ∨ dent w q ≠ None → dent w' q = dent w q;
  fdir_create_ok n m (w : W) i w' : in_auth n → fdir_client_create_dentry n m w = (Ok i, w') →
    dent w (DaoText.split_path (path n)) = None ∧ (∀ q, dent w q ≠ Some i) ∧
    (∀ q k, DaoText.split_path (path n) = q ++ [k] → dent w q ≠ None) ∧
    dent w' (DaoText.split_path (path n)) = Some i ∧ (∀ k, attr w' i k = None) ∧
    ∀ j k, j ≠ i → attr w' j k = attr w j k;
  fdir_create_exists n m (w w' : W) : in_auth n →
    fdir_client_create_dentry n m w = (Err EEXIST, w') → same_view w w';
  fdir_lookup_any n (w : W) : in_auth n → same_view w (fdir_client_lookup_inode_by_path n w).2;
  fdir_lookup_ok n (w : W) i w' : in_auth n → fdir_client_lookup_inode_by_path n w = (Ok i, w') →
    dent w (DaoText.split_path (path n)) = Some i;
  fdir_lookup_none n (w w' : W) : in_auth n → fdir_client_lookup_inode_by_path n w = (Err ENOENT, w') →
    dent w (DaoText.split_path (path n)) = None;
  fdir_remove_any n (w : W) q : in_auth n → q ≠ DaoText.split_path (path n) →
    dent (fdir_client_remove_dentry n w).2 q = dent w q;
  fdir_remove_ok n (w w' : W) : in_auth n → fdir_client_remove_dentry n w = (Ok tt, w') →
    dent w' (DaoText.split_path (path n)) = None ∧ (∀ k, dent w (DaoText.split_path (path n) ++ [k]) = None) ∧
    ∀ j k, dent w (DaoText.split_path (path n)) ≠ Some j → attr w' j k = attr w j k;
  fdir_set_any i k v (w : W) q :
    dent (fdir_client_set_xattr_by_inode AUTH_NAMESPACE_STR i k v w).2 q = dent w q;
  fdir_set_ok i k v (w w' : W) : fdir_client_set_xattr_by_inode AUTH_NAMESPACE_STR i k v w = (Ok tt, w') →
    ∀ j k', attr w' j k' = if decide (j = i ∧ k' = k) then Some v else attr w j k';
  fdir_get_any i k n (w : W) : same_view w (fdir_client_get_xattr_by_inode AUTH_NAMESPACE_STR i k n w).2;
  fdir_get_ok i k n (w : W) v w' : fdir_client_get_xattr_by_inode AUTH_NAMESPACE_STR i k n w = (Ok v, w') →
    attr w i k = Some v;
  fdir_get_none i k n (w w' : W) :
    fdir_client_get_xattr_by_inode AUTH_NAMESPACE_STR i k n w = (Err ENODATA, w') → attr w i k = None;
  fdir_list_inode_any i (w : W) :
    same_view w (fdir_client_list_dentry_by_inode AUTH_NAMESPACE_STR i w).2;
  fdir_list_inode_ok i p (w : W) l w' :
    fdir_client_list_dentry_by_inode AUTH_NAMESPACE_STR i w = (Ok l, w') → dent w p = Some i →
    lists_entries w p l;
  fdir_list_path_any n (w : W) : in_auth n → same_view w (fdir_client_list_dentry_by_path n w).2;
  fdir_list_path_ok n (w : W) l w' : in_auth n → fdir_client_list_dentry_by_path n w = (Ok l, w') →
    lists_entries w (DaoText.split_path (path n)) l;
  fdir_array_any (w : W) : same_view w (fdir_client_dentry_array_init w).2;
  fdir_string_any v (w : W) : same_view w (fast_mpool_alloc_string v w).2;
  fdir_string_copy v (w : W) v' w' : fast_mpool_alloc_string v w = (Ok v', w') → v' = v;
  fdir_alloc_any v (w : W) : same_view w (fast_allocator_alloc_string v w).2;
  fdir_alloc_copy v (w : W) v' w' : fast_allocator_alloc_string v w = (Ok v', w') → v' = v;
  fdir_malloc_any n (w : W) : same_view w (fc_malloc n w).2;
}.

(** [fc_itoa] writes the decimal text. *)
Class FcItoaLaws `{!FcItoa} : Prop := fc_itoa_decimal n : in_sint 64 n → fc_itoa n = DaoText.decimal n.

Module DaoSpec.
Import DaoText.
Section spec.
Context {W : Type} `{!FdirClient W, !Malloc W, !NameAllocator W, !FdirView W, !FdirLaws W}.
Context `{!FcItoa, !FcItoaLaws}.
Abbreviation D := (dao_state W).
Implicit Types (w : W) (d : D).

(** ** Where things are *)

Definition home_dir : string_t := list_byte_of_string "home".
Definition base_at : list string_t := [home_dir].
Definition user_at (n : string_t) : list string_t := [home_dir; n].
Definition created_at (n : string_t) : list string_t := [home_dir; n; AUTH_DIR_NAME_CREATED_STR].
Definition granted_at (n : string_t) : list string_t := [home_dir; n; AUTH_DIR_NAME_GRANTED_STR].
Definition pool_at (un n : string_t) : list string_t := [home_dir; un; AUTH_DIR_NAME_CREATED_STR; n].
Definition grant_at (un : string_t) (i : Z) : list string_t :=
  [home_dir; un; AUTH_DIR_NAME_GRANTED_STR; decimal i].

Lemma home_ok : name_ok home_dir.
Proof. by apply (bool_decide_unpack _). Qed.
Lemma created_ok : name_ok AUTH_DIR_NAME_CREATED_STR.
Proof. by apply (bool_decide_unpack _). Qed.
Lemma granted_ok : name_ok AUTH_DIR_NAME_GRANTED_STR.
Proof. by apply (bool_decide_unpack _). Qed.

Lemma base_path : split_path (path AUTH_SET_BASE_PATH) = base_at.
Proof. done. Qed.
Lemma user_path n : name_ok n → split_path (path (AUTH_SET_USER_HOME n)) = user_at n.
Proof.
  intros Hn. change (path (AUTH_SET_USER_HOME n)) with (slash :: home_dir ++ [slash] ++ n).
  rewrite split_path_root, split_path_app by apply home_ok. by rewrite split_path_name.
Qed.
Lemma subdir_path n k : name_ok n → name_ok k →
  split_path (path (AUTH_SET_USER_PATH1 n k)) = [home_dir; n; k].
Proof.
  intros Hn Hk. change (path (AUTH_SET_USER_PATH1 n k)) with (slash :: home_dir ++ [slash] ++ n ++ [slash] ++ k).
  rewrite split_path_root, split_path_app, split_path_app by (done || apply home_ok).
  by rewrite split_path_name.
Qed.
Lemma entry_path n k m : name_ok n → name_ok k → name_ok m →
  split_path (path (AUTH_SET_USER_PATH2 n k m)) = [home_dir; n; k; m].
Proof.
  intros Hn Hk Hm. change (path (AUTH_SET_USER_PATH2 n k m)) with
    (slash :: home_dir ++ [slash] ++ n ++ [slash] ++ k ++ [slash] ++ m).
  rewrite split_path_root, !split_path_app by (done || apply home_ok). by rewrite split_path_name.
Qed.
Lemma grant_path_any n i : name_ok n →
  split_path (path (AUTH_SET_GRANTED_POOL_PATH n i)) =
  home_dir :: n :: AUTH_DIR_NAME_GRANTED_STR :: split_path (fc_itoa i).
Proof.
  intros Hn. change (path (AUTH_SET_GRANTED_POOL_PATH n i)) with
    (slash :: home_dir ++ [slash] ++ n ++ [slash] ++ AUTH_DIR_NAME_GRANTED_STR ++ [slash] ++ fc_itoa i).
  by rewrite split_path_root, !split_path_app by (done || apply home_ok || apply granted_ok).
Qed.
Lemma grant_path n i : name_ok n → in_sint 64 i →
  split_path (path (AUTH_SET_GRANTED_POOL_PATH n i)) = grant_at n i.
Proof.
  intros Hn Hi. destruct (decimal_shape i Hi) as (H1 & H2 & _).
  by rewrite grant_path_any, fc_itoa_decimal, split_path_name.
Qed.

(** ** The inode of a pool is its id *)

#[export] Instance fdir_inodes : DaoInodes D := {|
  dao_pool_inode d un n := if decide (name_ok un ∧ name_ok n) then dent (client d) (pool_at un n) else None;
  dao_name_ok := name_ok;
|}.

Definition same_inodes d d' : Prop := ∀ un n, dao_pool_inode d' un n = dao_pool_inode d un n.
#[local] Instance same_inodes_preorder : PreOrder same_inodes.
Proof. split; [by intros d un n|]. intros d1 d2 d3 H1 H2 un n. by rewrite H2. Qed.

Lemma on_client_inv {A} (m : M W A) d r d' :
  on_client m d = (r, d') → ∃ w, m (client d) = (r, w) ∧
    d' = {| client := w; DAO_BASE_PATH_INODE := DAO_BASE_PATH_INODE d |}.
Proof. unfold on_client. destruct (m (client d)) as [r0 w]. intros [= <- <-]. by exists w. Qed.

Lemma on_client_inodes {A} (m : M W A) d :
  (∀ un n, dent (m (client d)).2 (pool_at un n) = dent (client d) (pool_at un n)) →
  kept same_inodes (on_client m) d.
Proof.
  intros Hm. unfold kept, same_inodes, on_client. intros un n. specialize (Hm un n).
  destruct (m (client d)) as [r w]. simpl in *. by case_decide.
Qed.
Lemma on_client_view {A} (m : M W A) d :
  same_view (client d) (m (client d)).2 → kept same_inodes (on_client m) d.
Proof. intros [Hd _]. apply on_client_inodes. intros un n. apply Hd. Qed.

Lemma create_inodes n m d :
  in_auth n → (∀ un k, pool_at un k ≠ split_path (path n)) →
  kept same_inodes (on_client (fdir_client_create_dentry n m)) d.
Proof. intros Hn Hp. apply on_client_inodes. intros un k. apply fdir_create_any; [done|]. left. apply Hp. Qed.
Lemma set_xattr_inodes i k v d : kept same_inodes (dao_set_xattr_string i k v) d.
Proof. apply on_client_inodes. intros un n. apply fdir_set_any. Qed.
Lemma set_integer_inodes i k v d : kept same_inodes (dao_set_xattr_integer i k v) d.
Proof. apply set_xattr_inodes. Qed.
Lemma lookup_inodes n d : in_auth n → kept same_inodes (on_client (fdir_client_lookup_inode_by_path n)) d.
Proof. intros Hn. by apply on_client_view, fdir_lookup_any. Qed.
#[local] Hint Resolve set_xattr_inodes set_integer_inodes : kept.

(** Entries are created at paths of other shapes than those of pools. *)
Ltac keep_inodes := keep_by ltac:(idtac; match goal with
  | |- kept same_inodes (on_client (fdir_client_lookup_inode_by_path _)) _ => by apply lookup_inodes
  | |- kept same_inodes (on_client (fdir_client_create_dentry _ _)) _ => by apply create_inodes
  end).

Lemma make_subdir_inodes n k b d :
  name_ok n → name_ok k → kept same_inodes (user_make_subdir n k b) d.
Proof.
  intros Hn Hk. unfold user_make_subdir.
  assert (∀ un m, pool_at un m ≠ split_path (path (AUTH_SET_USER_PATH1 n k))) as Hp
    by (intros un m; by rewrite subdir_path).
  keep_inodes.
Qed.

Lemma user_create_inodes u d : name_ok (user_name u) → kept same_inodes (dao_user_create u) d.
Proof.
  intros Hn. unfold dao_user_create.
  assert (∀ un m, pool_at un m ≠ split_path (path (AUTH_SET_USER_HOME (user_name u)))) as Hp
    by (intros un m; by rewrite user_path).
  repeat first [progress keep_inodes|by apply make_subdir_inodes; [|apply created_ok || apply granted_ok]].
Qed.

Lemma granted_create_inodes un g d : name_ok un → kept same_inodes (dao_granted_create un g) d.
Proof.
  intros Hn. unfold dao_granted_create.
  assert (∀ un' m, pool_at un' m ≠ split_path (path (AUTH_SET_GRANTED_POOL_PATH un (granted_pool_id g)))) as Hp
    by (intros un' m; by rewrite grant_path_any).
  keep_inodes.
Qed.

(** ** An entry is created or found *)

(** From [w] to [w'] the entry at [p] is obtained, whose inode is [i]. *)
Record obtained (p : list string_t) (i : Z) w w' : Prop := {
  ob_new : dent w' p = Some i;
  ob_old : dent w p = Some i ∨
    (dent w p = None ∧ (∀ q, dent w q ≠ Some i) ∧ ∀ q k, p = q ++ [k] → dent w q ≠ None);
  ob_other q : q ≠ p → dent w' q = dent w q;
  ob_attr j k : j ≠ i → attr w' j k = attr w j k;
}.

Lemma obtained_view p i w1 w2 w3 w4 :
  same_view w1 w2 → obtained p i w2 w3 → same_view w3 w4 → obtained p i w1 w4.
Proof.
  intros [A1 A2] [O1 O2 O3 O4] [B1 B2]. split.
  - by rewrite B1.
  - rewrite <- A1. destruct O2 as [|(? & Hi & Hq)]; [by left|]. right. split_and!; [done|..].
    + intros q. by rewrite <- A1.
    + intros q k Hp. rewrite <- A1. by eapply Hq.
  - intros q Hq. by rewrite B1, O3, A1.
  - intros j k Hj. by rewrite B2, O4, A2.
Qed.

Lemma create_obtained n m w i w' : in_auth n →
  fdir_client_create_dentry n m w = (Ok i, w') → obtained (split_path (path n)) i w w'.
Proof.
  intros Hn Hc. pose proof (fdir_create_any n m w) as Hany. rewrite Hc in Hany. cbn in Hany.
  apply fdir_create_ok in Hc as (H1 & H2 & H3 & H4 & _ & H6); [|done].
  split; [done|by right|intros q Hq; apply Hany; auto|done].
Qed.
Lemma lookup_obtained n w i w' : in_auth n →
  fdir_client_lookup_inode_by_path n w = (Ok i, w') → obtained (split_path (path n)) i w w'.
Proof.
  intros Hn Hl. pose proof (fdir_lookup_any n w Hn) as [Hd Ha]. rewrite Hl in Hd, Ha.
  apply fdir_lookup_ok in Hl; [|done]. split; [by rewrite Hd|by left|done|done].
Qed.

Lemma exists_obtained n m w w1 i w2 : in_auth n →
  fdir_client_create_dentry n m w = (Err EEXIST, w1) →
  fdir_client_lookup_inode_by_path n w1 = (Ok i, w2) → obtained (split_path (path n)) i w w2.
Proof.
  intros Hn Hc%fdir_create_exists Hl%lookup_obtained; [|done..]. by eapply obtained_view.
Qed.
Lemma missing_obtained n m w w1 i w2 : in_auth n →
  fdir_client_lookup_inode_by_path n w = (Err ENOENT, w1) →
  fdir_client_create_dentry n m w1 = (Ok i, w2) → obtained (split_path (path n)) i w w2.
Proof.
  intros Hn Hl Hc%create_obtained; [|done]. pose proof (fdir_lookup_any n w Hn) as Hv.
  rewrite Hl in Hv. by eapply obtained_view.
Qed.

(** ** The tree, and what an operation leaves alone *)

(** Inodes are told apart, an entry is in a directory, and the grants are numbers. *)
Record tree_ok w : Prop := {
  tr_inj p q i : dent w p = Some i → dent w q = Some i → p = q;
  tr_parent p k : dent w (p ++ [k]) ≠ None → dent w p ≠ None;
  tr_grants un k : dent w [home_dir; un; AUTH_DIR_NAME_GRANTED_STR; k] ≠ None →
    ∃ i, in_sint 64 i ∧ k = decimal i;
}.

Lemma tree_ok_dents w w' : (∀ p, dent w' p = dent w p) → tree_ok w → tree_ok w'.
Proof.
  intros Hd [T1 T2 T3]. split.
  - intros p q i. rewrite !Hd. apply T1.
  - intros p k. rewrite !Hd. apply T2.
  - intros un k. rewrite Hd. apply T3.
Qed.

Lemma obtained_tree p i w w' :
  tree_ok w → obtained p i w w' →
  (∀ un k, p = [home_dir; un; AUTH_DIR_NAME_GRANTED_STR; k] → ∃ i, in_sint 64 i ∧ k = decimal i) →
  tree_ok w'.
Proof.
  intros [T1 T2 T3] [O1 O2 O3 O4] Hp.
  assert (∀ q j, dent w' q = Some j → (q = p ∧ j = i) ∨ dent w q = Some j) as Hinv.
  { intros q j Hq. destruct (decide (q = p)) as [->|]; [left; split; congruence|right; by rewrite <- O3]. }
  assert (∀ q, dent w q ≠ None → dent w' q ≠ None) as Hmono.
  { intros q Hq. destruct (decide (q = p)) as [->|]; [by rewrite O1|by rewrite O3]. }
  split.
  - intros q1 q2 j H1 H2. destruct (Hinv _ _ H1) as [[-> ->]|H1'], (Hinv _ _ H2) as [[-> E2]|H2']; try done.
    + destruct O2 as [O2|(_ & Hfresh & _)]; [by eapply T1|]. by destruct (Hfresh q2).
    + subst j. destruct O2 as [O2|(_ & Hfresh & _)]; [by eapply T1|]. by destruct (Hfresh q1).
    + by eapply T1.
  - intros q k Hq. apply Hmono. destruct (decide (q ++ [k] = p)) as [Heq|Hne].
    + destruct O2 as [O2|(_ & _ & Hpar)]; [|by eapply Hpar]. apply (T2 q k). rewrite Heq. congruence.
    + apply (T2 q k). by rewrite <- O3.
  - intros un k Hk. destruct (decide ([home_dir; un; AUTH_DIR_NAME_GRANTED_STR; k] = p)) as [<-|Hne];
      [by apply (Hp un)|]. apply (T3 un). by rewrite <- O3.
Qed.

(** The entry at [q] and its attributes are as they were. *)
Definition same_at (q : list string_t) w w' : Prop :=
  dent w' q = dent w q ∧ ∀ i k, dent w q = Some i → attr w' i k = attr w i k.

Lemma same_at_trans q w1 w2 w3 : same_at q w1 w2 → same_at q w2 w3 → same_at q w1 w3.
Proof.
  intros [A1 A2] [B1 B2]. split; [by rewrite B1|]. intros i k Hi.
  rewrite B2, A2 by (by rewrite ?A1). done.
Qed.
Lemma same_view_at q w w' : same_view w w' → same_at q w w'.
Proof. intros [Hd Ha]. split; auto. Qed.
Lemma obtained_at p i q w w' : tree_ok w' → obtained p i w w' → q ≠ p → same_at q w w'.
Proof.
  intros HT [O1 O2 O3 O4] Hq. split; [by apply O3|]. intros j k Hj. apply O4. intros ->.
  apply Hq. eapply (tr_inj _ HT); [|exact O1]. by rewrite O3.
Qed.
Lemma set_at p i k v q w w' :
  tree_ok w → dent w p = Some i → fdir_client_set_xattr_by_inode AUTH_NAMESPACE_STR i k v w = (Ok tt, w') →
  q ≠ p → same_at q w w'.
Proof.
  intros HT Hp Hs Hq. pose proof (fdir_set_any i k v w q) as Hd. rewrite Hs in Hd. split; [done|].
  intros j k' Hj. rewrite (fdir_set_ok _ _ _ _ _ Hs), decide_False; [done|]. intros [-> _].
  apply Hq. by eapply (tr_inj _ HT).
Qed.
Lemma set_tree i k v w w' :
  tree_ok w → fdir_client_set_xattr_by_inode AUTH_NAMESPACE_STR i k v w = (Ok tt, w') → tree_ok w'.
Proof.
  intros HT Hs. apply (tree_ok_dents w); [|done]. intros q.
  pose proof (fdir_set_any i k v w q) as Hd. by rewrite Hs in Hd.
Qed.

(** ** The tables *)

(** The value of a number, 0 if there is none. *)
Definition num (o : option string_t) : Z :=
  match o with Some ((_ :: _) as v) => (strtoll v).1 | _ => 0 end.

#[local] Instance in_sint_dec bits z : Decision (in_sint bits z).
Proof. unfold in_sint. apply _. Defined.

Definition user_entry w (n : string_t) (i : Z) : FCFSAuthUserInfo :=
  {| user_id := i; user_name := n; user_passwd := Some (default [] (attr w i AUTH_XTTR_NAME_PASSWD));
     user_priv := num (attr w i AUTH_XTTR_NAME_PRIV);
     user_status := int32 (num (attr w i AUTH_XTTR_NAME_STATUS)) |}.
Definition pool_entry w (i : Z) : Z * Z * Z :=
  (i, num (attr w i AUTH_XTTR_NAME_QUOTA), int32 (num (attr w i AUTH_XTTR_NAME_STATUS))).
Definition grant_entry w (i : Z) : Z * FCFSAuthSPoolPriviledges :=
  (i, {| fdir := int32 (num (attr w i AUTH_XTTR_NAME_FDIR));
         fstore := int32 (num (attr w i AUTH_XTTR_NAME_FSTORE)) |}).

#[export] Instance fdir_store : DaoStore D := {|
  st_user d n := if decide (name_ok n) then user_entry (client d) n <$> dent (client d) (user_at n) else None;
  st_pool d un n := if decide (name_ok un ∧ name_ok n)
    then pool_entry (client d) <$> dent (client d) (pool_at un n) else None;
  st_grant d un i := if decide (name_ok un ∧ in_sint 64 i)
    then grant_entry (client d) <$> dent (client d) (grant_at un i) else None;
  st_auto d := match dent (client d) base_at with
               | Some i => num (attr (client d) i AUTH_XTTR_NAME_POOL_AUTO_ID)
               | None => 0
               end;
  st_ok d := tree_ok (client d);
  st_based d := dent (client d) base_at = Some (DAO_BASE_PATH_INODE d);
|}.

Lemma st_user_at d d' n :
  same_at (user_at n) (client d) (client d') → st_user d' n = st_user d n.
Proof.
  intros [Hd Ha]. simpl. rewrite Hd. case_decide; [|done].
  destruct (dent (client d) (user_at n)) as [i|]; [|done]. simpl. unfold user_entry. by rewrite !Ha.
Qed.
Lemma st_pool_at d d' un n :
  same_at (pool_at un n) (client d) (client d') → st_pool d' un n = st_pool d un n.
Proof.
  intros [Hd Ha]. simpl. rewrite Hd. case_decide; [|done].
  destruct (dent (client d) (pool_at un n)) as [i|]; [|done]. simpl. unfold pool_entry. by rewrite !Ha.
Qed.
Lemma st_grant_at d d' un j :
  same_at (grant_at un j) (client d) (client d') → st_grant d' un j = st_grant d un j.
Proof.
  intros [Hd Ha]. simpl. rewrite Hd. case_decide; [|done].
  destruct (dent (client d) (grant_at un j)) as [i|]; [|done]. simpl. unfold grant_entry. by rewrite !Ha.
Qed.
Lemma st_keep_at d d' :
  tree_ok (client d') → DAO_BASE_PATH_INODE d' = DAO_BASE_PATH_INODE d →
  same_at base_at (client d) (client d') → st_keep d d'.
Proof.
  intros HT Hb [Hd Ha]. split; [done|]. simpl. rewrite Hd, Hb. intros Hi. split; [done|].
  rewrite Hi. by rewrite Ha.
Qed.
Lemma st_same_view d d' :
  same_view (client d) (client d') → DAO_BASE_PATH_INODE d' = DAO_BASE_PATH_INODE d → st_same d d'.
Proof.
  intros Hv Hb. split.
  - intros n. by apply st_user_at, same_view_at.
  - intros un n. by apply st_pool_at, same_view_at.
  - intros un i. by apply st_grant_at, same_view_at.
  - intros HT. by apply (tree_ok_dents (client d)); [apply Hv|].
  - simpl. destruct Hv as [-> _]. by rewrite Hb.
  - simpl. destruct Hv as [-> Ha]. destruct (dent _ _); [by rewrite Ha|done].
Qed.

(** ** Attributes *)

(** The names of attributes are told apart. *)
Ltac pick_attrs := repeat (let Hk := fresh in case_decide as Hk;
  [try (by vm_compute in Hk)|try (by destruct Hk)]; try clear Hk).

Lemma num_itoa n : in_sint 64 n → num (Some (fc_itoa n)) = n.
Proof.
  intros Hn. rewrite fc_itoa_decimal by done. destruct (decimal_shape n Hn) as (Hne & _).
  pose proof (strtoll_decimal n Hn) as Hs. unfold num. destruct (decimal n); [done|]. by rewrite Hs.
Qed.
Lemma num_itoa32 n : in_sint 32 n → int32 (num (Some (fc_itoa n))) = n.
Proof.
  intros Hn. rewrite num_itoa by (unfold in_sint in *; simpl in *; lia).
  by apply sint_wrap_small.
Qed.

(** Between [d] and [d'] only the entry at [p] and its attributes have changed, apart
    from the directories for pools and grants; [f] gives the attributes. *)
Record edited (p : list string_t) (i : Z) (f : string_t → option string_t) d d' : Prop := {
  ed_tree : tree_ok (client d');
  ed_base : DAO_BASE_PATH_INODE d' = DAO_BASE_PATH_INODE d;
  ed_dent : dent (client d') p = Some i;
  ed_at q : q ≠ p → length q ≠ 3%nat → same_at q (client d) (client d');
  ed_attr k : attr (client d') i k = f k;
}.

Lemma set_edited p i f k v d d1 d' :
  edited p i f d d1 → dao_set_xattr_string i k v d1 = (Ok tt, d') →
  edited p i (λ k', if decide (k' = k) then Some v else f k') d d'.
Proof.
  intros [E1 E2 E3 E4 E5] Hs. apply on_client_inv in Hs as (w & Hs & ->).
  split; cbn [client DAO_BASE_PATH_INODE].
  - by eapply set_tree.
  - done.
  - pose proof (fdir_set_any i k v (client d1) p) as Hd. unfold DAO_NAMESPACE in *. rewrite Hs in Hd.
    by rewrite <- E3.
  - intros q Hq Hl. eapply same_at_trans; [by apply E4|]. by eapply set_at.
  - intros k'. rewrite (fdir_set_ok _ _ _ _ _ Hs). rewrite <- E5. repeat case_decide; tauto.
Qed.
Lemma start_edited p i d :
  tree_ok (client d) → dent (client d) p = Some i → edited p i (attr (client d) i) d d.
Proof. intros HT Hp. by split. Qed.
Lemma obtained_edited p i d w :
  tree_ok w → obtained p i (client d) w →
  edited p i (attr w i) d {| client := w; DAO_BASE_PATH_INODE := DAO_BASE_PATH_INODE d |}.
Proof.
  intros HT Ho. split; cbn; [done|done|by apply Ho| |done]. intros q Hq _. by eapply obtained_at.
Qed.

(** ** Users *)

Lemma edited_user n i f d d' :
  name_ok n → edited (user_at n) i f d d' →
  st_keep d d' ∧ same_pools d d' ∧ same_grants d d' ∧
  ∀ m, st_user d' m = if decide (m = n) then Some (user_entry (client d') n i) else st_user d m.
Proof.
  intros Hn [E1 E2 E3 E4 E5]. split_and!.
  - apply st_keep_at; [done..|]. by apply E4.
  - intros un k. by apply st_pool_at, E4.
  - intros un k. by apply st_grant_at, E4.
  - intros m. case_decide as Hm.
    + subst m. simpl. rewrite decide_True by done. by rewrite E3.
    + apply st_user_at, E4; [|done]. by intros [= ->].
Qed.

Lemma st_user_inv d n x :
  st_user d n = Some x → name_ok n ∧ x = user_entry (client d) n (user_id x) ∧
  dent (client d) (user_at n) = Some (user_id x).
Proof.
  simpl. case_decide; [|done]. destruct (dent (client d) (user_at n)) as [i|]; [|done].
  by intros [= <-].
Qed.

Lemma user_set_stored n x k v d d' :
  tree_ok (client d) → st_user d n = Some x → dao_set_xattr_string (user_id x) k v d = (Ok tt, d') →
  st_keep d d' ∧ same_pools d d' ∧ same_grants d d' ∧
  (∀ m, st_user d' m = if decide (m = n) then Some (user_entry (client d') n (user_id x)) else st_user d m) ∧
  ∀ k', attr (client d') (user_id x) k' =
        if decide (k' = k) then Some v else attr (client d) (user_id x) k'.
Proof.
  intros HT Hx Hs. destruct (st_user_inv d n x Hx) as (Hn & _ & Hp).
  pose proof (set_edited _ _ _ _ _ _ _ _ (start_edited _ _ _ HT Hp) Hs) as He.
  destruct (edited_user _ _ _ _ _ Hn He) as (H1 & H2 & H3 & H4). split_and!; [done..|].
  apply He.
Qed.

Lemma make_subdir_edited p i f n k b d d1 d' :
  name_ok n → name_ok k → length p ≠ 3%nat → edited p i f d d1 →
  user_make_subdir n k b d1 = (Ok tt, d') → edited p i f d d'.
Proof.
  intros Hn Hk Hlen [E1 E2 E3 E4 E5] Hr.
  assert (tree_ok (client d') ∧ DAO_BASE_PATH_INODE d' = DAO_BASE_PATH_INODE d1 ∧
          ∀ q, length q ≠ 3%nat → same_at q (client d1) (client d')) as (HT & Hb & Hat).
  { unfold user_make_subdir in Hr. run Hr as found d2 Hf.
    assert (same_view (client d1) (client d2) ∧ DAO_BASE_PATH_INODE d2 = DAO_BASE_PATH_INODE d1)
      as [Hv Hb2].
    { destruct b; [|by injection Hf as _ <-]. run Hf as r d3 Hl. apply attempt_inv in Hl.
      apply on_client_inv in Hl as (w & Hl & ->).
      pose proof (fdir_lookup_any (AUTH_SET_USER_PATH1 n k) (client d1) eq_refl) as Hv. rewrite Hl in Hv.
      by destruct r as [|[]]; try done; injection Hf as _ <-. }
    assert (tree_ok (client d2)) as HT2 by (by apply (tree_ok_dents (client d1)); [apply Hv|]).
    destruct found; [injection Hr as <-; split_and!; [done..|]; intros; by apply same_view_at|].
    run Hr as r d3 Hc. apply attempt_inv, on_client_inv in Hc as (w & Hc & ->).
    destruct r as [j|[]]; try done; injection Hr as <-; cbn [client DAO_BASE_PATH_INODE].
    - apply create_obtained in Hc; [|done]. rewrite subdir_path in Hc by done.
      assert (tree_ok w) as HTw by (by eapply obtained_tree).
      split_and!; [done..|]. intros q Hq. eapply same_at_trans; [by apply same_view_at|].
      eapply obtained_at; [done..|]. by intros ->.
    - apply fdir_create_exists in Hc; [|done]. split_and!; [by apply (tree_ok_dents (client d2)); [apply Hc|]|done|].
      intros q _. by eapply same_at_trans; apply same_view_at. }
  destruct (Hat p Hlen) as [Hdp Hap]. split; [done|congruence|by rewrite Hdp| |].
  - intros q Hq Hl. by eapply same_at_trans; [apply E4|apply Hat].
  - intros k'. by rewrite Hap, E5.
Qed.

Lemma fdir_user_create u d id d' :
  tree_ok (client d) → name_ok (user_name u) → in_sint 64 (user_priv u) →
  dao_user_create u d = (Ok id, d') →
  st_keep d d' ∧ same_pools d d' ∧ same_grants d d' ∧
  ∀ n, st_user d' n = if decide (n = user_name u) then
    Some {| user_id := id; user_name := n; user_passwd := Some (default [] (user_passwd u));
            user_priv := user_priv u; user_status := FCFS_AUTH_USER_STATUS_NORMAL |}
    else st_user d n.
Proof.
  intros HT Hn Hpr Hr. unfold dao_user_create in Hr. run Hr as r d1 Hc.
  apply attempt_inv, on_client_inv in Hc as (w1 & Hc & ->). run Hr as [i b] d2 Hi. cbv beta iota in Hr.
  assert (∃ f, edited (user_at (user_name u)) i f d d2) as [f He].
  { rewrite <- (user_path _ Hn).
    assert (∀ w, obtained (split_path (path (AUTH_SET_USER_HOME (user_name u)))) i (client d) w → tree_ok w)
      as Hob by (intros w Ho; eapply obtained_tree; [done..|]; by rewrite user_path).
    destruct r as [j|[]]; try done.
    - injection Hi as <- _ <-. apply create_obtained in Hc; [|done].
      eexists. apply obtained_edited; [by apply Hob|done].
    - run Hi as j d3 Hl. injection Hi as <- _ <-. apply on_client_inv in Hl as (w2 & Hl & ->).
      pose proof (exists_obtained (AUTH_SET_USER_HOME (user_name u)) _ _ _ _ _ eq_refl Hc Hl) as Ho.
      eexists. by apply (obtained_edited _ _ d); [apply Hob|]. }
  assert (length (user_at (user_name u)) ≠ 3%nat) as Hlen by done.
  run Hr as [] d3 H1. apply (make_subdir_edited _ _ _ _ _ _ _ _ _ Hn created_ok Hlen He) in H1.
  run Hr as [] d4 H2. apply (make_subdir_edited _ _ _ _ _ _ _ _ _ Hn granted_ok Hlen H1) in H2.
  run Hr as [] d5 H3. apply (set_edited _ _ _ _ _ _ _ _ H2) in H3.
  run Hr as [] d6 H4. apply (set_edited _ _ _ _ _ _ _ _ H3) in H4.
  run Hr as [] d7 H5. apply (set_edited _ _ _ _ _ _ _ _ H4) in H5. injection Hr as <- <-.
  destruct (edited_user _ _ _ _ _ Hn H5) as (K1 & K2 & K3 & K4). split_and!; [done..|].
  intros n. rewrite K4. case_decide as Hnm; [|done]. subst n. f_equal. unfold user_entry.
  rewrite !(ed_attr _ _ _ _ _ H5). pick_attrs. by rewrite num_itoa, num_itoa32.
Qed.

(** A change of one attribute of a user. *)
Lemma fdir_user_change n x k v d d' y :
  tree_ok (client d) → st_user d n = Some x → dao_set_xattr_string (user_id x) k v d = (Ok tt, d') →
  ((∀ k', attr (client d') (user_id x) k' =
          if decide (k' = k) then Some v else attr (client d) (user_id x) k') →
   user_entry (client d') n (user_id x) = y) →
  st_keep d d' ∧ same_pools d d' ∧ same_grants d d' ∧
  ∀ m, st_user d' m = if decide (m = n) then Some y else st_user d m.
Proof.
  intros HT Hx Hs Hy. destruct (user_set_stored _ _ _ _ _ _ HT Hx Hs) as (K1 & K2 & K3 & K4 & K5).
  split_and!; [done..|]. intros m. rewrite K4. by rewrite Hy.
Qed.

Lemma fdir_user_remove n x d d' :
  tree_ok (client d) → st_user d n = Some x → dao_user_remove (user_id x) d = (Ok tt, d') →
  st_keep d d' ∧ same_pools d d' ∧ same_grants d d' ∧
  ∀ m, st_user d' m = if decide (m = n) then Some (set_user_status FCFS_AUTH_USER_STATUS_DELETED x)
                      else st_user d m.
Proof.
  intros HT Hx Hs. eapply fdir_user_change; [done|exact Hx|exact Hs|]. intros Ha.
  destruct (st_user_inv _ _ _ Hx) as (_ & Heq & _). rewrite Heq at 2. unfold user_entry, set_user_status. simpl.
  rewrite !Ha. pick_attrs. by rewrite num_itoa32.
Qed.
Lemma fdir_user_priv n x p d d' :
  tree_ok (client d) → st_user d n = Some x → in_sint 64 p →
  dao_user_update_priv (user_id x) p d = (Ok tt, d') →
  st_keep d d' ∧ same_pools d d' ∧ same_grants d d' ∧
  ∀ m, st_user d' m = if decide (m = n) then Some (set_user_priv p x) else st_user d m.
Proof.
  intros HT Hx Hp Hs. eapply fdir_user_change; [done|exact Hx|exact Hs|]. intros Ha.
  destruct (st_user_inv _ _ _ Hx) as (_ & Heq & _). rewrite Heq at 2. unfold user_entry, set_user_priv. simpl.
  rewrite !Ha. pick_attrs. by rewrite num_itoa.
Qed.
Lemma fdir_user_passwd n x p d d' :
  tree_ok (client d) → st_user d n = Some x → dao_user_update_passwd (user_id x) p d = (Ok tt, d') →
  st_keep d d' ∧ same_pools d d' ∧ same_grants d d' ∧
  ∀ m, st_user d' m = if decide (m = n) then Some (set_user_passwd (Some p) x) else st_user d m.
Proof.
  intros HT Hx Hs. eapply fdir_user_change; [done|exact Hx|exact Hs|]. intros Ha.
  destruct (st_user_inv _ _ _ Hx) as (_ & Heq & _). rewrite Heq at 2. unfold user_entry, set_user_passwd. simpl.
  rewrite !Ha. by pick_attrs.
Qed.

(** ** Pools *)

Lemma edited_pool un n i f d d' :
  name_ok un → name_ok n → edited (pool_at un n) i f d d' →
  st_keep d d' ∧ same_users d d' ∧ same_grants d d' ∧
  ∀ un' m, st_pool d' un' m = if decide (un' = un ∧ m = n) then Some (pool_entry (client d') i)
                              else st_pool d un' m.
Proof.
  intros Hun Hn [E1 E2 E3 E4 E5]. split_and!.
  - apply st_keep_at; [done..|]. by apply E4.
  - intros m. by apply st_user_at, E4.
  - intros un' j. by apply st_grant_at, E4.
  - intros un' m. case_decide as Hm.
    + destruct Hm as [-> ->]. simpl. rewrite decide_True by done. by rewrite E3.
    + apply st_pool_at, E4; [|done]. intros [= -> ->]. by destruct Hm.
Qed.

Lemma fdir_spool_create un p d id d' :
  tree_ok (client d) → name_ok un → name_ok (pool_name p) → in_sint 64 (pool_quota p) →
  dao_spool_create un p d = (Ok id, d') →
  (st_keep d d' ∧ same_users d d' ∧ same_grants d d' ∧
   ∀ un' n, st_pool d' un' n = if decide (un' = un ∧ n = pool_name p)
     then Some (id, pool_quota p, FCFS_AUTH_POOL_STATUS_NORMAL) else st_pool d un' n).
Proof.
  intros HT Hun Hn Hq Hr. unfold dao_spool_create in Hr. run Hr as r d1 Hc.
  apply attempt_inv, on_client_inv in Hc as (w1 & Hc & ->). run Hr as i d2 Hi.
  pose proof (entry_path un AUTH_DIR_NAME_CREATED_STR (pool_name p) Hun created_ok Hn) as Hpath.
  assert (∃ f, edited (pool_at un (pool_name p)) i f d d2) as [f He].
  { assert (∀ w, obtained (pool_at un (pool_name p)) i (client d) w → tree_ok w) as Hob
      by (intros w Ho; by eapply obtained_tree).
    destruct r as [j|[]]; try done.
    - injection Hi as <- <-. apply create_obtained in Hc; [|done]. rewrite Hpath in Hc.
      eexists. apply obtained_edited; [by apply Hob|done].
    - apply on_client_inv in Hi as (w2 & Hl & ->).
      pose proof (exists_obtained (AUTH_SET_USER_PATH2 un AUTH_DIR_NAME_CREATED_STR (pool_name p))
        _ _ _ _ _ eq_refl Hc Hl) as Ho. rewrite Hpath in Ho.
      eexists. by apply (obtained_edited _ _ d); [apply Hob|]. }
  run Hr as [] d3 H3. apply (set_edited _ _ _ _ _ _ _ _ He) in H3.
  run Hr as [] d4 H4. apply (set_edited _ _ _ _ _ _ _ _ H3) in H4. injection Hr as <- <-.
  destruct (edited_pool _ _ _ _ _ _ Hun Hn H4) as (K1 & K2 & K3 & K4). split_and!; [done..|].
  intros un' n. rewrite K4. case_decide; [|done]. unfold pool_entry.
  rewrite !(ed_attr _ _ _ _ _ H4). pick_attrs. by rewrite num_itoa, num_itoa32.
Qed.

Lemma st_pool_inv d un n x :
  st_pool d un n = Some x → name_ok un ∧ name_ok n ∧ x = pool_entry (client d) x.1.1 ∧
  dent (client d) (pool_at un n) = Some x.1.1.
Proof.
  simpl. case_decide as Hok; [|done]. destruct (dent (client d) (pool_at un n)) as [i|]; [|done].
  intros [= <-]. by destruct Hok.
Qed.

Lemma fdir_pool_change un n id q st k v d d' y :
  tree_ok (client d) → st_pool d un n = Some (id, q, st) → dao_set_xattr_string id k v d = (Ok tt, d') →
  ((∀ k', attr (client d') id k' = if decide (k' = k) then Some v else attr (client d) id k') →
   (id, q, st) = pool_entry (client d) id → pool_entry (client d') id = y) →
  st_keep d d' ∧ same_users d d' ∧ same_grants d d' ∧
  ∀ un' m, st_pool d' un' m = if decide (un' = un ∧ m = n) then Some y else st_pool d un' m.
Proof.
  intros HT Hx Hs Hy. destruct (st_pool_inv _ _ _ _ Hx) as (Hun & Hn & Heq & Hp). simpl in Heq, Hp.
  pose proof (set_edited _ _ _ _ _ _ _ _ (start_edited _ _ _ HT Hp) Hs) as He.
  destruct (edited_pool _ _ _ _ _ _ Hun Hn He) as (K1 & K2 & K3 & K4). split_and!; [done..|].
  intros un' m. rewrite K4. rewrite Hy; [done| |done]. apply He.
Qed.

Lemma fdir_spool_remove un n id q st d d' :
  tree_ok (client d) → st_pool d un n = Some (id, q, st) → dao_spool_remove id d = (Ok tt, d') →
  st_keep d d' ∧ same_users d d' ∧ same_grants d d' ∧
  ∀ un' m, st_pool d' un' m = if decide (un' = un ∧ m = n)
    then Some (id, q, FCFS_AUTH_POOL_STATUS_DELETED) else st_pool d un' m.
Proof.
  intros HT Hx Hs. eapply fdir_pool_change; [done|exact Hx|exact Hs|]. intros Ha [= Hq _].
  unfold pool_entry. rewrite !Ha. pick_attrs. by rewrite num_itoa32, Hq.
Qed.
Lemma fdir_spool_quota un n id q st q' d d' :
  tree_ok (client d) → st_pool d un n = Some (id, q, st) → in_sint 64 q' →
  dao_spool_set_quota id q' d = (Ok tt, d') →
  st_keep d d' ∧ same_users d d' ∧ same_grants d d' ∧
  ∀ un' m, st_pool d' un' m = if decide (un' = un ∧ m = n) then Some (id, q', st) else st_pool d un' m.
Proof.
  intros HT Hx Hq Hs. eapply fdir_pool_change; [done|exact Hx|exact Hs|]. intros Ha [= _ Hst].
  unfold pool_entry. rewrite !Ha. pick_attrs. by rewrite num_itoa, Hst.
Qed.

(** ** Grants *)

(** Only the grant [i] of [un] is not as it was. *)
Lemma grants_at un i x d d' :
  name_ok un → in_sint 64 i → tree_ok (client d') → DAO_BASE_PATH_INODE d' = DAO_BASE_PATH_INODE d →
  (∀ q, q ≠ grant_at un i → length q ≠ 3%nat → same_at q (client d) (client d')) →
  st_grant d' un i = x →
  st_keep d d' ∧ same_users d d' ∧ same_pools d d' ∧
  ∀ un' j, st_grant d' un' j = if decide (un' = un ∧ j = i) then x else st_grant d un' j.
Proof.
  intros Hun Hi HT Hb Hat Hx. split_and!.
  - apply st_keep_at; [done..|]. by apply Hat.
  - intros m. by apply st_user_at, Hat.
  - intros un' m. by apply st_pool_at, Hat.
  - intros un' j. case_decide as Hm; [by destruct Hm as [-> ->]|].
    destruct (decide (in_sint 64 j)) as [Hj|Hj].
    2: { simpl. rewrite !decide_False by tauto. done. }
    apply st_grant_at, Hat; [|done]. intros [= -> ?%decimal_inj]; [|done..]. by destruct Hm.
Qed.

Lemma fdir_granted_create un g d id d' :
  tree_ok (client d) → name_ok un → in_sint 64 (granted_pool_id g) →
  in_sint 32 (fdir (granted_privs g)) → in_sint 32 (fstore (granted_privs g)) →
  dao_granted_create un g d = (Ok id, d') →
  st_keep d d' ∧ same_users d d' ∧ same_pools d d' ∧
  ∀ un' i, st_grant d' un' i = if decide (un' = un ∧ i = granted_pool_id g)
    then Some (id, granted_privs g) else st_grant d un' i.
Proof.
  intros HT Hun Hg Hfd Hfs Hr. unfold dao_granted_create in Hr. run Hr as r d1 Hl.
  apply attempt_inv, on_client_inv in Hl as (w1 & Hl & ->). run Hr as i d2 Hi.
  pose proof (grant_path un (granted_pool_id g) Hun Hg) as Hpath.
  assert (∃ f, edited (grant_at un (granted_pool_id g)) i f d d2) as [f He].
  { assert (∀ w, obtained (grant_at un (granted_pool_id g)) i (client d) w → tree_ok w) as Hob.
    { intros w Ho. eapply obtained_tree; [done..|]. intros un' k [= _ <-]. eauto. }
    destruct r as [j|[]]; try done.
    - injection Hi as <- <-. apply lookup_obtained in Hl; [|done]. rewrite Hpath in Hl.
      eexists. apply obtained_edited; [by apply Hob|done].
    - apply on_client_inv in Hi as (w2 & Hc & ->).
      pose proof (missing_obtained (AUTH_SET_GRANTED_POOL_PATH un (granted_pool_id g))
        _ _ _ _ _ eq_refl Hl Hc) as Ho. rewrite Hpath in Ho.
      eexists. by apply (obtained_edited _ _ d); [apply Hob|]. }
  run Hr as [] d3 H3. apply (set_edited _ _ _ _ _ _ _ _ He) in H3.
  run Hr as [] d4 H4. apply (set_edited _ _ _ _ _ _ _ _ H3) in H4. injection Hr as <- <-.
  destruct H4 as [E1 E2 E3 E4 E5].
  apply (grants_at un (granted_pool_id g)); [done..|]. simpl. rewrite decide_True by done.
  rewrite E3. simpl. unfold grant_entry. rewrite !E5. pick_attrs. rewrite !num_itoa32 by done.
  by destruct (granted_privs g).
Qed.

Lemma fdir_granted_remove un i d d' :
  tree_ok (client d) → name_ok un → in_sint 64 i → dao_granted_remove un i d = (Ok tt, d') →
  st_keep d d' ∧ same_users d d' ∧ same_pools d d' ∧
  ∀ un' j, st_grant d' un' j = if decide (un' = un ∧ j = i) then None else st_grant d un' j.
Proof.
  intros [T1 T2 T3] Hun Hi Hr. apply on_client_inv in Hr as (w & Hr & ->).
  pose proof (fdir_remove_any (AUTH_SET_GRANTED_POOL_PATH un i) (client d)) as Hany.
  apply fdir_remove_ok in Hr as Hok; [|done]. rewrite Hr in Hany. rewrite grant_path in Hok, Hany by done.
  destruct Hok as (Hnone & Hleaf & Hattr). simpl in Hany.
  assert (∀ q, q ≠ grant_at un i → dent w q = dent (client d) q) as Hd by (intros; by apply Hany).
  assert (∀ q, dent w q ≠ None → q ≠ grant_at un i ∧ dent (client d) q ≠ None) as Hinv.
  { intros q Hq. destruct (decide (q = grant_at un i)) as [->|]; [by rewrite Hnone in Hq|].
    split; [done|]. by rewrite <- Hd. }
  apply (grants_at un i); cbn [client DAO_BASE_PATH_INODE]; [done|done| |done| |].
  - split.
    + intros p q j Hp Hq. destruct (Hinv p) as [Hp1 _]; [congruence|].
      destruct (Hinv q) as [Hq1 _]; [congruence|]. rewrite Hd in Hp, Hq by done. by eapply T1.
    + intros p k Hp. destruct (Hinv _ Hp) as [_ Hp2]. destruct (decide (p = grant_at un i)) as [->|].
      * by rewrite Hleaf in Hp2.
      * rewrite Hd by done. by eapply T2.
    + intros un' k Hk. destruct (Hinv _ Hk) as [_ Hk2]. by eapply T3.
  - intros q Hq _. split; [by apply Hd|]. intros j k Hj. apply Hattr. intros Hj'. apply Hq.
    by eapply T1.
  - simpl. by rewrite decide_True, Hnone by done.
Qed.

(** ** Reading *)

Definition same_dao d d' : Prop :=
  same_view (client d) (client d') ∧ DAO_BASE_PATH_INODE d' = DAO_BASE_PATH_INODE d.
#[local] Instance same_dao_preorder : PreOrder same_dao.
Proof. split; [done|]. intros d1 d2 d3 [A1 A2] [B1 B2]. split; [by etrans|congruence]. Qed.

Lemma on_client_same {A} (m : M W A) d r d' :
  same_view (client d) (m (client d)).2 → on_client m d = (r, d') → same_dao d d'.
Proof. intros Hv Hr. apply on_client_inv in Hr as (w & Hm & ->). by rewrite Hm in Hv. Qed.

Lemma get_string_ok i k n d v d' :
  dao_get_xattr_string i k n d = (Ok v, d') → same_dao d d' ∧ v = default [] (attr (client d) i k).
Proof.
  intros Hr. unfold dao_get_xattr_string in Hr. run Hr as r d1 Hg. apply attempt_inv in Hg.
  pose proof (on_client_same _ _ _ _ (fdir_get_any i k n (client d)) Hg) as Hs.
  apply on_client_inv in Hg as (w & Hg & ->).
  destruct r as [v'|[]]; try done; injection Hr as <- <-; (split; [done|]).
  - by rewrite (fdir_get_ok _ _ _ _ _ _ Hg).
  - by rewrite (fdir_get_none _ _ _ _ _ Hg).
Qed.
Lemma get_int64_ok i k d v d' :
  dao_get_xattr_int64 i k d = (Ok v, d') → same_dao d d' ∧ v = num (attr (client d) i k).
Proof.
  intros Hr. unfold dao_get_xattr_int64 in Hr. run Hr as s d1 Hg.
  apply get_string_ok in Hg as [Hs ->]. unfold num.
  destruct (attr (client d) i k) as [[|b t]|]; simpl in Hr; [by injection Hr as <- <-| |by injection Hr as <- <-].
  destruct (strtoll (b :: t)) as [z rest]. destruct (at_end rest); [|done]. by injection Hr as <- <-.
Qed.
Lemma get_int32_ok i k d v d' :
  dao_get_xattr_int32 i k d = (Ok v, d') → same_dao d d' ∧ v = int32 (num (attr (client d) i k)).
Proof.
  intros Hr. unfold dao_get_xattr_int32 in Hr. run Hr as z d1 Hg. apply get_int64_ok in Hg as [Hs ->].
  by injection Hr as <- <-.
Qed.

Lemma array_for_same sz n d d' : array_for sz n d = (Ok tt, d') → same_dao d d'.
Proof.
  unfold array_for. destruct (n >? 256); [|by intros [= <-]].
  pose proof (fdir_malloc_any (sz * n) (client d)) as Hv.
  destruct (fc_malloc (sz * n) (client d)) as [ok w]. intros [= _ <-]. done.
Qed.

(** A loop over entries, each of which is read as [f] says. *)
Lemma dump_loop_ok {A} (dump : string_t * Z → M D A) (f : W → string_t * Z → A) l d r d' :
  (∀ e d a d', dump e d = (Ok a, d') → same_dao d d' ∧ a = f (client d) e) →
  (∀ w w' e, same_view w w' → f w' e = f w e) →
  dump_loop dump l d = (Ok r, d') → same_dao d d' ∧ r = f (client d) <$> l.
Proof.
  intros Hd Hf. revert d r d'. induction l as [|e l IH]; intros d r d' Hr; simpl in Hr.
  { by injection Hr as <- <-. }
  run Hr as a d1 Ha. apply Hd in Ha as [Hs ->]. run Hr as t d2 Ht. apply IH in Ht as [Hs2 ->].
  injection Hr as <- <-. split; [by etrans|]. simpl. f_equal. apply list_fmap_ext. intros _ x _.
  apply Hf, Hs.
Qed.

(** ** Listings *)

Lemma dump_user_ok e d u d' :
  dump_user e d = (Ok u, d') → same_dao d d' ∧ u = user_entry (client d) e.1 e.2.
Proof.
  intros Hr. unfold dump_user in Hr. run Hr as v d1 H1. apply get_string_ok in H1 as [S1 ->].
  run Hr as pw d2 H2. pose proof (on_client_same _ _ _ _ (fdir_string_any _ (client d1)) H2) as S2.
  apply on_client_inv in H2 as (w & H2 & ->). apply fdir_string_copy in H2 as ->.
  run Hr as priv d3 H3. apply get_int64_ok in H3 as [S3 ->]. run Hr as st d4 H4.
  apply get_int32_ok in H4 as [S4 ->]. injection Hr as <- <-.
  assert (same_dao d {| client := w; DAO_BASE_PATH_INODE := DAO_BASE_PATH_INODE d1 |}) as S12 by (by etrans).
  split; [by etrans; [etrans|]|]. unfold user_entry. destruct S12 as [[_ A] _], S3 as [[_ B] _].
  by rewrite B, !A.
Qed.
Lemma dump_spool_ok stack e d p d' :
  dump_spool stack e d = (Ok p, d') → same_dao d d' ∧
  p = {| pool_id := e.2; pool_name := e.1; pool_quota := (pool_entry (client d) e.2).1.2;
         pool_used := stack; pool_status := (pool_entry (client d) e.2).2 |}.
Proof.
  intros Hr. unfold dump_spool in Hr. run Hr as q d1 H1. apply get_int64_ok in H1 as [S1 ->].
  run Hr as st d2 H2. apply get_int32_ok in H2 as [S2 ->]. injection Hr as <- <-.
  split; [by etrans|]. unfold pool_entry. simpl. destruct S1 as [[_ A] _]. by rewrite A.
Qed.
Lemma dump_granted_ok e d g d' :
  dump_granted e d = (Ok g, d') → same_dao d d' ∧
  g = {| granted_id := e.2; granted_pool_id := (strtoll (take 31 e.1)).1;
         granted_privs := (grant_entry (client d) e.2).2 |}.
Proof.
  intros Hr. unfold dump_granted in Hr. run Hr as q d1 H1. apply get_int32_ok in H1 as [S1 ->].
  run Hr as st d2 H2. apply get_int32_ok in H2 as [S2 ->]. injection Hr as <- <-.
  split; [by etrans|]. unfold grant_entry. simpl. destruct S1 as [[_ A] _]. by rewrite A.
Qed.

(** The base directory, which is made where there is none. *)
Lemma base_found d i d' :
  tree_ok (client d) →
  (r ← attempt (on_client (fdir_client_lookup_inode_by_path AUTH_SET_BASE_PATH));
   match r with
   | Ok inode => mret inode
   | Err ENOENT =>
       _ ← on_client (fdir_client_create_dentry {| ns := AUTH_NAMESPACE_STR; path := [slash] |} DAO_MODE_DIR);
       on_client (fdir_client_create_dentry AUTH_SET_BASE_PATH DAO_MODE_DIR)
   | Err e => throw e
   end) d = (Ok i, d') →
  st_same d d' ∧ dent (client d') base_at = Some i.
Proof.
  intros HT Hr. run Hr as r d1 Hl. apply attempt_inv in Hl.
  pose proof (on_client_same _ _ _ _ (fdir_lookup_any AUTH_SET_BASE_PATH (client d) eq_refl) Hl) as [Hv Hb].
  apply on_client_inv in Hl as (w1 & Hl & ->). cbn [client DAO_BASE_PATH_INODE] in *.
  destruct r as [j|[]]; try done.
  { injection Hr as <- <-. split; [by apply st_same_view|]. cbn. apply fdir_lookup_ok in Hl; [|done].
    destruct Hv as [-> _]. exact Hl. }
  apply fdir_lookup_none in Hl; [|done]. change (dent (client d) base_at = None) in Hl.
  run Hr as j d2 Hc. apply on_client_inv in Hc as (w2 & Hc & ->), Hr as (w3 & Hc2 & ->). cbn [client] in *.
  apply fdir_create_ok in Hc2 as Hnew; [|done]. destruct Hnew as (_ & _ & _ & Hi & Hempty & _).
  apply create_obtained in Hc, Hc2; [|done..]. change (obtained [] j w1 w2) in Hc.
  change (obtained base_at i w2 w3) in Hc2.
  assert (tree_ok w1) as HT1 by (by apply (tree_ok_dents (client d)); [apply Hv|]).
  assert (tree_ok w2) as HT2 by (by eapply obtained_tree).
  assert (tree_ok w3) as HT3 by (by eapply obtained_tree).
  assert (∀ q, q ≠ [] → q ≠ base_at → same_at q (client d) w3) as Hat.
  { intros q Hq1 Hq2. eapply same_at_trans; [by apply same_view_at|].
    eapply same_at_trans; [exact (obtained_at _ _ q _ _ HT2 Hc Hq1)|exact (obtained_at _ _ q _ _ HT3 Hc2 Hq2)]. }
  split; [|exact Hi]. split; cbn [client DAO_BASE_PATH_INODE].
  - intros n. by apply st_user_at, Hat.
  - intros un n. by apply st_pool_at, Hat.
  - intros un k. by apply st_grant_at, Hat.
  - done.
  - simpl. by rewrite Hl.
  - simpl. change (dent w3 base_at = Some i) in Hi. by rewrite Hi, Hl, Hempty.
Qed.

Lemma fdir_user_list d l d' :
  tree_ok (client d) → dao_user_list d = (Ok l, d') →
  st_same d d' ∧ NoDup (user_name <$> l) ∧ ∀ x, x ∈ l ↔ st_user d (user_name x) = Some x.
Proof.
  intros HT Hr. unfold dao_user_list in Hr. run Hr as [] d1 Hi.
  pose proof (on_client_same _ _ _ _ (fdir_array_any (client d)) Hi) as S1.
  assert (st_same d d1) as Hs1 by (apply st_same_view; apply S1).
  run Hr as r d2 Hl. run Hr as i d3 Hm. run Hr as es d4 He. unfold dump_to_user_array in Hr.
  run Hr as [] d5 Ha.
  assert (st_same d1 d3 ∧ dent (client d3) base_at = Some i) as [Hs3 Hbase].
  { apply base_found; [by apply Hs1|]. by rewrite (bind_ok _ _ _ _ _ Hl). }
  pose proof (on_client_same _ _ _ _ (fdir_list_inode_any i (client d3)) He) as S4.
  apply on_client_inv in He as (w4 & He & ->).
  destruct (fdir_list_inode_ok _ _ _ _ _ He Hbase) as [Hnd Hes].
  apply array_for_same in Ha as S5.
  apply (dump_loop_ok dump_user (λ w e, user_entry w e.1 e.2)) in Hr as [S6 ->];
    [|apply dump_user_ok|intros w w' e [_ Hv]; unfold user_entry; by rewrite !Hv].
  assert (st_same d d3) as Hs by (by etrans).
  assert (same_dao d3 d5) as S35 by (by etrans).
  split_and!.
  - etrans; [exact Hs|]. apply st_same_view; [|by destruct S35, S6; congruence].
    etrans; [apply S35|apply S6].
  - by rewrite <- list_fmap_compose.
  - intros x. rewrite <- (sm_users _ _ Hs). rewrite list_elem_of_fmap.
    assert (∀ n j, user_entry (client d5) n j = user_entry (client d3) n j) as Hent.
    { intros n j. destruct S35 as [[_ Hv] _]. unfold user_entry. by rewrite !Hv. }
    split.
    + intros ([k j] & -> & Hin). apply Hes in Hin as [Hk Hd]. simpl. rewrite decide_True by done.
      change (base_at ++ [k]) with (user_at k) in Hd. rewrite Hd. simpl. by rewrite Hent.
    + intros Hx. apply st_user_inv in Hx as (Hk & Heq & Hd). exists (user_name x, user_id x).
      split; [by rewrite Hent|]. by apply Hes.
Qed.

(** The start of the listing of a user's directory. *)
Lemma list_subdir n k d d1 es d2 :
  name_ok n → name_ok k → on_client fdir_client_dentry_array_init d = (Ok tt, d1) →
  on_client (fdir_client_list_dentry_by_path (AUTH_SET_USER_PATH1 n k)) d1 = (Ok es, d2) →
  same_dao d d2 ∧ lists_entries (client d) [home_dir; n; k] es.
Proof.
  intros Hn Hk Hi Hl.
  pose proof (on_client_same _ _ _ _ (fdir_array_any (client d)) Hi) as S1.
  pose proof (on_client_same _ _ _ _ (fdir_list_path_any (AUTH_SET_USER_PATH1 n k) (client d1) eq_refl) Hl) as S2.
  apply on_client_inv in Hl as (w & Hl & ->). apply fdir_list_path_ok in Hl; [|done].
  rewrite subdir_path in Hl by done. split; [by etrans|]. destruct Hl as [Hnd Hl], S1 as [[Hd _] _].
  split; [done|]. intros k' j. by rewrite Hl, Hd.
Qed.

Lemma fdir_spool_list stack un d l d' :
  name_ok un → dao_spool_list stack un d = (Ok l, d') →
  st_same d d' ∧ NoDup (pool_name <$> l) ∧
  (∀ p, p ∈ l → st_pool d un (pool_name p) = Some (pool_id p, pool_quota p, pool_status p)) ∧
  ∀ n x, st_pool d un n = Some x → n ∈ pool_name <$> l.
Proof.
  intros Hun Hr. unfold dao_spool_list in Hr. run Hr as [] d1 Hi. run Hr as es d2 Hl.
  destruct (list_subdir _ _ _ _ _ _ Hun created_ok Hi Hl) as [S2 [Hnd Hes]].
  unfold dump_to_spool_array in Hr. run Hr as [] d3 Ha. apply array_for_same in Ha as S3.
  assert (same_dao d d3) as S by (by etrans).
  apply (dump_loop_ok (dump_spool stack) (λ w e, {| pool_id := e.2; pool_name := e.1;
    pool_quota := (pool_entry w e.2).1.2; pool_used := stack; pool_status := (pool_entry w e.2).2 |}))
    in Hr as [S4 ->]; [|apply dump_spool_ok|intros w w' e [_ Hv]; unfold pool_entry; by rewrite !Hv].
  assert (∀ j, pool_entry (client d3) j = pool_entry (client d) j) as Hent.
  { intros j. destruct S as [[_ Hv] _]. unfold pool_entry. by rewrite !Hv. }
  assert (same_dao d d') as S' by (by etrans). split_and!.
  - apply st_same_view; apply S'.
  - by rewrite <- list_fmap_compose.
  - intros p ([k j] & -> & Hin)%list_elem_of_fmap. apply Hes in Hin as [Hk Hd]. simpl.
    rewrite decide_True by done. change ([home_dir; un; AUTH_DIR_NAME_CREATED_STR] ++ [k]) with (pool_at un k) in Hd.
    rewrite Hd. simpl. by rewrite <- Hent.
  - intros n x Hx. apply st_pool_inv in Hx as (_ & Hn & _ & Hd). rewrite <- list_fmap_compose.
    apply list_elem_of_fmap. exists (n, x.1.1). split; [done|]. by apply Hes.
Qed.

Lemma fdir_granted_list un d l d' :
  tree_ok (client d) → name_ok un → dao_granted_list un d = (Ok l, d') →
  st_same d d' ∧ NoDup (granted_pool_id <$> l) ∧
  (∀ g, g ∈ l → st_grant d un (granted_pool_id g) = Some (granted_id g, granted_privs g)) ∧
  ∀ i x, st_grant d un i = Some x → i ∈ granted_pool_id <$> l.
Proof.
  intros HT Hun Hr. unfold dao_granted_list in Hr. run Hr as [] d1 Hi. run Hr as es d2 Hl.
  destruct (list_subdir _ _ _ _ _ _ Hun granted_ok Hi Hl) as [S2 [Hnd Hes]].
  unfold dump_to_granted_array in Hr. run Hr as [] d3 Ha. apply array_for_same in Ha as S3.
  assert (same_dao d d3) as S by (by etrans).
  apply (dump_loop_ok dump_granted (λ w e, {| granted_id := e.2; granted_pool_id := (strtoll (take 31 e.1)).1;
    granted_privs := (grant_entry w e.2).2 |})) in Hr as [S4 ->];
    [|apply dump_granted_ok|intros w w' e [_ Hv]; unfold grant_entry; by rewrite !Hv].
  assert (∀ j, grant_entry (client d3) j = grant_entry (client d) j) as Hent.
  { intros j. destruct S as [[_ Hv] _]. unfold grant_entry. by rewrite !Hv. }
  assert (∀ k j, (k, j) ∈ es → ∃ i, in_sint 64 i ∧ k = decimal i ∧ (strtoll (take 31 k)).1 = i) as Hnum.
  { intros k j Hin. apply Hes in Hin as [Hk Hd].
    destruct (tr_grants _ HT un k) as (i & Hi' & ->); [by simpl in Hd; rewrite Hd|].
    exists i. split_and!; [done..|]. destruct (decimal_shape i Hi') as (_ & _ & Hlen).
    rewrite take_ge by lia. by rewrite strtoll_decimal. }
  assert (same_dao d d') as S' by (by etrans). split_and!.
  - apply st_same_view; apply S'.
  - rewrite <- list_fmap_compose. apply NoDup_fmap_2_strong; [|by eapply NoDup_fmap_1].
    intros [k j] [k' j'] H1 H2 Heq. simpl in Heq.
    destruct (Hnum _ _ H1) as (i & _ & -> & Ei), (Hnum _ _ H2) as (i' & _ & -> & Ei').
    assert (i = i') as <- by congruence. apply Hes in H1 as [_ H1], H2 as [_ H2]. congruence.
  - intros g ([k j] & -> & Hin)%list_elem_of_fmap. destruct (Hnum _ _ Hin) as (i & Hi' & -> & Ei).
    apply Hes in Hin as [Hk Hd]. cbn [fst snd granted_pool_id granted_id granted_privs]. rewrite Ei. simpl.
    rewrite decide_True by done.
    change ([home_dir; un; AUTH_DIR_NAME_GRANTED_STR] ++ [decimal i]) with (grant_at un i) in Hd.
    rewrite Hd. simpl. by rewrite <- Hent.
  - intros i x Hx. simpl in Hx. destruct (decide (name_ok un ∧ in_sint 64 i)) as [[_ Hi']|]; [|done].
    destruct (dent (client d) (grant_at un i)) as [j|] eqn:Hd; [|done].
    destruct (decimal_shape i Hi') as (Hne & Hsl & Hlen).
    rewrite <- list_fmap_compose. apply list_elem_of_fmap. exists (decimal i, j). split.
    + simpl. rewrite take_ge by lia. by rewrite strtoll_decimal.
    + by apply Hes.
Qed.

(** ** Automatic ids *)

Lemma fdir_base d d' :
  dao_spool_set_base_path_inode d = (Ok tt, d') → st_same d d' ∧ st_based d'.
Proof.
  intros Hr. unfold dao_spool_set_base_path_inode in Hr. run Hr as i d1 Hl.
  pose proof (on_client_same _ _ _ _ (fdir_lookup_any AUTH_SET_BASE_PATH (client d) eq_refl) Hl) as [Hv Hb].
  apply modify_inv in Hr as ->. apply on_client_inv in Hl as (w & Hl & ->). apply fdir_lookup_ok in Hl; [|done].
  change (dent (client d) base_at = Some i) in Hl. cbn [client DAO_BASE_PATH_INODE] in *.
  assert (st_based {| client := w; DAO_BASE_PATH_INODE := i |}) as Hba.
  { simpl. destruct Hv as [-> _]. done. }
  split; [|done]. destruct (st_same_view d {| client := w; DAO_BASE_PATH_INODE := DAO_BASE_PATH_INODE d |} Hv eq_refl)
    as [S1 S2 S3 S4 S5 S6]. by split.
Qed.

Lemma fdir_get_auto d v d' :
  st_based d → dao_spool_get_auto_id d = (Ok v, d') → st_same d d' ∧ v = st_auto d.
Proof.
  intros Hb Hr. unfold dao_spool_get_auto_id in Hr. run Hr as s d1 Hg. injection Hg as <- <-.
  apply get_int64_ok in Hr as [S ->]. split; [apply st_same_view; apply S|]. simpl in *. by rewrite Hb.
Qed.

Lemma fdir_set_auto a d d' :
  tree_ok (client d) → st_based d → in_sint 64 a → dao_spool_set_auto_id a d = (Ok tt, d') →
  tree_ok (client d') ∧ same_users d d' ∧ same_pools d d' ∧ same_grants d d' ∧ st_based d' ∧ st_auto d' = a.
Proof.
  intros HT Hb Ha Hr. unfold dao_spool_set_auto_id in Hr. run Hr as s d1 Hg. injection Hg as <- <-.
  pose proof (set_edited _ _ _ _ _ _ _ _ (start_edited _ _ _ HT Hb) Hr) as [E1 E2 E3 E4 E5].
  split_and!.
  - done.
  - intros n. by apply st_user_at, E4.
  - intros un n. by apply st_pool_at, E4.
  - intros un i. by apply st_grant_at, E4.
  - simpl. by rewrite E3, E2.
  - simpl. rewrite E3, E5, decide_True by done. by rewrite num_itoa.
Qed.

(** ** The directory service is a backend *)

Lemma pool_owner d un n : tree_ok (client d) → st_pool d un n ≠ None → st_user d un ≠ None.
Proof.
  intros HT. simpl. case_decide as Hok; [|done]. intros Hd. rewrite decide_True by apply Hok.
  assert (dent (client d) (user_at un) ≠ None) as Hu.
  { apply (tr_parent _ HT (user_at un) AUTH_DIR_NAME_CREATED_STR), (tr_parent _ HT (created_at un) n).
    change (created_at un ++ [n]) with (pool_at un n). by destruct (dent (client d) (pool_at un n)). }
  by destruct (dent (client d) (user_at un)).
Qed.
Lemma grant_owner d un i : tree_ok (client d) → st_grant d un i ≠ None → st_user d un ≠ None.
Proof.
  intros HT. simpl. case_decide as Hok; [|done]. intros Hd. rewrite decide_True by apply Hok.
  assert (dent (client d) (user_at un) ≠ None) as Hu.
  { apply (tr_parent _ HT (user_at un) AUTH_DIR_NAME_GRANTED_STR), (tr_parent _ HT (granted_at un) (decimal i)).
    change (granted_at un ++ [decimal i]) with (grant_at un i). by destruct (dent (client d) (grant_at un i)). }
  by destruct (dent (client d) (user_at un)).
Qed.
Lemma alloc_same v d : same_dao d (fast_allocator_alloc_string v d).2.
Proof.
  pose proof (on_client_same (fast_allocator_alloc_string v) d _ _ (fdir_alloc_any v (client d))
    (surjective_pairing _)) as Hs. exact Hs.
Qed.

Lemma set_string_dents i k v d d' :
  dao_set_xattr_string i k v d = (Ok tt, d') → ∀ q, dent (client d') q = dent (client d) q.
Proof.
  intros Hs q. apply on_client_inv in Hs as (w & Hs & ->).
  pose proof (fdir_set_any i k v (client d) q) as Hd. unfold DAO_NAMESPACE in *. by rewrite Hs in Hd.
Qed.

Lemma spool_create_inode un p d id d' :
  name_ok un → name_ok (pool_name p) → dao_spool_create un p d = (Ok id, d') →
  dent (client d') (pool_at un (pool_name p)) = Some id ∧
  (∀ i, dent (client d) (pool_at un (pool_name p)) = Some i → i = id) ∧
  ∀ q, q ≠ pool_at un (pool_name p) → dent (client d') q = dent (client d) q.
Proof.
  intros Hun Hn Hr. unfold dao_spool_create in Hr. run Hr as r d1 Hc.
  apply attempt_inv, on_client_inv in Hc as (w1 & Hc & ->). run Hr as i d2 Hi.
  run Hr as [] d3 H3. run Hr as [] d4 H4. injection Hr as <- <-.
  pose proof (set_string_dents _ _ _ _ _ H3) as Hd3. pose proof (set_string_dents _ _ _ _ _ H4) as Hd4.
  assert (obtained (pool_at un (pool_name p)) i (client d) (client d2)) as [O1 O2 O3 _].
  { pose proof (entry_path un AUTH_DIR_NAME_CREATED_STR (pool_name p) Hun created_ok Hn) as Hpath.
    unfold pool_at. rewrite <- Hpath. destruct r as [j|[]]; try done.
    - injection Hi as <- <-. by apply create_obtained in Hc.
    - apply on_client_inv in Hi as (w2 & Hl & ->). cbn [client] in *.
      by eapply (exists_obtained (AUTH_SET_USER_PATH2 un AUTH_DIR_NAME_CREATED_STR (pool_name p))). }
  split_and!.
  - by rewrite Hd4, Hd3.
  - intros j Hj. destruct O2 as [O2|(O2 & _)]; congruence.
  - intros q Hq. by rewrite Hd4, Hd3, O3.
Qed.

(** Whether it succeeds or fails, the creation of a pool touches no other entry. *)
Lemma spool_create_other un p d q :
  name_ok un → name_ok (pool_name p) → q ≠ pool_at un (pool_name p) →
  dent (client (dao_spool_create un p d).2) q = dent (client d) q.
Proof.
  intros Hun Hn Hq.
  pose proof (entry_path un AUTH_DIR_NAME_CREATED_STR (pool_name p) Hun created_ok Hn) as Hpath.
  set (P := AUTH_SET_USER_PATH2 un AUTH_DIR_NAME_CREATED_STR (pool_name p)) in *.
  pose (R := λ d d' : D, dent (client d') q = dent (client d) q).
  assert (PreOrder R) as HR by (split; [by intros ?|intros ??? H1' H2'; unfold R in *; congruence]).
  assert (∀ i k v d, kept R (dao_set_xattr_integer i k v) d) as Hset.
  { intros i k v d1. unfold kept, R, dao_set_xattr_integer, dao_set_xattr_string, on_client.
    pose proof (fdir_set_any i k (fc_itoa v) (client d1) q) as Hs. unfold DAO_NAMESPACE.
    by destruct (fdir_client_set_xattr_by_inode _ _ _ _ _). }
  assert (∀ d, kept R (on_client (fdir_client_lookup_inode_by_path P)) d) as Hlook.
  { intros d1. unfold kept, R, on_client. pose proof (fdir_lookup_any P (client d1) eq_refl) as [Hs _].
    by destruct (fdir_client_lookup_inode_by_path _ _). }
  change (R d (dao_spool_create un p d).2). change (kept R (dao_spool_create un p) d). unfold dao_spool_create.
  apply kept_bind; [done| |].
  { apply kept_attempt. unfold kept, R, on_client. fold P.
    pose proof (fdir_create_any P DAO_MODE_FILE (client d) q eq_refl) as Hs. cbv zeta in Hs.
    rewrite Hpath in Hs. destruct (fdir_client_create_dentry _ _ _). apply Hs. by left. }
  intros r d1 _. apply kept_bind; [done| |].
  { destruct r as [i|[]]; first [apply kept_ret|apply Hlook|apply kept_throw]; done. }
  intros i d2 _. apply kept_bind; [done|apply Hset|]. intros [] d3 _.
  apply kept_bind; [done|apply Hset|]. intros [] d4 _. by apply kept_ret.
Qed.

#[export] Instance fdir_dao_laws stack : @AuthDaoLaws D (fdir_dao stack) _ _ _.
Proof.
  split; simpl dao_name_ok.
  - intros un p d id d' Hun Hn Hr. destruct (spool_create_inode _ _ _ _ _ Hun Hn Hr) as (H1 & H2 & H3). simpl.
    rewrite !decide_True by done. split_and!; [done..|]. intros un' n' Hne.
    case_decide; [|done]. apply H3. by intros [= -> ->].
  - intros un p d un' n' Hun Hn Hne. simpl. case_decide; [|done]. apply spool_create_other; [done..|].
    by intros [= -> ->].
  - intros u Hu d. by apply user_create_inodes.
  - intros i d. apply set_integer_inodes.
  - intros i p d. apply set_integer_inodes.
  - intros i p d. apply set_xattr_inodes.
  - intros i d. apply set_integer_inodes.
  - intros i q d. apply set_integer_inodes.
  - intros un g Hun d. by apply granted_create_inodes.
  - intros un i Hun d. apply on_client_inodes. intros un' n. apply fdir_remove_any; [done|].
    by rewrite grant_path_any.
  - intros v d. apply on_client_view, fdir_alloc_any.
  - intros v d v' d' Hr. apply on_client_inv in Hr as (w & Hr & _). by eapply fdir_alloc_copy.
Qed.

#[export] Instance fdir_store_laws stack : @DaoStoreLaws D (fdir_dao stack) _ _ _.
Proof.
  split; simpl dao_name_ok.
  - intros d n x Hx. apply st_user_inv in Hx as (Hn & -> & _). done.
  - intros d un n x Hx. apply st_pool_inv in Hx as (Hun & Hn & _ & Hd). split; [done|].
    simpl. by rewrite decide_True.
  - intros d un n. apply pool_owner.
  - intros d un i. apply grant_owner.
  - intros v d. apply st_same_view; apply alloc_same.
  - intros u d id d'. apply fdir_user_create.
  - intros n x d d'. apply fdir_user_remove.
  - intros n x p d d'. apply fdir_user_priv.
  - intros n x p d d'. apply fdir_user_passwd.
  - intros d l d'. apply fdir_user_list.
  - intros un p d id d'. apply fdir_spool_create.
  - intros un n id q st d d'. apply fdir_spool_remove.
  - intros un n id q st q' d d'. apply fdir_spool_quota.
  - intros un d l d' _. apply fdir_spool_list.
  - intros un g d id d'. apply fdir_granted_create.
  - intros un i d d'. apply fdir_granted_remove.
  - intros un d l d'. apply fdir_granted_list.
  - intros d d' _. apply fdir_base.
  - intros d v d' _. apply fdir_get_auto.
  - intros a d d'. apply fdir_set_auto.
Qed.
End spec.
End DaoSpec.
