(* ===== verification/DaoTakeover.v ===== *)
(** * A change of the master does not lose the database

    What [DaoLoad] proves for any backend, for the database in FastDIR. *)
From S2P Require Import Prelude Fastcommon AuthDB AuthDBProofs AuthDBSpec Dao DaoStore DaoSpec DaoLoad.
Import AuthDB AuthDBProofs AuthDBSpec Dao DaoStored DaoSpec DaoLoad.
Local Open Scope Z_scope.

Module DaoTakeover.
Section takeover.
Context {W : Type} `{!FdirClient W, !Malloc W, !NameAllocator W, !FdirView W, !FdirLaws W}.
Context `{!FcItoa, !FcItoaLaws, !FcCompare, !FcCompareLaws}.
Context {MB : Type} `{!Mblock MB, !MblockLaws MB}.
Context {SLs SLi : Type → Type} `{!UniqSkiplist string_t SLs, !UniqSkiplist Z SLi}.
Context `{!UniqSkiplistLaws fc_string_compare SLs, !UniqSkiplistLaws fc_compare_int64 SLi}.
Context (stack : Z).
#[local] Hint Extern 0 (AuthDao (dao_state _)) => exact (fdir_dao stack) : typeclass_instances.
Abbreviation S := (AuthDBContext (dao_state W) MB SLs SLi).
Implicit Types s : S.

(** Two servers see the same tree, each through its own client. *)
Lemma view_tables (d d' : dao_state W) :
  tree_ok (client d) → same_view (client d) (client d') → same_tables d d'.
Proof.
  intros HT Hv. pose proof (st_same_view d {| client := client d'; DAO_BASE_PATH_INODE := DAO_BASE_PATH_INODE d |}
    Hv eq_refl) as [S1 S2 S3 S4 S5 S6]. split; [|done..]. by apply S4.
Qed.

(** C7: whatever operations succeed and whichever servers become the master, a server that
    becomes the master loads from FastDIR the users, pools and grants that the last
    master had.  The bytes used of a pool are not stored, and a password that the last
    master could not copy is back. *)
Theorem master_change_restores_database A A' s0 s1 s s2 s' :
  inserts_succeed (SLs:=SLs) → initial s0 → tree_ok (client (backend s0)) →
  adb_load_data A s0 = (Ok tt, s1) → rtc db_step s1 s →
  initial s2 → same_view (client (backend s)) (client (backend s2)) →
  adb_load_data A' s2 = (Ok tt, s') →
  (∀ n, option_Forall2 user_agrees (user_view s n) (user_view s' n)) ∧
  (∀ un n, without_used <$> adb_spool_get un n s' = without_used <$> adb_spool_get un n s) ∧
  ∀ un i, adb_granted_full_get un i s' = adb_granted_full_get un i s.
Proof.
  intros Hins Hini HT Hl Hst Hini2 Hv Hl2. assert (st_ok (backend s0)) as Hok by exact HT.
  destruct (db_steps_kept Hins _ _ Hst (first_load_kept Hins _ _ _ Hini Hok Hl)) as [[_ Hs] _].
  eapply (takeover_restores Hins A A' s0 s1 s s2 s'); try done.
  apply view_tables; [|done]. apply (so_ok _ _ Hs).
Qed.

(** C30: an automatic id of a pool is greater than all ids handed out before, whichever
    servers were the master. *)
Theorem auto_ids_not_reused A s0 s1 s v s2 s3 v' s4 :
  inserts_succeed (SLs:=SLs) → initial s0 → tree_ok (client (backend s0)) →
  adb_load_data A s0 = (Ok tt, s1) → rtc db_step s1 s →
  in_sint 64 (auto_id s + 1) → adb_spool_next_auto_id s = (Ok v, s2) → rtc db_step s2 s3 →
  in_sint 64 (auto_id s3 + 1) → adb_spool_next_auto_id s3 = (Ok v', s4) → v < v'.
Proof. intros Hins Hini HT. by apply (auto_ids_increase Hins). Qed.
End takeover.
End DaoTakeover.
