(* ===== verification/DaoExamples.v ===== *)
(** * A small directory service

    A tree of entries in memory that satisfies the laws of the client of FastDIR, and the
    theorems of [DaoTakeover] applied to a database in it. *)
From Stdlib Require Import Init.Byte.
From S2P Require Import Prelude Fastcommon AuthDB AuthDBProofs AuthDBSpec Dao DaoText DaoStore DaoSpec DaoLoad DaoTakeover.
Import Ref AuthDB AuthDBProofs AuthDBSpec Dao DaoText DaoStored DaoSpec DaoLoad DaoTakeover.
Local Open Scope Z_scope.

Module DaoExamples.

(** A service that is full stores no attributes. *)
Record tree := {
  entries : gmap (list string_t) Z; attributes : gmap (Z * string_t) string_t; full : bool;
}.

(** An inode greater than all others. *)
Definition new_inode (t : tree) : Z := 1 + foldr Z.max 0 (map_to_list (entries t)).*2.

Lemma foldr_Zmax_le (l : list Z) x : x ∈ l → x ≤ foldr Z.max 0 l.
Proof. induction l as [|y l IH]; [by intros ?%not_elem_of_nil|]. intros [->|Hx]%elem_of_cons; simpl; [lia|]. specialize (IH Hx). lia. Qed.
Lemma new_inode_fresh t q : entries t !! q ≠ Some (new_inode t).
Proof.
  intros Hq%elem_of_map_to_list. apply (list_elem_of_fmap_2 snd), foldr_Zmax_le in Hq.
  unfold new_inode in Hq. simpl in Hq. lia.
Qed.

(** The last component of a path in directory [p]. *)
Definition child (p q : list string_t) : option string_t :=
  k ← last q; if decide (q = p ++ [k]) then Some k else None.
Lemma child_spec p q k : child p q = Some k ↔ q = p ++ [k].
Proof.
  unfold child. split.
  - destruct (last q) as [k'|]; [|done]. simpl. case_decide as Hq; [|done]. by intros [= <-].
  - intros ->. rewrite last_snoc. simpl. by rewrite decide_True.
Qed.

Definition children (t : tree) (p : list string_t) : gmap string_t Z :=
  map_fold (λ q i m, match child p q with
                     | Some k => if decide (name_ok k) then <[k := i]> m else m
                     | None => m
                     end) ∅ (entries t).
Lemma children_lookup t p k j :
  children t p !! k = Some j ↔ name_ok k ∧ entries t !! (p ++ [k]) = Some j.
Proof.
  unfold children. revert k j. apply (map_fold_weak_ind (λ m es, ∀ k j, m !! k = Some j ↔
    name_ok k ∧ es !! (p ++ [k]) = Some j)).
  - intros k j. rewrite !lookup_empty. naive_solver.
  - intros q i es m Hq IH k j. destruct (child p q) as [k'|] eqn:E.
    + apply child_spec in E as ->. destruct (decide (k = k')) as [->|Hne].
      * rewrite lookup_insert_eq. case_decide as Hok; [rewrite lookup_insert_eq; naive_solver|].
        rewrite IH. naive_solver.
      * rewrite (lookup_insert_ne es) by (intros ?%app_inj_tail; naive_solver).
        case_decide; [rewrite lookup_insert_ne by done|]; apply IH.
    + rewrite IH. destruct (decide (q = p ++ [k])) as [->|Hne]; [|by rewrite lookup_insert_ne].
      assert (child p (p ++ [k]) = Some k) by (by apply child_spec). congruence.
Qed.

Definition is_leaf (t : tree) (p : list string_t) : bool :=
  forallb (λ e, bool_decide (child p e.1 = None)) (map_to_list (entries t)).
Lemma is_leaf_spec t p k : is_leaf t p = true → entries t !! (p ++ [k]) = None.
Proof.
  intros Hl. destruct (entries t !! (p ++ [k])) as [i|] eqn:E; [|done].
  apply elem_of_map_to_list, list_elem_of_In in E. unfold is_leaf in Hl. rewrite forallb_forall in Hl.
  specialize (Hl _ E). apply bool_decide_eq_true in Hl. simpl in Hl.
  assert (child p (p ++ [k]) = Some k) by (by apply child_spec). congruence.
Qed.

(** The paths of an inode. *)
Definition paths_of (t : tree) (i : Z) : list (list string_t) :=
  (filter (λ e, e.2 = i) (map_to_list (entries t))).*1.
Lemma paths_of_spec t i p : p ∈ paths_of t i ↔ entries t !! p = Some i.
Proof.
  unfold paths_of. rewrite list_elem_of_fmap. split.
  - intros ([q j] & -> & [Hj Hq]%list_elem_of_filter). simpl in *. subst. by apply elem_of_map_to_list.
  - intros Hp%elem_of_map_to_list. exists (p, i). split; [done|]. by apply list_elem_of_filter.
Qed.

Definition set_entries es (t : tree) : tree :=
  {| entries := es; attributes := attributes t; full := full t |}.
Definition set_full b (t : tree) : tree :=
  {| entries := entries t; attributes := attributes t; full := b |}.

Definition create (n : FDIRDEntryFullName) (mode : Z) : M tree Z := λ t,
  let p := split_path (path n) in
  if bool_decide (entries t !! p ≠ None) then (Err EEXIST, t)
  else if bool_decide (p = [] ∨ entries t !! take (pred (length p)) p ≠ None) then
    let i := new_inode t in
    (Ok i, {| entries := <[p := i]> (entries t);
              attributes := filter (λ e, e.1.1 ≠ i) (attributes t); full := full t |})
  else (Err ENOENT, t).
Definition lookup_path (n : FDIRDEntryFullName) : M tree Z := λ t,
  match entries t !! split_path (path n) with Some i => (Ok i, t) | None => (Err ENOENT, t) end.
Definition remove (n : FDIRDEntryFullName) : M tree unit := λ t,
  let p := split_path (path n) in
  if bool_decide (entries t !! p ≠ None) && is_leaf t p
  then (Ok tt, set_entries (delete p (entries t)) t) else (Err EBUSY, t).
Definition set_xattr (i : Z) (k v : string_t) : M tree unit := λ t,
  if full t then (Err ENOSPC, t) else
  (Ok tt, {| entries := entries t; attributes := <[(i, k) := v]> (attributes t); full := false |}).
Definition get_xattr (i : Z) (k : string_t) (size : Z) : M tree string_t := λ t,
  (match attributes t !! (i, k) with
   | Some v => if Z.of_nat (length v) <=? size then Ok v else Err EOVERFLOW
   | None => Err ENODATA
   end, t).
Definition list_inode (i : Z) : M tree (list (string_t * Z)) := λ t,
  (match paths_of t i with [p] => Ok (map_to_list (children t p)) | _ => Err ENOENT end, t).
Definition list_path (n : FDIRDEntryFullName) : M tree (list (string_t * Z)) := λ t,
  (Ok (map_to_list (children t (split_path (path n)))), t).

#[export] Instance tree_client : FdirClient tree := {|
  fdir_client_create_dentry := create;
  fdir_client_lookup_inode_by_path := lookup_path;
  fdir_client_remove_dentry := remove;
  fdir_client_set_xattr_by_inode _ := set_xattr;
  fdir_client_get_xattr_by_inode _ := get_xattr;
  fdir_client_list_dentry_by_inode _ := list_inode;
  fdir_client_list_dentry_by_path := list_path;
  fdir_client_dentry_array_init := mret tt;
  fast_mpool_alloc_string v := mret v;
|}.
#[export] Instance tree_names : NameAllocator tree := {| fast_allocator_alloc_string v := mret v |}.
#[export] Instance tree_malloc : Malloc tree := {| fc_malloc _ t := (true, t) |}.
#[export] Instance tree_view : FdirView tree := {|
  dent t p := entries t !! p; attr t i k := attributes t !! (i, k) |}.
#[export] Instance decimal_itoa : FcItoa := {| fc_itoa := decimal |}.
#[export] Instance decimal_itoa_laws : FcItoaLaws.
Proof. by intros n. Qed.

Lemma create_laws n m t q :
  (q ≠ split_path (path n) ∨ entries t !! q ≠ None → entries (create n m t).2 !! q = entries t !! q) ∧
  ∀ i t', create n m t = (Ok i, t') →
    let p := split_path (path n) in
    entries t !! p = None ∧ (∀ q, entries t !! q ≠ Some i) ∧
    (∀ q k, p = q ++ [k] → entries t !! q ≠ None) ∧ entries t' !! p = Some i ∧
    (∀ k, attributes t' !! (i, k) = None) ∧
    ∀ j k, j ≠ i → attributes t' !! (j, k) = attributes t !! (j, k).
Proof.
  unfold create. cbv zeta. destruct (bool_decide_reflect (entries t !! split_path (path n) ≠ None)) as [Hex|Hnew];
    [by split|]. apply dec_stable in Hnew.
  destruct (bool_decide_reflect (split_path (path n) = [] ∨
    entries t !! take (pred (length (split_path (path n)))) (split_path (path n)) ≠ None)) as [Hpar|_]; [|by split].
  split.
  - intros [Hq|Hq]; simpl; [by rewrite lookup_insert_ne|]. rewrite lookup_insert_ne; [done|]. by intros <-.
  - intros i t' [= <- <-]. simpl. split_and!; [done|apply new_inode_fresh| |by rewrite lookup_insert_eq|..].
    + intros q' k Hp. destruct Hpar as [Hpar|Hpar]; [rewrite Hpar in Hp; by destruct q'|].
      rewrite Hp, length_app in Hpar. simpl in Hpar. rewrite Nat.add_1_r in Hpar. simpl in Hpar.
      by rewrite take_app_length in Hpar.
    + intros k. apply map_lookup_filter_None. right. naive_solver.
    + intros j k Hj. destruct (attributes t !! (j, k)) as [v|] eqn:E.
      * by apply map_lookup_filter_Some.
      * apply map_lookup_filter_None. by left.
Qed.

Lemma children_entries t p : lists_entries t p (map_to_list (children t p)).
Proof.
  split; [apply NoDup_fst_map_to_list|]. intros k j. rewrite elem_of_map_to_list. apply children_lookup.
Qed.

#[export] Instance tree_laws : FdirLaws tree.
Proof.
  split.
  - intros n m t q _. apply create_laws.
  - intros n m t i t' _. by apply (create_laws n m t []).
  - intros n m t t' _. simpl. unfold create. cbv zeta. destruct (bool_decide _); [by intros [= <-]|].
    by destruct (bool_decide _).
  - intros n t _. simpl. unfold lookup_path. by destruct (entries t !! _).
  - intros n t i t' _. simpl. unfold lookup_path. destruct (entries t !! _); [|done]. by intros [= <- _].
  - intros n t t' _. simpl. unfold lookup_path. by destruct (entries t !! _).
  - intros n t q _ Hq. simpl. unfold remove. cbv zeta. destruct (_ && _); [|done]. simpl.
    by rewrite lookup_delete_ne.
  - intros n t t' _. simpl. unfold remove. cbv zeta.
    destruct (bool_decide _ && is_leaf t _) eqn:E; [|done]. intros [= <-]. simpl.
    apply andb_true_iff in E as [_ E]. split_and!; [apply lookup_delete_eq| |done].
    intros k. by apply is_leaf_spec.
  - intros i k v t q. simpl. unfold set_xattr. by destruct (full t).
  - intros i k v t t'. simpl. unfold set_xattr. destruct (full t); [done|].
    intros [= <-] j k'. simpl. case_decide as Hd; [destruct Hd as [-> ->]; apply lookup_insert_eq|].
    apply lookup_insert_ne. naive_solver.
  - done.
  - intros i k n t v t'. simpl. unfold get_xattr. destruct (attributes t !! (i, k)) as [v'|]; [|done].
    destruct (_ <=? n); [|done]. by intros [= <- _].
  - intros i k n t t'. simpl. unfold get_xattr. destruct (attributes t !! (i, k)) as [v'|]; [|done].
    by destruct (_ <=? n).
  - done.
  - intros i p t l t'. simpl. unfold list_inode. intros Hl Hp. apply paths_of_spec in Hp.
    destruct (paths_of t i) as [|q [|]]; try done. apply list_elem_of_singleton in Hp as ->.
    injection Hl as <- _. apply children_entries.
  - done.
  - intros n t l t' _. simpl. unfold list_path. intros [= <- _]. apply children_entries.
  - done.
  - done.
  - by intros v t v' t' [= <- _].
  - done.
  - by intros v t v' t' [= <- _].
  - done.
Qed.

(** ** A database in it *)

Import AuthDBExamples(names_list, ids_list, names_laws, ids_laws, blank_user, blank_pool, no_privs,
  ann, bob, data, demo_user, demo_pool, demo_grant, demo_inserts).
#[local] Existing Instances names_list ids_list names_laws ids_laws.
Abbreviation DB := (AuthDBContext (dao_state tree) Ref.pool (gmap string_t) (gmap Z)).

#[local] Hint Extern 0 (AuthDao (dao_state _)) => exact (fdir_dao 7) : typeclass_instances.

(** A server that has not loaded anything, with its own client of the service. *)
Definition idle (t : tree) : DB :=
  {| mem := λ _, empty_pool;
     users := λ _, {| user := blank_user; created := ∅; granted := ∅ |};
     pools := λ _, {| pool := blank_pool; pool_user := 0%nat |};
     grants := λ _, {| grant := {| granted_id := 0; granted_pool_id := 0; granted_privs := no_privs |};
                       sp := 0%nat |};
     user_count := 0; user_sl := ∅; by_id := ∅; by_name := ∅; auto_id := 0;
     backend := {| client := t; DAO_BASE_PATH_INODE := 0 |}; changes := [] |}.
Lemma idle_initial t : initial (idle t).
Proof. by split_and!. Qed.

Definition no_tree : tree := {| entries := ∅; attributes := ∅; full := false |}.
Lemma no_tree_ok : tree_ok no_tree.
Proof. by split; intros; simpl in *. Qed.

Fixpoint all_run (ops : list adb_op) (s : DB) : result DB :=
  match ops with
  | [] => Ok s
  | op :: ops => match run_op op s with (Ok _, s') => all_run ops s' | (Err e, _) => Err e end
  end.
Lemma all_run_steps ops s s' :
  Forall (op_ranged (D:=dao_state tree)) ops → all_run ops s = Ok s' → rtc (db_step (SLs:=gmap string_t)) s s'.
Proof.
  revert s. induction ops as [|op ops IH]; intros s Hops Hr; simpl in Hr; [by injection Hr as <-|].
  apply Forall_cons in Hops as [Hop Hops].
  destruct (run_op op s) as [[[]|] s1] eqn:E; [|done]. eapply rtc_l; [by eapply step_op|by apply IH].
Qed.

(** The first master loads nothing; two users, a pool (whose id is 9) and a grant are
    made; privileges and a quota are changed. *)
Definition demo_ops : list adb_op :=
  [UserCreate (demo_user ann); UserCreate (demo_user bob); SpoolCreate ann demo_pool;
   GrantedCreate bob (demo_grant 9); UserUpdatePriv bob 5; SpoolSetQuota ann data 77].
Definition first_load : result unit * DB := adb_load_data 100 (idle no_tree).
Definition worked : DB := default first_load.2 (match all_run demo_ops first_load.2 with Ok s => Some s | Err _ => None end).
Definition taken_over : result unit * DB := adb_load_data 100 (idle (client (backend worked))).

Lemma demo_ops_ranged : Forall (op_ranged (D:=dao_state tree)) demo_ops.
Proof.
  repeat constructor; by apply (bool_decide_unpack _).
Qed.
Lemma demo_runs :
  first_load.1 = Ok tt ∧ is_ok (all_run demo_ops first_load.2) = true ∧ taken_over.1 = Ok tt.
Proof. vm_compute. split_and!; exact eq_refl. Qed.

Lemma worked_steps : rtc (db_step (SLs:=gmap string_t)) first_load.2 worked.
Proof.
  apply (all_run_steps demo_ops); [apply demo_ops_ranged|]. destruct demo_runs as (_ & Hok & _).
  unfold worked. by destruct (all_run demo_ops first_load.2).
Qed.

Lemma idle_view t : same_view t (client (backend (idle t))).
Proof. done. Qed.
Lemma first_load_ok : adb_load_data 100 (idle no_tree) = (Ok tt, first_load.2).
Proof. destruct demo_runs as (Hl & _). exact (run_eta (adb_load_data 100) (idle no_tree) (Ok tt) Hl). Qed.
Lemma taken_over_ok : adb_load_data 100 (idle (client (backend worked))) = (Ok tt, taken_over.2).
Proof.
  destruct demo_runs as (_ & _ & Hl).
  exact (run_eta (adb_load_data 100) (idle (client (backend worked))) (Ok tt) Hl).
Qed.

Lemma master_change_restores_database_witness :
  adb_granted_full_get bob 9 taken_over.2 = adb_granted_full_get bob 9 worked.
Proof.
  destruct (master_change_restores_database 7 100 100 (idle no_tree) first_load.2 worked
    (idle (client (backend worked))) taken_over.2 demo_inserts (idle_initial _) no_tree_ok
    first_load_ok worked_steps (idle_initial _) (idle_view _) taken_over_ok) as (_ & _ & Hg).
  exact (Hg bob 9).
Defined.

Lemma granted_in_demo : is_ok (adb_granted_full_get bob 9 worked) = true.
Proof. vm_compute. exact eq_refl. Qed.

(** An id is handed out, another server takes over and hands out the next. *)
Definition one_id : result Z * DB := adb_spool_next_auto_id worked.
Definition third_load : result unit * DB := adb_load_data 100 (idle (client (backend one_id.2))).
Definition next_id : result Z * DB := adb_spool_next_auto_id third_load.2.

Lemma ids_run : one_id.1 = Ok 101 ∧ third_load.1 = Ok tt ∧ next_id.1 = Ok 102 ∧
  auto_id worked = 100 ∧ auto_id third_load.2 = 101.
Proof. vm_compute. split_and!; exact eq_refl. Qed.

Lemma one_id_ok : adb_spool_next_auto_id worked = (Ok 101, one_id.2).
Proof. exact (run_eta adb_spool_next_auto_id worked (Ok 101) (proj1 ids_run)). Qed.
Lemma next_id_ok : adb_spool_next_auto_id third_load.2 = (Ok 102, next_id.2).
Proof. exact (run_eta adb_spool_next_auto_id third_load.2 (Ok 102) (proj1 (proj2 (proj2 ids_run)))). Qed.
Lemma third_load_ok : adb_load_data 100 (idle (client (backend one_id.2))) = (Ok tt, third_load.2).
Proof.
  exact (run_eta (adb_load_data 100) (idle (client (backend one_id.2))) (Ok tt) (proj1 (proj2 ids_run))).
Qed.
Lemma id_range : in_sint 64 (auto_id worked + 1) ∧ in_sint 64 (auto_id third_load.2 + 1).
Proof. destruct ids_run as (_ & _ & _ & -> & ->). by split. Qed.

Lemma one_id_tree : tree_ok (client (backend one_id.2)).
Proof.
  assert (st_ok (backend (idle no_tree))) as Hok by exact no_tree_ok.
  destruct (db_steps_kept demo_inserts _ _ worked_steps
    (first_load_kept demo_inserts _ _ _ (idle_initial _) Hok first_load_ok)) as [Hk _].
  destruct (next_auto_id_stored _ _ _ Hk (proj1 id_range) one_id_ok) as ([_ Hs] & _).
  exact (so_ok _ _ Hs).
Qed.
Lemma third_load_step : rtc (db_step (SLs:=gmap string_t)) one_id.2 third_load.2.
Proof.
  apply rtc_once. apply (step_takeover 100 one_id.2 (idle (client (backend one_id.2))));
    [|apply idle_initial|exact third_load_ok].
  apply view_tables; [exact one_id_tree|apply idle_view].
Qed.

Lemma auto_ids_not_reused_witness : 101 < 102.
Proof.
  exact (auto_ids_not_reused 7 100 (idle no_tree) first_load.2 worked 101 one_id.2 third_load.2 102 next_id.2
    demo_inserts (idle_initial _) no_tree_ok first_load_ok worked_steps (proj1 id_range) one_id_ok
    third_load_step (proj2 id_range) next_id_ok).
Defined.

(** ** A creation that fails half-way *)

End DaoExamples.
